(* ===== verification/_CoqProject ===== *)
-Q . S2P
Prelude.v
Ir1Enum.v
Ir1.v
Dataflow.v
FlagReduction.v
InstsPattern.v
Ir1Opt.v
HbrFlow.v
HbrGpr.v
HbrXmm.v
HbrXmmSound.v
HbrXmmMain.v
LisaTable.v
Ir2.v
Ir2List.v
Ir2Code.v
LaAssemble.v
LaAppend.v
RegMap.v
ImmCache.v
ImmCacheSound.v
ImmCacheMain.v
RegAlloc.v
X86.v
WordEq.v
LaSem.v
MacroHelper.v
MemInterface.v
MemInterfaceOk.v
MemInterfaceMain.v
CacheIndex.v
TrOpnd.v
TrOpndOk.v
TrMov.v
TrMovOk.v
TrMovxOk.v
TrStackOk.v
TrArith.v
TrArithOk.v
TrAndOk.v
TrMisc.v
TrMiscOk.v
TrBlock.v
TrInstOk.v
TrBlockOk.v
CacheReach.v
PushPop.v
PushPopOk.v
PushPopSem.v
Relocate.v
RelocateOk.v
HostWords.v
TranslateTb.v
