(* ===== verification/Prelude.v ===== *)
(** * LATX: a verified model of the x86 to LoongArch translator

    LATX (target/i386/latx in the QEMU tree) translates x86 code to LoongArch code.
    A block of guest code is decoded into IR1 instructions, analysed and annotated,
    translated instruction by instruction into IR2 (LoongArch instructions with virtual
    labels in a doubly linked list), optimised, relocated and assembled into host code.
    This library models the way from the decoded instructions to the machine words as
    executable functions, gives x86 and LoongArch integer code a meaning, and proves that
    the words do what the x86 instructions do.

    ** Conventions

    The build is the 64-bit one (TARGET_X86_64) at the default -O1: flag reduction,
    instruction patterns, translation units, high-bits reduction, the immediate register
    cache, the delayed updates of the stack pointer, LL/SC, large code caches and
    self-modifying-code checks are compiled in; RADICAL_EFLAGS and the profiler are not;
    the persistent cache (AOT) is compiled in and off.  Assertions ([lsassert]) are on: one
    that fails, and an access outside an array, is [None], so a result [Some] is also a
    proof that the code ran without either.  C integers are [Z], with the wrap of their
    width ([u16], [s32], [u64], ...) written where the C code converts or can wrap;
    arrays are lists read by [aget] and written by [aset]; a pointer into an array is an
    index.  Logging, statistics and printing are left out.

    The translation routines are written in the monad [M] of file LaSem: a function of the
    state of the register allocator and the address cache that fails, or returns a value,
    a new state and the instructions it emits.  [does m s h x s' h'] says that [m] succeeds
    from [s] with [x] and [s'] and that the code it emits, which has the operands its
    formats ask for, takes the host from [h] to [h'].

    ** Files

    - [Prelude]: notation for C bit operations, wraps, masks as sets of bits, arrays,
      tactics and hint databases.
    - [Ir1Enum], [Ir1]: registers, opcodes, operands and instructions as the decoder
      hands them over (include/x86.h, include/ir1.h), the accessors and predicates of
      ir1/ir1.c, blocks (include/exec/exec-all.h), [get_last_info] (optimization/tu.c)
      and the table of get-pc thunks (latx-config.c).
    - [Dataflow]: the loop "sweep over all blocks until nothing changes" that the
      analyses share, with its termination and fixed-point theorem.
    - [FlagReduction]: optimization/flag-reduction.c.  Which EFLAGS each instruction
      must compute.
    - [InstsPattern]: optimization/insts-pattern.c.  Groups of instructions translated
      together.
    - [Ir1Opt]: optimization/ir1-optimization.c.  The driver of the passes of a block and
      the liveness of flags across the blocks of a unit.
    - [HbrFlow], [HbrGpr], [HbrXmm], [HbrXmmSound], [HbrXmmMain]: optimization/hbr.c.  The
      data flow both high-bits reductions use; the one for the high halves of general
      registers; the one for the upper bits of XMM registers with its analyses of the
      SSE instructions, its soundness and its top-level theorems.
    - [LisaTable], [Ir2], [Ir2List], [Ir2Code]: the instruction templates
      (inst_template.json), IR2 instructions and the operations on the instruction list
      (ir2/ir2.c), the refinement of that array-based list to a list of instructions, and
      the primitives of the passes that rewrite it.
    - [LaAssemble], [LaAppend]: ir2/ir2-assemble.c, and the constructors la_xxx that
      convert.py generates, with the checks they make.
    - [RegMap], [RegAlloc]: which register holds what (include/reg-map.h), temporaries
      (translator/reg-alloc.c) and the start and end of a translation
      (translator/translate.c).
    - [ImmCache], [ImmCacheSound], [ImmCacheMain]: optimization/imm-cache.c, its invariant,
      and the values of the registers it gives out.
    - [X86], [WordEq]: the x86 instructions the translation is checked against (Intel SDM),
      and equality of the low bits of values.
    - [LaSem]: emitted code, when it is well formed, and what it does (LoongArch Reference
      Manual).
    - [MacroHelper], [MemInterface], [MemInterfaceOk], [MemInterfaceMain]: constants
      (translator/macro-helper.c) and memory operands (translator/mem-interface.c), with
      and without the cache.
    - [CacheIndex]: nothing in the translation of an instruction changes its number.
    - [TrOpnd], [TrOpndOk]: operands (translator/tr-opnd-process.c).
    - [TrMov], [TrMovOk], [TrMovxOk], [TrStackOk]: MOV, MOVZX, MOVSX, MOVSXD, CMOVcc, XCHG,
      PUSH, POP (translator/tr-mov.c) and LEA.
    - [TrArith], [TrArithOk], [TrAndOk]: ADD, SUB, CMP, INC, DEC, NEG, AND, OR, XOR, TEST,
      NOT (translator/tr-arith.c, tr-logic.c) and their flags (tr-eflag-process.c,
      optimization/flag-lbt.c).
    - [TrMisc], [TrMiscOk]: SETcc (translator/tr-setcc.c) and CBW to CQO (tr-misc.c).
    - [TrBlock], [TrInstOk], [TrBlockOk]: [ir1_translate] and [tr_ir2_generate]
      (translator/translate.c); every supported instruction; a whole block.
    - [CacheReach]: the states of the cache that a translation can reach, and the
      collection pass.
    - [PushPop], [PushPopOk], [PushPopSem]: optimization/ir2-optimization.c.  The pass over
      the array, the list it computes, and that the code does the same after it.
    - [Relocate], [RelocateOk]: pseudo instructions (ir2/ir2-relocate.c), [label_dispose],
      [boundary_set] and [tr_ir2_assemble] (translator/translate.c).
    - [HostWords], [TranslateTb]: executing machine words, and [tr_translate_tb]
      (translator/translate.c) from the instructions to the words.

    ** What the theorems show

    Translation.  For a block of supported instructions, annotated by the flag reduction,
    [tr_translate_tb] succeeds, and its words take a host state that represents an x86 state
    to one that represents what the x86 instructions give, with the flags that are live at
    the end of the block ([tr_translate_tb_correct]; [tr_ir2_generate_correct] for the IR2
    code alone).  This holds without the address cache and with it (without its collection
    pass).  Supported are the instructions named above with the operands of
    [TrInstOk.supported]; SETcc, CMOVcc and the arithmetic instructions without a LOCK
    prefix; no group of tr-pattern.c and no x87 emulation; the jump that ends a block is
    not among them.  The theorems about operands,
    addresses and single routines are the lemmas of this one, stated for themselves where
    they are of use elsewhere.

    Flags.  Code that computes only the flags the annotation asks for simulates code
    that computes all ([rdtn_insts_sound]), and the annotation is the least such one
    ([rdtn_insts_exact]); both take the flags an instruction uses and defines from the table
    of the pass.  Across blocks, the flags live at an exit contain those live on entry of
    every successor, and the loop that finds them ends.

    High bits.  Leaving garbage in the high half of the destination of a marked
    instruction on general registers is not observable within the block, and in the upper
    bits of a marked XMM register not along any path of the unit, provided that the
    recorded uses and definitions describe the instructions.  Neither proviso holds of all
    instructions: for general registers the summary of a block loses a use
    (a theorem of kind [error]), so that across blocks garbage can be observed; for XMM
    registers [byte_moves_recorded] checks the instructions that move bytes, all but
    PSRLDQ.  The passes return on every decoded unit.

    Patterns.  The scan records consistent, disjoint groups.

    Instruction list, passes and assembler.  The list operations refine those of a list;
    the delayed updates of the stack pointer keep what straight-line code does; a branch is
    given the distance to its label; the assembler's words decode back to the instruction;
    a far jump goes where it should.

    Registers.  The allocator's bits refine sets of registers in use; a register in use
    never holds a cached address; in every reachable state of a translation whose
    instructions change only the registers the cache records for them, an address that
    comes out of the cache is the one asked for.

    Theorems of kind [error] are counterexamples: they evaluate the model, or prove of
    all inputs of a form, that the code does not do what the surrounding code, its comments
    or the x86 manual ask for.

    ** Bounds and fuel

    Loops over arrays recurse on the list.  The sweeps take fuel: [16 * n + 1] rounds for
    flags and [64 * n + 1] for high bits, where [n] is the number of blocks; each round
    but the last adds a bit to one of the two masks of a block, which have 8 (resp. 32) bits
    each, and the theorems prove that the loop ends before the fuel does.  The walks along
    the instruction list take the number of allocated instructions as fuel; the theorems
    about them show that it suffices.  The 16-bit instruction ids bound the list at 2^15
    instructions, a hypothesis of the refinement.

    ** Not modelled

    The decoders (capstone_git, diStorm, ir1_disasm) and what QEMU contributes (block
    lookup, linking, signals, system calls, devices, TCG) are outside: the model starts
    from decoded instructions.  Of the translation routines the ones for branches, calls,
    string, shift, multiply, divide, x87, SSE and AVX instructions, LOCK prefixes
    (tr-lock.c) and groups of instructions (tr-pattern.c) are not modelled; [ir1_translate]
    takes them as arguments.  The persistent translation cache (sbt/), the library wrappers
    (context/, wrapper/) and the disassembler for logs are not modelled.  The C library's
    qsort is a parameter with its contract. *)

From stdpp Require Import base numbers list option tactics.
From Stdlib Require Import ZArith Lia Bool.
From Stdlib Require Export Btauto.

#[global] Set Default Proof Using "Type".
Local Open Scope Z_scope.

(** ** Notation for C bit arithmetic *)

Declare Scope c_scope.
Delimit Scope c_scope with C.
Notation "a '.&' b" := (Z.land a b) (at level 40, left associativity) : c_scope.
Notation "a '.|' b" := (Z.lor a b) (at level 50, left associativity) : c_scope.
Notation "a '<<' b" := (Z.shiftl a b) (at level 40, left associativity) : c_scope.
Notation "a '>>' b" := (Z.shiftr a b) (at level 40, left associativity) : c_scope.
Notation "'~.' a" := (Z.lnot a) (at level 20, right associativity) : c_scope.
Local Open Scope c_scope.

(** [lsassert c ;; k] is the debug build's [lsassert(c)] (include/error.h):
    a failed assertion aborts, which the model returns as [None]. *)
Notation "'lsassert' c ';;' k" := (if c%bool then k else None)
  (at level 100, c at level 99, k at level 200, right associativity) : c_scope.

(** ** Machine integers: the C conversions to a type of [n] bits *)

Definition uwrap (n x : Z) : Z := x mod 2 ^ n.
Definition swrap (n x : Z) : Z := (x + 2 ^ (n - 1)) mod 2 ^ n - 2 ^ (n - 1).

Definition u8 := uwrap 8.
Definition u16 := uwrap 16.
Definition u32 := uwrap 32.
Definition u64 := uwrap 64.
Definition s8 := swrap 8.
Definition s16 := swrap 16.
Definition s32 := swrap 32.
Definition s64 := swrap 64.

#[global] Arguments uwrap : simpl never.
#[global] Arguments swrap : simpl never.
#[global] Arguments u8 : simpl never.
#[global] Arguments u16 : simpl never.
#[global] Arguments u32 : simpl never.
#[global] Arguments u64 : simpl never.
#[global] Arguments s8 : simpl never.
#[global] Arguments s16 : simpl never.
#[global] Arguments s32 : simpl never.
#[global] Arguments s64 : simpl never.

Definition in_u (n x : Z) : Prop := 0 <= x < 2 ^ n.
Definition in_s (n x : Z) : Prop := - 2 ^ (n - 1) <= x < 2 ^ (n - 1).

(** QEMU's [sextract64(value, start, length)]. *)
Definition sextract64 (value start length : Z) : Z :=
  swrap length (Z.shiftr value start).

(** [1 << i] on an unsigned type. *)
Definition bit (i : Z) : Z := Z.shiftl 1 i.

(** C's array read and write with an index of type [int]; [None] is an access
    outside the array. *)
Definition aget {A} (l : list A) (i : Z) : option A :=
  if (i <? 0) then None else l !! Z.to_nat i.

Definition aset {A} (l : list A) (i : Z) (x : A) : option (list A) :=
  if (i <? 0) || (Z.of_nat (length l) <=? i) then None
  else Some (<[Z.to_nat i := x]> l).

(** ** Tactics *)

(** Split every boolean test of the context and the goal into the arithmetic
    fact it decides. *)
Ltac bool_to_prop :=
  repeat match goal with
  | H : (_ && _)%bool = true |- _ => apply andb_true_iff in H; destruct H
  | H : (_ || _)%bool = false |- _ => apply orb_false_iff in H; destruct H
  | H : negb _ = true |- _ => apply negb_true_iff in H
  | H : negb _ = false |- _ => apply negb_false_iff in H
  | H : (_ =? _) = true |- _ => apply Z.eqb_eq in H
  | H : (_ =? _) = false |- _ => apply Z.eqb_neq in H
  | H : (_ <? _) = true |- _ => apply Z.ltb_lt in H
  | H : (_ <? _) = false |- _ => apply Z.ltb_ge in H
  | H : (_ <=? _) = true |- _ => apply Z.leb_le in H
  | H : (_ <=? _) = false |- _ => apply Z.leb_gt in H
  end.

(** Case on the scrutinee of the first [if]/[match] found. *)
Ltac case_if :=
  match goal with
  | |- context [if ?b then _ else _] => destruct b eqn:?
  | H : context [if ?b then _ else _] |- _ => destruct b eqn:?
  end.

(** ** Hint databases *)

Create HintDb latx discriminated.
Create HintDb mask discriminated.

(** ** Sets of bits: a C mask read as the set of its one bits *)

Definition mask_le (a b : Z) : Prop :=
  forall i, Z.testbit a i = true -> Z.testbit b i = true.

Infix "⊑m" := mask_le (at level 70, no associativity) : c_scope.

(** Prove an equality or an inclusion of masks bit by bit. *)
Ltac mask_bits i :=
  match goal with
  | |- mask_le _ _ => intros i
  | |- @eq Z _ _ => apply Z.bits_inj'; intros i ?
  end;
  rewrite ?Z.lor_spec, ?Z.land_spec, ?Z.ldiff_spec, ?Z.lxor_spec in *.

(** Push [Z.testbit] through the bit operations; a complement needs the index
    to be known non-negative. *)
Ltac testbit_push :=
  repeat first
    [ rewrite Z.lor_spec | rewrite Z.land_spec | rewrite Z.ldiff_spec
    | rewrite Z.lxor_spec | rewrite Z.bits_0 | rewrite Z.lnot_spec by assumption ].

(** Equality of two masks built from the bit operations. *)
Ltac mask_eq :=
  let k := fresh "k" in apply Z.bits_inj'; intros k ?; testbit_push; btauto.

Global Instance mask_le_preorder : PreOrder mask_le.
Proof. split; [intros a i H; exact H | intros a b c H1 H2 i H; auto]. Qed.

Lemma mask_le_antisym a b : a ⊑m b -> b ⊑m a -> a = b.
Proof.
  intros H1 H2. mask_bits i. destruct (Z.testbit a i) eqn:E, (Z.testbit b i) eqn:F; auto.
  - apply H1 in E. congruence.
  - apply H2 in F. congruence.
Qed.

Lemma mask_le_0_l a : 0 ⊑m a.
Proof. intros i H. rewrite Z.bits_0 in H. discriminate. Qed.

Lemma mask_le_lor_l a b : a ⊑m (a .| b).
Proof. mask_bits i. intros ->. reflexivity. Qed.

Lemma mask_le_lor_r a b : b ⊑m (a .| b).
Proof. mask_bits i. intros ->. apply orb_true_r. Qed.

Lemma mask_le_land_l a b : (a .& b) ⊑m a.
Proof. mask_bits i. rewrite andb_true_iff. tauto. Qed.

Lemma mask_le_land_r a b : (a .& b) ⊑m b.
Proof. mask_bits i. rewrite andb_true_iff. tauto. Qed.

Lemma mask_le_lor_lub a b c : a ⊑m c -> b ⊑m c -> (a .| b) ⊑m c.
Proof. intros H1 H2. mask_bits i. rewrite orb_true_iff. intros [|]; auto. Qed.

#[export] Hint Resolve mask_le_0_l mask_le_lor_l mask_le_lor_r mask_le_land_l
  mask_le_land_r mask_le_lor_lub : mask.

Global Instance lor_mask_proper : Proper (mask_le ==> mask_le ==> mask_le) Z.lor.
Proof.
  intros a a' Ha b b' Hb. mask_bits i. rewrite !orb_true_iff.
  intros [|]; [left | right]; auto.
Qed.

Global Instance land_mask_proper : Proper (mask_le ==> mask_le ==> mask_le) Z.land.
Proof. intros a a' Ha b b' Hb. mask_bits i. rewrite !andb_true_iff. intros []; auto. Qed.

Lemma testbit_lnot a i : 0 <= i -> Z.testbit (Z.lnot a) i = negb (Z.testbit a i).
Proof. apply Z.lnot_spec. Qed.

Lemma testbit_bit i j : 0 <= i -> 0 <= j -> Z.testbit (bit i) j = (i =? j).
Proof.
  intros Hi Hj. unfold bit. rewrite Z.shiftl_spec by lia.
  destruct (Z.eqb_spec i j) as [->|].
  - rewrite Z.sub_diag. reflexivity.
  - destruct (Z.ltb_spec j i).
    + rewrite Z.testbit_neg_r; [reflexivity | lia].
    + destruct (j - i) eqn:E; try lia. reflexivity.
Qed.

Lemma testbit_true_nonneg a i : Z.testbit a i = true -> 0 <= i.
Proof. intros H. destruct (Z.le_gt_cases 0 i); auto. rewrite Z.testbit_neg_r in H; [discriminate | lia]. Qed.

Lemma in_u_testbit n a : 0 <= n -> in_u n a <-> 0 <= a /\ (forall i, Z.testbit a i = true -> i < n).
Proof.
  unfold in_u. intros Hn. split.
  - intros [H0 H]. split; auto. intros i Hi.
    destruct (Z.le_gt_cases n i); auto.
    assert (0 <= i) by lia.
    rewrite <- (Z.mod_small a (2 ^ n)) in Hi by lia.
    rewrite Z.mod_pow2_bits_high in Hi by lia. discriminate.
  - intros [H0 H]. split; auto.
    assert (a = a mod 2 ^ n) as ->.
    { apply Z.bits_inj'. intros i Hi. destruct (Z.lt_ge_cases i n).
      - rewrite Z.mod_pow2_bits_low; auto.
      - rewrite Z.mod_pow2_bits_high by lia.
        destruct (Z.testbit a i) eqn:E; auto. apply H in E. lia. }
    apply Z.mod_pos_bound. apply Z.pow_pos_nonneg; lia.
Qed.

Lemma mask_le_in_u n a b : 0 <= n -> 0 <= a -> a ⊑m b -> in_u n b -> in_u n a.
Proof.
  intros Hn Ha Hab Hb. apply in_u_testbit in Hb; auto. apply in_u_testbit; auto.
  split; auto. intros i Hi. apply Hb. auto.
Qed.

Lemma in_u_lor n a b : 0 <= n -> in_u n a -> in_u n b -> in_u n (a .| b).
Proof.
  intros Hn Ha Hb. apply in_u_testbit in Ha, Hb; auto. apply in_u_testbit; auto.
  split; [apply Z.lor_nonneg; tauto |].
  intros i. rewrite Z.lor_spec, orb_true_iff. intros [|]; [apply Ha | apply Hb]; auto.
Qed.

Lemma in_u_land_l n a b : 0 <= n -> in_u n a -> in_u n (a .& b).
Proof.
  intros Hn Ha. apply mask_le_in_u with a; auto with mask.
  apply Z.land_nonneg. left. apply Ha.
Qed.

#[export] Hint Resolve in_u_lor in_u_land_l : mask.

(** The number of one bits among the first [w]: the progress measure of the
    dataflow loops. *)
Definition popcount (w : nat) (x : Z) : nat :=
  length (filter (fun i => Z.testbit x (Z.of_nat i) = true) (seq 0 w)).

Lemma popcount_le_width w x : (popcount w x <= w)%nat.
Proof. unfold popcount. rewrite <- (length_seq w 0) at 2. apply length_filter. Qed.

Lemma filter_length_mono {A} (P Q : A -> Prop) `{!forall x, Decision (P x), !forall x, Decision (Q x)} l :
  (forall x, P x -> Q x) -> (length (filter P l) <= length (filter Q l))%nat.
Proof.
  intros HPQ. induction l as [|x l IH]; [reflexivity |].
  rewrite !filter_cons. repeat case_decide; cbn; try lia. exfalso; auto.
Qed.

Lemma filter_length_strict {A} (P Q : A -> Prop) `{!forall x, Decision (P x), !forall x, Decision (Q x)} l y :
  (forall x, P x -> Q x) -> y ∈ l -> Q y -> ~ P y ->
  (length (filter P l) < length (filter Q l))%nat.
Proof.
  intros HPQ. induction l as [|x l IH]; intros Hy HQ HP; [inv Hy |].
  rewrite !filter_cons. inv Hy.
  - pose proof (filter_length_mono P Q l HPQ). repeat case_decide; cbn; try lia; tauto.
  - specialize (IH ltac:(assumption) HQ HP). repeat case_decide; cbn; try lia. exfalso; auto.
Qed.

Lemma popcount_mono w a b : a ⊑m b -> (popcount w a <= popcount w b)%nat.
Proof. intros H. apply filter_length_mono. auto. Qed.

Lemma popcount_strict w a b :
  in_u (Z.of_nat w) b -> 0 <= a -> a ⊑m b -> a <> b -> (popcount w a < popcount w b)%nat.
Proof.
  intros Hb Ha Hab Hne.
  assert (exists i, Z.testbit b i = true /\ Z.testbit a i = false) as (i & Hbi & Hai).
  { destruct (Z.eq_dec (Z.ldiff b a) 0) as [E|E].
    - exfalso. apply Hne, mask_le_antisym; auto. intros i Hi.
      assert (Z.testbit (Z.ldiff b a) i = false) as F by (rewrite E; apply Z.bits_0).
      rewrite Z.ldiff_spec, Hi in F. destruct (Z.testbit a i); auto.
    - exists (Z.log2 (Z.ldiff b a)).
      assert (0 <= Z.ldiff b a) by (apply Z.ldiff_nonneg; left; apply Hb).
      pose proof (Z.bit_log2 (Z.ldiff b a) ltac:(lia)) as L.
      rewrite Z.ldiff_spec, andb_true_iff, negb_true_iff in L. exact L. }
  assert (0 <= i) by eauto using testbit_true_nonneg.
  apply in_u_testbit in Hb as [_ Hb]; [| lia].
  apply filter_length_strict with (y := Z.to_nat i); auto.
  - apply elem_of_seq. specialize (Hb i Hbi). lia.
  - rewrite Z2Nat.id; auto.
  - rewrite Z2Nat.id by lia. congruence.
Qed.

(** ** Wrapped integers *)

Lemma uwrap_range n x : 0 <= n -> in_u n (uwrap n x).
Proof. intros. apply Z.mod_pos_bound, Z.pow_pos_nonneg; lia. Qed.

Lemma uwrap_id n x : in_u n x -> uwrap n x = x.
Proof. apply Z.mod_small. Qed.

Lemma swrap_range n x : 0 < n -> in_s n (swrap n x).
Proof.
  intros Hn. unfold in_s, swrap.
  assert (2 ^ n = 2 * 2 ^ (n - 1)).
  { rewrite <- Z.pow_succ_r by lia. f_equal. lia. }
  pose proof (Z.mod_pos_bound (x + 2 ^ (n - 1)) (2 ^ n)).
  assert (0 < 2 ^ n) by (apply Z.pow_pos_nonneg; lia). lia.
Qed.

Lemma swrap_id n x : 0 < n -> in_s n x -> swrap n x = x.
Proof.
  unfold in_s, swrap. intros Hn Hx.
  assert (2 ^ n = 2 * 2 ^ (n - 1)).
  { rewrite <- Z.pow_succ_r by lia. f_equal. lia. }
  rewrite Z.mod_small; lia.
Qed.

Lemma swrap_mod n x : 0 < n -> swrap n x mod 2 ^ n = x mod 2 ^ n.
Proof.
  intros Hn. unfold swrap. rewrite Zminus_mod_idemp_l. f_equal. lia.
Qed.

#[export] Hint Resolve uwrap_range swrap_range : latx.

(** ** Arrays *)

Lemma aget_Some {A} (l : list A) i x :
  aget l i = Some x <-> 0 <= i /\ l !! Z.to_nat i = Some x.
Proof. unfold aget. destruct (Z.ltb_spec i 0); split; try (intros; lia || congruence); intuition (congruence || lia). Qed.

Lemma aget_bound {A} (l : list A) i x : aget l i = Some x -> 0 <= i < Z.of_nat (length l).
Proof. intros [? H]%aget_Some. apply lookup_lt_Some in H. lia. Qed.

Lemma aget_is_Some {A} (l : list A) i : 0 <= i < Z.of_nat (length l) -> is_Some (aget l i).
Proof.
  intros H. unfold aget. destruct (Z.ltb_spec i 0); [lia |].
  apply lookup_lt_is_Some. lia.
Qed.

Lemma aset_length {A} (l l' : list A) i x : aset l i x = Some l' -> length l' = length l.
Proof. unfold aset. case_if; intros; simplify_eq. apply length_insert. Qed.

(** ** Sums over a list *)

Lemma sum_list_with_insert {A} (f : A -> nat) (l : list A) i x y :
  l !! i = Some x -> (sum_list_with f (<[i:=y]> l) + f x = sum_list_with f l + f y)%nat.
Proof.
  revert i. induction l as [|a l IH]; intros [|i] H; simpl in *; simplify_eq; try lia.
  specialize (IH i H). lia.
Qed.

Lemma sum_list_with_bound {A} (f : A -> nat) (l : list A) b :
  (forall x, (f x <= b)%nat) -> (sum_list_with f l <= b * length l)%nat.
Proof. intros H. induction l as [|a l IH]; simpl; [lia|]. specialize (H a). lia. Qed.

(** ** Checking a range of integers by evaluation *)

Definition zrange (a n : nat) : list Z := map Z.of_nat (seq a n).

Lemma zrange_elem a n x : Z.of_nat a <= x < Z.of_nat (a + n) -> x ∈ zrange a n.
Proof.
  intros H. unfold zrange. apply list_elem_of_fmap. exists (Z.to_nat x).
  split; [rewrite Z2Nat.id by lia; reflexivity|]. apply elem_of_seq. lia.
Qed.

Lemma forallb_elem {A} (P : A -> bool) l x : forallb P l = true -> x ∈ l -> P x = true.
Proof. intros H Hx. rewrite forallb_forall in H. by apply H, list_elem_of_In. Qed.

Lemma forallb_range (P : Z -> bool) a n x :
  forallb P (zrange a n) = true -> Z.of_nat a <= x < Z.of_nat (a + n) -> P x = true.
Proof. intros H Hx. by eapply forallb_elem, zrange_elem. Qed.
