(* ===== verification/Ir1Enum.v ===== *)
(** * The x86 register and instruction enumerations of the decoder

    [dt_x86_reg] and [dt_x86_insn] are the enumerations of
    target/i386/latx/include/x86.h, constructor by constructor and in the
    header's order, so that [reg_code] and [insn_code] are the values the C
    compiler assigns.  Range tests of the source (such as
    [dt_X86_REG_XMM0 <= index]) compare these codes. *)

From stdpp Require Import base list.
From Stdlib Require Import ZArith.
Local Open Scope Z_scope.

#[local] Unset Elimination Schemes.

Inductive dt_x86_reg : Set :=
  | dt_X86_REG_INVALID | dt_X86_REG_AH | dt_X86_REG_AL | dt_X86_REG_AX
  | dt_X86_REG_BH | dt_X86_REG_BL | dt_X86_REG_BP | dt_X86_REG_BPL
  | dt_X86_REG_BX | dt_X86_REG_CH | dt_X86_REG_CL | dt_X86_REG_CS
  | dt_X86_REG_CX | dt_X86_REG_DH | dt_X86_REG_DI | dt_X86_REG_DIL
  | dt_X86_REG_DL | dt_X86_REG_DS | dt_X86_REG_DX | dt_X86_REG_EAX
  | dt_X86_REG_EBP | dt_X86_REG_EBX | dt_X86_REG_ECX | dt_X86_REG_EDI
  | dt_X86_REG_EDX | dt_X86_REG_EFLAGS | dt_X86_REG_EIP | dt_X86_REG_EIZ
  | dt_X86_REG_ES | dt_X86_REG_ESI | dt_X86_REG_ESP | dt_X86_REG_FPSW
  | dt_X86_REG_FS | dt_X86_REG_GS | dt_X86_REG_IP | dt_X86_REG_RAX
  | dt_X86_REG_RBP | dt_X86_REG_RBX | dt_X86_REG_RCX | dt_X86_REG_RDI
  | dt_X86_REG_RDX | dt_X86_REG_RIP | dt_X86_REG_RIZ | dt_X86_REG_RSI
  | dt_X86_REG_RSP | dt_X86_REG_SI | dt_X86_REG_SIL | dt_X86_REG_SP
  | dt_X86_REG_SPL | dt_X86_REG_SS | dt_X86_REG_CR0 | dt_X86_REG_CR1
  | dt_X86_REG_CR2 | dt_X86_REG_CR3 | dt_X86_REG_CR4 | dt_X86_REG_CR5
  | dt_X86_REG_CR6 | dt_X86_REG_CR7 | dt_X86_REG_CR8 | dt_X86_REG_CR9
  | dt_X86_REG_CR10 | dt_X86_REG_CR11 | dt_X86_REG_CR12 | dt_X86_REG_CR13
  | dt_X86_REG_CR14 | dt_X86_REG_CR15 | dt_X86_REG_DR0 | dt_X86_REG_DR1
  | dt_X86_REG_DR2 | dt_X86_REG_DR3 | dt_X86_REG_DR4 | dt_X86_REG_DR5
  | dt_X86_REG_DR6 | dt_X86_REG_DR7 | dt_X86_REG_DR8 | dt_X86_REG_DR9
  | dt_X86_REG_DR10 | dt_X86_REG_DR11 | dt_X86_REG_DR12 | dt_X86_REG_DR13
  | dt_X86_REG_DR14 | dt_X86_REG_DR15 | dt_X86_REG_FP0 | dt_X86_REG_FP1
  | dt_X86_REG_FP2 | dt_X86_REG_FP3 | dt_X86_REG_FP4 | dt_X86_REG_FP5
  | dt_X86_REG_FP6 | dt_X86_REG_FP7 | dt_X86_REG_K0 | dt_X86_REG_K1
  | dt_X86_REG_K2 | dt_X86_REG_K3 | dt_X86_REG_K4 | dt_X86_REG_K5
  | dt_X86_REG_K6 | dt_X86_REG_K7 | dt_X86_REG_MM0 | dt_X86_REG_MM1
  | dt_X86_REG_MM2 | dt_X86_REG_MM3 | dt_X86_REG_MM4 | dt_X86_REG_MM5
  | dt_X86_REG_MM6 | dt_X86_REG_MM7 | dt_X86_REG_R8 | dt_X86_REG_R9
  | dt_X86_REG_R10 | dt_X86_REG_R11 | dt_X86_REG_R12 | dt_X86_REG_R13
  | dt_X86_REG_R14 | dt_X86_REG_R15 | dt_X86_REG_ST0 | dt_X86_REG_ST1
  | dt_X86_REG_ST2 | dt_X86_REG_ST3 | dt_X86_REG_ST4 | dt_X86_REG_ST5
  | dt_X86_REG_ST6 | dt_X86_REG_ST7 | dt_X86_REG_XMM0 | dt_X86_REG_XMM1
  | dt_X86_REG_XMM2 | dt_X86_REG_XMM3 | dt_X86_REG_XMM4 | dt_X86_REG_XMM5
  | dt_X86_REG_XMM6 | dt_X86_REG_XMM7 | dt_X86_REG_XMM8 | dt_X86_REG_XMM9
  | dt_X86_REG_XMM10 | dt_X86_REG_XMM11 | dt_X86_REG_XMM12 | dt_X86_REG_XMM13
  | dt_X86_REG_XMM14 | dt_X86_REG_XMM15 | dt_X86_REG_XMM16 | dt_X86_REG_XMM17
  | dt_X86_REG_XMM18 | dt_X86_REG_XMM19 | dt_X86_REG_XMM20 | dt_X86_REG_XMM21
  | dt_X86_REG_XMM22 | dt_X86_REG_XMM23 | dt_X86_REG_XMM24 | dt_X86_REG_XMM25
  | dt_X86_REG_XMM26 | dt_X86_REG_XMM27 | dt_X86_REG_XMM28 | dt_X86_REG_XMM29
  | dt_X86_REG_XMM30 | dt_X86_REG_XMM31 | dt_X86_REG_YMM0 | dt_X86_REG_YMM1
  | dt_X86_REG_YMM2 | dt_X86_REG_YMM3 | dt_X86_REG_YMM4 | dt_X86_REG_YMM5
  | dt_X86_REG_YMM6 | dt_X86_REG_YMM7 | dt_X86_REG_YMM8 | dt_X86_REG_YMM9
  | dt_X86_REG_YMM10 | dt_X86_REG_YMM11 | dt_X86_REG_YMM12 | dt_X86_REG_YMM13
  | dt_X86_REG_YMM14 | dt_X86_REG_YMM15 | dt_X86_REG_YMM16 | dt_X86_REG_YMM17
  | dt_X86_REG_YMM18 | dt_X86_REG_YMM19 | dt_X86_REG_YMM20 | dt_X86_REG_YMM21
  | dt_X86_REG_YMM22 | dt_X86_REG_YMM23 | dt_X86_REG_YMM24 | dt_X86_REG_YMM25
  | dt_X86_REG_YMM26 | dt_X86_REG_YMM27 | dt_X86_REG_YMM28 | dt_X86_REG_YMM29
  | dt_X86_REG_YMM30 | dt_X86_REG_YMM31 | dt_X86_REG_ZMM0 | dt_X86_REG_ZMM1
  | dt_X86_REG_ZMM2 | dt_X86_REG_ZMM3 | dt_X86_REG_ZMM4 | dt_X86_REG_ZMM5
  | dt_X86_REG_ZMM6 | dt_X86_REG_ZMM7 | dt_X86_REG_ZMM8 | dt_X86_REG_ZMM9
  | dt_X86_REG_ZMM10 | dt_X86_REG_ZMM11 | dt_X86_REG_ZMM12 | dt_X86_REG_ZMM13
  | dt_X86_REG_ZMM14 | dt_X86_REG_ZMM15 | dt_X86_REG_ZMM16 | dt_X86_REG_ZMM17
  | dt_X86_REG_ZMM18 | dt_X86_REG_ZMM19 | dt_X86_REG_ZMM20 | dt_X86_REG_ZMM21
  | dt_X86_REG_ZMM22 | dt_X86_REG_ZMM23 | dt_X86_REG_ZMM24 | dt_X86_REG_ZMM25
  | dt_X86_REG_ZMM26 | dt_X86_REG_ZMM27 | dt_X86_REG_ZMM28 | dt_X86_REG_ZMM29
  | dt_X86_REG_ZMM30 | dt_X86_REG_ZMM31 | dt_X86_REG_R8B | dt_X86_REG_R9B
  | dt_X86_REG_R10B | dt_X86_REG_R11B | dt_X86_REG_R12B | dt_X86_REG_R13B
  | dt_X86_REG_R14B | dt_X86_REG_R15B | dt_X86_REG_R8D | dt_X86_REG_R9D
  | dt_X86_REG_R10D | dt_X86_REG_R11D | dt_X86_REG_R12D | dt_X86_REG_R13D
  | dt_X86_REG_R14D | dt_X86_REG_R15D | dt_X86_REG_R8W | dt_X86_REG_R9W
  | dt_X86_REG_R10W | dt_X86_REG_R11W | dt_X86_REG_R12W | dt_X86_REG_R13W
  | dt_X86_REG_R14W | dt_X86_REG_R15W | dt_X86_REG_ENDING.

Definition reg_code (x : dt_x86_reg) : Z :=
  match x with
  | dt_X86_REG_INVALID => 0 | dt_X86_REG_AH => 1 | dt_X86_REG_AL => 2
  | dt_X86_REG_AX => 3 | dt_X86_REG_BH => 4 | dt_X86_REG_BL => 5
  | dt_X86_REG_BP => 6 | dt_X86_REG_BPL => 7 | dt_X86_REG_BX => 8
  | dt_X86_REG_CH => 9 | dt_X86_REG_CL => 10 | dt_X86_REG_CS => 11
  | dt_X86_REG_CX => 12 | dt_X86_REG_DH => 13 | dt_X86_REG_DI => 14
  | dt_X86_REG_DIL => 15 | dt_X86_REG_DL => 16 | dt_X86_REG_DS => 17
  | dt_X86_REG_DX => 18 | dt_X86_REG_EAX => 19 | dt_X86_REG_EBP => 20
  | dt_X86_REG_EBX => 21 | dt_X86_REG_ECX => 22 | dt_X86_REG_EDI => 23
  | dt_X86_REG_EDX => 24 | dt_X86_REG_EFLAGS => 25 | dt_X86_REG_EIP => 26
  | dt_X86_REG_EIZ => 27 | dt_X86_REG_ES => 28 | dt_X86_REG_ESI => 29
  | dt_X86_REG_ESP => 30 | dt_X86_REG_FPSW => 31 | dt_X86_REG_FS => 32
  | dt_X86_REG_GS => 33 | dt_X86_REG_IP => 34 | dt_X86_REG_RAX => 35
  | dt_X86_REG_RBP => 36 | dt_X86_REG_RBX => 37 | dt_X86_REG_RCX => 38
  | dt_X86_REG_RDI => 39 | dt_X86_REG_RDX => 40 | dt_X86_REG_RIP => 41
  | dt_X86_REG_RIZ => 42 | dt_X86_REG_RSI => 43 | dt_X86_REG_RSP => 44
  | dt_X86_REG_SI => 45 | dt_X86_REG_SIL => 46 | dt_X86_REG_SP => 47
  | dt_X86_REG_SPL => 48 | dt_X86_REG_SS => 49 | dt_X86_REG_CR0 => 50
  | dt_X86_REG_CR1 => 51 | dt_X86_REG_CR2 => 52 | dt_X86_REG_CR3 => 53
  | dt_X86_REG_CR4 => 54 | dt_X86_REG_CR5 => 55 | dt_X86_REG_CR6 => 56
  | dt_X86_REG_CR7 => 57 | dt_X86_REG_CR8 => 58 | dt_X86_REG_CR9 => 59
  | dt_X86_REG_CR10 => 60 | dt_X86_REG_CR11 => 61 | dt_X86_REG_CR12 => 62
  | dt_X86_REG_CR13 => 63 | dt_X86_REG_CR14 => 64 | dt_X86_REG_CR15 => 65
  | dt_X86_REG_DR0 => 66 | dt_X86_REG_DR1 => 67 | dt_X86_REG_DR2 => 68
  | dt_X86_REG_DR3 => 69 | dt_X86_REG_DR4 => 70 | dt_X86_REG_DR5 => 71
  | dt_X86_REG_DR6 => 72 | dt_X86_REG_DR7 => 73 | dt_X86_REG_DR8 => 74
  | dt_X86_REG_DR9 => 75 | dt_X86_REG_DR10 => 76 | dt_X86_REG_DR11 => 77
  | dt_X86_REG_DR12 => 78 | dt_X86_REG_DR13 => 79 | dt_X86_REG_DR14 => 80
  | dt_X86_REG_DR15 => 81 | dt_X86_REG_FP0 => 82 | dt_X86_REG_FP1 => 83
  | dt_X86_REG_FP2 => 84 | dt_X86_REG_FP3 => 85 | dt_X86_REG_FP4 => 86
  | dt_X86_REG_FP5 => 87 | dt_X86_REG_FP6 => 88 | dt_X86_REG_FP7 => 89
  | dt_X86_REG_K0 => 90 | dt_X86_REG_K1 => 91 | dt_X86_REG_K2 => 92
  | dt_X86_REG_K3 => 93 | dt_X86_REG_K4 => 94 | dt_X86_REG_K5 => 95
  | dt_X86_REG_K6 => 96 | dt_X86_REG_K7 => 97 | dt_X86_REG_MM0 => 98
  | dt_X86_REG_MM1 => 99 | dt_X86_REG_MM2 => 100 | dt_X86_REG_MM3 => 101
  | dt_X86_REG_MM4 => 102 | dt_X86_REG_MM5 => 103 | dt_X86_REG_MM6 => 104
  | dt_X86_REG_MM7 => 105 | dt_X86_REG_R8 => 106 | dt_X86_REG_R9 => 107
  | dt_X86_REG_R10 => 108 | dt_X86_REG_R11 => 109 | dt_X86_REG_R12 => 110
  | dt_X86_REG_R13 => 111 | dt_X86_REG_R14 => 112 | dt_X86_REG_R15 => 113
  | dt_X86_REG_ST0 => 114 | dt_X86_REG_ST1 => 115 | dt_X86_REG_ST2 => 116
  | dt_X86_REG_ST3 => 117 | dt_X86_REG_ST4 => 118 | dt_X86_REG_ST5 => 119
  | dt_X86_REG_ST6 => 120 | dt_X86_REG_ST7 => 121 | dt_X86_REG_XMM0 => 122
  | dt_X86_REG_XMM1 => 123 | dt_X86_REG_XMM2 => 124 | dt_X86_REG_XMM3 => 125
  | dt_X86_REG_XMM4 => 126 | dt_X86_REG_XMM5 => 127 | dt_X86_REG_XMM6 => 128
  | dt_X86_REG_XMM7 => 129 | dt_X86_REG_XMM8 => 130 | dt_X86_REG_XMM9 => 131
  | dt_X86_REG_XMM10 => 132 | dt_X86_REG_XMM11 => 133
  | dt_X86_REG_XMM12 => 134 | dt_X86_REG_XMM13 => 135
  | dt_X86_REG_XMM14 => 136 | dt_X86_REG_XMM15 => 137
  | dt_X86_REG_XMM16 => 138 | dt_X86_REG_XMM17 => 139
  | dt_X86_REG_XMM18 => 140 | dt_X86_REG_XMM19 => 141
  | dt_X86_REG_XMM20 => 142 | dt_X86_REG_XMM21 => 143
  | dt_X86_REG_XMM22 => 144 | dt_X86_REG_XMM23 => 145
  | dt_X86_REG_XMM24 => 146 | dt_X86_REG_XMM25 => 147
  | dt_X86_REG_XMM26 => 148 | dt_X86_REG_XMM27 => 149
  | dt_X86_REG_XMM28 => 150 | dt_X86_REG_XMM29 => 151
  | dt_X86_REG_XMM30 => 152 | dt_X86_REG_XMM31 => 153
  | dt_X86_REG_YMM0 => 154 | dt_X86_REG_YMM1 => 155 | dt_X86_REG_YMM2 => 156
  | dt_X86_REG_YMM3 => 157 | dt_X86_REG_YMM4 => 158 | dt_X86_REG_YMM5 => 159
  | dt_X86_REG_YMM6 => 160 | dt_X86_REG_YMM7 => 161 | dt_X86_REG_YMM8 => 162
  | dt_X86_REG_YMM9 => 163 | dt_X86_REG_YMM10 => 164
  | dt_X86_REG_YMM11 => 165 | dt_X86_REG_YMM12 => 166
  | dt_X86_REG_YMM13 => 167 | dt_X86_REG_YMM14 => 168
  | dt_X86_REG_YMM15 => 169 | dt_X86_REG_YMM16 => 170
  | dt_X86_REG_YMM17 => 171 | dt_X86_REG_YMM18 => 172
  | dt_X86_REG_YMM19 => 173 | dt_X86_REG_YMM20 => 174
  | dt_X86_REG_YMM21 => 175 | dt_X86_REG_YMM22 => 176
  | dt_X86_REG_YMM23 => 177 | dt_X86_REG_YMM24 => 178
  | dt_X86_REG_YMM25 => 179 | dt_X86_REG_YMM26 => 180
  | dt_X86_REG_YMM27 => 181 | dt_X86_REG_YMM28 => 182
  | dt_X86_REG_YMM29 => 183 | dt_X86_REG_YMM30 => 184
  | dt_X86_REG_YMM31 => 185 | dt_X86_REG_ZMM0 => 186 | dt_X86_REG_ZMM1 => 187
  | dt_X86_REG_ZMM2 => 188 | dt_X86_REG_ZMM3 => 189 | dt_X86_REG_ZMM4 => 190
  | dt_X86_REG_ZMM5 => 191 | dt_X86_REG_ZMM6 => 192 | dt_X86_REG_ZMM7 => 193
  | dt_X86_REG_ZMM8 => 194 | dt_X86_REG_ZMM9 => 195 | dt_X86_REG_ZMM10 => 196
  | dt_X86_REG_ZMM11 => 197 | dt_X86_REG_ZMM12 => 198
  | dt_X86_REG_ZMM13 => 199 | dt_X86_REG_ZMM14 => 200
  | dt_X86_REG_ZMM15 => 201 | dt_X86_REG_ZMM16 => 202
  | dt_X86_REG_ZMM17 => 203 | dt_X86_REG_ZMM18 => 204
  | dt_X86_REG_ZMM19 => 205 | dt_X86_REG_ZMM20 => 206
  | dt_X86_REG_ZMM21 => 207 | dt_X86_REG_ZMM22 => 208
  | dt_X86_REG_ZMM23 => 209 | dt_X86_REG_ZMM24 => 210
  | dt_X86_REG_ZMM25 => 211 | dt_X86_REG_ZMM26 => 212
  | dt_X86_REG_ZMM27 => 213 | dt_X86_REG_ZMM28 => 214
  | dt_X86_REG_ZMM29 => 215 | dt_X86_REG_ZMM30 => 216
  | dt_X86_REG_ZMM31 => 217 | dt_X86_REG_R8B => 218 | dt_X86_REG_R9B => 219
  | dt_X86_REG_R10B => 220 | dt_X86_REG_R11B => 221 | dt_X86_REG_R12B => 222
  | dt_X86_REG_R13B => 223 | dt_X86_REG_R14B => 224 | dt_X86_REG_R15B => 225
  | dt_X86_REG_R8D => 226 | dt_X86_REG_R9D => 227 | dt_X86_REG_R10D => 228
  | dt_X86_REG_R11D => 229 | dt_X86_REG_R12D => 230 | dt_X86_REG_R13D => 231
  | dt_X86_REG_R14D => 232 | dt_X86_REG_R15D => 233 | dt_X86_REG_R8W => 234
  | dt_X86_REG_R9W => 235 | dt_X86_REG_R10W => 236 | dt_X86_REG_R11W => 237
  | dt_X86_REG_R12W => 238 | dt_X86_REG_R13W => 239 | dt_X86_REG_R14W => 240
  | dt_X86_REG_R15W => 241 | dt_X86_REG_ENDING => 242
  end.

Definition all_regs : list dt_x86_reg :=
  [dt_X86_REG_INVALID; dt_X86_REG_AH; dt_X86_REG_AL; dt_X86_REG_AX;
  dt_X86_REG_BH; dt_X86_REG_BL; dt_X86_REG_BP; dt_X86_REG_BPL; dt_X86_REG_BX;
  dt_X86_REG_CH; dt_X86_REG_CL; dt_X86_REG_CS; dt_X86_REG_CX; dt_X86_REG_DH;
  dt_X86_REG_DI; dt_X86_REG_DIL; dt_X86_REG_DL; dt_X86_REG_DS; dt_X86_REG_DX;
  dt_X86_REG_EAX; dt_X86_REG_EBP; dt_X86_REG_EBX; dt_X86_REG_ECX;
  dt_X86_REG_EDI; dt_X86_REG_EDX; dt_X86_REG_EFLAGS; dt_X86_REG_EIP;
  dt_X86_REG_EIZ; dt_X86_REG_ES; dt_X86_REG_ESI; dt_X86_REG_ESP;
  dt_X86_REG_FPSW; dt_X86_REG_FS; dt_X86_REG_GS; dt_X86_REG_IP;
  dt_X86_REG_RAX; dt_X86_REG_RBP; dt_X86_REG_RBX; dt_X86_REG_RCX;
  dt_X86_REG_RDI; dt_X86_REG_RDX; dt_X86_REG_RIP; dt_X86_REG_RIZ;
  dt_X86_REG_RSI; dt_X86_REG_RSP; dt_X86_REG_SI; dt_X86_REG_SIL;
  dt_X86_REG_SP; dt_X86_REG_SPL; dt_X86_REG_SS; dt_X86_REG_CR0;
  dt_X86_REG_CR1; dt_X86_REG_CR2; dt_X86_REG_CR3; dt_X86_REG_CR4;
  dt_X86_REG_CR5; dt_X86_REG_CR6; dt_X86_REG_CR7; dt_X86_REG_CR8;
  dt_X86_REG_CR9; dt_X86_REG_CR10; dt_X86_REG_CR11; dt_X86_REG_CR12;
  dt_X86_REG_CR13; dt_X86_REG_CR14; dt_X86_REG_CR15; dt_X86_REG_DR0;
  dt_X86_REG_DR1; dt_X86_REG_DR2; dt_X86_REG_DR3; dt_X86_REG_DR4;
  dt_X86_REG_DR5; dt_X86_REG_DR6; dt_X86_REG_DR7; dt_X86_REG_DR8;
  dt_X86_REG_DR9; dt_X86_REG_DR10; dt_X86_REG_DR11; dt_X86_REG_DR12;
  dt_X86_REG_DR13; dt_X86_REG_DR14; dt_X86_REG_DR15; dt_X86_REG_FP0;
  dt_X86_REG_FP1; dt_X86_REG_FP2; dt_X86_REG_FP3; dt_X86_REG_FP4;
  dt_X86_REG_FP5; dt_X86_REG_FP6; dt_X86_REG_FP7; dt_X86_REG_K0;
  dt_X86_REG_K1; dt_X86_REG_K2; dt_X86_REG_K3; dt_X86_REG_K4; dt_X86_REG_K5;
  dt_X86_REG_K6; dt_X86_REG_K7; dt_X86_REG_MM0; dt_X86_REG_MM1;
  dt_X86_REG_MM2; dt_X86_REG_MM3; dt_X86_REG_MM4; dt_X86_REG_MM5;
  dt_X86_REG_MM6; dt_X86_REG_MM7; dt_X86_REG_R8; dt_X86_REG_R9;
  dt_X86_REG_R10; dt_X86_REG_R11; dt_X86_REG_R12; dt_X86_REG_R13;
  dt_X86_REG_R14; dt_X86_REG_R15; dt_X86_REG_ST0; dt_X86_REG_ST1;
  dt_X86_REG_ST2; dt_X86_REG_ST3; dt_X86_REG_ST4; dt_X86_REG_ST5;
  dt_X86_REG_ST6; dt_X86_REG_ST7; dt_X86_REG_XMM0; dt_X86_REG_XMM1;
  dt_X86_REG_XMM2; dt_X86_REG_XMM3; dt_X86_REG_XMM4; dt_X86_REG_XMM5;
  dt_X86_REG_XMM6; dt_X86_REG_XMM7; dt_X86_REG_XMM8; dt_X86_REG_XMM9;
  dt_X86_REG_XMM10; dt_X86_REG_XMM11; dt_X86_REG_XMM12; dt_X86_REG_XMM13;
  dt_X86_REG_XMM14; dt_X86_REG_XMM15; dt_X86_REG_XMM16; dt_X86_REG_XMM17;
  dt_X86_REG_XMM18; dt_X86_REG_XMM19; dt_X86_REG_XMM20; dt_X86_REG_XMM21;
  dt_X86_REG_XMM22; dt_X86_REG_XMM23; dt_X86_REG_XMM24; dt_X86_REG_XMM25;
  dt_X86_REG_XMM26; dt_X86_REG_XMM27; dt_X86_REG_XMM28; dt_X86_REG_XMM29;
  dt_X86_REG_XMM30; dt_X86_REG_XMM31; dt_X86_REG_YMM0; dt_X86_REG_YMM1;
  dt_X86_REG_YMM2; dt_X86_REG_YMM3; dt_X86_REG_YMM4; dt_X86_REG_YMM5;
  dt_X86_REG_YMM6; dt_X86_REG_YMM7; dt_X86_REG_YMM8; dt_X86_REG_YMM9;
  dt_X86_REG_YMM10; dt_X86_REG_YMM11; dt_X86_REG_YMM12; dt_X86_REG_YMM13;
  dt_X86_REG_YMM14; dt_X86_REG_YMM15; dt_X86_REG_YMM16; dt_X86_REG_YMM17;
  dt_X86_REG_YMM18; dt_X86_REG_YMM19; dt_X86_REG_YMM20; dt_X86_REG_YMM21;
  dt_X86_REG_YMM22; dt_X86_REG_YMM23; dt_X86_REG_YMM24; dt_X86_REG_YMM25;
  dt_X86_REG_YMM26; dt_X86_REG_YMM27; dt_X86_REG_YMM28; dt_X86_REG_YMM29;
  dt_X86_REG_YMM30; dt_X86_REG_YMM31; dt_X86_REG_ZMM0; dt_X86_REG_ZMM1;
  dt_X86_REG_ZMM2; dt_X86_REG_ZMM3; dt_X86_REG_ZMM4; dt_X86_REG_ZMM5;
  dt_X86_REG_ZMM6; dt_X86_REG_ZMM7; dt_X86_REG_ZMM8; dt_X86_REG_ZMM9;
  dt_X86_REG_ZMM10; dt_X86_REG_ZMM11; dt_X86_REG_ZMM12; dt_X86_REG_ZMM13;
  dt_X86_REG_ZMM14; dt_X86_REG_ZMM15; dt_X86_REG_ZMM16; dt_X86_REG_ZMM17;
  dt_X86_REG_ZMM18; dt_X86_REG_ZMM19; dt_X86_REG_ZMM20; dt_X86_REG_ZMM21;
  dt_X86_REG_ZMM22; dt_X86_REG_ZMM23; dt_X86_REG_ZMM24; dt_X86_REG_ZMM25;
  dt_X86_REG_ZMM26; dt_X86_REG_ZMM27; dt_X86_REG_ZMM28; dt_X86_REG_ZMM29;
  dt_X86_REG_ZMM30; dt_X86_REG_ZMM31; dt_X86_REG_R8B; dt_X86_REG_R9B;
  dt_X86_REG_R10B; dt_X86_REG_R11B; dt_X86_REG_R12B; dt_X86_REG_R13B;
  dt_X86_REG_R14B; dt_X86_REG_R15B; dt_X86_REG_R8D; dt_X86_REG_R9D;
  dt_X86_REG_R10D; dt_X86_REG_R11D; dt_X86_REG_R12D; dt_X86_REG_R13D;
  dt_X86_REG_R14D; dt_X86_REG_R15D; dt_X86_REG_R8W; dt_X86_REG_R9W;
  dt_X86_REG_R10W; dt_X86_REG_R11W; dt_X86_REG_R12W; dt_X86_REG_R13W;
  dt_X86_REG_R14W; dt_X86_REG_R15W; dt_X86_REG_ENDING].

Inductive dt_x86_insn : Set :=
  | dt_X86_INS_INVALID | dt_X86_INS_F2XM1 | dt_X86_INS_WAIT | dt_X86_INS_FADD
  | dt_X86_INS_FADDP | dt_X86_INS_FBLD | dt_X86_INS_FBSTP | dt_X86_INS_FCOM
  | dt_X86_INS_FCOMI | dt_X86_INS_FCOMIP | dt_X86_INS_FCOMP
  | dt_X86_INS_FCOMPP | dt_X86_INS_FCOS | dt_X86_INS_FDIV | dt_X86_INS_FDIVP
  | dt_X86_INS_FDIVR | dt_X86_INS_FDIVRP | dt_X86_INS_FIADD
  | dt_X86_INS_FICOM | dt_X86_INS_FICOMP | dt_X86_INS_FIDIV
  | dt_X86_INS_FIDIVR | dt_X86_INS_FIMUL | dt_X86_INS_FISTTP
  | dt_X86_INS_FISUB | dt_X86_INS_FISUBR | dt_X86_INS_FMUL | dt_X86_INS_FMULP
  | dt_X86_INS_FNOP | dt_X86_INS_FPATAN | dt_X86_INS_FPREM1
  | dt_X86_INS_FPREM | dt_X86_INS_FPTAN | dt_X86_INS_FRNDINT
  | dt_X86_INS_FSCALE | dt_X86_INS_FSETPM | dt_X86_INS_FSIN
  | dt_X86_INS_FSINCOS | dt_X86_INS_FSQRT | dt_X86_INS_FSUB
  | dt_X86_INS_FSUBP | dt_X86_INS_FSUBR | dt_X86_INS_FSUBRP | dt_X86_INS_FTST
  | dt_X86_INS_FUCOM | dt_X86_INS_FUCOMI | dt_X86_INS_FUCOMIP
  | dt_X86_INS_FUCOMP | dt_X86_INS_FUCOMPP | dt_X86_INS_FXRSTOR
  | dt_X86_INS_FXSAVE | dt_X86_INS_FXTRACT | dt_X86_INS_FYL2X
  | dt_X86_INS_FYL2XP1 | dt_X86_INS_AAA | dt_X86_INS_AAD | dt_X86_INS_AAM
  | dt_X86_INS_AAS | dt_X86_INS_FABS | dt_X86_INS_FCHS | dt_X86_INS_FCMOVBE
  | dt_X86_INS_FCMOVB | dt_X86_INS_FCMOVE | dt_X86_INS_FCMOVNBE
  | dt_X86_INS_FCMOVNB | dt_X86_INS_FCMOVNE | dt_X86_INS_FCMOVNU
  | dt_X86_INS_FCMOVU | dt_X86_INS_FDECSTP | dt_X86_INS_FFREE
  | dt_X86_INS_FFREEP | dt_X86_INS_FILD | dt_X86_INS_FINCSTP
  | dt_X86_INS_FIST | dt_X86_INS_FISTP | dt_X86_INS_FLD | dt_X86_INS_FLD1
  | dt_X86_INS_FLDCW | dt_X86_INS_FLDENV | dt_X86_INS_FLDL2E
  | dt_X86_INS_FLDL2T | dt_X86_INS_FLDLG2 | dt_X86_INS_FLDLN2
  | dt_X86_INS_FLDPI | dt_X86_INS_FLDZ | dt_X86_INS_FNCLEX
  | dt_X86_INS_FNINIT | dt_X86_INS_FNSAVE | dt_X86_INS_FNSTENV
  | dt_X86_INS_FNSTCW | dt_X86_INS_FNSTSW | dt_X86_INS_FRSTOR
  | dt_X86_INS_FST | dt_X86_INS_FSTP | dt_X86_INS_FXAM | dt_X86_INS_FXCH
  | dt_X86_INS_ADC | dt_X86_INS_ADCX | dt_X86_INS_ADD | dt_X86_INS_ADDPD
  | dt_X86_INS_ADDPS | dt_X86_INS_ADDSD | dt_X86_INS_ADDSS
  | dt_X86_INS_ADDSUBPD | dt_X86_INS_ADDSUBPS | dt_X86_INS_ADOX
  | dt_X86_INS_AESDECLAST | dt_X86_INS_AESDEC | dt_X86_INS_AESENCLAST
  | dt_X86_INS_AESENC | dt_X86_INS_AESIMC | dt_X86_INS_AESKEYGENASSIST
  | dt_X86_INS_AND | dt_X86_INS_ANDN | dt_X86_INS_ANDNPD | dt_X86_INS_ANDNPS
  | dt_X86_INS_ANDPD | dt_X86_INS_ANDPS | dt_X86_INS_ARPL | dt_X86_INS_BEXTR
  | dt_X86_INS_BLCFILL | dt_X86_INS_BLCI | dt_X86_INS_BLCIC
  | dt_X86_INS_BLCMSK | dt_X86_INS_BLCS | dt_X86_INS_BLENDPD
  | dt_X86_INS_BLENDPS | dt_X86_INS_BLENDVPD | dt_X86_INS_BLENDVPS
  | dt_X86_INS_BLSFILL | dt_X86_INS_BLSI | dt_X86_INS_BLSIC
  | dt_X86_INS_BLSMSK | dt_X86_INS_BLSR | dt_X86_INS_BOUND | dt_X86_INS_BSF
  | dt_X86_INS_BSR | dt_X86_INS_BSWAP | dt_X86_INS_BT | dt_X86_INS_BTC
  | dt_X86_INS_BTR | dt_X86_INS_BTS | dt_X86_INS_BZHI | dt_X86_INS_CALL
  | dt_X86_INS_CBW | dt_X86_INS_CDQ | dt_X86_INS_CDQE | dt_X86_INS_CLAC
  | dt_X86_INS_CLC | dt_X86_INS_CLD | dt_X86_INS_CLFLUSH
  | dt_X86_INS_CLFLUSHOPT | dt_X86_INS_CLGI | dt_X86_INS_CLI
  | dt_X86_INS_CLTS | dt_X86_INS_CLWB | dt_X86_INS_CMC | dt_X86_INS_CMOVA
  | dt_X86_INS_CMOVAE | dt_X86_INS_CMOVB | dt_X86_INS_CMOVBE
  | dt_X86_INS_CMOVE | dt_X86_INS_CMOVG | dt_X86_INS_CMOVGE
  | dt_X86_INS_CMOVL | dt_X86_INS_CMOVLE | dt_X86_INS_CMOVNE
  | dt_X86_INS_CMOVNO | dt_X86_INS_CMOVNP | dt_X86_INS_CMOVNS
  | dt_X86_INS_CMOVO | dt_X86_INS_CMOVP | dt_X86_INS_CMOVS | dt_X86_INS_CMP
  | dt_X86_INS_CMPSB | dt_X86_INS_CMPSQ | dt_X86_INS_CMPSW
  | dt_X86_INS_CMPXCHG16B | dt_X86_INS_CMPXCHG | dt_X86_INS_CMPXCHG8B
  | dt_X86_INS_COMISD | dt_X86_INS_COMISS | dt_X86_INS_CPUID | dt_X86_INS_CQO
  | dt_X86_INS_CRC32 | dt_X86_INS_CVTDQ2PD | dt_X86_INS_CVTDQ2PS
  | dt_X86_INS_CVTPD2DQ | dt_X86_INS_CVTPD2PS | dt_X86_INS_CVTPS2DQ
  | dt_X86_INS_CVTPS2PD | dt_X86_INS_CVTSD2SI | dt_X86_INS_CVTSD2SS
  | dt_X86_INS_CVTSI2SD | dt_X86_INS_CVTSI2SS | dt_X86_INS_CVTSS2SD
  | dt_X86_INS_CVTSS2SI | dt_X86_INS_CVTTPD2DQ | dt_X86_INS_CVTTPS2DQ
  | dt_X86_INS_CVTTSD2SI | dt_X86_INS_CVTTSS2SI | dt_X86_INS_CWD
  | dt_X86_INS_CWDE | dt_X86_INS_DAA | dt_X86_INS_DAS | dt_X86_INS_DATA16
  | dt_X86_INS_DEC | dt_X86_INS_DIV | dt_X86_INS_DIVPD | dt_X86_INS_DIVPS
  | dt_X86_INS_DIVSD | dt_X86_INS_DIVSS | dt_X86_INS_DPPD | dt_X86_INS_DPPS
  | dt_X86_INS_RET | dt_X86_INS_ENCLS | dt_X86_INS_ENCLU | dt_X86_INS_ENTER
  | dt_X86_INS_EXTRACTPS | dt_X86_INS_EXTRQ | dt_X86_INS_LCALL
  | dt_X86_INS_LJMP | dt_X86_INS_FEMMS | dt_X86_INS_FXRSTOR64
  | dt_X86_INS_FXSAVE64 | dt_X86_INS_MOVAPD | dt_X86_INS_MOVAPS
  | dt_X86_INS_ORPD | dt_X86_INS_ORPS | dt_X86_INS_VMOVAPD
  | dt_X86_INS_VMOVAPS | dt_X86_INS_XORPD | dt_X86_INS_XORPS
  | dt_X86_INS_GETSEC | dt_X86_INS_HADDPD | dt_X86_INS_HADDPS
  | dt_X86_INS_HLT | dt_X86_INS_HSUBPD | dt_X86_INS_HSUBPS | dt_X86_INS_IDIV
  | dt_X86_INS_IMUL | dt_X86_INS_IN | dt_X86_INS_INC | dt_X86_INS_INSB
  | dt_X86_INS_INSERTPS | dt_X86_INS_INSERTQ | dt_X86_INS_INSD
  | dt_X86_INS_INSW | dt_X86_INS_INT | dt_X86_INS_INT1 | dt_X86_INS_INT3
  | dt_X86_INS_INTO | dt_X86_INS_INVD | dt_X86_INS_INVEPT | dt_X86_INS_INVLPG
  | dt_X86_INS_INVLPGA | dt_X86_INS_INVPCID | dt_X86_INS_INVVPID
  | dt_X86_INS_IRET | dt_X86_INS_IRETD | dt_X86_INS_IRETQ
  | dt_X86_INS_UCOMISD | dt_X86_INS_UCOMISS | dt_X86_INS_VCOMISD
  | dt_X86_INS_VCOMISS | dt_X86_INS_VCVTSD2SS | dt_X86_INS_VCVTSI2SD
  | dt_X86_INS_VCVTSI2SS | dt_X86_INS_VCVTSS2SD | dt_X86_INS_VCVTTSD2SI
  | dt_X86_INS_VCVTTSD2USI | dt_X86_INS_VCVTTSS2SI | dt_X86_INS_VCVTTSS2USI
  | dt_X86_INS_VCVTUSI2SD | dt_X86_INS_VCVTUSI2SS | dt_X86_INS_VUCOMISD
  | dt_X86_INS_VUCOMISS | dt_X86_INS_JAE | dt_X86_INS_JA | dt_X86_INS_JBE
  | dt_X86_INS_JB | dt_X86_INS_JCXZ | dt_X86_INS_JECXZ | dt_X86_INS_JE
  | dt_X86_INS_JGE | dt_X86_INS_JG | dt_X86_INS_JLE | dt_X86_INS_JL
  | dt_X86_INS_JMP | dt_X86_INS_JNE | dt_X86_INS_JNO | dt_X86_INS_JNP
  | dt_X86_INS_JNS | dt_X86_INS_JO | dt_X86_INS_JP | dt_X86_INS_JRCXZ
  | dt_X86_INS_JS | dt_X86_INS_KANDB | dt_X86_INS_KANDD | dt_X86_INS_KANDNB
  | dt_X86_INS_KANDND | dt_X86_INS_KANDNQ | dt_X86_INS_KANDNW
  | dt_X86_INS_KANDQ | dt_X86_INS_KANDW | dt_X86_INS_KMOVB | dt_X86_INS_KMOVD
  | dt_X86_INS_KMOVQ | dt_X86_INS_KMOVW | dt_X86_INS_KNOTB | dt_X86_INS_KNOTD
  | dt_X86_INS_KNOTQ | dt_X86_INS_KNOTW | dt_X86_INS_KORB | dt_X86_INS_KORD
  | dt_X86_INS_KORQ | dt_X86_INS_KORTESTB | dt_X86_INS_KORTESTD
  | dt_X86_INS_KORTESTQ | dt_X86_INS_KORTESTW | dt_X86_INS_KORW
  | dt_X86_INS_KSHIFTLB | dt_X86_INS_KSHIFTLD | dt_X86_INS_KSHIFTLQ
  | dt_X86_INS_KSHIFTLW | dt_X86_INS_KSHIFTRB | dt_X86_INS_KSHIFTRD
  | dt_X86_INS_KSHIFTRQ | dt_X86_INS_KSHIFTRW | dt_X86_INS_KUNPCKBW
  | dt_X86_INS_KXNORB | dt_X86_INS_KXNORD | dt_X86_INS_KXNORQ
  | dt_X86_INS_KXNORW | dt_X86_INS_KXORB | dt_X86_INS_KXORD
  | dt_X86_INS_KXORQ | dt_X86_INS_KXORW | dt_X86_INS_LAHF | dt_X86_INS_LAR
  | dt_X86_INS_LDDQU | dt_X86_INS_LDMXCSR | dt_X86_INS_LDS | dt_X86_INS_LEA
  | dt_X86_INS_LEAVE | dt_X86_INS_LES | dt_X86_INS_LFENCE | dt_X86_INS_LFS
  | dt_X86_INS_LGDT | dt_X86_INS_LGS | dt_X86_INS_LIDT | dt_X86_INS_LLDT
  | dt_X86_INS_LMSW | dt_X86_INS_OR | dt_X86_INS_SUB | dt_X86_INS_XOR
  | dt_X86_INS_LODSB | dt_X86_INS_LODSD | dt_X86_INS_LODSQ | dt_X86_INS_LODSW
  | dt_X86_INS_LOOP | dt_X86_INS_LOOPE | dt_X86_INS_LOOPNE | dt_X86_INS_RETF
  | dt_X86_INS_RETFQ | dt_X86_INS_LSL | dt_X86_INS_LSS | dt_X86_INS_LTR
  | dt_X86_INS_XADD | dt_X86_INS_LZCNT | dt_X86_INS_MASKMOVDQU
  | dt_X86_INS_MAXPD | dt_X86_INS_MAXPS | dt_X86_INS_MAXSD | dt_X86_INS_MAXSS
  | dt_X86_INS_MFENCE | dt_X86_INS_MINPD | dt_X86_INS_MINPS
  | dt_X86_INS_MINSD | dt_X86_INS_MINSS | dt_X86_INS_CVTPD2PI
  | dt_X86_INS_CVTPI2PD | dt_X86_INS_CVTPI2PS | dt_X86_INS_CVTPS2PI
  | dt_X86_INS_CVTTPD2PI | dt_X86_INS_CVTTPS2PI | dt_X86_INS_EMMS
  | dt_X86_INS_MASKMOVQ | dt_X86_INS_MOVD | dt_X86_INS_MOVDQ2Q
  | dt_X86_INS_MOVNTQ | dt_X86_INS_MOVQ2DQ | dt_X86_INS_MOVQ
  | dt_X86_INS_PABSB | dt_X86_INS_PABSD | dt_X86_INS_PABSW
  | dt_X86_INS_PACKSSDW | dt_X86_INS_PACKSSWB | dt_X86_INS_PACKUSWB
  | dt_X86_INS_PADDB | dt_X86_INS_PADDD | dt_X86_INS_PADDQ
  | dt_X86_INS_PADDSB | dt_X86_INS_PADDSW | dt_X86_INS_PADDUSB
  | dt_X86_INS_PADDUSW | dt_X86_INS_PADDW | dt_X86_INS_PALIGNR
  | dt_X86_INS_PANDN | dt_X86_INS_PAND | dt_X86_INS_PAVGB | dt_X86_INS_PAVGW
  | dt_X86_INS_PCMPEQB | dt_X86_INS_PCMPEQD | dt_X86_INS_PCMPEQW
  | dt_X86_INS_PCMPGTB | dt_X86_INS_PCMPGTD | dt_X86_INS_PCMPGTW
  | dt_X86_INS_PEXTRW | dt_X86_INS_PHADDSW | dt_X86_INS_PHADDW
  | dt_X86_INS_PHADDD | dt_X86_INS_PHSUBD | dt_X86_INS_PHSUBSW
  | dt_X86_INS_PHSUBW | dt_X86_INS_PINSRW | dt_X86_INS_PMADDUBSW
  | dt_X86_INS_PMADDWD | dt_X86_INS_PMAXSW | dt_X86_INS_PMAXUB
  | dt_X86_INS_PMINSW | dt_X86_INS_PMINUB | dt_X86_INS_PMOVMSKB
  | dt_X86_INS_PMULHRSW | dt_X86_INS_PMULHUW | dt_X86_INS_PMULHW
  | dt_X86_INS_PMULLW | dt_X86_INS_PMULUDQ | dt_X86_INS_POR
  | dt_X86_INS_PSADBW | dt_X86_INS_PSHUFB | dt_X86_INS_PSHUFW
  | dt_X86_INS_PSIGNB | dt_X86_INS_PSIGND | dt_X86_INS_PSIGNW
  | dt_X86_INS_PSLLD | dt_X86_INS_PSLLQ | dt_X86_INS_PSLLW | dt_X86_INS_PSRAD
  | dt_X86_INS_PSRAW | dt_X86_INS_PSRLD | dt_X86_INS_PSRLQ | dt_X86_INS_PSRLW
  | dt_X86_INS_PSUBB | dt_X86_INS_PSUBD | dt_X86_INS_PSUBQ
  | dt_X86_INS_PSUBSB | dt_X86_INS_PSUBSW | dt_X86_INS_PSUBUSB
  | dt_X86_INS_PSUBUSW | dt_X86_INS_PSUBW | dt_X86_INS_PUNPCKHBW
  | dt_X86_INS_PUNPCKHDQ | dt_X86_INS_PUNPCKHWD | dt_X86_INS_PUNPCKLBW
  | dt_X86_INS_PUNPCKLDQ | dt_X86_INS_PUNPCKLWD | dt_X86_INS_PXOR
  | dt_X86_INS_MONITOR | dt_X86_INS_MONTMUL | dt_X86_INS_MOV
  | dt_X86_INS_MOVABS | dt_X86_INS_MOVBE | dt_X86_INS_MOVDDUP
  | dt_X86_INS_MOVDQA | dt_X86_INS_MOVDQU | dt_X86_INS_MOVHLPS
  | dt_X86_INS_MOVHPD | dt_X86_INS_MOVHPS | dt_X86_INS_MOVLHPS
  | dt_X86_INS_MOVLPD | dt_X86_INS_MOVLPS | dt_X86_INS_MOVMSKPD
  | dt_X86_INS_MOVMSKPS | dt_X86_INS_MOVNTDQA | dt_X86_INS_MOVNTDQ
  | dt_X86_INS_MOVNTI | dt_X86_INS_MOVNTPD | dt_X86_INS_MOVNTPS
  | dt_X86_INS_MOVNTSD | dt_X86_INS_MOVNTSS | dt_X86_INS_MOVSB
  | dt_X86_INS_MOVSD | dt_X86_INS_MOVSHDUP | dt_X86_INS_MOVSLDUP
  | dt_X86_INS_MOVSQ | dt_X86_INS_MOVSS | dt_X86_INS_MOVSW | dt_X86_INS_MOVSX
  | dt_X86_INS_MOVSXD | dt_X86_INS_MOVUPD | dt_X86_INS_MOVUPS
  | dt_X86_INS_MOVZX | dt_X86_INS_MPSADBW | dt_X86_INS_MUL | dt_X86_INS_MULPD
  | dt_X86_INS_MULPS | dt_X86_INS_MULSD | dt_X86_INS_MULSS | dt_X86_INS_MULX
  | dt_X86_INS_MWAIT | dt_X86_INS_NEG | dt_X86_INS_NOP | dt_X86_INS_NOT
  | dt_X86_INS_OUT | dt_X86_INS_OUTSB | dt_X86_INS_OUTSD | dt_X86_INS_OUTSW
  | dt_X86_INS_PACKUSDW | dt_X86_INS_PAUSE | dt_X86_INS_PAVGUSB
  | dt_X86_INS_PBLENDVB | dt_X86_INS_PBLENDW | dt_X86_INS_PCLMULQDQ
  | dt_X86_INS_PCMPEQQ | dt_X86_INS_PCMPESTRI | dt_X86_INS_PCMPESTRM
  | dt_X86_INS_PCMPGTQ | dt_X86_INS_PCMPISTRI | dt_X86_INS_PCMPISTRM
  | dt_X86_INS_PCOMMIT | dt_X86_INS_PDEP | dt_X86_INS_PEXT
  | dt_X86_INS_PEXTRB | dt_X86_INS_PEXTRD | dt_X86_INS_PEXTRQ
  | dt_X86_INS_PF2ID | dt_X86_INS_PF2IW | dt_X86_INS_PFACC | dt_X86_INS_PFADD
  | dt_X86_INS_PFCMPEQ | dt_X86_INS_PFCMPGE | dt_X86_INS_PFCMPGT
  | dt_X86_INS_PFMAX | dt_X86_INS_PFMIN | dt_X86_INS_PFMUL
  | dt_X86_INS_PFNACC | dt_X86_INS_PFPNACC | dt_X86_INS_PFRCPIT1
  | dt_X86_INS_PFRCPIT2 | dt_X86_INS_PFRCP | dt_X86_INS_PFRSQIT1
  | dt_X86_INS_PFRSQRT | dt_X86_INS_PFSUBR | dt_X86_INS_PFSUB
  | dt_X86_INS_PHMINPOSUW | dt_X86_INS_PI2FD | dt_X86_INS_PI2FW
  | dt_X86_INS_PINSRB | dt_X86_INS_PINSRD | dt_X86_INS_PINSRQ
  | dt_X86_INS_PMAXSB | dt_X86_INS_PMAXSD | dt_X86_INS_PMAXUD
  | dt_X86_INS_PMAXUW | dt_X86_INS_PMINSB | dt_X86_INS_PMINSD
  | dt_X86_INS_PMINUD | dt_X86_INS_PMINUW | dt_X86_INS_PMOVSXBD
  | dt_X86_INS_PMOVSXBQ | dt_X86_INS_PMOVSXBW | dt_X86_INS_PMOVSXDQ
  | dt_X86_INS_PMOVSXWD | dt_X86_INS_PMOVSXWQ | dt_X86_INS_PMOVZXBD
  | dt_X86_INS_PMOVZXBQ | dt_X86_INS_PMOVZXBW | dt_X86_INS_PMOVZXDQ
  | dt_X86_INS_PMOVZXWD | dt_X86_INS_PMOVZXWQ | dt_X86_INS_PMULDQ
  | dt_X86_INS_PMULHRW | dt_X86_INS_PMULLD | dt_X86_INS_POP
  | dt_X86_INS_POPAW | dt_X86_INS_POPAL | dt_X86_INS_POPCNT | dt_X86_INS_POPF
  | dt_X86_INS_POPFD | dt_X86_INS_POPFQ | dt_X86_INS_PREFETCH
  | dt_X86_INS_PREFETCHNTA | dt_X86_INS_PREFETCHT0 | dt_X86_INS_PREFETCHT1
  | dt_X86_INS_PREFETCHT2 | dt_X86_INS_PREFETCHW | dt_X86_INS_PSHUFD
  | dt_X86_INS_PSHUFHW | dt_X86_INS_PSHUFLW | dt_X86_INS_PSLLDQ
  | dt_X86_INS_PSRLDQ | dt_X86_INS_PSWAPD | dt_X86_INS_PTEST
  | dt_X86_INS_PUNPCKHQDQ | dt_X86_INS_PUNPCKLQDQ | dt_X86_INS_PUSH
  | dt_X86_INS_PUSHAW | dt_X86_INS_PUSHAL | dt_X86_INS_PUSHF
  | dt_X86_INS_PUSHFD | dt_X86_INS_PUSHFQ | dt_X86_INS_RCL | dt_X86_INS_RCPPS
  | dt_X86_INS_RCPSS | dt_X86_INS_RCR | dt_X86_INS_RDFSBASE
  | dt_X86_INS_RDGSBASE | dt_X86_INS_RDMSR | dt_X86_INS_RDPMC
  | dt_X86_INS_RDRAND | dt_X86_INS_RDSEED | dt_X86_INS_RDTSC
  | dt_X86_INS_RDTSCP | dt_X86_INS_ROL | dt_X86_INS_ROR | dt_X86_INS_RORX
  | dt_X86_INS_ROUNDPD | dt_X86_INS_ROUNDPS | dt_X86_INS_ROUNDSD
  | dt_X86_INS_ROUNDSS | dt_X86_INS_RSM | dt_X86_INS_RSQRTPS
  | dt_X86_INS_RSQRTSS | dt_X86_INS_SAHF | dt_X86_INS_SAL | dt_X86_INS_SALC
  | dt_X86_INS_SAR | dt_X86_INS_SARX | dt_X86_INS_SBB | dt_X86_INS_SCASB
  | dt_X86_INS_SCASD | dt_X86_INS_SCASQ | dt_X86_INS_SCASW | dt_X86_INS_SETAE
  | dt_X86_INS_SETA | dt_X86_INS_SETBE | dt_X86_INS_SETB | dt_X86_INS_SETE
  | dt_X86_INS_SETGE | dt_X86_INS_SETG | dt_X86_INS_SETLE | dt_X86_INS_SETL
  | dt_X86_INS_SETNE | dt_X86_INS_SETNO | dt_X86_INS_SETNP | dt_X86_INS_SETNS
  | dt_X86_INS_SETO | dt_X86_INS_SETP | dt_X86_INS_SETS | dt_X86_INS_SFENCE
  | dt_X86_INS_SGDT | dt_X86_INS_SHA1MSG1 | dt_X86_INS_SHA1MSG2
  | dt_X86_INS_SHA1NEXTE | dt_X86_INS_SHA1RNDS4 | dt_X86_INS_SHA256MSG1
  | dt_X86_INS_SHA256MSG2 | dt_X86_INS_SHA256RNDS2 | dt_X86_INS_SHL
  | dt_X86_INS_SHLD | dt_X86_INS_SHLX | dt_X86_INS_SHR | dt_X86_INS_SHRD
  | dt_X86_INS_SHRX | dt_X86_INS_SHUFPD | dt_X86_INS_SHUFPS | dt_X86_INS_SIDT
  | dt_X86_INS_SKINIT | dt_X86_INS_SLDT | dt_X86_INS_SMSW | dt_X86_INS_SQRTPD
  | dt_X86_INS_SQRTPS | dt_X86_INS_SQRTSD | dt_X86_INS_SQRTSS
  | dt_X86_INS_STAC | dt_X86_INS_STC | dt_X86_INS_STD | dt_X86_INS_STGI
  | dt_X86_INS_STI | dt_X86_INS_STMXCSR | dt_X86_INS_STOSB | dt_X86_INS_STOSD
  | dt_X86_INS_STOSQ | dt_X86_INS_STOSW | dt_X86_INS_STR | dt_X86_INS_FSTPNCE
  | dt_X86_INS_SUBPD | dt_X86_INS_SUBPS | dt_X86_INS_SUBSD | dt_X86_INS_SUBSS
  | dt_X86_INS_SWAPGS | dt_X86_INS_SYSCALL | dt_X86_INS_SYSENTER
  | dt_X86_INS_SYSEXIT | dt_X86_INS_SYSRET | dt_X86_INS_T1MSKC
  | dt_X86_INS_TEST | dt_X86_INS_UD2 | dt_X86_INS_TZCNT | dt_X86_INS_TZMSK
  | dt_X86_INS_UD2B | dt_X86_INS_UNPCKHPD | dt_X86_INS_UNPCKHPS
  | dt_X86_INS_UNPCKLPD | dt_X86_INS_UNPCKLPS | dt_X86_INS_VADDPD
  | dt_X86_INS_VADDPS | dt_X86_INS_VADDSD | dt_X86_INS_VADDSS
  | dt_X86_INS_VADDSUBPD | dt_X86_INS_VADDSUBPS | dt_X86_INS_VAESDECLAST
  | dt_X86_INS_VAESDEC | dt_X86_INS_VAESENCLAST | dt_X86_INS_VAESENC
  | dt_X86_INS_VAESIMC | dt_X86_INS_VAESKEYGENASSIST | dt_X86_INS_VALIGND
  | dt_X86_INS_VALIGNQ | dt_X86_INS_VANDNPD | dt_X86_INS_VANDNPS
  | dt_X86_INS_VANDPD | dt_X86_INS_VANDPS | dt_X86_INS_VBLENDMPD
  | dt_X86_INS_VBLENDMPS | dt_X86_INS_VBLENDPD | dt_X86_INS_VBLENDPS
  | dt_X86_INS_VBLENDVPD | dt_X86_INS_VBLENDVPS | dt_X86_INS_VBROADCASTF128
  | dt_X86_INS_VBROADCASTI128 | dt_X86_INS_VBROADCASTI32X4
  | dt_X86_INS_VBROADCASTI64X4 | dt_X86_INS_VBROADCASTSD
  | dt_X86_INS_VBROADCASTSS | dt_X86_INS_VCOMPRESSPD | dt_X86_INS_VCOMPRESSPS
  | dt_X86_INS_VCVTDQ2PD | dt_X86_INS_VCVTDQ2PS | dt_X86_INS_VCVTPD2DQX
  | dt_X86_INS_VCVTPD2DQ | dt_X86_INS_VCVTPD2PSX | dt_X86_INS_VCVTPD2PS
  | dt_X86_INS_VCVTPD2UDQ | dt_X86_INS_VCVTPH2PS | dt_X86_INS_VCVTPS2DQ
  | dt_X86_INS_VCVTPS2PD | dt_X86_INS_VCVTPS2PH | dt_X86_INS_VCVTPS2UDQ
  | dt_X86_INS_VCVTSD2SI | dt_X86_INS_VCVTSD2USI | dt_X86_INS_VCVTSS2SI
  | dt_X86_INS_VCVTSS2USI | dt_X86_INS_VCVTTPD2DQX | dt_X86_INS_VCVTTPD2DQ
  | dt_X86_INS_VCVTTPD2UDQ | dt_X86_INS_VCVTTPS2DQ | dt_X86_INS_VCVTTPS2UDQ
  | dt_X86_INS_VCVTUDQ2PD | dt_X86_INS_VCVTUDQ2PS | dt_X86_INS_VDIVPD
  | dt_X86_INS_VDIVPS | dt_X86_INS_VDIVSD | dt_X86_INS_VDIVSS
  | dt_X86_INS_VDPPD | dt_X86_INS_VDPPS | dt_X86_INS_VERR | dt_X86_INS_VERW
  | dt_X86_INS_VEXP2PD | dt_X86_INS_VEXP2PS | dt_X86_INS_VEXPANDPD
  | dt_X86_INS_VEXPANDPS | dt_X86_INS_VEXTRACTF128 | dt_X86_INS_VEXTRACTF32X4
  | dt_X86_INS_VEXTRACTF64X4 | dt_X86_INS_VEXTRACTI128
  | dt_X86_INS_VEXTRACTI32X4 | dt_X86_INS_VEXTRACTI64X4
  | dt_X86_INS_VEXTRACTPS | dt_X86_INS_VFMADD132PD | dt_X86_INS_VFMADD132PS
  | dt_X86_INS_VFMADDPD | dt_X86_INS_VFMADD213PD | dt_X86_INS_VFMADD231PD
  | dt_X86_INS_VFMADDPS | dt_X86_INS_VFMADD213PS | dt_X86_INS_VFMADD231PS
  | dt_X86_INS_VFMADDSD | dt_X86_INS_VFMADD213SD | dt_X86_INS_VFMADD132SD
  | dt_X86_INS_VFMADD231SD | dt_X86_INS_VFMADDSS | dt_X86_INS_VFMADD213SS
  | dt_X86_INS_VFMADD132SS | dt_X86_INS_VFMADD231SS
  | dt_X86_INS_VFMADDSUB132PD | dt_X86_INS_VFMADDSUB132PS
  | dt_X86_INS_VFMADDSUBPD | dt_X86_INS_VFMADDSUB213PD
  | dt_X86_INS_VFMADDSUB231PD | dt_X86_INS_VFMADDSUBPS
  | dt_X86_INS_VFMADDSUB213PS | dt_X86_INS_VFMADDSUB231PS
  | dt_X86_INS_VFMSUB132PD | dt_X86_INS_VFMSUB132PS
  | dt_X86_INS_VFMSUBADD132PD | dt_X86_INS_VFMSUBADD132PS
  | dt_X86_INS_VFMSUBADDPD | dt_X86_INS_VFMSUBADD213PD
  | dt_X86_INS_VFMSUBADD231PD | dt_X86_INS_VFMSUBADDPS
  | dt_X86_INS_VFMSUBADD213PS | dt_X86_INS_VFMSUBADD231PS
  | dt_X86_INS_VFMSUBPD | dt_X86_INS_VFMSUB213PD | dt_X86_INS_VFMSUB231PD
  | dt_X86_INS_VFMSUBPS | dt_X86_INS_VFMSUB213PS | dt_X86_INS_VFMSUB231PS
  | dt_X86_INS_VFMSUBSD | dt_X86_INS_VFMSUB213SD | dt_X86_INS_VFMSUB132SD
  | dt_X86_INS_VFMSUB231SD | dt_X86_INS_VFMSUBSS | dt_X86_INS_VFMSUB213SS
  | dt_X86_INS_VFMSUB132SS | dt_X86_INS_VFMSUB231SS | dt_X86_INS_VFNMADD132PD
  | dt_X86_INS_VFNMADD132PS | dt_X86_INS_VFNMADDPD | dt_X86_INS_VFNMADD213PD
  | dt_X86_INS_VFNMADD231PD | dt_X86_INS_VFNMADDPS | dt_X86_INS_VFNMADD213PS
  | dt_X86_INS_VFNMADD231PS | dt_X86_INS_VFNMADDSD | dt_X86_INS_VFNMADD213SD
  | dt_X86_INS_VFNMADD132SD | dt_X86_INS_VFNMADD231SD | dt_X86_INS_VFNMADDSS
  | dt_X86_INS_VFNMADD213SS | dt_X86_INS_VFNMADD132SS
  | dt_X86_INS_VFNMADD231SS | dt_X86_INS_VFNMSUB132PD
  | dt_X86_INS_VFNMSUB132PS | dt_X86_INS_VFNMSUBPD | dt_X86_INS_VFNMSUB213PD
  | dt_X86_INS_VFNMSUB231PD | dt_X86_INS_VFNMSUBPS | dt_X86_INS_VFNMSUB213PS
  | dt_X86_INS_VFNMSUB231PS | dt_X86_INS_VFNMSUBSD | dt_X86_INS_VFNMSUB213SD
  | dt_X86_INS_VFNMSUB132SD | dt_X86_INS_VFNMSUB231SD | dt_X86_INS_VFNMSUBSS
  | dt_X86_INS_VFNMSUB213SS | dt_X86_INS_VFNMSUB132SS
  | dt_X86_INS_VFNMSUB231SS | dt_X86_INS_VFRCZPD | dt_X86_INS_VFRCZPS
  | dt_X86_INS_VFRCZSD | dt_X86_INS_VFRCZSS | dt_X86_INS_VORPD
  | dt_X86_INS_VORPS | dt_X86_INS_VXORPD | dt_X86_INS_VXORPS
  | dt_X86_INS_VGATHERDPD | dt_X86_INS_VGATHERDPS | dt_X86_INS_VGATHERPF0DPD
  | dt_X86_INS_VGATHERPF0DPS | dt_X86_INS_VGATHERPF0QPD
  | dt_X86_INS_VGATHERPF0QPS | dt_X86_INS_VGATHERPF1DPD
  | dt_X86_INS_VGATHERPF1DPS | dt_X86_INS_VGATHERPF1QPD
  | dt_X86_INS_VGATHERPF1QPS | dt_X86_INS_VGATHERQPD | dt_X86_INS_VGATHERQPS
  | dt_X86_INS_VHADDPD | dt_X86_INS_VHADDPS | dt_X86_INS_VHSUBPD
  | dt_X86_INS_VHSUBPS | dt_X86_INS_VINSERTF128 | dt_X86_INS_VINSERTF32X4
  | dt_X86_INS_VINSERTF32X8 | dt_X86_INS_VINSERTF64X2
  | dt_X86_INS_VINSERTF64X4 | dt_X86_INS_VINSERTI128
  | dt_X86_INS_VINSERTI32X4 | dt_X86_INS_VINSERTI32X8
  | dt_X86_INS_VINSERTI64X2 | dt_X86_INS_VINSERTI64X4 | dt_X86_INS_VINSERTPS
  | dt_X86_INS_VLDDQU | dt_X86_INS_VLDMXCSR | dt_X86_INS_VMASKMOVDQU
  | dt_X86_INS_VMASKMOVPD | dt_X86_INS_VMASKMOVPS | dt_X86_INS_VMAXPD
  | dt_X86_INS_VMAXPS | dt_X86_INS_VMAXSD | dt_X86_INS_VMAXSS
  | dt_X86_INS_VMCALL | dt_X86_INS_VMCLEAR | dt_X86_INS_VMFUNC
  | dt_X86_INS_VMINPD | dt_X86_INS_VMINPS | dt_X86_INS_VMINSD
  | dt_X86_INS_VMINSS | dt_X86_INS_VMLAUNCH | dt_X86_INS_VMLOAD
  | dt_X86_INS_VMMCALL | dt_X86_INS_VMOVQ | dt_X86_INS_VMOVDDUP
  | dt_X86_INS_VMOVD | dt_X86_INS_VMOVDQA32 | dt_X86_INS_VMOVDQA64
  | dt_X86_INS_VMOVDQA | dt_X86_INS_VMOVDQU16 | dt_X86_INS_VMOVDQU32
  | dt_X86_INS_VMOVDQU64 | dt_X86_INS_VMOVDQU8 | dt_X86_INS_VMOVDQU
  | dt_X86_INS_VMOVHLPS | dt_X86_INS_VMOVHPD | dt_X86_INS_VMOVHPS
  | dt_X86_INS_VMOVLHPS | dt_X86_INS_VMOVLPD | dt_X86_INS_VMOVLPS
  | dt_X86_INS_VMOVMSKPD | dt_X86_INS_VMOVMSKPS | dt_X86_INS_VMOVNTDQA
  | dt_X86_INS_VMOVNTDQ | dt_X86_INS_VMOVNTPD | dt_X86_INS_VMOVNTPS
  | dt_X86_INS_VMOVSD | dt_X86_INS_VMOVSHDUP | dt_X86_INS_VMOVSLDUP
  | dt_X86_INS_VMOVSS | dt_X86_INS_VMOVUPD | dt_X86_INS_VMOVUPS
  | dt_X86_INS_VMPSADBW | dt_X86_INS_VMPTRLD | dt_X86_INS_VMPTRST
  | dt_X86_INS_VMREAD | dt_X86_INS_VMRESUME | dt_X86_INS_VMRUN
  | dt_X86_INS_VMSAVE | dt_X86_INS_VMULPD | dt_X86_INS_VMULPS
  | dt_X86_INS_VMULSD | dt_X86_INS_VMULSS | dt_X86_INS_VMWRITE
  | dt_X86_INS_VMXOFF | dt_X86_INS_VMXON | dt_X86_INS_VPABSB
  | dt_X86_INS_VPABSD | dt_X86_INS_VPABSQ | dt_X86_INS_VPABSW
  | dt_X86_INS_VPACKSSDW | dt_X86_INS_VPACKSSWB | dt_X86_INS_VPACKUSDW
  | dt_X86_INS_VPACKUSWB | dt_X86_INS_VPADDB | dt_X86_INS_VPADDD
  | dt_X86_INS_VPADDQ | dt_X86_INS_VPADDSB | dt_X86_INS_VPADDSW
  | dt_X86_INS_VPADDUSB | dt_X86_INS_VPADDUSW | dt_X86_INS_VPADDW
  | dt_X86_INS_VPALIGNR | dt_X86_INS_VPANDD | dt_X86_INS_VPANDND
  | dt_X86_INS_VPANDNQ | dt_X86_INS_VPANDN | dt_X86_INS_VPANDQ
  | dt_X86_INS_VPAND | dt_X86_INS_VPAVGB | dt_X86_INS_VPAVGW
  | dt_X86_INS_VPBLENDD | dt_X86_INS_VPBLENDMB | dt_X86_INS_VPBLENDMD
  | dt_X86_INS_VPBLENDMQ | dt_X86_INS_VPBLENDMW | dt_X86_INS_VPBLENDVB
  | dt_X86_INS_VPBLENDW | dt_X86_INS_VPBROADCASTB | dt_X86_INS_VPBROADCASTD
  | dt_X86_INS_VPBROADCASTMB2Q | dt_X86_INS_VPBROADCASTMW2D
  | dt_X86_INS_VPBROADCASTQ | dt_X86_INS_VPBROADCASTW | dt_X86_INS_VPCLMULQDQ
  | dt_X86_INS_VPCMOV | dt_X86_INS_VPCMPB | dt_X86_INS_VPCMPD
  | dt_X86_INS_VPCMPEQB | dt_X86_INS_VPCMPEQD | dt_X86_INS_VPCMPEQQ
  | dt_X86_INS_VPCMPEQW | dt_X86_INS_VPCMPESTRI | dt_X86_INS_VPCMPESTRM
  | dt_X86_INS_VPCMPGTB | dt_X86_INS_VPCMPGTD | dt_X86_INS_VPCMPGTQ
  | dt_X86_INS_VPCMPGTW | dt_X86_INS_VPCMPISTRI | dt_X86_INS_VPCMPISTRM
  | dt_X86_INS_VPCMPQ | dt_X86_INS_VPCMPUB | dt_X86_INS_VPCMPUD
  | dt_X86_INS_VPCMPUQ | dt_X86_INS_VPCMPUW | dt_X86_INS_VPCMPW
  | dt_X86_INS_VPCOMB | dt_X86_INS_VPCOMD | dt_X86_INS_VPCOMPRESSD
  | dt_X86_INS_VPCOMPRESSQ | dt_X86_INS_VPCOMQ | dt_X86_INS_VPCOMUB
  | dt_X86_INS_VPCOMUD | dt_X86_INS_VPCOMUQ | dt_X86_INS_VPCOMUW
  | dt_X86_INS_VPCOMW | dt_X86_INS_VPCONFLICTD | dt_X86_INS_VPCONFLICTQ
  | dt_X86_INS_VPERM2F128 | dt_X86_INS_VPERM2I128 | dt_X86_INS_VPERMD
  | dt_X86_INS_VPERMI2D | dt_X86_INS_VPERMI2PD | dt_X86_INS_VPERMI2PS
  | dt_X86_INS_VPERMI2Q | dt_X86_INS_VPERMIL2PD | dt_X86_INS_VPERMIL2PS
  | dt_X86_INS_VPERMILPD | dt_X86_INS_VPERMILPS | dt_X86_INS_VPERMPD
  | dt_X86_INS_VPERMPS | dt_X86_INS_VPERMQ | dt_X86_INS_VPERMT2D
  | dt_X86_INS_VPERMT2PD | dt_X86_INS_VPERMT2PS | dt_X86_INS_VPERMT2Q
  | dt_X86_INS_VPEXPANDD | dt_X86_INS_VPEXPANDQ | dt_X86_INS_VPEXTRB
  | dt_X86_INS_VPEXTRD | dt_X86_INS_VPEXTRQ | dt_X86_INS_VPEXTRW
  | dt_X86_INS_VPGATHERDD | dt_X86_INS_VPGATHERDQ | dt_X86_INS_VPGATHERQD
  | dt_X86_INS_VPGATHERQQ | dt_X86_INS_VPHADDBD | dt_X86_INS_VPHADDBQ
  | dt_X86_INS_VPHADDBW | dt_X86_INS_VPHADDDQ | dt_X86_INS_VPHADDD
  | dt_X86_INS_VPHADDSW | dt_X86_INS_VPHADDUBD | dt_X86_INS_VPHADDUBQ
  | dt_X86_INS_VPHADDUBW | dt_X86_INS_VPHADDUDQ | dt_X86_INS_VPHADDUWD
  | dt_X86_INS_VPHADDUWQ | dt_X86_INS_VPHADDWD | dt_X86_INS_VPHADDWQ
  | dt_X86_INS_VPHADDW | dt_X86_INS_VPHMINPOSUW | dt_X86_INS_VPHSUBBW
  | dt_X86_INS_VPHSUBDQ | dt_X86_INS_VPHSUBD | dt_X86_INS_VPHSUBSW
  | dt_X86_INS_VPHSUBWD | dt_X86_INS_VPHSUBW | dt_X86_INS_VPINSRB
  | dt_X86_INS_VPINSRD | dt_X86_INS_VPINSRQ | dt_X86_INS_VPINSRW
  | dt_X86_INS_VPLZCNTD | dt_X86_INS_VPLZCNTQ | dt_X86_INS_VPMACSDD
  | dt_X86_INS_VPMACSDQH | dt_X86_INS_VPMACSDQL | dt_X86_INS_VPMACSSDD
  | dt_X86_INS_VPMACSSDQH | dt_X86_INS_VPMACSSDQL | dt_X86_INS_VPMACSSWD
  | dt_X86_INS_VPMACSSWW | dt_X86_INS_VPMACSWD | dt_X86_INS_VPMACSWW
  | dt_X86_INS_VPMADCSSWD | dt_X86_INS_VPMADCSWD | dt_X86_INS_VPMADDUBSW
  | dt_X86_INS_VPMADDWD | dt_X86_INS_VPMASKMOVD | dt_X86_INS_VPMASKMOVQ
  | dt_X86_INS_VPMAXSB | dt_X86_INS_VPMAXSD | dt_X86_INS_VPMAXSQ
  | dt_X86_INS_VPMAXSW | dt_X86_INS_VPMAXUB | dt_X86_INS_VPMAXUD
  | dt_X86_INS_VPMAXUQ | dt_X86_INS_VPMAXUW | dt_X86_INS_VPMINSB
  | dt_X86_INS_VPMINSD | dt_X86_INS_VPMINSQ | dt_X86_INS_VPMINSW
  | dt_X86_INS_VPMINUB | dt_X86_INS_VPMINUD | dt_X86_INS_VPMINUQ
  | dt_X86_INS_VPMINUW | dt_X86_INS_VPMOVDB | dt_X86_INS_VPMOVDW
  | dt_X86_INS_VPMOVM2B | dt_X86_INS_VPMOVM2D | dt_X86_INS_VPMOVM2Q
  | dt_X86_INS_VPMOVM2W | dt_X86_INS_VPMOVMSKB | dt_X86_INS_VPMOVQB
  | dt_X86_INS_VPMOVQD | dt_X86_INS_VPMOVQW | dt_X86_INS_VPMOVSDB
  | dt_X86_INS_VPMOVSDW | dt_X86_INS_VPMOVSQB | dt_X86_INS_VPMOVSQD
  | dt_X86_INS_VPMOVSQW | dt_X86_INS_VPMOVSXBD | dt_X86_INS_VPMOVSXBQ
  | dt_X86_INS_VPMOVSXBW | dt_X86_INS_VPMOVSXDQ | dt_X86_INS_VPMOVSXWD
  | dt_X86_INS_VPMOVSXWQ | dt_X86_INS_VPMOVUSDB | dt_X86_INS_VPMOVUSDW
  | dt_X86_INS_VPMOVUSQB | dt_X86_INS_VPMOVUSQD | dt_X86_INS_VPMOVUSQW
  | dt_X86_INS_VPMOVZXBD | dt_X86_INS_VPMOVZXBQ | dt_X86_INS_VPMOVZXBW
  | dt_X86_INS_VPMOVZXDQ | dt_X86_INS_VPMOVZXWD | dt_X86_INS_VPMOVZXWQ
  | dt_X86_INS_VPMULDQ | dt_X86_INS_VPMULHRSW | dt_X86_INS_VPMULHUW
  | dt_X86_INS_VPMULHW | dt_X86_INS_VPMULLD | dt_X86_INS_VPMULLQ
  | dt_X86_INS_VPMULLW | dt_X86_INS_VPMULUDQ | dt_X86_INS_VPORD
  | dt_X86_INS_VPORQ | dt_X86_INS_VPOR | dt_X86_INS_VPPERM
  | dt_X86_INS_VPROTB | dt_X86_INS_VPROTD | dt_X86_INS_VPROTQ
  | dt_X86_INS_VPROTW | dt_X86_INS_VPSADBW | dt_X86_INS_VPSCATTERDD
  | dt_X86_INS_VPSCATTERDQ | dt_X86_INS_VPSCATTERQD | dt_X86_INS_VPSCATTERQQ
  | dt_X86_INS_VPSHAB | dt_X86_INS_VPSHAD | dt_X86_INS_VPSHAQ
  | dt_X86_INS_VPSHAW | dt_X86_INS_VPSHLB | dt_X86_INS_VPSHLD
  | dt_X86_INS_VPSHLQ | dt_X86_INS_VPSHLW | dt_X86_INS_VPSHUFB
  | dt_X86_INS_VPSHUFD | dt_X86_INS_VPSHUFHW | dt_X86_INS_VPSHUFLW
  | dt_X86_INS_VPSIGNB | dt_X86_INS_VPSIGND | dt_X86_INS_VPSIGNW
  | dt_X86_INS_VPSLLDQ | dt_X86_INS_VPSLLD | dt_X86_INS_VPSLLQ
  | dt_X86_INS_VPSLLVD | dt_X86_INS_VPSLLVQ | dt_X86_INS_VPSLLW
  | dt_X86_INS_VPSRAD | dt_X86_INS_VPSRAQ | dt_X86_INS_VPSRAVD
  | dt_X86_INS_VPSRAVQ | dt_X86_INS_VPSRAW | dt_X86_INS_VPSRLDQ
  | dt_X86_INS_VPSRLD | dt_X86_INS_VPSRLQ | dt_X86_INS_VPSRLVD
  | dt_X86_INS_VPSRLVQ | dt_X86_INS_VPSRLW | dt_X86_INS_VPSUBB
  | dt_X86_INS_VPSUBD | dt_X86_INS_VPSUBQ | dt_X86_INS_VPSUBSB
  | dt_X86_INS_VPSUBSW | dt_X86_INS_VPSUBUSB | dt_X86_INS_VPSUBUSW
  | dt_X86_INS_VPSUBW | dt_X86_INS_VPTESTMD | dt_X86_INS_VPTESTMQ
  | dt_X86_INS_VPTESTNMD | dt_X86_INS_VPTESTNMQ | dt_X86_INS_VPTEST
  | dt_X86_INS_VPUNPCKHBW | dt_X86_INS_VPUNPCKHDQ | dt_X86_INS_VPUNPCKHQDQ
  | dt_X86_INS_VPUNPCKHWD | dt_X86_INS_VPUNPCKLBW | dt_X86_INS_VPUNPCKLDQ
  | dt_X86_INS_VPUNPCKLQDQ | dt_X86_INS_VPUNPCKLWD | dt_X86_INS_VPXORD
  | dt_X86_INS_VPXORQ | dt_X86_INS_VPXOR | dt_X86_INS_VRCP14PD
  | dt_X86_INS_VRCP14PS | dt_X86_INS_VRCP14SD | dt_X86_INS_VRCP14SS
  | dt_X86_INS_VRCP28PD | dt_X86_INS_VRCP28PS | dt_X86_INS_VRCP28SD
  | dt_X86_INS_VRCP28SS | dt_X86_INS_VRCPPS | dt_X86_INS_VRCPSS
  | dt_X86_INS_VRNDSCALEPD | dt_X86_INS_VRNDSCALEPS | dt_X86_INS_VRNDSCALESD
  | dt_X86_INS_VRNDSCALESS | dt_X86_INS_VROUNDPD | dt_X86_INS_VROUNDPS
  | dt_X86_INS_VROUNDSD | dt_X86_INS_VROUNDSS | dt_X86_INS_VRSQRT14PD
  | dt_X86_INS_VRSQRT14PS | dt_X86_INS_VRSQRT14SD | dt_X86_INS_VRSQRT14SS
  | dt_X86_INS_VRSQRT28PD | dt_X86_INS_VRSQRT28PS | dt_X86_INS_VRSQRT28SD
  | dt_X86_INS_VRSQRT28SS | dt_X86_INS_VRSQRTPS | dt_X86_INS_VRSQRTSS
  | dt_X86_INS_VSCATTERDPD | dt_X86_INS_VSCATTERDPS
  | dt_X86_INS_VSCATTERPF0DPD | dt_X86_INS_VSCATTERPF0DPS
  | dt_X86_INS_VSCATTERPF0QPD | dt_X86_INS_VSCATTERPF0QPS
  | dt_X86_INS_VSCATTERPF1DPD | dt_X86_INS_VSCATTERPF1DPS
  | dt_X86_INS_VSCATTERPF1QPD | dt_X86_INS_VSCATTERPF1QPS
  | dt_X86_INS_VSCATTERQPD | dt_X86_INS_VSCATTERQPS | dt_X86_INS_VSHUFPD
  | dt_X86_INS_VSHUFPS | dt_X86_INS_VSQRTPD | dt_X86_INS_VSQRTPS
  | dt_X86_INS_VSQRTSD | dt_X86_INS_VSQRTSS | dt_X86_INS_VSTMXCSR
  | dt_X86_INS_VSUBPD | dt_X86_INS_VSUBPS | dt_X86_INS_VSUBSD
  | dt_X86_INS_VSUBSS | dt_X86_INS_VTESTPD | dt_X86_INS_VTESTPS
  | dt_X86_INS_VUNPCKHPD | dt_X86_INS_VUNPCKHPS | dt_X86_INS_VUNPCKLPD
  | dt_X86_INS_VUNPCKLPS | dt_X86_INS_VZEROALL | dt_X86_INS_VZEROUPPER
  | dt_X86_INS_WBINVD | dt_X86_INS_WRFSBASE | dt_X86_INS_WRGSBASE
  | dt_X86_INS_WRMSR | dt_X86_INS_XABORT | dt_X86_INS_XACQUIRE
  | dt_X86_INS_XBEGIN | dt_X86_INS_XCHG | dt_X86_INS_XCRYPTCBC
  | dt_X86_INS_XCRYPTCFB | dt_X86_INS_XCRYPTCTR | dt_X86_INS_XCRYPTECB
  | dt_X86_INS_XCRYPTOFB | dt_X86_INS_XEND | dt_X86_INS_XGETBV
  | dt_X86_INS_XLATB | dt_X86_INS_XRELEASE | dt_X86_INS_XRSTOR
  | dt_X86_INS_XRSTOR64 | dt_X86_INS_XRSTORS | dt_X86_INS_XRSTORS64
  | dt_X86_INS_XSAVE | dt_X86_INS_XSAVE64 | dt_X86_INS_XSAVEC
  | dt_X86_INS_XSAVEC64 | dt_X86_INS_XSAVEOPT | dt_X86_INS_XSAVEOPT64
  | dt_X86_INS_XSAVES | dt_X86_INS_XSAVES64 | dt_X86_INS_XSETBV
  | dt_X86_INS_XSHA1 | dt_X86_INS_XSHA256 | dt_X86_INS_XSTORE
  | dt_X86_INS_XTEST | dt_X86_INS_FDISI8087_NOP | dt_X86_INS_FENI8087_NOP
  | dt_X86_INS_CMPSS | dt_X86_INS_CMPEQSS | dt_X86_INS_CMPLTSS
  | dt_X86_INS_CMPLESS | dt_X86_INS_CMPUNORDSS | dt_X86_INS_CMPNEQSS
  | dt_X86_INS_CMPNLTSS | dt_X86_INS_CMPNLESS | dt_X86_INS_CMPORDSS
  | dt_X86_INS_CMPSD | dt_X86_INS_CMPEQSD | dt_X86_INS_CMPLTSD
  | dt_X86_INS_CMPLESD | dt_X86_INS_CMPUNORDSD | dt_X86_INS_CMPNEQSD
  | dt_X86_INS_CMPNLTSD | dt_X86_INS_CMPNLESD | dt_X86_INS_CMPORDSD
  | dt_X86_INS_CMPPS | dt_X86_INS_CMPEQPS | dt_X86_INS_CMPLTPS
  | dt_X86_INS_CMPLEPS | dt_X86_INS_CMPUNORDPS | dt_X86_INS_CMPNEQPS
  | dt_X86_INS_CMPNLTPS | dt_X86_INS_CMPNLEPS | dt_X86_INS_CMPORDPS
  | dt_X86_INS_CMPPD | dt_X86_INS_CMPEQPD | dt_X86_INS_CMPLTPD
  | dt_X86_INS_CMPLEPD | dt_X86_INS_CMPUNORDPD | dt_X86_INS_CMPNEQPD
  | dt_X86_INS_CMPNLTPD | dt_X86_INS_CMPNLEPD | dt_X86_INS_CMPORDPD
  | dt_X86_INS_VCMPSS | dt_X86_INS_VCMPEQSS | dt_X86_INS_VCMPLTSS
  | dt_X86_INS_VCMPLESS | dt_X86_INS_VCMPUNORDSS | dt_X86_INS_VCMPNEQSS
  | dt_X86_INS_VCMPNLTSS | dt_X86_INS_VCMPNLESS | dt_X86_INS_VCMPORDSS
  | dt_X86_INS_VCMPEQ_UQSS | dt_X86_INS_VCMPNGESS | dt_X86_INS_VCMPNGTSS
  | dt_X86_INS_VCMPFALSESS | dt_X86_INS_VCMPNEQ_OQSS | dt_X86_INS_VCMPGESS
  | dt_X86_INS_VCMPGTSS | dt_X86_INS_VCMPTRUESS | dt_X86_INS_VCMPEQ_OSSS
  | dt_X86_INS_VCMPLT_OQSS | dt_X86_INS_VCMPLE_OQSS
  | dt_X86_INS_VCMPUNORD_SSS | dt_X86_INS_VCMPNEQ_USSS
  | dt_X86_INS_VCMPNLT_UQSS | dt_X86_INS_VCMPNLE_UQSS
  | dt_X86_INS_VCMPORD_SSS | dt_X86_INS_VCMPEQ_USSS | dt_X86_INS_VCMPNGE_UQSS
  | dt_X86_INS_VCMPNGT_UQSS | dt_X86_INS_VCMPFALSE_OSSS
  | dt_X86_INS_VCMPNEQ_OSSS | dt_X86_INS_VCMPGE_OQSS | dt_X86_INS_VCMPGT_OQSS
  | dt_X86_INS_VCMPTRUE_USSS | dt_X86_INS_VCMPSD | dt_X86_INS_VCMPEQSD
  | dt_X86_INS_VCMPLTSD | dt_X86_INS_VCMPLESD | dt_X86_INS_VCMPUNORDSD
  | dt_X86_INS_VCMPNEQSD | dt_X86_INS_VCMPNLTSD | dt_X86_INS_VCMPNLESD
  | dt_X86_INS_VCMPORDSD | dt_X86_INS_VCMPEQ_UQSD | dt_X86_INS_VCMPNGESD
  | dt_X86_INS_VCMPNGTSD | dt_X86_INS_VCMPFALSESD | dt_X86_INS_VCMPNEQ_OQSD
  | dt_X86_INS_VCMPGESD | dt_X86_INS_VCMPGTSD | dt_X86_INS_VCMPTRUESD
  | dt_X86_INS_VCMPEQ_OSSD | dt_X86_INS_VCMPLT_OQSD | dt_X86_INS_VCMPLE_OQSD
  | dt_X86_INS_VCMPUNORD_SSD | dt_X86_INS_VCMPNEQ_USSD
  | dt_X86_INS_VCMPNLT_UQSD | dt_X86_INS_VCMPNLE_UQSD
  | dt_X86_INS_VCMPORD_SSD | dt_X86_INS_VCMPEQ_USSD | dt_X86_INS_VCMPNGE_UQSD
  | dt_X86_INS_VCMPNGT_UQSD | dt_X86_INS_VCMPFALSE_OSSD
  | dt_X86_INS_VCMPNEQ_OSSD | dt_X86_INS_VCMPGE_OQSD | dt_X86_INS_VCMPGT_OQSD
  | dt_X86_INS_VCMPTRUE_USSD | dt_X86_INS_VCMPPS | dt_X86_INS_VCMPEQPS
  | dt_X86_INS_VCMPLTPS | dt_X86_INS_VCMPLEPS | dt_X86_INS_VCMPUNORDPS
  | dt_X86_INS_VCMPNEQPS | dt_X86_INS_VCMPNLTPS | dt_X86_INS_VCMPNLEPS
  | dt_X86_INS_VCMPORDPS | dt_X86_INS_VCMPEQ_UQPS | dt_X86_INS_VCMPNGEPS
  | dt_X86_INS_VCMPNGTPS | dt_X86_INS_VCMPFALSEPS | dt_X86_INS_VCMPNEQ_OQPS
  | dt_X86_INS_VCMPGEPS | dt_X86_INS_VCMPGTPS | dt_X86_INS_VCMPTRUEPS
  | dt_X86_INS_VCMPEQ_OSPS | dt_X86_INS_VCMPLT_OQPS | dt_X86_INS_VCMPLE_OQPS
  | dt_X86_INS_VCMPUNORD_SPS | dt_X86_INS_VCMPNEQ_USPS
  | dt_X86_INS_VCMPNLT_UQPS | dt_X86_INS_VCMPNLE_UQPS
  | dt_X86_INS_VCMPORD_SPS | dt_X86_INS_VCMPEQ_USPS | dt_X86_INS_VCMPNGE_UQPS
  | dt_X86_INS_VCMPNGT_UQPS | dt_X86_INS_VCMPFALSE_OSPS
  | dt_X86_INS_VCMPNEQ_OSPS | dt_X86_INS_VCMPGE_OQPS | dt_X86_INS_VCMPGT_OQPS
  | dt_X86_INS_VCMPTRUE_USPS | dt_X86_INS_VCMPPD | dt_X86_INS_VCMPEQPD
  | dt_X86_INS_VCMPLTPD | dt_X86_INS_VCMPLEPD | dt_X86_INS_VCMPUNORDPD
  | dt_X86_INS_VCMPNEQPD | dt_X86_INS_VCMPNLTPD | dt_X86_INS_VCMPNLEPD
  | dt_X86_INS_VCMPORDPD | dt_X86_INS_VCMPEQ_UQPD | dt_X86_INS_VCMPNGEPD
  | dt_X86_INS_VCMPNGTPD | dt_X86_INS_VCMPFALSEPD | dt_X86_INS_VCMPNEQ_OQPD
  | dt_X86_INS_VCMPGEPD | dt_X86_INS_VCMPGTPD | dt_X86_INS_VCMPTRUEPD
  | dt_X86_INS_VCMPEQ_OSPD | dt_X86_INS_VCMPLT_OQPD | dt_X86_INS_VCMPLE_OQPD
  | dt_X86_INS_VCMPUNORD_SPD | dt_X86_INS_VCMPNEQ_USPD
  | dt_X86_INS_VCMPNLT_UQPD | dt_X86_INS_VCMPNLE_UQPD
  | dt_X86_INS_VCMPORD_SPD | dt_X86_INS_VCMPEQ_USPD | dt_X86_INS_VCMPNGE_UQPD
  | dt_X86_INS_VCMPNGT_UQPD | dt_X86_INS_VCMPFALSE_OSPD
  | dt_X86_INS_VCMPNEQ_OSPD | dt_X86_INS_VCMPGE_OQPD | dt_X86_INS_VCMPGT_OQPD
  | dt_X86_INS_VCMPTRUE_USPD | dt_X86_INS_UD0 | dt_X86_INS_UD1
  | dt_X86_INS_ENDBR32 | dt_X86_INS_ENDBR64 | dt_X86_INS_BNDMOV
  | dt_X86_INS_ENDING.

Definition insn_code (x : dt_x86_insn) : Z :=
  match x with
  | dt_X86_INS_INVALID => 0 | dt_X86_INS_F2XM1 => 1 | dt_X86_INS_WAIT => 2
  | dt_X86_INS_FADD => 3 | dt_X86_INS_FADDP => 4 | dt_X86_INS_FBLD => 5
  | dt_X86_INS_FBSTP => 6 | dt_X86_INS_FCOM => 7 | dt_X86_INS_FCOMI => 8
  | dt_X86_INS_FCOMIP => 9 | dt_X86_INS_FCOMP => 10 | dt_X86_INS_FCOMPP => 11
  | dt_X86_INS_FCOS => 12 | dt_X86_INS_FDIV => 13 | dt_X86_INS_FDIVP => 14
  | dt_X86_INS_FDIVR => 15 | dt_X86_INS_FDIVRP => 16 | dt_X86_INS_FIADD => 17
  | dt_X86_INS_FICOM => 18 | dt_X86_INS_FICOMP => 19 | dt_X86_INS_FIDIV => 20
  | dt_X86_INS_FIDIVR => 21 | dt_X86_INS_FIMUL => 22
  | dt_X86_INS_FISTTP => 23 | dt_X86_INS_FISUB => 24
  | dt_X86_INS_FISUBR => 25 | dt_X86_INS_FMUL => 26 | dt_X86_INS_FMULP => 27
  | dt_X86_INS_FNOP => 28 | dt_X86_INS_FPATAN => 29 | dt_X86_INS_FPREM1 => 30
  | dt_X86_INS_FPREM => 31 | dt_X86_INS_FPTAN => 32
  | dt_X86_INS_FRNDINT => 33 | dt_X86_INS_FSCALE => 34
  | dt_X86_INS_FSETPM => 35 | dt_X86_INS_FSIN => 36
  | dt_X86_INS_FSINCOS => 37 | dt_X86_INS_FSQRT => 38 | dt_X86_INS_FSUB => 39
  | dt_X86_INS_FSUBP => 40 | dt_X86_INS_FSUBR => 41 | dt_X86_INS_FSUBRP => 42
  | dt_X86_INS_FTST => 43 | dt_X86_INS_FUCOM => 44 | dt_X86_INS_FUCOMI => 45
  | dt_X86_INS_FUCOMIP => 46 | dt_X86_INS_FUCOMP => 47
  | dt_X86_INS_FUCOMPP => 48 | dt_X86_INS_FXRSTOR => 49
  | dt_X86_INS_FXSAVE => 50 | dt_X86_INS_FXTRACT => 51
  | dt_X86_INS_FYL2X => 52 | dt_X86_INS_FYL2XP1 => 53 | dt_X86_INS_AAA => 54
  | dt_X86_INS_AAD => 55 | dt_X86_INS_AAM => 56 | dt_X86_INS_AAS => 57
  | dt_X86_INS_FABS => 58 | dt_X86_INS_FCHS => 59 | dt_X86_INS_FCMOVBE => 60
  | dt_X86_INS_FCMOVB => 61 | dt_X86_INS_FCMOVE => 62
  | dt_X86_INS_FCMOVNBE => 63 | dt_X86_INS_FCMOVNB => 64
  | dt_X86_INS_FCMOVNE => 65 | dt_X86_INS_FCMOVNU => 66
  | dt_X86_INS_FCMOVU => 67 | dt_X86_INS_FDECSTP => 68
  | dt_X86_INS_FFREE => 69 | dt_X86_INS_FFREEP => 70 | dt_X86_INS_FILD => 71
  | dt_X86_INS_FINCSTP => 72 | dt_X86_INS_FIST => 73 | dt_X86_INS_FISTP => 74
  | dt_X86_INS_FLD => 75 | dt_X86_INS_FLD1 => 76 | dt_X86_INS_FLDCW => 77
  | dt_X86_INS_FLDENV => 78 | dt_X86_INS_FLDL2E => 79
  | dt_X86_INS_FLDL2T => 80 | dt_X86_INS_FLDLG2 => 81
  | dt_X86_INS_FLDLN2 => 82 | dt_X86_INS_FLDPI => 83 | dt_X86_INS_FLDZ => 84
  | dt_X86_INS_FNCLEX => 85 | dt_X86_INS_FNINIT => 86
  | dt_X86_INS_FNSAVE => 87 | dt_X86_INS_FNSTENV => 88
  | dt_X86_INS_FNSTCW => 89 | dt_X86_INS_FNSTSW => 90
  | dt_X86_INS_FRSTOR => 91 | dt_X86_INS_FST => 92 | dt_X86_INS_FSTP => 93
  | dt_X86_INS_FXAM => 94 | dt_X86_INS_FXCH => 95 | dt_X86_INS_ADC => 96
  | dt_X86_INS_ADCX => 97 | dt_X86_INS_ADD => 98 | dt_X86_INS_ADDPD => 99
  | dt_X86_INS_ADDPS => 100 | dt_X86_INS_ADDSD => 101
  | dt_X86_INS_ADDSS => 102 | dt_X86_INS_ADDSUBPD => 103
  | dt_X86_INS_ADDSUBPS => 104 | dt_X86_INS_ADOX => 105
  | dt_X86_INS_AESDECLAST => 106 | dt_X86_INS_AESDEC => 107
  | dt_X86_INS_AESENCLAST => 108 | dt_X86_INS_AESENC => 109
  | dt_X86_INS_AESIMC => 110 | dt_X86_INS_AESKEYGENASSIST => 111
  | dt_X86_INS_AND => 112 | dt_X86_INS_ANDN => 113 | dt_X86_INS_ANDNPD => 114
  | dt_X86_INS_ANDNPS => 115 | dt_X86_INS_ANDPD => 116
  | dt_X86_INS_ANDPS => 117 | dt_X86_INS_ARPL => 118
  | dt_X86_INS_BEXTR => 119 | dt_X86_INS_BLCFILL => 120
  | dt_X86_INS_BLCI => 121 | dt_X86_INS_BLCIC => 122
  | dt_X86_INS_BLCMSK => 123 | dt_X86_INS_BLCS => 124
  | dt_X86_INS_BLENDPD => 125 | dt_X86_INS_BLENDPS => 126
  | dt_X86_INS_BLENDVPD => 127 | dt_X86_INS_BLENDVPS => 128
  | dt_X86_INS_BLSFILL => 129 | dt_X86_INS_BLSI => 130
  | dt_X86_INS_BLSIC => 131 | dt_X86_INS_BLSMSK => 132
  | dt_X86_INS_BLSR => 133 | dt_X86_INS_BOUND => 134 | dt_X86_INS_BSF => 135
  | dt_X86_INS_BSR => 136 | dt_X86_INS_BSWAP => 137 | dt_X86_INS_BT => 138
  | dt_X86_INS_BTC => 139 | dt_X86_INS_BTR => 140 | dt_X86_INS_BTS => 141
  | dt_X86_INS_BZHI => 142 | dt_X86_INS_CALL => 143 | dt_X86_INS_CBW => 144
  | dt_X86_INS_CDQ => 145 | dt_X86_INS_CDQE => 146 | dt_X86_INS_CLAC => 147
  | dt_X86_INS_CLC => 148 | dt_X86_INS_CLD => 149 | dt_X86_INS_CLFLUSH => 150
  | dt_X86_INS_CLFLUSHOPT => 151 | dt_X86_INS_CLGI => 152
  | dt_X86_INS_CLI => 153 | dt_X86_INS_CLTS => 154 | dt_X86_INS_CLWB => 155
  | dt_X86_INS_CMC => 156 | dt_X86_INS_CMOVA => 157
  | dt_X86_INS_CMOVAE => 158 | dt_X86_INS_CMOVB => 159
  | dt_X86_INS_CMOVBE => 160 | dt_X86_INS_CMOVE => 161
  | dt_X86_INS_CMOVG => 162 | dt_X86_INS_CMOVGE => 163
  | dt_X86_INS_CMOVL => 164 | dt_X86_INS_CMOVLE => 165
  | dt_X86_INS_CMOVNE => 166 | dt_X86_INS_CMOVNO => 167
  | dt_X86_INS_CMOVNP => 168 | dt_X86_INS_CMOVNS => 169
  | dt_X86_INS_CMOVO => 170 | dt_X86_INS_CMOVP => 171
  | dt_X86_INS_CMOVS => 172 | dt_X86_INS_CMP => 173 | dt_X86_INS_CMPSB => 174
  | dt_X86_INS_CMPSQ => 175 | dt_X86_INS_CMPSW => 176
  | dt_X86_INS_CMPXCHG16B => 177 | dt_X86_INS_CMPXCHG => 178
  | dt_X86_INS_CMPXCHG8B => 179 | dt_X86_INS_COMISD => 180
  | dt_X86_INS_COMISS => 181 | dt_X86_INS_CPUID => 182
  | dt_X86_INS_CQO => 183 | dt_X86_INS_CRC32 => 184
  | dt_X86_INS_CVTDQ2PD => 185 | dt_X86_INS_CVTDQ2PS => 186
  | dt_X86_INS_CVTPD2DQ => 187 | dt_X86_INS_CVTPD2PS => 188
  | dt_X86_INS_CVTPS2DQ => 189 | dt_X86_INS_CVTPS2PD => 190
  | dt_X86_INS_CVTSD2SI => 191 | dt_X86_INS_CVTSD2SS => 192
  | dt_X86_INS_CVTSI2SD => 193 | dt_X86_INS_CVTSI2SS => 194
  | dt_X86_INS_CVTSS2SD => 195 | dt_X86_INS_CVTSS2SI => 196
  | dt_X86_INS_CVTTPD2DQ => 197 | dt_X86_INS_CVTTPS2DQ => 198
  | dt_X86_INS_CVTTSD2SI => 199 | dt_X86_INS_CVTTSS2SI => 200
  | dt_X86_INS_CWD => 201 | dt_X86_INS_CWDE => 202 | dt_X86_INS_DAA => 203
  | dt_X86_INS_DAS => 204 | dt_X86_INS_DATA16 => 205 | dt_X86_INS_DEC => 206
  | dt_X86_INS_DIV => 207 | dt_X86_INS_DIVPD => 208 | dt_X86_INS_DIVPS => 209
  | dt_X86_INS_DIVSD => 210 | dt_X86_INS_DIVSS => 211
  | dt_X86_INS_DPPD => 212 | dt_X86_INS_DPPS => 213 | dt_X86_INS_RET => 214
  | dt_X86_INS_ENCLS => 215 | dt_X86_INS_ENCLU => 216
  | dt_X86_INS_ENTER => 217 | dt_X86_INS_EXTRACTPS => 218
  | dt_X86_INS_EXTRQ => 219 | dt_X86_INS_LCALL => 220
  | dt_X86_INS_LJMP => 221 | dt_X86_INS_FEMMS => 222
  | dt_X86_INS_FXRSTOR64 => 223 | dt_X86_INS_FXSAVE64 => 224
  | dt_X86_INS_MOVAPD => 225 | dt_X86_INS_MOVAPS => 226
  | dt_X86_INS_ORPD => 227 | dt_X86_INS_ORPS => 228
  | dt_X86_INS_VMOVAPD => 229 | dt_X86_INS_VMOVAPS => 230
  | dt_X86_INS_XORPD => 231 | dt_X86_INS_XORPS => 232
  | dt_X86_INS_GETSEC => 233 | dt_X86_INS_HADDPD => 234
  | dt_X86_INS_HADDPS => 235 | dt_X86_INS_HLT => 236
  | dt_X86_INS_HSUBPD => 237 | dt_X86_INS_HSUBPS => 238
  | dt_X86_INS_IDIV => 239 | dt_X86_INS_IMUL => 240 | dt_X86_INS_IN => 241
  | dt_X86_INS_INC => 242 | dt_X86_INS_INSB => 243
  | dt_X86_INS_INSERTPS => 244 | dt_X86_INS_INSERTQ => 245
  | dt_X86_INS_INSD => 246 | dt_X86_INS_INSW => 247 | dt_X86_INS_INT => 248
  | dt_X86_INS_INT1 => 249 | dt_X86_INS_INT3 => 250 | dt_X86_INS_INTO => 251
  | dt_X86_INS_INVD => 252 | dt_X86_INS_INVEPT => 253
  | dt_X86_INS_INVLPG => 254 | dt_X86_INS_INVLPGA => 255
  | dt_X86_INS_INVPCID => 256 | dt_X86_INS_INVVPID => 257
  | dt_X86_INS_IRET => 258 | dt_X86_INS_IRETD => 259
  | dt_X86_INS_IRETQ => 260 | dt_X86_INS_UCOMISD => 261
  | dt_X86_INS_UCOMISS => 262 | dt_X86_INS_VCOMISD => 263
  | dt_X86_INS_VCOMISS => 264 | dt_X86_INS_VCVTSD2SS => 265
  | dt_X86_INS_VCVTSI2SD => 266 | dt_X86_INS_VCVTSI2SS => 267
  | dt_X86_INS_VCVTSS2SD => 268 | dt_X86_INS_VCVTTSD2SI => 269
  | dt_X86_INS_VCVTTSD2USI => 270 | dt_X86_INS_VCVTTSS2SI => 271
  | dt_X86_INS_VCVTTSS2USI => 272 | dt_X86_INS_VCVTUSI2SD => 273
  | dt_X86_INS_VCVTUSI2SS => 274 | dt_X86_INS_VUCOMISD => 275
  | dt_X86_INS_VUCOMISS => 276 | dt_X86_INS_JAE => 277 | dt_X86_INS_JA => 278
  | dt_X86_INS_JBE => 279 | dt_X86_INS_JB => 280 | dt_X86_INS_JCXZ => 281
  | dt_X86_INS_JECXZ => 282 | dt_X86_INS_JE => 283 | dt_X86_INS_JGE => 284
  | dt_X86_INS_JG => 285 | dt_X86_INS_JLE => 286 | dt_X86_INS_JL => 287
  | dt_X86_INS_JMP => 288 | dt_X86_INS_JNE => 289 | dt_X86_INS_JNO => 290
  | dt_X86_INS_JNP => 291 | dt_X86_INS_JNS => 292 | dt_X86_INS_JO => 293
  | dt_X86_INS_JP => 294 | dt_X86_INS_JRCXZ => 295 | dt_X86_INS_JS => 296
  | dt_X86_INS_KANDB => 297 | dt_X86_INS_KANDD => 298
  | dt_X86_INS_KANDNB => 299 | dt_X86_INS_KANDND => 300
  | dt_X86_INS_KANDNQ => 301 | dt_X86_INS_KANDNW => 302
  | dt_X86_INS_KANDQ => 303 | dt_X86_INS_KANDW => 304
  | dt_X86_INS_KMOVB => 305 | dt_X86_INS_KMOVD => 306
  | dt_X86_INS_KMOVQ => 307 | dt_X86_INS_KMOVW => 308
  | dt_X86_INS_KNOTB => 309 | dt_X86_INS_KNOTD => 310
  | dt_X86_INS_KNOTQ => 311 | dt_X86_INS_KNOTW => 312
  | dt_X86_INS_KORB => 313 | dt_X86_INS_KORD => 314 | dt_X86_INS_KORQ => 315
  | dt_X86_INS_KORTESTB => 316 | dt_X86_INS_KORTESTD => 317
  | dt_X86_INS_KORTESTQ => 318 | dt_X86_INS_KORTESTW => 319
  | dt_X86_INS_KORW => 320 | dt_X86_INS_KSHIFTLB => 321
  | dt_X86_INS_KSHIFTLD => 322 | dt_X86_INS_KSHIFTLQ => 323
  | dt_X86_INS_KSHIFTLW => 324 | dt_X86_INS_KSHIFTRB => 325
  | dt_X86_INS_KSHIFTRD => 326 | dt_X86_INS_KSHIFTRQ => 327
  | dt_X86_INS_KSHIFTRW => 328 | dt_X86_INS_KUNPCKBW => 329
  | dt_X86_INS_KXNORB => 330 | dt_X86_INS_KXNORD => 331
  | dt_X86_INS_KXNORQ => 332 | dt_X86_INS_KXNORW => 333
  | dt_X86_INS_KXORB => 334 | dt_X86_INS_KXORD => 335
  | dt_X86_INS_KXORQ => 336 | dt_X86_INS_KXORW => 337
  | dt_X86_INS_LAHF => 338 | dt_X86_INS_LAR => 339 | dt_X86_INS_LDDQU => 340
  | dt_X86_INS_LDMXCSR => 341 | dt_X86_INS_LDS => 342 | dt_X86_INS_LEA => 343
  | dt_X86_INS_LEAVE => 344 | dt_X86_INS_LES => 345
  | dt_X86_INS_LFENCE => 346 | dt_X86_INS_LFS => 347 | dt_X86_INS_LGDT => 348
  | dt_X86_INS_LGS => 349 | dt_X86_INS_LIDT => 350 | dt_X86_INS_LLDT => 351
  | dt_X86_INS_LMSW => 352 | dt_X86_INS_OR => 353 | dt_X86_INS_SUB => 354
  | dt_X86_INS_XOR => 355 | dt_X86_INS_LODSB => 356 | dt_X86_INS_LODSD => 357
  | dt_X86_INS_LODSQ => 358 | dt_X86_INS_LODSW => 359
  | dt_X86_INS_LOOP => 360 | dt_X86_INS_LOOPE => 361
  | dt_X86_INS_LOOPNE => 362 | dt_X86_INS_RETF => 363
  | dt_X86_INS_RETFQ => 364 | dt_X86_INS_LSL => 365 | dt_X86_INS_LSS => 366
  | dt_X86_INS_LTR => 367 | dt_X86_INS_XADD => 368 | dt_X86_INS_LZCNT => 369
  | dt_X86_INS_MASKMOVDQU => 370 | dt_X86_INS_MAXPD => 371
  | dt_X86_INS_MAXPS => 372 | dt_X86_INS_MAXSD => 373
  | dt_X86_INS_MAXSS => 374 | dt_X86_INS_MFENCE => 375
  | dt_X86_INS_MINPD => 376 | dt_X86_INS_MINPS => 377
  | dt_X86_INS_MINSD => 378 | dt_X86_INS_MINSS => 379
  | dt_X86_INS_CVTPD2PI => 380 | dt_X86_INS_CVTPI2PD => 381
  | dt_X86_INS_CVTPI2PS => 382 | dt_X86_INS_CVTPS2PI => 383
  | dt_X86_INS_CVTTPD2PI => 384 | dt_X86_INS_CVTTPS2PI => 385
  | dt_X86_INS_EMMS => 386 | dt_X86_INS_MASKMOVQ => 387
  | dt_X86_INS_MOVD => 388 | dt_X86_INS_MOVDQ2Q => 389
  | dt_X86_INS_MOVNTQ => 390 | dt_X86_INS_MOVQ2DQ => 391
  | dt_X86_INS_MOVQ => 392 | dt_X86_INS_PABSB => 393
  | dt_X86_INS_PABSD => 394 | dt_X86_INS_PABSW => 395
  | dt_X86_INS_PACKSSDW => 396 | dt_X86_INS_PACKSSWB => 397
  | dt_X86_INS_PACKUSWB => 398 | dt_X86_INS_PADDB => 399
  | dt_X86_INS_PADDD => 400 | dt_X86_INS_PADDQ => 401
  | dt_X86_INS_PADDSB => 402 | dt_X86_INS_PADDSW => 403
  | dt_X86_INS_PADDUSB => 404 | dt_X86_INS_PADDUSW => 405
  | dt_X86_INS_PADDW => 406 | dt_X86_INS_PALIGNR => 407
  | dt_X86_INS_PANDN => 408 | dt_X86_INS_PAND => 409
  | dt_X86_INS_PAVGB => 410 | dt_X86_INS_PAVGW => 411
  | dt_X86_INS_PCMPEQB => 412 | dt_X86_INS_PCMPEQD => 413
  | dt_X86_INS_PCMPEQW => 414 | dt_X86_INS_PCMPGTB => 415
  | dt_X86_INS_PCMPGTD => 416 | dt_X86_INS_PCMPGTW => 417
  | dt_X86_INS_PEXTRW => 418 | dt_X86_INS_PHADDSW => 419
  | dt_X86_INS_PHADDW => 420 | dt_X86_INS_PHADDD => 421
  | dt_X86_INS_PHSUBD => 422 | dt_X86_INS_PHSUBSW => 423
  | dt_X86_INS_PHSUBW => 424 | dt_X86_INS_PINSRW => 425
  | dt_X86_INS_PMADDUBSW => 426 | dt_X86_INS_PMADDWD => 427
  | dt_X86_INS_PMAXSW => 428 | dt_X86_INS_PMAXUB => 429
  | dt_X86_INS_PMINSW => 430 | dt_X86_INS_PMINUB => 431
  | dt_X86_INS_PMOVMSKB => 432 | dt_X86_INS_PMULHRSW => 433
  | dt_X86_INS_PMULHUW => 434 | dt_X86_INS_PMULHW => 435
  | dt_X86_INS_PMULLW => 436 | dt_X86_INS_PMULUDQ => 437
  | dt_X86_INS_POR => 438 | dt_X86_INS_PSADBW => 439
  | dt_X86_INS_PSHUFB => 440 | dt_X86_INS_PSHUFW => 441
  | dt_X86_INS_PSIGNB => 442 | dt_X86_INS_PSIGND => 443
  | dt_X86_INS_PSIGNW => 444 | dt_X86_INS_PSLLD => 445
  | dt_X86_INS_PSLLQ => 446 | dt_X86_INS_PSLLW => 447
  | dt_X86_INS_PSRAD => 448 | dt_X86_INS_PSRAW => 449
  | dt_X86_INS_PSRLD => 450 | dt_X86_INS_PSRLQ => 451
  | dt_X86_INS_PSRLW => 452 | dt_X86_INS_PSUBB => 453
  | dt_X86_INS_PSUBD => 454 | dt_X86_INS_PSUBQ => 455
  | dt_X86_INS_PSUBSB => 456 | dt_X86_INS_PSUBSW => 457
  | dt_X86_INS_PSUBUSB => 458 | dt_X86_INS_PSUBUSW => 459
  | dt_X86_INS_PSUBW => 460 | dt_X86_INS_PUNPCKHBW => 461
  | dt_X86_INS_PUNPCKHDQ => 462 | dt_X86_INS_PUNPCKHWD => 463
  | dt_X86_INS_PUNPCKLBW => 464 | dt_X86_INS_PUNPCKLDQ => 465
  | dt_X86_INS_PUNPCKLWD => 466 | dt_X86_INS_PXOR => 467
  | dt_X86_INS_MONITOR => 468 | dt_X86_INS_MONTMUL => 469
  | dt_X86_INS_MOV => 470 | dt_X86_INS_MOVABS => 471
  | dt_X86_INS_MOVBE => 472 | dt_X86_INS_MOVDDUP => 473
  | dt_X86_INS_MOVDQA => 474 | dt_X86_INS_MOVDQU => 475
  | dt_X86_INS_MOVHLPS => 476 | dt_X86_INS_MOVHPD => 477
  | dt_X86_INS_MOVHPS => 478 | dt_X86_INS_MOVLHPS => 479
  | dt_X86_INS_MOVLPD => 480 | dt_X86_INS_MOVLPS => 481
  | dt_X86_INS_MOVMSKPD => 482 | dt_X86_INS_MOVMSKPS => 483
  | dt_X86_INS_MOVNTDQA => 484 | dt_X86_INS_MOVNTDQ => 485
  | dt_X86_INS_MOVNTI => 486 | dt_X86_INS_MOVNTPD => 487
  | dt_X86_INS_MOVNTPS => 488 | dt_X86_INS_MOVNTSD => 489
  | dt_X86_INS_MOVNTSS => 490 | dt_X86_INS_MOVSB => 491
  | dt_X86_INS_MOVSD => 492 | dt_X86_INS_MOVSHDUP => 493
  | dt_X86_INS_MOVSLDUP => 494 | dt_X86_INS_MOVSQ => 495
  | dt_X86_INS_MOVSS => 496 | dt_X86_INS_MOVSW => 497
  | dt_X86_INS_MOVSX => 498 | dt_X86_INS_MOVSXD => 499
  | dt_X86_INS_MOVUPD => 500 | dt_X86_INS_MOVUPS => 501
  | dt_X86_INS_MOVZX => 502 | dt_X86_INS_MPSADBW => 503
  | dt_X86_INS_MUL => 504 | dt_X86_INS_MULPD => 505 | dt_X86_INS_MULPS => 506
  | dt_X86_INS_MULSD => 507 | dt_X86_INS_MULSS => 508
  | dt_X86_INS_MULX => 509 | dt_X86_INS_MWAIT => 510 | dt_X86_INS_NEG => 511
  | dt_X86_INS_NOP => 512 | dt_X86_INS_NOT => 513 | dt_X86_INS_OUT => 514
  | dt_X86_INS_OUTSB => 515 | dt_X86_INS_OUTSD => 516
  | dt_X86_INS_OUTSW => 517 | dt_X86_INS_PACKUSDW => 518
  | dt_X86_INS_PAUSE => 519 | dt_X86_INS_PAVGUSB => 520
  | dt_X86_INS_PBLENDVB => 521 | dt_X86_INS_PBLENDW => 522
  | dt_X86_INS_PCLMULQDQ => 523 | dt_X86_INS_PCMPEQQ => 524
  | dt_X86_INS_PCMPESTRI => 525 | dt_X86_INS_PCMPESTRM => 526
  | dt_X86_INS_PCMPGTQ => 527 | dt_X86_INS_PCMPISTRI => 528
  | dt_X86_INS_PCMPISTRM => 529 | dt_X86_INS_PCOMMIT => 530
  | dt_X86_INS_PDEP => 531 | dt_X86_INS_PEXT => 532
  | dt_X86_INS_PEXTRB => 533 | dt_X86_INS_PEXTRD => 534
  | dt_X86_INS_PEXTRQ => 535 | dt_X86_INS_PF2ID => 536
  | dt_X86_INS_PF2IW => 537 | dt_X86_INS_PFACC => 538
  | dt_X86_INS_PFADD => 539 | dt_X86_INS_PFCMPEQ => 540
  | dt_X86_INS_PFCMPGE => 541 | dt_X86_INS_PFCMPGT => 542
  | dt_X86_INS_PFMAX => 543 | dt_X86_INS_PFMIN => 544
  | dt_X86_INS_PFMUL => 545 | dt_X86_INS_PFNACC => 546
  | dt_X86_INS_PFPNACC => 547 | dt_X86_INS_PFRCPIT1 => 548
  | dt_X86_INS_PFRCPIT2 => 549 | dt_X86_INS_PFRCP => 550
  | dt_X86_INS_PFRSQIT1 => 551 | dt_X86_INS_PFRSQRT => 552
  | dt_X86_INS_PFSUBR => 553 | dt_X86_INS_PFSUB => 554
  | dt_X86_INS_PHMINPOSUW => 555 | dt_X86_INS_PI2FD => 556
  | dt_X86_INS_PI2FW => 557 | dt_X86_INS_PINSRB => 558
  | dt_X86_INS_PINSRD => 559 | dt_X86_INS_PINSRQ => 560
  | dt_X86_INS_PMAXSB => 561 | dt_X86_INS_PMAXSD => 562
  | dt_X86_INS_PMAXUD => 563 | dt_X86_INS_PMAXUW => 564
  | dt_X86_INS_PMINSB => 565 | dt_X86_INS_PMINSD => 566
  | dt_X86_INS_PMINUD => 567 | dt_X86_INS_PMINUW => 568
  | dt_X86_INS_PMOVSXBD => 569 | dt_X86_INS_PMOVSXBQ => 570
  | dt_X86_INS_PMOVSXBW => 571 | dt_X86_INS_PMOVSXDQ => 572
  | dt_X86_INS_PMOVSXWD => 573 | dt_X86_INS_PMOVSXWQ => 574
  | dt_X86_INS_PMOVZXBD => 575 | dt_X86_INS_PMOVZXBQ => 576
  | dt_X86_INS_PMOVZXBW => 577 | dt_X86_INS_PMOVZXDQ => 578
  | dt_X86_INS_PMOVZXWD => 579 | dt_X86_INS_PMOVZXWQ => 580
  | dt_X86_INS_PMULDQ => 581 | dt_X86_INS_PMULHRW => 582
  | dt_X86_INS_PMULLD => 583 | dt_X86_INS_POP => 584
  | dt_X86_INS_POPAW => 585 | dt_X86_INS_POPAL => 586
  | dt_X86_INS_POPCNT => 587 | dt_X86_INS_POPF => 588
  | dt_X86_INS_POPFD => 589 | dt_X86_INS_POPFQ => 590
  | dt_X86_INS_PREFETCH => 591 | dt_X86_INS_PREFETCHNTA => 592
  | dt_X86_INS_PREFETCHT0 => 593 | dt_X86_INS_PREFETCHT1 => 594
  | dt_X86_INS_PREFETCHT2 => 595 | dt_X86_INS_PREFETCHW => 596
  | dt_X86_INS_PSHUFD => 597 | dt_X86_INS_PSHUFHW => 598
  | dt_X86_INS_PSHUFLW => 599 | dt_X86_INS_PSLLDQ => 600
  | dt_X86_INS_PSRLDQ => 601 | dt_X86_INS_PSWAPD => 602
  | dt_X86_INS_PTEST => 603 | dt_X86_INS_PUNPCKHQDQ => 604
  | dt_X86_INS_PUNPCKLQDQ => 605 | dt_X86_INS_PUSH => 606
  | dt_X86_INS_PUSHAW => 607 | dt_X86_INS_PUSHAL => 608
  | dt_X86_INS_PUSHF => 609 | dt_X86_INS_PUSHFD => 610
  | dt_X86_INS_PUSHFQ => 611 | dt_X86_INS_RCL => 612
  | dt_X86_INS_RCPPS => 613 | dt_X86_INS_RCPSS => 614 | dt_X86_INS_RCR => 615
  | dt_X86_INS_RDFSBASE => 616 | dt_X86_INS_RDGSBASE => 617
  | dt_X86_INS_RDMSR => 618 | dt_X86_INS_RDPMC => 619
  | dt_X86_INS_RDRAND => 620 | dt_X86_INS_RDSEED => 621
  | dt_X86_INS_RDTSC => 622 | dt_X86_INS_RDTSCP => 623
  | dt_X86_INS_ROL => 624 | dt_X86_INS_ROR => 625 | dt_X86_INS_RORX => 626
  | dt_X86_INS_ROUNDPD => 627 | dt_X86_INS_ROUNDPS => 628
  | dt_X86_INS_ROUNDSD => 629 | dt_X86_INS_ROUNDSS => 630
  | dt_X86_INS_RSM => 631 | dt_X86_INS_RSQRTPS => 632
  | dt_X86_INS_RSQRTSS => 633 | dt_X86_INS_SAHF => 634
  | dt_X86_INS_SAL => 635 | dt_X86_INS_SALC => 636 | dt_X86_INS_SAR => 637
  | dt_X86_INS_SARX => 638 | dt_X86_INS_SBB => 639 | dt_X86_INS_SCASB => 640
  | dt_X86_INS_SCASD => 641 | dt_X86_INS_SCASQ => 642
  | dt_X86_INS_SCASW => 643 | dt_X86_INS_SETAE => 644
  | dt_X86_INS_SETA => 645 | dt_X86_INS_SETBE => 646 | dt_X86_INS_SETB => 647
  | dt_X86_INS_SETE => 648 | dt_X86_INS_SETGE => 649 | dt_X86_INS_SETG => 650
  | dt_X86_INS_SETLE => 651 | dt_X86_INS_SETL => 652
  | dt_X86_INS_SETNE => 653 | dt_X86_INS_SETNO => 654
  | dt_X86_INS_SETNP => 655 | dt_X86_INS_SETNS => 656
  | dt_X86_INS_SETO => 657 | dt_X86_INS_SETP => 658 | dt_X86_INS_SETS => 659
  | dt_X86_INS_SFENCE => 660 | dt_X86_INS_SGDT => 661
  | dt_X86_INS_SHA1MSG1 => 662 | dt_X86_INS_SHA1MSG2 => 663
  | dt_X86_INS_SHA1NEXTE => 664 | dt_X86_INS_SHA1RNDS4 => 665
  | dt_X86_INS_SHA256MSG1 => 666 | dt_X86_INS_SHA256MSG2 => 667
  | dt_X86_INS_SHA256RNDS2 => 668 | dt_X86_INS_SHL => 669
  | dt_X86_INS_SHLD => 670 | dt_X86_INS_SHLX => 671 | dt_X86_INS_SHR => 672
  | dt_X86_INS_SHRD => 673 | dt_X86_INS_SHRX => 674
  | dt_X86_INS_SHUFPD => 675 | dt_X86_INS_SHUFPS => 676
  | dt_X86_INS_SIDT => 677 | dt_X86_INS_SKINIT => 678
  | dt_X86_INS_SLDT => 679 | dt_X86_INS_SMSW => 680
  | dt_X86_INS_SQRTPD => 681 | dt_X86_INS_SQRTPS => 682
  | dt_X86_INS_SQRTSD => 683 | dt_X86_INS_SQRTSS => 684
  | dt_X86_INS_STAC => 685 | dt_X86_INS_STC => 686 | dt_X86_INS_STD => 687
  | dt_X86_INS_STGI => 688 | dt_X86_INS_STI => 689
  | dt_X86_INS_STMXCSR => 690 | dt_X86_INS_STOSB => 691
  | dt_X86_INS_STOSD => 692 | dt_X86_INS_STOSQ => 693
  | dt_X86_INS_STOSW => 694 | dt_X86_INS_STR => 695
  | dt_X86_INS_FSTPNCE => 696 | dt_X86_INS_SUBPD => 697
  | dt_X86_INS_SUBPS => 698 | dt_X86_INS_SUBSD => 699
  | dt_X86_INS_SUBSS => 700 | dt_X86_INS_SWAPGS => 701
  | dt_X86_INS_SYSCALL => 702 | dt_X86_INS_SYSENTER => 703
  | dt_X86_INS_SYSEXIT => 704 | dt_X86_INS_SYSRET => 705
  | dt_X86_INS_T1MSKC => 706 | dt_X86_INS_TEST => 707 | dt_X86_INS_UD2 => 708
  | dt_X86_INS_TZCNT => 709 | dt_X86_INS_TZMSK => 710
  | dt_X86_INS_UD2B => 711 | dt_X86_INS_UNPCKHPD => 712
  | dt_X86_INS_UNPCKHPS => 713 | dt_X86_INS_UNPCKLPD => 714
  | dt_X86_INS_UNPCKLPS => 715 | dt_X86_INS_VADDPD => 716
  | dt_X86_INS_VADDPS => 717 | dt_X86_INS_VADDSD => 718
  | dt_X86_INS_VADDSS => 719 | dt_X86_INS_VADDSUBPD => 720
  | dt_X86_INS_VADDSUBPS => 721 | dt_X86_INS_VAESDECLAST => 722
  | dt_X86_INS_VAESDEC => 723 | dt_X86_INS_VAESENCLAST => 724
  | dt_X86_INS_VAESENC => 725 | dt_X86_INS_VAESIMC => 726
  | dt_X86_INS_VAESKEYGENASSIST => 727 | dt_X86_INS_VALIGND => 728
  | dt_X86_INS_VALIGNQ => 729 | dt_X86_INS_VANDNPD => 730
  | dt_X86_INS_VANDNPS => 731 | dt_X86_INS_VANDPD => 732
  | dt_X86_INS_VANDPS => 733 | dt_X86_INS_VBLENDMPD => 734
  | dt_X86_INS_VBLENDMPS => 735 | dt_X86_INS_VBLENDPD => 736
  | dt_X86_INS_VBLENDPS => 737 | dt_X86_INS_VBLENDVPD => 738
  | dt_X86_INS_VBLENDVPS => 739 | dt_X86_INS_VBROADCASTF128 => 740
  | dt_X86_INS_VBROADCASTI128 => 741 | dt_X86_INS_VBROADCASTI32X4 => 742
  | dt_X86_INS_VBROADCASTI64X4 => 743 | dt_X86_INS_VBROADCASTSD => 744
  | dt_X86_INS_VBROADCASTSS => 745 | dt_X86_INS_VCOMPRESSPD => 746
  | dt_X86_INS_VCOMPRESSPS => 747 | dt_X86_INS_VCVTDQ2PD => 748
  | dt_X86_INS_VCVTDQ2PS => 749 | dt_X86_INS_VCVTPD2DQX => 750
  | dt_X86_INS_VCVTPD2DQ => 751 | dt_X86_INS_VCVTPD2PSX => 752
  | dt_X86_INS_VCVTPD2PS => 753 | dt_X86_INS_VCVTPD2UDQ => 754
  | dt_X86_INS_VCVTPH2PS => 755 | dt_X86_INS_VCVTPS2DQ => 756
  | dt_X86_INS_VCVTPS2PD => 757 | dt_X86_INS_VCVTPS2PH => 758
  | dt_X86_INS_VCVTPS2UDQ => 759 | dt_X86_INS_VCVTSD2SI => 760
  | dt_X86_INS_VCVTSD2USI => 761 | dt_X86_INS_VCVTSS2SI => 762
  | dt_X86_INS_VCVTSS2USI => 763 | dt_X86_INS_VCVTTPD2DQX => 764
  | dt_X86_INS_VCVTTPD2DQ => 765 | dt_X86_INS_VCVTTPD2UDQ => 766
  | dt_X86_INS_VCVTTPS2DQ => 767 | dt_X86_INS_VCVTTPS2UDQ => 768
  | dt_X86_INS_VCVTUDQ2PD => 769 | dt_X86_INS_VCVTUDQ2PS => 770
  | dt_X86_INS_VDIVPD => 771 | dt_X86_INS_VDIVPS => 772
  | dt_X86_INS_VDIVSD => 773 | dt_X86_INS_VDIVSS => 774
  | dt_X86_INS_VDPPD => 775 | dt_X86_INS_VDPPS => 776
  | dt_X86_INS_VERR => 777 | dt_X86_INS_VERW => 778
  | dt_X86_INS_VEXP2PD => 779 | dt_X86_INS_VEXP2PS => 780
  | dt_X86_INS_VEXPANDPD => 781 | dt_X86_INS_VEXPANDPS => 782
  | dt_X86_INS_VEXTRACTF128 => 783 | dt_X86_INS_VEXTRACTF32X4 => 784
  | dt_X86_INS_VEXTRACTF64X4 => 785 | dt_X86_INS_VEXTRACTI128 => 786
  | dt_X86_INS_VEXTRACTI32X4 => 787 | dt_X86_INS_VEXTRACTI64X4 => 788
  | dt_X86_INS_VEXTRACTPS => 789 | dt_X86_INS_VFMADD132PD => 790
  | dt_X86_INS_VFMADD132PS => 791 | dt_X86_INS_VFMADDPD => 792
  | dt_X86_INS_VFMADD213PD => 793 | dt_X86_INS_VFMADD231PD => 794
  | dt_X86_INS_VFMADDPS => 795 | dt_X86_INS_VFMADD213PS => 796
  | dt_X86_INS_VFMADD231PS => 797 | dt_X86_INS_VFMADDSD => 798
  | dt_X86_INS_VFMADD213SD => 799 | dt_X86_INS_VFMADD132SD => 800
  | dt_X86_INS_VFMADD231SD => 801 | dt_X86_INS_VFMADDSS => 802
  | dt_X86_INS_VFMADD213SS => 803 | dt_X86_INS_VFMADD132SS => 804
  | dt_X86_INS_VFMADD231SS => 805 | dt_X86_INS_VFMADDSUB132PD => 806
  | dt_X86_INS_VFMADDSUB132PS => 807 | dt_X86_INS_VFMADDSUBPD => 808
  | dt_X86_INS_VFMADDSUB213PD => 809 | dt_X86_INS_VFMADDSUB231PD => 810
  | dt_X86_INS_VFMADDSUBPS => 811 | dt_X86_INS_VFMADDSUB213PS => 812
  | dt_X86_INS_VFMADDSUB231PS => 813 | dt_X86_INS_VFMSUB132PD => 814
  | dt_X86_INS_VFMSUB132PS => 815 | dt_X86_INS_VFMSUBADD132PD => 816
  | dt_X86_INS_VFMSUBADD132PS => 817 | dt_X86_INS_VFMSUBADDPD => 818
  | dt_X86_INS_VFMSUBADD213PD => 819 | dt_X86_INS_VFMSUBADD231PD => 820
  | dt_X86_INS_VFMSUBADDPS => 821 | dt_X86_INS_VFMSUBADD213PS => 822
  | dt_X86_INS_VFMSUBADD231PS => 823 | dt_X86_INS_VFMSUBPD => 824
  | dt_X86_INS_VFMSUB213PD => 825 | dt_X86_INS_VFMSUB231PD => 826
  | dt_X86_INS_VFMSUBPS => 827 | dt_X86_INS_VFMSUB213PS => 828
  | dt_X86_INS_VFMSUB231PS => 829 | dt_X86_INS_VFMSUBSD => 830
  | dt_X86_INS_VFMSUB213SD => 831 | dt_X86_INS_VFMSUB132SD => 832
  | dt_X86_INS_VFMSUB231SD => 833 | dt_X86_INS_VFMSUBSS => 834
  | dt_X86_INS_VFMSUB213SS => 835 | dt_X86_INS_VFMSUB132SS => 836
  | dt_X86_INS_VFMSUB231SS => 837 | dt_X86_INS_VFNMADD132PD => 838
  | dt_X86_INS_VFNMADD132PS => 839 | dt_X86_INS_VFNMADDPD => 840
  | dt_X86_INS_VFNMADD213PD => 841 | dt_X86_INS_VFNMADD231PD => 842
  | dt_X86_INS_VFNMADDPS => 843 | dt_X86_INS_VFNMADD213PS => 844
  | dt_X86_INS_VFNMADD231PS => 845 | dt_X86_INS_VFNMADDSD => 846
  | dt_X86_INS_VFNMADD213SD => 847 | dt_X86_INS_VFNMADD132SD => 848
  | dt_X86_INS_VFNMADD231SD => 849 | dt_X86_INS_VFNMADDSS => 850
  | dt_X86_INS_VFNMADD213SS => 851 | dt_X86_INS_VFNMADD132SS => 852
  | dt_X86_INS_VFNMADD231SS => 853 | dt_X86_INS_VFNMSUB132PD => 854
  | dt_X86_INS_VFNMSUB132PS => 855 | dt_X86_INS_VFNMSUBPD => 856
  | dt_X86_INS_VFNMSUB213PD => 857 | dt_X86_INS_VFNMSUB231PD => 858
  | dt_X86_INS_VFNMSUBPS => 859 | dt_X86_INS_VFNMSUB213PS => 860
  | dt_X86_INS_VFNMSUB231PS => 861 | dt_X86_INS_VFNMSUBSD => 862
  | dt_X86_INS_VFNMSUB213SD => 863 | dt_X86_INS_VFNMSUB132SD => 864
  | dt_X86_INS_VFNMSUB231SD => 865 | dt_X86_INS_VFNMSUBSS => 866
  | dt_X86_INS_VFNMSUB213SS => 867 | dt_X86_INS_VFNMSUB132SS => 868
  | dt_X86_INS_VFNMSUB231SS => 869 | dt_X86_INS_VFRCZPD => 870
  | dt_X86_INS_VFRCZPS => 871 | dt_X86_INS_VFRCZSD => 872
  | dt_X86_INS_VFRCZSS => 873 | dt_X86_INS_VORPD => 874
  | dt_X86_INS_VORPS => 875 | dt_X86_INS_VXORPD => 876
  | dt_X86_INS_VXORPS => 877 | dt_X86_INS_VGATHERDPD => 878
  | dt_X86_INS_VGATHERDPS => 879 | dt_X86_INS_VGATHERPF0DPD => 880
  | dt_X86_INS_VGATHERPF0DPS => 881 | dt_X86_INS_VGATHERPF0QPD => 882
  | dt_X86_INS_VGATHERPF0QPS => 883 | dt_X86_INS_VGATHERPF1DPD => 884
  | dt_X86_INS_VGATHERPF1DPS => 885 | dt_X86_INS_VGATHERPF1QPD => 886
  | dt_X86_INS_VGATHERPF1QPS => 887 | dt_X86_INS_VGATHERQPD => 888
  | dt_X86_INS_VGATHERQPS => 889 | dt_X86_INS_VHADDPD => 890
  | dt_X86_INS_VHADDPS => 891 | dt_X86_INS_VHSUBPD => 892
  | dt_X86_INS_VHSUBPS => 893 | dt_X86_INS_VINSERTF128 => 894
  | dt_X86_INS_VINSERTF32X4 => 895 | dt_X86_INS_VINSERTF32X8 => 896
  | dt_X86_INS_VINSERTF64X2 => 897 | dt_X86_INS_VINSERTF64X4 => 898
  | dt_X86_INS_VINSERTI128 => 899 | dt_X86_INS_VINSERTI32X4 => 900
  | dt_X86_INS_VINSERTI32X8 => 901 | dt_X86_INS_VINSERTI64X2 => 902
  | dt_X86_INS_VINSERTI64X4 => 903 | dt_X86_INS_VINSERTPS => 904
  | dt_X86_INS_VLDDQU => 905 | dt_X86_INS_VLDMXCSR => 906
  | dt_X86_INS_VMASKMOVDQU => 907 | dt_X86_INS_VMASKMOVPD => 908
  | dt_X86_INS_VMASKMOVPS => 909 | dt_X86_INS_VMAXPD => 910
  | dt_X86_INS_VMAXPS => 911 | dt_X86_INS_VMAXSD => 912
  | dt_X86_INS_VMAXSS => 913 | dt_X86_INS_VMCALL => 914
  | dt_X86_INS_VMCLEAR => 915 | dt_X86_INS_VMFUNC => 916
  | dt_X86_INS_VMINPD => 917 | dt_X86_INS_VMINPS => 918
  | dt_X86_INS_VMINSD => 919 | dt_X86_INS_VMINSS => 920
  | dt_X86_INS_VMLAUNCH => 921 | dt_X86_INS_VMLOAD => 922
  | dt_X86_INS_VMMCALL => 923 | dt_X86_INS_VMOVQ => 924
  | dt_X86_INS_VMOVDDUP => 925 | dt_X86_INS_VMOVD => 926
  | dt_X86_INS_VMOVDQA32 => 927 | dt_X86_INS_VMOVDQA64 => 928
  | dt_X86_INS_VMOVDQA => 929 | dt_X86_INS_VMOVDQU16 => 930
  | dt_X86_INS_VMOVDQU32 => 931 | dt_X86_INS_VMOVDQU64 => 932
  | dt_X86_INS_VMOVDQU8 => 933 | dt_X86_INS_VMOVDQU => 934
  | dt_X86_INS_VMOVHLPS => 935 | dt_X86_INS_VMOVHPD => 936
  | dt_X86_INS_VMOVHPS => 937 | dt_X86_INS_VMOVLHPS => 938
  | dt_X86_INS_VMOVLPD => 939 | dt_X86_INS_VMOVLPS => 940
  | dt_X86_INS_VMOVMSKPD => 941 | dt_X86_INS_VMOVMSKPS => 942
  | dt_X86_INS_VMOVNTDQA => 943 | dt_X86_INS_VMOVNTDQ => 944
  | dt_X86_INS_VMOVNTPD => 945 | dt_X86_INS_VMOVNTPS => 946
  | dt_X86_INS_VMOVSD => 947 | dt_X86_INS_VMOVSHDUP => 948
  | dt_X86_INS_VMOVSLDUP => 949 | dt_X86_INS_VMOVSS => 950
  | dt_X86_INS_VMOVUPD => 951 | dt_X86_INS_VMOVUPS => 952
  | dt_X86_INS_VMPSADBW => 953 | dt_X86_INS_VMPTRLD => 954
  | dt_X86_INS_VMPTRST => 955 | dt_X86_INS_VMREAD => 956
  | dt_X86_INS_VMRESUME => 957 | dt_X86_INS_VMRUN => 958
  | dt_X86_INS_VMSAVE => 959 | dt_X86_INS_VMULPD => 960
  | dt_X86_INS_VMULPS => 961 | dt_X86_INS_VMULSD => 962
  | dt_X86_INS_VMULSS => 963 | dt_X86_INS_VMWRITE => 964
  | dt_X86_INS_VMXOFF => 965 | dt_X86_INS_VMXON => 966
  | dt_X86_INS_VPABSB => 967 | dt_X86_INS_VPABSD => 968
  | dt_X86_INS_VPABSQ => 969 | dt_X86_INS_VPABSW => 970
  | dt_X86_INS_VPACKSSDW => 971 | dt_X86_INS_VPACKSSWB => 972
  | dt_X86_INS_VPACKUSDW => 973 | dt_X86_INS_VPACKUSWB => 974
  | dt_X86_INS_VPADDB => 975 | dt_X86_INS_VPADDD => 976
  | dt_X86_INS_VPADDQ => 977 | dt_X86_INS_VPADDSB => 978
  | dt_X86_INS_VPADDSW => 979 | dt_X86_INS_VPADDUSB => 980
  | dt_X86_INS_VPADDUSW => 981 | dt_X86_INS_VPADDW => 982
  | dt_X86_INS_VPALIGNR => 983 | dt_X86_INS_VPANDD => 984
  | dt_X86_INS_VPANDND => 985 | dt_X86_INS_VPANDNQ => 986
  | dt_X86_INS_VPANDN => 987 | dt_X86_INS_VPANDQ => 988
  | dt_X86_INS_VPAND => 989 | dt_X86_INS_VPAVGB => 990
  | dt_X86_INS_VPAVGW => 991 | dt_X86_INS_VPBLENDD => 992
  | dt_X86_INS_VPBLENDMB => 993 | dt_X86_INS_VPBLENDMD => 994
  | dt_X86_INS_VPBLENDMQ => 995 | dt_X86_INS_VPBLENDMW => 996
  | dt_X86_INS_VPBLENDVB => 997 | dt_X86_INS_VPBLENDW => 998
  | dt_X86_INS_VPBROADCASTB => 999 | dt_X86_INS_VPBROADCASTD => 1000
  | dt_X86_INS_VPBROADCASTMB2Q => 1001 | dt_X86_INS_VPBROADCASTMW2D => 1002
  | dt_X86_INS_VPBROADCASTQ => 1003 | dt_X86_INS_VPBROADCASTW => 1004
  | dt_X86_INS_VPCLMULQDQ => 1005 | dt_X86_INS_VPCMOV => 1006
  | dt_X86_INS_VPCMPB => 1007 | dt_X86_INS_VPCMPD => 1008
  | dt_X86_INS_VPCMPEQB => 1009 | dt_X86_INS_VPCMPEQD => 1010
  | dt_X86_INS_VPCMPEQQ => 1011 | dt_X86_INS_VPCMPEQW => 1012
  | dt_X86_INS_VPCMPESTRI => 1013 | dt_X86_INS_VPCMPESTRM => 1014
  | dt_X86_INS_VPCMPGTB => 1015 | dt_X86_INS_VPCMPGTD => 1016
  | dt_X86_INS_VPCMPGTQ => 1017 | dt_X86_INS_VPCMPGTW => 1018
  | dt_X86_INS_VPCMPISTRI => 1019 | dt_X86_INS_VPCMPISTRM => 1020
  | dt_X86_INS_VPCMPQ => 1021 | dt_X86_INS_VPCMPUB => 1022
  | dt_X86_INS_VPCMPUD => 1023 | dt_X86_INS_VPCMPUQ => 1024
  | dt_X86_INS_VPCMPUW => 1025 | dt_X86_INS_VPCMPW => 1026
  | dt_X86_INS_VPCOMB => 1027 | dt_X86_INS_VPCOMD => 1028
  | dt_X86_INS_VPCOMPRESSD => 1029 | dt_X86_INS_VPCOMPRESSQ => 1030
  | dt_X86_INS_VPCOMQ => 1031 | dt_X86_INS_VPCOMUB => 1032
  | dt_X86_INS_VPCOMUD => 1033 | dt_X86_INS_VPCOMUQ => 1034
  | dt_X86_INS_VPCOMUW => 1035 | dt_X86_INS_VPCOMW => 1036
  | dt_X86_INS_VPCONFLICTD => 1037 | dt_X86_INS_VPCONFLICTQ => 1038
  | dt_X86_INS_VPERM2F128 => 1039 | dt_X86_INS_VPERM2I128 => 1040
  | dt_X86_INS_VPERMD => 1041 | dt_X86_INS_VPERMI2D => 1042
  | dt_X86_INS_VPERMI2PD => 1043 | dt_X86_INS_VPERMI2PS => 1044
  | dt_X86_INS_VPERMI2Q => 1045 | dt_X86_INS_VPERMIL2PD => 1046
  | dt_X86_INS_VPERMIL2PS => 1047 | dt_X86_INS_VPERMILPD => 1048
  | dt_X86_INS_VPERMILPS => 1049 | dt_X86_INS_VPERMPD => 1050
  | dt_X86_INS_VPERMPS => 1051 | dt_X86_INS_VPERMQ => 1052
  | dt_X86_INS_VPERMT2D => 1053 | dt_X86_INS_VPERMT2PD => 1054
  | dt_X86_INS_VPERMT2PS => 1055 | dt_X86_INS_VPERMT2Q => 1056
  | dt_X86_INS_VPEXPANDD => 1057 | dt_X86_INS_VPEXPANDQ => 1058
  | dt_X86_INS_VPEXTRB => 1059 | dt_X86_INS_VPEXTRD => 1060
  | dt_X86_INS_VPEXTRQ => 1061 | dt_X86_INS_VPEXTRW => 1062
  | dt_X86_INS_VPGATHERDD => 1063 | dt_X86_INS_VPGATHERDQ => 1064
  | dt_X86_INS_VPGATHERQD => 1065 | dt_X86_INS_VPGATHERQQ => 1066
  | dt_X86_INS_VPHADDBD => 1067 | dt_X86_INS_VPHADDBQ => 1068
  | dt_X86_INS_VPHADDBW => 1069 | dt_X86_INS_VPHADDDQ => 1070
  | dt_X86_INS_VPHADDD => 1071 | dt_X86_INS_VPHADDSW => 1072
  | dt_X86_INS_VPHADDUBD => 1073 | dt_X86_INS_VPHADDUBQ => 1074
  | dt_X86_INS_VPHADDUBW => 1075 | dt_X86_INS_VPHADDUDQ => 1076
  | dt_X86_INS_VPHADDUWD => 1077 | dt_X86_INS_VPHADDUWQ => 1078
  | dt_X86_INS_VPHADDWD => 1079 | dt_X86_INS_VPHADDWQ => 1080
  | dt_X86_INS_VPHADDW => 1081 | dt_X86_INS_VPHMINPOSUW => 1082
  | dt_X86_INS_VPHSUBBW => 1083 | dt_X86_INS_VPHSUBDQ => 1084
  | dt_X86_INS_VPHSUBD => 1085 | dt_X86_INS_VPHSUBSW => 1086
  | dt_X86_INS_VPHSUBWD => 1087 | dt_X86_INS_VPHSUBW => 1088
  | dt_X86_INS_VPINSRB => 1089 | dt_X86_INS_VPINSRD => 1090
  | dt_X86_INS_VPINSRQ => 1091 | dt_X86_INS_VPINSRW => 1092
  | dt_X86_INS_VPLZCNTD => 1093 | dt_X86_INS_VPLZCNTQ => 1094
  | dt_X86_INS_VPMACSDD => 1095 | dt_X86_INS_VPMACSDQH => 1096
  | dt_X86_INS_VPMACSDQL => 1097 | dt_X86_INS_VPMACSSDD => 1098
  | dt_X86_INS_VPMACSSDQH => 1099 | dt_X86_INS_VPMACSSDQL => 1100
  | dt_X86_INS_VPMACSSWD => 1101 | dt_X86_INS_VPMACSSWW => 1102
  | dt_X86_INS_VPMACSWD => 1103 | dt_X86_INS_VPMACSWW => 1104
  | dt_X86_INS_VPMADCSSWD => 1105 | dt_X86_INS_VPMADCSWD => 1106
  | dt_X86_INS_VPMADDUBSW => 1107 | dt_X86_INS_VPMADDWD => 1108
  | dt_X86_INS_VPMASKMOVD => 1109 | dt_X86_INS_VPMASKMOVQ => 1110
  | dt_X86_INS_VPMAXSB => 1111 | dt_X86_INS_VPMAXSD => 1112
  | dt_X86_INS_VPMAXSQ => 1113 | dt_X86_INS_VPMAXSW => 1114
  | dt_X86_INS_VPMAXUB => 1115 | dt_X86_INS_VPMAXUD => 1116
  | dt_X86_INS_VPMAXUQ => 1117 | dt_X86_INS_VPMAXUW => 1118
  | dt_X86_INS_VPMINSB => 1119 | dt_X86_INS_VPMINSD => 1120
  | dt_X86_INS_VPMINSQ => 1121 | dt_X86_INS_VPMINSW => 1122
  | dt_X86_INS_VPMINUB => 1123 | dt_X86_INS_VPMINUD => 1124
  | dt_X86_INS_VPMINUQ => 1125 | dt_X86_INS_VPMINUW => 1126
  | dt_X86_INS_VPMOVDB => 1127 | dt_X86_INS_VPMOVDW => 1128
  | dt_X86_INS_VPMOVM2B => 1129 | dt_X86_INS_VPMOVM2D => 1130
  | dt_X86_INS_VPMOVM2Q => 1131 | dt_X86_INS_VPMOVM2W => 1132
  | dt_X86_INS_VPMOVMSKB => 1133 | dt_X86_INS_VPMOVQB => 1134
  | dt_X86_INS_VPMOVQD => 1135 | dt_X86_INS_VPMOVQW => 1136
  | dt_X86_INS_VPMOVSDB => 1137 | dt_X86_INS_VPMOVSDW => 1138
  | dt_X86_INS_VPMOVSQB => 1139 | dt_X86_INS_VPMOVSQD => 1140
  | dt_X86_INS_VPMOVSQW => 1141 | dt_X86_INS_VPMOVSXBD => 1142
  | dt_X86_INS_VPMOVSXBQ => 1143 | dt_X86_INS_VPMOVSXBW => 1144
  | dt_X86_INS_VPMOVSXDQ => 1145 | dt_X86_INS_VPMOVSXWD => 1146
  | dt_X86_INS_VPMOVSXWQ => 1147 | dt_X86_INS_VPMOVUSDB => 1148
  | dt_X86_INS_VPMOVUSDW => 1149 | dt_X86_INS_VPMOVUSQB => 1150
  | dt_X86_INS_VPMOVUSQD => 1151 | dt_X86_INS_VPMOVUSQW => 1152
  | dt_X86_INS_VPMOVZXBD => 1153 | dt_X86_INS_VPMOVZXBQ => 1154
  | dt_X86_INS_VPMOVZXBW => 1155 | dt_X86_INS_VPMOVZXDQ => 1156
  | dt_X86_INS_VPMOVZXWD => 1157 | dt_X86_INS_VPMOVZXWQ => 1158
  | dt_X86_INS_VPMULDQ => 1159 | dt_X86_INS_VPMULHRSW => 1160
  | dt_X86_INS_VPMULHUW => 1161 | dt_X86_INS_VPMULHW => 1162
  | dt_X86_INS_VPMULLD => 1163 | dt_X86_INS_VPMULLQ => 1164
  | dt_X86_INS_VPMULLW => 1165 | dt_X86_INS_VPMULUDQ => 1166
  | dt_X86_INS_VPORD => 1167 | dt_X86_INS_VPORQ => 1168
  | dt_X86_INS_VPOR => 1169 | dt_X86_INS_VPPERM => 1170
  | dt_X86_INS_VPROTB => 1171 | dt_X86_INS_VPROTD => 1172
  | dt_X86_INS_VPROTQ => 1173 | dt_X86_INS_VPROTW => 1174
  | dt_X86_INS_VPSADBW => 1175 | dt_X86_INS_VPSCATTERDD => 1176
  | dt_X86_INS_VPSCATTERDQ => 1177 | dt_X86_INS_VPSCATTERQD => 1178
  | dt_X86_INS_VPSCATTERQQ => 1179 | dt_X86_INS_VPSHAB => 1180
  | dt_X86_INS_VPSHAD => 1181 | dt_X86_INS_VPSHAQ => 1182
  | dt_X86_INS_VPSHAW => 1183 | dt_X86_INS_VPSHLB => 1184
  | dt_X86_INS_VPSHLD => 1185 | dt_X86_INS_VPSHLQ => 1186
  | dt_X86_INS_VPSHLW => 1187 | dt_X86_INS_VPSHUFB => 1188
  | dt_X86_INS_VPSHUFD => 1189 | dt_X86_INS_VPSHUFHW => 1190
  | dt_X86_INS_VPSHUFLW => 1191 | dt_X86_INS_VPSIGNB => 1192
  | dt_X86_INS_VPSIGND => 1193 | dt_X86_INS_VPSIGNW => 1194
  | dt_X86_INS_VPSLLDQ => 1195 | dt_X86_INS_VPSLLD => 1196
  | dt_X86_INS_VPSLLQ => 1197 | dt_X86_INS_VPSLLVD => 1198
  | dt_X86_INS_VPSLLVQ => 1199 | dt_X86_INS_VPSLLW => 1200
  | dt_X86_INS_VPSRAD => 1201 | dt_X86_INS_VPSRAQ => 1202
  | dt_X86_INS_VPSRAVD => 1203 | dt_X86_INS_VPSRAVQ => 1204
  | dt_X86_INS_VPSRAW => 1205 | dt_X86_INS_VPSRLDQ => 1206
  | dt_X86_INS_VPSRLD => 1207 | dt_X86_INS_VPSRLQ => 1208
  | dt_X86_INS_VPSRLVD => 1209 | dt_X86_INS_VPSRLVQ => 1210
  | dt_X86_INS_VPSRLW => 1211 | dt_X86_INS_VPSUBB => 1212
  | dt_X86_INS_VPSUBD => 1213 | dt_X86_INS_VPSUBQ => 1214
  | dt_X86_INS_VPSUBSB => 1215 | dt_X86_INS_VPSUBSW => 1216
  | dt_X86_INS_VPSUBUSB => 1217 | dt_X86_INS_VPSUBUSW => 1218
  | dt_X86_INS_VPSUBW => 1219 | dt_X86_INS_VPTESTMD => 1220
  | dt_X86_INS_VPTESTMQ => 1221 | dt_X86_INS_VPTESTNMD => 1222
  | dt_X86_INS_VPTESTNMQ => 1223 | dt_X86_INS_VPTEST => 1224
  | dt_X86_INS_VPUNPCKHBW => 1225 | dt_X86_INS_VPUNPCKHDQ => 1226
  | dt_X86_INS_VPUNPCKHQDQ => 1227 | dt_X86_INS_VPUNPCKHWD => 1228
  | dt_X86_INS_VPUNPCKLBW => 1229 | dt_X86_INS_VPUNPCKLDQ => 1230
  | dt_X86_INS_VPUNPCKLQDQ => 1231 | dt_X86_INS_VPUNPCKLWD => 1232
  | dt_X86_INS_VPXORD => 1233 | dt_X86_INS_VPXORQ => 1234
  | dt_X86_INS_VPXOR => 1235 | dt_X86_INS_VRCP14PD => 1236
  | dt_X86_INS_VRCP14PS => 1237 | dt_X86_INS_VRCP14SD => 1238
  | dt_X86_INS_VRCP14SS => 1239 | dt_X86_INS_VRCP28PD => 1240
  | dt_X86_INS_VRCP28PS => 1241 | dt_X86_INS_VRCP28SD => 1242
  | dt_X86_INS_VRCP28SS => 1243 | dt_X86_INS_VRCPPS => 1244
  | dt_X86_INS_VRCPSS => 1245 | dt_X86_INS_VRNDSCALEPD => 1246
  | dt_X86_INS_VRNDSCALEPS => 1247 | dt_X86_INS_VRNDSCALESD => 1248
  | dt_X86_INS_VRNDSCALESS => 1249 | dt_X86_INS_VROUNDPD => 1250
  | dt_X86_INS_VROUNDPS => 1251 | dt_X86_INS_VROUNDSD => 1252
  | dt_X86_INS_VROUNDSS => 1253 | dt_X86_INS_VRSQRT14PD => 1254
  | dt_X86_INS_VRSQRT14PS => 1255 | dt_X86_INS_VRSQRT14SD => 1256
  | dt_X86_INS_VRSQRT14SS => 1257 | dt_X86_INS_VRSQRT28PD => 1258
  | dt_X86_INS_VRSQRT28PS => 1259 | dt_X86_INS_VRSQRT28SD => 1260
  | dt_X86_INS_VRSQRT28SS => 1261 | dt_X86_INS_VRSQRTPS => 1262
  | dt_X86_INS_VRSQRTSS => 1263 | dt_X86_INS_VSCATTERDPD => 1264
  | dt_X86_INS_VSCATTERDPS => 1265 | dt_X86_INS_VSCATTERPF0DPD => 1266
  | dt_X86_INS_VSCATTERPF0DPS => 1267 | dt_X86_INS_VSCATTERPF0QPD => 1268
  | dt_X86_INS_VSCATTERPF0QPS => 1269 | dt_X86_INS_VSCATTERPF1DPD => 1270
  | dt_X86_INS_VSCATTERPF1DPS => 1271 | dt_X86_INS_VSCATTERPF1QPD => 1272
  | dt_X86_INS_VSCATTERPF1QPS => 1273 | dt_X86_INS_VSCATTERQPD => 1274
  | dt_X86_INS_VSCATTERQPS => 1275 | dt_X86_INS_VSHUFPD => 1276
  | dt_X86_INS_VSHUFPS => 1277 | dt_X86_INS_VSQRTPD => 1278
  | dt_X86_INS_VSQRTPS => 1279 | dt_X86_INS_VSQRTSD => 1280
  | dt_X86_INS_VSQRTSS => 1281 | dt_X86_INS_VSTMXCSR => 1282
  | dt_X86_INS_VSUBPD => 1283 | dt_X86_INS_VSUBPS => 1284
  | dt_X86_INS_VSUBSD => 1285 | dt_X86_INS_VSUBSS => 1286
  | dt_X86_INS_VTESTPD => 1287 | dt_X86_INS_VTESTPS => 1288
  | dt_X86_INS_VUNPCKHPD => 1289 | dt_X86_INS_VUNPCKHPS => 1290
  | dt_X86_INS_VUNPCKLPD => 1291 | dt_X86_INS_VUNPCKLPS => 1292
  | dt_X86_INS_VZEROALL => 1293 | dt_X86_INS_VZEROUPPER => 1294
  | dt_X86_INS_WBINVD => 1295 | dt_X86_INS_WRFSBASE => 1296
  | dt_X86_INS_WRGSBASE => 1297 | dt_X86_INS_WRMSR => 1298
  | dt_X86_INS_XABORT => 1299 | dt_X86_INS_XACQUIRE => 1300
  | dt_X86_INS_XBEGIN => 1301 | dt_X86_INS_XCHG => 1302
  | dt_X86_INS_XCRYPTCBC => 1303 | dt_X86_INS_XCRYPTCFB => 1304
  | dt_X86_INS_XCRYPTCTR => 1305 | dt_X86_INS_XCRYPTECB => 1306
  | dt_X86_INS_XCRYPTOFB => 1307 | dt_X86_INS_XEND => 1308
  | dt_X86_INS_XGETBV => 1309 | dt_X86_INS_XLATB => 1310
  | dt_X86_INS_XRELEASE => 1311 | dt_X86_INS_XRSTOR => 1312
  | dt_X86_INS_XRSTOR64 => 1313 | dt_X86_INS_XRSTORS => 1314
  | dt_X86_INS_XRSTORS64 => 1315 | dt_X86_INS_XSAVE => 1316
  | dt_X86_INS_XSAVE64 => 1317 | dt_X86_INS_XSAVEC => 1318
  | dt_X86_INS_XSAVEC64 => 1319 | dt_X86_INS_XSAVEOPT => 1320
  | dt_X86_INS_XSAVEOPT64 => 1321 | dt_X86_INS_XSAVES => 1322
  | dt_X86_INS_XSAVES64 => 1323 | dt_X86_INS_XSETBV => 1324
  | dt_X86_INS_XSHA1 => 1325 | dt_X86_INS_XSHA256 => 1326
  | dt_X86_INS_XSTORE => 1327 | dt_X86_INS_XTEST => 1328
  | dt_X86_INS_FDISI8087_NOP => 1329 | dt_X86_INS_FENI8087_NOP => 1330
  | dt_X86_INS_CMPSS => 1331 | dt_X86_INS_CMPEQSS => 1332
  | dt_X86_INS_CMPLTSS => 1333 | dt_X86_INS_CMPLESS => 1334
  | dt_X86_INS_CMPUNORDSS => 1335 | dt_X86_INS_CMPNEQSS => 1336
  | dt_X86_INS_CMPNLTSS => 1337 | dt_X86_INS_CMPNLESS => 1338
  | dt_X86_INS_CMPORDSS => 1339 | dt_X86_INS_CMPSD => 1340
  | dt_X86_INS_CMPEQSD => 1341 | dt_X86_INS_CMPLTSD => 1342
  | dt_X86_INS_CMPLESD => 1343 | dt_X86_INS_CMPUNORDSD => 1344
  | dt_X86_INS_CMPNEQSD => 1345 | dt_X86_INS_CMPNLTSD => 1346
  | dt_X86_INS_CMPNLESD => 1347 | dt_X86_INS_CMPORDSD => 1348
  | dt_X86_INS_CMPPS => 1349 | dt_X86_INS_CMPEQPS => 1350
  | dt_X86_INS_CMPLTPS => 1351 | dt_X86_INS_CMPLEPS => 1352
  | dt_X86_INS_CMPUNORDPS => 1353 | dt_X86_INS_CMPNEQPS => 1354
  | dt_X86_INS_CMPNLTPS => 1355 | dt_X86_INS_CMPNLEPS => 1356
  | dt_X86_INS_CMPORDPS => 1357 | dt_X86_INS_CMPPD => 1358
  | dt_X86_INS_CMPEQPD => 1359 | dt_X86_INS_CMPLTPD => 1360
  | dt_X86_INS_CMPLEPD => 1361 | dt_X86_INS_CMPUNORDPD => 1362
  | dt_X86_INS_CMPNEQPD => 1363 | dt_X86_INS_CMPNLTPD => 1364
  | dt_X86_INS_CMPNLEPD => 1365 | dt_X86_INS_CMPORDPD => 1366
  | dt_X86_INS_VCMPSS => 1367 | dt_X86_INS_VCMPEQSS => 1368
  | dt_X86_INS_VCMPLTSS => 1369 | dt_X86_INS_VCMPLESS => 1370
  | dt_X86_INS_VCMPUNORDSS => 1371 | dt_X86_INS_VCMPNEQSS => 1372
  | dt_X86_INS_VCMPNLTSS => 1373 | dt_X86_INS_VCMPNLESS => 1374
  | dt_X86_INS_VCMPORDSS => 1375 | dt_X86_INS_VCMPEQ_UQSS => 1376
  | dt_X86_INS_VCMPNGESS => 1377 | dt_X86_INS_VCMPNGTSS => 1378
  | dt_X86_INS_VCMPFALSESS => 1379 | dt_X86_INS_VCMPNEQ_OQSS => 1380
  | dt_X86_INS_VCMPGESS => 1381 | dt_X86_INS_VCMPGTSS => 1382
  | dt_X86_INS_VCMPTRUESS => 1383 | dt_X86_INS_VCMPEQ_OSSS => 1384
  | dt_X86_INS_VCMPLT_OQSS => 1385 | dt_X86_INS_VCMPLE_OQSS => 1386
  | dt_X86_INS_VCMPUNORD_SSS => 1387 | dt_X86_INS_VCMPNEQ_USSS => 1388
  | dt_X86_INS_VCMPNLT_UQSS => 1389 | dt_X86_INS_VCMPNLE_UQSS => 1390
  | dt_X86_INS_VCMPORD_SSS => 1391 | dt_X86_INS_VCMPEQ_USSS => 1392
  | dt_X86_INS_VCMPNGE_UQSS => 1393 | dt_X86_INS_VCMPNGT_UQSS => 1394
  | dt_X86_INS_VCMPFALSE_OSSS => 1395 | dt_X86_INS_VCMPNEQ_OSSS => 1396
  | dt_X86_INS_VCMPGE_OQSS => 1397 | dt_X86_INS_VCMPGT_OQSS => 1398
  | dt_X86_INS_VCMPTRUE_USSS => 1399 | dt_X86_INS_VCMPSD => 1400
  | dt_X86_INS_VCMPEQSD => 1401 | dt_X86_INS_VCMPLTSD => 1402
  | dt_X86_INS_VCMPLESD => 1403 | dt_X86_INS_VCMPUNORDSD => 1404
  | dt_X86_INS_VCMPNEQSD => 1405 | dt_X86_INS_VCMPNLTSD => 1406
  | dt_X86_INS_VCMPNLESD => 1407 | dt_X86_INS_VCMPORDSD => 1408
  | dt_X86_INS_VCMPEQ_UQSD => 1409 | dt_X86_INS_VCMPNGESD => 1410
  | dt_X86_INS_VCMPNGTSD => 1411 | dt_X86_INS_VCMPFALSESD => 1412
  | dt_X86_INS_VCMPNEQ_OQSD => 1413 | dt_X86_INS_VCMPGESD => 1414
  | dt_X86_INS_VCMPGTSD => 1415 | dt_X86_INS_VCMPTRUESD => 1416
  | dt_X86_INS_VCMPEQ_OSSD => 1417 | dt_X86_INS_VCMPLT_OQSD => 1418
  | dt_X86_INS_VCMPLE_OQSD => 1419 | dt_X86_INS_VCMPUNORD_SSD => 1420
  | dt_X86_INS_VCMPNEQ_USSD => 1421 | dt_X86_INS_VCMPNLT_UQSD => 1422
  | dt_X86_INS_VCMPNLE_UQSD => 1423 | dt_X86_INS_VCMPORD_SSD => 1424
  | dt_X86_INS_VCMPEQ_USSD => 1425 | dt_X86_INS_VCMPNGE_UQSD => 1426
  | dt_X86_INS_VCMPNGT_UQSD => 1427 | dt_X86_INS_VCMPFALSE_OSSD => 1428
  | dt_X86_INS_VCMPNEQ_OSSD => 1429 | dt_X86_INS_VCMPGE_OQSD => 1430
  | dt_X86_INS_VCMPGT_OQSD => 1431 | dt_X86_INS_VCMPTRUE_USSD => 1432
  | dt_X86_INS_VCMPPS => 1433 | dt_X86_INS_VCMPEQPS => 1434
  | dt_X86_INS_VCMPLTPS => 1435 | dt_X86_INS_VCMPLEPS => 1436
  | dt_X86_INS_VCMPUNORDPS => 1437 | dt_X86_INS_VCMPNEQPS => 1438
  | dt_X86_INS_VCMPNLTPS => 1439 | dt_X86_INS_VCMPNLEPS => 1440
  | dt_X86_INS_VCMPORDPS => 1441 | dt_X86_INS_VCMPEQ_UQPS => 1442
  | dt_X86_INS_VCMPNGEPS => 1443 | dt_X86_INS_VCMPNGTPS => 1444
  | dt_X86_INS_VCMPFALSEPS => 1445 | dt_X86_INS_VCMPNEQ_OQPS => 1446
  | dt_X86_INS_VCMPGEPS => 1447 | dt_X86_INS_VCMPGTPS => 1448
  | dt_X86_INS_VCMPTRUEPS => 1449 | dt_X86_INS_VCMPEQ_OSPS => 1450
  | dt_X86_INS_VCMPLT_OQPS => 1451 | dt_X86_INS_VCMPLE_OQPS => 1452
  | dt_X86_INS_VCMPUNORD_SPS => 1453 | dt_X86_INS_VCMPNEQ_USPS => 1454
  | dt_X86_INS_VCMPNLT_UQPS => 1455 | dt_X86_INS_VCMPNLE_UQPS => 1456
  | dt_X86_INS_VCMPORD_SPS => 1457 | dt_X86_INS_VCMPEQ_USPS => 1458
  | dt_X86_INS_VCMPNGE_UQPS => 1459 | dt_X86_INS_VCMPNGT_UQPS => 1460
  | dt_X86_INS_VCMPFALSE_OSPS => 1461 | dt_X86_INS_VCMPNEQ_OSPS => 1462
  | dt_X86_INS_VCMPGE_OQPS => 1463 | dt_X86_INS_VCMPGT_OQPS => 1464
  | dt_X86_INS_VCMPTRUE_USPS => 1465 | dt_X86_INS_VCMPPD => 1466
  | dt_X86_INS_VCMPEQPD => 1467 | dt_X86_INS_VCMPLTPD => 1468
  | dt_X86_INS_VCMPLEPD => 1469 | dt_X86_INS_VCMPUNORDPD => 1470
  | dt_X86_INS_VCMPNEQPD => 1471 | dt_X86_INS_VCMPNLTPD => 1472
  | dt_X86_INS_VCMPNLEPD => 1473 | dt_X86_INS_VCMPORDPD => 1474
  | dt_X86_INS_VCMPEQ_UQPD => 1475 | dt_X86_INS_VCMPNGEPD => 1476
  | dt_X86_INS_VCMPNGTPD => 1477 | dt_X86_INS_VCMPFALSEPD => 1478
  | dt_X86_INS_VCMPNEQ_OQPD => 1479 | dt_X86_INS_VCMPGEPD => 1480
  | dt_X86_INS_VCMPGTPD => 1481 | dt_X86_INS_VCMPTRUEPD => 1482
  | dt_X86_INS_VCMPEQ_OSPD => 1483 | dt_X86_INS_VCMPLT_OQPD => 1484
  | dt_X86_INS_VCMPLE_OQPD => 1485 | dt_X86_INS_VCMPUNORD_SPD => 1486
  | dt_X86_INS_VCMPNEQ_USPD => 1487 | dt_X86_INS_VCMPNLT_UQPD => 1488
  | dt_X86_INS_VCMPNLE_UQPD => 1489 | dt_X86_INS_VCMPORD_SPD => 1490
  | dt_X86_INS_VCMPEQ_USPD => 1491 | dt_X86_INS_VCMPNGE_UQPD => 1492
  | dt_X86_INS_VCMPNGT_UQPD => 1493 | dt_X86_INS_VCMPFALSE_OSPD => 1494
  | dt_X86_INS_VCMPNEQ_OSPD => 1495 | dt_X86_INS_VCMPGE_OQPD => 1496
  | dt_X86_INS_VCMPGT_OQPD => 1497 | dt_X86_INS_VCMPTRUE_USPD => 1498
  | dt_X86_INS_UD0 => 1499 | dt_X86_INS_UD1 => 1500
  | dt_X86_INS_ENDBR32 => 1501 | dt_X86_INS_ENDBR64 => 1502
  | dt_X86_INS_BNDMOV => 1503 | dt_X86_INS_ENDING => 1504
  end.

Definition all_insns : list dt_x86_insn :=
  [dt_X86_INS_INVALID; dt_X86_INS_F2XM1; dt_X86_INS_WAIT; dt_X86_INS_FADD;
  dt_X86_INS_FADDP; dt_X86_INS_FBLD; dt_X86_INS_FBSTP; dt_X86_INS_FCOM;
  dt_X86_INS_FCOMI; dt_X86_INS_FCOMIP; dt_X86_INS_FCOMP; dt_X86_INS_FCOMPP;
  dt_X86_INS_FCOS; dt_X86_INS_FDIV; dt_X86_INS_FDIVP; dt_X86_INS_FDIVR;
  dt_X86_INS_FDIVRP; dt_X86_INS_FIADD; dt_X86_INS_FICOM; dt_X86_INS_FICOMP;
  dt_X86_INS_FIDIV; dt_X86_INS_FIDIVR; dt_X86_INS_FIMUL; dt_X86_INS_FISTTP;
  dt_X86_INS_FISUB; dt_X86_INS_FISUBR; dt_X86_INS_FMUL; dt_X86_INS_FMULP;
  dt_X86_INS_FNOP; dt_X86_INS_FPATAN; dt_X86_INS_FPREM1; dt_X86_INS_FPREM;
  dt_X86_INS_FPTAN; dt_X86_INS_FRNDINT; dt_X86_INS_FSCALE; dt_X86_INS_FSETPM;
  dt_X86_INS_FSIN; dt_X86_INS_FSINCOS; dt_X86_INS_FSQRT; dt_X86_INS_FSUB;
  dt_X86_INS_FSUBP; dt_X86_INS_FSUBR; dt_X86_INS_FSUBRP; dt_X86_INS_FTST;
  dt_X86_INS_FUCOM; dt_X86_INS_FUCOMI; dt_X86_INS_FUCOMIP; dt_X86_INS_FUCOMP;
  dt_X86_INS_FUCOMPP; dt_X86_INS_FXRSTOR; dt_X86_INS_FXSAVE;
  dt_X86_INS_FXTRACT; dt_X86_INS_FYL2X; dt_X86_INS_FYL2XP1; dt_X86_INS_AAA;
  dt_X86_INS_AAD; dt_X86_INS_AAM; dt_X86_INS_AAS; dt_X86_INS_FABS;
  dt_X86_INS_FCHS; dt_X86_INS_FCMOVBE; dt_X86_INS_FCMOVB; dt_X86_INS_FCMOVE;
  dt_X86_INS_FCMOVNBE; dt_X86_INS_FCMOVNB; dt_X86_INS_FCMOVNE;
  dt_X86_INS_FCMOVNU; dt_X86_INS_FCMOVU; dt_X86_INS_FDECSTP;
  dt_X86_INS_FFREE; dt_X86_INS_FFREEP; dt_X86_INS_FILD; dt_X86_INS_FINCSTP;
  dt_X86_INS_FIST; dt_X86_INS_FISTP; dt_X86_INS_FLD; dt_X86_INS_FLD1;
  dt_X86_INS_FLDCW; dt_X86_INS_FLDENV; dt_X86_INS_FLDL2E; dt_X86_INS_FLDL2T;
  dt_X86_INS_FLDLG2; dt_X86_INS_FLDLN2; dt_X86_INS_FLDPI; dt_X86_INS_FLDZ;
  dt_X86_INS_FNCLEX; dt_X86_INS_FNINIT; dt_X86_INS_FNSAVE;
  dt_X86_INS_FNSTENV; dt_X86_INS_FNSTCW; dt_X86_INS_FNSTSW;
  dt_X86_INS_FRSTOR; dt_X86_INS_FST; dt_X86_INS_FSTP; dt_X86_INS_FXAM;
  dt_X86_INS_FXCH; dt_X86_INS_ADC; dt_X86_INS_ADCX; dt_X86_INS_ADD;
  dt_X86_INS_ADDPD; dt_X86_INS_ADDPS; dt_X86_INS_ADDSD; dt_X86_INS_ADDSS;
  dt_X86_INS_ADDSUBPD; dt_X86_INS_ADDSUBPS; dt_X86_INS_ADOX;
  dt_X86_INS_AESDECLAST; dt_X86_INS_AESDEC; dt_X86_INS_AESENCLAST;
  dt_X86_INS_AESENC; dt_X86_INS_AESIMC; dt_X86_INS_AESKEYGENASSIST;
  dt_X86_INS_AND; dt_X86_INS_ANDN; dt_X86_INS_ANDNPD; dt_X86_INS_ANDNPS;
  dt_X86_INS_ANDPD; dt_X86_INS_ANDPS; dt_X86_INS_ARPL; dt_X86_INS_BEXTR;
  dt_X86_INS_BLCFILL; dt_X86_INS_BLCI; dt_X86_INS_BLCIC; dt_X86_INS_BLCMSK;
  dt_X86_INS_BLCS; dt_X86_INS_BLENDPD; dt_X86_INS_BLENDPS;
  dt_X86_INS_BLENDVPD; dt_X86_INS_BLENDVPS; dt_X86_INS_BLSFILL;
  dt_X86_INS_BLSI; dt_X86_INS_BLSIC; dt_X86_INS_BLSMSK; dt_X86_INS_BLSR;
  dt_X86_INS_BOUND; dt_X86_INS_BSF; dt_X86_INS_BSR; dt_X86_INS_BSWAP;
  dt_X86_INS_BT; dt_X86_INS_BTC; dt_X86_INS_BTR; dt_X86_INS_BTS;
  dt_X86_INS_BZHI; dt_X86_INS_CALL; dt_X86_INS_CBW; dt_X86_INS_CDQ;
  dt_X86_INS_CDQE; dt_X86_INS_CLAC; dt_X86_INS_CLC; dt_X86_INS_CLD;
  dt_X86_INS_CLFLUSH; dt_X86_INS_CLFLUSHOPT; dt_X86_INS_CLGI; dt_X86_INS_CLI;
  dt_X86_INS_CLTS; dt_X86_INS_CLWB; dt_X86_INS_CMC; dt_X86_INS_CMOVA;
  dt_X86_INS_CMOVAE; dt_X86_INS_CMOVB; dt_X86_INS_CMOVBE; dt_X86_INS_CMOVE;
  dt_X86_INS_CMOVG; dt_X86_INS_CMOVGE; dt_X86_INS_CMOVL; dt_X86_INS_CMOVLE;
  dt_X86_INS_CMOVNE; dt_X86_INS_CMOVNO; dt_X86_INS_CMOVNP; dt_X86_INS_CMOVNS;
  dt_X86_INS_CMOVO; dt_X86_INS_CMOVP; dt_X86_INS_CMOVS; dt_X86_INS_CMP;
  dt_X86_INS_CMPSB; dt_X86_INS_CMPSQ; dt_X86_INS_CMPSW;
  dt_X86_INS_CMPXCHG16B; dt_X86_INS_CMPXCHG; dt_X86_INS_CMPXCHG8B;
  dt_X86_INS_COMISD; dt_X86_INS_COMISS; dt_X86_INS_CPUID; dt_X86_INS_CQO;
  dt_X86_INS_CRC32; dt_X86_INS_CVTDQ2PD; dt_X86_INS_CVTDQ2PS;
  dt_X86_INS_CVTPD2DQ; dt_X86_INS_CVTPD2PS; dt_X86_INS_CVTPS2DQ;
  dt_X86_INS_CVTPS2PD; dt_X86_INS_CVTSD2SI; dt_X86_INS_CVTSD2SS;
  dt_X86_INS_CVTSI2SD; dt_X86_INS_CVTSI2SS; dt_X86_INS_CVTSS2SD;
  dt_X86_INS_CVTSS2SI; dt_X86_INS_CVTTPD2DQ; dt_X86_INS_CVTTPS2DQ;
  dt_X86_INS_CVTTSD2SI; dt_X86_INS_CVTTSS2SI; dt_X86_INS_CWD;
  dt_X86_INS_CWDE; dt_X86_INS_DAA; dt_X86_INS_DAS; dt_X86_INS_DATA16;
  dt_X86_INS_DEC; dt_X86_INS_DIV; dt_X86_INS_DIVPD; dt_X86_INS_DIVPS;
  dt_X86_INS_DIVSD; dt_X86_INS_DIVSS; dt_X86_INS_DPPD; dt_X86_INS_DPPS;
  dt_X86_INS_RET; dt_X86_INS_ENCLS; dt_X86_INS_ENCLU; dt_X86_INS_ENTER;
  dt_X86_INS_EXTRACTPS; dt_X86_INS_EXTRQ; dt_X86_INS_LCALL; dt_X86_INS_LJMP;
  dt_X86_INS_FEMMS; dt_X86_INS_FXRSTOR64; dt_X86_INS_FXSAVE64;
  dt_X86_INS_MOVAPD; dt_X86_INS_MOVAPS; dt_X86_INS_ORPD; dt_X86_INS_ORPS;
  dt_X86_INS_VMOVAPD; dt_X86_INS_VMOVAPS; dt_X86_INS_XORPD; dt_X86_INS_XORPS;
  dt_X86_INS_GETSEC; dt_X86_INS_HADDPD; dt_X86_INS_HADDPS; dt_X86_INS_HLT;
  dt_X86_INS_HSUBPD; dt_X86_INS_HSUBPS; dt_X86_INS_IDIV; dt_X86_INS_IMUL;
  dt_X86_INS_IN; dt_X86_INS_INC; dt_X86_INS_INSB; dt_X86_INS_INSERTPS;
  dt_X86_INS_INSERTQ; dt_X86_INS_INSD; dt_X86_INS_INSW; dt_X86_INS_INT;
  dt_X86_INS_INT1; dt_X86_INS_INT3; dt_X86_INS_INTO; dt_X86_INS_INVD;
  dt_X86_INS_INVEPT; dt_X86_INS_INVLPG; dt_X86_INS_INVLPGA;
  dt_X86_INS_INVPCID; dt_X86_INS_INVVPID; dt_X86_INS_IRET; dt_X86_INS_IRETD;
  dt_X86_INS_IRETQ; dt_X86_INS_UCOMISD; dt_X86_INS_UCOMISS;
  dt_X86_INS_VCOMISD; dt_X86_INS_VCOMISS; dt_X86_INS_VCVTSD2SS;
  dt_X86_INS_VCVTSI2SD; dt_X86_INS_VCVTSI2SS; dt_X86_INS_VCVTSS2SD;
  dt_X86_INS_VCVTTSD2SI; dt_X86_INS_VCVTTSD2USI; dt_X86_INS_VCVTTSS2SI;
  dt_X86_INS_VCVTTSS2USI; dt_X86_INS_VCVTUSI2SD; dt_X86_INS_VCVTUSI2SS;
  dt_X86_INS_VUCOMISD; dt_X86_INS_VUCOMISS; dt_X86_INS_JAE; dt_X86_INS_JA;
  dt_X86_INS_JBE; dt_X86_INS_JB; dt_X86_INS_JCXZ; dt_X86_INS_JECXZ;
  dt_X86_INS_JE; dt_X86_INS_JGE; dt_X86_INS_JG; dt_X86_INS_JLE;
  dt_X86_INS_JL; dt_X86_INS_JMP; dt_X86_INS_JNE; dt_X86_INS_JNO;
  dt_X86_INS_JNP; dt_X86_INS_JNS; dt_X86_INS_JO; dt_X86_INS_JP;
  dt_X86_INS_JRCXZ; dt_X86_INS_JS; dt_X86_INS_KANDB; dt_X86_INS_KANDD;
  dt_X86_INS_KANDNB; dt_X86_INS_KANDND; dt_X86_INS_KANDNQ; dt_X86_INS_KANDNW;
  dt_X86_INS_KANDQ; dt_X86_INS_KANDW; dt_X86_INS_KMOVB; dt_X86_INS_KMOVD;
  dt_X86_INS_KMOVQ; dt_X86_INS_KMOVW; dt_X86_INS_KNOTB; dt_X86_INS_KNOTD;
  dt_X86_INS_KNOTQ; dt_X86_INS_KNOTW; dt_X86_INS_KORB; dt_X86_INS_KORD;
  dt_X86_INS_KORQ; dt_X86_INS_KORTESTB; dt_X86_INS_KORTESTD;
  dt_X86_INS_KORTESTQ; dt_X86_INS_KORTESTW; dt_X86_INS_KORW;
  dt_X86_INS_KSHIFTLB; dt_X86_INS_KSHIFTLD; dt_X86_INS_KSHIFTLQ;
  dt_X86_INS_KSHIFTLW; dt_X86_INS_KSHIFTRB; dt_X86_INS_KSHIFTRD;
  dt_X86_INS_KSHIFTRQ; dt_X86_INS_KSHIFTRW; dt_X86_INS_KUNPCKBW;
  dt_X86_INS_KXNORB; dt_X86_INS_KXNORD; dt_X86_INS_KXNORQ; dt_X86_INS_KXNORW;
  dt_X86_INS_KXORB; dt_X86_INS_KXORD; dt_X86_INS_KXORQ; dt_X86_INS_KXORW;
  dt_X86_INS_LAHF; dt_X86_INS_LAR; dt_X86_INS_LDDQU; dt_X86_INS_LDMXCSR;
  dt_X86_INS_LDS; dt_X86_INS_LEA; dt_X86_INS_LEAVE; dt_X86_INS_LES;
  dt_X86_INS_LFENCE; dt_X86_INS_LFS; dt_X86_INS_LGDT; dt_X86_INS_LGS;
  dt_X86_INS_LIDT; dt_X86_INS_LLDT; dt_X86_INS_LMSW; dt_X86_INS_OR;
  dt_X86_INS_SUB; dt_X86_INS_XOR; dt_X86_INS_LODSB; dt_X86_INS_LODSD;
  dt_X86_INS_LODSQ; dt_X86_INS_LODSW; dt_X86_INS_LOOP; dt_X86_INS_LOOPE;
  dt_X86_INS_LOOPNE; dt_X86_INS_RETF; dt_X86_INS_RETFQ; dt_X86_INS_LSL;
  dt_X86_INS_LSS; dt_X86_INS_LTR; dt_X86_INS_XADD; dt_X86_INS_LZCNT;
  dt_X86_INS_MASKMOVDQU; dt_X86_INS_MAXPD; dt_X86_INS_MAXPS;
  dt_X86_INS_MAXSD; dt_X86_INS_MAXSS; dt_X86_INS_MFENCE; dt_X86_INS_MINPD;
  dt_X86_INS_MINPS; dt_X86_INS_MINSD; dt_X86_INS_MINSS; dt_X86_INS_CVTPD2PI;
  dt_X86_INS_CVTPI2PD; dt_X86_INS_CVTPI2PS; dt_X86_INS_CVTPS2PI;
  dt_X86_INS_CVTTPD2PI; dt_X86_INS_CVTTPS2PI; dt_X86_INS_EMMS;
  dt_X86_INS_MASKMOVQ; dt_X86_INS_MOVD; dt_X86_INS_MOVDQ2Q;
  dt_X86_INS_MOVNTQ; dt_X86_INS_MOVQ2DQ; dt_X86_INS_MOVQ; dt_X86_INS_PABSB;
  dt_X86_INS_PABSD; dt_X86_INS_PABSW; dt_X86_INS_PACKSSDW;
  dt_X86_INS_PACKSSWB; dt_X86_INS_PACKUSWB; dt_X86_INS_PADDB;
  dt_X86_INS_PADDD; dt_X86_INS_PADDQ; dt_X86_INS_PADDSB; dt_X86_INS_PADDSW;
  dt_X86_INS_PADDUSB; dt_X86_INS_PADDUSW; dt_X86_INS_PADDW;
  dt_X86_INS_PALIGNR; dt_X86_INS_PANDN; dt_X86_INS_PAND; dt_X86_INS_PAVGB;
  dt_X86_INS_PAVGW; dt_X86_INS_PCMPEQB; dt_X86_INS_PCMPEQD;
  dt_X86_INS_PCMPEQW; dt_X86_INS_PCMPGTB; dt_X86_INS_PCMPGTD;
  dt_X86_INS_PCMPGTW; dt_X86_INS_PEXTRW; dt_X86_INS_PHADDSW;
  dt_X86_INS_PHADDW; dt_X86_INS_PHADDD; dt_X86_INS_PHSUBD;
  dt_X86_INS_PHSUBSW; dt_X86_INS_PHSUBW; dt_X86_INS_PINSRW;
  dt_X86_INS_PMADDUBSW; dt_X86_INS_PMADDWD; dt_X86_INS_PMAXSW;
  dt_X86_INS_PMAXUB; dt_X86_INS_PMINSW; dt_X86_INS_PMINUB;
  dt_X86_INS_PMOVMSKB; dt_X86_INS_PMULHRSW; dt_X86_INS_PMULHUW;
  dt_X86_INS_PMULHW; dt_X86_INS_PMULLW; dt_X86_INS_PMULUDQ; dt_X86_INS_POR;
  dt_X86_INS_PSADBW; dt_X86_INS_PSHUFB; dt_X86_INS_PSHUFW; dt_X86_INS_PSIGNB;
  dt_X86_INS_PSIGND; dt_X86_INS_PSIGNW; dt_X86_INS_PSLLD; dt_X86_INS_PSLLQ;
  dt_X86_INS_PSLLW; dt_X86_INS_PSRAD; dt_X86_INS_PSRAW; dt_X86_INS_PSRLD;
  dt_X86_INS_PSRLQ; dt_X86_INS_PSRLW; dt_X86_INS_PSUBB; dt_X86_INS_PSUBD;
  dt_X86_INS_PSUBQ; dt_X86_INS_PSUBSB; dt_X86_INS_PSUBSW; dt_X86_INS_PSUBUSB;
  dt_X86_INS_PSUBUSW; dt_X86_INS_PSUBW; dt_X86_INS_PUNPCKHBW;
  dt_X86_INS_PUNPCKHDQ; dt_X86_INS_PUNPCKHWD; dt_X86_INS_PUNPCKLBW;
  dt_X86_INS_PUNPCKLDQ; dt_X86_INS_PUNPCKLWD; dt_X86_INS_PXOR;
  dt_X86_INS_MONITOR; dt_X86_INS_MONTMUL; dt_X86_INS_MOV; dt_X86_INS_MOVABS;
  dt_X86_INS_MOVBE; dt_X86_INS_MOVDDUP; dt_X86_INS_MOVDQA; dt_X86_INS_MOVDQU;
  dt_X86_INS_MOVHLPS; dt_X86_INS_MOVHPD; dt_X86_INS_MOVHPS;
  dt_X86_INS_MOVLHPS; dt_X86_INS_MOVLPD; dt_X86_INS_MOVLPS;
  dt_X86_INS_MOVMSKPD; dt_X86_INS_MOVMSKPS; dt_X86_INS_MOVNTDQA;
  dt_X86_INS_MOVNTDQ; dt_X86_INS_MOVNTI; dt_X86_INS_MOVNTPD;
  dt_X86_INS_MOVNTPS; dt_X86_INS_MOVNTSD; dt_X86_INS_MOVNTSS;
  dt_X86_INS_MOVSB; dt_X86_INS_MOVSD; dt_X86_INS_MOVSHDUP;
  dt_X86_INS_MOVSLDUP; dt_X86_INS_MOVSQ; dt_X86_INS_MOVSS; dt_X86_INS_MOVSW;
  dt_X86_INS_MOVSX; dt_X86_INS_MOVSXD; dt_X86_INS_MOVUPD; dt_X86_INS_MOVUPS;
  dt_X86_INS_MOVZX; dt_X86_INS_MPSADBW; dt_X86_INS_MUL; dt_X86_INS_MULPD;
  dt_X86_INS_MULPS; dt_X86_INS_MULSD; dt_X86_INS_MULSS; dt_X86_INS_MULX;
  dt_X86_INS_MWAIT; dt_X86_INS_NEG; dt_X86_INS_NOP; dt_X86_INS_NOT;
  dt_X86_INS_OUT; dt_X86_INS_OUTSB; dt_X86_INS_OUTSD; dt_X86_INS_OUTSW;
  dt_X86_INS_PACKUSDW; dt_X86_INS_PAUSE; dt_X86_INS_PAVGUSB;
  dt_X86_INS_PBLENDVB; dt_X86_INS_PBLENDW; dt_X86_INS_PCLMULQDQ;
  dt_X86_INS_PCMPEQQ; dt_X86_INS_PCMPESTRI; dt_X86_INS_PCMPESTRM;
  dt_X86_INS_PCMPGTQ; dt_X86_INS_PCMPISTRI; dt_X86_INS_PCMPISTRM;
  dt_X86_INS_PCOMMIT; dt_X86_INS_PDEP; dt_X86_INS_PEXT; dt_X86_INS_PEXTRB;
  dt_X86_INS_PEXTRD; dt_X86_INS_PEXTRQ; dt_X86_INS_PF2ID; dt_X86_INS_PF2IW;
  dt_X86_INS_PFACC; dt_X86_INS_PFADD; dt_X86_INS_PFCMPEQ; dt_X86_INS_PFCMPGE;
  dt_X86_INS_PFCMPGT; dt_X86_INS_PFMAX; dt_X86_INS_PFMIN; dt_X86_INS_PFMUL;
  dt_X86_INS_PFNACC; dt_X86_INS_PFPNACC; dt_X86_INS_PFRCPIT1;
  dt_X86_INS_PFRCPIT2; dt_X86_INS_PFRCP; dt_X86_INS_PFRSQIT1;
  dt_X86_INS_PFRSQRT; dt_X86_INS_PFSUBR; dt_X86_INS_PFSUB;
  dt_X86_INS_PHMINPOSUW; dt_X86_INS_PI2FD; dt_X86_INS_PI2FW;
  dt_X86_INS_PINSRB; dt_X86_INS_PINSRD; dt_X86_INS_PINSRQ; dt_X86_INS_PMAXSB;
  dt_X86_INS_PMAXSD; dt_X86_INS_PMAXUD; dt_X86_INS_PMAXUW; dt_X86_INS_PMINSB;
  dt_X86_INS_PMINSD; dt_X86_INS_PMINUD; dt_X86_INS_PMINUW;
  dt_X86_INS_PMOVSXBD; dt_X86_INS_PMOVSXBQ; dt_X86_INS_PMOVSXBW;
  dt_X86_INS_PMOVSXDQ; dt_X86_INS_PMOVSXWD; dt_X86_INS_PMOVSXWQ;
  dt_X86_INS_PMOVZXBD; dt_X86_INS_PMOVZXBQ; dt_X86_INS_PMOVZXBW;
  dt_X86_INS_PMOVZXDQ; dt_X86_INS_PMOVZXWD; dt_X86_INS_PMOVZXWQ;
  dt_X86_INS_PMULDQ; dt_X86_INS_PMULHRW; dt_X86_INS_PMULLD; dt_X86_INS_POP;
  dt_X86_INS_POPAW; dt_X86_INS_POPAL; dt_X86_INS_POPCNT; dt_X86_INS_POPF;
  dt_X86_INS_POPFD; dt_X86_INS_POPFQ; dt_X86_INS_PREFETCH;
  dt_X86_INS_PREFETCHNTA; dt_X86_INS_PREFETCHT0; dt_X86_INS_PREFETCHT1;
  dt_X86_INS_PREFETCHT2; dt_X86_INS_PREFETCHW; dt_X86_INS_PSHUFD;
  dt_X86_INS_PSHUFHW; dt_X86_INS_PSHUFLW; dt_X86_INS_PSLLDQ;
  dt_X86_INS_PSRLDQ; dt_X86_INS_PSWAPD; dt_X86_INS_PTEST;
  dt_X86_INS_PUNPCKHQDQ; dt_X86_INS_PUNPCKLQDQ; dt_X86_INS_PUSH;
  dt_X86_INS_PUSHAW; dt_X86_INS_PUSHAL; dt_X86_INS_PUSHF; dt_X86_INS_PUSHFD;
  dt_X86_INS_PUSHFQ; dt_X86_INS_RCL; dt_X86_INS_RCPPS; dt_X86_INS_RCPSS;
  dt_X86_INS_RCR; dt_X86_INS_RDFSBASE; dt_X86_INS_RDGSBASE; dt_X86_INS_RDMSR;
  dt_X86_INS_RDPMC; dt_X86_INS_RDRAND; dt_X86_INS_RDSEED; dt_X86_INS_RDTSC;
  dt_X86_INS_RDTSCP; dt_X86_INS_ROL; dt_X86_INS_ROR; dt_X86_INS_RORX;
  dt_X86_INS_ROUNDPD; dt_X86_INS_ROUNDPS; dt_X86_INS_ROUNDSD;
  dt_X86_INS_ROUNDSS; dt_X86_INS_RSM; dt_X86_INS_RSQRTPS; dt_X86_INS_RSQRTSS;
  dt_X86_INS_SAHF; dt_X86_INS_SAL; dt_X86_INS_SALC; dt_X86_INS_SAR;
  dt_X86_INS_SARX; dt_X86_INS_SBB; dt_X86_INS_SCASB; dt_X86_INS_SCASD;
  dt_X86_INS_SCASQ; dt_X86_INS_SCASW; dt_X86_INS_SETAE; dt_X86_INS_SETA;
  dt_X86_INS_SETBE; dt_X86_INS_SETB; dt_X86_INS_SETE; dt_X86_INS_SETGE;
  dt_X86_INS_SETG; dt_X86_INS_SETLE; dt_X86_INS_SETL; dt_X86_INS_SETNE;
  dt_X86_INS_SETNO; dt_X86_INS_SETNP; dt_X86_INS_SETNS; dt_X86_INS_SETO;
  dt_X86_INS_SETP; dt_X86_INS_SETS; dt_X86_INS_SFENCE; dt_X86_INS_SGDT;
  dt_X86_INS_SHA1MSG1; dt_X86_INS_SHA1MSG2; dt_X86_INS_SHA1NEXTE;
  dt_X86_INS_SHA1RNDS4; dt_X86_INS_SHA256MSG1; dt_X86_INS_SHA256MSG2;
  dt_X86_INS_SHA256RNDS2; dt_X86_INS_SHL; dt_X86_INS_SHLD; dt_X86_INS_SHLX;
  dt_X86_INS_SHR; dt_X86_INS_SHRD; dt_X86_INS_SHRX; dt_X86_INS_SHUFPD;
  dt_X86_INS_SHUFPS; dt_X86_INS_SIDT; dt_X86_INS_SKINIT; dt_X86_INS_SLDT;
  dt_X86_INS_SMSW; dt_X86_INS_SQRTPD; dt_X86_INS_SQRTPS; dt_X86_INS_SQRTSD;
  dt_X86_INS_SQRTSS; dt_X86_INS_STAC; dt_X86_INS_STC; dt_X86_INS_STD;
  dt_X86_INS_STGI; dt_X86_INS_STI; dt_X86_INS_STMXCSR; dt_X86_INS_STOSB;
  dt_X86_INS_STOSD; dt_X86_INS_STOSQ; dt_X86_INS_STOSW; dt_X86_INS_STR;
  dt_X86_INS_FSTPNCE; dt_X86_INS_SUBPD; dt_X86_INS_SUBPS; dt_X86_INS_SUBSD;
  dt_X86_INS_SUBSS; dt_X86_INS_SWAPGS; dt_X86_INS_SYSCALL;
  dt_X86_INS_SYSENTER; dt_X86_INS_SYSEXIT; dt_X86_INS_SYSRET;
  dt_X86_INS_T1MSKC; dt_X86_INS_TEST; dt_X86_INS_UD2; dt_X86_INS_TZCNT;
  dt_X86_INS_TZMSK; dt_X86_INS_UD2B; dt_X86_INS_UNPCKHPD;
  dt_X86_INS_UNPCKHPS; dt_X86_INS_UNPCKLPD; dt_X86_INS_UNPCKLPS;
  dt_X86_INS_VADDPD; dt_X86_INS_VADDPS; dt_X86_INS_VADDSD; dt_X86_INS_VADDSS;
  dt_X86_INS_VADDSUBPD; dt_X86_INS_VADDSUBPS; dt_X86_INS_VAESDECLAST;
  dt_X86_INS_VAESDEC; dt_X86_INS_VAESENCLAST; dt_X86_INS_VAESENC;
  dt_X86_INS_VAESIMC; dt_X86_INS_VAESKEYGENASSIST; dt_X86_INS_VALIGND;
  dt_X86_INS_VALIGNQ; dt_X86_INS_VANDNPD; dt_X86_INS_VANDNPS;
  dt_X86_INS_VANDPD; dt_X86_INS_VANDPS; dt_X86_INS_VBLENDMPD;
  dt_X86_INS_VBLENDMPS; dt_X86_INS_VBLENDPD; dt_X86_INS_VBLENDPS;
  dt_X86_INS_VBLENDVPD; dt_X86_INS_VBLENDVPS; dt_X86_INS_VBROADCASTF128;
  dt_X86_INS_VBROADCASTI128; dt_X86_INS_VBROADCASTI32X4;
  dt_X86_INS_VBROADCASTI64X4; dt_X86_INS_VBROADCASTSD;
  dt_X86_INS_VBROADCASTSS; dt_X86_INS_VCOMPRESSPD; dt_X86_INS_VCOMPRESSPS;
  dt_X86_INS_VCVTDQ2PD; dt_X86_INS_VCVTDQ2PS; dt_X86_INS_VCVTPD2DQX;
  dt_X86_INS_VCVTPD2DQ; dt_X86_INS_VCVTPD2PSX; dt_X86_INS_VCVTPD2PS;
  dt_X86_INS_VCVTPD2UDQ; dt_X86_INS_VCVTPH2PS; dt_X86_INS_VCVTPS2DQ;
  dt_X86_INS_VCVTPS2PD; dt_X86_INS_VCVTPS2PH; dt_X86_INS_VCVTPS2UDQ;
  dt_X86_INS_VCVTSD2SI; dt_X86_INS_VCVTSD2USI; dt_X86_INS_VCVTSS2SI;
  dt_X86_INS_VCVTSS2USI; dt_X86_INS_VCVTTPD2DQX; dt_X86_INS_VCVTTPD2DQ;
  dt_X86_INS_VCVTTPD2UDQ; dt_X86_INS_VCVTTPS2DQ; dt_X86_INS_VCVTTPS2UDQ;
  dt_X86_INS_VCVTUDQ2PD; dt_X86_INS_VCVTUDQ2PS; dt_X86_INS_VDIVPD;
  dt_X86_INS_VDIVPS; dt_X86_INS_VDIVSD; dt_X86_INS_VDIVSS; dt_X86_INS_VDPPD;
  dt_X86_INS_VDPPS; dt_X86_INS_VERR; dt_X86_INS_VERW; dt_X86_INS_VEXP2PD;
  dt_X86_INS_VEXP2PS; dt_X86_INS_VEXPANDPD; dt_X86_INS_VEXPANDPS;
  dt_X86_INS_VEXTRACTF128; dt_X86_INS_VEXTRACTF32X4;
  dt_X86_INS_VEXTRACTF64X4; dt_X86_INS_VEXTRACTI128;
  dt_X86_INS_VEXTRACTI32X4; dt_X86_INS_VEXTRACTI64X4; dt_X86_INS_VEXTRACTPS;
  dt_X86_INS_VFMADD132PD; dt_X86_INS_VFMADD132PS; dt_X86_INS_VFMADDPD;
  dt_X86_INS_VFMADD213PD; dt_X86_INS_VFMADD231PD; dt_X86_INS_VFMADDPS;
  dt_X86_INS_VFMADD213PS; dt_X86_INS_VFMADD231PS; dt_X86_INS_VFMADDSD;
  dt_X86_INS_VFMADD213SD; dt_X86_INS_VFMADD132SD; dt_X86_INS_VFMADD231SD;
  dt_X86_INS_VFMADDSS; dt_X86_INS_VFMADD213SS; dt_X86_INS_VFMADD132SS;
  dt_X86_INS_VFMADD231SS; dt_X86_INS_VFMADDSUB132PD;
  dt_X86_INS_VFMADDSUB132PS; dt_X86_INS_VFMADDSUBPD;
  dt_X86_INS_VFMADDSUB213PD; dt_X86_INS_VFMADDSUB231PD;
  dt_X86_INS_VFMADDSUBPS; dt_X86_INS_VFMADDSUB213PS;
  dt_X86_INS_VFMADDSUB231PS; dt_X86_INS_VFMSUB132PD; dt_X86_INS_VFMSUB132PS;
  dt_X86_INS_VFMSUBADD132PD; dt_X86_INS_VFMSUBADD132PS;
  dt_X86_INS_VFMSUBADDPD; dt_X86_INS_VFMSUBADD213PD;
  dt_X86_INS_VFMSUBADD231PD; dt_X86_INS_VFMSUBADDPS;
  dt_X86_INS_VFMSUBADD213PS; dt_X86_INS_VFMSUBADD231PS; dt_X86_INS_VFMSUBPD;
  dt_X86_INS_VFMSUB213PD; dt_X86_INS_VFMSUB231PD; dt_X86_INS_VFMSUBPS;
  dt_X86_INS_VFMSUB213PS; dt_X86_INS_VFMSUB231PS; dt_X86_INS_VFMSUBSD;
  dt_X86_INS_VFMSUB213SD; dt_X86_INS_VFMSUB132SD; dt_X86_INS_VFMSUB231SD;
  dt_X86_INS_VFMSUBSS; dt_X86_INS_VFMSUB213SS; dt_X86_INS_VFMSUB132SS;
  dt_X86_INS_VFMSUB231SS; dt_X86_INS_VFNMADD132PD; dt_X86_INS_VFNMADD132PS;
  dt_X86_INS_VFNMADDPD; dt_X86_INS_VFNMADD213PD; dt_X86_INS_VFNMADD231PD;
  dt_X86_INS_VFNMADDPS; dt_X86_INS_VFNMADD213PS; dt_X86_INS_VFNMADD231PS;
  dt_X86_INS_VFNMADDSD; dt_X86_INS_VFNMADD213SD; dt_X86_INS_VFNMADD132SD;
  dt_X86_INS_VFNMADD231SD; dt_X86_INS_VFNMADDSS; dt_X86_INS_VFNMADD213SS;
  dt_X86_INS_VFNMADD132SS; dt_X86_INS_VFNMADD231SS; dt_X86_INS_VFNMSUB132PD;
  dt_X86_INS_VFNMSUB132PS; dt_X86_INS_VFNMSUBPD; dt_X86_INS_VFNMSUB213PD;
  dt_X86_INS_VFNMSUB231PD; dt_X86_INS_VFNMSUBPS; dt_X86_INS_VFNMSUB213PS;
  dt_X86_INS_VFNMSUB231PS; dt_X86_INS_VFNMSUBSD; dt_X86_INS_VFNMSUB213SD;
  dt_X86_INS_VFNMSUB132SD; dt_X86_INS_VFNMSUB231SD; dt_X86_INS_VFNMSUBSS;
  dt_X86_INS_VFNMSUB213SS; dt_X86_INS_VFNMSUB132SS; dt_X86_INS_VFNMSUB231SS;
  dt_X86_INS_VFRCZPD; dt_X86_INS_VFRCZPS; dt_X86_INS_VFRCZSD;
  dt_X86_INS_VFRCZSS; dt_X86_INS_VORPD; dt_X86_INS_VORPS; dt_X86_INS_VXORPD;
  dt_X86_INS_VXORPS; dt_X86_INS_VGATHERDPD; dt_X86_INS_VGATHERDPS;
  dt_X86_INS_VGATHERPF0DPD; dt_X86_INS_VGATHERPF0DPS;
  dt_X86_INS_VGATHERPF0QPD; dt_X86_INS_VGATHERPF0QPS;
  dt_X86_INS_VGATHERPF1DPD; dt_X86_INS_VGATHERPF1DPS;
  dt_X86_INS_VGATHERPF1QPD; dt_X86_INS_VGATHERPF1QPS; dt_X86_INS_VGATHERQPD;
  dt_X86_INS_VGATHERQPS; dt_X86_INS_VHADDPD; dt_X86_INS_VHADDPS;
  dt_X86_INS_VHSUBPD; dt_X86_INS_VHSUBPS; dt_X86_INS_VINSERTF128;
  dt_X86_INS_VINSERTF32X4; dt_X86_INS_VINSERTF32X8; dt_X86_INS_VINSERTF64X2;
  dt_X86_INS_VINSERTF64X4; dt_X86_INS_VINSERTI128; dt_X86_INS_VINSERTI32X4;
  dt_X86_INS_VINSERTI32X8; dt_X86_INS_VINSERTI64X2; dt_X86_INS_VINSERTI64X4;
  dt_X86_INS_VINSERTPS; dt_X86_INS_VLDDQU; dt_X86_INS_VLDMXCSR;
  dt_X86_INS_VMASKMOVDQU; dt_X86_INS_VMASKMOVPD; dt_X86_INS_VMASKMOVPS;
  dt_X86_INS_VMAXPD; dt_X86_INS_VMAXPS; dt_X86_INS_VMAXSD; dt_X86_INS_VMAXSS;
  dt_X86_INS_VMCALL; dt_X86_INS_VMCLEAR; dt_X86_INS_VMFUNC;
  dt_X86_INS_VMINPD; dt_X86_INS_VMINPS; dt_X86_INS_VMINSD; dt_X86_INS_VMINSS;
  dt_X86_INS_VMLAUNCH; dt_X86_INS_VMLOAD; dt_X86_INS_VMMCALL;
  dt_X86_INS_VMOVQ; dt_X86_INS_VMOVDDUP; dt_X86_INS_VMOVD;
  dt_X86_INS_VMOVDQA32; dt_X86_INS_VMOVDQA64; dt_X86_INS_VMOVDQA;
  dt_X86_INS_VMOVDQU16; dt_X86_INS_VMOVDQU32; dt_X86_INS_VMOVDQU64;
  dt_X86_INS_VMOVDQU8; dt_X86_INS_VMOVDQU; dt_X86_INS_VMOVHLPS;
  dt_X86_INS_VMOVHPD; dt_X86_INS_VMOVHPS; dt_X86_INS_VMOVLHPS;
  dt_X86_INS_VMOVLPD; dt_X86_INS_VMOVLPS; dt_X86_INS_VMOVMSKPD;
  dt_X86_INS_VMOVMSKPS; dt_X86_INS_VMOVNTDQA; dt_X86_INS_VMOVNTDQ;
  dt_X86_INS_VMOVNTPD; dt_X86_INS_VMOVNTPS; dt_X86_INS_VMOVSD;
  dt_X86_INS_VMOVSHDUP; dt_X86_INS_VMOVSLDUP; dt_X86_INS_VMOVSS;
  dt_X86_INS_VMOVUPD; dt_X86_INS_VMOVUPS; dt_X86_INS_VMPSADBW;
  dt_X86_INS_VMPTRLD; dt_X86_INS_VMPTRST; dt_X86_INS_VMREAD;
  dt_X86_INS_VMRESUME; dt_X86_INS_VMRUN; dt_X86_INS_VMSAVE;
  dt_X86_INS_VMULPD; dt_X86_INS_VMULPS; dt_X86_INS_VMULSD; dt_X86_INS_VMULSS;
  dt_X86_INS_VMWRITE; dt_X86_INS_VMXOFF; dt_X86_INS_VMXON; dt_X86_INS_VPABSB;
  dt_X86_INS_VPABSD; dt_X86_INS_VPABSQ; dt_X86_INS_VPABSW;
  dt_X86_INS_VPACKSSDW; dt_X86_INS_VPACKSSWB; dt_X86_INS_VPACKUSDW;
  dt_X86_INS_VPACKUSWB; dt_X86_INS_VPADDB; dt_X86_INS_VPADDD;
  dt_X86_INS_VPADDQ; dt_X86_INS_VPADDSB; dt_X86_INS_VPADDSW;
  dt_X86_INS_VPADDUSB; dt_X86_INS_VPADDUSW; dt_X86_INS_VPADDW;
  dt_X86_INS_VPALIGNR; dt_X86_INS_VPANDD; dt_X86_INS_VPANDND;
  dt_X86_INS_VPANDNQ; dt_X86_INS_VPANDN; dt_X86_INS_VPANDQ; dt_X86_INS_VPAND;
  dt_X86_INS_VPAVGB; dt_X86_INS_VPAVGW; dt_X86_INS_VPBLENDD;
  dt_X86_INS_VPBLENDMB; dt_X86_INS_VPBLENDMD; dt_X86_INS_VPBLENDMQ;
  dt_X86_INS_VPBLENDMW; dt_X86_INS_VPBLENDVB; dt_X86_INS_VPBLENDW;
  dt_X86_INS_VPBROADCASTB; dt_X86_INS_VPBROADCASTD;
  dt_X86_INS_VPBROADCASTMB2Q; dt_X86_INS_VPBROADCASTMW2D;
  dt_X86_INS_VPBROADCASTQ; dt_X86_INS_VPBROADCASTW; dt_X86_INS_VPCLMULQDQ;
  dt_X86_INS_VPCMOV; dt_X86_INS_VPCMPB; dt_X86_INS_VPCMPD;
  dt_X86_INS_VPCMPEQB; dt_X86_INS_VPCMPEQD; dt_X86_INS_VPCMPEQQ;
  dt_X86_INS_VPCMPEQW; dt_X86_INS_VPCMPESTRI; dt_X86_INS_VPCMPESTRM;
  dt_X86_INS_VPCMPGTB; dt_X86_INS_VPCMPGTD; dt_X86_INS_VPCMPGTQ;
  dt_X86_INS_VPCMPGTW; dt_X86_INS_VPCMPISTRI; dt_X86_INS_VPCMPISTRM;
  dt_X86_INS_VPCMPQ; dt_X86_INS_VPCMPUB; dt_X86_INS_VPCMPUD;
  dt_X86_INS_VPCMPUQ; dt_X86_INS_VPCMPUW; dt_X86_INS_VPCMPW;
  dt_X86_INS_VPCOMB; dt_X86_INS_VPCOMD; dt_X86_INS_VPCOMPRESSD;
  dt_X86_INS_VPCOMPRESSQ; dt_X86_INS_VPCOMQ; dt_X86_INS_VPCOMUB;
  dt_X86_INS_VPCOMUD; dt_X86_INS_VPCOMUQ; dt_X86_INS_VPCOMUW;
  dt_X86_INS_VPCOMW; dt_X86_INS_VPCONFLICTD; dt_X86_INS_VPCONFLICTQ;
  dt_X86_INS_VPERM2F128; dt_X86_INS_VPERM2I128; dt_X86_INS_VPERMD;
  dt_X86_INS_VPERMI2D; dt_X86_INS_VPERMI2PD; dt_X86_INS_VPERMI2PS;
  dt_X86_INS_VPERMI2Q; dt_X86_INS_VPERMIL2PD; dt_X86_INS_VPERMIL2PS;
  dt_X86_INS_VPERMILPD; dt_X86_INS_VPERMILPS; dt_X86_INS_VPERMPD;
  dt_X86_INS_VPERMPS; dt_X86_INS_VPERMQ; dt_X86_INS_VPERMT2D;
  dt_X86_INS_VPERMT2PD; dt_X86_INS_VPERMT2PS; dt_X86_INS_VPERMT2Q;
  dt_X86_INS_VPEXPANDD; dt_X86_INS_VPEXPANDQ; dt_X86_INS_VPEXTRB;
  dt_X86_INS_VPEXTRD; dt_X86_INS_VPEXTRQ; dt_X86_INS_VPEXTRW;
  dt_X86_INS_VPGATHERDD; dt_X86_INS_VPGATHERDQ; dt_X86_INS_VPGATHERQD;
  dt_X86_INS_VPGATHERQQ; dt_X86_INS_VPHADDBD; dt_X86_INS_VPHADDBQ;
  dt_X86_INS_VPHADDBW; dt_X86_INS_VPHADDDQ; dt_X86_INS_VPHADDD;
  dt_X86_INS_VPHADDSW; dt_X86_INS_VPHADDUBD; dt_X86_INS_VPHADDUBQ;
  dt_X86_INS_VPHADDUBW; dt_X86_INS_VPHADDUDQ; dt_X86_INS_VPHADDUWD;
  dt_X86_INS_VPHADDUWQ; dt_X86_INS_VPHADDWD; dt_X86_INS_VPHADDWQ;
  dt_X86_INS_VPHADDW; dt_X86_INS_VPHMINPOSUW; dt_X86_INS_VPHSUBBW;
  dt_X86_INS_VPHSUBDQ; dt_X86_INS_VPHSUBD; dt_X86_INS_VPHSUBSW;
  dt_X86_INS_VPHSUBWD; dt_X86_INS_VPHSUBW; dt_X86_INS_VPINSRB;
  dt_X86_INS_VPINSRD; dt_X86_INS_VPINSRQ; dt_X86_INS_VPINSRW;
  dt_X86_INS_VPLZCNTD; dt_X86_INS_VPLZCNTQ; dt_X86_INS_VPMACSDD;
  dt_X86_INS_VPMACSDQH; dt_X86_INS_VPMACSDQL; dt_X86_INS_VPMACSSDD;
  dt_X86_INS_VPMACSSDQH; dt_X86_INS_VPMACSSDQL; dt_X86_INS_VPMACSSWD;
  dt_X86_INS_VPMACSSWW; dt_X86_INS_VPMACSWD; dt_X86_INS_VPMACSWW;
  dt_X86_INS_VPMADCSSWD; dt_X86_INS_VPMADCSWD; dt_X86_INS_VPMADDUBSW;
  dt_X86_INS_VPMADDWD; dt_X86_INS_VPMASKMOVD; dt_X86_INS_VPMASKMOVQ;
  dt_X86_INS_VPMAXSB; dt_X86_INS_VPMAXSD; dt_X86_INS_VPMAXSQ;
  dt_X86_INS_VPMAXSW; dt_X86_INS_VPMAXUB; dt_X86_INS_VPMAXUD;
  dt_X86_INS_VPMAXUQ; dt_X86_INS_VPMAXUW; dt_X86_INS_VPMINSB;
  dt_X86_INS_VPMINSD; dt_X86_INS_VPMINSQ; dt_X86_INS_VPMINSW;
  dt_X86_INS_VPMINUB; dt_X86_INS_VPMINUD; dt_X86_INS_VPMINUQ;
  dt_X86_INS_VPMINUW; dt_X86_INS_VPMOVDB; dt_X86_INS_VPMOVDW;
  dt_X86_INS_VPMOVM2B; dt_X86_INS_VPMOVM2D; dt_X86_INS_VPMOVM2Q;
  dt_X86_INS_VPMOVM2W; dt_X86_INS_VPMOVMSKB; dt_X86_INS_VPMOVQB;
  dt_X86_INS_VPMOVQD; dt_X86_INS_VPMOVQW; dt_X86_INS_VPMOVSDB;
  dt_X86_INS_VPMOVSDW; dt_X86_INS_VPMOVSQB; dt_X86_INS_VPMOVSQD;
  dt_X86_INS_VPMOVSQW; dt_X86_INS_VPMOVSXBD; dt_X86_INS_VPMOVSXBQ;
  dt_X86_INS_VPMOVSXBW; dt_X86_INS_VPMOVSXDQ; dt_X86_INS_VPMOVSXWD;
  dt_X86_INS_VPMOVSXWQ; dt_X86_INS_VPMOVUSDB; dt_X86_INS_VPMOVUSDW;
  dt_X86_INS_VPMOVUSQB; dt_X86_INS_VPMOVUSQD; dt_X86_INS_VPMOVUSQW;
  dt_X86_INS_VPMOVZXBD; dt_X86_INS_VPMOVZXBQ; dt_X86_INS_VPMOVZXBW;
  dt_X86_INS_VPMOVZXDQ; dt_X86_INS_VPMOVZXWD; dt_X86_INS_VPMOVZXWQ;
  dt_X86_INS_VPMULDQ; dt_X86_INS_VPMULHRSW; dt_X86_INS_VPMULHUW;
  dt_X86_INS_VPMULHW; dt_X86_INS_VPMULLD; dt_X86_INS_VPMULLQ;
  dt_X86_INS_VPMULLW; dt_X86_INS_VPMULUDQ; dt_X86_INS_VPORD;
  dt_X86_INS_VPORQ; dt_X86_INS_VPOR; dt_X86_INS_VPPERM; dt_X86_INS_VPROTB;
  dt_X86_INS_VPROTD; dt_X86_INS_VPROTQ; dt_X86_INS_VPROTW;
  dt_X86_INS_VPSADBW; dt_X86_INS_VPSCATTERDD; dt_X86_INS_VPSCATTERDQ;
  dt_X86_INS_VPSCATTERQD; dt_X86_INS_VPSCATTERQQ; dt_X86_INS_VPSHAB;
  dt_X86_INS_VPSHAD; dt_X86_INS_VPSHAQ; dt_X86_INS_VPSHAW; dt_X86_INS_VPSHLB;
  dt_X86_INS_VPSHLD; dt_X86_INS_VPSHLQ; dt_X86_INS_VPSHLW;
  dt_X86_INS_VPSHUFB; dt_X86_INS_VPSHUFD; dt_X86_INS_VPSHUFHW;
  dt_X86_INS_VPSHUFLW; dt_X86_INS_VPSIGNB; dt_X86_INS_VPSIGND;
  dt_X86_INS_VPSIGNW; dt_X86_INS_VPSLLDQ; dt_X86_INS_VPSLLD;
  dt_X86_INS_VPSLLQ; dt_X86_INS_VPSLLVD; dt_X86_INS_VPSLLVQ;
  dt_X86_INS_VPSLLW; dt_X86_INS_VPSRAD; dt_X86_INS_VPSRAQ;
  dt_X86_INS_VPSRAVD; dt_X86_INS_VPSRAVQ; dt_X86_INS_VPSRAW;
  dt_X86_INS_VPSRLDQ; dt_X86_INS_VPSRLD; dt_X86_INS_VPSRLQ;
  dt_X86_INS_VPSRLVD; dt_X86_INS_VPSRLVQ; dt_X86_INS_VPSRLW;
  dt_X86_INS_VPSUBB; dt_X86_INS_VPSUBD; dt_X86_INS_VPSUBQ;
  dt_X86_INS_VPSUBSB; dt_X86_INS_VPSUBSW; dt_X86_INS_VPSUBUSB;
  dt_X86_INS_VPSUBUSW; dt_X86_INS_VPSUBW; dt_X86_INS_VPTESTMD;
  dt_X86_INS_VPTESTMQ; dt_X86_INS_VPTESTNMD; dt_X86_INS_VPTESTNMQ;
  dt_X86_INS_VPTEST; dt_X86_INS_VPUNPCKHBW; dt_X86_INS_VPUNPCKHDQ;
  dt_X86_INS_VPUNPCKHQDQ; dt_X86_INS_VPUNPCKHWD; dt_X86_INS_VPUNPCKLBW;
  dt_X86_INS_VPUNPCKLDQ; dt_X86_INS_VPUNPCKLQDQ; dt_X86_INS_VPUNPCKLWD;
  dt_X86_INS_VPXORD; dt_X86_INS_VPXORQ; dt_X86_INS_VPXOR;
  dt_X86_INS_VRCP14PD; dt_X86_INS_VRCP14PS; dt_X86_INS_VRCP14SD;
  dt_X86_INS_VRCP14SS; dt_X86_INS_VRCP28PD; dt_X86_INS_VRCP28PS;
  dt_X86_INS_VRCP28SD; dt_X86_INS_VRCP28SS; dt_X86_INS_VRCPPS;
  dt_X86_INS_VRCPSS; dt_X86_INS_VRNDSCALEPD; dt_X86_INS_VRNDSCALEPS;
  dt_X86_INS_VRNDSCALESD; dt_X86_INS_VRNDSCALESS; dt_X86_INS_VROUNDPD;
  dt_X86_INS_VROUNDPS; dt_X86_INS_VROUNDSD; dt_X86_INS_VROUNDSS;
  dt_X86_INS_VRSQRT14PD; dt_X86_INS_VRSQRT14PS; dt_X86_INS_VRSQRT14SD;
  dt_X86_INS_VRSQRT14SS; dt_X86_INS_VRSQRT28PD; dt_X86_INS_VRSQRT28PS;
  dt_X86_INS_VRSQRT28SD; dt_X86_INS_VRSQRT28SS; dt_X86_INS_VRSQRTPS;
  dt_X86_INS_VRSQRTSS; dt_X86_INS_VSCATTERDPD; dt_X86_INS_VSCATTERDPS;
  dt_X86_INS_VSCATTERPF0DPD; dt_X86_INS_VSCATTERPF0DPS;
  dt_X86_INS_VSCATTERPF0QPD; dt_X86_INS_VSCATTERPF0QPS;
  dt_X86_INS_VSCATTERPF1DPD; dt_X86_INS_VSCATTERPF1DPS;
  dt_X86_INS_VSCATTERPF1QPD; dt_X86_INS_VSCATTERPF1QPS;
  dt_X86_INS_VSCATTERQPD; dt_X86_INS_VSCATTERQPS; dt_X86_INS_VSHUFPD;
  dt_X86_INS_VSHUFPS; dt_X86_INS_VSQRTPD; dt_X86_INS_VSQRTPS;
  dt_X86_INS_VSQRTSD; dt_X86_INS_VSQRTSS; dt_X86_INS_VSTMXCSR;
  dt_X86_INS_VSUBPD; dt_X86_INS_VSUBPS; dt_X86_INS_VSUBSD; dt_X86_INS_VSUBSS;
  dt_X86_INS_VTESTPD; dt_X86_INS_VTESTPS; dt_X86_INS_VUNPCKHPD;
  dt_X86_INS_VUNPCKHPS; dt_X86_INS_VUNPCKLPD; dt_X86_INS_VUNPCKLPS;
  dt_X86_INS_VZEROALL; dt_X86_INS_VZEROUPPER; dt_X86_INS_WBINVD;
  dt_X86_INS_WRFSBASE; dt_X86_INS_WRGSBASE; dt_X86_INS_WRMSR;
  dt_X86_INS_XABORT; dt_X86_INS_XACQUIRE; dt_X86_INS_XBEGIN; dt_X86_INS_XCHG;
  dt_X86_INS_XCRYPTCBC; dt_X86_INS_XCRYPTCFB; dt_X86_INS_XCRYPTCTR;
  dt_X86_INS_XCRYPTECB; dt_X86_INS_XCRYPTOFB; dt_X86_INS_XEND;
  dt_X86_INS_XGETBV; dt_X86_INS_XLATB; dt_X86_INS_XRELEASE;
  dt_X86_INS_XRSTOR; dt_X86_INS_XRSTOR64; dt_X86_INS_XRSTORS;
  dt_X86_INS_XRSTORS64; dt_X86_INS_XSAVE; dt_X86_INS_XSAVE64;
  dt_X86_INS_XSAVEC; dt_X86_INS_XSAVEC64; dt_X86_INS_XSAVEOPT;
  dt_X86_INS_XSAVEOPT64; dt_X86_INS_XSAVES; dt_X86_INS_XSAVES64;
  dt_X86_INS_XSETBV; dt_X86_INS_XSHA1; dt_X86_INS_XSHA256; dt_X86_INS_XSTORE;
  dt_X86_INS_XTEST; dt_X86_INS_FDISI8087_NOP; dt_X86_INS_FENI8087_NOP;
  dt_X86_INS_CMPSS; dt_X86_INS_CMPEQSS; dt_X86_INS_CMPLTSS;
  dt_X86_INS_CMPLESS; dt_X86_INS_CMPUNORDSS; dt_X86_INS_CMPNEQSS;
  dt_X86_INS_CMPNLTSS; dt_X86_INS_CMPNLESS; dt_X86_INS_CMPORDSS;
  dt_X86_INS_CMPSD; dt_X86_INS_CMPEQSD; dt_X86_INS_CMPLTSD;
  dt_X86_INS_CMPLESD; dt_X86_INS_CMPUNORDSD; dt_X86_INS_CMPNEQSD;
  dt_X86_INS_CMPNLTSD; dt_X86_INS_CMPNLESD; dt_X86_INS_CMPORDSD;
  dt_X86_INS_CMPPS; dt_X86_INS_CMPEQPS; dt_X86_INS_CMPLTPS;
  dt_X86_INS_CMPLEPS; dt_X86_INS_CMPUNORDPS; dt_X86_INS_CMPNEQPS;
  dt_X86_INS_CMPNLTPS; dt_X86_INS_CMPNLEPS; dt_X86_INS_CMPORDPS;
  dt_X86_INS_CMPPD; dt_X86_INS_CMPEQPD; dt_X86_INS_CMPLTPD;
  dt_X86_INS_CMPLEPD; dt_X86_INS_CMPUNORDPD; dt_X86_INS_CMPNEQPD;
  dt_X86_INS_CMPNLTPD; dt_X86_INS_CMPNLEPD; dt_X86_INS_CMPORDPD;
  dt_X86_INS_VCMPSS; dt_X86_INS_VCMPEQSS; dt_X86_INS_VCMPLTSS;
  dt_X86_INS_VCMPLESS; dt_X86_INS_VCMPUNORDSS; dt_X86_INS_VCMPNEQSS;
  dt_X86_INS_VCMPNLTSS; dt_X86_INS_VCMPNLESS; dt_X86_INS_VCMPORDSS;
  dt_X86_INS_VCMPEQ_UQSS; dt_X86_INS_VCMPNGESS; dt_X86_INS_VCMPNGTSS;
  dt_X86_INS_VCMPFALSESS; dt_X86_INS_VCMPNEQ_OQSS; dt_X86_INS_VCMPGESS;
  dt_X86_INS_VCMPGTSS; dt_X86_INS_VCMPTRUESS; dt_X86_INS_VCMPEQ_OSSS;
  dt_X86_INS_VCMPLT_OQSS; dt_X86_INS_VCMPLE_OQSS; dt_X86_INS_VCMPUNORD_SSS;
  dt_X86_INS_VCMPNEQ_USSS; dt_X86_INS_VCMPNLT_UQSS; dt_X86_INS_VCMPNLE_UQSS;
  dt_X86_INS_VCMPORD_SSS; dt_X86_INS_VCMPEQ_USSS; dt_X86_INS_VCMPNGE_UQSS;
  dt_X86_INS_VCMPNGT_UQSS; dt_X86_INS_VCMPFALSE_OSSS;
  dt_X86_INS_VCMPNEQ_OSSS; dt_X86_INS_VCMPGE_OQSS; dt_X86_INS_VCMPGT_OQSS;
  dt_X86_INS_VCMPTRUE_USSS; dt_X86_INS_VCMPSD; dt_X86_INS_VCMPEQSD;
  dt_X86_INS_VCMPLTSD; dt_X86_INS_VCMPLESD; dt_X86_INS_VCMPUNORDSD;
  dt_X86_INS_VCMPNEQSD; dt_X86_INS_VCMPNLTSD; dt_X86_INS_VCMPNLESD;
  dt_X86_INS_VCMPORDSD; dt_X86_INS_VCMPEQ_UQSD; dt_X86_INS_VCMPNGESD;
  dt_X86_INS_VCMPNGTSD; dt_X86_INS_VCMPFALSESD; dt_X86_INS_VCMPNEQ_OQSD;
  dt_X86_INS_VCMPGESD; dt_X86_INS_VCMPGTSD; dt_X86_INS_VCMPTRUESD;
  dt_X86_INS_VCMPEQ_OSSD; dt_X86_INS_VCMPLT_OQSD; dt_X86_INS_VCMPLE_OQSD;
  dt_X86_INS_VCMPUNORD_SSD; dt_X86_INS_VCMPNEQ_USSD; dt_X86_INS_VCMPNLT_UQSD;
  dt_X86_INS_VCMPNLE_UQSD; dt_X86_INS_VCMPORD_SSD; dt_X86_INS_VCMPEQ_USSD;
  dt_X86_INS_VCMPNGE_UQSD; dt_X86_INS_VCMPNGT_UQSD;
  dt_X86_INS_VCMPFALSE_OSSD; dt_X86_INS_VCMPNEQ_OSSD; dt_X86_INS_VCMPGE_OQSD;
  dt_X86_INS_VCMPGT_OQSD; dt_X86_INS_VCMPTRUE_USSD; dt_X86_INS_VCMPPS;
  dt_X86_INS_VCMPEQPS; dt_X86_INS_VCMPLTPS; dt_X86_INS_VCMPLEPS;
  dt_X86_INS_VCMPUNORDPS; dt_X86_INS_VCMPNEQPS; dt_X86_INS_VCMPNLTPS;
  dt_X86_INS_VCMPNLEPS; dt_X86_INS_VCMPORDPS; dt_X86_INS_VCMPEQ_UQPS;
  dt_X86_INS_VCMPNGEPS; dt_X86_INS_VCMPNGTPS; dt_X86_INS_VCMPFALSEPS;
  dt_X86_INS_VCMPNEQ_OQPS; dt_X86_INS_VCMPGEPS; dt_X86_INS_VCMPGTPS;
  dt_X86_INS_VCMPTRUEPS; dt_X86_INS_VCMPEQ_OSPS; dt_X86_INS_VCMPLT_OQPS;
  dt_X86_INS_VCMPLE_OQPS; dt_X86_INS_VCMPUNORD_SPS; dt_X86_INS_VCMPNEQ_USPS;
  dt_X86_INS_VCMPNLT_UQPS; dt_X86_INS_VCMPNLE_UQPS; dt_X86_INS_VCMPORD_SPS;
  dt_X86_INS_VCMPEQ_USPS; dt_X86_INS_VCMPNGE_UQPS; dt_X86_INS_VCMPNGT_UQPS;
  dt_X86_INS_VCMPFALSE_OSPS; dt_X86_INS_VCMPNEQ_OSPS; dt_X86_INS_VCMPGE_OQPS;
  dt_X86_INS_VCMPGT_OQPS; dt_X86_INS_VCMPTRUE_USPS; dt_X86_INS_VCMPPD;
  dt_X86_INS_VCMPEQPD; dt_X86_INS_VCMPLTPD; dt_X86_INS_VCMPLEPD;
  dt_X86_INS_VCMPUNORDPD; dt_X86_INS_VCMPNEQPD; dt_X86_INS_VCMPNLTPD;
  dt_X86_INS_VCMPNLEPD; dt_X86_INS_VCMPORDPD; dt_X86_INS_VCMPEQ_UQPD;
  dt_X86_INS_VCMPNGEPD; dt_X86_INS_VCMPNGTPD; dt_X86_INS_VCMPFALSEPD;
  dt_X86_INS_VCMPNEQ_OQPD; dt_X86_INS_VCMPGEPD; dt_X86_INS_VCMPGTPD;
  dt_X86_INS_VCMPTRUEPD; dt_X86_INS_VCMPEQ_OSPD; dt_X86_INS_VCMPLT_OQPD;
  dt_X86_INS_VCMPLE_OQPD; dt_X86_INS_VCMPUNORD_SPD; dt_X86_INS_VCMPNEQ_USPD;
  dt_X86_INS_VCMPNLT_UQPD; dt_X86_INS_VCMPNLE_UQPD; dt_X86_INS_VCMPORD_SPD;
  dt_X86_INS_VCMPEQ_USPD; dt_X86_INS_VCMPNGE_UQPD; dt_X86_INS_VCMPNGT_UQPD;
  dt_X86_INS_VCMPFALSE_OSPD; dt_X86_INS_VCMPNEQ_OSPD; dt_X86_INS_VCMPGE_OQPD;
  dt_X86_INS_VCMPGT_OQPD; dt_X86_INS_VCMPTRUE_USPD; dt_X86_INS_UD0;
  dt_X86_INS_UD1; dt_X86_INS_ENDBR32; dt_X86_INS_ENDBR64; dt_X86_INS_BNDMOV;
  dt_X86_INS_ENDING].

(** The enumerations as C integers: two constructors are equal exactly when
    their codes are. *)
Lemma all_regs_code x : all_regs !! Z.to_nat (reg_code x) = Some x.
Proof. destruct x; vm_compute; reflexivity. Qed.

Lemma all_insns_code x : all_insns !! Z.to_nat (insn_code x) = Some x.
Proof. destruct x; vm_compute; reflexivity. Qed.

Global Instance reg_code_inj : Inj (=) (=) reg_code.
Proof. intros x y H. pose proof (all_regs_code x). pose proof (all_regs_code y). congruence. Qed.

Global Instance insn_code_inj : Inj (=) (=) insn_code.
Proof. intros x y H. pose proof (all_insns_code x). pose proof (all_insns_code y). congruence. Qed.

Definition reg_eqb (x y : dt_x86_reg) : bool := reg_code x =? reg_code y.
Definition insn_eqb (x y : dt_x86_insn) : bool := insn_code x =? insn_code y.

Lemma reg_eqb_eq x y : reg_eqb x y = true <-> x = y.
Proof. unfold reg_eqb. rewrite Z.eqb_eq. split; [apply (inj reg_code) | congruence]. Qed.

Lemma insn_eqb_eq x y : insn_eqb x y = true <-> x = y.
Proof. unfold insn_eqb. rewrite Z.eqb_eq. split; [apply (inj insn_code) | congruence]. Qed.

Global Instance dt_x86_reg_eq_dec : EqDecision dt_x86_reg.
Proof.
  intros x y. destruct (reg_eqb x y) eqn:E; [left; by apply reg_eqb_eq |].
  right. intros ->. assert (reg_eqb y y = true) by (by apply reg_eqb_eq). congruence.
Defined.

Global Instance dt_x86_insn_eq_dec : EqDecision dt_x86_insn.
Proof.
  intros x y. destruct (insn_eqb x y) eqn:E; [left; by apply insn_eqb_eq |].
  right. intros ->. assert (insn_eqb y y = true) by (by apply insn_eqb_eq). congruence.
Defined.

(** A [switch] group: the opcode is one of the listed cases. *)
Definition insn_in (l : list dt_x86_insn) (x : dt_x86_insn) : bool :=
  existsb (insn_eqb x) l.

Lemma insn_in_elem l x : insn_in l x = true <-> x ∈ l.
Proof.
  unfold insn_in. rewrite existsb_exists, list_elem_of_In. split.
  - intros (y & Hy & E). apply insn_eqb_eq in E. by subst.
  - intros H. exists x. split; [done | by apply insn_eqb_eq].
Qed.
