(* ===== verification/Ir1.v ===== *)
(** * IR1: decoded x86 instructions

    The operand and instruction records of target/i386/latx/include/x86.h,
    latx-disassemble-trace.h and ir1.h, and the accessors and predicates of
    target/i386/latx/ir1/ir1.c, for the TARGET_X86_64 build.  A translation
    block (include/exec/exec-all.h) is reduced to the fields the analyses of
    this development read and write. *)

From stdpp Require Import base numbers list option tactics gmap.
From Stdlib Require Import ZArith Lia Bool.
From S2P Require Import Prelude Ir1Enum.
Local Open Scope Z_scope.
Local Open Scope c_scope.

(** ** Register numbers (include/reg-map.h) *)

Definition eax_index := 0.
Definition ecx_index := 1.
Definition edx_index := 2.
Definition ebx_index := 3.
Definition esp_index := 4.
Definition ebp_index := 5.
Definition esi_index := 6.
Definition edi_index := 7.
Definition r8_index := 8.
Definition r9_index := 9.
Definition r10_index := 10.
Definition r11_index := 11.
Definition r12_index := 12.
Definition r13_index := 13.
Definition r14_index := 14.
Definition r15_index := 15.
Definition riz_index := 16.
Definition es_index := 0.
Definition cs_index := 1.
Definition ss_index := 2.
Definition ds_index := 3.
Definition fs_index := 4.
Definition gs_index := 5.

(** ** Operands *)

(** [dt_x86_op_mem]. *)
Record dt_x86_op_mem := mkMem {
  segment : dt_x86_reg;
  base : dt_x86_reg;
  index : dt_x86_reg;
  scale : Z;
  disp : Z
}.

(** The [type] tag and the union of [dt_cs_x86_op]. *)
Inductive dt_x86_op : Type :=
  | OP_INVALID
  | OP_REG (reg : dt_x86_reg)
  | OP_IMM (imm : Z)
  | OP_MEM (mem : dt_x86_op_mem).

(** [dt_cs_x86_op]; [size] is in bytes. *)
Record IR1_OPND := mkOpnd { opnd_op : dt_x86_op; opnd_bytes : Z }.

Definition dt_X86_PREFIX_LOCK := 0xf0.
Definition dt_X86_PREFIX_REPE := 0xf3.
Definition dt_X86_PREFIX_REPNE := 0xf2.

(** ** Instructions: [struct la_dt_insn] and [IR1_INST] *)

Record la_dt_insn := mkInfo {
  id : dt_x86_insn;
  prefix : list Z;             (** [prefix[4]] *)
  opcode0 : Z;                 (** [opcode[0]] *)
  operands : list IR1_OPND;    (** the first [op_count] entries of [operands[8]] *)
  address : Z;
  isize : Z;
  bytes : list Z;              (** [bytes[24]] *)
  addr_size : Z;
  rex : Z
}.

(** [hbr_def] and [hbr_use] are the unions [xmm_def]/[gpr_def] and
    [xmm_use]/[gpr_use]. *)
Record IR1_INST := mkIR1 {
  info : la_dt_insn;
  _eflag_use : Z;
  _eflag_def : Z;
  hbr_def : Z;
  hbr_use : Z;
  hbr_flag : Z;
  instptn_opc : Z;
  instptn_next : option nat    (** [instptn.next], an index into the block's list *)
}.

Definition ir1_set_eflag_use (ir1 : IR1_INST) (use : Z) : IR1_INST :=
  mkIR1 (info ir1) use (_eflag_def ir1) (hbr_def ir1) (hbr_use ir1) (hbr_flag ir1)
    (instptn_opc ir1) (instptn_next ir1).
Definition ir1_set_eflag_def (ir1 : IR1_INST) (def : Z) : IR1_INST :=
  mkIR1 (info ir1) (_eflag_use ir1) def (hbr_def ir1) (hbr_use ir1) (hbr_flag ir1)
    (instptn_opc ir1) (instptn_next ir1).
Definition ir1_get_eflag_use (ir1 : IR1_INST) : Z := _eflag_use ir1.
Definition ir1_get_eflag_def (ir1 : IR1_INST) : Z := _eflag_def ir1.
Definition set_hbr_def (ir1 : IR1_INST) (x : Z) : IR1_INST :=
  mkIR1 (info ir1) (_eflag_use ir1) (_eflag_def ir1) x (hbr_use ir1) (hbr_flag ir1)
    (instptn_opc ir1) (instptn_next ir1).
Definition set_hbr_use (ir1 : IR1_INST) (x : Z) : IR1_INST :=
  mkIR1 (info ir1) (_eflag_use ir1) (_eflag_def ir1) (hbr_def ir1) x (hbr_flag ir1)
    (instptn_opc ir1) (instptn_next ir1).
Definition set_hbr_flag (ir1 : IR1_INST) (x : Z) : IR1_INST :=
  mkIR1 (info ir1) (_eflag_use ir1) (_eflag_def ir1) (hbr_def ir1) (hbr_use ir1) x
    (instptn_opc ir1) (instptn_next ir1).
Definition set_instptn_opc (ir1 : IR1_INST) (x : Z) : IR1_INST :=
  mkIR1 (info ir1) (_eflag_use ir1) (_eflag_def ir1) (hbr_def ir1) (hbr_use ir1) (hbr_flag ir1)
    x (instptn_next ir1).
Definition set_instptn_next (ir1 : IR1_INST) (x : option nat) : IR1_INST :=
  mkIR1 (info ir1) (_eflag_use ir1) (_eflag_def ir1) (hbr_def ir1) (hbr_use ir1) (hbr_flag ir1)
    (instptn_opc ir1) x.

Definition ir1_opcode (ir1 : IR1_INST) : dt_x86_insn := id (info ir1).
Definition ir1_get_opnd_num (ir1 : IR1_INST) : Z := Z.of_nat (length (operands (info ir1))).
Definition ir1_opnd_num (ir1 : IR1_INST) : Z := ir1_get_opnd_num ir1.

(** [lsassert(i < op_count)]: [None] when there is no such operand. *)
Definition ir1_get_opnd (ir1 : IR1_INST) (i : nat) : option IR1_OPND :=
  operands (info ir1) !! i.

Definition ir1_prefix (ir1 : IR1_INST) : Z := nth 0 (prefix (info ir1)) 0.
Definition ir1_prefix_opnd_size (ir1 : IR1_INST) : Z := nth 2 (prefix (info ir1)) 0.
Definition ir1_is_prefix_lock (ir1 : IR1_INST) : bool := ir1_prefix ir1 =? dt_X86_PREFIX_LOCK.
Definition ir1_addr (ir1 : IR1_INST) : Z := address (info ir1).
Definition ir1_addr_next (ir1 : IR1_INST) : Z := u64 (address (info ir1) + isize (info ir1)).

Definition ir1_addr_size (ir1 : IR1_INST) : Z := Z.shiftl (addr_size (info ir1)) 3.
Definition ir1_rex (ir1 : IR1_INST) : Z := rex (info ir1).
Definition ir1_rex_w (ir1 : IR1_INST) : Z := rex (info ir1) .& 0x8.

(** [CODEIS64] is a run-time flag, here the argument [code64]. *)
Definition ir1_get_opnd_size (code64 : bool) (ir1 : IR1_INST) : option Z :=
  match ir1_opcode ir1 with
  | dt_X86_INS_CALL | dt_X86_INS_LCALL | dt_X86_INS_RET | dt_X86_INS_RETF
  | dt_X86_INS_ENTER | dt_X86_INS_LEAVE =>
      if negb code64 then
        Some (if negb (ir1_prefix_opnd_size ir1 =? 0) then Z.shiftl 2 3 else Z.shiftl 4 3)
      else Some (Z.shiftl 8 3)
  | _ => None
  end.

(** ** Operand constructors *)

Definition ir1_opnd_build_reg (size : Z) (reg : dt_x86_reg) : option IR1_OPND :=
  lsassert size mod 8 =? 0 ;; Some (mkOpnd (OP_REG reg) (u8 (size / 8))).
Definition ir1_opnd_build_imm (size imm : Z) : option IR1_OPND :=
  lsassert size mod 8 =? 0 ;; Some (mkOpnd (OP_IMM (s64 imm)) (u8 (size / 8))).
Definition ir1_opnd_build_mem (size : Z) (base : dt_x86_reg) (disp : Z) : option IR1_OPND :=
  lsassert size mod 8 =? 0 ;;
  Some (mkOpnd (OP_MEM (mkMem dt_X86_REG_INVALID base dt_X86_REG_INVALID 0 (s64 disp)))
               (u8 (size / 8))).

(** ** Operand predicates *)

Definition ir1_opnd_size (o : IR1_OPND) : Z := Z.shiftl (opnd_bytes o) 3.

Definition ir1_opnd_is_imm (o : IR1_OPND) : bool :=
  match opnd_op o with OP_IMM _ => true | _ => false end.
Definition ir1_opnd_is_mem (o : IR1_OPND) : bool :=
  match opnd_op o with OP_MEM _ => true | _ => false end.

(** The [switch] of [ir1_opnd_is_gpr]; gcc's case ranges are expanded. *)
Definition reg_is_gpr (r : dt_x86_reg) : bool :=
  match r with
  | dt_X86_REG_AL | dt_X86_REG_AH | dt_X86_REG_AX | dt_X86_REG_EAX
  | dt_X86_REG_BL | dt_X86_REG_BH | dt_X86_REG_BX | dt_X86_REG_EBX
  | dt_X86_REG_CL | dt_X86_REG_CH | dt_X86_REG_CX | dt_X86_REG_ECX
  | dt_X86_REG_DL | dt_X86_REG_DH | dt_X86_REG_DX | dt_X86_REG_EDX
  | dt_X86_REG_BP | dt_X86_REG_EBP | dt_X86_REG_SI | dt_X86_REG_ESI
  | dt_X86_REG_DI | dt_X86_REG_EDI | dt_X86_REG_SP | dt_X86_REG_ESP
  | dt_X86_REG_RAX | dt_X86_REG_RBX | dt_X86_REG_RCX | dt_X86_REG_RDX
  | dt_X86_REG_R8 | dt_X86_REG_R9 | dt_X86_REG_R10 | dt_X86_REG_R11
  | dt_X86_REG_R12 | dt_X86_REG_R13 | dt_X86_REG_R14 | dt_X86_REG_R15
  | dt_X86_REG_R8D | dt_X86_REG_R9D | dt_X86_REG_R10D | dt_X86_REG_R11D
  | dt_X86_REG_R12D | dt_X86_REG_R13D | dt_X86_REG_R14D | dt_X86_REG_R15D
  | dt_X86_REG_R8W | dt_X86_REG_R9W | dt_X86_REG_R10W | dt_X86_REG_R11W
  | dt_X86_REG_R12W | dt_X86_REG_R13W | dt_X86_REG_R14W | dt_X86_REG_R15W
  | dt_X86_REG_R8B | dt_X86_REG_R9B | dt_X86_REG_R10B | dt_X86_REG_R11B
  | dt_X86_REG_R12B | dt_X86_REG_R13B | dt_X86_REG_R14B | dt_X86_REG_R15B
  | dt_X86_REG_RBP | dt_X86_REG_RSI | dt_X86_REG_RDI | dt_X86_REG_RSP
  | dt_X86_REG_BPL | dt_X86_REG_SIL | dt_X86_REG_DIL | dt_X86_REG_SPL => true
  | _ => false
  end.

Definition ir1_opnd_is_gpr (o : IR1_OPND) : bool :=
  match opnd_op o with OP_REG r => reg_is_gpr r | _ => false end.

Definition ir1_opnd_is_fpr (o : IR1_OPND) : bool :=
  match opnd_op o with OP_REG r =>
  match r with
  | dt_X86_REG_ST0 | dt_X86_REG_ST1 | dt_X86_REG_ST2 | dt_X86_REG_ST3
  | dt_X86_REG_ST4 | dt_X86_REG_ST5 | dt_X86_REG_ST6 | dt_X86_REG_ST7 => true
  | _ => false
  end
  | _ => false end.

Definition ir1_opnd_is_seg (o : IR1_OPND) : bool :=
  match opnd_op o with OP_REG r =>
  match r with
  | dt_X86_REG_CS | dt_X86_REG_DS | dt_X86_REG_SS | dt_X86_REG_ES
  | dt_X86_REG_FS | dt_X86_REG_GS => true
  | _ => false
  end
  | _ => false end.

Definition ir1_opnd_is_mmx (o : IR1_OPND) : bool :=
  match opnd_op o with OP_REG r =>
  match r with
  | dt_X86_REG_MM0 | dt_X86_REG_MM1 | dt_X86_REG_MM2 | dt_X86_REG_MM3
  | dt_X86_REG_MM4 | dt_X86_REG_MM5 | dt_X86_REG_MM6 | dt_X86_REG_MM7 => true
  | _ => false
  end
  | _ => false end.

Definition ir1_opnd_is_xmm (o : IR1_OPND) : bool :=
  match opnd_op o with OP_REG r =>
  match r with
  | dt_X86_REG_XMM0 | dt_X86_REG_XMM1 | dt_X86_REG_XMM2 | dt_X86_REG_XMM3
  | dt_X86_REG_XMM4 | dt_X86_REG_XMM5 | dt_X86_REG_XMM6 | dt_X86_REG_XMM7
  | dt_X86_REG_XMM8 | dt_X86_REG_XMM9 | dt_X86_REG_XMM10 | dt_X86_REG_XMM11
  | dt_X86_REG_XMM12 | dt_X86_REG_XMM13 | dt_X86_REG_XMM14
  | dt_X86_REG_XMM15 => true
  | _ => false
  end
  | _ => false end.

Definition ir1_opnd_is_ymm (o : IR1_OPND) : bool :=
  match opnd_op o with OP_REG r =>
  match r with
  | dt_X86_REG_YMM0 | dt_X86_REG_YMM1 | dt_X86_REG_YMM2 | dt_X86_REG_YMM3
  | dt_X86_REG_YMM4 | dt_X86_REG_YMM5 | dt_X86_REG_YMM6 | dt_X86_REG_YMM7
  | dt_X86_REG_YMM8 | dt_X86_REG_YMM9 | dt_X86_REG_YMM10 | dt_X86_REG_YMM11
  | dt_X86_REG_YMM12 | dt_X86_REG_YMM13 | dt_X86_REG_YMM14
  | dt_X86_REG_YMM15 => true
  | _ => false
  end
  | _ => false end.

Definition ir1_opnd_is_reg (o : IR1_OPND) : bool :=
  ir1_opnd_is_gpr o || ir1_opnd_is_fpr o || ir1_opnd_is_seg o || ir1_opnd_is_mmx o ||
  ir1_opnd_is_xmm o || ir1_opnd_is_ymm o.

(** [opnd0->reg == opnd1->reg] is only evaluated on register operands. *)
Definition ir1_opnd_is_same_reg (o0 o1 : IR1_OPND) : bool :=
  ir1_opnd_is_reg o0 && ir1_opnd_is_reg o1 &&
  match opnd_op o0, opnd_op o1 with
  | OP_REG r0, OP_REG r1 => reg_eqb r0 r1
  | _, _ => false
  end.

(** The fields of the memory union, for a memory operand. *)
Definition ir1_opnd_mem (o : IR1_OPND) : option dt_x86_op_mem :=
  match opnd_op o with OP_MEM m => Some m | _ => None end.
Definition ir1_opnd_has_base (o : IR1_OPND) : bool :=
  match ir1_opnd_mem o with Some m => negb (reg_eqb (base m) dt_X86_REG_INVALID) | None => false end.
Definition ir1_opnd_has_index (o : IR1_OPND) : bool :=
  match ir1_opnd_mem o with Some m => negb (reg_eqb (index m) dt_X86_REG_INVALID) | None => false end.

(** ** Register numbers of operands *)

(** The [switch] of [ir1_opnd_base_reg_num]. *)
Definition base_reg_num (r : dt_x86_reg) : Z :=
  match r with
  | dt_X86_REG_AL | dt_X86_REG_AH | dt_X86_REG_AX | dt_X86_REG_EAX
  | dt_X86_REG_RAX => eax_index
  | dt_X86_REG_BL | dt_X86_REG_BH | dt_X86_REG_BX | dt_X86_REG_EBX
  | dt_X86_REG_RBX => ebx_index
  | dt_X86_REG_CL | dt_X86_REG_CH | dt_X86_REG_CX | dt_X86_REG_ECX
  | dt_X86_REG_RCX => ecx_index
  | dt_X86_REG_DL | dt_X86_REG_DH | dt_X86_REG_DX | dt_X86_REG_EDX
  | dt_X86_REG_RDX => edx_index
  | dt_X86_REG_BP | dt_X86_REG_EBP | dt_X86_REG_RBP | dt_X86_REG_BPL => ebp_index
  | dt_X86_REG_SI | dt_X86_REG_ESI | dt_X86_REG_RSI | dt_X86_REG_SIL => esi_index
  | dt_X86_REG_DI | dt_X86_REG_EDI | dt_X86_REG_RDI | dt_X86_REG_DIL => edi_index
  | dt_X86_REG_SP | dt_X86_REG_ESP | dt_X86_REG_RSP | dt_X86_REG_SPL => esp_index
  | dt_X86_REG_R8B | dt_X86_REG_R8W | dt_X86_REG_R8D | dt_X86_REG_R8 => r8_index
  | dt_X86_REG_R9B | dt_X86_REG_R9W | dt_X86_REG_R9D | dt_X86_REG_R9 => r9_index
  | dt_X86_REG_R10B | dt_X86_REG_R10W | dt_X86_REG_R10D | dt_X86_REG_R10 => r10_index
  | dt_X86_REG_R11B | dt_X86_REG_R11W | dt_X86_REG_R11D | dt_X86_REG_R11 => r11_index
  | dt_X86_REG_R12B | dt_X86_REG_R12W | dt_X86_REG_R12D | dt_X86_REG_R12 => r12_index
  | dt_X86_REG_R13B | dt_X86_REG_R13W | dt_X86_REG_R13D | dt_X86_REG_R13 => r13_index
  | dt_X86_REG_R14B | dt_X86_REG_R14W | dt_X86_REG_R14D | dt_X86_REG_R14 => r14_index
  | dt_X86_REG_R15B | dt_X86_REG_R15W | dt_X86_REG_R15D | dt_X86_REG_R15 => r15_index
  | dt_X86_REG_CS => cs_index
  | dt_X86_REG_DS => ds_index
  | dt_X86_REG_SS => ss_index
  | dt_X86_REG_ES => es_index
  | dt_X86_REG_GS => gs_index
  | dt_X86_REG_FS => fs_index
  | dt_X86_REG_MM0 => 0
  | dt_X86_REG_MM1 => 1
  | dt_X86_REG_MM2 => 2
  | dt_X86_REG_MM3 => 3
  | dt_X86_REG_MM4 => 4
  | dt_X86_REG_MM5 => 5
  | dt_X86_REG_MM6 => 6
  | dt_X86_REG_MM7 => 7
  | dt_X86_REG_XMM0 => 0
  | dt_X86_REG_XMM1 => 1
  | dt_X86_REG_XMM2 => 2
  | dt_X86_REG_XMM3 => 3
  | dt_X86_REG_XMM4 => 4
  | dt_X86_REG_XMM5 => 5
  | dt_X86_REG_XMM6 => 6
  | dt_X86_REG_XMM7 => 7
  | dt_X86_REG_YMM0 => 0
  | dt_X86_REG_YMM1 => 1
  | dt_X86_REG_YMM2 => 2
  | dt_X86_REG_YMM3 => 3
  | dt_X86_REG_YMM4 => 4
  | dt_X86_REG_YMM5 => 5
  | dt_X86_REG_YMM6 => 6
  | dt_X86_REG_YMM7 => 7
  | dt_X86_REG_XMM8 => 8
  | dt_X86_REG_XMM9 => 9
  | dt_X86_REG_XMM10 => 10
  | dt_X86_REG_XMM11 => 11
  | dt_X86_REG_XMM12 => 12
  | dt_X86_REG_XMM13 => 13
  | dt_X86_REG_XMM14 => 14
  | dt_X86_REG_XMM15 => 15
  | dt_X86_REG_YMM8 => 8
  | dt_X86_REG_YMM9 => 9
  | dt_X86_REG_YMM10 => 10
  | dt_X86_REG_YMM11 => 11
  | dt_X86_REG_YMM12 => 12
  | dt_X86_REG_YMM13 => 13
  | dt_X86_REG_YMM14 => 14
  | dt_X86_REG_YMM15 => 15
  | dt_X86_REG_ST0 => 0
  | dt_X86_REG_ST1 => 1
  | dt_X86_REG_ST2 => 2
  | dt_X86_REG_ST3 => 3
  | dt_X86_REG_ST4 => 4
  | dt_X86_REG_ST5 => 5
  | dt_X86_REG_ST6 => 6
  | dt_X86_REG_ST7 => 7
  | _ => -1
  end.

(** For an immediate the C code would switch on bytes of the union that hold
    no register; no caller asks, and the model answers [-1]. *)
Definition ir1_opnd_base_reg_num (o : IR1_OPND) : Z :=
  match opnd_op o with
  | OP_MEM m => if reg_eqb (base m) dt_X86_REG_INVALID then -1 else base_reg_num (base m)
  | OP_REG r => base_reg_num r
  | _ => -1
  end.

(** The [switch] of [ir1_opnd_index_reg_num]; its default is [lsassert(0)]. *)
Definition index_reg_num (r : dt_x86_reg) : option Z :=
  match r with
  | dt_X86_REG_AL | dt_X86_REG_AH | dt_X86_REG_AX | dt_X86_REG_EAX
  | dt_X86_REG_RAX => Some eax_index
  | dt_X86_REG_BL | dt_X86_REG_BH | dt_X86_REG_BX | dt_X86_REG_EBX
  | dt_X86_REG_RBX => Some ebx_index
  | dt_X86_REG_CL | dt_X86_REG_CH | dt_X86_REG_CX | dt_X86_REG_ECX
  | dt_X86_REG_RCX => Some ecx_index
  | dt_X86_REG_DL | dt_X86_REG_DH | dt_X86_REG_DX | dt_X86_REG_EDX
  | dt_X86_REG_RDX => Some edx_index
  | dt_X86_REG_BP | dt_X86_REG_EBP | dt_X86_REG_RBP | dt_X86_REG_BPL => Some ebp_index
  | dt_X86_REG_SI | dt_X86_REG_ESI | dt_X86_REG_RSI | dt_X86_REG_SIL => Some esi_index
  | dt_X86_REG_DI | dt_X86_REG_EDI | dt_X86_REG_RDI | dt_X86_REG_DIL => Some edi_index
  | dt_X86_REG_SP | dt_X86_REG_ESP | dt_X86_REG_RSP | dt_X86_REG_SPL => Some esp_index
  | dt_X86_REG_CS => Some cs_index
  | dt_X86_REG_DS => Some ds_index
  | dt_X86_REG_SS => Some ss_index
  | dt_X86_REG_ES => Some es_index
  | dt_X86_REG_GS => Some gs_index
  | dt_X86_REG_FS => Some fs_index
  | dt_X86_REG_R8B | dt_X86_REG_R8W | dt_X86_REG_R8D | dt_X86_REG_R8 => Some r8_index
  | dt_X86_REG_R9B | dt_X86_REG_R9W | dt_X86_REG_R9D | dt_X86_REG_R9 => Some r9_index
  | dt_X86_REG_R10B | dt_X86_REG_R10W | dt_X86_REG_R10D | dt_X86_REG_R10 => Some r10_index
  | dt_X86_REG_R11B | dt_X86_REG_R11W | dt_X86_REG_R11D | dt_X86_REG_R11 => Some r11_index
  | dt_X86_REG_R12B | dt_X86_REG_R12W | dt_X86_REG_R12D | dt_X86_REG_R12 => Some r12_index
  | dt_X86_REG_R13B | dt_X86_REG_R13W | dt_X86_REG_R13D | dt_X86_REG_R13 => Some r13_index
  | dt_X86_REG_R14B | dt_X86_REG_R14W | dt_X86_REG_R14D | dt_X86_REG_R14 => Some r14_index
  | dt_X86_REG_R15B | dt_X86_REG_R15W | dt_X86_REG_R15D | dt_X86_REG_R15 => Some r15_index
  | dt_X86_REG_RIZ => Some riz_index
  | _ => None
  end.

Definition ir1_opnd_index_reg_num (o : IR1_OPND) : option Z :=
  m ← ir1_opnd_mem o; index_reg_num (index m).

(** The two (textually separate) switches of
    [ir1_opnd_is_same_reg_without_width]. *)
Definition same_reg_index0 (r : dt_x86_reg) : option Z :=
  match r with
  | dt_X86_REG_RIP | dt_X86_REG_EIP => Some (-1)
  | dt_X86_REG_AL | dt_X86_REG_AH | dt_X86_REG_AX | dt_X86_REG_EAX
  | dt_X86_REG_RAX => Some eax_index
  | dt_X86_REG_BL | dt_X86_REG_BH | dt_X86_REG_BX | dt_X86_REG_EBX
  | dt_X86_REG_RBX => Some ebx_index
  | dt_X86_REG_CL | dt_X86_REG_CH | dt_X86_REG_CX | dt_X86_REG_ECX
  | dt_X86_REG_RCX => Some ecx_index
  | dt_X86_REG_DL | dt_X86_REG_DH | dt_X86_REG_DX | dt_X86_REG_EDX
  | dt_X86_REG_RDX => Some edx_index
  | dt_X86_REG_BP | dt_X86_REG_EBP | dt_X86_REG_RBP | dt_X86_REG_BPL => Some ebp_index
  | dt_X86_REG_SI | dt_X86_REG_ESI | dt_X86_REG_RSI | dt_X86_REG_SIL => Some esi_index
  | dt_X86_REG_DI | dt_X86_REG_EDI | dt_X86_REG_RDI | dt_X86_REG_DIL => Some edi_index
  | dt_X86_REG_SP | dt_X86_REG_ESP | dt_X86_REG_RSP | dt_X86_REG_SPL => Some esp_index
  | dt_X86_REG_R8B | dt_X86_REG_R8W | dt_X86_REG_R8D | dt_X86_REG_R8 => Some r8_index
  | dt_X86_REG_R9B | dt_X86_REG_R9W | dt_X86_REG_R9D | dt_X86_REG_R9 => Some r9_index
  | dt_X86_REG_R10B | dt_X86_REG_R10W | dt_X86_REG_R10D | dt_X86_REG_R10 => Some r10_index
  | dt_X86_REG_R11B | dt_X86_REG_R11W | dt_X86_REG_R11D | dt_X86_REG_R11 => Some r11_index
  | dt_X86_REG_R12B | dt_X86_REG_R12W | dt_X86_REG_R12D | dt_X86_REG_R12 => Some r12_index
  | dt_X86_REG_R13B | dt_X86_REG_R13W | dt_X86_REG_R13D | dt_X86_REG_R13 => Some r13_index
  | dt_X86_REG_R14B | dt_X86_REG_R14W | dt_X86_REG_R14D | dt_X86_REG_R14 => Some r14_index
  | dt_X86_REG_R15B | dt_X86_REG_R15W | dt_X86_REG_R15D | dt_X86_REG_R15 => Some r15_index
  | _ => None
  end.

Definition same_reg_index1 (r : dt_x86_reg) : option Z :=
  match r with
  | dt_X86_REG_RIP | dt_X86_REG_EIP => Some (-1)
  | dt_X86_REG_AL | dt_X86_REG_AH | dt_X86_REG_AX | dt_X86_REG_EAX
  | dt_X86_REG_RAX => Some eax_index
  | dt_X86_REG_BL | dt_X86_REG_BH | dt_X86_REG_BX | dt_X86_REG_EBX
  | dt_X86_REG_RBX => Some ebx_index
  | dt_X86_REG_CL | dt_X86_REG_CH | dt_X86_REG_CX | dt_X86_REG_ECX
  | dt_X86_REG_RCX => Some ecx_index
  | dt_X86_REG_DL | dt_X86_REG_DH | dt_X86_REG_DX | dt_X86_REG_EDX
  | dt_X86_REG_RDX => Some edx_index
  | dt_X86_REG_BP | dt_X86_REG_EBP | dt_X86_REG_RBP | dt_X86_REG_BPL => Some ebp_index
  | dt_X86_REG_SI | dt_X86_REG_ESI | dt_X86_REG_RSI | dt_X86_REG_SIL => Some esi_index
  | dt_X86_REG_DI | dt_X86_REG_EDI | dt_X86_REG_RDI | dt_X86_REG_DIL => Some edi_index
  | dt_X86_REG_SP | dt_X86_REG_ESP | dt_X86_REG_RSP | dt_X86_REG_SPL => Some esp_index
  | dt_X86_REG_R8B | dt_X86_REG_R8W | dt_X86_REG_R8D | dt_X86_REG_R8 => Some r8_index
  | dt_X86_REG_R9B | dt_X86_REG_R9W | dt_X86_REG_R9D | dt_X86_REG_R9 => Some r9_index
  | dt_X86_REG_R10B | dt_X86_REG_R10W | dt_X86_REG_R10D | dt_X86_REG_R10 => Some r10_index
  | dt_X86_REG_R11B | dt_X86_REG_R11W | dt_X86_REG_R11D | dt_X86_REG_R11 => Some r11_index
  | dt_X86_REG_R12B | dt_X86_REG_R12W | dt_X86_REG_R12D | dt_X86_REG_R12 => Some r12_index
  | dt_X86_REG_R13B | dt_X86_REG_R13W | dt_X86_REG_R13D | dt_X86_REG_R13 => Some r13_index
  | dt_X86_REG_R14B | dt_X86_REG_R14W | dt_X86_REG_R14D | dt_X86_REG_R14 => Some r14_index
  | dt_X86_REG_R15B | dt_X86_REG_R15W | dt_X86_REG_R15D | dt_X86_REG_R15 => Some r15_index
  | _ => None
  end.

Definition ir1_opnd_is_same_reg_without_width (o0 o1 : IR1_OPND) : option bool :=
  match opnd_op o0, opnd_op o1 with
  | OP_REG r0, OP_REG r1 =>
      i0 ← same_reg_index0 r0; i1 ← same_reg_index1 r1; Some (i0 =? i1)
  | _, _ => None
  end.

Definition ir1_opnd_base_reg_bits_start (o : IR1_OPND) : option Z :=
  match opnd_op o with
  | OP_REG r =>
      lsassert (reg_code dt_X86_REG_INVALID <? reg_code r) &&
               (reg_code r <? reg_code dt_X86_REG_ENDING) ;;
      match r with
      | dt_X86_REG_AH | dt_X86_REG_BH | dt_X86_REG_CH | dt_X86_REG_DH => Some 8
      | _ => Some 0
      end
  | _ => None
  end.

Definition ir1_opnd_vsib_index_reg_num (o : IR1_OPND) : option Z :=
  m ← ir1_opnd_mem o;
  let i := reg_code (index m) in
  lsassert ((reg_code dt_X86_REG_XMM0 <=? i) && (i <=? reg_code dt_X86_REG_XMM15)) ||
           ((reg_code dt_X86_REG_YMM0 <=? i) && (i <=? reg_code dt_X86_REG_YMM15)) ;;
  if i <=? reg_code dt_X86_REG_XMM15 then Some (i - reg_code dt_X86_REG_XMM0)
  else Some (i - reg_code dt_X86_REG_YMM0).

Definition ir1_index_reg_is_ymm (o : IR1_OPND) : option bool :=
  m ← ir1_opnd_mem o;
  lsassert ir1_opnd_has_index o ;;
  let i := reg_code (index m) in
  Some ((reg_code dt_X86_REG_YMM0 <=? i) && (i <=? reg_code dt_X86_REG_YMM15)).

(** [mem.segment] is the first member of the memory union, so on a register
    operand it reads [reg]. *)
Definition opnd_segment (o : IR1_OPND) : option dt_x86_reg :=
  match opnd_op o with
  | OP_MEM m => Some (segment m)
  | OP_REG r => Some r
  | _ => None
  end.

Definition ir1_opnd_has_seg (o : IR1_OPND) : bool :=
  match opnd_segment o with
  | Some r => negb (reg_eqb r dt_X86_REG_INVALID)
  | None => false
  end.

Definition ir1_opnd_get_seg_index (code64 : bool) (o : IR1_OPND) : option Z :=
  lsassert ir1_opnd_is_mem o ||
    (negb code64 && match opnd_op o with OP_REG _ => true | _ => false end) ;;
  seg ← opnd_segment o;
  match seg with
  | dt_X86_REG_ES => Some es_index
  | dt_X86_REG_CS => Some cs_index
  | dt_X86_REG_SS => Some ss_index
  | dt_X86_REG_DS => Some ds_index
  | dt_X86_REG_FS => Some fs_index
  | dt_X86_REG_GS => Some gs_index
  | _ => None
  end.

(** ** Operand widths *)

Definition ir1_opnd_is_8h (o : IR1_OPND) : bool :=
  match opnd_op o with
  | OP_REG r => (opnd_bytes o =? 1) &&
      match r with
      | dt_X86_REG_AH | dt_X86_REG_BH | dt_X86_REG_CH | dt_X86_REG_DH => true
      | _ => false
      end
  | _ => false
  end.

Definition ir1_opnd_is_8l (code64 : bool) (o : IR1_OPND) : bool :=
  match opnd_op o with
  | OP_REG r => (opnd_bytes o =? 1) &&
      match r with
      | dt_X86_REG_AL | dt_X86_REG_BL | dt_X86_REG_CL | dt_X86_REG_DL => true
      | dt_X86_REG_R8B | dt_X86_REG_R9B | dt_X86_REG_R10B | dt_X86_REG_R11B
      | dt_X86_REG_R12B | dt_X86_REG_R13B | dt_X86_REG_R14B | dt_X86_REG_R15B
      | dt_X86_REG_SPL | dt_X86_REG_BPL | dt_X86_REG_SIL | dt_X86_REG_DIL => code64
      | _ => false
      end
  | _ => false
  end.

Definition ir1_opnd_is_16bit (code64 : bool) (o : IR1_OPND) : bool :=
  match opnd_op o with
  | OP_REG r => (opnd_bytes o =? 2) &&
      match r with
      | dt_X86_REG_AX | dt_X86_REG_BX | dt_X86_REG_CX | dt_X86_REG_DX
      | dt_X86_REG_SP | dt_X86_REG_BP | dt_X86_REG_SI | dt_X86_REG_DI => true
      | dt_X86_REG_R8W | dt_X86_REG_R9W | dt_X86_REG_R10W | dt_X86_REG_R11W
      | dt_X86_REG_R12W | dt_X86_REG_R13W | dt_X86_REG_R14W | dt_X86_REG_R15W => code64
      | _ => false
      end
  | _ => false
  end.

Definition ir1_opnd_is_32bit (code64 : bool) (o : IR1_OPND) : bool :=
  match opnd_op o with
  | OP_REG r => (opnd_bytes o =? 4) &&
      match r with
      | dt_X86_REG_EAX | dt_X86_REG_EBX | dt_X86_REG_ECX | dt_X86_REG_EDX
      | dt_X86_REG_ESP | dt_X86_REG_EBP | dt_X86_REG_ESI | dt_X86_REG_EDI => true
      | dt_X86_REG_R8D | dt_X86_REG_R9D | dt_X86_REG_R10D | dt_X86_REG_R11D
      | dt_X86_REG_R12D | dt_X86_REG_R13D | dt_X86_REG_R14D | dt_X86_REG_R15D => code64
      | _ => false
      end
  | _ => false
  end.

Definition ir1_opnd_is_64bit (o : IR1_OPND) : bool :=
  match opnd_op o with
  | OP_REG r => (opnd_bytes o =? 8) &&
      match r with
      | dt_X86_REG_RAX | dt_X86_REG_RBX | dt_X86_REG_RCX | dt_X86_REG_RDX
      | dt_X86_REG_R8 | dt_X86_REG_R9 | dt_X86_REG_R10 | dt_X86_REG_R11
      | dt_X86_REG_R12 | dt_X86_REG_R13 | dt_X86_REG_R14 | dt_X86_REG_R15
      | dt_X86_REG_RSP | dt_X86_REG_RBP | dt_X86_REG_RSI | dt_X86_REG_RDI => true
      | _ => false
      end
  | _ => false
  end.

(** ** Immediates ([longx]/[ulongx] are 64-bit here) *)

Definition ir1_opnd_simm (o : IR1_OPND) : option Z :=
  match opnd_op o with
  | OP_IMM imm =>
      match ir1_opnd_size o with
      | 8 => Some (s8 imm) | 16 => Some (s16 imm)
      | 32 => Some (s32 imm) | 64 => Some (s64 imm)
      | _ => None
      end
  | OP_MEM m => Some (s64 (disp m))
  | _ => None
  end.

Definition ir1_opnd_uimm (o : IR1_OPND) : option Z :=
  match opnd_op o with
  | OP_IMM imm =>
      match ir1_opnd_size o with
      | 8 => Some (u8 imm) | 16 => Some (u16 imm)
      | 32 => Some (u32 imm) | 64 => Some (u64 imm)
      | _ => None
      end
  | OP_MEM m => Some (u64 (disp m))
  | _ => None
  end.

Definition ir1_opnd_uimm_addr (o : IR1_OPND) : option Z :=
  match opnd_op o with
  | OP_IMM imm => Some (u64 imm)
  | OP_MEM m => Some (u64 (disp m))
  | _ => None
  end.

Definition ir1_opnd_u2simm (o : IR1_OPND) : option Z :=
  match opnd_op o with
  | OP_IMM imm =>
      match ir1_opnd_size o with
      | 8 => Some (u8 imm) | 16 => Some (u16 imm)
      | 32 => Some (u32 imm) | 64 => Some (s64 imm)
      | _ => None
      end
  | _ => None
  end.

Definition ir1_opnd_s2uimm (o : IR1_OPND) : option Z :=
  match opnd_op o with
  | OP_IMM imm =>
      match ir1_opnd_size o with
      | 8 => Some (u64 (s8 imm)) | 16 => Some (u64 (s16 imm))
      | 32 => Some (u64 (s32 imm)) | 64 => Some (u64 imm)
      | _ => None
      end
  | _ => None
  end.

Definition ir1_opnd_is_uimm12 (o : IR1_OPND) : option bool :=
  if ir1_opnd_is_imm o then v ← ir1_opnd_uimm o; Some (v <? 4096) else Some false.
Definition ir1_opnd_is_simm12 (o : IR1_OPND) : option bool :=
  if ir1_opnd_is_imm o then v ← ir1_opnd_simm o; Some ((-2048 <=? v) && (v <? 2047))
  else Some false.
Definition ir1_opnd_is_s2uimm12 (o : IR1_OPND) : option bool :=
  if ir1_opnd_is_imm o then v ← ir1_opnd_s2uimm o; Some (v <? 4096) else Some false.
Definition ir1_opnd_is_u2simm12 (o : IR1_OPND) : option bool :=
  v ← ir1_opnd_u2simm o;
  lsassert ir1_opnd_is_imm o && (0 <=? v) ;; Some (v <? 2047).

(** [ir1_opnd_is_pc_relative]: 1 for RIP, 2 for EIP, 0 otherwise. *)
Definition ir1_opnd_is_pc_relative (o : IR1_OPND) : option Z :=
  m ← ir1_opnd_mem o;
  Some (if reg_eqb (base m) dt_X86_REG_RIP then 1
        else if reg_eqb (base m) dt_X86_REG_EIP then 2 else 0).

Definition ir1_opnd_is_gpr_used (code64 : bool) (o : IR1_OPND) (gpr_index : Z) : option bool :=
  if ir1_opnd_is_gpr o then Some (ir1_opnd_base_reg_num o =? gpr_index)
  else match ir1_opnd_mem o with
  | Some m =>
      if ir1_opnd_has_base o then
        if negb code64 && reg_eqb (base m) dt_X86_REG_RIP then Some false
        else Some (ir1_opnd_base_reg_num o =? gpr_index)
      else if ir1_opnd_has_index o then
        i ← ir1_opnd_index_reg_num o; Some (i =? gpr_index)
      else Some false
  | None => Some false
  end.

(** ** The table of get-pc thunks (latx-config.c)

    The hash table maps a thunk address to [reg_index + 1]; a missing entry
    and the value 0 both read as NULL. *)

Abbreviation pc_thunk_table := (gmap Z Z).

Definition ht_pc_thunk_insert (ht : pc_thunk_table) (thunk_addr reg_index : Z) : pc_thunk_table :=
  <[u32 thunk_addr := reg_index + 1]> ht.

Definition ht_pc_thunk_lookup (ht : pc_thunk_table) (thunk_addr : Z) : Z :=
  let reg_index := default 0 (ht !! u32 thunk_addr) in
  if negb (reg_index =? 0) then reg_index - 1 else -1.

Definition remove_thunk_entry (data : Z) (thunk_addr : Z) : bool :=
  let start := u32 (data >> 32) in
  let end_ := u32 (data .& 0xffffffff) in
  (start <=? thunk_addr) && (thunk_addr <? end_).

Definition ht_pc_thunk_invalidate (ht : pc_thunk_table) (start end_ : Z) : pc_thunk_table :=
  let data := u64 (u32 start << 32) .| u32 end_ in
  filter (λ kv, remove_thunk_entry data (fst kv) = false) ht.

(** ** Instruction classes *)

Definition ir1_target_addr (ir1 : IR1_INST) : option Z :=
  o ← ir1_get_opnd ir1 0;
  lsassert ir1_opnd_is_imm o ;; ir1_opnd_uimm_addr o.

Definition ir1_is_branch (ir1 : IR1_INST) : bool :=
  match ir1_opcode ir1 with
  | dt_X86_INS_JO | dt_X86_INS_JNO | dt_X86_INS_JB | dt_X86_INS_JAE
  | dt_X86_INS_JE | dt_X86_INS_JNE | dt_X86_INS_JBE | dt_X86_INS_JA
  | dt_X86_INS_JS | dt_X86_INS_JNS | dt_X86_INS_JP | dt_X86_INS_JNP
  | dt_X86_INS_JL | dt_X86_INS_JGE | dt_X86_INS_JLE | dt_X86_INS_JG
  | dt_X86_INS_LOOPNE | dt_X86_INS_LOOPE | dt_X86_INS_LOOP
  | dt_X86_INS_JCXZ | dt_X86_INS_JECXZ | dt_X86_INS_JRCXZ => true
  | _ => false
  end.

Definition ir1_is_jump (ir1 : IR1_INST) : bool :=
  match ir1_opcode ir1 with dt_X86_INS_JMP | dt_X86_INS_LJMP => true | _ => false end.
Definition ir1_is_call (ir1 : IR1_INST) : bool :=
  match ir1_opcode ir1 with dt_X86_INS_CALL => true | _ => false end.
Definition ir1_is_return (ir1 : IR1_INST) : bool :=
  match ir1_opcode ir1 with
  | dt_X86_INS_RET | dt_X86_INS_IRET | dt_X86_INS_RETF => true | _ => false end.
Definition ir1_is_syscall (ir1 : IR1_INST) : bool :=
  match ir1_opcode ir1 with
  | dt_X86_INS_INT | dt_X86_INS_SYSCALL | dt_X86_INS_SYSENTER
  | dt_X86_INS_SYSEXIT | dt_X86_INS_SYSRET => true
  | _ => false
  end.

Definition ir1_is_indirect_call (ir1 : IR1_INST) : option bool :=
  o ← ir1_get_opnd ir1 0; Some (negb (ir1_opnd_is_imm o)).
Definition ir1_is_indirect_jmp (ir1 : IR1_INST) : option bool :=
  o ← ir1_get_opnd ir1 0; Some (negb (ir1_opnd_is_imm o)).

(** [ir1_is_tb_ending] without CONFIG_LATX_SYSCALL_TUNNEL.  [kzt] is
    [CONFIG_LATX_KZT && option_kzt]. *)
Definition ir1_is_tb_ending (kzt : bool) (ht : pc_thunk_table)
    (ir1 : IR1_INST) : option bool :=
  if kzt && insn_eqb (ir1_opcode ir1) dt_X86_INS_INT3 then Some true else
  let rest := ir1_is_branch ir1 || ir1_is_jump ir1 || ir1_is_call ir1 ||
              ir1_is_return ir1 || ir1_is_syscall ir1 in
  if ir1_is_call ir1 then
    ind ← ir1_is_indirect_call ir1;
    if (ind : bool) then Some rest else
    t ← ir1_target_addr ir1;
    if ir1_addr_next ir1 =? t then Some false
    else if 0 <=? ht_pc_thunk_lookup ht t then Some false
    else Some rest
  else Some rest.

(** [ir1_make_ins_JMP]: overwrite an instruction by a direct jump.  The bytes
    are the 5-byte encoding the code writes. *)
Definition le32 (x : Z) : list Z :=
  [u8 x; u8 (x >> 8); u8 (x >> 16); u8 (x >> 24)].

Definition ir1_make_ins_JMP (code64 : bool) (ir1 : IR1_INST) (addr off : Z) : IR1_INST :=
  let i := info ir1 in
  let sz := if code64 then 8 else 4 in
  mkIR1 (mkInfo dt_X86_INS_JMP (prefix i) 0xe9
           [mkOpnd (OP_IMM (s64 (off + addr))) sz]
           (u64 addr) 5 (0x69 :: le32 off ++ drop 5 (bytes i)) sz (rex i))
    (_eflag_use ir1) (_eflag_def ir1) (hbr_def ir1) (hbr_use ir1) (hbr_flag ir1)
    (instptn_opc ir1) (instptn_next ir1).

Definition bits_are_set (value bits : Z) : bool := (value .& bits) =? bits.
Definition ir1_is_cf_use (ir1 : IR1_INST) : bool := bits_are_set (_eflag_use ir1) (bit 0).
Definition ir1_is_pf_use (ir1 : IR1_INST) : bool := bits_are_set (_eflag_use ir1) (bit 1).
Definition ir1_is_af_use (ir1 : IR1_INST) : bool := bits_are_set (_eflag_use ir1) (bit 2).
Definition ir1_is_zf_use (ir1 : IR1_INST) : bool := bits_are_set (_eflag_use ir1) (bit 3).
Definition ir1_is_sf_use (ir1 : IR1_INST) : bool := bits_are_set (_eflag_use ir1) (bit 4).
Definition ir1_is_of_use (ir1 : IR1_INST) : bool := bits_are_set (_eflag_use ir1) (bit 5).
Definition ir1_is_cf_def (ir1 : IR1_INST) : bool := bits_are_set (_eflag_def ir1) (bit 0).
Definition ir1_is_pf_def (ir1 : IR1_INST) : bool := bits_are_set (_eflag_def ir1) (bit 1).
Definition ir1_is_af_def (ir1 : IR1_INST) : bool := bits_are_set (_eflag_def ir1) (bit 2).
Definition ir1_is_zf_def (ir1 : IR1_INST) : bool := bits_are_set (_eflag_def ir1) (bit 3).
Definition ir1_is_sf_def (ir1 : IR1_INST) : bool := bits_are_set (_eflag_def ir1) (bit 4).
Definition ir1_is_of_def (ir1 : IR1_INST) : bool := bits_are_set (_eflag_def ir1) (bit 5).

(** ** Translation blocks *)

Inductive IR1_TYPE : Set :=
  | IR1_TYPE_NORMAL | IR1_TYPE_BRANCH | IR1_TYPE_JUMP | IR1_TYPE_CALL
  | IR1_TYPE_RET | IR1_TYPE_JUMPIN | IR1_TYPE_CALLIN | IR1_TYPE_SYSCALL
  | IR1_TYPE_COUNT.

(** [TranslationBlock] and [struct separated_data].  [next_tb[]] are indices
    into the list of blocks of the translation unit ([None] is NULL); the
    [hb_*] fields are the unions [xmm_*]/[gpr_*]. *)
Record TranslationBlock := mkTB {
  ir1 : list IR1_INST;
  eflag_use : Z;
  eflag_out : Z;
  next_tb : option nat;        (** [next_tb[TU_TB_INDEX_NEXT]] *)
  target_tb : option nat;      (** [next_tb[TU_TB_INDEX_TARGET]] *)
  last_ir1_type : IR1_TYPE;
  next_pc : Z;
  target_pc : Z;
  hb_in : Z;
  hb_out : Z;
  hb_use : Z;
  hb_def : Z;
  shbr_type : Z;
  has_jcc_end_ptn : bool;
  smc_data : Z
}.

Definition tb_ir1_num (tb : TranslationBlock) : nat := length (ir1 tb).
Definition tb_ir1_inst (tb : TranslationBlock) (i : nat) : option IR1_INST := ir1 tb !! i.
Definition tb_ir1_inst_last (tb : TranslationBlock) : option IR1_INST :=
  ir1 tb !! pred (length (ir1 tb)).

Definition set_ir1 (tb : TranslationBlock) (x : list IR1_INST) : TranslationBlock :=
  mkTB
    x (eflag_use tb) (eflag_out tb) (next_tb tb) (target_tb tb) (last_ir1_type tb)
    (next_pc tb) (target_pc tb) (hb_in tb) (hb_out tb) (hb_use tb) (hb_def tb)
    (shbr_type tb) (has_jcc_end_ptn tb) (smc_data tb).
Definition set_eflag_use (tb : TranslationBlock) (x : Z) : TranslationBlock :=
  mkTB
    (ir1 tb) x (eflag_out tb) (next_tb tb) (target_tb tb) (last_ir1_type tb) (next_pc tb)
    (target_pc tb) (hb_in tb) (hb_out tb) (hb_use tb) (hb_def tb) (shbr_type tb)
    (has_jcc_end_ptn tb) (smc_data tb).
Definition set_eflag_out (tb : TranslationBlock) (x : Z) : TranslationBlock :=
  mkTB
    (ir1 tb) (eflag_use tb) x (next_tb tb) (target_tb tb) (last_ir1_type tb) (next_pc tb)
    (target_pc tb) (hb_in tb) (hb_out tb) (hb_use tb) (hb_def tb) (shbr_type tb)
    (has_jcc_end_ptn tb) (smc_data tb).
Definition set_hb (tb : TranslationBlock) (i o u d : Z) : TranslationBlock :=
  mkTB
    (ir1 tb) (eflag_use tb) (eflag_out tb) (next_tb tb) (target_tb tb) (last_ir1_type tb)
    (next_pc tb) (target_pc tb) i o u d (shbr_type tb) (has_jcc_end_ptn tb) (smc_data tb).
Definition set_shbr_type (tb : TranslationBlock) (x : Z) : TranslationBlock :=
  mkTB
    (ir1 tb) (eflag_use tb) (eflag_out tb) (next_tb tb) (target_tb tb) (last_ir1_type tb)
    (next_pc tb) (target_pc tb) (hb_in tb) (hb_out tb) (hb_use tb) (hb_def tb) x
    (has_jcc_end_ptn tb) (smc_data tb).
Definition set_has_jcc_end_ptn (tb : TranslationBlock) (x : bool) : TranslationBlock :=
  mkTB
    (ir1 tb) (eflag_use tb) (eflag_out tb) (next_tb tb) (target_tb tb) (last_ir1_type tb)
    (next_pc tb) (target_pc tb) (hb_in tb) (hb_out tb) (hb_use tb) (hb_def tb)
    (shbr_type tb) x (smc_data tb).
Definition set_last_info (tb : TranslationBlock) (t : IR1_TYPE) (npc tpc : Z) : TranslationBlock :=
  mkTB
    (ir1 tb) (eflag_use tb) (eflag_out tb) (next_tb tb) (target_tb tb) t npc tpc (hb_in tb)
    (hb_out tb) (hb_use tb) (hb_def tb) (shbr_type tb) (has_jcc_end_ptn tb) (smc_data tb).

(** [tb_use_smc_opt] (include/exec/exec-all.h) of a non-NULL block. *)
Definition TBSMC_OPTED_MASK := Z.shiftl 1 16.
Definition tb_use_smc_opt (tb : TranslationBlock) : bool :=
  if has_jcc_end_ptn tb then false else negb ((smc_data tb .& TBSMC_OPTED_MASK) =? 0).

(** [get_last_info] (optimization/tu.c): classify a block by its last
    instruction. *)
Definition get_last_info (tb : TranslationBlock) (pir1 : IR1_INST) : option TranslationBlock :=
  if (length (ir1 tb) =? 0)%nat then Some tb else
  let npc := ir1_addr_next pir1 in
  let keep := target_pc tb in
  if ir1_is_branch pir1 then
    o ← ir1_get_opnd pir1 0;
    lsassert ir1_opnd_is_imm o ;;
    t ← ir1_target_addr pir1; Some (set_last_info tb IR1_TYPE_BRANCH npc t)
  else
  icall ← (if ir1_is_call pir1 then ir1_is_indirect_call pir1 else Some true);
  if ir1_is_call pir1 && negb icall then
    t ← ir1_target_addr pir1; Some (set_last_info tb IR1_TYPE_CALL npc t)
  else
  ijmp ← (if ir1_is_jump pir1 then ir1_is_indirect_jmp pir1 else Some true);
  if ir1_is_jump pir1 && negb ijmp then
    t ← ir1_target_addr pir1; Some (set_last_info tb IR1_TYPE_JUMP npc t)
  else if ir1_is_return pir1 then Some (set_last_info tb IR1_TYPE_RET npc keep)
  else if insn_eqb (ir1_opcode pir1) dt_X86_INS_CALL && icall then
    Some (set_last_info tb IR1_TYPE_CALLIN npc keep)
  else if insn_eqb (ir1_opcode pir1) dt_X86_INS_JMP && ijmp then
    Some (set_last_info tb IR1_TYPE_JUMPIN npc keep)
  else Some (set_last_info tb IR1_TYPE_NORMAL npc keep).

(** * Theorems *)

Create HintDb ir1.

(** ** Register numbers *)

Lemma gpr_num_range r : reg_is_gpr r = true → 0 ≤ base_reg_num r < 16.
Proof. by destruct r; intros; vm_compute. Qed.

Lemma opnd_gpr_num_range o :
  ir1_opnd_is_gpr o = true → 0 ≤ ir1_opnd_base_reg_num o < 16.
Proof.
  unfold ir1_opnd_is_gpr, ir1_opnd_base_reg_num.
  destruct (opnd_op o); try done. apply gpr_num_range.
Qed.

Lemma opnd_xmm_num_range o :
  ir1_opnd_is_xmm o = true → 0 ≤ ir1_opnd_base_reg_num o < 16.
Proof.
  unfold ir1_opnd_is_xmm, ir1_opnd_base_reg_num.
  destruct (opnd_op o) as [|r| |]; try done. by destruct r; intros; vm_compute.
Qed.

Lemma opnd_mmx_num_range o :
  ir1_opnd_is_mmx o = true → 0 ≤ ir1_opnd_base_reg_num o < 8.
Proof.
  unfold ir1_opnd_is_mmx, ir1_opnd_base_reg_num.
  destruct (opnd_op o) as [|r| |]; try done. by destruct r; intros; vm_compute.
Qed.

(** Where it answers, the index-register switch agrees with the base-register
    one, except for the pseudo register RIZ. *)
Lemma index_reg_num_base r n :
  index_reg_num r = Some n → r ≠ dt_X86_REG_RIZ → n = base_reg_num r.
Proof. destruct r; intros [=<-] ?; done. Qed.

Lemma index_reg_num_range r n : index_reg_num r = Some n → 0 ≤ n < 17.
Proof. by destruct r; intros [=<-]; vm_compute. Qed.

Lemma same_reg_index_gpr r :
  reg_is_gpr r = true →
  same_reg_index0 r = Some (base_reg_num r) ∧ same_reg_index1 r = Some (base_reg_num r).
Proof. by destruct r; intros [=]; vm_compute. Qed.

#[export] Hint Resolve gpr_num_range opnd_gpr_num_range opnd_xmm_num_range
  opnd_mmx_num_range index_reg_num_range : ir1.

(** [ir1_opnd_is_same_reg_without_width], written with two switches of
    its own, decides exactly equality of [ir1_opnd_base_reg_num] on general
    purpose registers, and never aborts on them. *)
Theorem same_reg_without_width_spec o0 o1 :
  ir1_opnd_is_gpr o0 = true → ir1_opnd_is_gpr o1 = true →
  ir1_opnd_is_same_reg_without_width o0 o1 =
    Some (ir1_opnd_base_reg_num o0 =? ir1_opnd_base_reg_num o1).
Proof.
  unfold ir1_opnd_is_gpr, ir1_opnd_is_same_reg_without_width, ir1_opnd_base_reg_num.
  destruct (opnd_op o0) as [|r0| |], (opnd_op o1) as [|r1| |]; try done.
  intros [-> _]%same_reg_index_gpr [_ ->]%same_reg_index_gpr. done.
Qed.

Lemma same_reg_without_width_spec_witness :
  ir1_opnd_is_same_reg_without_width
    (mkOpnd (OP_REG dt_X86_REG_AH) 1) (mkOpnd (OP_REG dt_X86_REG_RAX) 8) = Some true.
Proof.
  rewrite (same_reg_without_width_spec
             (mkOpnd (OP_REG dt_X86_REG_AH) 1) (mkOpnd (OP_REG dt_X86_REG_RAX) 8));
    reflexivity.
Defined.

Lemma reg_classes_disjoint o :
  (length (filter (λ b, b = true)
    [ir1_opnd_is_gpr o; ir1_opnd_is_fpr o; ir1_opnd_is_seg o; ir1_opnd_is_mmx o;
     ir1_opnd_is_xmm o; ir1_opnd_is_ymm o; ir1_opnd_is_imm o; ir1_opnd_is_mem o]) ≤ 1)%nat.
Proof.
  unfold ir1_opnd_is_gpr, ir1_opnd_is_fpr, ir1_opnd_is_seg, ir1_opnd_is_mmx,
    ir1_opnd_is_xmm, ir1_opnd_is_ymm, ir1_opnd_is_imm, ir1_opnd_is_mem.
  destruct (opnd_op o) as [|r| |]; [| destruct r | |]; vm_compute; lia.
Qed.

(** ** Immediates *)

Lemma simm_uimm_congr o s u :
  ir1_opnd_is_imm o = true →
  ir1_opnd_simm o = Some s → ir1_opnd_uimm o = Some u →
  uwrap (ir1_opnd_size o) s = u.
Proof.
  unfold ir1_opnd_is_imm, ir1_opnd_simm, ir1_opnd_uimm.
  destruct (opnd_op o) as [| |imm|]; try done. intros _.
  destruct (ir1_opnd_size o) as [|p|p]; try done.
  repeat (destruct p as [p|p|]; try done); intros [=<-] [=<-];
    unfold s8, s16, s32, s64, u8, u16, u32, u64, uwrap; apply swrap_mod; lia.
Qed.

Lemma simm12_sound o :
  ir1_opnd_is_simm12 o = Some true →
  ∃ v, ir1_opnd_simm o = Some v ∧ in_s 12 v.
Proof.
  unfold ir1_opnd_is_simm12. destruct (ir1_opnd_is_imm o); [|done].
  destruct (ir1_opnd_simm o) as [v|]; [|done]. simpl. intros [= H].
  exists v. split; [done|]. apply andb_prop in H as [?%Z.leb_le ?%Z.ltb_lt].
  unfold in_s. change (2 ^ (12 - 1)) with 2048. lia.
Qed.

(** ** Block endings *)

Lemma u64_s64 x : u64 (s64 x) = u64 x.
Proof. unfold u64, s64, uwrap. apply swrap_mod. lia. Qed.

(** The jump built by [ir1_make_ins_JMP] targets [addr + off] (note: relative
    to the start of the instruction, not to its end), ends a block and is
    classified as a direct jump. *)
Lemma make_ins_JMP_target code64 i addr off :
  ir1_target_addr (ir1_make_ins_JMP code64 i addr off) = Some (u64 (off + addr)).
Proof.
  unfold ir1_target_addr, ir1_get_opnd, ir1_opnd_uimm_addr. cbn.
  by rewrite u64_s64.
Qed.

Lemma make_ins_JMP_ends code64 kzt ht i addr off :
  ir1_is_tb_ending kzt ht (ir1_make_ins_JMP code64 i addr off) = Some true.
Proof.
  unfold ir1_is_tb_ending, ir1_is_call, ir1_is_branch, ir1_is_jump, ir1_opcode.
  cbn. by rewrite andb_false_r.
Qed.

(** ** The get-pc thunk table *)

(** A thunk that was inserted is found under its 32-bit address with its
    register, and leaves the answer of every other address unchanged. *)
Theorem pc_thunk_insert_lookup ht a r b :
  0 ≤ r →
  ht_pc_thunk_lookup (ht_pc_thunk_insert ht a r) b =
    if u32 a =? u32 b then r else ht_pc_thunk_lookup ht b.
Proof.
  intros Hr. unfold ht_pc_thunk_lookup, ht_pc_thunk_insert.
  destruct (Z.eqb_spec (u32 a) (u32 b)) as [->|Hne].
  - rewrite lookup_insert_eq. simpl.
    destruct (Z.eqb_spec (r + 1) 0); simpl; lia.
  - by rewrite lookup_insert_ne.
Qed.

(** The packing of the range into one [unsigned long] loses nothing. *)
Lemma remove_thunk_entry_range s e a :
  remove_thunk_entry (u64 (u32 s << 32) .| u32 e) a =
    (u32 s <=? a) && (a <? u32 e).
Proof.
  pose proof (uwrap_range 32 s ltac:(lia)) as Hs.
  pose proof (uwrap_range 32 e ltac:(lia)) as He.
  unfold remove_thunk_entry, u64. fold (u32 s) (u32 e) in *.
  rewrite (uwrap_id 64 (u32 s << 32)) by
    (unfold in_u in *; rewrite Z.shiftl_mul_pow2 by lia; lia).
  replace (u32 ((u32 s << 32 .| u32 e) >> 32)) with (u32 s);
  [replace (u32 ((u32 s << 32 .| u32 e) .& 4294967295)) with (u32 e); [done|]|].
  - change 4294967295 with (Z.ones 32). unfold u32 at 1.
    rewrite Z.land_lor_distr_l, !Z.land_ones by lia.
    rewrite Z.shiftl_mul_pow2, Z_mod_mult, Z.lor_0_l by lia.
    rewrite (Z.mod_small (u32 e)) by (unfold in_u in He; lia).
    symmetry. by apply uwrap_id.
  - rewrite Z.shiftr_lor, Z.shiftr_shiftl_l, Z.shiftl_0_r by lia.
    rewrite (Z.shiftr_div_pow2 (u32 e)), (Z.div_small (u32 e)), Z.lor_0_r
      by (unfold in_u in He; lia).
    symmetry. by apply uwrap_id.
Qed.

(** Invalidating [start, end) forgets exactly the thunks of that range:
    a lookup of an address inside misses, any other lookup is unchanged. *)
Theorem pc_thunk_invalidate_lookup ht s e b :
  ht_pc_thunk_lookup (ht_pc_thunk_invalidate ht s e) b =
    if (u32 s <=? u32 b) && (u32 b <? u32 e) then -1 else ht_pc_thunk_lookup ht b.
Proof.
  unfold ht_pc_thunk_lookup, ht_pc_thunk_invalidate.
  rewrite map_lookup_filter. destruct (ht !! u32 b) as [v|].
  - cbn [mbind option_bind fst]. rewrite remove_thunk_entry_range.
    destruct (_ && _); [rewrite option_guard_False by done|rewrite option_guard_True by done];
      reflexivity.
  - cbn [mbind option_bind]. by destruct (_ && _).
Qed.

Lemma pc_thunk_insert_lookup_witness :
  ht_pc_thunk_lookup (ht_pc_thunk_insert ∅ 0x8048000 3) 0x8048000 = 3.
Proof.
  rewrite (pc_thunk_insert_lookup ∅ 0x8048000 3 0x8048000); [reflexivity | lia].
Defined.

(** ** Register use of an operand *)

(** The predicate is right for register operands and for memory operands with
    at most one of base and index. *)
Lemma gpr_used_simple code64 o m g :
  opnd_op o = OP_MEM m →
  base m = dt_X86_REG_INVALID →
  ir1_opnd_is_gpr_used code64 o g =
    if reg_eqb (index m) dt_X86_REG_INVALID then Some false
    else i ← index_reg_num (index m); Some (i =? g).
Proof.
  intros Ho Hb. unfold ir1_opnd_is_gpr_used, ir1_opnd_is_gpr, ir1_opnd_has_base,
    ir1_opnd_has_index, ir1_opnd_index_reg_num, ir1_opnd_mem.
  rewrite Ho. simpl. rewrite Hb. simpl. by destruct (reg_eqb _ _).
Qed.

(** [ir1_opnd_is_gpr_used] does not see the index register of a memory
    operand that also has a base: for [rbx + rcx*1] it answers that rcx is not
    used although [ir1_opnd_index_reg_num] of the same operand is rcx. *)
Theorem gpr_used_misses_index :
  let o := mkOpnd (OP_MEM (mkMem dt_X86_REG_INVALID dt_X86_REG_RBX dt_X86_REG_RCX 1 0)) 8 in
  ir1_opnd_index_reg_num o = Some ecx_index ∧
  ir1_opnd_is_gpr_used true o ecx_index = Some false.
Proof. split; reflexivity. Qed.
