(* ===== verification/Dataflow.v ===== *)
(** * The iteration scheme of the cross-block analyses

    [over_tb_rfd] (ir1-optimization.c), [over_tb_shbr_opt] and
    [over_tb_gpr_opt] (hbr.c) all run

      while (unfinished) { unfinished = false;
        for (i = tb_num - 1; i >= 0; i--) { ...update tb_list[i]...
          if (changed) unfinished = true; } }

    This file models that loop once, over any state and any loop body, and
    proves what the clients need: it terminates when every reported change
    increases a bounded measure, its result is a fixed point of every body, and
    whatever the bodies preserve holds of the result. *)

From stdpp Require Import base numbers list option tactics.
From Stdlib Require Import ZArith Lia Bool.
From S2P Require Import Prelude.

Section loop.
  Context {S : Type} (body : nat → S → option (S * bool)).

(** The inner [for] loop, from index [i - 1] down to 0; a failed assertion in
    the body stops everything. *)
Fixpoint sweep (i : nat) (s : S) (unfinished : bool) : option (S * bool) :=
  match i with
  | O => Some (s, unfinished)
  | Datatypes.S i' =>
      match body i' s with
      | Some (s', changed) => sweep i' s' (unfinished || changed)
      | None => None
      end
  end.

(** The outer [while] loop; [None] is a failed assertion or exhausted fuel. *)
Fixpoint iterate (fuel n : nat) (s : S) : option S :=
  match fuel with
  | O => None
  | Datatypes.S f =>
      match sweep n s false with
      | Some (s', true) => iterate f n s'
      | Some (s', false) => Some s'
      | None => None
      end
  end.

End loop.

(** What a client promises of its loop body: it is total on states satisfying
    the invariant and keeps it, reports no change only when it changed nothing,
    and each reported change increases a measure that is bounded. *)
Class DataflowBody {S : Type} (n : nat) (body : nat → S → option (S * bool))
    (Inv : S → Prop) (measure : S → nat) (bound : nat) : Prop := {
  body_total : ∀ i s, (i < n)%nat → Inv s → is_Some (body i s);
  body_inv : ∀ i s s' c, (i < n)%nat → Inv s → body i s = Some (s', c) → Inv s';
  body_unchanged : ∀ i s s', (i < n)%nat → Inv s → body i s = Some (s', false) → s' = s;
  body_changed : ∀ i s s', (i < n)%nat → Inv s → body i s = Some (s', true) →
    (measure s < measure s')%nat;
  measure_bounded : ∀ s, Inv s → (measure s ≤ bound)%nat
}.

Section theory.
  Context {S : Type} (n : nat) (body : nat → S → option (S * bool)).
  Context (Inv : S → Prop) (measure : S → nat) (bound : nat).
  Context `{!DataflowBody n body Inv measure bound}.

Lemma sweep_total i s u :
  (i ≤ n)%nat → Inv s → ∃ s' u', sweep body i s u = Some (s', u') ∧ Inv s'.
Proof using All.
  revert s u. induction i as [|i IH]; intros s u Hi Hs; simpl; [eauto|].
  destruct (body_total i s ltac:(lia) Hs) as [[s1 c] Hb]. rewrite Hb.
  apply IH; [lia|]. by eapply (body_inv i s s1 c); [lia|..].
Qed.

(** A sweep that reports no change left the state alone and met only bodies
    that report no change; one that reports a change increased the measure. *)
Lemma sweep_cases i s u s' u' :
  (i ≤ n)%nat → Inv s → sweep body i s u = Some (s', u') →
  (u' = false ∧ u = false ∧ s' = s ∧ ∀ j, (j < i)%nat → body j s = Some (s, false)) ∨
  (u' = true ∧ (measure s ≤ measure s')%nat ∧ (u = true ∨ (measure s < measure s')%nat)).
Proof using All.
  revert s u. induction i as [|i IH]; intros s u Hi Hs; simpl.
  - intros [= -> ->]. destruct u'; [right | left]; split_and!; auto; lia.
  - destruct (body i s) as [[s1 c]|] eqn:Hb; [|done]. intros Hsw.
    assert (Inv s1) as Hs1 by (eapply body_inv; eauto; lia).
    destruct (IH s1 (u || c) ltac:(lia) Hs1 Hsw)
      as [(-> & [Hu Hc]%orb_false_elim & -> & Hj)|(-> & Hle & Hlt)].
    + subst. apply body_unchanged in Hb as Heq; [|lia|done]. subst s1.
      left. split_and!; [done..|]. intros j Hji.
      destruct (decide (j = i)) as [->|]; [done|]. apply Hj. lia.
    + right. split; [done|]. destruct c.
      * apply body_changed in Hb; [|lia|done]. split; lia.
      * apply body_unchanged in Hb; [|lia|done]. subst s1.
        rewrite orb_false_r in Hlt. done.
Qed.

(** The loop terminates: [bound + 1 - measure s] rounds are enough. *)
Lemma iterate_total fuel s :
  Inv s → (bound < fuel + measure s)%nat → ∃ s', iterate body fuel n s = Some s' ∧ Inv s'.
Proof using All.
  revert s. induction fuel as [|fuel IH]; intros s Hs Hf; simpl.
  - pose proof (measure_bounded s Hs). lia.
  - destruct (sweep_total n s false ltac:(lia) Hs) as (s1 & u & Hsw & Hs1).
    rewrite Hsw. destruct u; [|eauto].
    destruct (sweep_cases n s false s1 true ltac:(lia) Hs Hsw)
      as [(? & _)|(_ & _ & [?|Hlt])]; [done..|].
    apply IH; [done|lia].
Qed.

(** Its result is a fixed point of every body. *)
Lemma iterate_fixpoint fuel s s' :
  Inv s → iterate body fuel n s = Some s' →
  Inv s' ∧ ∀ i, (i < n)%nat → body i s' = Some (s', false).
Proof using All.
  revert s. induction fuel as [|fuel IH]; intros s Hs; simpl; [done|].
  destruct (sweep_total n s false ltac:(lia) Hs) as (s1 & u & Hsw & Hs1).
  rewrite Hsw. destruct u; [by apply IH|]. intros [= <-].
  destruct (sweep_cases n s false s1 false ltac:(lia) Hs Hsw)
    as [(_ & _ & -> & Hj)|(? & _)]; done.
Qed.

End theory.

(** Whatever every body preserves is preserved by the loop; this is how clients
    prove leastness and relate the result to the initial state. *)
Lemma sweep_preserves {S} (body : nat → S → option (S * bool)) n (P : S → Prop) :
  (∀ i s s' c, (i < n)%nat → P s → body i s = Some (s', c) → P s') →
  ∀ i s u s' u', (i ≤ n)%nat → P s → sweep body i s u = Some (s', u') → P s'.
Proof.
  intros Hb i. induction i as [|i IH]; intros s u s' u' Hi Hs; simpl.
  - by intros [= -> ->].
  - destruct (body i s) as [[s1 c]|] eqn:He; [|done].
    intros Hsw. apply (IH s1 (u || c) s' u'); [lia| |done].
    by apply (Hb i s s1 c); [lia|..].
Qed.

Lemma iterate_preserves {S} (body : nat → S → option (S * bool)) n (P : S → Prop) :
  (∀ i s s' c, (i < n)%nat → P s → body i s = Some (s', c) → P s') →
  ∀ fuel s s', P s → iterate body fuel n s = Some s' → P s'.
Proof.
  intros Hb fuel. induction fuel as [|fuel IH]; intros s s' Hs; simpl; [done|].
  destruct (sweep body n s false) as [[s1 u]|] eqn:Hsw; [|done].
  pose proof (sweep_preserves body n P Hb n s false s1 u (le_n n) Hs Hsw) as Hs1.
  destruct u; [by apply IH|]. by intros [= <-].
Qed.
