(* ===== verification/FlagReduction.v ===== *)
(** * EFLAGS reduction inside a block (optimization/flag-reduction.c)

    The use/def table of x86 opcodes, the backward step [flag_reduction] that
    decides which flags an instruction has to compute, the check at the end of
    a block, and [flag_gen], the unoptimised alternative.  The theorems show
    that the backward pass computes exactly the flags live on entry and that
    code which only computes the kept flags simulates code that computes all
    of them. *)

From stdpp Require Import base numbers list option tactics.
From Stdlib Require Import ZArith Lia Bool.
From S2P Require Import Prelude Ir1Enum Ir1.
Local Open Scope Z_scope.
Local Open Scope c_scope.

(** ** Flag masks (include/flag-reduction.h) *)

Definition CF_USEDEF_BIT_INDEX := 0.
Definition PF_USEDEF_BIT_INDEX := 1.
Definition AF_USEDEF_BIT_INDEX := 2.
Definition ZF_USEDEF_BIT_INDEX := 3.
Definition SF_USEDEF_BIT_INDEX := 4.
Definition OF_USEDEF_BIT_INDEX := 5.
Definition DF_USEDEF_BIT_INDEX := 6.

Definition __INVALID := 1 << 7.
Definition __VALID := 0.
Definition __CF := (1 << CF_USEDEF_BIT_INDEX) .| __VALID.
Definition __PF := (1 << PF_USEDEF_BIT_INDEX) .| __VALID.
Definition __AF := (1 << AF_USEDEF_BIT_INDEX) .| __VALID.
Definition __ZF := (1 << ZF_USEDEF_BIT_INDEX) .| __VALID.
Definition __SF := (1 << SF_USEDEF_BIT_INDEX) .| __VALID.
Definition __OF := (1 << OF_USEDEF_BIT_INDEX) .| __VALID.
Definition __DF := (1 << DF_USEDEF_BIT_INDEX) .| __VALID.
Definition __NONE := __VALID.
Definition __OSAPF := __OF .| __SF .| __AF .| __PF.
Definition __OSZPF := __OF .| __SF .| __ZF .| __PF.
Definition __SZAPF := __SF .| __ZF .| __AF .| __PF.
Definition __SZAPCF := __SZAPF .| __CF.
Definition __ALL_EFLAGS := __OF .| __SF .| __ZF .| __AF .| __PF .| __CF.

Record IR1_EFLAG_USEDEF := mkUsedef { use : Z; def : Z; undef : Z }.

Definition FLAG_DEFINE (opcode : dt_x86_insn) (_use _def _undef : Z) :
    dt_x86_insn * IR1_EFLAG_USEDEF := (opcode, mkUsedef _use _def _undef).

(** ** The table *)

Definition usedef_rows_1 : list (dt_x86_insn * IR1_EFLAG_USEDEF) :=
  [
   FLAG_DEFINE dt_X86_INS_INVALID __NONE __INVALID __INVALID;
   FLAG_DEFINE dt_X86_INS_AAA __AF __ALL_EFLAGS (__OF .| __SF .| __ZF .| __PF);
   FLAG_DEFINE dt_X86_INS_AAD __NONE __ALL_EFLAGS (__OF .| __AF .| __CF);
   FLAG_DEFINE dt_X86_INS_AAM __NONE __ALL_EFLAGS (__OF .| __AF .| __CF);
   FLAG_DEFINE dt_X86_INS_AAS __AF __ALL_EFLAGS (__OF .| __SF .| __ZF .| __PF);
   FLAG_DEFINE dt_X86_INS_ADC __CF __ALL_EFLAGS __NONE;
   FLAG_DEFINE dt_X86_INS_ADD __NONE __ALL_EFLAGS __NONE;
   FLAG_DEFINE dt_X86_INS_AND __NONE __ALL_EFLAGS __AF;
   FLAG_DEFINE dt_X86_INS_ANDN __NONE __ALL_EFLAGS (__AF .| __PF);
   FLAG_DEFINE dt_X86_INS_ARPL __NONE __ZF __NONE;
   FLAG_DEFINE dt_X86_INS_BLSI __NONE (__ZF .| __CF .| __SF .| __OF) (__AF .| __PF);
   FLAG_DEFINE dt_X86_INS_BLSR __NONE (__ZF .| __CF .| __SF .| __OF) (__AF .| __PF);
   FLAG_DEFINE dt_X86_INS_BLSMSK __NONE (__ZF .| __CF .| __SF .| __OF) (__AF .| __PF);
   FLAG_DEFINE dt_X86_INS_BZHI __NONE (__ZF .| __CF .| __SF .| __OF) (__AF .| __PF);
   FLAG_DEFINE dt_X86_INS_BOUND __NONE __NONE __NONE;
   FLAG_DEFINE dt_X86_INS_BSF __NONE __ALL_EFLAGS (__OSAPF .| __CF);
   FLAG_DEFINE dt_X86_INS_BSR __NONE __ALL_EFLAGS (__OSAPF .| __CF);
   FLAG_DEFINE dt_X86_INS_BSWAP __NONE __NONE __NONE;
   FLAG_DEFINE dt_X86_INS_BT __NONE (__OSAPF .| __CF) __OSAPF;
   FLAG_DEFINE dt_X86_INS_BTC __NONE (__OSAPF .| __CF) __OSAPF;
   FLAG_DEFINE dt_X86_INS_BTR __NONE (__OSAPF .| __CF) __OSAPF;
   FLAG_DEFINE dt_X86_INS_BTS __NONE (__OSAPF .| __CF) __OSAPF;
   FLAG_DEFINE dt_X86_INS_CALL __NONE __NONE __NONE;
   FLAG_DEFINE dt_X86_INS_CBW __NONE __NONE __NONE;
   FLAG_DEFINE dt_X86_INS_CLC __NONE __CF __NONE;
   FLAG_DEFINE dt_X86_INS_CLD __NONE __DF __NONE;
   FLAG_DEFINE dt_X86_INS_SALC __CF __NONE __NONE;
   FLAG_DEFINE dt_X86_INS_CMC __CF __CF __NONE;
   FLAG_DEFINE dt_X86_INS_CMOVA (__ZF .| __CF) __NONE __NONE;
   FLAG_DEFINE dt_X86_INS_CMOVAE __CF __NONE __NONE;
   FLAG_DEFINE dt_X86_INS_CMOVB __CF __NONE __NONE;
   FLAG_DEFINE dt_X86_INS_CMOVBE (__ZF .| __CF) __NONE __NONE;
   FLAG_DEFINE dt_X86_INS_CMOVE __ZF __NONE __NONE;
   FLAG_DEFINE dt_X86_INS_CMOVG (__OF .| __SF .| __ZF) __NONE __NONE;
   FLAG_DEFINE dt_X86_INS_CMOVGE (__OF .| __SF) __NONE __NONE;
   FLAG_DEFINE dt_X86_INS_CMOVL (__OF .| __SF) __NONE __NONE;
   FLAG_DEFINE dt_X86_INS_CMOVLE (__OF .| __SF .| __ZF) __NONE __NONE;
   FLAG_DEFINE dt_X86_INS_CMOVNE __ZF __NONE __NONE;
   FLAG_DEFINE dt_X86_INS_CMOVO __OF __NONE __NONE;
   FLAG_DEFINE dt_X86_INS_CMOVNO __OF __NONE __NONE;
   FLAG_DEFINE dt_X86_INS_CMOVP __PF __NONE __NONE;
   FLAG_DEFINE dt_X86_INS_CMOVNP __PF __NONE __NONE;
   FLAG_DEFINE dt_X86_INS_CMOVS __SF __NONE __NONE;
   FLAG_DEFINE dt_X86_INS_CMOVNS __SF __NONE __NONE;
   FLAG_DEFINE dt_X86_INS_CMOVLE (__OF .| __SF .| __ZF) __NONE __NONE;
   FLAG_DEFINE dt_X86_INS_CMOVLE (__OF .| __SF .| __ZF) __NONE __NONE;
   FLAG_DEFINE dt_X86_INS_CMOVLE (__OF .| __SF .| __ZF) __NONE __NONE;
   FLAG_DEFINE dt_X86_INS_CMP __NONE __ALL_EFLAGS __NONE;
   FLAG_DEFINE dt_X86_INS_CMPSB __DF __ALL_EFLAGS __NONE;
   FLAG_DEFINE dt_X86_INS_CMPSW __DF __ALL_EFLAGS __NONE;
   FLAG_DEFINE dt_X86_INS_CMPSD __DF __ALL_EFLAGS __NONE;
   FLAG_DEFINE dt_X86_INS_CMPSQ __DF __ALL_EFLAGS __NONE;
   FLAG_DEFINE dt_X86_INS_CMPXCHG __NONE __ALL_EFLAGS __NONE;
   FLAG_DEFINE dt_X86_INS_CMPXCHG8B __NONE __ZF __NONE;
   FLAG_DEFINE dt_X86_INS_CMPXCHG16B __NONE __ZF __NONE;
   FLAG_DEFINE dt_X86_INS_COMISD __NONE __ALL_EFLAGS __NONE;
   FLAG_DEFINE dt_X86_INS_COMISS __NONE __ALL_EFLAGS __NONE;
   FLAG_DEFINE dt_X86_INS_CPUID __NONE __NONE __NONE;
   FLAG_DEFINE dt_X86_INS_CWD __NONE __NONE __NONE;
   FLAG_DEFINE dt_X86_INS_DAA (__AF .| __CF) __ALL_EFLAGS __OF].

Definition usedef_rows_2 : list (dt_x86_insn * IR1_EFLAG_USEDEF) :=
  [
   FLAG_DEFINE dt_X86_INS_DAS (__AF .| __CF) __ALL_EFLAGS __OF;
   FLAG_DEFINE dt_X86_INS_DEC __NONE (__OF .| __SZAPF) __NONE;
   FLAG_DEFINE dt_X86_INS_DIV __NONE __ALL_EFLAGS __ALL_EFLAGS;
   FLAG_DEFINE dt_X86_INS_ENTER __NONE __NONE __NONE;
   FLAG_DEFINE dt_X86_INS_FCMOVB __CF __NONE __NONE;
   FLAG_DEFINE dt_X86_INS_FCMOVBE (__ZF .| __CF) __NONE __NONE;
   FLAG_DEFINE dt_X86_INS_FCMOVE __ZF __NONE __NONE;
   FLAG_DEFINE dt_X86_INS_FCMOVNB __CF __NONE __NONE;
   FLAG_DEFINE dt_X86_INS_FCMOVNBE (__ZF .| __CF) __NONE __NONE;
   FLAG_DEFINE dt_X86_INS_FCMOVNE __ZF __NONE __NONE;
   FLAG_DEFINE dt_X86_INS_FCMOVNU __PF __NONE __NONE;
   FLAG_DEFINE dt_X86_INS_FCMOVU __PF __NONE __NONE;
   FLAG_DEFINE dt_X86_INS_FCOMI __NONE __ALL_EFLAGS __NONE;
   FLAG_DEFINE dt_X86_INS_FCOMIP __NONE __ALL_EFLAGS __NONE;
   FLAG_DEFINE dt_X86_INS_FUCOMI __NONE __ALL_EFLAGS __NONE;
   FLAG_DEFINE dt_X86_INS_FUCOMIP __NONE __ALL_EFLAGS __NONE;
   FLAG_DEFINE dt_X86_INS_HLT __NONE __NONE __NONE;
   FLAG_DEFINE dt_X86_INS_IDIV __NONE __ALL_EFLAGS __ALL_EFLAGS;
   FLAG_DEFINE dt_X86_INS_IMUL __NONE __ALL_EFLAGS __SZAPF;
   FLAG_DEFINE dt_X86_INS_IN __NONE __NONE __NONE;
   FLAG_DEFINE dt_X86_INS_INC __NONE (__OF .| __SZAPF) __NONE;
   FLAG_DEFINE dt_X86_INS_INSB __NONE __DF __NONE;
   FLAG_DEFINE dt_X86_INS_INSW __NONE __DF __NONE;
   FLAG_DEFINE dt_X86_INS_INSD __NONE __DF __NONE;
   FLAG_DEFINE dt_X86_INS_INT __NONE __NONE __NONE;
   FLAG_DEFINE dt_X86_INS_INTO __OF __NONE __NONE;
   FLAG_DEFINE dt_X86_INS_INVD __NONE __NONE __NONE;
   FLAG_DEFINE dt_X86_INS_INVLPG __NONE __NONE __NONE;
   FLAG_DEFINE dt_X86_INS_UCOMISD __NONE __ALL_EFLAGS __NONE;
   FLAG_DEFINE dt_X86_INS_UCOMISS __NONE __ALL_EFLAGS __NONE;
   FLAG_DEFINE dt_X86_INS_IRET __NONE __INVALID __NONE;
   FLAG_DEFINE dt_X86_INS_JO __OF __NONE __NONE;
   FLAG_DEFINE dt_X86_INS_JNO __OF __NONE __NONE;
   FLAG_DEFINE dt_X86_INS_JB __CF __NONE __NONE;
   FLAG_DEFINE dt_X86_INS_JAE __CF __NONE __NONE;
   FLAG_DEFINE dt_X86_INS_JE __ZF __NONE __NONE;
   FLAG_DEFINE dt_X86_INS_JNE __ZF __NONE __NONE;
   FLAG_DEFINE dt_X86_INS_JBE (__CF .| __ZF) __NONE __NONE;
   FLAG_DEFINE dt_X86_INS_JA (__CF .| __ZF) __NONE __NONE;
   FLAG_DEFINE dt_X86_INS_JS __SF __NONE __NONE;
   FLAG_DEFINE dt_X86_INS_JNS __SF __NONE __NONE;
   FLAG_DEFINE dt_X86_INS_JP __PF __NONE __NONE;
   FLAG_DEFINE dt_X86_INS_JNP __PF __NONE __NONE;
   FLAG_DEFINE dt_X86_INS_JL (__OF .| __SF) __NONE __NONE;
   FLAG_DEFINE dt_X86_INS_JGE (__OF .| __SF) __NONE __NONE;
   FLAG_DEFINE dt_X86_INS_JLE (__OF .| __SF .| __ZF) __NONE __NONE;
   FLAG_DEFINE dt_X86_INS_JG (__OF .| __SF .| __ZF) __NONE __NONE;
   FLAG_DEFINE dt_X86_INS_JCXZ __NONE __NONE __NONE;
   FLAG_DEFINE dt_X86_INS_JMP __NONE __NONE __NONE;
   FLAG_DEFINE dt_X86_INS_LAHF __SZAPCF __NONE __NONE;
   FLAG_DEFINE dt_X86_INS_LAR __NONE __INVALID __NONE;
   FLAG_DEFINE dt_X86_INS_LDS __NONE __INVALID __NONE;
   FLAG_DEFINE dt_X86_INS_LES __NONE __INVALID __NONE;
   FLAG_DEFINE dt_X86_INS_LSS __NONE __INVALID __NONE;
   FLAG_DEFINE dt_X86_INS_LFS __NONE __INVALID __NONE;
   FLAG_DEFINE dt_X86_INS_LGS __NONE __INVALID __NONE].

Definition usedef_rows_3 : list (dt_x86_insn * IR1_EFLAG_USEDEF) :=
  [
   FLAG_DEFINE dt_X86_INS_LEA __NONE __NONE __NONE;
   FLAG_DEFINE dt_X86_INS_LEAVE __NONE __NONE __NONE;
   FLAG_DEFINE dt_X86_INS_LGDT __NONE __INVALID __NONE;
   FLAG_DEFINE dt_X86_INS_LIDT __NONE __INVALID __NONE;
   FLAG_DEFINE dt_X86_INS_LLDT __NONE __INVALID __NONE;
   FLAG_DEFINE dt_X86_INS_LMSW __NONE __INVALID __NONE;
   FLAG_DEFINE dt_X86_INS_LODSB __DF __NONE __NONE;
   FLAG_DEFINE dt_X86_INS_LODSW __DF __NONE __NONE;
   FLAG_DEFINE dt_X86_INS_LODSD __DF __NONE __NONE;
   FLAG_DEFINE dt_X86_INS_LODSQ __DF __NONE __NONE;
   FLAG_DEFINE dt_X86_INS_LOOP __NONE __NONE __NONE;
   FLAG_DEFINE dt_X86_INS_LOOPE __ZF __NONE __NONE;
   FLAG_DEFINE dt_X86_INS_LOOPNE __ZF __NONE __NONE;
   FLAG_DEFINE dt_X86_INS_LSL __NONE __INVALID __NONE;
   FLAG_DEFINE dt_X86_INS_LTR __NONE __INVALID __NONE;
   FLAG_DEFINE dt_X86_INS_LZCNT __NONE __ALL_EFLAGS __OSAPF;
   FLAG_DEFINE dt_X86_INS_MONITOR __NONE __INVALID __NONE;
   FLAG_DEFINE dt_X86_INS_MWAIT __NONE __INVALID __NONE;
   FLAG_DEFINE dt_X86_INS_MOV __NONE __NONE __NONE;
   FLAG_DEFINE dt_X86_INS_MOVABS __NONE __NONE __NONE;
   FLAG_DEFINE dt_X86_INS_MOVSB __DF __NONE __NONE;
   FLAG_DEFINE dt_X86_INS_MOVSW __DF __NONE __NONE;
   FLAG_DEFINE dt_X86_INS_MOVSD __DF __NONE __NONE;
   FLAG_DEFINE dt_X86_INS_MOVSQ __DF __NONE __NONE;
   FLAG_DEFINE dt_X86_INS_MOVSX __NONE __NONE __NONE;
   FLAG_DEFINE dt_X86_INS_MOVZX __NONE __NONE __NONE;
   FLAG_DEFINE dt_X86_INS_MUL __NONE __ALL_EFLAGS __SZAPF;
   FLAG_DEFINE dt_X86_INS_NEG __NONE __ALL_EFLAGS __NONE;
   FLAG_DEFINE dt_X86_INS_NOP __NONE __NONE __NONE;
   FLAG_DEFINE dt_X86_INS_NOT __NONE __NONE __NONE;
   FLAG_DEFINE dt_X86_INS_OR __NONE __ALL_EFLAGS __AF;
   FLAG_DEFINE dt_X86_INS_OUT __NONE __NONE __NONE;
   FLAG_DEFINE dt_X86_INS_OUTSB __DF __NONE __NONE;
   FLAG_DEFINE dt_X86_INS_OUTSW __DF __NONE __NONE;
   FLAG_DEFINE dt_X86_INS_OUTSD __DF __NONE __NONE;
   FLAG_DEFINE dt_X86_INS_POP __NONE __NONE __NONE;
   FLAG_DEFINE dt_X86_INS_POPAW __NONE __NONE __NONE;
   FLAG_DEFINE dt_X86_INS_POPAL __NONE __NONE __NONE;
   FLAG_DEFINE dt_X86_INS_POPF __NONE (__ALL_EFLAGS .| __DF) __NONE;
   FLAG_DEFINE dt_X86_INS_POPFD __NONE (__ALL_EFLAGS .| __DF) __NONE;
   FLAG_DEFINE dt_X86_INS_POPFQ __NONE (__ALL_EFLAGS .| __DF) __NONE;
   FLAG_DEFINE dt_X86_INS_POPCNT __NONE __ALL_EFLAGS __NONE;
   FLAG_DEFINE dt_X86_INS_PUSH __NONE __NONE __NONE;
   FLAG_DEFINE dt_X86_INS_PUSHAW __NONE __NONE __NONE;
   FLAG_DEFINE dt_X86_INS_PUSHAL __NONE __NONE __NONE;
   FLAG_DEFINE dt_X86_INS_PUSHF (__ALL_EFLAGS .| __DF) __NONE __NONE;
   FLAG_DEFINE dt_X86_INS_PUSHFD (__ALL_EFLAGS .| __DF) __NONE __NONE;
   FLAG_DEFINE dt_X86_INS_PUSHFQ (__ALL_EFLAGS .| __DF) __NONE __NONE;
   FLAG_DEFINE dt_X86_INS_RCL __CF (__CF .| __OF) __NONE;
   FLAG_DEFINE dt_X86_INS_RCR __CF (__CF .| __OF) __NONE;
   FLAG_DEFINE dt_X86_INS_RDMSR __NONE __INVALID __NONE;
   FLAG_DEFINE dt_X86_INS_RDPMC __NONE __INVALID __NONE;
   FLAG_DEFINE dt_X86_INS_RDTSC __NONE __NONE __NONE;
   FLAG_DEFINE dt_X86_INS_RET __NONE __NONE __NONE;
   FLAG_DEFINE dt_X86_INS_ROL __NONE (__OF .| __CF) __NONE].

Definition usedef_rows_4 : list (dt_x86_insn * IR1_EFLAG_USEDEF) :=
  [
   FLAG_DEFINE dt_X86_INS_ROR __NONE (__OF .| __CF) __NONE;
   FLAG_DEFINE dt_X86_INS_RSM __NONE (__ALL_EFLAGS .| __DF) __NONE;
   FLAG_DEFINE dt_X86_INS_SAHF __NONE __SZAPCF __NONE;
   FLAG_DEFINE dt_X86_INS_SAL __NONE __ALL_EFLAGS __AF;
   FLAG_DEFINE dt_X86_INS_SAR __NONE __ALL_EFLAGS __AF;
   FLAG_DEFINE dt_X86_INS_SHL __NONE __ALL_EFLAGS __AF;
   FLAG_DEFINE dt_X86_INS_SHR __NONE __ALL_EFLAGS __AF;
   FLAG_DEFINE dt_X86_INS_SBB __CF __ALL_EFLAGS __NONE;
   FLAG_DEFINE dt_X86_INS_SCASB __DF __ALL_EFLAGS __NONE;
   FLAG_DEFINE dt_X86_INS_SCASW __DF __ALL_EFLAGS __NONE;
   FLAG_DEFINE dt_X86_INS_SCASD __DF __ALL_EFLAGS __NONE;
   FLAG_DEFINE dt_X86_INS_SCASQ __DF __ALL_EFLAGS __NONE;
   FLAG_DEFINE dt_X86_INS_SETO __OF __NONE __NONE;
   FLAG_DEFINE dt_X86_INS_SETNO __OF __NONE __NONE;
   FLAG_DEFINE dt_X86_INS_SETB __CF __NONE __NONE;
   FLAG_DEFINE dt_X86_INS_SETAE __CF __NONE __NONE;
   FLAG_DEFINE dt_X86_INS_SETE __ZF __NONE __NONE;
   FLAG_DEFINE dt_X86_INS_SETNE __ZF __NONE __NONE;
   FLAG_DEFINE dt_X86_INS_SETBE (__ZF .| __CF) __NONE __NONE;
   FLAG_DEFINE dt_X86_INS_SETA (__ZF .| __CF) __NONE __NONE;
   FLAG_DEFINE dt_X86_INS_SETS __SF __NONE __NONE;
   FLAG_DEFINE dt_X86_INS_SETNS __SF __NONE __NONE;
   FLAG_DEFINE dt_X86_INS_SETP __PF __NONE __NONE;
   FLAG_DEFINE dt_X86_INS_SETNP __PF __NONE __NONE;
   FLAG_DEFINE dt_X86_INS_SETL (__OF .| __SF) __NONE __NONE;
   FLAG_DEFINE dt_X86_INS_SETGE (__OF .| __SF) __NONE __NONE;
   FLAG_DEFINE dt_X86_INS_SETLE (__OF .| __SF .| __ZF) __NONE __NONE;
   FLAG_DEFINE dt_X86_INS_SETG (__OF .| __SF .| __ZF) __NONE __NONE;
   FLAG_DEFINE dt_X86_INS_SGDT __NONE __INVALID __NONE;
   FLAG_DEFINE dt_X86_INS_SIDT __NONE __INVALID __NONE;
   FLAG_DEFINE dt_X86_INS_SLDT __NONE __INVALID __NONE;
   FLAG_DEFINE dt_X86_INS_SMSW __NONE __INVALID __NONE;
   FLAG_DEFINE dt_X86_INS_SHLD __NONE __ALL_EFLAGS __AF;
   FLAG_DEFINE dt_X86_INS_SHRD __NONE __ALL_EFLAGS __AF;
   FLAG_DEFINE dt_X86_INS_STC __NONE __CF __NONE;
   FLAG_DEFINE dt_X86_INS_STD __NONE __DF __NONE;
   FLAG_DEFINE dt_X86_INS_STI __NONE __INVALID __NONE;
   FLAG_DEFINE dt_X86_INS_STOSB __NONE __NONE __NONE;
   FLAG_DEFINE dt_X86_INS_STOSW __NONE __NONE __NONE;
   FLAG_DEFINE dt_X86_INS_STOSD __NONE __NONE __NONE;
   FLAG_DEFINE dt_X86_INS_STOSQ __NONE __NONE __NONE;
   FLAG_DEFINE dt_X86_INS_STR __NONE __INVALID __NONE;
   FLAG_DEFINE dt_X86_INS_SUB __NONE __ALL_EFLAGS __NONE;
   FLAG_DEFINE dt_X86_INS_TEST __NONE __ALL_EFLAGS __AF;
   FLAG_DEFINE dt_X86_INS_TZCNT __NONE __ALL_EFLAGS __OSAPF;
   FLAG_DEFINE dt_X86_INS_UD0 __NONE __NONE __NONE;
   FLAG_DEFINE dt_X86_INS_VERR __NONE __ZF __NONE;
   FLAG_DEFINE dt_X86_INS_VERW __NONE __ZF __NONE;
   FLAG_DEFINE dt_X86_INS_WAIT __NONE __NONE __NONE;
   FLAG_DEFINE dt_X86_INS_WBINVD __NONE __INVALID __NONE;
   FLAG_DEFINE dt_X86_INS_WRMSR __NONE __INVALID __NONE;
   FLAG_DEFINE dt_X86_INS_XADD __NONE __ALL_EFLAGS __NONE;
   FLAG_DEFINE dt_X86_INS_XCHG __NONE __NONE __NONE;
   FLAG_DEFINE dt_X86_INS_XLATB __NONE __NONE __NONE;
   FLAG_DEFINE dt_X86_INS_XOR __NONE __ALL_EFLAGS __AF;
   FLAG_DEFINE dt_X86_INS_ADCX __CF __CF __NONE;
   FLAG_DEFINE dt_X86_INS_ADOX __OF __OF __NONE;
   FLAG_DEFINE dt_X86_INS_BNDMOV __NONE __NONE __NONE;
   FLAG_DEFINE dt_X86_INS_ENDING __INVALID __INVALID __INVALID].

Definition usedef_rows : list (dt_x86_insn * IR1_EFLAG_USEDEF) :=
  usedef_rows_1 ++ usedef_rows_2 ++ usedef_rows_3 ++ usedef_rows_4.

(** The array with designated initialisers: of several rows for one opcode the
    last one counts, an opcode without a row is zero-initialised. *)
Definition ir1_opcode_eflag_usedef (op : dt_x86_insn) : IR1_EFLAG_USEDEF :=
  fold_left (fun acc row => if insn_eqb (fst row) op then snd row else acc)
    usedef_rows (mkUsedef 0 0 0).

(** [opcode0 = 0xa5] tells the string move from the SSE move of the same name. *)
Definition ir1_opcode_to_eflag_usedef (ir1 : IR1_INST) : option IR1_EFLAG_USEDEF :=
  if insn_eqb (ir1_opcode ir1) dt_X86_INS_MOVSD && (opcode0 (info ir1) =? 0xa5) then
    Some (ir1_opcode_eflag_usedef dt_X86_INS_MOVSB)
  else
    let ud := ir1_opcode_eflag_usedef (ir1_opcode ir1) in
    lsassert negb (use ud =? __INVALID) ;; Some ud.

(** ** Instructions that may leave flags alone *)

Definition rotate_shift_get_masked_imm (d s : IR1_OPND) : option Z :=
  v ← ir1_opnd_uimm s;
  if ir1_opnd_size d =? 64 then Some (u32 (v .& 0x3f)) else Some (u32 (v .& 0x1f)).

(** The common tail of the three predicates below: the count operand is not an
    immediate, or is one that is masked to 0. *)
Definition count_may_be_0 (pir1 : IR1_INST) : option bool :=
  opnd0 ← ir1_get_opnd pir1 0;
  opnd1 ← ir1_get_opnd pir1 1;
  if negb (ir1_opnd_is_imm opnd1) then Some true else
  v ← rotate_shift_get_masked_imm opnd0 opnd1;
  Some (v =? 0).

Definition rotate_need_of (pir1 : IR1_INST) : option bool :=
  match ir1_opcode pir1 with
  | dt_X86_INS_RCL | dt_X86_INS_RCR | dt_X86_INS_ROL | dt_X86_INS_ROR =>
      if ir1_get_opnd_num pir1 =? 1 then Some false else count_may_be_0 pir1
  | _ => Some false
  end.

Definition shift_need_oszpcf (pir1 : IR1_INST) : option bool :=
  match ir1_opcode pir1 with
  | dt_X86_INS_SAL | dt_X86_INS_SAR | dt_X86_INS_SHL | dt_X86_INS_SHR =>
      count_may_be_0 pir1
  | _ => Some false
  end.

Definition double_shift_need_all (pir1 : IR1_INST) : option bool :=
  match ir1_opcode pir1 with
  | dt_X86_INS_SHLD | dt_X86_INS_SHRD => count_may_be_0 pir1
  | _ => Some false
  end.

Definition cmp_scas_need_zf (pir1 : IR1_INST) : bool :=
  ((ir1_prefix pir1 =? dt_X86_PREFIX_REPE) || (ir1_prefix pir1 =? dt_X86_PREFIX_REPNE)) &&
  match ir1_opcode pir1 with
  | dt_X86_INS_CMPSB | dt_X86_INS_CMPSW | dt_X86_INS_CMPSD | dt_X86_INS_CMPSQ
  | dt_X86_INS_SCASB | dt_X86_INS_SCASW | dt_X86_INS_SCASD | dt_X86_INS_SCASQ => true
  | _ => false
  end.

(** ** The backward step *)

(** [flag_reduction] without CONFIG_LATX_RADICAL_EFLAGS; the pair is the
    annotated instruction and the new [*pending_use]. *)
Definition flag_reduction (pir1 : IR1_INST) (pending_use : Z) : option (IR1_INST * Z) :=
  curr_usedef ← ir1_opcode_to_eflag_usedef pir1;
  let current_def := def curr_usedef in
  rot ← rotate_need_of pir1;
  let d := if (rot : bool) then def curr_usedef .& ~. __OF else def curr_usedef in
  shf ← shift_need_oszpcf pir1;
  let d := if (shf : bool) then d .& ~. (__OSZPF .| __CF) else d in
  dsh ← double_shift_need_all pir1;
  let d := if (dsh : bool) then d .& ~. __OSZPF else d in
  let current_def := current_def .& pending_use in
  let d := d .& pending_use in
  let pending_use := pending_use .& ~. d in
  let u := if cmp_scas_need_zf pir1 then use curr_usedef .| __ZF else use curr_usedef in
  let pending_use := pending_use .| u in
  let current_def := current_def .| d in
  Some (ir1_set_eflag_def (ir1_set_eflag_use pir1 u) (current_def .& ~. undef curr_usedef),
        pending_use).

Definition flag_gen (pir1 : IR1_INST) : option IR1_INST :=
  curr_usedef ← ir1_opcode_to_eflag_usedef pir1;
  Some (ir1_set_eflag_def (ir1_set_eflag_use pir1 (use curr_usedef))
          (def curr_usedef .& ~. undef curr_usedef)).

(** OPT_FLAG_RDTN: [option_flag_reduction] selects the pass. *)
Definition OPT_FLAG_RDTN (option_flag_reduction : bool) (inst : IR1_INST) (pending_use : Z) :
    option (IR1_INST * Z) :=
  if option_flag_reduction then flag_reduction inst pending_use
  else i ← flag_gen inst; Some (i, pending_use).

(** The reverse loop [for (i = n - 1; i >= 0; --i) OPT_FLAG_RDTN(rdtn, ir1)]. *)
Fixpoint rdtn_insts (opt : bool) (l : list IR1_INST) (pending_use : Z) :
    option (list IR1_INST * Z) :=
  match l with
  | [] => Some ([], pending_use)
  | i :: l =>
      '(l', p) ← rdtn_insts opt l pending_use;
      '(i', p') ← OPT_FLAG_RDTN opt i p;
      Some (i' :: l', p')
  end.

(** ** The check at the end of a block *)

(** [flag_reduction_pass1] scans backwards; the list is the block reversed. *)
Fixpoint flag_reduction_pass1_rev (l : list IR1_INST) : option bool :=
  match l with
  | [] => Some true
  | pir1 :: l =>
      usedef ← ir1_opcode_to_eflag_usedef pir1;
      if negb (use usedef =? __NONE) then Some false
      else if def usedef =? __NONE then flag_reduction_pass1_rev l
      else Some true
  end.
Definition flag_reduction_pass1 (tb : TranslationBlock) : option bool :=
  flag_reduction_pass1_rev (rev (ir1 tb)).

Definition pending_use_of_succ (tb : TranslationBlock) : option Z :=
  pir1 ← tb_ir1_inst_last tb;
  icall ← (if ir1_is_call pir1 then ir1_is_indirect_call pir1 else Some false);
  if ir1_is_syscall pir1 || (icall : bool) then Some __NONE else Some __ALL_EFLAGS.

Definition flag_reduction_check (tb : TranslationBlock) : option Z :=
  p ← flag_reduction_pass1 tb;
  if (p : bool) then pending_use_of_succ tb else Some __ALL_EFLAGS.

(** * Theorems *)

(** ** What the pass knows of an instruction

    [fe_use]: the flags it reads; [fe_def]: the flags it may write; [fe_kill]:
    those it certainly writes; [fe_undef]: those left undefined. *)

Record flag_effect := mkEffect { fe_use : Z; fe_def : Z; fe_kill : Z; fe_undef : Z }.

Definition flag_effect_of (i : IR1_INST) : option flag_effect :=
  ud ← ir1_opcode_to_eflag_usedef i;
  rot ← rotate_need_of i;
  shf ← shift_need_oszpcf i;
  dsh ← double_shift_need_all i;
  let unsure := (if (rot : bool) then __OF else 0) .|
                (if (shf : bool) then __OSZPF .| __CF else 0) .|
                (if (dsh : bool) then __OSZPF else 0) in
  Some (mkEffect (if cmp_scas_need_zf i then use ud .| __ZF else use ud)
          (def ud) (def ud .& ~. unsure) (undef ud)).

Definition annotate (i : IR1_INST) (u d : Z) : IR1_INST :=
  ir1_set_eflag_def (ir1_set_eflag_use i u) d.

(** Live flags before an instruction, from the live flags after it. *)
Definition live_before (e : flag_effect) (p : Z) : Z := (p .& ~. fe_kill e) .| fe_use e.

(** One step of the pass is the liveness transfer, and keeps of the flags the
    instruction may write those that are live and not undefined. *)
Lemma flag_reduction_spec i p :
  flag_reduction i p =
    (e ← flag_effect_of i;
     Some (annotate i (fe_use e) ((fe_def e .& p) .& ~. fe_undef e), live_before e p)).
Proof.
  unfold flag_reduction, flag_effect_of, annotate, live_before.
  destruct (ir1_opcode_to_eflag_usedef i) as [[u d n]|]; [|done].
  destruct (rotate_need_of i) as [rot|]; [|done].
  destruct (shift_need_oszpcf i) as [shf|]; [|done].
  destruct (double_shift_need_all i) as [dsh|]; [|done].
  cbn [mbind option_bind use def undef fe_use fe_def fe_kill fe_undef].
  apply (f_equal Some), pair_equal_spec. split; [f_equal|];
    destruct rot, shf, dsh; mask_eq.
Qed.

Lemma annotate_info i u d : info (annotate i u d) = info i.
Proof. done. Qed.

(** Effects only depend on the decoded instruction. *)
Lemma flag_effect_of_info i j : info i = info j → flag_effect_of i = flag_effect_of j.
Proof.
  intros H. unfold flag_effect_of, ir1_opcode_to_eflag_usedef, rotate_need_of,
    shift_need_oszpcf, double_shift_need_all, cmp_scas_need_zf, count_may_be_0,
    ir1_get_opnd_num, ir1_get_opnd, ir1_prefix, ir1_opcode. by rewrite H.
Qed.

(** The pass over a block, instruction by instruction. *)
Lemma rdtn_insts_cons i l p r :
  rdtn_insts true (i :: l) p = Some r →
  ∃ e l' q, rdtn_insts true l p = Some (l', q) ∧ flag_effect_of i = Some e ∧
    r = (annotate i (fe_use e) ((fe_def e .& q) .& ~. fe_undef e) :: l', live_before e q).
Proof.
  simpl. destruct (rdtn_insts true l p) as [[l' q]|]; [|done]. simpl.
  rewrite flag_reduction_spec. destruct (flag_effect_of i) as [e|]; [|done].
  simpl. intros [= <-]. eauto 8.
Qed.

Lemma rdtn_insts_info opt l p l' q :
  rdtn_insts opt l p = Some (l', q) → info <$> l' = info <$> l.
Proof.
  revert l' q. induction l as [|i l IH]; intros l' q; simpl; [by intros [= <- <-]|].
  destruct (rdtn_insts opt l p) as [[l1 q1]|]; [|done]. simpl.
  destruct opt; simpl; [rewrite flag_reduction_spec; destruct (flag_effect_of i)|
    unfold flag_gen; destruct (ir1_opcode_to_eflag_usedef i)]; try done; simpl;
  intros [= <- <-]; simpl; f_equal; by eapply IH.
Qed.

(** ** Exactness: liveness along the instruction list *)

(** Flag [b] is read at some instruction, or live at the end, with no
    instruction before that certainly overwriting it. *)
Inductive upward_exposed (b p : Z) : list IR1_INST → Prop :=
  | ue_end : Z.testbit p b = true → upward_exposed b p []
  | ue_use i l e : flag_effect_of i = Some e → Z.testbit (fe_use e) b = true →
      upward_exposed b p (i :: l)
  | ue_skip i l e : flag_effect_of i = Some e → Z.testbit (fe_kill e) b = false →
      upward_exposed b p l → upward_exposed b p (i :: l).

Lemma testbit_live_before e p b :
  Z.testbit (live_before e p) b = true ↔
  Z.testbit (fe_use e) b = true ∨ (Z.testbit p b = true ∧ Z.testbit (fe_kill e) b = false).
Proof.
  unfold live_before. rewrite Z.lor_spec, Z.land_spec.
  destruct (Z.ltb_spec b 0).
  - rewrite !(Z.testbit_neg_r _ b) by done. intuition congruence.
  - rewrite Z.lnot_spec by done.
    destruct (Z.testbit p b), (Z.testbit (fe_kill e) b), (Z.testbit (fe_use e) b);
      simpl; intuition congruence.
Qed.

(** C24 The backward pass over a block computes exactly the flags live on entry:
    a flag is in the resulting pending set iff some instruction reads it, or it
    is pending at the exit, without an earlier certain overwrite. *)
Theorem rdtn_insts_exact l p l' q b :
  rdtn_insts true l p = Some (l', q) →
  Z.testbit q b = true ↔ upward_exposed b p l.
Proof.
  revert l' q. induction l as [|i l IH]; intros l' q.
  { intros [= <- <-]. split; [by constructor|by inversion 1]. }
  intros (e & l1 & q1 & Hl & He & [= -> ->])%rdtn_insts_cons.
  rewrite testbit_live_before, (IH _ _ Hl). split.
  - intros [?|[??]]; [by eapply ue_use|by eapply ue_skip].
  - inversion 1; simplify_eq; eauto.
Qed.

(** ** Semantic preservation *)

Definition flags := Z → bool.

(** Agreement on the flags of a mask. *)
Definition agree (m : Z) (f g : flags) : Prop := ∀ b, Z.testbit m b = true → f b = g b.

Section semantics.
  (** The behaviour of an x86 instruction: a function of the machine state
      without EFLAGS and of the flags. *)
  Context {X : Type} (sem : la_dt_insn → X → flags → X * flags).

(** The instruction behaves as its table row and the shift exceptions say. *)
Record respects (i : IR1_INST) (e : flag_effect) : Prop := {
  resp_state : ∀ x f g, agree (fe_use e) f g →
    fst (sem (info i) x f) = fst (sem (info i) x g);
  resp_kill : ∀ x f g, agree (fe_use e) f g →
    agree (fe_kill e) (snd (sem (info i) x f)) (snd (sem (info i) x g));
  resp_may : ∀ x f g b, agree (fe_use e) f g → Z.testbit (fe_def e) b = true → f b = g b →
    snd (sem (info i) x f) b = snd (sem (info i) x g) b;
  resp_frame : ∀ x f b, Z.testbit (fe_def e) b = false → snd (sem (info i) x f) b = f b
}.

Definition all_respect (l : list IR1_INST) : Prop :=
  ∀ i e, i ∈ l → flag_effect_of i = Some e → respects i e.

(** Reference semantics: undefined flags take any value. *)
Inductive ref_run : list IR1_INST → X * flags → X * flags → Prop :=
  | ref_nil s : ref_run [] s s
  | ref_cons i l e x f f1 s :
      flag_effect_of i = Some e →
      (∀ b, Z.testbit (fe_undef e) b = false → f1 b = snd (sem (info i) x f) b) →
      ref_run l (fst (sem (info i) x f), f1) s →
      ref_run (i :: l) (x, f) s.

(** Semantics of the generated code: it only computes the flags of
    [_eflag_def], every other flag keeps its old value. *)
Inductive tgt_run : list IR1_INST → X * flags → X * flags → Prop :=
  | tgt_nil s : tgt_run [] s s
  | tgt_cons i l x g s :
      tgt_run l (fst (sem (info i) x g),
        λ b, if Z.testbit (ir1_get_eflag_def i) b then snd (sem (info i) x g) b else g b) s →
      tgt_run (i :: l) (x, g) s.

(** One instruction: agreement on the flags live before carries over to the
    flags live after, undefined flags being chosen as the target has them. *)
Lemma step_agree i e q x f g :
  respects i e → agree (live_before e q) f g →
  let g1 := λ b, if Z.testbit ((fe_def e .& q) .& ~. fe_undef e) b
                 then snd (sem (info i) x g) b else g b in
  let f1 := λ b, if Z.testbit (fe_undef e) b then g1 b else snd (sem (info i) x f) b in
  fst (sem (info i) x g) = fst (sem (info i) x f) ∧ agree q f1 g1.
Proof.
  intros He Hag g1 f1.
  assert (agree (fe_use e) f g) as Huse.
  { intros b Hb. apply Hag, testbit_live_before. auto. }
  split; [symmetry; by apply He|]. intros b Hb. unfold f1, g1.
  destruct (Z.testbit (fe_undef e) b) eqn:Hu; [done|].
  rewrite !Z.land_spec, testbit_lnot, Hu, Hb by (by eapply testbit_true_nonneg).
  rewrite !andb_true_r. simpl. destruct (Z.testbit (fe_kill e) b) eqn:Hk.
  - destruct (Z.testbit (fe_def e) b) eqn:Hd; simpl.
    + by apply (resp_kill i e He).
    + rewrite <-(resp_frame i e He x g) by done. by apply (resp_kill i e He).
  - assert (f b = g b) as Hfg by (apply Hag, testbit_live_before; auto).
    destruct (Z.testbit (fe_def e) b) eqn:Hd; simpl.
    + by apply (resp_may i e He).
    + by rewrite (resp_frame i e He).
Qed.

(** C7 Flag reduction is sound: every run of the code that computes only the
    flags kept by the pass is matched by a run of the reference semantics that
    computes all of them, as soon as the two start with the same values of the
    flags live on entry; they end in the same machine state and agree on the
    flags pending at the exit. *)
Theorem rdtn_insts_sound l p l' q x f g x' g' :
  all_respect l →
  rdtn_insts true l p = Some (l', q) →
  tgt_run l' (x, g) (x', g') →
  agree q f g →
  ∃ f', ref_run l (x, f) (x', f') ∧ agree p f' g'.
Proof.
  revert l' q x f g. induction l as [|i l IH]; intros l' q x f g Hr.
  { intros [= <- <-] Ht Hag. inv Ht. eexists; split; [constructor|done]. }
  intros (e & l1 & q1 & Hl & He & [= -> ->])%rdtn_insts_cons Ht Hag.
  inversion Ht as [|? ? ? ? ? Ht']; subst; clear Ht. rewrite annotate_info in Ht'.
  assert (respects i e) as Hi by (apply Hr; [by left|done]).
  destruct (step_agree i e q1 x f g Hi Hag) as [Hx Hag1].
  destruct (IH l1 q1 _ _ _ ltac:(intros j e' ?; apply Hr; by right) Hl Ht' Hag1)
    as (f' & Hrun & Hp).
  exists f'. split; [|done]. eapply ref_cons; [done| |rewrite <-Hx; exact Hrun].
  intros b Hb. simpl. by rewrite Hb.
Qed.

End semantics.

(** ** A concrete semantics for the witnesses

    Every certainly written flag is cleared and the state counts the reads that
    found CF set. *)

Definition demo_sem (d : la_dt_insn) (x : Z) (f : flags) : Z * flags :=
  match flag_effect_of (mkIR1 d 0 0 0 0 0 0 None) with
  | Some e =>
      (if Z.testbit (fe_use e) 0 && f 0 then x + 1 else x,
       λ b, if Z.testbit (fe_kill e) b && Z.testbit (fe_def e) b then false else f b)
  | None => (x, f)
  end.

Lemma fe_kill_def i e : flag_effect_of i = Some e → fe_kill e ⊑m fe_def e.
Proof.
  unfold flag_effect_of. intros H. simplify_option_eq. apply mask_le_land_l.
Qed.

Lemma demo_sem_respects i e : flag_effect_of i = Some e → respects demo_sem i e.
Proof.
  intros He. pose proof (fe_kill_def i e He) as Hk.
  assert (flag_effect_of (mkIR1 (info i) 0 0 0 0 0 0 None) = Some e) as Hd
    by (by rewrite (flag_effect_of_info _ i)).
  split; unfold demo_sem; rewrite Hd; cbn [fst snd].
  - intros x f g H. destruct (Z.testbit (fe_use e) 0) eqn:Hu; [|done].
    by rewrite (H 0 Hu).
  - intros x f g _ b Hb. by rewrite Hb, (Hk b Hb).
  - intros x f g b _ Hb Hfg. by destruct (_ && _).
  - intros x f b ->. by rewrite andb_false_r.
Qed.

(** [add eax, ecx; adc edx, ebx; je]: the ADD keeps only CF, the ADC ZF. *)
Definition reg_opnd (r : dt_x86_reg) : IR1_OPND := mkOpnd (OP_REG r) 4.
Definition inst (op : dt_x86_insn) (ops : list IR1_OPND) : IR1_INST :=
  mkIR1 (mkInfo op [0; 0; 0; 0] 0 ops 0 0 [] 8 0) 0 0 0 0 0 0 None.
Definition demo_block : list IR1_INST :=
  [inst dt_X86_INS_ADD [reg_opnd dt_X86_REG_EAX; reg_opnd dt_X86_REG_ECX];
   inst dt_X86_INS_ADC [reg_opnd dt_X86_REG_EDX; reg_opnd dt_X86_REG_EBX];
   inst dt_X86_INS_JE [mkOpnd (OP_IMM 0x1000) 8]].

Lemma rdtn_insts_exact_witness :
  ∃ l' q, rdtn_insts true demo_block __NONE = Some (l', q) ∧
    ¬ upward_exposed CF_USEDEF_BIT_INDEX __NONE demo_block.
Proof.
  do 2 eexists. split; [reflexivity|].
  rewrite <-(rdtn_insts_exact demo_block __NONE _ _ CF_USEDEF_BIT_INDEX eq_refl).
  vm_compute. discriminate.
Defined.

Lemma rdtn_insts_sound_witness :
  ∃ x' f', ref_run demo_sem demo_block (0, λ _, true) (x', f').
Proof.
  destruct (rdtn_insts true demo_block __NONE) as [[l' q]|] eqn:H; [|discriminate H].
  edestruct (rdtn_insts_sound demo_sem demo_block __NONE l' q 0 (λ _, true) (λ _, true))
    as (f' & Hr & _).
  - intros i e _. apply demo_sem_respects.
  - exact H.
  - injection H as <- _. repeat econstructor.
  - done.
  - eauto.
Defined.

(** ** Totality, ranges and monotonicity *)

Lemma live_before_mono e p p' : p ⊑m p' → live_before e p ⊑m live_before e p'.
Proof.
  intros H b. rewrite !testbit_live_before. intros [Hu|[Hb Hk]]; [by left|right; split; [by apply H|done]].
Qed.

Lemma rdtn_insts_mono l p p' l1 q1 :
  p ⊑m p' → rdtn_insts true l p = Some (l1, q1) →
  ∃ l2 q2, rdtn_insts true l p' = Some (l2, q2) ∧ q1 ⊑m q2.
Proof.
  intros Hp. revert l1 q1. induction l as [|i l IH]; intros l1 q1.
  { intros [= <- <-]. eauto. }
  intros (e & l1' & q & Hl & He & [= -> ->])%rdtn_insts_cons.
  destruct (IH _ _ Hl) as (l2 & q2 & Hl2 & Hq). simpl. rewrite Hl2. simpl.
  rewrite flag_reduction_spec, He. simpl.
  do 2 eexists. split; [reflexivity|by apply live_before_mono].
Qed.

(** Every row of the table holds bytes. *)
Definition byteb (x : Z) : bool := (0 <=? x) && (x <? 256).
Definition usedef_byteb (ud : IR1_EFLAG_USEDEF) : bool :=
  byteb (use ud) && byteb (def ud) && byteb (undef ud).

Lemma table_bytes op : usedef_byteb (ir1_opcode_eflag_usedef op) = true.
Proof.
  unfold ir1_opcode_eflag_usedef.
  assert (Forall (λ row, usedef_byteb (snd row) = true) usedef_rows) as Hrows.
  { apply Forall_forall. intros row Hrow.
    assert (forallb (λ row, usedef_byteb (snd row)) usedef_rows = true) as Hall
      by (by vm_compute).
    rewrite forallb_forall in Hall. apply Hall. exact Hrow. }
  generalize (mkUsedef 0 0 0) (eq_refl : usedef_byteb (mkUsedef 0 0 0) = true).
  induction Hrows as [|row rows H _ IH]; intros a Ha; simpl; [done|].
  apply IH. destruct (insn_eqb _ _); [exact H|exact Ha].
Qed.

(** The only row without a usable [use] entry is the end marker: the pass never
    aborts on a decoded instruction for lack of a row. *)
Lemma table_total op :
  op ≠ dt_X86_INS_ENDING → negb (use (ir1_opcode_eflag_usedef op) =? __INVALID) = true.
Proof. destruct op; try done; vm_compute; reflexivity. Qed.

(** ** The condition codes of the table *)

(** x86 conditions as functions of the flags (Intel SDM, appendix B). *)
Inductive x86_cond : Set :=
  | CC_O | CC_NO | CC_B | CC_AE | CC_E | CC_NE | CC_BE | CC_A
  | CC_S | CC_NS | CC_P | CC_NP | CC_L | CC_GE | CC_LE | CC_G.

Definition cond_holds (c : x86_cond) (f : flags) : bool :=
  let cf := f CF_USEDEF_BIT_INDEX in let pf := f PF_USEDEF_BIT_INDEX in
  let zf := f ZF_USEDEF_BIT_INDEX in let sf := f SF_USEDEF_BIT_INDEX in
  let ovf := f OF_USEDEF_BIT_INDEX in
  match c with
  | CC_O => ovf | CC_NO => negb ovf | CC_B => cf | CC_AE => negb cf
  | CC_E => zf | CC_NE => negb zf | CC_BE => cf || zf | CC_A => negb cf && negb zf
  | CC_S => sf | CC_NS => negb sf | CC_P => pf | CC_NP => negb pf
  | CC_L => xorb sf ovf | CC_GE => negb (xorb sf ovf)
  | CC_LE => zf || xorb sf ovf | CC_G => negb zf && negb (xorb sf ovf)
  end.

(** The Jcc, SETcc and CMOVcc opcodes of a condition. *)
Definition cond_opcodes (c : x86_cond) : list dt_x86_insn :=
  match c with
  | CC_O => [dt_X86_INS_JO; dt_X86_INS_SETO; dt_X86_INS_CMOVO]
  | CC_NO => [dt_X86_INS_JNO; dt_X86_INS_SETNO; dt_X86_INS_CMOVNO]
  | CC_B => [dt_X86_INS_JB; dt_X86_INS_SETB; dt_X86_INS_CMOVB; dt_X86_INS_FCMOVB]
  | CC_AE => [dt_X86_INS_JAE; dt_X86_INS_SETAE; dt_X86_INS_CMOVAE; dt_X86_INS_FCMOVNB]
  | CC_E => [dt_X86_INS_JE; dt_X86_INS_SETE; dt_X86_INS_CMOVE; dt_X86_INS_FCMOVE]
  | CC_NE => [dt_X86_INS_JNE; dt_X86_INS_SETNE; dt_X86_INS_CMOVNE; dt_X86_INS_FCMOVNE]
  | CC_BE => [dt_X86_INS_JBE; dt_X86_INS_SETBE; dt_X86_INS_CMOVBE; dt_X86_INS_FCMOVBE]
  | CC_A => [dt_X86_INS_JA; dt_X86_INS_SETA; dt_X86_INS_CMOVA; dt_X86_INS_FCMOVNBE]
  | CC_S => [dt_X86_INS_JS; dt_X86_INS_SETS; dt_X86_INS_CMOVS]
  | CC_NS => [dt_X86_INS_JNS; dt_X86_INS_SETNS; dt_X86_INS_CMOVNS]
  | CC_P => [dt_X86_INS_JP; dt_X86_INS_SETP; dt_X86_INS_CMOVP; dt_X86_INS_FCMOVU]
  | CC_NP => [dt_X86_INS_JNP; dt_X86_INS_SETNP; dt_X86_INS_CMOVNP; dt_X86_INS_FCMOVNU]
  | CC_L => [dt_X86_INS_JL; dt_X86_INS_SETL; dt_X86_INS_CMOVL]
  | CC_GE => [dt_X86_INS_JGE; dt_X86_INS_SETGE; dt_X86_INS_CMOVGE]
  | CC_LE => [dt_X86_INS_JLE; dt_X86_INS_SETLE; dt_X86_INS_CMOVLE]
  | CC_G => [dt_X86_INS_JG; dt_X86_INS_SETG; dt_X86_INS_CMOVG]
  end.

(** The mask of flags a condition reads. *)
Definition cond_mask (c : x86_cond) : Z :=
  match c with
  | CC_O | CC_NO => __OF | CC_B | CC_AE => __CF | CC_E | CC_NE => __ZF
  | CC_BE | CC_A => __CF .| __ZF | CC_S | CC_NS => __SF | CC_P | CC_NP => __PF
  | CC_L | CC_GE => __OF .| __SF | CC_LE | CC_G => __OF .| __SF .| __ZF
  end.

Lemma cond_rows c :
  Forall (λ op, ir1_opcode_eflag_usedef op = mkUsedef (cond_mask c) __NONE __NONE)
    (cond_opcodes c).
Proof. destruct c; repeat constructor; vm_compute; reflexivity. Qed.

Lemma cond_mask_support c f g : agree (cond_mask c) f g → cond_holds c f = cond_holds c g.
Proof.
  unfold agree. intros H.
  destruct c; cbn [cond_holds]; rewrite ?(H CF_USEDEF_BIT_INDEX), ?(H ZF_USEDEF_BIT_INDEX),
    ?(H SF_USEDEF_BIT_INDEX), ?(H OF_USEDEF_BIT_INDEX), ?(H PF_USEDEF_BIT_INDEX)
    by reflexivity; reflexivity.
Qed.

(** A flag of the mask is really read: two flag sets that differ only in it give
    different answers. *)
Lemma cond_mask_needed c b :
  Z.testbit (cond_mask c) b = true →
  ∃ f, cond_holds c f ≠ cond_holds c (λ k, if k =? b then negb (f k) else f k).
Proof.
  intros Hb. pose proof (testbit_true_nonneg _ _ Hb).
  assert (b < 6) as Hlt.
  { assert (in_u 6 (cond_mask c)) as Hr by (by destruct c).
    by apply (in_u_testbit 6 _ ltac:(lia)) in Hr as [_ Hr]; apply Hr. }
  assert (b = 0 ∨ b = 1 ∨ b = 2 ∨ b = 3 ∨ b = 4 ∨ b = 5) as Hbs by lia.
  exists (λ _, false).
  destruct Hbs as [->|[->|[->|[->|[->| ->]]]]], c; try discriminate Hb; vm_compute; discriminate.
Qed.

(** C30 The table's condition rows are exactly right: for every x86 condition,
    all of its Jcc, SETcc, CMOVcc and FCMOVcc rows write nothing and have as
    [use] the precise support of the condition: the answer only depends on those
    flags, and depends on each of them. *)
Theorem cond_rows_exact c op :
  op ∈ cond_opcodes c →
  def (ir1_opcode_eflag_usedef op) = __NONE ∧
  (∀ f g, agree (use (ir1_opcode_eflag_usedef op)) f g → cond_holds c f = cond_holds c g) ∧
  (∀ b, Z.testbit (use (ir1_opcode_eflag_usedef op)) b = true →
     ∃ f, cond_holds c f ≠ cond_holds c (λ k, if k =? b then negb (f k) else f k)).
Proof.
  intros Hop. pose proof (cond_rows c) as Hr. rewrite Forall_forall in Hr.
  rewrite (Hr op (proj1 (list_elem_of_In _ _) Hop)). split_and!; [done| |].
  - intros f g. apply cond_mask_support.
  - intros b. apply cond_mask_needed.
Qed.

Lemma cond_rows_exact_witness :
  def (ir1_opcode_eflag_usedef dt_X86_INS_CMOVLE) = __NONE.
Proof. refine (proj1 (cond_rows_exact CC_LE dt_X86_INS_CMOVLE _)). repeat constructor. Defined.

(** ** The check at the end of a block *)

(** The flags an instruction reads and writes, by its opcode. *)
Definition flag_free (i : IR1_INST) : Prop :=
  ∃ ud, ir1_opcode_to_eflag_usedef i = Some ud ∧ use ud = __NONE ∧ def ud = __NONE.
Definition writes_flags_only (i : IR1_INST) : Prop :=
  ∃ ud, ir1_opcode_to_eflag_usedef i = Some ud ∧ use ud = __NONE ∧ def ud ≠ __NONE.

(** The last instruction that has to do with flags, if any, writes some and reads none. *)
Definition ends_quietly (l : list IR1_INST) : Prop :=
  ∃ pre tl, l = pre ++ tl ∧ Forall flag_free tl ∧ (pre = [] ∨ ∃ pre' i, pre = pre' ++ [i] ∧ writes_flags_only i).

(** The instructions after which the flags are given up. *)
Definition leaves_flags (i : IR1_INST) : Prop :=
  ir1_opcode i ∈ [dt_X86_INS_INT; dt_X86_INS_SYSCALL; dt_X86_INS_SYSENTER; dt_X86_INS_SYSEXIT; dt_X86_INS_SYSRET] ∨
  ir1_opcode i = dt_X86_INS_CALL ∧ ∃ o, ir1_get_opnd i 0 = Some o ∧ ir1_opnd_is_imm o = false.

Lemma pass1_quiet l : flag_reduction_pass1_rev (rev l) = Some true ↔ ends_quietly l.
Proof.
  induction l as [|i l IH] using rev_ind.
  { split; [|done]. intros _. exists [], []. split_and!; [done|constructor|by left]. }
  rewrite rev_app_distr. cbn [rev app flag_reduction_pass1_rev]. split.
  - destruct (ir1_opcode_to_eflag_usedef i) as [ud|] eqn:E; [|done]. simpl.
    destruct (Z.eqb_spec (use ud) __NONE) as [U|]; [|done]. simpl.
    destruct (Z.eqb_spec (def ud) __NONE) as [D|D].
    + intros (pre & tl & -> & F & P)%IH. exists pre, (tl ++ [i]). split_and!; [by rewrite app_assoc| |done].
      apply Forall_app. split; [done|]. repeat constructor. by exists ud.
    + intros _. exists (l ++ [i]), []. split_and!; [by rewrite app_nil_r|constructor|].
      right. exists l, i. split; [done|]. by exists ud.
  - intros (pre & tl & E & F & P). destruct tl as [|j tl _] using rev_ind.
    + rewrite app_nil_r in E. subst pre. destruct P as [P|(pre' & j & P & ud & E & U & D)]; [by destruct l|].
      apply app_inj_tail in P as [<- <-]. rewrite E. simpl. by rewrite U, Z.eqb_refl, (proj2 (Z.eqb_neq _ _)).
    + rewrite app_assoc in E. apply app_inj_tail in E as [-> <-].
      apply Forall_app in F as [F [(ud & E & U & D) _]%list.Forall_cons]. rewrite E. simpl.
      rewrite U, D. simpl. apply IH. by exists pre, tl.
Qed.

Lemma succ_none tb :
  pending_use_of_succ tb = Some __NONE ↔ ∃ i, tb_ir1_inst_last tb = Some i ∧ leaves_flags i.
Proof.
  unfold pending_use_of_succ, leaves_flags. destruct (tb_ir1_inst_last tb) as [i|]; simpl; [|by split; [|intros (? & ? & _)]].
  assert (S : ir1_is_syscall i = true ↔ ir1_opcode i ∈ [dt_X86_INS_INT; dt_X86_INS_SYSCALL; dt_X86_INS_SYSENTER;
    dt_X86_INS_SYSEXIT; dt_X86_INS_SYSRET]).
  { unfold ir1_is_syscall. rewrite !elem_of_cons, elem_of_nil. destruct (ir1_opcode i); split; intros H; try done; tauto || naive_solver. }
  assert (C : ir1_is_call i = true ↔ ir1_opcode i = dt_X86_INS_CALL) by (unfold ir1_is_call; by destruct (ir1_opcode i)).
  transitivity (ir1_is_syscall i = true ∨ ir1_is_call i = true ∧ ∃ o, ir1_get_opnd i 0 = Some o ∧ ir1_opnd_is_imm o = false).
  2: { rewrite S, C. split; [intros H; by exists i|by intros (? & [= <-] & H)]. }
  assert (X : ir1_is_call i = true → ir1_is_syscall i = false).
  { unfold ir1_is_call, ir1_is_syscall. by destruct (ir1_opcode i). }
  clear S C. unfold ir1_is_indirect_call. destruct (ir1_is_call i); [rewrite (X eq_refl)|].
  - destruct (ir1_get_opnd i 0) as [o|]; simpl; [|split; [done|by intros [?|(_ & ? & ? & _)]]].
    destruct (ir1_opnd_is_imm o) eqn:I; simpl; (split; [|try done]); [done| |intros _; right; eauto].
    intros [?|(_ & ? & [= <-] & ?)]; congruence.
  - simpl. rewrite orb_false_r. destruct (ir1_is_syscall i); [by split; [left|]|]. split; [done|by intros [?|[? _]]].
Qed.

(** C31 Where the flag reduction starts at the end of a block.  It starts from no flags
    exactly when, first, the last instruction of the block that has to do with flags (if
    there is one) writes flags and reads none, and second, the last instruction is INT,
    SYSCALL, SYSENTER, SYSEXIT, SYSRET or a CALL whose target is no immediate.
    In every other case in which the check has a result it starts from all flags. *)
Theorem flag_reduction_check_cases tb :
  (flag_reduction_check tb = Some __NONE ↔
   ends_quietly (ir1 tb) ∧ ∃ i, tb_ir1_inst_last tb = Some i ∧ leaves_flags i) ∧
  flag_reduction_check tb ∈ [None; Some __NONE; Some __ALL_EFLAGS].
Proof.
  rewrite <- pass1_quiet, <- succ_none. unfold flag_reduction_check, flag_reduction_pass1. split.
  - destruct (flag_reduction_pass1_rev _) as [[]|]; simpl; [tauto|by split; [|intros [? _]]..].
  - destruct (flag_reduction_pass1_rev _) as [[]|]; simpl; rewrite !elem_of_cons; [|auto..].
    unfold pending_use_of_succ. destruct (tb_ir1_inst_last tb) as [i|]; simpl; [|auto].
    destruct (if ir1_is_call i then _ else _); simpl; [|auto]. destruct (_ || _); auto.
Qed.

(** [call eax] is such an end. *)
Example indirect_call_gives_up :
  flag_reduction_check (mkTB [inst dt_X86_INS_CALL [reg_opnd dt_X86_REG_EAX]] 0 0 None None IR1_TYPE_CALLIN 0 0 0 0 0 0 0
    false 0) = Some __NONE.
Proof. reflexivity. Qed.

(** ** Counts that may be zero *)

(** x86 leaves every flag alone when the masked count of a rotate is 0. *)
Definition rol_cl : IR1_INST :=
  inst dt_X86_INS_ROL [reg_opnd dt_X86_REG_EDX; mkOpnd (OP_REG dt_X86_REG_CL) 1].
Definition shld_cl : IR1_INST :=
  inst dt_X86_INS_SHLD [reg_opnd dt_X86_REG_EDX; reg_opnd dt_X86_REG_EBX;
                        mkOpnd (OP_REG dt_X86_REG_CL) 1].

(** C32 For a rotate or a double shift by CL, whose count may be 0, the pass
    spares OF (and SF, ZF, PF) but takes CF as certainly written: in
    [add; rol edx, cl; jb] the ADD is told to compute no flag at all, although
    the JB reads the ADD's carry when CL is 0. *)
Theorem rotate_by_cl_drops_carry :
  (fe_kill <$> flag_effect_of rol_cl = Some __CF) ∧
  (∃ k, fe_kill <$> flag_effect_of shld_cl = Some k ∧ Z.testbit k CF_USEDEF_BIT_INDEX = true) ∧
  (∃ i l, rdtn_insts true
     [inst dt_X86_INS_ADD [reg_opnd dt_X86_REG_EAX; reg_opnd dt_X86_REG_ECX]; rol_cl;
      inst dt_X86_INS_JB [mkOpnd (OP_IMM 0x1000) 8]] __NONE = Some (i :: l, __NONE) ∧
     ir1_get_eflag_def i = __NONE).
Proof.
  split; [reflexivity|]. split; [eexists; split; reflexivity|].
  do 2 eexists. split; reflexivity.
Qed.
