(* ===== verification/InstsPattern.v ===== *)
(** * Instruction patterns (optimization/insts-pattern.c)

    While a block is scanned backwards, [insts_pattern_scan_con] looks for
    adjacent instructions that are translated together and
    [insts_pattern_scan_jcc_end] for a comparison fused with the conditional
    jump ending the block.  The matches are recorded in [instptn] of the
    instructions; [instptn.next] is an index into the block.  The block, with
    its instruction list, is the store both scanners update. *)

From stdpp Require Import base numbers list option tactics.
From Stdlib Require Import ZArith Lia Bool.
From S2P Require Import Prelude Ir1Enum Ir1.
Local Open Scope Z_scope.
Local Open Scope c_scope.

(** ** Pattern codes (include/insts-pattern.h) *)

Definition INSTPTN_BUF_SIZE : nat := 4.
Definition INSTPTN_OPC_NONE := 0x000000.
Definition INSTPTN_OPC_NOP := 0x000001.
Definition INSTPTN_OPC_NOP_FOR_EXP := 0x000002.
Definition INSTPTN_OPC_CMP_JCC := 0x000010.
Definition INSTPTN_OPC_TEST_JCC := 0x000020.
Definition INSTPTN_OPC_BT_JCC := 0x000040.
Definition INSTPTN_OPC_CQO_IDIV := 0x000080.
Definition INSTPTN_OPC_CMP_SBB := 0x000100.
Definition INSTPTN_OPC_COMISD_JCC := 0x000200.
Definition INSTPTN_OPC_COMISS_JCC := 0x000400.
Definition INSTPTN_OPC_UCOMISD_JCC := 0x000800.
Definition INSTPTN_OPC_UCOMISS_JCC := 0x001000.
Definition INSTPTN_OPC_XOR_DIV := 0x002000.
Definition INSTPTN_OPC_CDQ_IDIV := 0x004000.
Definition INSTPTN_OPC_CMP_XX_JCC := 0x008000.
Definition INSTPTN_OPC_TEST_XX_JCC := 0x010000.
Definition INSTPTN_OPC_BT_XX_JCC := 0x020000.
Definition INSTPTN_OPC_COMISD_XX_JCC := 0x040000.
Definition INSTPTN_OPC_COMISS_XX_JCC := 0x080000.
Definition INSTPTN_OPC_UCOMISD_XX_JCC := 0x100000.
Definition INSTPTN_OPC_UCOMISS_XX_JCC := 0x200000.
Definition INSTPTN_OPC_CMP_XXCC := 0x400000.
Definition INSTPTN_OPC_TEST_XXCC := 0x800000.
Definition INSTPTN_OPC_UCOMISD_SETA := 0x1000000.
Definition INSTPTN_OPC_SUB_JCC := 0x2000000.
Definition INSTPTN_OPC_MOVAPS_VST_X4 := 0x4000000.
Definition INSTPTN_OPC_NEG_CMOVCC := 0x8000000.
Definition INSTPTN_OPC_SHR_JCC := 0x10000000.
Definition INSTPTN_OPC_AND_JCC := 0x20000000.

(** ** Opcode classes *)

Definition ir1_is_pattern_head (pir1 : IR1_INST) : bool :=
  match ir1_opcode pir1 with
  | dt_X86_INS_CMP | dt_X86_INS_CQO | dt_X86_INS_XOR | dt_X86_INS_CDQ
  | dt_X86_INS_TEST | dt_X86_INS_UCOMISD | dt_X86_INS_MOVAPS | dt_X86_INS_MOVDQA
  | dt_X86_INS_NEG => true
  | _ => false
  end.

Definition ir1_can_pattern (pir1 : IR1_INST) : bool :=
  match ir1_opcode pir1 with
  | dt_X86_INS_CMP | dt_X86_INS_CQO | dt_X86_INS_XOR | dt_X86_INS_CDQ
  | dt_X86_INS_TEST | dt_X86_INS_UCOMISD | dt_X86_INS_MOVAPS | dt_X86_INS_MOVDQA
  | dt_X86_INS_NEG
  | dt_X86_INS_SBB | dt_X86_INS_IDIV | dt_X86_INS_DIV
  | dt_X86_INS_SETB | dt_X86_INS_SETAE | dt_X86_INS_SETE | dt_X86_INS_SETNE
  | dt_X86_INS_SETBE | dt_X86_INS_SETA | dt_X86_INS_SETL | dt_X86_INS_SETGE
  | dt_X86_INS_SETLE | dt_X86_INS_SETG | dt_X86_INS_SETS | dt_X86_INS_SETNS
  | dt_X86_INS_SETNO | dt_X86_INS_SETO
  | dt_X86_INS_CMOVE | dt_X86_INS_CMOVNE | dt_X86_INS_CMOVS | dt_X86_INS_CMOVNS
  | dt_X86_INS_CMOVLE | dt_X86_INS_CMOVG | dt_X86_INS_CMOVNO | dt_X86_INS_CMOVO
  | dt_X86_INS_CMOVB | dt_X86_INS_CMOVBE | dt_X86_INS_CMOVA | dt_X86_INS_CMOVAE
  | dt_X86_INS_CMOVL | dt_X86_INS_CMOVGE => true
  | _ => false
  end.

(** ** The scan buffer: indices of the following instructions, -1 is empty *)

Definition scan_clear (scan : list Z) : list Z :=
  if nth 0 scan (-1) =? -1 then scan else replicate INSTPTN_BUF_SIZE (-1).

Definition scan_push (scan : list Z) (pir1_index : Z) : list Z :=
  pir1_index :: take (INSTPTN_BUF_SIZE - 1) scan.

Definition reg_is_edx (r : dt_x86_reg) : bool :=
  match r with
  | dt_X86_REG_DL | dt_X86_REG_DH | dt_X86_REG_DX | dt_X86_REG_EDX | dt_X86_REG_RDX => true
  | _ => false
  end.

Definition is_contain_edx (opnd : IR1_OPND) : bool :=
  match opnd_op opnd with
  | OP_REG r => ir1_opnd_is_gpr opnd && reg_is_edx r
  | OP_MEM m => reg_is_edx (base m) || reg_is_edx (index m)
  | _ => false
  end.

(** ** Recording a match *)

(** Assignment to a field of [tb->ir1[i]]. *)
Definition upd_ir1 (tb : TranslationBlock) (i : nat) (f : IR1_INST → IR1_INST) : TranslationBlock :=
  set_ir1 tb (alter f i (ir1 tb)).

Definition set_opc (x : Z) (i : IR1_INST) : IR1_INST := set_instptn_opc i x.
Definition set_next (x : option nat) (i : IR1_INST) : IR1_INST := set_instptn_next i x.

(** [pir1->instptn.opc = opc; pir1->instptn.next = ir1; ir1->instptn.opc = NOP]. *)
Definition fuse_pair (tb : TranslationBlock) (h t : nat) (opc : Z) : TranslationBlock :=
  upd_ir1 (upd_ir1 (upd_ir1 tb h (set_opc opc)) h (set_next (Some t))) t (set_opc INSTPTN_OPC_NOP).

(** The four stores of MOVAPS_VST_X4. *)
Definition fuse_x4 (tb : TranslationBlock) (h i1 i2 i3 : nat) : TranslationBlock :=
  let tb := upd_ir1 tb h (set_opc INSTPTN_OPC_MOVAPS_VST_X4) in
  let tb := upd_ir1 tb h (set_next (Some i1)) in
  let tb := upd_ir1 tb i1 (set_opc INSTPTN_OPC_NOP_FOR_EXP) in
  let tb := upd_ir1 tb i1 (set_next (Some i2)) in
  let tb := upd_ir1 tb i2 (set_opc INSTPTN_OPC_NOP_FOR_EXP) in
  let tb := upd_ir1 tb i2 (set_next (Some i3)) in
  upd_ir1 tb i3 (set_opc INSTPTN_OPC_NOP_FOR_EXP).

(** The cases of the switches on the head opcode. *)
Inductive head_case : Set :=
  | H_CMP | H_TEST | H_CQO | H_XOR | H_CDQ | H_UCOMISD | H_MOVAPS | H_NEG | H_OTHER.

Definition head_case_of (op : dt_x86_insn) : head_case :=
  match op with
  | dt_X86_INS_CMP => H_CMP
  | dt_X86_INS_TEST => H_TEST
  | dt_X86_INS_CQO => H_CQO
  | dt_X86_INS_XOR => H_XOR
  | dt_X86_INS_CDQ => H_CDQ
  | dt_X86_INS_UCOMISD => H_UCOMISD
  | dt_X86_INS_MOVAPS | dt_X86_INS_MOVDQA => H_MOVAPS
  | dt_X86_INS_NEG => H_NEG
  | _ => H_OTHER
  end.

Inductive jcc_case : Set :=
  | J_CMP | J_TEST | J_BT | J_SUB | J_SHR | J_AND | J_COMISD | J_COMISS
  | J_UCOMISD | J_UCOMISS | J_MOV | J_PASS | J_OTHER.

Definition jcc_case_of (op : dt_x86_insn) : jcc_case :=
  match op with
  | dt_X86_INS_CMP => J_CMP
  | dt_X86_INS_TEST => J_TEST
  | dt_X86_INS_BT => J_BT
  | dt_X86_INS_SUB => J_SUB
  | dt_X86_INS_SHR => J_SHR
  | dt_X86_INS_AND => J_AND
  | dt_X86_INS_COMISD => J_COMISD
  | dt_X86_INS_COMISS => J_COMISS
  | dt_X86_INS_UCOMISD => J_UCOMISD
  | dt_X86_INS_UCOMISS => J_UCOMISS
  | dt_X86_INS_MOV => J_MOV
  | dt_X86_INS_ADDSD | dt_X86_INS_ADDSS | dt_X86_INS_LEA | dt_X86_INS_MOVAPD
  | dt_X86_INS_MOVHPS | dt_X86_INS_MOVLPS | dt_X86_INS_MOVSD | dt_X86_INS_MOVSS
  | dt_X86_INS_MOVSX | dt_X86_INS_MOVSXD | dt_X86_INS_MOVZX | dt_X86_INS_MULPS
  | dt_X86_INS_MULSD | dt_X86_INS_MULSS | dt_X86_INS_NOP | dt_X86_INS_PSHUFD
  | dt_X86_INS_PUNPCKLWD | dt_X86_INS_PUSH => J_PASS
  | _ => J_OTHER
  end.

(** The two groups of opcodes a TEST is fused with. *)
Definition test_tail_same (op : dt_x86_insn) : bool :=
  match op with
  | dt_X86_INS_SETS | dt_X86_INS_SETNS | dt_X86_INS_SETLE | dt_X86_INS_SETG
  | dt_X86_INS_CMOVS | dt_X86_INS_CMOVNS | dt_X86_INS_CMOVLE | dt_X86_INS_CMOVG => true
  | _ => false
  end.

Definition test_tail (op : dt_x86_insn) : bool :=
  match op with
  | dt_X86_INS_SETE | dt_X86_INS_SETNE | dt_X86_INS_SETNO | dt_X86_INS_SETO
  | dt_X86_INS_SETB | dt_X86_INS_SETBE | dt_X86_INS_SETA | dt_X86_INS_SETAE
  | dt_X86_INS_CMOVE | dt_X86_INS_CMOVNE | dt_X86_INS_CMOVNO | dt_X86_INS_CMOVO
  | dt_X86_INS_CMOVB | dt_X86_INS_CMOVBE | dt_X86_INS_CMOVA | dt_X86_INS_CMOVAE => true
  | _ => false
  end.

Section pattern.
  (** [option_instptn], and [tb_use_smc_opt(lsenv->tr_data->curr_tb)]. *)
  Context (option_instptn : Z) (curr_tb_smc : bool).

(** INSTPTN_CHECK_XX_0. *)
Definition instptn_check (opc : Z) : bool := negb ((option_instptn .& (opc >> 4)) =? 0).

Definition pair_if (c : bool) (tb : TranslationBlock) (h : nat) (s0 opc : Z) :
    option (TranslationBlock * bool) :=
  if c then Some (fuse_pair tb h (Z.to_nat s0) opc, true) else Some (tb, false).

Definition cmp_tail (op : dt_x86_insn) : bool :=
  match op with
  | dt_X86_INS_SETB | dt_X86_INS_SETAE | dt_X86_INS_SETE | dt_X86_INS_SETNE
  | dt_X86_INS_SETBE | dt_X86_INS_SETA | dt_X86_INS_SETL | dt_X86_INS_SETGE
  | dt_X86_INS_SETLE | dt_X86_INS_SETG
  | dt_X86_INS_CMOVB | dt_X86_INS_CMOVAE | dt_X86_INS_CMOVE | dt_X86_INS_CMOVNE
  | dt_X86_INS_CMOVBE | dt_X86_INS_CMOVA | dt_X86_INS_CMOVL | dt_X86_INS_CMOVGE
  | dt_X86_INS_CMOVLE | dt_X86_INS_CMOVG => true
  | _ => false
  end.

Definition inst_pattern_cmp (tb : TranslationBlock) (h : nat) (s0 : Z) :
    option (TranslationBlock * bool) :=
  if s0 =? -1 then Some (tb, false) else
  ir1 ← aget (ir1 tb) s0;
  if insn_eqb (ir1_opcode ir1) dt_X86_INS_SBB then
    if negb (instptn_check INSTPTN_OPC_CMP_SBB) then Some (tb, false) else
    opnd0 ← ir1_get_opnd ir1 0;
    opnd1 ← ir1_get_opnd ir1 1;
    pair_if (ir1_opnd_is_same_reg opnd0 opnd1) tb h s0 INSTPTN_OPC_CMP_SBB
  else if negb (instptn_check INSTPTN_OPC_CMP_XXCC) then Some (tb, false)
  else pair_if (cmp_tail (ir1_opcode ir1)) tb h s0 INSTPTN_OPC_CMP_XXCC.

(** The first group needs a comparison of a register with itself; a mismatch
    returns 1 without recording anything. *)
Definition inst_pattern_test (tb : TranslationBlock) (h : nat) (s0 : Z) :
    option (TranslationBlock * bool) :=
  if s0 =? -1 then Some (tb, false) else
  if negb (instptn_check INSTPTN_OPC_TEST_XXCC) then Some (tb, false) else
  ir1 ← aget (ir1 tb) s0;
  if test_tail_same (ir1_opcode ir1) then
    pir1 ← tb_ir1_inst tb h;
    opnd0 ← ir1_get_opnd pir1 0;
    opnd1 ← ir1_get_opnd pir1 1;
    if negb (ir1_opnd_is_same_reg opnd0 opnd1) then Some (tb, true)
    else pair_if true tb h s0 INSTPTN_OPC_TEST_XXCC
  else pair_if (test_tail (ir1_opcode ir1)) tb h s0 INSTPTN_OPC_TEST_XXCC.

(** CQO (64 bits) and CDQ (32 bits) before IDIV by a register other than rdx. *)
Definition inst_pattern_idiv (size opc : Z) (tb : TranslationBlock) (h : nat) (s0 : Z) :
    option (TranslationBlock * bool) :=
  if s0 =? -1 then Some (tb, false) else
  if negb (instptn_check opc) then Some (tb, false) else
  ir1 ← aget (ir1 tb) s0;
  if insn_eqb (ir1_opcode ir1) dt_X86_INS_IDIV then
    opnd0 ← ir1_get_opnd ir1 0;
    pair_if (ir1_opnd_is_gpr opnd0 && (ir1_opnd_size opnd0 =? size) &&
             negb (is_contain_edx opnd0)) tb h s0 opc
  else Some (tb, false).

Definition opnd_is_reg (o : IR1_OPND) (r : dt_x86_reg) : bool :=
  match opnd_op o with OP_REG r' => reg_eqb r' r | _ => false end.

Definition inst_pattern_xor (tb : TranslationBlock) (h : nat) (s0 : Z) :
    option (TranslationBlock * bool) :=
  if s0 =? -1 then Some (tb, false) else
  if negb (instptn_check INSTPTN_OPC_XOR_DIV) then Some (tb, false) else
  pir1 ← tb_ir1_inst tb h;
  opnd0 ← ir1_get_opnd pir1 0;
  opnd1 ← ir1_get_opnd pir1 1;
  ir1 ← aget (ir1 tb) s0;
  if insn_eqb (ir1_opcode ir1) dt_X86_INS_DIV then
    let div_by size :=
      d ← ir1_get_opnd ir1 0;
      pair_if ((ir1_opnd_size d =? size) && ir1_opnd_is_gpr d &&
               negb (is_contain_edx opnd0)) tb h s0 INSTPTN_OPC_XOR_DIV in
    if negb (ir1_opnd_is_gpr opnd0 && ir1_opnd_is_gpr opnd1) then Some (tb, false)
    else if opnd_is_reg opnd0 dt_X86_REG_EDX && opnd_is_reg opnd1 dt_X86_REG_EDX then div_by 32
    else if opnd_is_reg opnd0 dt_X86_REG_RDX && opnd_is_reg opnd1 dt_X86_REG_RDX then div_by 64
    else Some (tb, false)
  else Some (tb, false).

(** UCOMISD before SETA, NEG before CMOVS/CMOVNS. *)
Definition inst_pattern_tail (opc : Z) (tail : dt_x86_insn → bool) (tb : TranslationBlock)
    (h : nat) (s0 : Z) : option (TranslationBlock * bool) :=
  if s0 =? -1 then Some (tb, false) else
  if negb (instptn_check opc) then Some (tb, false) else
  ir1 ← aget (ir1 tb) s0;
  pair_if (tail (ir1_opcode ir1)) tb h s0 opc.

Definition is_movaps (tb : TranslationBlock) (i : Z) : option bool :=
  ir1 ← aget (ir1 tb) i; Some (insn_eqb (ir1_opcode ir1) dt_X86_INS_MOVAPS).

Definition inst_pattern_movaps (tb : TranslationBlock) (h : nat) (s0 s1 s2 : Z) :
    option (TranslationBlock * bool) :=
  if s0 =? -1 then Some (tb, false) else
  if negb (instptn_check INSTPTN_OPC_MOVAPS_VST_X4) then Some (tb, false) else
  if negb (tb_use_smc_opt tb) then Some (tb, false) else
  if (0 <=? s0) && (0 <=? s1) && (0 <=? s2) then
    m1 ← is_movaps tb s0;
    m2 ← is_movaps tb s1;
    m3 ← is_movaps tb s2;
    if (m1 : bool) && (m2 : bool) && (m3 : bool) then
      Some (fuse_x4 tb h (Z.to_nat s0) (Z.to_nat s1) (Z.to_nat s2), true)
    else Some (tb, false)
  else Some (tb, false).

(** [inst_pattern(tb, pir1, scan)] for the head at index [h]. *)
Definition inst_pattern (tb : TranslationBlock) (h : nat) (scan : list Z) :
    option (TranslationBlock * bool) :=
  pir1 ← tb_ir1_inst tb h;
  let s0 := nth 0 scan (-1) in
  match head_case_of (ir1_opcode pir1) with
  | H_CMP => inst_pattern_cmp tb h s0
  | H_TEST => inst_pattern_test tb h s0
  | H_CQO => inst_pattern_idiv 64 INSTPTN_OPC_CQO_IDIV tb h s0
  | H_XOR => inst_pattern_xor tb h s0
  | H_CDQ => inst_pattern_idiv 32 INSTPTN_OPC_CDQ_IDIV tb h s0
  | H_UCOMISD =>
      inst_pattern_tail INSTPTN_OPC_UCOMISD_SETA
        (λ op, insn_eqb op dt_X86_INS_SETA) tb h s0
  | H_MOVAPS =>
      inst_pattern_movaps tb h s0 (nth 1 scan (-1)) (nth 2 scan (-1))
  | H_NEG =>
      inst_pattern_tail INSTPTN_OPC_NEG_CMOVCC
        (λ op, insn_eqb op dt_X86_INS_CMOVS || insn_eqb op dt_X86_INS_CMOVNS) tb h s0
  | H_OTHER => Some (tb, false)
  end.

Definition insts_pattern_scan_con (tb : TranslationBlock) (h : nat) (scan_buf : list Z) :
    option (TranslationBlock * list Z) :=
  ir1 ← tb_ir1_inst tb h;
  if negb (ir1_can_pattern ir1) then Some (tb, scan_clear scan_buf)
  else if negb (ir1_is_pattern_head ir1) then Some (tb, scan_push scan_buf (Z.of_nat h))
  else
    '(tb', found) ← inst_pattern tb h scan_buf;
    if (found : bool) then Some (tb', scan_clear scan_buf)
    else Some (tb', scan_push scan_buf (Z.of_nat h)).

(** ** The conditional jump at the end of the block *)

Definition jcc_at_end (op : dt_x86_insn) : bool :=
  match op with
  | dt_X86_INS_JA | dt_X86_INS_JAE | dt_X86_INS_JB | dt_X86_INS_JE | dt_X86_INS_JNE
  | dt_X86_INS_JBE | dt_X86_INS_JL | dt_X86_INS_JGE | dt_X86_INS_JLE | dt_X86_INS_JG
  | dt_X86_INS_JNO | dt_X86_INS_JO | dt_X86_INS_JS | dt_X86_INS_JNS => true
  | _ => false
  end.

(** The ten conditions a comparison is fused with. *)
Definition jcc_cmp (op : dt_x86_insn) : bool :=
  match op with
  | dt_X86_INS_JB | dt_X86_INS_JAE | dt_X86_INS_JE | dt_X86_INS_JNE | dt_X86_INS_JBE
  | dt_X86_INS_JA | dt_X86_INS_JL | dt_X86_INS_JGE | dt_X86_INS_JLE | dt_X86_INS_JG => true
  | _ => false
  end.

Definition jcc_test_same (op : dt_x86_insn) : bool :=
  match op with
  | dt_X86_INS_JS | dt_X86_INS_JNS | dt_X86_INS_JLE | dt_X86_INS_JG => true
  | _ => false
  end.

Definition jcc_test (op : dt_x86_insn) : bool :=
  match op with
  | dt_X86_INS_JE | dt_X86_INS_JNE | dt_X86_INS_JNO | dt_X86_INS_JO
  | dt_X86_INS_JB | dt_X86_INS_JBE | dt_X86_INS_JA | dt_X86_INS_JAE => true
  | _ => false
  end.

(** The jump directly follows ([opc] and NOP), or other instructions are in
    between ([xx] on both, each pointing to the other).  The UCOMISS case also
    clears the jump's [next]. *)
Definition fuse_jcc (tb : TranslationBlock) (h : nat) (s0 opc : Z) (xx : option Z)
    (clear : bool) : TranslationBlock :=
  let j := Z.to_nat s0 in
  if Z.of_nat h + 1 =? s0 then
    if negb (instptn_check opc) then tb else
    let tb := fuse_pair tb h j opc in
    if clear then upd_ir1 tb j (set_next None) else tb
  else
    match xx with
    | None => tb
    | Some xx =>
        if negb (instptn_check xx) then tb else
        let tb := upd_ir1 tb h (set_opc xx) in
        let tb := upd_ir1 tb h (set_next (Some j)) in
        let tb := upd_ir1 tb j (set_opc xx) in
        let tb := upd_ir1 tb j (set_next (Some h)) in
        set_has_jcc_end_ptn tb true
    end.

(** The floating point compares (CONFIG_LATX_XCOMISX_OPT): the code of the
    adjacent and of the distant pattern; UCOMISS also clears the jump's [next]. *)
Definition xcomisx_codes (c : jcc_case) : Z * Z * bool :=
  match c with
  | J_COMISD => (INSTPTN_OPC_COMISD_JCC, INSTPTN_OPC_COMISD_XX_JCC, false)
  | J_COMISS => (INSTPTN_OPC_COMISS_JCC, INSTPTN_OPC_COMISS_XX_JCC, false)
  | J_UCOMISD => (INSTPTN_OPC_UCOMISD_JCC, INSTPTN_OPC_UCOMISD_XX_JCC, false)
  | _ => (INSTPTN_OPC_UCOMISS_JCC, INSTPTN_OPC_UCOMISS_XX_JCC, true)
  end.

(** [insts_pattern_scan_jcc_end]: the new block, the new buffer and the result,
    which says whether to keep scanning. *)
Definition insts_pattern_scan_jcc_end (tb : TranslationBlock) (h : nat) (scan : list Z) :
    option (TranslationBlock * list Z * bool) :=
  pir1 ← tb_ir1_inst tb h;
  if (S h =? tb_ir1_num tb)%nat then
    if (h =? 0)%nat then Some (tb, scan, false)
    else if jcc_at_end (ir1_opcode pir1) then Some (tb, <[0%nat := Z.of_nat h]> scan, true)
    else Some (tb, scan, false)
  else
  let s0 := nth 0 scan (-1) in
  let stop := Some (tb, scan, false) in
  let with_jcc (k : dt_x86_insn → option (TranslationBlock * list Z * bool)) :=
    if s0 =? -1 then stop else ir1_jcc ← aget (ir1 tb) s0; k (ir1_opcode ir1_jcc) in
  let fuse opc xx clear := Some (fuse_jcc tb h s0 opc xx clear, scan, false) in
  match jcc_case_of (ir1_opcode pir1) with
  | J_CMP => with_jcc (λ j,
      if jcc_cmp j then fuse INSTPTN_OPC_CMP_JCC (Some INSTPTN_OPC_CMP_XX_JCC) false else stop)
  | J_TEST => with_jcc (λ j,
      let go := fuse INSTPTN_OPC_TEST_JCC (Some INSTPTN_OPC_TEST_XX_JCC) false in
      if jcc_test_same j then
        opnd0 ← ir1_get_opnd pir1 0;
        opnd1 ← ir1_get_opnd pir1 1;
        if negb (ir1_opnd_is_same_reg opnd0 opnd1) then stop else go
      else if jcc_test j then go else stop)
  | J_BT =>
      if s0 =? -1 then stop else
      opnd0 ← ir1_get_opnd pir1 0;
      if negb (ir1_opnd_is_gpr opnd0) then stop else
      with_jcc (λ j,
        if insn_eqb j dt_X86_INS_JB || insn_eqb j dt_X86_INS_JAE then
          fuse INSTPTN_OPC_BT_JCC (Some INSTPTN_OPC_BT_XX_JCC) false
        else stop)
  | J_SUB => with_jcc (λ j,
      if jcc_cmp j then fuse INSTPTN_OPC_SUB_JCC None false else stop)
  | J_SHR => with_jcc (λ j,
      opnd1 ← ir1_get_opnd pir1 1;
      if negb (ir1_opnd_is_imm opnd1) then stop else
      if insn_eqb j dt_X86_INS_JNE then fuse INSTPTN_OPC_SHR_JCC None false else stop)
  | J_AND => with_jcc (λ j,
      if insn_eqb j dt_X86_INS_JNE then fuse INSTPTN_OPC_AND_JCC None false else stop)
  | J_COMISD | J_COMISS | J_UCOMISD | J_UCOMISS =>
      let '(opc, xx, clear) := xcomisx_codes (jcc_case_of (ir1_opcode pir1)) in
      with_jcc (λ j, if jcc_cmp j then fuse opc (Some xx) clear else stop)
  | J_MOV =>
      opnd0 ← ir1_get_opnd pir1 0;
      opnd1 ← ir1_get_opnd pir1 1;
      if ir1_opnd_is_mem opnd0 && ir1_opnd_is_gpr opnd1 && negb (ir1_opnd_is_8h opnd1) &&
         curr_tb_smc
      then stop else Some (tb, scan, true)
  | J_PASS => Some (tb, scan, true)
  | J_OTHER => stop
  end.

(** ** OPT_INSTS_PTN *)

(** The locals DEF_INSTS_PTN declares. *)
Record ptn_locals := mkPtn {
  ptn_scaned_cond : list Z;
  ptn_scaned_jcc_end : list Z;
  scan_head : bool
}.

Definition DEF_INSTS_PTN : ptn_locals :=
  mkPtn (replicate INSTPTN_BUF_SIZE (-1)) [-1] true.

Definition OPT_INSTS_PTN (tb : TranslationBlock) (h : nat) (p : ptn_locals) :
    option (TranslationBlock * ptn_locals) :=
  if option_instptn =? 0 then Some (tb, p) else
  '(tb, sc) ← insts_pattern_scan_con tb h (ptn_scaned_cond p);
  if scan_head p then
    '(tb, sj, hd) ← insts_pattern_scan_jcc_end tb h (ptn_scaned_jcc_end p);
    Some (tb, mkPtn sc sj hd)
  else Some (tb, mkPtn sc (ptn_scaned_jcc_end p) false).

(** The reverse scan of a block, from index [n - 1] down to 0. *)
Fixpoint scan_block (n : nat) (tb : TranslationBlock) (p : ptn_locals) : option TranslationBlock :=
  match n with
  | O => Some tb
  | S h => '(tb, p) ← OPT_INSTS_PTN tb h p; scan_block h tb p
  end.

End pattern.

(** * Theorems *)

(** ** Frame: the scanners only write [instptn] *)

(** Everything of an instruction except [instptn]. *)
Definition core (i : IR1_INST) : IR1_INST := set_opc 0 (set_next None i).

Definition same_cores (tb tb' : TranslationBlock) : Prop := core <$> ir1 tb' = core <$> ir1 tb.

Global Instance same_cores_refl : Reflexive same_cores.
Proof. done. Qed.
Global Instance same_cores_trans : Transitive same_cores.
Proof. intros a b c. unfold same_cores. congruence. Qed.

Lemma upd_ir1_cores tb k f :
  (∀ i, core (f i) = core i) → same_cores tb (upd_ir1 tb k f).
Proof.
  intros Hf. unfold same_cores, upd_ir1. simpl. apply list_eq. intros j.
  rewrite !list_lookup_fmap. destruct (decide (j = k)) as [->|Hne].
  - rewrite list_lookup_alter_eq. destruct (ir1 tb !! k) as [i|]; simpl; [by rewrite Hf|done].
  - by rewrite list_lookup_alter_ne.
Qed.

Lemma upd_opc_cores tb k x : same_cores tb (upd_ir1 tb k (set_opc x)).
Proof. by apply upd_ir1_cores. Qed.
Lemma upd_next_cores tb k x : same_cores tb (upd_ir1 tb k (set_next x)).
Proof. by apply upd_ir1_cores. Qed.

#[export] Hint Resolve upd_opc_cores upd_next_cores : ir1.
#[export] Hint Extern 1 (same_cores ?a ?a) => reflexivity : ir1.

(** Chain the frame facts of a sequence of updates. *)
Ltac cores_chain :=
  repeat first
    [ reflexivity
    | match goal with
      | |- same_cores ?tb (upd_ir1 ?t ?k (set_opc ?x)) =>
          transitivity t; [|apply upd_opc_cores]
      | |- same_cores ?tb (upd_ir1 ?t ?k (set_next ?x)) =>
          transitivity t; [|apply upd_next_cores]
      end ].

Lemma fuse_pair_cores tb h t opc : same_cores tb (fuse_pair tb h t opc).
Proof. unfold fuse_pair. cores_chain. Qed.

Lemma fuse_x4_cores tb h i1 i2 i3 : same_cores tb (fuse_x4 tb h i1 i2 i3).
Proof. unfold fuse_x4. cores_chain. Qed.

Lemma fuse_jcc_cores opt tb h s0 opc xx c : same_cores tb (fuse_jcc opt tb h s0 opc xx c).
Proof.
  unfold fuse_jcc. repeat case_match; try reflexivity.
  - etrans; [apply fuse_pair_cores|apply upd_next_cores].
  - apply fuse_pair_cores.
  - etrans; [|reflexivity]. unfold same_cores. simpl.
    change (same_cores tb (upd_ir1 (upd_ir1 (upd_ir1 (upd_ir1 tb h (set_opc z)) h
      (set_next (Some (Z.to_nat s0)))) (Z.to_nat s0) (set_opc z)) (Z.to_nat s0)
      (set_next (Some h)))). cores_chain.
Qed.

Lemma pair_if_cores c tb h s0 opc tb' r :
  pair_if c tb h s0 opc = Some (tb', r) → same_cores tb tb'.
Proof. unfold pair_if. case_match; intros [= <- _]; [apply fuse_pair_cores|done]. Qed.

Lemma inst_pattern_cores opt tb h scan tb' r :
  inst_pattern opt tb h scan = Some (tb', r) → same_cores tb tb'.
Proof.
  unfold inst_pattern, inst_pattern_cmp, inst_pattern_test, inst_pattern_idiv,
    inst_pattern_xor, inst_pattern_tail, inst_pattern_movaps.
  destruct (tb_ir1_inst tb h) as [i|]; [|done]. simpl.
  destruct (head_case_of (ir1_opcode i)); intros H; simplify_eq; try reflexivity;
    repeat first [ progress simplify_option_eq | case_match ]; try reflexivity;
    try (by eapply pair_if_cores); first [apply fuse_pair_cores|apply fuse_x4_cores].
Qed.

(** ** The matches are consistent *)

(** What is recorded at index [k]. *)
Definition ptn_at (tb : TranslationBlock) (k : nat) : option (Z * option nat) :=
  (λ i, (instptn_opc i, instptn_next i)) <$> ir1 tb !! k.

(** Codes of two adjacent instructions, and of a comparison fused with a jump
    further on. *)
Definition fused_opc (opc : Z) : bool :=
  bool_decide (opc ∈
    [INSTPTN_OPC_CMP_JCC; INSTPTN_OPC_TEST_JCC; INSTPTN_OPC_BT_JCC; INSTPTN_OPC_CQO_IDIV;
     INSTPTN_OPC_CMP_SBB; INSTPTN_OPC_COMISD_JCC; INSTPTN_OPC_COMISS_JCC;
     INSTPTN_OPC_UCOMISD_JCC; INSTPTN_OPC_UCOMISS_JCC; INSTPTN_OPC_XOR_DIV;
     INSTPTN_OPC_CDQ_IDIV; INSTPTN_OPC_CMP_XXCC; INSTPTN_OPC_TEST_XXCC;
     INSTPTN_OPC_UCOMISD_SETA; INSTPTN_OPC_SUB_JCC; INSTPTN_OPC_NEG_CMOVCC;
     INSTPTN_OPC_SHR_JCC; INSTPTN_OPC_AND_JCC]).
Definition xx_opc (opc : Z) : bool :=
  bool_decide (opc ∈
    [INSTPTN_OPC_CMP_XX_JCC; INSTPTN_OPC_TEST_XX_JCC; INSTPTN_OPC_BT_XX_JCC;
     INSTPTN_OPC_COMISD_XX_JCC; INSTPTN_OPC_COMISS_XX_JCC; INSTPTN_OPC_UCOMISD_XX_JCC;
     INSTPTN_OPC_UCOMISS_XX_JCC]).

(** The record at [k] is consistent with those of its partners: an instruction
    that is to be skipped is covered by the fused one before it, a fused head is
    followed by its skipped tail, the two ends of a distant pair point to each
    other, and four stores stand together. *)
Definition ptn_ok (P : nat → option (Z * option nat)) (k : nat) : Prop :=
  ∀ o nx, P k = Some (o, nx) →
    (o = INSTPTN_OPC_NOP → ∃ h o', k = S h ∧ P h = Some (o', Some k) ∧ fused_opc o' = true) ∧
    (fused_opc o = true → nx = Some (S k) ∧ ∃ nx', P (S k) = Some (INSTPTN_OPC_NOP, nx')) ∧
    (xx_opc o = true → ∃ j, nx = Some j ∧ P j = Some (o, Some k)) ∧
    (o = INSTPTN_OPC_MOVAPS_VST_X4 →
       nx = Some (k + 1)%nat ∧ P (k + 1)%nat = Some (INSTPTN_OPC_NOP_FOR_EXP, Some (k + 2)%nat) ∧
       P (k + 2)%nat = Some (INSTPTN_OPC_NOP_FOR_EXP, Some (k + 3)%nat) ∧
       ∃ nx', P (k + 3)%nat = Some (INSTPTN_OPC_NOP_FOR_EXP, nx')) ∧
    (o = INSTPTN_OPC_NOP_FOR_EXP →
       ∃ h nx', (h < k ≤ h + 3)%nat ∧ P h = Some (INSTPTN_OPC_MOVAPS_VST_X4, nx')).

(** Recording a match over unmarked entries keeps the others consistent. *)
Lemma ptn_ok_update (P Q : nat → option (Z * option nat)) (D : nat → Prop) k :
  (∀ j, ¬ D j → Q j = P j) →
  (∀ j o nx, D j → P j = Some (o, nx) → o = INSTPTN_OPC_NONE) →
  ¬ D k → ptn_ok P k → ptn_ok Q k.
Proof.
  intros Hout Hin Hk HP o nx Ho. rewrite Hout in Ho by done.
  assert (∀ j o' nx', P j = Some (o', nx') → o' ≠ INSTPTN_OPC_NONE → Q j = P j) as Hkeep.
  { intros j o' nx' Hj Hne. apply Hout. intros Hd. by apply Hne, (Hin j o' nx'). }
  assert (∀ x, fused_opc x = true → x ≠ INSTPTN_OPC_NONE) as Hfn by (by intros x Hx ->).
  assert (∀ x, xx_opc x = true → x ≠ INSTPTN_OPC_NONE) as Hxn by (by intros x Hx ->).
  destruct (HP o nx Ho) as (H1 & H2 & H3 & H4 & H5). split_and!.
  - intros Hn. destruct (H1 Hn) as (h & o' & -> & Hp & Hf).
    exists h, o'. rewrite (Hkeep h o' _ Hp) by auto. done.
  - intros Hf. destruct (H2 Hf) as (-> & nx' & Hp). split; [done|]. exists nx'.
    by rewrite (Hkeep _ _ _ Hp).
  - intros Hx. destruct (H3 Hx) as (j & -> & Hp). exists j. split; [done|].
    rewrite (Hkeep _ _ _ Hp) by auto. done.
  - intros Hx. destruct (H4 Hx) as (-> & P1 & P2 & nx' & P3).
    rewrite (Hkeep _ _ _ P1), (Hkeep _ _ _ P2), (Hkeep _ _ _ P3) by done. eauto.
  - intros Hx. destruct (H5 Hx) as (h & nx' & Hr & Hp). exists h, nx'.
    by rewrite (Hkeep _ _ _ Hp).
Qed.

Lemma ptn_at_opc tb j x k :
  ptn_at (upd_ir1 tb j (set_opc x)) k =
    if decide (k = j) then (λ p, (x, snd p)) <$> ptn_at tb k else ptn_at tb k.
Proof.
  unfold ptn_at, upd_ir1. simpl. case_decide as Hk; [subst|].
  - rewrite list_lookup_alter_eq. by destruct (ir1 tb !! j).
  - by rewrite list_lookup_alter_ne.
Qed.

Lemma ptn_at_next tb j x k :
  ptn_at (upd_ir1 tb j (set_next x)) k =
    if decide (k = j) then (λ p, (fst p, x)) <$> ptn_at tb k else ptn_at tb k.
Proof.
  unfold ptn_at, upd_ir1. simpl. case_decide as Hk; [subst|].
  - rewrite list_lookup_alter_eq. by destruct (ir1 tb !! j).
  - by rewrite list_lookup_alter_ne.
Qed.

Lemma fused_opc_excl x :
  fused_opc x = true →
  x ≠ INSTPTN_OPC_NONE ∧ x ≠ INSTPTN_OPC_NOP ∧ xx_opc x = false ∧
  x ≠ INSTPTN_OPC_MOVAPS_VST_X4 ∧ x ≠ INSTPTN_OPC_NOP_FOR_EXP.
Proof.
  unfold fused_opc. rewrite bool_decide_eq_true, list_elem_of_In. simpl.
  intros H. repeat (destruct H as [H|H]; [subst x; by split_and!|]). done.
Qed.

Lemma xx_opc_excl x :
  xx_opc x = true →
  x ≠ INSTPTN_OPC_NONE ∧ x ≠ INSTPTN_OPC_NOP ∧ fused_opc x = false ∧
  x ≠ INSTPTN_OPC_MOVAPS_VST_X4 ∧ x ≠ INSTPTN_OPC_NOP_FOR_EXP.
Proof.
  unfold xx_opc. rewrite bool_decide_eq_true, list_elem_of_In. simpl.
  intros H. repeat (destruct H as [H|H]; [subst x; by split_and!|]). done.
Qed.

(** Index [k] of the block exists and holds what [ir1_disasm] puts there. *)
Definition unmarked (tb : TranslationBlock) (k : nat) : Prop :=
  ptn_at tb k = Some (INSTPTN_OPC_NONE, None).

Definition all_ok (tb : TranslationBlock) : Prop := ∀ k, ptn_ok (ptn_at tb) k.

Lemma unmarked_in (tb : TranslationBlock) (D : nat → Prop) :
  (∀ j, D j → unmarked tb j) →
  ∀ j o nx, D j → ptn_at tb j = Some (o, nx) → o = INSTPTN_OPC_NONE.
Proof. intros H j o nx Hd Hp. rewrite (H j Hd) in Hp. congruence. Qed.

Lemma ptn_at_fuse_pair tb h t opc k :
  h ≠ t →
  ptn_at (fuse_pair tb h t opc) k =
    if decide (k = t) then (λ p, (INSTPTN_OPC_NOP, snd p)) <$> ptn_at tb k
    else if decide (k = h) then (λ _, (opc, Some t)) <$> ptn_at tb k else ptn_at tb k.
Proof.
  intros Hne. unfold fuse_pair. rewrite ptn_at_opc, ptn_at_next, ptn_at_opc.
  destruct (decide (k = t)), (decide (k = h)); subst; try done. by destruct (ptn_at tb h).
Qed.

Lemma fuse_pair_ok tb h opc :
  fused_opc opc = true → unmarked tb h → unmarked tb (S h) →
  all_ok tb → all_ok (fuse_pair tb h (S h) opc).
Proof.
  intros Hf Hh Ht Hok k. unfold unmarked in Hh, Ht.
  pose proof (fused_opc_excl opc Hf) as (? & ? & Hx & ? & ?).
  pose proof (λ j, ptn_at_fuse_pair tb h (S h) opc j ltac:(lia)) as Hat.
  destruct (decide (k = h ∨ k = S h)) as [Hk|Hk].
  - destruct Hk as [-> | ->]; intros o nx; rewrite Hat;
      repeat first [rewrite decide_True by done | rewrite decide_False by lia].
    + rewrite Hh. simpl. intros [= <- <-]. split_and!; try congruence. intros _.
      split; [done|]. eexists. rewrite Hat, decide_True by done. by rewrite Ht.
    + rewrite Ht. simpl. intros [= <- <-]. split_and!; try done. intros _.
      exists h, opc. split_and!; [done| |done].
      rewrite Hat, decide_False, decide_True by (done || lia). by rewrite Hh.
  - apply (ptn_ok_update (ptn_at tb) _ (λ j, j = h ∨ j = S h)); [| |done|apply Hok].
    + intros j Hj. rewrite Hat, !decide_False by tauto. done.
    + apply unmarked_in. by intros j [-> | ->].
Qed.

(** The two ends of a distant pair. *)
Definition fuse_far (tb : TranslationBlock) (h j : nat) (xx : Z) : TranslationBlock :=
  upd_ir1 (upd_ir1 (upd_ir1 (upd_ir1 tb h (set_opc xx)) h (set_next (Some j)))
    j (set_opc xx)) j (set_next (Some h)).

Lemma ptn_at_fuse_far tb h j xx k :
  h ≠ j →
  ptn_at (fuse_far tb h j xx) k =
    if decide (k = j) then (λ _, (xx, Some h)) <$> ptn_at tb k
    else if decide (k = h) then (λ _, (xx, Some j)) <$> ptn_at tb k else ptn_at tb k.
Proof.
  intros Hne. unfold fuse_far. rewrite ptn_at_next, ptn_at_opc, ptn_at_next, ptn_at_opc.
  destruct (decide (k = j)), (decide (k = h)); subst; try done; by destruct (ptn_at tb _).
Qed.

Lemma fuse_far_ok tb h j xx :
  xx_opc xx = true → h ≠ j → unmarked tb h → unmarked tb j →
  all_ok tb → all_ok (fuse_far tb h j xx).
Proof.
  intros Hf Hne Hh Hj Hok k. unfold unmarked in Hh, Hj.
  pose proof (xx_opc_excl xx Hf) as (? & ? & Hx & ? & ?).
  pose proof (λ i, ptn_at_fuse_far tb h j xx i Hne) as Hat.
  destruct (decide (k = h ∨ k = j)) as [Hk|Hk].
  - destruct Hk as [-> | ->]; intros o nx; rewrite Hat;
      repeat first [rewrite decide_True by done | rewrite decide_False by done].
    + rewrite Hh. simpl. intros [= <- <-]. split_and!; try congruence. intros _.
      exists j. split; [done|]. rewrite Hat, decide_True by done. by rewrite Hj.
    + rewrite Hj. simpl. intros [= <- <-]. split_and!; try congruence. intros _.
      exists h. split; [done|]. rewrite Hat, decide_False, decide_True by done. by rewrite Hh.
  - apply (ptn_ok_update (ptn_at tb) _ (λ i, i = h ∨ i = j)); [| |done|apply Hok].
    + intros i Hi. rewrite Hat, !decide_False by tauto. done.
    + apply unmarked_in. by intros i [-> | ->].
Qed.

Lemma ptn_at_fuse_x4 tb h k :
  ptn_at (fuse_x4 tb h (h + 1) (h + 2) (h + 3)) k =
    if decide (k = h) then
      (λ _, (INSTPTN_OPC_MOVAPS_VST_X4, Some (h + 1)%nat)) <$> ptn_at tb k
    else if decide (k = h + 1)%nat then
      (λ _, (INSTPTN_OPC_NOP_FOR_EXP, Some (h + 2)%nat)) <$> ptn_at tb k
    else if decide (k = h + 2)%nat then
      (λ _, (INSTPTN_OPC_NOP_FOR_EXP, Some (h + 3)%nat)) <$> ptn_at tb k
    else if decide (k = h + 3)%nat then
      (λ p, (INSTPTN_OPC_NOP_FOR_EXP, snd p)) <$> ptn_at tb k
    else ptn_at tb k.
Proof.
  unfold fuse_x4.
  rewrite ptn_at_opc, ptn_at_next, ptn_at_opc, ptn_at_next, ptn_at_opc, ptn_at_next, ptn_at_opc.
  destruct (ptn_at tb k); repeat case_decide; try lia; done.
Qed.

Lemma fuse_x4_ok tb h :
  unmarked tb h → unmarked tb (h + 1) → unmarked tb (h + 2) → unmarked tb (h + 3) →
  all_ok tb → all_ok (fuse_x4 tb h (h + 1) (h + 2) (h + 3)).
Proof.
  intros H0 H1 H2 H3 Hok k. unfold unmarked in H0, H1, H2, H3.
  pose proof (ptn_at_fuse_x4 tb h) as Hat.
  set (tb' := fuse_x4 _ _ _ _ _) in *.
  assert (ptn_at tb' h = Some (INSTPTN_OPC_MOVAPS_VST_X4, Some (h + 1)%nat)) as A0
    by (rewrite Hat, H0; repeat (case_decide; try lia); done).
  assert (ptn_at tb' (h + 1) = Some (INSTPTN_OPC_NOP_FOR_EXP, Some (h + 2)%nat)) as A1
    by (rewrite Hat, H1; repeat (case_decide; try lia); done).
  assert (ptn_at tb' (h + 2) = Some (INSTPTN_OPC_NOP_FOR_EXP, Some (h + 3)%nat)) as A2
    by (rewrite Hat, H2; repeat (case_decide; try lia); done).
  assert (ptn_at tb' (h + 3) = Some (INSTPTN_OPC_NOP_FOR_EXP, None)) as A3
    by (rewrite Hat, H3; repeat (case_decide; try lia); done).
  destruct (decide (h ≤ k ≤ h + 3)%nat) as [Hk|Hk].
  - assert (k = h ∨ k = h + 1 ∨ k = h + 2 ∨ k = h + 3)%nat as Hk' by lia.
    destruct Hk' as [-> | [-> | [-> | ->]]]; intros o nx Ho;
      [rewrite A0 in Ho | rewrite A1 in Ho | rewrite A2 in Ho | rewrite A3 in Ho];
      injection Ho as <- <-; split_and!; try done; intros _;
      try (exists h; eexists; split; [lia|exact A0]).
    split_and!; [done..|]. eauto.
  - apply (ptn_ok_update (ptn_at tb) _ (λ i, h ≤ i ≤ h + 3)%nat); [| |done|apply Hok].
    + intros i Hi. rewrite Hat, !decide_False by lia. done.
    + apply unmarked_in. intros i Hi.
      assert (i = h ∨ i = h + 1 ∨ i = h + 2 ∨ i = h + 3)%nat as Hi' by lia.
      by destruct Hi' as [-> | [-> | [-> | ->]]].
Qed.

(** ** What the scanners do to a block *)

(** Opcodes that end an adjacent pattern never start a fused comparison. *)
Lemma tails_other op :
  cmp_tail op || test_tail_same op || test_tail op || insn_eqb op dt_X86_INS_SBB ||
  insn_eqb op dt_X86_INS_IDIV || insn_eqb op dt_X86_INS_DIV || insn_eqb op dt_X86_INS_SETA ||
  insn_eqb op dt_X86_INS_CMOVS || insn_eqb op dt_X86_INS_CMOVNS ||
  insn_eqb op dt_X86_INS_MOVAPS = true → jcc_case_of op = J_OTHER.
Proof. by destruct op. Qed.

(** Instructions the end scan walks over are not part of adjacent patterns. *)
Lemma pass_not_can_pattern i :
  (jcc_at_end (ir1_opcode i) = true ∨ jcc_case_of (ir1_opcode i) = J_MOV ∨
   jcc_case_of (ir1_opcode i) = J_PASS) → ir1_can_pattern i = false.
Proof. unfold ir1_can_pattern. by destruct (ir1_opcode i); intros [H|[H|H]]. Qed.

Definition tail_at (tb : TranslationBlock) (s : Z) : Prop :=
  ∃ i, aget (ir1 tb) s = Some i ∧ jcc_case_of (ir1_opcode i) = J_OTHER.

(** A scanner step leaves the block alone or fuses the head with the instruction
    at [s0]. *)
Definition pair_outcome (tb : TranslationBlock) (h : nat) (s0 : Z) (tb' : TranslationBlock)
    (r : bool) : Prop :=
  tb' = tb ∨
  (r = true ∧ s0 ≠ -1 ∧ tail_at tb s0 ∧
   ∃ opc, fused_opc opc = true ∧ tb' = fuse_pair tb h (Z.to_nat s0) opc).

Lemma pair_if_outcome c tb h s0 opc i tb' r :
  fused_opc opc = true → (s0 =? -1) = false → aget (ir1 tb) s0 = Some i →
  (c = true → jcc_case_of (ir1_opcode i) = J_OTHER) →
  pair_if c tb h s0 opc = Some (tb', r) → pair_outcome tb h s0 tb' r.
Proof.
  intros Hf Hs Ha Hc. unfold pair_if, pair_outcome. apply Z.eqb_neq in Hs.
  destruct c; intros [= <- <-]; [right|by left].
  split_and!; [done..|exists i; auto|eauto].
Qed.

(** Show that the tail of a pattern is not a comparison from the test made. *)
Ltac tail_other :=
  intros; bool_to_prop; apply tails_other;
  repeat match goal with H : _ = true |- _ => rewrite H; clear H end;
  by rewrite ?orb_true_r.

(** Split the tests of a scanner, then use [pair_if_outcome]. *)
Ltac pair_cases :=
  intros; repeat first [ progress simplify_option_eq | case_match ];
  try (by left);
  try (eapply pair_if_outcome; [..|eassumption]; [reflexivity|done|done|tail_other]).

Lemma inst_pattern_cmp_outcome opt tb h s0 tb' r :
  inst_pattern_cmp opt tb h s0 = Some (tb', r) → pair_outcome tb h s0 tb' r.
Proof. unfold inst_pattern_cmp. pair_cases. Qed.

Lemma inst_pattern_test_outcome opt tb h s0 tb' r :
  inst_pattern_test opt tb h s0 = Some (tb', r) → pair_outcome tb h s0 tb' r.
Proof.
  unfold inst_pattern_test. pair_cases.
  eapply (pair_if_outcome true _ _ _ INSTPTN_OPC_TEST_XXCC);
    [reflexivity|done|done|tail_other|reflexivity].
Qed.

Lemma inst_pattern_idiv_outcome opt sz opc tb h s0 tb' r :
  fused_opc opc = true →
  inst_pattern_idiv opt sz opc tb h s0 = Some (tb', r) → pair_outcome tb h s0 tb' r.
Proof.
  unfold inst_pattern_idiv. intros Hf. pair_cases.
  eapply pair_if_outcome; [..|eassumption]; [done..|tail_other].
Qed.

Lemma inst_pattern_xor_outcome opt tb h s0 tb' r :
  inst_pattern_xor opt tb h s0 = Some (tb', r) → pair_outcome tb h s0 tb' r.
Proof. unfold inst_pattern_xor. pair_cases. Qed.

Lemma inst_pattern_tail_outcome opt opc tail tb h s0 tb' r :
  fused_opc opc = true → (∀ op, tail op = true → jcc_case_of op = J_OTHER) →
  inst_pattern_tail opt opc tail tb h s0 = Some (tb', r) → pair_outcome tb h s0 tb' r.
Proof.
  unfold inst_pattern_tail. intros Hf Ht. pair_cases.
  eapply pair_if_outcome; [..|eassumption]; eauto.
Qed.

(** [inst_pattern] leaves the block alone, fuses the head with the instruction
    at [scan[0]], or records four stores. *)
Lemma inst_pattern_cases opt tb h scan tb' r :
  inst_pattern opt tb h scan = Some (tb', r) →
  let s k := nth k scan (-1) in
  pair_outcome tb h (s 0%nat) tb' r ∨
  (r = true ∧ 0 ≤ s 0%nat ∧ 0 ≤ s 1%nat ∧ 0 ≤ s 2%nat ∧
   tail_at tb (s 0%nat) ∧ tail_at tb (s 1%nat) ∧ tail_at tb (s 2%nat) ∧
   tb' = fuse_x4 tb h (Z.to_nat (s 0%nat)) (Z.to_nat (s 1%nat)) (Z.to_nat (s 2%nat))).
Proof.
  intros H s. revert H. unfold inst_pattern.
  destruct (tb_ir1_inst tb h) as [i|]; [|done]. cbn [mbind option_bind].
  destruct (head_case_of (ir1_opcode i)); intros H.
  - left. by eapply inst_pattern_cmp_outcome.
  - left. by eapply inst_pattern_test_outcome.
  - left. by eapply inst_pattern_idiv_outcome; [|exact H].
  - left. by eapply inst_pattern_xor_outcome.
  - left. by eapply inst_pattern_idiv_outcome; [|exact H].
  - left. eapply inst_pattern_tail_outcome; [| |exact H]; [done|tail_other].
  - unfold inst_pattern_movaps, is_movaps in H. fold (s 0%nat) (s 1%nat) (s 2%nat) in H.
    repeat first [ progress simplify_option_eq | case_match ]; try (by left; left).
    right. bool_to_prop.
    split_and!; try done; eexists; (split; [eassumption|]); tail_other.
  - left. eapply inst_pattern_tail_outcome; [| |exact H]; [done|].
    intros op [?|?]%orb_prop; tail_other.
  - left. left. congruence.
Qed.

(** ** The scan invariant *)

(** The buffer of adjacent instructions before index [h] is handled: the
    following [m] indices in order, then empty entries; a buffered instruction
    that could end a pattern is unmarked. *)
Definition buf_ok (h : nat) (tb : TranslationBlock) (scan : list Z) : Prop :=
  ∃ m, (m ≤ INSTPTN_BUF_SIZE)%nat ∧
    scan = (Z.of_nat <$> seq h m) ++ replicate (INSTPTN_BUF_SIZE - m) (-1) ∧
    ∀ k i, (h ≤ k < h + m)%nat → ir1 tb !! k = Some i →
      jcc_case_of (ir1_opcode i) = J_OTHER → unmarked tb k.

Lemma buf_ok_empty h tb : buf_ok h tb (replicate INSTPTN_BUF_SIZE (-1)).
Proof. exists 0%nat. split_and!; [lia|done|lia]. Qed.

Lemma buf_ok_clear h h' tb tb' scan : buf_ok h tb scan → buf_ok h' tb' (scan_clear scan).
Proof.
  intros (m & Hm & -> & _). unfold scan_clear. destruct m as [|m]; simpl.
  - apply buf_ok_empty.
  - destruct (Z.eqb_spec (Z.of_nat h) (-1)); [lia|]. apply buf_ok_empty.
Qed.

Lemma buf_ok_push h tb scan :
  buf_ok (S h) tb scan → unmarked tb h → buf_ok h tb (scan_push scan (Z.of_nat h)).
Proof.
  unfold buf_ok, INSTPTN_BUF_SIZE. intros (m & Hm & -> & Hu) Hh.
  exists (Nat.min (S m) 4). split_and!; [lia| |].
  - unfold scan_push, INSTPTN_BUF_SIZE.
    do 5 (destruct m as [|m]; [reflexivity|]). lia.
  - intros k i Hk Hi Hc. destruct (decide (k = h)) as [->|]; [done|].
    apply (Hu k i); [lia|done..].
Qed.

(** Entry [j] of the buffer, when it is not empty, is the index [h + j]. *)
Lemma buf_ok_nth h tb scan j :
  buf_ok h tb scan → (j < INSTPTN_BUF_SIZE)%nat → nth j scan (-1) ≠ -1 →
  nth j scan (-1) = Z.of_nat (h + j) ∧ (tail_at tb (nth j scan (-1)) → unmarked tb (h + j)).
Proof.
  intros (m & Hm & -> & Hu) Hj Hne. unfold INSTPTN_BUF_SIZE in *.
  assert (nth j ((Z.of_nat <$> seq h m) ++ replicate (4 - m) (-1)) (-1) =
    if (j <? m)%nat then Z.of_nat (h + j) else -1) as He.
  { do 5 (destruct m as [|m]; [do 4 (destruct j as [|j]; [simpl; try lia; f_equal; lia|]); lia|]).
    lia. }
  rewrite He in *. destruct (Nat.ltb_spec j m); [|done]. split; [done|].
  intros (i & Hi & Hc). unfold aget in Hi.
  destruct (Z.ltb_spec (Z.of_nat (h + j)) 0); [lia|]. rewrite Nat2Z.id in Hi.
  apply (Hu _ i); [lia|done..].
Qed.

(** The state of the scan before index [h - 1] is handled. *)
Record scan_inv (n h : nat) (tb : TranslationBlock) (p : ptn_locals) : Prop := {
  si_len : length (ir1 tb) = n;
  si_le : (h ≤ n)%nat;
  si_ok : all_ok tb;
  si_todo : ∀ k, (k < h)%nat → unmarked tb k;
  si_buf : buf_ok h tb (ptn_scaned_cond p);
  si_head : scan_head p = true →
    ptn_scaned_cond p = replicate INSTPTN_BUF_SIZE (-1) ∧
    ((h = n ∧ ptn_scaned_jcc_end p = [-1]) ∨
     ((h < n)%nat ∧ ptn_scaned_jcc_end p = [Z.of_nat (n - 1)] ∧ unmarked tb (n - 1)))
}.

Lemma cores_length tb tb' : same_cores tb tb' → length (ir1 tb') = length (ir1 tb).
Proof. intros H. apply (f_equal length) in H. by rewrite !length_fmap in H. Qed.

Lemma cores_opcode tb tb' k i i' :
  same_cores tb tb' → ir1 tb !! k = Some i → ir1 tb' !! k = Some i' →
  ir1_opcode i' = ir1_opcode i.
Proof.
  intros H Hi Hi'. apply (f_equal (λ l, l !! k)) in H.
  rewrite !list_lookup_fmap, Hi, Hi' in H. simpl in H.
  apply (inj Some) in H. apply (f_equal (λ c, ir1_opcode c)) in H. exact H.
Qed.

Lemma tail_at_nonneg tb s : tail_at tb s → 0 ≤ s.
Proof. intros (i & Hi & _). unfold aget in Hi. destruct (Z.ltb_spec s 0); [done|lia]. Qed.

(** What one head match does to a consistent block. *)
Lemma inst_pattern_ok opt n h tb p tb' r :
  scan_inv n (S h) tb p → inst_pattern opt tb h (ptn_scaned_cond p) = Some (tb', r) →
  all_ok tb' ∧ (∀ k, (k < h)%nat → unmarked tb' k) ∧ (r = false → tb' = tb).
Proof.
  intros [Hlen Hle Hok Htodo Hbuf _] H.
  assert (∀ j, (j < INSTPTN_BUF_SIZE)%nat → tail_at tb (nth j (ptn_scaned_cond p) (-1)) →
    nth j (ptn_scaned_cond p) (-1) = Z.of_nat (S h + j) ∧ unmarked tb (S h + j)) as Hn.
  { intros j Hj Ht. pose proof (tail_at_nonneg _ _ Ht).
    destruct (buf_ok_nth _ _ _ j Hbuf Hj ltac:(lia)) as [He Hu]. auto. }
  unfold INSTPTN_BUF_SIZE in Hn.
  destruct (inst_pattern_cases _ _ _ _ _ _ H)
    as [[->|(-> & _ & Ht & opc & Hf & ->)]|(-> & _ & _ & _ & H0 & H1 & H2 & ->)].
  - split_and!; [done| |done]. intros k Hk. apply Htodo. lia.
  - destruct (Hn 0%nat ltac:(lia) Ht) as [-> Hu]. rewrite Nat2Z.id, Nat.add_0_r in *.
    split_and!; [apply fuse_pair_ok; auto| |done]. intros k Hk. unfold unmarked.
    rewrite ptn_at_fuse_pair, !decide_False by lia. apply Htodo. lia.
  - destruct (Hn 0%nat ltac:(lia) H0) as [-> U0], (Hn 1%nat ltac:(lia) H1) as [-> U1],
      (Hn 2%nat ltac:(lia) H2) as [-> U2]. rewrite !Nat2Z.id.
    replace (S h + 0)%nat with (h + 1)%nat in * by lia.
    replace (S h + 1)%nat with (h + 2)%nat in * by lia.
    replace (S h + 2)%nat with (h + 3)%nat in * by lia.
    split_and!; [apply fuse_x4_ok; auto| |done]. intros k Hk. unfold unmarked.
    rewrite ptn_at_fuse_x4, !decide_False by lia. apply Htodo. lia.
Qed.

(** The adjacent scanner at index [h]. *)
Lemma scan_con_step opt n h tb p tb' sc i :
  scan_inv n (S h) tb p → ir1 tb !! h = Some i →
  insts_pattern_scan_con opt tb h (ptn_scaned_cond p) = Some (tb', sc) →
  same_cores tb tb' ∧ all_ok tb' ∧ (∀ k, (k < h)%nat → unmarked tb' k) ∧ buf_ok h tb' sc ∧
  (ptn_scaned_cond p = replicate INSTPTN_BUF_SIZE (-1) →
     tb' = tb ∧ (sc = replicate INSTPTN_BUF_SIZE (-1) ∨
       (ir1_can_pattern i = true ∧ sc = [Z.of_nat h; -1; -1; -1]))).
Proof.
  intros Hinv Hi. pose proof Hinv as [Hlen Hle Hok Htodo Hbuf _].
  unfold insts_pattern_scan_con, tb_ir1_inst. rewrite Hi. cbn [mbind option_bind].
  destruct (ir1_can_pattern i) eqn:Hc; cbn [negb].
  2:{ intros [= <- <-]. split_and!; [done..|intros; apply Htodo; lia| |].
      - by eapply buf_ok_clear.
      - intros ->. split; [done|by left]. }
  destruct (ir1_is_pattern_head i); cbn [negb].
  2:{ intros [= <- <-]. split_and!; [done..|intros; apply Htodo; lia| |].
      2:{ intros ->. by split; [|right]. }
      apply buf_ok_push; [done|]. apply Htodo. lia. }
  destruct (inst_pattern _ _ _ _) as [[tb1 r]|] eqn:Hp; [|done]. cbn.
  pose proof (inst_pattern_cores _ _ _ _ _ _ Hp) as Hcores.
  destruct (inst_pattern_ok _ _ _ _ _ _ _ Hinv Hp) as (Hok1 & Htodo1 & Hr).
  assert (ptn_scaned_cond p = replicate INSTPTN_BUF_SIZE (-1) → tb1 = tb) as Hempty.
  { intros He. rewrite He in Hp.
    destruct (inst_pattern_cases _ _ _ _ _ _ Hp) as [[->|(_ & ? & _)]|(_ & ? & _)]; done. }
  destruct r; intros [= <- <-];
    (split_and!; [done..| |intros He; split; [auto|rewrite He; by (left + right)]]).
  - by eapply buf_ok_clear.
  - rewrite (Hr eq_refl). apply buf_ok_push; [done|]. apply Htodo. lia.
Qed.

(** A fused comparison and jump, adjacent or distant. *)
Lemma fuse_jcc_ok opt tb h j opc xx c :
  fused_opc opc = true → (∀ x, xx = Some x → xx_opc x = true) →
  (h < j)%nat → unmarked tb h → unmarked tb j → all_ok tb →
  let tb' := fuse_jcc opt tb h (Z.of_nat j) opc xx c in
  all_ok tb' ∧ (∀ k, k ≠ h → k ≠ j → ptn_at tb' k = ptn_at tb k).
Proof.
  intros Hf Hx Hlt Hh Hj Hok. unfold fuse_jcc. rewrite Nat2Z.id. cbv zeta.
  destruct (Z.eqb_spec (Z.of_nat h + 1) (Z.of_nat j)) as [He|He].
  - assert (j = S h) as -> by lia. destruct (negb _); [done|].
    assert (∀ k, k ≠ h → k ≠ S h → ptn_at (fuse_pair tb h (S h) opc) k = ptn_at tb k) as Hk.
    { intros k ??. by rewrite ptn_at_fuse_pair, !decide_False by (done || lia). }
    pose proof (fuse_pair_ok tb h opc Hf Hh Hj Hok) as Hp. destruct c; [|done].
    assert (∀ k, ptn_at (upd_ir1 (fuse_pair tb h (S h) opc) (S h) (set_next None)) k =
      ptn_at (fuse_pair tb h (S h) opc) k) as Hsame.
    { intros k. rewrite ptn_at_next. case_decide as Hd; [|done]. subst k.
      rewrite ptn_at_fuse_pair, decide_True by (done || lia). by rewrite Hj. }
    split; [|intros; rewrite Hsame; auto]. intros k o nx. rewrite Hsame. intros Ho.
    destruct (Hp k o nx Ho) as (H1 & H2 & H3 & H4 & H5).
    split_and!; [intros E; destruct (H1 E) as (h' & ? & ? & ? & ?)|
      |intros E; destruct (H3 E) as (j' & ? & ?)| |]; setoid_rewrite Hsame; eauto.
  - destruct xx as [x|]; [|done]. destruct (negb _); [done|]. split.
    + apply (fuse_far_ok tb h j x); auto; lia.
    + intros k ??. change (ptn_at (fuse_far tb h j x) k = ptn_at tb k).
      by rewrite ptn_at_fuse_far, !decide_False by (done || lia).
Qed.

(** The end scanner at index [h]: it stops, walks over the instruction, or fuses
    it with the jump. *)
Lemma scan_jcc_end_cases opt smc tb h sj tb' sj' hd i :
  ir1 tb !! h = Some i →
  insts_pattern_scan_jcc_end opt smc tb h sj = Some (tb', sj', hd) →
  (tb' = tb ∧ (hd = true →
     (S h = length (ir1 tb) ∧ sj' = <[0%nat := Z.of_nat h]> sj ∧ ir1_can_pattern i = false) ∨
     (S h ≠ length (ir1 tb) ∧ sj' = sj ∧ ir1_can_pattern i = false))) ∨
  (S h ≠ length (ir1 tb) ∧ hd = false ∧ jcc_case_of (ir1_opcode i) ≠ J_OTHER ∧
   nth 0 sj (-1) ≠ -1 ∧ ∃ opc xx c, fused_opc opc = true ∧
     (∀ x, xx = Some x → xx_opc x = true) ∧ tb' = fuse_jcc opt tb h (nth 0 sj (-1)) opc xx c).
Proof.
  intros Hi. unfold insts_pattern_scan_jcc_end, tb_ir1_inst, tb_ir1_num. rewrite Hi.
  cbn [mbind option_bind]. pose proof (pass_not_can_pattern i) as Hpass.
  destruct (Nat.eqb_spec (S h) (length (ir1 tb))) as [Hlast|Hlast].
  { destruct (h =? 0)%nat; [by intros [= <- <- <-]; left|].
    destruct (jcc_at_end (ir1_opcode i)) eqn:Hj; intros [= <- <- <-]; left; (split; [done|]);
      [|done]. intros _. left. split_and!; auto. }
  cbv zeta. destruct (jcc_case_of (ir1_opcode i)) eqn:Hcase; intros H;
    repeat first [ progress simplify_option_eq | case_match ];
    try (by left; split; [|intros; right; auto 9]);
    right; split_and!; try done; try (by bool_to_prop);
    do 3 eexists; (split_and!; [..|reflexivity]); try done; by intros ? [= <-].
Qed.

Lemma scan_jcc_end_cores opt smc tb h sj tb' sj' hd :
  insts_pattern_scan_jcc_end opt smc tb h sj = Some (tb', sj', hd) → same_cores tb tb'.
Proof.
  intros H. pose proof H as H'. unfold insts_pattern_scan_jcc_end, tb_ir1_inst in H'.
  destruct (ir1 tb !! h) as [i|] eqn:Hi; [|done]. clear H'.
  destruct (scan_jcc_end_cases _ _ _ _ _ _ _ _ _ Hi H)
    as [[-> _]|(_ & _ & _ & _ & opc & xx & c & _ & _ & ->)]; [done|apply fuse_jcc_cores].
Qed.

(** One turn of the backward loop keeps the invariant. *)
Lemma opt_insts_ptn_step opt smc n h tb p tb' p' :
  scan_inv n (S h) tb p → OPT_INSTS_PTN opt smc tb h p = Some (tb', p') → opt ≠ 0 →
  scan_inv n h tb' p' ∧ same_cores tb tb'.
Proof.
  intros Hinv Hopt Hne. pose proof Hinv as [Hlen Hle Hok Htodo Hbuf Hhead].
  unfold OPT_INSTS_PTN in Hopt. rewrite (proj2 (Z.eqb_neq _ _) Hne) in Hopt.
  destruct (lookup_lt_is_Some_2 (ir1 tb) h ltac:(lia)) as [i Hi].
  destruct (insts_pattern_scan_con opt tb h (ptn_scaned_cond p)) as [[tb1 sc]|] eqn:Hcon;
    [|done]. cbn [mbind option_bind] in Hopt.
  destruct (scan_con_step _ _ _ _ _ _ _ i Hinv Hi Hcon) as (Hc & Hok1 & Htodo1 & Hbuf1 & Hemp).
  pose proof (cores_length _ _ Hc) as Hl1.
  destruct (scan_head p) eqn:Hsh.
  2:{ injection Hopt as <- <-. split; [|done]. split; simpl; try done; lia. }
  destruct (Hhead eq_refl) as [He Hj]. destruct (Hemp He) as [-> Hsc]. clear Hemp.
  destruct (insts_pattern_scan_jcc_end _ _ _ _ _) as [[[tb2 sj] hd]|] eqn:Hend; [|done].
  injection Hopt as <- <-. pose proof (scan_jcc_end_cores _ _ _ _ _ _ _ _ Hend) as Hc2.
  split; [|done]. pose proof (cores_length _ _ Hc2) as Hl2.
  destruct (scan_jcc_end_cases _ _ _ _ _ _ _ _ _ Hi Hend)
    as [[-> Hhd]|(Hn & -> & Hnoth & Hs & opc & xx & c & Hf & Hx & ->)].
  - split; cbn [ptn_scaned_cond ptn_scaned_jcc_end scan_head]; try done; try lia. intros ->.
    destruct (Hhd eq_refl) as [(Hs & -> & Hcp)|(Hs & -> & Hcp)];
      (split; [destruct Hsc as [|[]]; congruence|]); right;
      destruct Hj as [[Hn ->]|(Hn & -> & Hu)]; try lia.
    + split_and!; [lia| |apply Htodo; lia]. simpl. do 2 f_equal. lia.
    + by split_and!; [lia|..].
  - destruct Hj as [[Hj _]|(Hj & Hsj & Hu)]; [lia|]. rewrite Hsj in *. cbn [nth] in *.
    destruct (fuse_jcc_ok opt tb h (n - 1) opc xx c Hf Hx ltac:(lia)
      (Htodo h ltac:(lia)) Hu Hok) as [Hok2 Hkeep].
    split; cbn [ptn_scaned_cond scan_head]; [lia|lia|done| | |done].
    + intros k Hk. unfold unmarked. rewrite Hkeep by lia. by apply Htodo1.
    + destruct Hsc as [->|[_ ->]]; [apply buf_ok_empty|].
      exists 1%nat. split_and!; [unfold INSTPTN_BUF_SIZE; lia|done|].
      intros k i' Hk Hi' Hc'. assert (k = h) as -> by lia.
      exfalso. apply Hnoth. by rewrite <-(cores_opcode _ _ _ _ _ Hc2 Hi Hi').
Qed.

Lemma scan_block_inv opt smc n h tb p tb' :
  opt ≠ 0 → scan_inv n h tb p → scan_block opt smc h tb p = Some tb' →
  all_ok tb' ∧ same_cores tb tb'.
Proof.
  intros Hopt. revert tb p. induction h as [|h IH]; intros tb p Hinv; simpl.
  { intros [= <-]. split; [apply Hinv|done]. }
  destruct (OPT_INSTS_PTN opt smc tb h p) as [[tb1 p1]|] eqn:Hs; [|done]. simpl. intros H.
  destruct (opt_insts_ptn_step _ _ _ _ _ _ _ _ Hinv Hs Hopt) as [Hinv1 Hc].
  destruct (IH _ _ Hinv1 H) as [Hok Hc1]. split; [done|by etrans].
Qed.

Lemma scan_inv_init tb :
  (∀ i, i ∈ ir1 tb → instptn_opc i = INSTPTN_OPC_NONE ∧ instptn_next i = None) →
  scan_inv (length (ir1 tb)) (length (ir1 tb)) tb DEF_INSTS_PTN.
Proof.
  intros Hini. assert (∀ k, (k < length (ir1 tb))%nat → unmarked tb k) as Hu.
  { intros k Hk. destruct (lookup_lt_is_Some_2 _ _ Hk) as [i Hi]. unfold unmarked, ptn_at.
    rewrite Hi. simpl. destruct (Hini i) as [-> ->]; [by eapply list_elem_of_lookup_2|done]. }
  split; [done|lia| |done|apply buf_ok_empty|intros _; split; [done|by left]].
  intros k o nx Ho. assert (o = INSTPTN_OPC_NONE) as ->; [|by split_and!].
  destruct (decide (k < length (ir1 tb))%nat) as [Hk|Hk].
  - rewrite (Hu k Hk) in Ho. congruence.
  - unfold ptn_at in Ho. rewrite lookup_ge_None_2 in Ho by lia. done.
Qed.

(** C14 The backward scan of a freshly decoded block records only consistent
    patterns and changes nothing else of the instructions: an instruction marked
    to be skipped is the tail of the fused instruction right before it, every
    fused head has its skipped tail right after it, the two ends of a distant
    compare-and-jump point to each other, and a vectorised store group is four
    adjacent instructions.  So no instruction is skipped without another one
    standing for it, and none takes part in two patterns. *)
Theorem scan_block_consistent opt smc tb tb' :
  (∀ i, i ∈ ir1 tb → instptn_opc i = INSTPTN_OPC_NONE ∧ instptn_next i = None) →
  scan_block opt smc (length (ir1 tb)) tb DEF_INSTS_PTN = Some tb' → opt ≠ 0 →
  (∀ k, ptn_ok (ptn_at tb') k) ∧ core <$> ir1 tb' = core <$> ir1 tb.
Proof.
  intros Hini Hs Hopt. by apply (scan_block_inv opt smc _ _ _ _ _ Hopt (scan_inv_init tb Hini)).
Qed.

(** [cmp; mov; lea; jb] in a fresh block, scanned with the default options. *)
Definition demo_inst (op : dt_x86_insn) (ops : list IR1_OPND) : IR1_INST :=
  mkIR1 (mkInfo op [0; 0; 0; 0] 0 ops 0 0 [] 8 0) 0 0 0 0 0 0 None.
Definition demo_gpr (r : dt_x86_reg) : IR1_OPND := mkOpnd (OP_REG r) 8.
Definition demo_tb (l : list IR1_INST) : TranslationBlock :=
  mkTB l 0 0 None None IR1_TYPE_BRANCH 0 0 0 0 0 0 0 false 0.
Definition cmp_mov_jb : TranslationBlock :=
  demo_tb [demo_inst dt_X86_INS_CMP [demo_gpr dt_X86_REG_RAX; demo_gpr dt_X86_REG_RCX];
           demo_inst dt_X86_INS_MOV [demo_gpr dt_X86_REG_RDX; demo_gpr dt_X86_REG_RCX];
           demo_inst dt_X86_INS_JB [mkOpnd (OP_IMM 0x1000) 8]].

Lemma scan_block_consistent_witness :
  ∃ tb', scan_block 0x3ffffff false 3 cmp_mov_jb DEF_INSTS_PTN = Some tb' ∧
    ptn_at tb' 0 = Some (INSTPTN_OPC_CMP_XX_JCC, Some 2%nat) ∧
    ptn_at tb' 2 = Some (INSTPTN_OPC_CMP_XX_JCC, Some 0%nat) ∧ ptn_ok (ptn_at tb') 2.
Proof.
  eexists. split; [vm_compute; reflexivity|]. split; [reflexivity|]. split; [reflexivity|].
  refine (proj1 (scan_block_consistent 0x3ffffff false cmp_mov_jb _ _ _ _) 2%nat).
  - intros i Hi. apply list_elem_of_In in Hi. simpl in Hi.
    destruct Hi as [<-|[<-|[<-|[]]]]; split; reflexivity.
  - vm_compute. reflexivity.
  - discriminate.
Defined.

(** ** The XOR; DIV pattern *)

(** C33 [inst_pattern] never records the XOR;DIV pattern: having required the
    XOR's first operand to be edx or rdx, it rejects the match because that same
    operand contains edx (the divisor was meant). *)
Theorem xor_div_never_matches opt tb h s0 tb' r :
  inst_pattern_xor opt tb h s0 = Some (tb', r) → tb' = tb ∧ r = false.
Proof.
  unfold inst_pattern_xor. intros H.
  assert (∀ o r, (r = dt_X86_REG_EDX ∨ r = dt_X86_REG_RDX) → opnd_is_reg o r = true →
    ir1_opnd_is_gpr o = true → is_contain_edx o = true) as Hedx.
  { intros o r' Hr. unfold opnd_is_reg, is_contain_edx.
    destruct (opnd_op o); try done. intros ->%reg_eqb_eq ->. by destruct Hr as [-> | ->]. }
  repeat first [ progress simplify_option_eq | case_match ]; try done; bool_to_prop;
    match goal with
    | H : pair_if (_ && negb (is_contain_edx ?o)) _ _ _ _ = _,
      E : opnd_is_reg ?o ?r = true, G : ir1_opnd_is_gpr ?o = true |- _ =>
        rewrite (Hedx o r ltac:(auto) E G), andb_false_r in H; by injection H as <- <-
    end.
Qed.

Lemma xor_div_never_matches_witness :
  let tb := demo_tb
    [demo_inst dt_X86_INS_XOR [demo_gpr dt_X86_REG_RDX; demo_gpr dt_X86_REG_RDX];
     demo_inst dt_X86_INS_DIV [demo_gpr dt_X86_REG_RCX]] in
  ∃ tb', inst_pattern_xor 0x3ffffff tb 0 1 = Some (tb', false) ∧ tb' = tb.
Proof.
  intros tb. eexists. split; [reflexivity|].
  exact (proj1 (xor_div_never_matches 0x3ffffff tb 0 1 _ _ eq_refl)).
Defined.
