(* ===== verification/Ir1Opt.v ===== *)
(** * IR1 optimisation of blocks and of translation units
      (optimization/ir1-optimization.c)

    [ir1_optimization] runs flag reduction and the pattern scan backwards over
    one block; [over_tb_rfd] first solves the flag liveness equations over the
    blocks of a translation unit.  Blocks are a list, and the successor pointers
    of a block are indices into it. *)

From stdpp Require Import base numbers list option tactics.
From Stdlib Require Import ZArith Lia Bool.
From S2P Require Import Prelude Ir1Enum Ir1 Dataflow FlagReduction InstsPattern.
Local Open Scope Z_scope.
Local Open Scope c_scope.

Section options.
  (** [option_flag_reduction], [option_instptn] and whether the block being
      translated uses the self-modifying-code optimisation. *)
  Context (option_flag_reduction : bool) (option_instptn : Z) (curr_tb_smc : bool).

(** The loop [for (i = tb_ir1_num(tb) - 1; i >= 0; --i)] of both drivers. *)
Fixpoint optimize_insts (n : nat) (tb : TranslationBlock) (rdtn_pending_use : Z)
    (ptn : ptn_locals) : option (TranslationBlock * Z) :=
  match n with
  | O => Some (tb, rdtn_pending_use)
  | S h =>
      i ← tb_ir1_inst tb h;
      '(i', pending) ← OPT_FLAG_RDTN option_flag_reduction i rdtn_pending_use;
      let tb := set_ir1 tb (<[h := i']> (ir1 tb)) in
      '(tb, ptn) ← OPT_INSTS_PTN option_instptn curr_tb_smc tb h ptn;
      optimize_insts h tb pending ptn
  end.

Definition ir1_optimization (tb : TranslationBlock) : option TranslationBlock :=
  if (tb_ir1_num tb =? 0)%nat then Some tb else
  rdtn_pending_use ← flag_reduction_check tb;
  '(tb, pending) ← optimize_insts (tb_ir1_num tb) tb rdtn_pending_use DEF_INSTS_PTN;
  Some (set_eflag_use tb pending).

Definition ir1_optimization_over_tb (tb : TranslationBlock) : option TranslationBlock :=
  if (tb_ir1_num tb =? 0)%nat then Some tb else
  rdtn_pending_use ← flag_reduction_check tb;
  let rdtn_pending_use := rdtn_pending_use .& eflag_out tb in
  '(tb, pending) ← optimize_insts (tb_ir1_num tb) tb rdtn_pending_use DEF_INSTS_PTN;
  Some (set_eflag_use tb pending).

(** [tmp_tb->eflag_use] of a successor. *)
Definition succ_eflag_use (tbs : list TranslationBlock) (s : nat) : option Z :=
  eflag_use <$> tbs !! s.

Definition get_eflag_out (tbs : list TranslationBlock) (tb : TranslationBlock) :
    option TranslationBlock :=
  match last_ir1_type tb with
  | IR1_TYPE_BRANCH =>
      match next_tb tb, target_tb tb with
      | Some n, Some t =>
          ut ← succ_eflag_use tbs t;
          let tb := set_eflag_out tb (eflag_out tb .| ut) in
          un ← succ_eflag_use tbs n;
          Some (set_eflag_out tb (eflag_out tb .| un))
      | _, _ => Some (set_eflag_out tb (eflag_out tb .| __ALL_EFLAGS))
      end
  | IR1_TYPE_JUMP | IR1_TYPE_CALL =>
      match target_tb tb with
      | Some t => ut ← succ_eflag_use tbs t; Some (set_eflag_out tb (eflag_out tb .| ut))
      | None => Some (set_eflag_out tb (eflag_out tb .| __ALL_EFLAGS))
      end
  | IR1_TYPE_NORMAL =>
      match next_tb tb with
      | Some n => un ← succ_eflag_use tbs n; Some (set_eflag_out tb (eflag_out tb .| un))
      | None => Some (set_eflag_out tb (eflag_out tb .| __ALL_EFLAGS))
      end
  | IR1_TYPE_CALLIN | IR1_TYPE_JUMPIN | IR1_TYPE_RET =>
      Some (set_eflag_out tb (eflag_out tb .| __ALL_EFLAGS))
  | IR1_TYPE_SYSCALL => Some tb
  | IR1_TYPE_COUNT => None
  end.

(** First loop of [over_tb_rfd]: each block alone, from all flags pending.  The
    entry of [eflag_def] of an empty block stays uninitialised, [junk]. *)
Definition rfd_init_tb (junk : Z) (tb : TranslationBlock) : option (TranslationBlock * Z) :=
  match ir1 tb with
  | [] => Some (tb, junk)
  | l =>
      '(l', pending) ← rdtn_insts option_flag_reduction l __ALL_EFLAGS;
      Some (set_eflag_use (set_ir1 tb l') pending,
            foldr (λ i acc, acc .| ir1_get_eflag_def i) __NONE l')
  end.

Fixpoint rfd_init (junk : list Z) (tbs : list TranslationBlock) :
    option (list TranslationBlock * list Z) :=
  match tbs with
  | [] => Some ([], [])
  | tb :: tbs =>
      '(tb', d) ← rfd_init_tb (hd 0 junk) tb;
      '(tbs', ds) ← rfd_init (tl junk) tbs;
      Some (tb' :: tbs', d :: ds)
  end.

(** The body of the liveness loop for block [i]. *)
Definition rfd_body (eflag_def : list Z) (i : nat) (tbs : list TranslationBlock) :
    option (list TranslationBlock * bool) :=
  tb ← tbs !! i;
  d ← eflag_def !! i;
  let old_livein := eflag_use tb in
  let old_liveout := eflag_out tb in
  tb ← get_eflag_out tbs tb;
  let tb := set_eflag_use tb (eflag_use tb .| (eflag_out tb .& ~. d)) in
  Some (<[i := tb]> tbs,
        negb (eflag_use tb =? old_livein) || negb (eflag_out tb =? old_liveout)).

(** Two bytes per block can only grow: [16 * tb_num + 1] rounds suffice. *)
Definition rfd_fuel (tbs : list TranslationBlock) : nat := S (16 * length tbs).

Definition rfd_solve (eflag_def : list Z) (tbs : list TranslationBlock) :
    option (list TranslationBlock) :=
  iterate (rfd_body eflag_def) (rfd_fuel tbs) (length tbs) tbs.

Definition over_tb_rfd (junk : list Z) (tbs : list TranslationBlock) :
    option (list TranslationBlock) :=
  '(tbs, eflag_def) ← rfd_init junk tbs;
  tbs ← rfd_solve eflag_def tbs;
  mapM ir1_optimization_over_tb tbs.

End options.

(** * Theorems *)

(** ** The combined loop computes what flag reduction alone computes *)

Lemma core_info i j : core i = core j → info i = info j.
Proof. intros H. apply (f_equal info) in H. exact H. Qed.

Lemma core_annotate i j u d : core i = core j → core (annotate i u d) = core (annotate j u d).
Proof. intros H. destruct i, j. unfold core in *. simpl in *. simplify_eq. done. Qed.

(** The flag step neither reads nor writes [instptn]. *)
Lemma rdtn_step_core opt i j p i' q :
  core i = core j → OPT_FLAG_RDTN opt i p = Some (i', q) →
  ∃ j', OPT_FLAG_RDTN opt j p = Some (j', q) ∧ core i' = core j'.
Proof.
  intros Hc. pose proof (core_info i j Hc) as Hi. unfold OPT_FLAG_RDTN. destruct opt.
  - rewrite !flag_reduction_spec, (flag_effect_of_info i j Hi).
    destruct (flag_effect_of j) as [e|]; simpl; [|done]. intros [= <- <-].
    eexists. split; [done|]. by apply core_annotate.
  - unfold flag_gen. replace (ir1_opcode_to_eflag_usedef i) with (ir1_opcode_to_eflag_usedef j)
      by (unfold ir1_opcode_to_eflag_usedef, ir1_opcode; by rewrite Hi).
    destruct (ir1_opcode_to_eflag_usedef j) as [ud|]; simpl; [|done]. intros [= <- <-].
    eexists. split; [done|]. by apply core_annotate.
Qed.

Lemma rdtn_insts_core opt l1 l2 p l1' q :
  core <$> l1 = core <$> l2 → rdtn_insts opt l1 p = Some (l1', q) →
  ∃ l2', rdtn_insts opt l2 p = Some (l2', q) ∧ core <$> l1' = core <$> l2'.
Proof.
  revert l2 l1' q. induction l1 as [|i l1 IH]; intros [|j l2] l1' q Hc; try done.
  { intros [= <- <-]. by exists []. }
  pose proof (f_equal (hd (core i)) Hc) as Hij. apply (f_equal tail) in Hc.
  change (core i = core j) in Hij. change (core <$> l1 = core <$> l2) in Hc. simpl.
  destruct (rdtn_insts opt l1 p) as [[m r]|] eqn:Hl; [|done]. simpl.
  destruct (OPT_FLAG_RDTN opt i r) as [[i' r']|] eqn:Hi; [|done]. simpl. intros [= <- <-].
  destruct (IH l2 m r Hc eq_refl) as (m2 & -> & Hm). simpl.
  destruct (rdtn_step_core _ _ _ _ _ _ Hij Hi) as (j' & -> & Hj). simpl.
  eexists. split; [done|]. exact (f_equal2 cons Hj Hm).
Qed.

Lemma rdtn_insts_snoc opt l i p :
  rdtn_insts opt (l ++ [i]) p =
    ('(i', q) ← OPT_FLAG_RDTN opt i p; '(l', r) ← rdtn_insts opt l q; Some (l' ++ [i'], r)).
Proof.
  induction l as [|j l IH]; simpl.
  - by destruct (OPT_FLAG_RDTN opt i p) as [[]|].
  - rewrite IH. destruct (OPT_FLAG_RDTN opt i p) as [[i' q]|]; simpl; [|done].
    destruct (rdtn_insts opt l q) as [[l' r]|]; simpl; [|done].
    by destruct (OPT_FLAG_RDTN opt j r) as [[]|].
Qed.

Lemma opt_insts_ptn_cores opt smc tb h p tb' p' :
  OPT_INSTS_PTN opt smc tb h p = Some (tb', p') → same_cores tb tb'.
Proof.
  unfold OPT_INSTS_PTN. case_match; [by intros [= <- _]|].
  destruct (insts_pattern_scan_con opt tb h _) as [[tb1 sc]|] eqn:Hc; [|done]. simpl.
  assert (same_cores tb tb1) as H1.
  { revert Hc. unfold insts_pattern_scan_con. destruct (tb_ir1_inst tb h) as [i|]; [|done].
    simpl. repeat case_match; try (by intros [= <- _]).
    destruct (inst_pattern _ _ _ _) as [[tb2 r]|] eqn:Hp; [|done]. simpl.
    apply inst_pattern_cores in Hp. destruct r; by intros [= <- _]. }
  case_match; [|by intros [= <- _]].
  destruct (insts_pattern_scan_jcc_end _ _ _ _ _) as [[[tb2 sj] hd]|] eqn:Hj; [|done].
  simpl. intros [= <- _]. etrans; [done|]. by eapply scan_jcc_end_cores.
Qed.

Lemma optimize_insts_rdtn opt ptn smc n tb p loc tb' q :
  (n ≤ length (ir1 tb))%nat → optimize_insts opt ptn smc n tb p loc = Some (tb', q) →
  ∃ l', rdtn_insts opt (take n (ir1 tb)) p = Some (l', q) ∧
    core <$> ir1 tb' = (core <$> l') ++ (core <$> drop n (ir1 tb)).
Proof.
  revert tb p loc. induction n as [|h IH]; intros tb p loc Hn; simpl.
  { intros [= <- <-]. by exists []. }
  destruct (tb_ir1_inst tb h) as [i|] eqn:Hi; [|done]. simpl. unfold tb_ir1_inst in Hi.
  destruct (OPT_FLAG_RDTN opt i p) as [[i' r]|] eqn:Hs; [|done]. simpl.
  set (tb1 := set_ir1 tb (<[h:=i']> (ir1 tb))).
  destruct (OPT_INSTS_PTN ptn smc tb1 h loc) as [[tb2 loc2]|] eqn:Hp; [|done]. simpl. intros H.
  apply opt_insts_ptn_cores in Hp as Hc. unfold same_cores, tb1 in Hc. simpl in Hc.
  assert (length (ir1 tb2) = length (ir1 tb)) as Hl.
  { apply (f_equal length) in Hc. by rewrite !length_fmap, length_insert in Hc. }
  destruct (IH tb2 r loc2 ltac:(lia) H) as (l2 & Hl2 & Heq).
  assert (core <$> take h (ir1 tb2) = core <$> take h (ir1 tb)) as Ht.
  { by rewrite !fmap_take, Hc, list_fmap_insert, take_insert_ge, <-fmap_take by lia. }
  destruct (rdtn_insts_core _ _ _ _ _ _ Ht Hl2) as (l3 & Hl3 & Hc3).
  exists (l3 ++ [i']). rewrite (take_S_r _ _ i Hi), rdtn_insts_snoc, Hs. simpl.
  rewrite Hl3. split; [done|].
  rewrite Heq, Hc3, fmap_app, <-app_assoc. f_equal. simpl.
  rewrite fmap_drop, Hc, list_fmap_insert, drop_insert_ge, Nat.sub_diag by lia.
  rewrite <-fmap_drop. rewrite (drop_S _ i h Hi). done.
Qed.

(** C29 Optimising a block gives the flag annotations of the liveness pass
    started from [flag_reduction_check], whatever the pattern scan does, and the
    block's recorded live-in flags are the result of that pass. *)
Theorem ir1_optimization_flags opt ptn smc tb tb' p :
  ir1 tb ≠ [] → flag_reduction_check tb = Some p →
  ir1_optimization opt ptn smc tb = Some tb' →
  ∃ l' q, rdtn_insts opt (ir1 tb) p = Some (l', q) ∧ eflag_use tb' = q ∧
    core <$> ir1 tb' = core <$> l'.
Proof.
  intros Hne Hp. unfold ir1_optimization, tb_ir1_num. rewrite Hp.
  destruct (Nat.eqb_spec (length (ir1 tb)) 0) as [?%nil_length_inv|_]; [done|]. simpl.
  destruct (optimize_insts _ _ _ _ _ _ _) as [[tb1 q]|] eqn:Ho; [|done]. simpl. intros [= <-].
  destruct (optimize_insts_rdtn _ _ _ _ _ _ _ _ _ (le_n _) Ho) as (l' & Hl & Hc).
  rewrite firstn_all in Hl. rewrite drop_all, app_nil_r in Hc. eauto.
Qed.

(** ** The liveness equations over a translation unit *)

(** What the blocks handed to [over_tb_rfd] satisfy: flag masks are bytes, the
    block type is one [get_last_info] sets, and successors are in the list. *)
Record tb_ok (n : nat) (tb : TranslationBlock) : Prop := {
  ok_use : in_u 8 (eflag_use tb);
  ok_out : in_u 8 (eflag_out tb);
  ok_type : last_ir1_type tb ≠ IR1_TYPE_COUNT;
  ok_next : ∀ s, next_tb tb = Some s → (s < n)%nat;
  ok_target : ∀ s, target_tb tb = Some s → (s < n)%nat
}.

Definition tbs_ok (n : nat) (tbs : list TranslationBlock) : Prop :=
  length tbs = n ∧ ∀ i tb, tbs !! i = Some tb → tb_ok n tb.

(** [s] is a successor the equations know of. *)
Inductive flows_to (tb : TranslationBlock) (s : nat) : Prop :=
  | flow_branch_target n : last_ir1_type tb = IR1_TYPE_BRANCH →
      next_tb tb = Some n → target_tb tb = Some s → flows_to tb s
  | flow_branch_next t : last_ir1_type tb = IR1_TYPE_BRANCH →
      next_tb tb = Some s → target_tb tb = Some t → flows_to tb s
  | flow_jump : last_ir1_type tb = IR1_TYPE_JUMP ∨ last_ir1_type tb = IR1_TYPE_CALL →
      target_tb tb = Some s → flows_to tb s
  | flow_normal : last_ir1_type tb = IR1_TYPE_NORMAL → next_tb tb = Some s → flows_to tb s.

(** Some successor is unknown. *)
Definition flows_out (tb : TranslationBlock) : bool :=
  match last_ir1_type tb with
  | IR1_TYPE_BRANCH =>
      match next_tb tb, target_tb tb with Some _, Some _ => false | _, _ => true end
  | IR1_TYPE_JUMP | IR1_TYPE_CALL =>
      match target_tb tb with Some _ => false | None => true end
  | IR1_TYPE_NORMAL => match next_tb tb with Some _ => false | None => true end
  | IR1_TYPE_CALLIN | IR1_TYPE_JUMPIN | IR1_TYPE_RET => true
  | IR1_TYPE_SYSCALL | IR1_TYPE_COUNT => false
  end.

Lemma succ_use_range n tbs s :
  tbs_ok n tbs → (s < n)%nat → ∃ u, succ_eflag_use tbs s = Some u ∧ in_u 8 u.
Proof.
  intros [Hl Hok] Hs. unfold succ_eflag_use.
  destruct (lookup_lt_is_Some_2 tbs s ltac:(lia)) as [tb Htb]. rewrite Htb. simpl.
  eexists. split; [done|]. by apply (Hok s tb).
Qed.

(** The mask [get_eflag_out] adds. *)
Definition succ_union (tbs : list TranslationBlock) (tb : TranslationBlock) : option Z :=
  if flows_out tb then Some __ALL_EFLAGS else
  match last_ir1_type tb with
  | IR1_TYPE_BRANCH =>
      t ← target_tb tb; ut ← succ_eflag_use tbs t;
      n ← next_tb tb; un ← succ_eflag_use tbs n; Some (ut .| un)
  | IR1_TYPE_JUMP | IR1_TYPE_CALL => t ← target_tb tb; succ_eflag_use tbs t
  | IR1_TYPE_NORMAL => n ← next_tb tb; succ_eflag_use tbs n
  | IR1_TYPE_SYSCALL => Some 0
  | _ => None
  end.

Lemma get_eflag_out_eq tbs tb :
  get_eflag_out tbs tb =
    (m ← succ_union tbs tb; Some (set_eflag_out tb (eflag_out tb .| m))).
Proof.
  unfold get_eflag_out, succ_union, flows_out.
  destruct (last_ir1_type tb), (next_tb tb) as [a|], (target_tb tb) as [b|]; simpl; try done;
    try (destruct (succ_eflag_use tbs b); simpl; [|done]);
    try (destruct (succ_eflag_use tbs a); simpl; [|done]);
    rewrite ?Z.lor_assoc, ?Z.lor_0_r; by destruct tb.
Qed.

Lemma succ_union_spec n tbs tb :
  tbs_ok n tbs → tb_ok n tb →
  ∃ m, succ_union tbs tb = Some m ∧ in_u 8 m ∧
    (flows_out tb = true → m = __ALL_EFLAGS) ∧
    (∀ s u, flows_to tb s → succ_eflag_use tbs s = Some u → u ⊑m m).
Proof.
  intros Htbs [Hu Ho Ht Hn Htg]. unfold succ_union.
  destruct (flows_out tb) eqn:Hf.
  { eexists. split_and!; [done|by vm_compute|done|]. intros s u Hs. exfalso. revert Hf.
    unfold flows_out. destruct Hs as [? -> -> -> | ? -> -> -> | [-> | ->] -> | -> ->]; done. }
  unfold flows_out in Hf.
  assert (∀ t, target_tb tb = Some t → ∃ u, succ_eflag_use tbs t = Some u ∧ in_u 8 u) as Hst
    by (intros t Hx; eapply succ_use_range; eauto).
  assert (∀ t, next_tb tb = Some t → ∃ u, succ_eflag_use tbs t = Some u ∧ in_u 8 u) as Hsn
    by (intros t Hx; eapply succ_use_range; eauto).
  destruct (next_tb tb) as [a|] eqn:Ha, (target_tb tb) as [b|] eqn:Hb;
    try destruct (Hsn _ eq_refl) as (ua & Eua & Rua);
    try destruct (Hst _ eq_refl) as (ub & Eub & Rub);
    destruct (last_ir1_type tb) eqn:Hty; try done; simpl; rewrite ?Eua, ?Eub; simpl;
    (eexists; split_and!; [done|first [by apply in_u_lor|done|by vm_compute]|done|]);
    intros s u Hs Hsu; destruct Hs; destruct_or?; try congruence; simplify_eq;
    first [reflexivity | apply mask_le_lor_l | apply mask_le_lor_r].
Qed.

(** One body: the new block, with larger masks. *)
Lemma rfd_body_spec n defs i tbs :
  length defs = n → tbs_ok n tbs → (i < n)%nat →
  ∃ tb d m, tbs !! i = Some tb ∧ defs !! i = Some d ∧ succ_union tbs tb = Some m ∧
    in_u 8 m ∧
    let o := eflag_out tb .| m in
    let u := eflag_use tb .| (o .& ~. d) in
    rfd_body defs i tbs =
      Some (<[i := set_eflag_use (set_eflag_out tb o) u]> tbs,
            negb (u =? eflag_use tb) || negb (o =? eflag_out tb)).
Proof.
  intros Hd Htbs Hi. pose proof Htbs as [Hl Hok].
  destruct (lookup_lt_is_Some_2 tbs i ltac:(lia)) as [tb Htb].
  destruct (lookup_lt_is_Some_2 defs i ltac:(lia)) as [d Hdi].
  destruct (succ_union_spec n tbs tb Htbs (Hok i tb Htb)) as (m & Hm & Hr & _).
  exists tb, d, m. split_and!; [done..|]. unfold rfd_body.
  rewrite Htb, Hdi. simpl. rewrite get_eflag_out_eq, Hm. done.
Qed.

Definition rfd_measure (tbs : list TranslationBlock) : nat :=
  sum_list_with (λ tb, popcount 8 (eflag_use tb) + popcount 8 (eflag_out tb))%nat tbs.

Lemma tb_ok_update n tb o u :
  tb_ok n tb → in_u 8 o → in_u 8 u → tb_ok n (set_eflag_use (set_eflag_out tb o) u).
Proof. intros [] Ho Hu. by split. Qed.

Lemma tbs_ok_insert n tbs i tb : tbs_ok n tbs → tb_ok n tb → tbs_ok n (<[i:=tb]> tbs).
Proof.
  intros [Hl Hok] Htb. split; [by rewrite length_insert|]. intros j tb' Hj.
  apply list_lookup_insert_Some in Hj as [(-> & <- & _)|[_ Hj]]; [done|by apply (Hok j)].
Qed.

Lemma tbs_ok_measure n tbs : length tbs = n → (rfd_measure tbs ≤ 16 * n)%nat.
Proof.
  intros <-. unfold rfd_measure. apply sum_list_with_bound. intros tb.
  pose proof (popcount_le_width 8 (eflag_use tb)). pose proof (popcount_le_width 8 (eflag_out tb)).
  lia.
Qed.

Lemma rfd_masks tb m d :
  let o := eflag_out tb .| m in
  let u := eflag_use tb .| (o .& ~. d) in
  eflag_out tb ⊑m o ∧ eflag_use tb ⊑m u.
Proof. split; apply mask_le_lor_l. Qed.

Global Instance rfd_dataflow n defs :
  length defs = n → DataflowBody n (rfd_body defs) (tbs_ok n) rfd_measure (16 * n).
Proof.
  intros Hd. split.
  - intros i tbs Hi Htbs. destruct (rfd_body_spec n defs i tbs Hd Htbs Hi)
      as (tb & d & m & _ & _ & _ & _ & ->). eauto.
  - intros i tbs tbs' c Hi Htbs. destruct (rfd_body_spec n defs i tbs Hd Htbs Hi)
      as (tb & d & m & Htb & _ & _ & Hm & ->). intros [= <- _].
    pose proof (proj2 Htbs i tb Htb) as Hok. apply tbs_ok_insert, tb_ok_update; [done..| |];
    [apply in_u_lor; [lia|apply Hok|done]|].
    apply in_u_lor; [lia|apply Hok|]. apply in_u_land_l; [lia|].
    apply in_u_lor; [lia|apply Hok|done].
  - intros i tbs tbs' Hi Htbs. destruct (rfd_body_spec n defs i tbs Hd Htbs Hi)
      as (tb & d & m & Htb & _ & _ & _ & ->). intros [= <- Hc].
    apply orb_false_elim in Hc as [Hu Ho]. apply negb_false_iff, Z.eqb_eq in Hu, Ho.
    rewrite Hu, Ho. apply list_insert_id. rewrite Htb. by destruct tb.
  - intros i tbs tbs' Hi Htbs. destruct (rfd_body_spec n defs i tbs Hd Htbs Hi)
      as (tb & d & m & Htb & _ & _ & Hm & ->). intros [= <- Hc].
    pose proof (proj2 Htbs i tb Htb) as Hok. destruct (rfd_masks tb m d) as [Lo Lu].
    set (o := eflag_out tb .| m) in *. set (u := eflag_use tb .| (o .& ~. d)) in *.
    pose proof (sum_list_with_insert
      (λ tb, popcount 8 (eflag_use tb) + popcount 8 (eflag_out tb))%nat tbs i tb
      (set_eflag_use (set_eflag_out tb o) u) Htb) as Hsum. unfold rfd_measure. simpl in Hsum.
    assert (in_u 8 o) as Ro by (apply in_u_lor; [lia|apply Hok|done]).
    assert (in_u 8 u) as Ru by (apply in_u_lor; [lia|apply Hok|by apply in_u_land_l]).
    pose proof (popcount_mono 8 _ _ Lo). pose proof (popcount_mono 8 _ _ Lu).
    apply orb_prop in Hc as [Hc|Hc]; bool_to_prop.
    + pose proof (popcount_strict 8 (eflag_use tb) u Ru (proj1 (ok_use _ _ Hok)) Lu ltac:(done)).
      lia.
    + pose proof (popcount_strict 8 (eflag_out tb) o Ro (proj1 (ok_out _ _ Hok)) Lo ltac:(done)).
      lia.
  - intros tbs [Hl _]. by apply tbs_ok_measure.
Qed.

(** C22 The liveness loop over a translation unit terminates: two bytes per block
    can only grow, so [16 * tb_num + 1] rounds reach the end, for any contents of
    the [eflag_def] array. *)
Theorem rfd_solve_terminates defs tbs :
  length defs = length tbs → tbs_ok (length tbs) tbs →
  ∃ tbs', rfd_solve defs tbs = Some tbs' ∧ tbs_ok (length tbs) tbs'.
Proof.
  intros Hd Hok. pose proof (rfd_dataflow _ defs Hd) as Hb.
  eapply (iterate_total _ _ _ rfd_measure (16 * length tbs)); [done|].
  unfold rfd_fuel. lia.
Qed.

(** ** Soundness of the solution *)

(** What the flag pass reads and writes of an instruction. *)
Definition flag_view (i : IR1_INST) : la_dt_insn * Z * Z := (info i, _eflag_use i, _eflag_def i).

Lemma rdtn_insts_view l1 l2 p l1' q :
  info <$> l1 = info <$> l2 → rdtn_insts true l1 p = Some (l1', q) →
  ∃ l2', rdtn_insts true l2 p = Some (l2', q) ∧ flag_view <$> l1' = flag_view <$> l2'.
Proof.
  revert l2 l1' q. induction l1 as [|i l1 IH]; intros [|j l2] l1' q Hc; try done.
  { intros [= <- <-]. by exists []. }
  pose proof (f_equal (hd (info i)) Hc) as Hij. apply (f_equal tail) in Hc.
  change (info i = info j) in Hij. change (info <$> l1 = info <$> l2) in Hc.
  intros (e & m & r & Hl & He & [= -> ->])%rdtn_insts_cons.
  destruct (IH l2 m r Hc Hl) as (m2 & Hm2 & Hv). simpl. rewrite Hm2. simpl.
  rewrite flag_reduction_spec, <-(flag_effect_of_info i j Hij), He. simpl.
  eexists. split; [done|]. refine (f_equal2 cons _ Hv). unfold flag_view. simpl. by rewrite Hij.
Qed.

Lemma flag_effect_range i e : flag_effect_of i = Some e → in_u 8 (fe_use e).
Proof.
  unfold flag_effect_of. destruct (ir1_opcode_to_eflag_usedef i) as [ud|] eqn:Hud; [|done].
  assert (in_u 8 (use ud)) as Hr.
  { assert (usedef_byteb ud = true) as Hb.
    { unfold ir1_opcode_to_eflag_usedef in Hud. simplify_option_eq.
      repeat case_match; simplify_eq; apply table_bytes. }
    unfold usedef_byteb, byteb in Hb. bool_to_prop. unfold in_u. change (2 ^ 8) with 256. lia. }
  intros H. simplify_option_eq. case_match; [|done]. by apply in_u_lor.
Qed.

Lemma rdtn_insts_range l p l' q :
  in_u 8 p → rdtn_insts true l p = Some (l', q) → in_u 8 q.
Proof.
  intros Hp. revert l' q. induction l as [|i l IH]; intros l' q; [by intros [= _ <-]|].
  intros (e & m & r & Hl & He & [= _ ->])%rdtn_insts_cons. unfold live_before.
  apply in_u_lor; [lia|apply in_u_land_l; [lia|by eapply IH]|by eapply flag_effect_range].
Qed.

(** First phase: block by block from all flags pending. *)
Definition init_rel (tb tb1 : TranslationBlock) : Prop :=
  (ir1 tb = [] ∧ tb1 = tb) ∨
  ∃ l' q, rdtn_insts true (ir1 tb) __ALL_EFLAGS = Some (l', q) ∧
    tb1 = set_eflag_use (set_ir1 tb l') q.

Lemma rfd_init_rel junk tbs tbs1 ds :
  rfd_init true junk tbs = Some (tbs1, ds) →
  Forall2 init_rel tbs tbs1 ∧ length ds = length tbs.
Proof.
  revert junk tbs1 ds. induction tbs as [|tb tbs IH]; intros junk tbs1 ds; simpl.
  { intros [= <- <-]. by split; [constructor|]. }
  destruct (rfd_init_tb true (hd 0 junk) tb) as [[tb1 d]|] eqn:Htb; [|done]. simpl.
  destruct (rfd_init true (tl junk) tbs) as [[tbs2 ds2]|] eqn:Hr; [|done]. simpl.
  intros [= <- <-]. destruct (IH _ _ _ Hr) as [Hf Hl]. split; [|by simpl; rewrite Hl].
  constructor; [|done]. unfold rfd_init_tb in Htb.
  destruct (ir1 tb) as [|i l] eqn:Hir; [injection Htb as <- _; by left|]. right. rewrite Hir.
  destruct (rdtn_insts true (i :: l) __ALL_EFLAGS) as [[l' q]|]; [|done]. simpl in Htb.
  injection Htb as <- <-. eauto.
Qed.

Lemma init_rel_ok n tb tb1 : init_rel tb tb1 → tb_ok n tb → tb_ok n tb1.
Proof.
  intros [[_ ->]|(l' & q & Hr & ->)] Hok; [done|]. destruct Hok. split; try done.
  by eapply rdtn_insts_range; [|exact Hr]; vm_compute.
Qed.

(** Second phase: the masks grow, nothing else changes. *)
Definition grow_rel (tb1 tb2 : TranslationBlock) : Prop :=
  ∃ o u, tb2 = set_eflag_use (set_eflag_out tb1 o) u ∧ eflag_use tb1 ⊑m u ∧ eflag_out tb1 ⊑m o.

Lemma grow_rel_refl tb : grow_rel tb tb.
Proof. exists (eflag_out tb), (eflag_use tb). split_and!; [by destruct tb|done..]. Qed.

Lemma grow_rel_step tb1 tb2 o u :
  grow_rel tb1 tb2 → eflag_use tb2 ⊑m u → eflag_out tb2 ⊑m o →
  grow_rel tb1 (set_eflag_use (set_eflag_out tb2 o) u).
Proof.
  intros (o' & u' & -> & Hu & Ho) Hu2 Ho2. exists o, u. simpl in *.
  split_and!; [done|by etrans|by etrans].
Qed.

Lemma rfd_solve_grows defs tbs tbs' :
  length defs = length tbs → tbs_ok (length tbs) tbs → rfd_solve defs tbs = Some tbs' →
  Forall2 grow_rel tbs tbs'.
Proof.
  intros Hd Hok Hs. pose proof (rfd_dataflow _ defs Hd) as Hb.
  eapply (iterate_preserves (rfd_body defs) (length tbs)
    (λ s, tbs_ok (length tbs) s ∧ Forall2 grow_rel tbs s)); [| |exact Hs].
  - intros i s s' c Hi [Hs1 Hf] He. split; [by eapply (body_inv (DataflowBody := Hb))|].
    destruct (rfd_body_spec _ defs i s Hd Hs1 Hi) as (tb & d & m & Htb & _ & _ & _ & He').
    rewrite He' in He. injection He as <- _.
    destruct (Forall2_lookup_r _ _ _ _ _ Hf Htb) as (tb0 & Htb0 & Hg).
    rewrite <-(list_insert_id tbs i tb0 Htb0). apply Forall2_insert; [done|].
    destruct (rfd_masks tb m d). by apply grow_rel_step.
  - split; [done|]. apply Forall2_same_length_lookup. split; [done|].
    intros i x y Hx Hy. rewrite Hx in Hy. injection Hy as <-. apply grow_rel_refl.
Qed.

(** At the fixed point the flags live out of a block contain the flags live into
    its successors. *)
Lemma rfd_solve_edges defs tbs tbs' i tb :
  length defs = length tbs → tbs_ok (length tbs) tbs → rfd_solve defs tbs = Some tbs' →
  tbs' !! i = Some tb →
  (flows_out tb = true → __ALL_EFLAGS ⊑m eflag_out tb) ∧
  (∀ s ts, flows_to tb s → tbs' !! s = Some ts → eflag_use ts ⊑m eflag_out tb).
Proof.
  intros Hd Hok Hs Htb. pose proof (rfd_dataflow _ defs Hd) as Hb.
  destruct (iterate_fixpoint _ _ _ rfd_measure _ _ _ _ Hok Hs) as [Hok' Hfix].
  assert (i < length tbs)%nat as Hi.
  { apply lookup_lt_Some in Htb. destruct Hok' as [Hl _]. lia. }
  specialize (Hfix i Hi).
  destruct (rfd_body_spec _ defs i tbs' Hd Hok' Hi) as (tb0 & d & m & Htb0 & _ & Hm & _ & He).
  rewrite Htb in Htb0. injection Htb0 as <-. rewrite He in Hfix. injection Hfix as _ Hc.
  apply orb_false_elim in Hc as [_ Ho]. apply negb_false_iff, Z.eqb_eq in Ho.
  assert (m ⊑m eflag_out tb) as Hle by (rewrite <-Ho; apply mask_le_lor_r).
  destruct (succ_union_spec _ tbs' tb Hok' (proj2 Hok' i tb Htb)) as (m' & Hm' & _ & Hall & Hsu).
  rewrite Hm in Hm'. injection Hm' as <-. split.
  - intros Hf. by rewrite <-(Hall Hf).
  - intros s ts Hf Hts. etrans; [|exact Hle]. apply (Hsu s); [done|].
    unfold succ_eflag_use. by rewrite Hts.
Qed.

(** Third phase: the final pass over one block. *)
Lemma over_tb_block ptn smc tb tb' :
  ir1 tb ≠ [] → ir1_optimization_over_tb true ptn smc tb = Some tb' →
  ∃ p l' q, flag_reduction_check tb = Some p ∧
    rdtn_insts true (ir1 tb) (p .& eflag_out tb) = Some (l', q) ∧ eflag_use tb' = q ∧
    core <$> ir1 tb' = core <$> l'.
Proof.
  intros Hne. unfold ir1_optimization_over_tb, tb_ir1_num.
  destruct (Nat.eqb_spec (length (ir1 tb)) 0) as [?%nil_length_inv|_]; [done|].
  destruct (flag_reduction_check tb) as [p|]; [|done]. simpl.
  destruct (optimize_insts _ _ _ _ _ _ _) as [[tb1 q]|] eqn:Ho; [|done]. simpl. intros [= <-].
  destruct (optimize_insts_rdtn _ _ _ _ _ _ _ _ _ (le_n _) Ho) as (l' & Hl & Hc).
  rewrite firstn_all in Hl. rewrite drop_all, app_nil_r in Hc. exists p, l', q. done.
Qed.

(** The pattern scan and the final pass keep the fields of the equations. *)
Definition same_flow (tb tb' : TranslationBlock) : Prop :=
  eflag_out tb' = eflag_out tb ∧ next_tb tb' = next_tb tb ∧ target_tb tb' = target_tb tb ∧
  last_ir1_type tb' = last_ir1_type tb.

Lemma upd_ir1_flow tb k f : same_flow tb (upd_ir1 tb k f).
Proof. done. Qed.

Lemma same_flow_trans a b c : same_flow a b → same_flow b c → same_flow a c.
Proof. unfold same_flow. intuition congruence. Qed.

Lemma pair_outcome_flow tb h s0 tb' r : pair_outcome tb h s0 tb' r → same_flow tb tb'.
Proof. intros [->|(_ & _ & _ & opc & _ & ->)]; done. Qed.

Lemma opt_insts_ptn_flow opt smc tb h p tb' p' :
  OPT_INSTS_PTN opt smc tb h p = Some (tb', p') → same_flow tb tb'.
Proof.
  unfold OPT_INSTS_PTN. case_match; [by intros [= <- _]|].
  destruct (insts_pattern_scan_con opt tb h _) as [[tb1 sc]|] eqn:Hc; [|done]. simpl.
  assert (same_flow tb tb1) as H1.
  { revert Hc. unfold insts_pattern_scan_con. destruct (tb_ir1_inst tb h) as [i|]; [|done].
    simpl. repeat case_match; try (by intros [= <- _]).
    destruct (inst_pattern _ _ _ _) as [[tb2 r]|] eqn:Hp; [|done]. simpl.
    assert (same_flow tb tb2).
    { destruct (inst_pattern_cases _ _ _ _ _ _ Hp)
        as [Ho|(_ & _ & _ & _ & _ & _ & _ & ->)]; [by eapply pair_outcome_flow|done]. }
    destruct r; by intros [= <- _]. }
  case_match; [|by intros [= <- _]].
  destruct (insts_pattern_scan_jcc_end _ _ _ _ _) as [[[tb2 sj] hd]|] eqn:Hj; [|done].
  simpl. intros [= <- _]. eapply same_flow_trans; [done|].
  pose proof Hj as Hj'. unfold insts_pattern_scan_jcc_end, tb_ir1_inst in Hj'.
  destruct (ir1 tb1 !! h) as [i|] eqn:Hi; [|done]. clear Hj'.
  destruct (scan_jcc_end_cases _ _ _ _ _ _ _ _ _ Hi Hj)
    as [[-> _]|(_ & _ & _ & _ & opc & xx & c & _ & _ & ->)]; [done|].
  unfold fuse_jcc. by repeat case_match.
Qed.

Lemma optimize_insts_flow opt ptn smc n tb p loc tb' q :
  optimize_insts opt ptn smc n tb p loc = Some (tb', q) → same_flow tb tb'.
Proof.
  revert tb p loc. induction n as [|h IH]; intros tb p loc; simpl; [by intros [= <- _]|].
  destruct (tb_ir1_inst tb h) as [i|]; [|done]. simpl.
  destruct (OPT_FLAG_RDTN opt i p) as [[i' r]|]; [|done]. simpl.
  destruct (OPT_INSTS_PTN _ _ _ _ _) as [[tb2 loc2]|] eqn:Hp; [|done]. simpl. intros H.
  eapply same_flow_trans; [|by eapply IH].
  eapply same_flow_trans; [|by eapply opt_insts_ptn_flow]. done.
Qed.

Lemma over_tb_flow opt ptn smc tb tb' :
  ir1_optimization_over_tb opt ptn smc tb = Some tb' → same_flow tb tb'.
Proof.
  unfold ir1_optimization_over_tb. case_match; [by intros [= <-]|].
  destruct (flag_reduction_check tb) as [p|]; [|done]. simpl.
  destruct (optimize_insts _ _ _ _ _ _ _) as [[tb1 q]|] eqn:Ho; [|done]. simpl. intros [= <-].
  by apply optimize_insts_flow in Ho.
Qed.

(** The flow relations only read the fields the last phase keeps. *)
Lemma same_flow_flows tb tb' :
  same_flow tb tb' → flows_out tb' = flows_out tb ∧ ∀ s, flows_to tb' s → flows_to tb s.
Proof.
  intros (Ho & Hn & Ht & Hty). split; [unfold flows_out; by rewrite Hn, Ht, Hty|].
  intros s Hf. destruct Hf; rewrite Hty in *; rewrite ?Hn, ?Ht in *.
  - by eapply flow_branch_target.
  - by eapply flow_branch_next.
  - by eapply flow_jump.
  - by eapply flow_normal.
Qed.

Lemma check_le_all tb p : flag_reduction_check tb = Some p → p ⊑m __ALL_EFLAGS.
Proof.
  unfold flag_reduction_check, pending_use_of_succ. intros H.
  repeat first [progress simplify_option_eq | case_match]; try done; apply mask_le_0_l.
Qed.

(** The final pass finds no more flags live on entry than the equations did. *)
Lemma final_use_le ptn smc tb0 tb1 tb2 tb3 :
  init_rel tb0 tb1 → grow_rel tb1 tb2 →
  ir1_optimization_over_tb true ptn smc tb2 = Some tb3 → eflag_use tb3 ⊑m eflag_use tb2.
Proof.
  intros Hi (o & u & -> & Hu & _) H3.
  destruct (decide (ir1 tb1 = [])) as [Hnil|Hne].
  { revert H3. unfold ir1_optimization_over_tb, tb_ir1_num. simpl. rewrite Hnil. simpl.
    by intros [= <-]. }
  apply over_tb_block in H3 as (p & l3 & q3 & Hp & Hr & -> & _); [|done]. simpl in *.
  etrans; [|exact Hu]. destruct Hi as [[Hn ->]|(l1 & q1 & Hr1 & ->)]; [done|]. simpl in *.
  assert (p .& o ⊑m __ALL_EFLAGS) as Hle.
  { etrans; [apply mask_le_land_l|by eapply check_le_all]. }
  destruct (rdtn_insts_mono _ _ _ _ _ Hle Hr) as (l4 & q4 & Hr4 & Hq).
  destruct (rdtn_insts_view _ (ir1 tb0) _ _ _ (rdtn_insts_info _ _ _ _ _ Hr1) Hr4) as (l5 & Hr5 & _).
  rewrite Hr1 in Hr5. by injection Hr5 as _ <-.
Qed.

(** The three phases of [over_tb_rfd], block by block. *)
Lemma over_tb_rfd_phases ptn smc junk tbs tbs' :
  tbs_ok (length tbs) tbs → over_tb_rfd true ptn smc junk tbs = Some tbs' →
  ∃ tbs1 tbs2 ds, Forall2 init_rel tbs tbs1 ∧ Forall2 grow_rel tbs1 tbs2 ∧
    Forall2 (λ a b, ir1_optimization_over_tb true ptn smc a = Some b) tbs2 tbs' ∧
    length ds = length tbs1 ∧ tbs_ok (length tbs1) tbs1 ∧ rfd_solve ds tbs1 = Some tbs2.
Proof.
  intros Hok. unfold over_tb_rfd.
  destruct (rfd_init true junk tbs) as [[tbs1 ds]|] eqn:Hi; [|done]. simpl.
  destruct (rfd_solve ds tbs1) as [tbs2|] eqn:Hs; [|done]. simpl. intros Hm.
  apply rfd_init_rel in Hi as [Hi Hl]. apply mapM_Some in Hm.
  pose proof (Forall2_length Hi) as Hlen.
  assert (tbs_ok (length tbs1) tbs1) as Hok1.
  { split; [done|]. intros i tb1 Htb1. rewrite <-Hlen.
    destruct (Forall2_lookup_r _ _ _ _ _ Hi Htb1) as (tb & Htb & Hr).
    eapply init_rel_ok; [done|]. by apply (proj2 Hok i). }
  exists tbs1, tbs2, ds. split_and!; try done; [|lia].
  by apply (rfd_solve_grows ds); [lia|..].
Qed.

(** C11 The cross-block solution is sound: after [over_tb_rfd], the flags a block
    takes as live at its exit contain the flags finally live on entry of every
    successor the unit knows, and all flags when some successor is unknown. *)
Theorem over_tb_rfd_edges ptn smc junk tbs tbs' i tb :
  tbs_ok (length tbs) tbs → over_tb_rfd true ptn smc junk tbs = Some tbs' →
  tbs' !! i = Some tb →
  (flows_out tb = true → __ALL_EFLAGS ⊑m eflag_out tb) ∧
  (∀ s ts, flows_to tb s → tbs' !! s = Some ts → eflag_use ts ⊑m eflag_out tb).
Proof.
  intros Hok H Htb.
  destruct (over_tb_rfd_phases _ _ _ _ _ Hok H) as (tbs1 & tbs2 & ds & Hi & Hg & Hm & Hl & Hok1 & Hs).
  destruct (Forall2_lookup_r _ _ _ _ _ Hm Htb) as (tb2 & Htb2 & H2).
  pose proof (over_tb_flow _ _ _ _ _ H2) as Hfl.
  destruct (same_flow_flows _ _ Hfl) as [Hfo Hft]. destruct Hfl as [-> _].
  destruct (rfd_solve_edges ds tbs1 tbs2 i tb2 Hl Hok1 Hs Htb2) as [Hout Hedge].
  split; [by rewrite Hfo|]. intros s ts Hf Hts.
  destruct (Forall2_lookup_r _ _ _ _ _ Hm Hts) as (ts2 & Hts2 & H3).
  destruct (Forall2_lookup_r _ _ _ _ _ Hg Hts2) as (ts1 & Hts1 & Hg1).
  destruct (Forall2_lookup_r _ _ _ _ _ Hi Hts1) as (ts0 & _ & Hi1).
  etrans; [by eapply final_use_le|]. apply (Hedge s); auto.
Qed.

(** The check at the end of a block looks at the decoded instructions only. *)
Lemma pass1_info l l' :
  info <$> l = info <$> l' → flag_reduction_pass1_rev l = flag_reduction_pass1_rev l'.
Proof.
  revert l'. induction l as [|i l IH]; intros [|j l'] H; try done.
  rewrite !fmap_cons in H. injection H as Hi Hl. cbn [flag_reduction_pass1_rev].
  replace (ir1_opcode_to_eflag_usedef j) with (ir1_opcode_to_eflag_usedef i)
    by (unfold ir1_opcode_to_eflag_usedef, ir1_opcode; by rewrite Hi).
  by rewrite (IH l' Hl).
Qed.

Lemma check_info tb tb' :
  info <$> ir1 tb = info <$> ir1 tb' → flag_reduction_check tb = flag_reduction_check tb'.
Proof.
  intros H. unfold flag_reduction_check, flag_reduction_pass1, pending_use_of_succ, tb_ir1_inst_last.
  rewrite (pass1_info (rev (ir1 tb)) (rev (ir1 tb'))) by (change (map info (rev (ir1 tb)) = map info (rev (ir1 tb'))); rewrite !map_rev; by f_equal).
  pose proof (f_equal length H) as L. rewrite !length_fmap in L. rewrite L.
  pose proof (f_equal (lookup (pred (length (ir1 tb')))) H) as E. rewrite !list_lookup_fmap in E.
  destruct (ir1 tb !! _) as [i|], (ir1 tb' !! _) as [j|]; try done. injection E as E.
  destruct i as [ai], j as [aj]. simpl in E. by subst.
Qed.

(** C21 After [over_tb_rfd] each block carries the annotations of the liveness
    pass over its original instructions, started from the flags live at its exit that
    [flag_reduction_check] lets through for the original block (see the property of that
    check), and records the live-in flags that pass computes. *)
Theorem over_tb_rfd_blocks ptn smc junk tbs tbs' i tb0 tb :
  tbs_ok (length tbs) tbs → over_tb_rfd true ptn smc junk tbs = Some tbs' →
  tbs !! i = Some tb0 → ir1 tb0 ≠ [] → tbs' !! i = Some tb →
  ∃ p l' q, flag_reduction_check tb0 = Some p ∧
    rdtn_insts true (ir1 tb0) (p .& eflag_out tb) = Some (l', q) ∧
    eflag_use tb = q ∧ flag_view <$> ir1 tb = flag_view <$> l'.
Proof.
  intros Hok H Htb0 Hne Htb.
  destruct (over_tb_rfd_phases _ _ _ _ _ Hok H) as (tbs1 & tbs2 & ds & Hi & Hg & Hm & _).
  destruct (Forall2_lookup_r _ _ _ _ _ Hm Htb) as (tb2 & Htb2 & H2).
  destruct (Forall2_lookup_r _ _ _ _ _ Hg Htb2) as (tb1 & Htb1 & o & u & -> & _).
  destruct (Forall2_lookup_r _ _ _ _ _ Hi Htb1) as (tb0' & Htb0' & Hi1).
  rewrite Htb0 in Htb0'. injection Htb0' as <-.
  destruct Hi1 as [[? _]|(l1 & q1 & Hr1 & ->)]; [done|].
  pose proof (rdtn_insts_info _ _ _ _ _ Hr1) as Hinfo.
  pose proof (over_tb_flow _ _ _ _ _ H2) as [Ho _]. simpl in Ho.
  apply over_tb_block in H2 as (p & l' & q & Hp & Hr & -> & Hc);
    [|simpl; intros ->; simpl in Hinfo; by destruct (ir1 tb0)].
  simpl in *. rewrite Ho. exists p.
  destruct (rdtn_insts_view _ (ir1 tb0) _ _ _ Hinfo Hr) as (l2 & Hr2 & Hv).
  exists l2, q. split_and!; [by rewrite <- Hp; apply check_info|done..|]. rewrite <-Hv.
  apply (f_equal (λ l, flag_view <$> l)) in Hc. rewrite <-!list_fmap_compose in Hc. exact Hc.
Qed.

(** ** A unit of two blocks: a loop and its exit *)

Definition unit_tb (l : list IR1_INST) (ty : IR1_TYPE) (n t : option nat) : TranslationBlock :=
  mkTB l 0 0 n t ty 0 0 0 0 0 0 0 false 0.
Definition demo_unit : list TranslationBlock :=
  [unit_tb [inst dt_X86_INS_CMP [reg_opnd dt_X86_REG_EAX; reg_opnd dt_X86_REG_ECX];
            inst dt_X86_INS_JB [mkOpnd (OP_IMM 0x1000) 8]]
           IR1_TYPE_BRANCH (Some 1%nat) (Some 0%nat);
   unit_tb [inst dt_X86_INS_ADC [reg_opnd dt_X86_REG_EDX; reg_opnd dt_X86_REG_EBX];
            inst dt_X86_INS_JMP [mkOpnd (OP_IMM 0x1000) 8]]
           IR1_TYPE_JUMP None (Some 0%nat)].

Lemma demo_unit_ok : tbs_ok (length demo_unit) demo_unit.
Proof.
  split; [done|]. intros [|[|i]] tb; simpl; intros [= <-];
    (split; simpl; [by vm_compute|by vm_compute|done|..]); intros s [= <-]; lia.
Qed.

(** The unit and a single block as the optimiser leaves them. *)
Definition demo_solved : list TranslationBlock :=
  Eval vm_compute in default [] (over_tb_rfd true 0 false [] demo_unit).
Lemma demo_solved_eq : over_tb_rfd true 0 false [] demo_unit = Some demo_solved.
Proof. vm_compute. reflexivity. Qed.

Definition demo_ret : TranslationBlock :=
  unit_tb [inst dt_X86_INS_ADD [reg_opnd dt_X86_REG_EAX; reg_opnd dt_X86_REG_ECX];
           inst dt_X86_INS_RET []] IR1_TYPE_RET None None.
Definition demo_ret_opt : TranslationBlock :=
  Eval vm_compute in default demo_ret (ir1_optimization true 0x3ffffff false demo_ret).
Lemma demo_ret_eq :
  flag_reduction_check demo_ret = Some __ALL_EFLAGS ∧
  ir1_optimization true 0x3ffffff false demo_ret = Some demo_ret_opt.
Proof. split; vm_compute; reflexivity. Qed.

Lemma ir1_optimization_flags_witness :
  ∃ l' q, rdtn_insts true (ir1 demo_ret) __ALL_EFLAGS = Some (l', q) ∧
    eflag_use demo_ret_opt = q.
Proof.
  destruct demo_ret_eq as [Hc Ho].
  destruct (ir1_optimization_flags true 0x3ffffff false demo_ret demo_ret_opt __ALL_EFLAGS
    ltac:(discriminate) Hc Ho) as (l' & q & H & Hq & _). eauto.
Defined.

Lemma rfd_solve_terminates_witness :
  ∃ tbs', rfd_solve [__NONE; __NONE] demo_unit = Some tbs'.
Proof.
  destruct (rfd_solve_terminates [__NONE; __NONE] demo_unit eq_refl demo_unit_ok)
    as (tbs' & H & _). eauto.
Defined.

(** In the loop block the compare keeps only CF for the branch, since the exit
    block rewrites the others after reading CF. *)
Lemma over_tb_rfd_edges_witness :
  ∃ tb ts, demo_solved !! 0%nat = Some tb ∧ demo_solved !! 1%nat = Some ts ∧
    eflag_use ts = __CF ∧ eflag_use ts ⊑m eflag_out tb.
Proof.
  do 2 eexists. split; [reflexivity|]. split; [reflexivity|]. split; [reflexivity|].
  eapply (proj2 (over_tb_rfd_edges 0 false [] demo_unit demo_solved 0 _ demo_unit_ok
    demo_solved_eq eq_refl) 1%nat); [|reflexivity].
  by eapply flow_branch_next.
Defined.

Lemma over_tb_rfd_blocks_witness :
  ∃ tb0 tb p l', demo_unit !! 1%nat = Some tb0 ∧ demo_solved !! 1%nat = Some tb ∧
    flag_reduction_check tb0 = Some p ∧ rdtn_insts true (ir1 tb0) (p .& eflag_out tb) = Some (l', eflag_use tb).
Proof.
  destruct (demo_unit !! 1%nat) as [tb0|] eqn:H0; [|discriminate H0].
  destruct (demo_solved !! 1%nat) as [tb|] eqn:H1; [|discriminate H1].
  destruct (over_tb_rfd_blocks 0 false [] demo_unit demo_solved 1 tb0 tb demo_unit_ok
    demo_solved_eq H0 ltac:(injection H0 as <-; discriminate) H1)
    as (p & l' & q & Hp & Hr & Hq & _).
  exists tb0, tb, p, l'. split_and!; [done..|]. by rewrite Hq.
Defined.
