(* ===== verification/HbrFlow.v ===== *)
(** * Liveness of high bits across the blocks of a translation unit

    [over_tb_gpr_opt] and [over_tb_shbr_opt] (optimization/hbr.c) contain the same
    loop: the live-out mask of a block comes from its successors by a switch on
    [last_ir1_type], its live-in mask from a transfer function that differs
    between the two.  The loop is modelled here once, for any transfer function;
    the typeclass [Transfer] is what an analysis has to promise of its own, and
    in return the loop terminates with the least solution of the equations.  The
    masks are the unions [xmm_*]/[gpr_*] of the block, here [hb_*]. *)

From stdpp Require Import base numbers list option tactics.
From Stdlib Require Import ZArith Lia Bool.
From S2P Require Import Prelude Ir1Enum Ir1 Dataflow.
Local Open Scope Z_scope.
Local Open Scope c_scope.

Section flow.
  (** The mask of a successor outside the unit, the mask after a system call,
      and the transfer function: block index, block and live-out mask. *)
  Context (all sys : Z) (transfer : nat → TranslationBlock → Z → Z).

(** [next_tb ? next_tb->s_data->in : ALL]. *)
Definition succ_in (tbs : list TranslationBlock) (s : option nat) : option Z :=
  match s with Some j => hb_in <$> tbs !! j | None => Some all end.

(** The switch on [last_ir1_type]: the new live-out mask. *)
Definition live_out (tbs : list TranslationBlock) (tb : TranslationBlock) : option Z :=
  match last_ir1_type tb with
  | IR1_TYPE_BRANCH =>
      n ← succ_in tbs (next_tb tb); t ← succ_in tbs (target_tb tb); Some (n .| t)
  | IR1_TYPE_JUMP | IR1_TYPE_CALL => succ_in tbs (target_tb tb)
  | IR1_TYPE_NORMAL => succ_in tbs (next_tb tb)
  | IR1_TYPE_SYSCALL => Some sys
  | IR1_TYPE_CALLIN | IR1_TYPE_JUMPIN | IR1_TYPE_RET => Some all
  | IR1_TYPE_COUNT => None
  end.

(** The body of the inner loop. *)
Definition flow_body (i : nat) (tbs : list TranslationBlock) :
    option (list TranslationBlock * bool) :=
  tb ← tbs !! i;
  let old_live_in := hb_in tb in
  let old_live_out := hb_out tb in
  out ← live_out tbs tb;
  let inn := transfer i tb out in
  Some (<[i := set_hb tb inn out (hb_use tb) (hb_def tb)]> tbs,
        negb (old_live_in =? inn) || negb (old_live_out =? out)).

(** The right-hand sides of the equations, for any assignment [f] of live-in
    masks to block indices. *)
Definition from_succ (f : nat → Z) (s : option nat) : Z :=
  match s with Some j => f j | None => all end.

Definition out_eq (f : nat → Z) (tb : TranslationBlock) : Z :=
  match last_ir1_type tb with
  | IR1_TYPE_BRANCH => from_succ f (next_tb tb) .| from_succ f (target_tb tb)
  | IR1_TYPE_JUMP | IR1_TYPE_CALL => from_succ f (target_tb tb)
  | IR1_TYPE_NORMAL => from_succ f (next_tb tb)
  | IR1_TYPE_SYSCALL => sys
  | _ => all
  end.

(** The live-in masks a list of blocks holds. *)
Definition ins_of (tbs : list TranslationBlock) (j : nat) : Z :=
  match tbs !! j with Some tb => hb_in tb | None => 0 end.

(** The masks of [s] are contained in the assignment [f] of live-in masks. *)
Definition below (f : nat → Z) (s : list TranslationBlock) : Prop :=
  ∀ i tb, s !! i = Some tb → hb_in tb ⊑m f i ∧ hb_out tb ⊑m out_eq f tb.

(** [f] is a post-solution of the equations. *)
Definition closed (f : nat → Z) (tbs : list TranslationBlock) : Prop :=
  ∀ i tb, tbs !! i = Some tb → transfer i tb (out_eq f tb) ⊑m f i.

(** The masks are below the right-hand sides: the iteration ascends. *)
Definition ascending (tbs : list TranslationBlock) : Prop :=
  ∀ i tb, tbs !! i = Some tb →
    hb_out tb ⊑m out_eq (ins_of tbs) tb ∧
    hb_in tb ⊑m transfer i tb (out_eq (ins_of tbs) tb).

End flow.

(** Two masks of 32 bits per block can only grow. *)
Definition flow_fuel (tbs : list TranslationBlock) : nat := S (64 * length tbs).

(** What an analysis promises of its transfer function. *)
Class Transfer (all sys : Z) (transfer : nat → TranslationBlock → Z → Z) : Prop := {
  all_range : in_u 32 all;
  sys_range : in_u 32 sys;
  transfer_mono : ∀ i tb o o', o ⊑m o' → transfer i tb o ⊑m transfer i tb o';
  transfer_range : ∀ i tb o, in_u 32 (hb_use tb) → in_u 32 o → in_u 32 (transfer i tb o);
  transfer_static : ∀ i tb a b o,
    transfer i (set_hb tb a b (hb_use tb) (hb_def tb)) o = transfer i tb o
}.

(** A block the loop can work on. *)
Record flow_tb_ok (n : nat) (tb : TranslationBlock) : Prop := {
  fok_in : in_u 32 (hb_in tb);
  fok_out : in_u 32 (hb_out tb);
  fok_use : in_u 32 (hb_use tb);
  fok_type : last_ir1_type tb ≠ IR1_TYPE_COUNT;
  fok_next : ∀ s, next_tb tb = Some s → (s < n)%nat;
  fok_target : ∀ s, target_tb tb = Some s → (s < n)%nat
}.

Definition flow_tbs_ok (n : nat) (tbs : list TranslationBlock) : Prop :=
  length tbs = n ∧ ∀ i tb, tbs !! i = Some tb → flow_tb_ok n tb.

(** Block types and successor indices are what [get_last_info] and the unit
    builder produce. *)
Definition unit_ok (tbs : list TranslationBlock) : Prop :=
  ∀ i tb, tbs !! i = Some tb →
    last_ir1_type tb ≠ IR1_TYPE_COUNT ∧
    (∀ s, next_tb tb = Some s → (s < length tbs)%nat) ∧
    (∀ s, target_tb tb = Some s → (s < length tbs)%nat).

(** Two blocks that differ at most in the solved masks. *)
Definition same_static (tb tb' : TranslationBlock) : Prop :=
  ∃ i o, tb' = set_hb tb i o (hb_use tb) (hb_def tb).

Definition flow_measure (tbs : list TranslationBlock) : nat :=
  sum_list_with (λ tb, popcount 32 (hb_in tb) + popcount 32 (hb_out tb))%nat tbs.

(** * Theory *)

Lemma zero_range : in_u 32 0.
Proof. unfold in_u. lia. Qed.

Lemma same_static_refl tbs : Forall2 same_static tbs tbs.
Proof.
  apply Forall2_same_length_lookup. split; [done|]. intros i x y Hx Hy.
  rewrite Hx in Hy. injection Hy as <-. exists (hb_in x), (hb_out x). by destruct x.
Qed.

Section theory.
  Context (all sys : Z) (transfer : nat → TranslationBlock → Z → Z).
  Context `{!Transfer all sys transfer}.

Local Abbreviation succ_in := (succ_in all).
Local Abbreviation live_out := (live_out all sys).
Local Abbreviation flow_body := (flow_body all sys transfer).
Local Abbreviation from_succ := (from_succ all).
Local Abbreviation out_eq := (out_eq all sys).
Local Abbreviation below := (below all sys).
Local Abbreviation closed := (closed all sys transfer).
Local Abbreviation ascending := (ascending all sys transfer).

Definition flow_inv (n : nat) (tbs : list TranslationBlock) : Prop :=
  flow_tbs_ok n tbs ∧ ascending tbs.

Lemma succ_in_eq n tbs s :
  length tbs = n → (∀ j, s = Some j → (j < n)%nat) →
  succ_in tbs s = Some (from_succ (ins_of tbs) s).
Proof.
  intros <- Hs. destruct s as [j|]; [|done]. simpl. unfold ins_of.
  by destruct (lookup_lt_is_Some_2 tbs j (Hs j eq_refl)) as [tb ->].
Qed.

Lemma live_out_eq n tbs tb :
  length tbs = n → flow_tb_ok n tb → live_out tbs tb = Some (out_eq (ins_of tbs) tb).
Proof.
  intros Hl [_ _ _ Ht Hn Htg]. unfold HbrFlow.live_out, HbrFlow.out_eq.
  destruct (last_ir1_type tb); try done;
    rewrite ?(succ_in_eq n tbs (next_tb tb)), ?(succ_in_eq n tbs (target_tb tb)) by done;
    done.
Qed.

Lemma out_eq_mono f g tb : (∀ j, f j ⊑m g j) → out_eq f tb ⊑m out_eq g tb.
Proof.
  intros H. assert (∀ s, from_succ f s ⊑m from_succ g s) as Hs by (by intros [s|]; simpl).
  unfold HbrFlow.out_eq. destruct (last_ir1_type tb); try done. by rewrite !Hs.
Qed.

Lemma from_succ_range f s : (∀ j, in_u 32 (f j)) → in_u 32 (from_succ f s).
Proof using All. intros H. destruct s; simpl; [done|apply all_range]. Qed.

Lemma out_eq_range f tb : (∀ j, in_u 32 (f j)) → in_u 32 (out_eq f tb).
Proof using All.
  intros H. pose proof (from_succ_range f (next_tb tb) H) as Hn.
  pose proof (from_succ_range f (target_tb tb) H) as Ht.
  pose proof all_range. pose proof sys_range.
  unfold HbrFlow.out_eq. destruct (last_ir1_type tb); try assumption. by apply in_u_lor.
Qed.

Lemma ins_of_range n tbs j : flow_tbs_ok n tbs → in_u 32 (ins_of tbs j).
Proof.
  intros [_ H]. unfold ins_of. destruct (tbs !! j) as [tb|] eqn:E; [|apply zero_range].
  by apply (H j tb).
Qed.

(** One body in terms of the equations. *)
Lemma flow_body_eq n i tbs tb :
  flow_tbs_ok n tbs → tbs !! i = Some tb →
  let o := out_eq (ins_of tbs) tb in
  flow_body i tbs =
    Some (<[i := set_hb tb (transfer i tb o) o (hb_use tb) (hb_def tb)]> tbs,
          negb (hb_in tb =? transfer i tb o) || negb (hb_out tb =? o)).
Proof.
  intros [Hl Hok] Htb. unfold HbrFlow.flow_body. rewrite Htb. cbn [mbind option_bind].
  by rewrite (live_out_eq n tbs tb Hl (Hok i tb Htb)).
Qed.

(** A successful body works on an existing block. *)
Lemma flow_body_inv n i tbs tbs' c :
  flow_tbs_ok n tbs → flow_body i tbs = Some (tbs', c) →
  ∃ tb, tbs !! i = Some tb ∧
    let o := out_eq (ins_of tbs) tb in
    tbs' = <[i := set_hb tb (transfer i tb o) o (hb_use tb) (hb_def tb)]> tbs ∧
    c = negb (hb_in tb =? transfer i tb o) || negb (hb_out tb =? o).
Proof.
  intros Hok Hb. destruct (tbs !! i) as [tb|] eqn:Htb.
  - rewrite (flow_body_eq n i tbs tb Hok Htb) in Hb. injection Hb as <- <-. eauto.
  - unfold HbrFlow.flow_body in Hb. by rewrite Htb in Hb.
Qed.

Lemma ins_of_insert tbs i tb tb' j :
  tbs !! i = Some tb → hb_in tb ⊑m hb_in tb' → ins_of tbs j ⊑m ins_of (<[i:=tb']> tbs) j.
Proof.
  intros Htb Hle. unfold ins_of. destruct (decide (j = i)) as [->|Hne].
  - rewrite Htb, list_lookup_insert_eq by (by eapply lookup_lt_Some). done.
  - by rewrite list_lookup_insert_ne by done.
Qed.

Lemma flow_inv_step n i tbs tbs' c :
  flow_inv n tbs → flow_body i tbs = Some (tbs', c) → flow_inv n tbs'.
Proof using All.
  intros [Hok Has] Hb.
  destruct (flow_body_inv n i tbs tbs' c Hok Hb) as (tb & Htb & -> & _).
  set (o := out_eq (ins_of tbs) tb). set (tb' := set_hb _ _ _ _ _).
  pose proof (proj2 Hok i tb Htb) as [Hi Ho Hu Ht Hn Htg].
  assert (in_u 32 o) as Ro by (apply out_eq_range; intros j; by eapply ins_of_range).
  assert (∀ j, ins_of tbs j ⊑m ins_of (<[i:=tb']> tbs) j) as Hle.
  { intros j. apply (ins_of_insert tbs i tb); [done|]. by apply (Has i tb). }
  split.
  - split; [rewrite length_insert; apply Hok|]. intros j t Hj.
    apply list_lookup_insert_Some in Hj as [(-> & <- & _)|[_ Hj]]; [|by apply (proj2 Hok j)].
    split; simpl; try done. by apply transfer_range.
  - intros j t Hj. apply list_lookup_insert_Some in Hj as [(-> & <- & _)|[_ Hj]].
    + pose proof (out_eq_mono _ _ tb Hle) as Hm.
      split; [exact Hm|]. unfold tb' at 1 2. cbn [set_hb hb_in].
      rewrite transfer_static. by apply transfer_mono.
    + destruct (Has j t Hj) as [H1 H2]. pose proof (out_eq_mono _ _ t Hle) as Hm.
      split; [by etrans|]. etrans; [exact H2|by apply transfer_mono].
Qed.

(** A reported change increases the number of live bits. *)
Lemma flow_measure_step n i tbs tbs' :
  flow_inv n tbs → flow_body i tbs = Some (tbs', true) →
  (flow_measure tbs < flow_measure tbs')%nat.
Proof using All.
  intros [Hok Has] Hb.
  destruct (flow_body_inv n i tbs tbs' true Hok Hb) as (tb & Htb & -> & Hc).
  set (o := out_eq (ins_of tbs) tb) in *.
  destruct (Has i tb Htb) as [Lo Li]. fold o in Lo, Li.
  pose proof (proj2 Hok i tb Htb) as [Hi' Ho' Hu' _ _ _].
  assert (in_u 32 o) as Ro by (apply out_eq_range; intros j; by eapply ins_of_range).
  pose proof (transfer_range i tb o Hu' Ro) as Ri.
  pose proof (sum_list_with_insert
    (λ tb, popcount 32 (hb_in tb) + popcount 32 (hb_out tb))%nat tbs i tb
    (set_hb tb (transfer i tb o) o (hb_use tb) (hb_def tb)) Htb) as Hsum.
  unfold flow_measure. cbn [set_hb hb_in hb_out] in Hsum.
  pose proof (popcount_mono 32 _ _ Lo). pose proof (popcount_mono 32 _ _ Li).
  symmetry in Hc. apply orb_prop in Hc as [Hc|Hc]; apply negb_true_iff, Z.eqb_neq in Hc.
  - pose proof (popcount_strict 32 (hb_in tb) _ Ri (proj1 Hi') Li Hc). lia.
  - pose proof (popcount_strict 32 (hb_out tb) _ Ro (proj1 Ho') Lo Hc). lia.
Qed.

Global Instance flow_dataflow n :
  DataflowBody n flow_body (flow_inv n) flow_measure (64 * n).
Proof using All.
  split.
  - intros i tbs Hi [Hok _]. destruct (lookup_lt_is_Some_2 tbs i) as [tb Htb].
    { destruct Hok as [-> _]. done. }
    rewrite (flow_body_eq n i tbs tb Hok Htb). eauto.
  - intros i tbs tbs' c _. apply flow_inv_step.
  - intros i tbs tbs' Hi [Hok _] Hb.
    destruct (flow_body_inv n i tbs tbs' false Hok Hb) as (tb & Htb & -> & Hc).
    symmetry in Hc. apply orb_false_elim in Hc as [Hu Ho].
    apply negb_false_iff, Z.eqb_eq in Hu, Ho.
    rewrite <-Hu, <-Ho. apply list_insert_id. rewrite Htb. by destruct tb.
  - intros i tbs tbs' _. apply flow_measure_step.
  - intros tbs [[<- _] _]. unfold flow_measure. apply sum_list_with_bound. intros tb.
    pose proof (popcount_le_width 32 (hb_in tb)). pose proof (popcount_le_width 32 (hb_out tb)).
    lia.
Qed.

Lemma below_ins f s j : below f s → ins_of s j ⊑m f j.
Proof.
  intros H. unfold ins_of. destruct (s !! j) as [t|] eqn:E;
    [by apply (H j t)|apply mask_le_0_l].
Qed.

Lemma flow_step_static n tbs i s s' c :
  flow_inv n s → Forall2 same_static tbs s → flow_body i s = Some (s', c) →
  Forall2 same_static tbs s'.
Proof.
  intros Hs Hst Hb. destruct (flow_body_inv n i s s' c (proj1 Hs) Hb) as (tb & Htb & -> & _).
  destruct (Forall2_lookup_r _ _ _ _ _ Hst Htb) as (tb0 & Htb0 & a & b & ->).
  rewrite <-(list_insert_id tbs i tb0 Htb0). apply Forall2_insert; [done|].
  do 2 eexists. reflexivity.
Qed.

Lemma flow_step_below n tbs f i s s' c :
  closed f tbs → flow_inv n s ∧ Forall2 same_static tbs s ∧ below f s →
  flow_body i s = Some (s', c) → flow_inv n s' ∧ Forall2 same_static tbs s' ∧ below f s'.
Proof using All.
  intros Hf (Hs & Hst & Hbel) Hb.
  split_and!; [by eapply flow_inv_step|by eapply flow_step_static|].
  destruct (flow_body_inv n i s s' c (proj1 Hs) Hb) as (tb & Htb & -> & _).
  destruct (Forall2_lookup_r _ _ _ _ _ Hst Htb) as (tb0 & Htb0 & a & b & ->).
  intros j t Hj. apply list_lookup_insert_Some in Hj as [(-> & <- & _)|[_ Hj]];
    [|by apply (Hbel j t)].
  pose proof (out_eq_mono _ _ tb0 (λ j, below_ins f s j Hbel)) as Hm. split; [|exact Hm].
  cbn [set_hb hb_in]. rewrite transfer_static. etrans; [|exact (Hf j tb0 Htb0)].
  by apply transfer_mono.
Qed.

Lemma flow_least n fuel tbs tbs' f :
  closed f tbs → flow_inv n tbs → below f tbs →
  iterate flow_body fuel n tbs = Some tbs' → below f tbs'.
Proof using All.
  intros Hf Hinv Hbel Hit.
  apply (iterate_preserves flow_body n
    (λ s, flow_inv n s ∧ Forall2 same_static tbs s ∧ below f s)) in Hit; [apply Hit| |].
  - intros i s s' c _. by apply flow_step_below.
  - split_and!; [done|apply same_static_refl|done].
Qed.

Lemma flow_static n fuel tbs tbs' :
  flow_inv n tbs → iterate flow_body fuel n tbs = Some tbs' → Forall2 same_static tbs tbs'.
Proof using All.
  intros Hinv Hit.
  apply (iterate_preserves flow_body n (λ s, flow_inv n s ∧ Forall2 same_static tbs s)) in Hit;
    [apply Hit| |].
  - intros j s s' c _ [Hs Hst] Hb. split; [by eapply flow_inv_step|by eapply flow_step_static].
  - split; [done|apply same_static_refl].
Qed.

Lemma flow_fixpoint_eqs n fuel tbs tbs' i tb :
  flow_inv n tbs → iterate flow_body fuel n tbs = Some tbs' → tbs' !! i = Some tb →
  hb_out tb = out_eq (ins_of tbs') tb ∧ hb_in tb = transfer i tb (hb_out tb).
Proof using All.
  intros Hinv Hit Htb.
  destruct (iterate_fixpoint n flow_body (flow_inv n) flow_measure (64 * n) _ _ _ Hinv Hit)
    as [Hinv' Hfix]. pose proof (lookup_lt_Some _ _ _ Htb) as Hi.
  rewrite (proj1 (proj1 Hinv')) in Hi. specialize (Hfix i Hi).
  rewrite (flow_body_eq n i tbs' tb (proj1 Hinv') Htb) in Hfix. injection Hfix as _ Hc.
  apply orb_false_elim in Hc as [Hu Ho]. apply negb_false_iff, Z.eqb_eq in Hu, Ho.
  split; [done|]. by rewrite Ho.
Qed.

(** The loop on a unit whose masks start below the equations. *)
Lemma flow_solve tbs :
  flow_inv (length tbs) tbs →
  ∃ tbs', iterate flow_body (flow_fuel tbs) (length tbs) tbs = Some tbs' ∧
    Forall2 same_static tbs tbs' ∧
    (∀ i tb, tbs' !! i = Some tb →
       hb_out tb = out_eq (ins_of tbs') tb ∧ hb_in tb = transfer i tb (hb_out tb)) ∧
    (∀ f, closed f tbs → below f tbs → below f tbs').
Proof using All.
  intros Hinv.
  destruct (iterate_total (length tbs) flow_body _ flow_measure (64 * length tbs)
    (flow_fuel tbs) tbs Hinv) as (tbs' & Hit & _); [unfold flow_fuel; lia|].
  exists tbs'. split_and!; [done|by eapply flow_static| |].
  - intros i tb. by apply (flow_fixpoint_eqs (length tbs) (flow_fuel tbs) tbs).
  - intros f Hf Hb. by apply (flow_least (length tbs) (flow_fuel tbs) tbs tbs' f).
Qed.

End theory.
