(* ===== verification/HbrGpr.v ===== *)
(** * High-bits reduction of general purpose registers (optimization/hbr.c)

    A 32-bit x86 operation clears the high half of its destination.  The pass
    computes which high halves are read later ([get_gpr_use_def] per block,
    [over_tb_gpr_opt] across blocks) and marks with GHBR_CAN_OPT the
    instructions that need not clear theirs.  Masks have one bit per register;
    the fields are the unions [gpr_*] of the instruction and the block, here
    [hbr_def]/[hbr_use] and [hb_in]/[hb_out]/[hb_use]/[hb_def]. *)

From stdpp Require Import base numbers list option tactics.
From Stdlib Require Import ZArith Lia Bool.
From S2P Require Import Prelude Ir1Enum Ir1 Dataflow HbrFlow.
Local Open Scope Z_scope.
Local Open Scope c_scope.

Definition GHBR_GPR_ALL := 0xffff.
Definition SHBR_NTYPE := 0x1.
Definition SHBR_CAN_OPT32 := 0x02.
Definition SHBR_CAN_OPT64 := 0x04.
Definition GHBR_CAN_OPT := 0x08.

(** The instruction at hand with [tb->s_data->gpr_use] and [gpr_def]. *)
Record gpr_state := mkG { g_ir1 : IR1_INST; g_use : Z; g_def : Z }.

(** [ir1->gpr_def |= x; tb->s_data->gpr_def |= x]. *)
Definition add_def (g : gpr_state) (x : Z) : gpr_state :=
  mkG (set_hbr_def (g_ir1 g) (hbr_def (g_ir1 g) .| x)) (g_use g) (g_def g .| x).

(** ** Definitions of high halves *)

Definition des_def_gpr (g : gpr_state) : option gpr_state :=
  des_opnd ← ir1_get_opnd (g_ir1 g) 0;
  if negb (ir1_opnd_is_gpr des_opnd) then Some g else
  let dest_num := ir1_opnd_base_reg_num des_opnd in
  lsassert (0 <=? dest_num) && (dest_num <? 16) ;;
  Some (add_def g (bit dest_num)).

Definition deal_hide_opnd_def (g : gpr_state) : gpr_state :=
  match ir1_opcode (g_ir1 g) with
  | dt_X86_INS_CWDE => add_def g (bit eax_index)
  | dt_X86_INS_CQO => add_def g (bit edx_index)
  | dt_X86_INS_POPAW => add_def g (0xff .& ~. esp_index)
  | _ => g
  end.

(** The cases of the two switches of [def_h32]. *)
Inductive def_case : Set := D_MOVX | D_MOV | D_MOVD | D_ALU | D_XCHG | D_NONE.

Definition def_case_of (op : dt_x86_insn) : def_case :=
  match op with
  | dt_X86_INS_MOVSX | dt_X86_INS_MOVZX => D_MOVX
  | dt_X86_INS_MOV => D_MOV
  | dt_X86_INS_MOVD => D_MOVD
  | dt_X86_INS_XOR | dt_X86_INS_AND | dt_X86_INS_OR | dt_X86_INS_NOT
  | dt_X86_INS_ROL | dt_X86_INS_ROR | dt_X86_INS_RCL | dt_X86_INS_RCR
  | dt_X86_INS_SHRD | dt_X86_INS_SHLD | dt_X86_INS_ADD | dt_X86_INS_ADC
  | dt_X86_INS_INC | dt_X86_INS_DEC | dt_X86_INS_SUB | dt_X86_INS_SBB
  | dt_X86_INS_NEG | dt_X86_INS_XADD => D_ALU
  | dt_X86_INS_XCHG => D_XCHG
  | _ => D_NONE
  end.

(** [des_def_gpr(tb, ir1); return true]. *)
Definition def_true (g : gpr_state) : option (gpr_state * bool) :=
  g ← des_def_gpr g; Some (g, true).

Definition def_h32 (g : gpr_state) : option (gpr_state * bool) :=
  let g := deal_hide_opnd_def g in
  let ir1 := g_ir1 g in
  if ir1_get_opnd_num ir1 =? 0 then Some (g, false) else
  des_opnd ← ir1_get_opnd ir1 0;
  if negb (ir1_opnd_is_gpr des_opnd) then Some (g, false) else
  match def_case_of (ir1_opcode ir1) with
  | D_MOVX =>
      if ir1_opnd_size des_opnd =? 64 then
        src ← ir1_get_opnd ir1 1;
        if ir1_opnd_size src =? 32 then def_true g else Some (g, false)
      else Some (g, false)
  | D_MOV =>
      if (ir1_opnd_size des_opnd =? 64) && (ir1_opnd_size des_opnd =? 64) then def_true g
      else Some (g, false)
  | D_MOVD =>
      src ← ir1_get_opnd ir1 1;
      if ir1_opnd_is_xmm src then def_true g else Some (g, false)
  | D_ALU =>
      if negb (ir1_opnd_size des_opnd =? 32) then Some (g, false) else def_true g
  | D_XCHG =>
      if negb (ir1_opnd_size des_opnd =? 32) then Some (g, false) else
      src ← ir1_get_opnd ir1 1;
      if ir1_opnd_is_same_reg des_opnd src then def_true g else Some (g, false)
  | D_NONE => Some (g, false)
  end.

(** ** Uses of high halves *)

Definition set_use_reg (g : gpr_state) (reg_num : Z) : gpr_state :=
  if (0 <=? reg_num) && (reg_num <? 16) then
    let ir1 := set_hbr_use (g_ir1 g) (hbr_use (g_ir1 g) .| bit reg_num) in
    if (g_def g .& bit reg_num) =? 0 then mkG ir1 (g_use g .| bit reg_num) (g_def g)
    else mkG ir1 (g_use g) (g_def g)
  else g.

(** What [deal_hide_opnd_use] does per opcode. *)
Inductive hide_use : Set := HU_regs (l : list Z) | HU_imul | HU_all.

Definition hide_use_of (op : dt_x86_insn) : hide_use :=
  match op with
  | dt_X86_INS_CMPXCHG | dt_X86_INS_SALC | dt_X86_INS_CWD | dt_X86_INS_CDQ
  | dt_X86_INS_CBW | dt_X86_INS_CWDE | dt_X86_INS_CDQE => HU_regs [eax_index]
  | dt_X86_INS_XLATB => HU_regs [ebx_index]
  | dt_X86_INS_JRCXZ | dt_X86_INS_JCXZ | dt_X86_INS_JECXZ | dt_X86_INS_LOOPE
  | dt_X86_INS_LOOPNE | dt_X86_INS_LOOP => HU_regs [ecx_index]
  | dt_X86_INS_MASKMOVQ | dt_X86_INS_MASKMOVDQU => HU_regs [edi_index]
  | dt_X86_INS_POPF | dt_X86_INS_POP | dt_X86_INS_PUSHF | dt_X86_INS_PUSH
  | dt_X86_INS_CALL | dt_X86_INS_RET | dt_X86_INS_RETF | dt_X86_INS_IRET
  | dt_X86_INS_IRETQ => HU_regs [esp_index]
  | dt_X86_INS_LODSB | dt_X86_INS_LODSQ | dt_X86_INS_LODSW | dt_X86_INS_LODSD =>
      HU_regs [esi_index; ecx_index]
  | dt_X86_INS_MUL | dt_X86_INS_DIV | dt_X86_INS_IDIV | dt_X86_INS_RDTSC
  | dt_X86_INS_CQO => HU_regs [eax_index]
  | dt_X86_INS_IMUL => HU_imul
  | dt_X86_INS_ENTER | dt_X86_INS_LEAVE => HU_regs [esp_index; ebp_index]
  | dt_X86_INS_MOVSD | dt_X86_INS_CMPSD => HU_regs [esi_index; edi_index; ecx_index]
  | dt_X86_INS_STOSB | dt_X86_INS_STOSW | dt_X86_INS_STOSD | dt_X86_INS_STOSQ
  | dt_X86_INS_SCASB | dt_X86_INS_SCASW | dt_X86_INS_SCASD | dt_X86_INS_SCASQ =>
      HU_regs [eax_index; edi_index; ecx_index]
  | dt_X86_INS_RDTSCP => HU_regs [eax_index; ecx_index; edx_index]
  | dt_X86_INS_CMPXCHG8B | dt_X86_INS_CMPXCHG16B =>
      HU_regs [eax_index; ebx_index; ecx_index; edx_index]
  | dt_X86_INS_INT3 | dt_X86_INS_PUSHAW | dt_X86_INS_PUSHAL => HU_all
  | _ => HU_regs []
  end.

Definition deal_hide_opnd_use (g : gpr_state) : gpr_state :=
  match hide_use_of (ir1_opcode (g_ir1 g)) with
  | HU_regs l => fold_left set_use_reg l g
  | HU_imul =>
      if ir1_opnd_num (g_ir1 g) =? 1 then set_use_reg (set_use_reg g eax_index) edx_index else g
  | HU_all =>
      mkG (set_hbr_use (g_ir1 g) (hbr_use (g_ir1 g) .| GHBR_GPR_ALL))
        (g_use g .| u32 (~. g_def g)) (g_def g)
  end.

(** The loop body of [use_h32] for one operand. *)
Definition use_opnd (g : gpr_state) (opnd : IR1_OPND) : option gpr_state :=
  if ir1_opnd_is_gpr opnd && (ir1_opnd_size opnd =? 64) then
    Some (set_use_reg g (ir1_opnd_base_reg_num opnd))
  else if ir1_opnd_is_mem opnd then
    let g := if ir1_opnd_has_base opnd then set_use_reg g (ir1_opnd_base_reg_num opnd) else g in
    if ir1_opnd_has_index opnd then
      index_num ← ir1_opnd_index_reg_num opnd; Some (set_use_reg g index_num)
    else Some g
  else Some g.

Fixpoint use_opnds (g : gpr_state) (l : list IR1_OPND) : option gpr_state :=
  match l with
  | [] => Some g
  | o :: l => g ← use_opnd g o; use_opnds g l
  end.

Definition use_h32 (g : gpr_state) : option gpr_state :=
  let g := deal_hide_opnd_use g in
  let i := if negb (hbr_def (g_ir1 g) =? 0) then 1%nat else 0%nat in
  use_opnds g (drop i (operands (info (g_ir1 g)))).

(** ** Per block *)

(** [get_gpr_use_def]: the instructions and the block's masks. *)
Fixpoint gpr_insts (l : list IR1_INST) (tb_use tb_def : Z) : option (list IR1_INST * Z * Z) :=
  match l with
  | [] => Some ([], tb_use, tb_def)
  | i :: l =>
      let i := set_hbr_use (set_hbr_def i 0) 0 in
      '(g, _) ← def_h32 (mkG i tb_use tb_def);
      g ← use_h32 g;
      '(l', u, d) ← gpr_insts l (g_use g) (g_def g);
      Some (g_ir1 g :: l', u, d)
  end.

Definition get_gpr_use_def (tb : TranslationBlock) : option TranslationBlock :=
  '(l, u, d) ← gpr_insts (ir1 tb) 0 0;
  Some (set_hb (set_ir1 tb l) 0 0 u d).

(** ** Across blocks *)

(** [gpr_use | (gpr_out & ~gpr_def)]: the new [gpr_in]. *)
Definition in_eq (tb : TranslationBlock) (out : Z) : Z := hb_use tb .| (out .& ~. hb_def tb).

Definition gpr_body : nat → list TranslationBlock → option (list TranslationBlock * bool) :=
  flow_body GHBR_GPR_ALL GHBR_GPR_ALL (λ _, in_eq).

(** The marking loop over one block, from its last instruction back. *)
Fixpoint gpr_mark (l : list IR1_INST) (gpr_out : Z) : list IR1_INST * Z :=
  match l with
  | [] => ([], gpr_out)
  | i :: l =>
      let '(l, gpr_out) := gpr_mark l gpr_out in
      let '(i, gpr_out) :=
        if negb ((hbr_def i .& gpr_out) =? 0) then (i, gpr_out .& ~. hbr_def i)
        else if negb (hbr_def i =? 0) then
          (set_hbr_flag i (hbr_flag i .| GHBR_CAN_OPT), gpr_out)
        else (i, gpr_out) in
      (i :: l, gpr_out .| hbr_use i)
  end.

Definition gpr_mark_tb (tb : TranslationBlock) : TranslationBlock :=
  set_ir1 tb (fst (gpr_mark (ir1 tb) (hb_out tb))).

Definition over_tb_gpr_opt (tbs : list TranslationBlock) : option (list TranslationBlock) :=
  tbs ← iterate gpr_body (flow_fuel tbs) (length tbs) tbs;
  Some (map gpr_mark_tb tbs).

Definition do_gpr_opt (tbs : list TranslationBlock) : option (list TranslationBlock) :=
  tbs ← mapM get_gpr_use_def tbs;
  over_tb_gpr_opt tbs.

Definition can_ghbr_opt (in_pre_translate : bool) (ir1 : IR1_INST) : bool :=
  if negb in_pre_translate then false else negb ((hbr_flag ir1 .& GHBR_CAN_OPT) =? 0).

(** * Theorems *)

(** ** The marking loop is exact liveness *)

(** Live high halves before an instruction. *)
Definition gpr_before (i : IR1_INST) (out : Z) : Z := (out .& ~. hbr_def i) .| hbr_use i.

Fixpoint gpr_live (l : list IR1_INST) (out : Z) : Z :=
  match l with [] => out | i :: l => gpr_before i (gpr_live l out) end.

(** Not removing the definitions of an instruction none of whose definitions is
    live makes no difference. *)
Lemma land_0_ldiff d o : d .& o = 0 → o .& ~. d = o.
Proof.
  intros H. apply Z.bits_inj'. intros k Hk. rewrite Z.land_spec, Z.lnot_spec by done.
  pose proof (f_equal (λ x, Z.testbit x k) H) as Hb. cbv beta in Hb.
  rewrite Z.land_spec, Z.bits_0 in Hb. destruct (Z.testbit o k), (Z.testbit d k); done.
Qed.

Definition mark_one (i : IR1_INST) (out : Z) : IR1_INST :=
  if ((hbr_def i .& out) =? 0) && negb (hbr_def i =? 0)
  then set_hbr_flag i (hbr_flag i .| GHBR_CAN_OPT) else i.

Lemma gpr_mark_cons i l out :
  gpr_mark (i :: l) out =
    (mark_one i (gpr_live l out) :: fst (gpr_mark l out), gpr_live (i :: l) out) ∧
  snd (gpr_mark l out) = gpr_live l out.
Proof.
  revert i. induction l as [|j l IH]; intros i.
  - split; [|done]. unfold mark_one. simpl. unfold gpr_before.
    destruct (Z.eqb_spec (hbr_def i .& out) 0) as [H|H]; simpl; [|done].
    rewrite (land_0_ldiff _ _ H). by destruct (hbr_def i =? 0).
  - destruct (IH j) as [Hj Hs].
    assert (snd (gpr_mark (j :: l) out) = gpr_live (j :: l) out) as Hsj by (by rewrite Hj).
    split; [|done]. unfold mark_one. remember (j :: l) as l' eqn:Hl'. clear Hl'.
    cbn [gpr_mark gpr_live]. destruct (gpr_mark l' out) as [m o] eqn:Hm. simpl in Hsj. subst o.
    unfold gpr_before. destruct (Z.eqb_spec (hbr_def i .& gpr_live l' out) 0) as [H|H];
      cbn [negb andb fst]; [|done].
    rewrite (land_0_ldiff _ _ H). by destruct (hbr_def i =? 0).
Qed.

Lemma gpr_mark_lookup l out k i :
  l !! k = Some i →
  fst (gpr_mark l out) !! k = Some (mark_one i (gpr_live (drop (S k) l) out)).
Proof.
  revert k. induction l as [|j l IH]; intros [|k] H; try done;
    rewrite (proj1 (gpr_mark_cons j l out)); cbn [fst].
  - by injection H as ->.
  - by apply IH.
Qed.

(** A high half is read, or live at the end, before being overwritten. *)
Inductive hi_exposed (r out : Z) : list IR1_INST → Prop :=
  | he_end : Z.testbit out r = true → hi_exposed r out []
  | he_use i l : Z.testbit (hbr_use i) r = true → hi_exposed r out (i :: l)
  | he_skip i l : Z.testbit (hbr_def i) r = false → hi_exposed r out l →
      hi_exposed r out (i :: l).

Lemma gpr_live_exposed l out r :
  0 ≤ r → Z.testbit (gpr_live l out) r = true ↔ hi_exposed r out l.
Proof.
  intros Hr. induction l as [|i l IH].
  - split; [by constructor|by inversion 1].
  - cbn [gpr_live]. unfold gpr_before. rewrite Z.lor_spec, Z.land_spec, Z.lnot_spec by done.
    split.
    + intros [[H1 H2]%andb_prop|H]%orb_prop; [|by apply he_use].
      apply he_skip; [by apply negb_true_iff|by apply IH].
    + inversion 1 as [|? ? Hu|? ? Hd Hl]; subst.
      * by rewrite Hu, orb_true_r.
      * rewrite Hd. apply IH in Hl. by rewrite Hl.
Qed.

(** C26 The marking loop is exact: an instruction gets GHBR_CAN_OPT iff it
    defines the high half of some register and none of the high halves it defines
    is read, later in the block or after it, before being overwritten. *)
Theorem gpr_mark_exact l out k i i' :
  l !! k = Some i → fst (gpr_mark l out) !! k = Some i' → 0 ≤ hbr_def i →
  Z.testbit (hbr_flag i) 3 = false →
  Z.testbit (hbr_flag i') 3 = true ↔
  hbr_def i ≠ 0 ∧
  ∀ r, Z.testbit (hbr_def i) r = true → ¬ hi_exposed r out (drop (S k) l).
Proof.
  intros Hi Hi' Hd Hf. rewrite (gpr_mark_lookup _ _ _ _ Hi) in Hi'. injection Hi' as <-.
  unfold mark_one. set (o := gpr_live (drop (S k) l) out).
  assert (hbr_def i .& o = 0 ↔
    ∀ r, Z.testbit (hbr_def i) r = true → ¬ hi_exposed r out (drop (S k) l)) as He.
  { split.
    - intros H r Hr Hx. pose proof (testbit_true_nonneg _ _ Hr) as Hr0.
      apply gpr_live_exposed in Hx; [|done]. fold o in Hx.
      pose proof (f_equal (λ x, Z.testbit x r) H) as Hb. cbv beta in Hb.
      by rewrite Z.land_spec, Hr, Hx, Z.bits_0 in Hb.
    - intros H. apply Z.bits_inj'. intros r Hr. rewrite Z.land_spec, Z.bits_0.
      destruct (Z.testbit (hbr_def i) r) eqn:Hb; [|done].
      destruct (Z.testbit o r) eqn:Ho; [|done]. exfalso. apply (H r Hb).
      by apply gpr_live_exposed. }
  rewrite <-He. destruct (Z.eqb_spec (hbr_def i .& o) 0), (Z.eqb_spec (hbr_def i) 0);
    cbn [andb negb]; cbn [set_hbr_flag hbr_flag];
    rewrite ?Z.lor_spec, ?Hf; cbn; intuition congruence.
Qed.

(** ** The equations across blocks *)

Lemma in_eq_mono tb o o' : o ⊑m o' → in_eq tb o ⊑m in_eq tb o'.
Proof. intros H. unfold in_eq. by rewrite H. Qed.

Lemma gpr_all_range : in_u 32 GHBR_GPR_ALL.
Proof. unfold in_u, GHBR_GPR_ALL. lia. Qed.

Global Instance gpr_transfer : Transfer GHBR_GPR_ALL GHBR_GPR_ALL (λ _, in_eq).
Proof.
  split; try apply gpr_all_range; intros.
  - by apply in_eq_mono.
  - unfold in_eq. apply in_u_lor; [lia|done|]. by apply in_u_land_l.
  - done.
Qed.

Abbreviation gpr_out_eq := (out_eq GHBR_GPR_ALL GHBR_GPR_ALL).
Abbreviation gpr_closed := (closed GHBR_GPR_ALL GHBR_GPR_ALL (λ _, in_eq)).
Abbreviation gpr_below := (below GHBR_GPR_ALL GHBR_GPR_ALL).
Abbreviation gpr_inv := (flow_inv GHBR_GPR_ALL GHBR_GPR_ALL (λ _, in_eq)).

(** Cleared masks are below every equation. *)
Lemma gpr_inv_cleared tbs :
  flow_tbs_ok (length tbs) tbs →
  (∀ i tb, tbs !! i = Some tb → hb_in tb = 0 ∧ hb_out tb = 0) →
  gpr_inv (length tbs) tbs.
Proof.
  intros Hok Hz. split; [done|]. intros i tb Htb. destruct (Hz i tb Htb) as [-> ->].
  split; apply mask_le_0_l.
Qed.

(** C25 The loop of [over_tb_gpr_opt] terminates within [64 * tb_num + 1] rounds
    from cleared masks, its result solves the liveness equations exactly, and it
    is the least solution: any other assignment closed under the equations
    contains it. *)
Theorem gpr_solve_least tbs :
  flow_tbs_ok (length tbs) tbs →
  (∀ i tb, tbs !! i = Some tb → hb_in tb = 0 ∧ hb_out tb = 0) →
  ∃ tbs', iterate gpr_body (flow_fuel tbs) (length tbs) tbs = Some tbs' ∧
    (∀ i tb, tbs' !! i = Some tb →
       hb_out tb = gpr_out_eq (ins_of tbs') tb ∧ hb_in tb = in_eq tb (hb_out tb)) ∧
    (∀ f, gpr_closed f tbs → gpr_below f tbs').
Proof.
  intros Hok Hz.
  destruct (flow_solve _ _ _ tbs (gpr_inv_cleared tbs Hok Hz)) as (tbs' & Hit & _ & Heq & Hl).
  exists tbs'. split_and!; [exact Hit|exact Heq|]. intros f Hf. apply Hl; [done|].
  intros i tb Htb. destruct (Hz i tb Htb) as [-> ->]. split; apply mask_le_0_l.
Qed.

(** ** The block summary *)

(** The part of an instruction that [get_gpr_use_def] does not write. *)
Definition keeps (g g' : gpr_state) : Prop := info (g_ir1 g') = info (g_ir1 g).

(** Definitions come first: they leave the uses alone and record the same bits
    in the instruction and in the block. *)
Definition def_step (g g' : gpr_state) : Prop :=
  keeps g g' ∧ hbr_use (g_ir1 g') = hbr_use (g_ir1 g) ∧ g_use g' = g_use g ∧
  ∃ x, 0 ≤ x ∧ hbr_def (g_ir1 g') = hbr_def (g_ir1 g) .| x ∧ g_def g' = g_def g .| x.

Lemma def_step_refl g : def_step g g.
Proof. repeat split. exists 0. by rewrite !Z.lor_0_r. Qed.

Lemma def_step_add g x : 0 ≤ x → def_step g (add_def g x).
Proof. repeat split. by exists x. Qed.

Lemma def_step_trans a b c : def_step a b → def_step b c → def_step a c.
Proof.
  intros (K1 & U1 & T1 & x & Hx & D1 & E1) (K2 & U2 & T2 & y & Hy & D2 & E2).
  split; [unfold keeps in *; congruence|]. split_and!; [congruence..|].
  exists (x .| y). rewrite D2, D1, E2, E1, !Z.lor_assoc.
  split_and!; [by apply Z.lor_nonneg|done|done].
Qed.

Lemma des_def_gpr_step g g' : des_def_gpr g = Some g' → def_step g g'.
Proof.
  unfold des_def_gpr. intros H. simplify_option_eq; repeat case_match; simplify_eq.
  - apply def_step_refl.
  - apply def_step_add. unfold bit. by apply Z.shiftl_nonneg.
Qed.

Lemma deal_hide_opnd_def_step g : def_step g (deal_hide_opnd_def g).
Proof.
  unfold deal_hide_opnd_def.
  destruct (ir1_opcode (g_ir1 g)); try apply def_step_refl; by apply def_step_add.
Qed.

Lemma def_h32_step g g' r : def_h32 g = Some (g', r) → def_step g g'.
Proof.
  unfold def_h32, def_true. intros H. eapply def_step_trans; [apply deal_hide_opnd_def_step|].
  set (g0 := deal_hide_opnd_def g) in *.
  repeat first [ progress simplify_option_eq | case_match ];
    first [ apply def_step_refl | by apply des_def_gpr_step ].
Qed.

(** Uses: the block gets the used registers it has not defined so far. *)
Definition use_rel (u0 : Z) (g : gpr_state) : Prop :=
  ∀ r, 0 ≤ r < 16 →
    Z.testbit (g_use g) r =
      Z.testbit u0 r || (Z.testbit (hbr_use (g_ir1 g)) r && negb (Z.testbit (g_def g) r)).

Definition use_frame (g g' : gpr_state) : Prop :=
  keeps g g' ∧ hbr_def (g_ir1 g') = hbr_def (g_ir1 g) ∧ g_def g' = g_def g.

Definition use_step (g g' : gpr_state) : Prop :=
  use_frame g g' ∧ ∀ u0, use_rel u0 g → use_rel u0 g'.

Lemma use_step_refl g : use_step g g.
Proof. by repeat split. Qed.

Lemma use_step_trans a b c : use_step a b → use_step b c → use_step a c.
Proof.
  intros [(K1 & D1 & E1) U1] [(K2 & D2 & E2) U2].
  split; [unfold use_frame, keeps in *; split_and!; congruence|auto].
Qed.

Lemma testbit_bit_range n r : 0 ≤ n → Z.testbit (bit n) r = (n =? r).
Proof.
  intros Hn. destruct (Z.le_gt_cases 0 r); [by apply testbit_bit|].
  rewrite Z.testbit_neg_r by done. symmetry. apply Z.eqb_neq. lia.
Qed.

Lemma land_bit_0 x n : 0 ≤ n → (x .& bit n =? 0) = negb (Z.testbit x n).
Proof.
  intros Hn. destruct (Z.eqb_spec (x .& bit n) 0) as [H|H].
  - pose proof (f_equal (λ y, Z.testbit y n) H) as Hb. cbv beta in Hb.
    rewrite Z.land_spec, testbit_bit_range, Z.eqb_refl, andb_true_r, Z.bits_0 in Hb by done.
    by rewrite Hb.
  - destruct (Z.testbit x n) eqn:E; [done|]. destruct H. apply Z.bits_inj'. intros k Hk.
    rewrite Z.land_spec, testbit_bit_range, Z.bits_0 by done.
    destruct (Z.eqb_spec n k) as [->|]; [by rewrite E|by rewrite andb_false_r].
Qed.

Lemma set_use_reg_step g n : use_step g (set_use_reg g n).
Proof.
  unfold set_use_reg. destruct (_ && _) eqn:Hn; [|apply use_step_refl]. bool_to_prop.
  split; [by case_match|]. intros u0 Hu r Hr. specialize (Hu r Hr).
  rewrite land_bit_0 by done. destruct (Z.testbit (g_def g) n) eqn:Hd; simpl;
    rewrite !Z.lor_spec, testbit_bit_range, Hu by done;
    (destruct (Z.eqb_spec n r) as [->|]; [rewrite Hd|]); btauto.
Qed.

Lemma fold_use_step l g : use_step g (fold_left set_use_reg l g).
Proof.
  revert g. induction l as [|n l IH]; intros g; simpl; [apply use_step_refl|].
  eapply use_step_trans; [apply set_use_reg_step|apply IH].
Qed.

Lemma testbit_all r : 0 ≤ r < 16 → Z.testbit GHBR_GPR_ALL r = true.
Proof.
  intros Hr. change GHBR_GPR_ALL with (Z.ones 16). apply Z.ones_spec_low. lia.
Qed.

Lemma testbit_u32 x r : 0 ≤ r < 32 → Z.testbit (u32 x) r = Z.testbit x r.
Proof. intros Hr. unfold u32, uwrap. apply Z.mod_pow2_bits_low. lia. Qed.

Lemma deal_hide_opnd_use_step g : use_step g (deal_hide_opnd_use g).
Proof.
  unfold deal_hide_opnd_use. destruct (hide_use_of _) as [l| |].
  - apply fold_use_step.
  - case_match; [|apply use_step_refl].
    eapply use_step_trans; apply set_use_reg_step.
  - split; [done|]. intros u0 Hu r Hr. specialize (Hu r Hr). cbn [g_use g_ir1 g_def].
    cbn [set_hbr_use hbr_use]. rewrite !Z.lor_spec, Hu, testbit_all by done.
    rewrite testbit_u32, Z.lnot_spec by lia. btauto.
Qed.

Lemma use_opnd_step g o g' : use_opnd g o = Some g' → use_step g g'.
Proof.
  unfold use_opnd. intros H.
  repeat first [ progress simplify_option_eq | case_match ];
    try apply use_step_refl; try apply set_use_reg_step.
  eapply use_step_trans; apply set_use_reg_step.
Qed.

Lemma use_opnds_step l g g' : use_opnds g l = Some g' → use_step g g'.
Proof.
  revert g. induction l as [|o l IH]; intros g; simpl.
  - intros [= <-]. apply use_step_refl.
  - destruct (use_opnd g o) as [g1|] eqn:Ho; [|done]. simpl. intros H.
    eapply use_step_trans; [by eapply use_opnd_step|by apply IH].
Qed.

Lemma use_h32_step g g' : use_h32 g = Some g' → use_step g g'.
Proof.
  unfold use_h32. intros H. eapply use_step_trans; [apply deal_hide_opnd_use_step|].
  by eapply use_opnds_step.
Qed.

(** One instruction of [get_gpr_use_def]. *)
Lemma gpr_inst_step i u d g0 b g :
  def_h32 (mkG (set_hbr_use (set_hbr_def i 0) 0) u d) = Some (g0, b) → use_h32 g0 = Some g →
  info (g_ir1 g) = info i ∧ g_def g = d .| hbr_def (g_ir1 g) ∧ 0 ≤ hbr_def (g_ir1 g) ∧
  ∀ r, 0 ≤ r < 16 →
    Z.testbit (g_use g) r =
      Z.testbit u r || (Z.testbit (hbr_use (g_ir1 g)) r && negb (Z.testbit (g_def g) r)).
Proof.
  intros Hd%def_h32_step Hu%use_h32_step.
  destruct Hd as (K & U & T & x & Hx & D & E). destruct Hu as [(K2 & D2 & E2) Hrel].
  unfold keeps in *. simpl in *. rewrite K2, D2, E2, D, E, K. split_and!; [done..|].
  intros r Hr. rewrite <-E, <-E2. apply (Hrel u); [|done]. intros k Hk.
  by rewrite U, T, Z.bits_0, orb_false_r.
Qed.

Lemma gpr_insts_summary l u0 d0 l' u d out r :
  gpr_insts l u0 d0 = Some (l', u, d) →
  (∀ i, i ∈ l' → hbr_def i .& hbr_use i = 0) → 0 ≤ r < 16 →
  (Z.testbit (gpr_live l' out) r && negb (Z.testbit d0 r)) || Z.testbit u0 r =
  Z.testbit u r || (Z.testbit out r && negb (Z.testbit d r)).
Proof.
  intros H Hself Hr. revert u0 d0 l' u d H Hself.
  induction l as [|i l IH]; intros u0 d0 l' u d; simpl.
  { intros [= <- <- <-] _. simpl. btauto. }
  destruct (def_h32 _) as [[g0 b]|] eqn:Hd; [|done]. simpl.
  destruct (use_h32 g0) as [g|] eqn:Hu; [|done]. simpl.
  destruct (gpr_insts l (g_use g) (g_def g)) as [[[l2 u2] d2]|] eqn:Hl; [|done]. simpl.
  intros [= <- <- <-] Hself.
  destruct (gpr_inst_step _ _ _ _ _ _ Hd Hu) as (_ & Hgd & _ & Hgu).
  specialize (IH _ _ _ _ _ Hl ltac:(intros j Hj; apply Hself; by right)).
  rewrite <-IH, Hgu by done. rewrite Hgd. cbn [gpr_live]. unfold gpr_before.
  pose proof (f_equal (λ y, Z.testbit y r) (Hself (g_ir1 g) ltac:(by left))) as Hs.
  cbv beta in Hs. rewrite Z.land_spec, Z.bits_0 in Hs.
  rewrite !Z.lor_spec, Z.land_spec, Z.lnot_spec by lia.
  destruct (Z.testbit (hbr_def (g_ir1 g)) r), (Z.testbit (hbr_use (g_ir1 g)) r);
    try done; btauto.
Qed.

(** The summary of a block is exact: when no instruction uses a register
    whose high half it defines itself, the live-in mask computed from the
    block's use and def masks is, register by register, what the backward scan
    of the block finds. *)
Theorem get_gpr_use_def_summary tb tb' out r :
  get_gpr_use_def tb = Some tb' →
  (∀ i, i ∈ ir1 tb' → hbr_def i .& hbr_use i = 0) → 0 ≤ r < 16 →
  Z.testbit (in_eq tb' out) r = Z.testbit (gpr_live (ir1 tb') out) r.
Proof.
  unfold get_gpr_use_def. destruct (gpr_insts (ir1 tb) 0 0) as [[[l u] d]|] eqn:Hg; [|done].
  simpl. intros [= <-] Hself Hr. simpl in Hself.
  pose proof (gpr_insts_summary _ _ _ _ _ _ out r Hg Hself Hr) as Hs.
  rewrite !Z.bits_0, orb_false_r, andb_true_r in Hs. simpl. rewrite Hs.
  unfold in_eq. simpl. by rewrite Z.lor_spec, Z.land_spec, Z.lnot_spec by lia.
Qed.

(** ** The whole pass *)

Lemma set_use_reg_range g n : in_u 32 (g_use g) → in_u 32 (g_use (set_use_reg g n)).
Proof.
  intros H. unfold set_use_reg. destruct (_ && _) eqn:Hn; [|done]. bool_to_prop.
  case_match; [|done]. cbn [g_use]. apply in_u_lor; [lia|done|].
  apply in_u_testbit; [lia|]. split; [unfold bit; by apply Z.shiftl_nonneg|].
  intros i. rewrite testbit_bit_range by done. intros ->%Z.eqb_eq. lia.
Qed.

Lemma fold_use_range l g : in_u 32 (g_use g) → in_u 32 (g_use (fold_left set_use_reg l g)).
Proof.
  revert g. induction l as [|n l IH]; intros g H; simpl; [done|]. by apply IH, set_use_reg_range.
Qed.

Lemma use_h32_range g g' : in_u 32 (g_use g) → use_h32 g = Some g' → in_u 32 (g_use g').
Proof.
  intros H. unfold use_h32.
  assert (in_u 32 (g_use (deal_hide_opnd_use g))) as H0.
  { unfold deal_hide_opnd_use. repeat case_match; try done.
    - by apply fold_use_range.
    - by do 2 apply set_use_reg_range.
    - cbn [g_use]. apply in_u_lor; [lia|done|]. apply uwrap_range. lia. }
  revert H0. generalize (deal_hide_opnd_use g). intros g0 H0.
  generalize (drop (if negb (hbr_def (g_ir1 g0) =? 0) then 1%nat else 0%nat)
    (operands (info (g_ir1 g0)))). intros l. revert g0 H0.
  induction l as [|o l IH]; intros g0 H0; simpl; [by intros [= <-]|].
  destruct (use_opnd g0 o) as [g1|] eqn:Ho; [|done]. simpl. apply IH.
  unfold use_opnd in Ho. repeat first [ progress simplify_option_eq | case_match ];
    auto using set_use_reg_range.
Qed.

Lemma gpr_insts_range l u0 d0 l' u d :
  in_u 32 u0 → gpr_insts l u0 d0 = Some (l', u, d) → in_u 32 u.
Proof.
  revert u0 d0 l' u d. induction l as [|i l IH]; intros u0 d0 l' u d Hu; simpl.
  { by intros [= _ <- _]. }
  destruct (def_h32 _) as [[g0 b]|] eqn:Hd; [|done]. simpl.
  destruct (use_h32 g0) as [g|] eqn:Hg; [|done]. simpl.
  destruct (gpr_insts l _ _) as [[[l2 u2] d2]|] eqn:Hl; [|done]. simpl. intros [= _ <- _].
  eapply (IH _ _ _ _ _ _ Hl). Unshelve. eapply use_h32_range; [|exact Hg].
  apply def_h32_step in Hd as (_ & _ & -> & _). done.
Qed.

Lemma get_gpr_use_def_ok n tb tb' :
  get_gpr_use_def tb = Some tb' → last_ir1_type tb ≠ IR1_TYPE_COUNT →
  (∀ s, next_tb tb = Some s → (s < n)%nat) → (∀ s, target_tb tb = Some s → (s < n)%nat) →
  flow_tb_ok n tb' ∧ hb_in tb' = 0 ∧ hb_out tb' = 0.
Proof.
  unfold get_gpr_use_def. destruct (gpr_insts (ir1 tb) 0 0) as [[[l u] d]|] eqn:Hg; [|done].
  simpl. intros [= <-] Ht Hn Htg.
  pose proof (gpr_insts_range _ _ _ _ _ _ zero_range Hg).
  split; [|done]. split; simpl; try done; apply zero_range.
Qed.

(** C23 [do_gpr_opt] ends and is correct block by block: once the per-block
    analysis has succeeded, the result exists, its live masks solve the liveness
    equations of the unit, and the instructions of each block are marked from
    the solved live-out mask. *)
Theorem do_gpr_opt_correct tbs tbs1 :
  unit_ok tbs → mapM get_gpr_use_def tbs = Some tbs1 →
  ∃ tbs', do_gpr_opt tbs = Some tbs' ∧
    ∀ i tb', tbs' !! i = Some tb' →
      ∃ tb1, tbs1 !! i = Some tb1 ∧ ir1 tb' = fst (gpr_mark (ir1 tb1) (hb_out tb')) ∧
        hb_out tb' = gpr_out_eq (ins_of tbs') tb' ∧ hb_in tb' = in_eq tb' (hb_out tb').
Proof.
  intros Hunit Hm. unfold do_gpr_opt, over_tb_gpr_opt. rewrite Hm. cbn [mbind option_bind].
  apply mapM_Some in Hm. pose proof (Forall2_length Hm) as Hlen.
  assert (∀ i tb, tbs1 !! i = Some tb →
    flow_tb_ok (length tbs1) tb ∧ hb_in tb = 0 ∧ hb_out tb = 0) as H1.
  { intros i tb1 Htb1. destruct (Forall2_lookup_r _ _ _ _ _ Hm Htb1) as (tb & Htb & Hg).
    destruct (Hunit i tb Htb) as (Ht & Hn & Htg). rewrite Hlen in Hn, Htg.
    by apply (get_gpr_use_def_ok _ tb). }
  destruct (flow_solve _ _ _ tbs1 (gpr_inv_cleared tbs1
    (conj eq_refl (λ i tb H, proj1 (H1 i tb H))) (λ i tb H, proj2 (H1 i tb H))))
    as (tbs2 & Hit & Hst & Heq & _).
  unfold gpr_body. rewrite Hit. cbn [mbind option_bind]. eexists. split; [done|].
  intros i tb' Hi. rewrite list_lookup_fmap in Hi.
  destruct (tbs2 !! i) as [tb2|] eqn:Htb2; [|done]. injection Hi as <-.
  assert (∀ j, ins_of (map gpr_mark_tb tbs2) j = ins_of tbs2 j) as Hins.
  { intros j. unfold ins_of. rewrite list_lookup_fmap. by destruct (tbs2 !! j). }
  assert (gpr_out_eq (ins_of (map gpr_mark_tb tbs2)) (gpr_mark_tb tb2)
    = gpr_out_eq (ins_of tbs2) tb2) as Hout.
  { apply mask_le_antisym; apply (out_eq_mono _ _ _ _ tb2); intros j; by rewrite Hins. }
  destruct (Heq i tb2 Htb2) as [Ho Hn].
  destruct (Forall2_lookup_r _ _ _ _ _ Hst Htb2) as (tb1 & Htb1 & x & y & Hx).
  exists tb1. split_and!; [done|subst tb2; done|by rewrite Hout|exact Hn].
Qed.

(** ** Semantic preservation inside a block *)

Definition his := Z → Z.

Definition hi_agree (m : Z) (f g : his) : Prop := ∀ r, Z.testbit m r = true → f r = g r.

Section semantics.
  (** The behaviour of an instruction: a function of the machine state without
      the high halves and of the high halves. *)
  Context {X : Type} (sem : la_dt_insn → X → his → X * his).

(** The recorded masks describe the instruction: what it computes depends on the
    high halves it uses only, and each high half it does not define on that same
    half besides. *)
Record hi_respects (i : IR1_INST) : Prop := {
  hr_state : ∀ x f g, hi_agree (hbr_use i) f g →
    fst (sem (info i) x f) = fst (sem (info i) x g);
  hr_def : ∀ x f g, hi_agree (hbr_use i) f g →
    hi_agree (hbr_def i) (snd (sem (info i) x f)) (snd (sem (info i) x g));
  hr_keep : ∀ x f g r, hi_agree (hbr_use i) f g → Z.testbit (hbr_def i) r = false →
    f r = g r → snd (sem (info i) x f) r = snd (sem (info i) x g) r
}.

Fixpoint hi_ref (l : list IR1_INST) (s : X * his) : X * his :=
  match l with [] => s | i :: l => hi_ref l (sem (info i) (fst s) (snd s)) end.

(** Generated code: a marked instruction leaves any value in the high halves it
    defines. *)
Inductive hi_tgt : list IR1_INST → X * his → X * his → Prop :=
  | hi_nil s : hi_tgt [] s s
  | hi_cons i l x g g1 s :
      (∀ r, can_ghbr_opt true i = false ∨ Z.testbit (hbr_def i) r = false →
         g1 r = snd (sem (info i) x g) r) →
      hi_tgt l (fst (sem (info i) x g), g1) s → hi_tgt (i :: l) (x, g) s.

Lemma can_ghbr_opt_mark i o :
  can_ghbr_opt true i = false →
  can_ghbr_opt true (mark_one i o) = ((hbr_def i .& o) =? 0) && negb (hbr_def i =? 0).
Proof.
  intros H. unfold mark_one. destruct (_ && _); [|done]. unfold can_ghbr_opt in *. simpl in *.
  destruct (Z.eqb_spec ((hbr_flag i .| GHBR_CAN_OPT) .& GHBR_CAN_OPT) 0) as [E|]; [|done].
  apply (f_equal (λ x, Z.testbit x 3)) in E.
  rewrite Z.land_spec, Z.lor_spec, Z.bits_0 in E. cbn in E. by rewrite orb_true_r in E.
Qed.

Lemma mark_one_masks i o :
  info (mark_one i o) = info i ∧ hbr_def (mark_one i o) = hbr_def i.
Proof. unfold mark_one. by destruct (_ && _). Qed.

Lemma testbit_gpr_before i o r :
  0 ≤ r → Z.testbit (gpr_before i o) r = true ↔
  Z.testbit (hbr_use i) r = true ∨ (Z.testbit o r = true ∧ Z.testbit (hbr_def i) r = false).
Proof.
  intros Hr. unfold gpr_before. rewrite Z.lor_spec, Z.land_spec, Z.lnot_spec by done.
  destruct (Z.testbit o r), (Z.testbit (hbr_def i) r), (Z.testbit (hbr_use i) r);
    simpl; intuition congruence.
Qed.

(** C13 Leaving garbage in the high halves defined by marked instructions is
    sound: every run of the marked block from high halves that agree with the
    reference on those live at its start ends in the machine state of the
    reference run, with high halves that agree on those live at its end. *)
Theorem gpr_mark_sound l out x f g x' g' :
  (∀ i, i ∈ l → hi_respects i ∧ can_ghbr_opt true i = false) →
  hi_tgt (fst (gpr_mark l out)) (x, g) (x', g') → hi_agree (gpr_live l out) f g →
  fst (hi_ref l (x, f)) = x' ∧ hi_agree out (snd (hi_ref l (x, f))) g'.
Proof.
  revert x f g. induction l as [|i l IH]; intros x f g Hr Ht Hag.
  { inv Ht. done. }
  rewrite (proj1 (gpr_mark_cons i l out)) in Ht. cbn [fst] in Ht.
  inversion Ht as [|? ? ? ? g1 ? Hg1 Ht']; subst; clear Ht.
  destruct (mark_one_masks i (gpr_live l out)) as [Hinfo Hdef]. rewrite Hinfo in *.
  destruct (Hr i ltac:(by left)) as [Hi Hc]. cbn [hi_ref fst snd].
  assert (hi_agree (hbr_use i) f g) as Hu.
  { intros r Hb. apply Hag. cbn [gpr_live]. apply testbit_gpr_before; [|auto].
    by eapply testbit_true_nonneg. }
  rewrite <-(hr_state i Hi x f g Hu) in Ht'.
  destruct (sem (info i) x f) as [x1 f1] eqn:Hsem.
  apply (IH x1 f1 g1); [intros; apply Hr; by right|exact Ht'|]. intros r Hb.
  pose proof (testbit_true_nonneg _ _ Hb) as Hr0.
  rewrite can_ghbr_opt_mark, Hdef in Hg1 by done.
  assert (f1 = snd (sem (info i) x f)) as -> by (by rewrite Hsem).
  destruct (Z.testbit (hbr_def i) r) eqn:Hd.
  - rewrite Hg1; [by apply (hr_def i Hi)|]. left. apply andb_false_iff. left.
    apply Z.eqb_neq. intros E. apply (f_equal (λ y, Z.testbit y r)) in E.
    by rewrite Z.land_spec, Hd, Hb, Z.bits_0 in E.
  - rewrite Hg1 by auto. apply (hr_keep i Hi); [done..|]. apply Hag. cbn [gpr_live].
    apply testbit_gpr_before; auto.
Qed.

End semantics.

(** ** Defects of the summary *)

Definition g_inst (op : dt_x86_insn) (ops : list IR1_OPND) : IR1_INST :=
  mkIR1 (mkInfo op [0; 0; 0; 0] 0 ops 0 0 [] 8 0) 0 0 0 0 0 0 None.
Definition g_tb (l : list IR1_INST) (ty : IR1_TYPE) (n t : option nat) : TranslationBlock :=
  mkTB l 0 0 n t ty 0 0 0 0 0 0 0 false 0.
Definition r32 (r : dt_x86_reg) : IR1_OPND := mkOpnd (OP_REG r) 4.
Definition r64 (r : dt_x86_reg) : IR1_OPND := mkOpnd (OP_REG r) 8.
Definition mem_at (r : dt_x86_reg) : IR1_OPND :=
  mkOpnd (OP_MEM (mkMem dt_X86_REG_INVALID r dt_X86_REG_INVALID 0 0)) 4.

(** [add eax, ecx] jumping to a block that starts with [add eax, [rax]]. *)
Definition self_use_unit : list TranslationBlock :=
  [g_tb [g_inst dt_X86_INS_ADD [r32 dt_X86_REG_EAX; r32 dt_X86_REG_ECX]]
        IR1_TYPE_JUMP None (Some 1%nat);
   g_tb [g_inst dt_X86_INS_ADD [r32 dt_X86_REG_EAX; mem_at dt_X86_REG_RAX]]
        IR1_TYPE_RET None None].

(** The mark of instruction [k] of block [i] after the pass. *)
Definition marked (tbs : option (list TranslationBlock)) (i k : nat) : option bool :=
  l ← tbs; tb ← l !! i; ins ← ir1 tb !! k; Some (can_ghbr_opt true ins).

(** C34 The summary loses the use of a register that the same instruction
    defines: definitions are recorded before uses, so the address register of
    [add eax, [rax]] does not count as read by the block, and the [add eax, ecx]
    of the predecessor is marked as free to leave garbage in the high half of
    rax, which the successor then uses as an address. *)
Theorem self_use_lost :
  marked (do_gpr_opt self_use_unit) 0 0 = Some true ∧
  ∃ tb tb', self_use_unit !! 1%nat = Some tb ∧ get_gpr_use_def tb = Some tb' ∧
    Z.testbit (gpr_live (ir1 tb') 0) eax_index = true ∧
    Z.testbit (in_eq tb' 0) eax_index = false.
Proof.
  split; [vm_compute; reflexivity|]. do 2 eexists.
  split; [reflexivity|]. split; [vm_compute; reflexivity|]. split; reflexivity.
Qed.

(** For POPAW the code computes [0xff & ~esp_index]: the index instead of its
    bit is complemented, so edx is left out and esp is taken as defined. *)
Theorem popaw_mask_wrong :
  let g := deal_hide_opnd_def (mkG (g_inst dt_X86_INS_POPAW []) 0 0) in
  Z.testbit (g_def g) edx_index = false ∧ Z.testbit (g_def g) esp_index = true.
Proof. split; reflexivity. Qed.

(** ** Witnesses *)

(** [add eax, ecx; mov rax, rcx]: the first result is overwritten unread. *)
Definition dead_add : list IR1_INST :=
  [set_hbr_def (g_inst dt_X86_INS_ADD [r32 dt_X86_REG_EAX; r32 dt_X86_REG_ECX]) (bit eax_index);
   set_hbr_def (g_inst dt_X86_INS_MOV [r64 dt_X86_REG_RAX; r64 dt_X86_REG_RCX]) (bit eax_index)].

Lemma gpr_mark_exact_witness :
  ∃ i', fst (gpr_mark dead_add GHBR_GPR_ALL) !! 0%nat = Some i' ∧
    Z.testbit (hbr_flag i') 3 = true ∧
    ¬ hi_exposed eax_index GHBR_GPR_ALL (drop 1 dead_add).
Proof.
  eexists. split; [vm_compute; reflexivity|]. split; [reflexivity|].
  refine (proj2 (proj1 (gpr_mark_exact dead_add GHBR_GPR_ALL 0 _ _ eq_refl eq_refl _ eq_refl)
    eq_refl) eax_index eq_refl). discriminate.
Defined.

(** The unit of two blocks after the per-block analysis. *)
Definition two_blocks : list TranslationBlock :=
  [g_tb [g_inst dt_X86_INS_ADD [r32 dt_X86_REG_EAX; r32 dt_X86_REG_ECX]]
        IR1_TYPE_JUMP None (Some 1%nat);
   g_tb [g_inst dt_X86_INS_MOV [r64 dt_X86_REG_RCX; r64 dt_X86_REG_RAX]]
        IR1_TYPE_RET None None].
Definition two_blocks_analysed : list TranslationBlock :=
  Eval vm_compute in default [] (mapM get_gpr_use_def two_blocks).

Lemma two_blocks_analysed_eq : mapM get_gpr_use_def two_blocks = Some two_blocks_analysed.
Proof. vm_compute. reflexivity. Qed.

Lemma two_blocks_ok : unit_ok two_blocks.
Proof.
  intros [|[|i]] tb; simpl; intros [= <-]; simpl; split_and!; try done; intros s [= <-]; lia.
Qed.

Lemma gpr_solve_least_witness :
  ∃ tbs', iterate gpr_body (flow_fuel two_blocks_analysed) 2 two_blocks_analysed = Some tbs'.
Proof.
  destruct (gpr_solve_least two_blocks_analysed) as (tbs' & H & _).
  - split; [reflexivity|]. intros [|[|i]] tb; simpl; intros [= <-];
      (split; simpl; [unfold in_u; lia..|done| |]); intros s [= <-]; lia.
  - intros [|[|i]] tb; simpl; intros [= <-]; split; reflexivity.
  - exists tbs'. exact H.
Defined.

Lemma get_gpr_use_def_summary_witness :
  ∃ tb tb', two_blocks !! 1%nat = Some tb ∧ get_gpr_use_def tb = Some tb' ∧
    Z.testbit (in_eq tb' 0) eax_index = Z.testbit (gpr_live (ir1 tb') 0) eax_index.
Proof.
  do 2 eexists. split; [reflexivity|]. split; [vm_compute; reflexivity|].
  eapply (get_gpr_use_def_summary (nth 1 two_blocks (g_tb [] IR1_TYPE_RET None None)));
    [vm_compute; reflexivity| |unfold eax_index; lia].
  intros i Hi. apply list_elem_of_In in Hi. simpl in Hi. destruct Hi as [<-|[]]. reflexivity.
Defined.

Lemma do_gpr_opt_correct_witness :
  ∃ tbs', do_gpr_opt two_blocks = Some tbs' ∧
    ∀ i tb', tbs' !! i = Some tb' → hb_in tb' = in_eq tb' (hb_out tb').
Proof.
  destruct (do_gpr_opt_correct two_blocks two_blocks_analysed two_blocks_ok
    two_blocks_analysed_eq) as (tbs' & H & Hall).
  exists tbs'. split; [exact H|]. intros i tb' Hi.
  destruct (Hall i tb' Hi) as (tb1 & _ & _ & _ & He). exact He.
Defined.

Definition sem_const (_ : la_dt_insn) (x : Z) (_ : his) : Z * his := (x + 1, λ _, 0).

(** The run in which the first, marked, instruction leaves 7 in the high half of
    rax. *)
Lemma gpr_mark_sound_witness :
  fst (hi_ref sem_const dead_add (0, λ _, 5)) = 2 ∧
  hi_agree GHBR_GPR_ALL (snd (hi_ref sem_const dead_add (0, λ _, 5))) (λ _, 0).
Proof.
  apply (gpr_mark_sound sem_const dead_add GHBR_GPR_ALL 0 (λ _, 5) (λ _, 5) 2 (λ _, 0)).
  - intros i Hi. apply list_elem_of_In in Hi. simpl in Hi.
    destruct Hi as [<-|[<-|[]]]; (split; [by split|reflexivity]).
  - eapply (hi_cons sem_const _ _ 0 (λ _, 5) (λ r, if r =? 0 then 7 else 0)).
    + intros r [H|H]; [discriminate H|]. cbn [sem_const snd].
      destruct (Z.eqb_spec r 0) as [->|]; [discriminate H|reflexivity].
    + eapply (hi_cons sem_const _ _ 1 _ (λ _, 0)); [intros; reflexivity|]. apply hi_nil.
  - intros r _. reflexivity.
Defined.
