(* ===== verification/HbrXmm.v ===== *)
(** * High-bits reduction of XMM registers (optimization/hbr.c)

    Scalar SSE instructions must keep the upper bits of their destination, which
    costs the generated code an extra instruction.  The pass finds the scalar
    instructions whose upper bits nobody reads.  It runs twice, for bits 32 to 127
    ([xmm_analyse_32], mark SHBR_CAN_OPT32) and for bits 64 to 127
    ([xmm_analyse_64], mark SHBR_CAN_OPT64).  Forward over a block, [xmm[r]] is the
    set of registers at block entry on whose upper bits those of [r] depend; each
    instruction records how it uses and updates upper bits in its fields
    [xmm_use] and [xmm_def] ([hbr_use]/[hbr_def] here).  Across blocks the loop of
    HbrFlow.v runs with the transfer function [get_xmm_in]; [shbr_mark] is the final
    backward marking.  [hbr_opt] composes these passes with that of HbrGpr.v. *)

From stdpp Require Import base numbers list option tactics.
From Stdlib Require Import ZArith Lia Bool.
From S2P Require Import Prelude Ir1Enum Ir1 Dataflow HbrFlow HbrGpr.
Local Open Scope Z_scope.
Local Open Scope c_scope.

Definition XMM_NUM : nat := 16.
Definition SHBR_SSE := 0x8.
Definition SHBR_XMM_ZERO := 0x0.
Definition SHBR_XMM_OTHER := 0x10000.
Definition SHBR_XMM_ALL := 0xffff.
Definition SHBR_XMM_MASK := 0xffff.
Definition SHBR_NEED_SRC := 0x10000000.
Definition SHBR_NEED_DES := 0x20000000.
Definition SHBR_UPDATE_DES := 0x40000000.
Definition SHBR_NO_OPT_SRC := 0x01000000.
Definition SHBR_NO_OPT_DES := 0x02000000.

(** [x & flag] as a condition. *)
Definition has (x flag : Z) : bool := negb ((x .& flag) =? 0).

Definition get_inst_type (ir1 : IR1_INST) : Z :=
  if existsb ir1_opnd_is_xmm (operands (info ir1)) then SHBR_SSE else SHBR_NTYPE.

(** The instruction at hand and the array [xmm]. *)
Record xmm_state := mkX { x_ir1 : IR1_INST; x_xmm : list Z }.

Definition or_def (i : IR1_INST) (x : Z) : IR1_INST := set_hbr_def i (hbr_def i .| x).
Definition or_use (i : IR1_INST) (x : Z) : IR1_INST := set_hbr_use i (hbr_use i .| x).

(** ** How an instruction treats upper bits *)

Definition src_des_update_des (s : xmm_state) : option xmm_state :=
  opnd0 ← ir1_get_opnd (x_ir1 s) 0;
  opnd1 ← ir1_get_opnd (x_ir1 s) 1;
  if negb (ir1_opnd_is_xmm opnd1) then Some s
  else if negb (ir1_opnd_is_xmm opnd0) then Some s
  else
    let dest_num := ir1_opnd_base_reg_num opnd0 in
    let src_num := ir1_opnd_base_reg_num opnd1 in
    let i := or_use (or_def (x_ir1 s) SHBR_UPDATE_DES) (SHBR_NEED_SRC .| SHBR_NEED_DES) in
    d ← aget (x_xmm s) dest_num;
    v ← aget (x_xmm s) src_num;
    xmm ← aset (x_xmm s) dest_num (d .| v);
    Some (mkX i xmm).

Definition src_update_des (s : xmm_state) : option xmm_state :=
  let i := or_use (or_def (x_ir1 s) SHBR_UPDATE_DES) SHBR_NEED_SRC in
  opnd0 ← ir1_get_opnd (x_ir1 s) 0;
  opnd1 ← ir1_get_opnd (x_ir1 s) 1;
  if negb (ir1_opnd_is_xmm opnd1) then Some (mkX i (x_xmm s))
  else if negb (ir1_opnd_is_xmm opnd0) then Some (mkX i (x_xmm s))
  else
    v ← aget (x_xmm s) (ir1_opnd_base_reg_num opnd1);
    xmm ← aset (x_xmm s) (ir1_opnd_base_reg_num opnd0) v;
    Some (mkX i xmm).

Definition other_update_des (s : xmm_state) : option xmm_state :=
  opnd0 ← ir1_get_opnd (x_ir1 s) 0;
  if negb (ir1_opnd_is_xmm opnd0) then Some s else
  xmm ← aset (x_xmm s) (ir1_opnd_base_reg_num opnd0) SHBR_XMM_OTHER;
  Some (mkX (set_hbr_def (x_ir1 s) SHBR_UPDATE_DES) xmm).

Definition zero_update_des (s : xmm_state) : option xmm_state :=
  opnd0 ← ir1_get_opnd (x_ir1 s) 0;
  if negb (ir1_opnd_is_xmm opnd0) then Some s else
  xmm ← aset (x_xmm s) (ir1_opnd_base_reg_num opnd0) SHBR_XMM_ZERO;
  Some (mkX (or_def (x_ir1 s) SHBR_UPDATE_DES) xmm).

Definition src_no_opt (s : xmm_state) : option xmm_state :=
  opnd1 ← ir1_get_opnd (x_ir1 s) 1;
  if negb (ir1_opnd_is_xmm opnd1) then Some s else
  v ← aget (x_xmm s) (ir1_opnd_base_reg_num opnd1);
  Some (mkX (or_use (or_use (x_ir1 s) SHBR_NO_OPT_SRC) v) (x_xmm s)).

Definition des_no_opt (s : xmm_state) : option xmm_state :=
  opnd0 ← ir1_get_opnd (x_ir1 s) 0;
  if negb (ir1_opnd_is_xmm opnd0) then Some s else
  v ← aget (x_xmm s) (ir1_opnd_base_reg_num opnd0);
  Some (mkX (or_use (or_use (x_ir1 s) SHBR_NO_OPT_DES) v) (x_xmm s)).

(** ** Instructions treated alike for both widths *)

(** The case labels of the two switches of [deal_xmm_common]; cases with the same
    statements share a constructor. *)
Inductive common_case : Set :=
  | X_ALU | X_KEEP | X_PSIGN | X_MOV128 | X_MOVD | X_MOVSS | X_PMOVMSKB | X_PMOVSX
  | X_CMP | X_MIX | X_PSLLDQ | X_AND | X_XOR | X_NONE.

Definition common_case_of (op : dt_x86_insn) : common_case :=
  match op with
  | dt_X86_INS_ADDPD | dt_X86_INS_ADDPS | dt_X86_INS_ADDSUBPD | dt_X86_INS_ADDSUBPS
  | dt_X86_INS_PADDB | dt_X86_INS_PADDW | dt_X86_INS_PADDD | dt_X86_INS_PADDQ
  | dt_X86_INS_PADDSB | dt_X86_INS_PADDSW | dt_X86_INS_PADDUSB | dt_X86_INS_PADDUSW
  | dt_X86_INS_PMADDWD | dt_X86_INS_PMADDUBSW | dt_X86_INS_PSUBB | dt_X86_INS_PSUBW
  | dt_X86_INS_PSUBD | dt_X86_INS_PSUBQ | dt_X86_INS_PSUBSB | dt_X86_INS_PSUBSW
  | dt_X86_INS_PSUBUSB | dt_X86_INS_PSUBUSW | dt_X86_INS_SUBPS | dt_X86_INS_SUBPD
  | dt_X86_INS_DIVPD | dt_X86_INS_DIVPS | dt_X86_INS_PMULDQ | dt_X86_INS_PMULUDQ
  | dt_X86_INS_MULPD | dt_X86_INS_MULPS | dt_X86_INS_PMULLW | dt_X86_INS_PMULLD
  | dt_X86_INS_PMULHW | dt_X86_INS_PMULHUW | dt_X86_INS_PMULHRSW => X_ALU
  | dt_X86_INS_ADDSS | dt_X86_INS_DIVSS | dt_X86_INS_MULSS | dt_X86_INS_SUBSS
  | dt_X86_INS_CMPSS | dt_X86_INS_MAXSS | dt_X86_INS_MINSS | dt_X86_INS_RSQRTSS
  | dt_X86_INS_SQRTSS | dt_X86_INS_RCPSS | dt_X86_INS_COMISS | dt_X86_INS_UCOMISS
  | dt_X86_INS_CVTSS2SI | dt_X86_INS_CVTTSS2SI | dt_X86_INS_CVTSS2SD
  | dt_X86_INS_CVTSI2SS | dt_X86_INS_CVTSI2SD => X_KEEP
  | dt_X86_INS_PSIGNB | dt_X86_INS_PSIGNW | dt_X86_INS_PSIGND => X_PSIGN
  | dt_X86_INS_MOVUPS | dt_X86_INS_MOVUPD | dt_X86_INS_MOVAPS | dt_X86_INS_MOVAPD
  | dt_X86_INS_MOVDQA | dt_X86_INS_MOVDQU | dt_X86_INS_MOVNTPS
  | dt_X86_INS_MOVNTPD => X_MOV128
  | dt_X86_INS_MOVD => X_MOVD
  | dt_X86_INS_MOVSS => X_MOVSS
  | dt_X86_INS_PMOVMSKB => X_PMOVMSKB
  | dt_X86_INS_PMOVSXBD | dt_X86_INS_PMOVSXBQ | dt_X86_INS_PMOVSXWQ => X_PMOVSX
  | dt_X86_INS_PCMPEQB | dt_X86_INS_PCMPEQW | dt_X86_INS_PCMPEQD | dt_X86_INS_PCMPEQQ
  | dt_X86_INS_CMPPD | dt_X86_INS_CMPPS | dt_X86_INS_PCMPGTB | dt_X86_INS_PCMPGTW
  | dt_X86_INS_PCMPGTD | dt_X86_INS_PCMPGTQ | dt_X86_INS_PCMPISTRM
  | dt_X86_INS_PCMPESTRM => X_CMP
  | dt_X86_INS_PCMPESTRI | dt_X86_INS_PCMPISTRI => X_MIX
  | dt_X86_INS_PSLLDQ => X_PSLLDQ
  | dt_X86_INS_PSLLW | dt_X86_INS_PSLLD | dt_X86_INS_PSLLQ | dt_X86_INS_PSRAW
  | dt_X86_INS_PSRAD | dt_X86_INS_PSRLW | dt_X86_INS_PSRLD | dt_X86_INS_PSRLQ => X_KEEP
  | dt_X86_INS_PUNPCKHBW | dt_X86_INS_PUNPCKHDQ | dt_X86_INS_PUNPCKHWD
  | dt_X86_INS_UNPCKHPS | dt_X86_INS_PACKUSDW | dt_X86_INS_PACKSSWB
  | dt_X86_INS_PACKSSDW | dt_X86_INS_PACKUSWB => X_MIX
  | dt_X86_INS_POR | dt_X86_INS_ORPS | dt_X86_INS_ORPD | dt_X86_INS_ANDNPD
  | dt_X86_INS_ANDNPS | dt_X86_INS_PANDN | dt_X86_INS_PMINSW | dt_X86_INS_PMINSD
  | dt_X86_INS_PMINSB | dt_X86_INS_PMINUW | dt_X86_INS_PMINUD | dt_X86_INS_PMINUB => X_ALU
  | dt_X86_INS_ANDPD | dt_X86_INS_ANDPS | dt_X86_INS_PAND => X_AND
  | dt_X86_INS_PXOR | dt_X86_INS_XORPD | dt_X86_INS_XORPS => X_XOR
  | _ => X_NONE
  end.

(** [return true] after a step. *)
Definition ret (b : bool) (o : option xmm_state) : option (xmm_state * bool) :=
  s ← o; Some (s, b).

Definition deal_xmm_common (s : xmm_state) : option (xmm_state * bool) :=
  des_opnd ← ir1_get_opnd (x_ir1 s) 0;
  src_opnd ← ir1_get_opnd (x_ir1 s) 1;
  let src_num := if ir1_opnd_is_xmm src_opnd then ir1_opnd_base_reg_num src_opnd else -1 in
  let des_num := if ir1_opnd_is_xmm des_opnd then ir1_opnd_base_reg_num des_opnd else -2 in
  match common_case_of (ir1_opcode (x_ir1 s)) with
  | X_ALU => ret true (if ir1_opnd_is_xmm src_opnd then src_des_update_des s else Some s)
  | X_KEEP => Some (s, true)
  | X_PSIGN => ret true (if ir1_opnd_is_xmm src_opnd then src_update_des s else Some s)
  | X_MOV128 =>
      ret true (if negb (ir1_opnd_is_xmm des_opnd) then src_no_opt s
                else if ir1_opnd_is_mem src_opnd then other_update_des s
                else src_update_des s)
  | X_MOVD => ret true (zero_update_des s)
  | X_MOVSS => ret true (if ir1_opnd_is_mem src_opnd then zero_update_des s else Some s)
  | X_PMOVMSKB => ret true (if ir1_opnd_is_xmm src_opnd then src_no_opt s else Some s)
  | X_PMOVSX => ret true (other_update_des s)
  | X_CMP =>
      ret true (if src_num =? des_num then other_update_des s
                else if ir1_opnd_is_xmm src_opnd then src_des_update_des s else Some s)
  | X_MIX =>
      ret true (s ← des_no_opt s;
                if ir1_opnd_is_xmm src_opnd then s ← src_des_update_des s; src_no_opt s
                else Some s)
  | X_PSLLDQ => ret true (des_no_opt s)
  | X_AND =>
      if negb (ir1_opnd_is_xmm src_opnd) then Some (s, true) else
      d ← aget (x_xmm s) des_num;
      if d =? SHBR_XMM_ZERO then Some (s, true) else
      v ← aget (x_xmm s) src_num;
      if v =? SHBR_XMM_ZERO then ret true (src_update_des s)
      else if src_num =? des_num then Some (s, true)
      else ret true (src_des_update_des s)
  | X_XOR =>
      if negb (ir1_opnd_is_xmm src_opnd) then Some (s, true) else
      if src_num =? des_num then ret true (zero_update_des s)
      else ret true (src_des_update_des s)
  | X_NONE => Some (s, false)
  end.

(** ** Bits 32 to 127 *)

Definition deal_dest_not_xmm_32 (s : xmm_state) : option (xmm_state * bool) :=
  opnd1 ← ir1_get_opnd (x_ir1 s) 1;
  if negb (ir1_opnd_is_xmm opnd1) then Some (s, false) else
  match ir1_opcode (x_ir1 s) with
  | dt_X86_INS_MOVDQ2Q => ret true (src_no_opt s)
  | _ => ret false (src_no_opt s)
  end.

Definition deal_src_not_xmm_32 (s : xmm_state) : option (xmm_state * bool) :=
  ret false (des_no_opt s).

(** The first switch of [xmm_analyse_32]. *)
Inductive case_32 : Set :=
  | A_SD | A_MOVSD | A_MOVH | A_MOVQ | A_MOVL | A_MOVHL | A_UNPCKL | A_PMOVSX
  | A_CVT | A_PSRLDQ | A_UNPCKH | A_NONE.

Definition case_32_of (op : dt_x86_insn) : case_32 :=
  match op with
  | dt_X86_INS_CMPSD | dt_X86_INS_ADDSD | dt_X86_INS_DIVSD | dt_X86_INS_MAXSD
  | dt_X86_INS_MINSD | dt_X86_INS_MULSD | dt_X86_INS_SUBSD | dt_X86_INS_SQRTSD
  | dt_X86_INS_COMISD | dt_X86_INS_UCOMISD => A_SD
  | dt_X86_INS_MOVSD => A_MOVSD
  | dt_X86_INS_MOVHPS | dt_X86_INS_MOVHPD => A_MOVH
  | dt_X86_INS_MOVQ => A_MOVQ
  | dt_X86_INS_MOVLHPS | dt_X86_INS_MOVLPD | dt_X86_INS_MOVLPS => A_MOVL
  | dt_X86_INS_MOVHLPS => A_MOVHL
  | dt_X86_INS_PUNPCKLBW | dt_X86_INS_PUNPCKLWD | dt_X86_INS_PUNPCKLDQ
  | dt_X86_INS_PUNPCKLQDQ | dt_X86_INS_UNPCKLPS | dt_X86_INS_UNPCKLPD => A_UNPCKL
  | dt_X86_INS_PMOVSXBW | dt_X86_INS_PMOVSXWD | dt_X86_INS_PMOVSXDQ => A_PMOVSX
  | dt_X86_INS_CVTSD2SS | dt_X86_INS_CVTSD2SI | dt_X86_INS_CVTTSD2SI
  | dt_X86_INS_CVTTPS2PI => A_CVT
  | dt_X86_INS_PSRLDQ => A_PSRLDQ
  | dt_X86_INS_PUNPCKHQDQ | dt_X86_INS_UNPCKHPD => A_UNPCKH
  | _ => A_NONE
  end.

(** The instructions with an immediate, common to both widths. *)
Inductive case_imm : Set := I_PSHUFD | I_PALIGNR | I_SHUFPS | I_NONE.

Definition case_imm_of (op : dt_x86_insn) : case_imm :=
  match op with
  | dt_X86_INS_PSHUFD => I_PSHUFD
  | dt_X86_INS_PALIGNR => I_PALIGNR
  | dt_X86_INS_SHUFPS => I_SHUFPS
  | _ => I_NONE
  end.

(** The switch on the immediate forms; [None] inside is falling out of it. *)
Definition analyse_imm_32 (s : xmm_state) (src_opnd : IR1_OPND) (imm : Z) :
    option (option xmm_state) :=
  match case_imm_of (ir1_opcode (x_ir1 s)) with
  | I_PSHUFD =>
      Some <$> (if ir1_opnd_is_mem src_opnd || (imm <? 1) then other_update_des s
                else s ← src_no_opt s; src_update_des s)
  | I_PALIGNR =>
      Some <$> (if imm <=? 4 then
                  if ir1_opnd_is_xmm src_opnd then s ← src_update_des s; src_no_opt s
                  else other_update_des s
                else if imm <? 16 then
                  if ir1_opnd_is_xmm src_opnd then s ← src_des_update_des s; src_no_opt s
                  else Some s
                else if 16 <? imm then des_no_opt s
                else Some s)
  | I_SHUFPS =>
      Some <$> (s ← (if has imm 0x3 then des_no_opt s else Some s);
                if has imm 0xf0 then
                  if has imm 0x0f then src_des_update_des s else src_update_des s
                else if imm =? 0 then other_update_des s
                else Some s)
  | I_NONE => Some None
  end.

(** What follows the switches: no case applied. *)
Definition analyse_rest_32 (s : xmm_state) : option (xmm_state * bool) :=
  src_opnd ← ir1_get_opnd (x_ir1 s) 1;
  des_opnd ← ir1_get_opnd (x_ir1 s) 0;
  if negb (ir1_opnd_is_xmm des_opnd) then deal_dest_not_xmm_32 s
  else if negb (ir1_opnd_is_xmm src_opnd) then deal_src_not_xmm_32 s
  else ret false (s ← src_des_update_des s; s ← src_no_opt s; des_no_opt s).

(** The test before the switch on the immediate forms: the immediate, an
    [uint8_t], when there is one. *)
Definition third_imm (i : IR1_INST) : option (option Z) :=
  if negb (ir1_get_opnd_num i =? 3) then Some None else
  opnd2 ← ir1_get_opnd i 2;
  if negb (ir1_opnd_is_imm opnd2) then Some None else
  imm ← ir1_opnd_uimm opnd2; Some (Some (u8 imm)).

Definition analyse_tail_32 (s : xmm_state) (src_opnd : IR1_OPND) : option (xmm_state * bool) :=
  oimm ← third_imm (x_ir1 s);
  match oimm with
  | Some imm =>
      r ← analyse_imm_32 s src_opnd imm;
      match r with Some s => Some (s, true) | None => analyse_rest_32 s end
  | None => analyse_rest_32 s
  end.

Definition xmm_analyse_32 (s : xmm_state) : option (xmm_state * bool) :=
  '(s, done) ← deal_xmm_common s;
  if (done : bool) then Some (s, true) else
  src_opnd ← ir1_get_opnd (x_ir1 s) 1;
  des_opnd ← ir1_get_opnd (x_ir1 s) 0;
  match case_32_of (ir1_opcode (x_ir1 s)) with
  | A_SD => ret true (if ir1_opnd_is_xmm src_opnd then src_des_update_des s else Some s)
  | A_MOVSD =>
      ret true (if ir1_opnd_is_mem src_opnd then other_update_des s
                else if negb (ir1_opnd_is_xmm des_opnd) then src_no_opt s
                else src_des_update_des s)
  | A_MOVH => ret true (if ir1_opnd_is_xmm src_opnd then src_no_opt s else Some s)
  | A_MOVQ =>
      ret true (if ir1_opnd_is_mem src_opnd then other_update_des s
                else if negb (ir1_opnd_is_xmm des_opnd) then src_no_opt s
                else if ir1_opnd_is_xmm src_opnd then src_update_des s else Some s)
  | A_MOVL => ret true (if ir1_opnd_is_xmm src_opnd then src_des_update_des s else Some s)
  | A_MOVHL =>
      ret true (if ir1_opnd_is_xmm src_opnd then s ← src_des_update_des s; src_no_opt s
                else Some s)
  | A_UNPCKL => ret true (src_des_update_des s)
  | A_PMOVSX => ret true (s ← other_update_des s; src_no_opt s)
  | A_CVT => ret true (if ir1_opnd_is_xmm src_opnd then src_no_opt s else Some s)
  | A_PSRLDQ =>
      lsassert ir1_opnd_is_imm src_opnd ;;
      imm ← ir1_opnd_uimm src_opnd;
      ret true (if 12 <=? imm then other_update_des s else Some s)
  | A_UNPCKH =>
      s ← des_no_opt s;
      s ← (if ir1_opnd_is_xmm src_opnd then src_des_update_des s else Some s);
      analyse_tail_32 s src_opnd
  | A_NONE => analyse_tail_32 s src_opnd
  end.

(** ** Bits 64 to 127 *)

Definition deal_dest_not_xmm_64 (s : xmm_state) : option (xmm_state * bool) :=
  ret false (src_no_opt s).

Definition deal_src_not_xmm_64 (s : xmm_state) : option (xmm_state * bool) :=
  ret false (des_no_opt s).

(** The first switch of [xmm_analyse_64]. *)
Inductive case_64 : Set :=
  | B_KEEP | B_MOVSD | B_MOVQ | B_MOVH | B_OTHER | B_MOVHL | B_PSRLDQ | B_NONE.

Definition case_64_of (op : dt_x86_insn) : case_64 :=
  match op with
  | dt_X86_INS_CMPSD | dt_X86_INS_ADDSD | dt_X86_INS_DIVSD | dt_X86_INS_MAXSD
  | dt_X86_INS_MINSD | dt_X86_INS_MULSD | dt_X86_INS_SUBSD | dt_X86_INS_SQRTSD
  | dt_X86_INS_COMISD | dt_X86_INS_UCOMISD | dt_X86_INS_MOVLPD | dt_X86_INS_MOVLPS
  | dt_X86_INS_CVTSD2SS | dt_X86_INS_CVTSD2SI | dt_X86_INS_CVTTSD2SI
  | dt_X86_INS_CVTTPS2PI => B_KEEP
  | dt_X86_INS_MOVSD => B_MOVSD
  | dt_X86_INS_MOVQ => B_MOVQ
  | dt_X86_INS_MOVHPS | dt_X86_INS_MOVHPD => B_MOVH
  | dt_X86_INS_PUNPCKLBW | dt_X86_INS_PUNPCKLWD | dt_X86_INS_PUNPCKLDQ
  | dt_X86_INS_PUNPCKLQDQ | dt_X86_INS_UNPCKLPS | dt_X86_INS_UNPCKLPD
  | dt_X86_INS_MOVLHPS | dt_X86_INS_PMOVSXBW | dt_X86_INS_PMOVSXWD
  | dt_X86_INS_PMOVSXDQ => B_OTHER
  | dt_X86_INS_MOVHLPS => B_MOVHL
  | dt_X86_INS_PSRLDQ => B_PSRLDQ
  | _ => B_NONE
  end.

Definition analyse_imm_64 (s : xmm_state) (src_opnd : IR1_OPND) (imm : Z) :
    option (option xmm_state) :=
  match case_imm_of (ir1_opcode (x_ir1 s)) with
  | I_PSHUFD =>
      Some <$> (if ir1_opnd_is_mem src_opnd || (imm <=? 1) then other_update_des s
                else s ← src_no_opt s; src_update_des s)
  | I_PALIGNR =>
      Some <$> (if imm <=? 8 then
                  if ir1_opnd_is_xmm src_opnd then s ← src_update_des s; src_no_opt s
                  else other_update_des s
                else if imm <? 16 then
                  if ir1_opnd_is_xmm src_opnd then s ← src_des_update_des s; src_no_opt s
                  else Some s
                else if 16 <? imm then des_no_opt s
                else Some s)
  | I_SHUFPS =>
      Some <$> (s ← (if has imm 0xa then des_no_opt s else Some s);
                if has imm 0xa0 then
                  if has imm 0x0a then src_des_update_des s else src_update_des s
                else if (imm .& 0xaa) =? 0 then other_update_des s
                else Some s)
  | I_NONE => Some None
  end.

Definition analyse_rest_64 (s : xmm_state) (src_opnd : IR1_OPND) : option (xmm_state * bool) :=
  des_opnd ← ir1_get_opnd (x_ir1 s) 0;
  if negb (ir1_opnd_is_xmm des_opnd) then deal_dest_not_xmm_64 s
  else if negb (ir1_opnd_is_xmm src_opnd) then deal_src_not_xmm_64 s
  else ret false (s ← src_des_update_des s; s ← src_no_opt s; des_no_opt s).

Definition xmm_analyse_64 (s : xmm_state) : option (xmm_state * bool) :=
  '(s, done) ← deal_xmm_common s;
  if (done : bool) then Some (s, true) else
  src_opnd ← ir1_get_opnd (x_ir1 s) 1;
  match case_64_of (ir1_opcode (x_ir1 s)) with
  | B_KEEP => Some (s, true)
  | B_MOVSD => ret true (if ir1_opnd_is_mem src_opnd then zero_update_des s else Some s)
  | B_MOVQ => ret true (zero_update_des s)
  | B_MOVH => ret true (if ir1_opnd_is_mem src_opnd then other_update_des s else src_no_opt s)
  | B_OTHER => ret true (other_update_des s)
  | B_MOVHL => ret true (src_no_opt s)
  | B_PSRLDQ =>
      lsassert ir1_opnd_is_imm src_opnd ;;
      imm ← ir1_opnd_uimm src_opnd;
      ret true (if 8 <=? imm then other_update_des s else Some s)
  | B_NONE =>
      oimm ← third_imm (x_ir1 s);
      match oimm with
      | Some imm =>
          r ← analyse_imm_64 s src_opnd imm;
          match r with Some s => Some (s, true) | None => analyse_rest_64 s src_opnd end
      | None => analyse_rest_64 s src_opnd
      end
  end.

(** ** Per block *)

Definition init_xmm_state : list Z := map (λ i, bit (Z.of_nat i)) (seq 0 XMM_NUM).

Section block.
  (** The function pointer [analyse_func]. *)
  Context (analyse_func : xmm_state → option (xmm_state * bool)).

(** The loop of [tb_xmm_analyse] with [xmm], [shbr_type] and [xmm_use]. *)
Fixpoint analyse_insts (l : list IR1_INST) (xmm : list Z) (ty use : Z) :
    option (list IR1_INST * list Z * Z * Z) :=
  match l with
  | [] => Some ([], xmm, ty, use)
  | i :: l =>
      let i := set_hbr_use (set_hbr_def i 0) 0 in
      if get_inst_type i =? SHBR_NTYPE then
        '(l, xmm, ty, use) ← analyse_insts l xmm ty use;
        Some (i :: l, xmm, ty, use)
      else
        let ty := if ty =? SHBR_NTYPE then SHBR_SSE else ty in
        '(s, _) ← analyse_func (mkX i xmm);
        '(l, xmm, ty, use) ← analyse_insts l (x_xmm s) ty (use .| hbr_use (x_ir1 s));
        Some (x_ir1 s :: l, xmm, ty, use)
  end.

(** The block and its array [xmm]. *)
Definition tb_xmm_analyse (tb : TranslationBlock) : option (TranslationBlock * list Z) :=
  '(l, xmm, ty, use) ← analyse_insts (ir1 tb) init_xmm_state SHBR_NTYPE 0;
  Some (set_hb (set_shbr_type (set_ir1 tb l) ty) (hb_in tb) (hb_out tb)
          (use .& SHBR_XMM_MASK) 0, xmm).

(** The first loop of [do_shbr_opt32] and [do_shbr_opt64] for one block. *)
Definition shbr_init_tb (tb : TranslationBlock) : option (TranslationBlock * list Z) :=
  '(tb, xmm) ← tb_xmm_analyse tb;
  Some (set_hb tb (hb_use tb) 0 (hb_use tb) (hb_def tb), xmm).

End block.

(** ** Across blocks *)

(** The loop of [get_xmm_in] from register number [i] on. *)
Fixpoint get_xmm_in_from (i : nat) (xmm : list Z) (xmm_out inn : Z) : Z :=
  match xmm with
  | [] => inn
  | v :: xmm =>
      get_xmm_in_from (S i) xmm xmm_out
        (if has xmm_out (bit (Z.of_nat i)) then inn .| (v .& SHBR_XMM_MASK) else inn)
  end.

Definition get_xmm_in (xmm_use : Z) (xmm : list Z) (xmm_out : Z) : Z :=
  get_xmm_in_from 0 xmm xmm_out xmm_use.

(** [get_xmm_in(tb, xmm[i])] as a transfer function. *)
Definition xmm_transfer (xmm : list (list Z)) (i : nat) (tb : TranslationBlock) (out : Z) : Z :=
  get_xmm_in (hb_use tb) (default [] (xmm !! i)) out.

Definition xmm_body (xmm : list (list Z)) :
    nat → list TranslationBlock → option (list TranslationBlock * bool) :=
  flow_body SHBR_XMM_ALL 0 (xmm_transfer xmm).

(** The marking of one instruction: [no_opt_xmm] is the set of registers whose
    upper bits are needed after it, then before it. *)
Definition shbr_mark_one (opt_flag : Z) (ir1 : IR1_INST) (no_opt_xmm : Z) :
    option (IR1_INST * Z) :=
  if get_inst_type ir1 =? SHBR_NTYPE then Some (ir1, no_opt_xmm) else
  opnd0 ← ir1_get_opnd ir1 0;
  opnd1 ← ir1_get_opnd ir1 1;
  let '(ir1, no_opt_xmm) :=
    if ir1_opnd_is_xmm opnd0 then
      let dest_num := ir1_opnd_base_reg_num opnd0 in
      if has no_opt_xmm (bit dest_num) then
        let no_opt_xmm :=
          if has (hbr_def ir1) SHBR_UPDATE_DES && negb (has (hbr_use ir1) SHBR_NEED_DES)
          then no_opt_xmm .& ~. bit dest_num else no_opt_xmm in
        if has (hbr_use ir1) SHBR_NEED_SRC && ir1_opnd_is_xmm opnd1
        then (ir1, no_opt_xmm .| bit (ir1_opnd_base_reg_num opnd1)) else (ir1, no_opt_xmm)
      else if has (hbr_use ir1) SHBR_NO_OPT_DES then (ir1, no_opt_xmm .| bit dest_num)
      else (set_hbr_flag ir1 (hbr_flag ir1 .| opt_flag), no_opt_xmm)
    else (ir1, no_opt_xmm) in
  if has (hbr_use ir1) SHBR_NO_OPT_SRC then
    lsassert ir1_opnd_is_xmm opnd1 ;;
    Some (ir1, no_opt_xmm .| bit (ir1_opnd_base_reg_num opnd1))
  else Some (ir1, no_opt_xmm).

(** The loop over the instructions of a block, from the last one back. *)
Fixpoint shbr_mark (opt_flag : Z) (l : list IR1_INST) (no_opt_xmm : Z) :
    option (list IR1_INST * Z) :=
  match l with
  | [] => Some ([], no_opt_xmm)
  | i :: l =>
      '(l, no_opt_xmm) ← shbr_mark opt_flag l no_opt_xmm;
      '(i, no_opt_xmm) ← shbr_mark_one opt_flag i no_opt_xmm;
      Some (i :: l, no_opt_xmm)
  end.

Definition shbr_mark_tb (opt_flag : Z) (tb : TranslationBlock) : option TranslationBlock :=
  if shbr_type tb =? SHBR_NTYPE then Some tb else
  '(l, _) ← shbr_mark opt_flag (ir1 tb) (hb_out tb .& SHBR_XMM_MASK);
  Some (set_ir1 tb l).

Definition over_tb_shbr_opt (tbs : list TranslationBlock) (opt_flag : Z)
    (xmm : list (list Z)) : option (list TranslationBlock) :=
  tbs ← iterate (xmm_body xmm) (flow_fuel tbs) (length tbs) tbs;
  mapM (shbr_mark_tb opt_flag) tbs.

(** [do_shbr_opt32] and [do_shbr_opt64] differ in the analysis and the mark. *)
Definition do_shbr_opt (analyse_func : xmm_state → option (xmm_state * bool)) (opt_flag : Z)
    (tbs : list TranslationBlock) : option (list TranslationBlock) :=
  l ← mapM (shbr_init_tb analyse_func) tbs;
  over_tb_shbr_opt (map fst l) opt_flag (map snd l).

Definition do_shbr_opt32 : list TranslationBlock → option (list TranslationBlock) :=
  do_shbr_opt xmm_analyse_32 SHBR_CAN_OPT32.
Definition do_shbr_opt64 : list TranslationBlock → option (list TranslationBlock) :=
  do_shbr_opt xmm_analyse_64 SHBR_CAN_OPT64.

(** ** The whole pass *)

Definition clear_ir1_flag (tbs : list TranslationBlock) : list TranslationBlock :=
  map (λ tb, if negb (shbr_type tb =? SHBR_NTYPE)
             then set_ir1 tb (map (λ i, set_hbr_flag i 0) (ir1 tb)) else tb) tbs.

Definition hbr_opt (tbs : list TranslationBlock) : option (list TranslationBlock) :=
  tbs ← do_shbr_opt32 (clear_ir1_flag tbs);
  tbs ← do_shbr_opt64 tbs;
  do_gpr_opt tbs.

Definition can_shbr_opt64 (in_pre_translate : bool) (ir1 : IR1_INST) : bool :=
  if negb in_pre_translate then false else has (hbr_flag ir1) SHBR_CAN_OPT64.
Definition can_shbr_opt32 (in_pre_translate : bool) (ir1 : IR1_INST) : bool :=
  if negb in_pre_translate then false else has (hbr_flag ir1) SHBR_CAN_OPT32.
