(* ===== verification/HbrXmmSound.v ===== *)
(** * Correctness of the XMM high-bits reduction

    The two analyses of HbrXmm.v are shown total on decoded instructions, with
    records that agree with their effect on the dependence array ([tracks]).  The
    class [XmmAnalysis] states that to the passes over blocks: against it the file
    proves that the marking never fails an assertion, that the summary of a block
    covers what its marking needs, that the loop over the blocks ends with the
    least solution, and that code which leaves garbage in the upper bits of marked
    destinations computes what the reference computes, along any path of blocks. *)

From stdpp Require Import base numbers list option tactics.
From Stdlib Require Import ZArith Lia Bool.
From S2P Require Import Prelude Ir1Enum Ir1 Dataflow HbrFlow HbrGpr HbrXmm.
Local Open Scope Z_scope.
Local Open Scope c_scope.

(** ** Registers and flags *)

(** The XMM register of operand [k], if it is one. *)
Definition xreg (i : IR1_INST) (k : nat) : option Z :=
  o ← ir1_get_opnd i k; if ir1_opnd_is_xmm o then Some (ir1_opnd_base_reg_num o) else None.

Lemma xmm_reg_range o : ir1_opnd_is_xmm o = true → 0 ≤ ir1_opnd_base_reg_num o < 16.
Proof.
  unfold ir1_opnd_is_xmm, ir1_opnd_base_reg_num. destruct (opnd_op o); try done.
  match goal with r : dt_x86_reg |- _ => destruct r end;
    try done; intros _; vm_compute; split; congruence.
Qed.

Lemma xreg_range i k r : xreg i k = Some r → 0 ≤ r < 16.
Proof.
  unfold xreg. destruct (ir1_get_opnd i k) as [o|]; [|done]. simpl.
  destruct (ir1_opnd_is_xmm o) eqn:E; [|done]. intros [= <-]. by apply xmm_reg_range.
Qed.

Lemma has_bit x k : 0 ≤ k → has x (bit k) = Z.testbit x k.
Proof. intros Hk. unfold has. rewrite land_bit_0 by done. apply negb_involutive. Qed.

Lemma has_need_src x : has x SHBR_NEED_SRC = Z.testbit x 28.
Proof. by apply (has_bit x 28). Qed.
Lemma has_need_des x : has x SHBR_NEED_DES = Z.testbit x 29.
Proof. by apply (has_bit x 29). Qed.
Lemma has_update_des x : has x SHBR_UPDATE_DES = Z.testbit x 30.
Proof. by apply (has_bit x 30). Qed.
Lemma has_no_opt_src x : has x SHBR_NO_OPT_SRC = Z.testbit x 24.
Proof. by apply (has_bit x 24). Qed.
Lemma has_no_opt_des x : has x SHBR_NO_OPT_DES = Z.testbit x 25.
Proof. by apply (has_bit x 25). Qed.

(** The five flags an analysis records: the destination's upper bits are
    updated; they depend on those of the source, of the destination; those of
    the source, of the destination are read for something else. *)
Record xflags := mkF { f_upd : bool; f_src : bool; f_des : bool; f_nosrc : bool; f_nodes : bool }.

Definition flags_of (i : IR1_INST) : xflags :=
  mkF (Z.testbit (hbr_def i) 30) (Z.testbit (hbr_use i) 28) (Z.testbit (hbr_use i) 29)
    (Z.testbit (hbr_use i) 24) (Z.testbit (hbr_use i) 25).

(** The entry of register [r] in the array. *)
Definition xget (xmm : list Z) (r : Z) : Z := default 0 (aget xmm r).

(** [xmm] is the array of 16 dependence sets. *)
Definition xmm_ok (xmm : list Z) : Prop :=
  length xmm = XMM_NUM ∧ ∀ r, in_u 17 (xget xmm r).

(** Where an analysis stands after some of its updates, started in [s0] with
    cleared fields: the recorded flags agree with what happened to the array.
    [P] guards the one clause that not every instruction satisfies. *)
Record tracks (P : Prop) (s0 s : xmm_state) (f : xflags) : Prop := {
  t_inst : x_ir1 s = set_hbr_use (set_hbr_def (x_ir1 s0) (hbr_def (x_ir1 s))) (hbr_use (x_ir1 s));
  t_ok : xmm_ok (x_xmm s);
  t_flags : flags_of (x_ir1 s) = f;
  t_high : 0 ≤ hbr_use (x_ir1 s);
  t_nosrc : f_nosrc f = true → ∃ r, xreg (x_ir1 s0) 1 = Some r ∧
    (P → xget (x_xmm s0) r ⊑m hbr_use (x_ir1 s));
  t_nodes : f_nodes f = true → ∃ r, xreg (x_ir1 s0) 0 = Some r ∧
    xget (x_xmm s0) r ⊑m hbr_use (x_ir1 s) ∧ (f_upd f = true → f_des f = true);
  t_other : ∀ r, xreg (x_ir1 s0) 0 ≠ Some r → xget (x_xmm s) r = xget (x_xmm s0) r;
  t_des : ∀ r, xreg (x_ir1 s0) 0 = Some r → (f_upd f = true → f_des f = true) →
    xget (x_xmm s0) r ⊑m xget (x_xmm s) r;
  t_src : ∀ r d, xreg (x_ir1 s0) 1 = Some r → xreg (x_ir1 s0) 0 = Some d → f_src f = true →
    xget (x_xmm s0) r ⊑m xget (x_xmm s) d
}.

(** The instruction has a destination and a source operand. *)
Definition two_opnds (i : IR1_INST) : Prop := (2 ≤ length (operands (info i)))%nat.

Lemma two_opnds_get i : two_opnds i →
  ∃ o0 o1, ir1_get_opnd i 0 = Some o0 ∧ ir1_get_opnd i 1 = Some o1.
Proof.
  unfold two_opnds, ir1_get_opnd. destruct (operands (info i)) as [|o0 [|o1 l]]; simpl; [lia..|].
  eauto.
Qed.

Lemma xget_aget xmm r : length xmm = XMM_NUM → 0 ≤ r < 16 → aget xmm r = Some (xget xmm r).
Proof.
  intros Hl Hr. destruct (aget_is_Some xmm r) as [v Hv]; [rewrite Hl; unfold XMM_NUM; lia|].
  unfold xget. by rewrite Hv.
Qed.

Lemma xget_aset xmm r v : length xmm = XMM_NUM → 0 ≤ r < 16 →
  ∃ xmm', aset xmm r v = Some xmm' ∧ length xmm' = XMM_NUM ∧
    ∀ k, xget xmm' k = if k =? r then v else xget xmm k.
Proof.
  intros Hl Hr. unfold aset. rewrite Hl. change (Z.of_nat XMM_NUM) with 16. rewrite (proj2 (Z.ltb_ge r 0)) by lia. simpl.
  rewrite (proj2 (Z.leb_gt 16 r)) by lia. eexists. split; [done|].
  split; [by rewrite length_insert|]. intros k. unfold xget, aget.
  destruct (Z.eqb_spec k r) as [->|Hne].
  - rewrite (proj2 (Z.ltb_ge r 0)) by lia. rewrite list_lookup_insert_eq; [done|].
    rewrite Hl. unfold XMM_NUM. lia.
  - destruct (Z.ltb_spec k 0); [done|]. rewrite list_lookup_insert_ne; [done|lia].
Qed.

(** An update of the array entry of the destination. *)
Lemma xmm_ok_aset xmm r v : xmm_ok xmm → 0 ≤ r < 16 → in_u 17 v →
  ∃ xmm', aset xmm r v = Some xmm' ∧ xmm_ok xmm' ∧
    ∀ k, xget xmm' k = if k =? r then v else xget xmm k.
Proof.
  intros [Hl Hr] H Hv. destruct (xget_aset xmm r v Hl H) as (xmm' & Ha & Hl' & Hk).
  exists xmm'. split_and!; [done|split; [done|]|done]. intros k. rewrite Hk. by case_if.
Qed.

Lemma xget_high xmm r k : xmm_ok xmm → 17 ≤ k → Z.testbit (xget xmm r) k = false.
Proof.
  intros [_ H] Hk. destruct (Z.testbit (xget xmm r) k) eqn:E; [|done].
  apply (proj1 (in_u_testbit 17 _ ltac:(lia)) (H r)) in E. lia.
Qed.

#[local] Arguments Z.testbit : simpl never.
#[local] Arguments Z.lor : simpl never.
#[local] Arguments Z.land : simpl never.

(** The flags after recording updates. *)
Lemma flags_or_use_const i x : flags_of (or_use i x) =
  mkF (f_upd (flags_of i)) (f_src (flags_of i) || Z.testbit x 28)
    (f_des (flags_of i) || Z.testbit x 29) (f_nosrc (flags_of i) || Z.testbit x 24)
    (f_nodes (flags_of i) || Z.testbit x 25).
Proof. unfold flags_of, or_use. simpl. by rewrite !Z.lor_spec. Qed.

Lemma flags_or_use_val i xmm r : xmm_ok xmm → flags_of (or_use i (xget xmm r)) = flags_of i.
Proof.
  intros H. rewrite flags_or_use_const, !(xget_high xmm r) by (done || lia).
  rewrite !orb_false_r. done.
Qed.

Lemma flags_or_def i : flags_of (or_def i SHBR_UPDATE_DES) =
  mkF true (f_src (flags_of i)) (f_des (flags_of i)) (f_nosrc (flags_of i)) (f_nodes (flags_of i)).
Proof. unfold flags_of, or_def. simpl. rewrite Z.lor_spec. by rewrite orb_true_r. Qed.

Lemma flags_use_need_both i : flags_of (or_use i (SHBR_NEED_SRC .| SHBR_NEED_DES)) =
  mkF (f_upd (flags_of i)) true true (f_nosrc (flags_of i)) (f_nodes (flags_of i)).
Proof.
  rewrite flags_or_use_const. generalize (flags_of i). intros [a b c d e].
  destruct b, c, d, e; reflexivity.
Qed.

Lemma flags_use_need_src i : flags_of (or_use i SHBR_NEED_SRC) =
  mkF (f_upd (flags_of i)) true (f_des (flags_of i)) (f_nosrc (flags_of i)) (f_nodes (flags_of i)).
Proof.
  rewrite flags_or_use_const. generalize (flags_of i). intros [a b c d e].
  destruct b, c, d, e; reflexivity.
Qed.

Lemma flags_use_no_opt_src i : flags_of (or_use i SHBR_NO_OPT_SRC) =
  mkF (f_upd (flags_of i)) (f_src (flags_of i)) (f_des (flags_of i)) true (f_nodes (flags_of i)).
Proof.
  rewrite flags_or_use_const. generalize (flags_of i). intros [a b c d e].
  destruct b, c, d, e; reflexivity.
Qed.

Lemma flags_use_no_opt_des i : flags_of (or_use i SHBR_NO_OPT_DES) =
  mkF (f_upd (flags_of i)) (f_src (flags_of i)) (f_des (flags_of i)) (f_nosrc (flags_of i)) true.
Proof.
  rewrite flags_or_use_const. generalize (flags_of i). intros [a b c d e].
  destruct b, c, d, e; reflexivity.
Qed.

(** The destination's old dependences are still in its entry. *)
Definition keeps_des (f : xflags) : Prop := f_upd f = true → f_des f = true.

Section steps.
  Context (P : Prop) (s0 : xmm_state) (Htwo : two_opnds (x_ir1 s0)).

(** The operands of the instruction at hand are those of the start. *)
Lemma tracks_opnds s f : tracks P s0 s f →
  ∃ o0 o1, ir1_get_opnd (x_ir1 s) 0 = Some o0 ∧ ir1_get_opnd (x_ir1 s) 1 = Some o1 ∧
    xreg (x_ir1 s0) 0 = (if ir1_opnd_is_xmm o0 then Some (ir1_opnd_base_reg_num o0) else None) ∧
    xreg (x_ir1 s0) 1 = (if ir1_opnd_is_xmm o1 then Some (ir1_opnd_base_reg_num o1) else None).
Proof using Htwo.
  intros Ht. destruct (two_opnds_get _ Htwo) as (o0 & o1 & H0 & H1). exists o0, o1.
  unfold xreg. rewrite H0, H1. rewrite (t_inst _ _ _ _ Ht). done.
Qed.

Lemma step_src_des s f :
  tracks P s0 s f → keeps_des f →
  ∃ s' f', src_des_update_des s = Some s' ∧ tracks P s0 s' f' ∧ keeps_des f'.
Proof using Htwo.
  intros Ht HK. destruct (tracks_opnds s f Ht) as (o0 & o1 & H0 & H1 & R0 & R1).
  unfold src_des_update_des. rewrite H0, H1. simpl.
  destruct (ir1_opnd_is_xmm o1) eqn:E1; [simpl|by exists s, f].
  destruct (ir1_opnd_is_xmm o0) eqn:E0; [simpl|by exists s, f].
  apply xmm_reg_range in E0, E1. destruct Ht as [Hi Hok Hf Hh Hns Hnd Hot Hd Hs].
  set (d := ir1_opnd_base_reg_num o0) in *. set (r := ir1_opnd_base_reg_num o1) in *.
  rewrite !(xget_aget (x_xmm s)) by (apply Hok || done). simpl.
  destruct (xmm_ok_aset (x_xmm s) d (xget (x_xmm s) d .| xget (x_xmm s) r))
    as (xmm' & -> & Hok' & Hk); [done..|apply in_u_lor; [lia|apply Hok..]|].
  simpl. do 2 eexists. split; [reflexivity|].
  assert (xget (x_xmm s0) r ⊑m xget (x_xmm s) r) as Hr.
  { destruct (decide (r = d)) as [->|Hne]; [by apply Hd|]. rewrite Hot; [done|congruence]. }
  split; [split; cbn [x_ir1 x_xmm]|].
  - unfold or_use, or_def. cbn. rewrite Hi at 1. done.
  - done.
  - reflexivity.
  - cbn. apply Z.lor_nonneg. done.
  - rewrite flags_use_need_both, flags_or_def, Hf. cbn. intros H.
    destruct (Hns H) as (r' & ? & Hu). exists r'. split; [done|]. intros HP.
    etrans; [by apply Hu|]. apply mask_le_lor_l.
  - rewrite flags_use_need_both, flags_or_def, Hf. cbn. intros H.
    destruct (Hnd H) as (r' & ? & Hu & _). exists r'. split_and!; [done| |done].
    etrans; [exact Hu|]. apply mask_le_lor_l.
  - intros k Hne. rewrite Hk. destruct (Z.eqb_spec k d); [congruence|]. by apply Hot.
  - intros k Hk' _. rewrite Hk. replace k with d by congruence. rewrite Z.eqb_refl.
    etrans; [by apply Hd|]. apply mask_le_lor_l.
  - intros k k' Hk1 Hk2 _. rewrite Hk. replace k' with d by congruence.
    replace k with r by congruence. rewrite Z.eqb_refl. etrans; [exact Hr|]. apply mask_le_lor_r.
  - unfold keeps_des. by rewrite flags_use_need_both.
Qed.

Lemma step_src s f :
  tracks P s0 s f → f_upd f = false → f_des f = false → f_nodes f = false →
  ∃ s' f', src_update_des s = Some s' ∧ tracks P s0 s' f' ∧ f_src f' = true.
Proof using Htwo.
  intros Ht Fu Fd Fn. destruct (tracks_opnds s f Ht) as (o0 & o1 & H0 & H1 & R0 & R1).
  unfold src_update_des. rewrite H0, H1. cbn [mbind option_bind].
  set (i := or_use _ _). destruct Ht as [Hi Hok Hf Hh Hns Hnd Hot Hd Hs].
  assert (flags_of i = mkF true true false (f_nosrc f) false) as Hfi.
  { unfold i. rewrite flags_use_need_src, flags_or_def, Hf. cbn. by rewrite Fd, Fn. }
  assert (∀ xmm', xmm_ok xmm' →
    (∀ k, xreg (x_ir1 s0) 0 ≠ Some k → xget xmm' k = xget (x_xmm s0) k) →
    (∀ k d, xreg (x_ir1 s0) 1 = Some k → xreg (x_ir1 s0) 0 = Some d →
       xget (x_xmm s0) k ⊑m xget xmm' d) →
    tracks P s0 (mkX i xmm') (flags_of i)) as Hmk.
  { intros xmm' Hok' Hother Hsrc. split; cbn [x_ir1 x_xmm]; try done.
    - unfold i, or_use, or_def. cbn. rewrite Hi at 1. done.
    - unfold i. cbn. by apply Z.lor_nonneg.
    - rewrite Hfi. intros H. destruct (Hns H) as (r & ? & Hu). exists r. split; [done|].
      intros HP. etrans; [by apply Hu|]. apply mask_le_lor_l.
    - by rewrite Hfi.
    - rewrite Hfi. simpl. intros r _ Hb. by specialize (Hb eq_refl).
    - intros k d Hk Hdk _. by apply Hsrc. }
  destruct (ir1_opnd_is_xmm o1) eqn:E1; cbn [negb];
    [|exists (mkX i (x_xmm s)), (flags_of i); split_and!;
      [done|apply Hmk; [done..|congruence]|rewrite Hfi; done]].
  destruct (ir1_opnd_is_xmm o0) eqn:E0; cbn [negb];
    [|exists (mkX i (x_xmm s)), (flags_of i); split_and!;
      [done|apply Hmk; [done..|congruence]|rewrite Hfi; done]].
  apply xmm_reg_range in E0, E1.
  rewrite (xget_aget (x_xmm s)) by (apply Hok || done). cbn [mbind option_bind].
  destruct (xmm_ok_aset (x_xmm s) (ir1_opnd_base_reg_num o0)
    (xget (x_xmm s) (ir1_opnd_base_reg_num o1))) as (xmm' & -> & Hok' & Hk); [done..|apply Hok|].
  cbn [mbind option_bind]. exists (mkX i xmm'), (flags_of i).
  split_and!; [done| |rewrite Hfi; done].
  apply Hmk; [done|..].
  - intros k Hne. rewrite Hk. destruct (Z.eqb_spec k (ir1_opnd_base_reg_num o0)); [congruence|].
    by apply Hot.
  - intros k d Hk1 Hk2. rewrite R0 in Hk2. rewrite R1 in Hk1. injection Hk1 as <-.
    injection Hk2 as <-. rewrite Hk, Z.eqb_refl.
    destruct (decide (ir1_opnd_base_reg_num o1 = ir1_opnd_base_reg_num o0)) as [E|E].
    + rewrite E. apply Hd; [congruence|]. by rewrite Fu.
    + rewrite Hot; [done|]. congruence.
Qed.

(** [other_update_des] and [zero_update_des]. *)
Lemma step_const s f v i :
  tracks P s0 s f → f_upd f = false → f_src f = false → f_des f = false → f_nodes f = false →
  in_u 17 v → flags_of i = mkF true false false (f_nosrc f) false →
  i = set_hbr_def (x_ir1 s) (hbr_def i) →
  ∃ s', (opnd0 ← ir1_get_opnd (x_ir1 s) 0;
         if negb (ir1_opnd_is_xmm opnd0) then Some s else
         xmm ← aset (x_xmm s) (ir1_opnd_base_reg_num opnd0) v; Some (mkX i xmm)) = Some s' ∧
    (tracks P s0 s' f ∨ tracks P s0 s' (flags_of i)).
Proof using Htwo.
  intros Ht Fu Fs Fd Fn Hv Hfi Hi'. destruct (tracks_opnds s f Ht) as (o0 & o1 & -> & _ & R0 & _).
  cbn [mbind option_bind]. destruct (ir1_opnd_is_xmm o0) eqn:E0; cbn [negb]; [|eauto].
  apply xmm_reg_range in E0. destruct Ht as [Hi Hok Hf Hh Hns Hnd Hot Hd Hs].
  destruct (xmm_ok_aset (x_xmm s) (ir1_opnd_base_reg_num o0) v) as (xmm' & -> & Hok' & Hk);
    [done..|].
  cbn [mbind option_bind]. eexists. split; [done|]. right.
  assert (hbr_use i = hbr_use (x_ir1 s)) as Hu by (rewrite Hi'; done).
  split; cbn [x_ir1 x_xmm]; rewrite ?Hu; try done.
  - rewrite Hi', Hi. done.
  - rewrite Hfi. exact Hns.
  - by rewrite Hfi.
  - intros k Hne. rewrite Hk. destruct (Z.eqb_spec k (ir1_opnd_base_reg_num o0)); [congruence|].
    by apply Hot.
  - rewrite Hfi. simpl. intros r _ Hb. by specialize (Hb eq_refl).
  - by rewrite Hfi.
Qed.

(** A read of upper bits by something else: of the source. *)
Lemma step_no_src s f :
  tracks P s0 s f →
  (P → keeps_des f ∨ f_src f = true ∨ xreg (x_ir1 s0) 0 ≠ xreg (x_ir1 s0) 1) →
  ∃ s' f', src_no_opt s = Some s' ∧ tracks P s0 s' f' ∧
    f_upd f' = f_upd f ∧ f_src f' = f_src f ∧ f_des f' = f_des f ∧ f_nodes f' = f_nodes f.
Proof using Htwo.
  intros Ht HP. destruct (tracks_opnds s f Ht) as (o0 & o1 & _ & H1 & R0 & R1).
  unfold src_no_opt. rewrite H1. cbn [mbind option_bind].
  destruct (ir1_opnd_is_xmm o1) eqn:E1; cbn [negb]; [|by exists s, f].
  apply xmm_reg_range in E1. destruct Ht as [Hi Hok Hf Hh Hns Hnd Hot Hd Hs].
  set (r := ir1_opnd_base_reg_num o1) in *.
  rewrite (xget_aget (x_xmm s)) by (apply Hok || done). cbn [mbind option_bind].
  assert (P → xget (x_xmm s0) r ⊑m xget (x_xmm s) r) as Hr.
  { intros p. destruct (decide (xreg (x_ir1 s0) 0 = Some r)) as [E|E];
      [|rewrite Hot; done]. destruct (HP p) as [HK|[HF|Hne]].
    - by apply Hd.
    - by apply (Hs r r).
    - congruence. }
  exists (mkX (or_use (or_use (x_ir1 s) SHBR_NO_OPT_SRC) (xget (x_xmm s) r)) (x_xmm s)),
    (mkF (f_upd f) (f_src f) (f_des f) true (f_nodes f)).
  split_and!; try done. split; cbn [x_ir1 x_xmm f_upd f_src f_des f_nosrc f_nodes]; try done.
  - unfold or_use. cbn. rewrite Hi at 1. done.
  - by rewrite flags_or_use_val, flags_use_no_opt_src, Hf.
  - unfold or_use. cbn. rewrite !Z.lor_nonneg. split; [done|]. apply Hok.
  - intros _. exists r. split; [done|]. intros p. etrans; [by apply Hr|]. apply mask_le_lor_r.
  - intros H. destruct (Hnd H) as (d & ? & Hu & ?). exists d. split_and!; [done| |done].
    etrans; [exact Hu|]. unfold or_use. cbn. rewrite <-Z.lor_assoc. apply mask_le_lor_l.
Qed.

(** A read of upper bits by something else: of the destination. *)
Lemma step_no_des s f :
  tracks P s0 s f → keeps_des f →
  ∃ s' f', des_no_opt s = Some s' ∧ tracks P s0 s' f' ∧
    f_upd f' = f_upd f ∧ f_src f' = f_src f ∧ f_des f' = f_des f.
Proof using Htwo.
  intros Ht HK. destruct (tracks_opnds s f Ht) as (o0 & o1 & H0 & _ & R0 & R1).
  unfold des_no_opt. rewrite H0. cbn [mbind option_bind].
  destruct (ir1_opnd_is_xmm o0) eqn:E0; cbn [negb]; [|by exists s, f].
  apply xmm_reg_range in E0. destruct Ht as [Hi Hok Hf Hh Hns Hnd Hot Hd Hs].
  set (r := ir1_opnd_base_reg_num o0) in *.
  rewrite (xget_aget (x_xmm s)) by (apply Hok || done). cbn [mbind option_bind].
  exists (mkX (or_use (or_use (x_ir1 s) SHBR_NO_OPT_DES) (xget (x_xmm s) r)) (x_xmm s)),
    (mkF (f_upd f) (f_src f) (f_des f) (f_nosrc f) true).
  split_and!; try done. split; cbn [x_ir1 x_xmm f_upd f_src f_des f_nosrc f_nodes]; try done.
  - unfold or_use. cbn. rewrite Hi at 1. done.
  - by rewrite flags_or_use_val, flags_use_no_opt_des, Hf.
  - unfold or_use. cbn. rewrite !Z.lor_nonneg. split; [done|]. apply Hok.
  - intros H. destruct (Hns H) as (k & ? & Hu). exists k. split; [done|]. intros p.
    etrans; [by apply Hu|]. unfold or_use. cbn. rewrite <-Z.lor_assoc. apply mask_le_lor_l.
  - intros _. exists r. split_and!; [done| |done]. etrans; [by apply Hd|]. apply mask_le_lor_r.
Qed.
End steps.

(** ** Both analyses are total on decoded instructions and track their effect *)

(** What the decoder guarantees of an instruction with an XMM operand: two
    operands, immediates of a legal size, a register destination for AND. *)
Definition xmm_wf (i : IR1_INST) : bool :=
  match ir1_get_opnd i 0, ir1_get_opnd i 1 with
  | Some des, Some src =>
      match common_case_of (ir1_opcode i) with
      | X_AND => negb (ir1_opnd_is_xmm src) || ir1_opnd_is_xmm des
      | _ => true
      end &&
      match ir1_opcode i with
      | dt_X86_INS_PSRLDQ =>
          ir1_opnd_is_imm src && match ir1_opnd_uimm src with Some _ => true | None => false end
      | _ => true
      end &&
      match third_imm i with Some _ => true | None => false end
  | _, _ => false
  end.

(** A sign extension in place: source and destination are the same register. *)
Definition self_movsx (i : IR1_INST) : Prop :=
  case_32_of (ir1_opcode i) = A_PMOVSX ∧ xreg i 0 = xreg i 1.

Definition good (P : Prop) (s0 : xmm_state) (o : option xmm_state) : Prop :=
  ∃ s f, o = Some s ∧ tracks P s0 s f.

Definition good2 (P : Prop) (s0 : xmm_state) (o : option (xmm_state * bool)) : Prop :=
  ∃ s b f, o = Some (s, b) ∧ tracks P s0 s f.

Definition no_flags : xflags := mkF false false false false false.

Lemma good_ret P s0 b o : good P s0 o → good2 P s0 (ret b o).
Proof. intros (s & f & -> & H). exists s, b, f. done. Qed.

Section analyses.
  Context (P : Prop) (s0 : xmm_state) (Htwo : two_opnds (x_ir1 s0)).
  Context (Hok : xmm_ok (x_xmm s0)) (Hfresh : hbr_def (x_ir1 s0) = 0 ∧ hbr_use (x_ir1 s0) = 0).

Lemma tracks_fresh : tracks P s0 s0 no_flags.
Proof using All.
  destruct Hfresh as [Hd Hu]. split; try done.
  - by destruct (x_ir1 s0).
  - unfold flags_of. rewrite Hd, Hu. reflexivity.
  - by rewrite Hu.
Qed.

Lemma keeps_no_flags : keeps_des no_flags.
Proof. intros H. discriminate H. Qed.

Lemma good_id : good P s0 (Some s0).
Proof using All. exists s0, no_flags. split; [done|apply tracks_fresh]. Qed.

Lemma good_sd : good P s0 (src_des_update_des s0).
Proof using All.
  destruct (step_src_des P s0 Htwo s0 _ tracks_fresh keeps_no_flags) as (s & f & H & Ht & _).
  exists s, f. done.
Qed.

Lemma good_su : good P s0 (src_update_des s0).
Proof using All.
  destruct (step_src P s0 Htwo s0 _ tracks_fresh) as (s & f & H & Ht & _); try done.
  exists s, f. done.
Qed.

(** A constant update from a state that so far only recorded a read of the
    source. *)
Lemma good_other s f :
  tracks P s0 s f → f_upd f = false → f_src f = false → f_des f = false → f_nodes f = false →
  good P s0 (other_update_des s).
Proof using All.
  intros Ht Fu Fs Fd Fn. unfold other_update_des.
  destruct (step_const P s0 Htwo s f SHBR_XMM_OTHER (set_hbr_def (x_ir1 s) SHBR_UPDATE_DES))
    as (s' & -> & [H|H]); try done; try (by do 2 eexists).
  - pose proof (t_flags _ _ _ _ Ht) as Hf. subst f. unfold flags_of in *. cbn in *.
    rewrite Fs, Fd, Fn. reflexivity.
Qed.

Lemma good_ou : good P s0 (other_update_des s0).
Proof using All. by apply (good_other s0 no_flags tracks_fresh). Qed.

Lemma good_zu : good P s0 (zero_update_des s0).
Proof using All.
  unfold zero_update_des.
  destruct (step_const P s0 Htwo s0 no_flags SHBR_XMM_ZERO (or_def (x_ir1 s0) SHBR_UPDATE_DES))
    as (s' & -> & [H|H]); try done; try (by do 2 eexists).
  - apply tracks_fresh.
  - rewrite flags_or_def, (t_flags _ _ _ _ tracks_fresh). done.
Qed.

Lemma good_sn_from s f :
  tracks P s0 s f →
  (P → keeps_des f ∨ f_src f = true ∨ xreg (x_ir1 s0) 0 ≠ xreg (x_ir1 s0) 1) →
  good P s0 (src_no_opt s).
Proof using All.
  intros Ht H. destruct (step_no_src P s0 Htwo s f Ht H) as (s' & f' & -> & Ht' & _).
  by exists s', f'.
Qed.

Lemma good_sn : good P s0 (src_no_opt s0).
Proof using All.
  apply (good_sn_from s0 no_flags tracks_fresh). intros _. left. apply keeps_no_flags.
Qed.

Lemma good_dn : good P s0 (des_no_opt s0).
Proof using All.
  destruct (step_no_des P s0 Htwo s0 _ tracks_fresh keeps_no_flags) as (s & f & H & Ht & _).
  exists s, f. done.
Qed.

Lemma good_sn_su : good P s0 (s ← src_no_opt s0; src_update_des s).
Proof using All.
  destruct (step_no_src P s0 Htwo s0 _ tracks_fresh) as (s & f & -> & Ht & Fu & _ & Fd & Fn);
    [left; apply keeps_no_flags|].
  simpl. destruct (step_src P s0 Htwo s f Ht Fu Fd Fn) as (s' & f' & -> & Ht' & _).
  by exists s', f'.
Qed.

Lemma good_su_sn : good P s0 (s ← src_update_des s0; src_no_opt s).
Proof using All.
  destruct (step_src P s0 Htwo s0 _ tracks_fresh) as (s & f & -> & Ht & Fs); try done.
  simpl. apply (good_sn_from s f Ht). auto.
Qed.

(** [src_des_update_des; src_no_opt] once the destination's dependences are
    intact. *)
Lemma good_sd_sn_from s f :
  tracks P s0 s f → keeps_des f → good P s0 (s ← src_des_update_des s; src_no_opt s).
Proof using All.
  intros Ht HK. destruct (step_src_des P s0 Htwo s f Ht HK) as (s' & f' & -> & Ht' & HK').
  simpl. apply (good_sn_from s' f' Ht'). auto.
Qed.

Lemma good_sd_sn : good P s0 (s ← src_des_update_des s0; src_no_opt s).
Proof using All. apply (good_sd_sn_from s0 _ tracks_fresh keeps_no_flags). Qed.

Lemma good_ou_sn :
  (P → xreg (x_ir1 s0) 0 ≠ xreg (x_ir1 s0) 1) →
  good P s0 (s ← other_update_des s0; src_no_opt s).
Proof using All.
  intros HP. destruct good_ou as (s & f & -> & Ht). simpl. apply (good_sn_from s f Ht). auto.
Qed.

(** [des_no_opt], then an update that needs the destination. *)
Lemma keeps_dn : ∃ s f, des_no_opt s0 = Some s ∧ tracks P s0 s f ∧ keeps_des f.
Proof using All.
  destruct (step_no_des P s0 Htwo s0 _ tracks_fresh keeps_no_flags) as (s & f & H & Ht & Fu & _).
  exists s, f. split_and!; [done..|]. unfold keeps_des. rewrite Fu. discriminate.
Qed.

Lemma good_mix (b : bool) :
  good P s0 (s ← des_no_opt s0;
             if b then s ← src_des_update_des s; src_no_opt s else Some s).
Proof using All.
  destruct keeps_dn as (s & f & -> & Ht & HK). simpl.
  destruct b; [by apply (good_sd_sn_from s f)|by exists s, f].
Qed.

(** Any state that keeps the destination's dependences may take the
    conservative end of the analyses. *)
Lemma good_conservative s f :
  tracks P s0 s f → keeps_des f →
  good P s0 (s ← src_des_update_des s; s ← src_no_opt s; des_no_opt s).
Proof using All.
  intros Ht HK. destruct (step_src_des P s0 Htwo s f Ht HK) as (s1 & f1 & -> & Ht1 & HK1). simpl.
  destruct (step_no_src P s0 Htwo s1 f1 Ht1) as (s2 & f2 & -> & Ht2 & Fu & _ & Fd & _); [auto|].
  simpl. destruct (step_no_des P s0 Htwo s2 f2 Ht2) as (s3 & f3 & -> & Ht3 & _).
  - unfold keeps_des in *. by rewrite Fu, Fd.
  - by exists s3, f3.
Qed.
End analyses.

#[local] Hint Resolve good_ret good_id good_sd good_su good_ou good_zu good_sn good_dn
  good_sn_su good_su_sn good_sd_sn good_mix : latx.

Lemma xmm_wf_two i : xmm_wf i = true → two_opnds i.
Proof.
  unfold xmm_wf, two_opnds, ir1_get_opnd.
  destruct (operands (info i)) as [|o0 [|o1 l]]; simpl; [done..|]. intros _. lia.
Qed.

(** The facts [xmm_wf] checks, for the operands at hand. *)
Lemma xmm_wf_facts i des src :
  xmm_wf i = true → ir1_get_opnd i 0 = Some des → ir1_get_opnd i 1 = Some src →
  (common_case_of (ir1_opcode i) = X_AND → ir1_opnd_is_xmm src = true →
     ir1_opnd_is_xmm des = true) ∧
  (ir1_opcode i = dt_X86_INS_PSRLDQ → ir1_opnd_is_imm src = true ∧ is_Some (ir1_opnd_uimm src)) ∧
  is_Some (third_imm i).
Proof.
  unfold xmm_wf. intros H H0 H1'. rewrite H0, H1' in H.
  apply andb_prop in H as [H H3]. apply andb_prop in H as [H1 H2]. split_and!.
  - intros E Hs. rewrite E, Hs in H1. exact H1.
  - intros E. rewrite E in H2. apply andb_prop in H2 as [-> H2].
    destruct (ir1_opnd_uimm src); [by eauto|done].
  - destruct (third_imm i); [by eauto|done].
Qed.

Lemma has_sub x m m' : has x m = true → m ⊑m m' → has x m' = true.
Proof.
  unfold has. rewrite !negb_true_iff, !Z.eqb_neq. intros H Hm E. apply H.
  apply mask_le_antisym; [|apply mask_le_0_l]. rewrite <-E.
  apply land_mask_proper; [done|exact Hm].
Qed.

Lemma mask_sub a b : a .& b = a → a ⊑m b.
Proof. intros <-. apply mask_le_land_r. Qed.

Section total.
  Context (s0 : xmm_state) (Hwf : xmm_wf (x_ir1 s0) = true).
  Context (Hok : xmm_ok (x_xmm s0)) (Hfresh : hbr_def (x_ir1 s0) = 0 ∧ hbr_use (x_ir1 s0) = 0).

Lemma common_good P :
  ∃ s b f, deal_xmm_common s0 = Some (s, b) ∧ tracks P s0 s f ∧ (b = false → s = s0).
Proof using All.
  pose proof (xmm_wf_two _ Hwf) as Htwo.
  destruct (two_opnds_get _ Htwo) as (des & src & H0 & H1).
  destruct (xmm_wf_facts _ _ _ Hwf H0 H1) as (HA & _).
  assert (∀ o, good P s0 o → ∃ s b f, ret true o = Some (s, b) ∧ tracks P s0 s f ∧
    (b = false → s = s0)) as Hret.
  { intros o (s & f & -> & Ht). by exists s, true, f. }
  assert (good P s0 (Some s0)) as Hid by auto with latx.
  unfold deal_xmm_common. rewrite H0, H1. cbn [mbind option_bind].
  destruct (common_case_of (ir1_opcode (x_ir1 s0))) eqn:Ec;
    try (apply Hret; by apply good_mix);
    try (apply Hret; repeat case_if; auto with latx; fail);
    try (apply (Hret (Some s0)); assumption).
  - destruct (ir1_opnd_is_xmm src) eqn:Es; cbn [negb]; [|by apply (Hret (Some s0))].
    rewrite (HA eq_refl eq_refl).
    rewrite (xget_aget (x_xmm s0) (ir1_opnd_base_reg_num des))
      by (apply Hok || (apply xmm_reg_range; by apply HA)). cbn [mbind option_bind].
    case_if; [by apply (Hret (Some s0))|].
    rewrite (xget_aget (x_xmm s0) (ir1_opnd_base_reg_num src))
      by (apply Hok || by apply xmm_reg_range).
    cbn [mbind option_bind]. repeat case_if; try (apply Hret; auto with latx; fail).
    by apply (Hret (Some s0)).
  - destruct (ir1_opnd_is_xmm src) eqn:Es; cbn [negb]; [|by apply (Hret (Some s0))].
    case_if; apply Hret; auto with latx.
  - exists s0, false, no_flags. split_and!; [done| |done]. by apply tracks_fresh.
Qed.

(** The end of both analyses. *)
Lemma rest_32_good P s f :
  tracks P s0 s f → keeps_des f → good2 P s0 (analyse_rest_32 s).
Proof using All.
  intros Ht HK. pose proof (xmm_wf_two _ Hwf) as Htwo.
  destruct (tracks_opnds P s0 Htwo s f Ht) as (des & src & H0 & H1 & _ & _).
  unfold analyse_rest_32, deal_dest_not_xmm_32, deal_src_not_xmm_32.
  rewrite H0, H1. cbn [mbind option_bind].
  assert (good P s0 (src_no_opt s)) as Hsn by (apply (good_sn_from P s0) with f; auto).
  destruct (ir1_opnd_is_xmm des); cbn [negb].
  - destruct (ir1_opnd_is_xmm src); cbn [negb]; apply good_ret.
    + by apply (good_conservative P s0) with f.
    + destruct (step_no_des P s0 Htwo s f Ht HK) as (s' & f' & -> & Ht' & _). by exists s', f'.
  - destruct (ir1_opnd_is_xmm src); cbn [negb]; [|by exists s, false, f].
    destruct (ir1_opcode (x_ir1 s)); by apply good_ret.
Qed.

Lemma rest_64_good P s f src :
  tracks P s0 s f → keeps_des f → good2 P s0 (analyse_rest_64 s src).
Proof using All.
  intros Ht HK. pose proof (xmm_wf_two _ Hwf) as Htwo.
  destruct (tracks_opnds P s0 Htwo s f Ht) as (des & _ & H0 & _).
  unfold analyse_rest_64, deal_dest_not_xmm_64, deal_src_not_xmm_64.
  rewrite H0. cbn [mbind option_bind].
  destruct (ir1_opnd_is_xmm des); cbn [negb].
  - destruct (ir1_opnd_is_xmm src); cbn [negb]; apply good_ret.
    + by apply (good_conservative P s0) with f.
    + destruct (step_no_des P s0 Htwo s f Ht HK) as (s' & f' & -> & Ht' & _). by exists s', f'.
  - apply good_ret, (good_sn_from P s0) with f; auto.
Qed.

(** SHUFPS: the destination is marked as read when the immediate selects an upper
    lane of it, and then the update is one that keeps its dependences. *)
Lemma shufps_good P (a b c d : bool) :
  (a = true → c = true ∧ d = false) →
  good P s0 (s ← (if a then des_no_opt s0 else Some s0);
    if b then if c then src_des_update_des s else src_update_des s
    else if d then other_update_des s else Some s).
Proof using All.
  intros Hac. pose proof (xmm_wf_two _ Hwf) as Htwo. destruct a.
  - destruct (Hac eq_refl) as [-> ->].
    destruct (keeps_dn P s0 Htwo Hok Hfresh) as (s & f & -> & Ht & HK). simpl.
    destruct b; [|by exists s, f].
    destruct (step_src_des P s0 Htwo s f Ht HK) as (s' & f' & -> & Ht' & _). by exists s', f'.
  - simpl. destruct b, c, d; auto with latx.
Qed.

(** The immediate forms, from a fresh state. *)
Lemma imm_32_good P src imm :
  analyse_imm_32 s0 src imm = Some None ∨
  ∃ s f, analyse_imm_32 s0 src imm = Some (Some s) ∧ tracks P s0 s f.
Proof using All.
  pose proof (xmm_wf_two _ Hwf) as Htwo. unfold analyse_imm_32.
  assert (∀ o, good P s0 o → ∃ s f, Some <$> o = Some (Some s) ∧ tracks P s0 s f) as Hg.
  { intros o (s & f & -> & Ht). by exists s, f. }
  destruct (case_imm_of _); [right; apply Hg..|by left].
  - repeat case_if; auto with latx.
  - repeat case_if; auto with latx.
  - apply shufps_good. intros H. split; [by apply (has_sub imm 0x3); [|by apply mask_sub]|].
    destruct (Z.eqb_spec imm 0) as [->|]; [discriminate H|done].
Qed.

Lemma imm_64_good P src imm :
  analyse_imm_64 s0 src imm = Some None ∨
  ∃ s f, analyse_imm_64 s0 src imm = Some (Some s) ∧ tracks P s0 s f.
Proof using All.
  pose proof (xmm_wf_two _ Hwf) as Htwo. unfold analyse_imm_64.
  assert (∀ o, good P s0 o → ∃ s f, Some <$> o = Some (Some s) ∧ tracks P s0 s f) as Hg.
  { intros o (s & f & -> & Ht). by exists s, f. }
  destruct (case_imm_of _); [right; apply Hg..|by left].
  - repeat case_if; auto with latx.
  - repeat case_if; auto with latx.
  - apply shufps_good. intros H. split; [done|].
    apply (has_sub imm 0xa 0xaa) in H; [|by apply mask_sub].
    unfold has in H. by apply negb_true_iff in H.
Qed.

Lemma xmm_analyse_32_good :
  good2 (¬ self_movsx (x_ir1 s0)) s0 (xmm_analyse_32 s0).
Proof using All.
  pose proof (xmm_wf_two _ Hwf) as Htwo.
  destruct (two_opnds_get _ Htwo) as (des & src & H0 & H1).
  destruct (xmm_wf_facts _ _ _ Hwf H0 H1) as (_ & HP & [oimm Himm]).
  unfold xmm_analyse_32.
  destruct (common_good (¬ self_movsx (x_ir1 s0))) as (s & b & f & -> & Ht & Hs).
  cbn [mbind option_bind]. destruct b; [by exists s, true, f|].
  rewrite (Hs eq_refl) in *. rewrite H0, H1. cbn [mbind option_bind].
  assert (keeps_des f) as HK.
  { rewrite <-(t_flags _ _ _ _ Ht), (t_flags _ _ _ _ (tracks_fresh True s0 Htwo Hok Hfresh)).
    apply keeps_no_flags. }
  destruct (case_32_of (ir1_opcode (x_ir1 s0))) eqn:Ec;
    try (apply good_ret; repeat case_if; auto with latx; fail).
  - apply good_ret, good_ou_sn; [done..|]. intros Hn E. by apply Hn.
  - assert (ir1_opcode (x_ir1 s0) = dt_X86_INS_PSRLDQ) as E.
    { revert Ec. clear. destruct (ir1_opcode (x_ir1 s0)); by intros [=]. }
    destruct (HP E) as [-> [imm ->]]. cbn [mbind option_bind].
    apply good_ret. case_if; auto with latx.
  - assert (case_imm_of (ir1_opcode (x_ir1 s0)) = I_NONE) as E.
    { revert Ec. clear. destruct (ir1_opcode (x_ir1 s0)); by intros [=]. }
    destruct (keeps_dn (¬ self_movsx (x_ir1 s0)) s0 Htwo Hok Hfresh)
      as (s1 & f1 & -> & Ht1 & HK1). cbn [mbind option_bind].
    assert (∃ s2 f2, (if ir1_opnd_is_xmm src then src_des_update_des s1 else Some s1) = Some s2 ∧
      tracks (¬ self_movsx (x_ir1 s0)) s0 s2 f2 ∧ keeps_des f2) as (s2 & f2 & -> & Ht2 & HK2).
    { case_if; [by apply (step_src_des _ s0 Htwo s1 f1)|by exists s1, f1]. }
    cbn [mbind option_bind]. unfold analyse_tail_32.
    assert (third_imm (x_ir1 s2) = Some oimm) as -> by (rewrite (t_inst _ _ _ _ Ht2); done).
    cbn [mbind option_bind]. destruct oimm; [|by apply (rest_32_good _ s2 f2)].
    unfold analyse_imm_32. rewrite (t_inst _ _ _ _ Ht2). cbn [ir1_opcode].
    replace (ir1_opcode _) with (ir1_opcode (x_ir1 s0)) by done. rewrite E.
    cbn [mbind option_bind]. by apply (rest_32_good _ s2 f2).
  - unfold analyse_tail_32. rewrite Himm. cbn [mbind option_bind].
    destruct oimm as [imm|]; [|by apply (rest_32_good _ s0 f)].
    destruct (imm_32_good (¬ self_movsx (x_ir1 s0)) src imm) as [->|(s' & f' & -> & Ht')];
      cbn [mbind option_bind]; [by apply (rest_32_good _ s0 f)|by exists s', true, f'].
Qed.

Lemma xmm_analyse_64_good : good2 True s0 (xmm_analyse_64 s0).
Proof using All.
  pose proof (xmm_wf_two _ Hwf) as Htwo.
  destruct (two_opnds_get _ Htwo) as (des & src & H0 & H1).
  destruct (xmm_wf_facts _ _ _ Hwf H0 H1) as (_ & HP & [oimm Himm]).
  unfold xmm_analyse_64.
  destruct (common_good True) as (s & b & f & -> & Ht & Hs).
  cbn [mbind option_bind]. destruct b; [by exists s, true, f|].
  rewrite (Hs eq_refl) in *. rewrite H1. cbn [mbind option_bind].
  assert (keeps_des f) as HK.
  { rewrite <-(t_flags _ _ _ _ Ht), (t_flags _ _ _ _ (tracks_fresh True s0 Htwo Hok Hfresh)).
    apply keeps_no_flags. }
  destruct (case_64_of (ir1_opcode (x_ir1 s0))) eqn:Ec;
    try (apply good_ret; repeat case_if; auto with latx; fail).
  - by exists s0, true, f.
  - assert (ir1_opcode (x_ir1 s0) = dt_X86_INS_PSRLDQ) as E.
    { revert Ec. clear. destruct (ir1_opcode (x_ir1 s0)); by intros [=]. }
    destruct (HP E) as [-> [imm ->]]. cbn [mbind option_bind].
    apply good_ret. case_if; auto with latx.
  - rewrite Himm. cbn [mbind option_bind].
    destruct oimm as [imm|]; [|by apply (rest_64_good _ s0 f)].
    destruct (imm_64_good True src imm) as [->|(s' & f' & -> & Ht')];
      cbn [mbind option_bind]; [by apply (rest_64_good _ s0 f)|by exists s', true, f'].
Qed.
End total.

(** ** What the cross-block pass needs from an analysis *)

(** On the fresh state of a decoded instruction the analysis returns and its
    records describe its effect on the array; [ok] excludes instructions whose
    recorded reads of the source are incomplete. *)
Class XmmAnalysis (analyse : xmm_state → option (xmm_state * bool))
    (ok : IR1_INST → Prop) : Prop :=
  analyse_good : ∀ s0, xmm_wf (x_ir1 s0) = true → xmm_ok (x_xmm s0) →
    hbr_def (x_ir1 s0) = 0 ∧ hbr_use (x_ir1 s0) = 0 → good2 (ok (x_ir1 s0)) s0 (analyse s0).

Global Instance xmm_analysis_32 : XmmAnalysis xmm_analyse_32 (λ i, ¬ self_movsx i).
Proof. intros s0 Hwf Hok Hf. by apply xmm_analyse_32_good. Qed.

Global Instance xmm_analysis_64 : XmmAnalysis xmm_analyse_64 (λ _, True).
Proof. intros s0 Hwf Hok Hf. by apply xmm_analyse_64_good. Qed.

(** ** One step of the marking *)

(** The registers needed before an instruction, from those needed after it, and
    whether the instruction is marked. *)
Definition back_one (f : xflags) (od os : option Z) (n : Z) : Z * bool :=
  let '(n, m) :=
    match od with
    | Some d =>
        if Z.testbit n d then
          let n' := if f_upd f && negb (f_des f) then n .& ~. bit d else n in
          (match os with Some r => if f_src f then n' .| bit r else n' | None => n' end, false)
        else if f_nodes f then (n .| bit d, false) else (n, true)
    | None => (n, false)
    end in
  (match os with Some r => if f_nosrc f then n .| bit r else n | None => n end, m).

Definition mark_flag (opt_flag : Z) (i : IR1_INST) (m : bool) : IR1_INST :=
  if m then set_hbr_flag i (hbr_flag i .| opt_flag) else i.

Lemma shbr_mark_one_eq fl i n :
  get_inst_type i ≠ SHBR_NTYPE → two_opnds i →
  (f_nosrc (flags_of i) = true → is_Some (xreg i 1)) →
  let '(n', m) := back_one (flags_of i) (xreg i 0) (xreg i 1) n in
  shbr_mark_one fl i n = Some (mark_flag fl i m, n').
Proof.
  intros Hty Htwo Hns. destruct (two_opnds_get i Htwo) as (o0 & o1 & H0 & H1).
  unfold shbr_mark_one. apply Z.eqb_neq in Hty. rewrite Hty.
  unfold xreg in *. rewrite H0, H1 in *. cbn [mbind option_bind] in *.
  rewrite ?has_update_des, ?has_need_src, ?has_need_des, ?has_no_opt_des.
  unfold flags_of, back_one, mark_flag in *. cbn [f_upd f_src f_des f_nosrc f_nodes] in *.
  destruct (ir1_opnd_is_xmm o0) eqn:E0, (ir1_opnd_is_xmm o1) eqn:E1;
    try (apply xmm_reg_range in E0; rewrite (has_bit n) by lia; destruct (Z.testbit n _));
    rewrite ?andb_true_r, ?andb_false_r;
    destruct (Z.testbit (hbr_def i) 30), (Z.testbit (hbr_use i) 28), (Z.testbit (hbr_use i) 29),
      (Z.testbit (hbr_use i) 25); cbn [andb negb];
    cbn [set_hbr_flag hbr_use]; rewrite ?has_no_opt_src;
    destruct (Z.testbit (hbr_use i) 24); try reflexivity;
    by destruct (Hns eq_refl).
Qed.

(** Registers that may be in a set of needed registers. *)
Definition regs_only (n : Z) : Prop := n ⊑m SHBR_XMM_MASK.

(** Every register of [n] has its dependences in [xmm] inside [u]. *)
Definition covered (xmm : list Z) (n u : Z) : Prop :=
  ∀ r, Z.testbit n r = true → (xget xmm r .& SHBR_XMM_MASK) ⊑m u.

Lemma testbit_lor_bit n d r : 0 ≤ d →
  Z.testbit (n .| bit d) r = true → Z.testbit n r = true ∨ r = d.
Proof.
  intros Hd. rewrite Z.lor_spec, testbit_bit_range, orb_true_iff, Z.eqb_eq by done.
  intros [?|<-]; auto.
Qed.

Lemma covered_add xmm n u d :
  0 ≤ d → covered xmm n u → (xget xmm d .& SHBR_XMM_MASK) ⊑m u → covered xmm (n .| bit d) u.
Proof. intros H0 Hc Hd r Hr. apply testbit_lor_bit in Hr as [Hr| ->]; auto. Qed.

Lemma low_mono a b : a ⊑m b → (a .& SHBR_XMM_MASK) ⊑m (b .& SHBR_XMM_MASK).
Proof. intros H. by rewrite H. Qed.

(** The backward step stays within what the forward analysis recorded. *)
Lemma back_one_covered P s0 s f n u :
  tracks P s0 s f → P → covered (x_xmm s) n u → (hbr_use (x_ir1 s) .& SHBR_XMM_MASK) ⊑m u →
  covered (x_xmm s0) (fst (back_one f (xreg (x_ir1 s0) 0) (xreg (x_ir1 s0) 1) n)) u.
Proof.
  intros [_ _ _ _ Hns Hnd Hot Hd Hs] HP Hc Hu. unfold back_one.
  set (p := match xreg (x_ir1 s0) 0 with Some d => _ | None => _ end).
  assert (covered (x_xmm s0) (fst p) u) as Hp.
  { unfold p. destruct (xreg (x_ir1 s0) 0) as [d|] eqn:Ed; cbn [fst].
    2:{ intros r Hr. rewrite <-Hot by done. by apply Hc. }
    pose proof (xreg_range _ _ _ Ed) as Rd.
    assert (∀ r, Z.testbit n r = true → r ≠ d → (xget (x_xmm s0) r .& SHBR_XMM_MASK) ⊑m u)
      as Hne.
    { intros r Hr Hrd. rewrite <-Hot by congruence. by apply Hc. }
    destruct (Z.testbit n d) eqn:Hn; [|destruct (f_nodes f) eqn:En]; cbn [fst].
    - assert (covered (x_xmm s0) (if f_upd f && negb (f_des f) then n .& ~. bit d else n) u) as H1.
      { intros r Hr. destruct (decide (r = d)) as [->|].
        - destruct (f_upd f && negb (f_des f)) eqn:Eu.
          + rewrite Z.land_spec, Z.lnot_spec, testbit_bit_range, Z.eqb_refl, andb_false_r in Hr
              by lia. done.
          + etrans; [apply low_mono, (Hd d eq_refl)|by apply Hc]. intros E.
            rewrite E in Eu. by destruct (f_des f).
        - apply Hne; [|done]. destruct (f_upd f && negb (f_des f)); [|done].
          rewrite Z.land_spec in Hr. by apply andb_prop in Hr as [? _]. }
      destruct (xreg (x_ir1 s0) 1) as [r|] eqn:Er; [|done]. destruct (f_src f) eqn:Es; [|done].
      apply covered_add; [apply (xreg_range _ _ _ Er)|done|].
      etrans; [apply low_mono, (Hs r d eq_refl eq_refl eq_refl)|by apply Hc].
    - destruct (Hnd eq_refl) as (r & [= ->] & Hr & _).
      intros k Hk. apply testbit_lor_bit in Hk as [Hk| ->]; [|etrans; [by apply low_mono|done]|lia].
      destruct (decide (k = r)) as [->|]; [congruence|by apply Hne].
    - intros r Hr. apply Hne; [done|congruence]. }
  destruct p as [n1 m]. cbn [fst] in *.
  destruct (xreg (x_ir1 s0) 1) as [r|] eqn:Er; [|done]. destruct (f_nosrc f) eqn:En; [|done].
  destruct (Hns eq_refl) as (k & [= <-] & Hk).
  apply covered_add; [apply (xreg_range _ _ _ Er)|done|].
  etrans; [apply low_mono, (Hk HP)|done].
Qed.

(** ** Marking a block *)

(** The instruction is outside the analysis or what it needs is recorded. *)
Definition markable (i : IR1_INST) : Prop :=
  get_inst_type i ≠ SHBR_NTYPE →
  two_opnds i ∧ (f_nosrc (flags_of i) = true → is_Some (xreg i 1)) ∧
  (f_nodes (flags_of i) = true → keeps_des (flags_of i)).

Definition back_inst (i : IR1_INST) (n : Z) : Z * bool :=
  if get_inst_type i =? SHBR_NTYPE then (n, false)
  else back_one (flags_of i) (xreg i 0) (xreg i 1) n.

Fixpoint back (l : list IR1_INST) (n : Z) : Z :=
  match l with [] => n | i :: l => fst (back_inst i (back l n)) end.

(** The block with its marks. *)
Fixpoint mark_list (fl : Z) (l : list IR1_INST) (n : Z) : list IR1_INST :=
  match l with
  | [] => []
  | i :: l => mark_flag fl i (snd (back_inst i (back l n))) :: mark_list fl l n
  end.

Lemma shbr_mark_eq fl l n :
  Forall markable l → shbr_mark fl l n = Some (mark_list fl l n, back l n).
Proof.
  induction 1 as [|i l Hi Hl IH]; [done|]. cbn [shbr_mark back mark_list].
  rewrite IH. cbn [mbind option_bind]. unfold back_inst, mark_flag.
  destruct (get_inst_type i =? SHBR_NTYPE) eqn:E.
  - unfold shbr_mark_one. rewrite E. done.
  - apply Z.eqb_neq in E. destruct (Hi E) as (Htwo & Hns & _).
    pose proof (shbr_mark_one_eq fl i (back l n) E Htwo Hns) as H.
    destruct (back_one _ _ _ _) as [n' m]. rewrite H. done.
Qed.

(** ** The forward analysis of a block *)

(** Fields cleared, as the loop of [tb_xmm_analyse] does before the analysis. *)
Definition fresh (i : IR1_INST) : IR1_INST := set_hbr_use (set_hbr_def i 0) 0.

Definition inst_wf (i : IR1_INST) : bool :=
  (get_inst_type i =? SHBR_NTYPE) || xmm_wf i.

Section block_theory.
  Context (analyse : xmm_state → option (xmm_state * bool)) (ok : IR1_INST → Prop).
  Context `{!XmmAnalysis analyse ok}.

(** The instructions an analysis leaves behind: the same decoded instruction,
    the recorded flags, everything else as before. *)
Definition analysed (i i' : IR1_INST) : Prop :=
  i' = set_hbr_use (set_hbr_def i (hbr_def i')) (hbr_use i').

Lemma tracks_markable P s0 s f : two_opnds (x_ir1 s0) → tracks P s0 s f → markable (x_ir1 s).
Proof.
  intros Htwo [Hi _ Hf _ Hns Hnd _ _ _] _. split_and!.
  - rewrite Hi. done.
  - rewrite Hf. intros H. destruct (Hns H) as (r & Hr & _). exists r. rewrite <-Hr, Hi. done.
  - rewrite Hf. intros H. by destruct (Hnd H) as (r & _ & _ & HK).
Qed.

Lemma analyse_inst_spec i xmm :
  xmm_wf i = true → xmm_ok xmm →
  ∃ s b f, analyse (mkX (fresh i) xmm) = Some (s, b) ∧ tracks (ok (fresh i)) (mkX (fresh i) xmm) s f ∧
    analysed i (x_ir1 s) ∧ markable (x_ir1 s).
Proof using All.
  intros Hwf Hok. destruct (analyse_good (mkX (fresh i) xmm)) as (s & b & f & Ha & Ht);
    [done..|]. exists s, b, f. split_and!; [done..| |].
  - unfold analysed. rewrite (t_inst _ _ _ _ Ht) at 1. done.
  - eapply tracks_markable; [|exact Ht]. exact (xmm_wf_two i Hwf).
Qed.

Lemma analyse_insts_spec l xmm ty use :
  Forall (λ i, inst_wf i = true) l → xmm_ok xmm → 0 ≤ use →
  ∃ l' xmm' ty' use', analyse_insts analyse l xmm ty use = Some (l', xmm', ty', use') ∧
    Forall2 analysed l l' ∧ Forall markable l' ∧ 0 ≤ use' ∧ use ⊑m use' ∧
    (ty' = SHBR_NTYPE → Forall (λ i, get_inst_type i = SHBR_NTYPE) l') ∧
    (ty ≠ SHBR_NTYPE → ty' ≠ SHBR_NTYPE) ∧
    (Forall (λ i, ok (fresh i)) l → ∀ n u, covered xmm' n u → (use' .& SHBR_XMM_MASK) ⊑m u →
       covered xmm (back l' n) u).
Proof using All.
  intros Hwf. revert xmm ty use. induction Hwf as [|i l Hi Hl IH]; intros xmm ty use Hok Hu.
  { exists [], xmm, ty, use. split_and!; try done; auto. }
  cbn [analyse_insts]. fold (fresh i). change (get_inst_type (fresh i)) with (get_inst_type i).
  unfold inst_wf in Hi. destruct (get_inst_type i =? SHBR_NTYPE) eqn:Et; cbn [orb] in Hi.
  - destruct (IH xmm ty use Hok Hu)
      as (l' & xmm' & ty' & use' & -> & HF & Hm & Hu' & Hle & Hty & Hty' & Hc).
    cbn [mbind option_bind]. exists (fresh i :: l'), xmm', ty', use'.
    apply Z.eqb_eq in Et. split_and!; try done.
    + by constructor.
    + constructor; [|done]. intros H. by destruct H.
    + intros E. constructor; [done|by apply Hty].
    + intros Hoks n u Hn Hu1. inv Hoks. cbn [back]. unfold back_inst.
      change (get_inst_type (fresh i)) with (get_inst_type i). rewrite Et. by apply Hc.
  - destruct (analyse_inst_spec i xmm Hi Hok) as (s & b & f & -> & Ht & Han & Hmk).
    cbn [mbind option_bind].
    assert (0 ≤ use .| hbr_use (x_ir1 s)) as Hu2 by (apply Z.lor_nonneg; split; [done|apply Ht]).
    destruct (IH (x_xmm s) (if ty =? SHBR_NTYPE then SHBR_SSE else ty) _ (t_ok _ _ _ _ Ht) Hu2)
      as (l' & xmm' & ty' & use' & -> & HF & Hm & Hu' & Hle & Hty & Hty' & Hc).
    cbn [mbind option_bind]. exists (x_ir1 s :: l'), xmm', ty', use'.
    assert (ty' ≠ SHBR_NTYPE) as Hne.
    { apply Hty'. destruct (Z.eqb_spec ty SHBR_NTYPE); done. }
    split_and!; try done.
    + by constructor.
    + by constructor.
    + etrans; [apply mask_le_lor_l|exact Hle].
    + intros Hoks n u Hn Hu1. inv Hoks. cbn [back]. unfold back_inst.
      assert (get_inst_type (x_ir1 s) = get_inst_type i) as -> by (by rewrite Han).
      rewrite Et, (t_flags _ _ _ _ Ht).
      assert (∀ k, xreg (x_ir1 s) k = xreg (fresh i) k) as -> by (intros k; by rewrite Han).
      assert (∀ k, xreg (x_ir1 s) k = xreg (fresh i) k) as -> by (intros k; by rewrite Han).
      apply (back_one_covered _ _ _ _ _ _ Ht); [done| |].
      * by apply Hc.
      * etrans; [|exact Hu1]. apply low_mono. etrans; [apply mask_le_lor_r|exact Hle].
Qed.
End block_theory.

(** ** The transfer function *)

Lemma get_xmm_in_from_spec i xmm out inn k :
  Z.testbit (get_xmm_in_from i xmm out inn) k = true ↔
  Z.testbit inn k = true ∨
  ∃ j v, xmm !! j = Some v ∧ Z.testbit out (Z.of_nat (i + j)) = true ∧
    Z.testbit (v .& SHBR_XMM_MASK) k = true.
Proof.
  revert i inn. induction xmm as [|v xmm IH]; intros i inn; cbn [get_xmm_in_from].
  { split; [auto|]. intros [?|(j & v & H & _)]; [done|]. by rewrite lookup_nil in H. }
  rewrite IH, has_bit by lia. split.
  - intros [H|(j & w & Hj & Ho & Hk)].
    + destruct (Z.testbit out (Z.of_nat i)) eqn:Ho; [|by left].
      rewrite Z.lor_spec in H. apply orb_prop in H as [H|H]; [by left|].
      right. exists 0%nat, v. rewrite Nat.add_0_r. done.
    + right. exists (S j), w. by rewrite Nat.add_succ_r.
  - intros [H|([|j] & w & Hj & Ho & Hk)].
    + left. case_if; [|done]. rewrite Z.lor_spec, H. done.
    + injection Hj as ->. rewrite Nat.add_0_r in Ho. rewrite Ho. left.
      rewrite Z.lor_spec, Hk. apply orb_true_r.
    + right. exists j, w. by rewrite Nat.add_succ_r in Ho.
Qed.

Lemma get_xmm_in_mono use xmm o o' : o ⊑m o' → get_xmm_in use xmm o ⊑m get_xmm_in use xmm o'.
Proof.
  intros H k. unfold get_xmm_in. rewrite !get_xmm_in_from_spec.
  intros [?|(j & v & ? & ? & ?)]; [by left|]. right. exists j, v. auto.
Qed.

Lemma get_xmm_in_use use xmm o : use ⊑m get_xmm_in use xmm o.
Proof. intros k H. apply get_xmm_in_from_spec. by left. Qed.

Lemma get_xmm_in_covered use xmm o : covered xmm o (get_xmm_in use xmm o).
Proof.
  intros r Hr k Hk. pose proof (testbit_true_nonneg _ _ Hr). apply get_xmm_in_from_spec. right.
  unfold xget, aget in Hk. rewrite (proj2 (Z.ltb_ge r 0)) in Hk by done.
  destruct (xmm !! Z.to_nat r) as [v|] eqn:E.
  - exists (Z.to_nat r), v. rewrite Nat.add_0_l, Z2Nat.id by done. done.
  - simpl in Hk. by rewrite Z.land_0_l, Z.bits_0 in Hk.
Qed.

Lemma in_u_get_xmm_in use xmm o : in_u 32 use → in_u 32 (get_xmm_in use xmm o).
Proof.
  unfold get_xmm_in. generalize 0%nat. revert use.
  induction xmm as [|v xmm IH]; intros use i Hu; cbn [get_xmm_in_from]; [done|].
  apply IH. case_if; [|done]. apply in_u_lor; [lia|done|].
  rewrite Z.land_comm. apply in_u_land_l; [lia|]. unfold in_u, SHBR_XMM_MASK. lia.
Qed.

Global Instance xmm_transfer_ok xmm : Transfer SHBR_XMM_ALL 0 (xmm_transfer xmm).
Proof.
  split.
  - unfold in_u, SHBR_XMM_ALL. lia.
  - apply zero_range.
  - intros. by apply get_xmm_in_mono.
  - intros. by apply in_u_get_xmm_in.
  - done.
Qed.

(** At block entry every register depends on itself. *)
Lemma init_xmm_get r : 0 ≤ r < 16 → xget init_xmm_state r = bit r.
Proof.
  intros Hr. rewrite <-(Z2Nat.id r) by lia. assert (Z.to_nat r < 16)%nat as H by lia.
  revert H. generalize (Z.to_nat r). clear. intros n Hn.
  do 16 (destruct n as [|n]; [reflexivity|]). lia.
Qed.

Lemma init_xmm_ok : xmm_ok init_xmm_state.
Proof.
  split; [done|]. intros r. destruct (decide (0 ≤ r < 16)) as [Hr|Hr].
  - rewrite init_xmm_get by done. unfold in_u, bit. rewrite Z.shiftl_mul_pow2 by lia.
    pose proof (Z.pow_lt_mono_r 2 r 17). lia.
  - unfold xget, aget. destruct (Z.ltb_spec r 0); [unfold in_u; simpl; lia|].
    rewrite lookup_ge_None_2; [unfold in_u; simpl; lia|].
    change (length init_xmm_state) with 16%nat. lia.
Qed.

Lemma covered_init n u : regs_only n → covered init_xmm_state n u → n ⊑m u.
Proof.
  intros Hn Hc r Hr. specialize (Hc r Hr). pose proof (testbit_true_nonneg _ _ Hr).
  assert (r < 16) as Hlt.
  { apply Hn in Hr. apply (proj1 (in_u_testbit 16 SHBR_XMM_MASK ltac:(lia))); [|done].
    unfold in_u, SHBR_XMM_MASK. lia. }
  apply Hc. rewrite init_xmm_get, Z.land_spec by lia.
  rewrite testbit_bit, Z.eqb_refl by lia. by apply Hn.
Qed.

Lemma regs_only_bit r : 0 ≤ r < 16 → regs_only (bit r).
Proof.
  intros Hr k. rewrite testbit_bit_range by lia. intros ->%Z.eqb_eq.
  unfold SHBR_XMM_MASK. change 0xffff with (Z.ones 16). rewrite Z.ones_spec_low; [done|lia].
Qed.

Lemma back_regs_only l n : regs_only n → regs_only (back l n).
Proof.
  intros Hn. induction l as [|i l IH]; [done|]. cbn [back]. unfold back_inst.
  case_if; [done|]. unfold back_one.
  assert (∀ k r m, xreg i k = Some r → regs_only m → regs_only (m .| bit r)) as Hadd.
  { intros k r m Hr Hm. apply mask_le_lor_lub; [done|].
    by apply regs_only_bit, (xreg_range i k). }
  assert (∀ m r, regs_only m → regs_only (m .& ~. bit r)) as Hsub.
  { intros m r Hm k Hk. apply Hm. by apply mask_le_land_l in Hk. }
  destruct (xreg i 0) as [d|] eqn:E0, (xreg i 1) as [r|] eqn:E1;
    repeat case_if; simplify_eq; cbn [fst]; eauto.
Qed.

(** ** A unit of blocks *)

(** Every instruction of the block with an XMM operand decoded properly. *)
Definition tb_wf (tb : TranslationBlock) : Prop := Forall (λ i, inst_wf i = true) (ir1 tb).

Lemma regs_only_land x : regs_only (x .& SHBR_XMM_MASK).
Proof. apply mask_le_land_r. Qed.

Lemma regs_only_id x : regs_only x → x .& SHBR_XMM_MASK = x.
Proof.
  intros H. apply mask_le_antisym; [apply mask_le_land_l|]. intros k Hk.
  rewrite Z.land_spec, Hk. by apply H.
Qed.

Lemma get_xmm_in_regs_only use xmm out : regs_only use → regs_only (get_xmm_in use xmm out).
Proof.
  intros Hu k [H|(j & v & _ & _ & Hk)]%get_xmm_in_from_spec; [by apply Hu|].
  by apply regs_only_land in Hk.
Qed.

Section unit_theory.
  Context (analyse : xmm_state → option (xmm_state * bool)) (ok : IR1_INST → Prop).
  Context `{!XmmAnalysis analyse ok} (fl : Z).

(** What the first loop of the pass leaves of a block. *)
Record init_spec (tb tb1 : TranslationBlock) (xmm : list Z) : Prop := {
  is_insts : Forall2 analysed (ir1 tb) (ir1 tb1);
  is_markable : Forall markable (ir1 tb1);
  is_in : hb_in tb1 = hb_use tb1;
  is_out : hb_out tb1 = 0;
  is_use : regs_only (hb_use tb1) ∧ in_u 32 (hb_use tb1);
  is_type : last_ir1_type tb1 = last_ir1_type tb;
  is_next : next_tb tb1 = next_tb tb;
  is_target : target_tb tb1 = target_tb tb;
  is_sse : shbr_type tb1 = SHBR_NTYPE → Forall (λ i, get_inst_type i = SHBR_NTYPE) (ir1 tb1);
  is_cover : Forall (λ i, ok (fresh i)) (ir1 tb) → ∀ out, regs_only out →
    back (ir1 tb1) out ⊑m get_xmm_in (hb_use tb1) xmm out
}.

Lemma shbr_init_tb_spec tb :
  tb_wf tb → ∃ tb1 xmm, shbr_init_tb analyse tb = Some (tb1, xmm) ∧ init_spec tb tb1 xmm.
Proof using All.
  intros Hwf. destruct (analyse_insts_spec analyse ok (ir1 tb) init_xmm_state SHBR_NTYPE 0 Hwf
    init_xmm_ok ltac:(lia)) as (l & xmm & ty & use & He & HF & Hm & Hu & _ & Hty & _ & Hc).
  unfold shbr_init_tb, tb_xmm_analyse. rewrite He. cbn [mbind option_bind].
  do 2 eexists. split; [reflexivity|]. split; try done.
  - split; [apply regs_only_land|]. cbn. rewrite Z.land_comm. apply in_u_land_l; [lia|].
    unfold in_u, SHBR_XMM_MASK. lia.
  - intros Hoks out Hout. apply covered_init; [by apply back_regs_only|].
    apply Hc; [done|apply get_xmm_in_covered|]. apply get_xmm_in_use.
Qed.

Lemma mark_list_ntype l n :
  Forall (λ i, get_inst_type i = SHBR_NTYPE) l → mark_list fl l n = l.
Proof.
  induction 1 as [|i l Hi Hl IH]; [done|]. cbn [mark_list]. unfold back_inst.
  rewrite Hi. simpl. by rewrite IH.
Qed.

Lemma shbr_mark_tb_eq tb :
  Forall markable (ir1 tb) →
  (shbr_type tb = SHBR_NTYPE → Forall (λ i, get_inst_type i = SHBR_NTYPE) (ir1 tb)) →
  shbr_mark_tb fl tb = Some (set_ir1 tb (mark_list fl (ir1 tb) (hb_out tb .& SHBR_XMM_MASK))).
Proof.
  intros Hm Hn. unfold shbr_mark_tb. destruct (Z.eqb_spec (shbr_type tb) SHBR_NTYPE) as [E|E].
  - rewrite mark_list_ntype by auto. by destruct tb.
  - by rewrite shbr_mark_eq.
Qed.

Lemma init_unit tbs :
  Forall tb_wf tbs →
  ∃ l, mapM (shbr_init_tb analyse) tbs = Some l ∧
    Forall2 (λ tb p, init_spec tb (fst p) (snd p)) tbs l.
Proof using All.
  induction 1 as [|tb tbs Htb _ IH]; [by exists []|].
  destruct (shbr_init_tb_spec tb Htb) as (tb1 & xmm & He & Hs). destruct IH as (l & Hl & HF).
  exists ((tb1, xmm) :: l). cbn [mapM]. rewrite He. cbn [mbind option_bind]. rewrite Hl.
  split; [done|]. by constructor.
Qed.

(** The initial masks are below the equations. *)
Lemma init_unit_inv tbs l :
  unit_ok tbs → Forall2 (λ tb p, init_spec tb (fst p) (snd p)) tbs l →
  flow_inv SHBR_XMM_ALL 0 (xmm_transfer (map snd l)) (length (map fst l)) (map fst l).
Proof.
  intros Hunit HF. pose proof (Forall2_length HF) as Hlen. split.
  - split; [done|]. intros i tb1 Hi. rewrite list_lookup_fmap in Hi.
    destruct (l !! i) as [p|] eqn:Hp; [|done]. injection Hi as <-.
    destruct (Forall2_lookup_r _ _ _ _ _ HF Hp) as (tb & Htb & Hs).
    destruct (Hunit i tb Htb) as (Ht & Hn & Htg). rewrite length_fmap, <-Hlen.
    split.
    + rewrite (is_in _ _ _ Hs). apply Hs.
    + rewrite (is_out _ _ _ Hs). apply zero_range.
    + apply Hs.
    + by rewrite (is_type _ _ _ Hs).
    + by rewrite (is_next _ _ _ Hs).
    + by rewrite (is_target _ _ _ Hs).
  - intros i tb1 Hi. rewrite list_lookup_fmap in Hi.
    destruct (l !! i) as [p|] eqn:Hp; [|done]. injection Hi as <-.
    destruct (Forall2_lookup_r _ _ _ _ _ HF Hp) as (tb & _ & Hs).
    rewrite (is_in _ _ _ Hs), (is_out _ _ _ Hs). split; [apply mask_le_0_l|].
    apply get_xmm_in_use.
Qed.

(** Every live-out mask of the solution names registers only. *)
Lemma solution_regs_only tbs l tbs2 :
  Forall2 (λ tb p, init_spec tb (fst p) (snd p)) tbs l →
  (∀ f, closed SHBR_XMM_ALL 0 (xmm_transfer (map snd l)) f (map fst l) →
     below SHBR_XMM_ALL 0 f (map fst l) → below SHBR_XMM_ALL 0 f tbs2) →
  ∀ i tb, tbs2 !! i = Some tb → regs_only (hb_out tb).
Proof.
  intros HF Hl i tb Htb.
  assert (∀ t, out_eq SHBR_XMM_ALL 0 (λ _, SHBR_XMM_MASK) t ⊑m SHBR_XMM_MASK) as Hout.
  { intros t. assert (∀ s, from_succ SHBR_XMM_ALL (λ _, SHBR_XMM_MASK) s ⊑m SHBR_XMM_MASK)
      as Hs by (by intros [|]).
    unfold out_eq. destruct (last_ir1_type t); try done; try apply mask_le_0_l.
    by apply mask_le_lor_lub. }
  destruct (Hl (λ _, SHBR_XMM_MASK)) with i tb as [_ H]; 
    [| |done|intros k Hk; apply Hout with tb; by apply H].
  - intros j t Hj. rewrite list_lookup_fmap in Hj. destruct (l !! j) as [p|] eqn:Hp; [|done].
    injection Hj as <-. destruct (Forall2_lookup_r _ _ _ _ _ HF Hp) as (tb0 & _ & Hs).
    apply get_xmm_in_regs_only, Hs.
  - intros j t Hj. rewrite list_lookup_fmap in Hj. destruct (l !! j) as [p|] eqn:Hp; [|done].
    injection Hj as <-. destruct (Forall2_lookup_r _ _ _ _ _ HF Hp) as (tb0 & _ & Hs).
    rewrite (is_in _ _ _ Hs), (is_out _ _ _ Hs). split; [apply Hs|apply mask_le_0_l].
Qed.

(** What the pass makes of a block: [l1] are its analysed instructions. *)
Record shbr_result (tbs' : list TranslationBlock) (tb : TranslationBlock) (l1 : list IR1_INST)
    (tb' : TranslationBlock) : Prop := {
  sr_analysed : Forall2 analysed (ir1 tb) l1;
  sr_markable : Forall markable l1;
  sr_marks : ir1 tb' = mark_list fl l1 (hb_out tb');
  sr_type : last_ir1_type tb' = last_ir1_type tb;
  sr_next : next_tb tb' = next_tb tb;
  sr_target : target_tb tb' = target_tb tb;
  sr_out : hb_out tb' = out_eq SHBR_XMM_ALL 0 (ins_of tbs') tb';
  sr_in : Forall (λ i, ok (fresh i)) (ir1 tb) → back l1 (hb_out tb') ⊑m hb_in tb'
}.

Lemma do_shbr_opt_spec tbs :
  unit_ok tbs → Forall tb_wf tbs →
  ∃ tbs', do_shbr_opt analyse fl tbs = Some tbs' ∧ length tbs' = length tbs ∧
    ∀ i tb', tbs' !! i = Some tb' →
      ∃ tb l1, tbs !! i = Some tb ∧ shbr_result tbs' tb l1 tb'.
Proof using All.
  intros Hunit Hwf. destruct (init_unit tbs Hwf) as (l & Hl & HF).
  unfold do_shbr_opt, over_tb_shbr_opt. rewrite Hl. cbn [mbind option_bind].
  destruct (flow_solve _ _ _ (map fst l) (init_unit_inv tbs l Hunit HF))
    as (tbs2 & Hit & Hst & Heq & Hleast).
  unfold xmm_body. rewrite Hit. cbn [mbind option_bind].
  pose proof (solution_regs_only tbs l tbs2 HF Hleast) as Hregs.
  set (mk := λ tb, set_ir1 tb (mark_list fl (ir1 tb) (hb_out tb .& SHBR_XMM_MASK))).
  (* each solved block, with where it comes from *)
  assert (∀ i tb2, tbs2 !! i = Some tb2 → ∃ tb p, tbs !! i = Some tb ∧ l !! i = Some p ∧
    init_spec tb (fst p) (snd p) ∧ same_static (fst p) tb2) as Hfrom.
  { intros i tb2 Hi. destruct (Forall2_lookup_r _ _ _ _ _ Hst Hi) as (tb1 & Htb1 & Hss).
    rewrite list_lookup_fmap in Htb1. destruct (l !! i) as [p|] eqn:Hp; [|done].
    injection Htb1 as <-. destruct (Forall2_lookup_r _ _ _ _ _ HF Hp) as (tb & Htb & Hs).
    by exists tb, p. }
  assert (mapM (shbr_mark_tb fl) tbs2 = Some (map mk tbs2)) as ->.
  { apply mapM_Some, Forall2_fmap_r, Forall_Forall2_diag, Forall_lookup. intros i tb2 Hi.
    destruct (Hfrom i tb2 Hi) as (tb & p & _ & _ & Hs & a & b & ->).
    apply shbr_mark_tb_eq; apply Hs. }
  exists (map mk tbs2). split_and!; [done| |].
  { rewrite length_fmap, <-(Forall2_length Hst), length_fmap. symmetry. apply (Forall2_length HF). }
  assert (∀ j, ins_of (map mk tbs2) j = ins_of tbs2 j) as Hins.
  { intros j. unfold ins_of. rewrite list_lookup_fmap. by destruct (tbs2 !! j). }
  intros i tb' Hi. rewrite list_lookup_fmap in Hi.
  destruct (tbs2 !! i) as [tb2|] eqn:Htb2; [|done]. injection Hi as <-.
  destruct (Hfrom i tb2 Htb2) as (tb & p & Htb & Hp & Hs & a & b & E2).
  destruct (Heq i tb2 Htb2) as [Ho Hn]. pose proof (Hregs i tb2 Htb2) as Hr.
  exists tb, (ir1 tb2). split; [done|]. split; unfold mk; cbn.
  - rewrite E2. apply Hs.
  - rewrite E2. apply Hs.
  - by rewrite regs_only_id.
  - rewrite E2. apply Hs.
  - rewrite E2. apply Hs.
  - rewrite E2. apply Hs.
  - rewrite Ho. apply mask_le_antisym; apply (out_eq_mono _ _ _ _ tb2); intros j; by rewrite Hins.
  - intros Hoks. rewrite Hn. unfold xmm_transfer. rewrite list_lookup_fmap, Hp.
    rewrite E2. cbn. apply Hs; [done|]. rewrite E2 in Hr. exact Hr.
Qed.
End unit_theory.

(** ** Semantic preservation *)

Section semantics.
  (** The behaviour of an instruction: a function of the machine state without
      the upper bits of the XMM registers and of these upper bits. *)
  Context {X : Type} (sem : la_dt_insn → X → his → X * his) (fl : Z).

(** Upper bits read for something else than the destination's upper bits. *)
Definition reads (i : IR1_INST) (r : Z) : Prop :=
  (f_nosrc (flags_of i) = true ∧ xreg i 1 = Some r) ∨
  (f_nodes (flags_of i) = true ∧ xreg i 0 = Some r).

(** The recorded flags describe the instruction. *)
Record x_respects (i : IR1_INST) : Prop := {
  xr_state : ∀ x f g, (∀ r, reads i r → f r = g r) →
    fst (sem (info i) x f) = fst (sem (info i) x g);
  xr_dest : ∀ x f g d, xreg i 0 = Some d → (∀ r, reads i r → f r = g r) →
    (f_src (flags_of i) = true → ∀ r, xreg i 1 = Some r → f r = g r) →
    (keeps_des (flags_of i) → f d = g d) →
    snd (sem (info i) x f) d = snd (sem (info i) x g) d;
  xr_keep : ∀ x f g r, xreg i 0 ≠ Some r → (∀ k, reads i k → f k = g k) → f r = g r →
    snd (sem (info i) x f) r = snd (sem (info i) x g) r
}.

(** Generated code: a marked instruction leaves anything in the upper bits of
    its destination. *)
Inductive x_tgt : list IR1_INST → X * his → X * his → Prop :=
  | x_nil s : x_tgt [] s s
  | x_cons i l x g g1 s :
      (∀ r, has (hbr_flag i) fl = false ∨ xreg i 0 ≠ Some r → g1 r = snd (sem (info i) x g) r) →
      x_tgt l (fst (sem (info i) x g), g1) s → x_tgt (i :: l) (x, g) s.

Lemma xreg_ntype i k : get_inst_type i = SHBR_NTYPE → xreg i k = None.
Proof.
  unfold get_inst_type, xreg, ir1_get_opnd. destruct (existsb _ _) eqn:E; [done|]. intros _.
  destruct (operands (info i) !! k) as [o|] eqn:Eo; [|done]. simpl.
  destruct (ir1_opnd_is_xmm o) eqn:Ex; [|done].
  rewrite <-not_true_iff_false, existsb_exists in E. destruct E. exists o.
  split; [|done]. apply list_elem_of_In. by eapply list_elem_of_lookup_2.
Qed.

(** What is needed before an instruction contains what it reads. *)
Lemma back_inst_reads i n r :
  markable i → reads i r → Z.testbit (fst (back_inst i n)) r = true.
Proof.
  intros Hm Hr. unfold back_inst. destruct (Z.eqb_spec (get_inst_type i) SHBR_NTYPE) as [E|E].
  { destruct Hr as [[_ H]|[_ H]]; by rewrite xreg_ntype in H. }
  destruct (Hm E) as (_ & _ & HK). unfold back_one.
  assert (∀ m k, 0 ≤ k → Z.testbit (m .| bit k) k = true) as Hadd.
  { intros m k Hk. rewrite Z.lor_spec, testbit_bit, Z.eqb_refl by done. apply orb_true_r. }
  assert (∀ m k j, Z.testbit m j = true → Z.testbit (m .| bit k) j = true) as Hkeep.
  { intros m k j Hj. by rewrite Z.lor_spec, Hj. }
  destruct Hr as [[Hf Hx]|[Hf Hx]].
  - pose proof (xreg_range _ _ _ Hx). rewrite Hx, Hf. destruct (match _ with Some _ => _ | _ => _ end).
    apply Hadd. lia.
  - pose proof (xreg_range _ _ _ Hx). rewrite Hx, Hf.
    assert (f_upd (flags_of i) && negb (f_des (flags_of i)) = false) as ->.
    { destruct (f_upd (flags_of i)) eqn:Eu; [|done]. by rewrite (HK Hf Eu). }
    assert (∀ m, Z.testbit (m .| bit r) r = true) as Hadd' by (intros; apply Hadd; lia).
    destruct (Z.testbit n r) eqn:En, (xreg i 1); repeat case_if; cbn [fst]; auto.
Qed.

(** A register needed after an instruction that is not its destination is needed
    before it. *)
Lemma back_inst_keep i n r :
  Z.testbit n r = true → xreg i 0 ≠ Some r → Z.testbit (fst (back_inst i n)) r = true.
Proof.
  intros Hn Hne. unfold back_inst. case_if; [done|]. unfold back_one.
  pose proof (testbit_true_nonneg _ _ Hn) as Hr.
  assert (∀ m k, Z.testbit m r = true → Z.testbit (m .| bit k) r = true) as Hkeep.
  { intros m k Hj. by rewrite Z.lor_spec, Hj. }
  destruct (xreg i 0) as [d|] eqn:Ed; [|destruct (xreg i 1); repeat case_if; cbn [fst]; auto].
  assert (Z.testbit (n .& ~. bit d) r = true) as Hsub.
  { rewrite Z.land_spec, Hn, Z.lnot_spec, testbit_bit_range by (lia || apply (xreg_range _ _ _ Ed)).
    destruct (Z.eqb_spec d r); [congruence|done]. }
  destruct (xreg i 1); repeat case_if; simplify_eq; cbn [fst]; auto.
Qed.

(** The destination needed after: not marked, and what its upper bits depend on
    is needed before. *)
Lemma back_inst_dest i n d :
  xreg i 0 = Some d → Z.testbit n d = true →
  snd (back_inst i n) = false ∧
  (f_src (flags_of i) = true → ∀ r, xreg i 1 = Some r → Z.testbit (fst (back_inst i n)) r = true) ∧
  (keeps_des (flags_of i) → Z.testbit (fst (back_inst i n)) d = true).
Proof.
  intros Hx Hn. pose proof (xreg_range _ _ _ Hx) as Hd. unfold back_inst.
  destruct (Z.eqb_spec (get_inst_type i) SHBR_NTYPE) as [E|E]; [by rewrite xreg_ntype in Hx|].
  unfold back_one. rewrite Hx, Hn.
  assert (∀ m k j, Z.testbit m j = true → Z.testbit (m .| bit k) j = true) as Hkeep.
  { intros m k j Hj. by rewrite Z.lor_spec, Hj. }
  split_and!.
  - destruct (xreg i 1); repeat case_if; done.
  - intros Hs r Hr. pose proof (xreg_range _ _ _ Hr). rewrite Hr, Hs. cbn [fst].
    assert (∀ m, Z.testbit (m .| bit r) r = true) as Hadd.
    { intros m. rewrite Z.lor_spec, testbit_bit, Z.eqb_refl by lia. apply orb_true_r. }
    repeat case_if; auto.
  - intros HK. assert (f_upd (flags_of i) && negb (f_des (flags_of i)) = false) as ->.
    { unfold keeps_des in HK. destruct (f_upd (flags_of i)); [|done]. by rewrite HK. }
    destruct (xreg i 1); repeat case_if; cbn [fst]; auto.
Qed.

Lemma mark_flag_facts i m :
  fl ≠ 0 → has (hbr_flag i) fl = false →
  info (mark_flag fl i m) = info i ∧ (∀ k, xreg (mark_flag fl i m) k = xreg i k) ∧
  has (hbr_flag (mark_flag fl i m)) fl = m.
Proof.
  intros Hfl Hh. unfold mark_flag. destruct m; [|done]. split_and!; [done..|].
  unfold has. cbn [hbr_flag set_hbr_flag]. apply negb_true_iff, Z.eqb_neq. intros E. apply Hfl.
  apply Z.bits_inj'. intros k Hk. apply (f_equal (λ x, Z.testbit x k)) in E.
  rewrite Z.land_spec, Z.lor_spec, Z.bits_0 in E. rewrite Z.bits_0.
  by destruct (Z.testbit fl k), (Z.testbit (hbr_flag i) k).
Qed.

(** A block: from upper bits that agree where they are needed, every run of the
    marked block ends in the state of the reference run. *)
Lemma mark_list_sound l out x f g x' g' :
  fl ≠ 0 →
  Forall (λ i, markable i ∧ x_respects i ∧ has (hbr_flag i) fl = false) l →
  x_tgt (mark_list fl l out) (x, g) (x', g') → hi_agree (back l out) f g →
  fst (hi_ref sem l (x, f)) = x' ∧ hi_agree out (snd (hi_ref sem l (x, f))) g'.
Proof.
  intros Hfl HF. revert x f g. induction HF as [|i l (Hm & Hr & Hh) HF IH]; intros x f g Ht Hag.
  { inv Ht. done. }
  cbn [mark_list] in Ht. inversion Ht as [|? ? ? ? g1 ? Hg1 Ht']; subst; clear Ht.
  destruct (mark_flag_facts i (snd (back_inst i (back l out))) Hfl Hh) as (Hinfo & Hxr & Hmk).
  rewrite Hinfo in *. rewrite Hxr, Hmk in Hg1. cbn [hi_ref fst snd]. cbn [back] in Hag.
  assert (∀ r, reads i r → f r = g r) as Hrd.
  { intros r Hir. apply Hag. by apply back_inst_reads. }
  rewrite <-(xr_state i Hr x f g Hrd) in Ht'.
  destruct (sem (info i) x f) as [x1 f1] eqn:Hsem.
  apply (IH x1 f1 g1); [exact Ht'|]. intros r Hb.
  assert (f1 = snd (sem (info i) x f)) as -> by (by rewrite Hsem).
  destruct (decide (xreg i 0 = Some r)) as [Hd|Hd].
  - destruct (back_inst_dest i (back l out) r Hd Hb) as (Hs & Hsrc & Hdes).
    rewrite Hg1 by (by left). apply (xr_dest i Hr); [done|done| |].
    + intros Hf k Hk. by apply Hag, Hsrc.
    + intros HK. by apply Hag, Hdes.
  - rewrite Hg1 by (by right). apply (xr_keep i Hr); [done|done|].
    by apply Hag, back_inst_keep.
Qed.


(** ** Along the paths of a unit *)

Lemma hi_ref_info l l' s : map info l = map info l' → hi_ref sem l s = hi_ref sem l' s.
Proof.
  revert l' s. induction l as [|i l IH]; intros [|i' l'] s H; try done.
  injection H as Hi Hl. cbn [hi_ref]. rewrite Hi. by apply IH.
Qed.

Lemma hi_ref_app l l' s : hi_ref sem (l ++ l') s = hi_ref sem l' (hi_ref sem l s).
Proof. revert s. induction l as [|i l IH]; intros s; [done|]. cbn [hi_ref app]. apply IH. Qed.

Lemma x_tgt_app l l' s s2 :
  x_tgt (l ++ l') s s2 → ∃ s1, x_tgt l s s1 ∧ x_tgt l' s1 s2.
Proof.
  revert s. induction l as [|i l IH]; intros s H; [exists s; split; [constructor|done]|].
  cbn [app] in H. inversion H as [|? ? x g g1 ? Hg Ht]; subst.
  destruct (IH _ Ht) as (s1 & H1 & H2). exists s1. split; [by econstructor|done].
Qed.

(** Block [j] may run after [tb] inside the unit. *)
Definition edge (tb : TranslationBlock) (j : nat) : Prop :=
  match last_ir1_type tb with
  | IR1_TYPE_BRANCH => next_tb tb = Some j ∨ target_tb tb = Some j
  | IR1_TYPE_JUMP | IR1_TYPE_CALL => target_tb tb = Some j
  | IR1_TYPE_NORMAL => next_tb tb = Some j
  | _ => False
  end.

(** [walk tbs i p l]: the path that starts in block [i], goes on through [p] and
    runs the instructions [l]. *)
Inductive walk (tbs : list TranslationBlock) : nat → list nat → list IR1_INST → Prop :=
  | walk_last i tb : tbs !! i = Some tb → walk tbs i [] (ir1 tb)
  | walk_step i tb j p l : tbs !! i = Some tb → edge tb j → walk tbs j p l →
      walk tbs i (j :: p) (ir1 tb ++ l).

Lemma edge_live_in tbs i tb j tb' :
  tbs !! i = Some tb → edge tb j → tbs !! j = Some tb' →
  hb_out tb = out_eq SHBR_XMM_ALL 0 (ins_of tbs) tb → hb_in tb' ⊑m hb_out tb.
Proof.
  intros _ He Hj ->. assert (ins_of tbs j = hb_in tb') as <- by (unfold ins_of; by rewrite Hj).
  unfold edge, out_eq in *. destruct (last_ir1_type tb); try done; try (rewrite He; done).
  destruct He as [-> | ->]; simpl; [apply mask_le_lor_l|apply mask_le_lor_r].
Qed.

Lemma hi_agree_le m m' f g : m ⊑m m' → hi_agree m' f g → hi_agree m f g.
Proof. intros Hle H r Hr. by apply H, Hle. Qed.

Context (ok : IR1_INST → Prop).

(** One block of a solved unit. *)
Lemma shbr_block_sound tbs' tb l1 tb' x f g x' g' :
  fl ≠ 0 → shbr_result ok fl tbs' tb l1 tb' →
  Forall (λ i, ok (fresh i) ∧ has (hbr_flag i) fl = false) (ir1 tb) →
  Forall x_respects l1 →
  x_tgt (ir1 tb') (x, g) (x', g') → hi_agree (hb_in tb') f g →
  fst (hi_ref sem (ir1 tb) (x, f)) = x' ∧
  hi_agree (hb_out tb') (snd (hi_ref sem (ir1 tb) (x, f))) g'.
Proof.
  intros Hfl [Han Hm Hmk _ _ _ _ Hin] Hok Hr Ht Hag.
  assert (Forall (λ i, ok (fresh i)) (ir1 tb)) as Hok' 
    by (eapply Forall_impl; [|exact Hok]; by intros ? []).
  assert (Forall (λ i, has (hbr_flag i) fl = false) (ir1 tb)) as Hh
    by (eapply Forall_impl; [|exact Hok]; by intros ? []).
  rewrite (hi_ref_info (ir1 tb) l1).
  2:{ clear -Han. induction Han as [|i i' l l' Hi _ IH]; [done|]. cbn. rewrite IH.
      f_equal. rewrite Hi. done. }
  rewrite Hmk in Ht. apply (mark_list_sound l1 (hb_out tb') x f g); [done| |done|].
  - clear -Han Hh Hm Hr. induction Han as [|i i' l l' Hi _ IH]; [constructor|].
    inv Hh. inv Hm. inv Hr. constructor; [|by apply IH]. split_and!; [done..|]. by rewrite Hi.
  - apply (hi_agree_le _ (hb_in tb')); auto.
Qed.

Lemma shbr_walk_sound tbs tbs' i p l' x f g x' g' :
  fl ≠ 0 →
  (∀ i tb', tbs' !! i = Some tb' → ∃ tb l1, tbs !! i = Some tb ∧
     shbr_result ok fl tbs' tb l1 tb' ∧ Forall x_respects l1) →
  (∀ i tb, tbs !! i = Some tb → Forall (λ i, ok (fresh i) ∧ has (hbr_flag i) fl = false) (ir1 tb)) →
  walk tbs' i p l' → x_tgt l' (x, g) (x', g') →
  (∀ tb', tbs' !! i = Some tb' → hi_agree (hb_in tb') f g) →
  ∃ l, walk tbs i p l ∧ fst (hi_ref sem l (x, f)) = x' ∧
    ∀ tb', tbs' !! List.last p i = Some tb' →
      hi_agree (hb_out tb') (snd (hi_ref sem l (x, f))) g'.
Proof.
  intros Hfl Hres Hok Hw. revert x f g.
  induction Hw as [i tb' Hi|i tb' j p l Hi He Hw IH]; intros x f g Ht Hag;
    destruct (Hres i tb' Hi) as (tb & l1 & Htb & Hsr & Hrs);
    pose proof (Hok i tb Htb) as Hokb.
  - destruct (shbr_block_sound tbs' tb l1 tb' x f g x' g') as [H1 H2]; auto.
    exists (ir1 tb). split_and!; [by constructor|done|]. intros t H.
    cbn [List.last] in H. rewrite Hi in H. by injection H as <-.
  - apply x_tgt_app in Ht as ([x1 g1] & Ht1 & Ht2).
    destruct (shbr_block_sound tbs' tb l1 tb' x f g x1 g1) as [H1 H2]; auto.
    destruct (IH x1 (snd (hi_ref sem (ir1 tb) (x, f))) g1 Ht2) as (lr & Hwr & Hx & Hout).
    + intros t Hj. apply (hi_agree_le _ (hb_out tb')); [|done].
      apply (edge_live_in tbs' i tb' j t Hi He Hj). apply Hsr.
    + exists (ir1 tb ++ lr). rewrite hi_ref_app.
      assert (hi_ref sem (ir1 tb) (x, f) = (x1, snd (hi_ref sem (ir1 tb) (x, f)))) as ->.
      { rewrite <-H1. by destruct (hi_ref sem (ir1 tb) (x, f)). }
      split_and!; [|exact Hx|].
      * econstructor; [done| |done]. unfold edge in *.
        by rewrite <-(sr_type _ _ _ _ _ _ Hsr), <-(sr_next _ _ _ _ _ _ Hsr),
          <-(sr_target _ _ _ _ _ _ Hsr).
      * intros t Hl. apply Hout. destruct p; [exact Hl|]. rewrite <-Hl. f_equal.
        clear. revert n i j. induction p as [|a p IHp]; intros n i j; [done|]. cbn. apply IHp.
Qed.

Lemma x_respects_unmark l n :
  Forall x_respects (mark_list fl l n) → Forall x_respects l.
Proof.
  induction l as [|i l IH]; [done|]. cbn [mark_list]. intros H.
  inversion H as [|? ? Hi Hl]; subst. constructor; [|by apply IH].
  revert Hi. unfold mark_flag. destruct (snd _); [|done]. intros [H1 H2 H3]. by split.
Qed.
End semantics.

(** The instructions of the unit are unchanged. *)
Lemma mark_list_info fl l n : map info (mark_list fl l n) = map info l.
Proof.
  induction l as [|i l IH]; [done|]. cbn. rewrite IH. f_equal. unfold mark_flag. by case_if.
Qed.

Lemma shbr_result_info ok fl tbs' tb l1 tb' :
  shbr_result ok fl tbs' tb l1 tb' → map info (ir1 tb') = map info (ir1 tb).
Proof.
  intros [Han _ Hmk _ _ _ _ _]. rewrite Hmk, mark_list_info. clear -Han.
  induction Han as [|i i' l l' Hi _ IH]; [done|]. cbn. rewrite IH. f_equal. by rewrite Hi.
Qed.
