(* ===== verification/HbrXmmMain.v ===== *)
(** * The XMM high-bits reduction: main theorems

    The results of HbrXmmSound.v for the two passes of hbr.c, a specification of
    the SSE instructions that only move bytes against which the recorded flags are
    checked for every immediate, and the instructions whose flags are wrong. *)

From stdpp Require Import base numbers list option tactics.
From Stdlib Require Import ZArith Lia Bool.
From S2P Require Import Prelude Ir1Enum Ir1 Dataflow HbrFlow HbrGpr HbrXmm HbrXmmSound.
Local Open Scope Z_scope.
Local Open Scope c_scope.

(** ** Instructions that move bytes (Intel SDM, volume 2) *)

(** Where byte [k] of the destination comes from. *)
Inductive byte_src : Set := FromSrc (k : Z) | FromDes (k : Z) | ZeroByte.

Definition elt (imm pos : Z) : Z := (imm >> pos) .& 3.

(** Interleave the elements of [e] bytes of the halves starting at byte [h]. *)
Definition unpck (e h k : Z) : byte_src :=
  let q := k / e in
  let j := h + (q / 2) * e + k mod e in
  if q mod 2 =? 0 then FromDes j else FromSrc j.

Definition pick (z : Z) (f : Z → byte_src) : byte_src :=
  if (z <? 0) || (15 <? z) then ZeroByte else f z.

Definition moves (op : dt_x86_insn) (imm k : Z) : byte_src :=
  match op with
  | dt_X86_INS_PSHUFD => FromSrc (4 * elt imm (2 * (k / 4)) + k mod 4)
  | dt_X86_INS_SHUFPS =>
      let j := 4 * elt imm (2 * (k / 4)) + k mod 4 in
      if k <? 8 then FromDes j else FromSrc j
  | dt_X86_INS_SHUFPD =>
      if k <? 8 then FromDes (8 * (imm .& 1) + k) else FromSrc (8 * ((imm >> 1) .& 1) + (k - 8))
  | dt_X86_INS_PSHUFLW => FromSrc (if k <? 8 then 2 * elt imm (2 * (k / 2)) + k mod 2 else k)
  | dt_X86_INS_PSHUFHW =>
      FromSrc (if k <? 8 then k else 8 + 2 * elt imm (2 * ((k - 8) / 2)) + k mod 2)
  | dt_X86_INS_PALIGNR =>
      if k + imm <? 16 then FromSrc (k + imm) else pick (k + imm - 16) FromDes
  | dt_X86_INS_PSLLDQ => pick (k - imm) FromDes
  | dt_X86_INS_PSRLDQ => pick (k + imm) FromDes
  | dt_X86_INS_PUNPCKLBW => unpck 1 0 k
  | dt_X86_INS_PUNPCKLWD => unpck 2 0 k
  | dt_X86_INS_PUNPCKLDQ | dt_X86_INS_UNPCKLPS => unpck 4 0 k
  | dt_X86_INS_PUNPCKLQDQ | dt_X86_INS_UNPCKLPD | dt_X86_INS_MOVLHPS => unpck 8 0 k
  | dt_X86_INS_PUNPCKHBW => unpck 1 8 k
  | dt_X86_INS_PUNPCKHWD => unpck 2 8 k
  | dt_X86_INS_PUNPCKHDQ | dt_X86_INS_UNPCKHPS => unpck 4 8 k
  | dt_X86_INS_PUNPCKHQDQ | dt_X86_INS_UNPCKHPD => unpck 8 8 k
  | dt_X86_INS_MOVHLPS => if k <? 8 then FromSrc (k + 8) else FromDes k
  | dt_X86_INS_MOVQ => if k <? 8 then FromSrc k else ZeroByte
  | dt_X86_INS_MOVSD => if k <? 8 then FromSrc k else FromDes k
  | dt_X86_INS_MOVSS => if k <? 4 then FromSrc k else FromDes k
  | _ => FromSrc k
  end.

(** The flags allow the moves: a byte from the upper part ([w] bytes and up) of a
    register that lands in the lower part is a read; one that lands in the upper
    part is at least a dependence. *)
Definition flags_allow (w : Z) (f : xflags) (k : Z) (b : byte_src) : bool :=
  match b with
  | FromSrc j => (j <? w) || f_nosrc f || ((w <=? k) && f_src f)
  | FromDes j => (j <? w) || f_nodes f || ((w <=? k) && (negb (f_upd f) || f_des f))
  | ZeroByte => true
  end.

Definition bytes16 : list Z := zrange 0 16.

Definition xop (r : dt_x86_reg) : IR1_OPND := mkOpnd (OP_REG r) 16.
Definition imm8 (v : Z) : IR1_OPND := mkOpnd (OP_IMM v) 1.

(** The instruction [op] on the registers [d] and [s]: with an immediate as third
    operand, as second operand, or without. *)
Inductive form : Set := F_imm3 | F_imm2 | F_plain.
Definition x_inst (fm : form) (op : dt_x86_insn) (d s : dt_x86_reg) (imm : Z) : IR1_INST :=
  g_inst op (match fm with
             | F_imm3 => [xop d; xop s; imm8 imm]
             | F_imm2 => [xop d; imm8 imm]
             | F_plain => [xop d; xop s]
             end).

(** The analysis of one instruction records what its moves need. *)
Definition recorded (analyse : xmm_state → option (xmm_state * bool)) (w : Z) (i : IR1_INST)
    (imm : Z) : bool :=
  match analyse (mkX i init_xmm_state) with
  | Some (s, _) =>
      forallb (λ k, flags_allow w (flags_of (x_ir1 s)) k (moves (ir1_opcode i) imm k)) bytes16
  | None => false
  end.

Definition imm3_ops : list dt_x86_insn :=
  [dt_X86_INS_PSHUFD; dt_X86_INS_SHUFPS; dt_X86_INS_PALIGNR; dt_X86_INS_SHUFPD; dt_X86_INS_PSHUFLW;
   dt_X86_INS_PSHUFHW].
Definition imm2_ops : list dt_x86_insn := [dt_X86_INS_PSLLDQ; dt_X86_INS_PSRLDQ].
Definition move_ops : list dt_x86_insn :=
  [dt_X86_INS_PUNPCKLBW; dt_X86_INS_PUNPCKLWD; dt_X86_INS_PUNPCKLDQ; dt_X86_INS_PUNPCKLQDQ;
   dt_X86_INS_UNPCKLPS; dt_X86_INS_UNPCKLPD; dt_X86_INS_PUNPCKHBW; dt_X86_INS_PUNPCKHWD;
   dt_X86_INS_PUNPCKHDQ; dt_X86_INS_PUNPCKHQDQ; dt_X86_INS_UNPCKHPS; dt_X86_INS_UNPCKHPD;
   dt_X86_INS_MOVLHPS; dt_X86_INS_MOVHLPS; dt_X86_INS_MOVQ; dt_X86_INS_MOVSD;
   dt_X86_INS_MOVSS; dt_X86_INS_MOVAPS; dt_X86_INS_MOVAPD; dt_X86_INS_MOVUPS; dt_X86_INS_MOVUPD;
   dt_X86_INS_MOVDQA; dt_X86_INS_MOVDQU].

Definition xmm_regs : list dt_x86_reg :=
  [dt_X86_REG_XMM0; dt_X86_REG_XMM1; dt_X86_REG_XMM2; dt_X86_REG_XMM3; dt_X86_REG_XMM4; dt_X86_REG_XMM5;
   dt_X86_REG_XMM6; dt_X86_REG_XMM7; dt_X86_REG_XMM8; dt_X86_REG_XMM9; dt_X86_REG_XMM10; dt_X86_REG_XMM11;
   dt_X86_REG_XMM12; dt_X86_REG_XMM13; dt_X86_REG_XMM14; dt_X86_REG_XMM15].

(** The shift of the destination whose read is not recorded. *)
Definition lost_shift (op : dt_x86_insn) (imm : Z) : bool :=
  insn_eqb op dt_X86_INS_PSRLDQ && (1 <=? imm) && (imm <=? 15).

(** ** The flags of instructions on two registers *)

(** The analysis stands at [i] with the flags [f] recorded; both operands are registers. *)
Record standing (i : IR1_INST) (f : xflags) (s : xmm_state) : Prop := {
  sd_info : info (x_ir1 s) = info i;
  sd_ok : xmm_ok (x_xmm s);
  sd_flags : flags_of (x_ir1 s) = f
}.

(** [o] leads to the flags [f]. *)
Definition leads (i : IR1_INST) (o : option xmm_state) (f : xflags) : Prop := ∃ s, o = Some s ∧ standing i f s.

Section two_regs.
Context (i : IR1_INST) (o0 o1 : IR1_OPND).
Context (H0 : ir1_get_opnd i 0 = Some o0) (H1 : ir1_get_opnd i 1 = Some o1).
Context (X0 : ir1_opnd_is_xmm o0 = true) (X1 : ir1_opnd_is_xmm o1 = true).

Lemma standing_opnds f s : standing i f s → ir1_get_opnd (x_ir1 s) 0 = Some o0 ∧ ir1_get_opnd (x_ir1 s) 1 = Some o1.
Proof using All. intros [E _ _]. unfold ir1_get_opnd in *. by rewrite E. Qed.

Lemma reg_bounds : 0 ≤ ir1_opnd_base_reg_num o0 < 16 ∧ 0 ≤ ir1_opnd_base_reg_num o1 < 16.
Proof using All. split; by apply xmm_reg_range. Qed.

Lemma lead_src_des f s : standing i f s → leads i (src_des_update_des s) (mkF true true true (f_nosrc f) (f_nodes f)).
Proof using All.
  intros S. destruct (standing_opnds _ _ S) as [E0 E1], reg_bounds as [B0 B1]. destruct S as [Si So Sf].
  unfold src_des_update_des. rewrite E0, E1. cbn [mbind option_bind]. rewrite X0, X1. cbn [negb].
  rewrite !(xget_aget (x_xmm s)) by (apply So || done). cbn [mbind option_bind].
  destruct (xmm_ok_aset (x_xmm s) (ir1_opnd_base_reg_num o0)
    (xget (x_xmm s) (ir1_opnd_base_reg_num o0) .| xget (x_xmm s) (ir1_opnd_base_reg_num o1)))
    as (xmm' & -> & Ok & _); [done..|apply in_u_lor; [lia|apply So..]|].
  eexists. split; [done|]. split; [done|done|]. cbn [x_ir1]. by rewrite flags_use_need_both, flags_or_def, Sf.
Qed.

Lemma lead_src f s : standing i f s → leads i (src_update_des s) (mkF true true (f_des f) (f_nosrc f) (f_nodes f)).
Proof using All.
  intros S. destruct (standing_opnds _ _ S) as [E0 E1], reg_bounds as [B0 B1]. destruct S as [Si So Sf].
  unfold src_update_des. rewrite E0, E1. cbn [mbind option_bind]. rewrite X0, X1. cbn [negb].
  rewrite !(xget_aget (x_xmm s)) by (apply So || done). cbn [mbind option_bind].
  destruct (xmm_ok_aset (x_xmm s) (ir1_opnd_base_reg_num o0) (xget (x_xmm s) (ir1_opnd_base_reg_num o1)))
    as (xmm' & -> & Ok & _); [done..|apply So|].
  eexists. split; [done|]. split; [done|done|]. cbn [x_ir1]. by rewrite flags_use_need_src, flags_or_def, Sf.
Qed.

Lemma lead_other f s :
  standing i f s → leads i (other_update_des s) (mkF true (f_src f) (f_des f) (f_nosrc f) (f_nodes f)).
Proof using All.
  intros S. destruct (standing_opnds _ _ S) as [E0 E1], reg_bounds as [B0 B1]. destruct S as [Si So Sf].
  unfold other_update_des. rewrite E0. cbn [mbind option_bind]. rewrite X0. cbn [negb].
  destruct (xmm_ok_aset (x_xmm s) (ir1_opnd_base_reg_num o0) SHBR_XMM_OTHER) as (xmm' & -> & Ok & _); [done..|].
  eexists. split; [done|]. split; [done|done|]. cbn [x_ir1]. by rewrite <- Sf.
Qed.

Lemma lead_no_src f s :
  standing i f s → leads i (src_no_opt s) (mkF (f_upd f) (f_src f) (f_des f) true (f_nodes f)).
Proof using All.
  intros S. destruct (standing_opnds _ _ S) as [E0 E1], reg_bounds as [B0 B1]. destruct S as [Si So Sf].
  unfold src_no_opt. rewrite E1. cbn [mbind option_bind]. rewrite X1. cbn [negb].
  rewrite (xget_aget (x_xmm s)) by (apply So || done). cbn [mbind option_bind].
  eexists. split; [done|]. split; [done|done|]. cbn [x_ir1]. by rewrite flags_or_use_val, flags_use_no_opt_src, Sf.
Qed.

Lemma lead_no_des f s :
  standing i f s → leads i (des_no_opt s) (mkF (f_upd f) (f_src f) (f_des f) (f_nosrc f) true).
Proof using All.
  intros S. destruct (standing_opnds _ _ S) as [E0 E1], reg_bounds as [B0 B1]. destruct S as [Si So Sf].
  unfold des_no_opt. rewrite E0. cbn [mbind option_bind]. rewrite X0. cbn [negb].
  rewrite (xget_aget (x_xmm s)) by (apply So || done). cbn [mbind option_bind].
  eexists. split; [done|]. split; [done|done|]. cbn [x_ir1]. by rewrite flags_or_use_val, flags_use_no_opt_des, Sf.
Qed.

Lemma leads_bind o f g k :
  leads i o f → (∀ s, standing i f s → leads i (k s) g) → leads i (s ← o; k s) g.
Proof using Type. intros (s & -> & S) K. by apply K. Qed.
End two_regs.

(** The flags of the instructions with a third operand, by their immediate: for the 32-bit
    and for the 64-bit pass. *)
Definition imm3_flags_32 (op : dt_x86_insn) (imm : Z) : xflags :=
  match case_imm_of op with
  | I_PSHUFD => if imm <? 1 then mkF true false false false false else mkF true true false true false
  | I_PALIGNR =>
      if imm <=? 4 then mkF true true false true false
      else if imm <? 16 then mkF true true true true false
      else mkF false false false false (16 <? imm)
  | I_SHUFPS =>
      if has imm 0xf0 then mkF true true (has imm 0x0f) false (has imm 0x3)
      else mkF (imm =? 0) false false false (has imm 0x3)
  | I_NONE => mkF true true true true true
  end.

Definition imm3_flags_64 (op : dt_x86_insn) (imm : Z) : xflags :=
  match case_imm_of op with
  | I_PSHUFD => if imm <=? 1 then mkF true false false false false else mkF true true false true false
  | I_PALIGNR =>
      if imm <=? 8 then mkF true true false true false
      else if imm <? 16 then mkF true true true true false
      else mkF false false false false (16 <? imm)
  | I_SHUFPS =>
      if has imm 0xa0 then mkF true true (has imm 0xa) false (has imm 0xa)
      else mkF ((imm .& 0xaa) =? 0) false false false (has imm 0xa)
  | I_NONE => mkF true true true true true
  end.

Ltac each_op H :=
  unfold imm3_ops in H; repeat (apply elem_of_cons in H as [->|H]; [reflexivity|]); by apply elem_of_nil in H.

Section imm3.
Context (op : dt_x86_insn) (d s : dt_x86_reg) (imm : Z).
Context (Hd : ir1_opnd_is_xmm (xop d) = true) (Hs : ir1_opnd_is_xmm (xop s) = true) (Himm : 0 ≤ imm < 256).
Local Notation i := (x_inst F_imm3 op d s imm).
Local Notation leads := (leads i).

Lemma third_imm_eq : third_imm i = Some (Some imm).
Proof using All.
  unfold third_imm. simpl. unfold u8, uwrap. rewrite Z.mod_mod, Z.mod_small by (simpl; lia). done.
Qed.

Lemma leads_here x f : standing i f x → leads (Some x) f.
Proof using Type. intros S. by exists x. Qed.

Lemma fresh_standing : standing i no_flags (mkX i init_xmm_state).
Proof using Type. split; [done|apply init_xmm_ok|done]. Qed.

Local Notation two lem := (lem i (xop d) (xop s) eq_refl eq_refl Hd Hs).

Lemma shufps_leads x (a b c e : bool) :
  standing i no_flags x →
  leads (x ← (if a then des_no_opt x else Some x);
         if b then if c then src_des_update_des x else src_update_des x
         else if e then other_update_des x else Some x)
    (if b then mkF true true c false a else mkF e false false false a).
Proof using All.
  intros S. apply leads_bind with (f := mkF false false false false a).
  - destruct a; [exact (two lead_no_des _ _ S)|by apply leads_here].
  - intros x' S'. destruct b; [destruct c|destruct e].
    + exact (two lead_src_des _ _ S').
    + exact (two lead_src _ _ S').
    + exact (two lead_other _ _ S').
    + by apply leads_here.
Qed.

Lemma src_read_leads x : standing i no_flags x → leads (x ← src_no_opt x; src_update_des x) (mkF true true false true false).
Proof using All.
  intros S. eapply leads_bind; [exact (two lead_no_src _ _ S)|]. intros x' S'. exact (two lead_src _ _ S').
Qed.

Lemma palignr_leads x (a b c : bool) :
  standing i no_flags x →
  leads (if a then x ← src_update_des x; src_no_opt x
         else if b then x ← src_des_update_des x; src_no_opt x
         else if c then des_no_opt x else Some x)
    (if a then mkF true true false true false else if b then mkF true true true true false
     else mkF false false false false c).
Proof using All.
  intros S. destruct a; [|destruct b; [|destruct c]].
  - eapply leads_bind; [exact (two lead_src _ _ S)|]. intros x' S'. exact (two lead_no_src _ _ S').
  - eapply leads_bind; [exact (two lead_src_des _ _ S)|]. intros x' S'. exact (two lead_no_src _ _ S').
  - exact (two lead_no_des _ _ S).
  - by apply leads_here.
Qed.

Lemma conservative_leads x :
  standing i no_flags x →
  leads (x ← src_des_update_des x; x ← src_no_opt x; des_no_opt x) (mkF true true true true true).
Proof using All.
  intros S. eapply leads_bind; [exact (two lead_src_des _ _ S)|]. intros x1 S1.
  eapply leads_bind; [exact (two lead_no_src _ _ S1)|]. intros x2 S2. exact (two lead_no_des _ _ S2).
Qed.

Context (Hop : op ∈ imm3_ops).

Lemma imm3_start x :
  standing i no_flags x →
  ir1_get_opnd (x_ir1 x) 0 = Some (xop d) ∧ ir1_get_opnd (x_ir1 x) 1 = Some (xop s) ∧ ir1_opcode (x_ir1 x) = op ∧
  third_imm (x_ir1 x) = Some (Some imm) ∧ deal_xmm_common x = Some (x, false).
Proof using All.
  intros S. pose proof third_imm_eq as T3. destruct S as [Si _ _].
  assert (E0 : ir1_get_opnd (x_ir1 x) 0 = Some (xop d)) by (unfold ir1_get_opnd; by rewrite Si).
  assert (E1 : ir1_get_opnd (x_ir1 x) 1 = Some (xop s)) by (unfold ir1_get_opnd; by rewrite Si).
  assert (Eo : ir1_opcode (x_ir1 x) = op) by (unfold ir1_opcode; by rewrite Si).
  split_and!; [done..| |].
  - rewrite <- T3. unfold third_imm, ir1_get_opnd_num, ir1_get_opnd. by rewrite Si.
  - unfold deal_xmm_common. rewrite E0, E1, Eo. cbn [mbind option_bind]. clear -Hop.
    each_op Hop.
Qed.

Lemma leads_ret o f b : leads o f → leads (fst <$> ret b o) f.
Proof using Type. intros (x & -> & S). by exists x. Qed.

Lemma leads_imm o f k :
  leads o f → leads (fst <$> (r ← Some <$> o; match r with Some s => Some (s, true) | None => k end)) f.
Proof using Type. intros (x & -> & S). by exists x. Qed.

Lemma imm3_leads_32 : leads (fst <$> xmm_analyse_32 (mkX i init_xmm_state)) (imm3_flags_32 op imm).
Proof using All.
  pose proof fresh_standing as S. revert S. generalize (mkX i init_xmm_state) as x. intros x S.
  destruct (imm3_start x S) as (E0 & E1 & Eo & E3 & Ec). unfold xmm_analyse_32. rewrite Ec. cbn [mbind option_bind].
  rewrite E0, E1, Eo. cbn [mbind option_bind].
  replace (case_32_of op) with A_NONE.
  2: { clear -Hop. each_op Hop. }
  unfold analyse_tail_32, imm3_flags_32. rewrite E3. cbn [mbind option_bind]. unfold analyse_imm_32. rewrite Eo.
  destruct (case_imm_of op).
  - apply leads_imm. cbn [ir1_opnd_is_mem xop opnd_op orb]. destruct (imm <? 1); [exact (two lead_other _ _ S)|by apply src_read_leads].
  - apply leads_imm. rewrite Hs. by apply palignr_leads.
  - apply leads_imm. by apply shufps_leads.
  - cbn [mbind option_bind]. unfold analyse_rest_32. rewrite E0, E1. cbn [mbind option_bind]. rewrite Hd, Hs.
    by apply leads_ret, conservative_leads.
Qed.

Lemma imm3_leads_64 : leads (fst <$> xmm_analyse_64 (mkX i init_xmm_state)) (imm3_flags_64 op imm).
Proof using All.
  pose proof fresh_standing as S. revert S. generalize (mkX i init_xmm_state) as x. intros x S.
  destruct (imm3_start x S) as (E0 & E1 & Eo & E3 & Ec). unfold xmm_analyse_64. rewrite Ec. cbn [mbind option_bind].
  rewrite E1, Eo. cbn [mbind option_bind].
  replace (case_64_of op) with B_NONE.
  2: { clear -Hop. each_op Hop. }
  unfold imm3_flags_64. rewrite E3. cbn [mbind option_bind]. unfold analyse_imm_64. rewrite Eo.
  destruct (case_imm_of op).
  - apply leads_imm. cbn [ir1_opnd_is_mem xop opnd_op orb]. destruct (imm <=? 1); [exact (two lead_other _ _ S)|by apply src_read_leads].
  - apply leads_imm. rewrite Hs. by apply palignr_leads.
  - apply leads_imm. by apply shufps_leads.
  - cbn [mbind option_bind]. unfold analyse_rest_64. rewrite E0. cbn [mbind option_bind]. rewrite Hd, Hs.
    by apply leads_ret, conservative_leads.
Qed.
End imm3.

(** The flags allow the moves, whatever the registers. *)
Definition imm3_allowed (op : dt_x86_insn) (imm : Z) : bool :=
  forallb (λ k, flags_allow 4 (imm3_flags_32 op imm) k (moves op imm k) &&
                flags_allow 8 (imm3_flags_64 op imm) k (moves op imm k)) bytes16.

Lemma imm3_all_allowed : forallb (λ op, forallb (imm3_allowed op) (zrange 0 256)) imm3_ops = true.
Proof. vm_compute. reflexivity. Qed.

Lemma leads_recorded analyse w i imm f :
  leads i (fst <$> analyse (mkX i init_xmm_state)) f →
  recorded analyse w i imm = forallb (λ k, flags_allow w f k (moves (ir1_opcode i) imm k)) bytes16.
Proof.
  intros (x & E & S). unfold recorded. destruct (analyse _) as [[x' b]|]; [|done]. injection E as ->.
  by rewrite (sd_flags _ _ _ S).
Qed.

Lemma xmm_regs_xmm r : r ∈ xmm_regs → ir1_opnd_is_xmm (xop r) = true.
Proof. intros H. by apply (forallb_elem (λ r, ir1_opnd_is_xmm (xop r)) xmm_regs r). Qed.

Lemma imm3_recorded op d s imm :
  op ∈ imm3_ops → d ∈ xmm_regs → s ∈ xmm_regs → 0 ≤ imm < 256 →
  recorded xmm_analyse_32 4 (x_inst F_imm3 op d s imm) imm = true ∧
  recorded xmm_analyse_64 8 (x_inst F_imm3 op d s imm) imm = true.
Proof.
  intros Hop Hd%xmm_regs_xmm Hs%xmm_regs_xmm Hi.
  rewrite (leads_recorded _ _ _ _ _ (imm3_leads_32 op d s imm Hd Hs Hi Hop)).
  rewrite (leads_recorded _ _ _ _ _ (imm3_leads_64 op d s imm Hd Hs Hi Hop)).
  pose proof (forallb_range _ 0 256 imm (forallb_elem _ _ op imm3_all_allowed Hop) ltac:(lia)) as H.
  unfold imm3_allowed in H. rewrite forallb_forall in H.
  split; apply forallb_forall; intros k Hk; by destruct (andb_prop _ _ (H k Hk)).
Qed.

(** The other instructions, by computation: [shifted] for all registers and immediates,
    [moved] for all pairs of registers (there is no immediate). *)
Definition shifted (op : dt_x86_insn) (d : dt_x86_reg) (imm : Z) : bool :=
  Bool.eqb (recorded xmm_analyse_32 4 (x_inst F_imm2 op d d imm) imm) (negb (lost_shift op imm)) &&
  Bool.eqb (recorded xmm_analyse_64 8 (x_inst F_imm2 op d d imm) imm) (negb (lost_shift op imm)).
Definition moved (op : dt_x86_insn) (d s : dt_x86_reg) : bool :=
  recorded xmm_analyse_32 4 (x_inst F_plain op d s 0) 0 && recorded xmm_analyse_64 8 (x_inst F_plain op d s 0) 0.

Lemma all_shifted : forallb (λ op, forallb (λ d, forallb (shifted op d) (zrange 0 256)) xmm_regs) imm2_ops = true.
Proof. vm_compute. reflexivity. Qed.
Lemma all_moved : forallb (λ op, forallb (λ d, forallb (moved op d) xmm_regs) xmm_regs) move_ops = true.
Proof. vm_compute. reflexivity. Qed.

Lemma imm2_recorded op d s imm :
  op ∈ imm2_ops → d ∈ xmm_regs → 0 ≤ imm < 256 →
  recorded xmm_analyse_32 4 (x_inst F_imm2 op d s imm) imm = negb (lost_shift op imm) ∧
  recorded xmm_analyse_64 8 (x_inst F_imm2 op d s imm) imm = negb (lost_shift op imm).
Proof.
  intros Hop Hd Hi. assert (H : shifted op d imm = true).
  { apply (forallb_range _ 0 256); [|lia]. by apply (forallb_elem _ _ d (forallb_elem _ _ op all_shifted Hop)). }
  apply andb_prop in H as [H1 H2]. by apply eqb_prop in H1, H2.
Qed.

Lemma moves_no_imm op imm k : op ∈ move_ops → moves op imm k = moves op 0 k.
Proof.
  unfold move_ops. intros H. repeat (apply elem_of_cons in H as [->|H]; [reflexivity|]). by apply elem_of_nil in H.
Qed.

Lemma move_recorded op d s imm :
  op ∈ move_ops → d ∈ xmm_regs → s ∈ xmm_regs →
  recorded xmm_analyse_32 4 (x_inst F_plain op d s imm) imm = true ∧
  recorded xmm_analyse_64 8 (x_inst F_plain op d s imm) imm = true.
Proof.
  intros Hop Hd Hs. assert (H : moved op d s = true).
  { apply (forallb_elem _ xmm_regs); [|done]. by apply (forallb_elem _ _ d (forallb_elem _ _ op all_moved Hop)). }
  apply andb_prop in H.
  assert (E : ∀ an w, recorded an w (x_inst F_plain op d s imm) imm = recorded an w (x_inst F_plain op d s 0) 0).
  { intros an w. unfold recorded. destruct (an _) as [[x b]|]; [|done].
    induction bytes16 as [|k l IH]; [done|]. simpl. by rewrite IH, moves_no_imm. }
  by rewrite !E.
Qed.

(** The byte-moving instructions of each form. *)
Definition byte_ops (fm : form) : list dt_x86_insn :=
  match fm with F_imm3 => imm3_ops | F_imm2 => imm2_ops | F_plain => move_ops end.

(** C27 For the byte-moving SSE instructions between registers (shuffles, PALIGNR, byte
    shifts, unpacks, moves), all 16 registers as destination and as source (the same one
    included) and every immediate, both analyses record at least the reads and dependences
    of upper bytes that the instruction has by its definition; the only exception is
    PSRLDQ by 1 to 15 bytes. *)
Theorem byte_moves_recorded fm op d s imm :
  op ∈ byte_ops fm → d ∈ xmm_regs → s ∈ xmm_regs → 0 ≤ imm < 256 →
  recorded xmm_analyse_32 4 (x_inst fm op d s imm) imm = negb (lost_shift op imm) ∧
  recorded xmm_analyse_64 8 (x_inst fm op d s imm) imm = negb (lost_shift op imm).
Proof.
  intros Hop Hd Hs Hi. destruct fm; cbn [byte_ops] in Hop.
  - replace (lost_shift op imm) with false by (symmetry; each_op Hop). by apply imm3_recorded.
  - by apply imm2_recorded.
  - replace (lost_shift op imm) with false; [by apply move_recorded|]. symmetry.
    apply (forallb_elem (λ op, negb (insn_eqb op dt_X86_INS_PSRLDQ)) move_ops op eq_refl), negb_true_iff in Hop.
    unfold lost_shift. by rewrite Hop.
Qed.

Lemma byte_moves_recorded_witness :
  recorded xmm_analyse_64 8
    (x_inst F_imm3 dt_X86_INS_SHUFPS dt_X86_REG_XMM9 dt_X86_REG_XMM3 0x4e) 0x4e = true.
Proof.
  refine (proj2 (byte_moves_recorded F_imm3 dt_X86_INS_SHUFPS dt_X86_REG_XMM9 dt_X86_REG_XMM3 0x4e _ _ _ _)).
  - right. left.
  - by apply (bool_decide_unpack _); vm_compute.
  - by apply (bool_decide_unpack _); vm_compute.
  - lia.
Defined.

(** C15 Both passes over a decoded unit return: no assertion fails, no array is
    read out of range and the loop over the blocks ends; every block keeps its
    instructions, and its live-out mask is the union of the live-in masks of its
    successors. *)
Theorem do_shbr_opt_returns tbs :
  unit_ok tbs → Forall tb_wf tbs →
  ∃ r32 r64, do_shbr_opt32 tbs = Some r32 ∧ do_shbr_opt64 tbs = Some r64 ∧
    ∀ r, r = r32 ∨ r = r64 →
      length r = length tbs ∧
      ∀ i tb', r !! i = Some tb' → ∃ tb, tbs !! i = Some tb ∧
        map info (ir1 tb') = map info (ir1 tb) ∧
        hb_out tb' = out_eq SHBR_XMM_ALL 0 (ins_of r) tb'.
Proof.
  intros Hu Hwf.
  destruct (do_shbr_opt_spec xmm_analyse_32 _ SHBR_CAN_OPT32 tbs Hu Hwf) as (r32 & H32 & L32 & S32).
  destruct (do_shbr_opt_spec xmm_analyse_64 _ SHBR_CAN_OPT64 tbs Hu Hwf) as (r64 & H64 & L64 & S64).
  exists r32, r64. split_and!; [done..|].
  intros r [-> | ->]; (split; [done|]); intros i tb' Hi;
    [destruct (S32 i tb' Hi) as (tb & l1 & Htb & Hr)|destruct (S64 i tb' Hi) as (tb & l1 & Htb & Hr)];
    (exists tb; split_and!; [done|by eapply shbr_result_info|apply Hr]).
Qed.

(** C3 The marks are sound along every path of a unit: if the recorded flags
    describe the instructions, code that leaves anything in the upper bits of the
    destinations of marked instructions ends in the same machine state as the
    reference code, and with the same upper bits where they are live at the end
    of the path.  [sem] is the behaviour of the instructions; for the 32-bit pass
    [ok] excludes sign extensions of a register into itself. *)
Theorem shbr_opt_sound {X} (sem : la_dt_insn → X → his → X * his) analyse ok fl
    `{!XmmAnalysis analyse ok} tbs tbs' i p l' x f x' g' :
  fl ≠ 0 → unit_ok tbs → Forall tb_wf tbs →
  (∀ i tb, tbs !! i = Some tb →
     Forall (λ i, ok (fresh i) ∧ has (hbr_flag i) fl = false) (ir1 tb)) →
  do_shbr_opt analyse fl tbs = Some tbs' →
  (∀ i tb', tbs' !! i = Some tb' → Forall (x_respects sem) (ir1 tb')) →
  walk tbs' i p l' → x_tgt sem fl l' (x, f) (x', g') →
  ∃ l, walk tbs i p l ∧ fst (hi_ref sem l (x, f)) = x' ∧
    ∀ tb', tbs' !! List.last p i = Some tb' →
      hi_agree (hb_out tb') (snd (hi_ref sem l (x, f))) g'.
Proof.
  intros Hfl Hu Hwf Hok Hopt Hresp Hw Ht.
  destruct (do_shbr_opt_spec analyse ok fl tbs Hu Hwf) as (r & Hr & _ & HS).
  assert (r = tbs') as -> by congruence.
  apply (shbr_walk_sound sem fl ok tbs tbs' i p l' x f f x' g'); try done.
  intros j tb' Hj. destruct (HS j tb' Hj) as (tb & l1 & Htb & Hsr). exists tb, l1.
  split_and!; [done..|]. specialize (Hresp j tb' Hj). rewrite (sr_marks _ _ _ _ _ _ Hsr) in Hresp.
  by eapply x_respects_unmark.
Qed.

(** ** Instructions whose flags are wrong *)

(** Whether instruction [k] of block [i] is marked. *)
Definition x_marked (fl : Z) (tbs : option (list TranslationBlock)) (i k : nat) : option bool :=
  l ← tbs; tb ← l !! i; ins ← ir1 tb !! k; Some (has (hbr_flag ins) fl).

Definition one_block (l : list IR1_INST) : list TranslationBlock :=
  [g_tb l IR1_TYPE_RET None None].

Definition addsd01 : IR1_INST :=
  x_inst F_plain dt_X86_INS_ADDSD dt_X86_REG_XMM0 dt_X86_REG_XMM1 0.
Lemma andb_negb2 a b : negb a && negb b = true → a = false ∧ b = false.
Proof. by destruct a, b. Qed.

(** C35 PSRLDQ shifts upper bytes of its destination down, but neither analysis
    records a read of the destination, for any shift count from 1 to 15; so an
    ADDSD before [psrldq xmm0, 8] is marked as free to lose the upper half of
    xmm0, the very bytes the shift moves into the lower half. *)
Theorem psrldq_read_lost :
  (∀ imm, 1 ≤ imm ≤ 15 →
     recorded xmm_analyse_32 4 (x_inst F_imm2 dt_X86_INS_PSRLDQ dt_X86_REG_XMM0
       dt_X86_REG_XMM0 imm) imm = false ∧
     recorded xmm_analyse_64 8 (x_inst F_imm2 dt_X86_INS_PSRLDQ dt_X86_REG_XMM0
       dt_X86_REG_XMM0 imm) imm = false) ∧
  moves dt_X86_INS_PSRLDQ 8 0 = FromDes 8 ∧
  x_marked SHBR_CAN_OPT64 (do_shbr_opt64 (one_block [addsd01;
    x_inst F_imm2 dt_X86_INS_PSRLDQ dt_X86_REG_XMM0 dt_X86_REG_XMM0 8])) 0 0 = Some true.
Proof.
  split; [|split; [reflexivity|vm_compute; reflexivity]]. intros imm Himm.
  apply andb_negb2, (forallb_range (λ imm,
    let i := x_inst F_imm2 dt_X86_INS_PSRLDQ dt_X86_REG_XMM0 dt_X86_REG_XMM0 imm in
    negb (recorded xmm_analyse_32 4 i imm) && negb (recorded xmm_analyse_64 8 i imm)) 1 15);
    [vm_compute; reflexivity|lia].
Qed.

(** ** Witnesses *)

(** [addsd xmm0, xmm1] jumping to a block that overwrites xmm0. *)
Definition x_unit : list TranslationBlock :=
  [g_tb [addsd01] IR1_TYPE_JUMP None (Some 1%nat);
   g_tb [x_inst F_plain dt_X86_INS_MOVAPS dt_X86_REG_XMM0 dt_X86_REG_XMM2 0]
     IR1_TYPE_RET None None].

Lemma x_unit_ok : unit_ok x_unit.
Proof.
  intros [|[|i]] tb; simpl; intros [= <-]; simpl; split_and!; try done; intros s [= <-]; lia.
Qed.

Lemma x_unit_wf : Forall tb_wf x_unit.
Proof. repeat constructor. Qed.

Lemma do_shbr_opt_returns_witness : ∃ r32 r64,
  do_shbr_opt32 x_unit = Some r32 ∧ do_shbr_opt64 x_unit = Some r64.
Proof.
  destruct (do_shbr_opt_returns x_unit x_unit_ok x_unit_wf) as (r32 & r64 & H32 & H64 & _).
  exists r32, r64. split; assumption.
Defined.

Definition x_unit_64 : list TranslationBlock :=
  Eval vm_compute in default [] (do_shbr_opt64 x_unit).

Lemma x_unit_64_eq : do_shbr_opt xmm_analyse_64 SHBR_CAN_OPT64 x_unit = Some x_unit_64.
Proof. vm_compute. reflexivity. Qed.

(** The run in which the marked ADDSD leaves 7 in the upper half of xmm0. *)
Lemma shbr_opt_sound_witness :
  x_marked SHBR_CAN_OPT64 (do_shbr_opt64 x_unit) 0 0 = Some true ∧
  ∃ l, walk x_unit 0 [1%nat] l ∧ fst (hi_ref sem_const l (0, λ _, 5)) = 2.
Proof.
  split; [vm_compute; reflexivity|].
  destruct (shbr_opt_sound sem_const xmm_analyse_64 (λ _, True) SHBR_CAN_OPT64
    x_unit x_unit_64 0 [1%nat] (ir1 (nth 0 x_unit_64 (g_tb [] IR1_TYPE_RET None None)) ++
      ir1 (nth 1 x_unit_64 (g_tb [] IR1_TYPE_RET None None))) 0 (λ _, 5) 2 (λ _, 0))
    as (l & Hw & Hx & _).
  - discriminate.
  - apply x_unit_ok.
  - apply x_unit_wf.
  - intros [|[|i]] tb; simpl; intros [= <-]; repeat constructor.
  - exact x_unit_64_eq.
  - intros [|[|i]] tb; simpl; intros [= <-]; constructor; try constructor; by split.
  - apply (walk_step _ 0 (nth 0 x_unit_64 (g_tb [] IR1_TYPE_RET None None)) 1 []);
      [reflexivity|reflexivity|]. apply walk_last. reflexivity.
  - eapply (x_cons sem_const _ _ _ 0 (λ _, 5) (λ r, if r =? 0 then 7 else 0)).
    + intros r [H|H]; [discriminate H|]. cbn [sem_const snd].
      destruct (Z.eqb_spec r 0) as [->|]; [by destruct H|reflexivity].
    + eapply (x_cons sem_const _ _ _ 1 _ (λ _, 0)); [intros; reflexivity|]. apply x_nil.
  - exists l. split; assumption.
Defined.
