(* ===== verification/LisaTable.v ===== *)
(** * The LoongArch instruction templates (inst_template.json, convert.py)

    [convert.py] turns the template into the opcode enumeration [IR2_OPCODE]
    (the position of an entry, counted from LISA_INVALID = 128) and into
    [lisa_format_table] (opcode word and operand fields of each entry).  The rows
    below are the entries of the template in order: name, opcode word and operand
    types; the opcode -1 of "ill" is the [uint32_t] 0xffffffff. *)

From stdpp Require Import base numbers list option strings.
From Stdlib Require Import ZArith.
From S2P Require Import Prelude.
Local Open Scope Z_scope.

Inductive GM_OPERAND_TYPE : Set :=
  | OPD_INVALID | FCC_CA | FCC_CD | FCC_CJ | IMM_CODE | IMM_CONDF | IMM_CONDH
  | IMM_CONDL | OPD_CSR | FPR_FA | OPD_FCSRH | OPD_FCSRL | FPR_FD | FPR_FJ | FPR_FK
  | IMM_HINTL | IMM_HINTS | IMM_I13 | IMM_IDXS | IMM_IDXM | IMM_IDXL | IMM_IDXLL
  | IMM_LEVEL | IMM_LSBD | IMM_LSBW | IMM_MODE | IMM_MSBD | IMM_MSBW | IMM_OFFS
  | IMM_OFFL | IMM_OFFLL | OPD_OPCACHE | IMM_OPX86 | IMM_PTR | GPR_RD | GPR_RJ | GPR_RK
  | IMM_SA2 | IMM_SA3 | SCR_SD | IMM_SEQ | IMM_SI10 | IMM_SI11 | IMM_SI12 | IMM_SI14
  | IMM_SI16 | IMM_SI20 | IMM_SI5 | IMM_SI8 | IMM_SI9 | SCR_SJ | IMM_UI1 | IMM_UI12
  | IMM_UI2 | IMM_UI3 | IMM_UI4 | IMM_UI5H | IMM_UI5L | IMM_UI6 | IMM_UI7 | IMM_UI8
  | FPR_VA | FPR_VD | FPR_VJ | FPR_VK | FPR_XA | FPR_XD | FPR_XJ | FPR_XK.

(** A row of the template. *)
Record template := row { t_name : string; t_opcode : Z; t_opnd : list GM_OPERAND_TYPE }.

Definition rows_0 : list template := [
  row "invalid" 0x0 [OPD_INVALID];
  row "label" 0x0 [OPD_INVALID];
  row "x86_inst" 0x0 [OPD_INVALID];
  row "accl" 0x0 [OPD_INVALID];
  row "align" 0x0 [OPD_INVALID];
  row "far_jump" 0x0 [OPD_INVALID];
  row "mov64" 0x0 [OPD_INVALID];
  row "mov32_sx" 0x0 [OPD_INVALID];
  row "mov32_zx" 0x0 [OPD_INVALID];
  row "add" 0x0 [OPD_INVALID];
  row "sub" 0x0 [OPD_INVALID];
  row "addi_addrx" 0x0 [OPD_INVALID];
  row "load_addrx" 0x0 [OPD_INVALID];
  row "store_addrx" 0x0 [OPD_INVALID];
  row "nop" 0x0 [OPD_INVALID];
  row "code" 0x0 [OPD_INVALID];
  row "data_li" 0x0 [OPD_INVALID];
  row "data_add" 0x0 [OPD_INVALID];
  row "inst_diff" 0x0 [OPD_INVALID];
  row "data_st" 0x0 [OPD_INVALID];
  row "data_st_rel_table" 0x0 [OPD_INVALID];
  row "profile" 0x0 [OPD_INVALID];
  row "pcaddi_relocate" 0x0 [OPD_INVALID];
  row "jump_epilogue" 0x0 [OPD_INVALID];
  row "pseudo_end" 0x0 [OPD_INVALID];
  row "gr2scr" 0x800 [SCR_SD; GPR_RJ];
  row "scr2gr" 0xc00 [GPR_RD; SCR_SJ];
  row "clo.w" 0x1000 [GPR_RD; GPR_RJ];
  row "clz.w" 0x1400 [GPR_RD; GPR_RJ];
  row "cto.w" 0x1800 [GPR_RD; GPR_RJ];
  row "ctz.w" 0x1c00 [GPR_RD; GPR_RJ];
  row "clo.d" 0x2000 [GPR_RD; GPR_RJ];
  row "clz.d" 0x2400 [GPR_RD; GPR_RJ];
  row "cto.d" 0x2800 [GPR_RD; GPR_RJ];
  row "ctz.d" 0x2c00 [GPR_RD; GPR_RJ];
  row "revb.2h" 0x3000 [GPR_RD; GPR_RJ];
  row "revb.4h" 0x3400 [GPR_RD; GPR_RJ];
  row "revb.2w" 0x3800 [GPR_RD; GPR_RJ];
  row "revb.d" 0x3c00 [GPR_RD; GPR_RJ];
  row "revh.2w" 0x4000 [GPR_RD; GPR_RJ];
  row "revh.d" 0x4400 [GPR_RD; GPR_RJ];
  row "bitrev.4b" 0x4800 [GPR_RD; GPR_RJ];
  row "bitrev.8b" 0x4c00 [GPR_RD; GPR_RJ];
  row "bitrev.w" 0x5000 [GPR_RD; GPR_RJ];
  row "bitrev.d" 0x5400 [GPR_RD; GPR_RJ];
  row "ext.w.h" 0x5800 [GPR_RD; GPR_RJ];
  row "ext.w.b" 0x5c00 [GPR_RD; GPR_RJ];
  row "rdtimel.w" 0x6000 [GPR_RD; GPR_RJ];
  row "rdtimeh.w" 0x6400 [GPR_RD; GPR_RJ];
  row "rdtime.d" 0x6800 [GPR_RD; GPR_RJ];
  row "cpucfg" 0x6c00 [GPR_RD; GPR_RJ];
  row "x86mttop" 0x7000 [IMM_PTR];
  row "x86mftop" 0x7400 [GPR_RD];
  row "x86loope" 0x7800 [GPR_RD; GPR_RJ];
  row "x86loopne" 0x7c00 [GPR_RD; GPR_RJ];
  row "x86inc.b" 0x8000 [GPR_RJ];
  row "x86inc.h" 0x8001 [GPR_RJ];
  row "x86inc.w" 0x8002 [GPR_RJ];
  row "x86inc.d" 0x8003 [GPR_RJ];
  row "x86dec.b" 0x8004 [GPR_RJ];
  row "x86dec.h" 0x8005 [GPR_RJ];
  row "x86dec.w" 0x8006 [GPR_RJ];
  row "x86dec.d" 0x8007 [GPR_RJ];
  row "x86settm" 0x8008 [];
  row "x86clrtm" 0x8028 [];
  row "x86inctop" 0x8009 [];
  row "x86dectop" 0x8029 [];
  row "asrtle.d" 0x10000 [GPR_RJ; GPR_RK];
  row "asrtgt.d" 0x18000 [GPR_RJ; GPR_RK];
  row "alsl.w" 0x40000 [GPR_RD; GPR_RJ; GPR_RK; IMM_SA2];
  row "alsl.wu" 0x60000 [GPR_RD; GPR_RJ; GPR_RK; IMM_SA2];
  row "bytepick.w" 0x80000 [GPR_RD; GPR_RJ; GPR_RK; IMM_SA2];
  row "bytepick.d" 0xc0000 [GPR_RD; GPR_RJ; GPR_RK; IMM_SA3];
  row "add.w" 0x100000 [GPR_RD; GPR_RJ; GPR_RK];
  row "add.d" 0x108000 [GPR_RD; GPR_RJ; GPR_RK];
  row "sub.w" 0x110000 [GPR_RD; GPR_RJ; GPR_RK];
  row "sub.d" 0x118000 [GPR_RD; GPR_RJ; GPR_RK];
  row "slt" 0x120000 [GPR_RD; GPR_RJ; GPR_RK];
  row "sltu" 0x128000 [GPR_RD; GPR_RJ; GPR_RK];
  row "maskeqz" 0x130000 [GPR_RD; GPR_RJ; GPR_RK];
  row "masknez" 0x138000 [GPR_RD; GPR_RJ; GPR_RK];
  row "nor" 0x140000 [GPR_RD; GPR_RJ; GPR_RK];
  row "and" 0x148000 [GPR_RD; GPR_RJ; GPR_RK];
  row "or" 0x150000 [GPR_RD; GPR_RJ; GPR_RK];
  row "xor" 0x158000 [GPR_RD; GPR_RJ; GPR_RK];
  row "orn" 0x160000 [GPR_RD; GPR_RJ; GPR_RK];
  row "andn" 0x168000 [GPR_RD; GPR_RJ; GPR_RK];
  row "sll.w" 0x170000 [GPR_RD; GPR_RJ; GPR_RK];
  row "srl.w" 0x178000 [GPR_RD; GPR_RJ; GPR_RK];
  row "sra.w" 0x180000 [GPR_RD; GPR_RJ; GPR_RK];
  row "sll.d" 0x188000 [GPR_RD; GPR_RJ; GPR_RK];
  row "srl.d" 0x190000 [GPR_RD; GPR_RJ; GPR_RK];
  row "sra.d" 0x198000 [GPR_RD; GPR_RJ; GPR_RK];
  row "rotr.b" 0x1a0000 [GPR_RD; GPR_RJ; GPR_RK];
  row "rotr.h" 0x1a8000 [GPR_RD; GPR_RJ; GPR_RK];
  row "rotr.w" 0x1b0000 [GPR_RD; GPR_RJ; GPR_RK];
  row "rotr.d" 0x1b8000 [GPR_RD; GPR_RJ; GPR_RK];
  row "mul.w" 0x1c0000 [GPR_RD; GPR_RJ; GPR_RK];
  row "mulh.w" 0x1c8000 [GPR_RD; GPR_RJ; GPR_RK];
  row "mulh.wu" 0x1d0000 [GPR_RD; GPR_RJ; GPR_RK];
  row "mul.d" 0x1d8000 [GPR_RD; GPR_RJ; GPR_RK];
  row "mulh.d" 0x1e0000 [GPR_RD; GPR_RJ; GPR_RK];
  row "mulh.du" 0x1e8000 [GPR_RD; GPR_RJ; GPR_RK];
  row "mulw.d.w" 0x1f0000 [GPR_RD; GPR_RJ; GPR_RK];
  row "mulw.d.wu" 0x1f8000 [GPR_RD; GPR_RJ; GPR_RK];
  row "div.w" 0x200000 [GPR_RD; GPR_RJ; GPR_RK];
  row "mod.w" 0x208000 [GPR_RD; GPR_RJ; GPR_RK];
  row "div.wu" 0x210000 [GPR_RD; GPR_RJ; GPR_RK];
  row "mod.wu" 0x218000 [GPR_RD; GPR_RJ; GPR_RK];
  row "div.d" 0x220000 [GPR_RD; GPR_RJ; GPR_RK];
  row "mod.d" 0x228000 [GPR_RD; GPR_RJ; GPR_RK];
  row "div.du" 0x230000 [GPR_RD; GPR_RJ; GPR_RK];
  row "mod.du" 0x238000 [GPR_RD; GPR_RJ; GPR_RK];
  row "crc.w.b.w" 0x240000 [GPR_RD; GPR_RJ; GPR_RK];
  row "crc.w.h.w" 0x248000 [GPR_RD; GPR_RJ; GPR_RK];
  row "crc.w.w.w" 0x250000 [GPR_RD; GPR_RJ; GPR_RK];
  row "crc.w.d.w" 0x258000 [GPR_RD; GPR_RJ; GPR_RK];
  row "crcc.w.b.w" 0x260000 [GPR_RD; GPR_RJ; GPR_RK];
  row "crcc.w.h.w" 0x268000 [GPR_RD; GPR_RJ; GPR_RK];
  row "crcc.w.w.w" 0x270000 [GPR_RD; GPR_RJ; GPR_RK];
  row "crcc.w.d.w" 0x278000 [GPR_RD; GPR_RJ; GPR_RK];
  row "addu12i.w" 0x290000 [GPR_RD; GPR_RJ; IMM_SI5];
  row "addu12i.d" 0x298000 [GPR_RD; GPR_RJ; IMM_SI5];
  row "break" 0x2a0000 [IMM_CODE];
  row "dbgcall" 0x2a8000 [IMM_CODE];
  row "syscall" 0x2b0000 [IMM_CODE];
  row "hypcall" 0x2b8000 [IMM_CODE];
  row "alsl.d" 0x2c0000 [GPR_RD; GPR_RJ; GPR_RK; IMM_SA2];
  row "adc.b" 0x300000 [GPR_RD; GPR_RJ; GPR_RK];
  row "adc.h" 0x308000 [GPR_RD; GPR_RJ; GPR_RK];
  row "adc.w" 0x310000 [GPR_RD; GPR_RJ; GPR_RK];
  row "adc.d" 0x318000 [GPR_RD; GPR_RJ; GPR_RK];
  row "sbc.b" 0x320000 [GPR_RD; GPR_RJ; GPR_RK];
  row "sbc.h" 0x328000 [GPR_RD; GPR_RJ; GPR_RK];
  row "sbc.w" 0x330000 [GPR_RD; GPR_RJ; GPR_RK];
  row "sbc.d" 0x338000 [GPR_RD; GPR_RJ; GPR_RK];
  row "rcr.b" 0x340000 [GPR_RD; GPR_RJ; GPR_RK];
  row "rcr.h" 0x348000 [GPR_RD; GPR_RJ; GPR_RK];
  row "rcr.w" 0x350000 [GPR_RD; GPR_RJ; GPR_RK];
  row "rcr.d" 0x358000 [GPR_RD; GPR_RJ; GPR_RK];
  row "armmove" 0x364000 [GPR_RD; GPR_RJ; IMM_CONDH];
  row "setx86j" 0x368000 [GPR_RD; IMM_CONDH];
  row "setarmj" 0x36c000 [GPR_RD; IMM_CONDH];
  row "armadd.w" 0x370010 [GPR_RJ; GPR_RK; IMM_CONDL];
  row "armsub.w" 0x378010 [GPR_RJ; GPR_RK; IMM_CONDL];
  row "armadc.w" 0x380010 [GPR_RJ; GPR_RK; IMM_CONDL];
  row "armsbc.w" 0x388010 [GPR_RJ; GPR_RK; IMM_CONDL];
  row "armand.w" 0x390010 [GPR_RJ; GPR_RK; IMM_CONDL];
  row "armor.w" 0x398010 [GPR_RJ; GPR_RK; IMM_CONDL];
  row "armxor.w" 0x3a0010 [GPR_RJ; GPR_RK; IMM_CONDL]].

Definition rows_1 : list template := [
  row "armsll.w" 0x3a8010 [GPR_RJ; GPR_RK; IMM_CONDL];
  row "armsrl.w" 0x3b0010 [GPR_RJ; GPR_RK; IMM_CONDL];
  row "armsra.w" 0x3b8010 [GPR_RJ; GPR_RK; IMM_CONDL];
  row "armrotr.w" 0x3c0010 [GPR_RJ; GPR_RK; IMM_CONDL];
  row "armslli.w" 0x3c8010 [GPR_RJ; IMM_UI5L; IMM_CONDL];
  row "armsrli.w" 0x3d0010 [GPR_RJ; IMM_UI5L; IMM_CONDL];
  row "armsrai.w" 0x3d8010 [GPR_RJ; IMM_UI5L; IMM_CONDL];
  row "armrotri.w" 0x3e0010 [GPR_RJ; IMM_UI5L; IMM_CONDL];
  row "x86mul.b" 0x3e8000 [GPR_RJ; GPR_RK];
  row "x86mul.h" 0x3e8001 [GPR_RJ; GPR_RK];
  row "x86mul.w" 0x3e8002 [GPR_RJ; GPR_RK];
  row "x86mul.d" 0x3e8003 [GPR_RJ; GPR_RK];
  row "x86mul.bu" 0x3e8004 [GPR_RJ; GPR_RK];
  row "x86mul.hu" 0x3e8005 [GPR_RJ; GPR_RK];
  row "x86mul.wu" 0x3e8006 [GPR_RJ; GPR_RK];
  row "x86mul.du" 0x3e8007 [GPR_RJ; GPR_RK];
  row "x86add.wu" 0x3f0000 [GPR_RJ; GPR_RK];
  row "x86add.du" 0x3f0001 [GPR_RJ; GPR_RK];
  row "x86sub.wu" 0x3f0002 [GPR_RJ; GPR_RK];
  row "x86sub.du" 0x3f0003 [GPR_RJ; GPR_RK];
  row "x86add.b" 0x3f0004 [GPR_RJ; GPR_RK];
  row "x86add.h" 0x3f0005 [GPR_RJ; GPR_RK];
  row "x86add.w" 0x3f0006 [GPR_RJ; GPR_RK];
  row "x86add.d" 0x3f0007 [GPR_RJ; GPR_RK];
  row "x86sub.b" 0x3f0008 [GPR_RJ; GPR_RK];
  row "x86sub.h" 0x3f0009 [GPR_RJ; GPR_RK];
  row "x86sub.w" 0x3f000a [GPR_RJ; GPR_RK];
  row "x86sub.d" 0x3f000b [GPR_RJ; GPR_RK];
  row "x86adc.b" 0x3f000c [GPR_RJ; GPR_RK];
  row "x86adc.h" 0x3f000d [GPR_RJ; GPR_RK];
  row "x86adc.w" 0x3f000e [GPR_RJ; GPR_RK];
  row "x86adc.d" 0x3f000f [GPR_RJ; GPR_RK];
  row "x86sbc.b" 0x3f0010 [GPR_RJ; GPR_RK];
  row "x86sbc.h" 0x3f0011 [GPR_RJ; GPR_RK];
  row "x86sbc.w" 0x3f0012 [GPR_RJ; GPR_RK];
  row "x86sbc.d" 0x3f0013 [GPR_RJ; GPR_RK];
  row "x86sll.b" 0x3f0014 [GPR_RJ; GPR_RK];
  row "x86sll.h" 0x3f0015 [GPR_RJ; GPR_RK];
  row "x86sll.w" 0x3f0016 [GPR_RJ; GPR_RK];
  row "x86sll.d" 0x3f0017 [GPR_RJ; GPR_RK];
  row "x86srl.b" 0x3f0018 [GPR_RJ; GPR_RK];
  row "x86srl.h" 0x3f0019 [GPR_RJ; GPR_RK];
  row "x86srl.w" 0x3f001a [GPR_RJ; GPR_RK];
  row "x86srl.d" 0x3f001b [GPR_RJ; GPR_RK];
  row "x86sra.b" 0x3f001c [GPR_RJ; GPR_RK];
  row "x86sra.h" 0x3f001d [GPR_RJ; GPR_RK];
  row "x86sra.w" 0x3f001e [GPR_RJ; GPR_RK];
  row "x86sra.d" 0x3f001f [GPR_RJ; GPR_RK];
  row "x86rotr.b" 0x3f8000 [GPR_RJ; GPR_RK];
  row "x86rotr.h" 0x3f8001 [GPR_RJ; GPR_RK];
  row "x86rotr.d" 0x3f8002 [GPR_RJ; GPR_RK];
  row "x86rotr.w" 0x3f8003 [GPR_RJ; GPR_RK];
  row "x86rotl.b" 0x3f8004 [GPR_RJ; GPR_RK];
  row "x86rotl.h" 0x3f8005 [GPR_RJ; GPR_RK];
  row "x86rotl.w" 0x3f8006 [GPR_RJ; GPR_RK];
  row "x86rotl.d" 0x3f8007 [GPR_RJ; GPR_RK];
  row "x86rcr.b" 0x3f8008 [GPR_RJ; GPR_RK];
  row "x86rcr.h" 0x3f8009 [GPR_RJ; GPR_RK];
  row "x86rcr.w" 0x3f800a [GPR_RJ; GPR_RK];
  row "x86rcr.d" 0x3f800b [GPR_RJ; GPR_RK];
  row "x86rcl.b" 0x3f800c [GPR_RJ; GPR_RK];
  row "x86rcl.h" 0x3f800d [GPR_RJ; GPR_RK];
  row "x86rcl.w" 0x3f800e [GPR_RJ; GPR_RK];
  row "x86rcl.d" 0x3f800f [GPR_RJ; GPR_RK];
  row "x86and.b" 0x3f8010 [GPR_RJ; GPR_RK];
  row "x86and.h" 0x3f8011 [GPR_RJ; GPR_RK];
  row "x86and.w" 0x3f8012 [GPR_RJ; GPR_RK];
  row "x86and.d" 0x3f8013 [GPR_RJ; GPR_RK];
  row "x86or.b" 0x3f8014 [GPR_RJ; GPR_RK];
  row "x86or.h" 0x3f8015 [GPR_RJ; GPR_RK];
  row "x86or.w" 0x3f8016 [GPR_RJ; GPR_RK];
  row "x86or.d" 0x3f8017 [GPR_RJ; GPR_RK];
  row "x86xor.b" 0x3f8018 [GPR_RJ; GPR_RK];
  row "x86xor.h" 0x3f8019 [GPR_RJ; GPR_RK];
  row "x86xor.w" 0x3f801a [GPR_RJ; GPR_RK];
  row "x86xor.d" 0x3f801b [GPR_RJ; GPR_RK];
  row "armnot.w" 0x3fc01c [GPR_RJ; IMM_CONDH];
  row "armmov.w" 0x3fc01d [GPR_RJ; IMM_CONDH];
  row "armmov.d" 0x3fc01e [GPR_RJ; IMM_CONDH];
  row "armrrx.w" 0x3fc01f [GPR_RJ; IMM_CONDH];
  row "slli.w" 0x408000 [GPR_RD; GPR_RJ; IMM_UI5L];
  row "slli.d" 0x410000 [GPR_RD; GPR_RJ; IMM_UI6];
  row "srli.w" 0x448000 [GPR_RD; GPR_RJ; IMM_UI5L];
  row "srli.d" 0x450000 [GPR_RD; GPR_RJ; IMM_UI6];
  row "srai.w" 0x488000 [GPR_RD; GPR_RJ; IMM_UI5L];
  row "srai.d" 0x490000 [GPR_RD; GPR_RJ; IMM_UI6];
  row "rotri.b" 0x4c2000 [GPR_RD; GPR_RJ; IMM_UI3];
  row "rotri.h" 0x4c4000 [GPR_RD; GPR_RJ; IMM_UI4];
  row "rotri.w" 0x4c8000 [GPR_RD; GPR_RJ; IMM_UI5L];
  row "rotri.d" 0x4d0000 [GPR_RD; GPR_RJ; IMM_UI6];
  row "rcri.b" 0x502000 [GPR_RD; GPR_RJ; IMM_UI3];
  row "rcri.h" 0x504000 [GPR_RD; GPR_RJ; IMM_UI4];
  row "rcri.w" 0x508000 [GPR_RD; GPR_RJ; IMM_UI5L];
  row "rcri.d" 0x510000 [GPR_RD; GPR_RJ; IMM_UI6];
  row "x86slli.b" 0x542000 [GPR_RJ; IMM_UI3];
  row "x86slli.h" 0x544001 [GPR_RJ; IMM_UI4];
  row "x86slli.w" 0x548002 [GPR_RJ; IMM_UI5L];
  row "x86slli.d" 0x550003 [GPR_RJ; IMM_UI6];
  row "x86srli.b" 0x542004 [GPR_RJ; IMM_UI3];
  row "x86srli.h" 0x544005 [GPR_RJ; IMM_UI4];
  row "x86srli.w" 0x548006 [GPR_RJ; IMM_UI5L];
  row "x86srli.d" 0x550007 [GPR_RJ; IMM_UI6];
  row "x86srai.b" 0x542008 [GPR_RJ; IMM_UI3];
  row "x86srai.h" 0x544009 [GPR_RJ; IMM_UI4];
  row "x86srai.w" 0x54800a [GPR_RJ; IMM_UI5L];
  row "x86srai.d" 0x55000b [GPR_RJ; IMM_UI6];
  row "x86rotri.b" 0x54200c [GPR_RJ; IMM_UI3];
  row "x86rotri.h" 0x54400d [GPR_RJ; IMM_UI4];
  row "x86rotri.w" 0x54800e [GPR_RJ; IMM_UI5L];
  row "x86rotri.d" 0x55000f [GPR_RJ; IMM_UI6];
  row "x86rcri.b" 0x542010 [GPR_RJ; IMM_UI3];
  row "x86rcri.h" 0x544011 [GPR_RJ; IMM_UI4];
  row "x86rcri.w" 0x548012 [GPR_RJ; IMM_UI5L];
  row "x86rcri.d" 0x550013 [GPR_RJ; IMM_UI6];
  row "x86rotli.b" 0x542014 [GPR_RJ; IMM_UI3];
  row "x86rotli.h" 0x544015 [GPR_RJ; IMM_UI4];
  row "x86rotli.w" 0x548016 [GPR_RJ; IMM_UI5L];
  row "x86rotli.d" 0x550017 [GPR_RJ; IMM_UI6];
  row "x86rcli.b" 0x542018 [GPR_RJ; IMM_UI3];
  row "x86rcli.h" 0x544019 [GPR_RJ; IMM_UI4];
  row "x86rcli.w" 0x54801a [GPR_RJ; IMM_UI5L];
  row "x86rcli.d" 0x55001b [GPR_RJ; IMM_UI6];
  row "x86settag" 0x580000 [GPR_RD; IMM_OPX86; IMM_UI8];
  row "x86mfflag" 0x5c0000 [GPR_RD; IMM_UI8];
  row "x86mtflag" 0x5c0020 [GPR_RD; IMM_UI8];
  row "armmfflag" 0x5c0040 [GPR_RD; IMM_UI8];
  row "armmtflag" 0x5c0060 [GPR_RD; IMM_UI8];
  row "bstrins.w" 0x600000 [GPR_RD; GPR_RJ; IMM_MSBW; IMM_LSBW];
  row "bstrpick.w" 0x608000 [GPR_RD; GPR_RJ; IMM_MSBW; IMM_LSBW];
  row "bstrins.d" 0x800000 [GPR_RD; GPR_RJ; IMM_MSBD; IMM_LSBD];
  row "bstrpick.d" 0xc00000 [GPR_RD; GPR_RJ; IMM_MSBD; IMM_LSBD];
  row "slti" 0x2000000 [GPR_RD; GPR_RJ; IMM_SI12];
  row "sltui" 0x2400000 [GPR_RD; GPR_RJ; IMM_SI12];
  row "addi.w" 0x2800000 [GPR_RD; GPR_RJ; IMM_SI12];
  row "addi.d" 0x2c00000 [GPR_RD; GPR_RJ; IMM_SI12];
  row "lu52i.d" 0x3000000 [GPR_RD; GPR_RJ; IMM_SI12];
  row "andi" 0x3400000 [GPR_RD; GPR_RJ; IMM_UI12];
  row "ori" 0x3800000 [GPR_RD; GPR_RJ; IMM_UI12];
  row "xori" 0x3c00000 [GPR_RD; GPR_RJ; IMM_UI12];
  row "addu16i.d" 0x10000000 [GPR_RD; GPR_RJ; IMM_SI16];
  row "lu12i.w" 0x14000000 [GPR_RD; IMM_SI20];
  row "lu32i.d" 0x16000000 [GPR_RD; IMM_SI20];
  row "pcaddi" 0x18000000 [GPR_RD; IMM_SI20];
  row "pcalau12i" 0x1a000000 [GPR_RD; IMM_SI20];
  row "pcaddu12i" 0x1c000000 [GPR_RD; IMM_SI20];
  row "pcaddu18i" 0x1e000000 [GPR_RD; IMM_SI20];
  row "llacq.w" 0x38578000 [GPR_RD; GPR_RJ];
  row "screl.w" 0x38578400 [GPR_RD; GPR_RJ];
  row "llacq.d" 0x38578800 [GPR_RD; GPR_RJ];
  row "screl.d" 0x38578c00 [GPR_RD; GPR_RJ]].

Definition rows_2 : list template := [
  row "ll.w" 0x20000000 [GPR_RD; GPR_RJ; IMM_SI14];
  row "sc.w" 0x21000000 [GPR_RD; GPR_RJ; IMM_SI14];
  row "ll.d" 0x22000000 [GPR_RD; GPR_RJ; IMM_SI14];
  row "sc.d" 0x23000000 [GPR_RD; GPR_RJ; IMM_SI14];
  row "sc.q" 0x38570000 [GPR_RD; GPR_RK; GPR_RJ];
  row "ldptr.w" 0x24000000 [GPR_RD; GPR_RJ; IMM_SI14];
  row "stptr.w" 0x25000000 [GPR_RD; GPR_RJ; IMM_SI14];
  row "ldptr.d" 0x26000000 [GPR_RD; GPR_RJ; IMM_SI14];
  row "stptr.d" 0x27000000 [GPR_RD; GPR_RJ; IMM_SI14];
  row "ld.b" 0x28000000 [GPR_RD; GPR_RJ; IMM_SI12];
  row "ld.h" 0x28400000 [GPR_RD; GPR_RJ; IMM_SI12];
  row "ld.w" 0x28800000 [GPR_RD; GPR_RJ; IMM_SI12];
  row "ld.d" 0x28c00000 [GPR_RD; GPR_RJ; IMM_SI12];
  row "st.b" 0x29000000 [GPR_RD; GPR_RJ; IMM_SI12];
  row "st.h" 0x29400000 [GPR_RD; GPR_RJ; IMM_SI12];
  row "st.w" 0x29800000 [GPR_RD; GPR_RJ; IMM_SI12];
  row "st.d" 0x29c00000 [GPR_RD; GPR_RJ; IMM_SI12];
  row "ld.bu" 0x2a000000 [GPR_RD; GPR_RJ; IMM_SI12];
  row "ld.hu" 0x2a400000 [GPR_RD; GPR_RJ; IMM_SI12];
  row "ld.wu" 0x2a800000 [GPR_RD; GPR_RJ; IMM_SI12];
  row "preld" 0x2ac00000 [IMM_HINTS; GPR_RJ; IMM_SI12];
  row "fld.s" 0x2b000000 [FPR_FD; GPR_RJ; IMM_SI12];
  row "fst.s" 0x2b400000 [FPR_FD; GPR_RJ; IMM_SI12];
  row "fld.d" 0x2b800000 [FPR_FD; GPR_RJ; IMM_SI12];
  row "fst.d" 0x2bc00000 [FPR_FD; GPR_RJ; IMM_SI12];
  row "vld" 0x2c000000 [FPR_VD; GPR_RJ; IMM_SI12];
  row "vst" 0x2c400000 [FPR_VD; GPR_RJ; IMM_SI12];
  row "xvld" 0x2c800000 [FPR_XD; GPR_RJ; IMM_SI12];
  row "xvst" 0x2cc00000 [FPR_XD; GPR_RJ; IMM_SI12];
  row "ldl.w" 0x2e000000 [GPR_RD; GPR_RJ; IMM_SI12];
  row "ldr.w" 0x2e400000 [GPR_RD; GPR_RJ; IMM_SI12];
  row "ldl.d" 0x2e800000 [GPR_RD; GPR_RJ; IMM_SI12];
  row "ldr.d" 0x2ec00000 [GPR_RD; GPR_RJ; IMM_SI12];
  row "stl.w" 0x2f000000 [GPR_RD; GPR_RJ; IMM_SI12];
  row "str.w" 0x2f400000 [GPR_RD; GPR_RJ; IMM_SI12];
  row "stl.d" 0x2f800000 [GPR_RD; GPR_RJ; IMM_SI12];
  row "str.d" 0x2fc00000 [GPR_RD; GPR_RJ; IMM_SI12];
  row "vldrepl.d" 0x30100000 [FPR_VD; GPR_RJ; IMM_SI9];
  row "vldrepl.w" 0x30200000 [FPR_VD; GPR_RJ; IMM_SI10];
  row "vldrepl.h" 0x30400000 [FPR_VD; GPR_RJ; IMM_SI11];
  row "vldrepl.b" 0x30800000 [FPR_VD; GPR_RJ; IMM_SI12];
  row "vstelm.d" 0x31100000 [FPR_VD; GPR_RJ; IMM_SI8; IMM_IDXS];
  row "vstelm.w" 0x31200000 [FPR_VD; GPR_RJ; IMM_SI8; IMM_IDXM];
  row "vstelm.h" 0x31400000 [FPR_VD; GPR_RJ; IMM_SI8; IMM_IDXL];
  row "vstelm.b" 0x31800000 [FPR_VD; GPR_RJ; IMM_SI8; IMM_IDXLL];
  row "xvldrepl.d" 0x32100000 [FPR_XD; GPR_RJ; IMM_SI9];
  row "xvldrepl.w" 0x32200000 [FPR_XD; GPR_RJ; IMM_SI10];
  row "xvldrepl.h" 0x32400000 [FPR_XD; GPR_RJ; IMM_SI11];
  row "xvldrepl.b" 0x32800000 [FPR_XD; GPR_RJ; IMM_SI12];
  row "xvstelm.d" 0x33100000 [FPR_XD; GPR_RJ; IMM_SI8; IMM_IDXS];
  row "xvstelm.w" 0x33200000 [FPR_XD; GPR_RJ; IMM_SI8; IMM_IDXM];
  row "xvstelm.h" 0x33400000 [FPR_XD; GPR_RJ; IMM_SI8; IMM_IDXL];
  row "xvstelm.b" 0x33800000 [FPR_XD; GPR_RJ; IMM_SI8; IMM_IDXLL];
  row "ldx.b" 0x38000000 [GPR_RD; GPR_RJ; GPR_RK];
  row "ldx.h" 0x38040000 [GPR_RD; GPR_RJ; GPR_RK];
  row "ldx.w" 0x38080000 [GPR_RD; GPR_RJ; GPR_RK];
  row "ldx.d" 0x380c0000 [GPR_RD; GPR_RJ; GPR_RK];
  row "stx.b" 0x38100000 [GPR_RD; GPR_RJ; GPR_RK];
  row "stx.h" 0x38140000 [GPR_RD; GPR_RJ; GPR_RK];
  row "stx.w" 0x38180000 [GPR_RD; GPR_RJ; GPR_RK];
  row "stx.d" 0x381c0000 [GPR_RD; GPR_RJ; GPR_RK];
  row "ldx.bu" 0x38200000 [GPR_RD; GPR_RJ; GPR_RK];
  row "ldx.hu" 0x38240000 [GPR_RD; GPR_RJ; GPR_RK];
  row "ldx.wu" 0x38280000 [GPR_RD; GPR_RJ; GPR_RK];
  row "preldx" 0x382c0000 [IMM_HINTS; GPR_RJ; GPR_RK];
  row "fldx.s" 0x38300000 [FPR_FD; GPR_RJ; GPR_RK];
  row "fldx.d" 0x38340000 [FPR_FD; GPR_RJ; GPR_RK];
  row "fstx.s" 0x38380000 [FPR_FD; GPR_RJ; GPR_RK];
  row "fstx.d" 0x383c0000 [FPR_FD; GPR_RJ; GPR_RK];
  row "vldx" 0x38400000 [FPR_VD; GPR_RJ; GPR_RK];
  row "vstx" 0x38440000 [FPR_VD; GPR_RJ; GPR_RK];
  row "xvldx" 0x38480000 [FPR_XD; GPR_RJ; GPR_RK];
  row "xvstx" 0x384c0000 [FPR_XD; GPR_RJ; GPR_RK];
  row "amcas.b" 0x38580000 [GPR_RD; GPR_RK; GPR_RJ];
  row "amcas.h" 0x38588000 [GPR_RD; GPR_RK; GPR_RJ];
  row "amcas.w" 0x38590000 [GPR_RD; GPR_RK; GPR_RJ];
  row "amcas.d" 0x38598000 [GPR_RD; GPR_RK; GPR_RJ];
  row "amcas.db.b" 0x385a0000 [GPR_RD; GPR_RK; GPR_RJ];
  row "amcas.db.h" 0x385a8000 [GPR_RD; GPR_RK; GPR_RJ];
  row "amcas.db.w" 0x385b0000 [GPR_RD; GPR_RK; GPR_RJ];
  row "amcas.db.d" 0x385b8000 [GPR_RD; GPR_RK; GPR_RJ];
  row "amswap.b" 0x385c0000 [GPR_RD; GPR_RK; GPR_RJ];
  row "amswap.h" 0x385c8000 [GPR_RD; GPR_RK; GPR_RJ];
  row "amswap.w" 0x38600000 [GPR_RD; GPR_RK; GPR_RJ];
  row "amswap.d" 0x38608000 [GPR_RD; GPR_RK; GPR_RJ];
  row "amadd.b" 0x385d0000 [GPR_RD; GPR_RK; GPR_RJ];
  row "amadd.h" 0x385d8000 [GPR_RD; GPR_RK; GPR_RJ];
  row "amadd.w" 0x38610000 [GPR_RD; GPR_RK; GPR_RJ];
  row "amadd.d" 0x38618000 [GPR_RD; GPR_RK; GPR_RJ];
  row "amand.w" 0x38620000 [GPR_RD; GPR_RK; GPR_RJ];
  row "amand.d" 0x38628000 [GPR_RD; GPR_RK; GPR_RJ];
  row "amor.w" 0x38630000 [GPR_RD; GPR_RK; GPR_RJ];
  row "amor.d" 0x38638000 [GPR_RD; GPR_RK; GPR_RJ];
  row "amxor.w" 0x38640000 [GPR_RD; GPR_RK; GPR_RJ];
  row "amxor.d" 0x38648000 [GPR_RD; GPR_RK; GPR_RJ];
  row "ammax.w" 0x38650000 [GPR_RD; GPR_RK; GPR_RJ];
  row "ammax.d" 0x38658000 [GPR_RD; GPR_RK; GPR_RJ];
  row "ammin.w" 0x38660000 [GPR_RD; GPR_RK; GPR_RJ];
  row "ammin.d" 0x38668000 [GPR_RD; GPR_RK; GPR_RJ];
  row "ammax.wu" 0x38670000 [GPR_RD; GPR_RK; GPR_RJ];
  row "ammax.du" 0x38678000 [GPR_RD; GPR_RK; GPR_RJ];
  row "ammin.wu" 0x38680000 [GPR_RD; GPR_RK; GPR_RJ];
  row "ammin.du" 0x38688000 [GPR_RD; GPR_RK; GPR_RJ];
  row "amswap.db.b" 0x385e0000 [GPR_RD; GPR_RK; GPR_RJ];
  row "amswap.db.h" 0x385e8000 [GPR_RD; GPR_RK; GPR_RJ];
  row "amswap.db.w" 0x38690000 [GPR_RD; GPR_RK; GPR_RJ];
  row "amswap.db.d" 0x38698000 [GPR_RD; GPR_RK; GPR_RJ];
  row "amadd.db.b" 0x385f0000 [GPR_RD; GPR_RK; GPR_RJ];
  row "amadd.db.h" 0x385f8000 [GPR_RD; GPR_RK; GPR_RJ];
  row "amadd.db.w" 0x386a0000 [GPR_RD; GPR_RK; GPR_RJ];
  row "amadd.db.d" 0x386a8000 [GPR_RD; GPR_RK; GPR_RJ];
  row "amand.db.w" 0x386b0000 [GPR_RD; GPR_RK; GPR_RJ];
  row "amand.db.d" 0x386b8000 [GPR_RD; GPR_RK; GPR_RJ];
  row "amor.db.w" 0x386c0000 [GPR_RD; GPR_RK; GPR_RJ];
  row "amor.db.d" 0x386c8000 [GPR_RD; GPR_RK; GPR_RJ];
  row "amxor.db.w" 0x386d0000 [GPR_RD; GPR_RK; GPR_RJ];
  row "amxor.db.d" 0x386d8000 [GPR_RD; GPR_RK; GPR_RJ];
  row "ammax.db.w" 0x386e0000 [GPR_RD; GPR_RK; GPR_RJ];
  row "ammax.db.d" 0x386e8000 [GPR_RD; GPR_RK; GPR_RJ];
  row "ammin.db.w" 0x386f0000 [GPR_RD; GPR_RK; GPR_RJ];
  row "ammin.db.d" 0x386f8000 [GPR_RD; GPR_RK; GPR_RJ];
  row "ammax.db.wu" 0x38700000 [GPR_RD; GPR_RK; GPR_RJ];
  row "ammax.db.du" 0x38708000 [GPR_RD; GPR_RK; GPR_RJ];
  row "ammin.db.wu" 0x38710000 [GPR_RD; GPR_RK; GPR_RJ];
  row "ammin.db.du" 0x38718000 [GPR_RD; GPR_RK; GPR_RJ];
  row "dbar" 0x38720000 [IMM_HINTL];
  row "ibar" 0x38728000 [IMM_HINTL];
  row "fldgt.s" 0x38740000 [FPR_FD; GPR_RJ; GPR_RK];
  row "fldgt.d" 0x38748000 [FPR_FD; GPR_RJ; GPR_RK];
  row "fldle.s" 0x38750000 [FPR_FD; GPR_RJ; GPR_RK];
  row "fldle.d" 0x38758000 [FPR_FD; GPR_RJ; GPR_RK];
  row "fstgt.s" 0x38760000 [FPR_FD; GPR_RJ; GPR_RK];
  row "fstgt.d" 0x38768000 [FPR_FD; GPR_RJ; GPR_RK];
  row "fstle.s" 0x38770000 [FPR_FD; GPR_RJ; GPR_RK];
  row "fstle.d" 0x38778000 [FPR_FD; GPR_RJ; GPR_RK];
  row "ldgt.b" 0x38780000 [GPR_RD; GPR_RJ; GPR_RK];
  row "ldgt.h" 0x38788000 [GPR_RD; GPR_RJ; GPR_RK];
  row "ldgt.w" 0x38790000 [GPR_RD; GPR_RJ; GPR_RK];
  row "ldgt.d" 0x38798000 [GPR_RD; GPR_RJ; GPR_RK];
  row "ldle.b" 0x387a0000 [GPR_RD; GPR_RJ; GPR_RK];
  row "ldle.h" 0x387a8000 [GPR_RD; GPR_RJ; GPR_RK];
  row "ldle.w" 0x387b0000 [GPR_RD; GPR_RJ; GPR_RK];
  row "ldle.d" 0x387b8000 [GPR_RD; GPR_RJ; GPR_RK];
  row "stgt.b" 0x387c0000 [GPR_RD; GPR_RJ; GPR_RK];
  row "stgt.h" 0x387c8000 [GPR_RD; GPR_RJ; GPR_RK];
  row "stgt.w" 0x387d0000 [GPR_RD; GPR_RJ; GPR_RK];
  row "stgt.d" 0x387d8000 [GPR_RD; GPR_RJ; GPR_RK];
  row "stle.b" 0x387e0000 [GPR_RD; GPR_RJ; GPR_RK];
  row "stle.h" 0x387e8000 [GPR_RD; GPR_RJ; GPR_RK];
  row "stle.w" 0x387f0000 [GPR_RD; GPR_RJ; GPR_RK]].

Definition rows_3 : list template := [
  row "stle.d" 0x387f8000 [GPR_RD; GPR_RJ; GPR_RK];
  row "beqz" 0x40000000 [GPR_RJ; IMM_OFFL];
  row "bnez" 0x44000000 [GPR_RJ; IMM_OFFL];
  row "bceqz" 0x48000000 [FCC_CJ; IMM_OFFL];
  row "bcnez" 0x48000100 [FCC_CJ; IMM_OFFL];
  row "jiscr0" 0x48000200 [IMM_OFFL];
  row "jiscr1" 0x48000300 [IMM_OFFL];
  row "jirl" 0x4c000000 [GPR_RD; GPR_RJ; IMM_OFFS];
  row "b" 0x50000000 [IMM_OFFLL];
  row "bl" 0x54000000 [IMM_OFFLL];
  row "beq" 0x58000000 [GPR_RJ; GPR_RD; IMM_OFFS];
  row "bne" 0x5c000000 [GPR_RJ; GPR_RD; IMM_OFFS];
  row "blt" 0x60000000 [GPR_RJ; GPR_RD; IMM_OFFS];
  row "bge" 0x64000000 [GPR_RJ; GPR_RD; IMM_OFFS];
  row "bltu" 0x68000000 [GPR_RJ; GPR_RD; IMM_OFFS];
  row "bgeu" 0x6c000000 [GPR_RJ; GPR_RD; IMM_OFFS];
  row "fadd.s" 0x1008000 [FPR_FD; FPR_FJ; FPR_FK];
  row "fadd.d" 0x1010000 [FPR_FD; FPR_FJ; FPR_FK];
  row "fsub.s" 0x1028000 [FPR_FD; FPR_FJ; FPR_FK];
  row "fsub.d" 0x1030000 [FPR_FD; FPR_FJ; FPR_FK];
  row "fmul.s" 0x1048000 [FPR_FD; FPR_FJ; FPR_FK];
  row "fmul.d" 0x1050000 [FPR_FD; FPR_FJ; FPR_FK];
  row "fdiv.s" 0x1068000 [FPR_FD; FPR_FJ; FPR_FK];
  row "fdiv.d" 0x1070000 [FPR_FD; FPR_FJ; FPR_FK];
  row "fmax.s" 0x1088000 [FPR_FD; FPR_FJ; FPR_FK];
  row "fmax.d" 0x1090000 [FPR_FD; FPR_FJ; FPR_FK];
  row "fmin.s" 0x10a8000 [FPR_FD; FPR_FJ; FPR_FK];
  row "fmin.d" 0x10b0000 [FPR_FD; FPR_FJ; FPR_FK];
  row "fmaxa.s" 0x10c8000 [FPR_FD; FPR_FJ; FPR_FK];
  row "fmaxa.d" 0x10d0000 [FPR_FD; FPR_FJ; FPR_FK];
  row "fmina.s" 0x10e8000 [FPR_FD; FPR_FJ; FPR_FK];
  row "fmina.d" 0x10f0000 [FPR_FD; FPR_FJ; FPR_FK];
  row "fscaleb.s" 0x1108000 [FPR_FD; FPR_FJ; FPR_FK];
  row "fscaleb.d" 0x1110000 [FPR_FD; FPR_FJ; FPR_FK];
  row "fcopysign.s" 0x1128000 [FPR_FD; FPR_FJ; FPR_FK];
  row "fcopysign.d" 0x1130000 [FPR_FD; FPR_FJ; FPR_FK];
  row "fabs.s" 0x1140400 [FPR_FD; FPR_FJ];
  row "fabs.d" 0x1140800 [FPR_FD; FPR_FJ];
  row "fneg.s" 0x1141400 [FPR_FD; FPR_FJ];
  row "fneg.d" 0x1141800 [FPR_FD; FPR_FJ];
  row "flogb.s" 0x1142400 [FPR_FD; FPR_FJ];
  row "flogb.d" 0x1142800 [FPR_FD; FPR_FJ];
  row "fclass.s" 0x1143400 [FPR_FD; FPR_FJ];
  row "fclass.d" 0x1143800 [FPR_FD; FPR_FJ];
  row "fsqrt.s" 0x1144400 [FPR_FD; FPR_FJ];
  row "fsqrt.d" 0x1144800 [FPR_FD; FPR_FJ];
  row "frecip.s" 0x1145400 [FPR_FD; FPR_FJ];
  row "frecip.d" 0x1145800 [FPR_FD; FPR_FJ];
  row "frsqrt.s" 0x1146400 [FPR_FD; FPR_FJ];
  row "frsqrt.d" 0x1146800 [FPR_FD; FPR_FJ];
  row "fmov.s" 0x1149400 [FPR_FD; FPR_FJ];
  row "fmov.d" 0x1149800 [FPR_FD; FPR_FJ];
  row "movgr2fr.w" 0x114a400 [FPR_FD; GPR_RJ];
  row "movgr2fr.d" 0x114a800 [FPR_FD; GPR_RJ];
  row "movgr2frh.w" 0x114ac00 [FPR_FD; GPR_RJ];
  row "movfr2gr.s" 0x114b400 [GPR_RD; FPR_FJ];
  row "movfr2gr.d" 0x114b800 [GPR_RD; FPR_FJ];
  row "movfrh2gr.s" 0x114bc00 [GPR_RD; FPR_FJ];
  row "movgr2fcsr" 0x114c000 [OPD_FCSRL; GPR_RJ];
  row "movfcsr2gr" 0x114c800 [GPR_RD; OPD_FCSRH];
  row "movfr2cf" 0x114d000 [FCC_CD; FPR_FJ];
  row "movcf2fr" 0x114d400 [FPR_FD; FCC_CJ];
  row "movgr2cf" 0x114d800 [FCC_CD; GPR_RJ];
  row "movcf2gr" 0x114dc00 [GPR_RD; FCC_CJ];
  row "fcvt.ld.d" 0x114e000 [FPR_FD; FPR_FJ];
  row "fcvt.ud.d" 0x114e400 [FPR_FD; FPR_FJ];
  row "fcvt.d.ld" 0x1150000 [FPR_FD; FPR_FJ; FPR_FK];
  row "fcvt.s.d" 0x1191800 [FPR_FD; FPR_FJ];
  row "fcvt.d.s" 0x1192400 [FPR_FD; FPR_FJ];
  row "ftintrm.w.s" 0x11a0400 [FPR_FD; FPR_FJ];
  row "ftintrm.w.d" 0x11a0800 [FPR_FD; FPR_FJ];
  row "ftintrm.l.s" 0x11a2400 [FPR_FD; FPR_FJ];
  row "ftintrm.l.d" 0x11a2800 [FPR_FD; FPR_FJ];
  row "ftintrp.w.s" 0x11a4400 [FPR_FD; FPR_FJ];
  row "ftintrp.w.d" 0x11a4800 [FPR_FD; FPR_FJ];
  row "ftintrp.l.s" 0x11a6400 [FPR_FD; FPR_FJ];
  row "ftintrp.l.d" 0x11a6800 [FPR_FD; FPR_FJ];
  row "ftintrz.w.s" 0x11a8400 [FPR_FD; FPR_FJ];
  row "ftintrz.w.d" 0x11a8800 [FPR_FD; FPR_FJ];
  row "ftintrz.l.s" 0x11aa400 [FPR_FD; FPR_FJ];
  row "ftintrz.l.d" 0x11aa800 [FPR_FD; FPR_FJ];
  row "ftintrne.w.s" 0x11ac400 [FPR_FD; FPR_FJ];
  row "ftintrne.w.d" 0x11ac800 [FPR_FD; FPR_FJ];
  row "ftintrne.l.s" 0x11ae400 [FPR_FD; FPR_FJ];
  row "ftintrne.l.d" 0x11ae800 [FPR_FD; FPR_FJ];
  row "ftint.w.s" 0x11b0400 [FPR_FD; FPR_FJ];
  row "ftint.w.d" 0x11b0800 [FPR_FD; FPR_FJ];
  row "ftint.l.s" 0x11b2400 [FPR_FD; FPR_FJ];
  row "ftint.l.d" 0x11b2800 [FPR_FD; FPR_FJ];
  row "ffint.s.w" 0x11d1000 [FPR_FD; FPR_FJ];
  row "ffint.s.l" 0x11d1800 [FPR_FD; FPR_FJ];
  row "ffint.d.w" 0x11d2000 [FPR_FD; FPR_FJ];
  row "ffint.d.l" 0x11d2800 [FPR_FD; FPR_FJ];
  row "frint.s" 0x11e4400 [FPR_FD; FPR_FJ];
  row "frint.d" 0x11e4800 [FPR_FD; FPR_FJ];
  row "fmadd.s" 0x8100000 [FPR_FD; FPR_FJ; FPR_FK; FPR_FA];
  row "fmadd.d" 0x8200000 [FPR_FD; FPR_FJ; FPR_FK; FPR_FA];
  row "fmsub.s" 0x8500000 [FPR_FD; FPR_FJ; FPR_FK; FPR_FA];
  row "fmsub.d" 0x8600000 [FPR_FD; FPR_FJ; FPR_FK; FPR_FA];
  row "fnmadd.s" 0x8900000 [FPR_FD; FPR_FJ; FPR_FK; FPR_FA];
  row "fnmadd.d" 0x8a00000 [FPR_FD; FPR_FJ; FPR_FK; FPR_FA];
  row "fnmsub.s" 0x8d00000 [FPR_FD; FPR_FJ; FPR_FK; FPR_FA];
  row "fnmsub.d" 0x8e00000 [FPR_FD; FPR_FJ; FPR_FK; FPR_FA];
  row "vfmadd.s" 0x9100000 [FPR_VD; FPR_VJ; FPR_VK; FPR_VA];
  row "vfmadd.d" 0x9200000 [FPR_VD; FPR_VJ; FPR_VK; FPR_VA];
  row "vfmsub.s" 0x9500000 [FPR_VD; FPR_VJ; FPR_VK; FPR_VA];
  row "vfmsub.d" 0x9600000 [FPR_VD; FPR_VJ; FPR_VK; FPR_VA];
  row "vfnmadd.s" 0x9900000 [FPR_VD; FPR_VJ; FPR_VK; FPR_VA];
  row "vfnmadd.d" 0x9a00000 [FPR_VD; FPR_VJ; FPR_VK; FPR_VA];
  row "vfnmsub.s" 0x9d00000 [FPR_VD; FPR_VJ; FPR_VK; FPR_VA];
  row "vfnmsub.d" 0x9e00000 [FPR_VD; FPR_VJ; FPR_VK; FPR_VA];
  row "xvfmadd.s" 0xa100000 [FPR_XD; FPR_XJ; FPR_XK; FPR_XA];
  row "xvfmadd.d" 0xa200000 [FPR_XD; FPR_XJ; FPR_XK; FPR_XA];
  row "xvfmsub.s" 0xa500000 [FPR_XD; FPR_XJ; FPR_XK; FPR_XA];
  row "xvfmsub.d" 0xa600000 [FPR_XD; FPR_XJ; FPR_XK; FPR_XA];
  row "xvfnmadd.s" 0xa900000 [FPR_XD; FPR_XJ; FPR_XK; FPR_XA];
  row "xvfnmadd.d" 0xaa00000 [FPR_XD; FPR_XJ; FPR_XK; FPR_XA];
  row "xvfnmsub.s" 0xad00000 [FPR_XD; FPR_XJ; FPR_XK; FPR_XA];
  row "xvfnmsub.d" 0xae00000 [FPR_XD; FPR_XJ; FPR_XK; FPR_XA];
  row "fcmp.cond.s" 0xc100000 [FCC_CD; FPR_FJ; FPR_FK; IMM_CONDF];
  row "fcmp.cond.d" 0xc200000 [FCC_CD; FPR_FJ; FPR_FK; IMM_CONDF];
  row "vfcmp.cond.s" 0xc500000 [FPR_VD; FPR_VJ; FPR_VK; IMM_CONDF];
  row "vfcmp.cond.d" 0xc600000 [FPR_VD; FPR_VJ; FPR_VK; IMM_CONDF];
  row "xvfcmp.cond.s" 0xc900000 [FPR_XD; FPR_XJ; FPR_XK; IMM_CONDF];
  row "xvfcmp.cond.d" 0xca00000 [FPR_XD; FPR_XJ; FPR_XK; IMM_CONDF];
  row "fsel" 0xd000000 [FPR_FD; FPR_FJ; FPR_FK; FCC_CA];
  row "vbitsel.v" 0xd100000 [FPR_VD; FPR_VJ; FPR_VK; FPR_VA];
  row "xvbitsel.v" 0xd200000 [FPR_XD; FPR_XJ; FPR_XK; FPR_XA];
  row "vshuf.b" 0xd500000 [FPR_VD; FPR_VJ; FPR_VK; FPR_VA];
  row "xvshuf.b" 0xd600000 [FPR_XD; FPR_XJ; FPR_XK; FPR_XA];
  row "vextr.v" 0xd900000 [FPR_VD; FPR_VJ; FPR_VK; IMM_UI5H];
  row "xvextr.v" 0xda00000 [FPR_XD; FPR_XJ; FPR_XK; IMM_UI5H];
  row "vfmaddsub.s" 0xe900000 [FPR_VD; FPR_VJ; FPR_VK; FPR_VA];
  row "vfmaddsub.d" 0xea00000 [FPR_VD; FPR_VJ; FPR_VK; FPR_VA];
  row "vfmsubadd.s" 0xed00000 [FPR_VD; FPR_VJ; FPR_VK; FPR_VA];
  row "vfmsubadd.d" 0xee00000 [FPR_VD; FPR_VJ; FPR_VK; FPR_VA];
  row "xvfmaddsub.s" 0xf100000 [FPR_XD; FPR_XJ; FPR_XK; FPR_XA];
  row "xvfmaddsub.d" 0xf200000 [FPR_XD; FPR_XJ; FPR_XK; FPR_XA];
  row "xvfmsubadd.s" 0xf500000 [FPR_XD; FPR_XJ; FPR_XK; FPR_XA];
  row "xvfmsubadd.d" 0xf600000 [FPR_XD; FPR_XJ; FPR_XK; FPR_XA];
  row "vseq.b" 0x70000000 [FPR_VD; FPR_VJ; FPR_VK];
  row "vseq.h" 0x70008000 [FPR_VD; FPR_VJ; FPR_VK];
  row "vseq.w" 0x70010000 [FPR_VD; FPR_VJ; FPR_VK];
  row "vseq.d" 0x70018000 [FPR_VD; FPR_VJ; FPR_VK];
  row "vsle.b" 0x70020000 [FPR_VD; FPR_VJ; FPR_VK];
  row "vsle.h" 0x70028000 [FPR_VD; FPR_VJ; FPR_VK];
  row "vsle.w" 0x70030000 [FPR_VD; FPR_VJ; FPR_VK];
  row "vsle.d" 0x70038000 [FPR_VD; FPR_VJ; FPR_VK];
  row "vsle.bu" 0x70040000 [FPR_VD; FPR_VJ; FPR_VK];
  row "vsle.hu" 0x70048000 [FPR_VD; FPR_VJ; FPR_VK]].

Definition rows_4 : list template := [
  row "vsle.wu" 0x70050000 [FPR_VD; FPR_VJ; FPR_VK];
  row "vsle.du" 0x70058000 [FPR_VD; FPR_VJ; FPR_VK];
  row "vslt.b" 0x70060000 [FPR_VD; FPR_VJ; FPR_VK];
  row "vslt.h" 0x70068000 [FPR_VD; FPR_VJ; FPR_VK];
  row "vslt.w" 0x70070000 [FPR_VD; FPR_VJ; FPR_VK];
  row "vslt.d" 0x70078000 [FPR_VD; FPR_VJ; FPR_VK];
  row "vslt.bu" 0x70080000 [FPR_VD; FPR_VJ; FPR_VK];
  row "vslt.hu" 0x70088000 [FPR_VD; FPR_VJ; FPR_VK];
  row "vslt.wu" 0x70090000 [FPR_VD; FPR_VJ; FPR_VK];
  row "vslt.du" 0x70098000 [FPR_VD; FPR_VJ; FPR_VK];
  row "vadd.b" 0x700a0000 [FPR_VD; FPR_VJ; FPR_VK];
  row "vadd.h" 0x700a8000 [FPR_VD; FPR_VJ; FPR_VK];
  row "vadd.w" 0x700b0000 [FPR_VD; FPR_VJ; FPR_VK];
  row "vadd.d" 0x700b8000 [FPR_VD; FPR_VJ; FPR_VK];
  row "vsub.b" 0x700c0000 [FPR_VD; FPR_VJ; FPR_VK];
  row "vsub.h" 0x700c8000 [FPR_VD; FPR_VJ; FPR_VK];
  row "vsub.w" 0x700d0000 [FPR_VD; FPR_VJ; FPR_VK];
  row "vsub.d" 0x700d8000 [FPR_VD; FPR_VJ; FPR_VK];
  row "vaddw.h.h.b" 0x700e0000 [FPR_VD; FPR_VJ; FPR_VK];
  row "vaddw.w.w.h" 0x700e8000 [FPR_VD; FPR_VJ; FPR_VK];
  row "vaddw.d.d.w" 0x700f0000 [FPR_VD; FPR_VJ; FPR_VK];
  row "vaddw.h.h.bu" 0x70100000 [FPR_VD; FPR_VJ; FPR_VK];
  row "vaddw.w.w.hu" 0x70108000 [FPR_VD; FPR_VJ; FPR_VK];
  row "vaddw.d.d.wu" 0x70110000 [FPR_VD; FPR_VJ; FPR_VK];
  row "vsubw.h.h.b" 0x70120000 [FPR_VD; FPR_VJ; FPR_VK];
  row "vsubw.w.w.h" 0x70128000 [FPR_VD; FPR_VJ; FPR_VK];
  row "vsubw.d.d.w" 0x70130000 [FPR_VD; FPR_VJ; FPR_VK];
  row "vsubw.h.h.bu" 0x70140000 [FPR_VD; FPR_VJ; FPR_VK];
  row "vsubw.w.w.hu" 0x70148000 [FPR_VD; FPR_VJ; FPR_VK];
  row "vsubw.d.d.wu" 0x70150000 [FPR_VD; FPR_VJ; FPR_VK];
  row "vsaddw.h.h.b" 0x70160000 [FPR_VD; FPR_VJ; FPR_VK];
  row "vsaddw.w.w.h" 0x70168000 [FPR_VD; FPR_VJ; FPR_VK];
  row "vsaddw.d.d.w" 0x70170000 [FPR_VD; FPR_VJ; FPR_VK];
  row "vsaddw.hu.hu.bu" 0x70180000 [FPR_VD; FPR_VJ; FPR_VK];
  row "vsaddw.wu.wu.hu" 0x70188000 [FPR_VD; FPR_VJ; FPR_VK];
  row "vsaddw.du.du.wu" 0x70190000 [FPR_VD; FPR_VJ; FPR_VK];
  row "vssubw.h.h.b" 0x701a0000 [FPR_VD; FPR_VJ; FPR_VK];
  row "vssubw.w.w.h" 0x701a8000 [FPR_VD; FPR_VJ; FPR_VK];
  row "vssubw.d.d.w" 0x701b0000 [FPR_VD; FPR_VJ; FPR_VK];
  row "vssubw.hu.hu.bu" 0x701c0000 [FPR_VD; FPR_VJ; FPR_VK];
  row "vssubw.wu.wu.hu" 0x701c8000 [FPR_VD; FPR_VJ; FPR_VK];
  row "vssubw.du.du.wu" 0x701d0000 [FPR_VD; FPR_VJ; FPR_VK];
  row "vaddwev.h.b" 0x701e0000 [FPR_VD; FPR_VJ; FPR_VK];
  row "vaddwev.w.h" 0x701e8000 [FPR_VD; FPR_VJ; FPR_VK];
  row "vaddwev.d.w" 0x701f0000 [FPR_VD; FPR_VJ; FPR_VK];
  row "vaddwev.q.d" 0x701f8000 [FPR_VD; FPR_VJ; FPR_VK];
  row "vsubwev.h.b" 0x70200000 [FPR_VD; FPR_VJ; FPR_VK];
  row "vsubwev.w.h" 0x70208000 [FPR_VD; FPR_VJ; FPR_VK];
  row "vsubwev.d.w" 0x70210000 [FPR_VD; FPR_VJ; FPR_VK];
  row "vsubwev.q.d" 0x70218000 [FPR_VD; FPR_VJ; FPR_VK];
  row "vaddwod.h.b" 0x70220000 [FPR_VD; FPR_VJ; FPR_VK];
  row "vaddwod.w.h" 0x70228000 [FPR_VD; FPR_VJ; FPR_VK];
  row "vaddwod.d.w" 0x70230000 [FPR_VD; FPR_VJ; FPR_VK];
  row "vaddwod.q.d" 0x70238000 [FPR_VD; FPR_VJ; FPR_VK];
  row "vsubwod.h.b" 0x70240000 [FPR_VD; FPR_VJ; FPR_VK];
  row "vsubwod.w.h" 0x70248000 [FPR_VD; FPR_VJ; FPR_VK];
  row "vsubwod.d.w" 0x70250000 [FPR_VD; FPR_VJ; FPR_VK];
  row "vsubwod.q.d" 0x70258000 [FPR_VD; FPR_VJ; FPR_VK];
  row "vaddwl.h.b" 0x70260000 [FPR_VD; FPR_VJ; FPR_VK];
  row "vaddwl.w.h" 0x70268000 [FPR_VD; FPR_VJ; FPR_VK];
  row "vaddwl.d.w" 0x70270000 [FPR_VD; FPR_VJ; FPR_VK];
  row "vaddwl.q.d" 0x70278000 [FPR_VD; FPR_VJ; FPR_VK];
  row "vsubwl.h.b" 0x70280000 [FPR_VD; FPR_VJ; FPR_VK];
  row "vsubwl.w.h" 0x70288000 [FPR_VD; FPR_VJ; FPR_VK];
  row "vsubwl.d.w" 0x70290000 [FPR_VD; FPR_VJ; FPR_VK];
  row "vsubwl.q.d" 0x70298000 [FPR_VD; FPR_VJ; FPR_VK];
  row "vaddwh.h.b" 0x702a0000 [FPR_VD; FPR_VJ; FPR_VK];
  row "vaddwh.w.h" 0x702a8000 [FPR_VD; FPR_VJ; FPR_VK];
  row "vaddwh.d.w" 0x702b0000 [FPR_VD; FPR_VJ; FPR_VK];
  row "vaddwh.q.d" 0x702b8000 [FPR_VD; FPR_VJ; FPR_VK];
  row "vsubwh.h.b" 0x702c0000 [FPR_VD; FPR_VJ; FPR_VK];
  row "vsubwh.w.h" 0x702c8000 [FPR_VD; FPR_VJ; FPR_VK];
  row "vsubwh.d.w" 0x702d0000 [FPR_VD; FPR_VJ; FPR_VK];
  row "vsubwh.q.d" 0x702d8000 [FPR_VD; FPR_VJ; FPR_VK];
  row "vaddwev.h.bu" 0x702e0000 [FPR_VD; FPR_VJ; FPR_VK];
  row "vaddwev.w.hu" 0x702e8000 [FPR_VD; FPR_VJ; FPR_VK];
  row "vaddwev.d.wu" 0x702f0000 [FPR_VD; FPR_VJ; FPR_VK];
  row "vaddwev.q.du" 0x702f8000 [FPR_VD; FPR_VJ; FPR_VK];
  row "vsubwev.h.bu" 0x70300000 [FPR_VD; FPR_VJ; FPR_VK];
  row "vsubwev.w.hu" 0x70308000 [FPR_VD; FPR_VJ; FPR_VK];
  row "vsubwev.d.wu" 0x70310000 [FPR_VD; FPR_VJ; FPR_VK];
  row "vsubwev.q.du" 0x70318000 [FPR_VD; FPR_VJ; FPR_VK];
  row "vaddwod.h.bu" 0x70320000 [FPR_VD; FPR_VJ; FPR_VK];
  row "vaddwod.w.hu" 0x70328000 [FPR_VD; FPR_VJ; FPR_VK];
  row "vaddwod.d.wu" 0x70330000 [FPR_VD; FPR_VJ; FPR_VK];
  row "vaddwod.q.du" 0x70338000 [FPR_VD; FPR_VJ; FPR_VK];
  row "vsubwod.h.bu" 0x70340000 [FPR_VD; FPR_VJ; FPR_VK];
  row "vsubwod.w.hu" 0x70348000 [FPR_VD; FPR_VJ; FPR_VK];
  row "vsubwod.d.wu" 0x70350000 [FPR_VD; FPR_VJ; FPR_VK];
  row "vsubwod.q.du" 0x70358000 [FPR_VD; FPR_VJ; FPR_VK];
  row "vaddwl.h.bu" 0x70360000 [FPR_VD; FPR_VJ; FPR_VK];
  row "vaddwl.w.hu" 0x70368000 [FPR_VD; FPR_VJ; FPR_VK];
  row "vaddwl.d.wu" 0x70370000 [FPR_VD; FPR_VJ; FPR_VK];
  row "vaddwl.q.du" 0x70378000 [FPR_VD; FPR_VJ; FPR_VK];
  row "vsubwl.h.bu" 0x70380000 [FPR_VD; FPR_VJ; FPR_VK];
  row "vsubwl.w.hu" 0x70388000 [FPR_VD; FPR_VJ; FPR_VK];
  row "vsubwl.d.wu" 0x70390000 [FPR_VD; FPR_VJ; FPR_VK];
  row "vsubwl.q.du" 0x70398000 [FPR_VD; FPR_VJ; FPR_VK];
  row "vaddwh.h.bu" 0x703a0000 [FPR_VD; FPR_VJ; FPR_VK];
  row "vaddwh.w.hu" 0x703a8000 [FPR_VD; FPR_VJ; FPR_VK];
  row "vaddwh.d.wu" 0x703b0000 [FPR_VD; FPR_VJ; FPR_VK];
  row "vaddwh.q.du" 0x703b8000 [FPR_VD; FPR_VJ; FPR_VK];
  row "vsubwh.h.bu" 0x703c0000 [FPR_VD; FPR_VJ; FPR_VK];
  row "vsubwh.w.hu" 0x703c8000 [FPR_VD; FPR_VJ; FPR_VK];
  row "vsubwh.d.wu" 0x703d0000 [FPR_VD; FPR_VJ; FPR_VK];
  row "vsubwh.q.du" 0x703d8000 [FPR_VD; FPR_VJ; FPR_VK];
  row "vaddwev.h.bu.b" 0x703e0000 [FPR_VD; FPR_VJ; FPR_VK];
  row "vaddwev.w.hu.h" 0x703e8000 [FPR_VD; FPR_VJ; FPR_VK];
  row "vaddwev.d.wu.w" 0x703f0000 [FPR_VD; FPR_VJ; FPR_VK];
  row "vaddwev.q.du.d" 0x703f8000 [FPR_VD; FPR_VJ; FPR_VK];
  row "vaddwod.h.bu.b" 0x70400000 [FPR_VD; FPR_VJ; FPR_VK];
  row "vaddwod.w.hu.h" 0x70408000 [FPR_VD; FPR_VJ; FPR_VK];
  row "vaddwod.d.wu.w" 0x70410000 [FPR_VD; FPR_VJ; FPR_VK];
  row "vaddwod.q.du.d" 0x70418000 [FPR_VD; FPR_VJ; FPR_VK];
  row "vaddwl.h.bu.b" 0x70420000 [FPR_VD; FPR_VJ; FPR_VK];
  row "vaddwl.w.hu.h" 0x70428000 [FPR_VD; FPR_VJ; FPR_VK];
  row "vaddwl.d.wu.w" 0x70430000 [FPR_VD; FPR_VJ; FPR_VK];
  row "vaddwl.q.du.d" 0x70438000 [FPR_VD; FPR_VJ; FPR_VK];
  row "vaddwh.h.bu.b" 0x70440000 [FPR_VD; FPR_VJ; FPR_VK];
  row "vaddwh.w.hu.h" 0x70448000 [FPR_VD; FPR_VJ; FPR_VK];
  row "vaddwh.d.wu.w" 0x70450000 [FPR_VD; FPR_VJ; FPR_VK];
  row "vaddwh.q.du.d" 0x70458000 [FPR_VD; FPR_VJ; FPR_VK];
  row "vsadd.b" 0x70460000 [FPR_VD; FPR_VJ; FPR_VK];
  row "vsadd.h" 0x70468000 [FPR_VD; FPR_VJ; FPR_VK];
  row "vsadd.w" 0x70470000 [FPR_VD; FPR_VJ; FPR_VK];
  row "vsadd.d" 0x70478000 [FPR_VD; FPR_VJ; FPR_VK];
  row "vssub.b" 0x70480000 [FPR_VD; FPR_VJ; FPR_VK];
  row "vssub.h" 0x70488000 [FPR_VD; FPR_VJ; FPR_VK];
  row "vssub.w" 0x70490000 [FPR_VD; FPR_VJ; FPR_VK];
  row "vssub.d" 0x70498000 [FPR_VD; FPR_VJ; FPR_VK];
  row "vsadd.bu" 0x704a0000 [FPR_VD; FPR_VJ; FPR_VK];
  row "vsadd.hu" 0x704a8000 [FPR_VD; FPR_VJ; FPR_VK];
  row "vsadd.wu" 0x704b0000 [FPR_VD; FPR_VJ; FPR_VK];
  row "vsadd.du" 0x704b8000 [FPR_VD; FPR_VJ; FPR_VK];
  row "vssub.bu" 0x704c0000 [FPR_VD; FPR_VJ; FPR_VK];
  row "vssub.hu" 0x704c8000 [FPR_VD; FPR_VJ; FPR_VK];
  row "vssub.wu" 0x704d0000 [FPR_VD; FPR_VJ; FPR_VK];
  row "vssub.du" 0x704d8000 [FPR_VD; FPR_VJ; FPR_VK];
  row "vssub.bu.bu.b" 0x704e0000 [FPR_VD; FPR_VJ; FPR_VK];
  row "vssub.hu.hu.h" 0x704e8000 [FPR_VD; FPR_VJ; FPR_VK];
  row "vssub.wu.wu.w" 0x704f0000 [FPR_VD; FPR_VJ; FPR_VK];
  row "vssub.du.du.d" 0x704f8000 [FPR_VD; FPR_VJ; FPR_VK];
  row "vssub.bu.b.bu" 0x70500000 [FPR_VD; FPR_VJ; FPR_VK];
  row "vssub.hu.h.hu" 0x70508000 [FPR_VD; FPR_VJ; FPR_VK];
  row "vssub.wu.w.wu" 0x70510000 [FPR_VD; FPR_VJ; FPR_VK];
  row "vssub.du.d.du" 0x70518000 [FPR_VD; FPR_VJ; FPR_VK];
  row "vssub.b.bu.bu" 0x70520000 [FPR_VD; FPR_VJ; FPR_VK];
  row "vssub.h.hu.hu" 0x70528000 [FPR_VD; FPR_VJ; FPR_VK];
  row "vssub.w.wu.wu" 0x70530000 [FPR_VD; FPR_VJ; FPR_VK];
  row "vssub.d.du.du" 0x70538000 [FPR_VD; FPR_VJ; FPR_VK]].

Definition rows_5 : list template := [
  row "vhaddw.h.b" 0x70540000 [FPR_VD; FPR_VJ; FPR_VK];
  row "vhaddw.w.h" 0x70548000 [FPR_VD; FPR_VJ; FPR_VK];
  row "vhaddw.d.w" 0x70550000 [FPR_VD; FPR_VJ; FPR_VK];
  row "vhaddw.q.d" 0x70558000 [FPR_VD; FPR_VJ; FPR_VK];
  row "vhsubw.h.b" 0x70560000 [FPR_VD; FPR_VJ; FPR_VK];
  row "vhsubw.w.h" 0x70568000 [FPR_VD; FPR_VJ; FPR_VK];
  row "vhsubw.d.w" 0x70570000 [FPR_VD; FPR_VJ; FPR_VK];
  row "vhsubw.q.d" 0x70578000 [FPR_VD; FPR_VJ; FPR_VK];
  row "vhaddw.hu.bu" 0x70580000 [FPR_VD; FPR_VJ; FPR_VK];
  row "vhaddw.wu.hu" 0x70588000 [FPR_VD; FPR_VJ; FPR_VK];
  row "vhaddw.du.wu" 0x70590000 [FPR_VD; FPR_VJ; FPR_VK];
  row "vhaddw.qu.du" 0x70598000 [FPR_VD; FPR_VJ; FPR_VK];
  row "vhsubw.hu.bu" 0x705a0000 [FPR_VD; FPR_VJ; FPR_VK];
  row "vhsubw.wu.hu" 0x705a8000 [FPR_VD; FPR_VJ; FPR_VK];
  row "vhsubw.du.wu" 0x705b0000 [FPR_VD; FPR_VJ; FPR_VK];
  row "vhsubw.qu.du" 0x705b8000 [FPR_VD; FPR_VJ; FPR_VK];
  row "vadda.b" 0x705c0000 [FPR_VD; FPR_VJ; FPR_VK];
  row "vadda.h" 0x705c8000 [FPR_VD; FPR_VJ; FPR_VK];
  row "vadda.w" 0x705d0000 [FPR_VD; FPR_VJ; FPR_VK];
  row "vadda.d" 0x705d8000 [FPR_VD; FPR_VJ; FPR_VK];
  row "vsadda.b" 0x705e0000 [FPR_VD; FPR_VJ; FPR_VK];
  row "vsadda.h" 0x705e8000 [FPR_VD; FPR_VJ; FPR_VK];
  row "vsadda.w" 0x705f0000 [FPR_VD; FPR_VJ; FPR_VK];
  row "vsadda.d" 0x705f8000 [FPR_VD; FPR_VJ; FPR_VK];
  row "vabsd.b" 0x70600000 [FPR_VD; FPR_VJ; FPR_VK];
  row "vabsd.h" 0x70608000 [FPR_VD; FPR_VJ; FPR_VK];
  row "vabsd.w" 0x70610000 [FPR_VD; FPR_VJ; FPR_VK];
  row "vabsd.d" 0x70618000 [FPR_VD; FPR_VJ; FPR_VK];
  row "vabsd.bu" 0x70620000 [FPR_VD; FPR_VJ; FPR_VK];
  row "vabsd.hu" 0x70628000 [FPR_VD; FPR_VJ; FPR_VK];
  row "vabsd.wu" 0x70630000 [FPR_VD; FPR_VJ; FPR_VK];
  row "vabsd.du" 0x70638000 [FPR_VD; FPR_VJ; FPR_VK];
  row "vavg.b" 0x70640000 [FPR_VD; FPR_VJ; FPR_VK];
  row "vavg.h" 0x70648000 [FPR_VD; FPR_VJ; FPR_VK];
  row "vavg.w" 0x70650000 [FPR_VD; FPR_VJ; FPR_VK];
  row "vavg.d" 0x70658000 [FPR_VD; FPR_VJ; FPR_VK];
  row "vavg.bu" 0x70660000 [FPR_VD; FPR_VJ; FPR_VK];
  row "vavg.hu" 0x70668000 [FPR_VD; FPR_VJ; FPR_VK];
  row "vavg.wu" 0x70670000 [FPR_VD; FPR_VJ; FPR_VK];
  row "vavg.du" 0x70678000 [FPR_VD; FPR_VJ; FPR_VK];
  row "vavgr.b" 0x70680000 [FPR_VD; FPR_VJ; FPR_VK];
  row "vavgr.h" 0x70688000 [FPR_VD; FPR_VJ; FPR_VK];
  row "vavgr.w" 0x70690000 [FPR_VD; FPR_VJ; FPR_VK];
  row "vavgr.d" 0x70698000 [FPR_VD; FPR_VJ; FPR_VK];
  row "vavgr.bu" 0x706a0000 [FPR_VD; FPR_VJ; FPR_VK];
  row "vavgr.hu" 0x706a8000 [FPR_VD; FPR_VJ; FPR_VK];
  row "vavgr.wu" 0x706b0000 [FPR_VD; FPR_VJ; FPR_VK];
  row "vavgr.du" 0x706b8000 [FPR_VD; FPR_VJ; FPR_VK];
  row "vhalfd.b" 0x706c0000 [FPR_VD; FPR_VJ; FPR_VK];
  row "vhalfd.h" 0x706c8000 [FPR_VD; FPR_VJ; FPR_VK];
  row "vhalfd.w" 0x706d0000 [FPR_VD; FPR_VJ; FPR_VK];
  row "vhalfd.d" 0x706d8000 [FPR_VD; FPR_VJ; FPR_VK];
  row "vhalfd.bu" 0x706e0000 [FPR_VD; FPR_VJ; FPR_VK];
  row "vhalfd.hu" 0x706e8000 [FPR_VD; FPR_VJ; FPR_VK];
  row "vhalfd.wu" 0x706f0000 [FPR_VD; FPR_VJ; FPR_VK];
  row "vhalfd.du" 0x706f8000 [FPR_VD; FPR_VJ; FPR_VK];
  row "vmax.b" 0x70700000 [FPR_VD; FPR_VJ; FPR_VK];
  row "vmax.h" 0x70708000 [FPR_VD; FPR_VJ; FPR_VK];
  row "vmax.w" 0x70710000 [FPR_VD; FPR_VJ; FPR_VK];
  row "vmax.d" 0x70718000 [FPR_VD; FPR_VJ; FPR_VK];
  row "vmin.b" 0x70720000 [FPR_VD; FPR_VJ; FPR_VK];
  row "vmin.h" 0x70728000 [FPR_VD; FPR_VJ; FPR_VK];
  row "vmin.w" 0x70730000 [FPR_VD; FPR_VJ; FPR_VK];
  row "vmin.d" 0x70738000 [FPR_VD; FPR_VJ; FPR_VK];
  row "vmax.bu" 0x70740000 [FPR_VD; FPR_VJ; FPR_VK];
  row "vmax.hu" 0x70748000 [FPR_VD; FPR_VJ; FPR_VK];
  row "vmax.wu" 0x70750000 [FPR_VD; FPR_VJ; FPR_VK];
  row "vmax.du" 0x70758000 [FPR_VD; FPR_VJ; FPR_VK];
  row "vmin.bu" 0x70760000 [FPR_VD; FPR_VJ; FPR_VK];
  row "vmin.hu" 0x70768000 [FPR_VD; FPR_VJ; FPR_VK];
  row "vmin.wu" 0x70770000 [FPR_VD; FPR_VJ; FPR_VK];
  row "vmin.du" 0x70778000 [FPR_VD; FPR_VJ; FPR_VK];
  row "vmaxa.b" 0x70780000 [FPR_VD; FPR_VJ; FPR_VK];
  row "vmaxa.h" 0x70788000 [FPR_VD; FPR_VJ; FPR_VK];
  row "vmaxa.w" 0x70790000 [FPR_VD; FPR_VJ; FPR_VK];
  row "vmaxa.d" 0x70798000 [FPR_VD; FPR_VJ; FPR_VK];
  row "vmina.b" 0x707a0000 [FPR_VD; FPR_VJ; FPR_VK];
  row "vmina.h" 0x707a8000 [FPR_VD; FPR_VJ; FPR_VK];
  row "vmina.w" 0x707b0000 [FPR_VD; FPR_VJ; FPR_VK];
  row "vmina.d" 0x707b8000 [FPR_VD; FPR_VJ; FPR_VK];
  row "vsadw.h.b" 0x707c0000 [FPR_VD; FPR_VJ; FPR_VK];
  row "vsadw.w.h" 0x707c8000 [FPR_VD; FPR_VJ; FPR_VK];
  row "vsadw.d.w" 0x707d0000 [FPR_VD; FPR_VJ; FPR_VK];
  row "vsadw.h.bu" 0x707e0000 [FPR_VD; FPR_VJ; FPR_VK];
  row "vsadw.w.hu" 0x707e8000 [FPR_VD; FPR_VJ; FPR_VK];
  row "vsadw.d.wu" 0x707f0000 [FPR_VD; FPR_VJ; FPR_VK];
  row "vaccsadw.h.b" 0x70800000 [FPR_VD; FPR_VJ; FPR_VK];
  row "vaccsadw.w.h" 0x70808000 [FPR_VD; FPR_VJ; FPR_VK];
  row "vaccsadw.d.w" 0x70810000 [FPR_VD; FPR_VJ; FPR_VK];
  row "vaccsadw.h.bu" 0x70820000 [FPR_VD; FPR_VJ; FPR_VK];
  row "vaccsadw.w.hu" 0x70828000 [FPR_VD; FPR_VJ; FPR_VK];
  row "vaccsadw.d.wu" 0x70830000 [FPR_VD; FPR_VJ; FPR_VK];
  row "vmul.b" 0x70840000 [FPR_VD; FPR_VJ; FPR_VK];
  row "vmul.h" 0x70848000 [FPR_VD; FPR_VJ; FPR_VK];
  row "vmul.w" 0x70850000 [FPR_VD; FPR_VJ; FPR_VK];
  row "vmul.d" 0x70858000 [FPR_VD; FPR_VJ; FPR_VK];
  row "vmuh.b" 0x70860000 [FPR_VD; FPR_VJ; FPR_VK];
  row "vmuh.h" 0x70868000 [FPR_VD; FPR_VJ; FPR_VK];
  row "vmuh.w" 0x70870000 [FPR_VD; FPR_VJ; FPR_VK];
  row "vmuh.d" 0x70878000 [FPR_VD; FPR_VJ; FPR_VK];
  row "vmuh.bu" 0x70880000 [FPR_VD; FPR_VJ; FPR_VK];
  row "vmuh.hu" 0x70888000 [FPR_VD; FPR_VJ; FPR_VK];
  row "vmuh.wu" 0x70890000 [FPR_VD; FPR_VJ; FPR_VK];
  row "vmuh.du" 0x70898000 [FPR_VD; FPR_VJ; FPR_VK];
  row "vmuh.bu.b" 0x708a0000 [FPR_VD; FPR_VJ; FPR_VK];
  row "vmuh.hu.h" 0x708a8000 [FPR_VD; FPR_VJ; FPR_VK];
  row "vmuh.wu.w" 0x708b0000 [FPR_VD; FPR_VJ; FPR_VK];
  row "vmuh.du.d" 0x708b8000 [FPR_VD; FPR_VJ; FPR_VK];
  row "vmulxw.h.b" 0x708c0000 [FPR_VD; FPR_VJ; FPR_VK];
  row "vmulxw.w.h" 0x708c8000 [FPR_VD; FPR_VJ; FPR_VK];
  row "vmulxw.d.w" 0x708d0000 [FPR_VD; FPR_VJ; FPR_VK];
  row "vmulxw.h.bu" 0x708e0000 [FPR_VD; FPR_VJ; FPR_VK];
  row "vmulxw.w.hu" 0x708e8000 [FPR_VD; FPR_VJ; FPR_VK];
  row "vmulxw.d.wu" 0x708f0000 [FPR_VD; FPR_VJ; FPR_VK];
  row "vmulwev.h.b" 0x70900000 [FPR_VD; FPR_VJ; FPR_VK];
  row "vmulwev.w.h" 0x70908000 [FPR_VD; FPR_VJ; FPR_VK];
  row "vmulwev.d.w" 0x70910000 [FPR_VD; FPR_VJ; FPR_VK];
  row "vmulwev.q.d" 0x70918000 [FPR_VD; FPR_VJ; FPR_VK];
  row "vmulwod.h.b" 0x70920000 [FPR_VD; FPR_VJ; FPR_VK];
  row "vmulwod.w.h" 0x70928000 [FPR_VD; FPR_VJ; FPR_VK];
  row "vmulwod.d.w" 0x70930000 [FPR_VD; FPR_VJ; FPR_VK];
  row "vmulwod.q.d" 0x70938000 [FPR_VD; FPR_VJ; FPR_VK];
  row "vmulwl.h.b" 0x70940000 [FPR_VD; FPR_VJ; FPR_VK];
  row "vmulwl.w.h" 0x70948000 [FPR_VD; FPR_VJ; FPR_VK];
  row "vmulwl.d.w" 0x70950000 [FPR_VD; FPR_VJ; FPR_VK];
  row "vmulwl.q.d" 0x70958000 [FPR_VD; FPR_VJ; FPR_VK];
  row "vmulwh.h.b" 0x70960000 [FPR_VD; FPR_VJ; FPR_VK];
  row "vmulwh.w.h" 0x70968000 [FPR_VD; FPR_VJ; FPR_VK];
  row "vmulwh.d.w" 0x70970000 [FPR_VD; FPR_VJ; FPR_VK];
  row "vmulwh.q.d" 0x70978000 [FPR_VD; FPR_VJ; FPR_VK];
  row "vmulwev.h.bu" 0x70980000 [FPR_VD; FPR_VJ; FPR_VK];
  row "vmulwev.w.hu" 0x70988000 [FPR_VD; FPR_VJ; FPR_VK];
  row "vmulwev.d.wu" 0x70990000 [FPR_VD; FPR_VJ; FPR_VK];
  row "vmulwev.q.du" 0x70998000 [FPR_VD; FPR_VJ; FPR_VK];
  row "vmulwod.h.bu" 0x709a0000 [FPR_VD; FPR_VJ; FPR_VK];
  row "vmulwod.w.hu" 0x709a8000 [FPR_VD; FPR_VJ; FPR_VK];
  row "vmulwod.d.wu" 0x709b0000 [FPR_VD; FPR_VJ; FPR_VK];
  row "vmulwod.q.du" 0x709b8000 [FPR_VD; FPR_VJ; FPR_VK];
  row "vmulwl.h.bu" 0x709c0000 [FPR_VD; FPR_VJ; FPR_VK];
  row "vmulwl.w.hu" 0x709c8000 [FPR_VD; FPR_VJ; FPR_VK];
  row "vmulwl.d.wu" 0x709d0000 [FPR_VD; FPR_VJ; FPR_VK];
  row "vmulwl.q.du" 0x709d8000 [FPR_VD; FPR_VJ; FPR_VK];
  row "vmulwh.h.bu" 0x709e0000 [FPR_VD; FPR_VJ; FPR_VK];
  row "vmulwh.w.hu" 0x709e8000 [FPR_VD; FPR_VJ; FPR_VK];
  row "vmulwh.d.wu" 0x709f0000 [FPR_VD; FPR_VJ; FPR_VK];
  row "vmulwh.q.du" 0x709f8000 [FPR_VD; FPR_VJ; FPR_VK];
  row "vmulwev.h.bu.b" 0x70a00000 [FPR_VD; FPR_VJ; FPR_VK];
  row "vmulwev.w.hu.h" 0x70a08000 [FPR_VD; FPR_VJ; FPR_VK];
  row "vmulwev.d.wu.w" 0x70a10000 [FPR_VD; FPR_VJ; FPR_VK];
  row "vmulwev.q.du.d" 0x70a18000 [FPR_VD; FPR_VJ; FPR_VK]].

Definition rows_6 : list template := [
  row "vmulwod.h.bu.b" 0x70a20000 [FPR_VD; FPR_VJ; FPR_VK];
  row "vmulwod.w.hu.h" 0x70a28000 [FPR_VD; FPR_VJ; FPR_VK];
  row "vmulwod.d.wu.w" 0x70a30000 [FPR_VD; FPR_VJ; FPR_VK];
  row "vmulwod.q.du.d" 0x70a38000 [FPR_VD; FPR_VJ; FPR_VK];
  row "vmulwl.h.bu.b" 0x70a40000 [FPR_VD; FPR_VJ; FPR_VK];
  row "vmulwl.w.hu.h" 0x70a48000 [FPR_VD; FPR_VJ; FPR_VK];
  row "vmulwl.d.wu.w" 0x70a50000 [FPR_VD; FPR_VJ; FPR_VK];
  row "vmulwl.q.du.d" 0x70a58000 [FPR_VD; FPR_VJ; FPR_VK];
  row "vmulwh.h.bu.b" 0x70a60000 [FPR_VD; FPR_VJ; FPR_VK];
  row "vmulwh.w.hu.h" 0x70a68000 [FPR_VD; FPR_VJ; FPR_VK];
  row "vmulwh.d.wu.w" 0x70a70000 [FPR_VD; FPR_VJ; FPR_VK];
  row "vmulwh.q.du.d" 0x70a78000 [FPR_VD; FPR_VJ; FPR_VK];
  row "vmadd.b" 0x70a80000 [FPR_VD; FPR_VJ; FPR_VK];
  row "vmadd.h" 0x70a88000 [FPR_VD; FPR_VJ; FPR_VK];
  row "vmadd.w" 0x70a90000 [FPR_VD; FPR_VJ; FPR_VK];
  row "vmadd.d" 0x70a98000 [FPR_VD; FPR_VJ; FPR_VK];
  row "vmsub.b" 0x70aa0000 [FPR_VD; FPR_VJ; FPR_VK];
  row "vmsub.h" 0x70aa8000 [FPR_VD; FPR_VJ; FPR_VK];
  row "vmsub.w" 0x70ab0000 [FPR_VD; FPR_VJ; FPR_VK];
  row "vmsub.d" 0x70ab8000 [FPR_VD; FPR_VJ; FPR_VK];
  row "vmaddwev.h.b" 0x70ac0000 [FPR_VD; FPR_VJ; FPR_VK];
  row "vmaddwev.w.h" 0x70ac8000 [FPR_VD; FPR_VJ; FPR_VK];
  row "vmaddwev.d.w" 0x70ad0000 [FPR_VD; FPR_VJ; FPR_VK];
  row "vmaddwev.q.d" 0x70ad8000 [FPR_VD; FPR_VJ; FPR_VK];
  row "vmaddwod.h.b" 0x70ae0000 [FPR_VD; FPR_VJ; FPR_VK];
  row "vmaddwod.w.h" 0x70ae8000 [FPR_VD; FPR_VJ; FPR_VK];
  row "vmaddwod.d.w" 0x70af0000 [FPR_VD; FPR_VJ; FPR_VK];
  row "vmaddwod.q.d" 0x70af8000 [FPR_VD; FPR_VJ; FPR_VK];
  row "vmaddwl.h.b" 0x70b00000 [FPR_VD; FPR_VJ; FPR_VK];
  row "vmaddwl.w.h" 0x70b08000 [FPR_VD; FPR_VJ; FPR_VK];
  row "vmaddwl.d.w" 0x70b10000 [FPR_VD; FPR_VJ; FPR_VK];
  row "vmaddwl.q.d" 0x70b18000 [FPR_VD; FPR_VJ; FPR_VK];
  row "vmaddwh.h.b" 0x70b20000 [FPR_VD; FPR_VJ; FPR_VK];
  row "vmaddwh.w.h" 0x70b28000 [FPR_VD; FPR_VJ; FPR_VK];
  row "vmaddwh.d.w" 0x70b30000 [FPR_VD; FPR_VJ; FPR_VK];
  row "vmaddwh.q.d" 0x70b38000 [FPR_VD; FPR_VJ; FPR_VK];
  row "vmaddwev.h.bu" 0x70b40000 [FPR_VD; FPR_VJ; FPR_VK];
  row "vmaddwev.w.hu" 0x70b48000 [FPR_VD; FPR_VJ; FPR_VK];
  row "vmaddwev.d.wu" 0x70b50000 [FPR_VD; FPR_VJ; FPR_VK];
  row "vmaddwev.q.du" 0x70b58000 [FPR_VD; FPR_VJ; FPR_VK];
  row "vmaddwod.h.bu" 0x70b60000 [FPR_VD; FPR_VJ; FPR_VK];
  row "vmaddwod.w.hu" 0x70b68000 [FPR_VD; FPR_VJ; FPR_VK];
  row "vmaddwod.d.wu" 0x70b70000 [FPR_VD; FPR_VJ; FPR_VK];
  row "vmaddwod.q.du" 0x70b78000 [FPR_VD; FPR_VJ; FPR_VK];
  row "vmaddwl.h.bu" 0x70b80000 [FPR_VD; FPR_VJ; FPR_VK];
  row "vmaddwl.w.hu" 0x70b88000 [FPR_VD; FPR_VJ; FPR_VK];
  row "vmaddwl.d.wu" 0x70b90000 [FPR_VD; FPR_VJ; FPR_VK];
  row "vmaddwl.q.du" 0x70b98000 [FPR_VD; FPR_VJ; FPR_VK];
  row "vmaddwh.h.bu" 0x70ba0000 [FPR_VD; FPR_VJ; FPR_VK];
  row "vmaddwh.w.hu" 0x70ba8000 [FPR_VD; FPR_VJ; FPR_VK];
  row "vmaddwh.d.wu" 0x70bb0000 [FPR_VD; FPR_VJ; FPR_VK];
  row "vmaddwh.q.du" 0x70bb8000 [FPR_VD; FPR_VJ; FPR_VK];
  row "vmaddwev.h.bu.b" 0x70bc0000 [FPR_VD; FPR_VJ; FPR_VK];
  row "vmaddwev.w.hu.h" 0x70bc8000 [FPR_VD; FPR_VJ; FPR_VK];
  row "vmaddwev.d.wu.w" 0x70bd0000 [FPR_VD; FPR_VJ; FPR_VK];
  row "vmaddwev.q.du.d" 0x70bd8000 [FPR_VD; FPR_VJ; FPR_VK];
  row "vmaddwod.h.bu.b" 0x70be0000 [FPR_VD; FPR_VJ; FPR_VK];
  row "vmaddwod.w.hu.h" 0x70be8000 [FPR_VD; FPR_VJ; FPR_VK];
  row "vmaddwod.d.wu.w" 0x70bf0000 [FPR_VD; FPR_VJ; FPR_VK];
  row "vmaddwod.q.du.d" 0x70bf8000 [FPR_VD; FPR_VJ; FPR_VK];
  row "vmaddwl.h.bu.b" 0x70c00000 [FPR_VD; FPR_VJ; FPR_VK];
  row "vmaddwl.w.hu.h" 0x70c08000 [FPR_VD; FPR_VJ; FPR_VK];
  row "vmaddwl.d.wu.w" 0x70c10000 [FPR_VD; FPR_VJ; FPR_VK];
  row "vmaddwl.q.du.d" 0x70c18000 [FPR_VD; FPR_VJ; FPR_VK];
  row "vmaddwh.h.bu.b" 0x70c20000 [FPR_VD; FPR_VJ; FPR_VK];
  row "vmaddwh.w.hu.h" 0x70c28000 [FPR_VD; FPR_VJ; FPR_VK];
  row "vmaddwh.d.wu.w" 0x70c30000 [FPR_VD; FPR_VJ; FPR_VK];
  row "vmaddwh.q.du.d" 0x70c38000 [FPR_VD; FPR_VJ; FPR_VK];
  row "vdp2.h.b" 0x70c40000 [FPR_VD; FPR_VJ; FPR_VK];
  row "vdp2.w.h" 0x70c48000 [FPR_VD; FPR_VJ; FPR_VK];
  row "vdp2.d.w" 0x70c50000 [FPR_VD; FPR_VJ; FPR_VK];
  row "vdp2.q.d" 0x70c58000 [FPR_VD; FPR_VJ; FPR_VK];
  row "vdp2.hu.bu" 0x70c60000 [FPR_VD; FPR_VJ; FPR_VK];
  row "vdp2.wu.hu" 0x70c68000 [FPR_VD; FPR_VJ; FPR_VK];
  row "vdp2.du.wu" 0x70c70000 [FPR_VD; FPR_VJ; FPR_VK];
  row "vdp2.qu.du" 0x70c78000 [FPR_VD; FPR_VJ; FPR_VK];
  row "vdp2.h.bu.b" 0x70c80000 [FPR_VD; FPR_VJ; FPR_VK];
  row "vdp2.w.hu.h" 0x70c88000 [FPR_VD; FPR_VJ; FPR_VK];
  row "vdp2.d.wu.w" 0x70c90000 [FPR_VD; FPR_VJ; FPR_VK];
  row "vdp2.q.du.d" 0x70c98000 [FPR_VD; FPR_VJ; FPR_VK];
  row "vdp2add.h.b" 0x70ca0000 [FPR_VD; FPR_VJ; FPR_VK];
  row "vdp2add.w.h" 0x70ca8000 [FPR_VD; FPR_VJ; FPR_VK];
  row "vdp2add.d.w" 0x70cb0000 [FPR_VD; FPR_VJ; FPR_VK];
  row "vdp2add.q.d" 0x70cb8000 [FPR_VD; FPR_VJ; FPR_VK];
  row "vdp2add.h.bu" 0x70cc0000 [FPR_VD; FPR_VJ; FPR_VK];
  row "vdp2add.w.hu" 0x70cc8000 [FPR_VD; FPR_VJ; FPR_VK];
  row "vdp2add.d.wu" 0x70cd0000 [FPR_VD; FPR_VJ; FPR_VK];
  row "vdp2add.q.du" 0x70cd8000 [FPR_VD; FPR_VJ; FPR_VK];
  row "vdp2add.h.bu.b" 0x70ce0000 [FPR_VD; FPR_VJ; FPR_VK];
  row "vdp2add.w.hu.h" 0x70ce8000 [FPR_VD; FPR_VJ; FPR_VK];
  row "vdp2add.d.wu.w" 0x70cf0000 [FPR_VD; FPR_VJ; FPR_VK];
  row "vdp2add.q.du.d" 0x70cf8000 [FPR_VD; FPR_VJ; FPR_VK];
  row "vdp2sub.h.b" 0x70d00000 [FPR_VD; FPR_VJ; FPR_VK];
  row "vdp2sub.w.h" 0x70d08000 [FPR_VD; FPR_VJ; FPR_VK];
  row "vdp2sub.d.w" 0x70d10000 [FPR_VD; FPR_VJ; FPR_VK];
  row "vdp2sub.q.d" 0x70d18000 [FPR_VD; FPR_VJ; FPR_VK];
  row "vdp2sub.h.bu" 0x70d20000 [FPR_VD; FPR_VJ; FPR_VK];
  row "vdp2sub.w.hu" 0x70d28000 [FPR_VD; FPR_VJ; FPR_VK];
  row "vdp2sub.d.wu" 0x70d30000 [FPR_VD; FPR_VJ; FPR_VK];
  row "vdp2sub.q.du" 0x70d38000 [FPR_VD; FPR_VJ; FPR_VK];
  row "vdp4.w.b" 0x70d40000 [FPR_VD; FPR_VJ; FPR_VK];
  row "vdp4.d.h" 0x70d48000 [FPR_VD; FPR_VJ; FPR_VK];
  row "vdp4.q.w" 0x70d50000 [FPR_VD; FPR_VJ; FPR_VK];
  row "vdp4.w.bu" 0x70d60000 [FPR_VD; FPR_VJ; FPR_VK];
  row "vdp4.d.hu" 0x70d68000 [FPR_VD; FPR_VJ; FPR_VK];
  row "vdp4.q.wu" 0x70d70000 [FPR_VD; FPR_VJ; FPR_VK];
  row "vdp4.w.bu.b" 0x70d80000 [FPR_VD; FPR_VJ; FPR_VK];
  row "vdp4.d.hu.h" 0x70d88000 [FPR_VD; FPR_VJ; FPR_VK];
  row "vdp4.q.wu.w" 0x70d90000 [FPR_VD; FPR_VJ; FPR_VK];
  row "vdp4add.w.b" 0x70da0000 [FPR_VD; FPR_VJ; FPR_VK];
  row "vdp4add.d.h" 0x70da8000 [FPR_VD; FPR_VJ; FPR_VK];
  row "vdp4add.q.w" 0x70db0000 [FPR_VD; FPR_VJ; FPR_VK];
  row "vdp4add.w.bu" 0x70dc0000 [FPR_VD; FPR_VJ; FPR_VK];
  row "vdp4add.d.hu" 0x70dc8000 [FPR_VD; FPR_VJ; FPR_VK];
  row "vdp4add.q.wu" 0x70dd0000 [FPR_VD; FPR_VJ; FPR_VK];
  row "vdp4add.w.bu.b" 0x70de0000 [FPR_VD; FPR_VJ; FPR_VK];
  row "vdp4add.d.hu.h" 0x70de8000 [FPR_VD; FPR_VJ; FPR_VK];
  row "vdp4add.q.wu.w" 0x70df0000 [FPR_VD; FPR_VJ; FPR_VK];
  row "vdiv.b" 0x70e00000 [FPR_VD; FPR_VJ; FPR_VK];
  row "vdiv.h" 0x70e08000 [FPR_VD; FPR_VJ; FPR_VK];
  row "vdiv.w" 0x70e10000 [FPR_VD; FPR_VJ; FPR_VK];
  row "vdiv.d" 0x70e18000 [FPR_VD; FPR_VJ; FPR_VK];
  row "vmod.b" 0x70e20000 [FPR_VD; FPR_VJ; FPR_VK];
  row "vmod.h" 0x70e28000 [FPR_VD; FPR_VJ; FPR_VK];
  row "vmod.w" 0x70e30000 [FPR_VD; FPR_VJ; FPR_VK];
  row "vmod.d" 0x70e38000 [FPR_VD; FPR_VJ; FPR_VK];
  row "vdiv.bu" 0x70e40000 [FPR_VD; FPR_VJ; FPR_VK];
  row "vdiv.hu" 0x70e48000 [FPR_VD; FPR_VJ; FPR_VK];
  row "vdiv.wu" 0x70e50000 [FPR_VD; FPR_VJ; FPR_VK];
  row "vdiv.du" 0x70e58000 [FPR_VD; FPR_VJ; FPR_VK];
  row "vmod.bu" 0x70e60000 [FPR_VD; FPR_VJ; FPR_VK];
  row "vmod.hu" 0x70e68000 [FPR_VD; FPR_VJ; FPR_VK];
  row "vmod.wu" 0x70e70000 [FPR_VD; FPR_VJ; FPR_VK];
  row "vmod.du" 0x70e78000 [FPR_VD; FPR_VJ; FPR_VK];
  row "vsll.b" 0x70e80000 [FPR_VD; FPR_VJ; FPR_VK];
  row "vsll.h" 0x70e88000 [FPR_VD; FPR_VJ; FPR_VK];
  row "vsll.w" 0x70e90000 [FPR_VD; FPR_VJ; FPR_VK];
  row "vsll.d" 0x70e98000 [FPR_VD; FPR_VJ; FPR_VK];
  row "vsrl.b" 0x70ea0000 [FPR_VD; FPR_VJ; FPR_VK];
  row "vsrl.h" 0x70ea8000 [FPR_VD; FPR_VJ; FPR_VK];
  row "vsrl.w" 0x70eb0000 [FPR_VD; FPR_VJ; FPR_VK];
  row "vsrl.d" 0x70eb8000 [FPR_VD; FPR_VJ; FPR_VK];
  row "vsra.b" 0x70ec0000 [FPR_VD; FPR_VJ; FPR_VK];
  row "vsra.h" 0x70ec8000 [FPR_VD; FPR_VJ; FPR_VK];
  row "vsra.w" 0x70ed0000 [FPR_VD; FPR_VJ; FPR_VK];
  row "vsra.d" 0x70ed8000 [FPR_VD; FPR_VJ; FPR_VK];
  row "vrotr.b" 0x70ee0000 [FPR_VD; FPR_VJ; FPR_VK];
  row "vrotr.h" 0x70ee8000 [FPR_VD; FPR_VJ; FPR_VK];
  row "vrotr.w" 0x70ef0000 [FPR_VD; FPR_VJ; FPR_VK];
  row "vrotr.d" 0x70ef8000 [FPR_VD; FPR_VJ; FPR_VK]].

Definition rows_7 : list template := [
  row "vsrlr.b" 0x70f00000 [FPR_VD; FPR_VJ; FPR_VK];
  row "vsrlr.h" 0x70f08000 [FPR_VD; FPR_VJ; FPR_VK];
  row "vsrlr.w" 0x70f10000 [FPR_VD; FPR_VJ; FPR_VK];
  row "vsrlr.d" 0x70f18000 [FPR_VD; FPR_VJ; FPR_VK];
  row "vsrar.b" 0x70f20000 [FPR_VD; FPR_VJ; FPR_VK];
  row "vsrar.h" 0x70f28000 [FPR_VD; FPR_VJ; FPR_VK];
  row "vsrar.w" 0x70f30000 [FPR_VD; FPR_VJ; FPR_VK];
  row "vsrar.d" 0x70f38000 [FPR_VD; FPR_VJ; FPR_VK];
  row "vsrln.b.h" 0x70f48000 [FPR_VD; FPR_VJ; FPR_VK];
  row "vsrln.h.w" 0x70f50000 [FPR_VD; FPR_VJ; FPR_VK];
  row "vsrln.w.d" 0x70f58000 [FPR_VD; FPR_VJ; FPR_VK];
  row "vsran.b.h" 0x70f68000 [FPR_VD; FPR_VJ; FPR_VK];
  row "vsran.h.w" 0x70f70000 [FPR_VD; FPR_VJ; FPR_VK];
  row "vsran.w.d" 0x70f78000 [FPR_VD; FPR_VJ; FPR_VK];
  row "vsrlrn.b.h" 0x70f88000 [FPR_VD; FPR_VJ; FPR_VK];
  row "vsrlrn.h.w" 0x70f90000 [FPR_VD; FPR_VJ; FPR_VK];
  row "vsrlrn.w.d" 0x70f98000 [FPR_VD; FPR_VJ; FPR_VK];
  row "vsrarn.b.h" 0x70fa8000 [FPR_VD; FPR_VJ; FPR_VK];
  row "vsrarn.h.w" 0x70fb0000 [FPR_VD; FPR_VJ; FPR_VK];
  row "vsrarn.w.d" 0x70fb8000 [FPR_VD; FPR_VJ; FPR_VK];
  row "vssrln.b.h" 0x70fc8000 [FPR_VD; FPR_VJ; FPR_VK];
  row "vssrln.h.w" 0x70fd0000 [FPR_VD; FPR_VJ; FPR_VK];
  row "vssrln.w.d" 0x70fd8000 [FPR_VD; FPR_VJ; FPR_VK];
  row "vssran.b.h" 0x70fe8000 [FPR_VD; FPR_VJ; FPR_VK];
  row "vssran.h.w" 0x70ff0000 [FPR_VD; FPR_VJ; FPR_VK];
  row "vssran.w.d" 0x70ff8000 [FPR_VD; FPR_VJ; FPR_VK];
  row "vssrlrn.b.h" 0x71008000 [FPR_VD; FPR_VJ; FPR_VK];
  row "vssrlrn.h.w" 0x71010000 [FPR_VD; FPR_VJ; FPR_VK];
  row "vssrlrn.w.d" 0x71018000 [FPR_VD; FPR_VJ; FPR_VK];
  row "vssrarn.b.h" 0x71028000 [FPR_VD; FPR_VJ; FPR_VK];
  row "vssrarn.h.w" 0x71030000 [FPR_VD; FPR_VJ; FPR_VK];
  row "vssrarn.w.d" 0x71038000 [FPR_VD; FPR_VJ; FPR_VK];
  row "vssrln.bu.h" 0x71048000 [FPR_VD; FPR_VJ; FPR_VK];
  row "vssrln.hu.w" 0x71050000 [FPR_VD; FPR_VJ; FPR_VK];
  row "vssrln.wu.d" 0x71058000 [FPR_VD; FPR_VJ; FPR_VK];
  row "vssran.bu.h" 0x71068000 [FPR_VD; FPR_VJ; FPR_VK];
  row "vssran.hu.w" 0x71070000 [FPR_VD; FPR_VJ; FPR_VK];
  row "vssran.wu.d" 0x71078000 [FPR_VD; FPR_VJ; FPR_VK];
  row "vssrlrn.bu.h" 0x71088000 [FPR_VD; FPR_VJ; FPR_VK];
  row "vssrlrn.hu.w" 0x71090000 [FPR_VD; FPR_VJ; FPR_VK];
  row "vssrlrn.wu.d" 0x71098000 [FPR_VD; FPR_VJ; FPR_VK];
  row "vssrarn.bu.h" 0x710a8000 [FPR_VD; FPR_VJ; FPR_VK];
  row "vssrarn.hu.w" 0x710b0000 [FPR_VD; FPR_VJ; FPR_VK];
  row "vssrarn.wu.d" 0x710b8000 [FPR_VD; FPR_VJ; FPR_VK];
  row "vbitclr.b" 0x710c0000 [FPR_VD; FPR_VJ; FPR_VK];
  row "vbitclr.h" 0x710c8000 [FPR_VD; FPR_VJ; FPR_VK];
  row "vbitclr.w" 0x710d0000 [FPR_VD; FPR_VJ; FPR_VK];
  row "vbitclr.d" 0x710d8000 [FPR_VD; FPR_VJ; FPR_VK];
  row "vbitset.b" 0x710e0000 [FPR_VD; FPR_VJ; FPR_VK];
  row "vbitset.h" 0x710e8000 [FPR_VD; FPR_VJ; FPR_VK];
  row "vbitset.w" 0x710f0000 [FPR_VD; FPR_VJ; FPR_VK];
  row "vbitset.d" 0x710f8000 [FPR_VD; FPR_VJ; FPR_VK];
  row "vbitrev.b" 0x71100000 [FPR_VD; FPR_VJ; FPR_VK];
  row "vbitrev.h" 0x71108000 [FPR_VD; FPR_VJ; FPR_VK];
  row "vbitrev.w" 0x71110000 [FPR_VD; FPR_VJ; FPR_VK];
  row "vbitrev.d" 0x71118000 [FPR_VD; FPR_VJ; FPR_VK];
  row "vbstrc12.b" 0x71120000 [FPR_VD; FPR_VJ; FPR_VK];
  row "vbstrc12.h" 0x71128000 [FPR_VD; FPR_VJ; FPR_VK];
  row "vbstrc12.w" 0x71130000 [FPR_VD; FPR_VJ; FPR_VK];
  row "vbstrc12.d" 0x71138000 [FPR_VD; FPR_VJ; FPR_VK];
  row "vbstrc21.b" 0x71140000 [FPR_VD; FPR_VJ; FPR_VK];
  row "vbstrc21.h" 0x71148000 [FPR_VD; FPR_VJ; FPR_VK];
  row "vbstrc21.w" 0x71150000 [FPR_VD; FPR_VJ; FPR_VK];
  row "vbstrc21.d" 0x71158000 [FPR_VD; FPR_VJ; FPR_VK];
  row "vpackev.b" 0x71160000 [FPR_VD; FPR_VJ; FPR_VK];
  row "vpackev.h" 0x71168000 [FPR_VD; FPR_VJ; FPR_VK];
  row "vpackev.w" 0x71170000 [FPR_VD; FPR_VJ; FPR_VK];
  row "vpackev.d" 0x71178000 [FPR_VD; FPR_VJ; FPR_VK];
  row "vpackod.b" 0x71180000 [FPR_VD; FPR_VJ; FPR_VK];
  row "vpackod.h" 0x71188000 [FPR_VD; FPR_VJ; FPR_VK];
  row "vpackod.w" 0x71190000 [FPR_VD; FPR_VJ; FPR_VK];
  row "vpackod.d" 0x71198000 [FPR_VD; FPR_VJ; FPR_VK];
  row "vilvl.b" 0x711a0000 [FPR_VD; FPR_VJ; FPR_VK];
  row "vilvl.h" 0x711a8000 [FPR_VD; FPR_VJ; FPR_VK];
  row "vilvl.w" 0x711b0000 [FPR_VD; FPR_VJ; FPR_VK];
  row "vilvl.d" 0x711b8000 [FPR_VD; FPR_VJ; FPR_VK];
  row "vilvh.b" 0x711c0000 [FPR_VD; FPR_VJ; FPR_VK];
  row "vilvh.h" 0x711c8000 [FPR_VD; FPR_VJ; FPR_VK];
  row "vilvh.w" 0x711d0000 [FPR_VD; FPR_VJ; FPR_VK];
  row "vilvh.d" 0x711d8000 [FPR_VD; FPR_VJ; FPR_VK];
  row "vpickev.b" 0x711e0000 [FPR_VD; FPR_VJ; FPR_VK];
  row "vpickev.h" 0x711e8000 [FPR_VD; FPR_VJ; FPR_VK];
  row "vpickev.w" 0x711f0000 [FPR_VD; FPR_VJ; FPR_VK];
  row "vpickev.d" 0x711f8000 [FPR_VD; FPR_VJ; FPR_VK];
  row "vpickod.b" 0x71200000 [FPR_VD; FPR_VJ; FPR_VK];
  row "vpickod.h" 0x71208000 [FPR_VD; FPR_VJ; FPR_VK];
  row "vpickod.w" 0x71210000 [FPR_VD; FPR_VJ; FPR_VK];
  row "vpickod.d" 0x71218000 [FPR_VD; FPR_VJ; FPR_VK];
  row "vreplve.b" 0x71220000 [FPR_VD; FPR_VJ; GPR_RK];
  row "vreplve.h" 0x71228000 [FPR_VD; FPR_VJ; GPR_RK];
  row "vreplve.w" 0x71230000 [FPR_VD; FPR_VJ; GPR_RK];
  row "vreplve.d" 0x71238000 [FPR_VD; FPR_VJ; GPR_RK];
  row "vextrcol.b" 0x71240000 [FPR_VD; FPR_VJ; GPR_RK];
  row "vextrcol.h" 0x71248000 [FPR_VD; FPR_VJ; GPR_RK];
  row "vextrcol.w" 0x71250000 [FPR_VD; FPR_VJ; GPR_RK];
  row "vextrcol.d" 0x71258000 [FPR_VD; FPR_VJ; GPR_RK];
  row "vand.v" 0x71260000 [FPR_VD; FPR_VJ; FPR_VK];
  row "vor.v" 0x71268000 [FPR_VD; FPR_VJ; FPR_VK];
  row "vxor.v" 0x71270000 [FPR_VD; FPR_VJ; FPR_VK];
  row "vnor.v" 0x71278000 [FPR_VD; FPR_VJ; FPR_VK];
  row "vandn.v" 0x71280000 [FPR_VD; FPR_VJ; FPR_VK];
  row "vorn.v" 0x71288000 [FPR_VD; FPR_VJ; FPR_VK];
  row "vrandsign.b" 0x71290000 [FPR_VD; FPR_VJ; FPR_VK];
  row "vrandsign.h" 0x71298000 [FPR_VD; FPR_VJ; FPR_VK];
  row "vrorsign.b" 0x712a0000 [FPR_VD; FPR_VJ; FPR_VK];
  row "vrorsign.h" 0x712a8000 [FPR_VD; FPR_VJ; FPR_VK];
  row "vfrstp.b" 0x712b0000 [FPR_VD; FPR_VJ; FPR_VK];
  row "vfrstp.h" 0x712b8000 [FPR_VD; FPR_VJ; FPR_VK];
  row "vclrstrr.v" 0x712c0000 [FPR_VD; FPR_VJ; GPR_RK];
  row "vclrstrv.v" 0x712c8000 [FPR_VD; FPR_VJ; FPR_VK];
  row "vadd.q" 0x712d0000 [FPR_VD; FPR_VJ; FPR_VK];
  row "vsub.q" 0x712d8000 [FPR_VD; FPR_VJ; FPR_VK];
  row "vsigncov.b" 0x712e0000 [FPR_VD; FPR_VJ; FPR_VK];
  row "vsigncov.h" 0x712e8000 [FPR_VD; FPR_VJ; FPR_VK];
  row "vsigncov.w" 0x712f0000 [FPR_VD; FPR_VJ; FPR_VK];
  row "vsigncov.d" 0x712f8000 [FPR_VD; FPR_VJ; FPR_VK];
  row "vfadd.s" 0x71308000 [FPR_VD; FPR_VJ; FPR_VK];
  row "vfadd.d" 0x71310000 [FPR_VD; FPR_VJ; FPR_VK];
  row "vfsub.s" 0x71328000 [FPR_VD; FPR_VJ; FPR_VK];
  row "vfsub.d" 0x71330000 [FPR_VD; FPR_VJ; FPR_VK];
  row "vfaddsub.s" 0x71348000 [FPR_VD; FPR_VJ; FPR_VK];
  row "vfaddsub.d" 0x71350000 [FPR_VD; FPR_VJ; FPR_VK];
  row "vfsubadd.s" 0x71368000 [FPR_VD; FPR_VJ; FPR_VK];
  row "vfsubadd.d" 0x71370000 [FPR_VD; FPR_VJ; FPR_VK];
  row "vfmul.s" 0x71388000 [FPR_VD; FPR_VJ; FPR_VK];
  row "vfmul.d" 0x71390000 [FPR_VD; FPR_VJ; FPR_VK];
  row "vfdiv.s" 0x713a8000 [FPR_VD; FPR_VJ; FPR_VK];
  row "vfdiv.d" 0x713b0000 [FPR_VD; FPR_VJ; FPR_VK];
  row "vfmax.s" 0x713c8000 [FPR_VD; FPR_VJ; FPR_VK];
  row "vfmax.d" 0x713d0000 [FPR_VD; FPR_VJ; FPR_VK];
  row "vfmin.s" 0x713e8000 [FPR_VD; FPR_VJ; FPR_VK];
  row "vfmin.d" 0x713f0000 [FPR_VD; FPR_VJ; FPR_VK];
  row "vfmaxa.s" 0x71408000 [FPR_VD; FPR_VJ; FPR_VK];
  row "vfmaxa.d" 0x71410000 [FPR_VD; FPR_VJ; FPR_VK];
  row "vfmina.s" 0x71428000 [FPR_VD; FPR_VJ; FPR_VK];
  row "vfmina.d" 0x71430000 [FPR_VD; FPR_VJ; FPR_VK];
  row "vfscaleb.s" 0x71448000 [FPR_VD; FPR_VJ; FPR_VK];
  row "vfscaleb.d" 0x71450000 [FPR_VD; FPR_VJ; FPR_VK];
  row "vfcvt.h.s" 0x71460000 [FPR_VD; FPR_VJ; FPR_VK];
  row "vfcvt.s.d" 0x71468000 [FPR_VD; FPR_VJ; FPR_VK];
  row "vffint.s.l" 0x71480000 [FPR_VD; FPR_VJ; FPR_VK];
  row "vftint.w.d" 0x71498000 [FPR_VD; FPR_VJ; FPR_VK];
  row "vftintrm.w.d" 0x714a0000 [FPR_VD; FPR_VJ; FPR_VK];
  row "vftintrp.w.d" 0x714a8000 [FPR_VD; FPR_VJ; FPR_VK];
  row "vftintrz.w.d" 0x714b0000 [FPR_VD; FPR_VJ; FPR_VK];
  row "vftintrne.w.d" 0x714b8000 [FPR_VD; FPR_VJ; FPR_VK];
  row "vhadd4.h.bu" 0x714e8000 [FPR_VD; FPR_VJ; FPR_VK];
  row "vshuf4.w" 0x714f0000 [FPR_VD; FPR_VJ; FPR_VK];
  row "vshuf2.d" 0x714f8000 [FPR_VD; FPR_VJ; FPR_VK];
  row "aes128.enc" 0x71500000 [FPR_VD; FPR_VJ; FPR_VK]].

Definition rows_8 : list template := [
  row "aes128.dec" 0x71508000 [FPR_VD; FPR_VJ; FPR_VK];
  row "aes192.enc" 0x71510000 [FPR_VD; FPR_VJ; FPR_VK];
  row "aes192.dec" 0x71518000 [FPR_VD; FPR_VJ; FPR_VK];
  row "aes256.enc" 0x71520000 [FPR_VD; FPR_VJ; FPR_VK];
  row "aes256.dec" 0x71528000 [FPR_VD; FPR_VJ; FPR_VK];
  row "aes.kg" 0x71530000 [FPR_VD; FPR_VJ; FPR_VK];
  row "aes.fr.enc" 0x71538000 [FPR_VD; FPR_VJ; FPR_VK];
  row "aes.fr.dec" 0x71540000 [FPR_VD; FPR_VJ; FPR_VK];
  row "aes.lr.enc" 0x71548000 [FPR_VD; FPR_VJ; FPR_VK];
  row "aes.lr.dec" 0x71550000 [FPR_VD; FPR_VJ; FPR_VK];
  row "aes.mc.enc" 0x71558000 [FPR_VD; FPR_VJ];
  row "aes.mc.dec" 0x71560000 [FPR_VD; FPR_VJ];
  row "aes.sb.enc" 0x71568000 [FPR_VD; FPR_VJ];
  row "aes.sb.dec" 0x71570000 [FPR_VD; FPR_VJ];
  row "aes.sr.enc" 0x71578000 [FPR_VD; FPR_VJ];
  row "aes.sr.dec" 0x71580000 [FPR_VD; FPR_VJ];
  row "md5.ms" 0x71588000 [FPR_VD; FPR_VJ; FPR_VK];
  row "md5.4r" 0x71590000 [FPR_VD; FPR_VJ; FPR_VK];
  row "sha1.ms.1" 0x71598000 [FPR_VD; FPR_VJ; FPR_VK];
  row "sha1.ms.2" 0x715a0000 [FPR_VD; FPR_VJ; FPR_VK];
  row "sha1.hash.4r" 0x715a8000 [FPR_VD; FPR_VJ; FPR_VK];
  row "sha256.ms.1" 0x715b0000 [FPR_VD; FPR_VJ; FPR_VK];
  row "sha256.ms.2" 0x715b8000 [FPR_VD; FPR_VJ; FPR_VK];
  row "sha256.hash.2r" 0x715c0000 [FPR_VD; FPR_VJ; FPR_VK];
  row "sha512.ms.1" 0x715c8000 [FPR_VD; FPR_VJ; FPR_VK];
  row "sha512.ms.2" 0x715d0000 [FPR_VD; FPR_VJ; FPR_VK];
  row "sha512.hash.r.1" 0x715d8000 [FPR_VD; FPR_VJ; FPR_VK];
  row "sha512.hash.r.2" 0x715e0000 [FPR_VD; FPR_VJ; FPR_VK];
  row "vpmul.w" 0x71600000 [FPR_VD; FPR_VJ; FPR_VK];
  row "vpmul.d" 0x71608000 [FPR_VD; FPR_VJ; FPR_VK];
  row "vpmuh.w" 0x71610000 [FPR_VD; FPR_VJ; FPR_VK];
  row "vpmuh.d" 0x71618000 [FPR_VD; FPR_VJ; FPR_VK];
  row "vpmulacc.w" 0x71620000 [FPR_VD; FPR_VJ; FPR_VK];
  row "vpmulacc.d" 0x71628000 [FPR_VD; FPR_VJ; FPR_VK];
  row "vpmuhacc.w" 0x71630000 [FPR_VD; FPR_VJ; FPR_VK];
  row "vpmuhacc.d" 0x71638000 [FPR_VD; FPR_VJ; FPR_VK];
  row "vpmulwl.h.b" 0x71640000 [FPR_VD; FPR_VJ; FPR_VK];
  row "vpmulwl.w.h" 0x71648000 [FPR_VD; FPR_VJ; FPR_VK];
  row "vpmulwl.d.w" 0x71650000 [FPR_VD; FPR_VJ; FPR_VK];
  row "vpmulwl.q.d" 0x71658000 [FPR_VD; FPR_VJ; FPR_VK];
  row "vpmulwh.h.b" 0x71660000 [FPR_VD; FPR_VJ; FPR_VK];
  row "vpmulwh.w.h" 0x71668000 [FPR_VD; FPR_VJ; FPR_VK];
  row "vpmulwh.d.w" 0x71670000 [FPR_VD; FPR_VJ; FPR_VK];
  row "vpmulwh.q.d" 0x71678000 [FPR_VD; FPR_VJ; FPR_VK];
  row "vpmaddwl.h.b" 0x71680000 [FPR_VD; FPR_VJ; FPR_VK];
  row "vpmaddwl.w.h" 0x71688000 [FPR_VD; FPR_VJ; FPR_VK];
  row "vpmaddwl.d.w" 0x71690000 [FPR_VD; FPR_VJ; FPR_VK];
  row "vpmaddwl.q.d" 0x71698000 [FPR_VD; FPR_VJ; FPR_VK];
  row "vpmaddwh.h.b" 0x716a0000 [FPR_VD; FPR_VJ; FPR_VK];
  row "vpmaddwh.w.h" 0x716a8000 [FPR_VD; FPR_VJ; FPR_VK];
  row "vpmaddwh.d.w" 0x716b0000 [FPR_VD; FPR_VJ; FPR_VK];
  row "vpmaddwh.q.d" 0x716b8000 [FPR_VD; FPR_VJ; FPR_VK];
  row "vpdp2.q.d" 0x716c0000 [FPR_VD; FPR_VJ; FPR_VK];
  row "vpdp2add.q.d" 0x716c8000 [FPR_VD; FPR_VJ; FPR_VK];
  row "vcdp4.re.d.h" 0x71700000 [FPR_VD; FPR_VJ; FPR_VK];
  row "vcdp4.im.d.h" 0x71708000 [FPR_VD; FPR_VJ; FPR_VK];
  row "vcdp4add.re.d.h" 0x71710000 [FPR_VD; FPR_VJ; FPR_VK];
  row "vcdp4add.im.d.h" 0x71718000 [FPR_VD; FPR_VJ; FPR_VK];
  row "vcdp2.re.q.w" 0x71720000 [FPR_VD; FPR_VJ; FPR_VK];
  row "vcdp2.im.q.w" 0x71728000 [FPR_VD; FPR_VJ; FPR_VK];
  row "vcdp2add.re.q.w" 0x71730000 [FPR_VD; FPR_VJ; FPR_VK];
  row "vcdp2add.im.q.w" 0x71738000 [FPR_VD; FPR_VJ; FPR_VK];
  row "vsignsel.w" 0x71790000 [FPR_VD; FPR_VJ; FPR_VK];
  row "vsignsel.d" 0x71798000 [FPR_VD; FPR_VJ; FPR_VK];
  row "vshuf.h" 0x717a8000 [FPR_VD; FPR_VJ; FPR_VK];
  row "vshuf.w" 0x717b0000 [FPR_VD; FPR_VJ; FPR_VK];
  row "vshuf.d" 0x717b8000 [FPR_VD; FPR_VJ; FPR_VK];
  row "vseqi.b" 0x72800000 [FPR_VD; FPR_VJ; IMM_SI5];
  row "vseqi.h" 0x72808000 [FPR_VD; FPR_VJ; IMM_SI5];
  row "vseqi.w" 0x72810000 [FPR_VD; FPR_VJ; IMM_SI5];
  row "vseqi.d" 0x72818000 [FPR_VD; FPR_VJ; IMM_SI5];
  row "vslei.b" 0x72820000 [FPR_VD; FPR_VJ; IMM_SI5];
  row "vslei.h" 0x72828000 [FPR_VD; FPR_VJ; IMM_SI5];
  row "vslei.w" 0x72830000 [FPR_VD; FPR_VJ; IMM_SI5];
  row "vslei.d" 0x72838000 [FPR_VD; FPR_VJ; IMM_SI5];
  row "vslei.bu" 0x72840000 [FPR_VD; FPR_VJ; IMM_UI5L];
  row "vslei.hu" 0x72848000 [FPR_VD; FPR_VJ; IMM_UI5L];
  row "vslei.wu" 0x72850000 [FPR_VD; FPR_VJ; IMM_UI5L];
  row "vslei.du" 0x72858000 [FPR_VD; FPR_VJ; IMM_UI5L];
  row "vslti.b" 0x72860000 [FPR_VD; FPR_VJ; IMM_SI5];
  row "vslti.h" 0x72868000 [FPR_VD; FPR_VJ; IMM_SI5];
  row "vslti.w" 0x72870000 [FPR_VD; FPR_VJ; IMM_SI5];
  row "vslti.d" 0x72878000 [FPR_VD; FPR_VJ; IMM_SI5];
  row "vslti.bu" 0x72880000 [FPR_VD; FPR_VJ; IMM_UI5L];
  row "vslti.hu" 0x72888000 [FPR_VD; FPR_VJ; IMM_UI5L];
  row "vslti.wu" 0x72890000 [FPR_VD; FPR_VJ; IMM_UI5L];
  row "vslti.du" 0x72898000 [FPR_VD; FPR_VJ; IMM_UI5L];
  row "vaddi.bu" 0x728a0000 [FPR_VD; FPR_VJ; IMM_UI5L];
  row "vaddi.hu" 0x728a8000 [FPR_VD; FPR_VJ; IMM_UI5L];
  row "vaddi.wu" 0x728b0000 [FPR_VD; FPR_VJ; IMM_UI5L];
  row "vaddi.du" 0x728b8000 [FPR_VD; FPR_VJ; IMM_UI5L];
  row "vsubi.bu" 0x728c0000 [FPR_VD; FPR_VJ; IMM_UI5L];
  row "vsubi.hu" 0x728c8000 [FPR_VD; FPR_VJ; IMM_UI5L];
  row "vsubi.wu" 0x728d0000 [FPR_VD; FPR_VJ; IMM_UI5L];
  row "vsubi.du" 0x728d8000 [FPR_VD; FPR_VJ; IMM_UI5L];
  row "vbsll.v" 0x728e0000 [FPR_VD; FPR_VJ; IMM_UI5L];
  row "vbsrl.v" 0x728e8000 [FPR_VD; FPR_VJ; IMM_UI5L];
  row "vmaxi.b" 0x72900000 [FPR_VD; FPR_VJ; IMM_SI5];
  row "vmaxi.h" 0x72908000 [FPR_VD; FPR_VJ; IMM_SI5];
  row "vmaxi.w" 0x72910000 [FPR_VD; FPR_VJ; IMM_SI5];
  row "vmaxi.d" 0x72918000 [FPR_VD; FPR_VJ; IMM_SI5];
  row "vmini.b" 0x72920000 [FPR_VD; FPR_VJ; IMM_SI5];
  row "vmini.h" 0x72928000 [FPR_VD; FPR_VJ; IMM_SI5];
  row "vmini.w" 0x72930000 [FPR_VD; FPR_VJ; IMM_SI5];
  row "vmini.d" 0x72938000 [FPR_VD; FPR_VJ; IMM_SI5];
  row "vmaxi.bu" 0x72940000 [FPR_VD; FPR_VJ; IMM_UI5L];
  row "vmaxi.hu" 0x72948000 [FPR_VD; FPR_VJ; IMM_UI5L];
  row "vmaxi.wu" 0x72950000 [FPR_VD; FPR_VJ; IMM_UI5L];
  row "vmaxi.du" 0x72958000 [FPR_VD; FPR_VJ; IMM_UI5L];
  row "vmini.bu" 0x72960000 [FPR_VD; FPR_VJ; IMM_UI5L];
  row "vmini.hu" 0x72968000 [FPR_VD; FPR_VJ; IMM_UI5L];
  row "vmini.wu" 0x72970000 [FPR_VD; FPR_VJ; IMM_UI5L];
  row "vmini.du" 0x72978000 [FPR_VD; FPR_VJ; IMM_UI5L];
  row "vrandsigni.b" 0x72980000 [FPR_VD; FPR_VJ; IMM_UI5L];
  row "vrandsigni.h" 0x72988000 [FPR_VD; FPR_VJ; IMM_UI5L];
  row "vrorsigni.b" 0x72990000 [FPR_VD; FPR_VJ; IMM_UI5L];
  row "vrorsigni.h" 0x72998000 [FPR_VD; FPR_VJ; IMM_UI5L];
  row "vfrstpi.b" 0x729a0000 [FPR_VD; FPR_VJ; IMM_UI5L];
  row "vfrstpi.h" 0x729a8000 [FPR_VD; FPR_VJ; IMM_UI5L];
  row "vclrstri.v" 0x729b0000 [FPR_VD; FPR_VJ; IMM_UI5L];
  row "vmepatmsk.v" 0x729b8000 [FPR_VD; IMM_MODE; IMM_UI5L];
  row "vclo.b" 0x729c0000 [FPR_VD; FPR_VJ];
  row "vclo.h" 0x729c0400 [FPR_VD; FPR_VJ];
  row "vclo.w" 0x729c0800 [FPR_VD; FPR_VJ];
  row "vclo.d" 0x729c0c00 [FPR_VD; FPR_VJ];
  row "vclz.b" 0x729c1000 [FPR_VD; FPR_VJ];
  row "vclz.h" 0x729c1400 [FPR_VD; FPR_VJ];
  row "vclz.w" 0x729c1800 [FPR_VD; FPR_VJ];
  row "vclz.d" 0x729c1c00 [FPR_VD; FPR_VJ];
  row "vpcnt.b" 0x729c2000 [FPR_VD; FPR_VJ];
  row "vpcnt.h" 0x729c2400 [FPR_VD; FPR_VJ];
  row "vpcnt.w" 0x729c2800 [FPR_VD; FPR_VJ];
  row "vpcnt.d" 0x729c2c00 [FPR_VD; FPR_VJ];
  row "vneg.b" 0x729c3000 [FPR_VD; FPR_VJ];
  row "vneg.h" 0x729c3400 [FPR_VD; FPR_VJ];
  row "vneg.w" 0x729c3800 [FPR_VD; FPR_VJ];
  row "vneg.d" 0x729c3c00 [FPR_VD; FPR_VJ];
  row "vmskltz.b" 0x729c4000 [FPR_VD; FPR_VJ];
  row "vmskltz.h" 0x729c4400 [FPR_VD; FPR_VJ];
  row "vmskltz.w" 0x729c4800 [FPR_VD; FPR_VJ];
  row "vmskltz.d" 0x729c4c00 [FPR_VD; FPR_VJ];
  row "vmskgez.b" 0x729c5000 [FPR_VD; FPR_VJ];
  row "vmsknz.b" 0x729c6000 [FPR_VD; FPR_VJ];
  row "vmskcopy.b" 0x729c7000 [FPR_VD; FPR_VJ];
  row "vmskfill.b" 0x729c8000 [FPR_VD; FPR_VJ];
  row "vfrstm.b" 0x729c9000 [FPR_VD; FPR_VJ];
  row "vfrstm.h" 0x729c9400 [FPR_VD; FPR_VJ];
  row "vseteqz.v" 0x729c9800 [FCC_CD; FPR_VJ];
  row "vsetnez.v" 0x729c9c00 [FCC_CD; FPR_VJ];
  row "vsetanyeqz.b" 0x729ca000 [FCC_CD; FPR_VJ]].

Definition rows_9 : list template := [
  row "vsetanyeqz.h" 0x729ca400 [FCC_CD; FPR_VJ];
  row "vsetanyeqz.w" 0x729ca800 [FCC_CD; FPR_VJ];
  row "vsetanyeqz.d" 0x729cac00 [FCC_CD; FPR_VJ];
  row "vsetallnez.b" 0x729cb000 [FCC_CD; FPR_VJ];
  row "vsetallnez.h" 0x729cb400 [FCC_CD; FPR_VJ];
  row "vsetallnez.w" 0x729cb800 [FCC_CD; FPR_VJ];
  row "vsetallnez.d" 0x729cbc00 [FCC_CD; FPR_VJ];
  row "vflogb.s" 0x729cc400 [FPR_VD; FPR_VJ];
  row "vflogb.d" 0x729cc800 [FPR_VD; FPR_VJ];
  row "vfclass.s" 0x729cd400 [FPR_VD; FPR_VJ];
  row "vfclass.d" 0x729cd800 [FPR_VD; FPR_VJ];
  row "vfsqrt.s" 0x729ce400 [FPR_VD; FPR_VJ];
  row "vfsqrt.d" 0x729ce800 [FPR_VD; FPR_VJ];
  row "vfrecip.s" 0x729cf400 [FPR_VD; FPR_VJ];
  row "vfrecip.d" 0x729cf800 [FPR_VD; FPR_VJ];
  row "vfrsqrt.s" 0x729d0400 [FPR_VD; FPR_VJ];
  row "vfrsqrt.d" 0x729d0800 [FPR_VD; FPR_VJ];
  row "vfrint.s" 0x729d3400 [FPR_VD; FPR_VJ];
  row "vfrint.d" 0x729d3800 [FPR_VD; FPR_VJ];
  row "vfrintrm.s" 0x729d4400 [FPR_VD; FPR_VJ];
  row "vfrintrm.d" 0x729d4800 [FPR_VD; FPR_VJ];
  row "vfrintrp.s" 0x729d5400 [FPR_VD; FPR_VJ];
  row "vfrintrp.d" 0x729d5800 [FPR_VD; FPR_VJ];
  row "vfrintrz.s" 0x729d6400 [FPR_VD; FPR_VJ];
  row "vfrintrz.d" 0x729d6800 [FPR_VD; FPR_VJ];
  row "vfrintrne.s" 0x729d7400 [FPR_VD; FPR_VJ];
  row "vfrintrne.d" 0x729d7800 [FPR_VD; FPR_VJ];
  row "vextl.w.b" 0x729d8400 [FPR_VD; FPR_VJ];
  row "vextl.d.b" 0x729d8800 [FPR_VD; FPR_VJ];
  row "vextl.d.h" 0x729d9400 [FPR_VD; FPR_VJ];
  row "vextl.w.bu" 0x729dac00 [FPR_VD; FPR_VJ];
  row "vextl.d.bu" 0x729db000 [FPR_VD; FPR_VJ];
  row "vextl.d.hu" 0x729dbc00 [FPR_VD; FPR_VJ];
  row "vhadd8.d.bu" 0x729dd000 [FPR_VD; FPR_VJ];
  row "vhminpos.w.hu" 0x729dd400 [FPR_VD; FPR_VJ];
  row "vhminpos.d.hu" 0x729dd800 [FPR_VD; FPR_VJ];
  row "vhminpos.q.hu" 0x729ddc00 [FPR_VD; FPR_VJ];
  row "vclrtail.b" 0x729de000 [FPR_VD; FPR_VJ];
  row "vclrtail.h" 0x729de400 [FPR_VD; FPR_VJ];
  row "vfcvtl.s.h" 0x729de800 [FPR_VD; FPR_VJ];
  row "vfcvth.s.h" 0x729dec00 [FPR_VD; FPR_VJ];
  row "vfcvtl.d.s" 0x729df000 [FPR_VD; FPR_VJ];
  row "vfcvth.d.s" 0x729df400 [FPR_VD; FPR_VJ];
  row "vffint.s.w" 0x729e0000 [FPR_VD; FPR_VJ];
  row "vffint.s.wu" 0x729e0400 [FPR_VD; FPR_VJ];
  row "vffint.d.l" 0x729e0800 [FPR_VD; FPR_VJ];
  row "vffint.d.lu" 0x729e0c00 [FPR_VD; FPR_VJ];
  row "vffintl.d.w" 0x729e1000 [FPR_VD; FPR_VJ];
  row "vffinth.d.w" 0x729e1400 [FPR_VD; FPR_VJ];
  row "vftint.w.s" 0x729e3000 [FPR_VD; FPR_VJ];
  row "vftint.l.d" 0x729e3400 [FPR_VD; FPR_VJ];
  row "vftintrm.w.s" 0x729e3800 [FPR_VD; FPR_VJ];
  row "vftintrm.l.d" 0x729e3c00 [FPR_VD; FPR_VJ];
  row "vftintrp.w.s" 0x729e4000 [FPR_VD; FPR_VJ];
  row "vftintrp.l.d" 0x729e4400 [FPR_VD; FPR_VJ];
  row "vftintrz.w.s" 0x729e4800 [FPR_VD; FPR_VJ];
  row "vftintrz.l.d" 0x729e4c00 [FPR_VD; FPR_VJ];
  row "vftintrne.w.s" 0x729e5000 [FPR_VD; FPR_VJ];
  row "vftintrne.l.d" 0x729e5400 [FPR_VD; FPR_VJ];
  row "vftint.wu.s" 0x729e5800 [FPR_VD; FPR_VJ];
  row "vftint.lu.d" 0x729e5c00 [FPR_VD; FPR_VJ];
  row "vftintrz.wu.s" 0x729e7000 [FPR_VD; FPR_VJ];
  row "vftintrz.lu.d" 0x729e7400 [FPR_VD; FPR_VJ];
  row "vftintl.l.s" 0x729e8000 [FPR_VD; FPR_VJ];
  row "vftinth.l.s" 0x729e8400 [FPR_VD; FPR_VJ];
  row "vftintrml.l.s" 0x729e8800 [FPR_VD; FPR_VJ];
  row "vftintrmh.l.s" 0x729e8c00 [FPR_VD; FPR_VJ];
  row "vftintrpl.l.s" 0x729e9000 [FPR_VD; FPR_VJ];
  row "vftintrph.l.s" 0x729e9400 [FPR_VD; FPR_VJ];
  row "vftintrzl.l.s" 0x729e9800 [FPR_VD; FPR_VJ];
  row "vftintrzh.l.s" 0x729e9c00 [FPR_VD; FPR_VJ];
  row "vftintrnel.l.s" 0x729ea000 [FPR_VD; FPR_VJ];
  row "vftintrneh.l.s" 0x729ea400 [FPR_VD; FPR_VJ];
  row "vexth.h.b" 0x729ee000 [FPR_VD; FPR_VJ];
  row "vexth.w.h" 0x729ee400 [FPR_VD; FPR_VJ];
  row "vexth.d.w" 0x729ee800 [FPR_VD; FPR_VJ];
  row "vexth.q.d" 0x729eec00 [FPR_VD; FPR_VJ];
  row "vexth.hu.bu" 0x729ef000 [FPR_VD; FPR_VJ];
  row "vexth.wu.hu" 0x729ef400 [FPR_VD; FPR_VJ];
  row "vexth.du.wu" 0x729ef800 [FPR_VD; FPR_VJ];
  row "vexth.qu.du" 0x729efc00 [FPR_VD; FPR_VJ];
  row "vreplgr2vr.b" 0x729f0000 [FPR_VD; GPR_RJ];
  row "vreplgr2vr.h" 0x729f0400 [FPR_VD; GPR_RJ];
  row "vreplgr2vr.w" 0x729f0800 [FPR_VD; GPR_RJ];
  row "vreplgr2vr.d" 0x729f0c00 [FPR_VD; GPR_RJ];
  row "vrotri.b" 0x72a02000 [FPR_VD; FPR_VJ; IMM_UI3];
  row "vrotri.h" 0x72a04000 [FPR_VD; FPR_VJ; IMM_UI4];
  row "vrotri.w" 0x72a08000 [FPR_VD; FPR_VJ; IMM_UI5L];
  row "vrotri.d" 0x72a10000 [FPR_VD; FPR_VJ; IMM_UI6];
  row "vsrlri.b" 0x72a42000 [FPR_VD; FPR_VJ; IMM_UI3];
  row "vsrlri.h" 0x72a44000 [FPR_VD; FPR_VJ; IMM_UI4];
  row "vsrlri.w" 0x72a48000 [FPR_VD; FPR_VJ; IMM_UI5L];
  row "vsrlri.d" 0x72a50000 [FPR_VD; FPR_VJ; IMM_UI6];
  row "vsrari.b" 0x72a82000 [FPR_VD; FPR_VJ; IMM_UI3];
  row "vsrari.h" 0x72a84000 [FPR_VD; FPR_VJ; IMM_UI4];
  row "vsrari.w" 0x72a88000 [FPR_VD; FPR_VJ; IMM_UI5L];
  row "vsrari.d" 0x72a90000 [FPR_VD; FPR_VJ; IMM_UI6];
  row "vinsgr2vr.b" 0x72eb8000 [FPR_VD; GPR_RJ; IMM_UI4];
  row "vinsgr2vr.h" 0x72ebc000 [FPR_VD; GPR_RJ; IMM_UI3];
  row "vinsgr2vr.w" 0x72ebe000 [FPR_VD; GPR_RJ; IMM_UI2];
  row "vinsgr2vr.d" 0x72ebf000 [FPR_VD; GPR_RJ; IMM_UI1];
  row "vpickve2gr.b" 0x72ef8000 [GPR_RD; FPR_VJ; IMM_UI4];
  row "vpickve2gr.h" 0x72efc000 [GPR_RD; FPR_VJ; IMM_UI3];
  row "vpickve2gr.w" 0x72efe000 [GPR_RD; FPR_VJ; IMM_UI2];
  row "vpickve2gr.d" 0x72eff000 [GPR_RD; FPR_VJ; IMM_UI1];
  row "vpickve2gr.bu" 0x72f38000 [GPR_RD; FPR_VJ; IMM_UI4];
  row "vpickve2gr.hu" 0x72f3c000 [GPR_RD; FPR_VJ; IMM_UI3];
  row "vpickve2gr.wu" 0x72f3e000 [GPR_RD; FPR_VJ; IMM_UI2];
  row "vpickve2gr.du" 0x72f3f000 [GPR_RD; FPR_VJ; IMM_UI1];
  row "vreplvei.b" 0x72f78000 [FPR_VD; FPR_VJ; IMM_UI4];
  row "vreplvei.h" 0x72f7c000 [FPR_VD; FPR_VJ; IMM_UI3];
  row "vreplvei.w" 0x72f7e000 [FPR_VD; FPR_VJ; IMM_UI2];
  row "vreplvei.d" 0x72f7f000 [FPR_VD; FPR_VJ; IMM_UI1];
  row "vextrcoli.b" 0x72fb8000 [FPR_VD; FPR_VJ; IMM_UI4];
  row "vextrcoli.h" 0x72fbc000 [FPR_VD; FPR_VJ; IMM_UI3];
  row "vextrcoli.w" 0x72fbe000 [FPR_VD; FPR_VJ; IMM_UI2];
  row "vextrcoli.d" 0x72fbf000 [FPR_VD; FPR_VJ; IMM_UI1];
  row "vsllwil.h.b" 0x73082000 [FPR_VD; FPR_VJ; IMM_UI3];
  row "vsllwil.w.h" 0x73084000 [FPR_VD; FPR_VJ; IMM_UI4];
  row "vsllwil.d.w" 0x73088000 [FPR_VD; FPR_VJ; IMM_UI5L];
  row "vextl.q.d" 0x73090000 [FPR_VD; FPR_VJ];
  row "vsllwil.hu.bu" 0x730c2000 [FPR_VD; FPR_VJ; IMM_UI3];
  row "vsllwil.wu.hu" 0x730c4000 [FPR_VD; FPR_VJ; IMM_UI4];
  row "vsllwil.du.wu" 0x730c8000 [FPR_VD; FPR_VJ; IMM_UI5L];
  row "vextl.qu.du" 0x730d0000 [FPR_VD; FPR_VJ];
  row "vbitclri.b" 0x73102000 [FPR_VD; FPR_VJ; IMM_UI3];
  row "vbitclri.h" 0x73104000 [FPR_VD; FPR_VJ; IMM_UI4];
  row "vbitclri.w" 0x73108000 [FPR_VD; FPR_VJ; IMM_UI5L];
  row "vbitclri.d" 0x73110000 [FPR_VD; FPR_VJ; IMM_UI6];
  row "vbitseti.b" 0x73142000 [FPR_VD; FPR_VJ; IMM_UI3];
  row "vbitseti.h" 0x73144000 [FPR_VD; FPR_VJ; IMM_UI4];
  row "vbitseti.w" 0x73148000 [FPR_VD; FPR_VJ; IMM_UI5L];
  row "vbitseti.d" 0x73150000 [FPR_VD; FPR_VJ; IMM_UI6];
  row "vbitrevi.b" 0x73182000 [FPR_VD; FPR_VJ; IMM_UI3];
  row "vbitrevi.h" 0x73184000 [FPR_VD; FPR_VJ; IMM_UI4];
  row "vbitrevi.w" 0x73188000 [FPR_VD; FPR_VJ; IMM_UI5L];
  row "vbitrevi.d" 0x73190000 [FPR_VD; FPR_VJ; IMM_UI6];
  row "vbstrc12i.b" 0x731c2000 [FPR_VD; FPR_VJ; IMM_UI3];
  row "vbstrc12i.h" 0x731c4000 [FPR_VD; FPR_VJ; IMM_UI4];
  row "vbstrc12i.w" 0x731c8000 [FPR_VD; FPR_VJ; IMM_UI5L];
  row "vbstrc12i.d" 0x731d0000 [FPR_VD; FPR_VJ; IMM_UI6];
  row "vbstrc21i.b" 0x73202000 [FPR_VD; FPR_VJ; IMM_UI3];
  row "vbstrc21i.h" 0x73204000 [FPR_VD; FPR_VJ; IMM_UI4];
  row "vbstrc21i.w" 0x73208000 [FPR_VD; FPR_VJ; IMM_UI5L];
  row "vbstrc21i.d" 0x73210000 [FPR_VD; FPR_VJ; IMM_UI6];
  row "vsat.b" 0x73242000 [FPR_VD; FPR_VJ; IMM_UI3];
  row "vsat.h" 0x73244000 [FPR_VD; FPR_VJ; IMM_UI4];
  row "vsat.w" 0x73248000 [FPR_VD; FPR_VJ; IMM_UI5L];
  row "vsat.d" 0x73250000 [FPR_VD; FPR_VJ; IMM_UI6];
  row "vsat.bu" 0x73282000 [FPR_VD; FPR_VJ; IMM_UI3]].

Definition rows_10 : list template := [
  row "vsat.hu" 0x73284000 [FPR_VD; FPR_VJ; IMM_UI4];
  row "vsat.wu" 0x73288000 [FPR_VD; FPR_VJ; IMM_UI5L];
  row "vsat.du" 0x73290000 [FPR_VD; FPR_VJ; IMM_UI6];
  row "vslli.b" 0x732c2000 [FPR_VD; FPR_VJ; IMM_UI3];
  row "vslli.h" 0x732c4000 [FPR_VD; FPR_VJ; IMM_UI4];
  row "vslli.w" 0x732c8000 [FPR_VD; FPR_VJ; IMM_UI5L];
  row "vslli.d" 0x732d0000 [FPR_VD; FPR_VJ; IMM_UI6];
  row "vsrli.b" 0x73302000 [FPR_VD; FPR_VJ; IMM_UI3];
  row "vsrli.h" 0x73304000 [FPR_VD; FPR_VJ; IMM_UI4];
  row "vsrli.w" 0x73308000 [FPR_VD; FPR_VJ; IMM_UI5L];
  row "vsrli.d" 0x73310000 [FPR_VD; FPR_VJ; IMM_UI6];
  row "vsrai.b" 0x73342000 [FPR_VD; FPR_VJ; IMM_UI3];
  row "vsrai.h" 0x73344000 [FPR_VD; FPR_VJ; IMM_UI4];
  row "vsrai.w" 0x73348000 [FPR_VD; FPR_VJ; IMM_UI5L];
  row "vsrai.d" 0x73350000 [FPR_VD; FPR_VJ; IMM_UI6];
  row "vsrlrneni.b.h" 0x73384000 [FPR_VD; FPR_VJ; IMM_UI4];
  row "vsrlrneni.h.w" 0x73388000 [FPR_VD; FPR_VJ; IMM_UI5L];
  row "vsrlrneni.w.d" 0x73390000 [FPR_VD; FPR_VJ; IMM_UI6];
  row "vsrlrneni.d.q" 0x733a0000 [FPR_VD; FPR_VJ; IMM_UI7];
  row "vsrarneni.b.h" 0x733c4000 [FPR_VD; FPR_VJ; IMM_UI4];
  row "vsrarneni.h.w" 0x733c8000 [FPR_VD; FPR_VJ; IMM_UI5L];
  row "vsrarneni.w.d" 0x733d0000 [FPR_VD; FPR_VJ; IMM_UI6];
  row "vsrarneni.d.q" 0x733e0000 [FPR_VD; FPR_VJ; IMM_UI7];
  row "vsrlni.b.h" 0x73404000 [FPR_VD; FPR_VJ; IMM_UI4];
  row "vsrlni.h.w" 0x73408000 [FPR_VD; FPR_VJ; IMM_UI5L];
  row "vsrlni.w.d" 0x73410000 [FPR_VD; FPR_VJ; IMM_UI6];
  row "vsrlni.d.q" 0x73420000 [FPR_VD; FPR_VJ; IMM_UI7];
  row "vsrlrni.b.h" 0x73444000 [FPR_VD; FPR_VJ; IMM_UI4];
  row "vsrlrni.h.w" 0x73448000 [FPR_VD; FPR_VJ; IMM_UI5L];
  row "vsrlrni.w.d" 0x73450000 [FPR_VD; FPR_VJ; IMM_UI6];
  row "vsrlrni.d.q" 0x73460000 [FPR_VD; FPR_VJ; IMM_UI7];
  row "vssrlni.b.h" 0x73484000 [FPR_VD; FPR_VJ; IMM_UI4];
  row "vssrlni.h.w" 0x73488000 [FPR_VD; FPR_VJ; IMM_UI5L];
  row "vssrlni.w.d" 0x73490000 [FPR_VD; FPR_VJ; IMM_UI6];
  row "vssrlni.d.q" 0x734a0000 [FPR_VD; FPR_VJ; IMM_UI7];
  row "vssrlni.bu.h" 0x734c4000 [FPR_VD; FPR_VJ; IMM_UI4];
  row "vssrlni.hu.w" 0x734c8000 [FPR_VD; FPR_VJ; IMM_UI5L];
  row "vssrlni.wu.d" 0x734d0000 [FPR_VD; FPR_VJ; IMM_UI6];
  row "vssrlni.du.q" 0x734e0000 [FPR_VD; FPR_VJ; IMM_UI7];
  row "vssrlrni.b.h" 0x73504000 [FPR_VD; FPR_VJ; IMM_UI4];
  row "vssrlrni.h.w" 0x73508000 [FPR_VD; FPR_VJ; IMM_UI5L];
  row "vssrlrni.w.d" 0x73510000 [FPR_VD; FPR_VJ; IMM_UI6];
  row "vssrlrni.d.q" 0x73520000 [FPR_VD; FPR_VJ; IMM_UI7];
  row "vssrlrni.bu.h" 0x73544000 [FPR_VD; FPR_VJ; IMM_UI4];
  row "vssrlrni.hu.w" 0x73548000 [FPR_VD; FPR_VJ; IMM_UI5L];
  row "vssrlrni.wu.d" 0x73550000 [FPR_VD; FPR_VJ; IMM_UI6];
  row "vssrlrni.du.q" 0x73560000 [FPR_VD; FPR_VJ; IMM_UI7];
  row "vsrani.b.h" 0x73584000 [FPR_VD; FPR_VJ; IMM_UI4];
  row "vsrani.h.w" 0x73588000 [FPR_VD; FPR_VJ; IMM_UI5L];
  row "vsrani.w.d" 0x73590000 [FPR_VD; FPR_VJ; IMM_UI6];
  row "vsrani.d.q" 0x735a0000 [FPR_VD; FPR_VJ; IMM_UI7];
  row "vsrarni.b.h" 0x735c4000 [FPR_VD; FPR_VJ; IMM_UI4];
  row "vsrarni.h.w" 0x735c8000 [FPR_VD; FPR_VJ; IMM_UI5L];
  row "vsrarni.w.d" 0x735d0000 [FPR_VD; FPR_VJ; IMM_UI6];
  row "vsrarni.d.q" 0x735e0000 [FPR_VD; FPR_VJ; IMM_UI7];
  row "vssrani.b.h" 0x73604000 [FPR_VD; FPR_VJ; IMM_UI4];
  row "vssrani.h.w" 0x73608000 [FPR_VD; FPR_VJ; IMM_UI5L];
  row "vssrani.w.d" 0x73610000 [FPR_VD; FPR_VJ; IMM_UI6];
  row "vssrani.d.q" 0x73620000 [FPR_VD; FPR_VJ; IMM_UI7];
  row "vssrani.bu.h" 0x73644000 [FPR_VD; FPR_VJ; IMM_UI4];
  row "vssrani.hu.w" 0x73648000 [FPR_VD; FPR_VJ; IMM_UI5L];
  row "vssrani.wu.d" 0x73650000 [FPR_VD; FPR_VJ; IMM_UI6];
  row "vssrani.du.q" 0x73660000 [FPR_VD; FPR_VJ; IMM_UI7];
  row "vssrarni.b.h" 0x73684000 [FPR_VD; FPR_VJ; IMM_UI4];
  row "vssrarni.h.w" 0x73688000 [FPR_VD; FPR_VJ; IMM_UI5L];
  row "vssrarni.w.d" 0x73690000 [FPR_VD; FPR_VJ; IMM_UI6];
  row "vssrarni.d.q" 0x736a0000 [FPR_VD; FPR_VJ; IMM_UI7];
  row "vssrarni.bu.h" 0x736c4000 [FPR_VD; FPR_VJ; IMM_UI4];
  row "vssrarni.hu.w" 0x736c8000 [FPR_VD; FPR_VJ; IMM_UI5L];
  row "vssrarni.wu.d" 0x736d0000 [FPR_VD; FPR_VJ; IMM_UI6];
  row "vssrarni.du.q" 0x736e0000 [FPR_VD; FPR_VJ; IMM_UI7];
  row "vssrlrneni.b.h" 0x73704000 [FPR_VD; FPR_VJ; IMM_UI4];
  row "vssrlrneni.h.w" 0x73708000 [FPR_VD; FPR_VJ; IMM_UI5L];
  row "vssrlrneni.w.d" 0x73710000 [FPR_VD; FPR_VJ; IMM_UI6];
  row "vssrlrneni.d.q" 0x73720000 [FPR_VD; FPR_VJ; IMM_UI7];
  row "vssrlrneni.bu.h" 0x73744000 [FPR_VD; FPR_VJ; IMM_UI4];
  row "vssrlrneni.hu.w" 0x73748000 [FPR_VD; FPR_VJ; IMM_UI5L];
  row "vssrlrneni.wu.d" 0x73750000 [FPR_VD; FPR_VJ; IMM_UI6];
  row "vssrlrneni.du.q" 0x73760000 [FPR_VD; FPR_VJ; IMM_UI7];
  row "vssrarneni.b.h" 0x73784000 [FPR_VD; FPR_VJ; IMM_UI4];
  row "vssrarneni.h.w" 0x73788000 [FPR_VD; FPR_VJ; IMM_UI5L];
  row "vssrarneni.w.d" 0x73790000 [FPR_VD; FPR_VJ; IMM_UI6];
  row "vssrarneni.d.q" 0x737a0000 [FPR_VD; FPR_VJ; IMM_UI7];
  row "vssrarneni.bu.h" 0x737c4000 [FPR_VD; FPR_VJ; IMM_UI4];
  row "vssrarneni.hu.w" 0x737c8000 [FPR_VD; FPR_VJ; IMM_UI5L];
  row "vssrarneni.wu.d" 0x737d0000 [FPR_VD; FPR_VJ; IMM_UI6];
  row "vssrarneni.du.q" 0x737e0000 [FPR_VD; FPR_VJ; IMM_UI7];
  row "vextrins.d" 0x73800000 [FPR_VD; FPR_VJ; IMM_UI8];
  row "vextrins.w" 0x73840000 [FPR_VD; FPR_VJ; IMM_UI8];
  row "vextrins.h" 0x73880000 [FPR_VD; FPR_VJ; IMM_UI8];
  row "vextrins.b" 0x738c0000 [FPR_VD; FPR_VJ; IMM_UI8];
  row "vshuf4i.b" 0x73900000 [FPR_VD; FPR_VJ; IMM_UI8];
  row "vshuf4i.h" 0x73940000 [FPR_VD; FPR_VJ; IMM_UI8];
  row "vshuf4i.w" 0x73980000 [FPR_VD; FPR_VJ; IMM_UI8];
  row "vshuf4i.d" 0x739c0000 [FPR_VD; FPR_VJ; IMM_UI8];
  row "vshufi1.b" 0x73a00000 [FPR_VD; FPR_VJ; IMM_UI8];
  row "vshufi2.b" 0x73a40000 [FPR_VD; FPR_VJ; IMM_UI8];
  row "vshufi3.b" 0x73a80000 [FPR_VD; FPR_VJ; IMM_UI8];
  row "vshufi4.b" 0x73ac0000 [FPR_VD; FPR_VJ; IMM_UI8];
  row "vshufi1.h" 0x73b00000 [FPR_VD; FPR_VJ; IMM_UI8];
  row "vshufi2.h" 0x73b40000 [FPR_VD; FPR_VJ; IMM_UI8];
  row "vseli.h" 0x73b80000 [FPR_VD; FPR_VJ; IMM_UI8];
  row "vseli.w" 0x73bc0000 [FPR_VD; FPR_VJ; IMM_UI8];
  row "vseli.d" 0x73c00000 [FPR_VD; FPR_VJ; IMM_UI8];
  row "vbitseli.b" 0x73c40000 [FPR_VD; FPR_VJ; IMM_UI8];
  row "vbitmvzi.b" 0x73c80000 [FPR_VD; FPR_VJ; IMM_UI8];
  row "vbitmvnzi.b" 0x73cc0000 [FPR_VD; FPR_VJ; IMM_UI8];
  row "vandi.b" 0x73d00000 [FPR_VD; FPR_VJ; IMM_UI8];
  row "vori.b" 0x73d40000 [FPR_VD; FPR_VJ; IMM_UI8];
  row "vxori.b" 0x73d80000 [FPR_VD; FPR_VJ; IMM_UI8];
  row "vnori.b" 0x73dc0000 [FPR_VD; FPR_VJ; IMM_UI8];
  row "vldi" 0x73e00000 [FPR_VD; IMM_I13];
  row "vpermi.w" 0x73e40000 [FPR_VD; FPR_VJ; IMM_UI8];
  row "xvseq.b" 0x74000000 [FPR_XD; FPR_XJ; FPR_XK];
  row "xvseq.h" 0x74008000 [FPR_XD; FPR_XJ; FPR_XK];
  row "xvseq.w" 0x74010000 [FPR_XD; FPR_XJ; FPR_XK];
  row "xvseq.d" 0x74018000 [FPR_XD; FPR_XJ; FPR_XK];
  row "xvsle.b" 0x74020000 [FPR_XD; FPR_XJ; FPR_XK];
  row "xvsle.h" 0x74028000 [FPR_XD; FPR_XJ; FPR_XK];
  row "xvsle.w" 0x74030000 [FPR_XD; FPR_XJ; FPR_XK];
  row "xvsle.d" 0x74038000 [FPR_XD; FPR_XJ; FPR_XK];
  row "xvsle.bu" 0x74040000 [FPR_XD; FPR_XJ; FPR_XK];
  row "xvsle.hu" 0x74048000 [FPR_XD; FPR_XJ; FPR_XK];
  row "xvsle.wu" 0x74050000 [FPR_XD; FPR_XJ; FPR_XK];
  row "xvsle.du" 0x74058000 [FPR_XD; FPR_XJ; FPR_XK];
  row "xvslt.b" 0x74060000 [FPR_XD; FPR_XJ; FPR_XK];
  row "xvslt.h" 0x74068000 [FPR_XD; FPR_XJ; FPR_XK];
  row "xvslt.w" 0x74070000 [FPR_XD; FPR_XJ; FPR_XK];
  row "xvslt.d" 0x74078000 [FPR_XD; FPR_XJ; FPR_XK];
  row "xvslt.bu" 0x74080000 [FPR_XD; FPR_XJ; FPR_XK];
  row "xvslt.hu" 0x74088000 [FPR_XD; FPR_XJ; FPR_XK];
  row "xvslt.wu" 0x74090000 [FPR_XD; FPR_XJ; FPR_XK];
  row "xvslt.du" 0x74098000 [FPR_XD; FPR_XJ; FPR_XK];
  row "xvadd.b" 0x740a0000 [FPR_XD; FPR_XJ; FPR_XK];
  row "xvadd.h" 0x740a8000 [FPR_XD; FPR_XJ; FPR_XK];
  row "xvadd.w" 0x740b0000 [FPR_XD; FPR_XJ; FPR_XK];
  row "xvadd.d" 0x740b8000 [FPR_XD; FPR_XJ; FPR_XK];
  row "xvsub.b" 0x740c0000 [FPR_XD; FPR_XJ; FPR_XK];
  row "xvsub.h" 0x740c8000 [FPR_XD; FPR_XJ; FPR_XK];
  row "xvsub.w" 0x740d0000 [FPR_XD; FPR_XJ; FPR_XK];
  row "xvsub.d" 0x740d8000 [FPR_XD; FPR_XJ; FPR_XK];
  row "xvaddw.h.h.b" 0x740e0000 [FPR_XD; FPR_XJ; FPR_XK];
  row "xvaddw.w.w.h" 0x740e8000 [FPR_XD; FPR_XJ; FPR_XK];
  row "xvaddw.d.d.w" 0x740f0000 [FPR_XD; FPR_XJ; FPR_XK];
  row "xvaddw.h.h.bu" 0x74100000 [FPR_XD; FPR_XJ; FPR_XK];
  row "xvaddw.w.w.hu" 0x74108000 [FPR_XD; FPR_XJ; FPR_XK];
  row "xvaddw.d.d.wu" 0x74110000 [FPR_XD; FPR_XJ; FPR_XK];
  row "xvsubw.h.h.b" 0x74120000 [FPR_XD; FPR_XJ; FPR_XK];
  row "xvsubw.w.w.h" 0x74128000 [FPR_XD; FPR_XJ; FPR_XK];
  row "xvsubw.d.d.w" 0x74130000 [FPR_XD; FPR_XJ; FPR_XK]].

Definition rows_11 : list template := [
  row "xvsubw.h.h.bu" 0x74140000 [FPR_XD; FPR_XJ; FPR_XK];
  row "xvsubw.w.w.hu" 0x74148000 [FPR_XD; FPR_XJ; FPR_XK];
  row "xvsubw.d.d.wu" 0x74150000 [FPR_XD; FPR_XJ; FPR_XK];
  row "xvsaddw.h.h.b" 0x74160000 [FPR_XD; FPR_XJ; FPR_XK];
  row "xvsaddw.w.w.h" 0x74168000 [FPR_XD; FPR_XJ; FPR_XK];
  row "xvsaddw.d.d.w" 0x74170000 [FPR_XD; FPR_XJ; FPR_XK];
  row "xvsaddw.hu.hu.bu" 0x74180000 [FPR_XD; FPR_XJ; FPR_XK];
  row "xvsaddw.wu.wu.hu" 0x74188000 [FPR_XD; FPR_XJ; FPR_XK];
  row "xvsaddw.du.du.wu" 0x74190000 [FPR_XD; FPR_XJ; FPR_XK];
  row "xvssubw.h.h.b" 0x741a0000 [FPR_XD; FPR_XJ; FPR_XK];
  row "xvssubw.w.w.h" 0x741a8000 [FPR_XD; FPR_XJ; FPR_XK];
  row "xvssubw.d.d.w" 0x741b0000 [FPR_XD; FPR_XJ; FPR_XK];
  row "xvssubw.hu.hu.bu" 0x741c0000 [FPR_XD; FPR_XJ; FPR_XK];
  row "xvssubw.wu.wu.hu" 0x741c8000 [FPR_XD; FPR_XJ; FPR_XK];
  row "xvssubw.du.du.wu" 0x741d0000 [FPR_XD; FPR_XJ; FPR_XK];
  row "xvaddwev.h.b" 0x741e0000 [FPR_XD; FPR_XJ; FPR_XK];
  row "xvaddwev.w.h" 0x741e8000 [FPR_XD; FPR_XJ; FPR_XK];
  row "xvaddwev.d.w" 0x741f0000 [FPR_XD; FPR_XJ; FPR_XK];
  row "xvaddwev.q.d" 0x741f8000 [FPR_XD; FPR_XJ; FPR_XK];
  row "xvsubwev.h.b" 0x74200000 [FPR_XD; FPR_XJ; FPR_XK];
  row "xvsubwev.w.h" 0x74208000 [FPR_XD; FPR_XJ; FPR_XK];
  row "xvsubwev.d.w" 0x74210000 [FPR_XD; FPR_XJ; FPR_XK];
  row "xvsubwev.q.d" 0x74218000 [FPR_XD; FPR_XJ; FPR_XK];
  row "xvaddwod.h.b" 0x74220000 [FPR_XD; FPR_XJ; FPR_XK];
  row "xvaddwod.w.h" 0x74228000 [FPR_XD; FPR_XJ; FPR_XK];
  row "xvaddwod.d.w" 0x74230000 [FPR_XD; FPR_XJ; FPR_XK];
  row "xvaddwod.q.d" 0x74238000 [FPR_XD; FPR_XJ; FPR_XK];
  row "xvsubwod.h.b" 0x74240000 [FPR_XD; FPR_XJ; FPR_XK];
  row "xvsubwod.w.h" 0x74248000 [FPR_XD; FPR_XJ; FPR_XK];
  row "xvsubwod.d.w" 0x74250000 [FPR_XD; FPR_XJ; FPR_XK];
  row "xvsubwod.q.d" 0x74258000 [FPR_XD; FPR_XJ; FPR_XK];
  row "xvaddwl.h.b" 0x74260000 [FPR_XD; FPR_XJ; FPR_XK];
  row "xvaddwl.w.h" 0x74268000 [FPR_XD; FPR_XJ; FPR_XK];
  row "xvaddwl.d.w" 0x74270000 [FPR_XD; FPR_XJ; FPR_XK];
  row "xvaddwl.q.d" 0x74278000 [FPR_XD; FPR_XJ; FPR_XK];
  row "xvsubwl.h.b" 0x74280000 [FPR_XD; FPR_XJ; FPR_XK];
  row "xvsubwl.w.h" 0x74288000 [FPR_XD; FPR_XJ; FPR_XK];
  row "xvsubwl.d.w" 0x74290000 [FPR_XD; FPR_XJ; FPR_XK];
  row "xvsubwl.q.d" 0x74298000 [FPR_XD; FPR_XJ; FPR_XK];
  row "xvaddwh.h.b" 0x742a0000 [FPR_XD; FPR_XJ; FPR_XK];
  row "xvaddwh.w.h" 0x742a8000 [FPR_XD; FPR_XJ; FPR_XK];
  row "xvaddwh.d.w" 0x742b0000 [FPR_XD; FPR_XJ; FPR_XK];
  row "xvaddwh.q.d" 0x742b8000 [FPR_XD; FPR_XJ; FPR_XK];
  row "xvsubwh.h.b" 0x742c0000 [FPR_XD; FPR_XJ; FPR_XK];
  row "xvsubwh.w.h" 0x742c8000 [FPR_XD; FPR_XJ; FPR_XK];
  row "xvsubwh.d.w" 0x742d0000 [FPR_XD; FPR_XJ; FPR_XK];
  row "xvsubwh.q.d" 0x742d8000 [FPR_XD; FPR_XJ; FPR_XK];
  row "xvaddwev.h.bu" 0x742e0000 [FPR_XD; FPR_XJ; FPR_XK];
  row "xvaddwev.w.hu" 0x742e8000 [FPR_XD; FPR_XJ; FPR_XK];
  row "xvaddwev.d.wu" 0x742f0000 [FPR_XD; FPR_XJ; FPR_XK];
  row "xvaddwev.q.du" 0x742f8000 [FPR_XD; FPR_XJ; FPR_XK];
  row "xvsubwev.h.bu" 0x74300000 [FPR_XD; FPR_XJ; FPR_XK];
  row "xvsubwev.w.hu" 0x74308000 [FPR_XD; FPR_XJ; FPR_XK];
  row "xvsubwev.d.wu" 0x74310000 [FPR_XD; FPR_XJ; FPR_XK];
  row "xvsubwev.q.du" 0x74318000 [FPR_XD; FPR_XJ; FPR_XK];
  row "xvaddwod.h.bu" 0x74320000 [FPR_XD; FPR_XJ; FPR_XK];
  row "xvaddwod.w.hu" 0x74328000 [FPR_XD; FPR_XJ; FPR_XK];
  row "xvaddwod.d.wu" 0x74330000 [FPR_XD; FPR_XJ; FPR_XK];
  row "xvaddwod.q.du" 0x74338000 [FPR_XD; FPR_XJ; FPR_XK];
  row "xvsubwod.h.bu" 0x74340000 [FPR_XD; FPR_XJ; FPR_XK];
  row "xvsubwod.w.hu" 0x74348000 [FPR_XD; FPR_XJ; FPR_XK];
  row "xvsubwod.d.wu" 0x74350000 [FPR_XD; FPR_XJ; FPR_XK];
  row "xvsubwod.q.du" 0x74358000 [FPR_XD; FPR_XJ; FPR_XK];
  row "xvaddwl.h.bu" 0x74360000 [FPR_XD; FPR_XJ; FPR_XK];
  row "xvaddwl.w.hu" 0x74368000 [FPR_XD; FPR_XJ; FPR_XK];
  row "xvaddwl.d.wu" 0x74370000 [FPR_XD; FPR_XJ; FPR_XK];
  row "xvaddwl.q.du" 0x74378000 [FPR_XD; FPR_XJ; FPR_XK];
  row "xvsubwl.h.bu" 0x74380000 [FPR_XD; FPR_XJ; FPR_XK];
  row "xvsubwl.w.hu" 0x74388000 [FPR_XD; FPR_XJ; FPR_XK];
  row "xvsubwl.d.wu" 0x74390000 [FPR_XD; FPR_XJ; FPR_XK];
  row "xvsubwl.q.du" 0x74398000 [FPR_XD; FPR_XJ; FPR_XK];
  row "xvaddwh.h.bu" 0x743a0000 [FPR_XD; FPR_XJ; FPR_XK];
  row "xvaddwh.w.hu" 0x743a8000 [FPR_XD; FPR_XJ; FPR_XK];
  row "xvaddwh.d.wu" 0x743b0000 [FPR_XD; FPR_XJ; FPR_XK];
  row "xvaddwh.q.du" 0x743b8000 [FPR_XD; FPR_XJ; FPR_XK];
  row "xvsubwh.h.bu" 0x743c0000 [FPR_XD; FPR_XJ; FPR_XK];
  row "xvsubwh.w.hu" 0x743c8000 [FPR_XD; FPR_XJ; FPR_XK];
  row "xvsubwh.d.wu" 0x743d0000 [FPR_XD; FPR_XJ; FPR_XK];
  row "xvsubwh.q.du" 0x743d8000 [FPR_XD; FPR_XJ; FPR_XK];
  row "xvaddwev.h.bu.b" 0x743e0000 [FPR_XD; FPR_XJ; FPR_XK];
  row "xvaddwev.w.hu.h" 0x743e8000 [FPR_XD; FPR_XJ; FPR_XK];
  row "xvaddwev.d.wu.w" 0x743f0000 [FPR_XD; FPR_XJ; FPR_XK];
  row "xvaddwev.q.du.d" 0x743f8000 [FPR_XD; FPR_XJ; FPR_XK];
  row "xvaddwod.h.bu.b" 0x74400000 [FPR_XD; FPR_XJ; FPR_XK];
  row "xvaddwod.w.hu.h" 0x74408000 [FPR_XD; FPR_XJ; FPR_XK];
  row "xvaddwod.d.wu.w" 0x74410000 [FPR_XD; FPR_XJ; FPR_XK];
  row "xvaddwod.q.du.d" 0x74418000 [FPR_XD; FPR_XJ; FPR_XK];
  row "xvaddwl.h.bu.b" 0x74420000 [FPR_XD; FPR_XJ; FPR_XK];
  row "xvaddwl.w.hu.h" 0x74428000 [FPR_XD; FPR_XJ; FPR_XK];
  row "xvaddwl.d.wu.w" 0x74430000 [FPR_XD; FPR_XJ; FPR_XK];
  row "xvaddwl.q.du.d" 0x74438000 [FPR_XD; FPR_XJ; FPR_XK];
  row "xvaddwh.h.bu.b" 0x74440000 [FPR_XD; FPR_XJ; FPR_XK];
  row "xvaddwh.w.hu.h" 0x74448000 [FPR_XD; FPR_XJ; FPR_XK];
  row "xvaddwh.d.wu.w" 0x74450000 [FPR_XD; FPR_XJ; FPR_XK];
  row "xvaddwh.q.du.d" 0x74458000 [FPR_XD; FPR_XJ; FPR_XK];
  row "xvsadd.b" 0x74460000 [FPR_XD; FPR_XJ; FPR_XK];
  row "xvsadd.h" 0x74468000 [FPR_XD; FPR_XJ; FPR_XK];
  row "xvsadd.w" 0x74470000 [FPR_XD; FPR_XJ; FPR_XK];
  row "xvsadd.d" 0x74478000 [FPR_XD; FPR_XJ; FPR_XK];
  row "xvssub.b" 0x74480000 [FPR_XD; FPR_XJ; FPR_XK];
  row "xvssub.h" 0x74488000 [FPR_XD; FPR_XJ; FPR_XK];
  row "xvssub.w" 0x74490000 [FPR_XD; FPR_XJ; FPR_XK];
  row "xvssub.d" 0x74498000 [FPR_XD; FPR_XJ; FPR_XK];
  row "xvsadd.bu" 0x744a0000 [FPR_XD; FPR_XJ; FPR_XK];
  row "xvsadd.hu" 0x744a8000 [FPR_XD; FPR_XJ; FPR_XK];
  row "xvsadd.wu" 0x744b0000 [FPR_XD; FPR_XJ; FPR_XK];
  row "xvsadd.du" 0x744b8000 [FPR_XD; FPR_XJ; FPR_XK];
  row "xvssub.bu" 0x744c0000 [FPR_XD; FPR_XJ; FPR_XK];
  row "xvssub.hu" 0x744c8000 [FPR_XD; FPR_XJ; FPR_XK];
  row "xvssub.wu" 0x744d0000 [FPR_XD; FPR_XJ; FPR_XK];
  row "xvssub.du" 0x744d8000 [FPR_XD; FPR_XJ; FPR_XK];
  row "xvssub.bu.bu.b" 0x744e0000 [FPR_XD; FPR_XJ; FPR_XK];
  row "xvssub.hu.hu.h" 0x744e8000 [FPR_XD; FPR_XJ; FPR_XK];
  row "xvssub.wu.wu.w" 0x744f0000 [FPR_XD; FPR_XJ; FPR_XK];
  row "xvssub.du.du.d" 0x744f8000 [FPR_XD; FPR_XJ; FPR_XK];
  row "xvssub.bu.b.bu" 0x74500000 [FPR_XD; FPR_XJ; FPR_XK];
  row "xvssub.hu.h.hu" 0x74508000 [FPR_XD; FPR_XJ; FPR_XK];
  row "xvssub.wu.w.wu" 0x74510000 [FPR_XD; FPR_XJ; FPR_XK];
  row "xvssub.du.d.du" 0x74518000 [FPR_XD; FPR_XJ; FPR_XK];
  row "xvssub.b.bu.bu" 0x74520000 [FPR_XD; FPR_XJ; FPR_XK];
  row "xvssub.h.hu.hu" 0x74528000 [FPR_XD; FPR_XJ; FPR_XK];
  row "xvssub.w.wu.wu" 0x74530000 [FPR_XD; FPR_XJ; FPR_XK];
  row "xvssub.d.du.du" 0x74538000 [FPR_XD; FPR_XJ; FPR_XK];
  row "xvhaddw.h.b" 0x74540000 [FPR_XD; FPR_XJ; FPR_XK];
  row "xvhaddw.w.h" 0x74548000 [FPR_XD; FPR_XJ; FPR_XK];
  row "xvhaddw.d.w" 0x74550000 [FPR_XD; FPR_XJ; FPR_XK];
  row "xvhaddw.q.d" 0x74558000 [FPR_XD; FPR_XJ; FPR_XK];
  row "xvhsubw.h.b" 0x74560000 [FPR_XD; FPR_XJ; FPR_XK];
  row "xvhsubw.w.h" 0x74568000 [FPR_XD; FPR_XJ; FPR_XK];
  row "xvhsubw.d.w" 0x74570000 [FPR_XD; FPR_XJ; FPR_XK];
  row "xvhsubw.q.d" 0x74578000 [FPR_XD; FPR_XJ; FPR_XK];
  row "xvhaddw.hu.bu" 0x74580000 [FPR_XD; FPR_XJ; FPR_XK];
  row "xvhaddw.wu.hu" 0x74588000 [FPR_XD; FPR_XJ; FPR_XK];
  row "xvhaddw.du.wu" 0x74590000 [FPR_XD; FPR_XJ; FPR_XK];
  row "xvhaddw.qu.du" 0x74598000 [FPR_XD; FPR_XJ; FPR_XK];
  row "xvhsubw.hu.bu" 0x745a0000 [FPR_XD; FPR_XJ; FPR_XK];
  row "xvhsubw.wu.hu" 0x745a8000 [FPR_XD; FPR_XJ; FPR_XK];
  row "xvhsubw.du.wu" 0x745b0000 [FPR_XD; FPR_XJ; FPR_XK];
  row "xvhsubw.qu.du" 0x745b8000 [FPR_XD; FPR_XJ; FPR_XK];
  row "xvadda.b" 0x745c0000 [FPR_XD; FPR_XJ; FPR_XK];
  row "xvadda.h" 0x745c8000 [FPR_XD; FPR_XJ; FPR_XK];
  row "xvadda.w" 0x745d0000 [FPR_XD; FPR_XJ; FPR_XK];
  row "xvadda.d" 0x745d8000 [FPR_XD; FPR_XJ; FPR_XK];
  row "xvsadda.b" 0x745e0000 [FPR_XD; FPR_XJ; FPR_XK];
  row "xvsadda.h" 0x745e8000 [FPR_XD; FPR_XJ; FPR_XK];
  row "xvsadda.w" 0x745f0000 [FPR_XD; FPR_XJ; FPR_XK];
  row "xvsadda.d" 0x745f8000 [FPR_XD; FPR_XJ; FPR_XK];
  row "xvabsd.b" 0x74600000 [FPR_XD; FPR_XJ; FPR_XK];
  row "xvabsd.h" 0x74608000 [FPR_XD; FPR_XJ; FPR_XK];
  row "xvabsd.w" 0x74610000 [FPR_XD; FPR_XJ; FPR_XK]].

Definition rows_12 : list template := [
  row "xvabsd.d" 0x74618000 [FPR_XD; FPR_XJ; FPR_XK];
  row "xvabsd.bu" 0x74620000 [FPR_XD; FPR_XJ; FPR_XK];
  row "xvabsd.hu" 0x74628000 [FPR_XD; FPR_XJ; FPR_XK];
  row "xvabsd.wu" 0x74630000 [FPR_XD; FPR_XJ; FPR_XK];
  row "xvabsd.du" 0x74638000 [FPR_XD; FPR_XJ; FPR_XK];
  row "xvavg.b" 0x74640000 [FPR_XD; FPR_XJ; FPR_XK];
  row "xvavg.h" 0x74648000 [FPR_XD; FPR_XJ; FPR_XK];
  row "xvavg.w" 0x74650000 [FPR_XD; FPR_XJ; FPR_XK];
  row "xvavg.d" 0x74658000 [FPR_XD; FPR_XJ; FPR_XK];
  row "xvavg.bu" 0x74660000 [FPR_XD; FPR_XJ; FPR_XK];
  row "xvavg.hu" 0x74668000 [FPR_XD; FPR_XJ; FPR_XK];
  row "xvavg.wu" 0x74670000 [FPR_XD; FPR_XJ; FPR_XK];
  row "xvavg.du" 0x74678000 [FPR_XD; FPR_XJ; FPR_XK];
  row "xvavgr.b" 0x74680000 [FPR_XD; FPR_XJ; FPR_XK];
  row "xvavgr.h" 0x74688000 [FPR_XD; FPR_XJ; FPR_XK];
  row "xvavgr.w" 0x74690000 [FPR_XD; FPR_XJ; FPR_XK];
  row "xvavgr.d" 0x74698000 [FPR_XD; FPR_XJ; FPR_XK];
  row "xvavgr.bu" 0x746a0000 [FPR_XD; FPR_XJ; FPR_XK];
  row "xvavgr.hu" 0x746a8000 [FPR_XD; FPR_XJ; FPR_XK];
  row "xvavgr.wu" 0x746b0000 [FPR_XD; FPR_XJ; FPR_XK];
  row "xvavgr.du" 0x746b8000 [FPR_XD; FPR_XJ; FPR_XK];
  row "xvhalfd.b" 0x746c0000 [FPR_XD; FPR_XJ; FPR_XK];
  row "xvhalfd.h" 0x746c8000 [FPR_XD; FPR_XJ; FPR_XK];
  row "xvhalfd.w" 0x746d0000 [FPR_XD; FPR_XJ; FPR_XK];
  row "xvhalfd.d" 0x746d8000 [FPR_XD; FPR_XJ; FPR_XK];
  row "xvhalfd.bu" 0x746e0000 [FPR_XD; FPR_XJ; FPR_XK];
  row "xvhalfd.hu" 0x746e8000 [FPR_XD; FPR_XJ; FPR_XK];
  row "xvhalfd.wu" 0x746f0000 [FPR_XD; FPR_XJ; FPR_XK];
  row "xvhalfd.du" 0x746f8000 [FPR_XD; FPR_XJ; FPR_XK];
  row "xvmax.b" 0x74700000 [FPR_XD; FPR_XJ; FPR_XK];
  row "xvmax.h" 0x74708000 [FPR_XD; FPR_XJ; FPR_XK];
  row "xvmax.w" 0x74710000 [FPR_XD; FPR_XJ; FPR_XK];
  row "xvmax.d" 0x74718000 [FPR_XD; FPR_XJ; FPR_XK];
  row "xvmin.b" 0x74720000 [FPR_XD; FPR_XJ; FPR_XK];
  row "xvmin.h" 0x74728000 [FPR_XD; FPR_XJ; FPR_XK];
  row "xvmin.w" 0x74730000 [FPR_XD; FPR_XJ; FPR_XK];
  row "xvmin.d" 0x74738000 [FPR_XD; FPR_XJ; FPR_XK];
  row "xvmax.bu" 0x74740000 [FPR_XD; FPR_XJ; FPR_XK];
  row "xvmax.hu" 0x74748000 [FPR_XD; FPR_XJ; FPR_XK];
  row "xvmax.wu" 0x74750000 [FPR_XD; FPR_XJ; FPR_XK];
  row "xvmax.du" 0x74758000 [FPR_XD; FPR_XJ; FPR_XK];
  row "xvmin.bu" 0x74760000 [FPR_XD; FPR_XJ; FPR_XK];
  row "xvmin.hu" 0x74768000 [FPR_XD; FPR_XJ; FPR_XK];
  row "xvmin.wu" 0x74770000 [FPR_XD; FPR_XJ; FPR_XK];
  row "xvmin.du" 0x74778000 [FPR_XD; FPR_XJ; FPR_XK];
  row "xvmaxa.b" 0x74780000 [FPR_XD; FPR_XJ; FPR_XK];
  row "xvmaxa.h" 0x74788000 [FPR_XD; FPR_XJ; FPR_XK];
  row "xvmaxa.w" 0x74790000 [FPR_XD; FPR_XJ; FPR_XK];
  row "xvmaxa.d" 0x74798000 [FPR_XD; FPR_XJ; FPR_XK];
  row "xvmina.b" 0x747a0000 [FPR_XD; FPR_XJ; FPR_XK];
  row "xvmina.h" 0x747a8000 [FPR_XD; FPR_XJ; FPR_XK];
  row "xvmina.w" 0x747b0000 [FPR_XD; FPR_XJ; FPR_XK];
  row "xvmina.d" 0x747b8000 [FPR_XD; FPR_XJ; FPR_XK];
  row "xvsadw.h.b" 0x747c0000 [FPR_XD; FPR_XJ; FPR_XK];
  row "xvsadw.w.h" 0x747c8000 [FPR_XD; FPR_XJ; FPR_XK];
  row "xvsadw.d.w" 0x747d0000 [FPR_XD; FPR_XJ; FPR_XK];
  row "xvsadw.h.bu" 0x747e0000 [FPR_XD; FPR_XJ; FPR_XK];
  row "xvsadw.w.hu" 0x747e8000 [FPR_XD; FPR_XJ; FPR_XK];
  row "xvsadw.d.wu" 0x747f0000 [FPR_XD; FPR_XJ; FPR_XK];
  row "xvaccsadw.h.b" 0x74800000 [FPR_XD; FPR_XJ; FPR_XK];
  row "xvaccsadw.w.h" 0x74808000 [FPR_XD; FPR_XJ; FPR_XK];
  row "xvaccsadw.d.w" 0x74810000 [FPR_XD; FPR_XJ; FPR_XK];
  row "xvaccsadw.h.bu" 0x74820000 [FPR_XD; FPR_XJ; FPR_XK];
  row "xvaccsadw.w.hu" 0x74828000 [FPR_XD; FPR_XJ; FPR_XK];
  row "xvaccsadw.d.wu" 0x74830000 [FPR_XD; FPR_XJ; FPR_XK];
  row "xvmul.b" 0x74840000 [FPR_XD; FPR_XJ; FPR_XK];
  row "xvmul.h" 0x74848000 [FPR_XD; FPR_XJ; FPR_XK];
  row "xvmul.w" 0x74850000 [FPR_XD; FPR_XJ; FPR_XK];
  row "xvmul.d" 0x74858000 [FPR_XD; FPR_XJ; FPR_XK];
  row "xvmuh.b" 0x74860000 [FPR_XD; FPR_XJ; FPR_XK];
  row "xvmuh.h" 0x74868000 [FPR_XD; FPR_XJ; FPR_XK];
  row "xvmuh.w" 0x74870000 [FPR_XD; FPR_XJ; FPR_XK];
  row "xvmuh.d" 0x74878000 [FPR_XD; FPR_XJ; FPR_XK];
  row "xvmuh.bu" 0x74880000 [FPR_XD; FPR_XJ; FPR_XK];
  row "xvmuh.hu" 0x74888000 [FPR_XD; FPR_XJ; FPR_XK];
  row "xvmuh.wu" 0x74890000 [FPR_XD; FPR_XJ; FPR_XK];
  row "xvmuh.du" 0x74898000 [FPR_XD; FPR_XJ; FPR_XK];
  row "xvmuh.bu.b" 0x748a0000 [FPR_XD; FPR_XJ; FPR_XK];
  row "xvmuh.hu.h" 0x748a8000 [FPR_XD; FPR_XJ; FPR_XK];
  row "xvmuh.wu.w" 0x748b0000 [FPR_XD; FPR_XJ; FPR_XK];
  row "xvmuh.du.d" 0x748b8000 [FPR_XD; FPR_XJ; FPR_XK];
  row "xvmulxw.h.b" 0x748c0000 [FPR_XD; FPR_XJ; FPR_XK];
  row "xvmulxw.w.h" 0x748c8000 [FPR_XD; FPR_XJ; FPR_XK];
  row "xvmulxw.d.w" 0x748d0000 [FPR_XD; FPR_XJ; FPR_XK];
  row "xvmulxw.h.bu" 0x748e0000 [FPR_XD; FPR_XJ; FPR_XK];
  row "xvmulxw.w.hu" 0x748e8000 [FPR_XD; FPR_XJ; FPR_XK];
  row "xvmulxw.d.wu" 0x748f0000 [FPR_XD; FPR_XJ; FPR_XK];
  row "xvmulwev.h.b" 0x74900000 [FPR_XD; FPR_XJ; FPR_XK];
  row "xvmulwev.w.h" 0x74908000 [FPR_XD; FPR_XJ; FPR_XK];
  row "xvmulwev.d.w" 0x74910000 [FPR_XD; FPR_XJ; FPR_XK];
  row "xvmulwev.q.d" 0x74918000 [FPR_XD; FPR_XJ; FPR_XK];
  row "xvmulwod.h.b" 0x74920000 [FPR_XD; FPR_XJ; FPR_XK];
  row "xvmulwod.w.h" 0x74928000 [FPR_XD; FPR_XJ; FPR_XK];
  row "xvmulwod.d.w" 0x74930000 [FPR_XD; FPR_XJ; FPR_XK];
  row "xvmulwod.q.d" 0x74938000 [FPR_XD; FPR_XJ; FPR_XK];
  row "xvmulwl.h.b" 0x74940000 [FPR_XD; FPR_XJ; FPR_XK];
  row "xvmulwl.w.h" 0x74948000 [FPR_XD; FPR_XJ; FPR_XK];
  row "xvmulwl.d.w" 0x74950000 [FPR_XD; FPR_XJ; FPR_XK];
  row "xvmulwl.q.d" 0x74958000 [FPR_XD; FPR_XJ; FPR_XK];
  row "xvmulwh.h.b" 0x74960000 [FPR_XD; FPR_XJ; FPR_XK];
  row "xvmulwh.w.h" 0x74968000 [FPR_XD; FPR_XJ; FPR_XK];
  row "xvmulwh.d.w" 0x74970000 [FPR_XD; FPR_XJ; FPR_XK];
  row "xvmulwh.q.d" 0x74978000 [FPR_XD; FPR_XJ; FPR_XK];
  row "xvmulwev.h.bu" 0x74980000 [FPR_XD; FPR_XJ; FPR_XK];
  row "xvmulwev.w.hu" 0x74988000 [FPR_XD; FPR_XJ; FPR_XK];
  row "xvmulwev.d.wu" 0x74990000 [FPR_XD; FPR_XJ; FPR_XK];
  row "xvmulwev.q.du" 0x74998000 [FPR_XD; FPR_XJ; FPR_XK];
  row "xvmulwod.h.bu" 0x749a0000 [FPR_XD; FPR_XJ; FPR_XK];
  row "xvmulwod.w.hu" 0x749a8000 [FPR_XD; FPR_XJ; FPR_XK];
  row "xvmulwod.d.wu" 0x749b0000 [FPR_XD; FPR_XJ; FPR_XK];
  row "xvmulwod.q.du" 0x749b8000 [FPR_XD; FPR_XJ; FPR_XK];
  row "xvmulwl.h.bu" 0x749c0000 [FPR_XD; FPR_XJ; FPR_XK];
  row "xvmulwl.w.hu" 0x749c8000 [FPR_XD; FPR_XJ; FPR_XK];
  row "xvmulwl.d.wu" 0x749d0000 [FPR_XD; FPR_XJ; FPR_XK];
  row "xvmulwl.q.du" 0x749d8000 [FPR_XD; FPR_XJ; FPR_XK];
  row "xvmulwh.h.bu" 0x749e0000 [FPR_XD; FPR_XJ; FPR_XK];
  row "xvmulwh.w.hu" 0x749e8000 [FPR_XD; FPR_XJ; FPR_XK];
  row "xvmulwh.d.wu" 0x749f0000 [FPR_XD; FPR_XJ; FPR_XK];
  row "xvmulwh.q.du" 0x749f8000 [FPR_XD; FPR_XJ; FPR_XK];
  row "xvmulwev.h.bu.b" 0x74a00000 [FPR_XD; FPR_XJ; FPR_XK];
  row "xvmulwev.w.hu.h" 0x74a08000 [FPR_XD; FPR_XJ; FPR_XK];
  row "xvmulwev.d.wu.w" 0x74a10000 [FPR_XD; FPR_XJ; FPR_XK];
  row "xvmulwev.q.du.d" 0x74a18000 [FPR_XD; FPR_XJ; FPR_XK];
  row "xvmulwod.h.bu.b" 0x74a20000 [FPR_XD; FPR_XJ; FPR_XK];
  row "xvmulwod.w.hu.h" 0x74a28000 [FPR_XD; FPR_XJ; FPR_XK];
  row "xvmulwod.d.wu.w" 0x74a30000 [FPR_XD; FPR_XJ; FPR_XK];
  row "xvmulwod.q.du.d" 0x74a38000 [FPR_XD; FPR_XJ; FPR_XK];
  row "xvmulwl.h.bu.b" 0x74a40000 [FPR_XD; FPR_XJ; FPR_XK];
  row "xvmulwl.w.hu.h" 0x74a48000 [FPR_XD; FPR_XJ; FPR_XK];
  row "xvmulwl.d.wu.w" 0x74a50000 [FPR_XD; FPR_XJ; FPR_XK];
  row "xvmulwl.q.du.d" 0x74a58000 [FPR_XD; FPR_XJ; FPR_XK];
  row "xvmulwh.h.bu.b" 0x74a60000 [FPR_XD; FPR_XJ; FPR_XK];
  row "xvmulwh.w.hu.h" 0x74a68000 [FPR_XD; FPR_XJ; FPR_XK];
  row "xvmulwh.d.wu.w" 0x74a70000 [FPR_XD; FPR_XJ; FPR_XK];
  row "xvmulwh.q.du.d" 0x74a78000 [FPR_XD; FPR_XJ; FPR_XK];
  row "xvmadd.b" 0x74a80000 [FPR_XD; FPR_XJ; FPR_XK];
  row "xvmadd.h" 0x74a88000 [FPR_XD; FPR_XJ; FPR_XK];
  row "xvmadd.w" 0x74a90000 [FPR_XD; FPR_XJ; FPR_XK];
  row "xvmadd.d" 0x74a98000 [FPR_XD; FPR_XJ; FPR_XK];
  row "xvmsub.b" 0x74aa0000 [FPR_XD; FPR_XJ; FPR_XK];
  row "xvmsub.h" 0x74aa8000 [FPR_XD; FPR_XJ; FPR_XK];
  row "xvmsub.w" 0x74ab0000 [FPR_XD; FPR_XJ; FPR_XK];
  row "xvmsub.d" 0x74ab8000 [FPR_XD; FPR_XJ; FPR_XK];
  row "xvmaddwev.h.b" 0x74ac0000 [FPR_XD; FPR_XJ; FPR_XK];
  row "xvmaddwev.w.h" 0x74ac8000 [FPR_XD; FPR_XJ; FPR_XK];
  row "xvmaddwev.d.w" 0x74ad0000 [FPR_XD; FPR_XJ; FPR_XK];
  row "xvmaddwev.q.d" 0x74ad8000 [FPR_XD; FPR_XJ; FPR_XK];
  row "xvmaddwod.h.b" 0x74ae0000 [FPR_XD; FPR_XJ; FPR_XK];
  row "xvmaddwod.w.h" 0x74ae8000 [FPR_XD; FPR_XJ; FPR_XK];
  row "xvmaddwod.d.w" 0x74af0000 [FPR_XD; FPR_XJ; FPR_XK]].

Definition rows_13 : list template := [
  row "xvmaddwod.q.d" 0x74af8000 [FPR_XD; FPR_XJ; FPR_XK];
  row "xvmaddwl.h.b" 0x74b00000 [FPR_XD; FPR_XJ; FPR_XK];
  row "xvmaddwl.w.h" 0x74b08000 [FPR_XD; FPR_XJ; FPR_XK];
  row "xvmaddwl.d.w" 0x74b10000 [FPR_XD; FPR_XJ; FPR_XK];
  row "xvmaddwl.q.d" 0x74b18000 [FPR_XD; FPR_XJ; FPR_XK];
  row "xvmaddwh.h.b" 0x74b20000 [FPR_XD; FPR_XJ; FPR_XK];
  row "xvmaddwh.w.h" 0x74b28000 [FPR_XD; FPR_XJ; FPR_XK];
  row "xvmaddwh.d.w" 0x74b30000 [FPR_XD; FPR_XJ; FPR_XK];
  row "xvmaddwh.q.d" 0x74b38000 [FPR_XD; FPR_XJ; FPR_XK];
  row "xvmaddwev.h.bu" 0x74b40000 [FPR_XD; FPR_XJ; FPR_XK];
  row "xvmaddwev.w.hu" 0x74b48000 [FPR_XD; FPR_XJ; FPR_XK];
  row "xvmaddwev.d.wu" 0x74b50000 [FPR_XD; FPR_XJ; FPR_XK];
  row "xvmaddwev.q.du" 0x74b58000 [FPR_XD; FPR_XJ; FPR_XK];
  row "xvmaddwod.h.bu" 0x74b60000 [FPR_XD; FPR_XJ; FPR_XK];
  row "xvmaddwod.w.hu" 0x74b68000 [FPR_XD; FPR_XJ; FPR_XK];
  row "xvmaddwod.d.wu" 0x74b70000 [FPR_XD; FPR_XJ; FPR_XK];
  row "xvmaddwod.q.du" 0x74b78000 [FPR_XD; FPR_XJ; FPR_XK];
  row "xvmaddwl.h.bu" 0x74b80000 [FPR_XD; FPR_XJ; FPR_XK];
  row "xvmaddwl.w.hu" 0x74b88000 [FPR_XD; FPR_XJ; FPR_XK];
  row "xvmaddwl.d.wu" 0x74b90000 [FPR_XD; FPR_XJ; FPR_XK];
  row "xvmaddwl.q.du" 0x74b98000 [FPR_XD; FPR_XJ; FPR_XK];
  row "xvmaddwh.h.bu" 0x74ba0000 [FPR_XD; FPR_XJ; FPR_XK];
  row "xvmaddwh.w.hu" 0x74ba8000 [FPR_XD; FPR_XJ; FPR_XK];
  row "xvmaddwh.d.wu" 0x74bb0000 [FPR_XD; FPR_XJ; FPR_XK];
  row "xvmaddwh.q.du" 0x74bb8000 [FPR_XD; FPR_XJ; FPR_XK];
  row "xvmaddwev.h.bu.b" 0x74bc0000 [FPR_XD; FPR_XJ; FPR_XK];
  row "xvmaddwev.w.hu.h" 0x74bc8000 [FPR_XD; FPR_XJ; FPR_XK];
  row "xvmaddwev.d.wu.w" 0x74bd0000 [FPR_XD; FPR_XJ; FPR_XK];
  row "xvmaddwev.q.du.d" 0x74bd8000 [FPR_XD; FPR_XJ; FPR_XK];
  row "xvmaddwod.h.bu.b" 0x74be0000 [FPR_XD; FPR_XJ; FPR_XK];
  row "xvmaddwod.w.hu.h" 0x74be8000 [FPR_XD; FPR_XJ; FPR_XK];
  row "xvmaddwod.d.wu.w" 0x74bf0000 [FPR_XD; FPR_XJ; FPR_XK];
  row "xvmaddwod.q.du.d" 0x74bf8000 [FPR_XD; FPR_XJ; FPR_XK];
  row "xvmaddwl.h.bu.b" 0x74c00000 [FPR_XD; FPR_XJ; FPR_XK];
  row "xvmaddwl.w.hu.h" 0x74c08000 [FPR_XD; FPR_XJ; FPR_XK];
  row "xvmaddwl.d.wu.w" 0x74c10000 [FPR_XD; FPR_XJ; FPR_XK];
  row "xvmaddwl.q.du.d" 0x74c18000 [FPR_XD; FPR_XJ; FPR_XK];
  row "xvmaddwh.h.bu.b" 0x74c20000 [FPR_XD; FPR_XJ; FPR_XK];
  row "xvmaddwh.w.hu.h" 0x74c28000 [FPR_XD; FPR_XJ; FPR_XK];
  row "xvmaddwh.d.wu.w" 0x74c30000 [FPR_XD; FPR_XJ; FPR_XK];
  row "xvmaddwh.q.du.d" 0x74c38000 [FPR_XD; FPR_XJ; FPR_XK];
  row "xvdp2.h.b" 0x74c40000 [FPR_XD; FPR_XJ; FPR_XK];
  row "xvdp2.w.h" 0x74c48000 [FPR_XD; FPR_XJ; FPR_XK];
  row "xvdp2.d.w" 0x74c50000 [FPR_XD; FPR_XJ; FPR_XK];
  row "xvdp2.q.d" 0x74c58000 [FPR_XD; FPR_XJ; FPR_XK];
  row "xvdp2.hu.bu" 0x74c60000 [FPR_XD; FPR_XJ; FPR_XK];
  row "xvdp2.wu.hu" 0x74c68000 [FPR_XD; FPR_XJ; FPR_XK];
  row "xvdp2.du.wu" 0x74c70000 [FPR_XD; FPR_XJ; FPR_XK];
  row "xvdp2.qu.du" 0x74c78000 [FPR_XD; FPR_XJ; FPR_XK];
  row "xvdp2.h.bu.b" 0x74c80000 [FPR_XD; FPR_XJ; FPR_XK];
  row "xvdp2.w.hu.h" 0x74c88000 [FPR_XD; FPR_XJ; FPR_XK];
  row "xvdp2.d.wu.w" 0x74c90000 [FPR_XD; FPR_XJ; FPR_XK];
  row "xvdp2.q.du.d" 0x74c98000 [FPR_XD; FPR_XJ; FPR_XK];
  row "xvdp2add.h.b" 0x74ca0000 [FPR_XD; FPR_XJ; FPR_XK];
  row "xvdp2add.w.h" 0x74ca8000 [FPR_XD; FPR_XJ; FPR_XK];
  row "xvdp2add.d.w" 0x74cb0000 [FPR_XD; FPR_XJ; FPR_XK];
  row "xvdp2add.q.d" 0x74cb8000 [FPR_XD; FPR_XJ; FPR_XK];
  row "xvdp2add.h.bu" 0x74cc0000 [FPR_XD; FPR_XJ; FPR_XK];
  row "xvdp2add.w.hu" 0x74cc8000 [FPR_XD; FPR_XJ; FPR_XK];
  row "xvdp2add.d.wu" 0x74cd0000 [FPR_XD; FPR_XJ; FPR_XK];
  row "xvdp2add.q.du" 0x74cd8000 [FPR_XD; FPR_XJ; FPR_XK];
  row "xvdp2add.h.bu.b" 0x74ce0000 [FPR_XD; FPR_XJ; FPR_XK];
  row "xvdp2add.w.hu.h" 0x74ce8000 [FPR_XD; FPR_XJ; FPR_XK];
  row "xvdp2add.d.wu.w" 0x74cf0000 [FPR_XD; FPR_XJ; FPR_XK];
  row "xvdp2add.q.du.d" 0x74cf8000 [FPR_XD; FPR_XJ; FPR_XK];
  row "xvdp2sub.h.b" 0x74d00000 [FPR_XD; FPR_XJ; FPR_XK];
  row "xvdp2sub.w.h" 0x74d08000 [FPR_XD; FPR_XJ; FPR_XK];
  row "xvdp2sub.d.w" 0x74d10000 [FPR_XD; FPR_XJ; FPR_XK];
  row "xvdp2sub.q.d" 0x74d18000 [FPR_XD; FPR_XJ; FPR_XK];
  row "xvdp2sub.h.bu" 0x74d20000 [FPR_XD; FPR_XJ; FPR_XK];
  row "xvdp2sub.w.hu" 0x74d28000 [FPR_XD; FPR_XJ; FPR_XK];
  row "xvdp2sub.d.wu" 0x74d30000 [FPR_XD; FPR_XJ; FPR_XK];
  row "xvdp2sub.q.du" 0x74d38000 [FPR_XD; FPR_XJ; FPR_XK];
  row "xvdp4.w.b" 0x74d40000 [FPR_XD; FPR_XJ; FPR_XK];
  row "xvdp4.d.h" 0x74d48000 [FPR_XD; FPR_XJ; FPR_XK];
  row "xvdp4.q.w" 0x74d50000 [FPR_XD; FPR_XJ; FPR_XK];
  row "xvdp4.w.bu" 0x74d60000 [FPR_XD; FPR_XJ; FPR_XK];
  row "xvdp4.d.hu" 0x74d68000 [FPR_XD; FPR_XJ; FPR_XK];
  row "xvdp4.q.wu" 0x74d70000 [FPR_XD; FPR_XJ; FPR_XK];
  row "xvdp4.w.bu.b" 0x74d80000 [FPR_XD; FPR_XJ; FPR_XK];
  row "xvdp4.d.hu.h" 0x74d88000 [FPR_XD; FPR_XJ; FPR_XK];
  row "xvdp4.q.wu.w" 0x74d90000 [FPR_XD; FPR_XJ; FPR_XK];
  row "xvdp4add.w.b" 0x74da0000 [FPR_XD; FPR_XJ; FPR_XK];
  row "xvdp4add.d.h" 0x74da8000 [FPR_XD; FPR_XJ; FPR_XK];
  row "xvdp4add.q.w" 0x74db0000 [FPR_XD; FPR_XJ; FPR_XK];
  row "xvdp4add.w.bu" 0x74dc0000 [FPR_XD; FPR_XJ; FPR_XK];
  row "xvdp4add.d.hu" 0x74dc8000 [FPR_XD; FPR_XJ; FPR_XK];
  row "xvdp4add.q.wu" 0x74dd0000 [FPR_XD; FPR_XJ; FPR_XK];
  row "xvdp4add.w.bu.b" 0x74de0000 [FPR_XD; FPR_XJ; FPR_XK];
  row "xvdp4add.d.hu.h" 0x74de8000 [FPR_XD; FPR_XJ; FPR_XK];
  row "xvdp4add.q.wu.w" 0x74df0000 [FPR_XD; FPR_XJ; FPR_XK];
  row "xvdiv.b" 0x74e00000 [FPR_XD; FPR_XJ; FPR_XK];
  row "xvdiv.h" 0x74e08000 [FPR_XD; FPR_XJ; FPR_XK];
  row "xvdiv.w" 0x74e10000 [FPR_XD; FPR_XJ; FPR_XK];
  row "xvdiv.d" 0x74e18000 [FPR_XD; FPR_XJ; FPR_XK];
  row "xvmod.b" 0x74e20000 [FPR_XD; FPR_XJ; FPR_XK];
  row "xvmod.h" 0x74e28000 [FPR_XD; FPR_XJ; FPR_XK];
  row "xvmod.w" 0x74e30000 [FPR_XD; FPR_XJ; FPR_XK];
  row "xvmod.d" 0x74e38000 [FPR_XD; FPR_XJ; FPR_XK];
  row "xvdiv.bu" 0x74e40000 [FPR_XD; FPR_XJ; FPR_XK];
  row "xvdiv.hu" 0x74e48000 [FPR_XD; FPR_XJ; FPR_XK];
  row "xvdiv.wu" 0x74e50000 [FPR_XD; FPR_XJ; FPR_XK];
  row "xvdiv.du" 0x74e58000 [FPR_XD; FPR_XJ; FPR_XK];
  row "xvmod.bu" 0x74e60000 [FPR_XD; FPR_XJ; FPR_XK];
  row "xvmod.hu" 0x74e68000 [FPR_XD; FPR_XJ; FPR_XK];
  row "xvmod.wu" 0x74e70000 [FPR_XD; FPR_XJ; FPR_XK];
  row "xvmod.du" 0x74e78000 [FPR_XD; FPR_XJ; FPR_XK];
  row "xvsll.b" 0x74e80000 [FPR_XD; FPR_XJ; FPR_XK];
  row "xvsll.h" 0x74e88000 [FPR_XD; FPR_XJ; FPR_XK];
  row "xvsll.w" 0x74e90000 [FPR_XD; FPR_XJ; FPR_XK];
  row "xvsll.d" 0x74e98000 [FPR_XD; FPR_XJ; FPR_XK];
  row "xvsrl.b" 0x74ea0000 [FPR_XD; FPR_XJ; FPR_XK];
  row "xvsrl.h" 0x74ea8000 [FPR_XD; FPR_XJ; FPR_XK];
  row "xvsrl.w" 0x74eb0000 [FPR_XD; FPR_XJ; FPR_XK];
  row "xvsrl.d" 0x74eb8000 [FPR_XD; FPR_XJ; FPR_XK];
  row "xvsra.b" 0x74ec0000 [FPR_XD; FPR_XJ; FPR_XK];
  row "xvsra.h" 0x74ec8000 [FPR_XD; FPR_XJ; FPR_XK];
  row "xvsra.w" 0x74ed0000 [FPR_XD; FPR_XJ; FPR_XK];
  row "xvsra.d" 0x74ed8000 [FPR_XD; FPR_XJ; FPR_XK];
  row "xvrotr.b" 0x74ee0000 [FPR_XD; FPR_XJ; FPR_XK];
  row "xvrotr.h" 0x74ee8000 [FPR_XD; FPR_XJ; FPR_XK];
  row "xvrotr.w" 0x74ef0000 [FPR_XD; FPR_XJ; FPR_XK];
  row "xvrotr.d" 0x74ef8000 [FPR_XD; FPR_XJ; FPR_XK];
  row "xvsrlr.b" 0x74f00000 [FPR_XD; FPR_XJ; FPR_XK];
  row "xvsrlr.h" 0x74f08000 [FPR_XD; FPR_XJ; FPR_XK];
  row "xvsrlr.w" 0x74f10000 [FPR_XD; FPR_XJ; FPR_XK];
  row "xvsrlr.d" 0x74f18000 [FPR_XD; FPR_XJ; FPR_XK];
  row "xvsrar.b" 0x74f20000 [FPR_XD; FPR_XJ; FPR_XK];
  row "xvsrar.h" 0x74f28000 [FPR_XD; FPR_XJ; FPR_XK];
  row "xvsrar.w" 0x74f30000 [FPR_XD; FPR_XJ; FPR_XK];
  row "xvsrar.d" 0x74f38000 [FPR_XD; FPR_XJ; FPR_XK];
  row "xvsrln.b.h" 0x74f48000 [FPR_XD; FPR_XJ; FPR_XK];
  row "xvsrln.h.w" 0x74f50000 [FPR_XD; FPR_XJ; FPR_XK];
  row "xvsrln.w.d" 0x74f58000 [FPR_XD; FPR_XJ; FPR_XK];
  row "xvsran.b.h" 0x74f68000 [FPR_XD; FPR_XJ; FPR_XK];
  row "xvsran.h.w" 0x74f70000 [FPR_XD; FPR_XJ; FPR_XK];
  row "xvsran.w.d" 0x74f78000 [FPR_XD; FPR_XJ; FPR_XK];
  row "xvsrlrn.b.h" 0x74f88000 [FPR_XD; FPR_XJ; FPR_XK];
  row "xvsrlrn.h.w" 0x74f90000 [FPR_XD; FPR_XJ; FPR_XK];
  row "xvsrlrn.w.d" 0x74f98000 [FPR_XD; FPR_XJ; FPR_XK];
  row "xvsrarn.b.h" 0x74fa8000 [FPR_XD; FPR_XJ; FPR_XK];
  row "xvsrarn.h.w" 0x74fb0000 [FPR_XD; FPR_XJ; FPR_XK];
  row "xvsrarn.w.d" 0x74fb8000 [FPR_XD; FPR_XJ; FPR_XK];
  row "xvssrln.b.h" 0x74fc8000 [FPR_XD; FPR_XJ; FPR_XK];
  row "xvssrln.h.w" 0x74fd0000 [FPR_XD; FPR_XJ; FPR_XK];
  row "xvssrln.w.d" 0x74fd8000 [FPR_XD; FPR_XJ; FPR_XK];
  row "xvssran.b.h" 0x74fe8000 [FPR_XD; FPR_XJ; FPR_XK];
  row "xvssran.h.w" 0x74ff0000 [FPR_XD; FPR_XJ; FPR_XK];
  row "xvssran.w.d" 0x74ff8000 [FPR_XD; FPR_XJ; FPR_XK];
  row "xvssrlrn.b.h" 0x75008000 [FPR_XD; FPR_XJ; FPR_XK]].

Definition rows_14 : list template := [
  row "xvssrlrn.h.w" 0x75010000 [FPR_XD; FPR_XJ; FPR_XK];
  row "xvssrlrn.w.d" 0x75018000 [FPR_XD; FPR_XJ; FPR_XK];
  row "xvssrarn.b.h" 0x75028000 [FPR_XD; FPR_XJ; FPR_XK];
  row "xvssrarn.h.w" 0x75030000 [FPR_XD; FPR_XJ; FPR_XK];
  row "xvssrarn.w.d" 0x75038000 [FPR_XD; FPR_XJ; FPR_XK];
  row "xvssrln.bu.h" 0x75048000 [FPR_XD; FPR_XJ; FPR_XK];
  row "xvssrln.hu.w" 0x75050000 [FPR_XD; FPR_XJ; FPR_XK];
  row "xvssrln.wu.d" 0x75058000 [FPR_XD; FPR_XJ; FPR_XK];
  row "xvssran.bu.h" 0x75068000 [FPR_XD; FPR_XJ; FPR_XK];
  row "xvssran.hu.w" 0x75070000 [FPR_XD; FPR_XJ; FPR_XK];
  row "xvssran.wu.d" 0x75078000 [FPR_XD; FPR_XJ; FPR_XK];
  row "xvssrlrn.bu.h" 0x75088000 [FPR_XD; FPR_XJ; FPR_XK];
  row "xvssrlrn.hu.w" 0x75090000 [FPR_XD; FPR_XJ; FPR_XK];
  row "xvssrlrn.wu.d" 0x75098000 [FPR_XD; FPR_XJ; FPR_XK];
  row "xvssrarn.bu.h" 0x750a8000 [FPR_XD; FPR_XJ; FPR_XK];
  row "xvssrarn.hu.w" 0x750b0000 [FPR_XD; FPR_XJ; FPR_XK];
  row "xvssrarn.wu.d" 0x750b8000 [FPR_XD; FPR_XJ; FPR_XK];
  row "xvbitclr.b" 0x750c0000 [FPR_XD; FPR_XJ; FPR_XK];
  row "xvbitclr.h" 0x750c8000 [FPR_XD; FPR_XJ; FPR_XK];
  row "xvbitclr.w" 0x750d0000 [FPR_XD; FPR_XJ; FPR_XK];
  row "xvbitclr.d" 0x750d8000 [FPR_XD; FPR_XJ; FPR_XK];
  row "xvbitset.b" 0x750e0000 [FPR_XD; FPR_XJ; FPR_XK];
  row "xvbitset.h" 0x750e8000 [FPR_XD; FPR_XJ; FPR_XK];
  row "xvbitset.w" 0x750f0000 [FPR_XD; FPR_XJ; FPR_XK];
  row "xvbitset.d" 0x750f8000 [FPR_XD; FPR_XJ; FPR_XK];
  row "xvbitrev.b" 0x75100000 [FPR_XD; FPR_XJ; FPR_XK];
  row "xvbitrev.h" 0x75108000 [FPR_XD; FPR_XJ; FPR_XK];
  row "xvbitrev.w" 0x75110000 [FPR_XD; FPR_XJ; FPR_XK];
  row "xvbitrev.d" 0x75118000 [FPR_XD; FPR_XJ; FPR_XK];
  row "xvbstrc12.b" 0x75120000 [FPR_XD; FPR_XJ; FPR_XK];
  row "xvbstrc12.h" 0x75128000 [FPR_XD; FPR_XJ; FPR_XK];
  row "xvbstrc12.w" 0x75130000 [FPR_XD; FPR_XJ; FPR_XK];
  row "xvbstrc12.d" 0x75138000 [FPR_XD; FPR_XJ; FPR_XK];
  row "xvbstrc21.b" 0x75140000 [FPR_XD; FPR_XJ; FPR_XK];
  row "xvbstrc21.h" 0x75148000 [FPR_XD; FPR_XJ; FPR_XK];
  row "xvbstrc21.w" 0x75150000 [FPR_XD; FPR_XJ; FPR_XK];
  row "xvbstrc21.d" 0x75158000 [FPR_XD; FPR_XJ; FPR_XK];
  row "xvpackev.b" 0x75160000 [FPR_XD; FPR_XJ; FPR_XK];
  row "xvpackev.h" 0x75168000 [FPR_XD; FPR_XJ; FPR_XK];
  row "xvpackev.w" 0x75170000 [FPR_XD; FPR_XJ; FPR_XK];
  row "xvpackev.d" 0x75178000 [FPR_XD; FPR_XJ; FPR_XK];
  row "xvpackod.b" 0x75180000 [FPR_XD; FPR_XJ; FPR_XK];
  row "xvpackod.h" 0x75188000 [FPR_XD; FPR_XJ; FPR_XK];
  row "xvpackod.w" 0x75190000 [FPR_XD; FPR_XJ; FPR_XK];
  row "xvpackod.d" 0x75198000 [FPR_XD; FPR_XJ; FPR_XK];
  row "xvilvl.b" 0x751a0000 [FPR_XD; FPR_XJ; FPR_XK];
  row "xvilvl.h" 0x751a8000 [FPR_XD; FPR_XJ; FPR_XK];
  row "xvilvl.w" 0x751b0000 [FPR_XD; FPR_XJ; FPR_XK];
  row "xvilvl.d" 0x751b8000 [FPR_XD; FPR_XJ; FPR_XK];
  row "xvilvh.b" 0x751c0000 [FPR_XD; FPR_XJ; FPR_XK];
  row "xvilvh.h" 0x751c8000 [FPR_XD; FPR_XJ; FPR_XK];
  row "xvilvh.w" 0x751d0000 [FPR_XD; FPR_XJ; FPR_XK];
  row "xvilvh.d" 0x751d8000 [FPR_XD; FPR_XJ; FPR_XK];
  row "xvpickev.b" 0x751e0000 [FPR_XD; FPR_XJ; FPR_XK];
  row "xvpickev.h" 0x751e8000 [FPR_XD; FPR_XJ; FPR_XK];
  row "xvpickev.w" 0x751f0000 [FPR_XD; FPR_XJ; FPR_XK];
  row "xvpickev.d" 0x751f8000 [FPR_XD; FPR_XJ; FPR_XK];
  row "xvpickod.b" 0x75200000 [FPR_XD; FPR_XJ; FPR_XK];
  row "xvpickod.h" 0x75208000 [FPR_XD; FPR_XJ; FPR_XK];
  row "xvpickod.w" 0x75210000 [FPR_XD; FPR_XJ; FPR_XK];
  row "xvpickod.d" 0x75218000 [FPR_XD; FPR_XJ; FPR_XK];
  row "xvreplve.b" 0x75220000 [FPR_XD; FPR_XJ; GPR_RK];
  row "xvreplve.h" 0x75228000 [FPR_XD; FPR_XJ; GPR_RK];
  row "xvreplve.w" 0x75230000 [FPR_XD; FPR_XJ; GPR_RK];
  row "xvreplve.d" 0x75238000 [FPR_XD; FPR_XJ; GPR_RK];
  row "xvextrcol.b" 0x75240000 [FPR_XD; FPR_XJ; GPR_RK];
  row "xvextrcol.h" 0x75248000 [FPR_XD; FPR_XJ; GPR_RK];
  row "xvextrcol.w" 0x75250000 [FPR_XD; FPR_XJ; GPR_RK];
  row "xvextrcol.d" 0x75258000 [FPR_XD; FPR_XJ; GPR_RK];
  row "xvand.v" 0x75260000 [FPR_XD; FPR_XJ; FPR_XK];
  row "xvor.v" 0x75268000 [FPR_XD; FPR_XJ; FPR_XK];
  row "xvxor.v" 0x75270000 [FPR_XD; FPR_XJ; FPR_XK];
  row "xvnor.v" 0x75278000 [FPR_XD; FPR_XJ; FPR_XK];
  row "xvandn.v" 0x75280000 [FPR_XD; FPR_XJ; FPR_XK];
  row "xvorn.v" 0x75288000 [FPR_XD; FPR_XJ; FPR_XK];
  row "xvrandsign.b" 0x75290000 [FPR_XD; FPR_XJ; FPR_XK];
  row "xvrandsign.h" 0x75298000 [FPR_XD; FPR_XJ; FPR_XK];
  row "xvrorsign.b" 0x752a0000 [FPR_XD; FPR_XJ; FPR_XK];
  row "xvrorsign.h" 0x752a8000 [FPR_XD; FPR_XJ; FPR_XK];
  row "xvfrstp.b" 0x752b0000 [FPR_XD; FPR_XJ; FPR_XK];
  row "xvfrstp.h" 0x752b8000 [FPR_XD; FPR_XJ; FPR_XK];
  row "xvclrstrr.v" 0x752c0000 [FPR_XD; FPR_XJ; GPR_RK];
  row "xvclrstrv.v" 0x752c8000 [FPR_XD; FPR_XJ; FPR_XK];
  row "xvadd.q" 0x752d0000 [FPR_XD; FPR_XJ; FPR_XK];
  row "xvsub.q" 0x752d8000 [FPR_XD; FPR_XJ; FPR_XK];
  row "xvsigncov.b" 0x752e0000 [FPR_XD; FPR_XJ; FPR_XK];
  row "xvsigncov.h" 0x752e8000 [FPR_XD; FPR_XJ; FPR_XK];
  row "xvsigncov.w" 0x752f0000 [FPR_XD; FPR_XJ; FPR_XK];
  row "xvsigncov.d" 0x752f8000 [FPR_XD; FPR_XJ; FPR_XK];
  row "xvfadd.s" 0x75308000 [FPR_XD; FPR_XJ; FPR_XK];
  row "xvfadd.d" 0x75310000 [FPR_XD; FPR_XJ; FPR_XK];
  row "xvfsub.s" 0x75328000 [FPR_XD; FPR_XJ; FPR_XK];
  row "xvfsub.d" 0x75330000 [FPR_XD; FPR_XJ; FPR_XK];
  row "xvfaddsub.s" 0x75348000 [FPR_XD; FPR_XJ; FPR_XK];
  row "xvfaddsub.d" 0x75350000 [FPR_XD; FPR_XJ; FPR_XK];
  row "xvfsubadd.s" 0x75368000 [FPR_XD; FPR_XJ; FPR_XK];
  row "xvfsubadd.d" 0x75370000 [FPR_XD; FPR_XJ; FPR_XK];
  row "xvfmul.s" 0x75388000 [FPR_XD; FPR_XJ; FPR_XK];
  row "xvfmul.d" 0x75390000 [FPR_XD; FPR_XJ; FPR_XK];
  row "xvfdiv.s" 0x753a8000 [FPR_XD; FPR_XJ; FPR_XK];
  row "xvfdiv.d" 0x753b0000 [FPR_XD; FPR_XJ; FPR_XK];
  row "xvfmax.s" 0x753c8000 [FPR_XD; FPR_XJ; FPR_XK];
  row "xvfmax.d" 0x753d0000 [FPR_XD; FPR_XJ; FPR_XK];
  row "xvfmin.s" 0x753e8000 [FPR_XD; FPR_XJ; FPR_XK];
  row "xvfmin.d" 0x753f0000 [FPR_XD; FPR_XJ; FPR_XK];
  row "xvfmaxa.s" 0x75408000 [FPR_XD; FPR_XJ; FPR_XK];
  row "xvfmaxa.d" 0x75410000 [FPR_XD; FPR_XJ; FPR_XK];
  row "xvfmina.s" 0x75428000 [FPR_XD; FPR_XJ; FPR_XK];
  row "xvfmina.d" 0x75430000 [FPR_XD; FPR_XJ; FPR_XK];
  row "xvfscaleb.s" 0x75448000 [FPR_XD; FPR_XJ; FPR_XK];
  row "xvfscaleb.d" 0x75450000 [FPR_XD; FPR_XJ; FPR_XK];
  row "xvfcvt.h.s" 0x75460000 [FPR_XD; FPR_XJ; FPR_XK];
  row "xvfcvt.s.d" 0x75468000 [FPR_XD; FPR_XJ; FPR_XK];
  row "xvffint.s.l" 0x75480000 [FPR_XD; FPR_XJ; FPR_XK];
  row "xvftint.w.d" 0x75498000 [FPR_XD; FPR_XJ; FPR_XK];
  row "xvftintrm.w.d" 0x754a0000 [FPR_XD; FPR_XJ; FPR_XK];
  row "xvftintrp.w.d" 0x754a8000 [FPR_XD; FPR_XJ; FPR_XK];
  row "xvftintrz.w.d" 0x754b0000 [FPR_XD; FPR_XJ; FPR_XK];
  row "xvftintrne.w.d" 0x754b8000 [FPR_XD; FPR_XJ; FPR_XK];
  row "xvhadd4.h.bu" 0x754e8000 [FPR_XD; FPR_XJ; FPR_XK];
  row "xvshuf4.w" 0x754f0000 [FPR_XD; FPR_XJ; FPR_XK];
  row "xvshuf2.d" 0x754f8000 [FPR_XD; FPR_XJ; FPR_XK];
  row "xvpmul.w" 0x75600000 [FPR_XD; FPR_XJ; FPR_XK];
  row "xvpmul.d" 0x75608000 [FPR_XD; FPR_XJ; FPR_XK];
  row "xvpmuh.w" 0x75610000 [FPR_XD; FPR_XJ; FPR_XK];
  row "xvpmuh.d" 0x75618000 [FPR_XD; FPR_XJ; FPR_XK];
  row "xvpmulacc.w" 0x75620000 [FPR_XD; FPR_XJ; FPR_XK];
  row "xvpmulacc.d" 0x75628000 [FPR_XD; FPR_XJ; FPR_XK];
  row "xvpmuhacc.w" 0x75630000 [FPR_XD; FPR_XJ; FPR_XK];
  row "xvpmuhacc.d" 0x75638000 [FPR_XD; FPR_XJ; FPR_XK];
  row "xvpmulwl.h.b" 0x75640000 [FPR_XD; FPR_XJ; FPR_XK];
  row "xvpmulwl.w.h" 0x75648000 [FPR_XD; FPR_XJ; FPR_XK];
  row "xvpmulwl.d.w" 0x75650000 [FPR_XD; FPR_XJ; FPR_XK];
  row "xvpmulwl.q.d" 0x75658000 [FPR_XD; FPR_XJ; FPR_XK];
  row "xvpmulwh.h.b" 0x75660000 [FPR_XD; FPR_XJ; FPR_XK];
  row "xvpmulwh.w.h" 0x75668000 [FPR_XD; FPR_XJ; FPR_XK];
  row "xvpmulwh.d.w" 0x75670000 [FPR_XD; FPR_XJ; FPR_XK];
  row "xvpmulwh.q.d" 0x75678000 [FPR_XD; FPR_XJ; FPR_XK];
  row "xvpmaddwl.h.b" 0x75680000 [FPR_XD; FPR_XJ; FPR_XK];
  row "xvpmaddwl.w.h" 0x75688000 [FPR_XD; FPR_XJ; FPR_XK];
  row "xvpmaddwl.d.w" 0x75690000 [FPR_XD; FPR_XJ; FPR_XK];
  row "xvpmaddwl.q.d" 0x75698000 [FPR_XD; FPR_XJ; FPR_XK];
  row "xvpmaddwh.h.b" 0x756a0000 [FPR_XD; FPR_XJ; FPR_XK];
  row "xvpmaddwh.w.h" 0x756a8000 [FPR_XD; FPR_XJ; FPR_XK];
  row "xvpmaddwh.d.w" 0x756b0000 [FPR_XD; FPR_XJ; FPR_XK];
  row "xvpmaddwh.q.d" 0x756b8000 [FPR_XD; FPR_XJ; FPR_XK];
  row "xvpdp2.q.d" 0x756c0000 [FPR_XD; FPR_XJ; FPR_XK];
  row "xvpdp2add.q.d" 0x756c8000 [FPR_XD; FPR_XJ; FPR_XK];
  row "xvcdp4.re.d.h" 0x75700000 [FPR_XD; FPR_XJ; FPR_XK];
  row "xvcdp4.im.d.h" 0x75708000 [FPR_XD; FPR_XJ; FPR_XK]].

Definition rows_15 : list template := [
  row "xvcdp4add.re.d.h" 0x75710000 [FPR_XD; FPR_XJ; FPR_XK];
  row "xvcdp4add.im.d.h" 0x75718000 [FPR_XD; FPR_XJ; FPR_XK];
  row "xvcdp2.re.q.w" 0x75720000 [FPR_XD; FPR_XJ; FPR_XK];
  row "xvcdp2.im.q.w" 0x75728000 [FPR_XD; FPR_XJ; FPR_XK];
  row "xvcdp2add.re.q.w" 0x75730000 [FPR_XD; FPR_XJ; FPR_XK];
  row "xvcdp2add.im.q.w" 0x75738000 [FPR_XD; FPR_XJ; FPR_XK];
  row "xvsignsel.w" 0x75790000 [FPR_XD; FPR_XJ; FPR_XK];
  row "xvsignsel.d" 0x75798000 [FPR_XD; FPR_XJ; FPR_XK];
  row "xvshuf.h" 0x757a8000 [FPR_XD; FPR_XJ; FPR_XK];
  row "xvshuf.w" 0x757b0000 [FPR_XD; FPR_XJ; FPR_XK];
  row "xvshuf.d" 0x757b8000 [FPR_XD; FPR_XJ; FPR_XK];
  row "xvperm.w" 0x757d0000 [FPR_XD; FPR_XJ; FPR_XK];
  row "xvseqi.b" 0x76800000 [FPR_XD; FPR_XJ; IMM_SI5];
  row "xvseqi.h" 0x76808000 [FPR_XD; FPR_XJ; IMM_SI5];
  row "xvseqi.w" 0x76810000 [FPR_XD; FPR_XJ; IMM_SI5];
  row "xvseqi.d" 0x76818000 [FPR_XD; FPR_XJ; IMM_SI5];
  row "xvslei.b" 0x76820000 [FPR_XD; FPR_XJ; IMM_SI5];
  row "xvslei.h" 0x76828000 [FPR_XD; FPR_XJ; IMM_SI5];
  row "xvslei.w" 0x76830000 [FPR_XD; FPR_XJ; IMM_SI5];
  row "xvslei.d" 0x76838000 [FPR_XD; FPR_XJ; IMM_SI5];
  row "xvslei.bu" 0x76840000 [FPR_XD; FPR_XJ; IMM_UI5L];
  row "xvslei.hu" 0x76848000 [FPR_XD; FPR_XJ; IMM_UI5L];
  row "xvslei.wu" 0x76850000 [FPR_XD; FPR_XJ; IMM_UI5L];
  row "xvslei.du" 0x76858000 [FPR_XD; FPR_XJ; IMM_UI5L];
  row "xvslti.b" 0x76860000 [FPR_XD; FPR_XJ; IMM_SI5];
  row "xvslti.h" 0x76868000 [FPR_XD; FPR_XJ; IMM_SI5];
  row "xvslti.w" 0x76870000 [FPR_XD; FPR_XJ; IMM_SI5];
  row "xvslti.d" 0x76878000 [FPR_XD; FPR_XJ; IMM_SI5];
  row "xvslti.bu" 0x76880000 [FPR_XD; FPR_XJ; IMM_UI5L];
  row "xvslti.hu" 0x76888000 [FPR_XD; FPR_XJ; IMM_UI5L];
  row "xvslti.wu" 0x76890000 [FPR_XD; FPR_XJ; IMM_UI5L];
  row "xvslti.du" 0x76898000 [FPR_XD; FPR_XJ; IMM_UI5L];
  row "xvaddi.bu" 0x768a0000 [FPR_XD; FPR_XJ; IMM_UI5L];
  row "xvaddi.hu" 0x768a8000 [FPR_XD; FPR_XJ; IMM_UI5L];
  row "xvaddi.wu" 0x768b0000 [FPR_XD; FPR_XJ; IMM_UI5L];
  row "xvaddi.du" 0x768b8000 [FPR_XD; FPR_XJ; IMM_UI5L];
  row "xvsubi.bu" 0x768c0000 [FPR_XD; FPR_XJ; IMM_UI5L];
  row "xvsubi.hu" 0x768c8000 [FPR_XD; FPR_XJ; IMM_UI5L];
  row "xvsubi.wu" 0x768d0000 [FPR_XD; FPR_XJ; IMM_UI5L];
  row "xvsubi.du" 0x768d8000 [FPR_XD; FPR_XJ; IMM_UI5L];
  row "xvbsll.v" 0x768e0000 [FPR_XD; FPR_XJ; IMM_UI5L];
  row "xvbsrl.v" 0x768e8000 [FPR_XD; FPR_XJ; IMM_UI5L];
  row "xvmaxi.b" 0x76900000 [FPR_XD; FPR_XJ; IMM_SI5];
  row "xvmaxi.h" 0x76908000 [FPR_XD; FPR_XJ; IMM_SI5];
  row "xvmaxi.w" 0x76910000 [FPR_XD; FPR_XJ; IMM_SI5];
  row "xvmaxi.d" 0x76918000 [FPR_XD; FPR_XJ; IMM_SI5];
  row "xvmini.b" 0x76920000 [FPR_XD; FPR_XJ; IMM_SI5];
  row "xvmini.h" 0x76928000 [FPR_XD; FPR_XJ; IMM_SI5];
  row "xvmini.w" 0x76930000 [FPR_XD; FPR_XJ; IMM_SI5];
  row "xvmini.d" 0x76938000 [FPR_XD; FPR_XJ; IMM_SI5];
  row "xvmaxi.bu" 0x76940000 [FPR_XD; FPR_XJ; IMM_UI5L];
  row "xvmaxi.hu" 0x76948000 [FPR_XD; FPR_XJ; IMM_UI5L];
  row "xvmaxi.wu" 0x76950000 [FPR_XD; FPR_XJ; IMM_UI5L];
  row "xvmaxi.du" 0x76958000 [FPR_XD; FPR_XJ; IMM_UI5L];
  row "xvmini.bu" 0x76960000 [FPR_XD; FPR_XJ; IMM_UI5L];
  row "xvmini.hu" 0x76968000 [FPR_XD; FPR_XJ; IMM_UI5L];
  row "xvmini.wu" 0x76970000 [FPR_XD; FPR_XJ; IMM_UI5L];
  row "xvmini.du" 0x76978000 [FPR_XD; FPR_XJ; IMM_UI5L];
  row "xvrandsigni.b" 0x76980000 [FPR_XD; FPR_XJ; IMM_UI5L];
  row "xvrandsigni.h" 0x76988000 [FPR_XD; FPR_XJ; IMM_UI5L];
  row "xvrorsigni.b" 0x76990000 [FPR_XD; FPR_XJ; IMM_UI5L];
  row "xvrorsigni.h" 0x76998000 [FPR_XD; FPR_XJ; IMM_UI5L];
  row "xvfrstpi.b" 0x769a0000 [FPR_XD; FPR_XJ; IMM_UI5L];
  row "xvfrstpi.h" 0x769a8000 [FPR_XD; FPR_XJ; IMM_UI5L];
  row "xvclrstri.v" 0x769b0000 [FPR_XD; FPR_XJ; IMM_UI5L];
  row "xvmepatmsk.v" 0x769b8000 [FPR_XD; IMM_MODE; IMM_UI5L];
  row "xvclo.b" 0x769c0000 [FPR_XD; FPR_XJ];
  row "xvclo.h" 0x769c0400 [FPR_XD; FPR_XJ];
  row "xvclo.w" 0x769c0800 [FPR_XD; FPR_XJ];
  row "xvclo.d" 0x769c0c00 [FPR_XD; FPR_XJ];
  row "xvclz.b" 0x769c1000 [FPR_XD; FPR_XJ];
  row "xvclz.h" 0x769c1400 [FPR_XD; FPR_XJ];
  row "xvclz.w" 0x769c1800 [FPR_XD; FPR_XJ];
  row "xvclz.d" 0x769c1c00 [FPR_XD; FPR_XJ];
  row "xvpcnt.b" 0x769c2000 [FPR_XD; FPR_XJ];
  row "xvpcnt.h" 0x769c2400 [FPR_XD; FPR_XJ];
  row "xvpcnt.w" 0x769c2800 [FPR_XD; FPR_XJ];
  row "xvpcnt.d" 0x769c2c00 [FPR_XD; FPR_XJ];
  row "xvneg.b" 0x769c3000 [FPR_XD; FPR_XJ];
  row "xvneg.h" 0x769c3400 [FPR_XD; FPR_XJ];
  row "xvneg.w" 0x769c3800 [FPR_XD; FPR_XJ];
  row "xvneg.d" 0x769c3c00 [FPR_XD; FPR_XJ];
  row "xvmskltz.b" 0x769c4000 [FPR_XD; FPR_XJ];
  row "xvmskltz.h" 0x769c4400 [FPR_XD; FPR_XJ];
  row "xvmskltz.w" 0x769c4800 [FPR_XD; FPR_XJ];
  row "xvmskltz.d" 0x769c4c00 [FPR_XD; FPR_XJ];
  row "xvmskgez.b" 0x769c5000 [FPR_XD; FPR_XJ];
  row "xvmsknz.b" 0x769c6000 [FPR_XD; FPR_XJ];
  row "xvmskcopy.b" 0x769c7000 [FPR_XD; FPR_XJ];
  row "xvmskfill.b" 0x769c8000 [FPR_XD; FPR_XJ];
  row "xvfrstm.b" 0x769c9000 [FPR_XD; FPR_XJ];
  row "xvfrstm.h" 0x769c9400 [FPR_XD; FPR_XJ];
  row "xvseteqz.v" 0x769c9800 [FCC_CD; FPR_XJ];
  row "xvsetnez.v" 0x769c9c00 [FCC_CD; FPR_XJ];
  row "xvsetanyeqz.b" 0x769ca000 [FCC_CD; FPR_XJ];
  row "xvsetanyeqz.h" 0x769ca400 [FCC_CD; FPR_XJ];
  row "xvsetanyeqz.w" 0x769ca800 [FCC_CD; FPR_XJ];
  row "xvsetanyeqz.d" 0x769cac00 [FCC_CD; FPR_XJ];
  row "xvsetallnez.b" 0x769cb000 [FCC_CD; FPR_XJ];
  row "xvsetallnez.h" 0x769cb400 [FCC_CD; FPR_XJ];
  row "xvsetallnez.w" 0x769cb800 [FCC_CD; FPR_XJ];
  row "xvsetallnez.d" 0x769cbc00 [FCC_CD; FPR_XJ];
  row "xvflogb.s" 0x769cc400 [FPR_XD; FPR_XJ];
  row "xvflogb.d" 0x769cc800 [FPR_XD; FPR_XJ];
  row "xvfclass.s" 0x769cd400 [FPR_XD; FPR_XJ];
  row "xvfclass.d" 0x769cd800 [FPR_XD; FPR_XJ];
  row "xvfsqrt.s" 0x769ce400 [FPR_XD; FPR_XJ];
  row "xvfsqrt.d" 0x769ce800 [FPR_XD; FPR_XJ];
  row "xvfrecip.s" 0x769cf400 [FPR_XD; FPR_XJ];
  row "xvfrecip.d" 0x769cf800 [FPR_XD; FPR_XJ];
  row "xvfrsqrt.s" 0x769d0400 [FPR_XD; FPR_XJ];
  row "xvfrsqrt.d" 0x769d0800 [FPR_XD; FPR_XJ];
  row "xvfrint.s" 0x769d3400 [FPR_XD; FPR_XJ];
  row "xvfrint.d" 0x769d3800 [FPR_XD; FPR_XJ];
  row "xvfrintrm.s" 0x769d4400 [FPR_XD; FPR_XJ];
  row "xvfrintrm.d" 0x769d4800 [FPR_XD; FPR_XJ];
  row "xvfrintrp.s" 0x769d5400 [FPR_XD; FPR_XJ];
  row "xvfrintrp.d" 0x769d5800 [FPR_XD; FPR_XJ];
  row "xvfrintrz.s" 0x769d6400 [FPR_XD; FPR_XJ];
  row "xvfrintrz.d" 0x769d6800 [FPR_XD; FPR_XJ];
  row "xvfrintrne.s" 0x769d7400 [FPR_XD; FPR_XJ];
  row "xvfrintrne.d" 0x769d7800 [FPR_XD; FPR_XJ];
  row "xvextl.w.b" 0x769d8400 [FPR_XD; FPR_XJ];
  row "xvextl.d.b" 0x769d8800 [FPR_XD; FPR_XJ];
  row "xvextl.d.h" 0x769d9400 [FPR_XD; FPR_XJ];
  row "xvextl.w.bu" 0x769dac00 [FPR_XD; FPR_XJ];
  row "xvextl.d.bu" 0x769db000 [FPR_XD; FPR_XJ];
  row "xvextl.d.hu" 0x769dbc00 [FPR_XD; FPR_XJ];
  row "xvhadd8.d.bu" 0x769dd000 [FPR_XD; FPR_XJ];
  row "xvhminpos.w.hu" 0x769dd400 [FPR_XD; FPR_XJ];
  row "xvhminpos.d.hu" 0x769dd800 [FPR_XD; FPR_XJ];
  row "xvhminpos.q.hu" 0x769ddc00 [FPR_XD; FPR_XJ];
  row "xvclrtail.b" 0x769de000 [FPR_XD; FPR_XJ];
  row "xvclrtail.h" 0x769de400 [FPR_XD; FPR_XJ];
  row "xvfcvtl.s.h" 0x769de800 [FPR_XD; FPR_XJ];
  row "xvfcvth.s.h" 0x769dec00 [FPR_XD; FPR_XJ];
  row "xvfcvtl.d.s" 0x769df000 [FPR_XD; FPR_XJ];
  row "xvfcvth.d.s" 0x769df400 [FPR_XD; FPR_XJ];
  row "xvffint.s.w" 0x769e0000 [FPR_XD; FPR_XJ];
  row "xvffint.s.wu" 0x769e0400 [FPR_XD; FPR_XJ];
  row "xvffint.d.l" 0x769e0800 [FPR_XD; FPR_XJ];
  row "xvffint.d.lu" 0x769e0c00 [FPR_XD; FPR_XJ];
  row "xvffintl.d.w" 0x769e1000 [FPR_XD; FPR_XJ];
  row "xvffinth.d.w" 0x769e1400 [FPR_XD; FPR_XJ];
  row "xvftint.w.s" 0x769e3000 [FPR_XD; FPR_XJ];
  row "xvftint.l.d" 0x769e3400 [FPR_XD; FPR_XJ];
  row "xvftintrm.w.s" 0x769e3800 [FPR_XD; FPR_XJ];
  row "xvftintrm.l.d" 0x769e3c00 [FPR_XD; FPR_XJ];
  row "xvftintrp.w.s" 0x769e4000 [FPR_XD; FPR_XJ];
  row "xvftintrp.l.d" 0x769e4400 [FPR_XD; FPR_XJ]].

Definition rows_16 : list template := [
  row "xvftintrz.w.s" 0x769e4800 [FPR_XD; FPR_XJ];
  row "xvftintrz.l.d" 0x769e4c00 [FPR_XD; FPR_XJ];
  row "xvftintrne.w.s" 0x769e5000 [FPR_XD; FPR_XJ];
  row "xvftintrne.l.d" 0x769e5400 [FPR_XD; FPR_XJ];
  row "xvftint.wu.s" 0x769e5800 [FPR_XD; FPR_XJ];
  row "xvftint.lu.d" 0x769e5c00 [FPR_XD; FPR_XJ];
  row "xvftintrz.wu.s" 0x769e7000 [FPR_XD; FPR_XJ];
  row "xvftintrz.lu.d" 0x769e7400 [FPR_XD; FPR_XJ];
  row "xvftintl.l.s" 0x769e8000 [FPR_XD; FPR_XJ];
  row "xvftinth.l.s" 0x769e8400 [FPR_XD; FPR_XJ];
  row "xvftintrml.l.s" 0x769e8800 [FPR_XD; FPR_XJ];
  row "xvftintrmh.l.s" 0x769e8c00 [FPR_XD; FPR_XJ];
  row "xvftintrpl.l.s" 0x769e9000 [FPR_XD; FPR_XJ];
  row "xvftintrph.l.s" 0x769e9400 [FPR_XD; FPR_XJ];
  row "xvftintrzl.l.s" 0x769e9800 [FPR_XD; FPR_XJ];
  row "xvftintrzh.l.s" 0x769e9c00 [FPR_XD; FPR_XJ];
  row "xvftintrnel.l.s" 0x769ea000 [FPR_XD; FPR_XJ];
  row "xvftintrneh.l.s" 0x769ea400 [FPR_XD; FPR_XJ];
  row "xvexth.h.b" 0x769ee000 [FPR_XD; FPR_XJ];
  row "xvexth.w.h" 0x769ee400 [FPR_XD; FPR_XJ];
  row "xvexth.d.w" 0x769ee800 [FPR_XD; FPR_XJ];
  row "xvexth.q.d" 0x769eec00 [FPR_XD; FPR_XJ];
  row "xvexth.hu.bu" 0x769ef000 [FPR_XD; FPR_XJ];
  row "xvexth.wu.hu" 0x769ef400 [FPR_XD; FPR_XJ];
  row "xvexth.du.wu" 0x769ef800 [FPR_XD; FPR_XJ];
  row "xvexth.qu.du" 0x769efc00 [FPR_XD; FPR_XJ];
  row "xvreplgr2vr.b" 0x769f0000 [FPR_XD; GPR_RJ];
  row "xvreplgr2vr.h" 0x769f0400 [FPR_XD; GPR_RJ];
  row "xvreplgr2vr.w" 0x769f0800 [FPR_XD; GPR_RJ];
  row "xvreplgr2vr.d" 0x769f0c00 [FPR_XD; GPR_RJ];
  row "vext2xv.h.b" 0x769f1000 [FPR_XD; FPR_XJ];
  row "vext2xv.w.b" 0x769f1400 [FPR_XD; FPR_XJ];
  row "vext2xv.d.b" 0x769f1800 [FPR_XD; FPR_XJ];
  row "vext2xv.w.h" 0x769f1c00 [FPR_XD; FPR_XJ];
  row "vext2xv.d.h" 0x769f2000 [FPR_XD; FPR_XJ];
  row "vext2xv.d.w" 0x769f2400 [FPR_XD; FPR_XJ];
  row "vext2xv.hu.bu" 0x769f2800 [FPR_XD; FPR_XJ];
  row "vext2xv.wu.bu" 0x769f2c00 [FPR_XD; FPR_XJ];
  row "vext2xv.du.bu" 0x769f3000 [FPR_XD; FPR_XJ];
  row "vext2xv.wu.hu" 0x769f3400 [FPR_XD; FPR_XJ];
  row "vext2xv.du.hu" 0x769f3800 [FPR_XD; FPR_XJ];
  row "vext2xv.du.wu" 0x769f3c00 [FPR_XD; FPR_XJ];
  row "xvhseli.d" 0x769f8000 [FPR_XD; FPR_XJ; IMM_UI5L];
  row "xvrotri.b" 0x76a02000 [FPR_XD; FPR_XJ; IMM_UI3];
  row "xvrotri.h" 0x76a04000 [FPR_XD; FPR_XJ; IMM_UI4];
  row "xvrotri.w" 0x76a08000 [FPR_XD; FPR_XJ; IMM_UI5L];
  row "xvrotri.d" 0x76a10000 [FPR_XD; FPR_XJ; IMM_UI6];
  row "xvsrlri.b" 0x76a42000 [FPR_XD; FPR_XJ; IMM_UI3];
  row "xvsrlri.h" 0x76a44000 [FPR_XD; FPR_XJ; IMM_UI4];
  row "xvsrlri.w" 0x76a48000 [FPR_XD; FPR_XJ; IMM_UI5L];
  row "xvsrlri.d" 0x76a50000 [FPR_XD; FPR_XJ; IMM_UI6];
  row "xvsrari.b" 0x76a82000 [FPR_XD; FPR_XJ; IMM_UI3];
  row "xvsrari.h" 0x76a84000 [FPR_XD; FPR_XJ; IMM_UI4];
  row "xvsrari.w" 0x76a88000 [FPR_XD; FPR_XJ; IMM_UI5L];
  row "xvsrari.d" 0x76a90000 [FPR_XD; FPR_XJ; IMM_UI6];
  row "xvinsgr2vr.w" 0x76ebc000 [FPR_XD; GPR_RJ; IMM_UI3];
  row "xvinsgr2vr.d" 0x76ebe000 [FPR_XD; GPR_RJ; IMM_UI2];
  row "xvpickve2gr.w" 0x76efc000 [GPR_RD; FPR_XJ; IMM_UI3];
  row "xvpickve2gr.d" 0x76efe000 [GPR_RD; FPR_XJ; IMM_UI2];
  row "xvpickve2gr.wu" 0x76f3c000 [GPR_RD; FPR_XJ; IMM_UI3];
  row "xvpickve2gr.du" 0x76f3e000 [GPR_RD; FPR_XJ; IMM_UI2];
  row "xvrepl128vei.b" 0x76f78000 [FPR_XD; FPR_XJ; IMM_UI4];
  row "xvrepl128vei.h" 0x76f7c000 [FPR_XD; FPR_XJ; IMM_UI3];
  row "xvrepl128vei.w" 0x76f7e000 [FPR_XD; FPR_XJ; IMM_UI2];
  row "xvrepl128vei.d" 0x76f7f000 [FPR_XD; FPR_XJ; IMM_UI1];
  row "xvextrcoli.b" 0x76fb8000 [FPR_XD; FPR_XJ; IMM_UI4];
  row "xvextrcoli.h" 0x76fbc000 [FPR_XD; FPR_XJ; IMM_UI3];
  row "xvextrcoli.w" 0x76fbe000 [FPR_XD; FPR_XJ; IMM_UI2];
  row "xvextrcoli.d" 0x76fbf000 [FPR_XD; FPR_XJ; IMM_UI1];
  row "xvinsve0.w" 0x76ffc000 [FPR_XD; FPR_XJ; IMM_UI3];
  row "xvinsve0.d" 0x76ffe000 [FPR_XD; FPR_XJ; IMM_UI2];
  row "xvpickve.w" 0x7703c000 [FPR_XD; FPR_XJ; IMM_UI3];
  row "xvpickve.d" 0x7703e000 [FPR_XD; FPR_XJ; IMM_UI2];
  row "xvreplve0.b" 0x77070000 [FPR_XD; FPR_XJ];
  row "xvreplve0.h" 0x77078000 [FPR_XD; FPR_XJ];
  row "xvreplve0.w" 0x7707c000 [FPR_XD; FPR_XJ];
  row "xvreplve0.d" 0x7707e000 [FPR_XD; FPR_XJ];
  row "xvreplve0.q" 0x7707f000 [FPR_XD; FPR_XJ];
  row "xvsllwil.h.b" 0x77082000 [FPR_XD; FPR_XJ; IMM_UI3];
  row "xvsllwil.w.h" 0x77084000 [FPR_XD; FPR_XJ; IMM_UI4];
  row "xvsllwil.d.w" 0x77088000 [FPR_XD; FPR_XJ; IMM_UI5L];
  row "xvextl.q.d" 0x77090000 [FPR_XD; FPR_XJ];
  row "xvsllwil.hu.bu" 0x770c2000 [FPR_XD; FPR_XJ; IMM_UI3];
  row "xvsllwil.wu.hu" 0x770c4000 [FPR_XD; FPR_XJ; IMM_UI4];
  row "xvsllwil.du.wu" 0x770c8000 [FPR_XD; FPR_XJ; IMM_UI5L];
  row "xvextl.qu.du" 0x770d0000 [FPR_XD; FPR_XJ];
  row "xvbitclri.b" 0x77102000 [FPR_XD; FPR_XJ; IMM_UI3];
  row "xvbitclri.h" 0x77104000 [FPR_XD; FPR_XJ; IMM_UI4];
  row "xvbitclri.w" 0x77108000 [FPR_XD; FPR_XJ; IMM_UI5L];
  row "xvbitclri.d" 0x77110000 [FPR_XD; FPR_XJ; IMM_UI6];
  row "xvbitseti.b" 0x77142000 [FPR_XD; FPR_XJ; IMM_UI3];
  row "xvbitseti.h" 0x77144000 [FPR_XD; FPR_XJ; IMM_UI4];
  row "xvbitseti.w" 0x77148000 [FPR_XD; FPR_XJ; IMM_UI5L];
  row "xvbitseti.d" 0x77150000 [FPR_XD; FPR_XJ; IMM_UI6];
  row "xvbitrevi.b" 0x77182000 [FPR_XD; FPR_XJ; IMM_UI3];
  row "xvbitrevi.h" 0x77184000 [FPR_XD; FPR_XJ; IMM_UI4];
  row "xvbitrevi.w" 0x77188000 [FPR_XD; FPR_XJ; IMM_UI5L];
  row "xvbitrevi.d" 0x77190000 [FPR_XD; FPR_XJ; IMM_UI6];
  row "xvbstrc12i.b" 0x771c2000 [FPR_XD; FPR_XJ; IMM_UI3];
  row "xvbstrc12i.h" 0x771c4000 [FPR_XD; FPR_XJ; IMM_UI4];
  row "xvbstrc12i.w" 0x771c8000 [FPR_XD; FPR_XJ; IMM_UI5L];
  row "xvbstrc12i.d" 0x771d0000 [FPR_XD; FPR_XJ; IMM_UI6];
  row "xvbstrc21i.b" 0x77202000 [FPR_XD; FPR_XJ; IMM_UI3];
  row "xvbstrc21i.h" 0x77204000 [FPR_XD; FPR_XJ; IMM_UI4];
  row "xvbstrc21i.w" 0x77208000 [FPR_XD; FPR_XJ; IMM_UI5L];
  row "xvbstrc21i.d" 0x77210000 [FPR_XD; FPR_XJ; IMM_UI6];
  row "xvsat.b" 0x77242000 [FPR_XD; FPR_XJ; IMM_UI3];
  row "xvsat.h" 0x77244000 [FPR_XD; FPR_XJ; IMM_UI4];
  row "xvsat.w" 0x77248000 [FPR_XD; FPR_XJ; IMM_UI5L];
  row "xvsat.d" 0x77250000 [FPR_XD; FPR_XJ; IMM_UI6];
  row "xvsat.bu" 0x77282000 [FPR_XD; FPR_XJ; IMM_UI3];
  row "xvsat.hu" 0x77284000 [FPR_XD; FPR_XJ; IMM_UI4];
  row "xvsat.wu" 0x77288000 [FPR_XD; FPR_XJ; IMM_UI5L];
  row "xvsat.du" 0x77290000 [FPR_XD; FPR_XJ; IMM_UI6];
  row "xvslli.b" 0x772c2000 [FPR_XD; FPR_XJ; IMM_UI3];
  row "xvslli.h" 0x772c4000 [FPR_XD; FPR_XJ; IMM_UI4];
  row "xvslli.w" 0x772c8000 [FPR_XD; FPR_XJ; IMM_UI5L];
  row "xvslli.d" 0x772d0000 [FPR_XD; FPR_XJ; IMM_UI6];
  row "xvsrli.b" 0x77302000 [FPR_XD; FPR_XJ; IMM_UI3];
  row "xvsrli.h" 0x77304000 [FPR_XD; FPR_XJ; IMM_UI4];
  row "xvsrli.w" 0x77308000 [FPR_XD; FPR_XJ; IMM_UI5L];
  row "xvsrli.d" 0x77310000 [FPR_XD; FPR_XJ; IMM_UI6];
  row "xvsrai.b" 0x77342000 [FPR_XD; FPR_XJ; IMM_UI3];
  row "xvsrai.h" 0x77344000 [FPR_XD; FPR_XJ; IMM_UI4];
  row "xvsrai.w" 0x77348000 [FPR_XD; FPR_XJ; IMM_UI5L];
  row "xvsrai.d" 0x77350000 [FPR_XD; FPR_XJ; IMM_UI6];
  row "xvsrlrneni.b.h" 0x77384000 [FPR_XD; FPR_XJ; IMM_UI4];
  row "xvsrlrneni.h.w" 0x77388000 [FPR_XD; FPR_XJ; IMM_UI5L];
  row "xvsrlrneni.w.d" 0x77390000 [FPR_XD; FPR_XJ; IMM_UI6];
  row "xvsrlrneni.d.q" 0x773a0000 [FPR_XD; FPR_XJ; IMM_UI7];
  row "xvsrarneni.b.h" 0x773c4000 [FPR_XD; FPR_XJ; IMM_UI4];
  row "xvsrarneni.h.w" 0x773c8000 [FPR_XD; FPR_XJ; IMM_UI5L];
  row "xvsrarneni.w.d" 0x773d0000 [FPR_XD; FPR_XJ; IMM_UI6];
  row "xvsrarneni.d.q" 0x773e0000 [FPR_XD; FPR_XJ; IMM_UI7];
  row "xvsrlni.b.h" 0x77404000 [FPR_XD; FPR_XJ; IMM_UI4];
  row "xvsrlni.h.w" 0x77408000 [FPR_XD; FPR_XJ; IMM_UI5L];
  row "xvsrlni.w.d" 0x77410000 [FPR_XD; FPR_XJ; IMM_UI6];
  row "xvsrlni.d.q" 0x77420000 [FPR_XD; FPR_XJ; IMM_UI7];
  row "xvsrlrni.b.h" 0x77444000 [FPR_XD; FPR_XJ; IMM_UI4];
  row "xvsrlrni.h.w" 0x77448000 [FPR_XD; FPR_XJ; IMM_UI5L];
  row "xvsrlrni.w.d" 0x77450000 [FPR_XD; FPR_XJ; IMM_UI6];
  row "xvsrlrni.d.q" 0x77460000 [FPR_XD; FPR_XJ; IMM_UI7];
  row "xvssrlni.b.h" 0x77484000 [FPR_XD; FPR_XJ; IMM_UI4];
  row "xvssrlni.h.w" 0x77488000 [FPR_XD; FPR_XJ; IMM_UI5L];
  row "xvssrlni.w.d" 0x77490000 [FPR_XD; FPR_XJ; IMM_UI6];
  row "xvssrlni.d.q" 0x774a0000 [FPR_XD; FPR_XJ; IMM_UI7];
  row "xvssrlni.bu.h" 0x774c4000 [FPR_XD; FPR_XJ; IMM_UI4];
  row "xvssrlni.hu.w" 0x774c8000 [FPR_XD; FPR_XJ; IMM_UI5L];
  row "xvssrlni.wu.d" 0x774d0000 [FPR_XD; FPR_XJ; IMM_UI6];
  row "xvssrlni.du.q" 0x774e0000 [FPR_XD; FPR_XJ; IMM_UI7]].

Definition rows_17 : list template := [
  row "xvssrlrni.b.h" 0x77504000 [FPR_XD; FPR_XJ; IMM_UI4];
  row "xvssrlrni.h.w" 0x77508000 [FPR_XD; FPR_XJ; IMM_UI5L];
  row "xvssrlrni.w.d" 0x77510000 [FPR_XD; FPR_XJ; IMM_UI6];
  row "xvssrlrni.d.q" 0x77520000 [FPR_XD; FPR_XJ; IMM_UI7];
  row "xvssrlrni.bu.h" 0x77544000 [FPR_XD; FPR_XJ; IMM_UI4];
  row "xvssrlrni.hu.w" 0x77548000 [FPR_XD; FPR_XJ; IMM_UI5L];
  row "xvssrlrni.wu.d" 0x77550000 [FPR_XD; FPR_XJ; IMM_UI6];
  row "xvssrlrni.du.q" 0x77560000 [FPR_XD; FPR_XJ; IMM_UI7];
  row "xvsrani.b.h" 0x77584000 [FPR_XD; FPR_XJ; IMM_UI4];
  row "xvsrani.h.w" 0x77588000 [FPR_XD; FPR_XJ; IMM_UI5L];
  row "xvsrani.w.d" 0x77590000 [FPR_XD; FPR_XJ; IMM_UI6];
  row "xvsrani.d.q" 0x775a0000 [FPR_XD; FPR_XJ; IMM_UI7];
  row "xvsrarni.b.h" 0x775c4000 [FPR_XD; FPR_XJ; IMM_UI4];
  row "xvsrarni.h.w" 0x775c8000 [FPR_XD; FPR_XJ; IMM_UI5L];
  row "xvsrarni.w.d" 0x775d0000 [FPR_XD; FPR_XJ; IMM_UI6];
  row "xvsrarni.d.q" 0x775e0000 [FPR_XD; FPR_XJ; IMM_UI7];
  row "xvssrani.b.h" 0x77604000 [FPR_XD; FPR_XJ; IMM_UI4];
  row "xvssrani.h.w" 0x77608000 [FPR_XD; FPR_XJ; IMM_UI5L];
  row "xvssrani.w.d" 0x77610000 [FPR_XD; FPR_XJ; IMM_UI6];
  row "xvssrani.d.q" 0x77620000 [FPR_XD; FPR_XJ; IMM_UI7];
  row "xvssrani.bu.h" 0x77644000 [FPR_XD; FPR_XJ; IMM_UI4];
  row "xvssrani.hu.w" 0x77648000 [FPR_XD; FPR_XJ; IMM_UI5L];
  row "xvssrani.wu.d" 0x77650000 [FPR_XD; FPR_XJ; IMM_UI6];
  row "xvssrani.du.q" 0x77660000 [FPR_XD; FPR_XJ; IMM_UI7];
  row "xvssrarni.b.h" 0x77684000 [FPR_XD; FPR_XJ; IMM_UI4];
  row "xvssrarni.h.w" 0x77688000 [FPR_XD; FPR_XJ; IMM_UI5L];
  row "xvssrarni.w.d" 0x77690000 [FPR_XD; FPR_XJ; IMM_UI6];
  row "xvssrarni.d.q" 0x776a0000 [FPR_XD; FPR_XJ; IMM_UI7];
  row "xvssrarni.bu.h" 0x776c4000 [FPR_XD; FPR_XJ; IMM_UI4];
  row "xvssrarni.hu.w" 0x776c8000 [FPR_XD; FPR_XJ; IMM_UI5L];
  row "xvssrarni.wu.d" 0x776d0000 [FPR_XD; FPR_XJ; IMM_UI6];
  row "xvssrarni.du.q" 0x776e0000 [FPR_XD; FPR_XJ; IMM_UI7];
  row "xvssrlrneni.b.h" 0x77704000 [FPR_XD; FPR_XJ; IMM_UI4];
  row "xvssrlrneni.h.w" 0x77708000 [FPR_XD; FPR_XJ; IMM_UI5L];
  row "xvssrlrneni.w.d" 0x77710000 [FPR_XD; FPR_XJ; IMM_UI6];
  row "xvssrlrneni.d.q" 0x77720000 [FPR_XD; FPR_XJ; IMM_UI7];
  row "xvssrlrneni.bu.h" 0x77744000 [FPR_XD; FPR_XJ; IMM_UI4];
  row "xvssrlrneni.hu.w" 0x77748000 [FPR_XD; FPR_XJ; IMM_UI5L];
  row "xvssrlrneni.wu.d" 0x77750000 [FPR_XD; FPR_XJ; IMM_UI6];
  row "xvssrlrneni.du.q" 0x77760000 [FPR_XD; FPR_XJ; IMM_UI7];
  row "xvssrarneni.b.h" 0x77784000 [FPR_XD; FPR_XJ; IMM_UI4];
  row "xvssrarneni.h.w" 0x77788000 [FPR_XD; FPR_XJ; IMM_UI5L];
  row "xvssrarneni.w.d" 0x77790000 [FPR_XD; FPR_XJ; IMM_UI6];
  row "xvssrarneni.d.q" 0x777a0000 [FPR_XD; FPR_XJ; IMM_UI7];
  row "xvssrarneni.bu.h" 0x777c4000 [FPR_XD; FPR_XJ; IMM_UI4];
  row "xvssrarneni.hu.w" 0x777c8000 [FPR_XD; FPR_XJ; IMM_UI5L];
  row "xvssrarneni.wu.d" 0x777d0000 [FPR_XD; FPR_XJ; IMM_UI6];
  row "xvssrarneni.du.q" 0x777e0000 [FPR_XD; FPR_XJ; IMM_UI7];
  row "xvextrins.d" 0x77800000 [FPR_XD; FPR_XJ; IMM_UI8];
  row "xvextrins.w" 0x77840000 [FPR_XD; FPR_XJ; IMM_UI8];
  row "xvextrins.h" 0x77880000 [FPR_XD; FPR_XJ; IMM_UI8];
  row "xvextrins.b" 0x778c0000 [FPR_XD; FPR_XJ; IMM_UI8];
  row "xvshuf4i.b" 0x77900000 [FPR_XD; FPR_XJ; IMM_UI8];
  row "xvshuf4i.h" 0x77940000 [FPR_XD; FPR_XJ; IMM_UI8];
  row "xvshuf4i.w" 0x77980000 [FPR_XD; FPR_XJ; IMM_UI8];
  row "xvshuf4i.d" 0x779c0000 [FPR_XD; FPR_XJ; IMM_UI8];
  row "xvshufi1.b" 0x77a00000 [FPR_XD; FPR_XJ; IMM_UI8];
  row "xvshufi2.b" 0x77a40000 [FPR_XD; FPR_XJ; IMM_UI8];
  row "xvshufi3.b" 0x77a80000 [FPR_XD; FPR_XJ; IMM_UI8];
  row "xvshufi4.b" 0x77ac0000 [FPR_XD; FPR_XJ; IMM_UI8];
  row "xvshufi1.h" 0x77b00000 [FPR_XD; FPR_XJ; IMM_UI8];
  row "xvshufi2.h" 0x77b40000 [FPR_XD; FPR_XJ; IMM_UI8];
  row "xvseli.h" 0x77b80000 [FPR_XD; FPR_XJ; IMM_UI8];
  row "xvseli.w" 0x77bc0000 [FPR_XD; FPR_XJ; IMM_UI8];
  row "xvseli.d" 0x77c00000 [FPR_XD; FPR_XJ; IMM_UI8];
  row "xvbitseli.b" 0x77c40000 [FPR_XD; FPR_XJ; IMM_UI8];
  row "xvbitmvzi.b" 0x77c80000 [FPR_XD; FPR_XJ; IMM_UI8];
  row "xvbitmvnzi.b" 0x77cc0000 [FPR_XD; FPR_XJ; IMM_UI8];
  row "xvandi.b" 0x77d00000 [FPR_XD; FPR_XJ; IMM_UI8];
  row "xvori.b" 0x77d40000 [FPR_XD; FPR_XJ; IMM_UI8];
  row "xvxori.b" 0x77d80000 [FPR_XD; FPR_XJ; IMM_UI8];
  row "xvnori.b" 0x77dc0000 [FPR_XD; FPR_XJ; IMM_UI8];
  row "xvldi" 0x77e00000 [FPR_XD; IMM_I13];
  row "xvpermi.w" 0x77e40000 [FPR_XD; FPR_XJ; IMM_UI8];
  row "xvpermi.d" 0x77e80000 [FPR_XD; FPR_XJ; IMM_UI8];
  row "xvpermi.q" 0x77ec0000 [FPR_XD; FPR_XJ; IMM_UI8];
  row "ill" 0xffffffff [OPD_INVALID];
  row "ending" 0x0 []].

Definition lisa_templates : list template :=
  rows_0 ++ rows_1 ++ rows_2 ++ rows_3 ++ rows_4 ++ rows_5 ++ rows_6 ++ rows_7 ++
  rows_8 ++ rows_9 ++ rows_10 ++ rows_11 ++ rows_12 ++ rows_13 ++ rows_14 ++ rows_15
  ++ rows_16 ++ rows_17.

(** The enumeration constant of an entry: LISA_INVALID = 128 and counting. *)
Definition LISA_INVALID := 128.

Fixpoint index_of (name : string) (l : list template) (i : Z) : option Z :=
  match l with
  | [] => None
  | r :: l => if String.eqb (t_name r) name then Some i else index_of name l (i + 1)
  end.

Definition lisa (name : string) : Z := default (-1) (index_of name lisa_templates LISA_INVALID).
