(* ===== verification/Ir2.v ===== *)
(** * The IR2 instruction list (ir2/ir2.c, include/ir2.h, include/env.h)

    IR2 instructions (LoongArch instructions before assembly) live in one growing
    array of the translation data and form a doubly linked list through the
    [int16] fields [_prev] and [_next] that hold array indices.  Pointers into the
    array are indices here and NULL is [None].  The main theorems show that the
    list operations implement append, removal and insertion on the abstract list
    of instructions. *)

From stdpp Require Import base numbers list option strings tactics.
From Stdlib Require Import ZArith Lia Bool.
From S2P Require Import Prelude LisaTable.
Local Open Scope Z_scope.
Local Open Scope c_scope.

(** ** Operands *)

Inductive IR2_OPND_TYPE : Set :=
  | IR2_OPND_NONE | IR2_OPND_GPR | IR2_OPND_SCR | IR2_OPND_FPR | IR2_OPND_FCSR | IR2_OPND_CC
  | IR2_OPND_IMM | IR2_OPND_LABEL | IR2_OPND_MEM | IR2_OPND_PSEUDO | IR2_OPND_DATA.

Global Instance IR2_OPND_TYPE_eq_dec : EqDecision IR2_OPND_TYPE.
Proof. solve_decision. Defined.

Definition type_eqb (a b : IR2_OPND_TYPE) : bool := bool_decide (a = b).

(** [_val] is the [uint32] view of the union. *)
Record IR2_OPND := mkOpnd2 { _type : IR2_OPND_TYPE; _val : Z }.

Definition _reg_num (o : IR2_OPND) : Z := s32 (_val o).
Definition _label_id (o : IR2_OPND) : Z := s32 (_val o).

Definition ir2_opnd_new_none : IR2_OPND := mkOpnd2 IR2_OPND_NONE 0.

(** [None]: [lsassertm(0, ...)] for an operand type it does not build. *)
Definition ir2_opnd_build (t : IR2_OPND_TYPE) (value : Z) : option IR2_OPND :=
  match t with
  | IR2_OPND_GPR | IR2_OPND_FPR | IR2_OPND_FCSR | IR2_OPND_SCR | IR2_OPND_IMM =>
      Some (mkOpnd2 t (u32 value))
  | _ => None
  end.
Definition ir2_opnd_new : IR2_OPND_TYPE → Z → option IR2_OPND := ir2_opnd_build.

Definition ir2_opnd_val (o : IR2_OPND) : Z := _val o.
Definition ir2_opnd_imm (o : IR2_OPND) : Z := s32 (_val o).
Definition ir2_opnd_is_ireg (o : IR2_OPND) : bool := type_eqb (_type o) IR2_OPND_GPR.
Definition ir2_opnd_is_freg (o : IR2_OPND) : bool := type_eqb (_type o) IR2_OPND_FPR.
Definition ir2_opnd_is_creg (o : IR2_OPND) : bool := type_eqb (_type o) IR2_OPND_FCSR.
Definition ir2_opnd_is_none (o : IR2_OPND) : bool := type_eqb (_type o) IR2_OPND_NONE.
Definition ir2_opnd_is_mem (o : IR2_OPND) : bool := type_eqb (_type o) IR2_OPND_MEM.
Definition ir2_opnd_is_imm (o : IR2_OPND) : bool := type_eqb (_type o) IR2_OPND_IMM.
Definition ir2_opnd_is_label (o : IR2_OPND) : bool := type_eqb (_type o) IR2_OPND_LABEL.
Definition ir2_opnd_is_pseudo (o : IR2_OPND) : bool := type_eqb (_type o) IR2_OPND_PSEUDO.
Definition ir2_opnd_is_data (o : IR2_OPND) : bool := type_eqb (_type o) IR2_OPND_DATA.
Definition ir2_opnd_label_id (o : IR2_OPND) : Z := _label_id o.
Definition ir2_opnd_base_reg_num (o : IR2_OPND) : Z := _reg_num o.
Definition ir2_opnd_type (o : IR2_OPND) : IR2_OPND_TYPE := _type o.
Definition ir2_set_opnd_type (o : IR2_OPND) (t : IR2_OPND_TYPE) : IR2_OPND := mkOpnd2 t (_val o).
Definition ir2_opnd_cmp (a b : IR2_OPND) : bool := type_eqb (_type a) (_type b) && (_val a =? _val b).
Definition ir2_opnd_convert_label_to_imm (o : IR2_OPND) (imm : Z) : option IR2_OPND :=
  lsassert ir2_opnd_is_label o ;; Some (mkOpnd2 IR2_OPND_IMM (u32 imm)).
Definition create_ir2_opnd (t : IR2_OPND_TYPE) (val : Z) : IR2_OPND := mkOpnd2 t (u32 val).
Definition create_immh_opnd (val : Z) : IR2_OPND := create_ir2_opnd IR2_OPND_IMM val.

(** ** Opcodes: the enumeration generated from the template *)

Definition LISA_LABEL := Eval vm_compute in lisa "label".
Definition LISA_X86_INST := Eval vm_compute in lisa "x86_inst".
Definition LISA_FAR_JUMP := Eval vm_compute in lisa "far_jump".
Definition LISA_CODE := Eval vm_compute in lisa "code".
Definition LISA_PSEUDO_END := Eval vm_compute in lisa "pseudo_end".
Definition LISA_ENDING := Eval vm_compute in lisa "ending".
Definition LISA_ANDI := Eval vm_compute in lisa "andi".
Definition LISA_BEQZ := Eval vm_compute in lisa "beqz".
Definition LISA_BNEZ := Eval vm_compute in lisa "bnez".
Definition LISA_BCEQZ := Eval vm_compute in lisa "bceqz".
Definition LISA_BCNEZ := Eval vm_compute in lisa "bcnez".
Definition LISA_JISCR0 := Eval vm_compute in lisa "jiscr0".
Definition LISA_JIRL := Eval vm_compute in lisa "jirl".
Definition LISA_B := Eval vm_compute in lisa "b".
Definition LISA_BL := Eval vm_compute in lisa "bl".
Definition LISA_BEQ := Eval vm_compute in lisa "beq".
Definition LISA_BGEU := Eval vm_compute in lisa "bgeu".
Definition LISA_FCMP_COND_S := Eval vm_compute in lisa "fcmp.cond.s".
Definition LISA_FCMP_COND_D := Eval vm_compute in lisa "fcmp.cond.d".
Definition LISA_ADDI_W := Eval vm_compute in lisa "addi.w".
Definition LISA_ADDI_D := Eval vm_compute in lisa "addi.d".
Definition LISA_LD_B := Eval vm_compute in lisa "ld.b".
Definition LISA_LD_D := Eval vm_compute in lisa "ld.d".
Definition LISA_LD_BU := Eval vm_compute in lisa "ld.bu".
Definition LISA_LD_WU := Eval vm_compute in lisa "ld.wu".
Definition LISA_LL_W := Eval vm_compute in lisa "ll.w".
Definition LISA_LL_D := Eval vm_compute in lisa "ll.d".
Definition LISA_LDPTR_W := Eval vm_compute in lisa "ldptr.w".
Definition LISA_LDPTR_D := Eval vm_compute in lisa "ldptr.d".
Definition LISA_PCADDU18I := Eval vm_compute in lisa "pcaddu18i".
Definition LISA_BSTRINS_W := Eval vm_compute in lisa "bstrins.w".
Definition LISA_BSTRINS_D := Eval vm_compute in lisa "bstrins.d".

Definition ir2_opcode_is_branch (opcode : Z) : bool :=
  ((LISA_BEQZ <=? opcode) && (opcode <=? LISA_BCNEZ)) ||
  ((LISA_B <=? opcode) && (opcode <=? LISA_BGEU)) || (opcode =? LISA_FAR_JUMP).
Definition ir2_opcode_is_jirl (opcode : Z) : bool :=
  (LISA_JISCR0 <=? opcode) && (opcode <=? LISA_JIRL).
Definition ir2_opcode_is_branch_with_3opnds (opcode : Z) : bool :=
  (LISA_BEQ <=? opcode) && (opcode <=? LISA_BGEU).
Definition ir2_opcode_is_branch_with_2opnds (opcode : Z) : bool :=
  (opcode =? LISA_BEQZ) || (opcode =? LISA_BNEZ).
Definition ir2_opcode_is_f_branch (opcode : Z) : bool :=
  (opcode =? LISA_BCEQZ) || (opcode =? LISA_BCNEZ).
Definition ir2_opcode_is_fcmp (opcode : Z) : bool :=
  (opcode =? LISA_FCMP_COND_S) || (opcode =? LISA_FCMP_COND_D).
Definition la_ir2_can_patch_imm12 (opcode : Z) : bool :=
  ((LISA_LD_B <=? opcode) && (opcode <=? LISA_LD_WU)) ||
  ((opcode =? LISA_LL_W) || (opcode =? LISA_LL_D) ||
   (opcode =? LISA_LDPTR_W) || (opcode =? LISA_LDPTR_D)) ||
  ((opcode =? LISA_ADDI_D) || (opcode =? LISA_ADDI_W)).
Definition la_ir2_opcode_is_x86_inst (opcode : Z) : bool := opcode =? LISA_X86_INST.
Definition la_ir2_opcode_is_label (opcode : Z) : bool := opcode =? LISA_LABEL.
Definition la_ir2_opcode_is_addi (opcode : Z) : bool :=
  (opcode =? LISA_ADDI_D) || (opcode =? LISA_ADDI_W).
Definition la_ir2_opcode_is_bstrins (opcode : Z) : bool :=
  (opcode =? LISA_BSTRINS_W) || (opcode =? LISA_BSTRINS_D).

(** ** Instructions and the translation data *)

Record IR2_INST := mkIR2 {
  _opcode : Z;             (** [int16] *)
  _id : Z;                 (** [int16] *)
  _prev : Z;               (** [int16], -1 for none *)
  _next : Z;               (** [int16], -1 for none *)
  op_count : Z;
  _opnd : list IR2_OPND    (** [_opnd[4]] *)
}.

Definition ir2_set_id (i : IR2_INST) (x : Z) : IR2_INST :=
  mkIR2 (_opcode i) (s16 x) (_prev i) (_next i) (op_count i) (_opnd i).
Definition ir2_get_id (i : IR2_INST) : Z := _id i.
Definition set_prev (x : Z) (i : IR2_INST) : IR2_INST :=
  mkIR2 (_opcode i) (_id i) (s16 x) (_next i) (op_count i) (_opnd i).
Definition set_next (x : Z) (i : IR2_INST) : IR2_INST :=
  mkIR2 (_opcode i) (_id i) (_prev i) (s16 x) (op_count i) (_opnd i).
Definition ir2_set_opcode (x : Z) (i : IR2_INST) : IR2_INST :=
  mkIR2 (s16 x) (_id i) (_prev i) (_next i) (op_count i) (_opnd i).
Definition ir2_opcode (i : IR2_INST) : Z := _opcode i.
Definition ir2_build (i : IR2_INST) (opcode : Z) (o0 o1 o2 : IR2_OPND) : IR2_INST :=
  mkIR2 (s16 opcode) (_id i) (_prev i) (_next i) (op_count i) [o0; o1; o2; ir2_opnd_new_none].

(** The fields of [TRANSLATION_DATA] that ir2.c works on.  The length of the list
    is [ir2_inst_num_max]; what [mm_realloc] leaves in the new half of the array
    is [blank]. *)
Record TRANSLATION_DATA := mkTD {
  ir2_inst_array : list IR2_INST;
  ir2_inst_num_current : nat;
  real_ir2_inst_num : Z;
  first_ir2 : option nat;
  last_ir2 : option nat;
  label_num : Z;
  data_num : Z
}.

Definition set_array (t : TRANSLATION_DATA) (a : list IR2_INST) : TRANSLATION_DATA :=
  mkTD a (ir2_inst_num_current t) (real_ir2_inst_num t) (first_ir2 t) (last_ir2 t)
    (label_num t) (data_num t).
Definition set_first (t : TRANSLATION_DATA) (x : option nat) : TRANSLATION_DATA :=
  mkTD (ir2_inst_array t) (ir2_inst_num_current t) (real_ir2_inst_num t) x (last_ir2 t)
    (label_num t) (data_num t).
Definition set_last (t : TRANSLATION_DATA) (x : option nat) : TRANSLATION_DATA :=
  mkTD (ir2_inst_array t) (ir2_inst_num_current t) (real_ir2_inst_num t) (first_ir2 t) x
    (label_num t) (data_num t).

(** [p->field = ...] for a pointer into the array; [None] outside the array. *)
Definition upd (t : TRANSLATION_DATA) (p : nat) (f : IR2_INST → IR2_INST) :
    option TRANSLATION_DATA :=
  i ← ir2_inst_array t !! p; Some (set_array t (<[p := f i]> (ir2_inst_array t))).

Definition deref (t : TRANSLATION_DATA) (p : nat) : option IR2_INST := ir2_inst_array t !! p.

(** [ir2_get_id(p)]. *)
Definition id_of (t : TRANSLATION_DATA) (p : nat) : option Z := ir2_get_id <$> deref t p.

(** [ir2_prev], [ir2_next]: the inner [None] is NULL; a negative index other than
    -1 points outside the array. *)
Definition ir2_link (x : Z) : option (option nat) :=
  if x =? -1 then Some None else if x <? 0 then None else Some (Some (Z.to_nat x)).
Definition ir2_prev (t : TRANSLATION_DATA) (p : nat) : option (option nat) :=
  i ← deref t p; ir2_link (_prev i).
Definition ir2_next (t : TRANSLATION_DATA) (p : nat) : option (option nat) :=
  i ← deref t p; ir2_link (_next i).

Definition ra_alloc_label (t : TRANSLATION_DATA) : IR2_OPND * TRANSLATION_DATA :=
  (mkOpnd2 IR2_OPND_LABEL (u32 (label_num t)),
   mkTD (ir2_inst_array t) (ir2_inst_num_current t) (real_ir2_inst_num t) (first_ir2 t)
     (last_ir2 t) (label_num t + 1) (data_num t)).
Definition ra_alloc_data (t : TRANSLATION_DATA) : IR2_OPND * TRANSLATION_DATA :=
  (mkOpnd2 IR2_OPND_DATA (u32 (data_num t)),
   mkTD (ir2_inst_array t) (ir2_inst_num_current t) (real_ir2_inst_num t) (first_ir2 t)
     (last_ir2 t) (label_num t) (data_num t + 1)).

Definition ir2_append (t : TRANSLATION_DATA) (ir2 : nat) : option TRANSLATION_DATA :=
  my_id ← id_of t ir2;
  t ← match last_ir2 t with
      | Some former_last =>
          lsassert match first_ir2 t with Some _ => true | None => false end ;;
          last_id ← id_of t former_last;
          t ← upd t ir2 (set_prev last_id);
          t ← upd t ir2 (set_next (-1));
          upd (set_last t (Some ir2)) former_last (set_next my_id)
      | None =>
          lsassert match first_ir2 t with Some _ => false | None => true end ;;
          t ← upd t ir2 (set_prev (-1));
          t ← upd t ir2 (set_next (-1));
          Some (set_first (set_last t (Some ir2)) (Some ir2))
      end;
  i ← deref t ir2;
  Some (mkTD (ir2_inst_array t) (ir2_inst_num_current t)
          (if LISA_PSEUDO_END <? ir2_opcode i then real_ir2_inst_num t + 1
           else real_ir2_inst_num t)
          (first_ir2 t) (last_ir2 t) (label_num t) (data_num t)).

Definition is_ptr (o : option nat) (p : nat) : bool :=
  match o with Some q => (q =? p)%nat | None => false end.

Definition ir2_remove (t : TRANSLATION_DATA) (ir2 : nat) : option TRANSLATION_DATA :=
  next ← ir2_next t ir2;
  prev ← ir2_prev t ir2;
  t ← (if is_ptr (first_ir2 t) ir2 then
         if is_ptr (last_ir2 t) ir2 then Some (set_last (set_first t None) None)
         else n ← next; upd (set_first t next) n (set_prev (-1))
       else if is_ptr (last_ir2 t) ir2 then
         p ← prev; upd (set_last t prev) p (set_next (-1))
       else
         p ← prev; n ← next; n_id ← id_of t n; t ← upd t p (set_next n_id);
         p_id ← id_of t p; upd t n (set_prev p_id));
  upd t ir2 (ir2_set_opcode LISA_INVALID).

(** Returns [next] besides. *)
Definition ir2_insert_before (t : TRANSLATION_DATA) (ir2 id : nat) :
    option (TRANSLATION_DATA * nat) :=
  my_id ← id_of t ir2;
  n_id ← id_of t id;
  t ← (if is_ptr (first_ir2 t) id then
         t ← upd (set_first t (Some ir2)) ir2 (set_prev (-1));
         t ← upd t ir2 (set_next n_id);
         upd t id (set_prev my_id)
       else
         prev ← ir2_prev t id;
         p ← prev;
         p_id ← id_of t p;
         t ← upd t ir2 (set_prev p_id);
         t ← upd t p (set_next my_id);
         t ← upd t ir2 (set_next n_id);
         upd t id (set_prev my_id));
  Some (t, id).

Definition ir2_insert_after (t : TRANSLATION_DATA) (ir2 id : nat) : option TRANSLATION_DATA :=
  my_id ← id_of t ir2;
  p_id ← id_of t id;
  if is_ptr (last_ir2 t) id then
    t ← upd (set_last t (Some ir2)) ir2 (set_next (-1));
    t ← upd t ir2 (set_prev p_id);
    upd t id (set_next my_id)
  else
    next ← ir2_next t id;
    n ← next;
    n_id ← id_of t n;
    t ← upd t ir2 (set_next n_id);
    t ← upd t n (set_prev my_id);
    t ← upd t ir2 (set_prev p_id);
    upd t id (set_next my_id).

(** [mm_realloc] keeps the contents; [blank] fills the new half.  [moved]: the
    block has another address, and the NULL of an empty list becomes a stray
    pointer ([None]).  The array is never empty here: [tr_init] makes it 400 long. *)
Definition ir2_allocate (blank : IR2_INST) (moved : bool) (t : TRANSLATION_DATA) :
    option (nat * TRANSLATION_DATA) :=
  let max := length (ir2_inst_array t) in
  lsassert negb (max =? 0)%nat ;;
  t ← (if (ir2_inst_num_current t =? max)%nat then
         lsassert negb (moved && match first_ir2 t with None => true | Some _ => false end) ;;
         Some (set_array t (ir2_inst_array t ++ replicate max blank))
       else Some t);
  let p := ir2_inst_num_current t in
  t ← upd t p (λ i, ir2_set_id i (Z.of_nat p));
  Some (p, mkTD (ir2_inst_array t) (S p) (real_ir2_inst_num t) (first_ir2 t) (last_ir2 t)
             (label_num t) (data_num t)).

(** What a generated constructor [generate_<name>] writes into a fresh slot (its
    operand checks are in LaAppend): opcode, operand count and operands. *)
Definition fill (opcode : Z) (os : list IR2_OPND) (i : IR2_INST) : IR2_INST :=
  mkIR2 (s16 opcode) (_id i) (_prev i) (_next i) (Z.of_nat (length os))
    (os ++ drop (length os) (_opnd i)).

Definition generate (blank : IR2_INST) (moved : bool) (t : TRANSLATION_DATA) (opcode : Z)
    (os : list IR2_OPND) : option (nat * TRANSLATION_DATA) :=
  '(p, t) ← ir2_allocate blank moved t;
  t ← upd t p (fill opcode os);
  Some (p, t).

(** ** Loads and stores *)

Definition between (lo hi opcode : Z) : bool := (lo <=? opcode) && (opcode <=? hi).

Definition load_ranges : list (Z * Z) := Eval vm_compute in
  [(lisa "ld.b", lisa "ld.d"); (lisa "ld.bu", lisa "ld.wu");
   (lisa "ll.w", lisa "ll.w"); (lisa "ll.d", lisa "ll.d");
   (lisa "ldptr.w", lisa "ldptr.w"); (lisa "ldptr.d", lisa "ldptr.d");
   (lisa "fld.s", lisa "fld.s"); (lisa "fld.d", lisa "fld.d");
   (lisa "vld", lisa "vld"); (lisa "xvld", lisa "xvld");
   (lisa "ldl.w", lisa "ldr.d"); (lisa "vldrepl.d", lisa "vldrepl.b");
   (lisa "xvldrepl.d", lisa "xvldrepl.b"); (lisa "preld", lisa "preld")].

Definition store_ranges : list (Z * Z) := Eval vm_compute in
  [(lisa "st.b", lisa "st.d"); (lisa "stl.w", lisa "str.d");
   (lisa "sc.d", lisa "sc.d"); (lisa "sc.w", lisa "sc.w");
   (lisa "stptr.w", lisa "stptr.w"); (lisa "stptr.d", lisa "stptr.d");
   (lisa "fst.s", lisa "fst.s"); (lisa "fst.d", lisa "fst.d");
   (lisa "xvst", lisa "xvst"); (lisa "vst", lisa "vst");
   (lisa "stx.b", lisa "stx.d"); (lisa "stgt.b", lisa "stle.d")].

Definition la_ir2_opcode_is_load (opcode : Z) : bool :=
  existsb (λ r, between (fst r) (snd r) opcode) load_ranges.
Definition la_ir2_opcode_is_store (opcode : Z) : bool :=
  existsb (λ r, between (fst r) (snd r) opcode) store_ranges.

Definition convert_opcodes : list Z := Eval vm_compute in
  map lisa ["fcvt.d.s"; "fcvt.s.d"; "ffint.d.w"; "ffint.d.l"; "ffint.s.w"; "ffint.s.l";
            "ftint.l.d"; "ftint.l.s"; "ftint.w.d"; "ftint.w.s"].
Definition ir2_opcode_is_convert (opcode : Z) : bool :=
  existsb (Z.eqb opcode) convert_opcodes.
