(* ===== verification/Ir2List.v ===== *)
(** * The IR2 list refines a list of instructions

    [repr t l]: the links of the array of the translation data [t] spell the list
    [l] of array slots.  [ops_refine] shows that every sequence of allocations,
    appends, removals and insertions on the array does on [l] what its name says,
    and that the traversal loop of the passes returns [l]. *)

From stdpp Require Import base numbers list option strings sets tactics.
From Stdlib Require Import ZArith Lia Bool.
From S2P Require Import Prelude LisaTable Ir2.
Local Open Scope Z_scope.
Local Open Scope c_scope.

Local Abbreviation last := list.last.

(** ** Representation *)

Definition oz (o : option nat) : Z := match o with Some p => Z.of_nat p | None => -1 end.

(** The links of slot [p]. *)
Definition lnk (a : list IR2_INST) (p : nat) : option (Z * Z) :=
  (λ i, (_prev i, _next i)) <$> a !! p.

Definition orelse (o o' : option nat) : option nat := match o with Some _ => o | None => o' end.

(** [l] is a doubly linked segment between [pr] and [nx]. *)
Fixpoint dls (a : list IR2_INST) (pr : option nat) (l : list nat) (nx : option nat) : Prop :=
  match l with
  | [] => True
  | p :: l => lnk a p = Some (oz pr, oz (orelse (head l) nx)) ∧ dls a (Some p) l nx
  end.

(** Slots handed out by [ir2_allocate] carry their index as [_id]. *)
Definition ids_ok (t : TRANSLATION_DATA) : Prop :=
  (0 < length (ir2_inst_array t))%nat ∧
  (ir2_inst_num_current t <= length (ir2_inst_array t))%nat ∧
  Z.of_nat (ir2_inst_num_current t) <= 2 ^ 15 ∧
  ∀ p, (p < ir2_inst_num_current t)%nat →
       ir2_get_id <$> ir2_inst_array t !! p = Some (Z.of_nat p).

Definition repr (t : TRANSLATION_DATA) (l : list nat) : Prop :=
  ids_ok t ∧ NoDup l ∧ (∀ p, p ∈ l → (p < ir2_inst_num_current t)%nat) ∧
  first_ir2 t = head l ∧ last_ir2 t = last l ∧ dls (ir2_inst_array t) None l None.

(** What a pass reads of an instruction: the opcode and its [op_count] operands. *)
Definition payload (i : IR2_INST) : Z * list IR2_OPND :=
  (_opcode i, take (Z.to_nat (op_count i)) (_opnd i)).

(** Following [_next] from [p]. *)
Fixpoint walk (fuel : nat) (t : TRANSLATION_DATA) (p : option nat) : option (list nat) :=
  match p with
  | None => Some []
  | Some p =>
      match fuel with
      | O => None
      | S fuel => n ← ir2_next t p; l ← walk fuel t n; Some (p :: l)
      end
  end.

(** The loop [for (p = t->first_ir2; p != NULL; p = ir2_next(p))] of the passes over
    the list. *)
Definition ir2_list (t : TRANSLATION_DATA) : option (list nat) :=
  walk (S (ir2_inst_num_current t)) t (first_ir2 t).

(** ** Segments *)

Lemma orelse_head_app l1 l2 o : orelse (head (l1 ++ l2)) o = orelse (head l1) (orelse (head l2) o).
Proof. destruct l1; reflexivity. Qed.

Lemma dls_app a pr l1 l2 nx :
  dls a pr (l1 ++ l2) nx ↔
  dls a pr l1 (orelse (head l2) nx) ∧ dls a (orelse (last l1) pr) l2 nx.
Proof.
  revert pr. induction l1 as [|p l1 IH]; intros pr; simpl; [tauto|].
  rewrite orelse_head_app, IH. destruct l1 as [|q l1]; simpl; [tauto|].
  destruct (last (q :: l1)) eqn:E; [tauto|]. by apply last_None in E.
Qed.

Lemma dls_ext a a' pr l nx :
  dls a pr l nx → (∀ p, p ∈ l → lnk a' p = lnk a p) → dls a' pr l nx.
Proof.
  revert pr. induction l as [|p l IH]; intros pr; simpl; [tauto|].
  intros [H1 H2] E. rewrite E by left. split; [done|]. apply IH; [done|].
  intros q Hq. apply E. by right.
Qed.

(** A new successor of the last element. *)
Lemma dls_set_nx a a' pr l nx nx' :
  dls a pr l nx → NoDup l →
  (∀ p, p ∈ l → last l ≠ Some p → lnk a' p = lnk a p) →
  (∀ p, last l = Some p → lnk a' p = (λ x, (fst x, oz nx')) <$> lnk a p) →
  dls a' pr l nx'.
Proof.
  intros H ND E1 E2. destruct (last l) as [p|] eqn:EL; [|apply last_None in EL; by subst].
  apply last_Some in EL as [l0 ->]. apply dls_app in H as [H1 H2].
  apply list.NoDup_app in ND as (ND1 & ND2 & _). apply dls_app. split.
  - eapply dls_ext; [exact H1|]. intros q Hq. apply E1; [apply elem_of_app; by left|].
    intros [= ->]. apply (ND2 q Hq). by left.
  - simpl in *. destruct H2 as [H2 _]. split; [|done]. by rewrite (E2 p eq_refl), H2.
Qed.

(** A new predecessor of the first element. *)
Lemma dls_set_pr a a' pr pr' l nx :
  dls a pr l nx → NoDup l →
  (∀ p, p ∈ l → head l ≠ Some p → lnk a' p = lnk a p) →
  (∀ p, head l = Some p → lnk a' p = (λ x, (oz pr', snd x)) <$> lnk a p) →
  dls a' pr' l nx.
Proof.
  destruct l as [|p l]; simpl; [tauto|]. intros [H1 H2] ND E1 E2.
  rewrite (E2 p eq_refl), H1. split; [done|]. apply list.NoDup_cons in ND as [N ND].
  eapply dls_ext; [exact H2|]. intros q Hq. apply E1; [by right|]. congruence.
Qed.

(** ** Writing the array *)

Lemma s16_id z : - 2 ^ 15 <= z < 2 ^ 15 → s16 z = z.
Proof. intros H. unfold s16, swrap. rewrite Z.mod_small by lia. lia. Qed.

Lemma s16_oz o : (∀ p, o = Some p → Z.of_nat p < 2 ^ 15) → s16 (oz o) = oz o.
Proof. intros H. apply s16_id. destruct o as [p|]; simpl; [specialize (H p eq_refl)|]; lia. Qed.

(** The assignments of the list operations keep the [_id] fields. *)
Definition keeps_id (f : IR2_INST → IR2_INST) : Prop := ∀ i, _id (f i) = _id i.

Lemma keeps_id_set_prev x : keeps_id (set_prev x).
Proof. done. Qed.
Lemma keeps_id_set_next x : keeps_id (set_next x).
Proof. done. Qed.
Lemma keeps_id_set_opcode x : keeps_id (ir2_set_opcode x).
Proof. done. Qed.
#[local] Hint Resolve keeps_id_set_prev keeps_id_set_next keeps_id_set_opcode : latx.

Lemma alter_id f (p : nat) (a : list IR2_INST) (q : nat) : keeps_id f → ir2_get_id <$> alter f p a !! q = ir2_get_id <$> a !! q.
Proof.
  intros Hf. destruct (decide (p = q)) as [->|N].
  - rewrite list_lookup_alter_eq. destruct (a !! q); simpl; f_equal. apply Hf.
  - by rewrite list_lookup_alter_ne.
Qed.

Lemma lnk_alter_ne f p q a : p ≠ q → lnk (alter f p a) q = lnk a q.
Proof. intros N. unfold lnk. by rewrite list_lookup_alter_ne. Qed.

Lemma lnk_set_prev x p a : lnk (alter (set_prev x) p a) p = (λ y, (s16 x, snd y)) <$> lnk a p.
Proof. unfold lnk. rewrite list_lookup_alter_eq. by destruct (a !! p). Qed.

Lemma lnk_set_next x p a : lnk (alter (set_next x) p a) p = (λ y, (fst y, s16 x)) <$> lnk a p.
Proof. unfold lnk. rewrite list_lookup_alter_eq. by destruct (a !! p). Qed.

Lemma lnk_alter_keep f p q a :
  (∀ i, _prev (f i) = _prev i ∧ _next (f i) = _next i) → lnk (alter f p a) q = lnk a q.
Proof.
  intros K. destruct (decide (p = q)) as [->|N]; [|by apply lnk_alter_ne].
  unfold lnk. rewrite list_lookup_alter_eq. destruct (a !! q) as [i|]; [|done].
  simpl. by destruct (K i) as [-> ->].
Qed.

Lemma lnk_set_opcode x p q a : lnk (alter (ir2_set_opcode x) p a) q = lnk a q.
Proof. by apply lnk_alter_keep. Qed.

Lemma payload_alter f (p : nat) (a : list IR2_INST) :
  (∀ i, payload (f i) = payload i) → map payload (alter f p a) = map payload a.
Proof.
  intros Hf. apply list_eq. intros q. rewrite !list_lookup_fmap.
  destruct (decide (p = q)) as [->|N].
  - rewrite list_lookup_alter_eq. destruct (a !! q); simpl; f_equal. apply Hf.
  - by rewrite list_lookup_alter_ne.
Qed.

(** A state whose array is [a]; everything else is as in [t]. *)
Lemma upd_alter t p f :
  (p < length (ir2_inst_array t))%nat →
  upd t p f = Some (set_array t (alter f p (ir2_inst_array t))).
Proof.
  intros [i Hi]%lookup_lt_is_Some_2. unfold upd. rewrite Hi. simpl. do 2 f_equal.
  apply list_eq. intros q. destruct (decide (p = q)) as [->|N].
  - rewrite list_lookup_alter_eq, Hi, list_lookup_insert_eq; [done|].
    by eapply lookup_lt_Some.
  - by rewrite list_lookup_alter_ne, list_lookup_insert_ne.
Qed.

Lemma id_of_ok t p : ids_ok t → (p < ir2_inst_num_current t)%nat → id_of t p = Some (Z.of_nat p).
Proof. intros (_ & _ & _ & H). apply H. Qed.

Lemma id_of_alter t f p q :
  keeps_id f → id_of (set_array t (alter f p (ir2_inst_array t))) q = id_of t q.
Proof. apply alter_id. Qed.

Lemma lnk_Some a p : (p < length a)%nat → ∃ x y, lnk a p = Some (x, y).
Proof. intros [i Hi]%lookup_lt_is_Some_2. unfold lnk. rewrite Hi. simpl. eauto. Qed.

(** [t'] differs from [t] in links, opcodes and list ends only. *)
Definition similar (t t' : TRANSLATION_DATA) : Prop :=
  ir2_inst_num_current t' = ir2_inst_num_current t ∧
  length (ir2_inst_array t') = length (ir2_inst_array t) ∧
  ∀ q, ir2_get_id <$> ir2_inst_array t' !! q = ir2_get_id <$> ir2_inst_array t !! q.

Lemma similar_ids t t' : similar t t' → ids_ok t → ids_ok t'.
Proof.
  intros (E1 & E2 & E3) (H0 & H1 & H2 & H3). unfold ids_ok. rewrite E1, E2.
  split_and!; [done..|]. intros p Hp. rewrite E3. auto.
Qed.

(** ** Inserting into and deleting from a segment *)

(** The links of [p] when the predecessor of [l2] becomes [vp] and the successor of
    [l1] becomes [vn]. *)
Definition relink (l1 l2 : list nat) (vp vn : option nat) (p : nat) (y : Z * Z) : Z * Z :=
  (if decide (head l2 = Some p) then oz vp else fst y,
   if decide (last l1 = Some p) then oz vn else snd y).

Lemma dls_relink a a' l1 l2 n1 p2 vp vn :
  dls a None l1 n1 → dls a p2 l2 None → NoDup (l1 ++ l2) →
  (∀ p, p ∈ l1 ++ l2 → lnk a' p = relink l1 l2 vp vn p <$> lnk a p) →
  dls a' None l1 vn ∧ dls a' vp l2 None.
Proof.
  intros H1 H2 (ND1 & D & ND2)%list.NoDup_app Hp.
  assert (D1 : ∀ p, p ∈ l1 → head l2 ≠ Some p)
    by (intros p Hin E; by apply (D p Hin), head_Some_elem_of).
  assert (D2 : ∀ p, p ∈ l2 → last l1 ≠ Some p)
    by (intros p Hin E; by apply (D p (last_Some_elem_of _ _ E))).
  split.
  - eapply dls_set_nx; [exact H1|done|..]; intros p.
    + intros Hin NL. rewrite Hp by (apply elem_of_app; by left). specialize (D1 _ Hin).
      unfold relink. repeat case_decide; try done. by destruct (lnk a p) as [[]|].
    + intros L. pose proof (last_Some_elem_of _ _ L) as Hin. specialize (D1 _ Hin).
      rewrite Hp by (apply elem_of_app; by left). unfold relink. by repeat case_decide.
  - eapply dls_set_pr; [exact H2|done|..]; intros p.
    + intros Hin NL. rewrite Hp by (apply elem_of_app; by right). specialize (D2 _ Hin).
      unfold relink. repeat case_decide; try done. by destruct (lnk a p) as [[]|].
    + intros L. pose proof (head_Some_elem_of _ _ L) as Hin. specialize (D2 _ Hin).
      rewrite Hp by (apply elem_of_app; by right). unfold relink. by repeat case_decide.
Qed.

Lemma NoDup_middle {A} (l1 l2 : list A) x :
  NoDup (l1 ++ x :: l2) ↔ (x ∉ l1 ++ l2) ∧ NoDup (l1 ++ l2).
Proof. rewrite <- list.NoDup_cons. f_equiv. by rewrite Permutation_middle. Qed.

Lemma elem_middle {A} (l1 l2 : list A) x q : q ∈ l1 ++ x :: l2 ↔ q = x ∨ q ∈ l1 ++ l2.
Proof. rewrite !elem_of_app, elem_of_cons. tauto. Qed.

Lemma orelse_None o : orelse o None = o.
Proof. by destruct o. Qed.

Lemma dls_splice a a' l1 l2 x :
  dls a None (l1 ++ l2) None → NoDup (l1 ++ x :: l2) →
  lnk a' x = Some (oz (last l1), oz (head l2)) →
  (∀ p, p ∈ l1 ++ l2 → lnk a' p = relink l1 l2 (Some x) (Some x) p <$> lnk a p) →
  dls a' None (l1 ++ x :: l2) None.
Proof.
  intros [H1 H2]%dls_app [_ ND]%NoDup_middle Hx Hp.
  destruct (dls_relink _ _ _ _ _ _ _ _ H1 H2 ND Hp). apply dls_app. simpl.
  rewrite !orelse_None. done.
Qed.

Lemma dls_unsplice a a' l1 l2 x :
  dls a None (l1 ++ x :: l2) None → NoDup (l1 ++ x :: l2) →
  (∀ p, p ∈ l1 ++ l2 → lnk a' p = relink l1 l2 (last l1) (head l2) p <$> lnk a p) →
  dls a' None (l1 ++ l2) None.
Proof.
  intros [H1 [_ H2]]%dls_app [_ ND]%NoDup_middle Hp.
  apply dls_app. rewrite !orelse_None. by eapply dls_relink.
Qed.

(** ** The operations *)

#[local] Arguments upd : simpl never.
#[local] Arguments id_of : simpl never.

Definition frame (t t' : TRANSLATION_DATA) : Prop :=
  similar t t' ∧ label_num t' = label_num t ∧ data_num t' = data_num t.

Lemma repr_frame t t' l l' :
  repr t l → frame t t' → NoDup l' → (∀ p, p ∈ l' → (p < ir2_inst_num_current t)%nat) →
  first_ir2 t' = head l' → last_ir2 t' = last l' → dls (ir2_inst_array t') None l' None →
  repr t' l'.
Proof.
  intros (I & _) (S & _) ND B F L D. split_and!; try done.
  - by eapply similar_ids.
  - destruct S as [-> _]. done.
Qed.

Lemma repr_bounds t l p :
  repr t l → (p < ir2_inst_num_current t)%nat →
  (p < length (ir2_inst_array t))%nat ∧ s16 (Z.of_nat p) = Z.of_nat p ∧
  id_of t p = Some (Z.of_nat p).
Proof.
  intros (I & _) H. pose proof (id_of_ok t p I H). destruct I as (_ & I1 & I2 & _).
  split_and!; [lia| |done]. apply s16_id. lia.
Qed.

Lemma repr_member t l :
  repr t l → ∀ q, q ∈ l →
  (q < length (ir2_inst_array t))%nat ∧ s16 (Z.of_nat q) = Z.of_nat q ∧
  id_of t q = Some (Z.of_nat q).
Proof. intros R q Hq. pose proof R as (_ & _ & B & _). by eapply repr_bounds, B. Qed.

Lemma repr_links t l1 x l2 :
  repr t (l1 ++ x :: l2) →
  ir2_prev t x = Some (last l1) ∧ ir2_next t x = Some (head l2).
Proof.
  intros (_ & _ & _ & _ & _ & D). apply dls_app in D as [_ [D _]].
  rewrite !orelse_None in D. unfold lnk, ir2_prev, ir2_next, deref in *.
  destruct (ir2_inst_array t !! x) as [i|]; [|done]. simpl in *. injection D as -> ->.
  assert (L : ∀ o, ir2_link (oz o) = Some o).
  { intros [q|]; [|done]. unfold ir2_link, oz. case_if; bool_to_prop; [lia|].
    case_if; bool_to_prop; [lia|]. by rewrite Nat2Z.id. }
  by rewrite !L.
Qed.

Ltac upd_step :=
  rewrite upd_alter by (simpl; rewrite ?length_alter; done); simpl.

Ltac lnk_step :=
  repeat first [rewrite lnk_set_prev | rewrite lnk_set_next | rewrite lnk_set_opcode
               | rewrite lnk_alter_ne by congruence].

Ltac frame_tac :=
  unfold frame, similar; split_and!; simpl; rewrite ?length_alter; try done;
  intros; rewrite ?alter_id by auto with latx; done.

Ltac payload_tac := simpl; rewrite ?payload_alter by done; done.

Lemma relink_none l1 l2 vp vn p :
  head l2 ≠ Some p → last l1 ≠ Some p → ∀ o : option (Z * Z), relink l1 l2 vp vn p <$> o = o.
Proof.
  intros H1 H2 [[x y]|]; [|done]. unfold relink. simpl. by repeat case_decide.
Qed.

Lemma relink_last l1 l2 vp vn p (o : option (Z * Z)) :
  last l1 = Some p → head l2 ≠ Some p →
  relink l1 l2 vp vn p <$> o = (λ y, (fst y, oz vn)) <$> o.
Proof. intros H1 H2. destruct o; [|done]. unfold relink. simpl. by repeat case_decide. Qed.

Lemma relink_head l1 l2 vp vn p (o : option (Z * Z)) :
  head l2 = Some p → last l1 ≠ Some p →
  relink l1 l2 vp vn p <$> o = (λ y, (oz vp, snd y)) <$> o.
Proof. intros H1 H2. destruct o; [|done]. unfold relink. simpl. by repeat case_decide. Qed.

Lemma append_ok t l x :
  repr t l → (x < ir2_inst_num_current t)%nat → x ∉ l →
  ∃ t', ir2_append t x = Some t' ∧ repr t' (l ++ [x]) ∧ frame t t' ∧
    map payload (ir2_inst_array t') = map payload (ir2_inst_array t).
Proof.
  intros R Hx N. destruct (repr_bounds t l x R Hx) as (Lx & Sx & Ix).
  pose proof R as (_ & ND & B & F & L & D). unfold ir2_append. rewrite Ix. simpl.
  assert (ND' : NoDup (l ++ [x])) by (apply NoDup_middle; by rewrite app_nil_r).
  assert (B' : ∀ p, p ∈ l ++ [x] → (p < ir2_inst_num_current t)%nat).
  { intros p [?|Hp]%elem_of_app; [auto|]. apply list_elem_of_singleton in Hp as ->. done. }
  rewrite L. destruct (last l) as [f|] eqn:EL.
  - destruct (repr_bounds t l f R (B f (last_Some_elem_of _ _ EL))) as (Lf & Sf & If).
    destruct (head l) as [y|] eqn:EH; [|destruct l; done]. rewrite F, If. simpl. do 3 upd_step. unfold deref. simpl.
    assert (x ≠ f) by (intros ->; by apply N, last_Some_elem_of).
    destruct (lookup_lt_is_Some_2 (ir2_inst_array t) x Lx) as [i Ei].
    rewrite list_lookup_alter_ne, !list_lookup_alter_eq, Ei by done. simpl.
    eexists. split; [done|]. split_and!; [|frame_tac|payload_tac].
    eapply repr_frame; [exact R|frame_tac|done|done|..].
    + simpl. rewrite F, <- EH. by destruct l.
    + by rewrite last_snoc.
    + apply (dls_splice (ir2_inst_array t)); simpl ir2_inst_array; rewrite ?app_nil_r; try done.
      * rewrite EL. lnk_step. destruct (lnk_Some _ _ Lx) as (? & ? & ->). simpl.
        rewrite Sf. done.
      * intros p Hp. destruct (decide (p = f)) as [->|Nf].
        -- lnk_step. by rewrite relink_last, Sx.
        -- assert (x ≠ p) by congruence. lnk_step. rewrite relink_none by (simpl; congruence).
           done.
  - apply last_None in EL as ->. rewrite F. simpl. do 2 upd_step. unfold deref. simpl.
    destruct (lookup_lt_is_Some_2 (ir2_inst_array t) x Lx) as [i Ei].
    rewrite !list_lookup_alter_eq, Ei. simpl.
    eexists. split; [done|]. split_and!; [|frame_tac|payload_tac].
    eapply repr_frame; [exact R|frame_tac|done..|]. simpl. lnk_step.
    by destruct (lnk_Some _ _ Lx) as (? & ? & ->).
Qed.

Definition emptyb (l : list nat) : bool := match l with [] => true | _ => false end.

Lemma is_ptr_head l1 x l2 : NoDup (l1 ++ x :: l2) → is_ptr (head (l1 ++ x :: l2)) x = emptyb l1.
Proof.
  intros [N _]%NoDup_middle. destruct l1 as [|y l1]; simpl; [apply Nat.eqb_refl|].
  apply Nat.eqb_neq. intros ->. apply N. by left.
Qed.

Lemma is_ptr_last l1 x l2 : NoDup (l1 ++ x :: l2) → is_ptr (last (l1 ++ x :: l2)) x = emptyb l2.
Proof.
  intros [N _]%NoDup_middle. destruct l2 as [|y l2].
  - rewrite last_snoc. apply Nat.eqb_refl.
  - rewrite last_app_cons, last_cons_cons. destruct (last (y :: l2)) as [z|] eqn:E.
    + apply Nat.eqb_neq. intros ->. apply N, elem_of_app. right. by apply last_Some_elem_of.
    + done.
Qed.

Lemma emptyb_spec l : emptyb l = true ↔ l = [].
Proof. by destruct l. Qed.

Lemma last_Some_ne l : emptyb l = false → ∃ p, last l = Some p.
Proof. destruct (last l) eqn:E; eauto. apply last_None in E. by subst. Qed.

Lemma head_Some_ne l : emptyb l = false → ∃ p, head l = Some p.
Proof. destruct l; [done|]. simpl. eauto. Qed.

(** The neighbours of a place in a list without duplicates. *)
Lemma neighbours_ne (l1 l2 : list nat) p n :
  NoDup (l1 ++ l2) → last l1 = Some p → head l2 = Some n → p ≠ n.
Proof.
  intros (_ & D & _)%list.NoDup_app L%last_Some_elem_of H%head_Some_elem_of ->. by apply (D n).
Qed.

(** The links after the two neighbours of a place were written. *)
Definition wired (a a' : list IR2_INST) (l1 l2 : list nat) (vp vn : option nat) : Prop :=
  ∀ q, q ∈ l1 ++ l2 → lnk a' q = relink l1 l2 vp vn q <$> lnk a q.

Lemma wired_none a a' l1 l2 vp vn :
  l1 = [] → l2 = [] → wired a a' l1 l2 vp vn.
Proof. intros -> -> q Hq. by apply not_elem_of_nil in Hq. Qed.

Lemma wired_cases a a' l1 l2 vp vn :
  NoDup (l1 ++ l2) →
  (∀ p, last l1 = Some p → lnk a' p = (λ y, (fst y, oz vn)) <$> lnk a p) →
  (∀ n, head l2 = Some n → lnk a' n = (λ y, (oz vp, snd y)) <$> lnk a n) →
  (∀ q, q ∈ l1 ++ l2 → last l1 ≠ Some q → head l2 ≠ Some q → lnk a' q = lnk a q) →
  wired a a' l1 l2 vp vn.
Proof.
  intros ND H1 H2 H3 q Hq.
  destruct (decide (last l1 = Some q)) as [E1|E1], (decide (head l2 = Some q)) as [E2|E2].
  - by destruct (neighbours_ne _ _ _ _ ND E1 E2).
  - rewrite relink_last by done. auto.
  - rewrite relink_head by done. auto.
  - rewrite relink_none by done. auto.
Qed.

Lemma payload_opcode c x a b :
  map payload a = map payload b →
  map payload (alter (ir2_set_opcode c) x a) = map payload (alter (ir2_set_opcode c) x b).
Proof.
  intros E. apply list_eq. intros q. apply (f_equal (lookup q)) in E.
  rewrite !list_lookup_fmap in *. destruct (decide (x = q)) as [->|N].
  - rewrite !list_lookup_alter_eq. destruct (a !! q), (b !! q); simpl in *; try done.
    unfold payload in *. by simplify_eq/=; f_equal; congruence.
  - by rewrite !list_lookup_alter_ne.
Qed.

Lemma prev_in (l1 l2 : list nat) x p : last l1 = Some p → p ∈ l1 ++ x :: l2.
Proof. intros H%last_Some_elem_of. apply elem_of_app. by left. Qed.

Lemma next_in (l1 l2 : list nat) x n : head l2 = Some n → n ∈ l1 ++ x :: l2.
Proof. intros H%head_Some_elem_of. apply elem_of_app. right. by right. Qed.

Lemma repr_unsplice t t' l1 x l2 :
  repr t (l1 ++ x :: l2) → frame t t' →
  first_ir2 t' = head (l1 ++ l2) → last_ir2 t' = last (l1 ++ l2) →
  wired (ir2_inst_array t) (ir2_inst_array t') l1 l2 (last l1) (head l2) →
  repr t' (l1 ++ l2).
Proof.
  intros R Fr F L W. pose proof R as (I & ND & B & _ & _ & D).
  pose proof ND as [Nx ND']%NoDup_middle. eapply repr_frame; try done.
  - intros q Hq. apply B, elem_middle. by right.
  - by eapply dls_unsplice.
Qed.

Lemma remove_ok t l1 x l2 :
  repr t (l1 ++ x :: l2) →
  ∃ t', ir2_remove t x = Some t' ∧ repr t' (l1 ++ l2) ∧ frame t t' ∧
    map payload (ir2_inst_array t') =
    map payload (alter (ir2_set_opcode LISA_INVALID) x (ir2_inst_array t)).
Proof.
  intros R. pose proof R as (I & ND & B & F & L & D).
  destruct (repr_links _ _ _ _ R) as [Ep En]. pose proof ND as [Nx ND']%NoDup_middle.
  pose proof (repr_member _ _ R) as Bx.
  destruct (Bx x) as (Lx & _ & _); [apply elem_middle; by left|].
  unfold ir2_remove. rewrite Ep, En. simpl. rewrite F, L, is_ptr_head, is_ptr_last by done.
  destruct (emptyb l1) eqn:E1; [apply emptyb_spec in E1|apply last_Some_ne in E1 as [p P]];
  (destruct (emptyb l2) eqn:E2; [apply emptyb_spec in E2|apply head_Some_ne in E2 as [n N]]).
  - simpl. upd_step. eexists. split; [done|]. split_and!; [|frame_tac|payload_tac].
    eapply repr_unsplice; [exact R|frame_tac|by subst..|]. by apply wired_none.
  - rewrite N. simpl. destruct (Bx n (next_in _ _ _ _ N)) as (Ln & Sn & In).
    do 2 upd_step. eexists. split; [done|].
    split_and!; [|frame_tac|apply payload_opcode; payload_tac].
    eapply repr_unsplice; [exact R|frame_tac|..]; subst l1; simpl; [by rewrite N| |].
    + rewrite L. simpl. by destruct l2.
    + apply wired_cases; [done|done|..].
      * intros ? [= <-]%(eq_trans (eq_sym N)). by lnk_step.
      * intros q _ _ Hq. assert (n ≠ q) by congruence. by lnk_step.
  - rewrite P. simpl. destruct (Bx p (prev_in _ _ _ _ P)) as (Lp & Sp & Ip).
    do 2 upd_step. eexists. split; [done|].
    split_and!; [|frame_tac|apply payload_opcode; payload_tac].
    eapply repr_unsplice; [exact R|frame_tac|..]; subst l2; simpl; rewrite ?app_nil_r; [| |].
    + rewrite F. by destruct l1.
    + by rewrite P.
    + apply wired_cases; [done| |done|].
      * intros ? [= <-]%(eq_trans (eq_sym P)). by lnk_step.
      * intros q _ Hq _. assert (p ≠ q) by congruence. by lnk_step.
  - pose proof (neighbours_ne _ _ _ _ ND' P N) as Npn.
    destruct (Bx p (prev_in _ _ _ _ P)) as (Lp & Sp & Ip).
    destruct (Bx n (next_in _ _ _ _ N)) as (Ln & Sn & In).
    rewrite P, N. simpl. rewrite In. simpl. upd_step.
    rewrite id_of_alter, Ip by auto with latx. simpl. do 2 upd_step. eexists. split; [done|].
    split_and!; [|frame_tac|apply payload_opcode; payload_tac].
    eapply repr_unsplice; [exact R|frame_tac|..]; simpl.
    + rewrite F. by destruct l1.
    + rewrite L, !last_app. simpl. destruct l2 as [|y l2]; [done|].
      rewrite last_cons_cons. by destruct (last (y :: l2)).
    + apply wired_cases; [done|..].
      * intros ? [= <-]%(eq_trans (eq_sym P)). lnk_step. by rewrite Sn, N.
      * intros ? [= <-]%(eq_trans (eq_sym N)). lnk_step. by rewrite Sp, P.
      * intros q _ Hp Hq. assert (p ≠ q ∧ n ≠ q) as [? ?] by (split; congruence). by lnk_step.
Qed.

Lemma repr_splice t t' l1 x l2 :
  repr t (l1 ++ l2) → frame t t' → (x < ir2_inst_num_current t)%nat → x ∉ l1 ++ l2 →
  first_ir2 t' = head (l1 ++ x :: l2) → last_ir2 t' = last (l1 ++ x :: l2) →
  lnk (ir2_inst_array t') x = Some (oz (last l1), oz (head l2)) →
  wired (ir2_inst_array t) (ir2_inst_array t') l1 l2 (Some x) (Some x) →
  repr t' (l1 ++ x :: l2).
Proof.
  intros R Fr Hx N F L Lx W. pose proof R as (I & ND & B & _ & _ & D).
  assert (ND' : NoDup (l1 ++ x :: l2)) by by apply NoDup_middle.
  eapply repr_frame; try done.
  - intros q [->|Hq]%elem_middle; auto.
  - by eapply dls_splice.
Qed.

Lemma insert_before_ok t l1 x id l2 :
  repr t (l1 ++ id :: l2) → (x < ir2_inst_num_current t)%nat → x ∉ l1 ++ id :: l2 →
  ∃ t', ir2_insert_before t x id = Some (t', id) ∧ repr t' (l1 ++ x :: id :: l2) ∧
    frame t t' ∧ map payload (ir2_inst_array t') = map payload (ir2_inst_array t).
Proof.
  intros R Hx Nx. pose proof R as (I & ND & B & F & L & D).
  destruct (repr_links _ _ _ _ R) as [Ep _].
  pose proof (repr_member _ _ R) as Bx.
  destruct (repr_bounds _ _ x R Hx) as (Lx & Sx & Ix).
  assert (Hid : id ∈ l1 ++ id :: l2) by (apply elem_middle; by left).
  destruct (Bx id Hid) as (Li & Si & Ii). assert (x ≠ id) by congruence.
  destruct (lnk_Some _ _ Lx) as (u & v & Euv).
  unfold ir2_insert_before. rewrite Ix, Ii. simpl. rewrite F, is_ptr_head by done.
  destruct (emptyb l1) eqn:E1; [apply emptyb_spec in E1|apply last_Some_ne in E1 as [p P]].
  - simpl. do 3 upd_step. eexists. split; [done|]. split_and!; [|frame_tac|payload_tac].
    eapply repr_splice; [exact R|frame_tac|done|done|..]; subst l1; simpl; [done| | |].
    + rewrite L. done.
    + lnk_step. by rewrite Euv, Si.
    + apply wired_cases; [done|done|..].
      * intros ? [= <-]. lnk_step. by rewrite Sx.
      * intros q Hq _ Nq. assert (x ≠ q ∧ id ≠ q) as [? ?] by (simpl in *; split; congruence).
        by lnk_step.
  - destruct (Bx p (prev_in _ _ _ _ P)) as (Lp & Sp & Ip).
    assert (p ≠ id) by (eapply neighbours_ne; [exact ND|exact P|done]).
    assert (x ≠ p) by (intros ->; by apply Nx, prev_in).
    rewrite Ep, P. simpl. rewrite Ip. simpl. do 4 upd_step. eexists. split; [done|].
    split_and!; [|frame_tac|payload_tac].
    eapply repr_splice; [exact R|frame_tac|done|done|..]; simpl.
    + rewrite F. by destruct l1.
    + rewrite L, !last_app. done.
    + lnk_step. by rewrite Euv, P, Si, Sp.
    + apply wired_cases; [done|..].
      * intros ? [= <-]%(eq_trans (eq_sym P)). lnk_step. by rewrite Sx.
      * intros ? [= <-]. lnk_step. by rewrite Sx.
      * intros q Hq Np Nq.
        assert (x ≠ q ∧ id ≠ q ∧ p ≠ q) as (? & ? & ?) by (simpl in *; split_and!; congruence).
        by lnk_step.
Qed.

Lemma insert_after_ok t l1 x id l2 :
  repr t (l1 ++ id :: l2) → (x < ir2_inst_num_current t)%nat → x ∉ l1 ++ id :: l2 →
  ∃ t', ir2_insert_after t x id = Some t' ∧ repr t' (l1 ++ id :: x :: l2) ∧
    frame t t' ∧ map payload (ir2_inst_array t') = map payload (ir2_inst_array t).
Proof.
  intros R Hx Nx. pose proof R as (I & ND & B & F & L & D).
  destruct (repr_links _ _ _ _ R) as [_ En].
  pose proof (repr_member _ _ R) as Bx.
  destruct (repr_bounds _ _ x R Hx) as (Lx & Sx & Ix).
  assert (Hid : id ∈ l1 ++ id :: l2) by (apply elem_middle; by left).
  destruct (Bx id Hid) as (Li & Si & Ii). assert (x ≠ id) by congruence.
  destruct (lnk_Some _ _ Lx) as (u & v & Euv).
  assert (A : ∀ k, l1 ++ id :: k = (l1 ++ [id]) ++ k) by (intros k; by rewrite <- app_assoc).
  unfold ir2_insert_after. rewrite Ix, Ii. simpl. rewrite L, is_ptr_last by done.
  rewrite (A (x :: l2)). rewrite (A l2) in R, Nx, ND, F, L. clear D.
  destruct (emptyb l2) eqn:E2; [apply emptyb_spec in E2|apply head_Some_ne in E2 as [n N]].
  - do 3 upd_step. eexists. split; [done|]. split_and!; [|frame_tac|payload_tac].
    eapply repr_splice; [exact R|frame_tac|done|done|..]; subst l2; simpl.
    + rewrite F. by destruct l1.
    + by rewrite last_snoc.
    + lnk_step. by rewrite Euv, Si, last_snoc.
    + apply wired_cases; [done| |done|].
      * intros ?. rewrite last_snoc. intros [= <-]. lnk_step. by rewrite Sx.
      * intros q Hq. rewrite last_snoc. intros Nq _.
        assert (x ≠ q ∧ id ≠ q) as [? ?] by (split; congruence). by lnk_step.
  - destruct (Bx n (next_in _ _ _ _ N)) as (Ln & Sn & In).
    assert (id ≠ n) by (eapply neighbours_ne; [exact ND|apply last_snoc|done]).
    assert (x ≠ n) by (intros ->; apply Nx, elem_of_app; right; by apply head_Some_elem_of).
    rewrite En, N. simpl. rewrite In. simpl. do 4 upd_step. eexists. split; [done|].
    split_and!; [|frame_tac|payload_tac].
    eapply repr_splice; [exact R|frame_tac|done|done|..]; simpl.
    + rewrite F. by destruct l1.
    + rewrite L, !last_app. simpl. destruct l2 as [|y l2]; [done|].
      rewrite last_cons_cons. by destruct (last (y :: l2)).
    + lnk_step. by rewrite Euv, N, Si, Sn, last_snoc.
    + apply wired_cases; [done|..].
      * intros ?. rewrite last_snoc. intros [= <-]. lnk_step. by rewrite Sx.
      * intros ? [= <-]%(eq_trans (eq_sym N)). lnk_step. by rewrite Sx.
      * intros q Hq. rewrite last_snoc. intros Np Nq.
        assert (x ≠ q ∧ id ≠ q ∧ n ≠ q) as (? & ? & ?) by (split_and!; congruence).
        by lnk_step.
Qed.

(** ** Allocation and traversal *)

Lemma allocate_ok blank moved t l :
  repr t l → Z.of_nat (ir2_inst_num_current t) < 2 ^ 15 → (moved = true → l ≠ []) →
  ∃ t', ir2_allocate blank moved t = Some (ir2_inst_num_current t, t') ∧ repr t' l ∧
    ir2_inst_num_current t' = S (ir2_inst_num_current t) ∧
    ∀ q, (q < ir2_inst_num_current t)%nat → ir2_inst_array t' !! q = ir2_inst_array t !! q.
Proof.
  intros R HB HM. pose proof R as ((I0 & I1 & I2 & I3) & ND & B & F & L & D).
  set (n := ir2_inst_num_current t) in *. set (a := ir2_inst_array t) in *.
  assert (G : ∃ b, (n < length (a ++ b))%nat ∧
    ir2_allocate blank moved t =
    Some (n, mkTD (alter (λ i, ir2_set_id i (Z.of_nat n)) n (a ++ b)) (S n)
               (real_ir2_inst_num t) (first_ir2 t) (last_ir2 t) (label_num t) (data_num t))).
  { unfold ir2_allocate. fold a. destruct (length a =? 0)%nat eqn:E0; [apply Nat.eqb_eq in E0; lia|].
    fold n. simpl. destruct (n =? length a)%nat eqn:E.
    - apply Nat.eqb_eq in E. exists (replicate (length a) blank).
      assert (n < length (a ++ replicate (length a) blank))%nat
        by (rewrite length_app, length_replicate; lia).
      split; [done|]. rewrite F. destruct moved, l as [|x l]; simpl; try (by destruct HM);
        (rewrite upd_alter by done); simpl; by rewrite F.
    - apply Nat.eqb_neq in E. exists []. rewrite app_nil_r. split; [lia|]. simpl.
      rewrite upd_alter by (fold a; fold n; lia). reflexivity. }
  destruct G as (b & Lb & ->). eexists. split; [done|].
  assert (K : ∀ q, (q < n)%nat → alter (λ i, ir2_set_id i (Z.of_nat n)) n (a ++ b) !! q = a !! q).
  { intros q Hq. rewrite list_lookup_alter_ne by lia. apply lookup_app_l. lia. }
  split_and!; [|done|exact K]. unfold repr, ids_ok. simpl.
  split_and!; try done; rewrite ?length_alter; try lia.
  - intros p Hp. destruct (decide (p = n)) as [->|N].
    + rewrite list_lookup_alter_eq. destruct (lookup_lt_is_Some_2 _ _ Lb) as [i ->]. simpl.
      f_equal. apply s16_id. lia.
    + rewrite K by lia. apply I3. fold n. lia.
  - intros p Hp. specialize (B p Hp). lia.
  - eapply dls_ext; [exact D|]. intros q Hq. unfold lnk. rewrite K by by apply B. done.
Qed.

Lemma walk_ok t l1 l2 n :
  repr t (l1 ++ l2) → (length l2 < n)%nat → walk n t (head l2) = Some l2.
Proof.
  revert l1 n. induction l2 as [|p l2 IH]; intros l1 n R Hn; (destruct n; [simpl in Hn; lia|]).
  - done.
  - destruct (repr_links _ _ _ _ R) as [_ E]. simpl. rewrite E. simpl.
    rewrite (IH (l1 ++ [p])); [done| |simpl in Hn; lia]. by rewrite <- app_assoc.
Qed.

Lemma ir2_list_ok t l : repr t l → ir2_list t = Some l.
Proof.
  intros R. pose proof R as (_ & ND & B & F & _). unfold ir2_list. rewrite F.
  apply (walk_ok t []); [done|].
  assert (l ⊆ seq 0 (ir2_inst_num_current t)) as Sub
    by (intros p Hp; apply elem_of_seq; specialize (B p Hp); lia).
  pose proof (submseteq_length _ _ (NoDup_submseteq _ _ ND Sub)) as LL.
  rewrite length_seq in LL. lia.
Qed.

(** ** Specification: a list of instructions *)

Inductive op : Type :=
  | Generate (moved : bool) (opcode : Z) (os : list IR2_OPND)
  | Append (p : nat)
  | Remove (p : nat)
  | Before (x id : nat)
  | After (x id : nat).

(** The instructions generated so far, by slot, and the list of slots. *)
Record spec := mkSpec { s_code : list (Z * list IR2_OPND); s_list : list nat }.

Fixpoint ins_before (x id : nat) (l : list nat) : list nat :=
  match l with
  | [] => []
  | p :: l => if (p =? id)%nat then x :: p :: l else p :: ins_before x id l
  end.

Fixpoint ins_after (x id : nat) (l : list nat) : list nat :=
  match l with
  | [] => []
  | p :: l => if (p =? id)%nat then p :: x :: l else p :: ins_after x id l
  end.

Fixpoint del (x : nat) (l : list nat) : list nat :=
  match l with
  | [] => []
  | p :: l => if (p =? x)%nat then l else p :: del x l
  end.

Definition in_list (p : nat) (l : list nat) : bool := existsb (Nat.eqb p) l.

(** A generated instruction that is not in the list. *)
Definition spare (s : spec) (p : nat) : bool :=
  (p <? length (s_code s))%nat && negb (in_list p (s_list s)).

Definition spec_step (s : spec) (o : op) : option spec :=
  match o with
  | Generate moved opcode os =>
      lsassert (Z.of_nat (length (s_code s)) <? 2 ^ 15) && (length os <=? 4)%nat &&
               negb (moved && emptyb (s_list s)) ;;
      Some (mkSpec (s_code s ++ [(s16 opcode, os)]) (s_list s))
  | Append p => lsassert spare s p ;; Some (mkSpec (s_code s) (s_list s ++ [p]))
  | Remove p =>
      lsassert in_list p (s_list s) ;;
      Some (mkSpec (alter (λ c, (LISA_INVALID, snd c)) p (s_code s)) (del p (s_list s)))
  | Before x id =>
      lsassert spare s x && in_list id (s_list s) ;;
      Some (mkSpec (s_code s) (ins_before x id (s_list s)))
  | After x id =>
      lsassert spare s x && in_list id (s_list s) ;;
      Some (mkSpec (s_code s) (ins_after x id (s_list s)))
  end.

Definition step (blank : IR2_INST) (t : TRANSLATION_DATA) (o : op) : option TRANSLATION_DATA :=
  match o with
  | Generate moved opcode os => snd <$> generate blank moved t opcode os
  | Append p => ir2_append t p
  | Remove p => ir2_remove t p
  | Before x id => fst <$> ir2_insert_before t x id
  | After x id => ir2_insert_after t x id
  end.

Fixpoint run {S} (f : S → op → option S) (s : S) (os : list op) : option S :=
  match os with [] => Some s | o :: os => s ← f s o; run f s os end.

(** The translation data after [tr_init]. *)
Definition empty_td (a : list IR2_INST) : TRANSLATION_DATA := mkTD a 0 0 None None 0 0.

Definition abstracts (t : TRANSLATION_DATA) (s : spec) : Prop :=
  repr t (s_list s) ∧
  take (ir2_inst_num_current t) (map payload (ir2_inst_array t)) = s_code s.

(** ** Refinement *)

Lemma in_list_spec p l : in_list p l = true ↔ p ∈ l.
Proof.
  unfold in_list. rewrite existsb_exists. split.
  - intros (q & Hq & ->%Nat.eqb_eq). by apply list_elem_of_In.
  - intros H. exists p. split; [by apply list_elem_of_In|apply Nat.eqb_refl].
Qed.

Lemma split_at (l : list nat) p :
  p ∈ l → NoDup l → ∃ l1 l2, l = l1 ++ p :: l2 ∧ p ∉ l1.
Proof.
  intros (l1 & l2 & ->)%list_elem_of_split ND. exists l1, l2. split; [done|].
  apply NoDup_middle in ND as [N _]. intros H. apply N, elem_of_app. by left.
Qed.

Lemma del_middle l1 x l2 : x ∉ l1 → del x (l1 ++ x :: l2) = l1 ++ l2.
Proof.
  induction l1 as [|p l1 IH]; simpl; intros N; [by rewrite Nat.eqb_refl|].
  apply not_elem_of_cons in N as [N1 N2]. destruct (Nat.eqb_spec p x); [done|]. by rewrite IH.
Qed.

Lemma ins_before_middle l1 x id l2 :
  id ∉ l1 → ins_before x id (l1 ++ id :: l2) = l1 ++ x :: id :: l2.
Proof.
  induction l1 as [|p l1 IH]; simpl; intros N; [by rewrite Nat.eqb_refl|].
  apply not_elem_of_cons in N as [N1 N2]. destruct (Nat.eqb_spec p id); [done|]. by rewrite IH.
Qed.

Lemma ins_after_middle l1 x id l2 :
  id ∉ l1 → ins_after x id (l1 ++ id :: l2) = l1 ++ id :: x :: l2.
Proof.
  induction l1 as [|p l1 IH]; simpl; intros N; [by rewrite Nat.eqb_refl|].
  apply not_elem_of_cons in N as [N1 N2]. destruct (Nat.eqb_spec p id); [done|]. by rewrite IH.
Qed.

Lemma abstracts_length t s :
  abstracts t s → length (s_code s) = ir2_inst_num_current t.
Proof.
  intros [((_ & H & _) & _) <-]. rewrite length_take, length_map. lia.
Qed.

Lemma spare_spec t s x :
  abstracts t s → spare s x = true → (x < ir2_inst_num_current t)%nat ∧ x ∉ s_list s.
Proof.
  intros A [H1 H2]%andb_true_iff. rewrite (abstracts_length _ _ A) in H1.
  apply Nat.ltb_lt in H1. split; [done|]. intros H%in_list_spec. by rewrite H in H2.
Qed.

Lemma abstracts_frame t t' s l :
  abstracts t s → frame t t' → repr t' l →
  map payload (ir2_inst_array t') = map payload (ir2_inst_array t) →
  abstracts t' (mkSpec (s_code s) l).
Proof.
  intros [R C] [(E & _) _] R' P. split; [done|]. by rewrite E, P.
Qed.

Lemma generate_step blank moved t s opcode os s' :
  abstracts t s → spec_step s (Generate moved opcode os) = Some s' →
  ∃ t', step blank t (Generate moved opcode os) = Some t' ∧ abstracts t' s'.
Proof.
  intros A H. pose proof (abstracts_length _ _ A) as EL. simpl in *.
  case_if; [|done]. bool_to_prop. injection H as <-. destruct A as [R C].
  destruct (allocate_ok blank moved t (s_list s) R) as (t' & E & R' & N' & K).
  { rewrite <- EL. done. }
  { intros ->. by destruct (s_list s). }
  unfold generate. rewrite E. simpl. set (n := ir2_inst_num_current t) in *.
  assert (Ln : (n < length (ir2_inst_array t'))%nat)
    by (destruct R' as ((_ & ? & _) & _); lia).
  rewrite upd_alter by done. simpl. eexists. split; [done|]. split; simpl.
  - pose proof R' as (_ & ND & B & F & L & D).
    eapply repr_frame; [exact R'| |done..|].
    + unfold frame, similar. simpl. rewrite length_alter. split_and!; try done.
      intros q. by apply alter_id.
    + eapply dls_ext; [exact D|]. intros q _. by apply lnk_alter_keep.
  - rewrite N'. destruct (lookup_lt_is_Some_2 _ _ Ln) as [i Hi].
    rewrite (take_S_r _ n (s16 opcode, os)).
    + f_equal. rewrite <- C. apply list_eq. intros q.
      destruct (decide (q < n)%nat) as [Hq|Hq].
      * rewrite !lookup_take_lt, !list_lookup_fmap by done.
        rewrite list_lookup_alter_ne, K by (done || lia). done.
      * by rewrite !lookup_take_ge by lia.
    + rewrite list_lookup_fmap, list_lookup_alter_eq, Hi. simpl. unfold payload. simpl.
      by rewrite Nat2Z.id, take_app_length.
Qed.

Lemma remove_step blank t s p s' :
  abstracts t s → spec_step s (Remove p) = Some s' →
  ∃ t', step blank t (Remove p) = Some t' ∧ abstracts t' s'.
Proof.
  intros A H. simpl in *. case_if; [|done]. injection H as <-. destruct A as [R C].
  pose proof R as (_ & ND & B & _). apply in_list_spec in Heqb.
  destruct (split_at _ _ Heqb ND) as (l1 & l2 & El & N). rewrite El in *.
  destruct (remove_ok _ _ _ _ R) as (t' & E & R' & [(En & _) _] & P).
  exists t'. split; [done|]. split; simpl; [by rewrite del_middle|].
  rewrite En, P, <- C. apply list_eq. intros q.
  destruct (decide (q < ir2_inst_num_current t)%nat) as [Hq|Hq].
  - rewrite lookup_take_lt, list_lookup_fmap by done. destruct (decide (p = q)) as [->|Npq].
    + rewrite !list_lookup_alter_eq, lookup_take_lt, list_lookup_fmap by done.
      by destruct (ir2_inst_array t !! q).
    + rewrite !list_lookup_alter_ne, lookup_take_lt, list_lookup_fmap by done. done.
  - assert (p ≠ q) by (intros ->; apply Hq, B, elem_middle; by left).
    rewrite list_lookup_alter_ne by done. by rewrite !lookup_take_ge by lia.
Qed.

Lemma step_refines blank t s o s' :
  abstracts t s → spec_step s o = Some s' →
  ∃ t', step blank t o = Some t' ∧ abstracts t' s'.
Proof.
  intros A. destruct o as [moved opcode os|p|p|x id|x id];
    [by apply generate_step| |by apply remove_step|..]; simpl; intros H;
    (case_if; [|done]); injection H as <-; pose proof A as [R C].
  - destruct (spare_spec _ _ _ A Heqb) as [H1 H2].
    destruct (append_ok _ _ _ R H1 H2) as (t' & ? & ? & ? & ?).
    exists t'. split; [done|]. by eapply abstracts_frame.
  - apply andb_true_iff in Heqb as [Hs Hi]. destruct (spare_spec _ _ _ A Hs) as [H1 H2].
    apply in_list_spec in Hi. destruct (split_at _ _ Hi (proj1 (proj2 R))) as (l1 & l2 & El & N). rewrite El in *.
    destruct (insert_before_ok _ _ _ _ _ R H1 H2) as (t' & -> & ? & ? & ?).
    exists t'. split; [done|]. rewrite ins_before_middle by done. by eapply abstracts_frame.
  - apply andb_true_iff in Heqb as [Hs Hi]. destruct (spare_spec _ _ _ A Hs) as [H1 H2].
    apply in_list_spec in Hi. destruct (split_at _ _ Hi (proj1 (proj2 R))) as (l1 & l2 & El & N). rewrite El in *.
    destruct (insert_after_ok _ _ _ _ _ R H1 H2) as (t' & -> & ? & ? & ?).
    exists t'. split; [done|]. rewrite ins_after_middle by done. by eapply abstracts_frame.
Qed.

Lemma empty_abstracts a : (0 < length a)%nat → abstracts (empty_td a) (mkSpec [] []).
Proof.
  intros H. split; [|done]. unfold repr, ids_ok. simpl.
  split_and!; try done; try lia; [constructor|intros p Hp; by apply not_elem_of_nil in Hp].
Qed.

(** C6 The array-based IR2 list refines a list of instructions.  Starting from
    the state [tr_init] leaves, whenever the specification allows a sequence of
    operations (generate an instruction, append it, remove one, insert one before or
    after another; at most 2^15 instructions, each in the list at most once, and no
    reallocation while the list is empty), the code runs through without leaving the
    array, its slots hold exactly the generated instructions with the removed ones
    invalidated, and the traversal from [first_ir2] along [_next] terminates with
    exactly the list of the specification. *)
Theorem ir2_ops_refine blank a os s :
  (0 < length a)%nat → run spec_step (mkSpec [] []) os = Some s →
  ∃ t, run (step blank) (empty_td a) os = Some t ∧ ir2_list t = Some (s_list s) ∧
    take (ir2_inst_num_current t) (map payload (ir2_inst_array t)) = s_code s ∧
    last_ir2 t = last (s_list s).
Proof.
  intros Ha. pose proof (empty_abstracts a Ha) as A. revert A.
  generalize (empty_td a) (mkSpec [] []). induction os as [|o os IH]; intros t s0 A H; simpl in *.
  - injection H as <-. exists t. destruct A as [R C]. pose proof R as (_ & _ & _ & _ & L & _).
    split_and!; [done|by apply ir2_list_ok|done|done].
  - destruct (spec_step s0 o) as [s1|] eqn:E; [|done]. simpl in H.
    destruct (step_refines blank _ _ _ _ A E) as (t1 & -> & A1). simpl. by eapply IH.
Qed.

(** Two instructions appended, one inserted between them, the first removed. *)
Lemma ir2_ops_refine_witness :
  let os := [Generate false 200 [ir2_opnd_new_none]; Append 0; Generate false 201 [];
             Append 1; Generate true 202 []; Before 2 1; Remove 0] in
  let blank := mkIR2 0 0 0 0 0 [] in
  ∃ t, run (step blank) (empty_td [blank]) os = Some t ∧ ir2_list t = Some [2; 1]%nat.
Proof.
  destruct (ir2_ops_refine (mkIR2 0 0 0 0 0 []) [mkIR2 0 0 0 0 0 []]
    [Generate false 200 [ir2_opnd_new_none]; Append 0; Generate false 201 [];
     Append 1; Generate true 202 []; Before 2 1; Remove 0]
    (mkSpec [(128, [ir2_opnd_new_none]); (201, []); (202, [])] [2; 1]%nat))
    as (t & E & L & _ & _).
  - simpl. lia.
  - vm_compute. reflexivity.
  - exists t. split; [exact E|exact L].
Defined.
