(* ===== verification/Ir2Code.v ===== *)
(** * The IR2 list as code

    The passes over the IR2 list (optimization/ir2-optimization.c, the end of
    translator/translate.c) read and change opcodes and operands while they insert and
    remove instructions.  This file relates the array to the list of slots with their
    contents and has one lemma per primitive the passes use. *)

From stdpp Require Import base numbers list option strings sets tactics.
From Stdlib Require Import ZArith Lia Bool.
From S2P Require Import Prelude LisaTable Ir2 Ir2List.
Local Open Scope Z_scope.
Local Open Scope c_scope.

Local Abbreviation last := list.last.

(** An opcode with its operands. *)
Abbreviation code_inst := (Z * list IR2_OPND)%type.

(** The list holds the slots of [L], in this order, with these contents. *)
Definition shows (t : TRANSLATION_DATA) (L : list (nat * code_inst)) : Prop :=
  ∃ code, abstracts t (mkSpec code (L.*1)) ∧ Forall (λ x, code !! x.1 = Some x.2) L.

Lemma empty_shows a : (0 < length a)%nat → shows (empty_td a) [].
Proof. intros H. exists []. split; [by apply empty_abstracts|constructor]. Qed.

Section shows.
Context (t : TRANSLATION_DATA).

Lemma shows_repr L : shows t L → repr t (L.*1).
Proof using Type. by intros (code & [R _] & _). Qed.

Lemma shows_list L : shows t L → ir2_list t = Some (L.*1).
Proof using Type. intros H. by apply ir2_list_ok, shows_repr. Qed.

Lemma shows_ends L : shows t L → first_ir2 t = head (L.*1) ∧ last_ir2 t = last (L.*1).
Proof using Type. intros (_ & _ & _ & F & La & _)%shows_repr. done. Qed.

Lemma shows_deref L x :
  shows t L → x ∈ L → ∃ i, deref t x.1 = Some i ∧ payload i = x.2 ∧ _id i = Z.of_nat x.1.
Proof using Type.
  intros (code & [R C] & F) Hx. rewrite list.Forall_forall in F. specialize (F x Hx).
  simpl in C. rewrite <- C in F. unfold deref.
  assert (B : (x.1 < ir2_inst_num_current t)%nat).
  { destruct R as (_ & _ & B & _). apply B. simpl. by apply list_elem_of_fmap_2. }
  rewrite lookup_take_lt, list_lookup_fmap in F by done.
  destruct (ir2_inst_array t !! x.1) as [i|] eqn:E; [|done]. exists i. simpl in F.
  split_and!; [done|congruence|]. destruct R as ((_ & _ & _ & I) & _).
  specialize (I _ B). rewrite E in I. simpl in I. unfold ir2_get_id in I. congruence.
Qed.

Lemma shows_links L1 x L2 :
  shows t (L1 ++ x :: L2) → ir2_prev t x.1 = Some (last (L1.*1)) ∧ ir2_next t x.1 = Some (head (L2.*1)).
Proof using Type.
  intros H%shows_repr. rewrite fmap_app, fmap_cons in H. by eapply repr_links.
Qed.

Lemma shows_new L : shows t L → (ir2_inst_num_current t ∉ L.*1).
Proof using Type. intros (_ & _ & B & _)%shows_repr H. apply B in H. lia. Qed.

Lemma shows_length L : shows t L → (length L <= ir2_inst_num_current t)%nat.
Proof using Type.
  intros (_ & ND & B & _)%shows_repr. rewrite <- (length_fmap fst L), <- (length_seq (ir2_inst_num_current t) 0).
  apply submseteq_length, NoDup_submseteq; [done|]. intros x Hx%B. apply elem_of_seq. lia.
Qed.

Lemma shows_unique L1 x L2 : shows t (L1 ++ x :: L2) → (x.1 ∉ L1.*1) ∧ (x.1 ∉ L2.*1).
Proof using Type.
  intros (_ & ND & _)%shows_repr. rewrite fmap_app, fmap_cons in ND. apply NoDup_middle in ND as [N _].
  rewrite elem_of_app in N. tauto.
Qed.

(** A new instruction. *)
Lemma shows_generate L blank moved opcode os :
  shows t L → Z.of_nat (ir2_inst_num_current t) < 2 ^ 15 → (length os <= 4)%nat → (moved = true → L ≠ []) →
  ∃ t' code, generate blank moved t opcode os = Some (ir2_inst_num_current t, t') ∧
    abstracts t' (mkSpec code (L.*1)) ∧ Forall (λ x, code !! x.1 = Some x.2) L ∧
    code !! ir2_inst_num_current t = Some (s16 opcode, os) ∧
    ir2_inst_num_current t' = S (ir2_inst_num_current t).
Proof using Type.
  intros (code & A & F) HB Ho HM. pose proof (abstracts_length _ _ A) as EL. simpl in EL.
  destruct (generate_step blank moved t _ opcode os (mkSpec (code ++ [(s16 opcode, os)]) (L.*1)) A)
    as (t' & E & A').
  { simpl. rewrite EL. rewrite (proj2 (Z.ltb_lt _ _)) by done. rewrite (proj2 (Nat.leb_le _ _)) by done. simpl.
    destruct moved; [|done]. by destruct L; [destruct HM|]. }
  simpl in E. destruct (generate blank moved t opcode os) as [[p t1]|] eqn:G; [|done]. injection E as ->.
  assert (p = ir2_inst_num_current t) as ->.
  { unfold generate, ir2_allocate in G. destruct (negb (length (ir2_inst_array t) =? 0)%nat); [|done].
    destruct (ir2_inst_num_current t =? length (ir2_inst_array t))%nat.
    - destruct (negb _); [|done]. simpl in G. destruct (upd _ _ _); [|done]. simpl in G.
      destruct (upd _ _ _); [|done]. by injection G as <- _.
    - simpl in G. destruct (upd t _ _); [|done]. simpl in G. destruct (upd _ _ _); [|done]. by injection G as <- _. }
  exists t', (code ++ [(s16 opcode, os)]). split_and!; [done|done| | |].
  - eapply list.Forall_impl; [exact F|]. intros x H. by apply lookup_app_l_Some.
  - rewrite <- EL. apply list_lookup_middle. done.
  - rewrite <- (abstracts_length _ _ A'). simpl. rewrite length_app, EL. simpl. lia.
Qed.

(** ... is inserted before another one, or appended. *)
Lemma shows_before L1 x L2 blank moved opcode os :
  shows t (L1 ++ x :: L2) → Z.of_nat (ir2_inst_num_current t) < 2 ^ 15 → (length os <= 4)%nat →
  ∃ t1 t', generate blank moved t opcode os = Some (ir2_inst_num_current t, t1) ∧
    ir2_insert_before t1 (ir2_inst_num_current t) x.1 = Some (t', x.1) ∧
    shows t' (L1 ++ (ir2_inst_num_current t, (s16 opcode, os)) :: x :: L2) ∧
    ir2_inst_num_current t' = S (ir2_inst_num_current t).
Proof using Type.
  intros S HB Ho. pose proof (shows_new _ S) as Nn. pose proof (shows_unique _ _ _ S) as [N1 _].
  destruct (shows_generate (L1 ++ x :: L2) blank moved opcode os S HB Ho) as (t1 & code & E & A & F & Cn & N).
  { intros _ H. by apply app_eq_nil in H as [_ ?]. }
  rewrite fmap_app, fmap_cons in A, Nn.
  destruct (insert_before_ok t1 (L1.*1) (ir2_inst_num_current t) x.1 (L2.*1) (proj1 A))
    as (t' & E' & R' & Fr & P); [lia|done|].
  exists t1, t'. split_and!; [done|done| |by destruct Fr as [(-> & _) _]].
  exists code. split.
  - rewrite fmap_app, !fmap_cons. simpl. pose proof (abstracts_frame t1 t' _ _ A Fr R' P) as A'. exact A'.
  - apply Forall_app in F as [F1 F2]. apply Forall_app. split; [done|]. by constructor.
Qed.

Lemma shows_append L blank moved opcode os :
  shows t L → Z.of_nat (ir2_inst_num_current t) < 2 ^ 15 → (length os <= 4)%nat → (moved = true → L ≠ []) →
  ∃ t1 t', generate blank moved t opcode os = Some (ir2_inst_num_current t, t1) ∧
    ir2_append t1 (ir2_inst_num_current t) = Some t' ∧
    shows t' (L ++ [(ir2_inst_num_current t, (s16 opcode, os))]) ∧
    ir2_inst_num_current t' = S (ir2_inst_num_current t).
Proof using Type.
  intros S HB Ho HM. pose proof (shows_new _ S) as Nn.
  destruct (shows_generate L blank moved opcode os S HB Ho HM) as (t1 & code & E & A & F & Cn & N).
  destruct (append_ok t1 (L.*1) (ir2_inst_num_current t) (proj1 A)) as (t' & E' & R' & Fr & P); [lia|done|].
  exists t1, t'. split_and!; [done|done| |by destruct Fr as [(-> & _) _]].
  exists code. split.
  - rewrite fmap_app. simpl. pose proof (abstracts_frame t1 t' _ _ A Fr R' P) as A'. exact A'.
  - apply Forall_app. split; [done|]. by constructor.
Qed.

End shows.

(** ** Removal *)

Lemma upd_lnk t p f t' x : upd t p f = Some t' → p ≠ x → lnk (ir2_inst_array t') x = lnk (ir2_inst_array t) x.
Proof.
  unfold upd. destruct (ir2_inst_array t !! p) as [i|]; [|done]. intros [= <-] N. unfold lnk. simpl.
  by rewrite list_lookup_insert_ne.
Qed.

Lemma upd_opcode_lnk t x c t' : upd t x (ir2_set_opcode c) = Some t' → lnk (ir2_inst_array t') x = lnk (ir2_inst_array t) x.
Proof.
  unfold upd. destruct (ir2_inst_array t !! x) as [i|] eqn:E; [|done]. intros [= <-]. unfold lnk. simpl.
  rewrite list_lookup_insert_eq by (by eapply lookup_lt_Some). by rewrite E.
Qed.

(** The removed instruction keeps its links, along which the passes go on. *)
Lemma remove_lnk t L1 x L2 t' :
  repr t (L1 ++ x :: L2) → ir2_remove t x = Some t' → lnk (ir2_inst_array t') x = lnk (ir2_inst_array t) x.
Proof.
  intros R. destruct (repr_links _ _ _ _ R) as [Ep En]. pose proof R as (_ & [N _]%NoDup_middle & _).
  assert (Np : ∀ p, last L1 = Some p → p ≠ x).
  { intros p H ->. apply N, elem_of_app. left. by apply last_Some_elem_of. }
  assert (Nn : ∀ n, head L2 = Some n → n ≠ x).
  { intros n H ->. apply N, elem_of_app. right. by apply head_Some_elem_of. }
  unfold ir2_remove. rewrite Ep, En. simpl.
  assert (K : ∀ t1, lnk (ir2_inst_array t1) x = lnk (ir2_inst_array t) x → upd t1 x (ir2_set_opcode LISA_INVALID) = Some t' →
    lnk (ir2_inst_array t') x = lnk (ir2_inst_array t) x) by (intros t1 E U; by rewrite (upd_opcode_lnk _ _ _ _ U)).
  destruct (is_ptr (first_ir2 t) x), (is_ptr (last_ir2 t) x); simpl; [by apply K|..].
  - destruct (head L2) as [n|]; [|done]. simpl. destruct (upd _ n _) as [t1|] eqn:U; [|done]. simpl.
    apply K. by rewrite (upd_lnk _ _ _ _ _ U) by auto.
  - destruct (last L1) as [p|]; [|done]. simpl. destruct (upd _ p _) as [t1|] eqn:U; [|done]. simpl.
    apply K. by rewrite (upd_lnk _ _ _ _ _ U) by auto.
  - destruct (last L1) as [p|]; [|done]. destruct (head L2) as [n|]; [|done]. simpl.
    destruct (id_of t n); [|done]. simpl. destruct (upd t p _) as [t1|] eqn:U; [|done]. simpl.
    destruct (id_of t1 p); [|done]. simpl. destruct (upd t1 n _) as [t2|] eqn:U2; [|done]. simpl.
    apply K. rewrite (upd_lnk _ _ _ _ _ U2) by auto. by rewrite (upd_lnk _ _ _ _ _ U) by auto.
Qed.

Lemma lnk_next t t' x : lnk (ir2_inst_array t') x = lnk (ir2_inst_array t) x → ir2_next t' x = ir2_next t x.
Proof.
  unfold lnk, ir2_next, deref. destruct (ir2_inst_array t' !! x), (ir2_inst_array t !! x); simpl; try done.
  by intros [= _ ->].
Qed.

Lemma shows_remove t L1 x L2 :
  shows t (L1 ++ x :: L2) →
  ∃ t', ir2_remove t x.1 = Some t' ∧ shows t' (L1 ++ L2) ∧ ir2_next t' x.1 = Some (head (L2.*1)) ∧
    ir2_inst_num_current t' = ir2_inst_num_current t.
Proof.
  intros S. pose proof S as (code & A & F). pose proof (shows_links _ _ _ _ S) as [_ En].
  pose proof (shows_unique _ _ _ _ S) as [N1 N2]. pose proof (shows_repr _ _ S) as R. rewrite fmap_app, fmap_cons in R.
  assert (Sp : spec_step (mkSpec code ((L1 ++ x :: L2).*1)) (Remove x.1) =
    Some (mkSpec (alter (λ c, (LISA_INVALID, snd c)) x.1 code) ((L1 ++ L2).*1))).
  { simpl. rewrite !fmap_app, fmap_cons, del_middle by done.
    rewrite (proj2 (in_list_spec _ _)); [done|]. apply elem_middle. by left. }
  destruct (remove_step (mkIR2 0 0 0 0 0 []) t _ _ _ A Sp) as (t' & E & A'). simpl in E. exists t'.
  split_and!; [done| | |].
  - exists (alter (λ c, (LISA_INVALID, snd c)) x.1 code). split; [done|].
    apply Forall_app in F as [F1 F2]. apply list.Forall_cons in F2 as [_ F2].
    assert (K : ∀ L, x.1 ∉ L.*1 → Forall (λ y, code !! y.1 = Some y.2) L →
      Forall (λ y, alter (λ c, (LISA_INVALID, snd c)) x.1 code !! y.1 = Some y.2) L).
    { intros L N H. apply list.Forall_forall. intros y Hy. rewrite list.Forall_forall in H.
      rewrite list_lookup_alter_ne; [by apply H|]. intros E'. apply N. rewrite E'. by apply list_elem_of_fmap_2. }
    apply Forall_app. split; by apply K.
  - rewrite <- En. apply lnk_next. by eapply remove_lnk.
  - rewrite <- (abstracts_length _ _ A'), <- (abstracts_length _ _ A). simpl. by rewrite length_alter.
Qed.

(** ** Change of an instruction *)

Definition set_opnd (k : nat) (f : IR2_OPND → IR2_OPND) (i : IR2_INST) : IR2_INST :=
  mkIR2 (_opcode i) (_id i) (_prev i) (_next i) (op_count i) (alter f k (_opnd i)).

Lemma alter_take {A} (f : A → A) k n (l : list A) : take n (alter f k l) = alter f k (take n l).
Proof.
  apply list_eq. intros q. destruct (decide (q < n)%nat) as [Hq|Hq].
  - rewrite lookup_take_lt by done. destruct (decide (k = q)) as [->|N].
    + by rewrite !list_lookup_alter_eq, lookup_take_lt.
    + by rewrite !list_lookup_alter_ne, lookup_take_lt.
  - rewrite lookup_take_ge by lia. symmetry. apply lookup_ge_None. rewrite length_alter, length_take. lia.
Qed.

Lemma shows_upd t L1 p c os L2 k f :
  shows t (L1 ++ (p, (c, os)) :: L2) →
  ∃ t', upd t p (set_opnd k f) = Some t' ∧ shows t' (L1 ++ (p, (c, alter f k os)) :: L2) ∧
    ir2_inst_num_current t' = ir2_inst_num_current t.
Proof.
  intros S. pose proof S as (code & [R C] & F). pose proof (shows_unique _ _ _ _ S) as [N1 N2]. simpl in *.
  destruct (shows_deref t _ (p, (c, os)) S) as (i & D & P & I); [apply elem_of_app; right; by left|].
  unfold deref in D. simpl in *. unfold upd. rewrite D. simpl. eexists. split; [done|]. split; [|done].
  assert (Lp : (p < length (ir2_inst_array t))%nat) by (by eapply lookup_lt_Some).
  exists (<[p := (c, alter f k os)]> code). split; [split|]; simpl.
  - assert (E : (L1 ++ (p, (c, alter f k os)) :: L2).*1 = (L1 ++ (p, (c, os)) :: L2).*1) by by rewrite !fmap_app.
    rewrite E. pose proof R as (_ & ND & B & F1 & La & Dl). eapply repr_frame; [exact R| |done..|].
    + unfold frame, similar. simpl. rewrite length_insert. split_and!; try done. intros q.
      destruct (decide (p = q)) as [->|N]; [by rewrite list_lookup_insert_eq, D by done|by rewrite list_lookup_insert_ne].
    + eapply dls_ext; [exact Dl|]. intros q _. unfold lnk. simpl.
      destruct (decide (p = q)) as [->|N]; [by rewrite list_lookup_insert_eq, D by done|by rewrite list_lookup_insert_ne].
  - rewrite <- C. assert (Bp : (p < ir2_inst_num_current t)%nat).
    { destruct R as (_ & _ & B & _). apply B. simpl. rewrite fmap_app. apply elem_of_app. right. by left. }
    change (map payload) with (fmap (M := list) payload). rewrite list_fmap_insert, take_insert_lt by done.
    f_equal. unfold payload in *. simpl. injection P as -> <-. by rewrite alter_take.
  - assert (Lc : (p < length code)%nat).
    { apply Forall_app in F as [_ F]. apply list.Forall_cons in F as [F _]. by eapply lookup_lt_Some. }
    assert (K : ∀ L, p ∉ L.*1 → Forall (λ y, code !! y.1 = Some y.2) L →
      Forall (λ y, <[p := (c, alter f k os)]> code !! y.1 = Some y.2) L).
    { intros L N H. apply list.Forall_forall. intros y Hy. rewrite list.Forall_forall in H.
      rewrite list_lookup_insert_ne; [by apply H|]. intros E'. apply N. rewrite E'. by apply list_elem_of_fmap_2. }
    apply Forall_app in F as [F1 F2]. apply list.Forall_cons in F2 as [_ F2].
    apply Forall_app. split; [by apply K|]. constructor; [by apply list_lookup_insert_eq|by apply K].
Qed.

(** ** Appending code *)

Section append.
(** [blank], [moved]: as for [generate]; there is room for the first instruction. *)
Context (blank : IR2_INST) (moved : bool).

Definition append_inst (c : code_inst) (t : TRANSLATION_DATA) : option TRANSLATION_DATA :=
  '(p, t) ← generate blank (moved && (0 <? ir2_inst_num_current t)%nat) t c.1 c.2; ir2_append t p.

Fixpoint append_code (code : list code_inst) (t : TRANSLATION_DATA) : option TRANSLATION_DATA :=
  match code with [] => Some t | c :: code => t ← append_inst c t; append_code code t end.

Definition fits (c : code_inst) : Prop := (length c.2 <= 4)%nat ∧ s16 c.1 = c.1.

Lemma append_code_shows code : ∀ t L,
  shows t L → Z.of_nat (ir2_inst_num_current t) + Z.of_nat (length code) <= 2 ^ 15 → Forall fits code →
  (L = [] → ir2_inst_num_current t = 0%nat) →
  ∃ t', append_code code t = Some t' ∧ shows t' (L ++ zip (seq (ir2_inst_num_current t) (length code)) code) ∧
    ir2_inst_num_current t' = (ir2_inst_num_current t + length code)%nat.
Proof using Type.
  induction code as [|c code IH]; intros t L H N F HL.
  { exists t. rewrite app_nil_r. split_and!; [done..|simpl; lia]. }
  inversion F as [|? ? [Fc Fs] F']; subst. simpl in N.
  destruct (shows_append t L blank (moved && (0 <? ir2_inst_num_current t)%nat) c.1 c.2 H) as (t1 & t2 & G & A & H2 & N2);
    [lia|done| |].
  { rewrite andb_true_iff, Nat.ltb_lt. intros [_ P] EL. rewrite (HL EL) in P. lia. }
  destruct (IH t2 _ H2) as (t' & E & H' & N'); [lia|done|intros X; by destruct L|].
  exists t'. simpl. unfold append_inst. rewrite G. simpl. rewrite A. simpl. split_and!; [done| |lia].
  rewrite N2, <- app_assoc, Fs in H'. by destruct c.
Qed.
End append.

(** Slots of code that was appended to an empty array. *)
Lemma appended_order {A} (L F T : list (nat * A)) e n :
  L.*1 = seq 0 n → L = F ++ e :: T → Forall (λ x, (x.1 < e.1)%nat) F ∧ Forall (λ x, (e.1 < x.1)%nat) T.
Proof.
  intros E ->. assert (K : ∀ i x, (F ++ e :: T) !! i = Some x → x.1 = i).
  { intros i x Hi. assert (Hs : (F ++ e :: T).*1 !! i = Some x.1) by (by rewrite list_lookup_fmap, Hi).
    rewrite E in Hs. apply lookup_seq in Hs. lia. }
  assert (Ee : e.1 = length F) by (by apply K; rewrite list_lookup_middle).
  split; apply Forall_lookup_2; intros i x Hi.
  - apply lookup_lt_Some in Hi as Hl. rewrite (K i x), Ee; [done|]. by apply lookup_app_l_Some.
  - rewrite (K (length F + S i)%nat x), Ee; [lia|]. rewrite lookup_app_r by lia.
    by replace (length F + S i - length F)%nat with (S i) by lia.
Qed.

Lemma last_split {A} (P : A → bool) (l : list A) :
  Forall (λ x, P x = false) l ∨ ∃ F e T, l = F ++ e :: T ∧ P e = true ∧ Forall (λ x, P x = false) T.
Proof.
  induction l as [|x l [IH|(F & e & T & -> & He & HT)]] using rev_ind; [by left| |].
  - destruct (P x) eqn:E; [right; exists l, x, []|left; apply Forall_app]; done || split; done || by repeat constructor.
  - destruct (P x) eqn:E; right; [by exists (F ++ e :: T), x, []|].
    exists F, e, (T ++ [x]). rewrite <- app_assoc. split_and!; [done..|]. apply Forall_app. split; [done|by repeat constructor].
Qed.
