(* ===== verification/LaAssemble.v ===== *)
(** * The LoongArch assembler (ir2/ir2-assemble.c)

    [ir2_assemble] turns an IR2 instruction into its 32-bit word from two tables:
    the instruction templates (LisaTable) and the places of the operand fields.
    The theorems show that assembling is total on the real opcodes and rejects the
    pseudo ones, that every operand can be read back from the word, and that no two
    different instructions have the same word. *)

From stdpp Require Import base numbers list option strings tactics.
From Stdlib Require Import ZArith Lia Bool.
From S2P Require Import Prelude LisaTable Ir2.
Local Open Scope Z_scope.
Local Open Scope c_scope.

(** ** The field table *)

Record GM_OPERAND_PLACE_RELATION := place {
  p_type : GM_OPERAND_TYPE;
  bit_range_0 : Z * Z;
  bit_range_1 : Z * Z      (** (-1, -1): none *)
}.

Definition bit_field_table : list GM_OPERAND_PLACE_RELATION := [
  place OPD_INVALID (-1, -1) (-1, -1);
  place FCC_CA (15, 17) (-1, -1);
  place FCC_CD (0, 2) (-1, -1);
  place FCC_CJ (5, 7) (-1, -1);
  place IMM_CODE (0, 14) (-1, -1);
  place IMM_CONDF (15, 19) (-1, -1);
  place IMM_CONDH (10, 13) (-1, -1);
  place IMM_CONDL (0, 3) (-1, -1);
  place OPD_CSR (10, 23) (-1, -1);
  place FPR_FA (15, 19) (-1, -1);
  place OPD_FCSRH (5, 9) (-1, -1);
  place OPD_FCSRL (0, 4) (-1, -1);
  place FPR_FD (0, 4) (-1, -1);
  place FPR_FJ (5, 9) (-1, -1);
  place FPR_FK (10, 14) (-1, -1);
  place IMM_HINTL (0, 14) (-1, -1);
  place IMM_HINTS (0, 4) (-1, -1);
  place IMM_I13 (5, 17) (-1, -1);
  place IMM_IDXS (18, 18) (-1, -1);
  place IMM_IDXM (18, 19) (-1, -1);
  place IMM_IDXL (18, 20) (-1, -1);
  place IMM_IDXLL (18, 21) (-1, -1);
  place IMM_LEVEL (10, 17) (-1, -1);
  place IMM_LSBD (10, 15) (-1, -1);
  place IMM_LSBW (10, 14) (-1, -1);
  place IMM_MODE (5, 9) (-1, -1);
  place IMM_MSBD (16, 21) (-1, -1);
  place IMM_MSBW (16, 20) (-1, -1);
  place IMM_OFFS (10, 25) (-1, -1);
  place IMM_OFFL (10, 25) (0, 4);
  place IMM_OFFLL (10, 25) (0, 9);
  place OPD_OPCACHE (0, 4) (-1, -1);
  place IMM_OPX86 (5, 9) (-1, -1);
  place IMM_PTR (5, 7) (-1, -1);
  place GPR_RD (0, 4) (-1, -1);
  place GPR_RJ (5, 9) (-1, -1);
  place GPR_RK (10, 14) (-1, -1);
  place IMM_SA2 (15, 16) (-1, -1);
  place IMM_SA3 (15, 17) (-1, -1);
  place SCR_SD (0, 1) (-1, -1);
  place IMM_SEQ (10, 17) (-1, -1);
  place IMM_SI10 (10, 19) (-1, -1);
  place IMM_SI11 (10, 20) (-1, -1);
  place IMM_SI12 (10, 21) (-1, -1);
  place IMM_SI14 (10, 23) (-1, -1);
  place IMM_SI16 (10, 25) (-1, -1);
  place IMM_SI20 (5, 24) (-1, -1);
  place IMM_SI5 (10, 14) (-1, -1);
  place IMM_SI8 (10, 17) (-1, -1);
  place IMM_SI9 (10, 18) (-1, -1);
  place SCR_SJ (5, 6) (-1, -1);
  place IMM_UI1 (10, 10) (-1, -1);
  place IMM_UI12 (10, 21) (-1, -1);
  place IMM_UI2 (10, 11) (-1, -1);
  place IMM_UI3 (10, 12) (-1, -1);
  place IMM_UI4 (10, 13) (-1, -1);
  place IMM_UI5H (15, 19) (-1, -1);
  place IMM_UI5L (10, 14) (-1, -1);
  place IMM_UI6 (10, 15) (-1, -1);
  place IMM_UI7 (10, 16) (-1, -1);
  place IMM_UI8 (10, 17) (-1, -1);
  place FPR_VA (15, 19) (-1, -1);
  place FPR_VD (0, 4) (-1, -1);
  place FPR_VJ (5, 9) (-1, -1);
  place FPR_VK (10, 14) (-1, -1);
  place FPR_XA (15, 19) (-1, -1);
  place FPR_XD (0, 4) (-1, -1);
  place FPR_XJ (5, 9) (-1, -1);
  place FPR_XK (10, 14) (-1, -1)].

(** The value of the enumerator. *)
Definition gm_enum (ty : GM_OPERAND_TYPE) : nat :=
  match ty with
  | OPD_INVALID => 0 | FCC_CA => 1 | FCC_CD => 2 | FCC_CJ => 3 | IMM_CODE => 4 | IMM_CONDF => 5
  | IMM_CONDH => 6 | IMM_CONDL => 7 | OPD_CSR => 8 | FPR_FA => 9 | OPD_FCSRH => 10
  | OPD_FCSRL => 11 | FPR_FD => 12 | FPR_FJ => 13 | FPR_FK => 14 | IMM_HINTL => 15
  | IMM_HINTS => 16 | IMM_I13 => 17 | IMM_IDXS => 18 | IMM_IDXM => 19 | IMM_IDXL => 20
  | IMM_IDXLL => 21 | IMM_LEVEL => 22 | IMM_LSBD => 23 | IMM_LSBW => 24 | IMM_MODE => 25
  | IMM_MSBD => 26 | IMM_MSBW => 27 | IMM_OFFS => 28 | IMM_OFFL => 29 | IMM_OFFLL => 30
  | OPD_OPCACHE => 31 | IMM_OPX86 => 32 | IMM_PTR => 33 | GPR_RD => 34 | GPR_RJ => 35
  | GPR_RK => 36 | IMM_SA2 => 37 | IMM_SA3 => 38 | SCR_SD => 39 | IMM_SEQ => 40 | IMM_SI10 => 41
  | IMM_SI11 => 42 | IMM_SI12 => 43 | IMM_SI14 => 44 | IMM_SI16 => 45 | IMM_SI20 => 46
  | IMM_SI5 => 47 | IMM_SI8 => 48 | IMM_SI9 => 49 | SCR_SJ => 50 | IMM_UI1 => 51 | IMM_UI12 => 52
  | IMM_UI2 => 53 | IMM_UI3 => 54 | IMM_UI4 => 55 | IMM_UI5H => 56 | IMM_UI5L => 57
  | IMM_UI6 => 58 | IMM_UI7 => 59 | IMM_UI8 => 60 | FPR_VA => 61 | FPR_VD => 62 | FPR_VJ => 63
  | FPR_VK => 64 | FPR_XA => 65 | FPR_XD => 66 | FPR_XJ => 67 | FPR_XK => 68
  end%nat.

Global Instance GM_OPERAND_TYPE_eq_dec : EqDecision GM_OPERAND_TYPE.
Proof. solve_decision. Defined.

(** ** Assembling *)

(** [ins |= (val & mask) << start] for the bit range [r]. *)
Definition put (val : Z) (r : Z * Z) (ins : Z) : Z :=
  let '(start, end_) := r in
  let bit_len := end_ - start + 1 in
  let mask := (1 << bit_len) - 1 in
  ins .| ((val .& mask) << start).

Definition put_operand (f : GM_OPERAND_PLACE_RELATION) (val ins : Z) : Z :=
  let ins := put val (bit_range_0 f) ins in
  if 0 <=? fst (bit_range_1 f)
  then put (val >> (snd (bit_range_0 f) - fst (bit_range_0 f) + 1)) (bit_range_1 f) ins
  else ins.

(** The loop over the operands of the format; [opnds] are [_opnd[i]], ... *)
Fixpoint assemble_opnds (types : list GM_OPERAND_TYPE) (opnds : list IR2_OPND) (ins : Z) :
    option Z :=
  match types with
  | [] => Some ins
  | opnd_type :: types =>
      if bool_decide (opnd_type = OPD_INVALID) then Some ins else
      bit_field ← bit_field_table !! gm_enum opnd_type;
      lsassert bool_decide (opnd_type = p_type bit_field) ;;
      match opnds with
      | [] => None
      | o :: opnds =>
          lsassert negb (ir2_opnd_is_pseudo o || ir2_opnd_is_data o) ;;
          assemble_opnds types opnds (put_operand bit_field (s32 (_val o)) ins)
      end
  end.

Definition lisa_format_table (opcode : Z) : option template :=
  aget lisa_templates (opcode - LISA_INVALID).

(** The table is indexed by the opcode, so that the assertion that the entry is the
    opcode's own holds by construction.  Past the end of the table, which the C code does
    not check, there is no result. *)
Definition ir2_assemble (ir2 : IR2_INST) : option Z :=
  if ir2_opcode ir2 =? LISA_CODE then
    o ← _opnd ir2 !! 0%nat;
    lsassert ir2_opnd_is_pseudo o ;; Some (_val o)
  else
    lsassert LISA_PSEUDO_END <? ir2_opcode ir2 ;;
    format ← lisa_format_table (ir2_opcode ir2);
    lsassert negb (t_opcode format =? 0) ;;
    assemble_opnds (take 4 (t_opnd format)) (_opnd ir2) (t_opcode format).

(** ** Reading a word back *)

Definition place_of (ty : GM_OPERAND_TYPE) : GM_OPERAND_PLACE_RELATION :=
  default (place OPD_INVALID (-1, -1) (-1, -1)) (bit_field_table !! gm_enum ty).

(** The operand types of a format: the loop stops at [OPD_INVALID]. *)
Fixpoint live_types (l : list GM_OPERAND_TYPE) : list GM_OPERAND_TYPE :=
  match l with
  | [] => []
  | ty :: l => if bool_decide (ty = OPD_INVALID) then [] else ty :: live_types l
  end.
Definition opnd_types (r : template) : list GM_OPERAND_TYPE := live_types (t_opnd r).
Definition places (r : template) : list GM_OPERAND_PLACE_RELATION := map place_of (opnd_types r).

Definition range_len (r : Z * Z) : Z := snd r - fst r + 1.
Definition has_1 (f : GM_OPERAND_PLACE_RELATION) : bool := 0 <=? fst (bit_range_1 f).

(** Width of an operand in bits. *)
Definition width (f : GM_OPERAND_PLACE_RELATION) : Z :=
  range_len (bit_range_0 f) + if has_1 f then range_len (bit_range_1 f) else 0.

Definition slice (r : Z * Z) (w : Z) : Z := (w >> fst r) .& Z.ones (range_len r).

(** The operand encoded in the word [w] at the place [f]. *)
Definition extract (f : GM_OPERAND_PLACE_RELATION) (w : Z) : Z :=
  slice (bit_range_0 f) w .|
  (if has_1 f then slice (bit_range_1 f) w << range_len (bit_range_0 f) else 0).

Definition range_mask (r : Z * Z) : Z := Z.ones (range_len r) << fst r.
Definition field_mask (f : GM_OPERAND_PLACE_RELATION) : Z :=
  range_mask (bit_range_0 f) .| (if has_1 f then range_mask (bit_range_1 f) else 0).

(** The bits of a word that no operand of the row occupies. *)
Definition row_fixed (r : template) : Z :=
  Z.ldiff (Z.ones 32)
    (fold_right (λ f m, field_mask f .| m) 0 (places r)).

Definition row_matches (w : Z) (r : template) : bool := (w .& row_fixed r) =? t_opcode r.

(** Decoding by search: the first row that matches. *)
Definition decode (w : Z) : option (Z * list Z) :=
  '(i, r) ← list_find (λ r, row_matches w r ∧ t_opcode r ≠ 0) lisa_templates;
  Some (LISA_INVALID + Z.of_nat i, map (λ f, extract f w) (places r)).

(** ** The tables are well formed *)

Definition range_ok (r : Z * Z) : bool := (0 <=? fst r) && (fst r <=? snd r) && (snd r <? 32).

Definition place_ok (f : GM_OPERAND_PLACE_RELATION) : bool :=
  range_ok (bit_range_0 f) &&
  (negb (has_1 f) ||
   (range_ok (bit_range_1 f) &&
    ((range_mask (bit_range_0 f) .& range_mask (bit_range_1 f)) =? 0))) &&
  (width f <=? 32).

Fixpoint disjoint_fields (acc : Z) (fs : list GM_OPERAND_PLACE_RELATION) : bool :=
  match fs with
  | [] => true
  | f :: fs => ((acc .& field_mask f) =? 0) && disjoint_fields (acc .| field_mask f) fs
  end.

Definition type_ok (ty : GM_OPERAND_TYPE) : bool :=
  bool_decide (p_type (place_of ty) = ty) &&
  place_ok (place_of ty).

Definition row_ok (r : template) : bool :=
  (0 <=? t_opcode r) && (t_opcode r <? 2 ^ 32) &&
  (length (t_opnd r) <=? 4)%nat && forallb type_ok (opnd_types r) &&
  disjoint_fields (t_opcode r) (places r).

(** A row of a real instruction. *)
Definition real_row (r : template) : bool := negb (t_opcode r =? 0).

Lemma rows_ok : forallb (λ r, negb (real_row r) || row_ok r) lisa_templates = true.
Proof. vm_compute. reflexivity. Qed.

Lemma row_ok_of r : r ∈ lisa_templates → real_row r = true → row_ok r = true.
Proof.
  intros H R. pose proof (forallb_elem _ _ _ rows_ok H) as E. simpl in E. by rewrite R in E.
Qed.

(** ** Bits of an assembled word *)

(** The operand bit that lands in bit [j] of the word. *)
Definition src_bit (f : GM_OPERAND_PLACE_RELATION) (j : Z) : option Z :=
  let in_range r := (fst r <=? j) && (j <=? snd r) in
  if in_range (bit_range_0 f) then Some (j - fst (bit_range_0 f))
  else if has_1 f && in_range (bit_range_1 f)
       then Some (j - fst (bit_range_1 f) + range_len (bit_range_0 f))
       else None.

Definition obit (o : option Z) (v : Z) : bool :=
  match o with Some k => Z.testbit v k | None => false end.

#[local] Arguments Z.testbit : simpl never.

Lemma put_bits v r ins j :
  range_ok r = true → 0 <= j →
  Z.testbit (put v r ins) j =
  Z.testbit ins j || (if (fst r <=? j) && (j <=? snd r) then Z.testbit v (j - fst r) else false).
Proof.
  intros R Hj. destruct r as [s e]. unfold range_ok, put in *. simpl in *. bool_to_prop.
  rewrite Z.lor_spec. f_equal. rewrite Z.shiftl_spec by lia.
  replace (1 << (e - s + 1)) with (2 ^ (e - s + 1)) by (by rewrite Z.shiftl_1_l).
  rewrite Z.sub_1_r, <- Z.ones_equiv.
  rewrite Z.land_spec. destruct (Z.leb_spec s j); simpl.
  - destruct (Z.leb_spec j e).
    + rewrite Z.ones_spec_low by lia. apply andb_true_r.
    + rewrite Z.ones_spec_high by lia. apply andb_false_r.
  - rewrite (Z.testbit_neg_r v) by lia. done.
Qed.

Lemma place_ok_spec f :
  place_ok f = true →
  range_ok (bit_range_0 f) = true ∧
  (has_1 f = true → range_ok (bit_range_1 f) = true ∧
     range_mask (bit_range_0 f) .& range_mask (bit_range_1 f) = 0) ∧
  width f <= 32.
Proof.
  unfold place_ok. intros [[H1 H2]%andb_true_iff H3]%andb_true_iff. bool_to_prop.
  split_and!; [done| |done]. intros E. rewrite E in H2. simpl in H2. by bool_to_prop.
Qed.

Lemma range_mask_bits r j :
  range_ok r = true → 0 <= j →
  Z.testbit (range_mask r) j = (fst r <=? j) && (j <=? snd r).
Proof.
  intros R Hj. unfold range_mask, range_len, range_ok in *. bool_to_prop.
  rewrite Z.shiftl_spec by lia. destruct (Z.leb_spec (fst r) j); simpl.
  - rewrite Z.testbit_ones by lia. destruct (Z.leb_spec j (snd r)); lia.
  - by rewrite Z.testbit_neg_r by lia.
Qed.

Lemma src_bit_mask f j :
  place_ok f = true → 0 <= j →
  Z.testbit (field_mask f) j = match src_bit f j with Some _ => true | None => false end.
Proof.
  intros (R0 & R1 & _)%place_ok_spec Hj. unfold field_mask, src_bit.
  rewrite Z.lor_spec, range_mask_bits by done. destruct (_ && _); [done|]. simpl.
  destruct (has_1 f); [|by rewrite Z.bits_0]. rewrite range_mask_bits by (done || by apply R1).
  simpl. by destruct (_ && _).
Qed.

Lemma put_operand_bits f v ins j :
  place_ok f = true → 0 <= j →
  Z.testbit (put_operand f v ins) j = Z.testbit ins j || obit (src_bit f j) v.
Proof.
  intros P Hj. pose proof P as (R0 & R1 & W)%place_ok_spec. unfold put_operand, src_bit.
  fold (has_1 f). fold (range_len (bit_range_0 f)). destruct (has_1 f) eqn:E1.
  - destruct (R1 eq_refl) as [R1' D0]. rewrite !put_bits by done. rewrite <- orb_assoc. f_equal.
    assert (D : Z.testbit (range_mask (bit_range_0 f) .& range_mask (bit_range_1 f)) j = false)
      by (by rewrite D0, Z.bits_0).
    rewrite Z.land_spec, !range_mask_bits in D by done. unfold range_len.
    destruct ((fst (bit_range_0 f) <=? j) && _) eqn:C0; simpl in *.
    + rewrite D. apply orb_false_r.
    + destruct ((fst (bit_range_1 f) <=? j) && _) eqn:C1; simpl; [|done].
      unfold range_ok in *. bool_to_prop. apply Z.shiftr_spec. lia.
  - rewrite put_bits by done. simpl. by destruct (_ && _).
Qed.

(** All operands of a format. *)
Fixpoint place_all (fs : list GM_OPERAND_PLACE_RELATION) (vs : list Z) (ins : Z) : Z :=
  match fs, vs with
  | f :: fs, v :: vs => place_all fs vs (put_operand f v ins)
  | _, _ => ins
  end.

Lemma place_all_outside fs vs ins j :
  forallb place_ok fs = true → 0 <= j → (∀ f, f ∈ fs → src_bit f j = None) →
  Z.testbit (place_all fs vs ins) j = Z.testbit ins j.
Proof.
  revert vs ins. induction fs as [|f fs IH]; intros vs ins P Hj H; [done|].
  destruct vs as [|v vs]; [done|]. simpl in *. bool_to_prop. rewrite IH; [|done..|].
  - rewrite put_operand_bits by done. rewrite H by left. apply orb_false_r.
  - intros g Hg. apply H. by right.
Qed.

Lemma disjoint_outside acc fs f j :
  disjoint_fields acc fs = true → forallb place_ok fs = true → 0 <= j →
  Z.testbit acc j = true → f ∈ fs → src_bit f j = None.
Proof.
  revert acc. induction fs as [|g fs IH]; intros acc D P Hj T Hf;
    [by apply not_elem_of_nil in Hf|]. simpl in *.
  apply andb_true_iff in D as [D1%Z.eqb_eq D2], P as [P1 P2].
  apply elem_of_cons in Hf as [->|Hf].
  - assert (E : Z.testbit (acc .& field_mask g) j = false) by (by rewrite D1, Z.bits_0).
    rewrite Z.land_spec, T, src_bit_mask in E by done. by destruct (src_bit g j).
  - eapply (IH (acc .| field_mask g)); try done. by rewrite Z.lor_spec, T.
Qed.

(** Every operand bit is where the table puts it. *)
Lemma place_all_bits acc fs vs ins k f v j b :
  disjoint_fields acc fs = true → forallb place_ok fs = true →
  (∀ i, 0 <= i → Z.testbit ins i = true → Z.testbit acc i = true) →
  fs !! k = Some f → vs !! k = Some v → 0 <= j → src_bit f j = Some b →
  Z.testbit (place_all fs vs ins) j = Z.testbit v b.
Proof.
  revert acc vs ins k. induction fs as [|g fs IH]; intros acc vs ins k D P I Hf Hv Hj E; [done|].
  destruct vs as [|u vs]; [done|]. simpl in *.
  apply andb_true_iff in D as [D1%Z.eqb_eq D2], P as [P1 P2].
  assert (G : ∀ i, 0 <= i → Z.testbit (field_mask g) i = true → Z.testbit acc i = false).
  { intros i Hi T. apply (f_equal (λ x, Z.testbit x i)) in D1.
    rewrite Z.land_spec, T, Z.bits_0 in D1. by destruct (Z.testbit acc i). }
  destruct k as [|k]; simplify_eq/=.
  - assert (T : Z.testbit (field_mask f) j = true) by (by rewrite src_bit_mask, E).
    rewrite place_all_outside; [|done..|].
    + rewrite put_operand_bits, E by done. simpl.
      destruct (Z.testbit ins j) eqn:Ti; [|done].
      specialize (G j Hj T). by rewrite (I j Hj Ti) in G.
    + intros h Hh. eapply disjoint_outside; [exact D2|done..|by rewrite Z.lor_spec, T, orb_true_r|done].
  - eapply (IH _ _ _ k D2); try done. intros i Hi. rewrite put_operand_bits, Z.lor_spec by done.
    rewrite src_bit_mask by done. intros [T| T]%orb_true_iff; [by rewrite (I i Hi T)|].
    unfold obit in T. destruct (src_bit g i); [|done]. apply orb_true_r.
Qed.

(** The bit of the word that holds operand bit [k]. *)
Definition pos (f : GM_OPERAND_PLACE_RELATION) (k : Z) : Z :=
  if k <? range_len (bit_range_0 f) then fst (bit_range_0 f) + k
  else fst (bit_range_1 f) + (k - range_len (bit_range_0 f)).

Lemma in_range_true s e j : s <= j <= e → (s <=? j) && (j <=? e) = true.
Proof. intros H. by rewrite !(proj2 (Z.leb_le _ _)) by lia. Qed.

Lemma src_bit_pos f k :
  place_ok f = true → 0 <= k < width f → 0 <= pos f k ∧ src_bit f (pos f k) = Some k.
Proof.
  intros (R0 & R1 & _)%place_ok_spec. unfold pos, src_bit, width.
  destruct (has_1 f) eqn:E1; intros Hk.
  - destruct (R1 eq_refl) as [R1' D].
    assert (D' : ∀ j, 0 <= j → fst (bit_range_1 f) <= j <= snd (bit_range_1 f) →
      (fst (bit_range_0 f) <=? j) && (j <=? snd (bit_range_0 f)) = false).
    { intros j Hj Hr. apply (f_equal (λ x, Z.testbit x j)) in D.
      rewrite Z.land_spec, !range_mask_bits, Z.bits_0 in D by done.
      by rewrite (in_range_true (fst (bit_range_1 f))), andb_true_r in D by lia. }
    unfold range_len, range_ok in *. bool_to_prop.
    destruct (Z.ltb_spec k (snd (bit_range_0 f) - fst (bit_range_0 f) + 1));
      (split; [lia|]); [|rewrite D' by lia]; rewrite in_range_true by lia; simpl; f_equal; lia.
  - unfold range_len, range_ok in *. bool_to_prop.
    rewrite (proj2 (Z.ltb_lt k _)) by lia. split; [lia|].
    rewrite in_range_true by lia. simpl. f_equal. lia.
Qed.

Lemma slice_bits r w k :
  range_ok r = true → 0 <= k →
  Z.testbit (slice r w) k = (k <? range_len r) && Z.testbit w (fst r + k).
Proof.
  intros R Hk. unfold slice, range_ok, range_len in *. bool_to_prop.
  rewrite Z.land_spec, Z.shiftr_spec, Z.testbit_ones by lia.
  rewrite (Z.add_comm k), (proj2 (Z.leb_le 0 k)) by lia. apply andb_comm.
Qed.

Lemma extract_bits f w k :
  place_ok f = true → 0 <= k →
  Z.testbit (extract f w) k = (k <? width f) && Z.testbit w (pos f k).
Proof.
  intros (R0 & R1 & _)%place_ok_spec Hk. unfold extract, width, pos.
  rewrite Z.lor_spec, slice_bits by done. destruct (has_1 f) eqn:E1.
  - destruct (R1 eq_refl) as [R1' _]. assert (1 <= range_len (bit_range_1 f))
      by (unfold range_len, range_ok in *; bool_to_prop; lia).
    rewrite Z.shiftl_spec by lia. destruct (Z.ltb_spec k (range_len (bit_range_0 f))); simpl.
    + rewrite (proj2 (Z.ltb_lt k (_ + _))) by lia. rewrite (Z.testbit_neg_r (slice _ _)) by lia.
      apply orb_false_r.
    + rewrite slice_bits by (done || lia). f_equal.
      destruct (Z.ltb_spec (k - range_len (bit_range_0 f)) (range_len (bit_range_1 f))),
        (Z.ltb_spec k (range_len (bit_range_0 f) + range_len (bit_range_1 f))); lia.
  - rewrite Z.bits_0, orb_false_r, Z.add_0_r. by destruct (Z.ltb_spec k (range_len (bit_range_0 f))).
Qed.

Lemma swrap_mod_le n w x : 0 <= w <= n → swrap n x mod 2 ^ w = x mod 2 ^ w.
Proof.
  intros H. unfold swrap.
  replace ((x + 2 ^ (n - 1)) mod 2 ^ n - 2 ^ (n - 1))
    with (x + (- ((x + 2 ^ (n - 1)) / 2 ^ n) * 2 ^ (n - w)) * 2 ^ w).
  - apply Z_mod_plus_full.
  - rewrite <- Z.mul_assoc, <- Z.pow_add_r by lia. replace (n - w + w) with n by lia.
    rewrite Z.mod_eq by lia. lia.
Qed.

Lemma width_nonneg f : place_ok f = true → 0 <= width f.
Proof.
  intros (R0 & R1 & _)%place_ok_spec. unfold width. destruct (has_1 f) eqn:E.
  - destruct (R1 eq_refl) as [R _]. unfold range_ok, range_len in *. bool_to_prop. lia.
  - unfold range_ok, range_len in *. bool_to_prop. lia.
Qed.

(** An operand read back is the operand, cut to the width of its field. *)
Lemma extract_place_all acc fs vs ins k f v :
  disjoint_fields acc fs = true → forallb place_ok fs = true →
  (∀ i, 0 <= i → Z.testbit ins i = true → Z.testbit acc i = true) →
  fs !! k = Some f → vs !! k = Some v →
  extract f (place_all fs vs ins) = v mod 2 ^ width f.
Proof.
  intros D P I Hf Hv. assert (Pf : place_ok f = true)
    by (eapply forallb_elem; [exact P|by eapply list_elem_of_lookup_2]).
  pose proof (width_nonneg f Pf). apply Z.bits_inj'. intros b Hb. rewrite extract_bits by done.
  destruct (Z.ltb_spec b (width f)) as [L|L]; simpl.
  - destruct (src_bit_pos f b Pf (conj Hb L)) as [Hp Es].
    rewrite Z.mod_pow2_bits_low by lia. by eapply place_all_bits.
  - by rewrite Z.mod_pow2_bits_high by lia.
Qed.

(** Nothing outside the fields of the operands changes the opcode. *)
Lemma fold_mask_bits fs j :
  forallb place_ok fs = true → 0 <= j →
  Z.testbit (fold_right (λ f m, field_mask f .| m) 0 fs) j = false →
  ∀ f, f ∈ fs → src_bit f j = None.
Proof.
  induction fs as [|g fs IH]; simpl; intros P Hj E f Hf; [by apply not_elem_of_nil in Hf|].
  apply andb_true_iff in P as [P1 P2]. rewrite Z.lor_spec in E. apply orb_false_iff in E as [E1 E2].
  apply elem_of_cons in Hf as [->|Hf]; [|by apply IH].
  rewrite src_bit_mask in E1 by done. by destruct (src_bit g j).
Qed.

Lemma disjoint_fold acc fs j :
  disjoint_fields acc fs = true → forallb place_ok fs = true → 0 <= j →
  Z.testbit acc j = true → Z.testbit (fold_right (λ f m, field_mask f .| m) 0 fs) j = false.
Proof.
  revert acc. induction fs as [|g fs IH]; intros acc D P Hj T; simpl; [apply Z.bits_0|].
  pose proof (disjoint_outside acc (g :: fs) g j D P Hj T) as S. simpl in D, P.
  apply andb_true_iff in D as [D1 D2], P as [P1 P2].
  rewrite Z.lor_spec, src_bit_mask, S by (done || left). simpl.
  apply (IH (acc .| field_mask g)); try done. by rewrite Z.lor_spec, T.
Qed.

Lemma in_u_high n a j : 0 <= n → in_u n a → n <= j → Z.testbit a j = false.
Proof.
  intros Hn H Hj. apply in_u_testbit in H as [_ H]; [|done].
  destruct (Z.testbit a j) eqn:E; [|done]. apply H in E. lia.
Qed.

Lemma src_bit_high f j : place_ok f = true → 32 <= j → src_bit f j = None.
Proof.
  intros (R0 & R1 & _)%place_ok_spec Hj. unfold src_bit, range_ok in *.
  destruct (has_1 f); [destruct (R1 eq_refl) as [R _]|]; bool_to_prop;
    repeat (case_if; bool_to_prop; try lia); done.
Qed.

Section row.
Context (r : template) (vs : list Z) (Hr : row_ok r = true).

Local Abbreviation word := (place_all (places r) vs (t_opcode r)).

Lemma row_facts :
  in_u 32 (t_opcode r) ∧ (length (t_opnd r) <= 4)%nat ∧ forallb type_ok (opnd_types r) = true ∧
  forallb place_ok (places r) = true ∧ disjoint_fields (t_opcode r) (places r) = true.
Proof using Hr.
  clear vs. unfold row_ok in Hr. bool_to_prop. split_and!; try done.
  - by apply Nat.leb_le.
  - apply forallb_forall. unfold places. intros f (ty & <- & Hin)%in_map_iff.
    rewrite forallb_forall in H1. specialize (H1 ty Hin). unfold type_ok in H1.
    by bool_to_prop.
Qed.

Lemma word_fixed : word .& row_fixed r = t_opcode r.
Proof using All.
  destruct row_facts as (U & _ & _ & P & D). apply Z.bits_inj'. intros j Hj.
  unfold row_fixed. rewrite Z.land_spec, Z.ldiff_spec, Z.testbit_ones by lia.
  destruct (Z.testbit (fold_right _ _ _) j) eqn:F; simpl; rewrite ?andb_false_r, ?andb_true_r.
  - destruct (Z.testbit (t_opcode r) j) eqn:T; [|done].
    by rewrite (disjoint_fold _ _ _ D P Hj T) in F.
  - rewrite place_all_outside; [|done..|by apply fold_mask_bits].
    rewrite (proj2 (Z.leb_le 0 j)) by lia. destruct (Z.ltb_spec j 32); simpl.
    + apply andb_true_r.
    + by rewrite (in_u_high 32 _ j) by (done || lia).
Qed.

Lemma word_bound : in_u 32 word.
Proof using All.
  destruct row_facts as (U & _ & _ & P & D).
  assert (A : ∀ j, 32 <= j → Z.testbit word j = false).
  { intros j Hj. rewrite place_all_outside; [|done|lia|].
    - apply (in_u_high 32); (done || lia).
    - intros f Hf. apply src_bit_high; [|lia]. by eapply forallb_elem. }
  apply in_u_testbit; [lia|]. split.
  - apply Z.bits_iff_nonneg_ex. exists 31. intros j Hj. apply A. lia.
  - intros j T. destruct (Z_lt_le_dec j 32); [done|]. by rewrite A in T.
Qed.
End row.

(** ** The assembler fills the fields *)

Definition opnd_ok (o : IR2_OPND) : bool := negb (ir2_opnd_is_pseudo o || ir2_opnd_is_data o).

Lemma bit_field_lookup ty : bit_field_table !! gm_enum ty = Some (place_of ty).
Proof. destruct ty; reflexivity. Qed.

Lemma assemble_opnds_eq tys os ins :
  forallb type_ok (live_types tys) = true →
  assemble_opnds tys os ins =
  if (length (live_types tys) <=? length os)%nat &&
     forallb opnd_ok (take (length (live_types tys)) os)
  then Some (place_all (map place_of (live_types tys)) (map (λ o, s32 (_val o)) os) ins)
  else None.
Proof.
  revert os ins. induction tys as [|ty tys IH]; intros os ins P; simpl in *; [done|].
  destruct (bool_decide (ty = OPD_INVALID)); [done|]. rewrite bit_field_lookup. simpl in *.
  apply andb_true_iff in P as [[P1 _]%andb_true_iff P2]. apply bool_decide_eq_true in P1.
  rewrite bool_decide_true by done. destruct os as [|o os]; simpl; [done|].
  fold (opnd_ok o). destruct (opnd_ok o); simpl; [by apply IH|]. by rewrite andb_false_r.
Qed.

Lemma ir2_assemble_real i r :
  _opcode i ≠ LISA_CODE → LISA_PSEUDO_END < _opcode i →
  lisa_format_table (_opcode i) = Some r → real_row r = true →
  row_ok r = true ∧
  ir2_assemble i =
  if (length (opnd_types r) <=? length (_opnd i))%nat &&
     forallb opnd_ok (take (length (opnd_types r)) (_opnd i))
  then Some (place_all (places r) (map (λ o, s32 (_val o)) (_opnd i)) (t_opcode r))
  else None.
Proof.
  intros H1 H2 H3 H4. assert (Hr : row_ok r = true).
  { apply row_ok_of; [|done]. apply aget_Some in H3 as [_ H3]. by eapply list_elem_of_lookup_2. }
  split; [done|]. destruct (row_facts r Hr) as (_ & L & T & _).
  unfold ir2_assemble, ir2_opcode. rewrite (proj2 (Z.eqb_neq _ _)), (proj2 (Z.ltb_lt _ _)), H3 by done.
  simpl. unfold real_row in H4. rewrite H4, take_ge by done. by apply assemble_opnds_eq.
Qed.

(** ** No two rows share a word *)

(** Split a set of (fixed bits, opcode) pairs at the listed bits, at those where
    every pair of the set has a fixed bit. *)
Fixpoint disc (bits : list Z) (l : list (Z * Z)) : bool :=
  match l with
  | [] | [_] => true
  | _ =>
      match bits with
      | [] => false
      | b :: bits =>
          if forallb (λ x, Z.testbit (fst x) b) l
          then disc bits (List.filter (λ x, Z.testbit (snd x) b) l) &&
               disc bits (List.filter (λ x, negb (Z.testbit (snd x) b)) l)
          else disc bits l
      end
  end.

Definition pair_matches (w : Z) (x : Z * Z) : bool := (w .& fst x) =? snd x.

Lemma filter_filter_sub {A} (P Q : A → bool) l :
  (∀ x, x ∈ l → P x = true → Q x = true) → List.filter P (List.filter Q l) = List.filter P l.
Proof.
  induction l as [|x l IH]; simpl; intros H; [done|].
  assert (IHl : List.filter P (List.filter Q l) = List.filter P l)
    by (apply IH; intros y Hy; apply H; by right).
  pose proof (H x ltac:(left)). destruct (Q x) eqn:EQ; simpl; rewrite IHl; [done|].
  destruct (P x) eqn:EP; [|done]. by specialize (H0 eq_refl).
Qed.

Lemma disc_sound bits l w :
  disc bits l = true → Forall (λ b, 0 <= b) bits →
  (length (List.filter (pair_matches w) l) <= 1)%nat.
Proof.
  revert l. induction bits as [|b bits IH]; intros l D F.
  - destruct l as [|x [|y l]]; simpl in *; [lia|case_match; simpl; lia|done].
  - inversion F as [|? ? Hb F']; subst.
    assert (C : (length l <= 1)%nat ∨
      (if forallb (λ x, Z.testbit (fst x) b) l
       then disc bits (List.filter (λ x, Z.testbit (snd x) b) l) &&
            disc bits (List.filter (λ x, negb (Z.testbit (snd x) b)) l)
       else disc bits l) = true).
    { destruct l as [|x [|y l]]; [left; simpl; lia..|right; exact D]. }
    destruct C as [C|C]; [pose proof (List.filter_length_le (pair_matches w) l); lia|].
    destruct (forallb _ l) eqn:E; [|by apply IH]. apply andb_true_iff in C as [C1 C0].
    assert (T : ∀ x, x ∈ l → pair_matches w x = true → Z.testbit (snd x) b = Z.testbit w b).
    { intros x Hx M%Z.eqb_eq. rewrite <- M, Z.land_spec.
      rewrite (forallb_elem _ _ _ E Hx). apply andb_true_r. }
    destruct (Z.testbit w b) eqn:Ew.
    + rewrite <- (filter_filter_sub _ (λ x, Z.testbit (snd x) b)) by (intros; auto). by apply IH.
    + rewrite <- (filter_filter_sub _ (λ x, negb (Z.testbit (snd x) b)))
        by (intros x Hx M; by rewrite (T x Hx M)). by apply IH.
Qed.

(** The bits in the order in which they separate the rows. *)
Definition split_bits : list Z := map (λ n, 31 - Z.of_nat n) (seq 0 32).

Lemma rows_disc :
  disc (split_bits ++ split_bits)
    (map (λ r, (row_fixed r, t_opcode r)) (List.filter real_row lisa_templates)) = true.
Proof. vm_compute. reflexivity. Qed.

Lemma filter_unique {A} (P : A → bool) l i j x y :
  (length (List.filter P l) <= 1)%nat →
  l !! i = Some x → P x = true → l !! j = Some y → P y = true → i = j.
Proof.
  assert (In1 : ∀ (l : list A) k z, l !! k = Some z → P z = true →
                (1 <= length (List.filter P l))%nat).
  { induction l0 as [|u l0 IH]; intros [|k] z Hk Pz; simplify_eq/=.
    - rewrite Pz. simpl. lia.
    - specialize (IH _ _ Hk Pz). destruct (P u); simpl; lia. }
  revert i j. induction l as [|u l IH]; intros [|i] [|j] L Hi Px Hj Py; simplify_eq/=; try done.
  - rewrite Px in L. simpl in L. pose proof (In1 _ _ _ Hj Py). lia.
  - rewrite Py in L. simpl in L. pose proof (In1 _ _ _ Hi Px). lia.
  - f_equal. apply IH; try done. destruct (P u); simpl in *; lia.
Qed.

Lemma filter_map {A B} (g : A → B) (P : B → bool) l :
  List.filter P (map g l) = map g (List.filter (λ x, P (g x)) l).
Proof. induction l as [|x l IH]; simpl; [done|]. rewrite IH. by destruct (P (g x)). Qed.

Lemma filter_and {A} (P Q : A → bool) l :
  List.filter P (List.filter Q l) = List.filter (λ x, Q x && P x) l.
Proof.
  induction l as [|x l IH]; simpl; [done|]. destruct (Q x); simpl; [destruct (P x)|]; by rewrite IH.
Qed.

Lemma rows_unique w i j ri rj :
  lisa_templates !! i = Some ri → real_row ri = true → row_matches w ri = true →
  lisa_templates !! j = Some rj → real_row rj = true → row_matches w rj = true → i = j.
Proof.
  intros Hi Ri Mi Hj Rj Mj.
  assert (S : (length (List.filter (λ r, real_row r && row_matches w r) lisa_templates) <= 1)%nat).
  { rewrite <- filter_and, <- (length_map (λ r, (row_fixed r, t_opcode r))).
    change (row_matches w) with (λ r, pair_matches w (row_fixed r, t_opcode r)).
    rewrite <- filter_map. eapply disc_sound; [exact rows_disc|].
    unfold split_bits. apply Forall_app; split; apply List.Forall_map, List.Forall_forall;
      intros n Hn%in_seq; lia. }
  eapply (filter_unique _ _ _ _ _ _ S); try done; simpl; by rewrite ?Ri, ?Rj.
Qed.

(** ** Correctness of the assembler *)

(** The operands of an instruction, each cut to the width of its field. *)
Definition encoded_opnds (i : IR2_INST) : list Z :=
  match lisa_format_table (_opcode i) with
  | Some r => zip_with (λ f o, _val o mod 2 ^ width f) (places r) (_opnd i)
  | None => []
  end.

(** The opcodes of machine instructions; LISA_ENDING closes the enumeration. *)
Definition machine_opcode (opcode : Z) : bool :=
  (LISA_PSEUDO_END <? opcode) && (opcode <? LISA_ENDING).

Lemma machine_rows :
  forallb real_row (take 2602 (drop 25 lisa_templates)) &&
  forallb (λ r, negb (real_row r)) (take 25 lisa_templates) = true.
Proof. vm_compute. reflexivity. Qed.

Lemma machine_row opcode :
  machine_opcode opcode = true →
  ∃ r, lisa_format_table opcode = Some r ∧ real_row r = true.
Proof.
  intros H. unfold machine_opcode in H. bool_to_prop.
  assert (L : length lisa_templates = 2628%nat) by (vm_compute; reflexivity).
  change LISA_PSEUDO_END with 152 in *. change LISA_ENDING with 2755 in *.
  unfold lisa_format_table, LISA_INVALID.
  destruct (aget_is_Some lisa_templates (opcode - 128)) as [r Hr]; [rewrite L; lia|].
  exists r. split; [done|]. apply aget_Some in Hr as [_ Hr].
  pose proof machine_rows as [M _]%andb_true_iff. eapply forallb_elem; [exact M|].
  apply (list_elem_of_lookup_2 _ (Z.to_nat (opcode - 128) - 25)).
  rewrite lookup_take_lt, lookup_drop by lia. rewrite <- Hr. f_equal. lia.
Qed.

Lemma real_opcode opcode r :
  lisa_format_table opcode = Some r → real_row r = true →
  LISA_PSEUDO_END < opcode ∧ opcode ≠ LISA_CODE.
Proof.
  intros F R. apply aget_Some in F as [H0 H].
  assert (A : (25 <= Z.to_nat (opcode - LISA_INVALID))%nat).
  { destruct (decide (25 <= Z.to_nat (opcode - LISA_INVALID))%nat) as [?|N]; [done|].
    pose proof machine_rows as [_ M]%andb_true_iff.
    assert (I : r ∈ take 25 lisa_templates)
      by (apply (list_elem_of_lookup_2 _ (Z.to_nat (opcode - LISA_INVALID)));
          rewrite lookup_take_lt by lia; exact H).
    pose proof (forallb_elem _ _ _ M I) as X. simpl in X. by rewrite R in X. }
  unfold LISA_INVALID, LISA_PSEUDO_END, LISA_CODE in *. lia.
Qed.

Lemma assembled_row i w :
  _opcode i ≠ LISA_CODE → ir2_assemble i = Some w →
  ∃ r, lisa_format_table (_opcode i) = Some r ∧ real_row r = true ∧ row_ok r = true ∧
    (length (opnd_types r) <= length (_opnd i))%nat ∧
    w = place_all (places r) (map (λ o, s32 (_val o)) (_opnd i)) (t_opcode r).
Proof.
  intros N A. pose proof A as A'. unfold ir2_assemble, ir2_opcode in A'.
  rewrite (proj2 (Z.eqb_neq _ _)) in A' by done.
  destruct (LISA_PSEUDO_END <? _opcode i) eqn:E; [|done]. apply Z.ltb_lt in E.
  destruct (lisa_format_table (_opcode i)) as [r|] eqn:F; [|done]. simpl in A'.
  destruct (negb (t_opcode r =? 0)) eqn:R; [|done].
  destruct (ir2_assemble_real i r N E F R) as [Ok A2]. rewrite A2 in A.
  case_if; [|done]. injection A as <-. apply andb_true_iff in Heqb as [L _].
  exists r. split_and!; try done. by apply Nat.leb_le.
Qed.

Lemma assemble_decodes i w :
  _opcode i ≠ LISA_CODE → ir2_assemble i = Some w →
  in_u 32 w ∧ decode w = Some (_opcode i, encoded_opnds i).
Proof.
  intros N A. destruct (assembled_row i w N A) as (r & F & R & Ok & L & ->).
  set (vs := map (λ o, s32 (_val o)) (_opnd i)).
  split; [by apply word_bound|]. pose proof F as [G0 G]%aget_Some.
  set (w := place_all (places r) vs (t_opcode r)) in *.
  assert (M : row_matches w r = true) by (by apply Z.eqb_eq, word_fixed).
  assert (LF : list_find (λ r, row_matches w r ∧ t_opcode r ≠ 0) lisa_templates =
               Some (Z.to_nat (_opcode i - LISA_INVALID), r)).
  { apply list_find_Some. split_and!; [done|by rewrite M|..].
    - unfold real_row in R. bool_to_prop. done.
    - intros j y Hj Lt [My Ry]. apply Is_true_true in My.
      assert (real_row y = true) by (unfold real_row; by apply negb_true_iff, Z.eqb_neq).
      pose proof (rows_unique w j _ y r Hj H My G R M). lia. }
  unfold decode, encoded_opnds. rewrite LF, F. simpl. do 2 f_equal; [lia|].
  destruct (row_facts r Ok) as (_ & _ & _ & P & D).
  apply list_eq. intros k. rewrite list_lookup_fmap, lookup_zip_with.
  destruct (places r !! k) as [f|] eqn:Ef; [|done]. simpl.
  assert (Lk : (k < length (_opnd i))%nat).
  { apply lookup_lt_Some in Ef. unfold places in Ef. rewrite length_map in Ef. lia. }
  destruct (lookup_lt_is_Some_2 _ _ Lk) as [o Eo]. rewrite Eo. simpl. f_equal.
  assert (Pf : place_ok f = true) by (eapply forallb_elem; [exact P|by eapply list_elem_of_lookup_2]).
  unfold w. rewrite (extract_place_all (t_opcode r) _ _ _ k f (s32 (_val o))); try done.
  - apply swrap_mod_le. pose proof (width_nonneg f Pf). apply place_ok_spec in Pf as (_ & _ & ?). lia.
  - unfold vs. by rewrite list_lookup_fmap, Eo.
Qed.

(** C5 Assembling loses nothing: the word of a machine instruction has 32 bits
    and decoding it, by searching all templates for the one whose fixed bits it
    has, gives the opcode back and every operand cut to the width of its field.  In
    particular no two instructions that differ in opcode or in a field share a word. *)
Theorem decode_assemble i w :
  _opcode i ≠ LISA_CODE → ir2_assemble i = Some w →
  in_u 32 w ∧ decode w = Some (_opcode i, encoded_opnds i).
Proof. apply assemble_decodes. Qed.

(** ld.w $t0, $s0, -4 *)
Lemma decode_assemble_witness :
  decode 0x28bff2ec = Some (lisa "ld.w", [12; 23; 4092]).
Proof.
  pose proof (decode_assemble (mkIR2 (lisa "ld.w") 0 0 0 3
    [mkOpnd2 IR2_OPND_GPR 12; mkOpnd2 IR2_OPND_GPR 23; create_immh_opnd (-4)]) 0x28bff2ec) as H.
  destruct H as [_ H].
  - vm_compute. discriminate.
  - vm_compute. reflexivity.
  - replace (encoded_opnds _) with [12; 23; 4092] in H by (vm_compute; reflexivity). exact H.
Defined.

Lemma four_types r : row_ok r = true → (length (opnd_types r) <= 4)%nat.
Proof.
  intros (_ & L4 & _)%row_facts. etrans; [|exact L4]. unfold opnd_types. clear.
  induction (t_opnd r) as [|ty l IH]; simpl; [lia|]. case_match; simpl; lia.
Qed.

Lemma real_machine opcode r :
  lisa_format_table opcode = Some r → real_row r = true → machine_opcode opcode = true.
Proof.
  intros F R. destruct (real_opcode _ _ F R) as [P _]. unfold machine_opcode.
  assert (B : opcode <= LISA_ENDING).
  { unfold lisa_format_table in F. apply aget_bound in F.
    replace (Z.of_nat (length lisa_templates)) with (LISA_ENDING - LISA_INVALID + 1) in F by (vm_compute; reflexivity). lia. }
  apply andb_true_iff. split; apply Z.ltb_lt; [done|]. destruct (decide (opcode = LISA_ENDING)) as [->|]; [|lia].
  vm_compute in F. injection F as <-. by vm_compute in R.
Qed.

(** What [ir2_assemble] requires of an instruction. *)
Definition assemblable (i : IR2_INST) : Prop :=
  if _opcode i =? LISA_CODE then ir2_opnd_is_pseudo <$> (_opnd i !! 0%nat) = Some true
  else machine_opcode (_opcode i) = true ∧
       ∃ r, lisa_format_table (_opcode i) = Some r ∧ forallb opnd_ok (take (length (opnd_types r)) (_opnd i)) = true.

(** What the assembler accepts.  For an instruction with its four operands,
    [ir2_assemble] returns a word exactly in two cases: the opcode is LISA_CODE and the
    first operand is a pseudo operand (a label or the like); or the opcode lies strictly
    between the pseudo opcodes and LISA_ENDING and none of the operands its format uses is
    a pseudo or data operand.  For every other opcode up to LISA_ENDING, and every other
    operand, an assertion fails; beyond LISA_ENDING the C code reads past its table, for
    which the model has no result. *)
Theorem ir2_assemble_defined i :
  length (_opnd i) = 4%nat → is_Some (ir2_assemble i) ↔ assemblable i.
Proof.
  intros L. unfold assemblable. destruct (Z.eqb_spec (_opcode i) LISA_CODE) as [E|N].
  { unfold ir2_assemble, ir2_opcode. rewrite E, Z.eqb_refl. destruct (_opnd i !! 0%nat) as [o|]; simpl.
    2: { split; [by intros [? ?]|done]. }
    by destruct (ir2_opnd_is_pseudo o); (split; [intros [? ?]|intros ?]). }
  split.
  - intros [w A]. destruct (assembled_row i w N A) as (r & F & R & _).
    destruct (real_opcode _ _ F R) as [P _]. destruct (ir2_assemble_real i r N P F R) as [_ X].
    rewrite A in X. split; [by eapply real_machine|]. exists r. split; [done|]. by destruct (_ && _) eqn:B in X; [apply andb_true_iff in B as [_ ->]|].
  - intros [M (r & F & O)]. destruct (machine_row _ M) as (r' & F' & R). rewrite F in F'. injection F' as <-.
    destruct (real_opcode _ _ F R) as [P _]. destruct (ir2_assemble_real i r N P F R) as [Ok ->].
    rewrite O, (proj2 (Nat.leb_le _ _)); [by eexists|]. rewrite L. by apply four_types.
Qed.

Lemma ir2_assemble_defined_witness :
  is_Some (ir2_assemble (mkIR2 (lisa "add.d") 0 0 0 3 (replicate 4 (mkOpnd2 IR2_OPND_GPR 4)))).
Proof.
  apply (ir2_assemble_defined (mkIR2 (lisa "add.d") 0 0 0 3 (replicate 4 (mkOpnd2 IR2_OPND_GPR 4)))).
  - reflexivity.
  - split; [vm_compute; reflexivity|]. exists (row "add.d" 0x00108000 [GPR_RD; GPR_RJ; GPR_RK]).
    split; vm_compute; reflexivity.
Defined.
