(* ===== verification/LaAppend.v ===== *)
(** * The generated instruction constructors (convert.py, ir2/la-append.c)

    convert.py writes one [generate_<name>] and one [la_<name>] per template: it
    allocates an IR2 slot, stores the opcode and the operands (immediates are wrapped
    into operands), asserts what it can check about them, and appends the slot.  The
    constructors are modelled here as one function of the template, with the branches
    the script takes on the name of the instruction and of its operand types. *)

From stdpp Require Import base numbers list option strings tactics.
From Stdlib Require Import ZArith Lia Bool.
From S2P Require Import Prelude LisaTable Ir2 Ir2List LaAssemble.
Local Open Scope Z_scope.
Local Open Scope c_scope.

(** ** Classification of instruction names *)

Definition mem_name (name : string) (l : list string) : bool := existsb (String.eqb name) l.

Definition isJmpInst (name : string) : bool :=
  mem_name name ["beq"; "bne"; "blt"; "bltu"; "bge"; "bgeu"; "beqz"; "bnez"; "b"; "bl";
                 "bceqz"; "bcnez"].
Definition isTopInst (name : string) : bool :=
  mem_name name ["x86settm"; "x86clrtm"; "x86mttop"; "x86mftop"; "x86dectop"; "x86inctop"].
Definition isMowgr2fcsr (name : string) : bool := String.eqb name "movgr2fcsr".
Definition isImmLoad (name : string) : bool := mem_name name ["lu12i.w"; "lu32i.d"; "lu52i.d"].
Definition isBstrInst (name : string) : bool :=
  mem_name name ["bstrins.w"; "bstrins.d"; "bstrpick.w"; "bstrpick.d"].
Definition isAmInst (name : string) : bool :=
  mem_name name
    ["amcas.b"; "amcas.h"; "amcas.w"; "amcas.d";
     "amcas.db.b"; "amcas.db.h"; "amcas.db.w"; "amcas.db.d";
     "amswap.w"; "amswap.d"; "amswap.db.w"; "amswap.db.d";
     "amadd.w"; "amadd.d"; "amadd.db.w"; "amadd.db.d";
     "amand.w"; "amand.d"; "amand.db.w"; "amand.db.d";
     "amor.w"; "amor.d"; "amor.db.w"; "amor.db.d";
     "amxor.w"; "amxor.d"; "amxor.db.w"; "amxor.db.d";
     "ammax.w"; "ammax.d"; "ammax.db.w"; "ammax.db.d";
     "ammin.w"; "ammin.d"; "ammin.db.w"; "ammin.db.d";
     "ammax.wu"; "ammax.du"; "ammax.db.wu"; "ammax.db.du";
     "ammin.wu"; "ammin.du"; "ammin.db.wu"; "ammin.db.du";
     "amswap.b"; "amswap.h"; "amswap.db.b"; "amswap.db.h";
     "amadd.b"; "amadd.h"; "amadd.db.b"; "amadd.db.h"].
Definition isCsrInst (name : string) : bool := mem_name name ["csrxchg"; "gcsrxchg"].

(** ** Classification of operand types, by their names in the template *)

(** [re.search("imm", opnd)] *)
Definition is_imm (ty : GM_OPERAND_TYPE) : bool :=
  match ty with
  | IMM_CODE | IMM_CONDF | IMM_CONDH | IMM_CONDL | IMM_HINTL | IMM_HINTS | IMM_I13
  | IMM_IDXS | IMM_IDXM | IMM_IDXL | IMM_IDXLL | IMM_LEVEL | IMM_LSBD | IMM_LSBW | IMM_MODE
  | IMM_MSBD | IMM_MSBW | IMM_OFFS | IMM_OFFL | IMM_OFFLL | IMM_OPX86 | IMM_PTR | IMM_SA2
  | IMM_SA3 | IMM_SEQ | IMM_SI10 | IMM_SI11 | IMM_SI12 | IMM_SI14 | IMM_SI16 | IMM_SI20
  | IMM_SI5 | IMM_SI8 | IMM_SI9 | IMM_UI1 | IMM_UI12 | IMM_UI2 | IMM_UI3 | IMM_UI4
  | IMM_UI5H | IMM_UI5L | IMM_UI6 | IMM_UI7 | IMM_UI8 => true
  | _ => false
  end.

(** [re.search("si", opnd)] and the number in the name. *)
Definition si_len (ty : GM_OPERAND_TYPE) : option Z :=
  match ty with
  | IMM_SI5 => Some 5 | IMM_SI8 => Some 8 | IMM_SI9 => Some 9 | IMM_SI10 => Some 10
  | IMM_SI11 => Some 11 | IMM_SI12 => Some 12 | IMM_SI14 => Some 14 | IMM_SI16 => Some 16
  | IMM_SI20 => Some 20
  | _ => None
  end.

(** [re.search("(sa)|(ra)", opnd)] and the number in the name. *)
Definition sa_len (ty : GM_OPERAND_TYPE) : option Z :=
  match ty with IMM_SA2 => Some 2 | IMM_SA3 => Some 3 | _ => None end.

Definition is_gpr (ty : GM_OPERAND_TYPE) : bool :=
  match ty with GPR_RD | GPR_RJ | GPR_RK => true | _ => false end.

Definition is_fpr (ty : GM_OPERAND_TYPE) : bool :=
  match ty with
  | FPR_FA | FPR_FD | FPR_FJ | FPR_FK | FPR_VA | FPR_VD | FPR_VJ | FPR_VK
  | FPR_XA | FPR_XD | FPR_XJ | FPR_XK => true
  | _ => false
  end.

(** ** The body of a constructor *)

(** A parameter of a constructor: [IR2_OPND] or [int]. *)
Inductive arg : Type := AOpnd (o : IR2_OPND) | AImm (v : Z).

(** One operand: [convertToConstructor] gives it the type [int] if it is an immediate
    of an instruction that is not a jump. *)
Definition build_opnd (name : string) (ty : GM_OPERAND_TYPE) (a : arg) : option IR2_OPND :=
  match a with
  | AImm v =>
      lsassert is_imm ty && negb (isJmpInst name) ;;
      let v := if bool_decide (ty = IMM_SI14) then v >> 2 else v in
      Some (create_immh_opnd v)
  | AOpnd o => lsassert negb (is_imm ty && negb (isJmpInst name)) ;; Some o
  end.

(** The immediate a check sees: [imm_si14] was shifted before. *)
Definition arg_imm (ty : GM_OPERAND_TYPE) (a : arg) : Z :=
  match a with
  | AImm v => if bool_decide (ty = IMM_SI14) then v >> 2 else v
  | AOpnd o => 0
  end.

Definition generatingCheck (name : string) (ty : GM_OPERAND_TYPE) (a : arg) (o : IR2_OPND) : bool :=
  if is_imm ty && negb (isImmLoad name) then
    match si_len ty, sa_len ty with
    | Some len, _ => arg_imm ty a =? sextract64 (arg_imm ty a) 0 len
    | None, Some len => (arg_imm ty a >> len) =? 0
    | None, None => true
    end
  else if is_gpr ty then ir2_opnd_is_ireg o
  else if is_fpr ty then ir2_opnd_is_freg o
  else true.

Fixpoint build_opnds (name : string) (tys : list GM_OPERAND_TYPE) (args : list arg) :
    option (list IR2_OPND) :=
  match tys, args with
  | [], [] => Some []
  | ty :: tys, a :: args =>
      o ← build_opnd name ty a;
      lsassert generatingCheck name ty a o ;;
      os ← build_opnds name tys args;
      Some (o :: os)
  | _, _ => None
  end.

(** The register number of the parameter called rd, rj or rk. *)
Fixpoint reg_param (ty : GM_OPERAND_TYPE) (tys : list GM_OPERAND_TYPE) (os : list IR2_OPND) : Z :=
  match tys, os with
  | t :: tys, o :: os =>
      if bool_decide (t = ty) then ir2_opnd_base_reg_num o else reg_param ty tys os
  | _, _ => 0
  end.

Definition checkOpndConstraints (name : string) (tys : list GM_OPERAND_TYPE) (args : list arg)
    (os : list IR2_OPND) : bool :=
  if isBstrInst name then
    match args with
    | [_; _; AImm msb; AImm lsb] => lsb <=? msb
    | _ => false
    end
  else if isCsrInst name then
    negb (reg_param GPR_RJ tys os =? 0) && negb (reg_param GPR_RJ tys os =? 1)
  else if isAmInst name then
    (reg_param GPR_RD tys os =? 0) ||
    (negb (reg_param GPR_RD tys os =? reg_param GPR_RJ tys os) &&
     negb (reg_param GPR_RD tys os =? reg_param GPR_RK tys os))
  else true.

(** The operands of [generate_<name>(args)]; without operands the constructor stores
    one NONE operand, and the pseudo instructions "label" and "x86_inst" take one
    unchecked operand. *)
Definition constructor_opnds (r : template) (args : list arg) : option (list IR2_OPND) :=
  if mem_name (t_name r) ["label"; "x86_inst"] then
    match args with [AOpnd o] => Some [o] | _ => None end
  else
  match opnd_types r with
  | [] => match args with [] => Some [ir2_opnd_new_none] | _ => None end
  | tys =>
      os ← build_opnds (t_name r) tys args;
      lsassert checkOpndConstraints (t_name r) tys args os ;;
      Some os
  end.

Definition zero_ir2_opnd : IR2_OPND := mkOpnd2 IR2_OPND_GPR 0.

Definition row_of (name : string) : option template :=
  lisa_format_table (lisa name).

Section append.
(** [blank]: contents of fresh memory; [moved]: whether the next reallocation moves
    the array; [option_softfpu]: the command line option. *)
Context (blank : IR2_INST) (moved : bool) (option_softfpu : bool).

Definition generate_simple (name : string) (args : list arg) (t : TRANSLATION_DATA) :
    option (nat * TRANSLATION_DATA) :=
  r ← row_of name;
  os ← constructor_opnds r args;
  generate blank moved t (lisa name) os.

Definition la_simple (name : string) (args : list arg) (t : TRANSLATION_DATA) :
    option (option nat * TRANSLATION_DATA) :=
  if isTopInst name && option_softfpu then Some (None, t) else
  '(p, t) ← generate_simple name args t;
  t ← ir2_append t p;
  Some (Some p, t).

(** [generate_<name>]: [movgr2fcsr] clears bit 6 of its source first when the FPU is
    emulated and the destination is fcsr0. *)
Definition la_generate (name : string) (args : list arg) (t : TRANSLATION_DATA) :
    option (nat * TRANSLATION_DATA) :=
  match isMowgr2fcsr name && option_softfpu, args with
  | true, [AOpnd fcsrl; AOpnd rj] =>
      t ← (if _reg_num fcsrl =? 0
           then snd <$> la_simple "bstrins.w" [AOpnd rj; AOpnd zero_ir2_opnd; AImm 6; AImm 6] t
           else Some t);
      generate_simple name args t
  | _, _ => generate_simple name args t
  end.

(** [la_<name>]; the result is NULL for the top-of-stack instructions when the FPU
    is emulated. *)
Definition la (name : string) (args : list arg) (t : TRANSLATION_DATA) :
    option (option nat * TRANSLATION_DATA) :=
  if isTopInst name && option_softfpu then Some (None, t) else
  '(p, t) ← la_generate name args t;
  t ← ir2_append t p;
  Some (Some p, t).

(** *** Pseudo instructions *)

Definition la_mov64 (dest src : IR2_OPND) (t : TRANSLATION_DATA) :=
  if ir2_opnd_cmp dest src then Some (None, t)
  else la "or" [AOpnd dest; AOpnd src; AOpnd zero_ir2_opnd] t.
Definition la_mov32_sx (dest src : IR2_OPND) := la "slli.w" [AOpnd dest; AOpnd src; AImm 0].
Definition la_mov32_zx (dest src : IR2_OPND) :=
  la "bstrpick.d" [AOpnd dest; AOpnd src; AImm 31; AImm 0].

Context (CODEIS64 : bool).

Definition la_add (op0 op1 op2 : IR2_OPND) :=
  la (if CODEIS64 then "add.d" else "add.w") [AOpnd op0; AOpnd op1; AOpnd op2].
Definition la_sub (op0 op1 op2 : IR2_OPND) :=
  la (if CODEIS64 then "sub.d" else "sub.w") [AOpnd op0; AOpnd op1; AOpnd op2].
Definition la_addi_addrx (op0 op1 : IR2_OPND) (imm : Z) :=
  la (if CODEIS64 then "addi.d" else "addi.w") [AOpnd op0; AOpnd op1; AImm imm].
Definition la_load_addrx (op0 op1 : IR2_OPND) (imm : Z) :=
  la (if CODEIS64 then "ld.d" else "ld.wu") [AOpnd op0; AOpnd op1; AImm imm].
Definition la_store_addrx (op0 op1 : IR2_OPND) (imm : Z) :=
  la (if CODEIS64 then "st.d" else "st.w") [AOpnd op0; AOpnd op1; AImm imm].
Definition la_nop := la "andi" [AOpnd zero_ir2_opnd; AOpnd zero_ir2_opnd; AImm 0].

(** [la_append_ir2_jmp_far] (ir2/ir2.c) with CONFIG_LATX_LARGE_CC; [tmp] is the
    temporary [ra_alloc_itemp] returns. *)
Definition la_append_ir2_jmp_far (tmp : IR2_OPND) (jmp_offset : Z) (t : TRANSLATION_DATA) :
    option TRANSLATION_DATA :=
  let insn_offset := jmp_offset >> 2 in
  if jmp_offset =? u64 (sextract64 jmp_offset 0 28) then
    ir2_opnd_addr ← ir2_opnd_build IR2_OPND_IMM (s32 insn_offset);
    '(_, t) ← la "b" [AOpnd ir2_opnd_addr] t;
    '(_, t) ← la_nop t;
    Some t
  else
    let lower := s16 insn_offset in
    let upper := s32 ((insn_offset - lower) >> 16) in
    '(_, t) ← la "pcaddu18i" [AOpnd tmp; AImm upper] t;
    '(_, t) ← la "jirl" [AOpnd zero_ir2_opnd; AOpnd tmp; AImm lower] t;
    Some t.
End append.

(** ** What a constructor encodes *)

(** The immediates whose range a constructor asserts: signed ones and shift amounts,
    unless the instruction loads an immediate (lu12i.w, lu32i.d, lu52i.d). *)
Definition imm_checked (name : string) (ty : GM_OPERAND_TYPE) (v : Z) : Prop :=
  isImmLoad name = false →
  (∀ len, si_len ty = Some len → in_s len v) ∧ (∀ len, sa_len ty = Some len → in_u len v).

(** A value in a field of [w] bits: cut to [w] bits, and so the value itself if it is in
    the unsigned range, and its sign extension the value if it is in the signed range. *)
Definition field_holds (w v field : Z) : Prop :=
  field = v mod 2 ^ w ∧ (in_u w v → field = v) ∧ (in_s w v → swrap w field = v).

(** The field of an accepted argument.  An argument the constructor does not check may be
    out of range; its high bits are lost. *)
Definition arg_encoded (name : string) (ty : GM_OPERAND_TYPE) (a : arg) (field : Z) : Prop :=
  let w := width (place_of ty) in
  match a with
  | AOpnd o => field_holds w (_val o) field
  | AImm v =>
      let v := if bool_decide (ty = IMM_SI14) then v / 4 else v in
      field_holds w v field ∧ imm_checked name ty v
  end.

Lemma si_imm ty len : si_len ty = Some len → is_imm ty = true ∧ 0 < len <= 20.
Proof. destruct ty; intros [= <-]; (split; [reflexivity|lia]). Qed.

Lemma swrap_of_mod n x : 0 < n → swrap n (x mod 2 ^ n) = swrap n x.
Proof.
  intros H. unfold swrap. f_equal. by rewrite Zplus_mod_idemp_l.
Qed.

Lemma u32_mod_le w x : 0 <= w <= 32 → u32 x mod 2 ^ w = x mod 2 ^ w.
Proof.
  intros H. unfold u32, uwrap. apply Z.mod_mod_divide.
  exists (2 ^ (32 - w)). rewrite <- Z.pow_add_r by lia. f_equal. lia.
Qed.

Lemma field_of w v : 0 < w → field_holds w v (v mod 2 ^ w).
Proof.
  intros W. split; [done|]. split; [by apply Z.mod_small|]. intros H. by rewrite swrap_of_mod, swrap_id.
Qed.

Lemma width_pos f : place_ok f = true → 0 < width f.
Proof.
  intros (R0 & R1 & _)%place_ok_spec. unfold width. destruct (has_1 f) eqn:E.
  - destruct (R1 eq_refl) as [R _]. unfold range_ok, range_len in *. bool_to_prop. lia.
  - unfold range_ok, range_len in *. bool_to_prop. lia.
Qed.

Lemma checked_imm name ty v o :
  is_imm ty = true → generatingCheck name ty (AImm v) o = true → imm_checked name ty (arg_imm ty (AImm v)).
Proof.
  unfold generatingCheck, imm_checked. generalize (arg_imm ty (AImm v)). clear v. intros v -> C L. rewrite L in C. simpl in C. split; intros len E.
  - rewrite E in C. destruct (si_imm _ _ E) as [_ B]. apply Z.eqb_eq in C. unfold sextract64 in C.
    rewrite Z.shiftr_0_r in C. rewrite C. apply swrap_range. lia.
  - rewrite E in C. destruct (si_len ty) eqn:S; [by destruct ty|]. apply Z.eqb_eq in C.
    assert (0 <= len) by (destruct ty; try done; injection E as <-; done). rewrite Z.shiftr_div_pow2 in C by lia.
    apply Z.div_small_iff in C; [|lia]. unfold in_u. lia.
Qed.

Lemma build_opnd_encoded name ty a o :
  type_ok ty = true → build_opnd name ty a = Some o → generatingCheck name ty a o = true →
  arg_encoded name ty a (_val o mod 2 ^ width (place_of ty)).
Proof.
  intros T B C. apply andb_true_iff in T as [_ T]. pose proof (width_pos _ T). apply place_ok_spec in T as (_ & _ & W).
  destruct a as [o'|v]; simpl in *.
  { destruct (negb _); [|done]. injection B as ->. by apply field_of. }
  destruct (is_imm ty) eqn:I; simpl in *; [|done]. pose proof (checked_imm _ _ _ _ I C) as K.
  destruct (negb (isJmpInst name)); [|done]. injection B as <-. simpl in *.
  set (v' := if bool_decide (ty = IMM_SI14) then v >> 2 else v) in *.
  replace (if bool_decide (ty = IMM_SI14) then v / 4 else v) with v'
    by (unfold v'; case_bool_decide; [by rewrite Z.shiftr_div_pow2 by lia|done]).
  rewrite u32_mod_le by lia. split; [by apply field_of|done].
Qed.

Lemma build_opnds_encoded name tys args os :
  forallb type_ok tys = true → build_opnds name tys args = Some os →
  length os = length tys ∧
  Forall3 (arg_encoded name) tys args
    (zip_with (λ f o, _val o mod 2 ^ width f) (map place_of tys) os).
Proof.
  revert args os. induction tys as [|ty tys IH]; intros [|a args] os T B; simpl in *; try done.
  - injection B as <-. split; [done|constructor].
  - apply andb_true_iff in T as [T1 T2].
    destruct (build_opnd name ty a) as [o|] eqn:E; [|done]. simpl in B.
    destruct (generatingCheck name ty a o) eqn:C; [|done].
    destruct (build_opnds name tys args) as [os'|] eqn:E'; [|done]. injection B as <-.
    destruct (IH _ _ T2 E') as [L F]. simpl. split; [by rewrite L|].
    constructor; [by apply build_opnd_encoded|done].
Qed.

Lemma real_names :
  forallb (λ r, negb (real_row r && mem_name (t_name r) ["label"; "x86_inst"]))
    lisa_templates = true.
Proof. vm_compute. reflexivity. Qed.

Lemma real_name r :
  r ∈ lisa_templates → real_row r = true → mem_name (t_name r) ["label"; "x86_inst"] = false.
Proof.
  intros I R. pose proof (forallb_elem _ _ _ real_names I) as N. cbv beta in N.
  by rewrite R, andb_true_l, negb_true_iff in N.
Qed.

(** C16 A generated constructor and the assembler agree.  When [generate_<name>]
    accepts its arguments and stores the operands it builds (none of which belongs to
    a pseudo instruction), the assembler returns a word that decodes to the
    instruction, and each field holds its argument (si14 immediates divided by 4): an
    argument in the range of its field comes back exactly, as a number or as the sign
    extension of the field.  Signed immediates and shift amounts are in range because the
    constructor asserts it, except for lu12i.w, lu32i.d and lu52i.d.  Registers and the
    other immediates are not checked: one out of range is accepted and its high bits are
    lost. *)
Theorem constructor_encodes name r args os i :
  row_of name = Some r → real_row r = true → constructor_opnds r args = Some os →
  forallb opnd_ok os = true → _opcode i = lisa name → take (length os) (_opnd i) = os →
  ∃ w fields, ir2_assemble i = Some w ∧ decode w = Some (lisa name, fields) ∧
    Forall3 (arg_encoded (t_name r)) (opnd_types r) args fields.
Proof.
  intros F R B O E T. unfold row_of in F. rewrite <- E in *.
  destruct (real_opcode _ _ F R) as [P N].
  destruct (ir2_assemble_real i r N P F R) as [Ok A].
  destruct (row_facts r Ok) as (_ & _ & TO & _).
  assert (G : (length (opnd_types r) <= length os)%nat ∧
    Forall3 (arg_encoded (t_name r)) (opnd_types r) args
      (zip_with (λ f o, _val o mod 2 ^ width f) (places r) os)).
  { unfold constructor_opnds in B. unfold places.
    pose proof F as [_ I%list_elem_of_lookup_2]%aget_Some. rewrite (real_name r I R) in B. clear I.
    destruct (opnd_types r) as [|ty tys] eqn:Ty.
    - destruct args; [|done]. injection B as <-. simpl. split; [lia|constructor].
    - destruct (build_opnds (t_name r) (ty :: tys) args) as [os'|] eqn:Eb; [|done].
      simpl in B. destruct (checkOpndConstraints _ _ _ _); [|done]. injection B as <-.
      destruct (build_opnds_encoded _ _ _ _ TO Eb) as [L H]. split; [lia|exact H]. }
  destruct G as [L G]. assert (Lo : (length os <= length (_opnd i))%nat)
    by (rewrite <- T at 1; rewrite length_take; lia).
  assert (Tk : take (length (opnd_types r)) (_opnd i) = take (length (opnd_types r)) os)
    by (rewrite <- T, take_take; f_equal; lia).
  assert (W : ∃ w, ir2_assemble i = Some w).
  { rewrite A, (proj2 (Nat.leb_le _ _)), Tk by lia. simpl.
    replace (forallb opnd_ok (take _ os)) with true; [eauto|]. symmetry.
    rewrite <- (take_drop (length (opnd_types r)) os) in O. rewrite forallb_app in O.
    by apply andb_true_iff in O as [O _]. }
  destruct W as [w W]. exists w, (encoded_opnds i). destruct (assemble_decodes i w N W) as [_ D].
  split_and!; [done|done|]. unfold encoded_opnds. rewrite F.
  replace (zip_with _ (places r) (_opnd i)) with
    (zip_with (λ f o, _val o mod 2 ^ width f) (places r) os); [done|].
  assert (LP : length (places r) = length (opnd_types r)) by apply length_map.
  apply list_eq. intros k. rewrite !lookup_zip_with.
  destruct (places r !! k) as [f|] eqn:Ek; [|done]. apply lookup_lt_Some in Ek. simpl.
  f_equal. rewrite <- (lookup_take_lt os (length (opnd_types r))), <- Tk by lia.
  by rewrite lookup_take_lt by lia.
Qed.

(** ld.w $t0, $s0, -4 *)
Lemma constructor_encodes_witness :
  ∃ w fields,
    ir2_assemble (mkIR2 (lisa "ld.w") 0 0 0 3
      [mkOpnd2 IR2_OPND_GPR 12; mkOpnd2 IR2_OPND_GPR 23; create_immh_opnd (-4);
       ir2_opnd_new_none]) = Some w ∧
    decode w = Some (lisa "ld.w", fields) ∧
    Forall3 (arg_encoded "ld.w") [GPR_RD; GPR_RJ; IMM_SI12]
      [AOpnd (mkOpnd2 IR2_OPND_GPR 12); AOpnd (mkOpnd2 IR2_OPND_GPR 23); AImm (-4)] fields.
Proof.
  apply (constructor_encodes "ld.w" (row "ld.w" 0x28800000 [GPR_RD; GPR_RJ; IMM_SI12])
    [AOpnd (mkOpnd2 IR2_OPND_GPR 12); AOpnd (mkOpnd2 IR2_OPND_GPR 23); AImm (-4)]
    [mkOpnd2 IR2_OPND_GPR 12; mkOpnd2 IR2_OPND_GPR 23; create_immh_opnd (-4)]);
    vm_compute; reflexivity.
Defined.

(** ** The constructors append to the IR2 list *)

Section append_ok.
Context (blank : IR2_INST) (moved option_softfpu : bool).

(** Room for [n] more instructions. *)
Definition room (s : spec) (n : Z) : Prop :=
  Z.of_nat (length (s_code s)) + n <= 2 ^ 15 ∧ (moved = true → s_list s ≠ []).

(** The list with one more instruction at its end. *)
Definition snoc (s : spec) (opcode : Z) (os : list IR2_OPND) : spec :=
  mkSpec (s_code s ++ [(opcode, os)]) (s_list s ++ [length (s_code s)]).

Lemma generate_slot t opcode os p t' :
  generate blank moved t opcode os = Some (p, t') → p = ir2_inst_num_current t.
Proof using Type.
  unfold generate, ir2_allocate. intros H.
  repeat (case_if; try done); simpl in H;
    repeat match type of H with
    | context [upd ?a ?b ?c] => destruct (upd a b c); simpl in H; [|done]
    end; by injection H as <- _.
Qed.

Lemma member_bound t s p : abstracts t s → p ∈ s_list s → (p < length (s_code s))%nat.
Proof using Type.
  intros A Hp. rewrite (abstracts_length _ _ A). destruct A as [(_ & _ & B & _) _]. by apply B.
Qed.

(** A constructor without special cases. *)
Lemma la_ok name r args os t s :
  abstracts t s → room s 1 → isTopInst name = false → isMowgr2fcsr name = false →
  row_of name = Some r → constructor_opnds r args = Some os → (length os <= 4)%nat →
  ∃ t', la blank moved option_softfpu name args t = Some (Some (length (s_code s)), t') ∧
    abstracts t' (snoc s (lisa name) os).
Proof using Type.
  intros A [R1 R2] T M F C L. unfold la, la_generate. rewrite T, M. simpl.
  unfold generate_simple. rewrite F. simpl. rewrite C. simpl.
  assert (SO : s16 (lisa name) = lisa name).
  { apply s16_id. unfold row_of, lisa_format_table in F. apply aget_bound in F.
    assert (E : length lisa_templates = 2628%nat) by (vm_compute; reflexivity).
    rewrite E in F. unfold LISA_INVALID in F. lia. }
  destruct (step_refines blank t s (Generate moved (lisa name) os)
    (mkSpec (s_code s ++ [(lisa name, os)]) (s_list s)) A) as (t1 & E1 & A1).
  { simpl. rewrite SO, (proj2 (Z.ltb_lt _ _)), (proj2 (Nat.leb_le _ _)) by lia. simpl.
    destruct moved; [|done]. destruct (s_list s); [by specialize (R2 eq_refl)|done]. }
  simpl in E1. destruct (generate blank moved t (lisa name) os) as [[p t']|] eqn:G; [|done].
  simpl in E1. injection E1 as ->. rewrite (generate_slot _ _ _ _ _ G). simpl.
  rewrite <- (abstracts_length _ _ A).
  destruct (step_refines blank t1 _ (Append (length (s_code s))) (snoc s (lisa name) os) A1)
    as (t2 & E2 & A2).
  { simpl. unfold spare. simpl. rewrite length_app, (proj2 (Nat.ltb_lt _ _)) by (simpl; lia).
    destruct (in_list _ _) eqn:I; [|done]. apply in_list_spec in I.
    apply (member_bound _ _ _ A) in I. lia. }
  simpl in E2. rewrite E2. simpl. eauto.
Qed.
End append_ok.

(** ** Far jumps *)

(** Displacement of the two-instruction jump from its first instruction: B, or
    PCADDU18I followed by a JIRL through the same register. *)
Definition jump_disp (code : list (Z * list IR2_OPND)) : option Z :=
  match code with
  | [(op0, [o]); _] => if op0 =? LISA_B then Some (4 * swrap 26 (_val o)) else None
  | [(op0, [rd; si20]); (op1, [_; rj; offs])] =>
      if (op0 =? LISA_PCADDU18I) && (op1 =? LISA_JIRL) && ir2_opnd_cmp rd rj
      then Some (swrap 20 (_val si20) * 2 ^ 18 + 4 * swrap 16 (_val offs))
      else None
  | _ => None
  end.

Lemma swrap_add_mul n x k : 0 < n → swrap n (x + k * 2 ^ n) = swrap n x.
Proof.
  intros H. unfold swrap. f_equal.
  replace (x + k * 2 ^ n + 2 ^ (n - 1)) with (x + 2 ^ (n - 1) + k * 2 ^ n) by lia.
  apply Z_mod_plus_full.
Qed.

(** A narrower sign extension of a wider conversion. *)
Lemma swrap_u32 n x : 0 < n <= 32 → swrap n (u32 x) = swrap n x.
Proof.
  intros H. rewrite <- (swrap_of_mod n (u32 x)), u32_mod_le, swrap_of_mod by lia. done.
Qed.

Lemma swrap_s32 n x : 0 < n <= 32 → swrap n (s32 x) = swrap n x.
Proof.
  intros H. rewrite <- (swrap_of_mod n (s32 x)) by lia. unfold s32.
  rewrite swrap_mod_le by lia. apply swrap_of_mod. lia.
Qed.

(** The unsigned offset as the signed displacement it stands for. *)
Lemma s64_split off : in_u 64 off → ∃ k, off = s64 off + k * 2 ^ 64.
Proof.
  intros H. unfold s64, swrap. exists ((off + 2 ^ 63) / 2 ^ 64).
  rewrite Z.mod_eq by lia. change (64 - 1) with 63. lia.
Qed.

Section jmp_far.
Context (off d : Z) (Hoff : in_u 64 off) (Hd : d = s64 off) (H4 : off mod 4 = 0).

Lemma jmp_quarter : ∃ q k, d = 4 * q ∧ off >> 2 = q + k * 2 ^ 62.
Proof using All.
  destruct (s64_split off Hoff) as [k Hk]. rewrite <- Hd in Hk.
  assert (D : d mod 4 = 0).
  { rewrite Hk in H4. replace (d + k * 2 ^ 64) with (d + (k * 2 ^ 62) * 4) in H4 by lia.
    by rewrite Z_mod_plus_full in H4. }
  exists (d / 4), k. split; [by apply Z_div_exact_full_2 in D; lia|].
  rewrite Z.shiftr_div_pow2 by lia. rewrite Hk.
  replace (d + k * 2 ^ 64) with (d + k * 2 ^ 62 * 2 ^ 2) by lia.
  by rewrite Z_div_plus_full by lia.
Qed.

Lemma jmp_near : (off =? u64 (sextract64 off 0 28)) = true → 4 * swrap 26 (off >> 2) = d.
Proof using All.
  intros E%Z.eqb_eq. destruct jmp_quarter as (q & k & -> & ->).
  replace (q + k * 2 ^ 62) with (q + k * 2 ^ 36 * 2 ^ 26) by lia.
  rewrite swrap_add_mul by lia. f_equal. apply swrap_id; [lia|].
  unfold sextract64 in E. rewrite Z.shiftr_0_r in E.
  pose proof (swrap_range 28 off ltac:(lia)) as B. unfold in_s in *.
  assert (S : s64 off = swrap 28 off).
  { rewrite E at 1. unfold s64, u64, uwrap. rewrite swrap_of_mod by lia.
    apply swrap_id; [lia|]. unfold in_s in *. simpl in *. lia. }
  rewrite S in Hd. simpl in *. lia.
Qed.

Lemma jmp_split :
  - 2 ^ 37 <= d + 2 ^ 17 < 2 ^ 37 →
  let lower := s16 (off >> 2) in
  let upper := s32 (((off >> 2) - lower) >> 16) in
  in_s 20 upper ∧ upper * 2 ^ 18 + 4 * lower = d.
Proof using All.
  intros B. destruct jmp_quarter as (q & k & Eq & ->). cbv zeta.
  replace (s16 (q + k * 2 ^ 62)) with (s16 q)
    by (unfold s16; replace (q + k * 2 ^ 62) with (q + k * 2 ^ 46 * 2 ^ 16) by lia;
        by rewrite swrap_add_mul by lia).
  set (lower := s16 q). pose proof (swrap_range 16 q ltac:(lia)) as BL.
  fold s16 in BL. fold lower in BL. unfold in_s in BL. simpl in BL.
  assert (Ex : ∃ u, q - lower = u * 2 ^ 16).
  { exists ((q + 2 ^ 15) / 2 ^ 16). unfold lower, s16, swrap. change (16 - 1) with 15.
    rewrite Z.mod_eq by lia. lia. }
  destruct Ex as [u Hu]. rewrite Z.shiftr_div_pow2 by lia.
  replace (q + k * 2 ^ 62 - lower) with ((u + k * 2 ^ 46) * 2 ^ 16) by lia.
  rewrite Z.div_mul by lia. unfold s32.
  replace (u + k * 2 ^ 46) with (u + k * 2 ^ 14 * 2 ^ 32) by lia.
  rewrite swrap_add_mul by lia.
  assert (- 2 ^ 19 <= u < 2 ^ 19) by lia.
  rewrite swrap_id by (unfold in_s; simpl; lia). unfold in_s. simpl in *. lia.
Qed.
End jmp_far.

Lemma room_snoc moved s n opcode os :
  room moved s (1 + n) → room moved (snoc s opcode os) n.
Proof.
  intros [R1 R2]. split; simpl; [rewrite length_app; simpl; lia|].
  intros _ E. by destruct (s_list s).
Qed.

Lemma room_le moved s n m : m <= n → room moved s n → room moved s m.
Proof. intros L [R1 R2]. split; [lia|done]. Qed.

Lemma opnd_cmp_refl o : ir2_opnd_cmp o o = true.
Proof. unfold ir2_opnd_cmp, type_eqb. by rewrite bool_decide_true, Z.eqb_refl. Qed.

Lemma pcaddu18i_opnds tmp upper :
  _type tmp = IR2_OPND_GPR → in_s 20 upper →
  constructor_opnds (row "pcaddu18i" 0x1e000000 [GPR_RD; IMM_SI20]) [AOpnd tmp; AImm upper] =
  Some [tmp; create_immh_opnd upper].
Proof.
  intros T U. unfold constructor_opnds. simpl. unfold generatingCheck, ir2_opnd_is_ireg. simpl.
  rewrite T. simpl. unfold sextract64. by rewrite Z.shiftr_0_r, swrap_id, Z.eqb_refl by (done || lia).
Qed.

Lemma jirl_opnds tmp lower :
  _type tmp = IR2_OPND_GPR →
  constructor_opnds (row "jirl" 0x4c000000 [GPR_RD; GPR_RJ; IMM_OFFS])
    [AOpnd zero_ir2_opnd; AOpnd tmp; AImm lower] =
  Some [zero_ir2_opnd; tmp; create_immh_opnd lower].
Proof.
  intros T. unfold constructor_opnds. simpl. unfold generatingCheck, ir2_opnd_is_ireg. simpl.
  by rewrite T.
Qed.

(** C19 Far jumps reach their target: for every offset that is a multiple of 4 and
    within 128 GiB, [la_append_ir2_jmp_far] passes the checks of the constructors and
    appends exactly two instructions, B and a NOP or PCADDU18I and JIRL, that
    together jump by the offset, although the code shifts the unsigned offset
    logically and truncates the upper part to 32 bits. *)
Theorem jmp_far_target blank moved softfpu tmp off t s :
  abstracts t s → room moved s 2 → _type tmp = IR2_OPND_GPR → in_u 64 off → off mod 4 = 0 →
  - 2 ^ 37 <= s64 off + 2 ^ 17 < 2 ^ 37 →
  ∃ t' i0 i1,
    la_append_ir2_jmp_far blank moved softfpu tmp off t = Some t' ∧
    abstracts t' (snoc (snoc s (fst i0) (snd i0)) (fst i1) (snd i1)) ∧
    jump_disp [i0; i1] = Some (s64 off).
Proof.
  intros A R Tmp U M4 B. unfold la_append_ir2_jmp_far.
  pose proof (room_le moved s 2 1 ltac:(lia) R) as R1.
  destruct (off =? u64 (sextract64 off 0 28)) eqn:E.
  - simpl. set (o := mkOpnd2 IR2_OPND_IMM (u32 (s32 (off >> 2)))).
    destruct (la_ok blank moved softfpu "b" (row "b" 0x50000000 [IMM_OFFLL]) [AOpnd o] [o] t s)
      as (t1 & -> & A1); [done|done|reflexivity|reflexivity|vm_compute; reflexivity
        |reflexivity|simpl; lia|]. simpl. unfold la_nop.
    destruct (la_ok blank moved softfpu "andi" (row "andi" 0x03400000 [GPR_RD; GPR_RJ; IMM_UI12])
      [AOpnd zero_ir2_opnd; AOpnd zero_ir2_opnd; AImm 0]
      [zero_ir2_opnd; zero_ir2_opnd; create_immh_opnd 0] t1 _ A1)
      as (t2 & -> & A2); [by apply room_snoc|reflexivity|reflexivity|vm_compute; reflexivity
        |reflexivity|simpl; lia|]. simpl.
    exists t2, (lisa "b", [o]),
      (lisa "andi", [zero_ir2_opnd; zero_ir2_opnd; create_immh_opnd 0]).
    split_and!; [done|exact A2|]. unfold jump_disp.
    replace (lisa "b" =? LISA_B) with true by (vm_compute; reflexivity). simpl. f_equal.
    rewrite swrap_u32, swrap_s32 by lia. by apply jmp_near.
  - destruct (jmp_split off (s64 off) U eq_refl M4 B) as [Up Sum]. cbv zeta in Sum, Up.
    set (lower := s16 (off >> 2)) in *. set (upper := s32 (((off >> 2) - lower) >> 16)) in *.
    destruct (la_ok blank moved softfpu "pcaddu18i" (row "pcaddu18i" 0x1e000000 [GPR_RD; IMM_SI20])
      [AOpnd tmp; AImm upper] [tmp; create_immh_opnd upper] t s)
      as (t1 & -> & A1); [done|done|reflexivity|reflexivity|vm_compute; reflexivity
        |by apply pcaddu18i_opnds|simpl; lia|]. simpl.
    destruct (la_ok blank moved softfpu "jirl" (row "jirl" 0x4c000000 [GPR_RD; GPR_RJ; IMM_OFFS])
      [AOpnd zero_ir2_opnd; AOpnd tmp; AImm lower] [zero_ir2_opnd; tmp; create_immh_opnd lower]
      t1 _ A1)
      as (t2 & -> & A2); [by apply room_snoc|reflexivity|reflexivity|vm_compute; reflexivity
        |by apply jirl_opnds|simpl; lia|]. simpl.
    exists t2, (lisa "pcaddu18i", [tmp; create_immh_opnd upper]),
      (lisa "jirl", [zero_ir2_opnd; tmp; create_immh_opnd lower]).
    split_and!; [done|exact A2|]. unfold jump_disp.
    replace (lisa "pcaddu18i" =? LISA_PCADDU18I) with true by (vm_compute; reflexivity).
    replace (lisa "jirl" =? LISA_JIRL) with true by (vm_compute; reflexivity).
    rewrite opnd_cmp_refl. simpl. f_equal. rewrite !swrap_u32 by lia.
    rewrite (swrap_id 20 upper) by (done || lia).
    rewrite (swrap_id 16 lower) by (apply swrap_range || idtac; lia). done.
Qed.

(** A jump back by 1 GiB from an empty list. *)
Lemma jmp_far_target_witness :
  ∃ t' i0 i1,
    la_append_ir2_jmp_far (mkIR2 0 0 0 0 0 []) false false (mkOpnd2 IR2_OPND_GPR 12)
      (2 ^ 64 - 2 ^ 30) (empty_td [mkIR2 0 0 0 0 0 []; mkIR2 0 0 0 0 0 []]) = Some t' ∧
    abstracts t' (snoc (snoc (mkSpec [] []) (fst i0) (snd i0)) (fst i1) (snd i1)) ∧
    jump_disp [i0; i1] = Some (- 2 ^ 30).
Proof.
  apply (jmp_far_target (mkIR2 0 0 0 0 0 []) false false (mkOpnd2 IR2_OPND_GPR 12)
    (2 ^ 64 - 2 ^ 30) (empty_td [mkIR2 0 0 0 0 0 []; mkIR2 0 0 0 0 0 []]) (mkSpec [] [])).
  - apply empty_abstracts. simpl. lia.
  - split; [simpl; lia|discriminate].
  - reflexivity.
  - unfold in_u. lia.
  - reflexivity.
  - vm_compute. split; [discriminate|reflexivity].
Defined.
