(* ===== verification/RegMap.v ===== *)
(** * Register mapping (include/reg-map.h, translator/reg-alloc.c)

    Which LoongArch register holds which x86 register, which hold translator state,
    and which are temporaries, for the 64-bit build.  A table indexed by an
    enumeration is a list; an entry the C initialiser leaves out is 0. *)

From stdpp Require Import base numbers list option tactics.
From Stdlib Require Import ZArith Lia Bool.
From S2P Require Import Prelude Ir1 Ir2.
Local Open Scope Z_scope.
Local Open Scope c_scope.

(** ** LoongArch registers *)

Definition la_zero := 0.
Definition la_ra := 1.
Definition la_tp := 2.
Definition la_sp := 3.
Definition la_a0 := 4.
Definition la_a1 := 5.
Definition la_a2 := 6.
Definition la_a3 := 7.
Definition la_a4 := 8.
Definition la_a5 := 9.
Definition la_a6 := 10.
Definition la_a7 := 11.
Definition la_t0 := 12.
Definition la_t1 := 13.
Definition la_t2 := 14.
Definition la_t3 := 15.
Definition la_t4 := 16.
Definition la_t5 := 17.
Definition la_t6 := 18.
Definition la_t7 := 19.
Definition la_t8 := 20.
Definition la_r21 := 21.
Definition la_fp := 22.
Definition la_s0 := 23.
Definition la_s1 := 24.
Definition la_s2 := 25.
Definition la_s3 := 26.
Definition la_s4 := 27.
Definition la_s5 := 28.
Definition la_s6 := 29.
Definition la_s7 := 30.
Definition la_s8 := 31.

Definition S_UD0 := 0.
Definition S_UD1 := 1.
Definition S_UD2 := 2.
Definition S_ENV := 3.
Definition S_EFLAGS := 4.
Definition INVALID_TEMP := -1.
Definition NOT_DEF := -1.

(** ** Maps *)

(** eax, ecx, edx, ebx, esp, ebp, esi, edi, r8 to r15, riz *)
Definition reg_gpr_map : list Z :=
  [la_s0; la_s1; la_s2; la_s3; la_s4; la_s5; la_s6; la_s7;
   la_a2; la_a3; la_a4; la_a5; la_t5; la_t6; la_t7; la_t8; la_zero].

Definition reg_fpr_map : list Z := [0; 1; 2; 3; 4; 5; 6; 7].
Definition reg_mmx_map : list Z := reg_fpr_map.

Definition reg_xmm_map : list Z :=
  [16; 17; 18; 19; 20; 21; 22; 23; 24; 25; 26; 27; 28; 29; 30; 31].

(** The 64-bit build has no entry for S_UD2. *)
Definition reg_statics_map : list Z := [la_fp; la_r21; 0; la_s8; la_a6].

Definition reg_trace_map : list Z := [NOT_DEF].

Definition reg_itemp_map : list Z := [la_t0; la_t1; la_t2; la_t3; la_t4; la_ra; la_a7].

Definition reg_itemp_reverse_map : list Z :=
  [-1; 5; -1; -1; -1; -1; -1; -1; -1; -1; -1; 6; 0; 1; 2; 3;
   4; -1; -1; -1; -1; -1; -1; -1; -1; -1; -1; -1; -1; -1; -1; -1].

Definition reg_ftemp_map : list Z := [8; 9; 10; 11; 12; 13; 14; 15].

Definition reg_ftemp_reverse_map : list Z :=
  [-1; -1; -1; -1; -1; -1; -1; -1; 0; 1; 2; 3; 4; 5; 6; 7;
   -1; -1; -1; -1; -1; -1; -1; -1; -1; -1; -1; -1; -1; -1; -1; -1].

Definition reg_scr_map : list Z := [0; 1; 2; 3].

(** [RA_ALLOC_FUNC] *)
Definition ra_alloc_func (reg_map : list Z) (type : IR2_OPND_TYPE) (index : Z) : option IR2_OPND :=
  lsassert (0 <=? index) && (index <? Z.of_nat (length reg_map)) ;;
  r ← aget reg_map index;
  Some (mkOpnd2 type (u32 r)).

Definition ra_alloc_gpr := ra_alloc_func reg_gpr_map IR2_OPND_GPR.
Definition ra_alloc_fpr := ra_alloc_func reg_fpr_map IR2_OPND_FPR.
Definition ra_alloc_mmx := ra_alloc_func reg_mmx_map IR2_OPND_FPR.
Definition ra_alloc_xmm := ra_alloc_func reg_xmm_map IR2_OPND_FPR.
Definition ra_alloc_statics := ra_alloc_func reg_statics_map IR2_OPND_GPR.
Definition ra_alloc_trace := ra_alloc_func reg_trace_map IR2_OPND_GPR.
Definition ra_alloc_scr := ra_alloc_func reg_scr_map IR2_OPND_SCR.
Definition ra_alloc_st (st_num : Z) : option IR2_OPND := ra_alloc_fpr st_num.
Definition ra_alloc_mda : IR2_OPND := mkOpnd2 IR2_OPND_GPR la_ra.

(** [la_ir2_opnd_tab]: register [n] is the operand [GPR n]. *)
Definition get_la_ir2_opnd (la_reg_num : Z) : option IR2_OPND :=
  lsassert (0 <=? la_reg_num) && (la_reg_num <? 32) ;;
  Some (mkOpnd2 IR2_OPND_GPR la_reg_num).

(** A negative register number reads outside the reverse map. *)
Definition ir2_opnd_is_itemp (o : IR2_OPND) : option bool :=
  if ir2_opnd_is_ireg o
  then r ← aget reg_itemp_reverse_map (ir2_opnd_base_reg_num o); Some (0 <=? r)
  else Some false.
Definition ir2_opnd_is_ftemp (o : IR2_OPND) : option bool :=
  if ir2_opnd_is_freg o
  then r ← aget reg_ftemp_reverse_map (ir2_opnd_base_reg_num o); Some (0 <=? r)
  else Some false.
