(* ===== verification/ImmCache.v ===== *)
(** * The cache of address registers (optimization/imm-cache.c)

    Up to four temporaries keep addresses [base + index * scale + offset] across x86
    instructions, so that an access near a cached address needs no address
    computation, only a displacement of 12 bits.  The state is the C struct together
    with the file's globals; the statistics and the logging are left out.  [qsort] is
    the C library's: it is a parameter, since the order it gives equal elements is
    unspecified. *)

From stdpp Require Import base numbers list option tactics.
From Stdlib Require Import ZArith Lia Bool.
From S2P Require Import Prelude Ir1Enum Ir1 Ir2 RegMap.
Local Open Scope Z_scope.
Local Open Scope c_scope.

Definition CACHE_DEFAULT_CAPACITY := 4.
Definition CACHE_MAX_CAPACITY := 300.
Definition LONG_LONG_MAX := 2 ^ 63 - 1.
Definition LONG_LONG_MIN := - 2 ^ 63.

(** tr-opnd-process.c *)
Definition si12_overflow (si12 : Z) : bool := negb ((-2048 <=? si12) && (si12 <=? 2047)).

Record IMM_CACHE_BUCKET := mkB {
  b_free : bool;
  use_count : Z;
  lifecycle : Z;
  itemp_num : Z;
  pre_cache : bool;
  b_base : Z;                (** -1: none, -100: rip *)
  b_index : Z;
  b_scale : Z;
  b_ir1_index : Z;           (** [curr_ir1_index] *)
  b_offset : Z;
  avg_offset : Z;
  min_offset : Z;
  max_offset : Z
}.

Record IMM_CACHE := mkC {
  bucket : list IMM_CACHE_BUCKET;
  cache_count : Z;
  free_count : Z;
  curr_imm_index : Z;
  curr_ir1_index : Z;
  curr_ir2_index : Z;
  optimized_ir2 : bool;
  curr_pc : Z;
  itemp_allocated : bool;
  ir1_reg_last_updated_index : list Z;
  itemp_stat : list Z;       (** the global array *)
  stop_opt : bool            (** the static variable of [imm_cache_allocate] *)
}.

(** [IMM_CACHE_RES]; [diff] and [r_offset] are unset ([None]) on some paths. *)
Record IMM_CACHE_RES := mkR {
  diff : option Z;
  r_offset : option Z;
  r_itemp_num : Z;
  cache_id : Z;
  r_pre_cache : bool;
  cached : bool
}.

Definition set_bucket_list (c : IMM_CACHE) (l : list IMM_CACHE_BUCKET) : IMM_CACHE :=
  mkC l (cache_count c) (free_count c) (curr_imm_index c) (curr_ir1_index c) (curr_ir2_index c)
    (optimized_ir2 c) (curr_pc c) (itemp_allocated c) (ir1_reg_last_updated_index c)
    (itemp_stat c) (stop_opt c).
Definition set_free_count (c : IMM_CACHE) (n : Z) : IMM_CACHE :=
  mkC (bucket c) (cache_count c) n (curr_imm_index c) (curr_ir1_index c) (curr_ir2_index c)
    (optimized_ir2 c) (curr_pc c) (itemp_allocated c) (ir1_reg_last_updated_index c)
    (itemp_stat c) (stop_opt c).
Definition set_imm_index (c : IMM_CACHE) (n : Z) (opted : bool) : IMM_CACHE :=
  mkC (bucket c) (cache_count c) (free_count c) n (curr_ir1_index c) (curr_ir2_index c)
    opted (curr_pc c) (itemp_allocated c) (ir1_reg_last_updated_index c)
    (itemp_stat c) (stop_opt c).
Definition set_updated (c : IMM_CACHE) (l : list Z) : IMM_CACHE :=
  mkC (bucket c) (cache_count c) (free_count c) (curr_imm_index c) (curr_ir1_index c)
    (curr_ir2_index c) (optimized_ir2 c) (curr_pc c) (itemp_allocated c) l
    (itemp_stat c) (stop_opt c).
Definition set_stat (c : IMM_CACHE) (l : list Z) : IMM_CACHE :=
  mkC (bucket c) (cache_count c) (free_count c) (curr_imm_index c) (curr_ir1_index c)
    (curr_ir2_index c) (optimized_ir2 c) (curr_pc c) (itemp_allocated c)
    (ir1_reg_last_updated_index c) l (stop_opt c).
Definition set_stop (c : IMM_CACHE) (b : bool) : IMM_CACHE :=
  mkC (bucket c) (cache_count c) (free_count c) (curr_imm_index c) (curr_ir1_index c)
    (curr_ir2_index c) (optimized_ir2 c) (curr_pc c) (itemp_allocated c)
    (ir1_reg_last_updated_index c) (itemp_stat c) b.
(** [imm_cache->curr_ir1_index = i; imm_cache->curr_ir2_index = n] of the translation
    loop (translator/translate.c). *)
Definition set_ir1_index (c : IMM_CACHE) (i n : Z) : IMM_CACHE :=
  mkC (bucket c) (cache_count c) (free_count c) (curr_imm_index c) i n
    (optimized_ir2 c) (curr_pc c) (itemp_allocated c)
    (ir1_reg_last_updated_index c) (itemp_stat c) (stop_opt c).

(** [cache->bucket[i]] *)
Definition bget (c : IMM_CACHE) (i : Z) : option IMM_CACHE_BUCKET := aget (bucket c) i.
Definition bupd (c : IMM_CACHE) (i : Z) (f : IMM_CACHE_BUCKET → IMM_CACHE_BUCKET) :
    option IMM_CACHE :=
  b ← bget c i; l ← aset (bucket c) i (f b); Some (set_bucket_list c l).

(** ** Temporaries of the cache *)

Definition itemp_map : list Z := [3; 4; 5; 6].
Definition itemp_reverse_map : list Z := [-1; -1; -1; 0; 1; 2; 3; -1; -1; -1; -1].

Definition alloc_itemp (c : IMM_CACHE) : option (Z * IMM_CACHE) :=
  let try i (k : option (Z * IMM_CACHE)) :=
    s ← aget (itemp_stat c) i;
    if s =? 0 then k
    else l ← aset (itemp_stat c) i 0; t ← aget itemp_map i; Some (t, set_stat c l) in
  try 3 (try 2 (try 1 (try 0 None))).

Definition free_itemp (c : IMM_CACHE) (itemp_num : Z) : option IMM_CACHE :=
  if itemp_num <? 0 then Some c else
  index ← aget itemp_reverse_map itemp_num;
  lsassert negb (index =? -1) ;;
  l ← aset (itemp_stat c) index 1;
  Some (set_stat c l).

Definition imm_cache_is_imm_itemp (itemp_num : Z) : option bool :=
  r ← aget itemp_reverse_map itemp_num; Some (negb (r =? -1)).

Definition imm_cache_itemp_is_used (c : IMM_CACHE) (o : IR2_OPND) : option bool :=
  itemp_num ← aget reg_itemp_reverse_map (_reg_num o);
  index ← aget itemp_reverse_map itemp_num;
  s ← aget (itemp_stat c) index;
  Some (negb (s =? -1)).

Definition imm_cache_is_cached_at (c : IMM_CACHE) (i : Z) : option bool :=
  b ← bget c i; Some (negb (b_free b)).

Definition imm_cache_la_reg_num_at (c : IMM_CACHE) (i : Z) : option Z :=
  b ← bget c i; aget reg_itemp_map (itemp_num b).

(** ** Buckets *)

Definition init_bucket : IMM_CACHE_BUCKET :=
  mkB true 0 0 (-1) false (-1) (-1) (-1) (-1) 0 0 LONG_LONG_MAX LONG_LONG_MIN.

Definition imm_cache_init_bucket (c : IMM_CACHE) (i : Z) : option IMM_CACHE :=
  bupd c i (λ _, init_bucket).

Definition imm_cache_init (c : IMM_CACHE) (capacity : Z) : option IMM_CACHE :=
  let capacity := if capacity <? CACHE_DEFAULT_CAPACITY then CACHE_DEFAULT_CAPACITY else capacity in
  lsassert capacity <=? Z.of_nat (length (bucket c)) ;;
  Some (mkC (replicate (Z.to_nat capacity) init_bucket ++ drop (Z.to_nat capacity) (bucket c))
          capacity capacity 0 0 0 false (curr_pc c) false (replicate 16 (-1)) [1; 1; 1; 1]
          (stop_opt c)).

Definition fill_fields (base index scale offset : Z) (b : IMM_CACHE_BUCKET) : IMM_CACHE_BUCKET :=
  mkB false 0 (lifecycle b) (itemp_num b) (pre_cache b) base index scale (b_ir1_index b)
    offset 0 (min_offset b) (max_offset b).

Definition imm_cache_fill_bucket (c : IMM_CACHE) (id base index scale offset : Z) :
    option IMM_CACHE :=
  lsassert id <? cache_count c ;;
  bupd c id (fill_fields base index scale offset).

Definition imm_cache_replace_bucket (c : IMM_CACHE) (id base index scale offset : Z) :
    option IMM_CACHE :=
  c ← imm_cache_fill_bucket c id base index scale offset;
  bupd c id (λ b, mkB (b_free b) 1 0 (itemp_num b) false (b_base b) (b_index b) (b_scale b)
    (curr_ir1_index c) (b_offset b) (avg_offset b) (min_offset b) (max_offset b)).

Definition set_itemp (t : Z) (b : IMM_CACHE_BUCKET) : IMM_CACHE_BUCKET :=
  mkB (b_free b) (use_count b) (lifecycle b) t (pre_cache b) (b_base b) (b_index b) (b_scale b)
    (b_ir1_index b) (b_offset b) (avg_offset b) (min_offset b) (max_offset b).
Definition set_pre_cache (x : bool) (b : IMM_CACHE_BUCKET) : IMM_CACHE_BUCKET :=
  mkB (b_free b) (use_count b) (lifecycle b) (itemp_num b) x (b_base b) (b_index b) (b_scale b)
    (b_ir1_index b) (b_offset b) (avg_offset b) (min_offset b) (max_offset b).
Definition set_use_count (x : Z) (b : IMM_CACHE_BUCKET) : IMM_CACHE_BUCKET :=
  mkB (b_free b) x (lifecycle b) (itemp_num b) (pre_cache b) (b_base b) (b_index b) (b_scale b)
    (b_ir1_index b) (b_offset b) (avg_offset b) (min_offset b) (max_offset b).
Definition set_ir1 (x : Z) (b : IMM_CACHE_BUCKET) : IMM_CACHE_BUCKET :=
  mkB (b_free b) (use_count b) (lifecycle b) (itemp_num b) (pre_cache b) (b_base b) (b_index b)
    (b_scale b) x (b_offset b) (avg_offset b) (min_offset b) (max_offset b).
Definition set_offset (x : Z) (b : IMM_CACHE_BUCKET) : IMM_CACHE_BUCKET :=
  mkB (b_free b) (use_count b) (lifecycle b) (itemp_num b) (pre_cache b) (b_base b) (b_index b)
    (b_scale b) (b_ir1_index b) x (avg_offset b) (min_offset b) (max_offset b).

(** ** Definitions of x86 registers *)

Definition mark_reg (l : list Z) (reg_num i : Z) : option (list Z) := aset l reg_num i.

Definition mark_opnd (l : list Z) (pir1 : IR1_INST) (k : nat) (i : Z) : option (list Z) :=
  o ← ir1_get_opnd pir1 k;
  if ir1_opnd_is_gpr o then mark_reg l (ir1_opnd_base_reg_num o) i else Some l.

(** The cases of the switch on the opcode. *)
Inductive usage_class : Set := UStack | UMul | UExchange | UAll | UOther.

Definition usage_of (opcode : dt_x86_insn) : usage_class :=
  match opcode with
  | dt_X86_INS_PUSH | dt_X86_INS_PUSHF | dt_X86_INS_PUSHFD | dt_X86_INS_PUSHAL
  | dt_X86_INS_PUSHAW | dt_X86_INS_POP | dt_X86_INS_POPF => UStack
  | dt_X86_INS_MUL | dt_X86_INS_IMUL | dt_X86_INS_DIV | dt_X86_INS_IDIV => UMul
  | dt_X86_INS_XCHG | dt_X86_INS_XADD => UExchange
  | dt_X86_INS_POPAL | dt_X86_INS_POPAW => UAll
  | _ => UOther
  end.

(** The registers an instruction records as changed.  The loop over the two operands
    of XCHG and XADD returns in its first turn. *)
Definition usage_marks (l : list Z) (pir1 : IR1_INST) (i : Z) : option (list Z) :=
  match usage_of (ir1_opcode pir1) with
  | UExchange => mark_opnd l pir1 0 i
  | UStack => l ← mark_reg l esp_index i; mark_opnd l pir1 0 i
  | UMul => l ← mark_reg l eax_index i; l ← mark_reg l edx_index i; mark_opnd l pir1 0 i
  | UAll => mark_opnd (replicate 16 i) pir1 0 i
  | UOther => mark_opnd l pir1 0 i
  end.

Definition imm_cache_update_ir1_usage (c : IMM_CACHE) (pir1 : IR1_INST) (i : Z) :
    option IMM_CACHE :=
  if 0 <? ir1_get_opnd_num pir1 then
    l ← usage_marks (ir1_reg_last_updated_index c) pir1 i; Some (set_updated c l)
  else Some c.

Definition imm_cache_check_ir1_should_skip (curr_ir1_inst : IR1_INST) (skip : bool) : bool :=
  match ir1_opcode curr_ir1_inst with dt_X86_INS_FNSTENV => true | _ => skip end.

(** ** Lookup *)

Definition criterion_offset (b : IMM_CACHE_BUCKET) : Z :=
  if avg_offset b =? 0 then b_offset b else avg_offset b.

Definition imm_cache_diff (c : IMM_CACHE) (id new_offset : Z) : option Z :=
  b ← bget c id; Some (s64 (new_offset - criterion_offset b)).

Definition same_address (base index scale : Z) (b : IMM_CACHE_BUCKET) : bool :=
  (b_index b =? index) && (b_base b =? base) && (b_scale b =? scale) && negb (b_free b).

Fixpoint get_from (i : Z) (l : list IMM_CACHE_BUCKET) (base index scale offset : Z) : Z :=
  match l with
  | [] => -1
  | b :: l =>
      if same_address base index scale b &&
         negb (si12_overflow (s64 (offset - criterion_offset b)))
      then i else get_from (i + 1) l base index scale offset
  end.

Definition imm_cache_get (c : IMM_CACHE) (base index scale offset : Z) : Z :=
  get_from 0 (take (Z.to_nat (cache_count c)) (bucket c)) base index scale offset.

Definition imm_cache_check_base_index_has_changed (c : IMM_CACHE) (id base_reg index_reg : Z) :
    option bool :=
  if (base_reg <? 0) && (index_reg <? 0) then Some false else
  b ← bget c id;
  last_update_base ← (if 0 <=? base_reg then aget (ir1_reg_last_updated_index c) base_reg
                      else Some (-1));
  last_update_index ← (if 0 <=? index_reg then aget (ir1_reg_last_updated_index c) index_reg
                       else Some (-1));
  Some ((b_ir1_index b <=? last_update_base) || (b_ir1_index b <=? last_update_index)).

Definition imm_cache_can_use (c : IMM_CACHE) (id base index : Z) : option bool :=
  negb <$> imm_cache_check_base_index_has_changed c id base index.

Definition imm_cache_update_by_diff (c : IMM_CACHE) (id diff : Z) : option IMM_CACHE :=
  bupd c id (λ b, set_offset (s64 (b_offset b + diff)) b).
Definition imm_cache_update_by_offset (c : IMM_CACHE) (id new_offset : Z) : option IMM_CACHE :=
  bupd c id (set_offset new_offset).

(** ** Freeing *)

Definition imm_cache_free (c : IMM_CACHE) (id : Z) : option IMM_CACHE :=
  b ← bget c id;
  c ← free_itemp c (itemp_num b);
  imm_cache_init_bucket c id.

(** The loops over all buckets that free those that satisfy [p]. *)
Fixpoint free_where (p : IMM_CACHE_BUCKET → bool) (n : nat) (i : Z) (c : IMM_CACHE) :
    option IMM_CACHE :=
  match n with
  | O => Some c
  | S n =>
      b ← bget c i;
      c ← (if p b then c ← imm_cache_free c i; Some (set_free_count c (free_count c + 1))
           else Some c);
      free_where p n (i + 1) c
  end.

Definition imm_cache_free_itemp (c : IMM_CACHE) (t : Z) : option IMM_CACHE :=
  free_where (λ b, (itemp_num b =? t) && negb (b_free b)) (Z.to_nat (cache_count c)) 0 c.

Definition imm_cache_free_cache_use_target_reg (c : IMM_CACHE) (o : IR2_OPND) : option IMM_CACHE :=
  t ← aget reg_itemp_reverse_map (_reg_num o); imm_cache_free_itemp c t.

Fixpoint free_each (n : nat) (i : Z) (c : IMM_CACHE) : option IMM_CACHE :=
  match n with O => Some c | S n => c ← imm_cache_free c i; free_each n (i + 1) c end.

Definition imm_cache_free_all (c : IMM_CACHE) : option IMM_CACHE :=
  c ← free_each (Z.to_nat (cache_count c)) 0 c;
  Some (set_free_count c (cache_count c)).

(** ** Store *)

Definition imm_cache_put (c : IMM_CACHE) (base index scale offset : Z) :
    option (Z * IMM_CACHE) :=
  '(id, c) ← (if free_count c =? 0 then
                let id := cache_count c - 1 in
                c ← imm_cache_free c id; Some (id, set_free_count c (free_count c + 1))
              else Some (cache_count c - free_count c, c));
  c ← imm_cache_fill_bucket c id base index scale offset;
  let c := set_free_count c (free_count c - 1) in
  c ← bupd c id (set_ir1 (curr_ir1_index c));
  c ← bupd c id (λ b, set_use_count (use_count b + 1) b);
  '(t, c) ← alloc_itemp c;
  c ← bupd c id (set_itemp t);
  Some (id, c).

Section sorting.
Variable qsort : list IMM_CACHE_BUCKET → list IMM_CACHE_BUCKET.

(** [qsort] with [compare_imm_cache]. *)
Definition imm_cache_sort (c : IMM_CACHE) : IMM_CACHE :=
  let n := Z.to_nat (cache_count c) in
  set_bucket_list c (qsort (take n (bucket c)) ++ drop n (bucket c)).

Definition imm_cache_free_dead_cache (c : IMM_CACHE) : option IMM_CACHE :=
  c ← free_where (λ b, negb (b_free b) && negb (lifecycle b =? 0) &&
                       (lifecycle b <? curr_imm_index c)) (Z.to_nat (cache_count c)) 0 c;
  Some (imm_cache_sort c).

Definition imm_cache_allocate (imm_skip_pc : Z) (c : IMM_CACHE) (base index scale offset : Z) :
    option (IMM_CACHE_RES * IMM_CACHE) :=
  let c := if negb (imm_skip_pc =? 0) && negb (stop_opt c) && (curr_pc c =? imm_skip_pc)
           then set_stop c true else c in
  let c := imm_cache_sort c in
  let id := if stop_opt c then -1 else imm_cache_get c base index scale offset in
  '(id, d, off, pre, hit, c) ←
    (if id =? -1 then
       '(id, c) ← imm_cache_put c base index scale offset;
       Some (id, None, None, false, false, c)
     else
       usable ← imm_cache_can_use c id base index;
       if (usable : bool) then
         d ← imm_cache_diff c id offset;
         b ← bget c id;
         c ← (if pre_cache b then bupd c id (set_pre_cache false) else Some c);
         c ← bupd c id (λ b, set_use_count (use_count b + 1) b);
         Some (id, Some d, Some (criterion_offset b), pre_cache b, true, c)
       else
         c ← imm_cache_replace_bucket c id base index scale offset;
         Some (id, None, Some offset, false, false, c));
  b ← bget c id;
  Some (mkR d off (itemp_num b) id pre hit,
        set_imm_index c (curr_imm_index c + 1) true).

(** ** Collecting the addresses of a block before translation *)

Definition precache_update (offset lifecycle : Z) (b : IMM_CACHE_BUCKET) : IMM_CACHE_BUCKET :=
  let mn := Z.min offset (min_offset b) in
  let mx := Z.max offset (max_offset b) in
  mkB (b_free b) (use_count b + 1) lifecycle (itemp_num b) (pre_cache b) (b_base b) (b_index b)
    (b_scale b) (b_ir1_index b) (b_offset b) (Z.quot (s64 (mn + mx)) 2) mn mx.

Definition imm_cache_precache_put (c : IMM_CACHE) (base index scale offset : Z) :
    option IMM_CACHE :=
  let id := imm_cache_get c base index scale offset in
  id ← (if 0 <=? id then
          b ← bget c id;
          let mn := Z.min offset (min_offset b) in
          let mx := Z.max offset (max_offset b) in
          let diff := s64 (mx - Z.quot (s64 (mn + mx)) 2) in
          Some (if si12_overflow diff then -2 else id)
        else Some id);
  '(id, c) ← (if (id =? -1) || (id =? -2) then
                let id := cache_count c - free_count c in
                c ← imm_cache_fill_bucket c id base index scale offset;
                let c := set_free_count c (free_count c - 1) in
                c ← bupd c id (set_ir1 (curr_ir1_index c));
                Some (id, c)
              else Some (id, c));
  c ← bupd c id (precache_update offset (curr_imm_index c));
  Some (set_imm_index c (curr_imm_index c + 1) (optimized_ir2 c)).

Fixpoint finish_from (n : nat) (i : Z) (c : IMM_CACHE) : option IMM_CACHE :=
  match n with
  | O => Some c
  | S n =>
      b ← bget c i;
      c ← (if b_free b || (3 <=? i) then
             c ← imm_cache_init_bucket c i; Some (set_free_count c (free_count c + 1))
           else
             c ← bupd c i (set_pre_cache true);
             '(t, c) ← alloc_itemp c;
             bupd c i (set_itemp t));
      finish_from n (i + 1) c
  end.

Definition imm_cache_finish_precache (c : IMM_CACHE) : option IMM_CACHE :=
  let c := imm_cache_sort c in
  let c := mkC (bucket c) CACHE_DEFAULT_CAPACITY 0 0 0 0 false (curr_pc c) false
             (ir1_reg_last_updated_index c) (itemp_stat c) (stop_opt c) in
  finish_from 4 0 c.
End sorting.
