(* ===== verification/ImmCacheSound.v ===== *)
(** * Correctness of the cache of address registers

    First the invariant of the cache during translation: four buckets, the live ones
    own distinct temporaries, [itemp_stat] and [free_count] agree with them.  Then
    the meaning: a hit yields the address that was asked for. *)

From stdpp Require Import base numbers list option sorting tactics.
From Stdlib Require Import ZArith Lia Bool.
From S2P Require Import Prelude Ir1Enum Ir1 Ir2 RegMap ImmCache.
Local Open Scope Z_scope.
Local Open Scope c_scope.

(** ** Temporaries owned by live buckets *)

Definition owned (b : IMM_CACHE_BUCKET) : option Z :=
  if b_free b then None else Some (itemp_num b).

Definition itemps (l : list IMM_CACHE_BUCKET) : list Z := omap owned l.

Lemma itemps_app l1 l2 : itemps (l1 ++ l2) = itemps l1 ++ itemps l2.
Proof. apply omap_app. Qed.

Lemma itemps_cons b l :
  itemps (b :: l) = match owned b with Some t => t :: itemps l | None => itemps l end.
Proof. done. Qed.

Lemma itemps_perm l l' : l ≡ₚ l' → itemps l ≡ₚ itemps l'.
Proof.
  induction 1 as [|b l l' _ IH|b b' l|l l' l'' _ IH1 _ IH2]; [done|..]; rewrite ?itemps_cons.
  - destruct (owned b); by rewrite ?IH.
  - destruct (owned b), (owned b'); try done. apply Permutation_swap.
  - by rewrite IH1.
Qed.

(** Replacing a bucket. *)
Lemma itemps_insert l i b b' :
  l !! i = Some b →
  ∃ r, itemps l ≡ₚ match owned b with Some t => t :: r | None => r end ∧
       itemps (<[i := b']> l) ≡ₚ match owned b' with Some t => t :: r | None => r end.
Proof.
  intros H. exists (itemps (take i l) ++ itemps (drop (S i) l)).
  pose proof (lookup_lt_Some _ _ _ H). split.
  - rewrite <- (take_drop_middle l i b H) at 1. rewrite itemps_app, itemps_cons.
    destruct (owned b); [|done]. by rewrite Permutation_middle.
  - rewrite insert_take_drop by done. rewrite itemps_app, itemps_cons.
    destruct (owned b'); [|done]. by rewrite Permutation_middle.
Qed.

Lemma itemps_length l : (length (itemps l) <= length l)%nat.
Proof. induction l as [|b l IH]; simpl; [lia|]. destruct (owned b); simpl; lia. Qed.

#[local] Arguments itemps : simpl never.

Lemma itemps_length_free l i b :
  l !! i = Some b → b_free b = true → (length (itemps l) < length l)%nat.
Proof.
  revert i. induction l as [|a l IH]; intros [|i] H F; simplify_eq/=; rewrite itemps_cons.
  - unfold owned. rewrite F. pose proof (itemps_length l). lia.
  - specialize (IH i H F). destruct (owned a); simpl; lia.
Qed.

(** ** The invariant *)

Definition bucket_ok (b : IMM_CACHE_BUCKET) : Prop :=
  if b_free b then b = init_bucket
  else 1 <= use_count b ∧ 3 <= itemp_num b <= 6.

(** [itemp_stat] marks the temporaries [m] as taken. *)
Definition stat_ok (stat : list Z) (m : list Z) : Prop :=
  length stat = 4%nat ∧
  ∀ k, 0 <= k < 4 → aget stat k = Some (if decide (k + 3 ∈ m) then 0 else 1).

Definition buckets (c : IMM_CACHE) : list IMM_CACHE_BUCKET := take 4 (bucket c).

Record cache_inv (c : IMM_CACHE) : Prop := mkInv {
  inv_count : cache_count c = 4;
  inv_len : (4 <= length (bucket c))%nat;
  inv_upd : length (ir1_reg_last_updated_index c) = 16%nat;
  inv_buckets : Forall bucket_ok (buckets c);
  inv_nodup : NoDup (itemps (buckets c));
  inv_stat : stat_ok (itemp_stat c) (itemps (buckets c));
  inv_free : free_count c = 4 - Z.of_nat (length (itemps (buckets c)))
}.

Lemma stat_ok_perm stat m m' : m ≡ₚ m' → stat_ok stat m → stat_ok stat m'.
Proof.
  intros P [L H]. split; [done|]. intros k Hk. rewrite H by done.
  destruct (decide (k + 3 ∈ m)) as [E|E], (decide (k + 3 ∈ m')) as [E'|E']; try done.
  - rewrite P in E. done.
  - rewrite <- P in E'. done.
Qed.

Lemma aset_Some {A} (l : list A) i x :
  0 <= i < Z.of_nat (length l) → aset l i x = Some (<[Z.to_nat i := x]> l).
Proof.
  intros H. unfold aset. destruct (Z.ltb_spec i 0); [lia|].
  destruct (Z.leb_spec (Z.of_nat (length l)) i); [lia|]. done.
Qed.

Lemma aget_insert {A} (l : list A) i j x :
  0 <= i < Z.of_nat (length l) → 0 <= j →
  aget (<[Z.to_nat i := x]> l) j = if decide (i = j) then Some x else aget l j.
Proof.
  intros Hi Hj. unfold aget. destruct (Z.ltb_spec j 0); [lia|].
  destruct (decide (i = j)) as [->|N].
  - apply list_lookup_insert_eq. lia.
  - apply list_lookup_insert_ne. lia.
Qed.

(** Taking a temporary from a set that does not have all four. *)
Lemma stat_take stat m i :
  stat_ok stat m → 0 <= i < 4 → i + 3 ∉ m →
  ∃ stat', aset stat i 0 = Some stat' ∧ stat_ok stat' (i + 3 :: m).
Proof.
  intros [L H] Hi N. rewrite aset_Some by lia. eexists. split; [done|]. split.
  - by rewrite length_insert.
  - intros k Hk. rewrite aget_insert by lia. destruct (decide (i = k)) as [->|Nk].
    + by rewrite decide_True by left.
    + rewrite H by done. destruct (decide (k + 3 ∈ m)) as [E|E].
      * by rewrite decide_True by (by right).
      * rewrite decide_False; [done|]. intros [?|?]%elem_of_cons; [lia|done].
Qed.

Lemma stat_return stat m i :
  stat_ok stat (i + 3 :: m) → 0 <= i < 4 → i + 3 ∉ m →
  ∃ stat', aset stat i 1 = Some stat' ∧ stat_ok stat' m.
Proof.
  intros [L H] Hi N. rewrite aset_Some by lia. eexists. split; [done|]. split.
  - by rewrite length_insert.
  - intros k Hk. rewrite aget_insert by lia. destruct (decide (i = k)) as [->|Nk].
    + by rewrite decide_False by done.
    + rewrite H by done. destruct (decide (k + 3 ∈ m)) as [E|E].
      * by rewrite decide_True by (by right).
      * rewrite decide_False; [done|]. intros [?|?]%elem_of_cons; [lia|done].
Qed.

Lemma alloc_itemp_ok c m :
  stat_ok (itemp_stat c) m → (length m < 4)%nat →
  ∃ t stat, alloc_itemp c = Some (t, set_stat c stat) ∧ 3 <= t <= 6 ∧ (t ∉ m) ∧ stat_ok stat (t :: m).
Proof.
  intros S L. pose proof S as [_ H].
  assert (T : ∀ i k, 0 <= i < 4 → i + 3 ∉ m →
    ∃ t stat, (s ← aget (itemp_stat c) i;
               if s =? 0 then k
               else l ← aset (itemp_stat c) i 0; t ← aget itemp_map i; Some (t, set_stat c l)) =
              Some (t, set_stat c stat) ∧ 3 <= t <= 6 ∧ (t ∉ m) ∧ stat_ok stat (t :: m)).
  { intros i k Hi N. destruct (stat_take _ _ _ S Hi N) as (stat & E & S').
    rewrite H, decide_False, E by done. simpl. exists (i + 3), stat.
    replace (aget itemp_map i) with (Some (i + 3)); [split_and!; done || lia|].
    assert (i = 0 ∨ i = 1 ∨ i = 2 ∨ i = 3) as [->|[->|[->| ->]]] by lia; reflexivity. }
  assert (F : ∀ i k, 0 <= i < 4 → i + 3 ∈ m →
    (s ← aget (itemp_stat c) i;
     if s =? 0 then k
     else l ← aset (itemp_stat c) i 0; t ← aget itemp_map i; Some (t, set_stat c l)) = k).
  { intros i k Hi N. by rewrite H, decide_True by done. }
  unfold alloc_itemp.
  destruct (decide (3 + 3 ∈ m)) as [H3|?]; [rewrite F by (done || lia)|by apply T; [lia|]].
  destruct (decide (2 + 3 ∈ m)) as [H2|?]; [rewrite F by (done || lia)|by apply T; [lia|]].
  destruct (decide (1 + 3 ∈ m)) as [H1|?]; [rewrite F by (done || lia)|by apply T; [lia|]].
  destruct (decide (0 + 3 ∈ m)) as [H0|?]; [exfalso|by apply T; [lia|]].
  assert (Sub : [6; 5; 4; 3] ⊆+ m).
  { apply NoDup_submseteq; [apply (bool_decide_unpack _); vm_compute; done|].
    intros x Hx. rewrite !elem_of_cons in Hx. destruct Hx as [->|[->|[->|[->|Hx]]]]; try done.
    by apply not_elem_of_nil in Hx. }
  apply submseteq_length in Sub. simpl in Sub. lia.
Qed.

Lemma free_itemp_ok c m t :
  stat_ok (itemp_stat c) (t :: m) → 3 <= t <= 6 → t ∉ m →
  ∃ stat, free_itemp c t = Some (set_stat c stat) ∧ stat_ok stat m.
Proof.
  intros S Ht N. replace t with (t - 3 + 3) in S, N by lia.
  destruct (stat_return _ _ _ S) as (stat & E & S'); [lia|done|].
  exists stat. split; [|done]. unfold free_itemp. destruct (Z.ltb_spec t 0); [lia|].
  replace (aget itemp_reverse_map t) with (Some (t - 3))
    by (assert (t = 3 ∨ t = 4 ∨ t = 5 ∨ t = 6) as [->|[->|[->| ->]]] by lia; reflexivity).
  simpl. destruct (Z.eqb_spec (t - 3) (-1)); [lia|]. simpl. by rewrite E.
Qed.

(** ** Writing buckets *)

Definition bput (c : IMM_CACHE) (i : nat) (b : IMM_CACHE_BUCKET) : IMM_CACHE :=
  set_bucket_list c (<[i := b]> (bucket c)).

Lemma bget_nat c (i : nat) : bget c (Z.of_nat i) = bucket c !! i.
Proof. unfold bget, aget. destruct (Z.ltb_spec (Z.of_nat i) 0); [lia|]. by rewrite Nat2Z.id. Qed.

Lemma bupd_nat c (i : nat) f b :
  bucket c !! i = Some b → bupd c (Z.of_nat i) f = Some (bput c i (f b)).
Proof.
  intros H. unfold bupd. rewrite bget_nat, H. simpl.
  pose proof (lookup_lt_Some _ _ _ H). rewrite aset_Some by lia. simpl.
  unfold bput. by rewrite Nat2Z.id.
Qed.

Lemma bput_lookup c i b b' :
  bucket c !! i = Some b → bucket (bput c i b') !! i = Some b'.
Proof. intros H%lookup_lt_Some. simpl. by apply list_lookup_insert_eq. Qed.

Lemma bput_bput c i b b' : bput (bput c i b) i b' = bput c i b'.
Proof. unfold bput, set_bucket_list. simpl. by rewrite list_insert_insert_eq. Qed.

Lemma buckets_bput c i b : (i < 4)%nat → buckets (bput c i b) = <[i := b]> (buckets c).
Proof. intros H. unfold buckets. simpl. by rewrite take_insert_lt. Qed.

Lemma buckets_lookup c i : (i < 4)%nat → buckets c !! i = bucket c !! i.
Proof. intros H. unfold buckets. by apply lookup_take_lt. Qed.

(** ** Preservation of the invariant *)

Lemma inv_update c c' i b' :
  cache_inv c → (i < 4)%nat → cache_count c' = cache_count c →
  ir1_reg_last_updated_index c' = ir1_reg_last_updated_index c →
  bucket c' = <[i := b']> (bucket c) → bucket_ok b' →
  NoDup (itemps (buckets c')) → stat_ok (itemp_stat c') (itemps (buckets c')) →
  free_count c' = 4 - Z.of_nat (length (itemps (buckets c'))) → cache_inv c'.
Proof.
  intros [I1 I2 I3 I4 I5 I6 I7] Hi E1 E2 E3 Ok ND S F. constructor; try congruence; try done.
  - rewrite E3, length_insert. done.
  - unfold buckets in *. rewrite E3, take_insert_lt by done. by apply Forall_insert.
Qed.

(** A bucket that keeps its owner. *)
Lemma inv_keep c i b b' :
  cache_inv c → (i < 4)%nat → bucket c !! i = Some b → bucket_ok b' → owned b' = owned b →
  cache_inv (bput c i b').
Proof.
  intros I Hi Hb Ok O. pose proof I as [I1 I2 I3 I4 I5 I6 I7].
  assert (P : itemps (buckets (bput c i b')) ≡ₚ itemps (buckets c)).
  { rewrite buckets_bput by done. rewrite <- buckets_lookup in Hb by done.
    destruct (itemps_insert _ _ _ b' Hb) as (r & P1 & P2). rewrite P1, P2, O. done. }
  eapply (inv_update c _ i b'); try done.
  - by rewrite P.
  - by eapply stat_ok_perm.
  - rewrite P. done.
Qed.

(** A live bucket is freed. *)
Lemma inv_free_bucket c i b :
  cache_inv c → (i < 4)%nat → bucket c !! i = Some b → b_free b = false →
  ∃ c', imm_cache_free c (Z.of_nat i) = Some c' ∧
    cache_inv (set_free_count c' (free_count c + 1)) ∧
    bucket c' = <[i := init_bucket]> (bucket c) ∧
    cache_count c' = cache_count c ∧ free_count c' = free_count c ∧
    curr_ir1_index c' = curr_ir1_index c ∧
    ir1_reg_last_updated_index c' = ir1_reg_last_updated_index c.
Proof.
  intros I Hi Hb Hf. pose proof I as [I1 I2 I3 I4 I5 I6 I7].
  pose proof Hb as Hb'. rewrite <- buckets_lookup in Hb' by done.
  destruct (itemps_insert _ _ _ init_bucket Hb') as (r & P1 & P2).
  unfold owned in P1, P2. rewrite Hf in P1. simpl in P2.
  assert (Ok : bucket_ok b) by (by eapply Forall_lookup_1). unfold bucket_ok in Ok. rewrite Hf in Ok.
  rewrite P1 in I5. apply list.NoDup_cons in I5 as [N ND].
  destruct (free_itemp_ok c r (itemp_num b)) as (stat & E & S); [|lia|done|].
  { by eapply stat_ok_perm. }
  unfold imm_cache_free. rewrite bget_nat, Hb. simpl. rewrite E. simpl.
  unfold imm_cache_init_bucket. rewrite (bupd_nat _ i _ b) by done.
  eexists. split; [done|]. split_and!; try done.
  assert (EB : buckets (set_free_count (bput (set_stat c stat) i init_bucket) (free_count c + 1)) =
               <[i := init_bucket]> (buckets c))
    by (rewrite <- buckets_bput by done; done).
  eapply (inv_update c _ i init_bucket); try done; rewrite ?EB.
  - by rewrite P2.
  - simpl. by eapply stat_ok_perm; [symmetry|].
  - simpl. rewrite I7, P1, P2. simpl. lia.
Qed.

(** A free bucket gets a temporary. *)
Lemma inv_take_bucket c i b b' t stat :
  cache_inv c → (i < 4)%nat → bucket c !! i = Some b → b_free b = true →
  b_free b' = false → bucket_ok b' → itemp_num b' = t → t ∉ itemps (buckets c) →
  stat_ok stat (t :: itemps (buckets c)) →
  cache_inv (set_free_count (set_stat (bput c i b') stat) (free_count c - 1)).
Proof.
  intros I Hi Hb Hf Hf' Ok Et N S. pose proof I as [I1 I2 I3 I4 I5 I6 I7].
  pose proof Hb as Hb'. rewrite <- buckets_lookup in Hb' by done.
  destruct (itemps_insert _ _ _ b' Hb') as (r & P1 & P2).
  unfold owned in P1, P2. rewrite Hf in P1. rewrite Hf', Et in P2.
  assert (EB : buckets (set_free_count (set_stat (bput c i b') stat) (free_count c - 1)) =
               <[i := b']> (buckets c)) by (rewrite <- buckets_bput by done; done).
  eapply (inv_update c _ i b'); try done; rewrite ?EB.
  - rewrite P2, <- P1. by apply list.NoDup_cons.
  - simpl. eapply stat_ok_perm; [|exact S]. by rewrite P2, P1.
  - simpl. rewrite I7, P1, P2. simpl. lia.
Qed.

(** ** Sorting *)

(** What the C library promises about [qsort] with [compare_imm_cache]. *)
Class Qsort (qsort : list IMM_CACHE_BUCKET → list IMM_CACHE_BUCKET) : Prop := {
  qsort_perm : ∀ l, qsort l ≡ₚ l;
  qsort_sorted : ∀ l, StronglySorted (λ a b, use_count b <= use_count a) (qsort l)
}.

(** In a sorted cache the live buckets come first. *)
Lemma sorted_live l i b :
  StronglySorted (λ a b, use_count b <= use_count a) l → Forall bucket_ok l →
  l !! i = Some b → b_free b = false ↔ (i < length (itemps l))%nat.
Proof.
  revert i. induction l as [|a l IH]; intros i Hs Ok Hi; [done|].
  apply StronglySorted_inv in Hs as [Hs Hle]. inversion Ok as [|? ? Oka Okl]; subst.
  rewrite itemps_cons. unfold owned. destruct (b_free a) eqn:Fa.
  - assert (Z : ∀ x, x ∈ l → b_free x = true).
    { intros x Hx. destruct (b_free x) eqn:Fx; [done|]. exfalso.
      pose proof (proj1 (list.Forall_forall _ _) Okl x Hx) as Okx.
      pose proof (proj1 (list.Forall_forall _ _) Hle x Hx) as Le. simpl in Le.
      unfold bucket_ok in *. rewrite Fa in Oka. rewrite Fx in Okx. subst a. simpl in Le. lia. }
    assert (E : itemps l = []).
    { clear -Z. induction l as [|x l IH]; [done|]. rewrite itemps_cons. unfold owned.
      rewrite Z by left. apply IH. intros y Hy. apply Z. by right. }
    rewrite E. simpl. split; [|lia]. intros Fb. destruct i as [|i]; simplify_eq/=; [congruence|].
    apply list_elem_of_lookup_2, Z in Hi. congruence.
  - destruct i as [|i]; simplify_eq/=; [split; [lia|done]|]. rewrite (IH i) by done. lia.
Qed.

Section qsort.
Context (qsort : list IMM_CACHE_BUCKET → list IMM_CACHE_BUCKET) `{!Qsort qsort}.

Lemma sort_buckets c :
  cache_inv c → buckets (imm_cache_sort qsort c) = qsort (buckets c) ∧
  length (bucket (imm_cache_sort qsort c)) = length (bucket c).
Proof using All.
  intros [I1 I2 _ _ _ _ _]. unfold imm_cache_sort, buckets. rewrite I1. simpl.
  change (Z.to_nat 4) with 4%nat. set (l := take 4 (bucket c)).
  assert (L : length (qsort l) = 4%nat).
  { rewrite (qsort_perm l). unfold l. rewrite length_take. lia. }
  split.
  - rewrite take_app_le by lia. apply take_ge. lia.
  - rewrite length_app, length_drop, L. lia.
Qed.

Lemma sort_inv c :
  cache_inv c → cache_inv (imm_cache_sort qsort c) ∧
  StronglySorted (λ a b, use_count b <= use_count a) (buckets (imm_cache_sort qsort c)).
Proof using All.
  intros I. destruct (sort_buckets c I) as [E L]. pose proof I as [I1 I2 I3 I4 I5 I6 I7].
  pose proof (itemps_perm _ _ (qsort_perm (buckets c))) as P.
  split; [|rewrite E; apply qsort_sorted]. constructor; rewrite ?E; try done.
  - lia.
  - by rewrite (qsort_perm (buckets c)).
  - by rewrite P.
  - simpl. by eapply stat_ok_perm; [symmetry|].
  - simpl. by rewrite P.
Qed.

(** The bucket [imm_cache_put] fills. *)
Definition put_bucket (c : IMM_CACHE) (base index scale offset t : Z) : IMM_CACHE_BUCKET :=
  set_itemp t (set_use_count 1 (set_ir1 (curr_ir1_index c)
    (fill_fields base index scale offset init_bucket))).

(** The rest of a put, once bucket [i] is known to be free. *)
Lemma put_free c i base index scale offset :
  cache_inv c → (i < 4)%nat → bucket c !! i = Some init_bucket →
  ∃ t stat,
    let c' := set_free_count (set_stat (bput c i (put_bucket c base index scale offset t)) stat)
                (free_count c - 1) in
    (c1 ← imm_cache_fill_bucket c (Z.of_nat i) base index scale offset;
     let c1 := set_free_count c1 (free_count c1 - 1) in
     c1 ← bupd c1 (Z.of_nat i) (set_ir1 (curr_ir1_index c1));
     c1 ← bupd c1 (Z.of_nat i) (λ b, set_use_count (use_count b + 1) b);
     '(t, c1) ← alloc_itemp c1;
     c1 ← bupd c1 (Z.of_nat i) (set_itemp t);
     Some (Z.of_nat i, c1)) = Some (Z.of_nat i, c') ∧
    3 <= t <= 6 ∧ (t ∉ itemps (buckets c)) ∧ cache_inv c'.
Proof using Type.
  clear. intros I Hi Ho. pose proof I as [I1 I2 I3 I4 I5 I6 I7].
  assert (Lm : (length (itemps (buckets c)) < 4)%nat).
  { pose proof Ho as Ho'. rewrite <- buckets_lookup in Ho' by done.
    pose proof (itemps_length_free _ _ _ Ho' eq_refl) as Lt. unfold buckets in Lt at 2.
    rewrite length_take in Lt. lia. }
  unfold imm_cache_fill_bucket. rewrite I1.
  destruct (Z.ltb_spec (Z.of_nat i) 4); [|lia]. rewrite (bupd_nat _ _ _ _ Ho). simpl.
  set (b1 := fill_fields base index scale offset init_bucket).
  rewrite (bupd_nat _ i _ b1) by (by eapply bput_lookup). simpl.
  rewrite (bupd_nat _ i _ (set_ir1 (curr_ir1_index c) b1)) by (by eapply bput_lookup, bput_lookup).
  simpl. set (b2 := set_use_count 1 (set_ir1 (curr_ir1_index c) b1)).
  set (c1 := bput (bput _ i _) i _).
  destruct (alloc_itemp_ok c1 (itemps (buckets c)) I6 Lm) as (t & stat & -> & Ht & N & S). simpl.
  rewrite (bupd_nat _ i _ b2) by (by eapply bput_lookup, bput_lookup, bput_lookup). simpl.
  exists t, stat. split; [|split; [done|split; [done|]]].
  - do 2 f_equal. unfold c1, bput, set_bucket_list, set_stat, set_free_count. simpl.
    by rewrite !list_insert_insert_eq.
  - by eapply inv_take_bucket.
Qed.

(** What a put leaves in the other buckets: they stay, unless all four are live, in
    which case the last one of the sorted cache was freed. *)
Lemma put_ok c base index scale offset :
  cache_inv c → StronglySorted (λ a b, use_count b <= use_count a) (buckets c) →
  ∃ (i : nat) t c', imm_cache_put c base index scale offset = Some (Z.of_nat i, c') ∧ (i < 4)%nat ∧
    cache_inv c' ∧ 3 <= t <= 6 ∧
    bucket c' = <[i := put_bucket c base index scale offset t]> (bucket c) ∧
    curr_ir1_index c' = curr_ir1_index c ∧
    ir1_reg_last_updated_index c' = ir1_reg_last_updated_index c.
Proof using Type.
  clear. intros I Hs. pose proof I as [I1 I2 I3 I4 I5 I6 I7].
  pose proof (itemps_length (buckets c)) as LM.
  assert (LB : length (buckets c) = 4%nat) by (unfold buckets; rewrite length_take; lia).
  unfold imm_cache_put. destruct (Z.eqb_spec (free_count c) 0) as [F|F].
  - rewrite I1. change (4 - 1) with (Z.of_nat 3).
    destruct (lookup_lt_is_Some_2 (buckets c) 3) as [b Hb]; [lia|].
    assert (Fb : b_free b = false) by (eapply sorted_live; try done; lia).
    rewrite buckets_lookup in Hb by lia.
    destruct (inv_free_bucket c 3 b) as (c1 & E1 & I' & B1 & C1 & F1 & X1 & U1); try done; [lia|].
    rewrite E1. cbn [mbind option_bind]. rewrite F1.
    destruct (put_free (set_free_count c1 (free_count c + 1)) 3 base index scale offset)
      as (t & stat & E & Ht & _ & I2'); [done|lia| |].
    { simpl. rewrite B1. apply list_lookup_insert_eq. lia. }
    exists 3%nat, t. eexists. split; [exact E|]. split_and!; try (done || lia).
    simpl. rewrite B1, list_insert_insert_eq. unfold put_bucket. simpl. by rewrite X1.
  - set (i := length (itemps (buckets c))).
    assert (Hi : (i < 4)%nat) by (unfold i in *; lia).
    replace (cache_count c - free_count c) with (Z.of_nat i) by (unfold i; lia).
    destruct (lookup_lt_is_Some_2 (buckets c) i) as [b Hb]; [lia|].
    assert (Fb : b_free b = true).
    { destruct (b_free b) eqn:Fb; [done|]. apply (sorted_live _ _ _ Hs I4 Hb) in Fb. unfold i in Fb. lia. }
    pose proof (Forall_lookup_1 _ _ _ _ I4 Hb) as Okb. unfold bucket_ok in Okb. rewrite Fb in Okb.
    subst b. rewrite buckets_lookup in Hb by done. cbn [mbind option_bind].
    destruct (put_free c i base index scale offset I Hi Hb) as (t & stat & E & Ht & _ & I2').
    exists i, t. eexists. split; [exact E|]. done.
Qed.

(** ** Lookup *)

Lemma get_from_ok i0 l base index scale offset :
  0 <= i0 →
  get_from i0 l base index scale offset = -1 ∨
  ∃ i b, get_from i0 l base index scale offset = i0 + Z.of_nat i ∧ l !! i = Some b ∧
    same_address base index scale b = true ∧
    si12_overflow (s64 (offset - criterion_offset b)) = false.
Proof using Type.
  clear. revert i0. induction l as [|b l IH]; intros i0 H0; simpl; [by left|].
  destruct (same_address base index scale b) eqn:E1; simpl;
    [destruct (si12_overflow (s64 (offset - criterion_offset b))) eqn:E2; simpl|];
    try (right; exists 0%nat, b; split_and!; [lia|done..]);
    (destruct (IH (i0 + 1)) as [?|(i & b' & E & ?)]; [lia|by left|right]);
    exists (S i), b'; (split; [rewrite E; lia|done]).
Qed.

(** A usable bucket: neither register changed since the address was computed. *)
Definition unchanged (c : IMM_CACHE) (base index : Z) (b : IMM_CACHE_BUCKET) : Prop :=
  ∀ r u, r = base ∨ r = index → aget (ir1_reg_last_updated_index c) r = Some u → u < b_ir1_index b.

Lemma can_use_ok c (i : nat) b base index :
  length (ir1_reg_last_updated_index c) = 16%nat → base < 16 → index < 16 →
  bucket c !! i = Some b →
  ∃ r, imm_cache_can_use c (Z.of_nat i) base index = Some r ∧
       (r = true → unchanged c base index b).
Proof using Type.
  clear. intros L Hb Hi E. unfold imm_cache_can_use, imm_cache_check_base_index_has_changed.
  rewrite bget_nat, E. simpl.
  assert (G : ∀ r, r < 16 → ∃ u, (if 0 <=? r then aget (ir1_reg_last_updated_index c) r else Some (-1)) = Some u
    ∧ ∀ v, aget (ir1_reg_last_updated_index c) r = Some v → v = u).
  { intros r Hr. destruct (Z.leb_spec 0 r).
    - destruct (aget_is_Some (ir1_reg_last_updated_index c) r) as [u Hu]; [lia|].
      exists u. split; [done|]. congruence.
    - exists (-1). split; [done|]. intros v Hv%aget_bound. lia. }
  destruct (G base Hb) as (u1 & E1 & G1), (G index Hi) as (u2 & E2 & G2). rewrite E1, E2. simpl.
  destruct ((base <? 0) && (index <? 0)) eqn:N; simpl.
  - exists true. split; [done|]. intros _ r u [->| ->] Hr%aget_bound; bool_to_prop; lia.
  - eexists. split; [done|]. intros H%negb_true_iff. bool_to_prop.
    intros r u [->| ->] Hr; [rewrite (G1 _ Hr)|rewrite (G2 _ Hr)]; lia.
Qed.

(** ** Allocation *)

(** A bucket whose address is computed for the current instruction. *)
Definition computed (c : IMM_CACHE) (base index scale offset : Z) (b : IMM_CACHE_BUCKET) : Prop :=
  b_free b = false ∧ b_base b = base ∧ b_index b = index ∧ b_scale b = scale ∧
  b_offset b = offset ∧ avg_offset b = 0 ∧ pre_cache b = false ∧ b_ir1_index b = curr_ir1_index c.

(** The two outcomes of [imm_cache_allocate] on the sorted cache [c]. *)
Inductive allocated (c : IMM_CACHE) (base index scale offset : Z) :
    IMM_CACHE_RES → list IMM_CACHE_BUCKET → Prop :=
  | Hit i b d :
      (i < 4)%nat → bucket c !! i = Some b → same_address base index scale b = true →
      unchanged c base index b → d = s64 (offset - criterion_offset b) → si12_overflow d = false →
      allocated c base index scale offset
        (mkR (Some d) (Some (criterion_offset b)) (itemp_num b) (Z.of_nat i) (pre_cache b) true)
        (<[i := set_use_count (use_count b + 1) (set_pre_cache false b)]> (bucket c))
  | Miss i off b :
      (i < 4)%nat → computed c base index scale offset b →
      allocated c base index scale offset
        (mkR None off (itemp_num b) (Z.of_nat i) false false) (<[i := b]> (bucket c)).

Lemma inv_imm_index c n o : cache_inv c → cache_inv (set_imm_index c n o).
Proof using Type. intros []. by constructor. Qed.

Lemma set_pre_cache_id b : pre_cache b = false → set_pre_cache false b = b.
Proof using Type. destruct b. simpl. by intros ->. Qed.

Lemma hit_ok c (i : nat) b base index scale offset :
  cache_inv c → (i < 4)%nat → bucket c !! i = Some b → same_address base index scale b = true →
  unchanged c base index b → si12_overflow (s64 (offset - criterion_offset b)) = false →
  ∃ c', (d ← imm_cache_diff c (Z.of_nat i) offset;
         b ← bget c (Z.of_nat i);
         c ← (if pre_cache b then bupd c (Z.of_nat i) (set_pre_cache false) else Some c);
         c ← bupd c (Z.of_nat i) (λ b, set_use_count (use_count b + 1) b);
         Some (Z.of_nat i, Some d, Some (criterion_offset b), pre_cache b, true, c)) =
        Some (Z.of_nat i, Some (s64 (offset - criterion_offset b)), Some (criterion_offset b),
              pre_cache b, true, c') ∧
    c' = bput c i (set_use_count (use_count b + 1) (set_pre_cache false b)) ∧ cache_inv c'.
Proof using Type.
  intros I Hi Hb Sm U O. exists (bput c i (set_use_count (use_count b + 1) (set_pre_cache false b))).
  split_and!; [|done|].
  - unfold imm_cache_diff. rewrite bget_nat, Hb. simpl. destruct (pre_cache b) eqn:P.
    + rewrite (bupd_nat _ _ _ _ Hb). simpl.
      rewrite (bupd_nat _ i _ (set_pre_cache false b)) by (by eapply bput_lookup). simpl.
      by rewrite bput_bput.
    + simpl. rewrite (bupd_nat _ _ _ _ Hb). simpl. by rewrite set_pre_cache_id.
  - pose proof I as [_ _ _ I4 _ _ _]. pose proof Hb as Hb'. rewrite <- buckets_lookup in Hb' by done.
    pose proof (Forall_lookup_1 _ _ _ _ I4 Hb') as Ok. unfold same_address in Sm. bool_to_prop.
    eapply inv_keep; try done. unfold bucket_ok in *. simpl. rewrite H0 in *. lia.
Qed.

Lemma replace_ok c (i : nat) b base index scale offset :
  cache_inv c → (i < 4)%nat → bucket c !! i = Some b → b_free b = false →
  ∃ b', imm_cache_replace_bucket c (Z.of_nat i) base index scale offset = Some (bput c i b') ∧
    computed c base index scale offset b' ∧ itemp_num b' = itemp_num b ∧ cache_inv (bput c i b').
Proof using Type.
  intros I Hi Hb F. pose proof I as [I1 _ _ I4 _ _ _].
  unfold imm_cache_replace_bucket, imm_cache_fill_bucket. rewrite I1.
  destruct (Z.ltb_spec (Z.of_nat i) 4); [|lia]. rewrite (bupd_nat _ _ _ _ Hb). simpl.
  rewrite (bupd_nat _ i _ (fill_fields base index scale offset b)) by (by eapply bput_lookup).
  eexists. rewrite bput_bput. split; [done|]. split; [done|]. split; [done|].
  rewrite <- buckets_lookup in Hb by done. pose proof (Forall_lookup_1 _ _ _ _ I4 Hb) as Ok.
  unfold bucket_ok in Ok. rewrite F in Ok. rewrite buckets_lookup in Hb by done.
  eapply inv_keep; try done; [unfold bucket_ok; simpl; lia|]. unfold owned. by rewrite F.
Qed.

(** The body of [imm_cache_allocate] on a sorted cache. *)
Lemma serve_ok c base index scale offset :
  cache_inv c → StronglySorted (λ a b, use_count b <= use_count a) (buckets c) →
  base < 16 → index < 16 →
  let id := if stop_opt c then -1 else imm_cache_get c base index scale offset in
  ∃ (i : nat) d off pre hit c' b,
    (if id =? -1 then
       '(id, c) ← imm_cache_put c base index scale offset;
       Some (id, None, None, false, false, c)
     else
       usable ← imm_cache_can_use c id base index;
       if (usable : bool) then
         d ← imm_cache_diff c id offset;
         b ← bget c id;
         c ← (if pre_cache b then bupd c id (set_pre_cache false) else Some c);
         c ← bupd c id (λ b, set_use_count (use_count b + 1) b);
         Some (id, Some d, Some (criterion_offset b), pre_cache b, true, c)
       else
         c ← imm_cache_replace_bucket c id base index scale offset;
         Some (id, None, Some offset, false, false, c)) =
    Some (Z.of_nat i, d, off, pre, hit, c') ∧
    bucket c' !! i = Some b ∧ b_free b = false ∧ (i < 4)%nat ∧ cache_inv c' ∧
    allocated c base index scale offset (mkR d off (itemp_num b) (Z.of_nat i) pre hit) (bucket c') ∧
    ir1_reg_last_updated_index c' = ir1_reg_last_updated_index c ∧
    curr_ir1_index c' = curr_ir1_index c.
Proof using Type.
  intros I Hs Hb Hi id. pose proof I as [I1 I2 I3 I4 _ _ _].
  assert (G : id = -1 ∨ ∃ i b, id = Z.of_nat i ∧ (i < 4)%nat ∧ bucket c !! i = Some b ∧
    same_address base index scale b = true ∧
    si12_overflow (s64 (offset - criterion_offset b)) = false).
  { unfold id. destruct (stop_opt c); [by left|]. unfold imm_cache_get. rewrite I1.
    destruct (get_from_ok 0 (buckets c) base index scale offset) as [?|(i & b & E & Hl & Sm & O)];
      [lia|by left|right]. exists i, b. pose proof (lookup_lt_Some _ _ _ Hl) as Lt.
    unfold buckets in Lt. rewrite length_take in Lt.
    rewrite buckets_lookup in Hl by lia. split_and!; [exact E|lia|done..]. }
  destruct G as [->|(i & b & -> & Hi4 & Hl & Sm & O)].
  - simpl. destruct (put_ok c base index scale offset I Hs)
      as (i & t & c' & -> & Hi4 & I' & Ht & B & X & U). simpl.
    assert (Li : bucket c' !! i = Some (put_bucket c base index scale offset t))
      by (rewrite B; apply list_lookup_insert_eq; lia).
    exists i, None, None, false, false, c', (put_bucket c base index scale offset t).
    rewrite B. split_and!; try done.
    + rewrite <- B. done.
    + by constructor.
  - destruct (Z.eqb_spec (Z.of_nat i) (-1)); [lia|].
    destruct (can_use_ok c i b base index I3 Hb Hi Hl) as (r & -> & Hr). simpl.
    destruct r.
    + destruct (hit_ok c i b base index scale offset I Hi4 Hl Sm (Hr eq_refl) O)
        as (c' & E & Ec & I'). rewrite E. subst c'.
      exists i, (Some (s64 (offset - criterion_offset b))), (Some (criterion_offset b)),
        (pre_cache b), true,
        (bput c i (set_use_count (use_count b + 1) (set_pre_cache false b))),
        (set_use_count (use_count b + 1) (set_pre_cache false b)).
      split_and!; try done.
      * by eapply bput_lookup.
      * unfold same_address in Sm. by bool_to_prop.
      * simpl. by eapply Hit; auto.
    + assert (F : b_free b = false) by (unfold same_address in Sm; by bool_to_prop).
      destruct (replace_ok c i b base index scale offset I Hi4 Hl F) as (b' & -> & C & _ & I').
      exists i, None, (Some offset), false, false, (bput c i b'), b'.
      split_and!; try done; [by eapply bput_lookup|by destruct C|by constructor].
Qed.

(** [imm_cache_allocate] never fails an assertion or leaves an array. *)
Lemma cache_allocate_ok skip_pc c base index scale offset :
  cache_inv c → base < 16 → index < 16 →
  ∃ res c' cs, imm_cache_allocate qsort skip_pc c base index scale offset = Some (res, c') ∧
    cache_inv c' ∧ cache_inv cs ∧ buckets cs ≡ₚ buckets c ∧
    ir1_reg_last_updated_index cs = ir1_reg_last_updated_index c ∧
    curr_ir1_index cs = curr_ir1_index c ∧
    allocated cs base index scale offset res (bucket c') ∧ 3 <= r_itemp_num res <= 6 ∧
    ir1_reg_last_updated_index c' = ir1_reg_last_updated_index c ∧
    curr_ir1_index c' = curr_ir1_index c.
Proof using All.
  intros I Hb Hi. unfold imm_cache_allocate.
  set (c0 := if negb (skip_pc =? 0) && negb (stop_opt c) && (curr_pc c =? skip_pc)
             then set_stop c true else c).
  assert (I0 : cache_inv c0 ∧ buckets c0 = buckets c ∧
    ir1_reg_last_updated_index c0 = ir1_reg_last_updated_index c ∧
    curr_ir1_index c0 = curr_ir1_index c).
  { unfold c0. destruct (_ && _); [|done]. split_and!; try done. destruct I. by constructor. }
  destruct I0 as (I0 & B0 & U0 & X0). clearbody c0. cbv zeta.
  destruct (sort_inv c0 I0) as [Is Hs]. pose proof (sort_buckets c0 I0) as [Bs _].
  set (cs := imm_cache_sort qsort c0) in *.
  assert (Ps : buckets cs ≡ₚ buckets c) by (rewrite Bs, <- B0; apply qsort_perm).
  destruct (serve_ok cs base index scale offset Is Hs Hb Hi)
    as (i & d & off & pre & hit & c' & b & -> & Hl & Fb & Hi4 & I' & A & U' & X').
  cbn [mbind option_bind]. rewrite bget_nat, Hl. simpl.
  exists (mkR d off (itemp_num b) (Z.of_nat i) pre hit), (set_imm_index c' (curr_imm_index c' + 1) true), cs.
  assert (R : 3 <= itemp_num b <= 6).
  { rewrite <- buckets_lookup in Hl by done. pose proof I' as [_ _ _ I4 _ _ _].
    pose proof (Forall_lookup_1 _ _ _ _ I4 Hl) as Ok. unfold bucket_ok in Ok. rewrite Fb in Ok. lia. }
  split; [done|]. split; [by apply inv_imm_index|]. simpl. by rewrite U', X'.
Qed.

(** ** Freeing *)

Lemma free_where_ok p n (i : nat) c :
  cache_inv c → (i + n <= 4)%nat → (∀ b, p b = true → b_free b = false) →
  ∃ c', free_where p n (Z.of_nat i) c = Some c' ∧ cache_inv c' ∧
    (∀ j, bucket c' !! j =
          (λ b, if bool_decide (i <= j < i + n)%nat && p b then init_bucket else b) <$> bucket c !! j) ∧
    curr_ir1_index c' = curr_ir1_index c ∧
    ir1_reg_last_updated_index c' = ir1_reg_last_updated_index c.
Proof using Type.
  revert i c. induction n as [|n IH]; intros i c I Hn Hp; simpl.
  - exists c. split_and!; try done. intros j. rewrite bool_decide_false by lia. simpl.
    by destruct (bucket c !! j).
  - pose proof I as [_ I2 _ _ _ _ _]. destruct (lookup_lt_is_Some_2 (bucket c) i) as [b Hb]; [lia|].
    rewrite bget_nat, Hb. simpl. replace (Z.of_nat i + 1) with (Z.of_nat (S i)) by lia.
    destruct (p b) eqn:Pb.
    + destruct (inv_free_bucket c i b) as (c1 & -> & I1 & B1 & _ & F1 & X1 & U1); [done|lia|done|auto|].
      simpl. rewrite F1. destruct (IH (S i) _ I1) as (c2 & -> & I2' & B2 & X2 & U2); [lia|done|].
      exists c2. simpl in X2, U2. rewrite X2, U2. split_and!; try done. intros j. rewrite B2. simpl.
      rewrite B1. destruct (decide (i = j)) as [<-|N].
      * rewrite list_lookup_insert_eq, Hb by lia. simpl.
        rewrite bool_decide_false by lia. simpl. by rewrite bool_decide_true, Pb by lia.
      * rewrite list_lookup_insert_ne by done. destruct (bucket c !! j); [|done]. simpl.
        by rewrite (bool_decide_ext (S i <= j < S i + n)%nat (i <= j < i + S n)%nat) by lia.
    + cbn [mbind option_bind]. destruct (IH (S i) c I) as (c2 & -> & I2' & B2 & X2 & U2); [lia|done|].
      exists c2. split_and!; try done. intros j. rewrite B2.
      destruct (decide (i = j)) as [<-|N].
      * rewrite Hb. simpl. by rewrite Pb, !andb_false_r.
      * destruct (bucket c !! j); [|done]. simpl.
        by rewrite (bool_decide_ext (S i <= j < S i + n)%nat (i <= j < i + S n)%nat) by lia.
Qed.

Lemma free_itemp_bucket_ok c t :
  cache_inv c →
  ∃ c', imm_cache_free_itemp c t = Some c' ∧ cache_inv c' ∧
    (∀ j b, (j < 4)%nat → bucket c' !! j = Some b → b_free b = false →
            bucket c !! j = Some b ∧ itemp_num b ≠ t) ∧
    curr_ir1_index c' = curr_ir1_index c ∧
    ir1_reg_last_updated_index c' = ir1_reg_last_updated_index c.
Proof using Type.
  intros I. unfold imm_cache_free_itemp. rewrite (inv_count c I).
  destruct (free_where_ok (λ b, (itemp_num b =? t) && negb (b_free b)) 4 0 c I)
    as (c' & E & I' & B & X & U); [lia|intros b H; by bool_to_prop|].
  exists c'. split_and!; try done. intros j b Hj Hb Fb. rewrite B in Hb.
  rewrite bool_decide_true in Hb by lia. destruct (bucket c !! j) as [b0|]; [|done].
  simpl in Hb. destruct (Z.eqb_spec (itemp_num b0) t) as [Et|Et]; simpl in Hb.
  - destruct (b_free b0) eqn:F0; simpl in Hb; injection Hb as <-; [congruence|done].
  - by simplify_eq.
Qed.

Lemma init_ok c :
  (4 <= length (bucket c))%nat →
  ∃ c', imm_cache_init c CACHE_DEFAULT_CAPACITY = Some c' ∧ cache_inv c' ∧ curr_ir1_index c' = 0 ∧
    ∀ b, b ∈ buckets c' → b = init_bucket.
Proof using Type.
  intros L. unfold imm_cache_init, CACHE_DEFAULT_CAPACITY. simpl.
  destruct (Z.leb_spec 4 (Z.of_nat (length (bucket c)))); [|lia]. eexists. split; [done|].
  change (Z.to_nat 4) with 4%nat. split; [|split; [done|]].
  - constructor; simpl; try done; try lia.
    + repeat constructor.
    + constructor.
    + split; [done|]. intros k Hk. rewrite decide_False by apply not_elem_of_nil.
      assert (k = 0 ∨ k = 1 ∨ k = 2 ∨ k = 3) as [->|[->|[->| ->]]] by lia; reflexivity.
  - simpl. intros b Hb. unfold buckets in Hb. simpl in Hb. rewrite !elem_of_cons in Hb.
    destruct Hb as [?|[?|[?|[?|Hb]]]]; try done. by apply not_elem_of_nil in Hb.
Qed.
End qsort.
