(* ===== verification/ImmCacheMain.v ===== *)
(** * The values of cached registers

    The cache together with the values of the temporaries it uses and of the x86
    registers: the temporary of a usable bucket holds the bucket's address.  An
    allocation, the release of a register and the end of an x86 instruction keep this
    invariant. *)

From stdpp Require Import base numbers list option sorting tactics.
From Stdlib Require Import ZArith Lia Bool.
From S2P Require Import Prelude Ir1Enum Ir1 Ir2 RegMap ImmCache ImmCacheSound.
Local Open Scope Z_scope.
Local Open Scope c_scope.

(** ** The machine *)

Record machine := mkM {
  m_cache : IMM_CACHE;
  m_temp : Z → Z;            (** values of the temporaries 3 to 6 *)
  m_reg : Z → Z              (** values of the x86 registers *)
}.

Definition fupd (f : Z → Z) (k v : Z) : Z → Z := λ x, if x =? k then v else f x.

(** [base + index * scale]; a negative number stands for no register (or for rip,
    whose value is part of the offset). *)
Definition ea (regs : Z → Z) (base index scale : Z) : Z :=
  (if 0 <=? base then regs base else 0) + (if 0 <=? index then regs index * scale else 0).

(** The register of the first operand. *)
Definition marked_opnd (pir1 : IR1_INST) : list Z :=
  match ir1_get_opnd pir1 0 with
  | Some o => if ir1_opnd_is_gpr o then [ir1_opnd_base_reg_num o] else []
  | None => []
  end.

(** The registers [imm_cache_update_ir1_usage] records for an instruction. *)
Definition marked (pir1 : IR1_INST) : list Z :=
  if 0 <? ir1_get_opnd_num pir1 then
    match usage_of (ir1_opcode pir1) with
    | UStack => [esp_index]
    | UMul => [eax_index; edx_index]
    | UAll => zrange 0 16
    | UExchange | UOther => []
    end ++ marked_opnd pir1
  else [].

#[local] Arguments imm_cache_update_by_diff : simpl never.

(** ** The invariant *)

(** The temporary of a usable bucket holds its address. *)
Definition bucket_holds (m : machine) (b : IMM_CACHE_BUCKET) : Prop :=
  b_free b = false →
  avg_offset b = 0 ∧ pre_cache b = false ∧ b_ir1_index b <= curr_ir1_index (m_cache m) ∧
  (b_base b < 16 ∧ b_index b < 16) ∧
  (unchanged (m_cache m) (b_base b) (b_index b) b →
   u64 (m_temp m (itemp_num b)) = u64 (ea (m_reg m) (b_base b) (b_index b) (b_scale b) + b_offset b)).

Definition machine_inv (m : machine) : Prop :=
  cache_inv (m_cache m) ∧ Forall (bucket_holds m) (buckets (m_cache m)).

Lemma itemps_distinct l i j a b :
  NoDup (itemps l) → l !! i = Some a → l !! j = Some b → b_free a = false → b_free b = false →
  itemp_num a = itemp_num b → i = j.
Proof.
  revert i j. induction l as [|x l IH]; intros i j ND Ha Hb Fa Fb E; [done|].
  rewrite itemps_cons in ND.
  assert (In : ∀ k y, l !! k = Some y → b_free y = false → itemp_num y ∈ itemps l).
  { intros k y Hk Fy. unfold itemps. apply list_elem_of_omap. exists y.
    split; [by eapply list_elem_of_lookup_2|]. unfold owned. by rewrite Fy. }
  destruct i as [|i], j as [|j]; simplify_eq/=; try done.
  - unfold owned in ND. rewrite Fa in ND. apply list.NoDup_cons in ND as [N _].
    destruct N. rewrite E. by eapply In.
  - unfold owned in ND. rewrite Fb in ND. apply list.NoDup_cons in ND as [N _].
    destruct N. rewrite <- E. by eapply In.
  - f_equal. eapply IH; try done. destruct (owned x); [|done]. by apply list.NoDup_cons in ND as [_ ND].
Qed.

(** The other live buckets do not notice a write to the temporary of bucket [i]. *)
Lemma other_temp c i j a b temp v :
  cache_inv c → (i < 4)%nat → (j < 4)%nat → i ≠ j → bucket c !! i = Some a → bucket c !! j = Some b →
  b_free a = false → b_free b = false → fupd temp (itemp_num a) v (itemp_num b) = temp (itemp_num b).
Proof.
  intros I Hi Hj N Ha Hb Fa Fb. unfold fupd. destruct (Z.eqb_spec (itemp_num b) (itemp_num a)); [|done].
  exfalso. apply N. rewrite <- buckets_lookup in Ha, Hb by done.
  eapply itemps_distinct; [apply (inv_nodup c I)|done..].
Qed.

Lemma u64_add a b k : u64 a = u64 b → u64 (a + k) = u64 (b + k).
Proof.
  unfold u64, uwrap. intros H. rewrite (Z.add_mod a), (Z.add_mod b), H by lia. done.
Qed.

Lemma u64_s64_add x y : u64 (x + s64 y) = u64 (x + y).
Proof.
  unfold u64, uwrap. rewrite (Z.add_mod x (s64 y)), (Z.add_mod x y) by lia.
  unfold s64. by rewrite swrap_mod by lia.
Qed.

Lemma holds_intro m :
  cache_inv (m_cache m) →
  (∀ j b, (j < 4)%nat → bucket (m_cache m) !! j = Some b → bucket_holds m b) → machine_inv m.
Proof.
  intros I H. split; [done|]. apply Forall_lookup_2. intros j b Hb.
  assert (Hj : (j < 4)%nat).
  { apply lookup_lt_Some in Hb. unfold buckets in Hb. rewrite length_take in Hb. lia. }
  rewrite buckets_lookup in Hb by done. by eapply H.
Qed.

(** A bucket's promise depends only on the indices, its temporary and the registers. *)
Lemma holds_transfer m m' b :
  bucket_holds m b →
  ir1_reg_last_updated_index (m_cache m') = ir1_reg_last_updated_index (m_cache m) →
  curr_ir1_index (m_cache m') = curr_ir1_index (m_cache m) → m_reg m' = m_reg m →
  (b_free b = false → m_temp m' (itemp_num b) = m_temp m (itemp_num b)) → bucket_holds m' b.
Proof.
  intros H U X R T F. destruct (H F) as (A & P & L & [B1 B2] & V). rewrite X, R, T by done.
  split_and!; try done. intros Hu. apply V. intros r u Hr Hl. eapply Hu; [done|]. by rewrite U.
Qed.

(** The buckets of the sorted cache hold what those of the cache held. *)
Lemma sorted_holds m cs j b :
  machine_inv m → buckets cs ≡ₚ buckets (m_cache m) → (j < 4)%nat →
  bucket cs !! j = Some b → bucket_holds m b.
Proof.
  intros [_ F] P Hj Hb. rewrite <- P in F. rewrite <- buckets_lookup in Hb by done.
  by eapply Forall_lookup_1.
Qed.

(** The state of a bucket that was just computed. *)
Lemma computed_holds m b base index scale offset :
  base < 16 → index < 16 → computed (m_cache m) base index scale offset b →
  u64 (m_temp m (itemp_num b)) = u64 (ea (m_reg m) base index scale + offset) →
  bucket_holds m b.
Proof.
  intros Hb Hi (_ & E1 & E2 & E3 & E4 & A & P & X) V _. rewrite E1, E2, E3, E4, X. done.
Qed.

Section steps.
Context (qsort : list IMM_CACHE_BUCKET → list IMM_CACHE_BUCKET) `{!Qsort qsort} (skip_pc : Z).

(** An access whose register is taken leaves no bucket behind. *)
Lemma free_step m c t :
  cache_inv c → curr_ir1_index c = curr_ir1_index (m_cache m) →
  ir1_reg_last_updated_index c = ir1_reg_last_updated_index (m_cache m) →
  (∀ j b, (j < 4)%nat → bucket c !! j = Some b → b_free b = false → itemp_num b ≠ t → bucket_holds m b) →
  ∀ v, ∃ c', imm_cache_free_itemp c t = Some c' ∧
    machine_inv (mkM c' (fupd (m_temp m) t v) (m_reg m)) ∧ machine_inv (mkM c' (m_temp m) (m_reg m)).
Proof using Type.
  intros I X U H v. destruct (free_itemp_bucket_ok c t I) as (c' & E & I' & B & X' & U').
  exists c'. split; [done|]. split; (apply holds_intro; [done|]); simpl; intros j b Hj Hb Fb;
    destruct (B j b Hj Hb Fb) as [Hb' Nt];
    (eapply (holds_transfer m); [by eapply H| | | | |exact Fb]); simpl; try congruence; try done.
  intros _. unfold fupd. by destruct (Z.eqb_spec (itemp_num b) t).
Qed.

(** Bucket [i] of [c] was written, its temporary holds its address; the others are as
    in [cs]. *)
Lemma write_step m c cs i b b0 temp v :
  cache_inv c → cache_inv cs → (i < 4)%nat → bucket c = <[i := b]> (bucket cs) → b_free b = false →
  bucket cs !! i = Some b0 →
  (∀ j b, (j < 4)%nat → bucket cs !! j = Some b → bucket_holds (mkM c temp (m_reg m)) b) →
  bucket_holds (mkM c (fupd temp (itemp_num b) v) (m_reg m)) b →
  machine_inv (mkM c (fupd temp (itemp_num b) v) (m_reg m)).
Proof using Type.
  intros I Is Hi B Fb Hb0 H Hb. apply holds_intro; [done|]. simpl. intros j bj Hj Hl.
  assert (Hbc : bucket c !! i = Some b)
    by (rewrite B; apply list_lookup_insert_eq; by eapply lookup_lt_Some).
  destruct (decide (i = j)) as [<-|N]; [by rewrite Hbc in Hl; injection Hl as <-|].
  intros Fj. eapply (holds_transfer (mkM c temp (m_reg m))); [| | | | |exact Fj]; simpl; try done.
  - eapply (H j); [done|]. by rewrite B, list_lookup_insert_ne in Hl.
  - intros _. by eapply (other_temp c i j b bj).
Qed.

Lemma allocated_bucket cs base index scale offset res bl :
  allocated cs base index scale offset res bl →
  ∃ i b, (i < 4)%nat ∧ bl = <[i := b]> (bucket cs) ∧ itemp_num b = r_itemp_num res.
Proof using Type. intros []; eauto. Qed.

(** A hit: the bucket keeps its address, or moves to the new one. *)
Lemma hit_step m c cs i b d base index scale offset :
  cache_inv c → cache_inv cs → (i < 4)%nat → bucket cs !! i = Some b →
  bucket c = <[i := set_use_count (use_count b + 1) (set_pre_cache false b)]> (bucket cs) →
  curr_ir1_index c = curr_ir1_index (m_cache m) →
  ir1_reg_last_updated_index c = ir1_reg_last_updated_index (m_cache m) →
  same_address base index scale b = true → unchanged (m_cache m) base index b →
  d = s64 (offset - criterion_offset b) → si12_overflow d = false →
  (∀ j b, (j < 4)%nat → bucket cs !! j = Some b → bucket_holds m b) →
  let produced := m_temp m (itemp_num b) + d in
  u64 produced = u64 (ea (m_reg m) base index scale + offset) ∧
  machine_inv (mkM c (m_temp m) (m_reg m)) ∧
  ∃ c', imm_cache_update_by_diff c (Z.of_nat i) d = Some c' ∧
    machine_inv (mkM c' (fupd (m_temp m) (itemp_num b) produced) (m_reg m)).
Proof using Type.
  intros I Is Hi Hb B X U Sm Un Ed O Hs produced. unfold same_address in Sm. bool_to_prop.
  destruct (Hs i b Hi Hb H0) as (A & P & L & [Rb Ri] & V). unfold criterion_offset in Ed.
  rewrite A in Ed. simpl in Ed. subst base index scale. specialize (V Un).
  assert (R : u64 produced = u64 (ea (m_reg m) (b_base b) (b_index b) (b_scale b) + offset)).
  { unfold produced. rewrite Ed, u64_s64_add, (u64_add _ _ (offset - b_offset b) V).
    f_equal. lia. }
  assert (Hbc : bucket c !! i = Some (set_use_count (use_count b + 1) (set_pre_cache false b)))
    by (rewrite B; apply list_lookup_insert_eq; by eapply lookup_lt_Some).
  assert (Hc : ∀ j b, (j < 4)%nat → bucket cs !! j = Some b →
               bucket_holds (mkM c (m_temp m) (m_reg m)) b).
  { intros j b' Hj Hl. eapply (holds_transfer m); [by eapply Hs|done..]. }
  split; [exact R|]. split.
  - apply holds_intro; [done|]. simpl. intros j bj Hj Hl. destruct (decide (i = j)) as [<-|N].
    + rewrite Hbc in Hl. injection Hl as <-. intros _. destruct (Hc i b Hi Hb H0) as (_ & _ & L' & _ & V').
      done.
    + eapply (Hc j); [done|]. by rewrite B, list_lookup_insert_ne in Hl.
  - unfold imm_cache_update_by_diff. rewrite (bupd_nat _ _ _ _ Hbc). eexists. split; [done|].
    set (b' := set_offset _ _).
    assert (I' : cache_inv (bput c i b')).
    { eapply inv_keep; try done. pose proof Hbc as Hk. rewrite <- buckets_lookup in Hk by done.
      pose proof (Forall_lookup_1 _ _ _ _ (inv_buckets c I) Hk) as Ok.
      unfold bucket_ok in *. simpl in *. by rewrite H0 in *. }
    change (itemp_num b) with (itemp_num b').
    eapply (write_step m (bput c i b') cs i b' b); try done.
    + simpl. by rewrite B, list_insert_insert_eq.
    + intros _. simpl. rewrite X, A. split_and!; try done. intros _. unfold fupd. simpl.
      rewrite Z.eqb_refl, R. rewrite (u64_s64_add (ea _ _ _ _) (b_offset b + d)), Ed.
      rewrite Z.add_assoc, u64_s64_add. f_equal. lia.
Qed.

(** What an allocation for an access leaves: the machine to continue with if the
    register is in use otherwise, if the bucket was hit (with or without moving it), or
    once the address has been computed into its register. *)
Definition allocation_ok (m : machine) (address : Z) (res : IMM_CACHE_RES) (c : IMM_CACHE) : Prop :=
  let t := r_itemp_num res in
  (∃ c', imm_cache_free_itemp c t = Some c' ∧ machine_inv (mkM c' (m_temp m) (m_reg m))) ∧
  if cached res then
    r_pre_cache res = false ∧ ∃ d, diff res = Some d ∧ si12_overflow d = false ∧
    u64 (m_temp m t + d) = u64 address ∧ machine_inv (mkM c (m_temp m) (m_reg m)) ∧
    ∃ c', imm_cache_update_by_diff c (cache_id res) d = Some c' ∧
      machine_inv (mkM c' (fupd (m_temp m) t (m_temp m t + d)) (m_reg m))
  else machine_inv (mkM c (fupd (m_temp m) t address) (m_reg m)).

(** The live buckets after an allocation: the one that was asked for and old ones. *)
Definition owners_from (c0 c : IMM_CACHE) (t : Z) : Prop :=
  ∀ b, b ∈ buckets c → b_free b = false → itemp_num b = t ∨ b ∈ buckets c0.

Lemma allocate_step m base index scale offset :
  machine_inv m → base < 16 → index < 16 →
  ∃ res c, imm_cache_allocate qsort skip_pc (m_cache m) base index scale offset = Some (res, c) ∧
    3 <= r_itemp_num res <= 6 ∧ cache_inv c ∧ owners_from (m_cache m) c (r_itemp_num res) ∧
    allocation_ok m (ea (m_reg m) base index scale + offset) res c.
Proof using All.
  intros M Hb Hi. pose proof M as [I _].
  destruct (cache_allocate_ok qsort skip_pc (m_cache m) base index scale offset I Hb Hi)
    as (res & c & cs & E & I' & Is & Ps & Us & Xs & A & Rt & U & X). exists res, c.
  assert (Hs : ∀ j b, (j < 4)%nat → bucket cs !! j = Some b → bucket_holds m b)
    by (intros; by eapply sorted_holds).
  assert (Hc : ∀ j b, (j < 4)%nat → bucket cs !! j = Some b →
               bucket_holds (mkM c (m_temp m) (m_reg m)) b).
  { intros j b Hj Hl. eapply (holds_transfer m); [by eapply Hs|done..]. }
  destruct (allocated_bucket _ _ _ _ _ _ _ A) as (i0 & b0 & Hi0 & B0 & Et).
  assert (Ho : ∀ j b, (j < 4)%nat → bucket c !! j = Some b → itemp_num b = r_itemp_num res ∨
                      bucket cs !! j = Some b).
  { intros j b Hj Hl. rewrite B0 in Hl. destruct (decide (i0 = j)) as [<-|N].
    - apply list_lookup_insert_Some in Hl as [(_ & <- & _)|(? & _)]; [by left|done].
    - rewrite list_lookup_insert_ne in Hl by done. by right. }
  split; [done|]. split; [done|]. split; [done|]. split; [|split].
  - intros b [j Hj]%list_elem_of_lookup Fb.
    assert (Hj4 : (j < 4)%nat) by (apply lookup_lt_Some in Hj; unfold buckets in Hj; rewrite length_take in Hj; lia).
    rewrite buckets_lookup in Hj by done. destruct (Ho j b Hj4 Hj) as [?|Hj']; [by left|right].
    rewrite <- buckets_lookup in Hj' by done. rewrite <- Ps. by eapply list_elem_of_lookup_2.
  - destruct (free_step m c (r_itemp_num res) I' X U) with (v := 0) as (c' & E' & _ & M'); [|eauto].
    intros j b Hj Hl Fj Nt. destruct (Ho j b Hj Hl) as [?|Hl']; [done|]. by eapply Hs.
  - remember (bucket c) as bl eqn:Ebl. symmetry in Ebl.
    destruct A as [i b d Hi4 Hl Sm Un Ed O|i off b Hi4 C]; simpl in *.
    + destruct (hit_step m c cs i b d base index scale offset) as (R & M1 & c' & Eu & M2); try done.
      { intros r u Hr Hl'. eapply Un; [done|]. by rewrite Us. }
      destruct (Hs i b Hi4 Hl) as (_ & P & _); [unfold same_address in Sm; by bool_to_prop|].
      split; [done|]. exists d. split_and!; try done. eauto.
    + pose proof C as (Fb & _).
      destruct (lookup_lt_is_Some_2 (bucket cs) i) as [b1 Hb1]; [pose proof (inv_len cs Is); lia|].
      eapply (write_step m c cs i b b1); try done. eapply (computed_holds _ _ base index); simpl; [done|done|..].
      * destruct C as (? & ? & ? & ? & ? & ? & ? & C8). split_and!; try done.
        rewrite C8. simpl. congruence.
      * unfold fupd. by rewrite Z.eqb_refl.
Qed.

(** ** Ends of instructions *)

Lemma decide_iff {A} (P Q : Prop) `{!Decision P, !Decision Q} (x y : A) :
  (P ↔ Q) → (if decide P then x else y) = (if decide Q then x else y).
Proof using Type. intros H. destruct (decide P), (decide Q); tauto. Qed.

Lemma mark_reg_ok l r i :
  length l = 16%nat → 0 <= r < 16 →
  ∃ l', mark_reg l r i = Some l' ∧ length l' = 16%nat ∧
    ∀ k, 0 <= k → aget l' k = if decide (r = k) then Some i else aget l k.
Proof using Type.
  intros L Hr. unfold mark_reg. rewrite aset_Some by lia. eexists. split; [done|].
  split; [by rewrite length_insert|]. intros k Hk. apply aget_insert; lia.
Qed.

Lemma mark_opnd_ok l pir1 i :
  length l = 16%nat → 0 < ir1_get_opnd_num pir1 →
  ∃ l', mark_opnd l pir1 0 i = Some l' ∧ length l' = 16%nat ∧
    ∀ k, 0 <= k → aget l' k = if decide (k ∈ marked_opnd pir1) then Some i else aget l k.
Proof using Type.
  intros L Hn. unfold mark_opnd. unfold ir1_get_opnd_num in Hn. unfold marked_opnd, ir1_get_opnd.
  destruct (operands (info pir1)) as [|o os]; [simpl in Hn; lia|]. simpl.
  destruct (ir1_opnd_is_gpr o) eqn:G.
  - destruct (mark_reg_ok l (ir1_opnd_base_reg_num o) i L (opnd_gpr_num_range o G)) as (l' & E & L' & H).
    exists l'. split_and!; try done. intros k Hk. rewrite H by done.
    destruct (decide (ir1_opnd_base_reg_num o = k)) as [->|N].
    + by rewrite decide_True by left.
    + rewrite decide_False; [done|]. intros [?|Hf]%elem_of_cons; [done|]. by apply not_elem_of_nil in Hf.
  - by exists l.
Qed.

Lemma usage_ok c pir1 i :
  length (ir1_reg_last_updated_index c) = 16%nat →
  ∃ l', imm_cache_update_ir1_usage c pir1 i = Some (set_updated c l') ∧ length l' = 16%nat ∧
    ∀ k, 0 <= k < 16 → aget l' k =
      if decide (k ∈ marked pir1) then Some i else aget (ir1_reg_last_updated_index c) k.
Proof using Type.
  intros L. unfold imm_cache_update_ir1_usage, marked. destruct (0 <? ir1_get_opnd_num pir1) eqn:N.
  2: { exists (ir1_reg_last_updated_index c). split; [by destruct c|]. split; [done|].
       intros k _. by rewrite decide_False by apply not_elem_of_nil. }
  apply Z.ltb_lt in N. unfold usage_marks.
  set (l := ir1_reg_last_updated_index c) in *. set (tail := marked_opnd pir1).
  assert (T : ∀ (l0 : list Z) pre, length l0 = 16%nat →
    (∀ k, 0 <= k < 16 → aget l0 k = if decide (k ∈ pre) then Some i else aget l k) →
    ∃ l', mark_opnd l0 pir1 0 i = Some l' ∧ length l' = 16%nat ∧
      ∀ k, 0 <= k < 16 → aget l' k = if decide (k ∈ pre ++ tail) then Some i else aget l k).
  { intros l0 pre L0 H0. destruct (mark_opnd_ok l0 pir1 i L0 N) as (l' & E & L' & H').
    exists l'. split_and!; try done. intros k Hk. rewrite H' by lia. rewrite H0 by done.
    fold tail. destruct (decide (k ∈ tail)), (decide (k ∈ pre)), (decide (k ∈ pre ++ tail));
      rewrite ?elem_of_app in *; tauto. }
  destruct (usage_of (ir1_opcode pir1)).
  - destruct (mark_reg_ok l esp_index i L) as (l1 & E1 & L1 & H1); [unfold esp_index; lia|].
    rewrite E1. simpl. destruct (T l1 [esp_index] L1) as (l' & -> & ?); [|by exists l'].
    intros k Hk. rewrite H1 by lia. apply decide_iff. rewrite list_elem_of_singleton. done.
  - destruct (mark_reg_ok l eax_index i L) as (l1 & E1 & L1 & H1); [unfold eax_index; lia|].
    rewrite E1. simpl.
    destruct (mark_reg_ok l1 edx_index i L1) as (l2 & E2 & L2 & H2); [unfold edx_index; lia|].
    rewrite E2. simpl. destruct (T l2 [eax_index; edx_index] L2) as (l' & -> & ?); [|by exists l'].
    intros k Hk. rewrite H2, H1 by lia.
    destruct (decide (edx_index = k)), (decide (eax_index = k)), (decide (k ∈ [eax_index; edx_index])) as [m|m];
      rewrite elem_of_cons, list_elem_of_singleton in m; try done; exfalso; intuition congruence.
  - destruct (T l [] L) as (l' & -> & ?); [|by exists l'].
    intros k _. by rewrite decide_False by apply not_elem_of_nil.
  - destruct (T (replicate 16 i) (zrange 0 16)) as (l' & -> & ?); [done| |by exists l'].
    intros k Hk. rewrite decide_True by (apply zrange_elem; lia). unfold aget.
    destruct (Z.ltb_spec k 0); [lia|]. apply lookup_replicate_2. lia.
  - destruct (T l [] L) as (l' & -> & ?); [|by exists l'].
    intros k _. by rewrite decide_False by apply not_elem_of_nil.
Qed.

Lemma ea_ext regs regs' base index scale :
  (0 <= base → regs' base = regs base) → (0 <= index → regs' index = regs index) →
  ea regs' base index scale = ea regs base index scale.
Proof using Type.
  intros H1 H2. unfold ea. destruct (Z.leb_spec 0 base), (Z.leb_spec 0 index);
    rewrite ?H1, ?H2 by done; done.
Qed.

Lemma end_step m pir1 n vals :
  machine_inv m →
  ∃ c, imm_cache_update_ir1_usage (m_cache m) pir1 (curr_ir1_index (m_cache m)) = Some c ∧
    machine_inv (mkM (set_ir1_index c (curr_ir1_index c + 1) n) (m_temp m)
                   (λ r, if bool_decide (r ∈ marked pir1) then vals r else m_reg m r)).
Proof using Type.
  destruct m as [c temp regs]. intros [I F]. simpl in *.
  destruct (usage_ok c pir1 (curr_ir1_index c) (inv_upd c I)) as (l & -> & L & H). simpl.
  eexists. split; [done|]. apply holds_intro; simpl.
  - destruct I. by constructor.
  - intros j b Hj Hb Fb. simpl in Hb.
    rewrite <- buckets_lookup in Hb by done.
    destruct (Forall_lookup_1 _ _ _ _ F Hb Fb) as (A & P & X & [Rb Ri] & V). simpl in *.
    split_and!; [done|done|lia|done|done|]. intros Hu.
    assert (K : ∀ r, r = b_base b ∨ r = b_index b → 0 <= r → r ∉ marked pir1).
    { intros r Hr H0 Hm. assert (r < 16) by (destruct Hr; subst; lia).
      specialize (Hu r (curr_ir1_index c) Hr). simpl in Hu. rewrite H, decide_True in Hu by (done || lia).
      specialize (Hu eq_refl). lia. }
    rewrite V.
    + f_equal. f_equal. symmetry. apply ea_ext; intros H0; simpl; by rewrite bool_decide_false by auto.
    + intros r u Hr Hl. apply (Hu r u Hr). simpl. pose proof (aget_bound _ _ _ Hl) as [H0 H1].
      rewrite (inv_upd c I) in H1. rewrite H by lia. by rewrite decide_False by auto.
Qed.
End steps.

(** A sort the C library could use. *)
Definition by_use (a b : IMM_CACHE_BUCKET) : Prop := use_count b <= use_count a.

Global Instance by_use_dec : RelDecision by_use.
Proof. intros a b. unfold by_use. apply _. Defined.

Global Instance merge_qsort : Qsort (merge_sort by_use).
Proof.
  split; intros l; [apply merge_sort_Permutation|].
  apply StronglySorted_merge_sort.
  - intros a b c. unfold by_use. lia.
  - intros a b. unfold by_use. lia.
Qed.

Definition blank_cache : IMM_CACHE :=
  mkC (replicate 4 init_bucket) 0 0 0 0 0 false 0 false [] [] false.

Definition gpr (r : dt_x86_reg) : IR1_OPND := mkOpnd (OP_REG r) 8.
Definition two_op (op : dt_x86_insn) (a b : IR1_OPND) : IR1_INST :=
  mkIR1 (mkInfo op [0; 0; 0; 0] 0 [a; b] 0 0 [] 8 0) 0 0 0 0 0 0 None.

(** C36 XCHG and XADD write both operands, but only the first is recorded: after
    [xchg rax, rbx] the index of the last change of rbx is still the old one, and an
    address based on rbx that was cached before counts as valid. *)
Theorem exchange_second_operand_lost (op : dt_x86_insn) c i :
  usage_of op = UExchange → length (ir1_reg_last_updated_index c) = 16%nat →
  ∃ c', imm_cache_update_ir1_usage c (two_op op (gpr dt_X86_REG_RAX) (gpr dt_X86_REG_RBX)) i = Some c' ∧
    aget (ir1_reg_last_updated_index c') eax_index = Some i ∧
    aget (ir1_reg_last_updated_index c') ebx_index =
    aget (ir1_reg_last_updated_index c) ebx_index.
Proof.
  intros U L.
  destruct (usage_ok c (two_op op (gpr dt_X86_REG_RAX) (gpr dt_X86_REG_RBX)) i L) as (l & -> & _ & H).
  exists (set_updated c l). split; [done|]. simpl.
  assert (M : marked (two_op op (gpr dt_X86_REG_RAX) (gpr dt_X86_REG_RBX)) = [eax_index]).
  { unfold marked. change (ir1_opcode _) with op. by rewrite U. }
  rewrite !H, M by (unfold eax_index, ebx_index; lia). done.
Qed.

Lemma exchange_second_operand_lost_witness :
  ∃ c', imm_cache_update_ir1_usage
    (mkC [] 4 4 0 0 0 false 0 false (replicate 16 (-1)) [1; 1; 1; 1] false)
    (two_op dt_X86_INS_XCHG (gpr dt_X86_REG_RAX) (gpr dt_X86_REG_RBX)) 7 = Some c' ∧
    aget (ir1_reg_last_updated_index c') eax_index = Some 7 ∧
    aget (ir1_reg_last_updated_index c') ebx_index = Some (-1).
Proof.
  apply (exchange_second_operand_lost dt_X86_INS_XCHG
    (mkC [] 4 4 0 0 0 false 0 false (replicate 16 (-1)) [1; 1; 1; 1] false) 7).
  - reflexivity.
  - reflexivity.
Defined.
