(* ===== verification/RegAlloc.v ===== *)
(** * Allocation of temporary registers (translator/reg-alloc.c, include/reg-alloc.h)

    A bit per temporary says whether it is in use; [ra_alloc_itemp] takes the first one
    that is not, and drops the cached address that lives in it.  The bits refine a set
    of registers in use, and a register in use never holds a cached address. *)

From stdpp Require Import base numbers list option gmap sets tactics.
From Stdlib Require Import ZArith Lia Bool.
From S2P Require Import Prelude Ir1Enum Ir1 Ir2 Ir2List RegMap ImmCache ImmCacheSound.
Local Open Scope Z_scope.
Local Open Scope c_scope.

(** ** State *)

(** [itemp_status] and [ftemp_status] are the halves of [all_temp_status]. *)
Record temps := mkT {
  itemp_status : Z;          (** uint16_t *)
  ftemp_status : Z;          (** uint16_t *)
  imm_cache : IMM_CACHE
}.

Definition set_itemp_status (s : temps) (x : Z) : temps := mkT x (ftemp_status s) (imm_cache s).
Definition set_ftemp_status (s : temps) (x : Z) : temps := mkT (itemp_status s) x (imm_cache s).
Definition set_imm_cache (s : temps) (c : IMM_CACHE) : temps :=
  mkT (itemp_status s) (ftemp_status s) c.

Definition itemp_status_num : Z := Z.of_nat (length reg_itemp_map).
Definition ftemp_status_num : Z := Z.of_nat (length reg_ftemp_map).

(** ** Bits *)

(** The instruction cto.w: the number of trailing ones of a 32-bit value. *)
Fixpoint cto_from (n : nat) (i x : Z) : Z :=
  match n with O => i | S n => if Z.testbit x i then cto_from n (i + 1) x else i end.
Definition cto_w (x : Z) : Z := cto_from 32 0 x.

(** [RA_ALLOC_TEMP_NUM_FUNC]: the register (-1: none left) and the new status. *)
Definition ra_alloc_temp_num (reg_map : list Z) (status : Z) : option (Z * Z) :=
  let cto_num := cto_w status in
  if Z.of_nat (length reg_map) <=? cto_num then Some (-1, status)
  else
    r ← aget reg_map cto_num;
    Some (r, u16 (Z.lor status (Z.shiftl 1 cto_num))).

(** [RA_FREE_CODE] *)
Definition ra_free_code (reverse_map : list Z) (status phy_id : Z) : option Z :=
  virt_id ← aget reverse_map phy_id;
  lsassert (0 <=? virt_id) && negb (Z.land status (Z.shiftl 1 virt_id) =? 0) ;;
  Some (u16 (Z.land status (Z.lnot (Z.shiftl 1 virt_id)))).

Definition ra_free_itemp (s : temps) (phy_id : Z) : option temps :=
  x ← ra_free_code reg_itemp_reverse_map (itemp_status s) phy_id; Some (set_itemp_status s x).
Definition ra_free_ftemp (s : temps) (phy_id : Z) : option temps :=
  x ← ra_free_code reg_ftemp_reverse_map (ftemp_status s) phy_id; Some (set_ftemp_status s x).

(** ** Operations *)

Definition free_imm_reg (s : temps) (itemp_num : Z) : option temps :=
  c ← imm_cache_free_itemp (imm_cache s) itemp_num; Some (set_imm_cache s c).

Definition free_imm_reg_all (s : temps) : option temps :=
  c ← imm_cache_free_all (imm_cache s); Some (set_imm_cache s c).

Section options.
Variable option_imm_reg : bool.

(** With no temporary left the lookup in the reverse map is at index -1. *)
Definition ra_alloc_itemp (s : temps) : option (IR2_OPND * temps) :=
  '(itemp_reg_num, st) ← ra_alloc_temp_num reg_itemp_map (itemp_status s);
  let s := set_itemp_status s st in
  s ← (if option_imm_reg then
         itemp_num ← aget reg_itemp_reverse_map itemp_reg_num;
         imm ← imm_cache_is_imm_itemp itemp_num;
         if (imm : bool) then free_imm_reg s itemp_num else Some s
       else Some s);
  o ← ir2_opnd_build IR2_OPND_GPR itemp_reg_num;
  Some (o, s).

Definition ra_alloc_ftemp (s : temps) : option (IR2_OPND * temps) :=
  '(r, st) ← ra_alloc_temp_num reg_ftemp_map (ftemp_status s);
  o ← ir2_opnd_build IR2_OPND_FPR r;
  Some (o, set_ftemp_status s st).

Definition itemp_is_free (s : temps) (itemp_num : Z) : bool :=
  Z.land (itemp_status s) (Z.shiftl 1 itemp_num) =? 0.

Definition ra_alloc_imm_reg (s : temps) (itemp_num : Z) : option IR2_OPND :=
  if itemp_is_free s itemp_num
  then r ← aget reg_itemp_map itemp_num; ir2_opnd_new IR2_OPND_GPR r
  else Some ir2_opnd_new_none.

(** Freeing an operand that is no temporary is an error here. *)
Definition ra_free_temp (s : temps) (o : IR2_OPND) : option temps :=
  i ← ir2_opnd_is_itemp o;
  if (i : bool) then ra_free_itemp s (_reg_num o) else
  f ← ir2_opnd_is_ftemp o;
  if (f : bool) then ra_free_ftemp s (_reg_num o) else None.

Definition ra_free_temp_auto (s : temps) (o : IR2_OPND) : option temps :=
  i ← ir2_opnd_is_itemp o;
  if (i : bool) then ra_free_itemp s (_reg_num o) else
  f ← ir2_opnd_is_ftemp o;
  if (f : bool) then ra_free_ftemp s (_reg_num o) else Some s.

Definition imm_cache_free_temp_helper (s : temps) (dest_op : IR2_OPND) : option temps :=
  if negb option_imm_reg || itemp_allocated (imm_cache s)
  then ra_free_temp_auto s dest_op else Some s.

Definition ra_free_num_4095 (s : temps) (o : IR2_OPND) : option temps :=
  ra_free_itemp s (_reg_num o).

Definition ra_free_all (s : temps) : temps := mkT 0 0 (imm_cache s).
End options.

(** ** The beginning and the end of a translation *)

(** The translator's state ([TRANSLATION_DATA]).  An empty array is the NULL pointer;
    [has_cache]: the cache has been allocated. *)
Record translator := mkTr {
  curr_tb : option Z;
  curr_ir1_inst : option IR1_INST;
  tr_code : TRANSLATION_DATA;
  tr_temps : temps;
  curr_top : Z;
  has_cache : bool
}.

Definition zero_inst : IR2_INST := mkIR2 0 0 0 0 0 (replicate 4 (mkOpnd2 IR2_OPND_NONE 0)).
Definition zero_bucket : IMM_CACHE_BUCKET := mkB false 0 0 0 false 0 0 0 0 0 0 0 0.

Definition new_array : list IR2_INST := replicate 400 zero_inst.
#[global] Arguments new_array : simpl never.

(** The cache after its allocation: [c] is what [mm_malloc] leaves in its fields, the
    buckets are zero. *)
Definition alloc_cache (c : IMM_CACHE) : IMM_CACHE :=
  set_bucket_list c (replicate (Z.to_nat CACHE_MAX_CAPACITY) zero_bucket).

Definition reset_code (t : TRANSLATION_DATA) (a : list IR2_INST) : TRANSLATION_DATA :=
  mkTD a 0 0 None None 0 0.

Definition tr_init (junk : IMM_CACHE) (t : translator) (tb : option Z) : option translator :=
  lsassert bool_decide (curr_tb t = None) ;;
  let a := match ir2_inst_array (tr_code t) with [] => new_array | a => a end in
  let s := ra_free_all (tr_temps t) in
  Some (mkTr tb None (reset_code (tr_code t) a)
          (if has_cache t then s else set_imm_cache s (alloc_cache junk))
          (match tb with None => 0 | Some _ => curr_top t end) true).

Definition tr_fini (t : translator) : translator :=
  mkTr None None (reset_code (tr_code t) (ir2_inst_array (tr_code t))) (tr_temps t) 0 (has_cache t).

(** ** Pools *)

(** A pool of registers with a table that gives a register's position. *)
Class TempPool (pool rev : list Z) : Prop := {
  pool_nodup : NoDup pool;
  pool_size : (length pool <= 16)%nat;
  pool_rev i r : pool !! i = Some r → aget rev r = Some (Z.of_nat i);
  rev_pool r v : aget rev r = Some v → 0 <= v → pool !! Z.to_nat v = Some r;
}.

(** The bits of [status] are the registers of the pool in [held]. *)
Record pool_repr (pool : list Z) (status : Z) (held : gset Z) : Prop := mkPR {
  repr_range : in_u (Z.of_nat (length pool)) status;
  repr_bits i r : pool !! i = Some r → Z.testbit status (Z.of_nat i) = bool_decide (r ∈ held);
  repr_held r : r ∈ held → r ∈ pool
}.

(** The specification of a pool: the first register not in use. *)
Definition pool_alloc (pool : list Z) (held : gset Z) : option (Z * gset Z) :=
  '(_, r) ← list_find (λ r, r ∉ held) pool; Some (r, {[ r ]} ∪ held).

Definition pool_free (held : gset Z) (r : Z) : option (gset Z) :=
  if decide (r ∈ held) then Some (held ∖ {[ r ]}) else None.

Lemma cto_from_spec n i x :
  0 <= i →
  i <= cto_from n i x <= i + Z.of_nat n ∧
  (∀ j, i <= j < cto_from n i x → Z.testbit x j = true) ∧
  (cto_from n i x < i + Z.of_nat n → Z.testbit x (cto_from n i x) = false).
Proof.
  revert i. induction n as [|n IH]; intros i Hi; cbn [cto_from].
  - split; [lia|]. split; intros; lia.
  - destruct (Z.testbit x i) eqn:E.
    + destruct (IH (i + 1)) as ([H1 H2] & H3 & H4); [lia|]. split; [lia|]. split.
      * intros j Hj. destruct (decide (j = i)) as [->|]; [done|]. apply H3. lia.
      * intros H. apply H4. lia.
    + split; [lia|]. split; [intros; lia|done].
Qed.

(** A single bit is tested with a mask. *)
Lemma land_bit_zero x i : 0 <= i → (Z.land x (Z.shiftl 1 i) =? 0) = negb (Z.testbit x i).
Proof.
  intros Hi. destruct (Z.testbit x i) eqn:E; simpl.
  - apply Z.eqb_neq. intros H. apply (f_equal (λ z, Z.testbit z i)) in H.
    rewrite Z.land_spec, E, Z.shiftl_1_l, Z.pow2_bits_true, Z.bits_0 in H by done. done.
  - apply Z.eqb_eq. apply Z.bits_inj'. intros j Hj.
    rewrite Z.land_spec, Z.shiftl_1_l, Z.pow2_bits_eqb, Z.bits_0 by done.
    destruct (Z.eqb_spec i j) as [<-|]; [by rewrite E|apply andb_false_r].
Qed.

Section pool.
Context (pool rev : list Z) `{!TempPool pool rev}.

Lemma repr_empty : pool_repr pool 0 ∅.
Proof using All.
  split.
  - unfold in_u. split; [lia|]. apply Z.pow_pos_nonneg; lia.
  - intros i r _. rewrite Z.bits_0, bool_decide_false; set_solver.
  - set_solver.
Qed.

(** Where the trailing ones end. *)
Lemma cto_repr status held :
  pool_repr pool status held →
  0 <= cto_w status <= Z.of_nat (length pool) ∧
  (∀ i r, pool !! i = Some r → Z.of_nat i < cto_w status → r ∈ held) ∧
  (∀ r, pool !! Z.to_nat (cto_w status) = Some r → r ∉ held).
Proof using All.
  intros [R B _]. pose proof pool_size as Hs.
  destruct (cto_from_spec 32 0 status) as (H1 & H2 & H3); [lia|]. fold (cto_w status) in *.
  assert (cto_w status <= Z.of_nat (length pool)).
  { apply in_u_testbit in R as [_ R]; [|lia].
    destruct (Z.le_gt_cases (cto_w status) (Z.of_nat (length pool))) as [|G]; [done|].
    pose proof (R _ (H2 (Z.of_nat (length pool)) ltac:(lia))). lia. }
  split; [lia|]. split.
  - intros i r Hl Hi. specialize (B i r Hl). rewrite H2 in B by lia.
    symmetry in B. by apply bool_decide_eq_true in B.
  - intros r Hl. specialize (B _ r Hl). rewrite Z2Nat.id in B by lia.
    rewrite H3 in B; [symmetry in B; by apply bool_decide_eq_false in B|].
    apply lookup_lt_Some in Hl. lia.
Qed.

(** The status stays below 2^16. *)
Lemma u16_pool x : in_u (Z.of_nat (length pool)) x → u16 x = x.
Proof using All.
  intros R. pose proof pool_size. apply uwrap_id. unfold in_u in *. split; [lia|].
  eapply Z.lt_le_trans; [apply R|]. apply Z.pow_le_mono_r; lia.
Qed.

Lemma repr_insert status held i r :
  pool_repr pool status held → pool !! i = Some r →
  pool_repr pool (u16 (Z.lor status (Z.shiftl 1 (Z.of_nat i)))) ({[ r ]} ∪ held).
Proof using All.
  intros [R B H] Hl. pose proof pool_size. pose proof (lookup_lt_Some _ _ _ Hl).
  assert (R' : in_u (Z.of_nat (length pool)) (Z.lor status (Z.shiftl 1 (Z.of_nat i)))).
  { apply in_u_lor; [lia|done|]. unfold in_u. rewrite Z.shiftl_1_l.
    split; [apply Z.pow_nonneg; lia|]. apply Z.pow_lt_mono_r; lia. }
  rewrite u16_pool by done. split; [done| |].
  - intros j x Hj. rewrite Z.lor_spec, (B j x Hj), Z.shiftl_1_l, Z.pow2_bits_eqb by lia.
    destruct (Z.eqb_spec (Z.of_nat i) (Z.of_nat j)) as [E|E].
    + assert (j = i) as -> by lia. rewrite Hl in Hj. injection Hj as <-.
      rewrite orb_true_r, bool_decide_true; set_solver.
    + rewrite orb_false_r. apply bool_decide_ext. assert (x ≠ r); [|set_solver].
      intros ->. apply E. f_equal. by eapply NoDup_lookup; [apply pool_nodup| |].
  - intros x [->%elem_of_singleton|?]%elem_of_union; [by eapply list_elem_of_lookup_2|auto].
Qed.

Lemma repr_delete status held i r :
  pool_repr pool status held → pool !! i = Some r →
  pool_repr pool (u16 (Z.land status (Z.lnot (Z.shiftl 1 (Z.of_nat i))))) (held ∖ {[ r ]}).
Proof using All.
  intros [R B H] Hl.
  assert (R' : in_u (Z.of_nat (length pool)) (Z.land status (Z.lnot (Z.shiftl 1 (Z.of_nat i)))))
    by (apply in_u_land_l; [lia|done]).
  rewrite u16_pool by done. split; [done| |].
  - intros j x Hj.
    rewrite Z.land_spec, testbit_lnot, (B j x Hj), Z.shiftl_1_l, Z.pow2_bits_eqb by lia.
    destruct (Z.eqb_spec (Z.of_nat i) (Z.of_nat j)) as [E|E].
    + assert (j = i) as -> by lia. rewrite Hl in Hj. injection Hj as <-.
      rewrite andb_false_r, bool_decide_false; set_solver.
    + rewrite andb_true_r. apply bool_decide_ext. assert (x ≠ r); [|set_solver].
      intros ->. apply E. f_equal. by eapply NoDup_lookup; [apply pool_nodup| |].
  - set_solver.
Qed.

Lemma alloc_refines status held :
  pool_repr pool status held →
  match pool_alloc pool held with
  | Some (r, held') => ∃ st', ra_alloc_temp_num pool status = Some (r, st') ∧
      pool_repr pool st' held' ∧ r ∈ pool ∧ r ∉ held
  | None => ra_alloc_temp_num pool status = Some (-1, status)
  end.
Proof using All.
  intros R. destruct (cto_repr _ _ R) as (C & Below & At). unfold ra_alloc_temp_num, pool_alloc.
  destruct (Z.leb_spec (Z.of_nat (length pool)) (cto_w status)) as [L|L].
  - rewrite (proj2 (list_find_None _ _)); [done|]. apply Forall_lookup. intros i r Hl N.
    apply N. apply (Below i r Hl). apply lookup_lt_Some in Hl. lia.
  - destruct (lookup_lt_is_Some_2 pool (Z.to_nat (cto_w status))) as [r Hr]; [lia|].
    rewrite (proj2 (list_find_Some _ _ (Z.to_nat (cto_w status)) r)).
    + simpl. rewrite (proj2 (aget_Some _ _ _)) by (split; [lia|done]). simpl.
      eexists. split; [done|]. split.
      * rewrite <- (Z2Nat.id (cto_w status)) at 1 by lia. by apply repr_insert.
      * split; [by eapply list_elem_of_lookup_2|auto].
    + split; [done|]. split; [auto|]. intros j y Hj Hlt N. apply N. apply (Below j y Hj). lia.
Qed.

Lemma free_refines status held r :
  pool_repr pool status held →
  match pool_free held r with
  | Some held' => ∃ st', ra_free_code rev status r = Some st' ∧ pool_repr pool st' held'
  | None => ra_free_code rev status r = None
  end.
Proof using All.
  intros R. unfold ra_free_code, pool_free.
  destruct (aget rev r) as [v|] eqn:Er; simpl.
  - destruct (Z.leb_spec 0 v) as [Hv|Hv]; simpl.
    + pose proof (rev_pool r v Er Hv) as Hl. pose proof (repr_bits _ _ _ R _ _ Hl) as B.
      rewrite Z2Nat.id in B by done. rewrite land_bit_zero, B by done. 
      destruct (decide (r ∈ held)) as [Hh|Hh].
      * rewrite bool_decide_true by done. simpl. eexists. split; [done|].
        rewrite <- (Z2Nat.id v) by done. by apply repr_delete.
      * by rewrite bool_decide_false by done.
    + rewrite decide_False; [done|]. intros Hh%(repr_held _ _ _ R).
      apply list_elem_of_lookup in Hh as [i Hi]. apply pool_rev in Hi. rewrite Er in Hi.
      injection Hi. lia.
  - rewrite decide_False; [done|]. intros Hh%(repr_held _ _ _ R).
    apply list_elem_of_lookup in Hh as [i Hi]. apply pool_rev in Hi. congruence.
Qed.
End pool.

(** ** The two pools *)

(** Every entry of a reverse map that is a position leads back to the register. *)
Definition rev_check (pool rev : list Z) : bool :=
  forallb (λ r, match aget rev r with
                | Some v => (v <? 0) || bool_decide (pool !! Z.to_nat v = Some r)
                | None => true
                end) (zrange 0 32) &&
  forallb (λ i, match aget pool i with
                | Some r => bool_decide (aget rev r = Some i)
                | None => true
                end) (zrange 0 32).

Lemma rev_checked pool rev :
  rev_check pool rev = true → NoDup pool → (length pool <= 16)%nat → length rev = 32%nat →
  TempPool pool rev.
Proof.
  intros [C1 C2]%andb_true_iff N L Lr. split; [done|done| |].
  - intros i r Hl. pose proof (lookup_lt_Some _ _ _ Hl).
    pose proof (forallb_range _ 0 32 (Z.of_nat i) C2 ltac:(lia)) as H1. cbv beta in H1.
    rewrite (proj2 (aget_Some _ _ r)) in H1 by (rewrite Nat2Z.id; split; [lia|done]).
    by apply bool_decide_eq_true in H1.
  - intros r v Hl Hv. pose proof (aget_bound _ _ _ Hl).
    pose proof (forallb_range _ 0 32 r C1 ltac:(lia)) as H1. cbv beta in H1. rewrite Hl in H1.
    destruct (Z.ltb_spec v 0); [lia|]. by apply bool_decide_eq_true in H1.
Qed.

Global Instance itemp_pool : TempPool reg_itemp_map reg_itemp_reverse_map.
Proof. apply rev_checked; [reflexivity| |simpl; lia|reflexivity]. apply (bool_decide_unpack _). by vm_compute. Qed.

Global Instance ftemp_pool : TempPool reg_ftemp_map reg_ftemp_reverse_map.
Proof. apply rev_checked; [reflexivity| |simpl; lia|reflexivity]. apply (bool_decide_unpack _). by vm_compute. Qed.

(** ** Refinement *)

Inductive temp_op : Type :=
  | AllocItemp
  | AllocFtemp
  | FreeTemp (o : IR2_OPND)
  | FreeAll.

Definition ra_step (imm : bool) (s : temps) (op : temp_op) : option (option IR2_OPND * temps) :=
  match op with
  | AllocItemp => '(o, s) ← ra_alloc_itemp imm s; Some (Some o, s)
  | AllocFtemp => '(o, s) ← ra_alloc_ftemp s; Some (Some o, s)
  | FreeTemp o => s ← ra_free_temp s o; Some (None, s)
  | FreeAll => Some (None, ra_free_all s)
  end.

Fixpoint ra_run (imm : bool) (s : temps) (ops : list temp_op) :
    option (list (option IR2_OPND) * temps) :=
  match ops with
  | [] => Some ([], s)
  | op :: ops => '(o, s) ← ra_step imm s op; '(os, s) ← ra_run imm s ops; Some (o :: os, s)
  end.

(** The registers in use. *)
Record in_use := mkU { held_i : gset Z; held_f : gset Z }.

Definition use_step (imm : bool) (u : in_use) (op : temp_op) : option (option IR2_OPND * in_use) :=
  match op with
  | AllocItemp =>
      match pool_alloc reg_itemp_map (held_i u) with
      | Some (r, h) => Some (Some (mkOpnd2 IR2_OPND_GPR (u32 r)), mkU h (held_f u))
      | None => if imm then None else Some (Some (mkOpnd2 IR2_OPND_GPR (u32 (-1))), u)
      end
  | AllocFtemp =>
      match pool_alloc reg_ftemp_map (held_f u) with
      | Some (r, h) => Some (Some (mkOpnd2 IR2_OPND_FPR (u32 r)), mkU (held_i u) h)
      | None => Some (Some (mkOpnd2 IR2_OPND_FPR (u32 (-1))), u)
      end
  | FreeTemp o =>
      match _type o with
      | IR2_OPND_GPR => h ← pool_free (held_i u) (_reg_num o); Some (None, mkU h (held_f u))
      | IR2_OPND_FPR => h ← pool_free (held_f u) (_reg_num o); Some (None, mkU (held_i u) h)
      | _ => None
      end
  | FreeAll => Some (None, mkU ∅ ∅)
  end.

Fixpoint use_run (imm : bool) (u : in_use) (ops : list temp_op) :
    option (list (option IR2_OPND) * in_use) :=
  match ops with
  | [] => Some ([], u)
  | op :: ops => '(o, u) ← use_step imm u op; '(os, u) ← use_run imm u ops; Some (o :: os, u)
  end.

(** No register in use holds a cached address. *)
Definition cache_apart (c : IMM_CACHE) (held : gset Z) : Prop :=
  ∀ b r, b ∈ buckets c → b_free b = false → aget reg_itemp_map (itemp_num b) = Some r → r ∉ held.

Record temps_repr (imm : bool) (s : temps) (u : in_use) : Prop := mkTRepr {
  tr_itemp : pool_repr reg_itemp_map (itemp_status s) (held_i u);
  tr_ftemp : pool_repr reg_ftemp_map (ftemp_status s) (held_f u);
  tr_cache : imm = true → cache_inv (imm_cache s);
  tr_apart : imm = true → cache_apart (imm_cache s) (held_i u)
}.

#[local] Arguments cto_w : simpl never.
#[local] Arguments ra_free_code : simpl never.
#[local] Arguments pool_free : simpl never.
#[local] Arguments imm_cache_free_itemp : simpl never.
#[local] Arguments aget : simpl never.
#[local] Arguments reg_itemp_map : simpl never.
#[local] Arguments reg_ftemp_map : simpl never.
#[local] Arguments reg_itemp_reverse_map : simpl never.
#[local] Arguments reg_ftemp_reverse_map : simpl never.

Lemma is_imm_range t imm : imm_cache_is_imm_itemp t = Some imm → imm = bool_decide (3 <= t <= 6).
Proof.
  unfold imm_cache_is_imm_itemp. destruct (aget itemp_reverse_map t) as [v|] eqn:E; [|done].
  intros [= <-]. pose proof (aget_bound _ _ _ E) as B. simpl in B.
  assert (H : ∀ t, t ∈ zrange 0 11 → aget itemp_reverse_map t = Some v →
    negb (v =? -1) = bool_decide (3 <= t <= 6)).
  { intros x Hx. unfold zrange in Hx. simpl in Hx. rewrite !elem_of_cons in Hx.
    repeat destruct Hx as [->|Hx]; try (by intros [= <-]). by apply not_elem_of_nil in Hx. }
  apply H; [|done]. apply zrange_elem. lia.
Qed.

(** Taking register [r], at position [k] of the pool, drops the address cached in it. *)
Lemma take_apart s held r k :
  cache_inv (imm_cache s) → cache_apart (imm_cache s) held →
  reg_itemp_map !! k = Some r →
  ∃ s', (imm ← imm_cache_is_imm_itemp (Z.of_nat k);
         if (imm : bool) then free_imm_reg s (Z.of_nat k) else Some s) = Some s' ∧
    itemp_status s' = itemp_status s ∧ ftemp_status s' = ftemp_status s ∧
    cache_inv (imm_cache s') ∧ cache_apart (imm_cache s') ({[ r ]} ∪ held).
Proof.
  intros I A Hk. pose proof (lookup_lt_Some _ _ _ Hk) as Lk. simpl in Lk.
  assert (E : ∃ x, imm_cache_is_imm_itemp (Z.of_nat k) = Some x).
  { unfold imm_cache_is_imm_itemp.
    destruct (aget_is_Some itemp_reverse_map (Z.of_nat k)) as [v ->]; [simpl; lia|]. simpl. eauto. }
  destruct E as [x E]. rewrite E. apply is_imm_range in E. simpl.
  assert (N : ∀ b r', aget reg_itemp_map (itemp_num b) = Some r' → itemp_num b ≠ Z.of_nat k → r' ≠ r).
  { intros b r' [? Hr]%aget_Some Ne ->. apply Ne.
    rewrite <- (Z2Nat.id (itemp_num b)) by done. f_equal.
    eapply NoDup_lookup; [apply (pool_nodup (rev := reg_itemp_reverse_map))| |]; done. }
  destruct x.
  - destruct (free_itemp_bucket_ok (imm_cache s) (Z.of_nat k) I) as (c' & E' & I' & B & _).
    unfold free_imm_reg. rewrite E'. simpl. eexists. split_and!; try done.
    intros b r' Hb Fb Hr. apply list_elem_of_lookup in Hb as [j Hj].
    assert (j < 4)%nat by (apply lookup_lt_Some in Hj; unfold buckets in Hj; rewrite length_take in Hj; lia).
    rewrite buckets_lookup in Hj by done. destruct (B j b) as [Hj' Nt]; [done..|].
    assert (r' ∉ held); [|specialize (N b r' Hr Nt); set_solver].
    eapply A; [|exact Fb|exact Hr]. rewrite <- buckets_lookup in Hj' by done.
    by eapply list_elem_of_lookup_2.
  - exists s. split_and!; try done. intros b r' Hb Fb Hr.
    pose proof (proj1 (list.Forall_forall _ _) (inv_buckets _ I) b Hb) as Ok.
    unfold bucket_ok in Ok. rewrite Fb in Ok. symmetry in E. apply bool_decide_eq_false in E.
    assert (r' ≠ r) by (apply (N b); [done|lia]). specialize (A b r' Hb Fb Hr). set_solver.
Qed.

Lemma alloc_itemp_refines imm s u :
  temps_repr imm s u →
  match pool_alloc reg_itemp_map (held_i u) with
  | Some (r, h) => ∃ s', ra_alloc_itemp imm s = Some (mkOpnd2 IR2_OPND_GPR (u32 r), s') ∧
      temps_repr imm s' (mkU h (held_f u))
  | None => ra_alloc_itemp imm s =
      if imm then None else Some (mkOpnd2 IR2_OPND_GPR (u32 (-1)), set_itemp_status s (itemp_status s))
  end.
Proof.
  intros [Ri Rf I A]. pose proof (alloc_refines _ reg_itemp_reverse_map _ _ Ri) as H.
  unfold ra_alloc_itemp. destruct (pool_alloc reg_itemp_map (held_i u)) as [[r h]|] eqn:P.
  - destruct H as (st & -> & Ri' & Hr & Hn). cbn [mbind option_bind].
    unfold pool_alloc in P. destruct (list_find _ _) as [[k x]|]; simplify_eq/=.
    apply list_elem_of_lookup in Hr as [k' Hk]. destruct imm.
    + rewrite (pool_rev _ _ Hk). cbn [mbind option_bind].
      destruct (take_apart (set_itemp_status s st) (held_i u) r k') as (s' & -> & E1 & E2 & I' & A');
        [by apply I|by apply A|done|].
      simpl. eexists. split; [done|]. split; simpl; try done.
      * by rewrite E1.
      * by rewrite E2.
    + simpl. eexists. split; [done|]. split; simpl; done.
  - rewrite H. cbn [mbind option_bind]. by destruct imm.
Qed.

Lemma apart_subseteq c h h' : cache_apart c h → h' ⊆ h → cache_apart c h'.
Proof. intros A Hs b r Hb Fb Hr H. by eapply A; [..|apply Hs]. Qed.

Lemma pool_free_subseteq h r h' : pool_free h r = Some h' → h' ⊆ h.
Proof. unfold pool_free. case_decide; [|done]. intros [= <-]. set_solver. Qed.

(** A pool's register is a temporary, others are refused. *)
Lemma is_temp_spec (rev : list Z) r :
  match x ← aget rev r; Some (0 <=? x) with
  | Some true => True
  | _ => ∀ st, ra_free_code rev st r = None
  end.
Proof.
  unfold ra_free_code. destruct (aget rev r) as [v|]; simpl; [|done].
  destruct (Z.leb_spec 0 v); [done|]. intros st. by destruct (Z.leb_spec 0 v); [lia|].
Qed.

Lemma free_temp_refines imm s u o :
  temps_repr imm s u →
  match use_step imm u (FreeTemp o) with
  | Some (_, u') => ∃ s', ra_free_temp s o = Some s' ∧ temps_repr imm s' u'
  | None => ra_free_temp s o = None
  end.
Proof.
  intros [Ri Rf I A].
  pose proof (free_refines _ reg_itemp_reverse_map _ _ (_reg_num o) Ri) as Hi.
  pose proof (free_refines _ reg_ftemp_reverse_map _ _ (_reg_num o) Rf) as Hf.
  pose proof (is_temp_spec reg_itemp_reverse_map (_reg_num o)) as Ti.
  pose proof (is_temp_spec reg_ftemp_reverse_map (_reg_num o)) as Tf.
  unfold ra_free_temp, ir2_opnd_is_itemp, ir2_opnd_is_ftemp, ir2_opnd_is_ireg, ir2_opnd_is_freg,
    ra_free_itemp, ra_free_ftemp, ir2_opnd_base_reg_num in *.
  remember (x ← aget reg_itemp_reverse_map (_reg_num o); Some (0 <=? x)) as ti eqn:Ei. clear Ei.
  remember (x ← aget reg_ftemp_reverse_map (_reg_num o); Some (0 <=? x)) as tf eqn:Ef. clear Ef.
  destruct (_type o) eqn:T; simpl; rewrite ?T; try done.
  - destruct ti as [[]|]; simpl in *.
    + destruct (pool_free (held_i u) (_reg_num o)) as [h|] eqn:P; simpl; [|by rewrite Hi].
      destruct Hi as (st & -> & R'). simpl. eexists. split; [done|]. split; simpl; try done.
      intros ?. by eapply apart_subseteq; [apply A|eapply pool_free_subseteq].
    + destruct (pool_free (held_i u) (_reg_num o)); simpl; [|done].
      destruct Hi as (? & Hi & _). by rewrite Ti in Hi.
    + destruct (pool_free (held_i u) (_reg_num o)); simpl; [|done].
      destruct Hi as (? & Hi & _). by rewrite Ti in Hi.
  - destruct tf as [[]|]; simpl in *.
    + destruct (pool_free (held_f u) (_reg_num o)) as [h|] eqn:P; simpl; [|by rewrite Hf].
      destruct Hf as (st & -> & R'). simpl. eexists. split; [done|]. by split.
    + destruct (pool_free (held_f u) (_reg_num o)); simpl; [|done].
      destruct Hf as (? & Hf & _). by rewrite Tf in Hf.
    + destruct (pool_free (held_f u) (_reg_num o)); simpl; [|done].
      destruct Hf as (? & Hf & _). by rewrite Tf in Hf.
Qed.

Lemma temp_step_refines imm s u op :
  temps_repr imm s u →
  match use_step imm u op with
  | Some (o, u') => ∃ s', ra_step imm s op = Some (o, s') ∧ temps_repr imm s' u'
  | None => ra_step imm s op = None
  end.
Proof.
  intros R. destruct op as [| |o|]; simpl ra_step.
  - pose proof (alloc_itemp_refines imm s u R) as H. simpl.
    destruct (pool_alloc reg_itemp_map (held_i u)) as [[r h]|].
    + destruct H as (s' & -> & R'). simpl. eauto.
    + rewrite H. destruct imm; [done|]. simpl. destruct s, u. eauto.
  - destruct R as [Ri Rf I A]. simpl. unfold ra_alloc_ftemp.
    pose proof (alloc_refines _ reg_ftemp_reverse_map _ _ Rf) as H.
    destruct (pool_alloc reg_ftemp_map (held_f u)) as [[r h]|].
    + destruct H as (st & -> & Rf' & _). simpl. eexists. split; [done|]. by split.
    + rewrite H. simpl. eexists. split; [done|]. by split.
  - pose proof (free_temp_refines imm s u o R) as H.
    destruct (use_step imm u (FreeTemp o)) as [[out u']|] eqn:E.
    + destruct H as (s' & -> & R'). simpl. exists s'. split; [|done]. f_equal. f_equal.
      simpl in E. destruct (_type o); try done;
        (destruct (pool_free _ _); simpl in E; [|done]); by injection E as <- _.
    + by rewrite H.
  - destruct R as [Ri Rf I A]. simpl. eexists. split; [done|]. split; simpl.
    + apply (repr_empty _ reg_itemp_reverse_map).
    + apply (repr_empty _ reg_ftemp_reverse_map).
    + done.
    + intros _ b r _ _ _. set_solver.
Qed.

(** C12 The register allocator implements sets of registers in use.  For every
    sequence of allocations and releases of integer and floating-point temporaries,
    from any state whose status bits stand for the sets [u], the code returns exactly
    the registers the sets prescribe (the first of the pool that is not in use), fails
    exactly where they do (releasing what is not in use, or taking an integer
    temporary when all seven are), and the bits stand for the sets again; while the
    address cache is on, no register in use ever holds a cached address. *)
Theorem ra_refines imm s u ops :
  temps_repr imm s u →
  match use_run imm u ops with
  | Some (os, u') => ∃ s', ra_run imm s ops = Some (os, s') ∧ temps_repr imm s' u'
  | None => ra_run imm s ops = None
  end.
Proof.
  revert s u. induction ops as [|op ops IH]; intros s u R; cbn [use_run ra_run]; [eauto|].
  pose proof (temp_step_refines imm s u op R) as H.
  destruct (use_step imm u op) as [[o u1]|]; cbn [mbind option_bind]; [|by rewrite H].
  destruct H as (s1 & -> & R1). cbn [mbind option_bind]. specialize (IH s1 u1 R1).
  destruct (use_run imm u1 ops) as [[os u2]|]; cbn [mbind option_bind].
  - destruct IH as (s2 & -> & R2). simpl. eauto.
  - by rewrite IH.
Qed.

Lemma fresh_repr imm c :
  cache_inv c → (∀ b, b ∈ buckets c → b = init_bucket) → temps_repr imm (mkT 0 0 c) (mkU ∅ ∅).
Proof.
  intros I B. split; simpl; [apply (repr_empty _ reg_itemp_reverse_map)
    |apply (repr_empty _ reg_ftemp_reverse_map)|done|].
  intros _ b r Hb. rewrite (B b Hb). discriminate.
Qed.

Definition fresh_cache : IMM_CACHE :=
  mkC (replicate 4 init_bucket) 4 4 0 0 0 false 0 false (replicate 16 (-1)) [1; 1; 1; 1] false.

Lemma fresh_cache_ok : cache_inv fresh_cache ∧ ∀ b, b ∈ buckets fresh_cache → b = init_bucket.
Proof.
  destruct (init_ok (mkC (replicate 4 init_bucket) 0 0 0 0 0 false 0 false [] [] false))
    as (c & E & I & _ & B); [simpl; lia|].
  assert (c = fresh_cache) as -> by (by injection E as <-). done.
Qed.

(** Three temporaries taken, the second released and taken again. *)
Lemma ra_refines_witness :
  let op r := mkOpnd2 IR2_OPND_GPR (u32 r) in
  ∃ s', ra_run true (mkT 0 0 fresh_cache)
          [AllocItemp; AllocItemp; AllocItemp; FreeTemp (op la_t1); AllocFtemp; AllocItemp] =
        Some ([Some (op la_t0); Some (op la_t1); Some (op la_t2); None;
               Some (mkOpnd2 IR2_OPND_FPR 8); Some (op la_t1)], s') ∧
    temps_repr true s' (mkU {[ la_t1; la_t0; la_t2 ]} {[ 8 ]}).
Proof.
  intros op.
  assert (E : use_run true (mkU ∅ ∅)
    [AllocItemp; AllocItemp; AllocItemp; FreeTemp (op la_t1); AllocFtemp; AllocItemp] =
    Some ([Some (op la_t0); Some (op la_t1); Some (op la_t2); None;
           Some (mkOpnd2 IR2_OPND_FPR 8); Some (op la_t1)], mkU {[ la_t1; la_t0; la_t2 ]} {[ 8 ]}))
    by (vm_compute; reflexivity).
  pose proof (ra_refines true (mkT 0 0 fresh_cache) (mkU ∅ ∅)
    [AllocItemp; AllocItemp; AllocItemp; FreeTemp (op la_t1); AllocFtemp; AllocItemp]) as H.
  rewrite E in H. apply H. apply fresh_repr; apply fresh_cache_ok.
Defined.

(** A translation starts clean.  Whatever the previous one left, ending it and
    starting the next one succeeds, and in the state it starts from the instruction
    list is empty, no temporary is in use and the buckets of the address cache exist,
    so that [imm_cache_init] succeeds and gives the cache the allocator relies on. *)
Theorem tr_init_clean junk t tb imm :
  (has_cache t = true → (4 <= length (bucket (imm_cache (tr_temps t))))%nat) →
  ∃ t' c, tr_init junk (tr_fini t) tb = Some t' ∧
    abstracts (tr_code t') (mkSpec [] []) ∧
    imm_cache_init (imm_cache (tr_temps t')) CACHE_DEFAULT_CAPACITY = Some c ∧
    temps_repr imm (set_imm_cache (tr_temps t') c) (mkU ∅ ∅) ∧ curr_tb t' = tb.
Proof.
  intros L. unfold tr_init, tr_fini. simpl. set (a := match ir2_inst_array _ with [] => _ | _ => _ end).
  assert (La : (0 < length a)%nat) by (subst a; destruct (ir2_inst_array _); [vm_compute|simpl]; lia).
  set (c1 := imm_cache (if has_cache t then ra_free_all (tr_temps t) else
    set_imm_cache (ra_free_all (tr_temps t)) (alloc_cache junk))).
  assert (L1 : (4 <= length (bucket c1))%nat).
  { subst c1. destruct (has_cache t); [by apply L|]. vm_compute. lia. }
  destruct (init_ok c1 L1) as (c & E & I & _ & B).
  eexists _, c. split; [done|]. cbn [tr_code tr_temps]. split; [by apply empty_abstracts|]. split; [done|]. split; [|done].
  destruct (has_cache t); by apply fresh_repr.
Qed.

Lemma tr_init_clean_witness :
  let t := mkTr (Some 1) None (mkTD [] 0 0 None None 0 0) (mkT 7 3 fresh_cache) 5 false in
  ∃ t' c, tr_init fresh_cache (tr_fini t) (Some 2) = Some t' ∧
    abstracts (tr_code t') (mkSpec [] []) ∧
    imm_cache_init (imm_cache (tr_temps t')) CACHE_DEFAULT_CAPACITY = Some c ∧
    temps_repr true (set_imm_cache (tr_temps t') c) (mkU ∅ ∅) ∧ curr_tb t' = Some 2.
Proof.
  intros t. apply (tr_init_clean fresh_cache t (Some 2) true). discriminate.
Defined.

(** ** Few temporaries *)

(** The first [k] registers of the pool are in use. *)
Lemma pool_alloc_index pool (held : gset Z) r k :
  NoDup pool → list_find (λ r, r ∉ held) pool = Some (k, r) → (k <= size held)%nat.
Proof.
  intros N (Hk & _ & Below)%list_find_Some. pose proof (lookup_lt_Some _ _ _ Hk).
  assert (Hs : (list_to_set (take k pool) : gset Z) ⊆ held).
  { intros x [j Hj]%elem_of_list_to_set%list_elem_of_lookup.
    apply lookup_take_Some in Hj as [Hj Lj]. specialize (Below j x Hj Lj).
    destruct (decide (x ∈ held)); [done|]. by destruct Below. }
  apply subseteq_size in Hs. rewrite size_list_to_set, length_take in Hs; [lia|].
  eapply (sublist_NoDup (take k pool) pool); [done|]. apply sublist_take.
Qed.

(** Taking a temporary, in full: the [k]-th register of the pool, not in use before, and
    what happens to the cache. *)
Lemma alloc_itemp_full imm s u :
  temps_repr imm s u → (size (held_i u) < 7)%nat →
  ∃ k r s', ra_alloc_itemp imm s = Some (mkOpnd2 IR2_OPND_GPR r, s') ∧
    reg_itemp_map !! k = Some r ∧ (r ∉ held_i u) ∧ (k <= size (held_i u))%nat ∧
    temps_repr imm s' (mkU ({[ r ]} ∪ held_i u) (held_f u)) ∧
    (if imm && (3 <=? Z.of_nat k)
     then imm_cache_free_itemp (imm_cache s) (Z.of_nat k) = Some (imm_cache s')
     else imm_cache s' = imm_cache s).
Proof.
  intros R Hs. pose proof (alloc_itemp_refines imm s u R) as H. unfold pool_alloc in H.
  assert (N : NoDup reg_itemp_map) by apply (pool_nodup (rev := reg_itemp_reverse_map)).
  destruct (list_find (λ r, r ∉ held_i u) reg_itemp_map) as [[k r]|] eqn:F; simpl in H.
  - pose proof (pool_alloc_index _ _ _ _ N F) as Hk. pose proof F as (Hl & Hn & _)%list_find_Some.
    assert (Lk : (k < 7)%nat) by apply (lookup_lt_Some _ _ _ Hl).
    assert (Er : u32 r = r ∧ imm_cache_is_imm_itemp (Z.of_nat k) = Some (3 <=? Z.of_nat k)).
    { destruct k as [|[|[|[|[|[|[|?]]]]]]]; [..|lia]; injection Hl as <-; done. }
    destruct Er as [Er Ei], H as (s' & E & R'). rewrite Er in E. exists k, r, s'. split_and!; try done.
    destruct R as [Ri _ _ _]. pose proof (alloc_refines _ reg_itemp_reverse_map _ _ Ri) as A.
    unfold pool_alloc in A. rewrite F in A.
    destruct A as (st & A & _). unfold ra_alloc_itemp in E. rewrite A in E. cbn [mbind option_bind] in E.
    rewrite (pool_rev _ _ Hl) in E. cbn [mbind option_bind] in E. rewrite Ei in E.
    destruct imm; simpl in E |- *; [|by injection E as _ <-].
    destruct (3 <=? Z.of_nat k); [|by injection E as _ <-].
    unfold free_imm_reg in E. simpl in E. destruct (imm_cache_free_itemp _ _); [|done]. by injection E as _ <-.
  - exfalso. assert (Hs' : (list_to_set reg_itemp_map : gset Z) ⊆ held_i u).
    { intros x Hx%elem_of_list_to_set. apply list_find_None in F.
      pose proof (proj1 (list.Forall_forall _ _) F x Hx). destruct (decide (x ∈ held_i u)); [done|].
      naive_solver. }
    apply subseteq_size in Hs'. rewrite size_list_to_set in Hs' by done. simpl in Hs'. lia.
Qed.

(** Taking an integer temporary while at most two are in use succeeds and leaves
    the address cache as it is: the cache's registers are the last four of the pool,
    the allocator starts from the other end. *)
Theorem few_temps_keep_cache imm s u :
  temps_repr imm s u → (size (held_i u) <= 2)%nat →
  ∃ r s', ra_alloc_itemp imm s = Some (mkOpnd2 IR2_OPND_GPR r, s') ∧ imm_cache s' = imm_cache s ∧
    r ∈ reg_itemp_map ∧ r ∉ held_i u.
Proof.
  intros R Hs. destruct (alloc_itemp_full imm s u R) as (k & r & s' & E & Hk & Hn & Lk & _ & C); [lia|].
  exists r, s'. split_and!; [done| |by eapply list_elem_of_lookup_2|done].
  destruct (Z.leb_spec 3 (Z.of_nat k)); [lia|]. by rewrite andb_false_r in C.
Qed.

Lemma few_temps_keep_cache_witness :
  ∃ r s', ra_alloc_itemp true (mkT 0 0 fresh_cache) = Some (mkOpnd2 IR2_OPND_GPR r, s') ∧
    imm_cache s' = fresh_cache ∧ r ∈ reg_itemp_map ∧ r ∉ (∅ : gset Z).
Proof.
  apply (few_temps_keep_cache true (mkT 0 0 fresh_cache) (mkU ∅ ∅)).
  - apply fresh_repr; apply fresh_cache_ok.
  - vm_compute. lia.
Defined.
