(* ===== verification/X86.v ===== *)
(** * The x86 instructions the translation is checked against

    Registers, memory, status flags, operands and the effect of the common integer
    instructions of 64-bit code, after the Intel SDM, volumes 1 and 2.  Operands are the
    decoded ones of file Ir1.  AF, which the manual leaves undefined after a logical
    instruction, is cleared. *)

From stdpp Require Import base numbers list option tactics.
From Stdlib Require Import ZArith Lia Bool.
From S2P Require Import Prelude Ir1Enum Ir1.
Local Open Scope Z_scope.
Local Open Scope c_scope.

(** ** Status flags *)

Definition CF_POS := 0.
Definition PF_POS := 2.
Definition AF_POS := 4.
Definition ZF_POS := 6.
Definition SF_POS := 7.
Definition OF_POS := 11.

(** Even number of ones in the low byte. *)
Definition parity (x : Z) : bool :=
  negb (Z.odd (Z.b2z (Z.testbit x 0) + Z.b2z (Z.testbit x 1) + Z.b2z (Z.testbit x 2) + Z.b2z (Z.testbit x 3)
    + Z.b2z (Z.testbit x 4) + Z.b2z (Z.testbit x 5) + Z.b2z (Z.testbit x 6) + Z.b2z (Z.testbit x 7))).

Definition eflags (cf pf af zf sf ov : bool) : Z :=
  Z.b2z cf + Z.b2z pf * 2 ^ PF_POS + Z.b2z af * 2 ^ AF_POS + Z.b2z zf * 2 ^ ZF_POS +
  Z.b2z sf * 2 ^ SF_POS + Z.b2z ov * 2 ^ OF_POS.

(** PF, ZF and SF follow the result, operands of [w] bits. *)
Definition flags_of (w r : Z) (cf af ov : bool) : Z :=
  eflags cf (parity r) af (uwrap w r =? 0) (Z.testbit r (w - 1)) ov.

Definition add_flags (w a b fl : Z) : Z :=
  flags_of w (a + b) (2 ^ w <=? uwrap w a + uwrap w b) (16 <=? uwrap 4 a + uwrap 4 b)
    (negb (swrap w a + swrap w b =? swrap w (a + b))).
Definition sub_flags (w a b fl : Z) : Z :=
  flags_of w (a - b) (uwrap w a <? uwrap w b) (uwrap 4 a <? uwrap 4 b)
    (negb (swrap w a - swrap w b =? swrap w (a - b))).
Definition logic_flags (f : Z → Z → Z) (w a b fl : Z) : Z := flags_of w (f a b) false false false.

(** INC and DEC keep CF. *)
Definition inc_flags (w a fl : Z) : Z :=
  flags_of w (a + 1) (Z.testbit fl CF_POS) (16 <=? uwrap 4 a + 1)
    (negb (swrap w a + 1 =? swrap w (a + 1))).
Definition dec_flags (w a fl : Z) : Z :=
  flags_of w (a - 1) (Z.testbit fl CF_POS) (uwrap 4 a <? 1)
    (negb (swrap w a - 1 =? swrap w (a - 1))).

(** ** Memory *)

(** The [n] bytes at [a], little endian. *)
Fixpoint load_le (m : Z → Z) (a : Z) (n : nat) : Z :=
  match n with O => 0 | S n => uwrap 8 (m (u64 a)) + 2 ^ 8 * load_le m (a + 1) n end.

Fixpoint store_le (m : Z → Z) (a v : Z) (n : nat) : Z → Z :=
  match n with
  | O => m
  | S n => store_le (λ x, if x =? u64 a then uwrap 8 v else m x) (a + 1) (v >> 8) n
  end.

(** ** Registers *)

(** In the order of their encoding. *)
Definition gpr64 : list dt_x86_reg :=
  [dt_X86_REG_RAX; dt_X86_REG_RCX; dt_X86_REG_RDX; dt_X86_REG_RBX; dt_X86_REG_RSP; dt_X86_REG_RBP;
   dt_X86_REG_RSI; dt_X86_REG_RDI; dt_X86_REG_R8; dt_X86_REG_R9; dt_X86_REG_R10; dt_X86_REG_R11;
   dt_X86_REG_R12; dt_X86_REG_R13; dt_X86_REG_R14; dt_X86_REG_R15].
Definition gpr32 : list dt_x86_reg :=
  [dt_X86_REG_EAX; dt_X86_REG_ECX; dt_X86_REG_EDX; dt_X86_REG_EBX; dt_X86_REG_ESP; dt_X86_REG_EBP;
   dt_X86_REG_ESI; dt_X86_REG_EDI; dt_X86_REG_R8D; dt_X86_REG_R9D; dt_X86_REG_R10D; dt_X86_REG_R11D;
   dt_X86_REG_R12D; dt_X86_REG_R13D; dt_X86_REG_R14D; dt_X86_REG_R15D].
Definition gpr16 : list dt_x86_reg :=
  [dt_X86_REG_AX; dt_X86_REG_CX; dt_X86_REG_DX; dt_X86_REG_BX; dt_X86_REG_SP; dt_X86_REG_BP;
   dt_X86_REG_SI; dt_X86_REG_DI; dt_X86_REG_R8W; dt_X86_REG_R9W; dt_X86_REG_R10W; dt_X86_REG_R11W;
   dt_X86_REG_R12W; dt_X86_REG_R13W; dt_X86_REG_R14W; dt_X86_REG_R15W].
Definition gpr8 : list dt_x86_reg :=
  [dt_X86_REG_AL; dt_X86_REG_CL; dt_X86_REG_DL; dt_X86_REG_BL; dt_X86_REG_SPL; dt_X86_REG_BPL;
   dt_X86_REG_SIL; dt_X86_REG_DIL; dt_X86_REG_R8B; dt_X86_REG_R9B; dt_X86_REG_R10B; dt_X86_REG_R11B;
   dt_X86_REG_R12B; dt_X86_REG_R13B; dt_X86_REG_R14B; dt_X86_REG_R15B].
(** Bits 15 to 8 of the first four. *)
Definition gpr8h : list dt_x86_reg := [dt_X86_REG_AH; dt_X86_REG_CH; dt_X86_REG_DH; dt_X86_REG_BH].

Definition position (r : dt_x86_reg) (l : list dt_x86_reg) : option Z :=
  '(n, _) ← list_find (r =.) l; Some (Z.of_nat n).

(** The number of a register, its width and its lowest bit. *)
Record reg_part := mkPart { p_num : Z; p_width : Z; p_lsb : Z }.
Definition part_of (r : dt_x86_reg) : option reg_part :=
  match position r gpr64, position r gpr32, position r gpr16, position r gpr8, position r gpr8h with
  | Some n, _, _, _, _ => Some (mkPart n 64 0)
  | _, Some n, _, _, _ => Some (mkPart n 32 0)
  | _, _, Some n, _, _ => Some (mkPart n 16 0)
  | _, _, _, Some n, _ => Some (mkPart n 8 0)
  | _, _, _, _, Some n => Some (mkPart n 8 8)
  | _, _, _, _, _ => None
  end.

(** ** State *)

Record x86 := mkX86 { xreg : Z → Z; xmem : Z → Z; xflags : Z }.

Definition set_xreg (x : x86) (n v : Z) : x86 :=
  mkX86 (λ r, if r =? n then u64 v else xreg x r) (xmem x) (xflags x).
Definition set_xmem (x : x86) (m : Z → Z) : x86 := mkX86 (xreg x) m (xflags x).
Definition set_xflags (x : x86) (fl : Z) : x86 := mkX86 (xreg x) (xmem x) fl.

(** The bits [msb] to [lsb] of [x]. *)
Definition bits_of (x msb lsb : Z) : Z := uwrap (msb - lsb + 1) (x >> lsb).
Definition insert_bits (old new msb lsb : Z) : Z :=
  old - bits_of old msb lsb * 2 ^ lsb + uwrap (msb - lsb + 1) new * 2 ^ lsb.

Definition read_part (x : x86) (p : reg_part) : Z := uwrap (p_width p) (xreg x (p_num p) >> p_lsb p).

(** A 32-bit result clears the upper half, narrower ones leave the rest alone. *)
Definition write_part (x : x86) (p : reg_part) (v : Z) : x86 :=
  set_xreg x (p_num p)
    (match p_width p with
     | 64 => v
     | 32 => u32 v
     | w => insert_bits (xreg x (p_num p)) v (p_lsb p + w - 1) (p_lsb p)
     end).

(** ** Operands *)

(** The value of a 64-bit register; 0 for none. *)
Definition x86_gpr (regs : Z → Z) (r : dt_x86_reg) : Z :=
  match position r gpr64 with Some n => regs n | None => 0 end.

Definition effective_address (regs : Z → Z) (pir1 : IR1_INST) (m : dt_x86_op_mem) : Z :=
  (if reg_eqb (base m) dt_X86_REG_RIP then ir1_addr_next pir1 else x86_gpr regs (base m)) +
  x86_gpr regs (index m) * scale m + disp m.

(** Operands of 64-bit code: no 32-bit registers, RIP only without an index. *)
Definition mem_wf (m : dt_x86_op_mem) : bool :=
  (bool_decide (base m ∈ dt_X86_REG_INVALID :: gpr64) ||
   (reg_eqb (base m) dt_X86_REG_RIP && reg_eqb (index m) dt_X86_REG_INVALID)) &&
  (reg_eqb (index m) dt_X86_REG_INVALID ||
   (bool_decide (index m ∈ gpr64) && bool_decide (scale m ∈ [1; 2; 4; 8]))).

Section operands.
(** The base address of an operand's segment. *)
Variable seg_base : IR1_OPND → Z.
Variable pir1 : IR1_INST.

Definition address_in (x : x86) (o : IR1_OPND) (m : dt_x86_op_mem) : Z :=
  seg_base o + effective_address (xreg x) pir1 m.

(** The value of an operand, unsigned. *)
Definition read_opnd (x : x86) (o : IR1_OPND) : option Z :=
  match opnd_op o with
  | OP_REG r => p ← part_of r; Some (read_part x p)
  | OP_IMM v => Some (uwrap (ir1_opnd_size o) v)
  | OP_MEM m => Some (load_le (xmem x) (address_in x o m) (Z.to_nat (opnd_bytes o)))
  | OP_INVALID => None
  end.

(** ... and signed. *)
Definition read_signed (x : x86) (o : IR1_OPND) : option Z :=
  v ← read_opnd x o; Some (swrap (ir1_opnd_size o) v).

Definition write_opnd (x : x86) (o : IR1_OPND) (v : Z) : option x86 :=
  match opnd_op o with
  | OP_REG r => p ← part_of r; Some (write_part x p v)
  | OP_MEM m => Some (set_xmem x (store_le (xmem x) (address_in x o m) v (Z.to_nat (opnd_bytes o))))
  | _ => None
  end.
End operands.

(** What the decoder produces. *)
Definition opnd_wf (o : IR1_OPND) : bool :=
  match opnd_op o with
  | OP_REG r => match part_of r with Some p => p_width p =? ir1_opnd_size o | None => false end
  | OP_IMM _ => bool_decide (opnd_bytes o ∈ [1; 2; 4; 8])
  | OP_MEM m => mem_wf m && bool_decide (opnd_bytes o ∈ [1; 2; 4; 8])
  | OP_INVALID => false
  end.

(** ** Conditions *)

Definition flag (x : x86) (pos : Z) : bool := Z.testbit (xflags x) pos.

(** The condition of a CMOVcc or SETcc. *)
Definition cond_holds (op : dt_x86_insn) (x : x86) : option bool :=
  match op with
  | dt_X86_INS_CMOVA | dt_X86_INS_SETA => Some (negb (flag x CF_POS) && negb (flag x ZF_POS))
  | dt_X86_INS_CMOVAE | dt_X86_INS_SETAE => Some (negb (flag x CF_POS))
  | dt_X86_INS_CMOVB | dt_X86_INS_SETB => Some (flag x CF_POS)
  | dt_X86_INS_CMOVBE | dt_X86_INS_SETBE => Some (flag x CF_POS || flag x ZF_POS)
  | dt_X86_INS_CMOVE | dt_X86_INS_SETE => Some (flag x ZF_POS)
  | dt_X86_INS_CMOVNE | dt_X86_INS_SETNE => Some (negb (flag x ZF_POS))
  | dt_X86_INS_CMOVG | dt_X86_INS_SETG => Some (negb (flag x ZF_POS) && eqb (flag x SF_POS) (flag x OF_POS))
  | dt_X86_INS_CMOVGE | dt_X86_INS_SETGE => Some (eqb (flag x SF_POS) (flag x OF_POS))
  | dt_X86_INS_CMOVL | dt_X86_INS_SETL => Some (negb (eqb (flag x SF_POS) (flag x OF_POS)))
  | dt_X86_INS_CMOVLE | dt_X86_INS_SETLE => Some (flag x ZF_POS || negb (eqb (flag x SF_POS) (flag x OF_POS)))
  | dt_X86_INS_CMOVS | dt_X86_INS_SETS => Some (flag x SF_POS)
  | dt_X86_INS_CMOVNS | dt_X86_INS_SETNS => Some (negb (flag x SF_POS))
  | dt_X86_INS_CMOVO | dt_X86_INS_SETO => Some (flag x OF_POS)
  | dt_X86_INS_CMOVNO | dt_X86_INS_SETNO => Some (negb (flag x OF_POS))
  | dt_X86_INS_CMOVP | dt_X86_INS_SETP => Some (flag x PF_POS)
  | dt_X86_INS_CMOVNP | dt_X86_INS_SETNP => Some (negb (flag x PF_POS))
  | _ => None
  end.

(** ** Instructions *)

Section instructions.
Variable seg_base : IR1_OPND → Z.
Variable pir1 : IR1_INST.

Local Notation rd := (read_opnd seg_base pir1).
Local Notation rds := (read_signed seg_base pir1).
Local Notation wr := (write_opnd seg_base pir1).

(** dest := f dest src, the second operand sign-extended to the size of the first. *)
Definition binary (f : Z → Z → Z) (fl : Z → Z → Z → Z → Z) (write : bool) (x : x86) : option x86 :=
  o0 ← ir1_get_opnd pir1 0;
  o1 ← ir1_get_opnd pir1 1;
  a ← rd x o0;
  b ← rds x o1;
  let x' := set_xflags x (fl (ir1_opnd_size o0) a b (xflags x)) in
  if write then wr x' o0 (f a b) else Some x'.

Definition unary (f : Z → Z) (fl : Z → Z → Z → Z) (x : x86) : option x86 :=
  o0 ← ir1_get_opnd pir1 0;
  a ← rd x o0;
  wr (set_xflags x (fl (ir1_opnd_size o0) a (xflags x))) o0 (f a).

Definition x86_mov (read : x86 → IR1_OPND → option Z) (x : x86) : option x86 :=
  o0 ← ir1_get_opnd pir1 0;
  o1 ← ir1_get_opnd pir1 1;
  v ← read x o1;
  wr x o0 v.

Definition x86_lea (x : x86) : option x86 :=
  o0 ← ir1_get_opnd pir1 0;
  o1 ← ir1_get_opnd pir1 1;
  m ← ir1_opnd_mem o1;
  wr x o0 (effective_address (xreg x) pir1 m).

Definition x86_xchg (x : x86) : option x86 :=
  o0 ← ir1_get_opnd pir1 0;
  o1 ← ir1_get_opnd pir1 1;
  a ← rd x o0;
  b ← rd x o1;
  if ir1_opnd_is_mem o1 then x ← wr x o1 a; wr x o0 b else x ← wr x o0 b; wr x o1 a.

Definition x86_cmov (x : x86) : option x86 :=
  o0 ← ir1_get_opnd pir1 0;
  o1 ← ir1_get_opnd pir1 1;
  c ← cond_holds (ir1_opcode pir1) x;
  a ← rd x o0;
  b ← rd x o1;
  wr x o0 (if (c : bool) then b else a).

Definition x86_setcc (x : x86) : option x86 :=
  o0 ← ir1_get_opnd pir1 0;
  c ← cond_holds (ir1_opcode pir1) x;
  wr x o0 (Z.b2z c).

(** CBW, CWDE and CDQE double the width of the accumulator, CWD, CDQ and CQO fill (R/E)DX
    with its sign; [w] is the width of the source. *)
Definition x86_widen (w : Z) (x : x86) : option x86 :=
  Some (write_part x (mkPart eax_index (2 * w) 0) (swrap w (xreg x eax_index))).
Definition x86_fill (w : Z) (x : x86) : option x86 :=
  Some (write_part x (mkPart edx_index w 0) (swrap w (xreg x eax_index) >> (w - 1))).

Definition x86_push (x : x86) : option x86 :=
  o0 ← ir1_get_opnd pir1 0;
  v ← rd x o0;
  let sp := xreg x esp_index - opnd_bytes o0 in
  Some (set_xreg (set_xmem x (store_le (xmem x) sp v (Z.to_nat (opnd_bytes o0)))) esp_index sp).

(** The destination's address is computed with the incremented stack pointer. *)
Definition x86_pop (x : x86) : option x86 :=
  o0 ← ir1_get_opnd pir1 0;
  let v := load_le (xmem x) (xreg x esp_index) (Z.to_nat (opnd_bytes o0)) in
  wr (set_xreg x esp_index (xreg x esp_index + opnd_bytes o0)) o0 v.

Definition x86_step (x : x86) : option x86 :=
  match ir1_opcode pir1 with
  | dt_X86_INS_MOV | dt_X86_INS_MOVABS | dt_X86_INS_MOVZX => x86_mov rd x
  | dt_X86_INS_MOVSX | dt_X86_INS_MOVSXD => x86_mov rds x
  | dt_X86_INS_LEA => x86_lea x
  | dt_X86_INS_XCHG => x86_xchg x
  | dt_X86_INS_PUSH => x86_push x
  | dt_X86_INS_POP => x86_pop x
  | dt_X86_INS_ADD => binary Z.add add_flags true x
  | dt_X86_INS_SUB => binary Z.sub sub_flags true x
  | dt_X86_INS_CMP => binary Z.sub sub_flags false x
  | dt_X86_INS_AND => binary Z.land (logic_flags Z.land) true x
  | dt_X86_INS_OR => binary Z.lor (logic_flags Z.lor) true x
  | dt_X86_INS_XOR => binary Z.lxor (logic_flags Z.lxor) true x
  | dt_X86_INS_TEST => binary Z.land (logic_flags Z.land) false x
  | dt_X86_INS_INC => unary (λ a, a + 1) inc_flags x
  | dt_X86_INS_DEC => unary (λ a, a - 1) dec_flags x
  | dt_X86_INS_NEG => unary Z.opp (λ w a fl, sub_flags w 0 a fl) x
  | dt_X86_INS_NOT => unary Z.lnot (λ _ _ fl, fl) x
  | dt_X86_INS_CBW => x86_widen 8 x
  | dt_X86_INS_CWDE => x86_widen 16 x
  | dt_X86_INS_CDQE => x86_widen 32 x
  | dt_X86_INS_CWD => x86_fill 16 x
  | dt_X86_INS_CDQ => x86_fill 32 x
  | dt_X86_INS_CQO => x86_fill 64 x
  | dt_X86_INS_SETA | dt_X86_INS_SETAE | dt_X86_INS_SETB | dt_X86_INS_SETBE | dt_X86_INS_SETE | dt_X86_INS_SETNE
  | dt_X86_INS_SETG | dt_X86_INS_SETGE | dt_X86_INS_SETL | dt_X86_INS_SETLE | dt_X86_INS_SETS | dt_X86_INS_SETNS
  | dt_X86_INS_SETO | dt_X86_INS_SETNO | dt_X86_INS_SETP | dt_X86_INS_SETNP => x86_setcc x
  | dt_X86_INS_ENDBR64 => Some x
  | _ => x86_cmov x
  end.
End instructions.
