(* ===== verification/WordEq.v ===== *)
(** * Values that agree on their low bits

    The translator keeps an x86 value of [w] bits in a 64-bit register whose upper bits
    are often left unspecified.  Two integers are the same for [w] bits when their low [w]
    bits agree; arithmetic, bit operations, flags, bit fields and memory accesses respect that. *)

From stdpp Require Import base numbers list option tactics.
From Stdlib Require Import ZArith Lia Bool.
From S2P Require Import Prelude X86.
Local Open Scope Z_scope.
Local Open Scope c_scope.

Definition eqw (w a b : Z) : Prop := uwrap w a = uwrap w b.
Notation "a ≡[ w ] b" := (eqw w a b) (at level 70, format "a  ≡[ w ]  b") : c_scope.

Global Instance eqw_equiv w : Equivalence (eqw w).
Proof. unfold eqw. split; [done|by intros ??|]. intros a b c. congruence. Qed.

Lemma eqw_bits w a b :
  0 <= w → a ≡[w] b ↔ ∀ i, 0 <= i < w → Z.testbit a i = Z.testbit b i.
Proof.
  intros Hw. unfold eqw, uwrap. split.
  - intros E i Hi. rewrite <- (Z.mod_pow2_bits_low a w i), <- (Z.mod_pow2_bits_low b w i) by lia. by rewrite E.
  - intros H. apply Z.bits_inj'. intros i Hi. destruct (Z.lt_ge_cases i w).
    + rewrite !Z.mod_pow2_bits_low by lia. apply H. lia.
    + by rewrite !Z.mod_pow2_bits_high by lia.
Qed.

Lemma eqw_le v w a b : 0 <= v <= w → a ≡[w] b → a ≡[v] b.
Proof. intros Hv H. apply eqw_bits; [lia|]. intros i Hi. apply (proj1 (eqw_bits w a b ltac:(lia)) H). lia. Qed.

Lemma eqw_uwrap v w a : 0 <= v <= w → uwrap w a ≡[v] a.
Proof.
  intros Hv. apply eqw_bits; [lia|]. intros i Hi. unfold uwrap. apply Z.mod_pow2_bits_low. lia.
Qed.

Lemma eqw_swrap v w a : 0 <= v <= w → 0 < w → swrap w a ≡[v] a.
Proof. intros Hv Hw. apply (eqw_le v w); [lia|]. apply swrap_mod. lia. Qed.

Lemma eqw_u64 w a : 0 <= w <= 64 → u64 a ≡[w] a.
Proof. apply eqw_uwrap. Qed.

Lemma swrap_eqw w a b : 0 < w → a ≡[w] b → swrap w a = swrap w b.
Proof.
  intros Hw H. unfold swrap. f_equal. unfold eqw, uwrap in H.
  rewrite (Z.add_mod a), (Z.add_mod b), H; [done|pose proof (Z.pow_pos_nonneg 2 w); lia..].
Qed.

(** ** Operations *)

Lemma eqw_neg w a b : w < 0 → a ≡[w] b → a = b.
Proof. intros Hw. unfold eqw, uwrap. rewrite Z.pow_neg_r, !Zmod_0_r by done. done. Qed.

Global Instance eqw_add w : Proper (eqw w ==> eqw w ==> eqw w) Z.add.
Proof.
  intros a a' Ha b b' Hb. unfold eqw, uwrap in *. rewrite (Zplus_mod a), (Zplus_mod a'), Ha, Hb. done.
Qed.

Global Instance eqw_sub w : Proper (eqw w ==> eqw w ==> eqw w) Z.sub.
Proof.
  intros a a' Ha b b' Hb. unfold eqw, uwrap in *. rewrite (Zminus_mod a), (Zminus_mod a'), Ha, Hb. done.
Qed.

Global Instance eqw_opp w : Proper (eqw w ==> eqw w) Z.opp.
Proof. intros a a' Ha. rewrite <- !Z.sub_0_l. by rewrite Ha. Qed.

(** A function that works on each bit alone. *)
Definition bitwise (f : Z → Z → Z) : Prop :=
  ∃ g : bool → bool → bool, ∀ a b i, 0 <= i → Z.testbit (f a b) i = g (Z.testbit a i) (Z.testbit b i).

Lemma bitwise_eqw f w : bitwise f → Proper (eqw w ==> eqw w ==> eqw w) f.
Proof.
  intros [g Hg] a a' Ha b b' Hb. destruct (Z.le_gt_cases 0 w) as [Hw|Hw].
  - apply eqw_bits; [done|]. intros i Hi. rewrite !Hg by lia.
    by rewrite (proj1 (eqw_bits w a a' Hw) Ha), (proj1 (eqw_bits w b b' Hw) Hb).
  - apply eqw_neg in Ha, Hb; [|done..]. by subst.
Qed.

Lemma bitwise_land : bitwise Z.land.
Proof. exists andb. intros. apply Z.land_spec. Qed.
Lemma bitwise_lor : bitwise Z.lor.
Proof. exists orb. intros. apply Z.lor_spec. Qed.
Lemma bitwise_lxor : bitwise Z.lxor.
Proof. exists xorb. intros. apply Z.lxor_spec. Qed.

Global Instance eqw_land w : Proper (eqw w ==> eqw w ==> eqw w) Z.land.
Proof. apply bitwise_eqw, bitwise_land. Qed.
Global Instance eqw_lor w : Proper (eqw w ==> eqw w ==> eqw w) Z.lor.
Proof. apply bitwise_eqw, bitwise_lor. Qed.
Global Instance eqw_lxor w : Proper (eqw w ==> eqw w ==> eqw w) Z.lxor.
Proof. apply bitwise_eqw, bitwise_lxor. Qed.
Global Instance eqw_lnot w : Proper (eqw w ==> eqw w) Z.lnot.
Proof. intros a a' Ha. unfold Z.lnot. rewrite <- !Z.sub_1_r. by rewrite Ha. Qed.

#[export] Hint Resolve bitwise_land bitwise_lor bitwise_lxor : latx.

(** ** Status flags *)

Lemma parity_eqw w a b : 8 <= w → a ≡[w] b → parity a = parity b.
Proof.
  intros Hw H. unfold parity. pose proof (proj1 (eqw_bits w a b ltac:(lia)) H) as B.
  by rewrite !B by lia.
Qed.

Lemma flags_of_eqw w a b cf af ov : 8 <= w → a ≡[w] b → flags_of w a cf af ov = flags_of w b cf af ov.
Proof.
  intros Hw H. unfold flags_of. rewrite (parity_eqw w a b) by done. rewrite H.
  by rewrite (proj1 (eqw_bits w a b ltac:(lia)) H (w - 1)) by lia.
Qed.

Section flags.
Context (w : Z) (Hw : 8 <= w) (a a' b b' : Z) (Ha : a ≡[w] a') (Hb : b ≡[w] b').

Lemma uwrap4 x x' : x ≡[w] x' → uwrap 4 x = uwrap 4 x'.
Proof using Hw. apply eqw_le. lia. Qed.

Lemma add_flags_eqw fl : add_flags w a b fl = add_flags w a' b' fl.
Proof using All.
  unfold add_flags. rewrite (flags_of_eqw w (a + b) (a' + b')) by (done || by rewrite Ha, Hb).
  rewrite Ha, Hb, (uwrap4 a a'), (uwrap4 b b') by done.
  by rewrite (swrap_eqw w a a'), (swrap_eqw w b b'), (swrap_eqw w (a + b) (a' + b'))
    by (done || lia || by rewrite Ha, Hb).
Qed.

Lemma sub_flags_eqw fl : sub_flags w a b fl = sub_flags w a' b' fl.
Proof using All.
  unfold sub_flags. rewrite (flags_of_eqw w (a - b) (a' - b')) by (done || by rewrite Ha, Hb).
  rewrite Ha, Hb, (uwrap4 a a'), (uwrap4 b b') by done.
  by rewrite (swrap_eqw w a a'), (swrap_eqw w b b'), (swrap_eqw w (a - b) (a' - b'))
    by (done || lia || by rewrite Ha, Hb).
Qed.

Lemma logic_flags_eqw f fl : bitwise f → logic_flags f w a b fl = logic_flags f w a' b' fl.
Proof using All. intros B. unfold logic_flags. apply flags_of_eqw; [done|]. by apply bitwise_eqw. Qed.

Lemma inc_flags_eqw fl : inc_flags w a fl = inc_flags w a' fl.
Proof using Hw Ha.
  unfold inc_flags. rewrite (flags_of_eqw w (a + 1) (a' + 1)) by (done || by rewrite Ha).
  rewrite (uwrap4 a a') by done.
  by rewrite (swrap_eqw w a a'), (swrap_eqw w (a + 1) (a' + 1)) by (done || lia || by rewrite Ha).
Qed.

Lemma dec_flags_eqw fl : dec_flags w a fl = dec_flags w a' fl.
Proof using Hw Ha.
  unfold dec_flags. rewrite (flags_of_eqw w (a - 1) (a' - 1)) by (done || by rewrite Ha).
  rewrite (uwrap4 a a') by done.
  by rewrite (swrap_eqw w a a'), (swrap_eqw w (a - 1) (a' - 1)) by (done || lia || by rewrite Ha).
Qed.
End flags.

(** ** Bit fields *)

Lemma testbit_uwrap w a i : 0 <= w → 0 <= i → Z.testbit (uwrap w a) i = (i <? w) && Z.testbit a i.
Proof.
  intros Hw Hi. unfold uwrap. destruct (Z.ltb_spec i w); simpl.
  - apply Z.mod_pow2_bits_low. lia.
  - apply Z.mod_pow2_bits_high. lia.
Qed.

Lemma testbit_bits_of x msb lsb i :
  0 <= lsb <= msb → 0 <= i → Z.testbit (bits_of x msb lsb) i = (i <? msb - lsb + 1) && Z.testbit x (i + lsb).
Proof.
  intros Hl Hi. unfold bits_of. rewrite testbit_uwrap by lia. by rewrite Z.shiftr_spec by done.
Qed.

Lemma testbit_shifted a n i :
  0 <= n → 0 <= i → Z.testbit (a * 2 ^ n) i = (n <=? i) && Z.testbit a (i - n).
Proof.
  intros Hn Hi. rewrite <- Z.shiftl_mul_pow2, Z.shiftl_spec by done.
  destruct (Z.leb_spec n i); [done|]. apply Z.testbit_neg_r. lia.
Qed.

Lemma testbit_insert old new msb lsb i :
  0 <= lsb <= msb → 0 <= i →
  Z.testbit (insert_bits old new msb lsb) i =
  if (lsb <=? i) && (i <=? msb) then Z.testbit new (i - lsb) else Z.testbit old i.
Proof.
  intros Hl Hi. unfold insert_bits.
  set (f := bits_of old msb lsb * 2 ^ lsb). set (g := uwrap (msb - lsb + 1) new * 2 ^ lsb).
  assert (Hf : ∀ j, 0 <= j → Z.testbit f j = (lsb <=? j) && (j <=? msb) && Z.testbit old j).
  { intros j Hj. unfold f. rewrite testbit_shifted by lia. destruct (Z.leb_spec lsb j); [|done]. simpl.
    rewrite testbit_bits_of by lia. replace (j - lsb + lsb) with j by lia. f_equal.
    destruct (Z.ltb_spec (j - lsb) (msb - lsb + 1)), (Z.leb_spec j msb); lia. }
  assert (Hg : ∀ j, 0 <= j → Z.testbit g j = (lsb <=? j) && (j <=? msb) && Z.testbit new (j - lsb)).
  { intros j Hj. unfold g. rewrite testbit_shifted by lia. destruct (Z.leb_spec lsb j); [|done]. simpl.
    rewrite testbit_uwrap by lia. f_equal.
    destruct (Z.ltb_spec (j - lsb) (msb - lsb + 1)), (Z.leb_spec j msb); lia. }
  rewrite (Z.sub_nocarry_ldiff old f), Z.add_nocarry_lxor.
  - rewrite Z.lxor_spec, Z.ldiff_spec, Hf, Hg by done. destruct ((lsb <=? i) && (i <=? msb)); simpl.
    + by destruct (Z.testbit old i), (Z.testbit new (i - lsb)).
    + by destruct (Z.testbit old i).
  - apply Z.bits_inj'. intros j Hj. rewrite Z.land_spec, Z.ldiff_spec, Hf, Hg, Z.bits_0 by done. btauto.
  - apply Z.bits_inj'. intros j Hj. rewrite Z.ldiff_spec, Hf, Z.bits_0 by done. btauto.
Qed.

(** Two integers that agree on their first 64 bits. *)
Lemma u64_bits a b : (∀ i, 0 <= i < 64 → Z.testbit a i = Z.testbit b i) → u64 a = u64 b.
Proof. apply (eqw_bits 64); lia. Qed.

Lemma insert_eqw old old' new new' msb lsb :
  0 <= lsb <= msb → old ≡[64] old' → new ≡[msb - lsb + 1] new' →
  u64 (insert_bits old new msb lsb) = u64 (insert_bits old' new' msb lsb).
Proof.
  intros Hl Ho Hn. apply u64_bits. intros i Hi. rewrite !testbit_insert by lia.
  destruct (_ && _) eqn:E; bool_to_prop.
  - apply (proj1 (eqw_bits (msb - lsb + 1) new new' ltac:(lia)) Hn). lia.
  - by apply (proj1 (eqw_bits 64 old old' ltac:(lia)) Ho).
Qed.

(** ** Memory *)

Lemma load_le_ext m m' a a' n :
  (∀ x, m x = m' x) → u64 a = u64 a' → load_le m a n = load_le m' a' n.
Proof.
  intros Hm. revert a a'. induction n as [|n IH]; intros a a' Ha; simpl; [done|].
  rewrite Ha, Hm. f_equal. f_equal. apply IH. change (a + 1 ≡[64] a' + 1). by rewrite (Ha : a ≡[64] a').
Qed.

Lemma load_le_range m a n : in_u (8 * Z.of_nat n) (load_le m a n).
Proof.
  revert a. induction n as [|n IH]; intros a; simpl load_le; [by vm_compute|].
  pose proof (uwrap_range 8 (m (u64 a)) ltac:(lia)) as R. specialize (IH (a + 1)). unfold in_u in *.
  replace (8 * Z.of_nat (S n)) with (8 + 8 * Z.of_nat n) by lia. rewrite Z.pow_add_r by lia. nia.
Qed.

Lemma store_le_ext m m' a a' v v' n :
  (∀ x, m x = m' x) → u64 a = u64 a' → v ≡[8 * Z.of_nat n] v' →
  ∀ x, store_le m a v n x = store_le m' a' v' n x.
Proof.
  revert m m' a a' v v'. induction n as [|n IH]; intros m m' a a' v v' Hm Ha Hv; simpl; [done|].
  pose proof (proj1 (eqw_bits (8 * Z.of_nat (S n)) v v' ltac:(lia)) Hv) as B. apply IH.
  - intros x. rewrite Ha, Hm. destruct (x =? u64 a'); [|done]. by apply (eqw_le 8 (8 * Z.of_nat (S n))); [lia|].
  - change (a + 1 ≡[64] a' + 1). by rewrite (Ha : a ≡[64] a').
  - apply eqw_bits; [lia|]. intros i Hi. rewrite !Z.shiftr_spec by lia. apply B. lia.
Qed.
