(* ===== verification/LaSem.v ===== *)
(** * Emitted code and its meaning

    The translator's routines emit instructions one after the other; here the emitted
    code is a list, the list the IR2 array stands for (file Ir2List).  The meaning of the integer
    instructions is that of the LoongArch Reference Manual, volume 1: an operand counts
    through the field the assembler puts it in, register 0 reads as 0. *)

From stdpp Require Import base numbers list option strings tactics.
From Stdlib Require Import ZArith Lia Bool.
From S2P Require Import Prelude X86 LisaTable Ir2 LaAssemble LaAppend RegMap ImmCache RegAlloc.
Local Open Scope Z_scope.
Local Open Scope c_scope.

(** ** Host state *)

(** Besides the general registers: memory and the EFLAGS register of the binary
    translation extension. *)
Record sys := mkSys { smem : Z → Z; sflags : Z }.
Record host := mkH { hreg : Z → Z; hsys : sys }.
Definition hmem (h : host) : Z → Z := smem (hsys h).
Definition hflags (h : host) : Z := sflags (hsys h).
Definition set_mem (h : host) (m : Z → Z) : host := mkH (hreg h) (mkSys m (hflags h)).
Definition set_flags (h : host) (fl : Z) : host := mkH (hreg h) (mkSys (hmem h) fl).

Definition rget (h : host) (r : Z) : Z := if r =? 0 then 0 else u64 (hreg h r).
Definition rset (h : host) (r v : Z) : host :=
  if r =? 0 then h else mkH (λ x, if x =? r then u64 v else hreg h x) (hsys h).

(** ** Instructions *)

(** A field of [w] bits, unsigned and signed. *)
Definition ufield (w : Z) (o : IR2_OPND) : Z := uwrap w (_val o).
Definition sfield (w : Z) (o : IR2_OPND) : Z := swrap w (_val o).
Definition reg_of (o : IR2_OPND) : Z := ufield 5 o.

Inductive sem : Type :=
  | S3R (f : Z → Z → Z)                            (** rd, rj, rk *)
  | S2R (f : Z → Z)                                (** rd, rj *)
  | S2RI (imm : IR2_OPND → Z) (f : Z → Z → Z)      (** rd, rj, imm *)
  | S3RI (imm : IR2_OPND → Z) (f : Z → Z → Z → Z)  (** rd, rj, rk, imm *)
  | S1RI (imm : IR2_OPND → Z) (f : Z → Z → Z)      (** rd (also read), imm *)
  | SPick (w : Z) (ext : Z → Z)                    (** rd, rj, msb, lsb *)
  | SIns (w : Z)
  | SLoad (bytes : nat) (ext : Z → Z)              (** rd, rj, si12 *)
  | SStore (bytes : nat)
  | SFlags2 (f : Z → Z → Z → Z)                    (** rj, rk: EFLAGS from both and EFLAGS *)
  | SFlags1 (f : Z → Z → Z)                        (** rj *)
  | SCond                                          (** rd, cond: is the condition true? *)
  | SNop.                                          (** marks the start of an x86 instruction *)

(** The instructions of the binary translation extension set EFLAGS as the x86
    instruction of the same name does. *)
Definition lbt_ops : list (string * (Z → Z → Z → Z → Z)) :=
  [("x86add", add_flags); ("x86sub", sub_flags); ("x86and", logic_flags Z.land);
   ("x86or", logic_flags Z.lor); ("x86xor", logic_flags Z.lxor)].
Definition lbt_widths : list (string * Z) := [(".b", 8); (".h", 16); (".w", 32); (".d", 64)].
Definition lbt_table : list (string * sem) :=
  ('(n, f) ← lbt_ops; '(x, w) ← lbt_widths; [(n +:+ x, SFlags2 (f w))]) ++
  ('(x, w) ← lbt_widths; [("x86inc" +:+ x, SFlags1 (inc_flags w)); ("x86dec" +:+ x, SFlags1 (dec_flags w))]).

(** The conditions of [setx86j], in the order of [IR2_JCC]. *)
Definition lbt_cond (c fl : Z) : bool :=
  let f := Z.testbit fl in
  match c with
  | 0 => negb (f CF_POS) && negb (f ZF_POS)
  | 1 => negb (f CF_POS)
  | 2 => f CF_POS
  | 3 => f CF_POS || f ZF_POS
  | 4 => f ZF_POS
  | 5 => negb (f ZF_POS)
  | 6 => negb (f ZF_POS) && eqb (f SF_POS) (f OF_POS)
  | 7 => eqb (f SF_POS) (f OF_POS)
  | 8 => negb (eqb (f SF_POS) (f OF_POS))
  | 9 => f ZF_POS || negb (eqb (f SF_POS) (f OF_POS))
  | 10 => f SF_POS
  | 11 => negb (f SF_POS)
  | 12 => f OF_POS
  | 13 => negb (f OF_POS)
  | 14 => f PF_POS
  | _ => negb (f PF_POS)
  end.

Definition sem_table : list (string * sem) :=
  [("add.w", S3R (λ j k, s32 (j + k))); ("add.d", S3R (λ j k, j + k));
   ("sub.w", S3R (λ j k, s32 (j - k))); ("sub.d", S3R (λ j k, j - k));
   ("or", S3R Z.lor); ("and", S3R Z.land); ("xor", S3R Z.lxor);
   ("nor", S3R (λ j k, Z.lnot (Z.lor j k)));
   ("masknez", S3R (λ j k, if k =? 0 then j else 0));
   ("maskeqz", S3R (λ j k, if k =? 0 then 0 else j));
   ("addi.w", S2RI (sfield 12) (λ j i, s32 (j + i))); ("addi.d", S2RI (sfield 12) Z.add);
   ("ori", S2RI (ufield 12) Z.lor); ("andi", S2RI (ufield 12) Z.land);
   ("xori", S2RI (ufield 12) Z.lxor);
   ("slli.w", S2RI (ufield 5) (λ j i, s32 (j << i))); ("slli.d", S2RI (ufield 6) Z.shiftl);
   ("srli.w", S2RI (ufield 5) (λ j i, s32 (u32 j >> i))); ("srli.d", S2RI (ufield 6) Z.shiftr);
   ("srai.w", S2RI (ufield 5) (λ j i, s32 j >> i)); ("srai.d", S2RI (ufield 6) (λ j i, s64 j >> i));
   ("alsl.w", S3RI (ufield 2) (λ j k i, s32 ((j << (i + 1)) + k)));
   ("alsl.wu", S3RI (ufield 2) (λ j k i, u32 ((j << (i + 1)) + k)));
   ("alsl.d", S3RI (ufield 2) (λ j k i, (j << (i + 1)) + k));
   ("lu12i.w", S1RI (sfield 20) (λ _ i, i * 2 ^ 12));
   ("lu32i.d", S1RI (sfield 20) (λ d i, i * 2 ^ 32 + u32 d));
   ("lu52i.d", S2RI (sfield 12) (λ j i, i * 2 ^ 52 + uwrap 52 j));
   ("ext.w.b", S2R s8); ("ext.w.h", S2R s16);
   ("bstrpick.w", SPick 5 s32); ("bstrpick.d", SPick 6 id); ("bstrins.d", SIns 6);
   ("setx86j", SCond); ("x86_inst", SNop);
   ("ld.b", SLoad 1 s8); ("ld.h", SLoad 2 s16); ("ld.w", SLoad 4 s32); ("ld.d", SLoad 8 id);
   ("ld.bu", SLoad 1 id); ("ld.hu", SLoad 2 id); ("ld.wu", SLoad 4 id);
   ("st.b", SStore 1); ("st.h", SStore 2); ("st.w", SStore 4); ("st.d", SStore 8)] ++ lbt_table.

Fixpoint sem_lookup (name : string) (l : list (string * sem)) : option sem :=
  match l with
  | [] => None
  | (n, s) :: l => if String.eqb n name then Some s else sem_lookup name l
  end.
Definition sem_of (name : string) : option sem := sem_lookup name sem_table.

(** An emitted instruction: its name and operands. *)
Definition linst : Type := string * list IR2_OPND.

Definition exec_sem (s : sem) (os : list IR2_OPND) (h : host) : option host :=
  match s, os with
  | S3R f, [d; j; k] => Some (rset h (reg_of d) (f (rget h (reg_of j)) (rget h (reg_of k))))
  | S2R f, [d; j] => Some (rset h (reg_of d) (f (rget h (reg_of j))))
  | S2RI imm f, [d; j; i] => Some (rset h (reg_of d) (f (rget h (reg_of j)) (imm i)))
  | S3RI imm f, [d; j; k; i] =>
      Some (rset h (reg_of d) (f (rget h (reg_of j)) (rget h (reg_of k)) (imm i)))
  | S1RI imm f, [d; i] => Some (rset h (reg_of d) (f (rget h (reg_of d)) (imm i)))
  | SPick w ext, [d; j; msb; lsb] =>
      Some (rset h (reg_of d) (ext (bits_of (rget h (reg_of j)) (ufield w msb) (ufield w lsb))))
  | SIns w, [d; j; msb; lsb] =>
      Some (rset h (reg_of d)
        (insert_bits (rget h (reg_of d)) (rget h (reg_of j)) (ufield w msb) (ufield w lsb)))
  | SLoad n ext, [d; j; i] =>
      Some (rset h (reg_of d) (ext (load_le (hmem h) (rget h (reg_of j) + sfield 12 i) n)))
  | SStore n, [d; j; i] =>
      Some (set_mem h (store_le (hmem h) (rget h (reg_of j) + sfield 12 i) (rget h (reg_of d)) n))
  | SFlags2 f, [j; k] =>
      Some (set_flags h (f (rget h (reg_of j)) (rget h (reg_of k)) (hflags h)))
  | SFlags1 f, [j] => Some (set_flags h (f (rget h (reg_of j)) (hflags h)))
  | SCond, [d; c] => Some (rset h (reg_of d) (Z.b2z (lbt_cond (ufield 4 c) (hflags h))))
  | SNop, [_] => Some h
  | _, _ => None
  end.

Definition exec (i : linst) (h : host) : option host :=
  s ← sem_of (fst i); exec_sem s (snd i) h.

Fixpoint run (code : list linst) (h : host) : option host :=
  match code with [] => Some h | i :: code => h ← exec i h; run code h end.

Lemma run_app c1 c2 h : run (c1 ++ c2) h = h ← run c1 h; run c2 h.
Proof.
  revert h. induction c1 as [|i c1 IH]; intros h; [done|]. simpl.
  destruct (exec i h); [apply IH|done].
Qed.

(** ** Well-formed code *)

Definition gp (r : Z) : IR2_OPND := mkOpnd2 IR2_OPND_GPR r.

Definition reg_ok (o : IR2_OPND) : bool := ir2_opnd_is_ireg o && (0 <=? _val o) && (_val o <? 32).

(** Which operands are registers. *)
Definition shape (s : sem) : list bool :=
  match s with
  | S3R _ => [true; true; true]
  | S2R _ | SFlags2 _ => [true; true]
  | S2RI _ _ | SLoad _ _ | SStore _ => [true; true; false]
  | S3RI _ _ => [true; true; true; false]
  | S1RI _ _ | SCond => [true; false]
  | SPick _ _ | SIns _ => [true; true; false; false]
  | SFlags1 _ => [true]
  | SNop => [false]
  end.
Fixpoint shape_ok (sh : list bool) (os : list IR2_OPND) : bool :=
  match sh, os with
  | [], [] => true
  | b :: sh, o :: os => (if (b : bool) then reg_ok o else ir2_opnd_is_imm o) && shape_ok sh os
  | _, _ => false
  end.

(** Register [d] is written, other than by adding to it: [-1] for none. *)
Definition fresh_dest (name : string) (s : sem) (os : list IR2_OPND) : Z :=
  match s with
  | SStore _ | SFlags2 _ | SFlags1 _ | SNop => -1
  | _ => if String.eqb name "addi.d" then -1 else match os with d :: _ => _val d | [] => -1 end
  end.

(** The immediates of additions and memory accesses have 12 bits; ADDI.W only loads
    constants. *)
Definition imm12_ok (name : string) (s : sem) (os : list IR2_OPND) : bool :=
  match s, os with
  | SLoad _ _, [_; _; i] | SStore _, [_; _; i] => negb (si12_overflow (ir2_opnd_imm i))
  | S2RI _ _, [_; j; i] =>
      if String.eqb name "addi.w" then negb (si12_overflow (ir2_opnd_imm i)) && (_val j =? 0)
      else if String.eqb name "addi.d" then negb (si12_overflow (ir2_opnd_imm i))
      else true
  | _, _ => true
  end.

(** [w]: the register written just before; LU32I.D completes what has been written. *)
Fixpoint code_ok (w : Z) (code : list linst) : bool :=
  match code with
  | [] => true
  | (name, os) :: code =>
      match sem_of name with
      | Some s =>
          shape_ok (shape s) os && imm12_ok name s os &&
          (if String.eqb name "lu32i.d" then match os with d :: _ => _val d =? w | [] => false end else true) &&
          code_ok (fresh_dest name s os) code
      | None => false
      end
  end.

Lemma code_ok_weaken w code : code_ok (-1) code = true → code_ok w code = true.
Proof.
  destruct code as [|[name os] code]; [done|]. simpl. destruct (sem_of name) as [s|] eqn:E; [|done].
  rewrite !andb_true_iff. intros [[[Sh I] L] C]. split_and!; try done.
  destruct (String.eqb_spec name "lu32i.d") as [->|]; [|done]. injection E as <-.
  destruct os as [|d os]; [done|]. simpl in Sh. rewrite !andb_true_iff in Sh. destruct Sh as [R _].
  unfold reg_ok in R. rewrite !andb_true_iff, Z.leb_le in R. apply Z.eqb_eq in L. lia.
Qed.

Lemma code_ok_app w c1 c2 : code_ok w c1 = true → code_ok (-1) c2 = true → code_ok w (c1 ++ c2) = true.
Proof.
  revert w. induction c1 as [|[name os] c1 IH]; intros w H1 H2; [by apply code_ok_weaken|]. simpl in *.
  destruct (sem_of name) as [s|]; [|done]. rewrite !andb_true_iff in *. destruct H1 as [? H]. split; [done|].
  by apply IH.
Qed.

(** The register the last instruction has written. *)
Fixpoint written (w : Z) (code : list linst) : Z :=
  match code with
  | [] => w
  | (name, os) :: code => written (match sem_of name with Some s => fresh_dest name s os | None => -1 end) code
  end.

Lemma code_ok_app_at w c1 c2 : code_ok w c1 = true → code_ok (written w c1) c2 = true → code_ok w (c1 ++ c2) = true.
Proof.
  revert w. induction c1 as [|[name os] c1 IH]; intros w H1 H2; [done|]. simpl in *.
  destruct (sem_of name) as [s|]; [|done]. rewrite !andb_true_iff in *. destruct H1 as [? H]. split; [done|].
  by apply IH.
Qed.

(** ** Emission *)

(** [la_<name>(args)]: the constructor's checks, then the instruction. *)
Definition inst_of (name : string) (args : list arg) : option linst :=
  r ← row_of name; os ← constructor_opnds r args; Some (name, os).

(** A routine of the translator works on the temporaries and emits code. *)
Definition M (A : Type) : Type := temps → option (A * temps * list linst).

Global Instance M_ret : MRet M := λ A x s, Some (x, s, []).
Global Instance M_bind : MBind M := λ A B f m s,
  '(x, s1, c1) ← m s; '(y, s2, c2) ← f x s1; Some (y, s2, c1 ++ c2).

Definition emit (name : string) (args : list arg) : M unit := λ s,
  i ← inst_of name args; Some (tt, s, [i]).
Definition check (b : bool) : M unit := λ s, if b then Some (tt, s, []) else None.
Definition lift {A} (o : option A) : M A := λ s, x ← o; Some (x, s, []).
Definition on_temps {A} (f : temps → option (A * temps)) : M A := λ s,
  '(x, s) ← f s; Some (x, s, []).
Definition do_temps (f : temps → option temps) : M unit := λ s,
  s ← f s; Some (tt, s, []).
Definition get_temps : M temps := λ s, Some (s, s, []).

Definition r3 (name : string) (d j k : IR2_OPND) : M unit := emit name [AOpnd d; AOpnd j; AOpnd k].
Definition r2i (name : string) (d j : IR2_OPND) (i : Z) : M unit :=
  emit name [AOpnd d; AOpnd j; AImm (s32 i)].
Definition r1i (name : string) (d : IR2_OPND) (i : Z) : M unit := emit name [AOpnd d; AImm (s32 i)].
Definition r3i (name : string) (d j k : IR2_OPND) (i : Z) : M unit :=
  emit name [AOpnd d; AOpnd j; AOpnd k; AImm (s32 i)].
Definition bstr (name : string) (d j : IR2_OPND) (msb lsb : Z) : M unit :=
  emit name [AOpnd d; AOpnd j; AImm (s32 msb); AImm (s32 lsb)].

Definition r2 (name : string) (d j : IR2_OPND) : M unit := emit name [AOpnd d; AOpnd j].
Definition r1 (name : string) (j : IR2_OPND) : M unit := emit name [AOpnd j].

(** ** What a constructor emits *)

Definition is_reg (r : Z) : Prop := 0 <= r < 32.

Lemma reg_of_gp r : is_reg r → reg_of (gp r) = r.
Proof. intros H. apply uwrap_id. exact H. Qed.

(** The template of an instruction without special treatment. *)
Definition plain_row (name : string) (tys : list GM_OPERAND_TYPE) : bool :=
  match row_of name with
  | Some r => String.eqb (t_name r) name && bool_decide (opnd_types r = tys) &&
      negb (mem_name name ["label"; "x86_inst"]) && negb (isJmpInst name) &&
      negb (isCsrInst name) && negb (isAmInst name)
  | None => false
  end.

Class Row (name : string) (tys : list GM_OPERAND_TYPE) (imm_load bits : bool) (s : sem) : Prop :=
  { row_plain : plain_row name tys = true;
    row_imm : isImmLoad name = imm_load;
    row_bits : isBstrInst name = bits;
    row_sem : sem_of name = Some s }.

Lemma inst_of_row name ty tys il bs s args os :
  Row name (ty :: tys) il bs s → build_opnds name (ty :: tys) args = Some os →
  (bs = true → checkOpndConstraints name (ty :: tys) args os = true) →
  inst_of name args = Some (name, os).
Proof.
  intros [P _ B _] E C. unfold plain_row in P. unfold inst_of.
  destruct (row_of name) as [r|]; [|done]. simpl. rewrite !andb_true_iff in P.
  destruct P as (((((N & T) & L) & J) & Cs) & Am). apply String.eqb_eq in N.
  apply bool_decide_eq_true in T. unfold constructor_opnds. rewrite N, T.
  apply negb_true_iff in L, Cs, Am. rewrite L, E. simpl.
  destruct bs; [by rewrite C|]. unfold checkOpndConstraints. by rewrite B, Cs, Am.
Qed.

Lemma row_not_jmp name tys il bs s : Row name tys il bs s → isJmpInst name = false.
Proof.
  intros [P _ _ _]. unfold plain_row in P. destruct (row_of name); [|done].
  rewrite !andb_true_iff in P. destruct P as (((_ & J) & _) & _). by apply negb_true_iff.
Qed.

(** [m] run in [s] returns [x] and [s'], and the code it emits, well-formed after a write
    of register [w], takes every host state to one related by [R]. *)
Definition emits_at (w : Z) {A} (m : M A) (s : temps) (x : A) (s' : temps) (R : host → host → Prop) : Prop :=
  ∃ code, m s = Some (x, s', code) ∧ code_ok w code = true ∧ ∀ h, ∃ h', run code h = Some h' ∧ R h h'.
Abbreviation emits := (emits_at (-1)).

(** Register [d] is set to [v], everything else is kept. *)
Definition sets (d : Z) (v : host → Z) (h h' : host) : Prop :=
  rget h' d = u64 (v h) ∧ (∀ r, r ≠ d → rget h' r = rget h r) ∧ hsys h' = hsys h.

Definition same (h h' : host) : Prop := h' = h.

Lemma rset_sets h d v : d ≠ 0 → sets d (λ _, v) h (rset h d v).
Proof.
  intros Hd. unfold sets, rset, rget. destruct (Z.eqb_spec d 0); [done|]. simpl.
  split; [|split; [|done]].
  - rewrite Z.eqb_refl. apply Z.mod_mod. done.
  - intros r Hr. destruct (Z.eqb_spec r 0); [done|]. by destruct (Z.eqb_spec r d).
Qed.

Lemma emits_ret {A} w (x : A) s : emits_at w (mret x) s x s same.
Proof. exists []. split_and!; [done..|]. intros h. by exists h. Qed.

Lemma emits_bind {A B} w (m : M A) (f : A → M B) s x s1 y s2 R1 R2 (R : host → host → Prop) :
  emits_at w m s x s1 R1 → emits (f x) s1 y s2 R2 →
  (∀ h h1 h2, R1 h h1 → R2 h1 h2 → R h h2) → emits_at w (m ≫= f) s y s2 R.
Proof.
  intros (c1 & E1 & W1 & H1) (c2 & E2 & W2 & H2) HR. exists (c1 ++ c2). split_and!.
  - unfold mbind, M_bind. rewrite E1. cbn [mbind option_bind]. by rewrite E2.
  - by apply code_ok_app.
  - intros h. destruct (H1 h) as (h1 & R1' & Hr1). destruct (H2 h1) as (h2 & R2' & Hr2).
    exists h2. rewrite run_app, R1'. simpl. eauto.
Qed.

Lemma emits_mono {A} w (m : M A) s x s' R : emits m s x s' R → emits_at w m s x s' R.
Proof. intros (c & E & W & H). exists c. split_and!; [done|by apply code_ok_weaken|done]. Qed.

(** The code of [m] ends by writing register [d]. *)
Definition ends_in {A} (d : Z) (m : M A) : Prop := ∀ s x s' c w, m s = Some (x, s', c) → written w c = d.

Lemma emits_bind_at {A B} w d (m : M A) (f : A → M B) s x s1 y s2 R1 R2 (R : host → host → Prop) :
  emits_at w m s x s1 R1 → ends_in d m → emits_at d (f x) s1 y s2 R2 →
  (∀ h h1 h2, R1 h h1 → R2 h1 h2 → R h h2) → emits_at w (m ≫= f) s y s2 R.
Proof.
  intros (c1 & E1 & W1 & H1) D (c2 & E2 & W2 & H2) HR. exists (c1 ++ c2). split_and!.
  - unfold mbind, M_bind. rewrite E1. cbn [mbind option_bind]. by rewrite E2.
  - apply code_ok_app_at; [done|]. by rewrite (D _ _ _ _ w E1).
  - intros h. destruct (H1 h) as (h1 & R1' & Hr1). destruct (H2 h1) as (h2 & R2' & Hr2).
    exists h2. rewrite run_app, R1'. simpl. eauto.
Qed.

Lemma ends_bind {A B} d (m : M A) (f : A → M B) : (∀ x, ends_in d (f x)) → ends_in d (m ≫= f).
Proof.
  intros D s x s' c w. unfold mbind, M_bind. destruct (m s) as [[[y s1] c1]|]; [|done]. cbn [mbind option_bind].
  destruct (f y s1) as [[[z s2] c2]|] eqn:E; [|done]. intros [= <- <- <-]. revert w.
  induction c1 as [|[name os] c1 IH]; intros w; [by eapply D|apply IH].
Qed.

Lemma ends_emit name d args :
  match sem_of name with Some s => fresh_dest name s [gp d] =? d | None => false end = true →
  ends_in d (emit name (AOpnd (gp d) :: args)).
Proof.
  intros F s x s' c w. unfold emit, inst_of. destruct (row_of name) as [r|]; [|done]. cbn [mbind option_bind].
  destruct (constructor_opnds r _) as [os|] eqn:C; [|done]. intros [= <- <- <-].
  assert (∃ os', os = gp d :: os') as [os' ->].
  { unfold constructor_opnds in C. destruct (mem_name _ _); [destruct args; simplify_eq; by eexists|].
    destruct (opnd_types r) as [|ty tys]; [done|]. simpl in C. destruct (negb _); [|done]. simpl in C.
    destruct (generatingCheck _ _ _ _); [|done]. destruct (build_opnds _ _ _) as [os'|]; [|done]. simpl in C.
    destruct (checkOpndConstraints _ _ _ _); [|done]. injection C as <-. by eexists. }
  simpl. destruct (sem_of name) as [sm|]; [|done]. apply Z.eqb_eq in F. by destruct sm.
Qed.

Lemma emits_weaken {A} w (m : M A) s x s' R (R' : host → host → Prop) :
  emits_at w m s x s' R → (∀ h h', R h h' → R' h h') → emits_at w m s x s' R'.
Proof.
  intros (c & E & W & H) HR. exists c. split_and!; [done..|]. intros h. destruct (H h) as (h' & ? & ?). eauto.
Qed.

Lemma emits_emit w name args os s d v :
  d ≠ 0 → inst_of name args = Some (name, os) → code_ok w [(name, os)] = true →
  (∀ h, exec (name, os) h = Some (rset h d (v h))) → emits_at w (emit name args) s tt s (sets d v).
Proof.
  intros Hd E W X. exists [(name, os)]. split_and!; [unfold emit; by rewrite E|done|].
  intros h. simpl. rewrite X. simpl. eexists. split; [done|]. by apply rset_sets.
Qed.

#[local] Arguments reg_of : simpl never.

Lemma reg_ok_gp r : is_reg r → reg_ok (gp r) = true.
Proof. unfold is_reg, reg_ok. intros H. simpl. apply andb_true_iff. rewrite Z.leb_le, Z.ltb_lt. lia. Qed.

(** A single instruction is well-formed. *)
Lemma inst_code_ok w name tys il bs s os :
  Row name tys il bs s → shape_ok (shape s) os = true → imm12_ok name s os = true →
  (name = "lu32i.d" → match os with d :: _ => _val d = w | [] => False end) → code_ok w [(name, os)] = true.
Proof.
  intros R Sh I L. simpl. rewrite row_sem, Sh, I. simpl. rewrite andb_true_r.
  destruct (String.eqb_spec name "lu32i.d"); [|done]. specialize (L e). destruct os; [done|]. by apply Z.eqb_eq.
Qed.

Lemma emits_r3 name f d j k s :
  Row name [GPR_RD; GPR_RJ; GPR_RK] false false (S3R f) → is_reg d → d ≠ 0 → is_reg j → is_reg k →
  emits (r3 name (gp d) (gp j) (gp k)) s tt s (sets d (λ h, f (rget h j) (rget h k))).
Proof.
  intros R Hd H0 Hj Hk. apply emits_emit with (os := [gp d; gp j; gp k]); [done| | |].
  - eapply inst_of_row; [done| |done]. reflexivity.
  - eapply inst_code_ok; [done|simpl; by rewrite !reg_ok_gp|done|]. intros ->. by destruct R.
  - intros h. unfold exec. simpl fst. rewrite row_sem. simpl. by rewrite !reg_of_gp.
Qed.

(** ** Immediates *)

(** The check of an immediate argument. *)
Definition imm_ok (imm_load : bool) (ty : GM_OPERAND_TYPE) (v : Z) : bool :=
  imm_load ||
  match si_len ty, sa_len ty with
  | Some len, _ => v =? sextract64 v 0 len
  | None, Some len => (v >> len) =? 0
  | None, None => true
  end.

Definition plain_imm (ty : GM_OPERAND_TYPE) : bool := is_imm ty && negb (bool_decide (ty = IMM_SI14)).

Lemma check_imm name tys il bs s ty v :
  Row name tys il bs s → plain_imm ty = true → imm_ok il ty v = true →
  build_opnd name ty (AImm v) = Some (create_immh_opnd v) ∧
  generatingCheck name ty (AImm v) (create_immh_opnd v) = true.
Proof.
  intros R [I S]%andb_true_iff O. pose proof (row_not_jmp _ _ _ _ _ R) as J.
  apply negb_true_iff in S. unfold build_opnd, generatingCheck, arg_imm. rewrite I, J, S. simpl.
  split; [done|]. rewrite row_imm. unfold imm_ok in O. destruct il; simpl in *; [|done].
  destruct ty; done.
Qed.

Lemma imm_ok_12 v : imm_ok false IMM_SI12 v = true → si12_overflow (ir2_opnd_imm (create_immh_opnd v)) = false.
Proof.
  intros H%Z.eqb_eq. unfold sextract64 in H. rewrite Z.shiftr_0_r in H.
  pose proof (swrap_range 12 v ltac:(lia)) as B. unfold in_s in B.
  assert (E : ir2_opnd_imm (create_immh_opnd v) = v).
  { unfold ir2_opnd_imm, s32. simpl. rewrite swrap_u32 by lia. apply swrap_id; [lia|]. unfold in_s. lia. }
  rewrite E. unfold si12_overflow. rewrite (proj2 (Z.leb_le _ _)), (proj2 (Z.leb_le _ _)) by lia. done.
Qed.

(** The additions take 12 bits. *)
Lemma addi_type name ty il s :
  Row name [GPR_RD; GPR_RJ; ty] il false s → name = "addi.w" ∨ name = "addi.d" → ty = IMM_SI12 ∧ il = false.
Proof.
  intros [P I _ _] N. rewrite <- I. unfold plain_row in P. destruct N as [-> | ->]; (split; [|done]).
  - replace (row_of "addi.w") with (Some (row "addi.w" 0x2800000 [GPR_RD; GPR_RJ; IMM_SI12])) in P by (vm_compute; reflexivity).
    rewrite !andb_true_iff in P. destruct P as (((((_ & T) & _) & _) & _) & _). apply bool_decide_eq_true in T.
    by injection T.
  - replace (row_of "addi.d") with (Some (row "addi.d" 0x2c00000 [GPR_RD; GPR_RJ; IMM_SI12])) in P by (vm_compute; reflexivity).
    rewrite !andb_true_iff in P. destruct P as (((((_ & T) & _) & _) & _) & _). apply bool_decide_eq_true in T.
    by injection T.
Qed.

Lemma addi_imm name ty il s v :
  Row name [GPR_RD; GPR_RJ; ty] il false s → name = "addi.w" ∨ name = "addi.d" → imm_ok il ty v = true →
  si12_overflow (ir2_opnd_imm (create_immh_opnd v)) = false.
Proof. intros R N O. destruct (addi_type _ _ _ _ R N) as [-> ->]. by apply imm_ok_12. Qed.

Lemma not_addi_w name ty il s (j : Z) :
  Row name [GPR_RD; GPR_RJ; ty] il false s → ty ≠ IMM_SI12 → name = "addi.w" → j = 0.
Proof. intros R N E. by destruct (addi_type _ _ _ _ R (or_introl E)). Qed.

Lemma emits_r2i name ty il imm f d j i s :
  Row name [GPR_RD; GPR_RJ; ty] il false (S2RI imm f) → (name = "addi.w" → j = 0) → plain_imm ty = true →
  imm_ok il ty (s32 i) = true → is_reg d → d ≠ 0 → is_reg j →
  emits (r2i name (gp d) (gp j) i) s tt s
    (sets d (λ h, f (rget h j) (imm (create_immh_opnd (s32 i))))).
Proof.
  intros R NW T O Hd H0 Hj. apply emits_emit with (os := [gp d; gp j; create_immh_opnd (s32 i)]); [done| | |].
  - eapply inst_of_row; [done| |done]. destruct (check_imm _ _ _ _ _ _ _ R T O) as [E C].
    cbn -[build_opnd generatingCheck]. rewrite E. cbn -[build_opnd generatingCheck]. by rewrite C.
  - eapply inst_code_ok; [done|simpl; by rewrite !reg_ok_gp| |intros ->; by destruct R]. cbn [imm12_ok].
    destruct (String.eqb_spec name "addi.w") as [N|].
    + rewrite (addi_imm _ _ _ _ _ R (or_introl N) O). simpl. by rewrite (NW N).
    + destruct (String.eqb_spec name "addi.d") as [N|]; [|done]. by rewrite (addi_imm _ _ _ _ _ R (or_intror N) O).
  - intros h. unfold exec. simpl fst. rewrite row_sem. simpl. by rewrite !reg_of_gp.
Qed.

Lemma emits_r1i w name ty il imm f d i s :
  Row name [GPR_RD; ty] il false (S1RI imm f) → (name = "lu32i.d" → d = w) → plain_imm ty = true →
  imm_ok il ty (s32 i) = true → is_reg d → d ≠ 0 →
  emits_at w (r1i name (gp d) i) s tt s (sets d (λ h, f (rget h d) (imm (create_immh_opnd (s32 i))))).
Proof.
  intros R L T O Hd H0. apply emits_emit with (os := [gp d; create_immh_opnd (s32 i)]); [done| | |].
  - eapply inst_of_row; [done| |done]. destruct (check_imm _ _ _ _ _ _ _ R T O) as [E C].
    cbn -[build_opnd generatingCheck]. rewrite E. cbn -[build_opnd generatingCheck]. by rewrite C.
  - eapply inst_code_ok; [done|simpl; by rewrite !reg_ok_gp|done|exact L].
  - intros h. unfold exec. simpl fst. rewrite row_sem. simpl. by rewrite !reg_of_gp.
Qed.

Lemma emits_r3i name ty imm f d j k i s :
  Row name [GPR_RD; GPR_RJ; GPR_RK; ty] false false (S3RI imm f) → plain_imm ty = true →
  imm_ok false ty (s32 i) = true → is_reg d → d ≠ 0 → is_reg j → is_reg k →
  emits (r3i name (gp d) (gp j) (gp k) i) s tt s
    (sets d (λ h, f (rget h j) (rget h k) (imm (create_immh_opnd (s32 i))))).
Proof.
  intros R T O Hd H0 Hj Hk.
  apply emits_emit with (os := [gp d; gp j; gp k; create_immh_opnd (s32 i)]); [done| | |].
  - eapply inst_of_row; [done| |done]. destruct (check_imm _ _ _ _ _ _ _ R T O) as [E C].
    cbn -[build_opnd generatingCheck]. rewrite E. cbn -[build_opnd generatingCheck]. by rewrite C.
  - eapply inst_code_ok; [done|simpl; by rewrite !reg_ok_gp|done|intros ->; by destruct R].
  - intros h. unfold exec. simpl fst. rewrite row_sem. simpl. by rewrite !reg_of_gp.
Qed.

Lemma emits_load name n ext d j i s :
  Row name [GPR_RD; GPR_RJ; IMM_SI12] false false (SLoad n ext) →
  imm_ok false IMM_SI12 (s32 i) = true → is_reg d → d ≠ 0 → is_reg j →
  emits (r2i name (gp d) (gp j) i) s tt s
    (sets d (λ h, ext (load_le (hmem h) (rget h j + sfield 12 (create_immh_opnd (s32 i))) n))).
Proof.
  intros R O Hd H0 Hj. apply emits_emit with (os := [gp d; gp j; create_immh_opnd (s32 i)]); [done| | |].
  - eapply inst_of_row; [done| |done]. destruct (check_imm _ _ _ _ _ IMM_SI12 _ R eq_refl O) as [E C].
    cbn -[build_opnd generatingCheck]. rewrite E. cbn -[build_opnd generatingCheck]. by rewrite C.
  - eapply inst_code_ok; [done|simpl; by rewrite !reg_ok_gp| |intros ->; by destruct R].
    cbn [imm12_ok]. by rewrite imm_ok_12.
  - intros h. unfold exec. simpl fst. rewrite row_sem. simpl. by rewrite !reg_of_gp.
Qed.

(** Bit fields with constant positions. *)
Lemma emits_bits name (tm tl : GM_OPERAND_TYPE) k f d j msb lsb s w :
  Row name [GPR_RD; GPR_RJ; tm; tl] false true w →
  (k = 6 ∧ tm = IMM_MSBD ∧ tl = IMM_LSBD) ∨ (k = 5 ∧ tm = IMM_MSBW ∧ tl = IMM_LSBW) →
  (∃ ext, w = SPick k ext ∧ f = (λ _ j, ext (bits_of j msb lsb))) ∨
  (w = SIns k ∧ f = (λ d j, insert_bits d j msb lsb)) →
  0 <= lsb <= msb → msb < 2 ^ k → is_reg d → d ≠ 0 → is_reg j →
  emits (bstr name (gp d) (gp j) msb lsb) s tt s (sets d (λ h, f (rget h d) (rget h j))).
Proof.
  intros R T W Hl Hm Hd H0 Hj.
  assert (Hk : 2 ^ k <= 64 ∧ 0 <= k) by (destruct T as [(-> & _)|(-> & _)]; lia).
  assert (Es : ∀ x, 0 <= x < 64 → s32 x = x) by (intros; apply swrap_id; [lia|unfold in_s; lia]).
  assert (Ef : ∀ x, 0 <= x < 2 ^ k → ufield k (create_immh_opnd x) = x).
  { intros x Hx. unfold ufield. simpl. unfold u32. rewrite (uwrap_id 32) by (unfold in_u; lia).
    by apply uwrap_id. }
  unfold bstr. rewrite !Es by lia.
  apply emits_emit with (os := [gp d; gp j; create_immh_opnd msb; create_immh_opnd lsb]); [done| | |].
  - eapply inst_of_row; [done| |].
    + assert (P : plain_imm tm = true ∧ plain_imm tl = true ∧ imm_ok false tm msb = true ∧
        imm_ok false tl lsb = true) by (destruct T as [(_ & -> & ->)|(_ & -> & ->)]; done).
      destruct P as (P1 & P2 & O1 & O2).
      destruct (check_imm _ _ _ _ _ tm msb R P1 O1) as [E C], (check_imm _ _ _ _ _ tl lsb R P2 O2) as [E' C'].
      cbn -[build_opnd generatingCheck]. rewrite E, E'. cbn -[build_opnd generatingCheck]. by rewrite C, C'.
    + intros _. unfold checkOpndConstraints. rewrite row_bits. apply Z.leb_le. lia.
  - eapply inst_code_ok; [done| |by destruct W as [(ext & -> & _)|[-> _]]|intros ->; by destruct R].
    destruct W as [(ext & -> & _)|[-> _]]; simpl; by rewrite !reg_ok_gp.
  - intros h. unfold exec. simpl fst. rewrite row_sem.
    destruct W as [(ext & -> & ->)|[-> ->]]; simpl; by rewrite !reg_of_gp, !Ef by (done || lia).
Qed.

Lemma emits_r2 name f d j s :
  Row name [GPR_RD; GPR_RJ] false false (S2R f) → is_reg d → d ≠ 0 → is_reg j →
  emits (r2 name (gp d) (gp j)) s tt s (sets d (λ h, f (rget h j))).
Proof.
  intros R Hd H0 Hj. apply emits_emit with (os := [gp d; gp j]); [done| | |].
  - eapply inst_of_row; [done| |done]. reflexivity.
  - eapply inst_code_ok; [done|simpl; by rewrite !reg_ok_gp|done|intros ->; by destruct R].
  - intros h. unfold exec. simpl fst. rewrite row_sem. simpl. by rewrite !reg_of_gp.
Qed.

(** Instructions that write no register. *)
Lemma emits_other name args os s (g : host → host) :
  inst_of name args = Some (name, os) → code_ok (-1) [(name, os)] = true →
  (∀ h, exec (name, os) h = Some (g h)) → emits (emit name args) s tt s (λ h h', h' = g h).
Proof.
  intros E W X. exists [(name, os)]. split_and!; [unfold emit; by rewrite E|done|].
  intros h. simpl. rewrite X. simpl. by eexists.
Qed.

Lemma emits_store name n v j i s :
  Row name [GPR_RD; GPR_RJ; IMM_SI12] false false (SStore n) →
  imm_ok false IMM_SI12 (s32 i) = true → is_reg v → is_reg j →
  emits (r2i name (gp v) (gp j) i) s tt s
    (λ h h', h' = set_mem h (store_le (hmem h) (rget h j + sfield 12 (create_immh_opnd (s32 i))) (rget h v) n)).
Proof.
  intros R O Hv Hj. apply emits_other with (os := [gp v; gp j; create_immh_opnd (s32 i)]).
  - eapply inst_of_row; [done| |done]. destruct (check_imm _ _ _ _ _ IMM_SI12 _ R eq_refl O) as [E C].
    cbn -[build_opnd generatingCheck]. rewrite E. cbn -[build_opnd generatingCheck]. by rewrite C.
  - eapply inst_code_ok; [done|simpl; by rewrite !reg_ok_gp| |intros ->; by destruct R].
    cbn [imm12_ok]. by rewrite imm_ok_12.
  - intros h. unfold exec. simpl fst. rewrite row_sem. simpl. by rewrite !reg_of_gp.
Qed.

Lemma emits_flags2 name f j k s :
  Row name [GPR_RJ; GPR_RK] false false (SFlags2 f) → is_reg j → is_reg k →
  emits (r2 name (gp j) (gp k)) s tt s (λ h h', h' = set_flags h (f (rget h j) (rget h k) (hflags h))).
Proof.
  intros R Hj Hk. apply emits_other with (os := [gp j; gp k]).
  - eapply inst_of_row; [done| |done]. reflexivity.
  - eapply inst_code_ok; [done|simpl; by rewrite !reg_ok_gp|done|intros ->; by destruct R].
  - intros h. unfold exec. simpl fst. rewrite row_sem. simpl. by rewrite !reg_of_gp.
Qed.

Lemma emits_flags1 name f j s :
  Row name [GPR_RJ] false false (SFlags1 f) → is_reg j →
  emits (r1 name (gp j)) s tt s (λ h h', h' = set_flags h (f (rget h j) (hflags h))).
Proof.
  intros R Hj. apply emits_other with (os := [gp j]).
  - eapply inst_of_row; [done| |done]. reflexivity.
  - eapply inst_code_ok; [done|simpl; by rewrite !reg_ok_gp|done|intros ->; by destruct R].
  - intros h. unfold exec. simpl fst. rewrite row_sem. simpl. by rewrite !reg_of_gp.
Qed.

Lemma emits_cond name d c s :
  Row name [GPR_RD; IMM_CONDH] false false SCond → is_reg d → d ≠ 0 → 0 <= c < 16 →
  emits (r1i name (gp d) c) s tt s (sets d (λ h, Z.b2z (lbt_cond c (hflags h)))).
Proof.
  intros R Hd H0 Hc. apply emits_emit with (os := [gp d; create_immh_opnd (s32 c)]); [done| | |].
  - eapply inst_of_row; [done| |done]. destruct (check_imm _ _ _ _ _ IMM_CONDH (s32 c) R eq_refl eq_refl) as [E C].
    cbn -[build_opnd generatingCheck]. rewrite E. cbn -[build_opnd generatingCheck]. by rewrite C.
  - eapply inst_code_ok; [done|simpl; by rewrite !reg_ok_gp|done|intros ->; by destruct R].
  - intros h. unfold exec. simpl fst. rewrite row_sem. simpl. rewrite reg_of_gp by done.
    unfold ufield. simpl. unfold s32, u32. rewrite (swrap_id 32), (uwrap_id 32), (uwrap_id 4)
      by (lia || unfold in_u, in_s; lia). done.
Qed.

(** ** The value of an immediate *)

Lemma sfield_imm w i : 0 < w <= 32 → sfield w (create_immh_opnd (s32 i)) = swrap w i.
Proof.
  intros Hw. unfold sfield. simpl. by rewrite swrap_u32, swrap_s32 by lia.
Qed.

Lemma ufield_imm w i : 0 <= w <= 32 → ufield w (create_immh_opnd (s32 i)) = uwrap w i.
Proof.
  intros Hw. unfold ufield. simpl. unfold u32, uwrap.
  rewrite Z.mod_mod_divide; [apply swrap_mod_le; lia|].
  exists (2 ^ (32 - w)). rewrite <- Z.pow_add_r by lia. f_equal. lia.
Qed.

Lemma imm_ok_s12 v : in_s 12 v → imm_ok false IMM_SI12 v = true.
Proof.
  intros H. apply Z.eqb_eq. unfold sextract64. rewrite Z.shiftr_0_r. symmetry. by apply swrap_id.
Qed.

Lemma sfield_s12 i : in_s 12 (s32 i) → sfield 12 (create_immh_opnd (s32 i)) = s32 i.
Proof. intros H. rewrite sfield_imm, <- swrap_s32 by lia. by apply swrap_id. Qed.

(** ** The instructions used below *)

#[local] Tactic Notation "row" := split; [vm_compute; reflexivity|reflexivity..].

#[export] Instance row_add_w : Row "add.w" [GPR_RD; GPR_RJ; GPR_RK] false false (S3R (λ j k, s32 (j + k))).
Proof. row. Qed.
#[export] Instance row_add_d : Row "add.d" [GPR_RD; GPR_RJ; GPR_RK] false false (S3R (λ j k, j + k)).
Proof. row. Qed.
#[export] Instance row_or : Row "or" [GPR_RD; GPR_RJ; GPR_RK] false false (S3R Z.lor).
Proof. row. Qed.
#[export] Instance row_addi_w :
  Row "addi.w" [GPR_RD; GPR_RJ; IMM_SI12] false false (S2RI (sfield 12) (λ j i, s32 (j + i))).
Proof. row. Qed.
#[export] Instance row_addi_d : Row "addi.d" [GPR_RD; GPR_RJ; IMM_SI12] false false (S2RI (sfield 12) Z.add).
Proof. row. Qed.
#[export] Instance row_ori : Row "ori" [GPR_RD; GPR_RJ; IMM_UI12] false false (S2RI (ufield 12) Z.lor).
Proof. row. Qed.
#[export] Instance row_alsl_d :
  Row "alsl.d" [GPR_RD; GPR_RJ; GPR_RK; IMM_SA2] false false (S3RI (ufield 2) (λ j k i, (j << (i + 1)) + k)).
Proof. row. Qed.
#[export] Instance row_alsl_wu :
  Row "alsl.wu" [GPR_RD; GPR_RJ; GPR_RK; IMM_SA2] false false
    (S3RI (ufield 2) (λ j k i, u32 ((j << (i + 1)) + k))).
Proof. row. Qed.
#[export] Instance row_lu12i_w : Row "lu12i.w" [GPR_RD; IMM_SI20] true false (S1RI (sfield 20) (λ _ i, i * 2 ^ 12)).
Proof. row. Qed.
#[export] Instance row_lu32i_d :
  Row "lu32i.d" [GPR_RD; IMM_SI20] true false (S1RI (sfield 20) (λ d i, i * 2 ^ 32 + u32 d)).
Proof. row. Qed.
#[export] Instance row_lu52i_d :
  Row "lu52i.d" [GPR_RD; GPR_RJ; IMM_SI12] true false (S2RI (sfield 12) (λ j i, i * 2 ^ 52 + uwrap 52 j)).
Proof. row. Qed.
#[export] Instance row_bstrpick_d :
  Row "bstrpick.d" [GPR_RD; GPR_RJ; IMM_MSBD; IMM_LSBD] false true (SPick 6 id).
Proof. row. Qed.
#[export] Instance row_bstrins_d :
  Row "bstrins.d" [GPR_RD; GPR_RJ; IMM_MSBD; IMM_LSBD] false true (SIns 6).
Proof. row. Qed.
#[export] Instance row_ld_d : Row "ld.d" [GPR_RD; GPR_RJ; IMM_SI12] false false (SLoad 8 id).
Proof. row. Qed.

#[export] Instance row_sub_d : Row "sub.d" [GPR_RD; GPR_RJ; GPR_RK] false false (S3R (λ j k, j - k)).
Proof. row. Qed.
#[export] Instance row_and : Row "and" [GPR_RD; GPR_RJ; GPR_RK] false false (S3R Z.land).
Proof. row. Qed.
#[export] Instance row_xor : Row "xor" [GPR_RD; GPR_RJ; GPR_RK] false false (S3R Z.lxor).
Proof. row. Qed.
#[export] Instance row_nor : Row "nor" [GPR_RD; GPR_RJ; GPR_RK] false false (S3R (λ j k, Z.lnot (Z.lor j k))).
Proof. row. Qed.
#[export] Instance row_masknez :
  Row "masknez" [GPR_RD; GPR_RJ; GPR_RK] false false (S3R (λ j k, if k =? 0 then j else 0)).
Proof. row. Qed.
#[export] Instance row_maskeqz :
  Row "maskeqz" [GPR_RD; GPR_RJ; GPR_RK] false false (S3R (λ j k, if k =? 0 then 0 else j)).
Proof. row. Qed.
#[export] Instance row_andi : Row "andi" [GPR_RD; GPR_RJ; IMM_UI12] false false (S2RI (ufield 12) Z.land).
Proof. row. Qed.
#[export] Instance row_xori : Row "xori" [GPR_RD; GPR_RJ; IMM_UI12] false false (S2RI (ufield 12) Z.lxor).
Proof. row. Qed.
#[export] Instance row_slli_w :
  Row "slli.w" [GPR_RD; GPR_RJ; IMM_UI5L] false false (S2RI (ufield 5) (λ j i, s32 (j << i))).
Proof. row. Qed.
#[export] Instance row_srli_w :
  Row "srli.w" [GPR_RD; GPR_RJ; IMM_UI5L] false false (S2RI (ufield 5) (λ j i, s32 (u32 j >> i))).
Proof. row. Qed.
#[export] Instance row_srai_w :
  Row "srai.w" [GPR_RD; GPR_RJ; IMM_UI5L] false false (S2RI (ufield 5) (λ j i, s32 j >> i)).
Proof. row. Qed.
#[export] Instance row_srai_d :
  Row "srai.d" [GPR_RD; GPR_RJ; IMM_UI6] false false (S2RI (ufield 6) (λ j i, s64 j >> i)).
Proof. row. Qed.
#[export] Instance row_ext_w_b : Row "ext.w.b" [GPR_RD; GPR_RJ] false false (S2R s8).
Proof. row. Qed.
#[export] Instance row_ext_w_h : Row "ext.w.h" [GPR_RD; GPR_RJ] false false (S2R s16).
Proof. row. Qed.
#[export] Instance row_bstrpick_w :
  Row "bstrpick.w" [GPR_RD; GPR_RJ; IMM_MSBW; IMM_LSBW] false true (SPick 5 s32).
Proof. row. Qed.
#[export] Instance row_setx86j : Row "setx86j" [GPR_RD; IMM_CONDH] false false SCond.
Proof. row. Qed.

(** Loads and stores by size, flags by operation and size. *)
Definition load_ops : list (string * nat * (Z → Z)) :=
  [("b", 1%nat, s8); ("h", 2%nat, s16); ("w", 4%nat, s32); ("d", 8%nat, id);
   ("bu", 1%nat, id); ("hu", 2%nat, id); ("wu", 4%nat, id)].
Definition store_ops : list (string * nat) := [("b", 1%nat); ("h", 2%nat); ("w", 4%nat); ("d", 8%nat)].

#[local] Tactic Notation "each" hyp(H) tactic(t) :=
  repeat (apply elem_of_cons in H as [H|H]; [injection H as; subst; t|]); by apply elem_of_nil in H.

Lemma row_load x n ext :
  (x, n, ext) ∈ load_ops → Row ("ld." +:+ x) [GPR_RD; GPR_RJ; IMM_SI12] false false (SLoad n ext).
Proof. intros H. each H row. Qed.

Lemma row_store x n :
  (x, n) ∈ store_ops → Row ("st." +:+ x) [GPR_RD; GPR_RJ; IMM_SI12] false false (SStore n).
Proof. intros H. each H row. Qed.

Lemma row_flags2 op f x w :
  (op, f) ∈ lbt_ops → (x, w) ∈ lbt_widths → Row (op +:+ x) [GPR_RJ; GPR_RK] false false (SFlags2 (f w)).
Proof. intros H1 H2. each H1 (each H2 row). Qed.

Lemma row_flags1 x w :
  (x, w) ∈ lbt_widths →
  Row ("x86inc" +:+ x) [GPR_RJ] false false (SFlags1 (inc_flags w)) ∧
  Row ("x86dec" +:+ x) [GPR_RJ] false false (SFlags1 (dec_flags w)).
Proof. intros H. each H (split; row). Qed.

(** ** Composition *)

Lemma sets_eq d v w h h' : sets d v h h' → u64 (v h) = u64 (w h) → sets d w h h'.
Proof. intros (E & F & K) H. split; [congruence|done]. Qed.

Lemma sets_sets d v w h h1 h2 :
  sets d v h h1 → sets d w h1 h2 → sets d (λ _, w h1) h h2.
Proof.
  intros (E1 & F1 & K1) (E2 & F2 & K2). split; [done|]. split; [|congruence].
  intros r Hr. by rewrite F2, F1.
Qed.

Lemma emits_sets {A} r (m : M A) s x s' d v w :
  emits_at r m s x s' (sets d v) → (∀ h, u64 (v h) = u64 (w h)) → emits_at r m s x s' (sets d w).
Proof. intros H E. eapply emits_weaken; [done|]. intros h h' S. by eapply sets_eq. Qed.

Lemma rget_0 h : rget h 0 = 0.
Proof. done. Qed.

Lemma rget_range h r : in_u 64 (rget h r).
Proof. unfold rget. case_match; [unfold in_u; lia|]. apply uwrap_range. lia. Qed.

Lemma rget_u64 h r : u64 (rget h r) = rget h r.
Proof. apply uwrap_id, rget_range. Qed.
