(* ===== verification/MacroHelper.v ===== *)
(** * Loading constants (translator/macro-helper.c)

    [imm_helper] splits a constant into four parts of 12, 20, 20 and 12 bits and leaves
    out the instructions whose part is the sign extension of the one before. *)

From stdpp Require Import base numbers list option strings tactics.
From Stdlib Require Import ZArith Lia Bool.
From S2P Require Import Prelude LisaTable Ir2 LaAssemble LaAppend RegMap ImmCache RegAlloc LaSem X86.
Local Open Scope Z_scope.
Local Open Scope c_scope.

(** [b3 << 3 | b2 << 2 | b1 << 1 | b0] *)
Definition bitmap (b3 b2 b1 b0 : bool) : Z :=
  Z.lor (Z.lor (Z.lor (Z.b2z b3 << 3) (Z.b2z b2 << 2)) (Z.b2z b1 << 1)) (Z.b2z b0).

Definition sign_bitmap (hi32 lo32 : Z) : Z :=
  bitmap (negb (Z.land hi32 0x80000000 =? 0)) (negb (Z.land hi32 0x00080000 =? 0))
         (negb (Z.land lo32 0x80000000 =? 0)) (negb (Z.land lo32 0x00000800 =? 0)).
Definition all0_bitmap (hi32 lo32 : Z) : Z :=
  bitmap (Z.land hi32 0xfff00000 =? 0) (Z.land hi32 0x000fffff =? 0)
         (Z.land lo32 0xfffff000 =? 0) (Z.land lo32 0x00000fff =? 0).
Definition allf_bitmap (hi32 lo32 : Z) : Z :=
  bitmap (Z.land hi32 0xfff00000 =? 0xfff00000) (Z.land hi32 0x000fffff =? 0x000fffff)
         (Z.land lo32 0xfffff000 =? 0xfffff000) (Z.land lo32 0x00000fff =? 0x00000fff).

Definition sign_extension_by_previous (sign all0 allf : Z) : Z :=
  Z.land (Z.lxor all0 allf) (Z.lxor all0 (sign << 1)).

Definition load_lo (opnd2 : IR2_OPND) (lo32 all0 extension_by_previous_lo : Z) : M unit :=
  match extension_by_previous_lo with
  | 0 =>
      if Z.land all0 3 =? 2 then r2i "ori" opnd2 zero_ir2_opnd (Z.land lo32 0xfff)
      else
        r1i "lu12i.w" opnd2 (lo32 >> 12) ≫= λ _,
        r2i "ori" opnd2 opnd2 (Z.land lo32 0xfff)
  | 1 => r1i "lu12i.w" opnd2 (lo32 >> 12)
  | 2 => r2i "addi.w" opnd2 zero_ir2_opnd lo32
  | 3 => r3 "or" opnd2 zero_ir2_opnd zero_ir2_opnd
  | _ => mret tt
  end.

Definition load_hi (opnd2 : IR2_OPND) (hi32 extension_by_previous_hi : Z) : M unit :=
  match extension_by_previous_hi with
  | 0 =>
      r1i "lu32i.d" opnd2 (Z.land hi32 0xfffff) ≫= λ _,
      r2i "lu52i.d" opnd2 opnd2 (hi32 >> 20)
  | 1 => r2i "lu52i.d" opnd2 opnd2 (hi32 >> 20)
  | 2 => r1i "lu32i.d" opnd2 (Z.land hi32 0xfffff)
  | _ => mret tt
  end.

Definition imm_helper (opnd2 : IR2_OPND) (hi32 lo32 : Z) : M unit :=
  let all0 := all0_bitmap hi32 lo32 in
  let ext := sign_extension_by_previous (sign_bitmap hi32 lo32) all0 (allf_bitmap hi32 lo32) in
  if ext =? 7 then r2i "lu52i.d" opnd2 zero_ir2_opnd (hi32 >> 20)
  else
    load_lo opnd2 lo32 all0 (Z.land ext 3) ≫= λ _,
    load_hi opnd2 hi32 (ext >> 2).

Definition li_d (opnd2 : IR2_OPND) (value : Z) : M unit :=
  imm_helper opnd2 (u32 (value >> 32)) (u32 (Z.land value 0xffffffff)).
Definition li_w (opnd2 : IR2_OPND) (lo32 : Z) : M unit :=
  imm_helper opnd2 (if negb (Z.land lo32 0x80000000 =? 0) then 0xffffffff else 0) lo32.
Definition li_wu (opnd2 : IR2_OPND) (lo32 : Z) : M unit := imm_helper opnd2 0 lo32.

(** TARGET_X86_64 *)
Definition li_guest_addr : IR2_OPND → Z → M unit := li_d.
Definition li_host_addr : IR2_OPND → Z → M unit := li_d.

Definition la_ld_by_op_size (rd rj : IR2_OPND) (imm_si12 op_size : Z) : M unit :=
  match op_size with
  | 8 => r2i "ld.b" rd rj imm_si12
  | 16 => r2i "ld.h" rd rj imm_si12
  | 32 => r2i "ld.w" rd rj imm_si12
  | 64 => r2i "ld.d" rd rj imm_si12
  | _ => check false
  end.

Definition la_st_by_op_size (rd rj : IR2_OPND) (imm_si12 op_size : Z) : M unit :=
  match op_size with
  | 8 => r2i "st.b" rd rj imm_si12
  | 16 => r2i "st.h" rd rj imm_si12
  | 32 => r2i "st.w" rd rj imm_si12
  | 64 => r2i "st.d" rd rj imm_si12
  | _ => check false
  end.

(** ** Arithmetic of the parts *)

Lemma swrap_cases n x : 0 < n → in_u n x → swrap n x = if 2 ^ (n - 1) <=? x then x - 2 ^ n else x.
Proof.
  intros Hn H. unfold in_u in H. assert (E : 2 ^ n = 2 * 2 ^ (n - 1)) by (rewrite <- Z.pow_succ_r by lia; f_equal; lia).
  unfold swrap. destruct (Z.leb_spec (2 ^ (n - 1)) x).
  - rewrite <- (Z.mod_add _ (-1)) by lia. rewrite Z.mod_small; lia.
  - rewrite Z.mod_small; lia.
Qed.

Lemma u64_eq a b k : a = b + k * 2 ^ 64 → u64 a = u64 b.
Proof. intros ->. unfold u64, uwrap. by rewrite Z.mod_add. Qed.

Lemma lor_low k a b : 0 <= k → in_u k b → Z.lor (a * 2 ^ k) b = a * 2 ^ k + b.
Proof.
  intros Hk H. pose proof (Z.add_lor_land (a * 2 ^ k) b) as E.
  assert (Z.land (a * 2 ^ k) b = 0) as L; [|lia].
  apply Z.bits_inj'. intros i Hi. rewrite Z.land_spec, Z.bits_0.
  apply in_u_testbit in H as [_ H]; [|done].
  destruct (Z.testbit b i) eqn:B; [|apply andb_false_r].
  rewrite Z.mul_pow2_bits by done. rewrite Z.testbit_neg_r; [done|]. specialize (H i B). lia.
Qed.

Lemma u64_lor_low k a b : 0 <= k <= 64 → in_u k b → u64 (Z.lor (u64 (a * 2 ^ k)) b) = u64 (a * 2 ^ k + b).
Proof.
  intros Hk H. assert (E : 2 ^ 64 = 2 ^ (64 - k) * 2 ^ k) by (rewrite <- Z.pow_add_r by lia; f_equal; lia).
  assert (u64 (a * 2 ^ k) = a mod 2 ^ (64 - k) * 2 ^ k) as ->.
  { unfold u64, uwrap. rewrite E. apply Z.mul_mod_distr_r; apply Z.pow_nonzero; lia. }
  rewrite lor_low by (done || lia). rewrite (Z.mod_eq a) by (apply Z.pow_nonzero; lia).
  apply (u64_eq _ _ (- (a / 2 ^ (64 - k)))). rewrite E. ring.
Qed.

(** The bits from [k] up of a 32-bit value. *)
Lemma land_high x k m :
  in_u 32 x → 0 <= k < 32 → m = Z.shiftl (Z.ones (32 - k)) k → Z.land x m = x / 2 ^ k * 2 ^ k.
Proof.
  intros H Hk ->. rewrite <- Z.shiftr_div_pow2, <- Z.shiftl_mul_pow2 by lia.
  apply Z.bits_inj'. intros i Hi. rewrite Z.land_spec, !Z.shiftl_spec by lia.
  destruct (Z.ltb_spec i k).
  - rewrite !(Z.testbit_neg_r _ (i - k)) by lia. apply andb_false_r.
  - rewrite Z.shiftr_spec by lia. replace (i - k + k) with i by lia.
    destruct (Z.testbit x i) eqn:B; [|done]. rewrite andb_true_l.
    apply in_u_testbit in H as [_ H]; [|lia]. specialize (H i B).
    apply Z.ones_spec_low. lia.
Qed.

Lemma testbit_high n x : 0 < n → in_u n x → Z.testbit x (n - 1) = (2 ^ (n - 1) <=? x).
Proof.
  intros Hn H. unfold in_u in H. assert (E : 2 ^ n = 2 * 2 ^ (n - 1)) by (rewrite <- Z.pow_succ_r by lia; f_equal; lia).
  assert (0 < 2 ^ (n - 1)) by (apply Z.pow_pos_nonneg; lia).
  rewrite Z.testbit_odd, Z.shiftr_div_pow2 by lia. destruct (Z.leb_spec (2 ^ (n - 1)) x).
  - assert (x / 2 ^ (n - 1) = 1) as -> by (symmetry; apply (Z.div_unique _ _ _ (x - 2 ^ (n - 1))); lia). done.
  - by rewrite Z.div_small by lia.
Qed.

(** A part: [x] split at bit [k]. *)
Section split.
Context (k a b : Z) (Hk : 0 < k < 32) (Ha : in_u k a) (Hb : in_u (32 - k) b).
Let x := a + 2 ^ k * b.

Lemma split_range : in_u 32 x.
Proof using All.
  unfold in_u in *. assert (E : 2 ^ 32 = 2 ^ k * 2 ^ (32 - k)) by (rewrite <- Z.pow_add_r by lia; f_equal; lia).
  rewrite E. subst x. nia.
Qed.

Lemma split_shift : x >> k = b.
Proof using All.
  rewrite Z.shiftr_div_pow2 by lia. unfold in_u in *. subst x.
  symmetry. apply (Z.div_unique _ _ _ a); lia.
Qed.

Lemma split_mod : x mod 2 ^ k = a.
Proof using All. unfold in_u in *. subst x. symmetry. apply (Z.mod_unique _ _ b); lia. Qed.

Lemma split_low : Z.land x (Z.ones k) = a.
Proof using All. rewrite Z.land_ones by lia. apply split_mod. Qed.

Lemma split_high m : m = Z.shiftl (Z.ones (32 - k)) k → Z.land x m = b * 2 ^ k.
Proof using All.
  intros E. rewrite (land_high x k m); [|apply split_range|lia|done].
  rewrite <- Z.shiftr_div_pow2 by lia. by rewrite split_shift.
Qed.

Lemma split_sign_low m : m = Z.shiftl 1 (k - 1) → negb (Z.land x m =? 0) = (2 ^ (k - 1) <=? a).
Proof using All.
  intros ->. rewrite land_bit_zero, negb_involutive by lia. rewrite <- testbit_high by (done || lia).
  rewrite <- split_mod. by rewrite Z.mod_pow2_bits_low by lia.
Qed.

Lemma split_sign_high m : m = Z.shiftl 1 31 → negb (Z.land x m =? 0) = (2 ^ (32 - k - 1) <=? b).
Proof using All.
  intros ->. rewrite land_bit_zero, negb_involutive by lia. rewrite <- testbit_high by (done || lia).
  rewrite <- split_shift at 1. rewrite Z.shiftr_spec by lia. f_equal. lia.
Qed.
End split.

(** The bitmaps as functions of four booleans. *)
Lemma bitmap_ext s3 s2 s1 s0 z3 z2 z1 z0 f3 f2 f1 f0 :
  sign_extension_by_previous (bitmap s3 s2 s1 s0) (bitmap z3 z2 z1 z0) (bitmap f3 f2 f1 f0) =
  bitmap (xorb z3 f3 && xorb z3 s2) (xorb z2 f2 && xorb z2 s1) (xorb z1 f1 && xorb z1 s0)
         (xorb z0 f0 && z0).
Proof.
  destruct s3, s2, s1, s0, z3, z2, z1, z0; (destruct f3, f2, f1, f0; reflexivity).
Qed.

Lemma bitmap_low b3 b2 b1 b0 : Z.land (bitmap b3 b2 b1 b0) 3 = 2 * Z.b2z b1 + Z.b2z b0.
Proof. by destruct b3, b2, b1, b0. Qed.
Lemma bitmap_high b3 b2 b1 b0 : bitmap b3 b2 b1 b0 >> 2 = 2 * Z.b2z b3 + Z.b2z b2.
Proof. by destruct b3, b2, b1, b0. Qed.
Lemma bitmap_7 b3 b2 b1 b0 : (bitmap b3 b2 b1 b0 =? 7) = negb b3 && b2 && b1 && b0.
Proof. by destruct b3, b2, b1, b0. Qed.

(** Congruence modulo 2^64, for values that differ by at most 2^64. *)
Ltac u64_close :=
  first [apply (u64_eq _ _ 0); lia | apply (u64_eq _ _ (-1)); lia | apply (u64_eq _ _ 1); lia].

(** A sign-extended lower half, cut to 32 and to 52 bits. *)
Lemma sext_cut w lo :
  32 <= w <= 64 → in_u 32 lo →
  uwrap w (u64 (s32 lo)) = if 2 ^ 31 <=? lo then lo + 2 ^ w - 2 ^ 32 else lo.
Proof.
  intros Hw L. unfold u64, uwrap. rewrite Z.mod_mod_divide.
  2:{ exists (2 ^ (64 - w)). rewrite <- Z.pow_add_r by lia. f_equal. lia. }
  unfold s32. rewrite swrap_cases by (done || lia). change (32 - 1) with 31.
  assert (2 ^ 32 <= 2 ^ w) by (apply Z.pow_le_mono_r; lia). unfold in_u in L.
  destruct (Z.leb_spec (2 ^ 31) lo).
  - rewrite <- (Z.mod_add _ 1) by lia. rewrite Z.mod_small; lia.
  - apply Z.mod_small. lia.
Qed.

(** ** The two halves *)

#[local] Arguments Z.pow : simpl never.
#[local] Arguments Z.mul : simpl never.
#[local] Arguments Z.add : simpl never.

Section load.
Context (d : Z) (Hd : is_reg d) (Hd0 : d ≠ 0).

Lemma lu12i_ok p1 s :
  in_u 20 p1 → emits (r1i "lu12i.w" (gp d) p1) s tt s (sets d (λ _, swrap 20 p1 * 2 ^ 12)).
Proof using All.
  intros H. eapply emits_sets; [by eapply emits_r1i; [apply _|..]|].
  intros h. cbv beta. by rewrite sfield_imm by lia.
Qed.

Lemma ori_ok j i s :
  is_reg j → in_u 12 i →
  emits (r2i "ori" (gp d) (gp j) i) s tt s (sets d (λ h, Z.lor (rget h j) i)).
Proof using All.
  intros Hj H. eapply emits_sets; [by eapply emits_r2i; [apply _|..]|].
  intros h. cbv beta. rewrite ufield_imm by lia. by rewrite uwrap_id.
Qed.

Lemma lu52i_ok j p3 s :
  is_reg j → in_u 12 p3 →
  emits (r2i "lu52i.d" (gp d) (gp j) p3) s tt s
    (sets d (λ h, swrap 12 p3 * 2 ^ 52 + uwrap 52 (rget h j))).
Proof using All.
  intros Hj H. eapply emits_sets; [by eapply emits_r2i; [apply _|..]|].
  intros h. cbv beta. by rewrite sfield_imm by lia.
Qed.

Lemma lu32i_ok p2 s :
  in_u 20 p2 →
  emits_at d (r1i "lu32i.d" (gp d) p2) s tt s (sets d (λ h, swrap 20 p2 * 2 ^ 32 + u32 (rget h d))).
Proof using All.
  intros H. eapply emits_sets; [by eapply emits_r1i; [apply _|..]|].
  intros h. cbv beta. by rewrite sfield_imm by lia.
Qed.

Lemma addi_w_ok i s :
  in_s 12 (s32 i) →
  emits (r2i "addi.w" (gp d) (gp 0) i) s tt s (sets d (λ h, s32 (rget h 0 + s32 i))).
Proof using All.
  intros H. eapply emits_sets; [eapply emits_r2i; [apply _|done|done| |done..]|].
  - by apply imm_ok_s12.
  - intros h. cbv beta. by rewrite sfield_s12.
Qed.

Lemma addi_d_ok j i s :
  is_reg j → in_s 12 i →
  emits (r2i "addi.d" (gp d) (gp j) i) s tt s (sets d (λ h, rget h j + i)).
Proof using All.
  intros Hj H.
  assert (E : s32 i = i) by (apply swrap_id; [lia|unfold in_s in *; lia]).
  rewrite <- E in H. eapply emits_sets; [eapply emits_r2i; [apply _|done|done| |done..]|].
  - by apply imm_ok_s12.
  - intros h. cbv beta. by rewrite sfield_s12, E.
Qed.

(** After [load_lo] the register holds the lower half, sign extended. *)
Lemma load_lo_ok p0 p1 z f0 e1 all0 s :
  in_u 12 p0 → in_u 20 p1 → z = (p1 =? 0) →
  e1 = xorb z (p1 =? 0xfffff) && xorb z (2 ^ 11 <=? p0) →
  f0 = (p0 =? 0) → Z.land all0 3 = 2 * Z.b2z z + Z.b2z f0 →
  emits (load_lo (gp d) (p0 + 2 ^ 12 * p1) all0 (2 * Z.b2z e1 + Z.b2z f0)) s tt s
    (sets d (λ _, s32 (p0 + 2 ^ 12 * p1))).
Proof using All.
  intros H0 H1 -> -> -> A. set (lo := p0 + 2 ^ 12 * p1).
  assert (L : in_u 32 lo) by (by apply (split_range 12)).
  assert (El : Z.land lo 0xfff = p0) by (by apply (split_low 12)).
  assert (Eh : lo >> 12 = p1) by (by apply (split_shift 12)).
  assert (Es : s32 lo = if 2 ^ 19 <=? p1 then lo - 2 ^ 32 else lo).
  { unfold s32. rewrite swrap_cases by (done || lia). unfold in_u in *. unfold lo in *.
    destruct (Z.leb_spec (2 ^ (32 - 1)) (p0 + 2 ^ 12 * p1)), (Z.leb_spec (2 ^ 19) p1); lia. }
  assert (E20 := swrap_cases 20 p1 ltac:(lia) H1). change (20 - 1) with 19 in E20.
  assert (D : (p0 = 0 ∧ p1 = 0) ∨ (p0 = 0 ∧ p1 ≠ 0) ∨
    (p0 ≠ 0 ∧ p1 = (if 2 ^ 11 <=? p0 then 0xfffff else 0)) ∨
    (p0 ≠ 0 ∧ p1 = 0 ∧ 2 ^ 11 <= p0) ∨ (p0 ≠ 0 ∧ p1 ≠ 0 ∧ (p1 = 0xfffff → p0 < 2 ^ 11))) by
    (destruct (Z.leb_spec (2 ^ 11) p0); lia).
  destruct D as [[-> ->]|[[-> N]|[[N E]|[(N & -> & G)|(N & N1 & G)]]]].
  - eapply emits_sets; [apply (emits_r3 "or" Z.lor d 0 0); (apply _ || done)|]. done.
  - replace (2 * _ + _) with 1 by (destruct (Z.eqb_spec p1 0), (Z.eqb_spec p1 0xfffff); done || lia).
    unfold load_lo. rewrite Eh. eapply emits_sets; [by apply lu12i_ok|]. intros h.
    rewrite Es, E20. f_equal. unfold lo. destruct (2 ^ 19 <=? p1); lia.
  - replace (2 * _ + _) with 2.
    2:{ rewrite E. destruct (Z.eqb_spec p0 0); [done|]. by destruct (2 ^ 11 <=? p0). }
    unfold load_lo. assert (I : in_s 12 (s32 lo)).
    { rewrite Es. unfold in_s, in_u in *. unfold lo. rewrite !E. destruct (Z.leb_spec (2 ^ 11) p0); simpl; lia. }
    eapply emits_sets; [by apply addi_w_ok|]. intros h. cbv beta.
    rewrite rget_0, Z.add_0_l. unfold s32 at 1. by rewrite swrap_id by (lia || apply swrap_range; lia).
  - destruct (Z.leb_spec (2 ^ 11) p0); [|lia]. replace (2 * _ + _) with 0 in * by (by destruct (Z.eqb_spec p0 0)).
    replace (2 * _ + _) with 2 in A by (by destruct (Z.eqb_spec p0 0)).
    unfold load_lo. rewrite A, El. simpl. eapply emits_sets; [by apply (ori_ok 0)|].
    intros h. cbv beta. rewrite rget_0, Es, Z.lor_0_l. change (2 ^ 19 <=? 0) with false. f_equal. unfold lo. lia.
  - replace (2 * _ + _) with 0.
    2:{ destruct (Z.eqb_spec p0 0), (Z.eqb_spec p1 0), (Z.eqb_spec p1 0xfffff), (Z.leb_spec (2 ^ 11) p0); done || lia. }
    unfold load_lo. rewrite A, El, Eh.
    replace (_ =? 2) with false by (by destruct (Z.eqb_spec p0 0), (Z.eqb_spec p1 0)).
    eapply emits_bind; [by apply lu12i_ok|by apply (ori_ok d)|].
    intros h h1 h2 S1 S2. eapply sets_eq; [by eapply sets_sets|]. cbv beta.
    rewrite (proj1 S1), Es, (u64_lor_low 12) by done. f_equal. rewrite E20. unfold lo. destruct (2 ^ 19 <=? p1); lia.
Qed.

Lemma load_lo_ends lo all0 e1 f0 : ends_in d (load_lo (gp d) lo all0 (2 * Z.b2z e1 + Z.b2z f0)).
Proof using Hd0.
  assert (F : (d =? d) = true) by apply Z.eqb_refl.
  destruct e1, f0; simpl; [by apply ends_emit..|]. case_match; [by apply ends_emit|].
  apply ends_bind. intros _. by apply ends_emit.
Qed.

(** [load_hi] completes a register that holds the lower half. *)
Lemma load_hi_ok p1 p2 p3 lo e2 e3 s :
  in_u 20 p1 → in_u 20 p2 → in_u 12 p3 → in_u 32 lo → (2 ^ 19 <=? p1) = (2 ^ 31 <=? lo) →
  e2 = xorb (p2 =? 0) (p2 =? 0xfffff) && xorb (p2 =? 0) (2 ^ 19 <=? p1) →
  e3 = xorb (p3 =? 0) (p3 =? 0xfff) && xorb (p3 =? 0) (2 ^ 19 <=? p2) →
  emits_at d (load_hi (gp d) (p2 + 2 ^ 20 * p3) (2 * Z.b2z e3 + Z.b2z e2)) s tt s
    (λ h h', rget h d = u64 (s32 lo) → sets d (λ _, (p2 + 2 ^ 20 * p3) * 2 ^ 32 + lo) h h').
Proof using All.
  intros H1 H2 H3 L Es -> ->. set (hi := p2 + 2 ^ 20 * p3).
  assert (El : Z.land hi 0xfffff = p2) by (by apply (split_low 20)).
  assert (Eh : hi >> 20 = p3) by (by apply (split_shift 20)).
  assert (B2 : ∀ b, xorb (p2 =? 0) (p2 =? 0xfffff) && xorb (p2 =? 0) b = bool_decide (p2 = if b then 0xfffff else 0)).
  { intros b. unfold bool_decide. destruct (Z.eqb_spec p2 0), (Z.eqb_spec p2 0xfffff), b; case_decide; done || lia. }
  assert (B3 : ∀ b, xorb (p3 =? 0) (p3 =? 0xfff) && xorb (p3 =? 0) b = bool_decide (p3 = if b then 0xfff else 0)).
  { intros b. unfold bool_decide. destruct (Z.eqb_spec p3 0), (Z.eqb_spec p3 0xfff), b; case_decide; done || lia. }
  rewrite B2, B3, Es. clear B2 B3.
  assert (X : s32 lo = if 2 ^ 31 <=? lo then lo - 2 ^ 32 else lo) by (apply swrap_cases; done || lia).
  assert (E20 := swrap_cases 20 p2 ltac:(lia) H2). change (20 - 1) with 19 in E20.
  assert (E12 := swrap_cases 12 p3 ltac:(lia) H3). change (12 - 1) with 11 in E12.
  unfold bool_decide. case_decide as D3; case_decide as D2; simpl Z.b2z.
  - change (2 * 1 + 1) with 3. unfold load_hi. eapply emits_weaken; [apply emits_ret|].
    intros h h' -> R. split; [|done]. rewrite R, X. unfold hi. rewrite D3, D2.
    destruct (Z.leb_spec (2 ^ 31) lo); simpl; u64_close.
  - change (2 * 1 + 0) with 2. unfold load_hi. rewrite El.
    eapply emits_weaken; [by apply lu32i_ok|]. intros h h' S R. eapply sets_eq; [done|]. cbv beta.
    rewrite R, (sext_cut 32), E20 by (done || lia). unfold hi. rewrite D3.
    destruct (Z.leb_spec (2 ^ 31) lo), (Z.leb_spec (2 ^ 19) p2); u64_close.
  - change (2 * 0 + 1) with 1. unfold load_hi. rewrite Eh.
    eapply emits_weaken; [by apply emits_mono, (lu52i_ok d)|]. intros h h' S R. eapply sets_eq; [done|]. cbv beta.
    rewrite R, (sext_cut 52), E12 by (done || lia). unfold hi. rewrite D2.
    destruct (Z.leb_spec (2 ^ 31) lo), (Z.leb_spec (2 ^ 11) p3); u64_close.
  - change (2 * 0 + 0) with 0. unfold load_hi. rewrite Eh, El.
    eapply emits_bind; [by apply lu32i_ok|by apply (lu52i_ok d)|]. intros h h1 h2 S1 S2 R.
    eapply sets_eq; [by eapply sets_sets|]. cbv beta. rewrite (proj1 S1), R, (sext_cut 32) by (done || lia).
    assert (C : uwrap 52 (u64 (swrap 20 p2 * 2 ^ 32 + lo)) = p2 * 2 ^ 32 + lo).
    { unfold u64, uwrap. rewrite Z.mod_mod_divide by (by exists (2 ^ 12)). rewrite E20.
      unfold in_u in *. destruct (Z.leb_spec (2 ^ 19) p2).
      - rewrite <- (Z.mod_add _ 1) by lia. rewrite Z.mod_small; lia.
      - apply Z.mod_small. lia. }
    replace (if 2 ^ 31 <=? lo then lo + 2 ^ 32 - 2 ^ 32 else lo) with lo
      by (destruct (Z.leb_spec (2 ^ 31) lo); lia).
    rewrite C, E12. unfold hi. destruct (Z.leb_spec (2 ^ 11) p3); u64_close.
Qed.

(** The bitmaps in terms of the parts. *)
Lemma bitmaps_of p0 p1 p2 p3 :
  in_u 12 p0 → in_u 20 p1 → in_u 20 p2 → in_u 12 p3 →
  let lo := p0 + 2 ^ 12 * p1 in let hi := p2 + 2 ^ 20 * p3 in
  sign_bitmap hi lo = bitmap (2 ^ 11 <=? p3) (2 ^ 19 <=? p2) (2 ^ 19 <=? p1) (2 ^ 11 <=? p0) ∧
  all0_bitmap hi lo = bitmap (p3 =? 0) (p2 =? 0) (p1 =? 0) (p0 =? 0) ∧
  allf_bitmap hi lo = bitmap (p3 =? 0xfff) (p2 =? 0xfffff) (p1 =? 0xfffff) (p0 =? 0xfff).
Proof using Type.
  intros H0 H1 H2 H3 lo hi.
  assert (L0 : Z.land lo 0xfff = p0) by (by apply (split_low 12)).
  assert (L1 : Z.land lo 0xfffff000 = p1 * 2 ^ 12) by (by apply (split_high 12)).
  assert (L2 : Z.land hi 0xfffff = p2) by (by apply (split_low 20)).
  assert (L3 : Z.land hi 0xfff00000 = p3 * 2 ^ 20) by (by apply (split_high 20)).
  split; [|split].
  - unfold sign_bitmap. f_equal.
    + by apply (split_sign_high 20).
    + by apply (split_sign_low 20).
    + by apply (split_sign_high 12).
    + by apply (split_sign_low 12).
  - unfold all0_bitmap. rewrite L0, L1, L2, L3. unfold in_u in *. f_equal; apply eq_bool_prop_intro;
      unfold Is_true; repeat case_match; lia.
  - unfold allf_bitmap. rewrite L0, L1, L2, L3. unfold in_u in *. f_equal; apply eq_bool_prop_intro;
      unfold Is_true; repeat case_match; lia.
Qed.

(** Constants are loaded: [imm_helper] leaves [hi32 << 32 | lo32]. *)
Lemma imm_helper_ok hi lo s :
  in_u 32 hi → in_u 32 lo →
  emits (imm_helper (gp d) hi lo) s tt s (sets d (λ _, hi * 2 ^ 32 + lo)).
Proof using All.
  intros Hh Hl. unfold in_u in *.
  set (p0 := lo mod 2 ^ 12). set (p1 := lo / 2 ^ 12). set (p2 := hi mod 2 ^ 20). set (p3 := hi / 2 ^ 20).
  assert (El : lo = p0 + 2 ^ 12 * p1) by (subst p0 p1; pose proof (Z.div_mod lo (2 ^ 12)); lia).
  assert (Eh : hi = p2 + 2 ^ 20 * p3) by (subst p2 p3; pose proof (Z.div_mod hi (2 ^ 20)); lia).
  assert (H0 : in_u 12 p0) by (subst p0; unfold in_u; apply Z.mod_pos_bound; lia).
  assert (H2 : in_u 20 p2) by (subst p2; unfold in_u; apply Z.mod_pos_bound; lia).
  assert (H1 : in_u 20 p1) by (unfold in_u in *; lia).
  assert (H3 : in_u 12 p3) by (unfold in_u in *; lia).
  clearbody p0 p1 p2 p3. destruct (bitmaps_of p0 p1 p2 p3 H0 H1 H2 H3) as (Es & Ez & Ef).
  unfold imm_helper. rewrite El, Eh, Es, Ez, Ef, bitmap_ext, bitmap_7, bitmap_low, bitmap_high.
  assert (E0 : xorb (p0 =? 0) (p0 =? 0xfff) && (p0 =? 0) = (p0 =? 0))
    by (destruct (Z.eqb_spec p0 0), (Z.eqb_spec p0 0xfff); simpl; try done; lia).
  rewrite E0. assert (L : in_u 32 (p0 + 2 ^ 12 * p1)) by (by apply (split_range 12)).
  case_match eqn:F.
  - rewrite !andb_true_iff, negb_true_iff in F. destruct F as (((_ & F2) & F1) & F0).
    assert (p0 = 0 ∧ p1 = 0 ∧ p2 = 0) as (-> & -> & ->).
    { destruct (Z.eqb_spec p0 0), (Z.eqb_spec p1 0), (Z.eqb_spec p2 0), (Z.eqb_spec p1 0xfffff),
        (Z.eqb_spec p2 0xfffff), (Z.leb_spec (2 ^ 11) p0), (Z.leb_spec (2 ^ 19) p1);
        simpl in *; (discriminate || lia). }
    rewrite (split_shift 20) by done. eapply emits_sets; [by apply (lu52i_ok 0)|]. intros h. cbv beta.
    rewrite rget_0, swrap_cases by (done || lia). change (uwrap 52 0) with 0. change (12 - 1) with 11.
    destruct (Z.leb_spec (2 ^ 11) p3); u64_close.
  - eapply emits_bind_at; [|apply load_lo_ends| |].
    + apply (load_lo_ok p0 p1 (p1 =? 0) (p0 =? 0)); try done. apply bitmap_low.
    + apply (load_hi_ok p1 p2 p3 (p0 + 2 ^ 12 * p1)); try done.
      unfold in_u in *. apply eq_bool_prop_intro; unfold Is_true; repeat case_match; lia.
    + intros h h1 h2 S1 S2. exact (sets_sets d _ _ h h1 h2 S1 (S2 (proj1 S1))).
Qed.

Lemma li_d_ok value s : emits (li_d (gp d) value) s tt s (sets d (λ _, value)).
Proof using All.
  eapply emits_sets; [apply imm_helper_ok; apply uwrap_range; lia|]. intros h. cbv beta.
  unfold u64, u32, uwrap. change 0xffffffff with (Z.ones 32). rewrite Z.land_ones, Z.mod_mod by lia.
  rewrite Z.shiftr_div_pow2 by lia. rewrite <- (Z.mod_add _ (value / 2 ^ 32 / 2 ^ 32)) by lia. f_equal.
  pose proof (Z.div_mod value (2 ^ 32) ltac:(lia)).
  pose proof (Z.div_mod (value / 2 ^ 32) (2 ^ 32) ltac:(lia)). lia.
Qed.

Lemma li_wu_ok lo32 s : in_u 32 lo32 → emits (li_wu (gp d) lo32) s tt s (sets d (λ _, lo32)).
Proof using All.
  intros L. eapply emits_sets; [apply imm_helper_ok; [unfold in_u; lia|done]|]. done.
Qed.
End load.

(** C18 Constants are loaded correctly.  For every 64-bit value the instructions that
    [li_d] emits leave the value in the register, whatever it held before; [li_w] and
    [li_wu] leave the sign and the zero extension of a 32-bit value.  Nothing else
    changes, and every constructor's check passes. *)
Theorem constants_loaded d value lo32 s :
  is_reg d → d ≠ 0 → in_u 32 lo32 →
  emits (li_d (gp d) value) s tt s (sets d (λ _, value)) ∧
  emits (li_w (gp d) lo32) s tt s (sets d (λ _, s32 lo32)) ∧
  emits (li_wu (gp d) lo32) s tt s (sets d (λ _, lo32)).
Proof.
  intros Hd H0 L. split; [by apply li_d_ok|]. split.
  - eapply emits_sets; [apply imm_helper_ok; [done|done|case_match; unfold in_u; lia|done]|].
    intros h. cbv beta. unfold s32. rewrite swrap_cases by (done || lia).
    assert (E : negb (Z.land lo32 0x80000000 =? 0) = (2 ^ 31 <=? lo32)).
    { change 0x80000000 with (Z.shiftl 1 31). rewrite land_bit_zero, negb_involutive by lia.
      by apply (testbit_high 32). }
    rewrite E. change (32 - 1) with 31. destruct (Z.leb_spec (2 ^ 31) lo32); u64_close.
  - by apply li_wu_ok.
Qed.

Lemma constants_loaded_witness :
  let s := mkT 0 0 fresh_cache in
  emits (li_d (gp la_t0) 0x123456789abcdef0) s tt s (sets la_t0 (λ _, 0x123456789abcdef0)) ∧
  emits (li_w (gp la_t0) 0xfffff800) s tt s (sets la_t0 (λ _, s32 0xfffff800)) ∧
  emits (li_wu (gp la_t0) 0xfffff800) s tt s (sets la_t0 (λ _, 0xfffff800)).
Proof.
  intros s. apply (constants_loaded la_t0 0x123456789abcdef0 0xfffff800 s).
  - unfold is_reg, la_t0. lia.
  - discriminate.
  - unfold in_u. lia.
Defined.
