(* ===== verification/MemInterface.v ===== *)
(** * Memory operands (translator/mem-interface.c)

    [convert_mem_helper] emits the code that computes the address of an x86 memory
    operand and says in which register (and with which displacement) it is.  It goes
    through the address cache where it may, and otherwise computes base + index * scale
    + offset according to which of the three are there.  AOT translation is off
    ([aot_load_guest_addr] is [li_guest_addr]). *)

From stdpp Require Import base numbers list option strings gmap tactics.
From Stdlib Require Import ZArith Lia Bool.
From S2P Require Import Prelude Ir1Enum Ir1 LisaTable Ir2 LaAssemble LaAppend RegMap X86.
From S2P Require Import ImmCache RegAlloc LaSem MacroHelper.
Local Open Scope Z_scope.
Local Open Scope c_scope.

Definition env_ir2_opnd : IR2_OPND := gp la_s8.

(** [IR2_OPND_EQ] *)
Definition opnd_eqb (a b : IR2_OPND) : bool := type_eqb (_type a) (_type b) && (_val a =? _val b).

(** The assignment [imm_cache->itemp_allocated = b]. *)
Definition with_allocated (b : bool) (c : IMM_CACHE) : IMM_CACHE :=
  mkC (bucket c) (cache_count c) (free_count c) (curr_imm_index c) (curr_ir1_index c)
    (curr_ir2_index c) (optimized_ir2 c) (curr_pc c) b (ir1_reg_last_updated_index c)
    (itemp_stat c) (stop_opt c).
Definition set_allocated (b : bool) (s : temps) : temps :=
  set_imm_cache s (with_allocated b (imm_cache s)).

Definition get_allocated (s : temps) : bool := itemp_allocated (imm_cache s).

(** Command line options, the mode of the guest, what the cache needs, the instruction
    that is translated ([lsenv->tr_data->curr_ir1_inst]) and
    [offsetof(CPUX86State, segs[i].base)]. *)
Record context := mkCtx {
  option_imm_reg : bool;
  option_imm_rip : bool;
  option_imm_complex : bool;
  option_imm_precache : bool;
  CODEIS64 : bool;
  qsort : list IMM_CACHE_BUCKET → list IMM_CACHE_BUCKET;
  imm_skip_pc : Z;
  pir1 : IR1_INST;
  seg_base_off : Z → Z
}.

Section convert.
Variable ctx : context.

Definition alloc_temp : M IR2_OPND := on_temps (ra_alloc_itemp (option_imm_reg ctx)).
Definition free_temp (o : IR2_OPND) : M unit := do_temps (λ s, ra_free_temp s o).

Definition m_add (d j k : IR2_OPND) : M unit :=
  r3 (if CODEIS64 ctx then "add.d" else "add.w") d j k.
Definition m_load_addrx (d j : IR2_OPND) (imm : Z) : M unit :=
  r2i (if CODEIS64 ctx then "ld.d" else "ld.wu") d j imm.

Definition add_offset (dest src : IR2_OPND) (offset : Z) : M unit :=
  if si12_overflow offset then
    temp ← alloc_temp;
    _ ← li_guest_addr temp offset;
    _ ← m_add dest src temp;
    free_temp temp
  else r2i "addi.d" dest src offset.

Definition index_add_base (dest base index : IR2_OPND) (scale : Z) : M unit :=
  let la_alsl := if CODEIS64 ctx then "alsl.d" else "alsl.wu" in
  match scale with
  | 1 => m_add dest base index
  | 2 => r3i la_alsl dest index base 0
  | 4 => r3i la_alsl dest index base 1
  | 8 => r3i la_alsl dest index base 2
  | _ => check false
  end.

Definition adjust_dest (dest_op : IR2_OPND) (arg_dest_op : option IR2_OPND)
    (dest_size addr_size : Z) : M IR2_OPND :=
  if (dest_size =? 0) && (addr_size =? 64) then
    _ ← check (bool_decide (arg_dest_op = None));
    mret dest_op
  else
    ret ← match arg_dest_op with
          | Some o => mret o
          | None => i ← lift (ir2_opnd_is_itemp dest_op);
                    if (i : bool) then mret dest_op else alloc_temp
          end;
    let narrow := _ ← bstr "bstrpick.d" ret dest_op 31 0; mret ret in
    match dest_size with
    | 0 => _ ← check (bool_decide (arg_dest_op = None)); narrow
    | 64 =>
        if addr_size =? 32 then narrow
        else if opnd_eqb ret dest_op then mret ret
        else _ ← r3 "or" ret dest_op zero_ir2_opnd; mret ret
    | 32 =>
        if addr_size =? 16 then
          _ ← bstr "bstrins.d" ret dest_op 15 0;
          _ ← bstr "bstrpick.d" ret ret 31 0; mret ret
        else narrow
    | 16 => _ ← bstr "bstrins.d" ret dest_op 15 0; mret ret
    | _ => _ ← check false; mret ret
    end.

(** [imm_cache_allocate], then the register of the bucket; when that is in use, a
    temporary instead.  The result of the cache is returned if its register is used. *)
Definition cache_reg (base index scale offset : Z) : M (IR2_OPND * option IMM_CACHE_RES) :=
  res ← on_temps (λ s, '(r, c) ← imm_cache_allocate (qsort ctx) (imm_skip_pc ctx) (imm_cache s)
                                   base index scale offset;
                       Some (r, set_imm_cache s c));
  s ← get_temps;
  dest_op ← lift (ra_alloc_imm_reg s (r_itemp_num res));
  if ir2_opnd_is_none dest_op then
    dest_op ← alloc_temp;
    _ ← do_temps (λ s, free_imm_reg s (r_itemp_num res));
    _ ← do_temps (λ s, Some (set_allocated true s));
    mret (dest_op, None)
  else mret (dest_op, Some res).

(** A hit: the displacement goes to the caller or into the register. *)
Definition use_hit (dest_op : IR2_OPND) (res : IMM_CACHE_RES) (host_off : bool) : M Z :=
  d ← lift (diff res);
  _ ← check (negb (si12_overflow d));
  if host_off then mret d
  else if d =? 0 then mret 0
  else
    _ ← do_temps (λ s, c ← imm_cache_update_by_diff (imm_cache s) (cache_id res) d;
                       Some (set_imm_cache s c));
    _ ← r2i "addi.d" dest_op dest_op d;
    mret 0.

(** The RIP-relative operand of 64-bit code.  Returns the register and [*host_off]. *)
Definition convert_rip (arg_dest : option IR2_OPND) (dest_need_itmp cache_skip : bool) (offset : Z)
    (host_off : bool) : M (IR2_OPND * Z) :=
  '(dest_op, hit) ←
    (if dest_need_itmp then
       if negb (option_imm_reg ctx) || negb (option_imm_rip ctx) || cache_skip then
         dest_op ← alloc_temp;
         _ ← do_temps (λ s, Some (set_allocated true s));
         mret (dest_op, None)
       else
         '(dest_op, res) ← cache_reg (-100) (-1) (-1) offset;
         mret (dest_op, match res with Some r => if cached r then Some r else None | None => None end)
     else dest_op ← lift arg_dest; mret (dest_op, None));
  match hit with
  | Some res =>
      _ ← (if r_pre_cache res then
             off ← lift (r_offset res);
             _ ← li_guest_addr dest_op off;
             check (option_imm_precache ctx)
           else mret tt);
      d ← use_hit dest_op res host_off;
      mret (dest_op, d)
  | None =>
      _ ← li_guest_addr dest_op offset;
      mret (dest_op, 0)
  end.

(** index * scale + offset, into a temporary directly, otherwise through one. *)
Definition index_offset (dest_op index_op : IR2_OPND) (scale offset : Z) : M unit :=
  i ← lift (ir2_opnd_is_itemp dest_op);
  if (i : bool) then
    _ ← li_guest_addr dest_op offset;
    index_add_base dest_op dest_op index_op scale
  else
    temp_op ← alloc_temp;
    _ ← li_guest_addr temp_op offset;
    _ ← index_add_base dest_op temp_op index_op scale;
    free_temp temp_op.

(** The first value of a bucket that was collected before the translation. *)
Definition init_bucket_reg (bitmap : Z) (dest_op base_op index_op : IR2_OPND) (scale offset : Z) : M unit :=
  match bitmap with
  | 2 | 3 => index_offset dest_op index_op scale offset
  | 4 | 5 => add_offset dest_op base_op offset
  | 6 | 7 =>
      _ ← index_add_base dest_op base_op index_op scale;
      add_offset dest_op dest_op offset
  | _ => mret tt
  end.

(** The [switch (bitmap)] that computes the address; [None]: the function returns
    ([dest_op] is the zero register). *)
Definition compute_address (bitmap : Z) (dest_op base_op index_op : IR2_OPND) (scale offset : Z)
    (has_seg host_off : bool) : M (IR2_OPND * bool) :=
  match bitmap with
  | 0 =>
      _ ← do_temps (λ s, ra_free_temp_auto s dest_op);
      mret (zero_ir2_opnd, negb has_seg)
  | 1 => _ ← li_guest_addr dest_op offset; mret (dest_op, false)
  | 2 => _ ← index_add_base dest_op zero_ir2_opnd index_op scale; mret (dest_op, false)
  | 3 => _ ← index_offset dest_op index_op scale offset; mret (dest_op, false)
  | 4 =>
      s ← get_temps;
      if negb host_off && negb (get_allocated s) then
        _ ← r3 "or" dest_op zero_ir2_opnd base_op; mret (dest_op, false)
      else
        _ ← do_temps (λ s, imm_cache_free_temp_helper (option_imm_reg ctx) s dest_op);
        mret (base_op, false)
  | 5 => _ ← add_offset dest_op base_op offset; mret (dest_op, false)
  | 6 => _ ← index_add_base dest_op base_op index_op scale; mret (dest_op, false)
  | 7 =>
      _ ← index_add_base dest_op base_op index_op scale;
      _ ← add_offset dest_op dest_op offset;
      mret (dest_op, false)
  | _ => mret (dest_op, false)
  end.

(** The part from the label [skip] on.  (An assertion there is compiled only without
    CONFIG_LATX_TU.) *)
Definition finish_address (opnd1 : IR1_OPND) (dest_op : IR2_OPND) (arg_dest : option IR2_OPND)
    (dest_size bitmap : Z) (has_seg : bool) : M IR2_OPND :=
  dest_op ← (if has_seg then
               seg_op ← alloc_temp;
               index ← lift (ir1_opnd_get_seg_index (CODEIS64 ctx) opnd1);
               _ ← m_load_addrx seg_op env_ir2_opnd (seg_base_off ctx index);
               _ ← do_temps (λ s, imm_cache_free_temp_helper (option_imm_reg ctx) s dest_op);
               _ ← (if bitmap =? 0 then mret tt else m_add seg_op seg_op dest_op);
               mret seg_op
             else mret dest_op);
  adjust_dest dest_op arg_dest dest_size (ir1_addr_size (pir1 ctx)).

(** The key of the cache: [-1] stands for no register. *)
Definition key_base (opnd1 : IR1_OPND) : Z :=
  if ir1_opnd_has_base opnd1 then ir1_opnd_base_reg_num opnd1 else -1.
Definition key_index (opnd1 : IR1_OPND) : option Z :=
  if ir1_opnd_has_index opnd1 then ir1_opnd_index_reg_num opnd1 else Some (-1).
Definition ir1_opnd_scale (opnd1 : IR1_OPND) : option Z := m ← ir1_opnd_mem opnd1; Some (scale m).
Definition key_scale (opnd1 : IR1_OPND) : option Z :=
  s ← ir1_opnd_scale opnd1;
  Some (if negb (ir1_opnd_has_index opnd1) then -1
        else if (s =? 1) || (s =? 2) || (s =? 4) || (s =? 8) then s else -1).

Definition bitmap_of (opnd1 : IR1_OPND) (offset : Z) : Z :=
  Z.lor (Z.lor (if offset =? 0 then 0 else 1) (if ir1_opnd_has_base opnd1 then 4 else 0))
        (if ir1_opnd_has_index opnd1 then 2 else 0).

(** [ra_alloc_gpr] of the base and the index; a register that is not there is not read. *)
Definition base_opnd (opnd1 : IR1_OPND) : option IR2_OPND :=
  if ir1_opnd_has_base opnd1 then ra_alloc_gpr (ir1_opnd_base_reg_num opnd1)
  else Some ir2_opnd_new_none.
Definition index_opnd (opnd1 : IR1_OPND) : option IR2_OPND :=
  if ir1_opnd_has_index opnd1 then i ← ir1_opnd_index_reg_num opnd1; ra_alloc_gpr i
  else Some ir2_opnd_new_none.

Definition is_rip (opnd1 : IR1_OPND) : bool :=
  match ir1_opnd_mem opnd1 with Some m => reg_eqb (base m) dt_X86_REG_RIP | None => false end.

Definition convert_complex (opnd1 : IR1_OPND) (arg_dest : option IR2_OPND) (dest_size : Z)
    (dest_need_itmp cache_skip : bool) (offset : Z) (host_off : bool) : M (IR2_OPND * Z) :=
  let has_seg := ir1_opnd_has_seg opnd1 in
  let cache_skip := cache_skip || negb (option_imm_reg ctx) || negb (option_imm_complex ctx) in
  let si12 := host_off && negb (si12_overflow offset) in
  let cache_skip := cache_skip || si12 in
  let off := if si12 then offset else 0 in
  let offset := if si12 then 0 else offset in
  let bitmap := bitmap_of opnd1 offset in
  scale ← lift (ir1_opnd_scale opnd1);
  index ← lift (key_index opnd1);
  kscale ← lift (key_scale opnd1);
  base_op ← lift (base_opnd opnd1);
  index_op ← lift (index_opnd opnd1);
  '(dest_op, hit) ←
    (if negb dest_need_itmp then dest_op ← lift arg_dest; mret (dest_op, None)
     else if cache_skip then
       dest_op ← alloc_temp;
       _ ← do_temps (λ s, Some (set_allocated true s));
       mret (dest_op, None)
     else
       '(dest_op, res) ← cache_reg (key_base opnd1) index kscale offset;
       mret (dest_op, match res with Some r => if cached r then Some r else None | None => None end));
  match hit with
  | Some res =>
      _ ← (if r_pre_cache res then
             o ← lift (r_offset res);
             init_bucket_reg bitmap dest_op base_op index_op scale o
           else mret tt);
      d ← use_hit dest_op res host_off;
      r ← finish_address opnd1 dest_op arg_dest dest_size bitmap has_seg;
      mret (r, d)
  | None =>
      '(dest_op, returns) ←
        compute_address bitmap dest_op base_op index_op scale offset has_seg host_off;
      if (returns : bool) then mret (dest_op, off)
      else
        r ← finish_address opnd1 dest_op arg_dest dest_size bitmap has_seg;
        mret (r, off)
  end.

Definition convert_mem_helper (opnd1 : IR1_OPND) (arg_dest_op : option IR2_OPND) (dest_size : Z)
    (host_off : bool) : M (IR2_OPND * Z) :=
  _ ← do_temps (λ s, Some (set_allocated false s));
  dest_need_itmp ←
    match arg_dest_op with
    | None => mret true
    | Some o => i ← lift (ir2_opnd_is_itemp o); mret (negb i && (dest_size <? 32))
    end;
  let cache_skip := imm_cache_check_ir1_should_skip (pir1 ctx) false in
  offset ← lift (ir1_opnd_simm opnd1);
  if CODEIS64 ctx && is_rip opnd1 then
    convert_rip arg_dest_op dest_need_itmp cache_skip (s64 (offset + ir1_addr_next (pir1 ctx))) host_off
  else convert_complex opnd1 arg_dest_op dest_size dest_need_itmp cache_skip offset host_off.

Definition convert_mem_to_specific_gpr (opnd : IR1_OPND) (dest : IR2_OPND) (dest_size : Z) : M unit :=
  _ ← convert_mem_helper opnd (Some dest) dest_size false; mret tt.

Definition convert_mem_no_offset (opnd1 : IR1_OPND) : M IR2_OPND :=
  '(o, _) ← convert_mem_helper opnd1 None 0 false; mret o.

Definition convert_mem (opnd1 : IR1_OPND) : M (IR2_OPND * Z) := convert_mem_helper opnd1 None 0 true.

(** Returns the new operand and [*old_imm]. *)
Definition mem_imm_add_disp (mem_op : IR2_OPND) (old_imm disp : Z) : M (IR2_OPND * Z) :=
  let new_imm := s32 (old_imm + disp) in
  if si12_overflow new_imm then
    new_mem_op ← alloc_temp;
    _ ← r2i "addi.d" new_mem_op mem_op old_imm;
    i ← lift (ir2_opnd_is_itemp mem_op);
    _ ← (if (i : bool) then free_temp mem_op else mret tt);
    mret (new_mem_op, disp)
  else mret (mem_op, new_imm).

(** translator/tr-mov.c *)
Definition translate_lea : M bool :=
  op0 ← lift (ir1_get_opnd (pir1 ctx) 0);
  op1 ← lift (ir1_get_opnd (pir1 ctx) 1);
  dest_op ← lift (ra_alloc_gpr (ir1_opnd_base_reg_num op0));
  _ ← convert_mem_to_specific_gpr op1 dest_op (ir1_opnd_size op0);
  mret true.
End convert.
