(* ===== verification/MemInterfaceOk.v ===== *)
(** * Memory operands are addressed correctly

    The invariant that ties the translator's state to the host registers: temporaries in
    use are recorded, and the temporary of a usable cache bucket holds its address.  Then
    the code emitted for a memory operand is followed from the scratch registers up to
    [convert_mem] and [translate_lea]. *)

From stdpp Require Import base numbers list option strings gmap sets tactics.
From Stdlib Require Import ZArith Lia Bool.
From S2P Require Import Prelude Ir1Enum Ir1 LisaTable Ir2 LaAssemble LaAppend RegMap X86.
From S2P Require Import ImmCache ImmCacheSound ImmCacheMain RegAlloc LaSem MacroHelper.
From S2P Require Import MemInterface.
Local Open Scope Z_scope.
Local Open Scope c_scope.

(** ** Execution in a given host state *)

Definition does {A} (m : M A) (s : temps) (h : host) (x : A) (s' : temps) (h' : host) : Prop :=
  ∃ code, m s = Some (x, s', code) ∧ code_ok (-1) code = true ∧ run code h = Some h'.

Lemma does_ret {A} (x : A) s h : does (mret x) s h x s h.
Proof. by exists []. Qed.

Lemma does_det {A} (m : M A) s h x s1 h1 y s2 h2 :
  does m s h x s1 h1 → does m s h y s2 h2 → x = y ∧ s1 = s2 ∧ h1 = h2.
Proof.
  intros (c & E & _ & H) (c' & E' & _ & H'). rewrite E in E'. injection E' as -> -> ->. split; [done|split; congruence].
Qed.

Lemma does_bind {A B} (m : M A) (f : A → M B) s h x s1 h1 y s2 h2 :
  does m s h x s1 h1 → does (f x) s1 h1 y s2 h2 → does (m ≫= f) s h y s2 h2.
Proof.
  intros (c1 & E1 & W1 & R1) (c2 & E2 & W2 & R2). exists (c1 ++ c2). split_and!.
  - unfold mbind, M_bind. rewrite E1. cbn [mbind option_bind]. by rewrite E2.
  - by apply code_ok_app.
  - rewrite run_app, R1. done.
Qed.

Lemma does_emits {A} (m : M A) s x s' R h :
  emits m s x s' R → ∃ h', does m s h x s' h' ∧ R h h'.
Proof. intros (c & E & W & H). destruct (H h) as (h' & ? & ?). exists h'. split; [by exists c|done]. Qed.

Lemma does_lift {A} (o : option A) x s h : o = Some x → does (lift o) s h x s h.
Proof. intros ->. by exists []. Qed.

Lemma does_check b s h : b = true → does (check b) s h tt s h.
Proof. intros ->. by exists []. Qed.

Lemma does_on {A} (f : temps → option (A * temps)) s h x s' :
  f s = Some (x, s') → does (on_temps f) s h x s' h.
Proof. intros E. exists []. split_and!; [unfold on_temps; by rewrite E|done..]. Qed.

Lemma does_do (f : temps → option temps) s h s' : f s = Some s' → does (do_temps f) s h tt s' h.
Proof. intros E. exists []. split_and!; [unfold do_temps; by rewrite E|done..]. Qed.

Lemma does_get s h : does get_temps s h s s h.
Proof. by exists []. Qed.

(** ** The invariant *)

Definition temp_val (h : host) (t : Z) : Z := match aget reg_itemp_map t with Some r => rget h r | None => 0 end.
Definition gpr_val (h : host) (r : Z) : Z := match aget reg_gpr_map r with Some q => rget h q | None => 0 end.
Definition m_of (s : temps) (h : host) : machine := mkM (imm_cache s) (temp_val h) (gpr_val h).

(** With the address cache ([imm], the option [imm_reg]) or without it. *)
Definition tr_inv {imm : bool} (s : temps) (u : in_use) (h : host) : Prop :=
  temps_repr imm s u ∧ (imm = true → machine_inv (m_of s h)).

Lemma u64_mul a b k : u64 a = u64 b → u64 (a * k) = u64 (b * k).
Proof. unfold u64, uwrap. intros H. rewrite (Z.mul_mod a), (Z.mul_mod b), H by lia. done. Qed.

Lemma u64_add2 a b c d : u64 a = u64 b → u64 c = u64 d → u64 (a + c) = u64 (b + d).
Proof. unfold u64, uwrap. intros H1 H2. rewrite (Z.add_mod a), (Z.add_mod b), H1, H2 by lia. done. Qed.

Lemma u64_idem a : u64 (u64 a) = u64 a.
Proof. unfold u64, uwrap. by rewrite Z.mod_mod. Qed.

Lemma ea_u64 regs regs' base index scale :
  (∀ r, r = base ∨ r = index → 0 <= r → u64 (regs' r) = u64 (regs r)) →
  u64 (ea regs' base index scale) = u64 (ea regs base index scale).
Proof.
  intros H. unfold ea. apply u64_add2.
  - destruct (Z.leb_spec 0 base); [apply H; auto|done].
  - destruct (Z.leb_spec 0 index); [|done]. apply u64_mul. apply H; auto.
Qed.

(** The invariant only looks at values modulo 2^64, at the temporaries of live buckets
    and at the x86 registers. *)
Lemma machine_inv_ext m m' :
  machine_inv m → m_cache m' = m_cache m →
  (∀ b, b ∈ buckets (m_cache m) → b_free b = false →
        u64 (m_temp m' (itemp_num b)) = u64 (m_temp m (itemp_num b))) →
  (∀ r, 0 <= r < 16 → u64 (m_reg m' r) = u64 (m_reg m r)) → machine_inv m'.
Proof.
  intros [I F] C T R. split; rewrite C; [done|]. apply list.Forall_forall. intros b Hb Fb.
  pose proof (proj1 (list.Forall_forall _ _) F b Hb Fb) as (A & P & X & [B1 B2] & V).
  rewrite C. split_and!; try done. intros Hu. rewrite T by done. rewrite V by done.
  apply u64_add. symmetry. apply ea_u64. intros r Hr H0. apply R. destruct Hr; subst; lia.
Qed.

(** Temporaries and x86 registers are different registers. *)
Lemma gpr_not_temp r q : aget reg_gpr_map r = Some q → 0 <= r < 16 → q ∉ reg_itemp_map.
Proof.
  intros E Hr. assert (H : forallb (λ r, match aget reg_gpr_map r with
    | Some q => bool_decide (q ∉ reg_itemp_map) | None => true end) (zrange 0 16) = true) by done.
  pose proof (forallb_range _ 0 16 r H ltac:(lia)) as H1. cbv beta in H1. rewrite E in H1.
  by apply bool_decide_eq_true in H1.
Qed.

(** Only registers in use are changed. *)
Lemma tr_inv_frame {imm} s u h h' :
  tr_inv (imm := imm) s u h → (∀ r, r ∉ held_i u → rget h' r = rget h r) → tr_inv (imm := imm) s u h'.
Proof.
  intros [T I] H. split; [done|]. intros Hi. apply (machine_inv_ext (m_of s h) _ (I Hi)); try done; simpl.
  - intros b Hb Fb. unfold temp_val. destruct (aget reg_itemp_map (itemp_num b)) as [r|] eqn:E; [|done].
    f_equal. apply H. by eapply (tr_apart _ _ _ T Hi).
  - intros r Hr. unfold gpr_val. destruct (aget reg_gpr_map r) as [q|] eqn:E; [|done].
    f_equal. apply H. intros Hq%(repr_held _ _ _ (tr_itemp _ _ _ T)). by eapply gpr_not_temp.
Qed.

(** ** Scratch registers *)

Lemma pool_reg r : r ∈ reg_itemp_map → is_reg r ∧ r ≠ 0.
Proof.
  intros H. assert (E : forallb (λ r, (0 <=? r) && (r <? 32) && negb (r =? 0)) reg_itemp_map = true) by done.
  pose proof (forallb_elem _ _ _ E H) as H1. cbv beta in H1. unfold is_reg. bool_to_prop. lia.
Qed.

Lemma reg_num_gp r : is_reg r → _reg_num (gp r) = r.
Proof. intros H. apply swrap_id; [lia|]. unfold in_s, is_reg in *. lia. Qed.

Definition take_reg (u : in_use) (r : Z) : in_use := mkU ({[ r ]} ∪ held_i u) (held_f u).
Definition drop_reg (u : in_use) (r : Z) : in_use := mkU (held_i u ∖ {[ r ]}) (held_f u).

(** The registers the cache may use. *)
Definition imm_regs : list Z := drop 3 reg_itemp_map.

Lemma free_step_of s h t c' :
  machine_inv (m_of s h) → imm_cache_free_itemp (imm_cache s) t = Some c' →
  machine_inv (mkM c' (temp_val h) (gpr_val h)).
Proof.
  intros M E. pose proof M as [I F].
  destruct (free_step (m_of s h) (imm_cache s) t I eq_refl eq_refl) with (v := 0) as (c & E' & _ & M').
  - intros j b Hj Hb _ _. rewrite <- buckets_lookup in Hb by done. by eapply Forall_lookup_1.
  - rewrite E in E'. by injection E' as <-.
Qed.

(** What the operations on buckets keep: the flag [itemp_allocated] and the index of the
    current instruction. *)
Definition kept (c : IMM_CACHE) : bool * Z := (itemp_allocated c, curr_ir1_index c).

Lemma bupd_kept c i f c' : bupd c i f = Some c' → kept c' = kept c.
Proof.
  unfold bupd. destruct (bget c i); [|done]. simpl. destruct (aset _ _ _); [|done]. by intros [= <-].
Qed.

Lemma cache_free_kept c i c' : imm_cache_free c i = Some c' → kept c' = kept c.
Proof.
  unfold imm_cache_free, free_itemp, imm_cache_init_bucket.
  destruct (bget c i) as [b|]; [|done]. simpl. intros H.
  destruct (itemp_num b <? 0); [by apply bupd_kept in H|]. simpl in H.
  destruct (aget itemp_reverse_map (itemp_num b)); [|done]. simpl in H. case_match; [|done].
  destruct (aset _ _ _); [|done]. by apply bupd_kept in H.
Qed.

Lemma free_itemp_kept c t c' :
  imm_cache_free_itemp c t = Some c' → kept c' = kept c.
Proof.
  unfold imm_cache_free_itemp. generalize 0. generalize (Z.to_nat (cache_count c)). intros n.
  revert c. induction n as [|n IH]; intros c i; simpl; [by intros [= <-]|].
  destruct (bget c i) as [b|]; [|done]. simpl. destruct (_ && _); simpl; [|apply IH].
  destruct (imm_cache_free c i) as [c1|] eqn:E; [|done]. simpl. intros H%IH. rewrite H.
  by apply cache_free_kept in E.
Qed.

(** What a routine leaves untouched when it may write the registers [D]: registers that
    are no temporaries, temporaries in use and, with few in use, the cache. *)
Section frame.
Context {imm : bool}.
Local Notation tr_inv := (tr_inv (imm := imm)).

Record framed (s : temps) (u : in_use) (h : host) (s' : temps) (h' : host) (D : gset Z) : Prop := {
  fr_temps : temps_repr imm s u → temps_repr imm s' u;
  fr_sys : hsys h' = hsys h;
  fr_alloc : get_allocated s' = get_allocated s;
  fr_regs r : r ∉ D → r ∉ reg_itemp_map ∨ r ∈ held_i u → rget h' r = rget h r;
  fr_cache : (size (held_i u) <= 2)%nat → imm_cache s' = imm_cache s ∧
    ∀ r, r ∉ D → r ∈ imm_regs → rget h' r = rget h r;
  fr_inv : D ⊆ held_i u → tr_inv s u h → tr_inv s' u h'
}.

Lemma framed_trans s u h s1 h1 s2 h2 D :
  framed s u h s1 h1 D → framed s1 u h1 s2 h2 D → framed s u h s2 h2 D.
Proof.
  intros [T1 M1 A1 R1 C1 I1] [T2 M2 A2 R2 C2 I2]. split.
  - auto.
  - congruence.
  - congruence.
  - intros r Hd Hr. by rewrite R2, R1.
  - intros Hs. destruct (C1 Hs) as [E1 K1], (C2 Hs) as [E2 K2]. split; [congruence|].
    intros r Hd Hr. by rewrite K2, K1.
  - auto.
Qed.

Lemma framed_refl s u h D : framed s u h s h D.
Proof. by split. Qed.

(** An instruction that writes [d]. *)
Lemma framed_sets s u h h' d v : sets d v h h' → framed s u h s h' {[ d ]}.
Proof.
  intros (_ & F & K). split; try done.
  - intros r Hd _. apply F. set_solver.
  - intros _. split; [done|]. intros r Hd _. apply F. set_solver.
  - intros Hd I. eapply tr_inv_frame; [done|]. intros r Hr. apply F. set_solver.
Qed.

(** A register that a scratch register taken now cannot be. *)
Definition safe (u : in_use) (x : Z) : Prop :=
  x ∉ reg_itemp_map ∨ x ∈ held_i u ∨ ((size (held_i u) <= 2)%nat ∧ x ∈ imm_regs).

Lemma safe_ne u x r :
  safe u x → r ∈ reg_itemp_map → (r ∉ held_i u) →
  ((size (held_i u) <= 2)%nat → (r ∉ imm_regs)) → r ≠ x.
Proof. intros [H|[H|[H1 H2]]] P N I ->; [done|done|]. by apply I. Qed.

Lemma si12_in offset : si12_overflow offset = false → in_s 12 offset.
Proof. unfold si12_overflow, in_s. intros H. bool_to_prop. lia. Qed.

(** A scratch register is taken, code runs that changes only it and [D], and it is
    given back. *)
Lemma framed_scratch s u h r s1 h2 s3 (D : gset Z) :
  r ∈ reg_itemp_map → (r ∉ held_i u) →
  (temps_repr imm s u → temps_repr imm s1 (take_reg u r)) →
  (imm = true → machine_inv (m_of s h) → machine_inv (m_of s1 h)) →
  ((size (held_i u) <= 2)%nat → imm_cache s1 = imm_cache s ∧ (r ∉ imm_regs)) →
  (temps_repr imm s1 (take_reg u r) → temps_repr imm s3 (drop_reg (take_reg u r) r)) →
  imm_cache s3 = imm_cache s1 → get_allocated s1 = get_allocated s → hsys h2 = hsys h →
  (∀ x, x ≠ r → x ∉ D → rget h2 x = rget h x) → framed s u h s3 h2 D.
Proof.
  intros P N T1 M1 C1 T3 C3 Al K F.
  assert (E : drop_reg (take_reg u r) r = u).
  { unfold drop_reg, take_reg. simpl. destruct u as [hi hf]. simpl in *. f_equal. set_solver. }
  rewrite E in T3. split; [auto|done|by rewrite <- Al; unfold get_allocated; rewrite C3| | |].
  - intros x Hd [Hx|Hx]; apply F; try done; intros ->; done.
  - intros Hs. destruct (C1 Hs) as [C1' N']. split; [congruence|]. intros x Hd Hx. apply F; [|done].
    intros ->. done.
  - intros Hd [T I]. split; [auto|].
    assert (J : tr_inv s1 (take_reg u r) h2).
    { eapply tr_inv_frame; [split; [by apply T1|intros Hi; apply M1; auto]|]. simpl. intros x Hx. apply F; set_solver. }
    destruct J as [_ J]. unfold m_of in *. by rewrite C3.
Qed.
End frame.

Lemma free_does {imm} s u r :
  temps_repr imm s u → r ∈ held_i u →
  ∃ s', ra_free_temp s (gp r) = Some s' ∧ temps_repr imm s' (drop_reg u r) ∧
    imm_cache s' = imm_cache s.
Proof.
  intros T Hr. pose proof (free_temp_refines imm s u (gp r) T) as H. simpl in H.
  assert (P : r ∈ reg_itemp_map) by (by apply (repr_held _ _ _ (tr_itemp _ _ _ T))).
  destruct (pool_reg r P) as [Ir _]. rewrite reg_num_gp in H by done. unfold pool_free in H.
  destruct (decide (r ∈ held_i u)); [|done]. simpl in H. destruct H as (s' & E & T'). exists s'.
  split; [done|]. split; [done|]. unfold ra_free_temp, ra_free_itemp, ra_free_ftemp in E.
  destruct (ir2_opnd_is_itemp (gp r)) as [[]|]; simpl in E; [|destruct (ir2_opnd_is_ftemp (gp r)) as [[]|]|];
    simpl in E; try done; (destruct (ra_free_code _ _ _); [|done]); by injection E as <-.
Qed.

Section proof.
Context (ctx : context) `{!Qsort (qsort ctx)}.
Context (H64 : CODEIS64 ctx = true).
Local Notation imm := (option_imm_reg ctx).
Local Notation framed := (framed (imm := imm)).

Lemma alloc_does s u h :
  temps_repr imm s u → (size (held_i u) < 7)%nat →
  ∃ r s', does (alloc_temp ctx) s h (gp r) s' h ∧ r ∈ reg_itemp_map ∧ (r ∉ held_i u) ∧
    temps_repr imm s' (take_reg u r) ∧
    (imm = true → machine_inv (m_of s h) → machine_inv (m_of s' h)) ∧
    ((size (held_i u) <= 2)%nat → imm_cache s' = imm_cache s ∧ (r ∉ imm_regs)) ∧
    get_allocated s' = get_allocated s.
Proof using All.
  intros T Hs. destruct (alloc_itemp_full imm s u T Hs) as (k & r & s' & E & Hk & Hn & Lk & T' & C).
  exists r, s'. split_and!; try done.
  - by apply does_on.
  - by eapply list_elem_of_lookup_2.
  - intros _ M. unfold m_of. destruct (imm && (3 <=? Z.of_nat k)); [by eapply free_step_of|].
    by rewrite C.
  - intros H2. destruct (Z.leb_spec 3 (Z.of_nat k)); [lia|]. rewrite andb_false_r in C. split; [done|].
    destruct k as [|[|[|?]]]; [| | |lia]; injection Hk as <-; apply (bool_decide_unpack _); by vm_compute.
  - unfold get_allocated. destruct (imm && (3 <=? Z.of_nat k)); [by apply free_itemp_kept in C as [= ? _]|congruence].
Qed.

Lemma add_does d j k s h :
  is_reg d → d ≠ 0 → is_reg j → is_reg k →
  ∃ h', does (m_add ctx (gp d) (gp j) (gp k)) s h tt s h' ∧ sets d (λ h, rget h j + rget h k) h h'.
Proof using All.
  intros. unfold m_add. rewrite H64. apply does_emits. by apply emits_r3; [apply _|..].
Qed.

Lemma li_does d v s h :
  is_reg d → d ≠ 0 → ∃ h', does (li_guest_addr (gp d) v) s h tt s h' ∧ sets d (λ _, v) h h'.
Proof using Type. intros. apply does_emits. by apply li_d_ok. Qed.

Lemma addi_does d j i s h :
  is_reg d → d ≠ 0 → is_reg j → in_s 12 i →
  ∃ h', does (r2i "addi.d" (gp d) (gp j) i) s h tt s h' ∧ sets d (λ h, rget h j + i) h h'.
Proof using Type. intros. apply does_emits. by apply addi_d_ok. Qed.

Lemma add_offset_ok s u h dest src offset :
  temps_repr imm s u → (size (held_i u) < 7)%nat → is_reg dest → dest ≠ 0 → is_reg src → safe u src →
  ∃ s' h', does (add_offset ctx (gp dest) (gp src) offset) s h tt s' h' ∧
    rget h' dest = u64 (rget h src + offset) ∧ framed s u h s' h' {[ dest ]}.
Proof using All.
  intros T Hs Id D0 Is Sf. unfold add_offset. destruct (si12_overflow offset) eqn:O.
  - destruct (alloc_does s u h T Hs) as (r & s1 & A & P & N & T1 & M1 & C1 & Al).
    destruct (pool_reg r P) as [Ir R0].
    destruct (li_does r offset s1 h Ir R0) as (h1 & L & (V1 & F1 & K1)).
    destruct (add_does dest src r s1 h1 Id D0 Is Ir) as (h2 & D & (V2 & F2 & K2)).
    assert (Ns : r ≠ src) by (eapply safe_ne; [done|done|done|]; intros; by apply C1).
    destruct (free_does s1 (take_reg u r) r T1) as (s3 & E & T3 & C3); [simpl; set_solver|].
    exists s3, h2. split; [|split].
    + eapply does_bind; [exact A|]. eapply does_bind; [exact L|]. eapply does_bind; [exact D|].
      by apply does_do.
    + rewrite V2, V1, F1 by done. rewrite <- (u64_idem (rget h src + offset)).
      rewrite <- (u64_idem (rget h src + u64 offset)). f_equal. apply u64_add2; [done|apply u64_idem].
    + eapply (framed_scratch s u h r s1); try done; [congruence|].
      intros x Hx Hd. rewrite F2, F1; [done|done|set_solver].
  - destruct (addi_does dest src offset s h Id D0 Is (si12_in _ O)) as (h' & D & S).
    exists s, h'. split; [done|]. split; [apply S|]. by eapply framed_sets.
Qed.

Lemma alsl_does dest base index i s h :
  is_reg dest → dest ≠ 0 → is_reg base → is_reg index → 0 <= i < 4 →
  ∃ h', does (r3i "alsl.d" (gp dest) (gp index) (gp base) i) s h tt s h' ∧
    sets dest (λ h, rget h base + rget h index * 2 ^ (i + 1)) h h'.
Proof using Type.
  intros Id D0 Ib Ii Hi. apply does_emits.
  assert (Ei : s32 i = i) by (apply swrap_id; [lia|unfold in_s; lia]).
  eapply emits_sets; [eapply emits_r3i; [apply _|done| |done..]|].
  - rewrite Ei. apply Z.eqb_eq. rewrite Z.shiftr_div_pow2 by lia. apply Z.div_small. lia.
  - intros h'. cbv beta. rewrite ufield_imm by lia. rewrite uwrap_id by (unfold in_u; lia).
    rewrite Z.shiftl_mul_pow2 by lia. f_equal. lia.
Qed.

Definition scale_ok (scale : Z) : Prop := scale = 1 ∨ scale = 2 ∨ scale = 4 ∨ scale = 8.

Lemma index_add_base_ok s h dest base index scale :
  is_reg dest → dest ≠ 0 → is_reg base → is_reg index → scale_ok scale →
  ∃ h', does (index_add_base ctx (gp dest) (gp base) (gp index) scale) s h tt s h' ∧
    sets dest (λ h, rget h base + rget h index * scale) h h'.
Proof using All.
  intros Id D0 Ib Ii Sc. unfold index_add_base. rewrite H64. destruct Sc as [->|[->|[->| ->]]].
  - destruct (add_does dest base index s h Id D0 Ib Ii) as (h' & D & S). exists h'. split; [done|].
    eapply sets_eq; [done|]. cbv beta. f_equal. lia.
  - apply alsl_does; done || lia.
  - apply alsl_does; done || lia.
  - apply alsl_does; done || lia.
Qed.

(** ** The address of a bucket's or a temporary's register *)

(** [gp 0] or the register of an x86 register: never a temporary. *)
Definition source (x : Z) : Prop := is_reg x ∧ x ∉ reg_itemp_map.

Lemma source_safe u x : source x → safe u x.
Proof using Type. intros [_ H]. by left. Qed.

Lemma is_itemp_gp r : is_reg r → ir2_opnd_is_itemp (gp r) = Some (bool_decide (r ∈ reg_itemp_map)).
Proof using Type.
  intros Hr. assert (E : forallb (λ r, bool_decide (ir2_opnd_is_itemp (gp r) =
    Some (bool_decide (r ∈ reg_itemp_map)))) (zrange 0 32) = true) by (vm_compute; reflexivity).
  pose proof (forallb_range _ 0 32 r E ltac:(unfold is_reg in Hr; lia)) as H1. cbv beta in H1.
  by apply bool_decide_eq_true in H1.
Qed.

(** Two instructions that write the same register. *)
Lemma sets_framed2 s u h h1 h2 d v w :
  sets d v h h1 → sets d w h1 h2 → framed s u h s h2 {[ d ]}.
Proof using Type. intros S1 S2. eapply framed_sets. by eapply sets_sets. Qed.

(** [dest] := offset + index * scale, through [dest] itself or a scratch register. *)
Lemma offset_index_ok s u h dest i scale offset :
  temps_repr imm s u → (size (held_i u) < 7)%nat → is_reg dest → dest ≠ 0 → source i → scale_ok scale →
  ∃ s' h', does (index_offset ctx (gp dest) (gp i) scale offset) s h tt s' h' ∧
    rget h' dest = u64 (rget h i * scale + offset) ∧ framed s u h s' h' {[ dest ]}.
Proof using All.
  intros T Hs Id D0 [Ii Pi] Sc. unfold index_offset. rewrite is_itemp_gp by done. destruct (decide (dest ∈ reg_itemp_map)) as [Pd|Pd].
  - rewrite bool_decide_true by done.
    destruct (li_does dest offset s h Id D0) as (h1 & L & S1).
    destruct (index_add_base_ok s h1 dest dest i scale Id D0 Id Ii Sc) as (h2 & D & S2).
    exists s, h2. split; [|split].
    + eapply does_bind; [by apply does_lift|]. by eapply does_bind.
    + destruct S1 as (V1 & F1 & _), S2 as (V2 & _). rewrite V2, V1, F1 by (intros ->; done).
      rewrite Z.add_comm. apply u64_add2; [done|apply u64_idem].
    + by eapply sets_framed2.
  - rewrite bool_decide_false by done.
    destruct (alloc_does s u h T Hs) as (r & s1 & A & P & N & T1 & M1 & C1 & Al).
    destruct (pool_reg r P) as [Ir R0].
    destruct (li_does r offset s1 h Ir R0) as (h1 & L & (V1 & F1 & K1)).
    destruct (index_add_base_ok s1 h1 dest r i scale Id D0 Ir Ii Sc) as (h2 & D & (V2 & F2 & K2)).
    destruct (free_does s1 (take_reg u r) r T1) as (s3 & E & T3 & C3); [simpl; set_solver|].
    exists s3, h2. split; [|split].
    + eapply does_bind; [by apply does_lift|]. eapply does_bind; [exact A|].
      eapply does_bind; [exact L|]. eapply does_bind; [exact D|]. by apply does_do.
    + rewrite V2, V1, F1 by (intros ->; done). rewrite Z.add_comm. apply u64_add2; [done|apply u64_idem].
    + eapply (framed_scratch s u h r s1); try done; [congruence|].
      intros x Hx Hd. rewrite F2, F1; [done|done|set_solver].
Qed.

(** The parts of an address that are there, and the value they give. *)
Definition bits_of_parts (hb hi : bool) (offset : Z) : Z :=
  Z.lor (Z.lor (if offset =? 0 then 0 else 1) (if hb then 4 else 0)) (if hi then 2 else 0).

Definition address_of (h : host) (hb hi : bool) (b i scale offset : Z) : Z :=
  (if hb then rget h b else 0) + (if hi then rget h i * scale else 0) + offset.

Lemma compute_write s u h dest b i hb hi scale offset has_seg host_off bo io :
  temps_repr imm s u → (size (held_i u) < 7)%nat → is_reg dest → dest ≠ 0 → safe u dest →
  (hb = true → bo = gp b ∧ source b) → (hi = true → io = gp i ∧ source i ∧ scale_ok scale) →
  offset ≠ 0 ∨ hi = true →
  ∃ s' h', does (compute_address ctx (bits_of_parts hb hi offset) (gp dest) bo io scale offset
                   has_seg host_off) s h (gp dest, false) s' h' ∧
    rget h' dest = u64 (address_of h hb hi b i scale offset) ∧ framed s u h s' h' {[ dest ]}.
Proof using All.
  intros T Hs Id D0 Sd Hb Hi NZ. unfold bits_of_parts.
  assert (W : ∀ m, (∃ s' h', does m s h tt s' h' ∧
      rget h' dest = u64 (address_of h hb hi b i scale offset) ∧ framed s u h s' h' {[ dest ]}) →
    ∃ s' h', does (_ ← m; mret (gp dest, false)) s h (gp dest, false) s' h' ∧
      rget h' dest = u64 (address_of h hb hi b i scale offset) ∧ framed s u h s' h' {[ dest ]}).
  { intros m (s' & h' & D & V & F). exists s', h'. split; [|done]. eapply does_bind; [exact D|apply does_ret]. }
  destruct hi; [destruct (Hi eq_refl) as (-> & Si & Sc)|];
    (destruct hb; [destruct (Hb eq_refl) as (-> & Sb)|]); destruct (Z.eqb_spec offset 0) as [Z0|Z0];
    try (destruct NZ; done || lia);
    repeat match goal with |- context [Z.lor ?a ?b] =>
      let v := eval vm_compute in (Z.lor a b) in change (Z.lor a b) with v end;
    unfold compute_address; try apply W; clear W; unfold address_of.
  - (* base + index * scale *)
    destruct (index_add_base_ok s h dest b i scale Id D0 (proj1 Sb) (proj1 Si) Sc) as (h' & D & S).
    exists s, h'. split; [done|]. split; [|by eapply framed_sets]. rewrite (proj1 S). f_equal. lia.
  - (* base + index * scale + offset *)
    destruct (index_add_base_ok s h dest b i scale Id D0 (proj1 Sb) (proj1 Si) Sc) as (h1 & D1 & S).
    destruct (add_offset_ok s u h1 dest dest offset T Hs Id D0 Id Sd) as (s' & h' & D & V & F).
    exists s', h'. split; [eapply does_bind; [done|]; eapply does_bind; [done|apply does_ret]|]. split.
    + rewrite V, (proj1 S). apply u64_add, u64_idem.
    + eapply framed_trans; [by eapply framed_sets|done].
  - (* index * scale *)
    destruct (index_add_base_ok s h dest 0 i scale Id D0) as (h' & D & S); [unfold is_reg; lia|apply Si|done|].
    exists s, h'. split; [done|]. split; [|by eapply framed_sets]. rewrite (proj1 S), rget_0. f_equal. lia.
  - (* index * scale + offset *)
    destruct (offset_index_ok s u h dest i scale offset T Hs Id D0 Si Sc) as (s' & h' & D & V & F).
    exists s', h'. split; [done|]. split; [|done]. rewrite V. f_equal.
  - (* base + offset *)
    destruct (add_offset_ok s u h dest b offset T Hs Id D0 (proj1 Sb)) as (s' & h' & D & V & F);
      [by apply source_safe|].
    exists s', h'. split; [done|]. split; [|done]. rewrite V. f_equal. lia.
  - (* offset *)
    destruct (li_does dest offset s h Id D0) as (h' & D & S).
    exists s, h'. split; [done|]. split; [|by eapply framed_sets]. rewrite (proj1 S). f_equal.
Qed.
End proof.

(** ** Where an address is *)

(** In a temporary taken for it, in a register of the cache, or in a register that is no
    temporary. *)
Section place.
Context {imm : bool}.

Inductive place (u : in_use) (allocated : bool) : in_use → Z → Prop :=
  | PTemp r : r ∈ reg_itemp_map → (r ∉ held_i u) → allocated = true → place u allocated (take_reg u r) r
  | PCache r : r ∈ imm_regs → (r ∉ held_i u) → (size (held_i u) <= 2)%nat → allocated = false → imm = true →
      place u allocated u r
  | PSource r : source r → place u allocated u r.

Lemma imm_reg_temp r : r ∈ imm_regs → r ∈ reg_itemp_map.
Proof. unfold imm_regs. intros H. rewrite <- (take_drop 3 reg_itemp_map). apply elem_of_app. by right. Qed.

Lemma place_reg u a u1 r : place u a u1 r → is_reg r.
Proof.
  intros [x P _ _|x P _ _ _ _|x [H _]]; [by apply pool_reg|by apply pool_reg, imm_reg_temp|done].
Qed.

Lemma place_safe u a u1 r : place u a u1 r → safe u1 r.
Proof.
  intros [x P _ _|x P N Hs _ _|x [_ H]].
  - right. left. simpl. set_solver.
  - right. right. done.
  - by left.
Qed.

Lemma free_auto_temp s r :
  is_reg r → r ∈ reg_itemp_map → ra_free_temp_auto s (gp r) = ra_free_temp s (gp r).
Proof.
  intros Ir P. unfold ra_free_temp_auto, ra_free_temp. rewrite is_itemp_gp by done.
  by rewrite bool_decide_true.
Qed.

Lemma free_auto_source s r : source r → ra_free_temp_auto s (gp r) = Some s.
Proof.
  intros [Ir P]. unfold ra_free_temp_auto. rewrite is_itemp_gp by done. by rewrite bool_decide_false.
Qed.

(** [imm_cache_free_temp_helper] gives back the temporary taken for an address and
    nothing else, also when a further register [g] was taken in between. *)
Lemma helper_frees u a u1 r s g :
  place u a u1 r → get_allocated s = a → temps_repr imm s (take_reg u1 g) →
  (g ∉ held_i u1) →
  ∃ s', imm_cache_free_temp_helper imm s (gp r) = Some s' ∧ temps_repr imm s' (take_reg u g) ∧
    imm_cache s' = imm_cache s.
Proof.
  intros Pl <- T N. unfold imm_cache_free_temp_helper. fold (get_allocated s). simpl.
  destruct Pl as [x P Nx ->|x P Nx Hs -> Hi|x Sx].
  - rewrite orb_true_r. destruct (pool_reg x P) as [Ix _]. rewrite free_auto_temp by done.
    destruct (free_does s (take_reg (take_reg u x) g) x T) as (s' & E & T' & C); [simpl; set_solver|].
    exists s'. split_and!; try done.
    replace (take_reg u g) with (drop_reg (take_reg (take_reg u x) g) x); [done|].
    unfold drop_reg, take_reg in *. simpl in *. f_equal. set_solver.
  - exists s. split_and!; [by rewrite Hi|done|done].
  - exists s. split_and!; try done. destruct (negb imm || get_allocated s); [|done]. by apply free_auto_source.
Qed.

(** The same before any further register is taken: the temporary is given back at once. *)
Lemma helper_frees_now u r s :
  r ∈ reg_itemp_map → (r ∉ held_i u) → get_allocated s = true → temps_repr imm s (take_reg u r) →
  ∃ s', ra_free_temp_auto s (gp r) = Some s' ∧ imm_cache_free_temp_helper imm s (gp r) = Some s' ∧
    temps_repr imm s' u ∧ imm_cache s' = imm_cache s.
Proof.
  intros P N Al T. destruct (pool_reg r P) as [Ir _].
  destruct (free_does s (take_reg u r) r T) as (s' & E & T' & C); [simpl; set_solver|].
  exists s'. unfold imm_cache_free_temp_helper. fold (get_allocated s). rewrite Al, orb_true_r.
  rewrite !free_auto_temp by done. split_and!; try done.
  replace u with (drop_reg (take_reg u r) r); [done|].
  destruct u. unfold drop_reg, take_reg. simpl in *. f_equal. set_solver.
Qed.

(** What the caller gets: a register whose value plus the displacement is the address;
    registers that are no temporaries and temporaries in use are untouched, at most the
    returned register has been taken. *)
Record result_ok (s : temps) (u : in_use) (h : host) (o off : Z) (s' : temps) (u' : in_use) (h' : host)
    (address : Z) : Prop := {
  res_inv : tr_inv (imm := imm) s' u' h';
  res_reg : is_reg o;
  res_value : u64 (rget h' o + off) = u64 address;
  res_sys : hsys h' = hsys h;
  res_regs r : r ∉ reg_itemp_map ∨ r ∈ held_i u → rget h' r = rget h r;
  res_use : (u' = u ∧ ((o ∉ reg_itemp_map) ∨ (imm = true ∧ o ∈ imm_regs ∧ (o ∉ held_i u)))) ∨
    (u' = take_reg u o ∧ o ∈ reg_itemp_map ∧ (o ∉ held_i u))
}.
End place.

Section finish.
Context (ctx : context) `{!Qsort (qsort ctx)}.
Context (H64 : CODEIS64 ctx = true).
Context (Haddr : ir1_addr_size (pir1 ctx) = 64).
Local Notation imm := (option_imm_reg ctx).
Local Notation place := (place (imm := imm)).
Local Notation tr_inv := (tr_inv (imm := imm)).
Local Notation result_ok := (result_ok (imm := imm)).

(** The base of a segment, as the guest's state holds it. *)
Definition segment_base (h : host) (opnd1 : IR1_OPND) : Z :=
  if ir1_opnd_has_seg opnd1 then
    match ir1_opnd_get_seg_index true opnd1 with
    | Some k => load_le (hmem h) (rget h la_s8 + seg_base_off ctx k) 8
    | None => 0
    end
  else 0.

Definition segment_ok (opnd1 : IR1_OPND) : Prop :=
  ir1_opnd_has_seg opnd1 = true →
  ∃ k, ir1_opnd_get_seg_index true opnd1 = Some k ∧ in_s 12 (seg_base_off ctx k).

Lemma ld_does d j i s h :
  is_reg d → d ≠ 0 → is_reg j → in_s 12 i →
  ∃ h', does (m_load_addrx ctx (gp d) (gp j) i) s h tt s h' ∧
    sets d (λ h, load_le (hmem h) (rget h j + i) 8) h h'.
Proof using All.
  intros Id D0 Ij Hi. unfold m_load_addrx. rewrite H64. apply does_emits.
  assert (E : s32 i = i) by (apply swrap_id; [lia|unfold in_s in *; lia]).
  eapply emits_sets; [eapply emits_load; [apply _| |done..]|].
  - rewrite E. by apply imm_ok_s12.
  - intros h'. cbv beta. rewrite sfield_s12 by (by rewrite E). by rewrite E.
Qed.

Lemma finish_ok opnd1 s u a u1 h dest bitmap A :
  place u a u1 dest → get_allocated s = a → tr_inv s u1 h → (size (held_i u1) < 7)%nat →
  u64 (rget h dest) = u64 A → (bitmap = 0 → u64 A = 0) → segment_ok opnd1 →
  ∃ o s' u' h',
    does (finish_address ctx opnd1 (gp dest) None 0 bitmap (ir1_opnd_has_seg opnd1)) s h (gp o) s' h' ∧
    result_ok s u h o 0 s' u' h' (segment_base h opnd1 + A).
Proof using All.
  intros Pl Al [T I] Hs V B0 Seg. unfold finish_address, segment_base, adjust_dest. rewrite Haddr.
  destruct (ir1_opnd_has_seg opnd1) eqn:HS.
  - destruct (Seg HS) as (k & Ek & Ik). rewrite Ek.
    destruct (alloc_does ctx H64 s u1 h T Hs) as (g & s1 & E1 & P & N & T1 & M1 & C1 & Al1).
    destruct (pool_reg g P) as [Ig G0].
    assert (Ng : g ≠ dest) by (eapply safe_ne; [by eapply place_safe|done|done|]; intros; by apply C1).
    destruct (ld_does g la_s8 (seg_base_off ctx k) s1 h Ig G0) as (h1 & L & S1); [done|done|].
    destruct (helper_frees u a u1 dest s1 g Pl) as (s2 & E2 & T2 & C2); [congruence|done|done|].
    assert (W : ∃ h2, does (if bitmap =? 0 then mret tt else m_add ctx (gp g) (gp g) (gp dest)) s2 h1 tt s2 h2 ∧
      u64 (rget h2 g) = u64 (load_le (hmem h) (rget h la_s8 + seg_base_off ctx k) 8 + A) ∧
      (∀ r, r ≠ g → rget h2 r = rget h r) ∧ hsys h2 = hsys h).
    { destruct S1 as (V1 & F1 & K1). destruct (Z.eqb_spec bitmap 0) as [Z0|Z0].
      - exists h1. split; [apply does_ret|]. split_and!; try done. rewrite rget_u64, V1.
        rewrite <- (Z.add_0_r (load_le _ _ _)) at 1. apply u64_add2; [done|]. by rewrite (B0 Z0).
      - destruct (add_does ctx H64 g g dest s2 h1 Ig G0 Ig (place_reg _ _ _ _ Pl)) as (h2 & D & V2 & F2 & K2).
        exists h2. split; [done|]. split_and!; [|intros r Hr; by rewrite F2, F1|congruence].
        rewrite rget_u64, V2, V1, F1 by done. apply u64_add2; [apply u64_idem|done]. }
    destruct W as (h2 & D2 & V2 & F2 & K2).
    exists g, s2, (take_reg u g), h2. split.
    + eapply does_bind; [|eapply does_bind; [by apply does_check|apply does_ret]].
      eapply does_bind; [exact E1|]. eapply does_bind; [apply does_lift; by rewrite H64|].
      eapply does_bind; [exact L|]. eapply does_bind; [by apply does_do|].
      eapply does_bind; [exact D2|apply does_ret].
    + assert (Hu : ∀ r, r ∈ held_i u → r ∈ held_i u1) by (destruct Pl; simpl; set_solver).
      assert (J : tr_inv s1 (take_reg u1 g) h2).
      { eapply tr_inv_frame; [split; [done|intros Hi; apply M1; auto]|]. simpl. intros r Hr. apply F2. set_solver. }
      split; try done.
      * split; [done|]. intros Hi. destruct J as [_ J]. specialize (J Hi). unfold m_of in *. by rewrite C2.
      * by rewrite Z.add_0_r.
      * intros r [Hr|Hr]; apply F2; intros ->; [done|]. by apply N, Hu.
      * right. split; [done|]. split; [done|]. intros H. by apply N, Hu.
  - exists dest, s, u1, h. split.
    + eapply does_bind; [apply does_ret|]. simpl. eapply does_bind; [by apply does_check|apply does_ret].
    + split; try done.
      * by eapply place_reg.
      * by rewrite Z.add_0_r.
      * destruct Pl as [| |? []]; auto 6.
Qed.
End finish.

(** ** The cache *)

(** Taking a temporary with at most two in use needs nothing of the cache. *)
Lemma alloc_few s held :
  pool_repr reg_itemp_map (itemp_status s) held → (size held <= 2)%nat →
  ∃ r st, ra_alloc_itemp true s = Some (gp r, set_itemp_status s st) ∧
    pool_repr reg_itemp_map st ({[ r ]} ∪ held) ∧ r ∈ reg_itemp_map ∧ (r ∉ held) ∧ (r ∉ imm_regs).
Proof.
  intros R Hs. pose proof (alloc_refines _ reg_itemp_reverse_map _ _ R) as H.
  assert (N : NoDup reg_itemp_map) by apply (pool_nodup (rev := reg_itemp_reverse_map)).
  unfold pool_alloc in H. destruct (list_find (λ r, r ∉ held) reg_itemp_map) as [[k r]|] eqn:F; simpl in H.
  - pose proof (pool_alloc_index _ _ _ _ N F) as Hk. pose proof F as (Hl & Hn & _)%list_find_Some.
    destruct H as (st & E & R' & P & _). exists r, st. unfold ra_alloc_itemp. rewrite E.
    cbn [mbind option_bind]. rewrite (pool_rev _ _ Hl). cbn [mbind option_bind].
    assert (Er : u32 r = r ∧ imm_cache_is_imm_itemp (Z.of_nat k) = Some false ∧ (r ∉ imm_regs)).
    { destruct k as [|[|[|?]]]; [| | |lia]; injection Hl as <-; (split; [done|]; split; [done|]);
        apply (bool_decide_unpack _); by vm_compute. }
    destruct Er as (Er & Ei & Nr). rewrite Ei. simpl. unfold gp. by rewrite Er.
  - exfalso. assert (Hs' : (list_to_set reg_itemp_map : gset Z) ⊆ held).
    { intros x Hx%elem_of_list_to_set. apply list_find_None in F.
      pose proof (proj1 (list.Forall_forall _ _) F x Hx). destruct (decide (x ∈ held)); [done|].
      naive_solver. }
    apply subseteq_size in Hs'. rewrite size_list_to_set in Hs' by done. simpl in Hs'. lia.
Qed.

Lemma imm_reg_of t : 3 <= t <= 6 → ∃ r, aget reg_itemp_map t = Some r ∧ r ∈ imm_regs ∧ is_reg r ∧ r ≠ 0.
Proof.
  intros H. assert (t = 3 ∨ t = 4 ∨ t = 5 ∨ t = 6) as [->|[->|[->| ->]]] by lia;
    (eexists; split; [reflexivity|]; split; [apply (bool_decide_unpack _); by vm_compute|]; unfold is_reg; by vm_compute).
Qed.

Lemma imm_reg_inj t t' r :
  aget reg_itemp_map t = Some r → aget reg_itemp_map t' = Some r → t = t'.
Proof.
  intros [H1 E1]%aget_Some [H2 E2]%aget_Some. rewrite <- (Z2Nat.id t), <- (Z2Nat.id t') by done. f_equal.
  eapply NoDup_lookup; [apply (pool_nodup (rev := reg_itemp_reverse_map))|done|done].
Qed.

Lemma itemp_free_spec s held t r :
  pool_repr reg_itemp_map (itemp_status s) held → aget reg_itemp_map t = Some r →
  itemp_is_free s t = negb (bool_decide (r ∈ held)).
Proof.
  intros R [H E]%aget_Some. unfold itemp_is_free. rewrite land_bit_zero by done. f_equal.
  rewrite <- (Z2Nat.id t) by done. by apply (repr_bits _ _ _ R).
Qed.

Lemma alloc_itemp_kept c t c' : alloc_itemp c = Some (t, c') → kept c' = kept c.
Proof.
  unfold alloc_itemp. intros H. by repeat (simplify_option_eq; try case_match).
Qed.

Lemma put_kept c base index scale offset id c' :
  imm_cache_put c base index scale offset = Some (id, c') → kept c' = kept c.
Proof.
  unfold imm_cache_put, imm_cache_fill_bucket. intros H.
  assert (W : ∀ c1 i, kept c1 = kept c →
    (c ← lsassert i <? cache_count c1 ;; bupd c1 i (fill_fields base index scale offset);
     let c := set_free_count c (free_count c - 1) in
     c ← bupd c i (set_ir1 (curr_ir1_index c));
     c ← bupd c i (λ b, set_use_count (use_count b + 1) b);
     '(t, c) ← alloc_itemp c;
     c ← bupd c i (set_itemp t);
     Some (i, c)) = Some (id, c') → kept c' = kept c).
  { clear H. intros c1 i E H. case_match; [|done].
    destruct (bupd c1 _ _) as [c2|] eqn:E2; [|done]. apply bupd_kept in E2. simpl in H.
    destruct (bupd _ _ (set_ir1 _)) as [c3|] eqn:E3; [|done]. apply bupd_kept in E3. simpl in H, E3.
    destruct (bupd c3 _ _) as [c4|] eqn:E4; [|done]. apply bupd_kept in E4. simpl in H.
    destruct (alloc_itemp c4) as [[t c5]|] eqn:E5; [|done]. apply alloc_itemp_kept in E5. simpl in H.
    destruct (bupd c5 _ _) as [c6|] eqn:E6; [|done]. apply bupd_kept in E6. simpl in H.
    injection H as _ <-. unfold kept in *; simpl in *; congruence. }
  destruct (free_count c =? 0); simpl in H.
  - destruct (imm_cache_free c _) as [c1|] eqn:E1; [|done]. apply cache_free_kept in E1. simpl in H.
    exact (W (set_free_count c1 (free_count c1 + 1)) (cache_count c - 1) E1 H).
  - exact (W c (cache_count c - free_count c) eq_refl H).
Qed.

Lemma allocate_kept qs skip_pc c base index scale offset res c' :
  imm_cache_allocate qs skip_pc c base index scale offset = Some (res, c') →
  kept c' = kept c.
Proof.
  unfold imm_cache_allocate. set (c0 := if _ && _ && _ then set_stop c true else c).
  assert (E0 : kept c0 = kept c) by (unfold c0; by case_match).
  clearbody c0. cbv zeta. set (cs := imm_cache_sort qs c0).
  assert (Es : kept cs = kept c0) by done. clearbody cs. intros H.
  destruct (_ =? -1); simpl in H.
  - destruct (imm_cache_put cs _ _ _ _) as [[id c1]|] eqn:E; [|done]. apply put_kept in E. simpl in H.
    destruct (bget c1 id); [|done]. simpl in H. injection H as _ <-. unfold kept in *; simpl in *; congruence.
  - destruct (imm_cache_can_use _ _ _ _) as [[]|]; simpl in H; [| |done].
    + destruct (imm_cache_diff _ _ _); [|done]. simpl in H. destruct (bget cs _) as [b|]; [|done]. simpl in H.
      destruct (if pre_cache b then _ else _) as [c1|] eqn:E1; [|done]. simpl in H.
      assert (kept c1 = kept cs)
        by (destruct (pre_cache b); [by apply bupd_kept in E1|by injection E1 as <-]).
      destruct (bupd c1 _ _) as [c2|] eqn:E2; [|done]. apply bupd_kept in E2. simpl in H.
      destruct (bget c2 _); [|done]. simpl in H. injection H as _ <-. unfold kept in *; simpl in *; congruence.
    + unfold imm_cache_replace_bucket, imm_cache_fill_bucket in H. destruct (_ <? cache_count cs); simpl in H; [|done].
      destruct (bupd cs _ _) as [c1|] eqn:E1; [|done]. apply bupd_kept in E1. simpl in H.
      destruct (bupd c1 _ _) as [c2|] eqn:E2; [|done]. apply bupd_kept in E2. simpl in H.
      destruct (bget c2 _); [|done]. simpl in H. injection H as _ <-. unfold kept in *; simpl in *; congruence.
Qed.

(** What [cache_reg] returns for the address [A]: a temporary, the register of a bucket
    that is to hold [A], or one that holds an address near [A]. *)
Inductive cache_result {imm : bool} (u : in_use) (h : host) (A : Z) :
    IR2_OPND * option IMM_CACHE_RES → temps → Prop :=
  | CTaken r s' :
      r ∈ reg_itemp_map → (r ∉ held_i u) → get_allocated s' = true → tr_inv (imm := imm) s' (take_reg u r) h →
      cache_result u h A (gp r, None) s'
  | CMiss r res s' :
      r ∈ imm_regs → (r ∉ held_i u) → get_allocated s' = false → imm = true → cached res = false →
      temps_repr imm s' u →
      (∀ s2 h2, framed (imm := imm) s' u h s2 h2 {[ r ]} → u64 (rget h2 r) = u64 A → tr_inv (imm := imm) s2 u h2) →
      cache_result u h A (gp r, Some res) s'
  | CHit r res d s' c' :
      r ∈ imm_regs → (r ∉ held_i u) → get_allocated s' = false → imm = true → cached res = true →
      r_pre_cache res = false → diff res = Some d → in_s 12 d → u64 (rget h r + d) = u64 A →
      tr_inv (imm := imm) s' u h → imm_cache_update_by_diff (imm_cache s') (cache_id res) d = Some c' →
      (∀ h2, sets r (λ h, rget h r + d) h h2 → tr_inv (imm := imm) (set_imm_cache s' c') u h2) →
      cache_result u h A (gp r, Some res) s'.

(** The temporaries after a write to the register of temporary [t]. *)
Lemma temp_val_upd h h2 t r v t' :
  aget reg_itemp_map t = Some r → rget h2 r = u64 v → 3 <= t' <= 6 →
  (∀ x, x ≠ r → x ∈ imm_regs → rget h2 x = rget h x) →
  u64 (temp_val h2 t') = u64 (fupd (temp_val h) t v t').
Proof.
  intros E V Ht F. unfold fupd, temp_val. destruct (imm_reg_of t' Ht) as (r' & E' & P' & _).
  destruct (Z.eqb_spec t' t) as [->|N].
  - rewrite E, V. apply u64_idem.
  - rewrite E'. f_equal. apply F; [|done]. intros ->. apply N. by eapply imm_reg_inj.
Qed.

(** The machine invariant after the register of [t] was written and little else. *)
Lemma written_inv c h h2 t r v :
  machine_inv (mkM c (fupd (temp_val h) t v) (gpr_val h)) →
  aget reg_itemp_map t = Some r → rget h2 r = u64 v →
  (∀ x, x ≠ r → x ∈ imm_regs → rget h2 x = rget h x) →
  (∀ x, (x ∉ reg_itemp_map) → rget h2 x = rget h x) →
  machine_inv (mkM c (temp_val h2) (gpr_val h2)).
Proof.
  intros M E V F G. apply (machine_inv_ext _ _ M); [done| |]; simpl.
  - intros b Hb Fb. apply (temp_val_upd h h2 t r); try done.
    destruct M as [I _]. pose proof (proj1 (list.Forall_forall _ _) (inv_buckets _ I) b Hb) as Ok.
    unfold bucket_ok in Ok. rewrite Fb in Ok. lia.
  - intros x Hx. unfold gpr_val. destruct (aget reg_gpr_map x) as [q|] eqn:Eq; [|done]. f_equal.
    apply G. by eapply gpr_not_temp.
Qed.

(** Buckets after an allocation are apart from the registers in use, if the register
    that was asked for is. *)
Lemma owners_apart c0 c t r held :
  owners_from c0 c t → cache_apart c0 held → aget reg_itemp_map t = Some r → (r ∉ held) →
  cache_apart c held.
Proof.
  intros O A E N b r' Hb Fb Hr. destruct (O b Hb Fb) as [Et|Hb0]; [|by eapply A].
  rewrite Et, E in Hr. by injection Hr as <-.
Qed.

(** ... and after the bucket is dropped in any case, also from a new register. *)
Lemma dropped_apart c0 c t c' held r :
  cache_inv c → owners_from c0 c t → cache_apart c0 held → imm_cache_free_itemp c t = Some c' →
  (r ∉ imm_regs) → cache_inv c' ∧ cache_apart c' ({[ r ]} ∪ held).
Proof.
  intros I O A E N. destruct (free_itemp_bucket_ok c t I) as (c1 & E1 & I1 & B & _).
  rewrite E in E1. injection E1 as <-. split; [done|]. intros b r' [j Hj]%list_elem_of_lookup Fb Hr.
  assert (Hj4 : (j < 4)%nat) by (apply lookup_lt_Some in Hj; unfold buckets in Hj; rewrite length_take in Hj; lia).
  rewrite buckets_lookup in Hj by done. destruct (B j b Hj4 Hj Fb) as [Hj' Nt].
  rewrite <- buckets_lookup in Hj' by done. pose proof (list_elem_of_lookup_2 _ _ _ Hj') as Hb.
  destruct (O b Hb Fb) as [?|Hb0]; [done|]. pose proof (A b r' Hb0 Fb Hr).
  assert (r' ≠ r); [|set_solver]. intros ->. apply N.
  pose proof (proj1 (list.Forall_forall _ _) (inv_buckets _ I) b Hb) as Ok. unfold bucket_ok in Ok.
  rewrite Fb in Ok. destruct (imm_reg_of (itemp_num b)) as (r2 & E2 & P2 & _); [lia|].
  rewrite Hr in E2. by injection E2 as <-.
Qed.

(** Moving a bucket leaves its register. *)
Lemma moved_apart c i d c' held :
  cache_inv c → imm_cache_update_by_diff c i d = Some c' → cache_apart c held → cache_apart c' held.
Proof.
  intros I E A. unfold imm_cache_update_by_diff, bupd in E.
  destruct (bget c i) as [b|] eqn:B; [|done]. simpl in E. unfold aset in E.
  destruct (_ || _) eqn:L; [done|]. simpl in E. injection E as <-.
  intros b' r [j Hj]%list_elem_of_lookup Fb Hr.
  assert (Hj4 : (j < 4)%nat) by (apply lookup_lt_Some in Hj; unfold buckets in Hj; rewrite length_take in Hj; lia).
  rewrite buckets_lookup in Hj by done. simpl in Hj.
  apply list_lookup_insert_Some in Hj as [(<- & <- & _)|(_ & Hj)].
  - apply (A b r); [|done..]. unfold bget in B. apply aget_Some in B as [_ B].
    rewrite <- buckets_lookup in B by done. by eapply list_elem_of_lookup_2.
  - rewrite <- buckets_lookup in Hj by done. apply (A b' r); [|done..]. by eapply list_elem_of_lookup_2.
Qed.

Lemma cache_inv_allocated a c : cache_inv c → cache_inv (with_allocated a c).
Proof. intros []. by constructor. Qed.

Lemma machine_inv_allocated a c t g :
  machine_inv (mkM c t g) → machine_inv (mkM (with_allocated a c) t g).
Proof. intros [I F]. split; [by apply cache_inv_allocated|exact F]. Qed.

Lemma temps_repr_allocated {imm} a s u : temps_repr imm s u → temps_repr imm (set_allocated a s) u.
Proof. intros []. split; try done. intros Hi. apply cache_inv_allocated. auto. Qed.

Lemma tr_inv_allocated {imm} a s u h : tr_inv (imm := imm) s u h → tr_inv (imm := imm) (set_allocated a s) u h.
Proof. intros [T M]. split; [by apply temps_repr_allocated|]. intros Hi. apply machine_inv_allocated. auto. Qed.

Section cache.
Context (ctx : context) `{!Qsort (qsort ctx)}.
Context (Himm : option_imm_reg ctx = true).
Local Notation imm := (option_imm_reg ctx).
Local Notation tr_inv := (tr_inv (imm := imm)).
Local Notation cache_result := (cache_result (imm := imm)).

Lemma cache_reg_ok s u h base index scale offset :
  tr_inv s u h → (size (held_i u) <= 2)%nat → get_allocated s = false → base < 16 → index < 16 →
  ∃ x s', does (cache_reg ctx base index scale offset) s h x s' h ∧
    cache_result u h (ea (gpr_val h) base index scale + offset) x s'.
Proof using All.
  intros [T M] Hs Al Hb Hi. specialize (M Himm).
  destruct (allocate_step (qsort ctx) (imm_skip_pc ctx) (m_of s h) base index scale offset M Hb Hi)
    as (res & c & E & Rt & I & O & Af & A). simpl in *.
  set (s1 := set_imm_cache s c). destruct T as [Ti Tf Tc Ta]. specialize (Ta Himm). specialize (Tc Himm).
  destruct (imm_reg_of _ Rt) as (r & Er & Pr & Ir & R0).
  pose proof (allocate_kept _ _ _ _ _ _ _ _ _ E) as [= Al1 _].
  assert (D1 : does (on_temps (λ s, '(r, c) ← imm_cache_allocate (qsort ctx) (imm_skip_pc ctx) (imm_cache s)
      base index scale offset; Some (r, set_imm_cache s c))) s h res s1 h)
    by (apply does_on; by rewrite E).
  assert (Fr : itemp_is_free s1 (r_itemp_num res) = negb (bool_decide (r ∈ held_i u)))
    by (by apply itemp_free_spec).
  unfold cache_reg. destruct (decide (r ∈ held_i u)) as [Hh|Hh].
  - rewrite bool_decide_true in Fr by done. destruct Af as (c' & E' & M').
    destruct (alloc_few s1 (held_i u) Ti Hs) as (x & st & Ex & R' & Px & Nx & Nm).
    destruct (dropped_apart _ _ _ _ (held_i u) x I O Ta E' Nm) as [I' A'].
    exists (gp x, None), (set_allocated true (set_imm_cache (set_itemp_status s1 st) c')). split.
    + eapply does_bind; [exact D1|]. eapply does_bind; [apply does_get|].
      eapply does_bind; [apply does_lift; unfold ra_alloc_imm_reg; by rewrite Fr|].
      eapply does_bind; [apply does_on; by rewrite Himm|].
      eapply does_bind; [apply does_do; unfold free_imm_reg; simpl; by rewrite E'|].
      eapply does_bind; [by apply does_do|apply does_ret].
    + constructor; try done. apply tr_inv_allocated. split; [|intros _; exact M']. by split.
  - rewrite bool_decide_false in Fr by done.
    assert (T1 : temps_repr imm s1 u).
    { split; try done. intros _. by eapply owners_apart. }
    assert (Em : ra_alloc_imm_reg s1 (r_itemp_num res) = Some (gp r)).
    { unfold ra_alloc_imm_reg. rewrite Fr, Er. simpl. unfold ir2_opnd_new, ir2_opnd_build, gp.
      f_equal. f_equal. apply uwrap_id. unfold in_u, is_reg in *. lia. }
    exists (gp r, Some res), s1. split.
    + eapply does_bind; [exact D1|]. eapply does_bind; [apply does_get|].
      eapply does_bind; [by apply does_lift|]. apply does_ret.
    + destruct (cached res) eqn:Hit.
      * destruct A as (Pre & d & Ed & Od & Va & Md & c' & Ec & Mc). apply si12_in in Od.
        unfold temp_val in Va at 1. rewrite Er in Va.
        eapply CHit; try done; [by rewrite <- Al|].
        intros h2 (V2 & F2 & _). split.
        -- destruct Mc as [Ic _]. split; try done. intros _.
           apply (moved_apart c (cache_id res) d); [done|done|]. by apply (tr_apart _ _ _ T1 Himm).
        -- intros _. apply (written_inv c' h h2 (r_itemp_num res) r _ Mc Er).
           ++ unfold temp_val. by rewrite Er, V2.
           ++ intros x Nx _. by apply F2.
           ++ intros x Nx. apply F2. intros ->. by apply Nx, imm_reg_temp.
      * apply CMiss; try done; [by rewrite <- Al|]. intros s2 h2 F V. destruct (fr_cache _ _ _ _ _ _ F Hs) as [C2 K2].
        split; [by apply (fr_temps _ _ _ _ _ _ F)|]. intros _. unfold m_of. rewrite C2.
        apply (written_inv c h h2 (r_itemp_num res) r _ A Er).
        -- by rewrite <- rget_u64, V.
        -- intros x Nx Px. apply K2; [set_solver|done].
        -- intros x Nx. apply (fr_regs _ _ _ _ _ _ F); [|by left].
           intros ->%elem_of_singleton. by apply Nx, imm_reg_temp.
Qed.
End cache.
