(* ===== verification/MemInterfaceMain.v ===== *)
(** * The address of a memory operand and LEA

    The theorems about [convert_mem] and [translate_lea]: the emitted code leaves the
    x86 address in the register it returns, and the invariant of the translator's
    state is kept. *)

From stdpp Require Import base numbers list option strings gmap sets sorting tactics.
From Stdlib Require Import ZArith Lia Bool.
From S2P Require Import Prelude Ir1Enum Ir1 LisaTable Ir2 LaAssemble LaAppend RegMap X86.
From S2P Require Import ImmCache ImmCacheSound ImmCacheMain RegAlloc LaSem MacroHelper.
From S2P Require Import MemInterface MemInterfaceOk.
Local Open Scope Z_scope.
Local Open Scope c_scope.

Section results.
Context {imm : bool}.
Local Notation result_ok := (result_ok (imm := imm)).
Local Notation framed := (framed (imm := imm)).

Lemma result_shift s u h o off s' u' h' X :
  result_ok s u h o 0 s' u' h' X → result_ok s u h o off s' u' h' (X + off).
Proof.
  intros [I R V K F U]. split; try done. rewrite Z.add_0_r in V. by apply u64_add.
Qed.

(** The state may have been prepared without touching the host. *)
Lemma result_prepare s0 s u h o off s' u' h' X :
  result_ok s u h o off s' u' h' X → result_ok s0 u h o off s' u' h' X.
Proof. intros []. by split. Qed.

(** Code before that changed only [D], nothing the caller relies on. *)
Lemma result_after s u h s1 h1 D u1 o off s' u' h' X :
  framed s u1 h s1 h1 D → (∀ r, r ∈ D → r ∈ reg_itemp_map ∧ (r ∉ held_i u)) → held_i u ⊆ held_i u1 →
  result_ok s1 u h1 o off s' u' h' X → result_ok s u h o off s' u' h' X.
Proof.
  intros F HD Hu [I R V K G U]. split; try done.
  - rewrite K. apply (fr_sys _ _ _ _ _ _ F).
  - intros r Hr. rewrite G by done. apply (fr_regs _ _ _ _ _ _ F).
    + intros [P N]%HD. destruct Hr; done.
    + destruct Hr as [|Hr]; [by left|right; by apply Hu].
Qed.
End results.

Lemma source_zero : source 0.
Proof. split; [unfold is_reg; lia|]. apply (bool_decide_unpack _). by vm_compute. Qed.

Lemma size_take u r : (size (held_i (take_reg u r)) <= S (size (held_i u)))%nat.
Proof.
  simpl. rewrite size_union_alt, size_singleton.
  assert (size (held_i u ∖ {[r]}) <= size (held_i u))%nat by (apply subseteq_size; set_solver). lia.
Qed.

Section native.
Context (ctx : context) `{!Qsort (qsort ctx)}.
Context (H64 : CODEIS64 ctx = true).
Context (Haddr : ir1_addr_size (pir1 ctx) = 64).
Local Notation imm := (option_imm_reg ctx).
Local Notation tr_inv := (tr_inv (imm := imm)).
Local Notation framed := (framed (imm := imm)).
Local Notation place := (place (imm := imm)).
Local Notation result_ok := (result_ok (imm := imm)).
Local Notation cache_result := (cache_result (imm := imm)).

(** From the computation of the address to the end of the function. *)
Definition native (opnd1 : IR1_OPND) (bitmap : Z) (dest_op base_op index_op : IR2_OPND)
    (scale offset off : Z) (host_off : bool) : M (IR2_OPND * Z) :=
  '(dest_op, returns) ←
    compute_address ctx bitmap dest_op base_op index_op scale offset (ir1_opnd_has_seg opnd1) host_off;
  if (returns : bool) then mret (dest_op, off)
  else
    r ← finish_address ctx opnd1 dest_op None 0 bitmap (ir1_opnd_has_seg opnd1);
    mret (r, off).

Lemma native_finish opnd1 s u a u1 h dest bitmap s1 s2 h2 bo io scale offset off host_off dest2 A :
  does (compute_address ctx bitmap (gp dest) bo io scale offset (ir1_opnd_has_seg opnd1) host_off)
    s h (gp dest2, false) s2 h2 →
  place u a u1 dest2 → get_allocated s2 = a → tr_inv s2 u1 h2 → (size (held_i u) <= 2)%nat →
  u64 (rget h2 dest2) = u64 A → (bitmap = 0 → u64 A = 0) → segment_ok ctx opnd1 →
  segment_base ctx h2 opnd1 = segment_base ctx h opnd1 →
  ∃ o s' u' h', does (native opnd1 bitmap (gp dest) bo io scale offset off host_off) s h (gp o, off) s' h' ∧
    result_ok s1 u h2 o off s' u' h' (segment_base ctx h opnd1 + A + off).
Proof using All.
  intros D Pl Al I Hs V B0 Seg Es.
  assert (Hs1 : (size (held_i u1) < 7)%nat).
  { destruct Pl as [x ? ? ?|x ? ? ? ?|x ?]; [pose proof (size_take u x)|..]; lia. }
  destruct (finish_ok ctx H64 Haddr opnd1 s2 u a u1 h2 dest2 bitmap A) as (o & s' & u' & h' & D2 & R); try done.
  rewrite Es in R. exists o, s', u', h'. split.
  - eapply does_bind; [exact D|]. simpl. eapply does_bind; [exact D2|apply does_ret].
  - by eapply result_prepare, result_shift.
Qed.

Lemma segment_base_framed s u h s' h' D opnd1 :
  framed s u h s' h' D → (la_s8 ∉ D) → segment_base ctx h' opnd1 = segment_base ctx h opnd1.
Proof using Type.
  intros F N. unfold segment_base. unfold hmem. rewrite (fr_sys _ _ _ _ _ _ F), (fr_regs _ _ _ _ _ _ F); try done.
  left. apply (bool_decide_unpack _). by vm_compute.
Qed.

Lemma env_not_temp r : r ∈ reg_itemp_map → (la_s8 ∉ ({[ r ]} : gset Z)).
Proof using Type. intros H E%elem_of_singleton. rewrite <- E in H. revert H. apply (bool_decide_unpack _). by vm_compute. Qed.

(** The address was computed into a register of the pool that the caller does not hold. *)
Lemma native_written opnd1 s u a u1 h r bitmap bo io scale offset off host_off s2 h2 A :
  does (compute_address ctx bitmap (gp r) bo io scale offset (ir1_opnd_has_seg opnd1) host_off)
    s h (gp r, false) s2 h2 →
  rget h2 r = u64 A → framed s u1 h s2 h2 {[ r ]} → bitmap ≠ 0 →
  place u a u1 r → r ∈ reg_itemp_map → (r ∉ held_i u) → get_allocated s = a → tr_inv s2 u1 h2 →
  (size (held_i u) <= 2)%nat → segment_ok ctx opnd1 →
  ∃ o s' u' h',
    does (native opnd1 bitmap (gp r) bo io scale offset off host_off) s h (gp o, off) s' h' ∧
    result_ok s u h o off s' u' h' (segment_base ctx h opnd1 + A + off).
Proof using All.
  intros D V F B Pl P N Al I Hs Seg.
  destruct (native_finish opnd1 s u a u1 h r bitmap s s2 h2 bo io scale offset off host_off r A)
    as (o & s' & u' & h' & D' & R); try done.
  - by rewrite (fr_alloc _ _ _ _ _ _ F).
  - rewrite V. apply u64_idem.
  - eapply segment_base_framed; [exact F|]. by apply env_not_temp.
  - exists o, s', u', h'. split; [exact D'|]. eapply result_after; [exact F| | |].
    + intros x ->%elem_of_singleton. done.
    + destruct Pl; simpl; set_solver.
    + eapply result_prepare. exact R.
Qed.

Lemma bits_nonzero hb hi offset : offset ≠ 0 ∨ hi = true → bits_of_parts hb hi offset ≠ 0.
Proof using Type.
  unfold bits_of_parts. intros [H| ->].
  - apply Z.eqb_neq in H. rewrite H. by destruct hb, hi.
  - by destruct (offset =? 0), hb.
Qed.

(** Some part makes the code write the register, or there is at most a base. *)
Lemma parts_cases (offset : Z) (hi : bool) : (offset ≠ 0 ∨ hi = true) ∨ (offset = 0 ∧ hi = false).
Proof using Type. destruct (Z.eq_dec offset 0), hi; auto. Qed.

(** The address is computed into a temporary taken for it. *)
Lemma native_temp opnd1 s u h r b i hb hi bo io scale offset off host_off :
  tr_inv s (take_reg u r) h → r ∈ reg_itemp_map → (r ∉ held_i u) → get_allocated s = true →
  (size (held_i u) <= 2)%nat →
  (hb = true → bo = gp b ∧ source b) → (hi = true → io = gp i ∧ source i ∧ scale_ok scale) →
  segment_ok ctx opnd1 →
  ∃ o s' u' h',
    does (native opnd1 (bits_of_parts hb hi offset) (gp r) bo io scale offset off host_off)
      s h (gp o, off) s' h' ∧
    result_ok s u h o off s' u' h'
      (segment_base ctx h opnd1 + address_of h hb hi b i scale offset + off).
Proof using All.
  intros I P N Al Hs Hb Hi Seg. destruct (pool_reg r P) as [Ir R0].
  assert (Hs1 : (size (held_i (take_reg u r)) < 7)%nat) by (pose proof (size_take u r); lia).
  destruct (parts_cases offset hi) as [W|[-> ->]].
  { destruct (compute_write ctx H64 s (take_reg u r) h r b i hb hi scale offset
      (ir1_opnd_has_seg opnd1) host_off bo io (proj1 I) Hs1 Ir R0) as (s2 & h2 & D & V & F); try done.
    { right. left. simpl. set_solver. }
    eapply native_written; try done; [by apply bits_nonzero|by constructor|].
    apply (fr_inv _ _ _ _ _ _ F); [apply union_subseteq_l|done]. }
  destruct (helper_frees_now u r s P N Al (proj1 I)) as (s2 & E1 & E2 & T2 & C2).
  assert (I2 : tr_inv s2 u h) by (split; [done|]; destruct I as [_ I]; intros Hm; specialize (I Hm); unfold m_of in *; by rewrite C2).
  destruct hb; simpl.
  - destruct (Hb eq_refl) as (-> & Sb).
    destruct (native_finish opnd1 s u (get_allocated s2) u h r 4 s s2 h (gp b) io scale 0 off host_off b
      (address_of h true false b i scale 0)) as (o & s' & u' & h' & D' & R); try done; [|by apply PSource| |exists o, s', u', h'; split; [exact D'|exact R]].
    + unfold compute_address. eapply does_bind; [apply does_get|]. rewrite Al, andb_false_r.
      eapply does_bind; [by apply does_do|apply does_ret].
    + unfold address_of. by rewrite !Z.add_0_r.
  - assert (D : ∀ b, b = ir1_opnd_has_seg opnd1 → does (compute_address ctx 0 (gp r) bo io scale 0 b host_off) s h
      (gp 0, negb b) s2 h) by (intros; eapply does_bind; [apply does_do; exact E1|apply does_ret]).
    specialize (D _ eq_refl). destruct (ir1_opnd_has_seg opnd1) eqn:HS.
    + destruct (native_finish opnd1 s u (get_allocated s2) u h r 0 s s2 h bo io scale 0 off host_off 0
        (address_of h false false b i scale 0)) as (o & s' & u' & h' & D' & R); try done;
        [by rewrite HS|apply PSource, source_zero|exists o, s', u', h'; split; [exact D'|exact R]].
    + exists 0, s2, u, h. split.
      * eapply does_bind; [rewrite HS; exact D|]. apply does_ret.
      * split; try done; [|left; split; [done|left; apply source_zero]]. rewrite rget_0. unfold segment_base. by rewrite HS.
Qed.

(** The address is computed into the register of a bucket. *)
Lemma native_cache opnd1 s u h r b i hb hi bo io scale offset off host_off :
  temps_repr imm s u → imm = true → r ∈ imm_regs → (r ∉ held_i u) → get_allocated s = false →
  (size (held_i u) <= 2)%nat →
  (∀ s2 h2, framed s u h s2 h2 {[ r ]} →
     u64 (rget h2 r) = u64 (address_of h hb hi b i scale offset) → tr_inv s2 u h2) →
  (hb = true → bo = gp b ∧ source b) → (hi = true → io = gp i ∧ source i ∧ scale_ok scale) →
  (offset ≠ 0 ∨ hi = true) ∨ (hb = true ∧ host_off = false) →
  segment_ok ctx opnd1 →
  ∃ o s' u' h',
    does (native opnd1 (bits_of_parts hb hi offset) (gp r) bo io scale offset off host_off)
      s h (gp o, off) s' h' ∧
    result_ok s u h o off s' u' h'
      (segment_base ctx h opnd1 + address_of h hb hi b i scale offset + off).
Proof using All.
  intros T Himm P N Al Hs I Hb Hi W Seg. pose proof (imm_reg_temp r P) as Pt. destruct (pool_reg r Pt) as [Ir R0].
  assert (C : bits_of_parts hb hi offset ≠ 0 ∧ ∃ s2 h2, does (compute_address ctx (bits_of_parts hb hi offset) (gp r) bo io scale offset
      (ir1_opnd_has_seg opnd1) host_off) s h (gp r, false) s2 h2 ∧
      rget h2 r = u64 (address_of h hb hi b i scale offset) ∧ framed s u h s2 h2 {[ r ]}).
  { destruct (parts_cases offset hi) as [W1|[-> ->]].
    - split; [by apply bits_nonzero|].
      apply (compute_write ctx H64); try done; [lia|]. right. by right.
    - destruct W as [[?|?]|[-> ->]]; [done..|]. split; [done|]. destruct (Hb eq_refl) as (-> & Sb).
      destruct (does_emits (r3 "or" (gp r) zero_ir2_opnd (gp b)) s tt s
        (sets r (λ h, Z.lor (rget h 0) (rget h b))) h) as (h2 & D & S).
      { apply emits_r3; [apply _|done|done|unfold is_reg; lia|apply Sb]. }
      exists s, h2. split; [|split; [|by eapply framed_sets]].
      + simpl. unfold compute_address. eapply does_bind; [apply does_get|]. rewrite Al. simpl.
        eapply does_bind; [exact D|apply does_ret].
      + rewrite (proj1 S), rget_0. unfold address_of. by rewrite !Z.add_0_r. }
  destruct C as (B & s2 & h2 & D & V & F).
  eapply native_written; try done; [by constructor|]. apply I; [done|]. rewrite V. apply u64_idem.
Qed.
End native.

(** ** The whole function *)

Lemma result_eq {imm} s u h o off s' u' h' X Y :
  u64 X = u64 Y → result_ok (imm := imm) s u h o off s' u' h' X → result_ok (imm := imm) s u h o off s' u' h' Y.
Proof. intros E []. split; try done. by rewrite <- E. Qed.

(** The returned register was written and is a temporary of the pool that the caller
    does not hold. *)
Lemma result_direct {imm} s u h s1 u1 h2 r off A :
  framed (imm := imm) s1 u1 h s1 h2 {[ r ]} → r ∈ reg_itemp_map → (r ∉ held_i u) → (u1 = u ∧ imm = true ∧ r ∈ imm_regs) ∨ u1 = take_reg u r →
  ∀ s2, tr_inv (imm := imm) s2 u1 h2 → u64 (rget h2 r + off) = u64 A → result_ok (imm := imm) s u h r off s2 u1 h2 A.
Proof.
  intros F P N Hu s2 I V. split; try done.
  - by apply pool_reg.
  - apply (fr_sys _ _ _ _ _ _ F).
  - intros x Hx. apply (fr_regs _ _ _ _ _ _ F).
    + intros ->%elem_of_singleton. by destruct Hx.
    + destruct Hx as [?|?]; [by left|]. right. destruct Hu as [[-> _]| ->]; [done|]. simpl. set_solver.
  - destruct Hu as [(-> & ? & ?)| ->]; [left; auto|by right].
Qed.

Section convert.
Context (ctx : context) `{!Qsort (qsort ctx)}.
Context (H64 : CODEIS64 ctx = true).
Context (Haddr : ir1_addr_size (pir1 ctx) = 64).
Local Notation imm := (option_imm_reg ctx).
Local Notation tr_inv := (tr_inv (imm := imm)).
Local Notation framed := (framed (imm := imm)).
Local Notation place := (place (imm := imm)).
Local Notation result_ok := (result_ok (imm := imm)).
Local Notation cache_result := (cache_result (imm := imm)).

(** [use_hit] leaves the address in the register of the bucket. *)
Lemma use_hit_ok s u h r res d c' A host_off :
  r ∈ imm_regs → get_allocated s = false → diff res = Some d → in_s 12 d →
  u64 (rget h r + d) = u64 A → tr_inv s u h →
  imm_cache_update_by_diff (imm_cache s) (cache_id res) d = Some c' →
  (∀ h2, sets r (λ h, rget h r + d) h h2 → tr_inv (set_imm_cache s c') u h2) →
  ∃ off s2 h2, does (use_hit (gp r) res host_off) s h off s2 h2 ∧ in_s 12 off ∧
    (host_off = false → off = 0) ∧ u64 (rget h2 r + off) = u64 A ∧ get_allocated s2 = false ∧
    tr_inv s2 u h2 ∧ framed s u h s h2 {[ r ]}.
Proof using Type.
  intros P Al Ed Id V I Ec Ic. unfold use_hit. destruct (pool_reg r (imm_reg_temp r P)) as [Ir R0].
  assert (C : si12_overflow d = false) by (unfold si12_overflow, in_s in *; bool_to_prop; lia).
  assert (W : ∀ (f : Z → M Z) off s2 h2, does (f d) s h off s2 h2 →
    does (d ← lift (diff res); _ ← check (negb (si12_overflow d)); f d) s h off s2 h2).
  { intros f off s2 h2 D. eapply does_bind; [by apply does_lift|]. eapply does_bind; [|exact D].
    apply does_check. by rewrite C. }
  assert (Z12 : in_s 12 0) by (unfold in_s; lia).
  destruct host_off; [|destruct (Z.eqb_spec d 0) as [->|D0]].
  - exists d, s, h. split; [|by split_and!; try done; apply framed_refl].
    apply W, does_ret.
  - exists 0, s, h. split; [|by split_and!; try done; apply framed_refl].
    apply W, does_ret.
  - destruct (addi_does r r d (set_imm_cache s c') h Ir R0 Ir Id) as (h2 & D & S).
    exists 0, (set_imm_cache s c'), h2. split; [|split_and!; try done].
    + apply W. apply Z.eqb_neq in D0. rewrite D0.
      eapply does_bind; [apply does_do; by rewrite Ec|]. eapply does_bind; [exact D|apply does_ret].
    + rewrite Z.add_0_r, (proj1 S), u64_idem. done.
    + unfold get_allocated in *. simpl. rewrite <- Al. by apply bupd_kept in Ec as [= ? _].
    + by apply Ic.
    + by eapply framed_sets.
Qed.

(** A temporary is taken for the address. *)
Lemma take_ok s u h :
  tr_inv s u h → (size (held_i u) <= 2)%nat →
  ∃ r s', does (dest_op ← alloc_temp ctx; _ ← do_temps (λ s, Some (set_allocated true s));
                mret (dest_op, @None IMM_CACHE_RES)) s h (gp r, None) s' h ∧
    r ∈ reg_itemp_map ∧ (r ∉ held_i u) ∧ get_allocated s' = true ∧ tr_inv s' (take_reg u r) h.
Proof using All.
  intros [T M] Hs. destruct (alloc_does ctx H64 s u h T) as (r & s1 & D & P & N & T1 & M1 & _); [lia|].
  exists r, (set_allocated true s1). split_and!; try done.
  - eapply does_bind; [exact D|]. eapply does_bind; [by apply does_do|apply does_ret].
  - apply tr_inv_allocated. split; [done|]. intros Hm. apply M1; auto.
Qed.

(** What the parts of an operand are: whether there is a base ([b]) and an index ([i]),
    and that they and the scale agree with the key of the cache. *)
Record operand (h : host) (opnd1 : IR1_OPND) (hb hi : bool) (b i sc kx ks : Z) (bo io : IR2_OPND) : Prop := {
  op_base : ir1_opnd_has_base opnd1 = hb;
  op_index : ir1_opnd_has_index opnd1 = hi;
  op_scale : ir1_opnd_scale opnd1 = Some sc;
  op_kbase : key_base opnd1 < 16;
  op_kindex : key_index opnd1 = Some kx ∧ kx < 16;
  op_kscale : key_scale opnd1 = Some ks;
  op_bo : base_opnd opnd1 = Some bo;
  op_io : index_opnd opnd1 = Some io;
  op_b : hb = true → bo = gp b ∧ source b;
  op_i : hi = true → io = gp i ∧ source i ∧ scale_ok sc;
  op_ea offset : ea (gpr_val h) (key_base opnd1) kx ks + offset = address_of h hb hi b i sc offset
}.

(** The part of [convert_complex] after the register was chosen. *)
Definition chosen opnd1 (bo io : IR2_OPND) (sc offset off : Z) (host_off : bool)
    (x : IR2_OPND * option IMM_CACHE_RES) : M (IR2_OPND * Z) :=
  match match x.2 with Some r => if cached r then Some r else None | None => None end with
  | Some res =>
      _ ← (if r_pre_cache res then
             o ← lift (r_offset res);
             init_bucket_reg ctx (bitmap_of opnd1 offset) x.1 bo io sc o
           else mret tt);
      d ← use_hit x.1 res host_off;
      r ← finish_address ctx opnd1 x.1 None 0 (bitmap_of opnd1 offset) (ir1_opnd_has_seg opnd1);
      mret (r, d)
  | None => native ctx opnd1 (bitmap_of opnd1 offset) x.1 bo io sc offset off host_off
  end.

Lemma chosen_ok opnd1 s u h hb hi b i sc kx ks bo io offset host_off x :
  operand h opnd1 hb hi b i sc kx ks bo io → (size (held_i u) <= 2)%nat → segment_ok ctx opnd1 →
  cache_result u h (address_of h hb hi b i sc offset) x s →
  (offset ≠ 0 ∨ hi = true) ∨ (hb = true ∧ host_off = false) →
  ∃ o off s' u' h', does (chosen opnd1 bo io sc offset 0 host_off x) s h (gp o, off) s' h' ∧
    in_s 12 off ∧ (host_off = false → off = 0) ∧
    result_ok s u h o off s' u' h' (segment_base ctx h opnd1 + address_of h hb hi b i sc offset).
Proof using All.
  intros O Hs Seg C NZ. pose proof O as [<- <- _ _ _ _ _ _ Hb Hi _].
  set (hb := ir1_opnd_has_base opnd1) in *. set (hi := ir1_opnd_has_index opnd1) in *.
  assert (Z12 : in_s 12 0) by (unfold in_s; lia).
  assert (W : ∀ r s x, (∃ o s' u' h', does (native ctx opnd1 (bits_of_parts hb hi offset) (gp r) bo io sc
      offset 0 host_off) s h (gp o, 0) s' h' ∧ result_ok s u h o 0 s' u' h'
      (segment_base ctx h opnd1 + address_of h hb hi b i sc offset + 0)) →
      x.1 = gp r → match x.2 with Some r => cached r = false | None => True end →
    ∃ o off s' u' h', does (chosen opnd1 bo io sc offset 0 host_off x) s h (gp o, off) s' h' ∧
    in_s 12 off ∧ (host_off = false → off = 0) ∧
    result_ok s u h o off s' u' h' (segment_base ctx h opnd1 + address_of h hb hi b i sc offset)).
  { intros r s0 [x1 x2] (o & s' & u' & h' & D & R) Ex Hx. simpl in *. subst x1. exists o, 0, s', u', h'.
    rewrite Z.add_0_r in R. split_and!; try done. unfold chosen. simpl.
    destruct x2 as [res|]; [rewrite Hx|]; exact D. }
  destruct C as [r s1 P N Al I|r res s1 P N Al Hm Hit T I|r res d s1 c' P N Al Hm Hit Pre Ed Id V I Ec Ic].
  - apply (W r s1 (gp r, None)); [|done..]. by apply (native_temp ctx H64 Haddr).
  - apply (W r s1 (gp r, Some res)); [|done..]. by apply (native_cache ctx H64 Haddr).
  - destruct (use_hit_ok s1 u h r res d c' _ host_off P Al Ed Id V I Ec Ic)
      as (off & s2 & h2 & D & Io & Ho & V2 & Al2 & I2 & F).
    assert (B : bitmap_of opnd1 offset ≠ 0).
    { change (bits_of_parts hb hi offset ≠ 0). destruct NZ as [NZ|[E _]]; [by apply bits_nonzero|].
      unfold bits_of_parts. rewrite E. by destruct (offset =? 0), hi. }
    destruct (finish_ok ctx H64 Haddr opnd1 s2 u false u h2 r (bitmap_of opnd1 offset) (rget h2 r))
      as (o & s' & u' & h' & D2 & R); try done; [by constructor|lia|].
    exists o, off, s', u', h'. split_and!; try done.
    + unfold chosen. simpl. rewrite Hit, Pre. eapply does_bind; [apply does_ret|].
      eapply does_bind; [exact D|]. eapply does_bind; [exact D2|apply does_ret].
    + eapply result_after; [exact F| |done|].
      { intros x ->%elem_of_singleton. split; [by apply imm_reg_temp|done]. }
      eapply result_prepare, result_eq; [|by apply result_shift].
      rewrite <- Z.add_assoc. apply u64_add2; [|done].
      f_equal. eapply segment_base_framed; [exact F|]. by apply env_not_temp, imm_reg_temp.
Qed.

(** The choice of the register, then the rest. *)
Lemma complex_does opnd1 s h hb hi b i sc kx ks bo io (skip : bool) offset host_off x s1 y s' h' :
  operand h opnd1 hb hi b i sc kx ks bo io →
  let si12 := host_off && negb (si12_overflow offset) in
  let off := if si12 then offset else 0 in
  let offset' := if si12 then 0 else offset in
  does (if skip || negb (option_imm_reg ctx) || negb (option_imm_complex ctx) || si12 then
          dest_op ← alloc_temp ctx; _ ← do_temps (λ s, Some (set_allocated true s)); mret (dest_op, None)
        else cache_reg ctx (key_base opnd1) kx ks offset') s h x s1 h →
  does (chosen opnd1 bo io sc offset' off host_off x) s1 h y s' h' →
  does (convert_complex ctx opnd1 None 0 true skip offset host_off) s h y s' h'.
Proof using Type.
  intros O si12 off offset' D1 D2. unfold convert_complex. fold si12. fold off. fold offset'.
  eapply does_bind; [apply does_lift, (op_scale _ _ _ _ _ _ _ _ _ _ _ O)|].
  eapply does_bind; [apply does_lift, (op_kindex _ _ _ _ _ _ _ _ _ _ _ O)|].
  eapply does_bind; [apply does_lift, (op_kscale _ _ _ _ _ _ _ _ _ _ _ O)|].
  eapply does_bind; [apply does_lift, (op_bo _ _ _ _ _ _ _ _ _ _ _ O)|].
  eapply does_bind; [apply does_lift, (op_io _ _ _ _ _ _ _ _ _ _ _ O)|].
  destruct (skip || _ || _ || si12).
  - eapply does_bind; [exact D1|]. destruct x as [x1 [res|]]; [|exact D2].
    exfalso. destruct D1 as (code & E & _). revert E. unfold mbind, M_bind, do_temps, on_temps.
    destruct (alloc_temp ctx s) as [[[? ?] ?]|]; [|done]. simpl. done.
  - destruct x as [x1 x2]. eapply does_bind; [eapply does_bind; [exact D1|apply does_ret]|exact D2].
Qed.

Lemma complex_ok opnd1 s u h hb hi b i sc kx ks bo io (skip : bool) offset host_off :
  operand h opnd1 hb hi b i sc kx ks bo io → tr_inv s u h → (size (held_i u) <= 2)%nat →
  get_allocated s = false → segment_ok ctx opnd1 →
  (hb = true ∨ hi = true ∨ offset ≠ 0 ∨ host_off = true) →
  ∃ o off s' u' h',
    does (convert_complex ctx opnd1 None 0 true skip offset host_off) s h (gp o, off) s' h' ∧
    in_s 12 off ∧ (host_off = false → off = 0) ∧
    result_ok s u h o off s' u' h' (segment_base ctx h opnd1 + address_of h hb hi b i sc offset).
Proof using All.
  intros O I Hs Al Seg NZ.
  set (si12 := host_off && negb (si12_overflow offset)).
  set (off := if si12 then offset else 0). set (offset' := if si12 then 0 else offset).
  assert (Ooff : in_s 12 off ∧ (host_off = false → off = 0) ∧ offset = offset' + off).
  { unfold off, offset', si12. split_and!.
    - destruct host_off, (si12_overflow offset) eqn:E; simpl; try (unfold in_s; lia). by apply si12_in.
    - by intros ->.
    - destruct (_ && _); lia. }
  destruct Ooff as (Io & Ho & Eo).
  assert (Ea : segment_base ctx h opnd1 + address_of h hb hi b i sc offset' + off =
    segment_base ctx h opnd1 + address_of h hb hi b i sc offset) by (unfold address_of; lia).
  destruct (skip || negb (option_imm_reg ctx) || negb (option_imm_complex ctx) || si12) eqn:Sk.
  - destruct (take_ok s u h I Hs) as (r & s1 & D & P & N & Al1 & I1).
    destruct (native_temp ctx H64 Haddr opnd1 s1 u h r b i hb hi bo io sc offset' off host_off)
      as (o & s' & u' & h' & D2 & R); try done; [apply O..|].
    exists o, off, s', u', h'. split_and!; try done.
    + eapply complex_does; [exact O| |]; fold si12; [by rewrite Sk|].
      unfold chosen. simpl. destruct O as [<- <- _ _ _ _ _ _ _ _ _]. exact D2.
    + rewrite Ea in R. by eapply result_prepare.
  - assert (S0 : si12 = false) by (by destruct si12; [rewrite orb_true_r in Sk|]).
    unfold off, offset' in *. rewrite S0 in *.
    assert (Himm : imm = true) by (destruct imm; [done|]; by rewrite orb_true_r in Sk).
    destruct (cache_reg_ok ctx Himm s u h (key_base opnd1) kx ks offset I Hs Al) as (x & s1 & D & C); [apply O..|].
    rewrite (op_ea _ _ _ _ _ _ _ _ _ _ _ O) in C.
    destruct (chosen_ok opnd1 s1 u h hb hi b i sc kx ks bo io offset host_off x O Hs Seg C)
      as (o & off2 & s' & u' & h' & D2 & I2 & H2 & R).
    { unfold si12 in S0. destruct host_off; simpl in S0.
      - left. left. intros ->. done.
      - destruct NZ as [?|[?|[?|?]]]; auto. }
    exists o, off2, s', u', h'. split_and!; try done.
    + eapply complex_does; [exact O| |]; fold si12; rewrite S0; [|exact D2]. by rewrite Sk.
    + by eapply result_prepare.
Qed.

(** The register for a RIP-relative address. *)
Lemma rip_reg s u h (skip : bool) A :
  tr_inv s u h → (size (held_i u) <= 2)%nat → get_allocated s = false →
  ∃ x s1, does (if negb (option_imm_reg ctx) || negb (option_imm_rip ctx) || skip then
         dest_op ← alloc_temp ctx; _ ← do_temps (λ s, Some (set_allocated true s)); mret (dest_op, None)
       else
         '(dest_op, res) ← cache_reg ctx (-100) (-1) (-1) A;
         mret (dest_op, match res with Some r => if cached r then Some r else None | None => None end))
       s h (x.1, match x.2 with Some r => if cached r then Some r else None | None => None end) s1 h ∧
       cache_result u h A x s1.
Proof using All.
  intros I Hs Al. destruct (_ || _ || skip) eqn:Sk.
  - destruct (take_ok s u h I Hs) as (r & s1 & D & P & N & Al1 & I1).
    exists (gp r, None), s1. split; [exact D|by constructor].
  - assert (Himm : imm = true) by (by destruct imm).
    destruct (cache_reg_ok ctx Himm s u h (-100) (-1) (-1) A I Hs Al) as ([x1 x2] & s1 & D & C); [lia..|].
    exists (x1, x2), s1. split; [|exact C]. eapply does_bind; [exact D|apply does_ret].
Qed.

(** RIP-relative: the address is a constant. *)
Lemma rip_ok s u h (skip : bool) A host_off :
  tr_inv s u h → (size (held_i u) <= 2)%nat → get_allocated s = false →
  ∃ o off s' u' h',
    does (convert_rip ctx None true skip A host_off) s h (gp o, off) s' h' ∧
    in_s 12 off ∧ (host_off = false → off = 0) ∧ result_ok s u h o off s' u' h' A.
Proof using All.
  intros I Hs Al. assert (Z12 : in_s 12 0) by (unfold in_s; lia). unfold convert_rip.
  destruct (rip_reg s u h skip A I Hs Al) as (x & s1 & D & C).
  assert (W : ∀ r, x.1 = gp r → is_reg r → r ≠ 0 → ∃ h2,
    does (_ ← li_guest_addr x.1 A; mret (x.1, 0)) s1 h (gp r, 0) s1 h2 ∧ u64 (rget h2 r) = u64 A ∧
    ∀ u, framed s1 u h s1 h2 {[ r ]}).
  { intros r -> Ir R0. destruct (li_does r A s1 h Ir R0) as (h2 & L & S). exists h2. split_and!.
    - eapply does_bind; [exact L|apply does_ret].
    - rewrite (proj1 S). apply u64_idem.
    - intros u1. by eapply framed_sets. }
  destruct C as [r s1 P N Al1 I1|r res s1 P N Al1 Hm Hit T I1|r res d s1 c' P N Al1 Hm Hit Pre Ed Id V I1 Ec Ic].
  - destruct (pool_reg r P) as [Ir R0]. destruct (W r eq_refl Ir R0) as (h2 & L & V & F).
    exists r, 0, s1, (take_reg u r), h2. split; [eapply does_bind; [exact D|exact L]|]. split_and!; try done.
    eapply result_direct; [apply F|done|done|by right| |by rewrite Z.add_0_r].
    apply (fr_inv _ _ _ _ _ _ (F _)); [apply union_subseteq_l|done].
  - pose proof (imm_reg_temp r P) as Pt. destruct (pool_reg r Pt) as [Ir R0].
    destruct (W r eq_refl Ir R0) as (h2 & L & V & F). simpl in D. rewrite Hit in D.
    exists r, 0, s1, u, h2. split; [eapply does_bind; [exact D|exact L]|]. split_and!; try done.
    eapply result_direct; [apply F|done|done|by left|by apply I1|by rewrite Z.add_0_r].
  - destruct (use_hit_ok s1 u h r res d c' A host_off P Al1 Ed Id V I1 Ec Ic)
      as (off & s2 & h2 & D2 & Io & Ho & V2 & Al2 & I2 & F).
    simpl in D. rewrite Hit in D. exists r, off, s2, u, h2. split_and!; try done.
    + eapply does_bind; [exact D|]. cbv beta iota. rewrite Pre. eapply does_bind; [apply does_ret|].
      eapply does_bind; [exact D2|apply does_ret].
    + eapply result_direct; [exact F|by apply imm_reg_temp|done|by left|done|done].
Qed.
End convert.


(** ** The x86 address *)

Lemma gpr64_reg r :
  r ∈ gpr64 → ∃ n q, base_reg_num r = n ∧ index_reg_num r = Some n ∧ 0 <= n < 16 ∧
    reg_eqb r dt_X86_REG_INVALID = false ∧ reg_eqb r dt_X86_REG_RIP = false ∧
    ra_alloc_gpr n = Some (gp q) ∧ source q ∧ ∀ h, x86_gpr (gpr_val h) r = gpr_val h n ∧ gpr_val h n = rget h q.
Proof.
  intros H. unfold gpr64 in H. repeat (apply elem_of_cons in H as [->|H]; [
    eexists _, _; do 2 (split; [reflexivity|]); split; [vm_compute; split; congruence|];
    do 2 (split; [reflexivity|]); split; [reflexivity|]; split; [split; [unfold is_reg; vm_compute; split; congruence|
    apply (bool_decide_unpack _); by vm_compute]|by intros h; split]|]). by apply elem_of_nil in H.
Qed.

Lemma no_reg regs : x86_gpr regs dt_X86_REG_INVALID = 0.
Proof. done. Qed.

Lemma mem_wf_scale m : index m ∈ gpr64 → scale m ∈ [1; 2; 4; 8] → scale_ok (scale m).
Proof. unfold scale_ok. intros _. rewrite !elem_of_cons, elem_of_nil. tauto. Qed.

(** The two halves of an operand. *)
Lemma base_part h opnd1 m :
  opnd_op opnd1 = OP_MEM m → base m ∈ dt_X86_REG_INVALID :: gpr64 →
  ∃ b bo, base_opnd opnd1 = Some bo ∧ key_base opnd1 < 16 ∧
    (ir1_opnd_has_base opnd1 = true → bo = gp b ∧ source b) ∧
    x86_gpr (gpr_val h) (base m) = (if ir1_opnd_has_base opnd1 then rget h b else 0) ∧
    x86_gpr (gpr_val h) (base m) = (if 0 <=? key_base opnd1 then gpr_val h (key_base opnd1) else 0) ∧
    is_rip opnd1 = false ∧ (ir1_opnd_has_base opnd1 = false → base m = dt_X86_REG_INVALID).
Proof.
  intros E [H|H]%elem_of_cons;
    unfold base_opnd, key_base, is_rip, ir1_opnd_has_base, ir1_opnd_base_reg_num, ir1_opnd_mem; rewrite E.
  - rewrite H. exists 0, ir2_opnd_new_none. by split_and!.
  - destruct (gpr64_reg _ H) as (n & q & Eb & _ & Hn & Ei & Er & Ea & Sq & Hv).
    rewrite Ei, Er, Eb. exists q, (gp q). destruct (Hv h) as [V1 V2].
    assert (L : (0 <=? n) = true) by (apply Z.leb_le; lia). cbn [negb]. rewrite L.
    split_and!; try done; [lia|congruence].
Qed.

Lemma index_part h opnd1 m :
  opnd_op opnd1 = OP_MEM m →
  reg_eqb (index m) dt_X86_REG_INVALID ||
    (bool_decide (index m ∈ gpr64) && bool_decide (scale m ∈ [1; 2; 4; 8])) = true →
  ∃ i io kx ks, index_opnd opnd1 = Some io ∧ key_index opnd1 = Some kx ∧ kx < 16 ∧
    ir1_opnd_scale opnd1 = Some (scale m) ∧ key_scale opnd1 = Some ks ∧
    (ir1_opnd_has_index opnd1 = true → io = gp i ∧ source i ∧ scale_ok (scale m)) ∧
    x86_gpr (gpr_val h) (index m) * scale m = (if ir1_opnd_has_index opnd1 then rget h i * scale m else 0) ∧
    x86_gpr (gpr_val h) (index m) * scale m = (if 0 <=? kx then gpr_val h kx * ks else 0) ∧
    (ir1_opnd_has_index opnd1 = false → index m = dt_X86_REG_INVALID).
Proof.
  intros E H. unfold key_scale, index_opnd, key_index, ir1_opnd_scale, ir1_opnd_has_index,
    ir1_opnd_index_reg_num, ir1_opnd_mem. rewrite E. cbn [mbind option_bind].
  destruct (reg_eqb (index m) dt_X86_REG_INVALID) eqn:Ei; simpl in H.
  - apply reg_eqb_eq in Ei. rewrite Ei. exists 0, ir2_opnd_new_none, (-1), (-1). by split_and!.
  - apply andb_prop in H as [H Hs]. apply bool_decide_eq_true in H, Hs.
    destruct (gpr64_reg _ H) as (n & q & _ & En & Hn & _ & _ & Ea & Sq & Hv). destruct (Hv h) as [V1 V2].
    pose proof (mem_wf_scale m H Hs) as Sc. rewrite En. cbn [negb mbind option_bind]. rewrite Ea.
    assert (L : (0 <=? n) = true) by (apply Z.leb_le; lia).
    exists q, (gp q), n, (scale m). rewrite L. split_and!; try done; [lia| |congruence..].
    destruct Sc as [->|[->|[->| ->]]]; done.
Qed.

Lemma operand_of h opnd1 m :
  opnd_op opnd1 = OP_MEM m → mem_wf m = true → reg_eqb (base m) dt_X86_REG_RIP = false →
  ∃ hb hi b i kx ks bo io, operand h opnd1 hb hi b i (scale m) kx ks bo io ∧ is_rip opnd1 = false ∧
    (∀ offset, address_of h hb hi b i (scale m) offset =
       x86_gpr (gpr_val h) (base m) + x86_gpr (gpr_val h) (index m) * scale m + offset) ∧
    (base m = dt_X86_REG_INVALID ∧ index m = dt_X86_REG_INVALID ∨ hb = true ∨ hi = true).
Proof.
  intros E W Nr. unfold mem_wf in W. rewrite Nr, orb_false_r in W. apply andb_prop in W as [Wb Wi].
  apply bool_decide_eq_true in Wb.
  destruct (base_part h opnd1 m E Wb) as (b & bo & B1 & B2 & B3 & B4 & B5 & B6 & B7).
  destruct (index_part h opnd1 m E Wi) as (i & io & kx & ks & I1 & I2 & I3 & I4 & I5 & I6 & I7 & I8 & I9).
  exists (ir1_opnd_has_base opnd1), (ir1_opnd_has_index opnd1), b, i, kx, ks, bo, io. split_and!.
  - split; try done. intros offset. unfold ea, address_of. by rewrite <- B4, <- B5, <- I7, <- I8.
  - done.
  - intros offset. unfold address_of. by rewrite <- B4, <- I7.
  - destruct (ir1_opnd_has_base opnd1); [auto|]. destruct (ir1_opnd_has_index opnd1); [auto|]. auto.
Qed.

(** An absolute address of zero. *)
Definition mem_null (m : dt_x86_op_mem) : bool :=
  reg_eqb (base m) dt_X86_REG_INVALID && reg_eqb (index m) dt_X86_REG_INVALID && (s64 (disp m) =? 0).

Definition linear_address (ctx : context) (h : host) (opnd1 : IR1_OPND) (m : dt_x86_op_mem) : Z :=
  segment_base ctx h opnd1 + effective_address (gpr_val h) (pir1 ctx) m.

(** The address the code computes: relative to RIP, it returns before it looks at the
    segment. *)
Definition computed_address (ctx : context) (h : host) (opnd1 : IR1_OPND) (m : dt_x86_op_mem) : Z :=
  if reg_eqb (base m) dt_X86_REG_RIP then effective_address (gpr_val h) (pir1 ctx) m
  else linear_address ctx h opnd1 m.

Section address.
Context (ctx : context) `{!Qsort (qsort ctx)}.
Context (H64 : CODEIS64 ctx = true).
Context (Haddr : ir1_addr_size (pir1 ctx) = 64).
Local Notation imm := (option_imm_reg ctx).
Local Notation tr_inv := (tr_inv (imm := imm)).
Local Notation framed := (framed (imm := imm)).
Local Notation place := (place (imm := imm)).
Local Notation result_ok := (result_ok (imm := imm)).
Local Notation cache_result := (cache_result (imm := imm)).

Lemma convert_none_does opnd1 s h m host_off y s' h' :
  opnd_op opnd1 = OP_MEM m →
  does (if is_rip opnd1 then
          convert_rip ctx None true (imm_cache_check_ir1_should_skip (pir1 ctx) false)
            (s64 (s64 (disp m) + ir1_addr_next (pir1 ctx))) host_off
        else convert_complex ctx opnd1 None 0 true (imm_cache_check_ir1_should_skip (pir1 ctx) false)
            (s64 (disp m)) host_off) (set_allocated false s) h y s' h' →
  does (convert_mem_helper ctx opnd1 None 0 host_off) s h y s' h'.
Proof using H64.
  intros E D. unfold convert_mem_helper. eapply does_bind; [by apply does_do|].
  eapply does_bind; [apply does_ret|]. eapply does_bind; [apply does_lift; unfold ir1_opnd_simm; by rewrite E|].
  rewrite H64. cbn [andb]. by destruct (is_rip opnd1).
Qed.

Lemma helper_computes opnd1 s u h m host_off :
  opnd_op opnd1 = OP_MEM m → mem_wf m = true → host_off = true ∨ mem_null m = false →
  tr_inv s u h → (size (held_i u) <= 2)%nat → segment_ok ctx opnd1 →
  ∃ o off s' u' h',
    does (convert_mem_helper ctx opnd1 None 0 host_off) s h (gp o, off) s' h' ∧
    in_s 12 off ∧ (host_off = false → off = 0) ∧
    result_ok s u h o off s' u' h' (computed_address ctx h opnd1 m).
Proof using All.
  intros E W NZ I Hs Seg. pose proof (tr_inv_allocated false s u h I) as I1.
  unfold computed_address, linear_address, effective_address. destruct (reg_eqb (base m) dt_X86_REG_RIP) eqn:Er.
  - destruct (rip_ok ctx H64 Haddr (set_allocated false s) u h
      (imm_cache_check_ir1_should_skip (pir1 ctx) false) (s64 (s64 (disp m) + ir1_addr_next (pir1 ctx)))
      host_off I1 Hs eq_refl) as (o & off & s' & u' & h' & D & Io & Ho & R).
    exists o, off, s', u', h'. split_and!; try done.
    + eapply convert_none_does; [done|]. unfold is_rip, ir1_opnd_mem. by rewrite E, Er.
    + eapply result_prepare, result_eq; [|exact R].
      assert (Ei : index m = dt_X86_REG_INVALID).
      { unfold mem_wf in W. apply reg_eqb_eq in Er. rewrite Er in W.
        destruct (reg_eqb (index m) dt_X86_REG_INVALID) eqn:Ei; [by apply reg_eqb_eq|done]. }
      rewrite Ei, no_reg. change (u64 (s64 (s64 (disp m) + ir1_addr_next (pir1 ctx)))) with
        (u64 (0 + s64 (s64 (disp m) + ir1_addr_next (pir1 ctx)))). rewrite u64_s64_add.
      rewrite Z.add_0_l, (Z.add_comm (s64 (disp m))), u64_s64_add. f_equal. lia.
  - destruct (operand_of h opnd1 m E W Er) as (hb & hi & b & i & kx & ks & bo & io & O & Nr & A & Nn).
    destruct (complex_ok ctx H64 Haddr opnd1 (set_allocated false s) u h hb hi b i (scale m) kx ks bo io
      (imm_cache_check_ir1_should_skip (pir1 ctx) false) (s64 (disp m)) host_off O I1 Hs eq_refl Seg)
      as (o & off & s' & u' & h' & D & Io & Ho & R).
    { destruct Nn as [[Nb Ni]|[?|?]]; [|by auto..]. destruct NZ as [?|NZ]; [by auto|]. right. right. left.
      intros Z0. unfold mem_null in NZ. by rewrite Nb, Ni, Z0 in NZ. }
    exists o, off, s', u', h'. split_and!; try done.
    + eapply convert_none_does; [done|]. by rewrite Nr.
    + eapply result_prepare, result_eq; [|exact R]. rewrite A. rewrite !Z.add_assoc. apply u64_s64_add.
Qed.

Lemma helper_ok opnd1 s u h m host_off :
  opnd_op opnd1 = OP_MEM m → mem_wf m = true → host_off = true ∨ mem_null m = false →
  tr_inv s u h → (size (held_i u) <= 2)%nat → segment_ok ctx opnd1 →
  (reg_eqb (base m) dt_X86_REG_RIP = true → ir1_opnd_has_seg opnd1 = false) →
  ∃ o off s' u' h',
    does (convert_mem_helper ctx opnd1 None 0 host_off) s h (gp o, off) s' h' ∧
    in_s 12 off ∧ (host_off = false → off = 0) ∧
    result_ok s u h o off s' u' h' (linear_address ctx h opnd1 m).
Proof using All.
  intros E W NZ I Hs Seg Rs. destruct (helper_computes opnd1 s u h m host_off E W NZ I Hs Seg)
    as (o & off & s' & u' & h' & D & Io & Ho & R).
  exists o, off, s', u', h'. split_and!; try done. replace (linear_address ctx h opnd1 m) with (computed_address ctx h opnd1 m); [done|].
  unfold computed_address, linear_address, segment_base. destruct (reg_eqb _ _); [|done]. by rewrite Rs.
Qed.
End address.

(** C4 The address of a memory operand.  In 64-bit code, with the address cache or without
    it, with at most two temporaries in use and the invariant of the translator's state, [convert_mem]
    runs through for every base and index in the 64-bit registers, every scale,
    displacement and segment, and RIP-relative operands.  The code it emits leaves
    [computed_address], less the displacement of at most 12 bits that it also returns, in
    the returned register: that is the x86 address (segment base + base + index * scale +
    displacement), but for a RIP-relative operand the segment base is left out.  Memory,
    EFLAGS, the registers that hold x86 registers and the temporaries in use are
    unchanged, and the invariant holds again with at most the returned register taken. *)
Theorem convert_mem_address ctx opnd1 m s u h :
  Qsort (qsort ctx) → CODEIS64 ctx = true → ir1_addr_size (pir1 ctx) = 64 → opnd_op opnd1 = OP_MEM m → mem_wf m = true →
  segment_ok ctx opnd1 → tr_inv (imm := option_imm_reg ctx) s u h → (size (held_i u) <= 2)%nat →
  ∃ o off s' u' h',
    does (convert_mem ctx opnd1) s h (gp o, off) s' h' ∧ in_s 12 off ∧
    result_ok (imm := option_imm_reg ctx) s u h o off s' u' h' (computed_address ctx h opnd1 m) ∧
    (reg_eqb (base m) dt_X86_REG_RIP && ir1_opnd_has_seg opnd1 = false →
     computed_address ctx h opnd1 m = segment_base ctx h opnd1 + effective_address (gpr_val h) (pir1 ctx) m).
Proof.
  intros Q H64 Ha E W Seg I Hs.
  destruct (helper_computes ctx H64 Ha opnd1 s u h m true E W) as (o & off & s' & u' & h' & D & Io & _ & R);
    [by left|done..|]. exists o, off, s', u', h'. split_and!; try done.
  unfold computed_address, linear_address, segment_base. destruct (reg_eqb _ _); [|done]. cbn [andb]. by intros ->.
Qed.

Lemma wrap_cancel b e : u64 e = u64 (b + e) → u64 b = 0.
Proof.
  unfold u64, uwrap. intros X. replace b with (b + e - e) by lia.
  by rewrite Zminus_mod, <- X, Z.sub_diag.
Qed.

(** C40 A segment override of a RIP-relative operand is lost: the code for
    [fs:[rip + disp]] leaves an address that lacks the base of the segment, so it is wrong
    whenever that base is not 0 modulo 2^64. *)
Theorem rip_segment_lost ctx opnd1 m s u h :
  Qsort (qsort ctx) → CODEIS64 ctx = true → ir1_addr_size (pir1 ctx) = 64 → opnd_op opnd1 = OP_MEM m → mem_wf m = true →
  segment_ok ctx opnd1 → reg_eqb (base m) dt_X86_REG_RIP = true → ir1_opnd_has_seg opnd1 = true →
  tr_inv (imm := option_imm_reg ctx) s u h → (size (held_i u) <= 2)%nat → u64 (segment_base ctx h opnd1) ≠ 0 →
  ∃ o off s' h', does (convert_mem ctx opnd1) s h (gp o, off) s' h' ∧
    u64 (rget h' o + off) = u64 (linear_address ctx h opnd1 m - segment_base ctx h opnd1) ∧
    u64 (rget h' o + off) ≠ u64 (linear_address ctx h opnd1 m).
Proof.
  intros Q H64 Ha E W Seg Rip _ I Hs B.
  destruct (helper_computes ctx H64 Ha opnd1 s u h m true E W) as (o & off & s' & u' & h' & D & _ & _ & R);
    [by left|done..|]. exists o, off, s', h'. split; [done|]. rewrite (res_value _ _ _ _ _ _ _ _ _ R).
  unfold computed_address. rewrite Rip. unfold linear_address. split; [f_equal; lia|]. intros X. apply B.
  exact (wrap_cancel _ _ X).
Qed.

Lemma fresh_tr_inv {imm} h : tr_inv (imm := imm) (mkT 0 0 fresh_cache) (mkU ∅ ∅) h.
Proof.
  split; [apply fresh_repr; apply fresh_cache_ok|]. intros _. split; [apply fresh_cache_ok|].
  apply list.Forall_forall. intros b Hb. rewrite (proj2 fresh_cache_ok b Hb). discriminate.
Qed.

(** A context for examples: [addr] is the address size in bytes. *)
Definition demo_ctx (addr : Z) : context :=
  mkCtx true true true false true (merge_sort by_use) 0
    (mkIR1 (mkInfo dt_X86_INS_MOV [0; 0; 0; 0] 0 [] 0x400000 8 [] addr 0) 0 0 0 0 0 0 None)
    (λ k, 0x100 + 24 * k).
Definition mem_opnd (seg b i : dt_x86_reg) (sc d : Z) : IR1_OPND := mkOpnd (OP_MEM (mkMem seg b i sc d)) 8.

(** [fs:[rbx + rcx * 4 + 0x12345]] *)
Lemma convert_mem_address_witness :
  let m := mkMem dt_X86_REG_FS dt_X86_REG_RBX dt_X86_REG_RCX 4 0x12345 in
  let h := mkH (λ r, r * 1000) (mkSys (λ a, a) 0) in
  ∃ o off s' u' h',
    does (convert_mem (demo_ctx 8) (mkOpnd (OP_MEM m) 8)) (mkT 0 0 fresh_cache) h (gp o, off) s' h' ∧
    in_s 12 off ∧
    result_ok (imm := true) (mkT 0 0 fresh_cache) (mkU ∅ ∅) h o off s' u' h'
      (computed_address (demo_ctx 8) h (mkOpnd (OP_MEM m) 8) m) ∧
    (reg_eqb (base m) dt_X86_REG_RIP && ir1_opnd_has_seg (mkOpnd (OP_MEM m) 8) = false →
     computed_address (demo_ctx 8) h (mkOpnd (OP_MEM m) 8) m =
     segment_base (demo_ctx 8) h (mkOpnd (OP_MEM m) 8) + effective_address (gpr_val h) (pir1 (demo_ctx 8)) m).
Proof.
  intros m h. apply (convert_mem_address (demo_ctx 8) (mkOpnd (OP_MEM m) 8) m); try done.
  - apply merge_qsort.
  - intros _. exists 4. split; [done|]. by vm_compute.
  - apply fresh_tr_inv.
  - vm_compute. lia.
Defined.

(** [fs:[rip + 0x12345]] *)
Lemma rip_segment_lost_witness :
  let m := mkMem dt_X86_REG_FS dt_X86_REG_RIP dt_X86_REG_INVALID 1 0x12345 in
  let opnd := mkOpnd (OP_MEM m) 8 in
  let h := mkH (λ r, r * 1000) (mkSys (λ a, a mod 251) 0) in
  ∃ o off s' h', does (convert_mem (demo_ctx 8) opnd) (mkT 0 0 fresh_cache) h (gp o, off) s' h' ∧
    u64 (rget h' o + off) ≠ u64 (linear_address (demo_ctx 8) h opnd m).
Proof.
  intros m opnd h. destruct (rip_segment_lost (demo_ctx 8) opnd m (mkT 0 0 fresh_cache) (mkU ∅ ∅) h)
    as (o & off & s' & h' & D & _ & N); try done.
  - apply merge_qsort.
  - intros _. exists 4. split; [done|]. by vm_compute.
  - apply fresh_tr_inv.
  - vm_compute. lia.
  - exists o, off, s', h'. split; [exact D|exact N].
Defined.

(** A number read off the final state. *)
Definition outcome {A} (m : M A) (s : temps) (h : host) (f : A → host → Z) : option Z :=
  '(x, _, code) ← m s; lsassert code_ok (-1) code ;; h ← run code h; Some (f x h).

Lemma outcome_does {A} (m : M A) s h f v :
  outcome m s h f = Some v → ∃ x s' h', does m s h x s' h' ∧ f x h' = v.
Proof.
  unfold outcome. destruct (m s) as [[[x s'] code]|] eqn:E; [|done]. simpl.
  destruct (code_ok (-1) code) eqn:W; [|done]. destruct (run code h) as [h'|] eqn:R; [|done]. simpl. intros [= <-].
  exists x, s', h'. split; [by exists code|done].
Qed.

(** C37 An instruction with 32-bit addresses spoils the cache of 64-bit code: the
    register of the bucket is truncated in place ([adjust_dest] takes a cached register
    for a temporary), and the next access through the bucket, here
    [rbx + 0x12345], goes to an address 2^32 below the right one. *)
Theorem addr32_spoils_cache :
  let h := mkH (λ r, 2 ^ 32 + r) (mkSys (λ _, 0) 0) in
  let opnd b := mem_opnd dt_X86_REG_INVALID b dt_X86_REG_INVALID 1 0x12345 in
  ∃ x s' h',
    does (_ ← convert_mem (demo_ctx 4) (opnd dt_X86_REG_EBX);
          convert_mem (demo_ctx 8) (opnd dt_X86_REG_RBX)) (mkT 0 0 fresh_cache) h x s' h' ∧
    rget h' (_reg_num x.1) + x.2 = linear_address (demo_ctx 8) h (opnd dt_X86_REG_RBX)
      (mkMem dt_X86_REG_INVALID dt_X86_REG_RBX dt_X86_REG_INVALID 1 0x12345) - 2 ^ 32.
Proof.
  intros h opnd. apply (outcome_does _ _ _ (λ x h', rget h' (_reg_num x.1) + x.2)).
  vm_compute. reflexivity.
Qed.
