(* ===== verification/CacheIndex.v ===== *)
(** * The index of the current instruction

    The translation loop numbers the instructions of a block ([curr_ir1_index] of the
    address cache); nothing that runs while one instruction is translated changes the
    number.  Stated as a class, so that the composed routines inherit it. *)

From stdpp Require Import base numbers list option strings gmap tactics.
From Stdlib Require Import ZArith Lia Bool.
From S2P Require Import Prelude Ir1Enum Ir1 LisaTable Ir2 LaAssemble LaAppend RegMap.
From S2P Require Import ImmCache RegAlloc LaSem MacroHelper.
From S2P Require Import MemInterface MemInterfaceOk.
Local Open Scope Z_scope.
Local Open Scope c_scope.

Definition index_of (s : temps) : Z := curr_ir1_index (imm_cache s).

Class Keeps {A} (m : M A) : Prop := keeps s y s' l : m s = Some (y, s', l) → index_of s' = index_of s.

(** ** The monad *)

Global Instance keeps_ret {A} (x : A) : Keeps (mret x).
Proof. by intros s y s' l [= <- <- <-]. Qed.

Global Instance keeps_bind {A B} (m : M A) (f : A → M B) : Keeps m → (∀ x, Keeps (f x)) → Keeps (m ≫= f).
Proof.
  intros K1 K2 s y s' l. unfold mbind, M_bind. destruct (m s) as [[[x s1] l1]|] eqn:E1; [|done]. simpl.
  destruct (f x s1) as [[[z s2] l2]|] eqn:E2; [|done]. intros [= <- <- <-].
  by rewrite (K2 _ _ _ _ _ E2), (K1 _ _ _ _ E1).
Qed.

Global Instance keeps_emit name args : Keeps (emit name args).
Proof. intros s y s' l. unfold emit. destruct (inst_of _ _); [|done]. by intros [= <- <- <-]. Qed.
Global Instance keeps_lift {A} (o : option A) : Keeps (lift o).
Proof. intros s y s' l. unfold lift. destruct o; [|done]. by intros [= <- <- <-]. Qed.
Global Instance keeps_check b : Keeps (check b).
Proof. intros s y s' l. unfold check. destruct b; [|done]. by intros [= <- <- <-]. Qed.
Global Instance keeps_get : Keeps get_temps.
Proof. by intros s y s' l [= <- <- <-]. Qed.
Global Instance keeps_if {A} (b : bool) (m n : M A) : Keeps m → Keeps n → Keeps (if b then m else n).
Proof. by destruct b. Qed.

Lemma keeps_on {A} (f : temps → option (A * temps)) :
  (∀ s x s', f s = Some (x, s') → index_of s' = index_of s) → Keeps (on_temps f).
Proof. intros H s y s' l. unfold on_temps. destruct (f s) as [[x s1]|] eqn:E; [|done]. intros [= <- <- <-]. by eapply H. Qed.
Lemma keeps_do f : (∀ s s', f s = Some s' → index_of s' = index_of s) → Keeps (do_temps f).
Proof. intros H s y s' l. unfold do_temps. destruct (f s) as [s1|] eqn:E; [|done]. intros [= <- <- <-]. by apply H. Qed.

(** Cases of a routine's body. *)
Global Hint Extern 2 (Keeps (match ?x with _ => _ end)) => destruct x : typeclass_instances.

(** ** Temporaries and the cache *)

Lemma free_imm_index s t s' : free_imm_reg s t = Some s' → index_of s' = index_of s.
Proof.
  unfold free_imm_reg. destruct (imm_cache_free_itemp _ _) as [c|] eqn:E; [|done].
  apply free_itemp_kept in E as [= _ K]. by intros [= <-].
Qed.

Lemma free_auto_index s o s' : ra_free_temp_auto s o = Some s' → index_of s' = index_of s.
Proof.
  unfold ra_free_temp_auto, ra_free_itemp, ra_free_ftemp. intros H.
  by repeat (simplify_option_eq; try case_match).
Qed.

Global Instance keeps_alloc ctx : Keeps (alloc_temp ctx).
Proof.
  apply keeps_on. intros s x s'. unfold ra_alloc_itemp. destruct (ra_alloc_temp_num _ _) as [[r st]|]; [|done]. simpl.
  destruct (if option_imm_reg ctx then _ else _) as [s1|] eqn:E; [|done]. simpl.
  intros [= <- <-].
  transitivity (index_of (set_itemp_status s st)); [|done].
  destruct (option_imm_reg ctx); [|by injection E as <-]. destruct (aget _ _); [|done]. simpl in E.
  destruct (imm_cache_is_imm_itemp _) as [[]|]; simpl in E; [by apply free_imm_index in E|by injection E as <-|done].
Qed.

Global Instance keeps_free o : Keeps (free_temp o).
Proof.
  apply keeps_do. intros s s'. unfold ra_free_temp, ra_free_itemp, ra_free_ftemp. intros H.
  by repeat (simplify_option_eq; try case_match).
Qed.

Global Instance keeps_free_auto o : Keeps (do_temps (λ s, ra_free_temp_auto s o)).
Proof. apply keeps_do. intros s s'. apply free_auto_index. Qed.
Global Instance keeps_helper b o : Keeps (do_temps (λ s, imm_cache_free_temp_helper b s o)).
Proof.
  apply keeps_do. intros s s'. unfold imm_cache_free_temp_helper. case_match; [apply free_auto_index|by intros [= <-]].
Qed.
Global Instance keeps_free_imm t : Keeps (do_temps (λ s, free_imm_reg s t)).
Proof. apply keeps_do. intros s s'. apply free_imm_index. Qed.
Global Instance keeps_allocated b : Keeps (do_temps (λ s, Some (set_allocated b s))).
Proof. apply keeps_do. by intros s s' [= <-]. Qed.
Global Instance keeps_diff i d :
  Keeps (do_temps (λ s, c ← imm_cache_update_by_diff (imm_cache s) i d; Some (set_imm_cache s c))).
Proof.
  apply keeps_do. intros s s'. destruct (imm_cache_update_by_diff _ _ _) as [c|] eqn:E; [|done].
  apply bupd_kept in E as [= _ K]. by intros [= <-].
Qed.
Global Instance keeps_cache ctx base index scale offset :
  Keeps (on_temps (λ s, '(r, c) ← imm_cache_allocate (qsort ctx) (imm_skip_pc ctx) (imm_cache s) base index scale offset;
                        Some (r, set_imm_cache s c))).
Proof.
  apply keeps_on. intros s x s'. destruct (imm_cache_allocate _ _ _ _ _ _ _) as [[r c]|] eqn:E; [|done].
  apply allocate_kept in E as [= _ K]. by intros [= <- <-].
Qed.

(** ** Memory operands *)

Ltac keep := intros; cbv zeta; typeclasses eauto.

Global Instance keeps_li_d o v : Keeps (li_d o v).
Proof. unfold li_d, imm_helper, load_lo, load_hi. keep. Qed.
Global Instance keeps_li_guest o v : Keeps (li_guest_addr o v).
Proof. apply keeps_li_d. Qed.

Section convert.
Context (ctx : context).
Global Instance keeps_add_offset d j v : Keeps (add_offset ctx d j v).
Proof using Type. unfold add_offset, m_add, r3, r2i. keep. Qed.
Global Instance keeps_index_add d b i sc : Keeps (index_add_base ctx d b i sc).
Proof using Type. unfold index_add_base, m_add, r3, r3i. keep. Qed.
Global Instance keeps_adjust d a n w : Keeps (adjust_dest ctx d a n w).
Proof using Type. unfold adjust_dest, bstr, r3. keep. Qed.
Global Instance keeps_cache_reg b i sc o : Keeps (cache_reg ctx b i sc o).
Proof using Type. unfold cache_reg. keep. Qed.
Global Instance keeps_use_hit d r b : Keeps (use_hit d r b).
Proof using Type. unfold use_hit, r2i. keep. Qed.
Global Instance keeps_rip a b c o f : Keeps (convert_rip ctx a b c o f).
Proof using Type. unfold convert_rip. keep. Qed.
Global Instance keeps_index_offset d i sc o : Keeps (index_offset ctx d i sc o).
Proof using Type. unfold index_offset. keep. Qed.
Global Instance keeps_init n d b i sc o : Keeps (init_bucket_reg ctx n d b i sc o).
Proof using Type. unfold init_bucket_reg. keep. Qed.
Global Instance keeps_compute n d b i sc o f g : Keeps (compute_address ctx n d b i sc o f g).
Proof using Type. unfold compute_address, r3. keep. Qed.
Global Instance keeps_finish o d a n b f : Keeps (finish_address ctx o d a n b f).
Proof using Type. unfold finish_address, m_load_addrx, m_add, r2i, r3. keep. Qed.
Global Instance keeps_complex o a n f g d h : Keeps (convert_complex ctx o a n f g d h).
Proof using Type. unfold convert_complex. keep. Qed.
Global Instance keeps_convert o a n f : Keeps (convert_mem_helper ctx o a n f).
Proof using Type. unfold convert_mem_helper. keep. Qed.
End convert.

(** What [does] reaches. *)
Lemma does_index {A} (m : M A) s h y s' h' : Keeps m → does m s h y s' h' → index_of s' = index_of s.
Proof. intros K (l & E & _). by apply (K _ _ _ _ E). Qed.
