(* ===== verification/TrOpnd.v ===== *)
(** * Operands (translator/tr-opnd-process.c)

    The routines that bring the value of an x86 operand into a LoongArch register and
    write one back.  The memory test option and the persistent cache are off
    ([gen_test_page_flag] returns at once).  What the routines take from elsewhere, the
    offsets in the CPU state and the update of a segment's descriptor cache
    ([store_ireg_to_ir1_seg]), are arguments. *)

From stdpp Require Import base numbers list option strings gmap tactics.
From Stdlib Require Import ZArith Lia Bool.
From S2P Require Import Prelude Ir1Enum Ir1 LisaTable Ir2 LaAssemble X86.
From S2P Require Import LaAppend RegMap ImmCache RegAlloc LaSem MacroHelper.
From S2P Require Import MemInterface.
Local Open Scope Z_scope.
Local Open Scope c_scope.

Inductive EXTENSION_MODE : Type := UNKNOWN_EXTENSION | SIGN_EXTENSION | ZERO_EXTENSION.
Definition em_eqb (a b : EXTENSION_MODE) : bool :=
  match a, b with
  | UNKNOWN_EXTENSION, UNKNOWN_EXTENSION | SIGN_EXTENSION, SIGN_EXTENSION
  | ZERO_EXTENSION, ZERO_EXTENSION => true
  | _, _ => false
  end.

(** ** Instructions *)

Definition m_mov64 (dest src : IR2_OPND) : M unit :=
  if ir2_opnd_cmp dest src then mret tt else r3 "or" dest src zero_ir2_opnd.
Definition m_mov32_sx (dest src : IR2_OPND) : M unit := r2i "slli.w" dest src 0.
Definition m_mov32_zx (dest src : IR2_OPND) : M unit := bstr "bstrpick.d" dest src 31 0.

(** ir2/ir2.c *)
Definition ir2_opnd_is_imm_reg (option_imm_reg : bool) (o : IR2_OPND) : option bool :=
  if negb option_imm_reg then Some false
  else t ← aget reg_itemp_reverse_map (ir2_opnd_base_reg_num o); imm_cache_is_imm_itemp t.

(** The flag computations of tr-eflag-process.c for instructions that have none in the
    binary translation extension; their arguments are dest, src0 and src1. *)
Record flaggen := mkFlaggen {
  generate_cf : IR2_OPND → IR2_OPND → IR2_OPND → M unit;
  generate_pf : IR2_OPND → IR2_OPND → IR2_OPND → M unit;
  generate_af : IR2_OPND → IR2_OPND → IR2_OPND → M unit;
  generate_zf : IR2_OPND → IR2_OPND → IR2_OPND → M unit;
  generate_sf : IR2_OPND → IR2_OPND → IR2_OPND → M unit;
  generate_of : IR2_OPND → IR2_OPND → IR2_OPND → M unit;
  generate_cf_not_sx : IR2_OPND → IR2_OPND → IR2_OPND → M unit;
  generate_of_not_sx : IR2_OPND → IR2_OPND → IR2_OPND → M unit;
  generate_xcomisx : IR2_OPND → IR2_OPND → bool → bool → Z → M unit
}.

(** What the translation of an instruction takes from its surroundings.  [smc_store] is
    the sequence emitted for a store in a block that is checked for self-modifying code,
    [translate_lock] the routine of tr-lock.c for an instruction with a LOCK prefix,
    [xchg_atomic] the end of [translate_xchg] for an atomic exchange with memory. *)
Record trctx := mkTrctx {
  mctx : context;                                  (** for memory operands *)
  seg_selector_off : Z → Z;                        (** [lsenv_offset_of_seg_selector] *)
  store_ireg_to_ir1_seg : IR2_OPND → IR1_OPND → M unit;
  curr_ir1_skipped_eflags : Z;
  in_pre_translate : bool;
  close_latx_parallel : bool;
  cf_parallel : bool;                              (** [cpu->tcg_cflags & CF_PARALLEL] *)
  use_smc_opt : bool;                              (** [tb_use_smc_opt(curr_tb)] *)
  smc_store : IR2_OPND → IR1_OPND → M unit;
  translate_lock : M bool;
  xchg_atomic : M bool;
  fgen : flaggen
}.

Section opnd.
Variable tc : trctx.
Local Notation ctx := (mctx tc).

Definition convert_gpr_opnd (opnd1 : IR1_OPND) (em : EXTENSION_MODE) : M IR2_OPND :=
  _ ← check (ir1_opnd_is_gpr opnd1);
  let opnd_size := ir1_opnd_size opnd1 in
  gpr_opnd ← lift (ra_alloc_gpr (ir1_opnd_base_reg_num opnd1));
  if opnd_size =? 32 then
    match em with
    | SIGN_EXTENSION => ret_opnd ← alloc_temp ctx; _ ← m_mov32_sx ret_opnd gpr_opnd; mret ret_opnd
    | ZERO_EXTENSION => ret_opnd ← alloc_temp ctx; _ ← m_mov32_zx ret_opnd gpr_opnd; mret ret_opnd
    | UNKNOWN_EXTENSION => mret gpr_opnd
    end
  else if opnd_size =? 64 then mret gpr_opnd
  else if opnd_size =? 16 then
    match em with
    | SIGN_EXTENSION => ret_opnd ← alloc_temp ctx; _ ← r2 "ext.w.h" ret_opnd gpr_opnd; mret ret_opnd
    | ZERO_EXTENSION =>
        ret_opnd ← alloc_temp ctx; _ ← bstr "bstrpick.d" ret_opnd gpr_opnd 15 0; mret ret_opnd
    | UNKNOWN_EXTENSION => mret gpr_opnd
    end
  else if ir1_opnd_is_8h opnd1 then
    ret_opnd ← alloc_temp ctx;
    match em with
    | SIGN_EXTENSION =>
        _ ← r2i "srli.w" ret_opnd gpr_opnd 8;
        _ ← r2 "ext.w.b" ret_opnd ret_opnd;
        mret ret_opnd
    | _ => _ ← bstr "bstrpick.d" ret_opnd gpr_opnd 15 8; mret ret_opnd
    end
  else
    match em with
    | SIGN_EXTENSION => ret_opnd ← alloc_temp ctx; _ ← r2 "ext.w.b" ret_opnd gpr_opnd; mret ret_opnd
    | ZERO_EXTENSION => ret_opnd ← alloc_temp ctx; _ ← r2i "andi" ret_opnd gpr_opnd 0xff; mret ret_opnd
    | UNKNOWN_EXTENSION => mret gpr_opnd
    end.

Definition load_ireg_from_ir1_imm (opnd2 : IR2_OPND) (opnd1 : IR1_OPND) (em : EXTENSION_MODE) : M unit :=
  _ ← check (ir2_opnd_is_ireg opnd2);
  _ ← check (ir1_opnd_is_imm opnd1);
  match em with
  | ZERO_EXTENSION => value ← lift (ir1_opnd_uimm opnd1); li_d opnd2 value
  | _ => value ← lift (ir1_opnd_simm opnd1); li_d opnd2 value
  end.

(** [mem_opnd] is given back if it is a temporary that is none of the cache. *)
Definition free_mem_opnd (mem_opnd : IR2_OPND) : M unit :=
  i ← lift (ir2_opnd_is_itemp mem_opnd);
  if (i : bool) then
    c ← lift (ir2_opnd_is_imm_reg (option_imm_reg ctx) mem_opnd);
    if (c : bool) then mret tt else free_temp mem_opnd
  else mret tt.

(** [mem_imm & 0xffff0000 == 0xdead0000]: the displacement encodes two registers. *)
Definition is_dead (mem_imm : Z) : bool := Z.land (u32 mem_imm) 0xffff0000 =? 0xdead0000.
Definition dead_base (mem_imm : Z) : option IR2_OPND :=
  ir2_opnd_build IR2_OPND_GPR (Z.land (u32 mem_imm) 0xff00 >> 8).
Definition dead_index (mem_imm : Z) : option IR2_OPND :=
  ir2_opnd_build IR2_OPND_GPR (Z.land (u32 mem_imm) 0xff).

(** The name of the load, without the [ld.] or [ldx.]. *)
Definition load_suffix (size : Z) (em : EXTENSION_MODE) : option string :=
  let zero := em_eqb em ZERO_EXTENSION in
  if size =? 32 then Some (if zero then "wu" else "w")
  else if (size =? 64) || (size =? 128) then Some "d"
  else if size =? 8 then Some (if zero then "bu" else "b")
  else if size =? 16 then Some (if zero then "hu" else "h")
  else None.

Definition load_ireg_from_ir1_mem (opnd2 : IR2_OPND) (opnd1 : IR1_OPND) (em : EXTENSION_MODE)
    (is_xmm_hi : bool) : M unit :=
  _ ← check (ir2_opnd_is_ireg opnd2);
  _ ← check (ir1_opnd_is_mem opnd1);
  '(mem_opnd, mem_imm) ← convert_mem ctx opnd1;
  '(mem_opnd, mem_imm) ← (if is_xmm_hi then mem_imm_add_disp ctx mem_opnd mem_imm 8
                          else mret (mem_opnd, mem_imm));
  suffix ← lift (load_suffix (ir1_opnd_size opnd1) em);
  _ ← (if is_dead mem_imm then
         base ← lift (dead_base mem_imm);
         index ← lift (dead_index mem_imm);
         r3 ("ldx." +:+ suffix) opnd2 base index
       else r2i ("ld." +:+ suffix) opnd2 mem_opnd mem_imm);
  free_mem_opnd mem_opnd.

(** The loads of [load_ireg_from_ir2_mem] and [load_ireg_from_ir2_mem_2]: no 128 bits. *)
Definition load_by_size (opnd2 mem_opnd : IR2_OPND) (mem_imm mem_size : Z) (em : EXTENSION_MODE) : M unit :=
  if mem_size =? 128 then check false
  else suffix ← lift (load_suffix mem_size em); r2i ("ld." +:+ suffix) opnd2 mem_opnd mem_imm.

Definition load_ireg_from_ir2_mem_2 (opnd2 mem_opnd : IR2_OPND) (mem_imm mem_size : Z)
    (em : EXTENSION_MODE) (is_xmm_hi : bool) : M unit :=
  _ ← (if negb (CODEIS64 ctx) then m_mov32_zx mem_opnd mem_opnd else mret tt);
  load_by_size opnd2 mem_opnd mem_imm mem_size em.

Definition load_ireg_from_ir2_mem (mem_opnd : IR2_OPND) (mem_imm mem_size : Z)
    (em : EXTENSION_MODE) (is_xmm_hi : bool) : M IR2_OPND :=
  opnd2 ← alloc_temp ctx;
  _ ← load_ireg_from_ir2_mem_2 opnd2 mem_opnd mem_imm mem_size em is_xmm_hi;
  mret opnd2.

Definition load_ireg_from_ir1_gpr (opnd2 : IR2_OPND) (opnd1 : IR1_OPND) (em : EXTENSION_MODE) : M unit :=
  _ ← check (ir2_opnd_is_ireg opnd2);
  _ ← check (ir1_opnd_is_gpr opnd1);
  gpr_opnd ← lift (ra_alloc_gpr (ir1_opnd_base_reg_num opnd1));
  let size := ir1_opnd_size opnd1 in
  if size =? 32 then
    match em with
    | SIGN_EXTENSION => m_mov32_sx opnd2 gpr_opnd
    | ZERO_EXTENSION => m_mov32_zx opnd2 gpr_opnd
    | UNKNOWN_EXTENSION => m_mov64 opnd2 gpr_opnd
    end
  else if size =? 64 then m_mov64 opnd2 gpr_opnd
  else if size =? 16 then
    if em_eqb em SIGN_EXTENSION then r2 "ext.w.h" opnd2 gpr_opnd
    else bstr "bstrpick.d" opnd2 gpr_opnd 15 0
  else if ir1_opnd_is_8h opnd1 then
    if em_eqb em SIGN_EXTENSION then
      _ ← r2i "srli.w" opnd2 gpr_opnd 8;
      r2 "ext.w.b" opnd2 opnd2
    else bstr "bstrpick.d" opnd2 gpr_opnd 15 8
  else
    if em_eqb em SIGN_EXTENSION then r2 "ext.w.b" opnd2 gpr_opnd
    else r2i "andi" opnd2 gpr_opnd 0xff.

Definition load_ireg_from_ir1_mmx (opnd2 : IR2_OPND) (opnd1 : IR1_OPND) (em : EXTENSION_MODE) : M unit :=
  mmx_opnd ← lift (ra_alloc_mmx (ir1_opnd_base_reg_num opnd1));
  match em with
  | SIGN_EXTENSION => r2 "movfr2gr.s" opnd2 mmx_opnd
  | ZERO_EXTENSION => _ ← r2 "movfr2gr.d" opnd2 mmx_opnd; m_mov32_zx opnd2 opnd2
  | UNKNOWN_EXTENSION => r2 "movfr2gr.d" opnd2 mmx_opnd
  end.

Definition load_ireg_from_ir1_seg (opnd2 : IR2_OPND) (opnd1 : IR1_OPND) : M unit :=
  r2i "ld.wu" opnd2 env_ir2_opnd (seg_selector_off tc (ir1_opnd_base_reg_num opnd1)).

Definition load_ireg_from_ir1 (opnd1 : IR1_OPND) (em : EXTENSION_MODE) (is_xmm_hi : bool) : M IR2_OPND :=
  match opnd_op opnd1 with
  | OP_IMM _ =>
      v ← lift (ir1_opnd_simm opnd1);
      if v =? 0 then mret zero_ir2_opnd
      else ret_opnd ← alloc_temp ctx; _ ← load_ireg_from_ir1_imm ret_opnd opnd1 em; mret ret_opnd
  | OP_REG _ =>
      if ir1_opnd_is_gpr opnd1 then convert_gpr_opnd opnd1 em
      else if ir1_opnd_is_mmx opnd1 then
        ret_opnd ← alloc_temp ctx; _ ← load_ireg_from_ir1_mmx ret_opnd opnd1 em; mret ret_opnd
      else if ir1_opnd_is_ymm opnd1 then lift None
      else if ir1_opnd_is_seg opnd1 then
        ret_opnd ← alloc_temp ctx; _ ← load_ireg_from_ir1_seg ret_opnd opnd1; mret ret_opnd
      else lift None
  | OP_MEM _ =>
      ret_opnd ← alloc_temp ctx; _ ← load_ireg_from_ir1_mem ret_opnd opnd1 em is_xmm_hi; mret ret_opnd
  | OP_INVALID => lift None
  end.

Definition load_ireg_from_ir1_2 (opnd2 : IR2_OPND) (opnd1 : IR1_OPND) (em : EXTENSION_MODE)
    (is_xmm_hi : bool) : M unit :=
  _ ← check (ir2_opnd_is_ireg opnd2);
  match opnd_op opnd1 with
  | OP_IMM _ => load_ireg_from_ir1_imm opnd2 opnd1 em
  | OP_REG _ =>
      if ir1_opnd_is_gpr opnd1 then load_ireg_from_ir1_gpr opnd2 opnd1 em
      else if ir1_opnd_is_mmx opnd1 then load_ireg_from_ir1_mmx opnd2 opnd1 em
      else if ir1_opnd_is_ymm opnd1 then check false
      else if ir1_opnd_is_seg opnd1 then load_ireg_from_ir1_seg opnd2 opnd1
      else check false
  | OP_MEM _ => load_ireg_from_ir1_mem opnd2 opnd1 em is_xmm_hi
  | OP_INVALID => check false
  end.

Definition load_ireg_from_cf_opnd (opnd2 : IR2_OPND) : M unit :=
  _ ← check (ir2_opnd_is_ireg opnd2); r1i "x86mfflag" opnd2 0x1.

Definition store_ireg_to_ir1_gpr (opnd2 : IR2_OPND) (opnd1 : IR1_OPND) : M unit :=
  _ ← check (ir2_opnd_is_ireg opnd2);
  _ ← check (ir1_opnd_is_gpr opnd1 && ir2_opnd_is_ireg opnd2);
  gpr_opnd ← lift (ra_alloc_gpr (ir1_opnd_base_reg_num opnd1));
  let need_mov := negb (ir2_opnd_base_reg_num opnd2 =? ir2_opnd_base_reg_num gpr_opnd) in
  let size := ir1_opnd_size opnd1 in
  if size =? 32 then m_mov32_zx gpr_opnd opnd2
  else if size =? 64 then
    if negb (ir2_opnd_cmp opnd2 gpr_opnd) then m_mov64 gpr_opnd opnd2 else mret tt
  else if size =? 16 then
    if need_mov then bstr "bstrins.d" gpr_opnd opnd2 15 0 else mret tt
  else if ir1_opnd_is_8h opnd1 then bstr "bstrins.d" gpr_opnd opnd2 15 8
  else if need_mov then bstr "bstrins.d" gpr_opnd opnd2 7 0 else mret tt.

Definition store_suffix (size : Z) : option string :=
  if size =? 32 then Some "w"
  else if (size =? 64) || (size =? 128) then Some "d"
  else if size =? 8 then Some "b"
  else if size =? 16 then Some "h"
  else None.

Definition store_ireg_to_ir1_mem (value_opnd : IR2_OPND) (opnd1 : IR1_OPND) (is_xmm_hi : bool) : M unit :=
  _ ← check (ir2_opnd_is_ireg value_opnd);
  '(mem_opnd, mem_imm) ← convert_mem ctx opnd1;
  '(mem_opnd, mem_imm) ← (if is_xmm_hi then mem_imm_add_disp ctx mem_opnd mem_imm 8
                          else mret (mem_opnd, mem_imm));
  suffix ← lift (store_suffix (ir1_opnd_size opnd1));
  _ ← (if is_dead mem_imm then
         base ← lift (dead_base mem_imm);
         index ← lift (dead_index mem_imm);
         r3 ("stx." +:+ suffix) value_opnd base index
       else r2i ("st." +:+ suffix) value_opnd mem_opnd mem_imm);
  free_mem_opnd mem_opnd.

(** For a register that is none of those listed the block is only marked as bad
    ([tu_tb_mode]), a field outside this model. *)
Definition store_ireg_to_ir1 (opnd2 : IR2_OPND) (opnd1 : IR1_OPND) (is_xmm_hi : bool) : M unit :=
  _ ← check (ir2_opnd_is_ireg opnd2);
  match opnd_op opnd1 with
  | OP_REG _ =>
      if ir1_opnd_is_gpr opnd1 then store_ireg_to_ir1_gpr opnd2 opnd1
      else if ir1_opnd_is_mmx opnd1 then
        mmx_opnd ← lift (ra_alloc_mmx (ir1_opnd_base_reg_num opnd1)); r2 "movgr2fr.d" mmx_opnd opnd2
      else if ir1_opnd_is_ymm opnd1 then check false
      else if ir1_opnd_is_seg opnd1 then store_ireg_to_ir1_seg tc opnd2 opnd1
      else mret tt
  | OP_MEM _ => store_ireg_to_ir1_mem opnd2 opnd1 is_xmm_hi
  | _ => check false
  end.

Definition store_ireg_to_ir2_mem (value_opnd mem_opnd : IR2_OPND) (mem_imm mem_size : Z)
    (is_xmm_hi : bool) : M unit :=
  _ ← check (ir2_opnd_is_ireg value_opnd);
  _ ← (if negb (CODEIS64 ctx) then bstr "bstrpick.d" mem_opnd mem_opnd 31 0 else mret tt);
  if mem_size =? 128 then check false
  else suffix ← lift (store_suffix mem_size); r2i ("st." +:+ suffix) value_opnd mem_opnd mem_imm.

Definition clear_h32 (opnd : IR2_OPND) : M unit :=
  if negb (CODEIS64 ctx) then m_mov32_zx opnd opnd else mret tt.
End opnd.
