(* ===== verification/TrOpndOk.v ===== *)
(** * Operands are read and written correctly

    The relation between the host and the x86 state while an instruction is translated,
    and the routines of tr-opnd-process.c against the x86 operands of file X86. *)

From stdpp Require Import base numbers list option strings gmap sets tactics.
From Stdlib Require Import ZArith Lia Bool.
From S2P Require Import Prelude Ir1Enum Ir1 LisaTable Ir2 LaAssemble LaAppend RegMap X86 WordEq.
From S2P Require Import ImmCache ImmCacheSound ImmCacheMain RegAlloc LaSem MacroHelper.
From S2P Require Import MemInterface MemInterfaceOk MemInterfaceMain CacheIndex TrOpnd.
Local Open Scope Z_scope.
Local Open Scope c_scope.

(** ** Host and x86 state *)

(** The x86 registers are in their host registers, memory is shared, register s8 points
    to the CPU state. *)
Record sim (env : Z) (h : host) (x : x86) : Prop := {
  sim_reg n : 0 <= n < 16 → xreg x n = gpr_val h n;
  sim_mem a : xmem x a = hmem h a;
  sim_env : rget h la_s8 = env
}.

(** The base of a segment, from the CPU state at [env]. *)
Definition seg_in (seg_base_off : Z → Z) (env : Z) (x : x86) (o : IR1_OPND) : Z :=
  if ir1_opnd_has_seg o then
    match ir1_opnd_get_seg_index true o with
    | Some k => load_le (xmem x) (env + seg_base_off k) 8
    | None => 0
    end
  else 0.

(** Where an instruction is translated: the address of the CPU state and the number of
    the instruction in its block. *)
Record site := mkSite { site_env :> Z; site_index : Z }.

(** While an instruction that started in [x0] is translated: the temporaries in use are
    recorded, the address cache is right for the registers of [x0], and the emitted code
    has reached [x]. *)
Record st {imm : bool} (env : site) (x0 : x86) (s : temps) (u : in_use) (h : host) (x : x86) : Prop := {
  st_temps : temps_repr imm s u;
  st_cache : imm = true → machine_inv (mkM (imm_cache s) (temp_val h) (xreg x0));
  st_sim : sim env h x;
  st_index : index_of s = site_index env
}.

(** The x86 register [n] is in the host register [q]. *)
Definition gpr_at (n q : Z) : Prop := 0 <= n < 16 ∧ aget reg_gpr_map n = Some q.

Lemma gpr_at_facts n q : gpr_at n q → is_reg q ∧ q ≠ 0 ∧ q ≠ la_s8 ∧ (q ∉ reg_itemp_map).
Proof.
  intros [Hn E]. assert (H : forallb (λ n, match aget reg_gpr_map n with
    | Some q => (0 <=? q) && (q <? 32) && negb (q =? 0) && negb (q =? la_s8) && bool_decide (q ∉ reg_itemp_map)
    | None => true end) (zrange 0 16) = true) by (vm_compute; reflexivity).
  pose proof (forallb_range _ 0 16 n H ltac:(lia)) as H1. cbv beta in H1. rewrite E in H1. clear H.
  rewrite !andb_true_iff in H1. destruct H1 as ((((H1 & H2) & H3) & H4) & H5).
  apply bool_decide_eq_true in H5. bool_to_prop. unfold is_reg. split_and!; done || lia.
Qed.

Lemma gpr_at_inj n n' q : gpr_at n q → gpr_at n' q → n = n'.
Proof.
  intros [Hn E] [Hn' E']. assert (H : forallb (λ n, forallb (λ n',
    (n =? n') || negb (bool_decide (aget reg_gpr_map n = aget reg_gpr_map n'))) (zrange 0 16)) (zrange 0 16) = true)
    by (vm_compute; reflexivity).
  pose proof (forallb_range _ 0 16 n H ltac:(lia)) as H1. cbv beta in H1.
  pose proof (forallb_range _ 0 16 n' H1 ltac:(lia)) as H2. cbv beta in H2. rewrite E, E' in H2.
  rewrite bool_decide_true, orb_false_r in H2 by done. by apply Z.eqb_eq.
Qed.

Lemma gpr_at_val n q h : gpr_at n q → gpr_val h n = rget h q.
Proof. intros [_ E]. unfold gpr_val. by rewrite E. Qed.

Lemma gpr_at_ex n : 0 <= n < 16 → ∃ q, gpr_at n q.
Proof.
  intros Hn. assert (L : 16 <= Z.of_nat (length reg_gpr_map)) by done.
  destruct (aget_is_Some reg_gpr_map n) as [q E]; [lia|]. by exists q.
Qed.

Lemma s8_not_temp : la_s8 ∉ reg_itemp_map.
Proof. apply (bool_decide_unpack _). by vm_compute. Qed.

Lemma held_temp {imm} s u r : temps_repr imm s u → r ∈ held_i u → r ∈ reg_itemp_map.
Proof. intros T. by apply (repr_held _ _ _ (tr_itemp _ _ _ T)). Qed.

Lemma sim_sys env h h' x :
  sim env h x → hsys h' = hsys h → (∀ r, r ∉ reg_itemp_map → rget h' r = rget h r) → sim env h' x.
Proof.
  intros [R Mm E] K F. split.
  - intros n Hn. rewrite R by done. destruct (gpr_at_ex n Hn) as [q Hq].
    rewrite !(gpr_at_val n q) by done. symmetry. apply F, (gpr_at_facts n q Hq).
  - intros a. rewrite Mm. unfold hmem. by rewrite K.
  - rewrite F; [done|apply s8_not_temp].
Qed.

Section steps.
Context {imm : bool} (env : site).
Local Notation st := (st (imm := imm) env).
Local Notation sim := (sim env).

(** In the state the instruction started in, the invariant of the address cache holds. *)
Lemma st_inv x s u h : st x s u h x → tr_inv (imm := imm) s u h.
Proof using Type.
  intros [T M S _]. split; [done|]. intros Hm. apply (machine_inv_ext _ (m_of s h) (M Hm)); try done.
  intros r Hr. simpl. by rewrite (sim_reg _ _ _ S).
Qed.

Lemma inv_st x s u h : tr_inv (imm := imm) s u h → sim h x → index_of s = site_index env → st x s u h x.
Proof using Type.
  intros [T M] S N. split; [done| |done|done]. intros Hm. apply (machine_inv_ext (m_of s h) _ (M Hm)); try done.
  intros r Hr. simpl. by rewrite (sim_reg _ _ _ S).
Qed.

(** A temporary in use is written. *)
Lemma st_temp x0 s u h x d v h' : st x0 s u h x → d ∈ held_i u → sets d v h h' → st x0 s u h' x.
Proof using Type.
  intros [T M S N] Hd (_ & F & K). pose proof (held_temp s u d T Hd) as P. split; [done| | |done].
  - intros Hm. apply (machine_inv_ext _ _ (M Hm)); [done| |done]. simpl. intros b Hb Fb. unfold temp_val.
    destruct (aget reg_itemp_map (itemp_num b)) as [r|] eqn:E; [|done]. f_equal. apply F.
    intros ->. by eapply (tr_apart _ _ _ T Hm).
  - eapply sim_sys; [done|done|]. intros r Hr. apply F. by intros ->.
Qed.

(** The host register of an x86 register is written. *)
Lemma st_gpr x0 s u h x n q v h' :
  st x0 s u h x → gpr_at n q → sets q v h h' → st x0 s u h' (set_xreg x n (v h)).
Proof using Type.
  intros [T M S N'] Hq (V & F & K). destruct (gpr_at_facts n q Hq) as (_ & _ & N8 & P). split; [done| | |done].
  - intros Hm. apply (machine_inv_ext _ _ (M Hm)); [done| |done]. simpl. intros b Hb Fb. unfold temp_val.
    destruct (aget reg_itemp_map (itemp_num b)) as [r|] eqn:E; [|done]. f_equal. apply F.
    intros ->. apply P. apply aget_Some in E as [_ E]. by eapply list_elem_of_lookup_2.
  - destruct S as [R Mm E]. split; simpl.
    + intros k Hk. destruct (gpr_at_ex k Hk) as [q' Hq']. rewrite (gpr_at_val k q') by done.
      destruct (Z.eqb_spec k n) as [->|N].
      * destruct Hq as [_ Hq], Hq' as [_ Hq']. rewrite Hq in Hq'. by injection Hq' as <-.
      * rewrite F; [rewrite R by done; by apply gpr_at_val|]. intros ->. by apply N, (gpr_at_inj _ _ q).
    + intros a. rewrite Mm. unfold hmem. by rewrite K.
    + rewrite F; [done|by intros <-].
Qed.

Lemma st_eq x0 s u h x n v V :
  st x0 s u h (set_xreg x n v) → u64 v = u64 V → st x0 s u h (set_xreg x n V).
Proof using Type.
  intros [T M [R Mm E] N]  H. split; [done|done| |done]. split; [|done|done]. simpl in *. by rewrite <- H.
Qed.

(** An x86 register that already has its new value. *)
Lemma st_same x0 s u h x n q V :
  st x0 s u h x → gpr_at n q → u64 (rget h q) = u64 V → st x0 s u h (set_xreg x n V).
Proof using Type.
  intros S Hq H. eapply st_eq; [|exact H]. apply (st_gpr x0 s u h x n q (λ h, rget h q)); [done|done|].
  split; [by rewrite rget_u64|done].
Qed.

Lemma st_ext x0 s u h x x' :
  st x0 s u h x → (∀ n, xreg x' n = xreg x n) → (∀ a, xmem x' a = xmem x a) → st x0 s u h x'.
Proof using Type.
  intros [T M [R Mm E] N] Hr Hm. split; [done|done| |done]. split; [|intros a; by rewrite Hm|done].
  intros n Hn. by rewrite Hr, R.
Qed.

Lemma st_mem x0 s u h x m m' :
  st x0 s u h x → (∀ a, m' a = m a) → st x0 s u (set_mem h m) (set_xmem x m').
Proof using Type. intros [T M [R Mm E] N] H. by split. Qed.

Lemma st_flags x0 s u h x f f' : st x0 s u h x → st x0 s u (set_flags h f) (set_xflags x f').
Proof using Type. intros [T M [R Mm E] N]. by split. Qed.

Lemma st_free x0 s u h x r :
  st x0 s u h x → r ∈ held_i u →
  ∃ s', does (free_temp (gp r)) s h tt s' h ∧ st x0 s' (drop_reg u r) h x.
Proof using Type.
  intros [T M S N] Hr. destruct (free_does s u r T Hr) as (s' & E & T' & C). exists s'.
  split; [by apply does_do|]. split; [done|by rewrite C|done|]. unfold index_of in *. by rewrite C.
Qed.
End steps.

(** Where a routine may put a value: a temporary in use or an x86 register; [f] is what
    that does to the x86 state. *)
Definition target (u : in_use) (d : Z) (f : x86 → Z → x86) : Prop :=
  (d ∈ held_i u ∧ f = (λ x _, x)) ∨ ∃ n, gpr_at n d ∧ f = (λ x R, set_xreg x n R).

Lemma st_target {imm} env x0 s u h x d f v h' :
  st (imm := imm) env x0 s u h x → target u d f → sets d v h h' → st (imm := imm) env x0 s u h' (f x (v h)).
Proof. intros S [[Hd ->]|(n & Hn & ->)] E; [by eapply st_temp|by eapply st_gpr]. Qed.

Lemma target_reg {imm} s u d f : temps_repr imm s u → target u d f → is_reg d ∧ d ≠ 0.
Proof.
  intros T [[Hd _]|(n & Hn & _)]; [by eapply pool_reg, held_temp|].
  by destruct (gpr_at_facts n d Hn) as (? & ? & _).
Qed.

Lemma target_mono u u' d f : held_i u ⊆ held_i u' → target u d f → target u' d f.
Proof. intros H [[Hd ->]|?]; [left; auto|by right]. Qed.

(** ** Register operands *)

Record reg_opnd (o : IR1_OPND) (p : reg_part) (q : Z) : Prop := {
  ro_at : gpr_at (p_num p) q;
  ro_part : match opnd_op o with OP_REG r => part_of r = Some p | _ => False end;
  ro_gpr : ir1_opnd_is_gpr o = true;
  ro_size : ir1_opnd_size o = p_width p;
  ro_num : ir1_opnd_base_reg_num o = p_num p;
  ro_alloc : ra_alloc_gpr (p_num p) = Some (gp q);
  ro_8h : ir1_opnd_is_8h o = (p_lsb p =? 8);
  ro_8l : ir1_opnd_is_8l true o = (p_width p =? 8) && (p_lsb p =? 0);
  ro_16 : ir1_opnd_is_16bit true o = (p_width p =? 16);
  ro_shape : (p_width p, p_lsb p) ∈ [(64, 0); (32, 0); (16, 0); (8, 0); (8, 8)];
  ro_read seg pir1 x : read_opnd seg pir1 x o = Some (read_part x p);
  ro_write seg pir1 x v : write_opnd seg pir1 x o v = Some (write_part x p v)
}.

Lemma reg_opnd_wf o r : opnd_op o = OP_REG r → opnd_wf o = true → ∃ p q, reg_opnd o p q.
Proof.
  destruct o as [op n]. simpl. intros -> W. unfold opnd_wf in W. simpl in W.
  destruct (part_of r) as [p|] eqn:E; [|done]. apply Z.eqb_eq in W.
  assert (N : n = p_width p / 8).
  { unfold ir1_opnd_size in W. simpl in W. rewrite Z.shiftl_mul_pow2 in W by lia. rewrite W.
    symmetry. by apply Z.div_mul. }
  clear W. subst n. exists p.
  destruct r; vm_compute in E; try discriminate E; injection E as <-;
    (eexists; split; try reflexivity;
     [split; [vm_compute; split; congruence|reflexivity]|apply (bool_decide_unpack _); vm_compute; exact I]).
Qed.

Lemma reg_shape o p q :
  reg_opnd o p q → (p_width p = 64 ∧ p_lsb p = 0) ∨ (p_width p = 32 ∧ p_lsb p = 0) ∨
    (p_width p = 16 ∧ p_lsb p = 0) ∨ (p_width p = 8 ∧ p_lsb p = 8) ∨ (p_width p = 8 ∧ p_lsb p = 0).
Proof.
  intros R. pose proof (ro_shape _ _ _ R) as H.
  repeat (apply elem_of_cons in H as [H|H]; [injection H; auto 10|]). by apply elem_of_nil in H.
Qed.

(** [R] holds the value [V] of [w] bits in the way the mode asks for. *)
Definition extends (em : EXTENSION_MODE) (w V R : Z) : Prop :=
  match em with
  | SIGN_EXTENSION => R = u64 (swrap w V)
  | ZERO_EXTENSION => R = uwrap w V
  | UNKNOWN_EXTENSION => R ≡[w] V
  end.

Lemma extends_eqw em w V R : 0 < w <= 64 → extends em w V R → R ≡[w] V.
Proof.
  intros Hw. destruct em; simpl; [done|intros ->|intros ->].
  - rewrite eqw_u64 by lia. apply eqw_swrap; lia.
  - apply eqw_uwrap. lia.
Qed.

(** The ways a part of a register is brought into another one. *)
Lemma sign_part w lsb X y :
  0 < w → y ≡[w] X >> lsb → extends SIGN_EXTENSION w (uwrap w (X >> lsb)) (u64 (swrap w y)).
Proof.
  intros Hw H. simpl. f_equal. apply swrap_eqw; [done|]. rewrite H. symmetry. apply eqw_uwrap. lia.
Qed.

Lemma zero_part w lsb X em y :
  0 < w <= 64 → em ≠ SIGN_EXTENSION → y = uwrap w (X >> lsb) → extends em w (uwrap w (X >> lsb)) (u64 y).
Proof.
  intros Hw He ->. unfold u64. rewrite (uwrap_id 64).
  - destruct em; simpl; [done|done|]. symmetry. apply uwrap_id, uwrap_range. lia.
  - pose proof (uwrap_range w (X >> lsb) ltac:(lia)) as [? ?]. split; [done|].
    pose proof (Z.pow_le_mono_r 2 w 64). lia.
Qed.

Lemma full_part em X : in_u 64 X → extends em 64 (uwrap 64 (X >> 0)) X.
Proof.
  intros H. rewrite Z.shiftr_0_r, (uwrap_id 64 X) by done. destruct em; simpl; [done| |by rewrite uwrap_id].
  rewrite <- (uwrap_id 64 X) at 1 by done. symmetry. by apply (eqw_swrap 64 64).
Qed.

Lemma same_part w X : 0 < w → extends UNKNOWN_EXTENSION w (uwrap w (X >> 0)) X.
Proof. intros Hw. simpl. rewrite Z.shiftr_0_r. symmetry. apply eqw_uwrap. lia. Qed.

(** ** Single instructions *)

Section instructions.
Context (s : temps) (h : host).

Lemma r3_does name f d j k :
  Row name [GPR_RD; GPR_RJ; GPR_RK] false false (S3R f) → is_reg d → d ≠ 0 → is_reg j → is_reg k →
  ∃ h', does (r3 name (gp d) (gp j) (gp k)) s h tt s h' ∧ sets d (λ h, f (rget h j) (rget h k)) h h'.
Proof using Type. intros. apply does_emits. by apply emits_r3. Qed.

Lemma ui_does name f d j i :
  Row name [GPR_RD; GPR_RJ; IMM_UI12] false false (S2RI (ufield 12) f) → 0 <= i < 4096 →
  is_reg d → d ≠ 0 → is_reg j →
  ∃ h', does (r2i name (gp d) (gp j) i) s h tt s h' ∧ sets d (λ h, f (rget h j) i) h h'.
Proof using Type.
  intros R Hi Id D0 Ij. apply does_emits. eapply emits_sets; [eapply emits_r2i; [done|by eapply not_addi_w|done..]|].
  intros h'. cbv beta. rewrite ufield_imm by lia. by rewrite uwrap_id.
Qed.

Lemma pick_does d j msb lsb :
  0 <= lsb <= msb → msb < 64 → is_reg d → d ≠ 0 → is_reg j →
  ∃ h', does (bstr "bstrpick.d" (gp d) (gp j) msb lsb) s h tt s h' ∧
    sets d (λ h, bits_of (rget h j) msb lsb) h h'.
Proof using Type.
  intros. apply does_emits. apply (emits_bits _ IMM_MSBD IMM_LSBD 6 (λ _ j, bits_of j msb lsb) d j msb lsb s _ row_bstrpick_d);
    try done; [by left|left; by eexists].
Qed.

Lemma pickw_does d j msb lsb :
  0 <= lsb <= msb → msb < 32 → is_reg d → d ≠ 0 → is_reg j →
  ∃ h', does (bstr "bstrpick.w" (gp d) (gp j) msb lsb) s h tt s h' ∧
    sets d (λ h, s32 (bits_of (rget h j) msb lsb)) h h'.
Proof using Type.
  intros. apply does_emits. apply (emits_bits _ IMM_MSBW IMM_LSBW 5 (λ _ j, s32 (bits_of j msb lsb)) d j msb lsb s _ row_bstrpick_w);
    try done; [by right|left; by eexists].
Qed.

Lemma ins_does d j msb lsb :
  0 <= lsb <= msb → msb < 64 → is_reg d → d ≠ 0 → is_reg j →
  ∃ h', does (bstr "bstrins.d" (gp d) (gp j) msb lsb) s h tt s h' ∧
    sets d (λ h, insert_bits (rget h d) (rget h j) msb lsb) h h'.
Proof using Type.
  intros. apply does_emits. apply (emits_bits _ IMM_MSBD IMM_LSBD 6 (λ d j, insert_bits d j msb lsb) d j msb lsb s _ row_bstrins_d);
    try done; [by left|by right].
Qed.

Lemma shift_does name f d j i :
  Row name [GPR_RD; GPR_RJ; IMM_UI5L] false false (S2RI (ufield 5) f) → 0 <= i < 32 →
  is_reg d → d ≠ 0 → is_reg j →
  ∃ h', does (r2i name (gp d) (gp j) i) s h tt s h' ∧ sets d (λ h, f (rget h j) i) h h'.
Proof using Type.
  intros R Hi Id D0 Ij. apply does_emits. eapply emits_sets; [eapply emits_r2i; [done|by eapply not_addi_w|done..]|].
  intros h'. cbv beta. rewrite ufield_imm by lia. by rewrite uwrap_id.
Qed.

Lemma r2_does name f d j :
  Row name [GPR_RD; GPR_RJ] false false (S2R f) → is_reg d → d ≠ 0 → is_reg j →
  ∃ h', does (r2 name (gp d) (gp j)) s h tt s h' ∧ sets d (λ h, f (rget h j)) h h'.
Proof using Type. intros. apply does_emits. by apply emits_r2. Qed.

Lemma mov_sx_does d j :
  is_reg d → d ≠ 0 → is_reg j →
  ∃ h', does (m_mov32_sx (gp d) (gp j)) s h tt s h' ∧ sets d (λ h, s32 (rget h j)) h h'.
Proof using Type.
  intros. destruct (shift_does "slli.w" _ d j 0 _) as (h' & D & S); try done. exists h'. split; [done|].
  eapply sets_eq; [done|]. cbv beta. by rewrite Z.shiftl_0_r.
Qed.

Lemma mov_zx_does d j :
  is_reg d → d ≠ 0 → is_reg j →
  ∃ h', does (m_mov32_zx (gp d) (gp j)) s h tt s h' ∧ sets d (λ h, u32 (rget h j)) h h'.
Proof using Type.
  intros. destruct (pick_does d j 31 0) as (h' & D & S); try done. exists h'. split; [done|].
  eapply sets_eq; [done|]. cbv beta. unfold bits_of. by rewrite Z.shiftr_0_r.
Qed.

Lemma mov64_does d j :
  is_reg d → d ≠ 0 → is_reg j →
  ∃ h', does (m_mov64 (gp d) (gp j)) s h tt s h' ∧ sets d (λ h, rget h j) h h'.
Proof using Type.
  intros Id D0 Ij. unfold m_mov64. destruct (ir2_opnd_cmp (gp d) (gp j)) eqn:E.
  - assert (d = j) as <-.
    { unfold ir2_opnd_cmp in E. simpl in E. by bool_to_prop. }
    exists h. split; [apply does_ret|]. split; [by rewrite rget_u64|done].
  - destruct (r3_does "or" _ d j 0 _) as (h' & D & S); [done..|]. exists h'. split; [done|].
    eapply sets_eq; [done|]. cbv beta. by rewrite rget_0, Z.lor_0_r.
Qed.

Lemma load_does x n ext d j i :
  (x, n, ext) ∈ load_ops → in_s 12 i → is_reg d → d ≠ 0 → is_reg j →
  ∃ h', does (r2i ("ld." +:+ x) (gp d) (gp j) i) s h tt s h' ∧
    sets d (λ h, ext (load_le (hmem h) (rget h j + i) n)) h h'.
Proof using Type.
  intros Hx Hi Id D0 Ij. apply does_emits.
  assert (E : s32 i = i) by (apply swrap_id; [lia|unfold in_s in *; lia]).
  eapply emits_sets; [eapply emits_load; [by apply row_load| |done..]|].
  - rewrite E. by apply imm_ok_s12.
  - intros h'. cbv beta. rewrite sfield_s12 by (by rewrite E). by rewrite E.
Qed.

Lemma store_does x n v j i :
  (x, n) ∈ store_ops → in_s 12 i → is_reg v → is_reg j →
  does (r2i ("st." +:+ x) (gp v) (gp j) i) s h tt s
    (set_mem h (store_le (hmem h) (rget h j + i) (rget h v) n)).
Proof using Type.
  intros Hx Hi Iv Ij. assert (E : s32 i = i) by (apply swrap_id; [lia|unfold in_s in *; lia]).
  destruct (does_emits _ _ _ _ _ h (emits_store _ n v j i s (row_store x n Hx)
    ltac:(rewrite E; by apply imm_ok_s12) Iv Ij)) as (h' & D & ->).
  rewrite sfield_s12, E in D by (by rewrite E). exact D.
Qed.
End instructions.

(** Membership in a given list, up to components still to be found. *)
Ltac member :=
  first [apply elem_of_cons; left; reflexivity | apply elem_of_cons; right; member].

(** ** What loading an operand leaves alone *)

(** At most [n] more temporaries are in use; memory, flags, registers that are no
    temporaries and temporaries in use are unchanged. *)
Record quiet (n : nat) (u : in_use) (h : host) (u' : in_use) (h' : host) : Prop := {
  q_held : held_i u ⊆ held_i u';
  q_size : (size (held_i u') <= size (held_i u) + n)%nat;
  q_sys : hsys h' = hsys h;
  q_regs r : r ∉ reg_itemp_map ∨ r ∈ held_i u → rget h' r = rget h r
}.

Lemma quiet_refl n u h : quiet n u h u h.
Proof. split; done || lia. Qed.

Lemma quiet_trans n m u h u1 h1 u2 h2 : quiet n u h u1 h1 → quiet m u1 h1 u2 h2 → quiet (n + m) u h u2 h2.
Proof.
  intros [A1 B1 C1 D1] [A2 B2 C2 D2]. split; [by etrans|lia|congruence|].
  intros r Hr. rewrite D2 by (destruct Hr; [by left|right; by apply A1]). by apply D1.
Qed.

Lemma quiet_weaken n m u h u' h' : quiet n u h u' h' → (n <= m)%nat → quiet m u h u' h'.
Proof. intros [A B C D] H. split; done || lia. Qed.

(** A register that the caller may rely on: no temporary, or one taken for it. *)
Definition owned (u u' : in_use) (r : Z) : Prop :=
  is_reg r ∧ ((r ∉ reg_itemp_map) ∨ (r ∈ held_i u' ∧ (r ∉ held_i u))).

Lemma owned_kept n u u1 u2 h1 h2 r : owned u u1 r → quiet n u1 h1 u2 h2 → rget h2 r = rget h1 r.
Proof. intros [_ H] Q. apply (q_regs _ _ _ _ _ Q). destruct H as [?|[? _]]; auto. Qed.

Lemma owned_more n u u1 u2 h1 h2 r : owned u u1 r → quiet n u1 h1 u2 h2 → owned u u2 r.
Proof.
  intros [I H] Q. split; [done|]. destruct H as [?|[? ?]]; [by left|]. right. split; [|done].
  by apply (q_held _ _ _ _ _ Q).
Qed.

Lemma take_held u t : t ∈ held_i (take_reg u t).
Proof. simpl. set_solver. Qed.

Lemma take_more u t r : r ∈ held_i u → r ∈ held_i (take_reg u t).
Proof. simpl. set_solver. Qed.

Lemma quiet_take u r h : (r ∉ held_i u) → quiet 1 u h (take_reg u r) h.
Proof.
  intros N. split; [simpl; set_solver| |done|done]. simpl. rewrite size_union by set_solver.
  rewrite size_singleton. lia.
Qed.

Lemma quiet_write n u h u' h' h'' d v :
  quiet n u h u' h' → sets d v h' h'' → d ∈ reg_itemp_map → (d ∉ held_i u) → quiet n u h u' h''.
Proof.
  intros [A B C D] (_ & F & K) P N. split; [done|done|congruence|]. intros r Hr. rewrite F; [by apply D|].
  intros ->. by destruct Hr.
Qed.

Section loads.
Context (tc : trctx) `{!Qsort (qsort (mctx tc))}.
Local Notation ctx := (mctx tc).
Context (H64 : CODEIS64 ctx = true).
Context (Haddr : ir1_addr_size (pir1 ctx) = 64).
Context (env : site).
Local Notation imm := (option_imm_reg ctx).
Local Notation st := (st (imm := imm) env).
Local Notation seg x := (seg_in (seg_base_off ctx) env x).

Lemma st_alloc x s u h :
  st x s u h x → (size (held_i u) < 7)%nat →
  ∃ r s', does (alloc_temp ctx) s h (gp r) s' h ∧ st x s' (take_reg u r) h x ∧
    r ∈ reg_itemp_map ∧ (r ∉ held_i u) ∧ is_reg r ∧ r ≠ 0.
Proof using All.
  intros S Hs. destruct (st_inv _ _ _ _ _ S) as [T M].
  destruct (alloc_does ctx H64 s u h T Hs) as (r & s' & A & P & N & T' & M' & _ & _).
  exists r, s'. destruct (pool_reg r P). split_and!; try done.
  apply inv_st; [split; [done|intros Hm; apply M'; auto]|apply (st_sim _ _ _ _ _ _ S)|].
  rewrite (does_index _ _ _ _ _ _ _ A). apply (st_index _ _ _ _ _ _ S).
Qed.

Lemma then_ret {A} (m : M unit) (y : A) s h s' h' :
  does m s h tt s' h' → does (_ ← m; mret y) s h y s' h'.
Proof using Type. intros D. eapply does_bind; [exact D|apply does_ret]. Qed.

(** A temporary is taken and set. *)
Lemma into_temp x s u h (m : IR2_OPND → M IR2_OPND) v :
  st x s u h x → (size (held_i u) < 7)%nat →
  (∀ d s, is_reg d → d ≠ 0 → ∃ h', does (m (gp d)) s h (gp d) s h' ∧ sets d v h h') →
  ∃ r s' h', does (r ← alloc_temp ctx; m r) s h (gp r) s' h' ∧ st x s' (take_reg u r) h' x ∧
    quiet 1 u h (take_reg u r) h' ∧ owned u (take_reg u r) r ∧ rget h' r = u64 (v h).
Proof using All.
  intros S Hs Hm. destruct (st_alloc x s u h S Hs) as (r & s1 & A & S1 & P & N & Ir & R0).
  destruct (Hm r s1 Ir R0) as (h1 & D & E). exists r, s1, h1. split_and!.
  - eapply does_bind; [exact A|exact D].
  - eapply st_temp; [done| |done]. simpl. set_solver.
  - eapply quiet_write; [by apply quiet_take|done..].
  - split; [done|]. right. split; [simpl; set_solver|done].
  - apply E.
Qed.

(** Memory operands of 64-bit code; RIP-relative ones without a segment. *)
Definition mem_ok (o : IR1_OPND) (m : dt_x86_op_mem) : Prop :=
  opnd_op o = OP_MEM m ∧ mem_wf m = true ∧ segment_ok ctx o ∧
  (reg_eqb (base m) dt_X86_REG_RIP = true → ir1_opnd_has_seg o = false).

Lemma seg_sim h x o : sim env h x → segment_base ctx h o = seg x o.
Proof using Type.
  intros S. unfold segment_base, seg_in. destruct (ir1_opnd_has_seg o); [|done].
  destruct (ir1_opnd_get_seg_index true o); [|done]. rewrite (sim_env _ _ _ S).
  apply load_le_ext; [|done]. intros a. symmetry. apply (sim_mem _ _ _ S).
Qed.

Lemma x86_gpr_sim h x r : sim env h x → x86_gpr (gpr_val h) r = x86_gpr (xreg x) r.
Proof using Type.
  intros S. unfold x86_gpr. destruct (position r gpr64) as [n|] eqn:E; [|done].
  symmetry. apply (sim_reg _ _ _ S). unfold position in E.
  destruct (list_find _ _) as [[k y]|] eqn:F; [|done]. injection E as <-.
  apply list_find_Some in F as (F & _). apply lookup_lt_Some in F. change (length gpr64) with 16%nat in F. lia.
Qed.

Lemma linear_sim h x o m :
  sim env h x → linear_address ctx h o m = address_in (seg x) (pir1 ctx) x o m.
Proof using Type.
  intros S. unfold linear_address, address_in, effective_address. rewrite (seg_sim h x o S).
  by rewrite !(x86_gpr_sim h x _ S).
Qed.

Lemma imm_reg_pool r : r ∈ reg_itemp_map → ir2_opnd_is_imm_reg true (gp r) = Some (bool_decide (r ∈ imm_regs)).
Proof using Type.
  intros H. assert (E : forallb (λ r, bool_decide (ir2_opnd_is_imm_reg true (gp r) =
    Some (bool_decide (r ∈ imm_regs)))) reg_itemp_map = true) by (vm_compute; reflexivity).
  pose proof (forallb_elem _ _ _ E H) as H1. cbv beta in H1. by apply bool_decide_eq_true in H1.
Qed.

Lemma not_imm_reg o :
  o ∈ reg_itemp_map → ¬ (imm = true ∧ o ∈ imm_regs) → ir2_opnd_is_imm_reg imm (gp o) = Some false.
Proof using Type.
  intros P N. destruct imm; [|done]. rewrite imm_reg_pool, bool_decide_false by (done || naive_solver). done.
Qed.

(** [free_mem_opnd] gives back the temporary of an address, if it is an ordinary one. *)
Lemma free_mem_does x0 s u u1 h x o :
  st x0 s u1 h x → is_reg o →
  (u1 = u ∧ ((o ∉ reg_itemp_map) ∨ (imm = true ∧ o ∈ imm_regs ∧ (o ∉ held_i u)))) ∨
  (u1 = take_reg u o ∧ o ∈ reg_itemp_map ∧ (o ∉ held_i u)) →
  ∃ s' u', does (free_mem_opnd tc (gp o)) s h tt s' h ∧ st x0 s' u' h x ∧
    held_i u ⊆ held_i u' ∧ held_i u' ⊆ held_i u1.
Proof using All.
  intros S Io Hu. unfold free_mem_opnd.
  assert (K : ∀ b, ir2_opnd_is_itemp (gp o) = Some b → (b = true → ir2_opnd_is_imm_reg imm (gp o) = Some true) →
    held_i u ⊆ held_i u1 → ∃ s' u', does (i ← lift (ir2_opnd_is_itemp (gp o));
      if (i : bool) then c ← lift (ir2_opnd_is_imm_reg imm (gp o));
        if (c : bool) then mret tt else free_temp (gp o) else mret tt) s h tt s' h ∧ st x0 s' u' h x ∧
    held_i u ⊆ held_i u' ∧ held_i u' ⊆ held_i u1).
  { intros b Eb Hb Hs. exists s, u1. split_and!; try done. eapply does_bind; [by apply does_lift|].
    destruct b; [|apply does_ret]. eapply does_bind; [apply does_lift; by apply Hb|apply does_ret]. }
  destruct Hu as [[-> [N|(Hm & P & N)]]|(-> & P & N)].
  - apply (K false); [by rewrite is_itemp_gp, bool_decide_false|done|done].
  - pose proof (imm_reg_temp o P). apply (K true); [by rewrite is_itemp_gp, bool_decide_true| |done].
    intros _. by rewrite Hm, imm_reg_pool, bool_decide_true.
  - destruct (decide (imm = true ∧ o ∈ imm_regs)) as [[Hm Pi]|Pi].
    + apply (K true); [by rewrite is_itemp_gp, bool_decide_true| |simpl; set_solver].
      intros _. by rewrite Hm, imm_reg_pool, bool_decide_true.
    + destruct (st_free env x0 s _ h x o S) as (s' & D & S'); [simpl; set_solver|].
      exists s', (drop_reg (take_reg u o) o). split_and!; [|done|simpl; set_solver|simpl; set_solver].
      eapply does_bind; [apply does_lift; by rewrite is_itemp_gp, bool_decide_true|]. cbv iota.
      eapply does_bind; [apply does_lift, (not_imm_reg o P Pi)|]. exact D.
Qed.

(** The address of a memory operand is in [o], less [off]; [free] gives [o] back. *)
Lemma address_does x s u h opnd m :
  st x s u h x → mem_ok opnd m → (size (held_i u) <= 2)%nat →
  ∃ o off s1 u1 h1, does (convert_mem ctx opnd) s h (gp o, off) s1 h1 ∧ st x s1 u1 h1 x ∧
    quiet 1 u h u1 h1 ∧ is_reg o ∧ (o ∉ held_i u) ∧ in_s 12 off ∧
    u64 (rget h1 o + off) = u64 (address_in (seg x) (pir1 ctx) x opnd m) ∧
    (∀ x0 s2 h2 x2, st x0 s2 u1 h2 x2 → ∃ s3 u3, does (free_mem_opnd tc (gp o)) s2 h2 tt s3 h2 ∧
       st x0 s3 u3 h2 x2 ∧ held_i u ⊆ held_i u3 ∧ held_i u3 ⊆ held_i u1).
Proof using All.
  intros S (E & W & Sg & Rs) Hs.
  destruct (helper_ok ctx H64 Haddr opnd s u h m true E W (or_introl eq_refl)
    (st_inv _ _ _ _ _ S) Hs Sg Rs) as (o & off & s1 & u1 & h1 & D & Io & _ & [I R V K F U]).
  pose proof (st_sim _ _ _ _ _ _ S) as Sm.
  assert (Sm1 : sim env h1 x) by (eapply sim_sys; [done|done|]; intros; apply F; by left).
  exists o, off, s1, u1, h1. split_and!; try done.
  - apply inv_st; [done..|]. rewrite (does_index _ _ _ _ _ _ _ D). apply (st_index _ _ _ _ _ _ S).
  - destruct U as [[-> _]|(-> & _ & N)].
    + split; [done|lia|done|done].
    + destruct (quiet_take u o h N) as [A B _ _]. by split.
  - destruct U as [[_ [N|(_ & _ & N)]]|(_ & _ & N)]; [|done|done].
    intros Ho. by apply N, (held_temp s u o (st_temps _ _ _ _ _ _ S)).
  - by rewrite V, (linear_sim h x).
  - intros x0 s2 h2 x2 S2. by apply (free_mem_does x0 s2 u u1).
Qed.

(** ** Loads *)

Lemma not_dead i : in_s 12 i → is_dead i = false.
Proof using Type.
  unfold in_s. intros H.
  assert (E : forallb (λ k, negb (is_dead (k - 2048))) (zrange 0 4096) = true) by (vm_compute; reflexivity).
  pose proof (forallb_range _ 0 4096 (i + 2048) E ltac:(lia)) as H1. cbv beta in H1. clear E.
  replace (i + 2048 - 2048) with i in H1 by lia. by apply negb_true_iff.
Qed.

Lemma load_suffix_ok bytes em :
  bytes ∈ [1; 2; 4; 8] → ∃ x n ext, load_suffix (bytes << 3) em = Some x ∧ (x, n, ext) ∈ load_ops ∧
    n = Z.to_nat bytes ∧ ∀ V, in_u (bytes << 3) V → extends em (bytes << 3) V (u64 (ext V)).
Proof using Type.
  assert (U : ∀ w V, 0 <= w <= 64 → in_u w V → u64 V = V).
  { intros w V Hw [? ?]. apply uwrap_id. split; [done|]. pose proof (Z.pow_le_mono_r 2 w 64). lia. }
  assert (Z0 : ∀ em w V, em ≠ SIGN_EXTENSION → 0 <= w <= 64 → in_u w V → extends em w V (u64 V)).
  { intros em' w V He Hw HV. rewrite (U w) by done. destruct em'; [reflexivity|done|]. symmetry. by apply uwrap_id. }
  assert (Zs : ∀ em w V, em ≠ ZERO_EXTENSION → 0 < w <= 64 → extends em w V (u64 (swrap w V))).
  { intros em' w V He Hw. destruct em'; [|done|done]. simpl. rewrite eqw_u64 by lia. apply eqw_swrap; lia. }
  assert (Zd : ∀ em V, in_u 64 V → extends em 64 V (u64 V)).
  { intros em' V HV. destruct em'; [by apply Z0| |by apply Z0]. simpl. symmetry. by apply (eqw_swrap 64 64). }
  intros H. repeat (apply elem_of_cons in H as [->|H]); [..|by apply elem_of_nil in H]; destruct em;
    (eexists _, _, _; split; [reflexivity|]; split; [member|]; split; [reflexivity|]; intros V HV);
    first [by apply Zd|by apply Zs|by apply Z0].
Qed.

(** Everything but [d] is left alone, as by [quiet]. *)
Definition quiet_but (d : Z) (n : nat) (u : in_use) (h : host) (u' : in_use) (h' : host) : Prop :=
  held_i u ⊆ held_i u' ∧ (size (held_i u') <= size (held_i u) + n)%nat ∧ hsys h' = hsys h ∧
  ∀ r, r ≠ d → r ∉ reg_itemp_map ∨ r ∈ held_i u → rget h' r = rget h r.

Definition mem_value (x : x86) (o : IR1_OPND) (m : dt_x86_op_mem) : Z :=
  load_le (xmem x) (address_in (seg x) (pir1 ctx) x o m) (Z.to_nat (opnd_bytes o)).

Lemma load_mem_does x s u h d f o m em :
  st x s u h x → mem_ok o m → opnd_bytes o ∈ [1; 2; 4; 8] → (size (held_i u) <= 2)%nat → target u d f →
  ∃ R s' u' h', does (load_ireg_from_ir1_mem tc (gp d) o em false) s h tt s' h' ∧ st x s' u' h' (f x R) ∧
    quiet_but d 1 u h u' h' ∧ rget h' d = u64 R ∧ extends em (ir1_opnd_size o) (mem_value x o m) (u64 R).
Proof using All.
  intros S Hm Hb Hs Ht. destruct (target_reg s u d f (st_temps _ _ _ _ _ _ S) Ht) as [Id D0].
  destruct (address_does x s u h o m S Hm Hs) as (q & off & s1 & u1 & h1 & D1 & S1 & Q1 & Iq & Nq & Io & V & Fr).
  destruct (load_suffix_ok (opnd_bytes o) em Hb) as (sx & n & ext & E1 & E2 & -> & E3).
  destruct (load_does s1 h1 sx _ ext d q off E2 Io Id D0 Iq) as (h2 & D2 & W).
  pose proof (st_target _ _ _ _ _ _ d f _ _ S1 (target_mono _ _ _ _ (q_held _ _ _ _ _ Q1) Ht) W) as S2.
  destruct (Fr x s1 h2 _ S2) as (s3 & u3 & D3 & S3 & H1 & H2). cbv beta in S3.
  assert (Ev : load_le (hmem h1) (rget h1 q + off) (Z.to_nat (opnd_bytes o)) = mem_value x o m).
  { apply load_le_ext; [|done]. intros a. symmetry. apply (sim_mem _ _ _ (st_sim _ _ _ _ _ _ S1)). }
  rewrite Ev in S3. destruct W as (W1 & W2 & W3). cbv beta in W1. rewrite Ev in W1.
  eexists _, s3, u3, h2. unfold quiet_but. split_and!; [|exact S3|done| | | |done|].
  - unfold load_ireg_from_ir1_mem. eapply does_bind; [by apply does_check|].
    eapply does_bind; [apply does_check; unfold ir1_opnd_is_mem; by rewrite (proj1 Hm)|].
    eapply does_bind; [exact D1|]. cbv beta iota. eapply does_bind; [apply does_ret|]. cbv beta iota.
    eapply does_bind; [by apply does_lift|]. rewrite not_dead by done. eapply does_bind; [exact D2|exact D3].
  - pose proof (q_size _ _ _ _ _ Q1). apply subseteq_size in H2. lia.
  - rewrite W3. apply (q_sys _ _ _ _ _ Q1).
  - intros r Hr Hk. rewrite W2 by done. by apply (q_regs _ _ _ _ _ Q1).
  - apply E3. replace (opnd_bytes o << 3) with (8 * Z.of_nat (Z.to_nat (opnd_bytes o))); [apply load_le_range|].
    rewrite Z.shiftl_mul_pow2 by lia. assert (0 <= opnd_bytes o); [|lia].
    rewrite !elem_of_cons, elem_of_nil in Hb. lia.
Qed.

(** What a load of an operand gives: the register [r] holds the value [V]. *)
Definition loaded (x : x86) (n : nat) (em : EXTENSION_MODE) (w V : Z) (s : temps) (u : in_use) (h : host)
    (m : M IR2_OPND) : Prop :=
  ∃ r s' u' h', does m s h (gp r) s' h' ∧ st x s' u' h' x ∧ quiet n u h u' h' ∧ owned u u' r ∧
    extends em w V (rget h' r).

Lemma loaded_temp x em w V s u h m v :
  st x s u h x → (size (held_i u) < 7)%nat → extends em w V (u64 (v h)) →
  (∀ d s, is_reg d → d ≠ 0 → ∃ h', does (m (gp d)) s h (gp d) s h' ∧ sets d v h h') →
  loaded x 1 em w V s u h (r ← alloc_temp ctx; m r).
Proof using All.
  intros S Hs E Hm. destruct (into_temp x s u h m v S Hs Hm) as (r & s' & h' & D & S' & Q & O & V').
  exists r, s', (take_reg u r), h'. split_and!; try done. by rewrite V'.
Qed.

Lemma loaded_here x n em w V s u h r :
  st x s u h x → is_reg r → (r ∉ reg_itemp_map) → extends em w V (rget h r) →
  loaded x n em w V s u h (mret (gp r)).
Proof using Type.
  intros S I N E. exists r, s, u, h. split_and!; [apply does_ret|done|apply quiet_refl|split; auto|done].
Qed.

Lemma loaded_bind {A} (m : M A) (k : A → M IR2_OPND) y x n em w V s u h :
  does m s h y s h → loaded x n em w V s u h (k y) → loaded x n em w V s u h (m ≫= k).
Proof using Type.
  intros D (r & s' & u' & h' & D' & R). exists r, s', u', h'. split; [|done]. by eapply does_bind.
Qed.

Lemma loaded_one (m : IR2_OPND → M unit) v x em w V s u h :
  st x s u h x → (size (held_i u) < 7)%nat → extends em w V (u64 (v h)) →
  (∀ d s, is_reg d → d ≠ 0 → ∃ h', does (m (gp d)) s h tt s h' ∧ sets d v h h') →
  loaded x 1 em w V s u h (r ← alloc_temp ctx; _ ← m r; mret r).
Proof using All.
  intros S Hs E H. eapply loaded_temp; [done..|]. intros d s1 Id D0. destruct (H d s1 Id D0) as (h' & D & W).
  exists h'. split; [by apply then_ret|done].
Qed.

Lemma high_sign h q d s :
  is_reg q → is_reg d → d ≠ 0 →
  ∃ h1 h', does (r2i "srli.w" (gp d) (gp q) 8) s h tt s h1 ∧ does (r2 "ext.w.b" (gp d) (gp d)) s h1 tt s h' ∧
    sets d (λ h, s8 (rget h q >> 8)) h h'.
Proof using Type.
  intros Iq Id D0. destruct (shift_does s h "srli.w" _ d q 8 _) as (h1 & D1 & E1); try done.
  destruct (r2_does s h1 "ext.w.b" _ d d _) as (h2 & D2 & E2); try done.
  exists h1, h2. split; [done|]. split; [done|]. eapply sets_eq; [by eapply sets_sets|]. cbv beta.
  rewrite (proj1 E1). f_equal. apply swrap_eqw; [lia|]. apply eqw_bits; [lia|]. intros i Hi.
  assert (B := proj1 (eqw_bits 8 (u64 (s32 (u32 (rget h q) >> 8))) (u32 (rget h q) >> 8) ltac:(lia))).
  rewrite B by (done || rewrite eqw_u64 by lia; apply eqw_swrap; lia).
  rewrite !Z.shiftr_spec by lia. unfold u32. rewrite testbit_uwrap by lia. 
  destruct (Z.ltb_spec (i + 8) 32); [done|lia].
Qed.

Lemma read_part_sim h x p q :
  sim env h x → gpr_at (p_num p) q → read_part x p = uwrap (p_width p) (rget h q >> p_lsb p).
Proof using Type.
  intros S Hq. unfold read_part. rewrite (sim_reg _ _ _ S) by apply Hq. by rewrite (gpr_at_val _ q).
Qed.

Lemma part_below w lsb X : 0 < w → 0 <= lsb → bits_of X (lsb + w - 1) lsb = uwrap w (X >> lsb).
Proof using Type. intros. unfold bits_of. f_equal. lia. Qed.

Lemma convert_gpr_ok x s u h o p q em :
  st x s u h x → reg_opnd o p q → (size (held_i u) < 7)%nat →
  loaded x 1 em (p_width p) (read_part x p) s u h (convert_gpr_opnd tc o em).
Proof using All.
  intros S R Hs. destruct (gpr_at_facts _ _ (ro_at _ _ _ R)) as (Iq & _ & _ & Nq).
  rewrite (read_part_sim h x p q (st_sim _ _ _ _ _ _ S) (ro_at _ _ _ R)). unfold convert_gpr_opnd.
  eapply loaded_bind; [apply does_check, (ro_gpr _ _ _ R)|]. rewrite (ro_num _ _ _ R), (ro_size _ _ _ R).
  eapply loaded_bind; [apply does_lift, (ro_alloc _ _ _ R)|]. rewrite (ro_8h _ _ _ R).
  destruct (reg_shape _ _ _ R) as [[-> ->]|[[-> ->]|[[-> ->]|[[-> ->]|[-> ->]]]]]; cbn [Z.eqb Pos.eqb].
  - apply loaded_here; try done. apply full_part, rget_range.
  - destruct em; [apply loaded_here; try done; by apply same_part|..].
    + eapply (loaded_one (λ d, m_mov32_sx d (gp q))); [done..| |intros; by apply mov_sx_does].
      apply (sign_part 32 0); [lia|]. by rewrite Z.shiftr_0_r.
    + eapply (loaded_one (λ d, m_mov32_zx d (gp q))); [done..| |intros; by apply mov_zx_does].
      apply (zero_part 32 0); [lia|done|by rewrite Z.shiftr_0_r].
  - destruct em; [apply loaded_here; try done; by apply same_part|..].
    + eapply (loaded_one (λ d, r2 "ext.w.h" d (gp q))); [done..| |intros; by eapply (r2_does _ _ "ext.w.h" _ _ _ _)].
      apply (sign_part 16 0); [lia|]. by rewrite Z.shiftr_0_r.
    + eapply (loaded_one (λ d, bstr "bstrpick.d" d (gp q) 15 0)); [done..| |intros; by apply pick_does].
      apply (zero_part 16 0); [lia|done|done].
  - destruct em; cbn iota.
    1, 3: eapply (loaded_one (λ d, bstr "bstrpick.d" d (gp q) 15 8)); [done..| |intros; by apply pick_does];
      by apply (zero_part 8 8).
    eapply (loaded_temp _ _ _ _ _ _ _ (λ r, (_ ← r2i "srli.w" r (gp q) 8; _ ← r2 "ext.w.b" r r; mret r))
      (λ h, s8 (rget h q >> 8)));
      [done..|apply (sign_part 8 8 (rget h q)); [lia|done]|].
    intros d s1 Id D0. destruct (high_sign h q d s1 Iq Id D0) as (h1 & h' & D1 & D2 & E). exists h'.
    split; [|exact E]. eapply does_bind; [exact D1|by apply then_ret].
  - destruct em; [apply loaded_here; try done; by apply same_part|..].
    + eapply (loaded_one (λ d, r2 "ext.w.b" d (gp q))); [done..| |intros; by eapply (r2_does _ _ "ext.w.b" _ _ _ _)].
      apply (sign_part 8 0); [lia|]. by rewrite Z.shiftr_0_r.
    + eapply (loaded_one (λ d, r2i "andi" d (gp q) 0xff)); [done..| |intros; by eapply (ui_does _ _ "andi" _ _ _ 0xff _)].
      apply (zero_part 8 0); [lia|done|]. rewrite Z.shiftr_0_r. change 0xff with (Z.ones 8). by apply Z.land_ones.
Qed.

Lemma imm_values o v :
  opnd_op o = OP_IMM v → opnd_bytes o ∈ [1; 2; 4; 8] →
  ir1_opnd_simm o = Some (swrap (ir1_opnd_size o) v) ∧ ir1_opnd_uimm o = Some (uwrap (ir1_opnd_size o) v) ∧
  ir1_opnd_s2uimm o = Some (u64 (swrap (ir1_opnd_size o) v)) ∧
  8 <= ir1_opnd_size o <= 64.
Proof using Type.
  destruct o as [op n]. simpl. intros ->. unfold ir1_opnd_simm, ir1_opnd_uimm, ir1_opnd_s2uimm, ir1_opnd_size. simpl.
  intros H. repeat (apply elem_of_cons in H as [->|H]); [..|by apply elem_of_nil in H];
    (split; [done|]; split; [done|]; split; [|vm_compute; split; congruence]); try done.
  simpl. f_equal. symmetry. by apply (eqw_swrap 64 64).
Qed.

Lemma imm_loaded em w v :
  0 < w <= 64 → extends em w (uwrap w v) (u64 (if em_eqb em ZERO_EXTENSION then uwrap w v else swrap w v)).
Proof using Type.
  intros Hw. pose proof (eqw_uwrap w w v ltac:(lia)) as E. destruct em; simpl.
  - rewrite eqw_u64, E by lia. apply eqw_swrap; lia.
  - f_equal. apply swrap_eqw; [lia|done].
  - rewrite E. unfold u64. apply uwrap_id. pose proof (uwrap_range w v ltac:(lia)) as [? ?].
    split; [done|]. pose proof (Z.pow_le_mono_r 2 w 64). lia.
Qed.

(** An immediate is put into a register. *)
Lemma load_imm_does o v em d s h :
  opnd_op o = OP_IMM v → opnd_bytes o ∈ [1; 2; 4; 8] → is_reg d → d ≠ 0 →
  ∃ h', does (load_ireg_from_ir1_imm (gp d) o em) s h tt s h' ∧
    sets d (λ _, if em_eqb em ZERO_EXTENSION then uwrap (ir1_opnd_size o) v else swrap (ir1_opnd_size o) v) h h'.
Proof using Type.
  intros E Hb Id D0. destruct (imm_values o v E Hb) as (Es & Eu & _ & Hw). unfold load_ireg_from_ir1_imm.
  destruct (does_emits _ s _ _ _ h (li_d_ok d Id D0 (swrap (ir1_opnd_size o) v) s)) as (h1 & D1 & W1).
  destruct (does_emits _ s _ _ _ h (li_d_ok d Id D0 (uwrap (ir1_opnd_size o) v) s)) as (h2 & D2 & W2).
  destruct em; [exists h1|exists h1|exists h2]; (split; [|done]);
    (eapply does_bind; [by apply does_check|]; eapply does_bind; [apply does_check; unfold ir1_opnd_is_imm; by rewrite E|];
     eapply does_bind; [by apply does_lift|done]).
Qed.

(** ** Every operand *)

Definition opnd_ok (o : IR1_OPND) : Prop :=
  opnd_wf o = true ∧
  match opnd_op o with OP_MEM m => mem_ok o m | _ => True end.

(** How many temporaries a load may leave in use, and how many may be in use before. *)
Definition grow (o : IR1_OPND) : nat := if ir1_opnd_is_mem o then 2 else 1.
Definition room (o : IR1_OPND) : nat := if ir1_opnd_is_mem o then 1 else 6.

Lemma load_mem_loaded x s u h o m em :
  st x s u h x → mem_ok o m → opnd_bytes o ∈ [1; 2; 4; 8] → (size (held_i u) <= 1)%nat →
  loaded x 2 em (ir1_opnd_size o) (mem_value x o m) s u h
    (r ← alloc_temp ctx; _ ← load_ireg_from_ir1_mem tc r o em false; mret r).
Proof using All.
  intros S Hm Hb Hs. destruct (st_alloc x s u h S) as (r & s1 & A & S1 & P & N & Ir & R0); [lia|].
  pose proof (quiet_take u r h N) as Q.
  destruct (load_mem_does x s1 (take_reg u r) h r (λ x _, x) o m em S1 Hm Hb) as
    (R & s2 & u2 & h2 & D & S2 & (Q1 & Q2 & Q3 & Q4) & V & E).
  { pose proof (q_size _ _ _ _ _ Q). lia. }
  { left. split; [simpl; set_solver|done]. }
  exists r, s2, u2, h2. split_and!; [|done| | |by rewrite V].
  - eapply does_bind; [exact A|by apply then_ret].
  - pose proof (q_size _ _ _ _ _ Q). split; [by etrans; [apply (q_held _ _ _ _ _ Q)|]|lia|done|].
    intros k Hk. apply Q4; [intros ->; by destruct Hk|]. destruct Hk; [by left|right; simpl; set_solver].
  - split; [done|]. right. split; [apply Q1; simpl; set_solver|done].
Qed.

Lemma size_bytes o : opnd_bytes o ∈ [1; 2; 4; 8] → 8 <= ir1_opnd_size o <= 64.
Proof using Type.
  unfold ir1_opnd_size. intros H. rewrite !elem_of_cons, elem_of_nil in H.
  destruct H as [->|[->|[->|[->|[]]]]]; vm_compute; split; congruence.
Qed.

Lemma mem_opnd_wf o m : opnd_op o = OP_MEM m → opnd_wf o = true → opnd_bytes o ∈ [1; 2; 4; 8].
Proof using Type.
  unfold opnd_wf. intros ->. intros [_ H]%andb_true_iff. by apply bool_decide_eq_true in H.
Qed.

Lemma imm_opnd_wf o v : opnd_op o = OP_IMM v → opnd_wf o = true → opnd_bytes o ∈ [1; 2; 4; 8].
Proof using Type. unfold opnd_wf. intros ->. intros H. by apply bool_decide_eq_true in H. Qed.

Lemma load_ok x s u h o em V :
  st x s u h x → opnd_ok o → (size (held_i u) <= room o)%nat → read_opnd (seg x) (pir1 ctx) x o = Some V →
  loaded x (grow o) em (ir1_opnd_size o) V s u h (load_ireg_from_ir1 tc o em false).
Proof using All.
  unfold opnd_ok, room, grow, ir1_opnd_is_mem. intros S [W Hm] Hs E. unfold load_ireg_from_ir1.
  destruct (opnd_op o) as [|r|v|m] eqn:Eo; [by unfold read_opnd in E; rewrite Eo in E|..].
  - destruct (reg_opnd_wf o r Eo W) as (p & q & R). rewrite (ro_read _ _ _ R) in E. injection E as <-.
    rewrite (ro_gpr _ _ _ R), (ro_size _ _ _ R). apply (convert_gpr_ok x s u h o p q); [done|done|lia].
  - pose proof (imm_opnd_wf o v Eo W) as Hb. destruct (imm_values o v Eo Hb) as (Es & _ & _ & Hw).
    unfold read_opnd in E. rewrite Eo in E. injection E as <-.
    eapply loaded_bind; [by apply does_lift|]. destruct (Z.eqb_spec (swrap (ir1_opnd_size o) v) 0) as [Z0|Z0].
    + apply loaded_here; [done|unfold is_reg; lia|apply source_zero|]. rewrite rget_0.
      pose proof (imm_loaded SIGN_EXTENSION (ir1_opnd_size o) v ltac:(lia)) as L. simpl in L.
      assert (V0 : uwrap (ir1_opnd_size o) v = 0).
      { rewrite <- (eqw_swrap (ir1_opnd_size o) (ir1_opnd_size o) v ltac:(lia) ltac:(lia)). by rewrite Z0. }
      rewrite V0. destruct em; [done|..].
      * simpl. rewrite swrap_id; [done|lia|]. pose proof (Z.pow_pos_nonneg 2 (ir1_opnd_size o - 1)). unfold in_s. lia.
      * simpl. symmetry. apply Z.mod_0_l. pose proof (Z.pow_pos_nonneg 2 (ir1_opnd_size o)). lia.
    + eapply (loaded_one (λ r, load_ireg_from_ir1_imm r o em)); [done|lia| |intros; by apply load_imm_does].
      cbv beta. apply imm_loaded. lia.
  - unfold read_opnd in E. rewrite Eo in E. injection E as <-. eapply load_mem_loaded; try done.
    by eapply mem_opnd_wf.
Qed.

(** Into a given register. *)
Definition loads_into (x : x86) (d : Z) (f : x86 → Z → x86) (em : EXTENSION_MODE) (w V : Z)
    (s : temps) (u : in_use) (h : host) (m : M unit) : Prop :=
  ∃ R s' u' h', does m s h tt s' h' ∧ st x s' u' h' (f x R) ∧ quiet_but d 1 u h u' h' ∧
    rget h' d = u64 R ∧ extends em w V (u64 R).

Lemma into_one x d f em w V s u h m v :
  st x s u h x → target u d f → extends em w V (u64 (v h)) →
  (∃ h', does m s h tt s h' ∧ sets d v h h') → loads_into x d f em w V s u h m.
Proof using Type.
  intros S Ht E (h' & D & W). exists (v h), s, u, h'. split_and!; try done.
  - by eapply st_target.
  - destruct W as (_ & F & K). split; [done|]. split; [lia|]. split; [done|]. intros r Hr _. by apply F.
  - apply W.
Qed.

Lemma into_bind {A} (m : M A) (k : A → M unit) y x d f em w V s u h :
  does m s h y s h → loads_into x d f em w V s u h (k y) → loads_into x d f em w V s u h (m ≫= k).
Proof using Type.
  intros D (R & s' & u' & h' & D' & H). exists R, s', u', h'. split; [by eapply does_bind|done].
Qed.

Lemma load_gpr_into x s u h d f o p q em :
  st x s u h x → target u d f → reg_opnd o p q →
  loads_into x d f em (p_width p) (read_part x p) s u h (load_ireg_from_ir1_gpr (gp d) o em).
Proof using Type.
  intros S Ht R. destruct (target_reg s u d f (st_temps _ _ _ _ _ _ S) Ht) as [Id D0].
  destruct (gpr_at_facts _ _ (ro_at _ _ _ R)) as (Iq & _ & _ & Nq).
  rewrite (read_part_sim h x p q (st_sim _ _ _ _ _ _ S) (ro_at _ _ _ R)). unfold load_ireg_from_ir1_gpr.
  eapply into_bind; [by apply does_check|]. eapply into_bind; [apply does_check, (ro_gpr _ _ _ R)|].
  rewrite (ro_num _ _ _ R). eapply into_bind; [apply does_lift, (ro_alloc _ _ _ R)|].
  rewrite (ro_size _ _ _ R), (ro_8h _ _ _ R).
  destruct (reg_shape _ _ _ R) as [[-> ->]|[[-> ->]|[[-> ->]|[[-> ->]|[-> ->]]]]]; cbn [Z.eqb Pos.eqb].
  - eapply into_one; [done..| |by apply mov64_does]. cbv beta. rewrite rget_u64. apply full_part, rget_range.
  - destruct em.
    + eapply into_one; [done..| |by apply mov64_does]. cbv beta. rewrite rget_u64. by apply same_part.
    + eapply into_one; [done..| |by apply mov_sx_does]. apply (sign_part 32 0); [lia|]. by rewrite Z.shiftr_0_r.
    + eapply into_one; [done..| |by apply mov_zx_does]. apply (zero_part 32 0); [lia|done|by rewrite Z.shiftr_0_r].
  - destruct em; cbn [em_eqb]; [eapply into_one; [done..| |by apply pick_does]; by apply (zero_part 16 0)| |
      eapply into_one; [done..| |by apply pick_does]; by apply (zero_part 16 0)].
    eapply into_one; [done..| |by apply (r2_does _ _ "ext.w.h" _ _ _ _)].
    apply (sign_part 16 0); [lia|]. by rewrite Z.shiftr_0_r.
  - destruct em; cbn [em_eqb]; [eapply into_one; [done..| |by apply pick_does]; by apply (zero_part 8 8)| |
      eapply into_one; [done..| |by apply pick_does]; by apply (zero_part 8 8)].
    destruct (high_sign h q d s Iq Id D0) as (h1 & h' & D1 & D2 & E).
    eapply (into_one _ _ _ _ _ _ _ _ _ _ (λ h, s8 (rget h q >> 8))); [done..|apply (sign_part 8 8); [lia|done]|].
    exists h'. split; [|done]. eapply does_bind; [exact D1|exact D2].
  - assert (Z0 : em ≠ SIGN_EXTENSION → extends em 8 (uwrap 8 (rget h q >> 0)) (u64 (Z.land (rget h q) 0xff))).
    { intros He. apply (zero_part 8 0); [lia|done|]. rewrite Z.shiftr_0_r. change 0xff with (Z.ones 8). by apply Z.land_ones. }
    destruct em; cbn [em_eqb]; [eapply into_one; [done..| |by apply (ui_does _ _ "andi" _ _ _ 0xff _)]; by apply Z0| |
      eapply into_one; [done..| |by apply (ui_does _ _ "andi" _ _ _ 0xff _)]; by apply Z0].
    eapply into_one; [done..| |by apply (r2_does _ _ "ext.w.b" _ _ _ _)].
    apply (sign_part 8 0); [lia|]. by rewrite Z.shiftr_0_r.
Qed.

Lemma load_into_ok x s u h d f o em V :
  st x s u h x → target u d f → opnd_ok o → (size (held_i u) <= 2)%nat →
  read_opnd (seg x) (pir1 ctx) x o = Some V →
  loads_into x d f em (ir1_opnd_size o) V s u h (load_ireg_from_ir1_2 tc (gp d) o em false).
Proof using All.
  intros S Ht [W Hm] Hs E. destruct (target_reg s u d f (st_temps _ _ _ _ _ _ S) Ht) as [Id D0].
  unfold load_ireg_from_ir1_2. eapply into_bind; [by apply does_check|]. destruct (opnd_op o) as [|r|v|m] eqn:Eo; [by unfold read_opnd in E; rewrite Eo in E|..].
  - destruct (reg_opnd_wf o r Eo W) as (p & q & R). rewrite (ro_read _ _ _ R) in E. injection E as <-.
    rewrite (ro_gpr _ _ _ R), (ro_size _ _ _ R). by apply (load_gpr_into x s u h d f o p q).
  - pose proof (imm_opnd_wf o v Eo W) as Hb. unfold read_opnd in E. rewrite Eo in E. injection E as <-.
    eapply into_one; [done|done| |by apply load_imm_does]. cbv beta. apply imm_loaded.
    pose proof (size_bytes o Hb). lia.
  - unfold read_opnd in E. rewrite Eo in E. injection E as <-. apply load_mem_does; try done.
    by eapply mem_opnd_wf.
Qed.

Lemma ex_bind {A B} (m : M A) (f : A → M B) s h y s1 h1 z s2 (P : host → Prop) :
  does m s h y s1 h1 → (∃ h2, does (f y) s1 h1 z s2 h2 ∧ P h2) → ∃ h2, does (m ≫= f) s h z s2 h2 ∧ P h2.
Proof using Type. intros D (h2 & D2 & H). exists h2. split; [by eapply does_bind|done]. Qed.

(** ** Stores *)

Lemma write_part_wide x p v :
  (p_width p = 64 → write_part x p v = set_xreg x (p_num p) v) ∧
  (p_width p = 32 → write_part x p v = set_xreg x (p_num p) (u32 v)) ∧
  (p_width p = 16 ∨ p_width p = 8 → write_part x p v =
     set_xreg x (p_num p) (insert_bits (xreg x (p_num p)) v (p_lsb p + p_width p - 1) (p_lsb p))).
Proof using Type.
  unfold write_part. split_and!; [intros ->; done|intros ->; done|intros [-> | ->]; done].
Qed.

(** Putting [V] where it already is changes nothing. *)
Lemma insert_same X V msb : 0 <= msb → V ≡[msb + 1] X → u64 (insert_bits X V msb 0) = u64 X.
Proof using Type.
  intros Hm E. apply u64_bits. intros i Hi. rewrite testbit_insert by lia.
  destruct (_ && _) eqn:B; [|done]. bool_to_prop. rewrite Z.sub_0_r.
  apply (proj1 (eqw_bits (msb + 1) V X ltac:(lia)) E). lia.
Qed.

(** A bit field of a register is written. *)
Lemma st_insert x0 s u h x p q v V h' msb lsb :
  st x0 s u h x → gpr_at (p_num p) q → 0 <= lsb <= msb → rget h v ≡[msb - lsb + 1] V →
  sets q (λ h, insert_bits (rget h q) (rget h v) msb lsb) h h' →
  st x0 s u h' (set_xreg x (p_num p) (insert_bits (xreg x (p_num p)) V msb lsb)).
Proof using Type.
  intros S Hq Hl E W. eapply st_eq; [by apply (st_gpr _ _ _ _ _ _ _ _ _ _ S Hq W)|].
  cbv beta. apply insert_eqw; [done| |done].
  rewrite (sim_reg _ _ _ (st_sim _ _ _ _ _ _ S)) by apply Hq. by rewrite (gpr_at_val _ q).
Qed.

Lemma store_gpr_does x0 s u h x o p q v V :
  st x0 s u h x → reg_opnd o p q → is_reg v → rget h v ≡[p_width p] V →
  ∃ h', does (store_ireg_to_ir1_gpr (gp v) o) s h tt s h' ∧ st x0 s u h' (write_part x p V) ∧
    hsys h' = hsys h ∧ ∀ r, r ≠ q → rget h' r = rget h r.
Proof using Type.
  intros S R Iv E. pose proof (ro_at _ _ _ R) as Hq. destruct (gpr_at_facts _ _ Hq) as (Iq & Q0 & _ & _).
  assert (K : ∀ m f, (∃ h', does m s h tt s h' ∧ sets q f h h') →
    (∀ h', sets q f h h' → st x0 s u h' (write_part x p V)) →
    ∃ h', does m s h tt s h' ∧ st x0 s u h' (write_part x p V) ∧ hsys h' = hsys h ∧
      ∀ r, r ≠ q → rget h' r = rget h r).
  { intros m f (h' & D & W) H. exists h'. split; [done|]. split; [by apply H|]. by destruct W as (_ & ? & ?). }
  assert (Ks : ∀ X, v = q → write_part x p V = set_xreg x (p_num p) X → u64 (rget h q) = u64 X →
    ∃ h', does (mret tt) s h tt s h' ∧ st x0 s u h' (write_part x p V) ∧ hsys h' = hsys h ∧
      ∀ r, r ≠ q → rget h' r = rget h r).
  { intros X -> -> H. exists h. split; [apply does_ret|]. split; [by eapply st_same|done]. }
  assert (Xq : xreg x (p_num p) = rget h q).
  { rewrite (sim_reg _ _ _ (st_sim _ _ _ _ _ _ S)) by apply Hq. by apply gpr_at_val. }
  destruct (write_part_wide x p V) as (W64 & W32 & Wn). unfold store_ireg_to_ir1_gpr.
  eapply ex_bind; [by apply does_check|]. eapply ex_bind; [apply does_check; by rewrite (ro_gpr _ _ _ R)|].
  eapply ex_bind; [apply does_lift; rewrite (ro_num _ _ _ R); apply (ro_alloc _ _ _ R)|].
  rewrite (ro_size _ _ _ R), (ro_8h _ _ _ R). unfold ir2_opnd_base_reg_num. rewrite !reg_num_gp by done.
  destruct (reg_shape _ _ _ R) as [[Ew El]|[[Ew El]|[[Ew El]|[[Ew El]|[Ew El]]]]]; rewrite Ew, El in *;
    cbn [Z.eqb Pos.eqb].
  - unfold ir2_opnd_cmp. simpl. destruct (Z.eqb_spec v q) as [Eq|Nq]; simpl.
    + apply (Ks V Eq); [by apply W64|]. by rewrite <- Eq.
    + eapply K; [by apply mov64_does|]. intros h' W. rewrite W64 by done.
      eapply st_eq; [by apply (st_gpr _ _ _ _ _ _ _ _ _ _ S Hq W)|done].
  - eapply K; [by apply mov_zx_does|]. intros h' W. rewrite W32 by done.
    eapply st_eq; [by apply (st_gpr _ _ _ _ _ _ _ _ _ _ S Hq W)|]. cbv beta. unfold u32. by rewrite E.
  - destruct (Z.eqb_spec v q) as [Eq|Nq]; simpl.
    + eapply (Ks _ Eq); [apply Wn; by left|]. rewrite Xq. symmetry. apply insert_same; [lia|]. by rewrite <- Eq, E.
    + eapply K; [by apply ins_does|]. intros h' W. rewrite Wn by (by left). by apply (st_insert x0 s u h x p q v).
  - eapply K; [by apply ins_does|]. intros h' W. rewrite Wn by (by right). by apply (st_insert x0 s u h x p q v).
  - destruct (Z.eqb_spec v q) as [Eq|Nq]; simpl.
    + eapply (Ks _ Eq); [apply Wn; by right|]. rewrite Xq. symmetry. apply insert_same; [lia|]. by rewrite <- Eq, E.
    + eapply K; [by apply ins_does|]. intros h' W. rewrite Wn by (by right). by apply (st_insert x0 s u h x p q v).
Qed.

Lemma store_suffix_ok bytes :
  bytes ∈ [1; 2; 4; 8] → ∃ x, store_suffix (bytes << 3) = Some x ∧ (x, Z.to_nat bytes) ∈ store_ops ∧
    8 * Z.of_nat (Z.to_nat bytes) = bytes << 3.
Proof using Type.
  intros H. repeat (apply elem_of_cons in H as [->|H]); [..|by apply elem_of_nil in H];
    (eexists; split; [reflexivity|]; split; [member|reflexivity]).
Qed.

(** Memory is written; nothing else that counts changes. *)
Definition quiet_mem (n : nat) (u : in_use) (h : host) (u' : in_use) (h' : host) : Prop :=
  held_i u ⊆ held_i u' ∧ (size (held_i u') <= size (held_i u) + n)%nat ∧ hflags h' = hflags h ∧
  ∀ r, r ∉ reg_itemp_map ∨ r ∈ held_i u → rget h' r = rget h r.

Definition mem_write (x : x86) (o : IR1_OPND) (m : dt_x86_op_mem) (V : Z) : x86 :=
  set_xmem x (store_le (xmem x) (address_in (seg x) (pir1 ctx) x o m) V (Z.to_nat (opnd_bytes o))).

Lemma store_mem_does x s u h o m v V :
  st x s u h x → mem_ok o m → opnd_bytes o ∈ [1; 2; 4; 8] → (size (held_i u) <= 2)%nat →
  is_reg v → (v ∉ reg_itemp_map) ∨ v ∈ held_i u → rget h v ≡[ir1_opnd_size o] V →
  ∃ s' u' h', does (store_ireg_to_ir1_mem tc (gp v) o false) s h tt s' h' ∧ st x s' u' h' (mem_write x o m V) ∧
    quiet_mem 1 u h u' h'.
Proof using All.
  intros S Hm Hb Hs Iv Hv E.
  destruct (address_does x s u h o m S Hm Hs) as (q & off & s1 & u1 & h1 & D1 & S1 & Q1 & Iq & Nq & Io & A & Fr).
  destruct (store_suffix_ok (opnd_bytes o) Hb) as (sx & E1 & E2 & E3).
  pose proof (store_does s1 h1 sx _ v q off E2 Io Iv Iq) as D2.
  assert (S2 : st x s1 u1 (set_mem h1 (store_le (hmem h1) (rget h1 q + off) (rget h1 v) (Z.to_nat (opnd_bytes o))))
    (mem_write x o m V)).
  { apply st_mem; [done|]. apply store_le_ext; [|done|].
    - apply (sim_mem _ _ _ (st_sim _ _ _ _ _ _ S1)).
    - rewrite E3, (q_regs _ _ _ _ _ Q1) by done. by symmetry. }
  destruct (Fr x s1 _ _ S2) as (s3 & u3 & D3 & S3 & H1 & H2).
  eexists s3, u3, _. split; [|split; [exact S3|split; [done|]]].
  - unfold store_ireg_to_ir1_mem. eapply does_bind; [by apply does_check|]. eapply does_bind; [exact D1|].
    cbv beta iota. eapply does_bind; [apply does_ret|]. cbv beta iota. eapply does_bind; [by apply does_lift|].
    rewrite not_dead by done. eapply does_bind; [exact D2|exact D3].
  - split; [pose proof (q_size _ _ _ _ _ Q1); apply subseteq_size in H2; lia|].
    split; [unfold hflags; simpl; unfold hflags; by rewrite (q_sys _ _ _ _ _ Q1)|]. apply (q_regs _ _ _ _ _ Q1).
Qed.

Lemma read_range x o V :
  opnd_ok o → read_opnd (seg x) (pir1 ctx) x o = Some V →
  in_u (ir1_opnd_size o) V ∧ 8 <= ir1_opnd_size o <= 64.
Proof using Type.
  intros [W _] E. destruct (opnd_op o) as [|r|v|m] eqn:Eo; [by unfold read_opnd in E; rewrite Eo in E|..].
  - destruct (reg_opnd_wf o r Eo W) as (p & q & R). rewrite (ro_read _ _ _ R) in E. injection E as <-.
    rewrite (ro_size _ _ _ R). unfold read_part.
    destruct (reg_shape _ _ _ R) as [[-> _]|[[-> _]|[[-> _]|[[-> _]|[-> _]]]]]; (split; [apply uwrap_range; lia|lia]).
  - pose proof (size_bytes o (imm_opnd_wf o v Eo W)). unfold read_opnd in E. rewrite Eo in E. injection E as <-.
    split; [apply uwrap_range; lia|done].
  - pose proof (size_bytes o (mem_opnd_wf o m Eo W)) as B. unfold read_opnd in E. rewrite Eo in E. injection E as <-.
    split; [|done]. unfold ir1_opnd_size in *. rewrite Z.shiftl_mul_pow2 in * by lia.
    replace (opnd_bytes o * 2 ^ 3) with (8 * Z.of_nat (Z.to_nat (opnd_bytes o))) by lia. apply load_le_range.
Qed.
End loads.
