(* ===== verification/TrMov.v ===== *)
(** * Data transfer (translator/tr-mov.c)

    The routines that emit code for MOV, MOVZX, MOVSX, MOVSXD, PUSH, POP, CMOVcc and XCHG.
    Each works on the current instruction, [pir1 ctx].  The atomic exchange with memory,
    which is written with LL and SC, is an argument. *)

From stdpp Require Import base numbers list option strings gmap tactics.
From Stdlib Require Import ZArith Lia Bool.
From S2P Require Import Prelude Ir1Enum Ir1 HbrGpr LisaTable Ir2 LaAssemble X86.
From S2P Require Import LaAppend RegMap ImmCache RegAlloc LaSem MacroHelper.
From S2P Require Import MemInterface TrOpnd.
Local Open Scope Z_scope.
Local Open Scope c_scope.

Section mov.
Variable tc : trctx.
Local Notation ctx := (mctx tc).
Local Notation pir1 := (pir1 ctx).
Local Notation is_8l := (ir1_opnd_is_8l (CODEIS64 ctx)).

(** [GHBR_ON(pir1)]: the upper half of the result is dead. *)
Definition GHBR_ON : bool := can_ghbr_opt (in_pre_translate tc) pir1.

Definition la_addi_addrx (op0 op1 : IR2_OPND) (imm : Z) : M unit :=
  r2i (if CODEIS64 ctx then "addi.d" else "addi.w") op0 op1 imm.

(** [opnd->mem.disp += d]: the field of another kind of operand is not looked at. *)
Definition add_disp (o : IR1_OPND) (d : Z) : IR1_OPND :=
  match opnd_op o with
  | OP_MEM m => mkOpnd (OP_MEM (mkMem (segment m) (base m) (index m) (scale m) (s64 (disp m + d)))) (opnd_bytes o)
  | _ => o
  end.

(** The branches of [translate_pop]: into a register directly, or through a temporary.
    The C code adds the increment to the displacement of the operand in place; it is the
    last use of the operand in a translation, so that a copy with the new displacement does
    the same. *)
Definition pop_to_gpr (opnd0 : IR1_OPND) (has_esp : bool) (size : Z) (sp : dt_x86_reg) (em : EXTENSION_MODE)
    (esp_opnd : IR2_OPND) (esp_increment : Z) : M unit :=
  mem_ir1_opnd ← lift (ir1_opnd_build_mem size sp 0);
  dest_opnd ← load_ireg_from_ir1 tc opnd0 UNKNOWN_EXTENSION false;
  _ ← load_ireg_from_ir1_2 tc dest_opnd mem_ir1_opnd em false;
  if negb has_esp then la_addi_addrx esp_opnd esp_opnd esp_increment else mret tt.

Definition pop_to_other (opnd0 : IR1_OPND) (has_esp : bool) (size : Z) (sp : dt_x86_reg) (em : EXTENSION_MODE)
    (esp_opnd : IR2_OPND) (esp_increment : Z) : M unit :=
  mem_ir1_opnd ← lift (ir1_opnd_build_mem size sp 0);
  value_opnd ← load_ireg_from_ir1 tc mem_ir1_opnd em false;
  _ ← store_ireg_to_ir1 tc value_opnd (if has_esp then add_disp opnd0 esp_increment else opnd0) false;
  la_addi_addrx esp_opnd esp_opnd esp_increment.

(** The increment of the stack pointer; segment registers take a full slot. *)
Definition stack_slot (opnd0 : IR1_OPND) : Z :=
  if (ir1_opnd_size opnd0 =? 16) && ir1_opnd_is_seg opnd0 then
    if CODEIS64 ctx then 64 >> 3 else 32 >> 3
  else ir1_opnd_size opnd0 >> 3.

Definition translate_pop : M bool :=
  esp_opnd ← lift (ra_alloc_gpr esp_index);
  opnd0 ← lift (ir1_get_opnd pir1 0);
  has_esp ← lift (ir1_opnd_is_gpr_used (CODEIS64 ctx) opnd0 esp_index);
  let pop_size := ir1_opnd_size opnd0 in
  let esp_increment := stack_slot opnd0 in
  _ ← (if CODEIS64 ctx && (pop_size =? 64) then
         if ir1_opnd_is_gpr opnd0
         then pop_to_gpr opnd0 has_esp 64 dt_X86_REG_RSP UNKNOWN_EXTENSION esp_opnd esp_increment
         else pop_to_other opnd0 has_esp 64 dt_X86_REG_RSP SIGN_EXTENSION esp_opnd esp_increment
       else if pop_size =? 16 then
         pop_to_other opnd0 has_esp 16 dt_X86_REG_ESP ZERO_EXTENSION esp_opnd esp_increment
       else if ir1_opnd_is_gpr opnd0 then
         pop_to_gpr opnd0 has_esp 32 dt_X86_REG_ESP SIGN_EXTENSION esp_opnd esp_increment
       else pop_to_other opnd0 has_esp 32 dt_X86_REG_ESP SIGN_EXTENSION esp_opnd esp_increment);
  mret true.

Definition translate_push : M bool :=
  esp_opnd ← lift (ra_alloc_gpr esp_index);
  opnd0 ← lift (ir1_get_opnd pir1 0);
  let esp_decrement := stack_slot opnd0 in
  mem_ir1_opnd ← lift (ir1_opnd_build_mem (esp_decrement << 3)
                         (if CODEIS64 ctx then dt_X86_REG_RSP else dt_X86_REG_ESP) (- esp_decrement));
  value_opnd ← load_ireg_from_ir1 tc opnd0 UNKNOWN_EXTENSION false;
  _ ← store_ireg_to_ir1 tc value_opnd mem_ir1_opnd false;
  _ ← la_addi_addrx esp_opnd esp_opnd (- esp_decrement);
  mret true.

Definition translate_mov_imm_to_gpr (opnd0 opnd1 : IR1_OPND) : M unit :=
  imm ← lift (ir1_opnd_uimm opnd1);
  if imm =? 0 then store_ireg_to_ir1 tc zero_ir2_opnd opnd0 false
  else
    dest ← lift (ra_alloc_gpr (ir1_opnd_base_reg_num opnd0));
    temp ← alloc_temp ctx;
    _ ← match ir1_opnd_size opnd0 with
        | 8 =>
            _ ← r2i "ori" temp zero_ir2_opnd (Z.land imm 0xff);
            if is_8l opnd0 then bstr "bstrins.d" dest temp 7 0 else bstr "bstrins.d" dest temp 15 8
        | 16 => _ ← li_wu temp (u16 imm); bstr "bstrins.d" dest temp 15 0
        | 32 => li_wu dest (u32 imm)
        | 64 => li_d dest imm
        | _ => check false
        end;
    free_temp temp.

Definition translate_mov_from_gpr (opnd0 opnd1 : IR1_OPND) : M unit :=
  src ← lift (ra_alloc_gpr (ir1_opnd_base_reg_num opnd1));
  if ir1_opnd_is_gpr opnd0 then
    dest ← lift (ra_alloc_gpr (ir1_opnd_base_reg_num opnd0));
    match ir1_opnd_size opnd1 with
    | 8 =>
        if is_8l opnd1 then
          if is_8l opnd0 then bstr "bstrins.d" dest src 7 0 else bstr "bstrins.d" dest src 15 8
        else
          temp ← alloc_temp ctx;
          _ ← bstr "bstrpick.d" temp src 15 8;
          _ ← (if is_8l opnd0 then bstr "bstrins.d" dest temp 7 0 else bstr "bstrins.d" dest temp 15 8);
          free_temp temp
    | 16 => bstr "bstrins.d" dest src 15 0
    | 32 => m_mov32_zx dest src
    | 64 => m_mov64 dest src
    | _ => check false
    end
  else if ir1_opnd_is_8h opnd1 then
    temp ← alloc_temp ctx;
    _ ← bstr "bstrpick.d" temp src 15 8;
    _ ← store_ireg_to_ir1 tc temp opnd0 false;
    free_temp temp
  else if use_smc_opt tc && ir1_opnd_is_mem opnd0 then smc_store tc src opnd0
  else store_ireg_to_ir1 tc src opnd0 false.

Definition translate_mov_from_mem (opnd0 opnd1 : IR1_OPND) : M unit :=
  dest ← lift (ra_alloc_gpr (ir1_opnd_base_reg_num opnd0));
  temp ← alloc_temp ctx;
  _ ← match ir1_opnd_size opnd0 with
      | 8 =>
          _ ← load_ireg_from_ir1_mem tc temp opnd1 UNKNOWN_EXTENSION false;
          if is_8l opnd0 then bstr "bstrins.d" dest temp 7 0 else bstr "bstrins.d" dest temp 15 8
      | 16 =>
          _ ← load_ireg_from_ir1_mem tc temp opnd1 UNKNOWN_EXTENSION false;
          if ir1_opnd_is_gpr opnd0 then bstr "bstrins.d" dest temp 15 0
          else store_ireg_to_ir1 tc temp opnd0 false
      | 32 => load_ireg_from_ir1_mem tc dest opnd1 ZERO_EXTENSION false
      | 64 => load_ireg_from_ir1_mem tc dest opnd1 UNKNOWN_EXTENSION false
      | _ => check false
      end;
  free_temp temp.

Definition translate_mov : M bool :=
  opnd0 ← lift (ir1_get_opnd pir1 0);
  opnd1 ← lift (ir1_get_opnd pir1 1);
  let rest :=
    src_opnd ← load_ireg_from_ir1 tc opnd1 UNKNOWN_EXTENSION false;
    store_ireg_to_ir1 tc src_opnd opnd0 false in
  _ ← match opnd_op opnd1 with
      | OP_IMM _ => if ir1_opnd_is_gpr opnd0 then translate_mov_imm_to_gpr opnd0 opnd1 else rest
      | OP_REG _ => if ir1_opnd_is_gpr opnd1 then translate_mov_from_gpr opnd0 opnd1 else rest
      | OP_MEM _ => translate_mov_from_mem opnd0 opnd1
      | OP_INVALID => rest
      end;
  mret true.

(** The source of MOVZX in 32-bit code: an absolute address is one of segment DS. *)
Definition default_ds (o : IR1_OPND) : IR1_OPND :=
  match opnd_op o with
  | OP_MEM m =>
      if reg_eqb (segment m) dt_X86_REG_INVALID && reg_eqb (base m) dt_X86_REG_INVALID
      then mkOpnd (OP_MEM (mkMem dt_X86_REG_DS (base m) (index m) (scale m) (disp m))) (opnd_bytes o)
      else o
  | _ => o
  end.

Definition translate_movzx : M bool :=
  source_ir1 ← lift (ir1_get_opnd pir1 1);
  dest_ir1 ← lift (ir1_get_opnd pir1 0);
  _ ← check (ir1_opnd_is_gpr dest_ir1);
  let dest_base := ir1_opnd_base_reg_num dest_ir1 in
  dest_opnd ← lift (ra_alloc_gpr dest_base);
  if ir1_opnd_is_gpr source_ir1 then
    let source_base := ir1_opnd_base_reg_num source_ir1 in
    src_opnd ← lift (ra_alloc_gpr source_base);
    let through_temp msb lsb :=
      tmp_opnd ← alloc_temp ctx;
      _ ← bstr "bstrpick.w" tmp_opnd src_opnd msb lsb;
      _ ← bstr "bstrins.d" dest_opnd tmp_opnd 15 0;
      free_temp tmp_opnd in
    _ ← (if ir1_opnd_is_8h source_ir1 then
           if ir1_opnd_is_16bit (CODEIS64 ctx) dest_ir1 then through_temp 15 8
           else bstr "bstrpick.w" dest_opnd src_opnd 15 8
         else if ir1_opnd_is_16bit (CODEIS64 ctx) dest_ir1 then
           if source_base =? dest_base then bstr "bstrins.d" dest_opnd zero_ir2_opnd 15 8
           else through_temp 7 0
         else
           let opnd_size := ir1_opnd_size source_ir1 in
           _ ← check (if opnd_size =? 8 then is_8l source_ir1 || ir1_opnd_is_8h source_ir1
                      else if opnd_size =? 16 then ir1_opnd_is_16bit (CODEIS64 ctx) source_ir1
                      else false);
           bstr "bstrpick.w" dest_opnd src_opnd (opnd_size - 1) 0);
    mret true
  else
    let source_ir1 := if CODEIS64 ctx then source_ir1 else default_ds source_ir1 in
    _ ← (if 32 <=? ir1_opnd_size dest_ir1 then
           load_ireg_from_ir1_mem tc dest_opnd source_ir1 ZERO_EXTENSION false
         else
           source_opnd ← load_ireg_from_ir1 tc source_ir1 ZERO_EXTENSION false;
           store_ireg_to_ir1 tc source_opnd dest_ir1 false);
    mret true.

Definition translate_movsx : M bool :=
  opnd1 ← lift (ir1_get_opnd pir1 1);
  source_opnd ← load_ireg_from_ir1 tc opnd1 SIGN_EXTENSION false;
  opnd0 ← lift (ir1_get_opnd pir1 0);
  _ ← store_ireg_to_ir1 tc source_opnd opnd0 false;
  mret true.

Definition translate_movsxd : M bool :=
  opnd0 ← lift (ir1_get_opnd pir1 0);
  _ ← check (ir1_opnd_is_gpr opnd0);
  gpr_opnd ← lift (ra_alloc_gpr (ir1_opnd_base_reg_num opnd0));
  opnd1 ← lift (ir1_get_opnd pir1 1);
  _ ← load_ireg_from_ir1_2 tc gpr_opnd opnd1 SIGN_EXTENSION false;
  _ ← (if CODEIS64 ctx && (ir1_opnd_size opnd0 =? 32) then bstr "bstrpick.d" gpr_opnd gpr_opnd 31 0
       else mret tt);
  mret true.

(** [IR2_JCC] (include/la-ir2.h) of an instruction with a condition, the constant of
    its [la_setx86j] in [get_eflag_condition] (optimization/flag-lbt.c). *)
Definition jcc_of (op : dt_x86_insn) : option Z :=
  match op with
  | dt_X86_INS_SETA | dt_X86_INS_CMOVA | dt_X86_INS_FCMOVNBE | dt_X86_INS_JA => Some 0
  | dt_X86_INS_SETAE | dt_X86_INS_CMOVAE | dt_X86_INS_FCMOVNB | dt_X86_INS_JAE => Some 1
  | dt_X86_INS_SETB | dt_X86_INS_CMOVB | dt_X86_INS_FCMOVB | dt_X86_INS_JB => Some 2
  | dt_X86_INS_SETBE | dt_X86_INS_CMOVBE | dt_X86_INS_FCMOVBE | dt_X86_INS_JBE => Some 3
  | dt_X86_INS_SETE | dt_X86_INS_CMOVE | dt_X86_INS_FCMOVE | dt_X86_INS_JE => Some 4
  | dt_X86_INS_SETNE | dt_X86_INS_CMOVNE | dt_X86_INS_FCMOVNE | dt_X86_INS_JNE => Some 5
  | dt_X86_INS_SETG | dt_X86_INS_CMOVG | dt_X86_INS_JG => Some 6
  | dt_X86_INS_SETGE | dt_X86_INS_CMOVGE | dt_X86_INS_JGE => Some 7
  | dt_X86_INS_SETL | dt_X86_INS_CMOVL | dt_X86_INS_JL => Some 8
  | dt_X86_INS_SETLE | dt_X86_INS_CMOVLE | dt_X86_INS_JLE => Some 9
  | dt_X86_INS_SETS | dt_X86_INS_CMOVS | dt_X86_INS_JS => Some 10
  | dt_X86_INS_SETNS | dt_X86_INS_CMOVNS | dt_X86_INS_JNS => Some 11
  | dt_X86_INS_SETO | dt_X86_INS_CMOVO | dt_X86_INS_JO => Some 12
  | dt_X86_INS_SETNO | dt_X86_INS_CMOVNO | dt_X86_INS_JNO => Some 13
  | dt_X86_INS_SETP | dt_X86_INS_CMOVP | dt_X86_INS_FCMOVU | dt_X86_INS_JP => Some 14
  | dt_X86_INS_SETNP | dt_X86_INS_CMOVNP | dt_X86_INS_FCMOVNU | dt_X86_INS_JNP => Some 15
  | _ => None
  end.

Definition ZF_BIT_INDEX := 6.

Definition get_eflag_condition (cond : IR2_OPND) : M unit :=
  match ir1_opcode pir1 with
  | dt_X86_INS_RCL | dt_X86_INS_RCR => r1i "x86mfflag" cond 0x1
  | dt_X86_INS_LOOPE | dt_X86_INS_LOOPNE =>
      _ ← r1i "x86mfflag" cond 0x8;
      _ ← r2i "slli.d" cond cond (63 - ZF_BIT_INDEX);
      r2i "srai.d" cond cond 63
  | op => c ← lift (jcc_of op); r1i "setx86j" cond c
  end.

Definition translate_cmovcc : M bool :=
  opnd0 ← lift (ir1_get_opnd pir1 0);
  opnd1 ← lift (ir1_get_opnd pir1 1);
  _ ← check (ir1_opnd_is_gpr opnd0);
  neg_condition ← alloc_temp ctx;
  _ ← get_eflag_condition neg_condition;
  src_opnd ← load_ireg_from_ir1 tc opnd1 UNKNOWN_EXTENSION false;
  dest_opnd ← lift (ra_alloc_gpr (ir1_opnd_base_reg_num opnd0));
  cond1 ← alloc_temp ctx;
  cond2 ← alloc_temp ctx;
  _ ← r3 "masknez" cond1 dest_opnd neg_condition;
  _ ← r3 "maskeqz" cond2 src_opnd neg_condition;
  _ ← (if ir1_opnd_size opnd0 =? 64 then r3 "or" dest_opnd cond1 cond2
       else
         _ ← r3 "or" cond1 cond1 cond2;
         store_ireg_to_ir1 tc cond1 opnd0 false);
  _ ← free_temp cond1;
  _ ← free_temp cond2;
  _ ← free_temp neg_condition;
  mret true.

Definition translate_xchg : M bool :=
  opnd0 ← lift (ir1_get_opnd pir1 0);
  opnd1 ← lift (ir1_get_opnd pir1 1);
  if ir1_opnd_is_gpr opnd0 && ir1_opnd_is_gpr opnd1 then
    src0 ← load_ireg_from_ir1 tc opnd0 UNKNOWN_EXTENSION false;
    src1 ← alloc_temp ctx;
    _ ← load_ireg_from_ir1_2 tc src1 opnd1 UNKNOWN_EXTENSION false;
    _ ← (if ir1_opnd_is_same_reg opnd0 opnd1 then
           if negb GHBR_ON && CODEIS64 ctx && (ir1_opnd_size opnd0 =? 32) then m_mov32_zx src0 src0
           else mret tt
         else
           _ ← store_ireg_to_ir1 tc src0 opnd1 false;
           store_ireg_to_ir1 tc src1 opnd0 false);
    mret true
  else if negb (close_latx_parallel tc) && negb (cf_parallel tc) then
    src0 ← load_ireg_from_ir1 tc opnd0 UNKNOWN_EXTENSION false;
    src1 ← load_ireg_from_ir1 tc opnd1 UNKNOWN_EXTENSION false;
    _ ← (if ir1_opnd_is_gpr opnd0 then
           _ ← store_ireg_to_ir1 tc src0 opnd1 false;
           store_ireg_to_ir1 tc src1 opnd0 false
         else
           _ ← store_ireg_to_ir1 tc src1 opnd0 false;
           store_ireg_to_ir1 tc src0 opnd1 false);
    mret true
  else xchg_atomic tc.
End mov.
