(* ===== verification/TrMovOk.v ===== *)
(** * Data transfer is translated correctly

    The code emitted by the routines of tr-mov.c does what the x86 instruction does
    (file X86): registers, memory, flags. *)

From stdpp Require Import base numbers list option strings gmap sets tactics.
From Stdlib Require Import ZArith Lia Bool.
From S2P Require Import Prelude Ir1Enum Ir1 HbrGpr LisaTable Ir2 LaAssemble LaAppend RegMap X86 WordEq.
From S2P Require Import ImmCache ImmCacheSound ImmCacheMain RegAlloc LaSem MacroHelper.
From S2P Require Import MemInterface MemInterfaceOk MemInterfaceMain CacheIndex TrOpnd TrOpndOk TrMov.
Local Open Scope Z_scope.
Local Open Scope c_scope.

(** ** Running the emitted code *)

(** [m] goes through, and what its code reaches satisfies [P]. *)
Definition wp {A} (m : M A) (s : temps) (h : host) (P : A → temps → host → Prop) : Prop :=
  ∃ y s' h', does m s h y s' h' ∧ P y s' h'.

Lemma wp_ret {A} (y : A) s h (P : A → temps → host → Prop) : P y s h → wp (mret y) s h P.
Proof. intros H. exists y, s, h. split; [apply does_ret|done]. Qed.

Lemma wp_step {A B} (m : M A) (f : A → M B) s h y s1 h1 (P : B → temps → host → Prop) :
  does m s h y s1 h1 → wp (f y) s1 h1 P → wp (m ≫= f) s h P.
Proof. intros D (z & s2 & h2 & D2 & H). exists z, s2, h2. split; [by eapply does_bind|done]. Qed.

Lemma wp_bind {A B} (m : M A) (f : A → M B) s h (P : B → temps → host → Prop) :
  wp m s h (λ y s1 h1, wp (f y) s1 h1 P) → wp (m ≫= f) s h P.
Proof. intros (y & s1 & h1 & D & H). by eapply wp_step. Qed.

Lemma wp_done {A} (m : M A) s h y s' h' (P : A → temps → host → Prop) :
  does m s h y s' h' → P y s' h' → wp m s h P.
Proof. intros D H. by exists y, s', h'. Qed.

Lemma wp_mono {A} (m : M A) s h (P Q : A → temps → host → Prop) :
  wp m s h P → (∀ y s' h', P y s' h' → Q y s' h') → wp m s h Q.
Proof. intros (y & s' & h' & D & H) K. exists y, s', h'. auto. Qed.

Lemma wp_lift {A B} (o : option A) x (f : A → M B) s h P : o = Some x → wp (f x) s h P → wp (lift o ≫= f) s h P.
Proof. intros E. apply wp_step. by apply does_lift. Qed.

Lemma wp_check {B} b (f : unit → M B) s h P : b = true → wp (f tt) s h P → wp (check b ≫= f) s h P.
Proof. intros E. apply wp_step. by apply does_check. Qed.

Section transfer.
Context (tc : trctx) `{!Qsort (qsort (mctx tc))}.
Local Notation ctx := (mctx tc).
Local Notation pir1 := (pir1 ctx).
Context (H64 : CODEIS64 ctx = true).
Context (Haddr : ir1_addr_size pir1 = 64).
Context (env : site).
Local Notation imm := (option_imm_reg ctx).
Local Notation st := (st (imm := imm) env).
Local Notation seg x := (seg_in (seg_base_off ctx) env x).

Local Notation alloc_ok := (st_alloc tc H64 Haddr env).

(** The code has reached [x'], flags untouched. *)
Definition reached (x x' : x86) (F : Z) (s : temps) (h : host) : Prop :=
  ∃ u, st x s u h x' ∧ hflags h = F.

(** ** Writing a part of a register *)

Lemma st_part_64 x0 s u h x p q v V h' :
  st x0 s u h x → gpr_at (p_num p) q → p_width p = 64 → sets q v h h' → v h ≡[64] V →
  st x0 s u h' (write_part x p V).
Proof using Type.
  intros S Hq Ew W E. rewrite (proj1 (write_part_wide x p V) Ew). eapply st_eq; [by eapply st_gpr|done].
Qed.

Lemma st_part_32 x0 s u h x p q v V h' :
  st x0 s u h x → gpr_at (p_num p) q → p_width p = 32 → sets q v h h' → u64 (v h) = u32 V →
  st x0 s u h' (write_part x p V).
Proof using Type.
  intros S Hq Ew W E. rewrite (proj1 (proj2 (write_part_wide x p V)) Ew). eapply st_eq; [by eapply st_gpr|].
  rewrite E. symmetry. apply uwrap_id. pose proof (uwrap_range 32 V ltac:(lia)). unfold in_u, u32 in *. lia.
Qed.

Lemma st_part_ins x0 s u h x p q r V h' msb :
  st x0 s u h x → gpr_at (p_num p) q → p_width p = 16 ∨ p_width p = 8 → 0 <= p_lsb p →
  msb = p_lsb p + p_width p - 1 →
  sets q (λ h, insert_bits (rget h q) (rget h r) msb (p_lsb p)) h h' → rget h r ≡[p_width p] V →
  st x0 s u h' (write_part x p V).
Proof using Type.
  intros S Hq Ew Hl -> W E. rewrite (proj2 (proj2 (write_part_wide x p V)) Ew).
  apply (st_insert tc env x0 s u h x p q r V); try done; [lia|].
  by replace (p_lsb p + p_width p - 1 - p_lsb p + 1) with (p_width p) by lia.
Qed.

Lemma reached_sets x x' F s u h h' d v :
  st x s u h' x' → hflags h = F → sets d v h h' → reached x x' F s h'.
Proof using Type. intros S E (_ & _ & K). exists u. split; [done|]. unfold hflags in *. by rewrite K. Qed.

(** ** Storing a value *)

Lemma gpr_is_reg o : ir1_opnd_is_gpr o = true → ∃ r, opnd_op o = OP_REG r.
Proof using Type. unfold ir1_opnd_is_gpr. destruct (opnd_op o) as [|r| |]; try done. by exists r. Qed.

Lemma store_reg_ok x0 s u h x o p q v V :
  st x0 s u h x → reg_opnd o p q → is_reg v → rget h v ≡[p_width p] V →
  ∃ h', does (store_ireg_to_ir1 tc (gp v) o false) s h tt s h' ∧ st x0 s u h' (write_part x p V) ∧
    hsys h' = hsys h ∧ ∀ r, r ≠ q → rget h' r = rget h r.
Proof using Type.
  intros S R Iv E. destruct (gpr_is_reg o (ro_gpr _ _ _ R)) as [r Er]. unfold store_ireg_to_ir1.
  eapply ex_bind; [by apply does_check|]. rewrite Er, (ro_gpr _ _ _ R). by apply (store_gpr_does tc env x0 s u h x o p q v).
Qed.

Lemma store_mem_ok x s u h o m v V :
  st x s u h x → mem_ok tc o m → opnd_bytes o ∈ [1; 2; 4; 8] → (size (held_i u) <= 2)%nat →
  is_reg v → (v ∉ reg_itemp_map) ∨ v ∈ held_i u → rget h v ≡[ir1_opnd_size o] V →
  ∃ s' u' h', does (store_ireg_to_ir1 tc (gp v) o false) s h tt s' h' ∧
    st x s' u' h' (mem_write tc env x o m V) ∧ quiet_mem 1 u h u' h'.
Proof using All.
  intros S Hm Hb Hs Iv Hv E.
  destruct (store_mem_does tc H64 Haddr env x s u h o m v V S Hm Hb Hs Iv Hv E) as (s' & u' & h' & D & H).
  exists s', u', h'. split; [|done]. unfold store_ireg_to_ir1. eapply does_bind; [by apply does_check|].
  by rewrite (proj1 Hm).
Qed.

(** ** MOV *)

(** A temporary has been used and is given back. *)
Lemma free_reached {A} (y : A) x x' F s u h r :
  st x s u h x' → hflags h = F → r ∈ held_i u →
  wp (_ ← free_temp (gp r); mret y) s h (λ z s' h', z = y ∧ reached x x' F s' h').
Proof using Type.
  intros S E Hr. destruct (st_free env x s u h x' r S Hr) as (s' & D & S'). eapply wp_step; [exact D|].
  apply wp_ret. split; [done|]. by exists (drop_reg u r).
Qed.

Lemma free_wp x x' F s u h r :
  st x s u h x' → hflags h = F → r ∈ held_i u →
  wp (free_temp (gp r)) s h (λ _ s' h', reached x x' F s' h').
Proof using Type.
  intros S E Hr. destruct (st_free env x s u h x' r S Hr) as (s' & D & S'). eapply wp_done; [exact D|].
  by exists (drop_reg u r).
Qed.

Lemma flags_kept d v h h' : sets d v h h' → hflags h' = hflags h.
Proof using Type. intros (_ & _ & K). unfold hflags. by rewrite K. Qed.

Lemma ins_part x0 s u h x o p q r V msb lsb :
  st x0 s u h x → reg_opnd o p q → is_reg r → p_width p = 16 ∨ p_width p = 8 → lsb = p_lsb p →
  msb = p_lsb p + p_width p - 1 → rget h r ≡[p_width p] V →
  ∃ h', does (bstr "bstrins.d" (gp q) (gp r) msb lsb) s h tt s h' ∧ st x0 s u h' (write_part x p V) ∧
    hflags h' = hflags h.
Proof using Type.
  intros S R Ir Ew -> Em E. pose proof (ro_at _ _ _ R) as Hq. destruct (gpr_at_facts _ _ Hq) as (Iq & Q0 & _ & _).
  assert (B : 0 <= p_lsb p <= msb ∧ msb < 64).
  { destruct (reg_shape _ _ _ R) as [[Ep El]|[[Ep El]|[[Ep El]|[[Ep El]|[Ep El]]]]]; rewrite Ep, El in *; lia. }
  destruct (ins_does s h q r msb (p_lsb p)) as (h' & D & W); try done; [lia..|]. exists h'. split; [done|].
  split; [|by eapply flags_kept]. eapply (st_part_ins x0 s u h x p q r V h' msb); done || lia.
Qed.

(** [ori t, zero, V & 0xff] *)
Lemma ori_does s h t V :
  is_reg t → t ≠ 0 →
  ∃ h', does (r2i "ori" (gp t) zero_ir2_opnd (Z.land V 0xff)) s h tt s h' ∧ sets t (λ _, uwrap 8 V) h h'.
Proof using Type.
  intros It T0. assert (E : Z.land V 0xff = uwrap 8 V) by (change 0xff with (Z.ones 8); by apply Z.land_ones).
  rewrite E. pose proof (uwrap_range 8 V ltac:(lia)) as B.
  destruct (ui_does s h "ori" _ t 0 (uwrap 8 V) _) as (h' & D & W);
    try (done || (unfold is_reg, in_u in *; lia)). by exists h'.
Qed.

Lemma ori_value V : u64 (uwrap 8 V) ≡[8] V.
Proof using Type. rewrite eqw_u64 by lia. apply eqw_uwrap. lia. Qed.

(** The low bits of the temporary [t] go into a part of a register, and it is given back. *)
Lemma part_free x s u h o p q t V msb lsb F :
  st x s u h x → reg_opnd o p q → t ∈ held_i u → p_width p = 16 ∨ p_width p = 8 → lsb = p_lsb p →
  msb = p_lsb p + p_width p - 1 → rget h t ≡[p_width p] V → hflags h = F →
  wp (bstr "bstrins.d" (gp q) (gp t) msb lsb) s h
    (λ _ s1 h1, wp (free_temp (gp t)) s1 h1 (λ _ s' h', reached x (write_part x p V) F s' h')).
Proof using Type.
  intros S R Ht Ew El Em E HF.
  destruct (pool_reg t (held_temp _ _ _ (st_temps _ _ _ _ _ _ S) Ht)) as [It _].
  destruct (ins_part x s u h x o p q t V msb lsb S R It Ew El Em E) as (h2 & D2 & S2 & F2).
  eapply wp_done; [exact D2|]. eapply free_wp; [done|congruence|done].
Qed.

Lemma temp_part x s u h o p q t m v V msb lsb :
  st x s u h x → reg_opnd o p q → t ∈ held_i u → p_width p = 16 ∨ p_width p = 8 → lsb = p_lsb p →
  msb = p_lsb p + p_width p - 1 →
  (∃ h', does m s h tt s h' ∧ sets t v h h') → u64 (v h) ≡[p_width p] V →
  wp (_ ← m; bstr "bstrins.d" (gp q) (gp t) msb lsb) s h
    (λ _ s1 h1, wp (free_temp (gp t)) s1 h1 (λ _ s' h', reached x (write_part x p V) (hflags h) s' h')).
Proof using Type.
  intros S R Ht Ew El Em (h1 & D & W) E. eapply wp_step; [exact D|].
  eapply part_free; try done; [by eapply st_temp|by rewrite (proj1 W)|by eapply flags_kept].
Qed.

Lemma mov_imm_gpr x s u h o0 o1 p q v :
  st x s u h x → (size (held_i u) < 7)%nat → reg_opnd o0 p q → opnd_op o1 = OP_IMM v →
  opnd_bytes o1 ∈ [1; 2; 4; 8] → ir1_opnd_size o1 = p_width p →
  wp (translate_mov_imm_to_gpr tc o0 o1) s h
    (λ _ s' h', reached x (write_part x p (uwrap (p_width p) v)) (hflags h) s' h').
Proof using All.
  intros S Hs R E Hb Ew. destruct (imm_values o1 v E Hb) as (_ & Eu & _ & Hw). rewrite Ew in Eu, Hw.
  pose proof (ro_at _ _ _ R) as Hq. destruct (gpr_at_facts _ _ Hq) as (Iq & Q0 & _ & _).
  set (V := uwrap (p_width p) v) in *. assert (HV : in_u (p_width p) V) by (apply uwrap_range; lia).
  unfold translate_mov_imm_to_gpr. eapply wp_lift; [exact Eu|]. destruct (Z.eqb_spec V 0) as [Z0|Z0].
  { destruct (store_reg_ok x s u h x o0 p q 0 V S R) as (h' & D & S' & K & _);
      [unfold is_reg; lia|by rewrite Z0, rget_0|].
    eapply wp_done; [exact D|]. exists u. split; [done|]. unfold hflags. by rewrite K. }
  eapply wp_lift; [rewrite (ro_num _ _ _ R); apply (ro_alloc _ _ _ R)|].
  destruct (alloc_ok x s u h S Hs) as (t & s1 & A & S1 & P & N & It & T0).
  eapply wp_step; [exact A|]. pose proof (take_held u t) as Ht.
  apply wp_bind. rewrite (ro_size _ _ _ R). rewrite H64, (ro_8l _ _ _ R).
  destruct (reg_shape _ _ _ R) as [[Ep El]|[[Ep El]|[[Ep El]|[[Ep El]|[Ep El]]]]]; rewrite Ep in *; rewrite ?El; cbn iota.
  - destruct (li_does q V s1 h Iq Q0) as (h1 & D & W). eapply wp_done; [exact D|].
    apply (free_wp x _ _ _ (take_reg u t)); [by eapply st_part_64|by eapply flags_kept|done].
  - destruct (does_emits _ s1 _ _ _ h (li_wu_ok q Iq Q0 (u32 V) s1 ltac:(apply uwrap_range; lia))) as (h1 & D & W).
    eapply wp_done; [exact D|].
    apply (free_wp x _ _ _ (take_reg u t)); [eapply st_part_32; try done|by eapply flags_kept|done].
    cbv beta. apply uwrap_id. pose proof (uwrap_range 32 V ltac:(lia)). unfold in_u, u32 in *. lia.
  - eapply temp_part; [done..|lia|lia|lia| |]; [apply does_emits, li_wu_ok; [done|done|]|].
    + pose proof (uwrap_range 16 V ltac:(lia)). unfold in_u, u16 in *. lia.
    + cbv beta. rewrite Ep, eqw_u64 by lia. apply eqw_uwrap. lia.
  - eapply temp_part; [done..|lia|lia|lia|by apply ori_does|]. cbv beta. rewrite Ep. by apply ori_value.
  - eapply temp_part; [done..|lia|lia|lia|by apply ori_does|]. cbv beta. rewrite Ep. by apply ori_value.
Qed.

Lemma mov_gpr_gpr x s u h o0 o1 p0 q0 p1 q1 :
  st x s u h x → (size (held_i u) < 7)%nat → reg_opnd o0 p0 q0 → reg_opnd o1 p1 q1 → p_width p1 = p_width p0 →
  wp (translate_mov_from_gpr tc o0 o1) s h
    (λ _ s' h', reached x (write_part x p0 (read_part x p1)) (hflags h) s' h').
Proof using All.
  intros S Hs R0 R1 Ew. pose proof (ro_at _ _ _ R0) as H0. pose proof (ro_at _ _ _ R1) as H1.
  destruct (gpr_at_facts _ _ H0) as (I0 & Z0 & _ & _), (gpr_at_facts _ _ H1) as (I1 & _ & _ & N1).
  rewrite (read_part_sim env h x p1 q1 (st_sim _ _ _ _ _ _ S) H1). unfold translate_mov_from_gpr.
  eapply wp_lift; [rewrite (ro_num _ _ _ R1); apply (ro_alloc _ _ _ R1)|]. rewrite (ro_gpr _ _ _ R0).
  eapply wp_lift; [rewrite (ro_num _ _ _ R0); apply (ro_alloc _ _ _ R0)|].
  rewrite (ro_size _ _ _ R1), H64, (ro_8l _ _ _ R0), (ro_8l _ _ _ R1), Ew.
  assert (V : uwrap (p_width p0) (rget h q1 >> p_lsb p1) ≡[p_width p0] rget h q1 >> p_lsb p1).
  { apply eqw_uwrap. destruct (reg_shape _ _ _ R0) as [[-> _]|[[-> _]|[[-> _]|[[-> _]|[-> _]]]]]; lia. }
  assert (E : ∀ V', rget h q1 ≡[p_width p0] V' → p_width p0 = 16 ∨ p_width p0 = 8 →
    ∀ msb lsb, lsb = p_lsb p0 → msb = p_lsb p0 + p_width p0 - 1 →
    wp (bstr "bstrins.d" (gp q0) (gp q1) msb lsb) s h (λ _ s' h', reached x (write_part x p0 V') (hflags h) s' h')).
  { intros V' E Hw msb lsb El Em.
    destruct (ins_part x s u h x o0 p0 q0 q1 V' msb lsb S R0 I1 Hw El Em E) as (h' & D & S' & F).
    eapply wp_done; [exact D|]. by exists u. }
  destruct (reg_shape _ _ _ R1) as [[Ep El]|[[Ep El]|[[Ep El]|[[Ep El]|[Ep El]]]]]; rewrite Ew in Ep; rewrite Ep, El in *;
    cbn iota; rewrite ?Z.shiftr_0_r in *.
  - destruct (mov64_does s h q0 q1 I0 Z0 I1) as (h' & D & W). eapply wp_done; [exact D|].
    eapply reached_sets; [eapply st_part_64; [done..|by symmetry]|done|done].
  - destruct (mov_zx_does s h q0 q1 I0 Z0 I1) as (h' & D & W). eapply wp_done; [exact D|].
    eapply reached_sets; [eapply st_part_32; [done..|]|done|done]. cbv beta.
    unfold u32. rewrite V. apply uwrap_id. pose proof (uwrap_range 32 (rget h q1) ltac:(lia)). unfold in_u in *. lia.
  - apply E; [by symmetry|lia|..]; destruct (reg_shape _ _ _ R0) as [[]|[[]|[[]|[[]|[]]]]]; lia.
  - destruct (alloc_ok x s u h S Hs) as (t & s1 & A & S1 & P & N & It & T0). cbn [andb Z.eqb Pos.eqb].
    eapply wp_step; [exact A|]. pose proof (take_held u t) as Ht.
    destruct (pick_does s1 h t q1 15 8) as (h1 & D & W); try done. eapply wp_step; [exact D|].
    apply wp_bind. assert (Vt : rget h1 t ≡[p_width p0] uwrap 8 (rget h q1 >> 8)).
    { rewrite Ep, (proj1 W). by apply eqw_u64. }
    pose proof (st_temp _ _ _ _ _ _ _ _ _ S1 Ht W) as S2. pose proof (flags_kept _ _ _ _ W) as F.
    destruct (reg_shape _ _ _ R0) as [[? L]|[[? L]|[[? L]|[[? L]|[? L]]]]]; try lia; rewrite L; cbn [Z.eqb Pos.eqb].
    + eapply (part_free _ _ _ _ o0 p0); [done..|lia|lia|lia|done|done].
    + eapply (part_free _ _ _ _ o0 p0); [done..|lia|lia|lia|done|done].
  - cbn [andb Z.eqb Pos.eqb]. destruct (reg_shape _ _ _ R0) as [[? L]|[[? L]|[[? L]|[[? L]|[? L]]]]]; try lia;
      rewrite L; cbn [Z.eqb Pos.eqb]; (apply E; [by symmetry|lia|lia|lia]).
Qed.

(** What a store to memory reaches. *)
Lemma store_wp x s u h o m v V F :
  st x s u h x → mem_ok tc o m → opnd_bytes o ∈ [1; 2; 4; 8] → (size (held_i u) <= 2)%nat →
  is_reg v → (v ∉ reg_itemp_map) ∨ v ∈ held_i u → rget h v ≡[ir1_opnd_size o] V → hflags h = F →
  wp (store_ireg_to_ir1 tc (gp v) o false) s h (λ _ s' h', reached x (mem_write tc env x o m V) F s' h').
Proof using All.
  intros S Hm Hb Hs Iv Hv E HF.
  destruct (store_mem_ok x s u h o m v V S Hm Hb Hs Iv Hv E) as (s' & u' & h' & D & S' & (_ & _ & Fl & _)).
  eapply wp_done; [exact D|]. exists u'. split; [done|congruence].
Qed.

Lemma mov_gpr_mem x s u h o0 o1 m p1 q1 :
  st x s u h x → (size (held_i u) <= 1)%nat → mem_ok tc o0 m → opnd_bytes o0 ∈ [1; 2; 4; 8] →
  reg_opnd o1 p1 q1 → p_width p1 = ir1_opnd_size o0 → use_smc_opt tc = false →
  wp (translate_mov_from_gpr tc o0 o1) s h
    (λ _ s' h', reached x (mem_write tc env x o0 m (read_part x p1)) (hflags h) s' h').
Proof using All.
  intros S Hs Hm Hb R1 Ew Smc. pose proof (ro_at _ _ _ R1) as H1.
  destruct (gpr_at_facts _ _ H1) as (I1 & _ & _ & N1).
  rewrite (read_part_sim env h x p1 q1 (st_sim _ _ _ _ _ _ S) H1). unfold translate_mov_from_gpr.
  eapply wp_lift; [rewrite (ro_num _ _ _ R1); apply (ro_alloc _ _ _ R1)|].
  assert (G : ir1_opnd_is_gpr o0 = false) by (unfold ir1_opnd_is_gpr; by rewrite (proj1 Hm)).
  rewrite G, (ro_8h _ _ _ R1), Smc. simpl.
  destruct (Z.eqb_spec (p_lsb p1) 8) as [L|L].
  - assert (p_width p1 = 8) by (destruct (reg_shape _ _ _ R1) as [[]|[[]|[[]|[[]|[]]]]]; lia).
    destruct (alloc_ok x s u h S ltac:(lia)) as (t & s1 & A & S1 & P & N & It & T0).
    eapply wp_step; [exact A|]. pose proof (take_held u t) as Ht.
    destruct (pick_does s1 h t q1 15 8) as (h1 & D & W); try done. eapply wp_step; [exact D|].
    destruct (store_mem_ok x s1 _ h1 o0 m t (uwrap (p_width p1) (rget h q1 >> p_lsb p1))
      (st_temp _ _ _ _ _ _ _ _ _ S1 Ht W) Hm Hb) as (s2 & u2 & h2 & D2 & S2 & (Q1 & _ & Fl & _)); try done.
    { pose proof (q_size _ _ _ _ _ (quiet_take u t h N)). lia. }
    { by right. }
    { rewrite <- Ew, (proj1 W), L. replace (p_width p1) with 8 by done. by apply eqw_u64. }
    eapply wp_step; [exact D2|]. eapply free_wp; [done| |by apply Q1]. rewrite Fl. by eapply flags_kept.
  - apply (store_wp x s u h o0 m q1); try done; [lia|by left|]. rewrite <- Ew.
    assert (p_lsb p1 = 0 ∧ 0 < p_width p1) as [-> ?] by (destruct (reg_shape _ _ _ R1) as [[]|[[]|[[]|[[]|[]]]]]; lia).
    symmetry. rewrite Z.shiftr_0_r. apply eqw_uwrap. lia.
Qed.

(** A value in memory goes through the temporary [t] into a part of a register ... *)
Lemma load_part_free x s u h o m o0 p q t msb lsb :
  st x s u h x → t ∈ held_i u → (size (held_i u) <= 2)%nat → reg_opnd o0 p q → mem_ok tc o m →
  opnd_bytes o ∈ [1; 2; 4; 8] → ir1_opnd_size o = p_width p → p_width p = 16 ∨ p_width p = 8 →
  lsb = p_lsb p → msb = p_lsb p + p_width p - 1 →
  wp (_ ← load_ireg_from_ir1_mem tc (gp t) o UNKNOWN_EXTENSION false; bstr "bstrins.d" (gp q) (gp t) msb lsb) s h
    (λ _ s1 h1, wp (free_temp (gp t)) s1 h1
      (λ _ s' h', reached x (write_part x p (mem_value tc env x o m)) (hflags h) s' h')).
Proof using All.
  intros S Ht Hs R Hm Hb Ew Hw El Em.
  destruct (load_mem_does tc H64 Haddr env x s u h t (λ x _, x) o m UNKNOWN_EXTENSION S Hm Hb Hs)
    as (V & s2 & u2 & h2 & D & S2 & (Q1 & _ & Q3 & _) & Vt & E); [by left|].
  eapply wp_step; [exact D|]. eapply (part_free _ _ u2 _ o0 p); try done; [by apply Q1| |unfold hflags; by rewrite Q3].
  rewrite Vt, <- Ew. exact E.
Qed.

(** ... or into the register itself. *)
Lemma load_reg_wide x s u h o m o0 p q em :
  st x s u h x → (size (held_i u) <= 2)%nat → reg_opnd o0 p q → mem_ok tc o m →
  opnd_bytes o ∈ [1; 2; 4; 8] → ir1_opnd_size o <= p_width p → p_width p = 64 ∨ p_width p = 32 →
  (em = UNKNOWN_EXTENSION ∧ ir1_opnd_size o = 64) ∨ em = ZERO_EXTENSION →
  ∃ s' u' h', does (load_ireg_from_ir1_mem tc (gp q) o em false) s h tt s' h' ∧
    st x s' u' h' (write_part x p (mem_value tc env x o m)) ∧ held_i u ⊆ held_i u' ∧ hflags h' = hflags h.
Proof using All.
  intros S Hs R Hm Hb Ew Hw He. pose proof (size_bytes o Hb) as Bo.
  destruct (load_mem_does tc H64 Haddr env x s u h q (λ x R, set_xreg x (p_num p) R) o m em S Hm Hb Hs)
    as (V & s2 & u2 & h2 & D & S2 & (Q1 & _ & Q3 & _) & _ & E); [right; eexists; split; [apply (ro_at _ _ _ R)|done]|].
  exists s2, u2, h2. split; [done|]. split; [|split; [done|unfold hflags; by rewrite Q3]].
  assert (B : in_u (ir1_opnd_size o) (mem_value tc env x o m)).
  { unfold mem_value. replace (ir1_opnd_size o) with (8 * Z.of_nat (Z.to_nat (opnd_bytes o))); [apply load_le_range|].
    unfold ir1_opnd_size in *. rewrite Z.shiftl_mul_pow2 in * by lia. lia. }
  assert (Eu : u64 V = mem_value tc env x o m).
  { destruct He as [[-> Es]| ->]; simpl in E; [|rewrite E; by apply uwrap_id].
    rewrite Es in *. unfold eqw in E. rewrite (uwrap_id 64 (mem_value _ _ _ _ _)) in E by done.
    rewrite <- E. symmetry. apply (eqw_u64 64). lia. }
  destruct (write_part_wide x p (mem_value tc env x o m)) as (W64 & W32 & _).
  assert (P32 : p_width p = 32 → u32 (mem_value tc env x o m) = mem_value tc env x o m).
  { intros Ep. apply uwrap_id. unfold in_u in *. pose proof (Z.pow_le_mono_r 2 (ir1_opnd_size o) 32). lia. }
  destruct Hw as [Ep|Ep]; [rewrite W64 by done|rewrite W32, P32 by done]; (eapply st_eq; [exact S2|]; cbv beta;
    rewrite Eu; symmetry; apply uwrap_id; unfold in_u in *; pose proof (Z.pow_le_mono_r 2 (ir1_opnd_size o) 64); lia).
Qed.

Lemma mov_mem_gpr x s u h o0 o1 m p0 q0 :
  st x s u h x → (size (held_i u) <= 1)%nat → reg_opnd o0 p0 q0 → mem_ok tc o1 m → opnd_bytes o1 ∈ [1; 2; 4; 8] →
  ir1_opnd_size o1 = p_width p0 →
  wp (translate_mov_from_mem tc o0 o1) s h
    (λ _ s' h', reached x (write_part x p0 (mem_value tc env x o1 m)) (hflags h) s' h').
Proof using All.
  intros S Hs R0 Hm Hb Ew. unfold translate_mov_from_mem.
  eapply wp_lift; [rewrite (ro_num _ _ _ R0); apply (ro_alloc _ _ _ R0)|].
  destruct (alloc_ok x s u h S ltac:(lia)) as (t & s1 & A & S1 & P & N & It & T0).
  eapply wp_step; [exact A|]. pose proof (take_held u t) as Ht.
  assert (Hs1 : (size (held_i (take_reg u t)) <= 2)%nat).
  { pose proof (q_size _ _ _ _ _ (quiet_take u t h N)). lia. }
  pose proof (λ msb lsb, load_part_free x s1 _ h o1 m o0 p0 q0 t msb lsb S1 Ht Hs1 R0 Hm Hb Ew) as K.
  assert (L : ∀ em, p_width p0 = 64 ∨ p_width p0 = 32 →
    (em = UNKNOWN_EXTENSION ∧ ir1_opnd_size o1 = 64) ∨ em = ZERO_EXTENSION →
    wp (load_ireg_from_ir1_mem tc (gp q0) o1 em false) s1 h (λ _ s1 h1, wp (free_temp (gp t)) s1 h1
      (λ _ s' h', reached x (write_part x p0 (mem_value tc env x o1 m)) (hflags h) s' h'))).
  { intros em Hw He. destruct (load_reg_wide x s1 _ h o1 m o0 p0 q0 em S1 Hs1 R0 Hm Hb ltac:(lia) Hw He)
      as (s2 & u2 & h2 & D & S2 & Q & F). eapply wp_done; [exact D|]. eapply free_wp; [done|done|by apply Q]. }
  apply wp_bind. rewrite (ro_size _ _ _ R0), H64, (ro_8l _ _ _ R0), (ro_gpr _ _ _ R0).
  destruct (reg_shape _ _ _ R0) as [[Ep El]|[[Ep El]|[[Ep El]|[[Ep El]|[Ep El]]]]]; rewrite ?Ep, ?El;
    cbn [andb Z.eqb Pos.eqb]; first [apply K; lia|apply L; [lia|auto with lia]].
Qed.

(** ** MOV as a whole *)

(** The operands of an instruction with two of them. *)
Definition two_opnds (o0 o1 : IR1_OPND) : Prop :=
  ir1_get_opnd pir1 0 = Some o0 ∧ ir1_get_opnd pir1 1 = Some o1 ∧ opnd_ok tc o0 ∧ opnd_ok tc o1.

(** What a routine that leaves the flags alone has to reach. *)
Definition result (x x' : x86) (F : Z) (b : bool) (s : temps) (h : host) : Prop := b = true ∧ reached x x' F s h.

Lemma wp_true x x' F (m : M unit) s h :
  wp m s h (λ _ s' h', reached x x' F s' h') → wp (_ ← m; mret true) s h (result x x' F).
Proof using Type. intros H. apply wp_bind. eapply wp_mono; [exact H|]. intros y s' h' K. by apply wp_ret. Qed.

Lemma mov_ok x x' s u h o0 o1 :
  st x s u h x → (size (held_i u) = 0)%nat → two_opnds o0 o1 → opnd_bytes o0 = opnd_bytes o1 →
  ir1_opnd_is_mem o0 && ir1_opnd_is_mem o1 = false → use_smc_opt tc = false →
  x86_mov (seg x) pir1 (read_opnd (seg x) pir1) x = Some x' →
  wp (translate_mov tc) s h (result x x' (hflags h)).
Proof using All.
  intros S Hs (E0 & E1 & [W0 M0] & [W1 M1]) Eb Nm Smc E. unfold translate_mov.
  eapply wp_lift; [exact E0|]. eapply wp_lift; [exact E1|]. apply wp_true.
  unfold x86_mov in E. rewrite E0, E1 in E. cbn [mbind option_bind] in E.
  destruct (read_opnd (seg x) pir1 x o1) as [V|] eqn:Er; [|done]. cbn [mbind option_bind] in E.
  assert (Ez : ir1_opnd_size o1 = ir1_opnd_size o0) by (unfold ir1_opnd_size; by rewrite Eb).
  unfold ir1_opnd_is_mem in Nm. destruct (opnd_op o0) as [|r0|v0|m0] eqn:O0; try (by unfold opnd_wf in W0; rewrite O0 in W0).
  - (* to a register *)
    destruct (reg_opnd_wf o0 r0 O0 W0) as (p0 & q0 & R0). rewrite (ro_write _ _ _ R0) in E. injection E as <-.
    rewrite (ro_size _ _ _ R0) in Ez. destruct (opnd_op o1) as [|r1|v1|m1] eqn:O1; try (by unfold opnd_wf in W1; rewrite O1 in W1).
    + destruct (reg_opnd_wf o1 r1 O1 W1) as (p1 & q1 & R1). rewrite (ro_read _ _ _ R1) in Er. injection Er as <-.
      rewrite (ro_gpr _ _ _ R1). apply (mov_gpr_gpr x s u h o0 o1 p0 q0 p1 q1); try done; [lia|].
      by rewrite <- (ro_size _ _ _ R1).
    + unfold read_opnd in Er. rewrite O1 in Er. injection Er as <-. rewrite (ro_gpr _ _ _ R0), Ez.
      apply (mov_imm_gpr x s u h o0 o1 p0 q0 v1); try done; [lia|by eapply imm_opnd_wf].
    + unfold read_opnd in Er. rewrite O1 in Er. injection Er as <-.
      apply (mov_mem_gpr x s u h o0 o1 m1 p0 q0); try done; [lia|by eapply mem_opnd_wf].
  - (* immediates are no destination *)
    unfold write_opnd in E. by rewrite O0 in E.
  - (* to memory *)
    pose proof (mem_opnd_wf o0 m0 O0 W0) as B0. unfold write_opnd in E. rewrite O0 in E. injection E as <-.
    destruct (opnd_op o1) as [|r1|v1|m1] eqn:O1; try (by unfold opnd_wf in W1; rewrite O1 in W1).
    + destruct (reg_opnd_wf o1 r1 O1 W1) as (p1 & q1 & R1). rewrite (ro_read _ _ _ R1) in Er. injection Er as <-.
      rewrite (ro_gpr _ _ _ R1). apply (mov_gpr_mem x s u h o0 o1 m0 p1 q1); try done; [lia|].
      by rewrite <- (ro_size _ _ _ R1).
    + assert (G : ir1_opnd_is_gpr o0 = false) by (unfold ir1_opnd_is_gpr; by rewrite O0). rewrite G.
      destruct (load_ok tc H64 Haddr env x s u h o1 UNKNOWN_EXTENSION V S) as (r & s1 & u1 & h1 & D & S1 & Q & [Ir Ow] & Ex);
        [split; [done|by rewrite O1]|lia|done|].
      eapply wp_step; [exact D|]. apply (store_wp x s1 u1 h1 o0 m0 r); try done.
      * pose proof (q_size _ _ _ _ _ Q). unfold grow, ir1_opnd_is_mem in *. rewrite O1 in *. lia.
      * destruct Ow as [?|[? _]]; auto.
      * simpl in Ex. by rewrite Ez in Ex.
      * unfold hflags. by rewrite (q_sys _ _ _ _ _ Q).
Qed.
End transfer.
