(* ===== verification/TrMovxOk.v ===== *)
(** * Extending, conditional and exchanging moves

    MOVZX, MOVSX, MOVSXD, CMOVcc and XCHG against file X86. *)

From stdpp Require Import base numbers list option strings gmap sets tactics.
From Stdlib Require Import ZArith Lia Bool.
From S2P Require Import Prelude Ir1Enum Ir1 HbrGpr LisaTable Ir2 LaAssemble LaAppend RegMap X86 WordEq.
From S2P Require Import ImmCache ImmCacheSound ImmCacheMain RegAlloc LaSem MacroHelper.
From S2P Require Import MemInterface MemInterfaceOk MemInterfaceMain CacheIndex TrOpnd TrOpndOk TrMov TrMovOk.
Local Open Scope Z_scope.
Local Open Scope c_scope.

Lemma take_two u n c1 c2 :
  (c1 ∉ held_i u) → (c2 ∉ held_i (take_reg u c1)) → n ∈ held_i u →
  c1 ∈ held_i (take_reg (take_reg u c1) c2) ∧ c2 ∈ held_i (take_reg (take_reg u c1) c2) ∧
  n ∈ held_i (take_reg (take_reg u c1) c2) ∧ c1 ≠ c2 ∧ c1 ≠ n ∧ c2 ≠ n.
Proof. simpl. intros. split_and!; set_solver. Qed.

Lemma drop_other u a b : b ∈ held_i u → a ≠ b → b ∈ held_i (drop_reg u a).
Proof. simpl. set_solver. Qed.

(** ** Parts of registers *)

(** The register a part belongs to. *)
Definition reg_at (p : reg_part) : option dt_x86_reg :=
  match p_width p, p_lsb p with
  | 64, _ => aget gpr64 (p_num p)
  | 32, _ => aget gpr32 (p_num p)
  | 16, _ => aget gpr16 (p_num p)
  | _, 0 => aget gpr8 (p_num p)
  | _, _ => aget gpr8h (p_num p)
  end.

Lemma part_of_inj r r' p : part_of r = Some p → part_of r' = Some p → r = r'.
Proof.
  assert (H : ∀ r p, part_of r = Some p → reg_at p = Some r).
  { intros a b E. destruct a; vm_compute in E; try discriminate E; injection E as <-; reflexivity. }
  intros E E'. apply H in E, E'. congruence.
Qed.

(** A part written with its own value. *)
Lemma write_own x p n :
  (p_width p, p_lsb p) ∈ [(64, 0); (16, 0); (8, 0); (8, 8)] → in_u 64 (xreg x (p_num p)) →
  xreg (write_part x p (read_part x p)) n = xreg x n.
Proof.
  intros Hp B. unfold write_part, read_part. simpl. destruct (Z.eqb_spec n (p_num p)) as [->|]; [|done].
  set (X := xreg x (p_num p)) in *. transitivity (u64 X); [|by apply uwrap_id]. clearbody X.
  destruct p as [k w l]. simpl in *.
  repeat (apply elem_of_cons in Hp as [[= -> ->]|Hp]); [..|by apply elem_of_nil in Hp]; cbn iota.
  1: { rewrite Z.shiftr_0_r. apply (eqw_uwrap 64 64). lia. }
  all: apply u64_bits; intros i Hi; rewrite testbit_insert by lia; destruct (_ && _) eqn:E; [|done]; bool_to_prop;
    rewrite testbit_uwrap, Z.shiftr_spec by lia;
    match goal with |- (?a <? ?b) && _ = _ => destruct (Z.ltb_spec a b); [simpl; f_equal; lia|lia] end.
Qed.

Definition apart (p q : reg_part) : Prop := p_num p ≠ p_num q ∨ (p_width p = 8 ∧ p_width q = 8 ∧ p_lsb p ≠ p_lsb q).

(** Parts that are apart can be written in either order. *)
Lemma write_swap x p q a b n :
  apart p q → (p_width p, p_lsb p) ∈ [(64, 0); (32, 0); (16, 0); (8, 0); (8, 8)] →
  (p_width q, p_lsb q) ∈ [(64, 0); (32, 0); (16, 0); (8, 0); (8, 8)] →
  xreg (write_part (write_part x p a) q b) n = xreg (write_part (write_part x q b) p a) n.
Proof.
  intros A Hp Hq. destruct p as [k w l], q as [k' w' l']. unfold write_part, apart in *. simpl in *.
  destruct (Z.eqb_spec k' k) as [->|Nk].
  - destruct A as [A|(-> & -> & A)]; [done|]. rewrite Z.eqb_refl. destruct (Z.eqb_spec n k); [|done].
    assert (L : ∀ l, (8, l) ∈ [(64, 0); (32, 0); (16, 0); (8, 0); (8, 8)] → l = 0 ∨ l = 8).
    { intros m H. repeat (apply elem_of_cons in H as [H|H]; [injection H; auto|]). by apply elem_of_nil in H. }
    apply u64_bits. intros i Hi. destruct (L l Hp) as [-> | ->], (L l' Hq) as [-> | ->]; try done;
      rewrite !testbit_insert by lia; unfold u64; rewrite !testbit_uwrap by lia; rewrite !testbit_insert by lia;
      destruct (Z.ltb_spec i 64); try lia; simpl; repeat case (Z.leb_spec _ _); intros; try done; lia.
  - rewrite (proj2 (Z.eqb_neq k k')) by done. destruct (Z.eqb_spec n k'), (Z.eqb_spec n k); congruence.
Qed.

Section movx.
Context (tc : trctx) `{!Qsort (qsort (mctx tc))}.
Local Notation ctx := (mctx tc).
Local Notation pir1 := (pir1 ctx).
Context (H64 : CODEIS64 ctx = true).
Context (Haddr : ir1_addr_size pir1 = 64).
Context (env : site).
Local Notation imm := (option_imm_reg ctx).
Local Notation st := (st (imm := imm) env).
Local Notation seg x := (seg_in (seg_base_off ctx) env x).
Local Notation alloc_ok := (st_alloc tc H64 Haddr env).
Local Notation reached := (reached tc env).
Local Notation result := (result tc env).

(** ** MOVZX *)

Lemma s32_bits X msb lsb : 0 <= lsb <= msb → msb - lsb + 1 <= 16 → s32 (bits_of X msb lsb) = bits_of X msb lsb.
Proof using Type.
  intros Hl Hm. apply swrap_id; [lia|]. unfold bits_of.
  pose proof (uwrap_range (msb - lsb + 1) (X >> lsb) ltac:(lia)) as [? ?].
  pose proof (Z.pow_le_mono_r 2 (msb - lsb + 1) 16). unfold in_s. lia.
Qed.

(** A field picked into a wide register. *)
Lemma pick_wide x s u h o0 p0 q0 q1 msb lsb :
  st x s u h x → reg_opnd o0 p0 q0 → is_reg q1 → p_width p0 = 64 ∨ p_width p0 = 32 →
  0 <= lsb <= msb → msb < 16 →
  wp (bstr "bstrpick.w" (gp q0) (gp q1) msb lsb) s h
    (λ _ s' h', reached x (write_part x p0 (bits_of (rget h q1) msb lsb)) (hflags h) s' h').
Proof using Type.
  intros S R0 I1 Hw Hl Hm. pose proof (ro_at _ _ _ R0) as H0. destruct (gpr_at_facts _ _ H0) as (I0 & Z0 & _ & _).
  destruct (pickw_does s h q0 q1 msb lsb) as (h' & D & W); try done; [lia|]. eapply wp_done; [exact D|].
  pose proof (s32_bits (rget h q1) msb lsb Hl ltac:(lia)) as E.
  eapply reached_sets; [|done|done]. destruct Hw as [Ew|Ew].
  - eapply st_part_64; [done..|]. cbv beta. by rewrite E.
  - eapply st_part_32; [done..|]. cbv beta. rewrite E.
    assert (B : in_u 32 (bits_of (rget h q1) msb lsb)).
    { pose proof (uwrap_range (msb - lsb + 1) (rget h q1 >> lsb) ltac:(lia)) as [? ?].
      pose proof (Z.pow_le_mono_r 2 (msb - lsb + 1) 16). unfold bits_of, in_u. lia. }
    unfold u64, u32. rewrite (uwrap_id 32), uwrap_id; [done| |done]. unfold in_u in *. lia.
Qed.

(** A field picked into a temporary, then put into the low 16 bits. *)
Lemma pick_16 x s u h o0 p0 q0 q1 msb lsb :
  st x s u h x → (size (held_i u) < 7)%nat → reg_opnd o0 p0 q0 → is_reg q1 → p_width p0 = 16 →
  0 <= lsb <= msb → msb < 16 →
  wp (t ← alloc_temp ctx; _ ← bstr "bstrpick.w" t (gp q1) msb lsb; _ ← bstr "bstrins.d" (gp q0) t 15 0; free_temp t) s h
    (λ _ s' h', reached x (write_part x p0 (bits_of (rget h q1) msb lsb)) (hflags h) s' h').
Proof using All.
  intros S Hs R0 I1 Ew Hl Hm. destruct (alloc_ok x s u h S Hs) as (t & s1 & A & S1 & P & N & It & T0).
  eapply wp_step; [exact A|]. pose proof (take_held u t) as Ht.
  destruct (pickw_does s1 h t q1 msb lsb) as (h1 & D & W); try done; [lia|]. eapply wp_step; [exact D|].
  apply wp_bind. assert (p_lsb p0 = 0) by (destruct (reg_shape _ _ _ R0) as [[]|[[]|[[]|[[]|[]]]]]; lia).
  eapply (part_free tc env x s1 (take_reg u t) h1 o0 p0 q0 t); try (done || lia); [by eapply st_temp| |by eapply flags_kept].
  rewrite (proj1 W), s32_bits by lia. rewrite Ew. apply eqw_u64. lia.
Qed.

(** The same register: its second byte is cleared. *)
Lemma clear_byte x s u h o0 p0 q0 :
  st x s u h x → reg_opnd o0 p0 q0 → p_width p0 = 16 →
  wp (bstr "bstrins.d" (gp q0) zero_ir2_opnd 15 8) s h
    (λ _ s' h', reached x (write_part x p0 (bits_of (rget h q0) 7 0)) (hflags h) s' h').
Proof using Type.
  intros S R0 Ew. pose proof (ro_at _ _ _ R0) as H0. destruct (gpr_at_facts _ _ H0) as (I0 & Z0 & _ & _).
  assert (El : p_lsb p0 = 0) by (destruct (reg_shape _ _ _ R0) as [[]|[[]|[[]|[[]|[]]]]]; lia).
  destruct (ins_does s h q0 0 15 8) as (h' & D & W); try done. eapply wp_done; [exact D|].
  eapply reached_sets; [|done|done]. rewrite (proj2 (proj2 (write_part_wide x p0 _))) by (by left).
  eapply st_eq; [by eapply st_gpr|]. cbv beta. rewrite Ew, El.
  rewrite (sim_reg _ _ _ (st_sim _ _ _ _ _ _ S)) by apply H0. rewrite (gpr_at_val _ q0) by done.
  apply u64_bits. intros i Hi. change (0 + 16 - 1) with 15. rewrite !testbit_insert, rget_0 by lia.
  destruct (Z.leb_spec 0 i); [|lia]. cbn [andb]. rewrite Z.sub_0_r.
  destruct (Z.leb_spec i 15); [|by destruct (8 <=? i)]. rewrite testbit_bits_of, Z.add_0_r by lia.
  destruct (Z.leb_spec 8 i); cbn [andb].
  - rewrite Z.bits_0. destruct (Z.ltb_spec i (7 - 0 + 1)); [lia|done].
  - destruct (Z.ltb_spec i (7 - 0 + 1)); [done|lia].
Qed.

Lemma movzx_ok x x' s u h o0 o1 :
  st x s u h x → (size (held_i u) = 0)%nat → two_opnds tc o0 o1 → ir1_opnd_size o1 < ir1_opnd_size o0 →
  ir1_opnd_size o1 <= 16 → ir1_opnd_is_gpr o0 = true → ir1_opnd_is_imm o1 = false →
  x86_mov (seg x) pir1 (read_opnd (seg x) pir1) x = Some x' →
  wp (translate_movzx tc) s h (result x x' (hflags h)).
Proof using All.
  intros S Hs (E0 & E1 & [W0 M0] & [W1 M1]) Hz Hz16 G0 NI E. unfold translate_movzx.
  eapply wp_lift; [exact E1|]. eapply wp_lift; [exact E0|]. eapply wp_check; [done|].
  unfold x86_mov in E. rewrite E0, E1 in E. cbn [mbind option_bind] in E.
  destruct (read_opnd (seg x) pir1 x o1) as [V|] eqn:Er; [|done]. cbn [mbind option_bind] in E.
  destruct (gpr_is_reg o0 G0) as [r0 O0]. destruct (reg_opnd_wf o0 r0 O0 W0) as (p0 & q0 & R0).
  rewrite (ro_write _ _ _ R0) in E. injection E as <-. rewrite (ro_size _ _ _ R0) in *.
  eapply wp_lift; [rewrite (ro_num _ _ _ R0); apply (ro_alloc _ _ _ R0)|].
  unfold ir1_opnd_is_imm in NI. destruct (opnd_op o1) as [|r1|v1|m1] eqn:O1; try done; [by unfold opnd_wf in W1; rewrite O1 in W1|..].
  - (* register *)
    destruct (reg_opnd_wf o1 r1 O1 W1) as (p1 & q1 & R1). rewrite (ro_read _ _ _ R1) in Er. injection Er as <-.
    pose proof (ro_at _ _ _ R1) as H1. destruct (gpr_at_facts _ _ H1) as (I1 & _ & _ & _).
    rewrite (read_part_sim env h x p1 q1 (st_sim _ _ _ _ _ _ S) H1). rewrite (ro_size _ _ _ R1) in *.
    rewrite (ro_gpr _ _ _ R1). eapply wp_lift; [rewrite (ro_num _ _ _ R1); apply (ro_alloc _ _ _ R1)|].
    apply wp_true. rewrite H64, (ro_8h _ _ _ R1), (ro_16 _ _ _ R0), (ro_16 _ _ _ R1), (ro_8l _ _ _ R1), (ro_num _ _ _ R0), (ro_num _ _ _ R1).
    assert (Bits : ∀ l w, 0 < w → 0 <= l → uwrap w (rget h q1 >> l) = bits_of (rget h q1) (l + w - 1) l).
    { intros l w Hw Hl. unfold bits_of. f_equal. lia. }
    destruct (reg_shape _ _ _ R1) as [[A B]|[[A B]|[[A B]|[[A B]|[A B]]]]]; rewrite A, B in *; try lia;
      rewrite Bits by lia; cbn [andb Z.eqb Pos.eqb].
    + destruct (Z.eqb_spec (p_width p0) 16); [lia|]. eapply wp_check; [done|].
      eapply (pick_wide x s u h o0); try done; try lia. destruct (reg_shape _ _ _ R0) as [[]|[[]|[[]|[[]|[]]]]]; lia.
    + destruct (Z.eqb_spec (p_width p0) 16) as [Ew|Nw].
      * eapply (pick_16 x s u h o0); try done; lia.
      * eapply (pick_wide x s u h o0); try done; try lia. destruct (reg_shape _ _ _ R0) as [[]|[[]|[[]|[[]|[]]]]]; lia.
    + destruct (Z.eqb_spec (p_width p0) 16) as [Ew|Nw].
      * destruct (Z.eqb_spec (p_num p1) (p_num p0)) as [En|Nn]; [|eapply (pick_16 x s u h o0); try done; lia].
        assert (q1 = q0) as ->.
        { destruct H1 as [_ H1], (ro_at _ _ _ R0) as [_ H0]. rewrite En, H0 in H1. by injection H1. }
        by apply (clear_byte x s u h o0).
      * eapply wp_check; [done|]. eapply (pick_wide x s u h o0); try done; try lia.
        destruct (reg_shape _ _ _ R0) as [[]|[[]|[[]|[[]|[]]]]]; lia.
  - (* memory *)
    assert (G1 : ir1_opnd_is_gpr o1 = false) by (unfold ir1_opnd_is_gpr; by rewrite O1). rewrite G1, H64.
    apply wp_true. destruct (Z.leb_spec 32 (p_width p0)) as [Hw|Hw].
    + unfold read_opnd in Er. rewrite O1 in Er. injection Er as <-.
      destruct (load_reg_wide tc H64 Haddr env x s u h o1 m1 o0 p0 q0 ZERO_EXTENSION S)
        as (s' & u' & h' & D & S' & _ & F); try done; try lia; [by eapply mem_opnd_wf| |by right|].
      { destruct (reg_shape _ _ _ R0) as [[]|[[]|[[]|[[]|[]]]]]; lia. }
      eapply wp_done; [exact D|]. by exists u'.
    + destruct (load_ok tc H64 Haddr env x s u h o1 ZERO_EXTENSION V S) as (r & s1 & u1 & h1 & D & S1 & Q & [Ir Ow] & Ex);
        [split; [done|by rewrite O1]|lia|done|].
      eapply wp_step; [exact D|].
      destruct (store_reg_ok tc env x s1 u1 h1 x o0 p0 q0 r V S1 R0 Ir) as (h' & D' & S' & K & _).
      * destruct (read_range tc env x o1 V) as [B _]; [split; [done|by rewrite O1]|done|].
        simpl in Ex. by rewrite Ex, uwrap_id.
      * eapply wp_done; [exact D'|]. exists u1. split; [done|]. unfold hflags. by rewrite K, (q_sys _ _ _ _ _ Q).
Qed.

(** ** MOVSX, MOVSXD *)

Lemma movsx_ok x x' s u h o0 o1 :
  st x s u h x → (size (held_i u) = 0)%nat → two_opnds tc o0 o1 → ir1_opnd_is_gpr o0 = true →
  x86_mov (seg x) pir1 (read_signed (seg x) pir1) x = Some x' →
  wp (translate_movsx tc) s h (result x x' (hflags h)).
Proof using All.
  intros S Hs (E0 & E1 & [W0 M0] & K1) G0 E. unfold translate_movsx. eapply wp_lift; [exact E1|].
  unfold x86_mov, read_signed in E. rewrite E0, E1 in E. cbn [mbind option_bind] in E.
  destruct (read_opnd (seg x) pir1 x o1) as [V|] eqn:Er; [|done]. cbn [mbind option_bind] in E.
  destruct (gpr_is_reg o0 G0) as [r0 O0]. destruct (reg_opnd_wf o0 r0 O0 W0) as (p0 & q0 & R0).
  rewrite (ro_write _ _ _ R0) in E. injection E as <-.
  destruct (load_ok tc H64 Haddr env x s u h o1 SIGN_EXTENSION V S K1) as (r & s1 & u1 & h1 & D & S1 & Q & [Ir Ow] & Ex);
    [lia|done|]. eapply wp_step; [exact D|]. eapply wp_lift; [exact E0|]. apply wp_true.
  destruct (store_reg_ok tc env x s1 u1 h1 x o0 p0 q0 r (swrap (ir1_opnd_size o1) V) S1 R0 Ir) as (h' & D' & S' & K & _).
  - simpl in Ex. rewrite Ex. apply eqw_u64.
    destruct (reg_shape _ _ _ R0) as [[]|[[]|[[]|[[]|[]]]]]; lia.
  - eapply wp_done; [exact D'|]. exists u1. split; [done|]. unfold hflags. by rewrite K, (q_sys _ _ _ _ _ Q).
Qed.

(** A register written twice. *)
Lemma st_twice x0 s u h x n a b : st x0 s u h (set_xreg (set_xreg x n a) n b) → st x0 s u h (set_xreg x n b).
Proof using Type.
  intros [T M [R Mm E] N]. split; [done|done| |done]. split; [|done|done]. intros k Hk. rewrite <- R by done. simpl.
  by destruct (k =? n).
Qed.

Lemma movsxd_ok x x' s u h o0 o1 :
  st x s u h x → (size (held_i u) = 0)%nat → two_opnds tc o0 o1 → ir1_opnd_is_gpr o0 = true →
  32 <= ir1_opnd_size o0 → x86_mov (seg x) pir1 (read_signed (seg x) pir1) x = Some x' →
  wp (translate_movsxd tc) s h (result x x' (hflags h)).
Proof using All.
  intros S Hs (E0 & E1 & [W0 M0] & K1) G0 Hw E. unfold translate_movsxd. eapply wp_lift; [exact E0|].
  eapply wp_check; [done|]. unfold x86_mov, read_signed in E. rewrite E0, E1 in E. cbn [mbind option_bind] in E.
  destruct (read_opnd (seg x) pir1 x o1) as [V|] eqn:Er; [|done]. cbn [mbind option_bind] in E.
  destruct (gpr_is_reg o0 G0) as [r0 O0]. destruct (reg_opnd_wf o0 r0 O0 W0) as (p0 & q0 & R0).
  pose proof (ro_at _ _ _ R0) as H0. destruct (gpr_at_facts _ _ H0) as (I0 & Z0 & _ & _).
  rewrite (ro_write _ _ _ R0) in E. injection E as <-. rewrite (ro_size _ _ _ R0) in *.
  eapply wp_lift; [rewrite (ro_num _ _ _ R0); apply (ro_alloc _ _ _ R0)|]. eapply wp_lift; [exact E1|].
  destruct (load_into_ok tc H64 Haddr env x s u h q0 (λ x R, set_xreg x (p_num p0) R) o1 SIGN_EXTENSION V S)
    as (R & s1 & u1 & h1 & D & S1 & (_ & _ & K & _) & Vr & Ex); [right; by eexists|done|lia|done|].
  eapply wp_step; [exact D|]. rewrite H64. simpl in Ex. set (V' := swrap (ir1_opnd_size o1) V) in *.
  apply wp_true. destruct (write_part_wide x p0 V') as (W64 & W32 & _).
  destruct (Z.eqb_spec (p_width p0) 32) as [Ew|Nw].
  - destruct (mov_zx_does s1 h1 q0 q0 I0 Z0 I0) as (h2 & D2 & W2). eapply wp_done; [exact D2|].
    exists u1. split; [|rewrite (flags_kept _ _ _ _ W2); unfold hflags; by rewrite K]. rewrite W32 by done.
    apply (st_twice x s1 u1 h2 x (p_num p0) R). eapply st_eq; [by eapply st_gpr|]. cbv beta.
    rewrite Vr, Ex. unfold u64, u32. f_equal. apply (eqw_u64 32). lia.
  - apply wp_ret. exists u1. split; [|unfold hflags; by rewrite K]. rewrite W64; [by eapply st_eq|].
    destruct (reg_shape _ _ _ R0) as [[]|[[]|[[]|[[]|[]]]]]; lia.
Qed.

(** ** CMOVcc *)

(** The condition of the instruction is the one its flags are tested for. *)
Lemma cond_emitted x b d :
  cond_holds (ir1_opcode pir1) x = Some b →
  ∃ c, jcc_of (ir1_opcode pir1) = Some c ∧ 0 <= c < 16 ∧ lbt_cond c (xflags x) = b ∧
    get_eflag_condition tc d = (c ← lift (Some c); r1i "setx86j" d c).
Proof using Type.
  unfold get_eflag_condition. destruct (ir1_opcode pir1); try discriminate; intros [= <-];
    (eexists; split; [reflexivity|split; [lia|split; reflexivity]]).
Qed.

Lemma masked_or (b : bool) d v :
  Z.lor (u64 (if Z.b2z b =? 0 then d else 0)) (u64 (if Z.b2z b =? 0 then 0 else v)) = u64 (if b then v else d).
Proof using Type. destruct b; [done|apply Z.lor_0_r]. Qed.

(** Both conditional parts and their union, into [d]. *)
Lemma select_does s h n r q c1 c2 b :
  rget h n = Z.b2z b → is_reg n → is_reg r → is_reg q → is_reg c1 → is_reg c2 → c1 ≠ 0 → c2 ≠ 0 →
  c1 ≠ c2 → c1 ≠ n → c1 ≠ r →
  ∃ h1 h2, does (r3 "masknez" (gp c1) (gp q) (gp n)) s h tt s h1 ∧
    does (r3 "maskeqz" (gp c2) (gp r) (gp n)) s h1 tt s h2 ∧
    (∃ v, sets c1 v h h1) ∧ (∃ v, sets c2 v h1 h2) ∧
    ∀ d, is_reg d → d ≠ 0 → ∃ h3, does (r3 "or" (gp d) (gp c1) (gp c2)) s h2 tt s h3 ∧
      sets d (λ _, if b then rget h r else rget h q) h2 h3.
Proof using Type.
  intros Eb In Ir Iq I1 I2 Z1 Z2 N12 N1n N1r.
  destruct (r3_does s h "masknez" _ c1 q n _) as (h1 & D1 & W1); try done.
  destruct (r3_does s h1 "maskeqz" _ c2 r n _) as (h2 & D2 & W2); try done.
  exists h1, h2. split_and!; [done|done|by eexists|by eexists|]. intros d Id Z0.
  destruct (r3_does s h2 "or" _ d c1 c2 _) as (h3 & D3 & W3); try done. exists h3. split; [done|].
  eapply sets_eq; [exact W3|]. cbv beta. destruct W1 as (V1 & F1 & _), W2 as (V2 & F2 & _).
  rewrite (F2 c1), V1, V2, (F1 n), (F1 r), Eb, masked_or by done. unfold u64. apply (eqw_uwrap 64 64). lia.
Qed.

Lemma free_three {A} (y : A) x x' F s u h a b c :
  st x s u h x' → hflags h = F → a ∈ held_i u → b ∈ held_i u → c ∈ held_i u → a ≠ b → a ≠ c → b ≠ c →
  wp (_ ← free_temp (gp a); _ ← free_temp (gp b); _ ← free_temp (gp c); mret y) s h
    (λ z s' h', z = y ∧ reached x x' F s' h').
Proof using Type.
  intros S E Ha Hb Hc Nab Nac Nbc. destruct (st_free env x s u h x' a S Ha) as (s1 & D1 & S1).
  eapply wp_step; [exact D1|]. destruct (st_free env x s1 _ h x' b S1) as (s2 & D2 & S2); [by apply drop_other|].
  eapply wp_step; [exact D2|]. eapply free_reached; [exact S2|done|]. by repeat apply drop_other.
Qed.

(** From the condition in [n] and the source in [r] to the end. *)
Lemma select_ok x s u h o0 p0 q0 n r b V :
  st x s u h x → (size (held_i u) <= 3)%nat → reg_opnd o0 p0 q0 → 16 <= p_width p0 → n ∈ held_i u →
  rget h n = Z.b2z b → is_reg r → (r ∉ reg_itemp_map) ∨ r ∈ held_i u → rget h r ≡[p_width p0] V →
  wp (cond1 ← alloc_temp ctx; cond2 ← alloc_temp ctx;
      _ ← r3 "masknez" cond1 (gp q0) (gp n); _ ← r3 "maskeqz" cond2 (gp r) (gp n);
      _ ← (if ir1_opnd_size o0 =? 64 then r3 "or" (gp q0) cond1 cond2
           else _ ← r3 "or" cond1 cond1 cond2; store_ireg_to_ir1 tc cond1 o0 false);
      _ ← free_temp cond1; _ ← free_temp cond2; _ ← free_temp (gp n); mret true) s h
    (result x (write_part x p0 (if b then V else read_part x p0)) (hflags h)).
Proof using All.
  intros S Hs R0 Hw Hn Eb Ir Ow Ev. pose proof (ro_at _ _ _ R0) as H0.
  destruct (gpr_at_facts _ _ H0) as (I0 & Z0 & _ & P0).
  destruct (pool_reg n (held_temp _ _ _ (st_temps _ _ _ _ _ _ S) Hn)) as [In _].
  destruct (alloc_ok x s u h S ltac:(lia)) as (c1 & s3 & A1 & S4 & P1 & N1 & I1 & Z1). eapply wp_step; [exact A1|].
  pose proof (q_size _ _ _ _ _ (quiet_take u c1 h N1)).
  destruct (alloc_ok x s3 _ h S4 ltac:(lia)) as (c2 & s4 & A2 & S5 & P2 & N2 & I2 & Z2). eapply wp_step; [exact A2|].
  destruct (take_two u n c1 c2 N1 N2 Hn) as (T1 & T2 & T3 & N12 & N1n & N2n).
  assert (Nr : c1 ≠ r) by (intros <-; by destruct Ow).
  destruct (select_does s4 h n r q0 c1 c2 b) as (h3 & h4 & D3 & D4 & [v3 W3] & [v4 W4] & Or); try done.
  eapply wp_step; [exact D3|]. eapply wp_step; [exact D4|].
  pose proof (st_temp _ _ _ _ _ _ _ _ _ (st_temp _ _ _ _ _ _ _ _ _ S5 T1 W3) T2 W4) as S6.
  assert (F4 : hflags h4 = hflags h) by (by rewrite (flags_kept _ _ _ _ W4), (flags_kept _ _ _ _ W3)).
  assert (E : (if b then rget h r else rget h q0) ≡[p_width p0] (if b then V else read_part x p0)).
  { destruct b; [done|]. rewrite (read_part_sim env h x p0 q0 (st_sim _ _ _ _ _ _ S) H0).
    assert (p_lsb p0 = 0) as -> by (destruct (reg_shape _ _ _ R0) as [[]|[[]|[[]|[[]|[]]]]]; lia).
    rewrite Z.shiftr_0_r. symmetry. apply eqw_uwrap. lia. }
  rewrite (ro_size _ _ _ R0). destruct (Z.eqb_spec (p_width p0) 64) as [Ew|Ew].
  - destruct (Or q0 I0 Z0) as (h5 & D5 & W5). eapply wp_step; [exact D5|].
    eapply free_three; [|by rewrite (flags_kept _ _ _ _ W5)|done..]. eapply st_part_64; try done. by rewrite Ew in E.
  - destruct (Or c1 I1 Z1) as (h5 & D5 & W5).
    destruct (store_reg_ok tc env x s4 _ h5 x o0 p0 q0 c1
      (if b then V else read_part x p0) (st_temp _ _ _ _ _ _ _ _ _ S6 T1 W5) R0 I1) as (h6 & D6 & S7 & K & _).
    { rewrite (proj1 W5). cbv beta. etrans; [|exact E]. apply eqw_u64.
      destruct (reg_shape _ _ _ R0) as [[]|[[]|[[]|[[]|[]]]]]; lia. }
    eapply wp_step; [eapply does_bind; [exact D5|exact D6]|].
    eapply free_three; [exact S7| |done..]. unfold hflags in *. rewrite K. by rewrite <- F4, (proj2 (proj2 W5)).
Qed.

Lemma cmov_ok x x' s u h o0 o1 :
  st x s u h x → (size (held_i u) = 0)%nat → two_opnds tc o0 o1 → ir1_opnd_is_gpr o0 = true →
  16 <= ir1_opnd_size o0 → opnd_bytes o0 = opnd_bytes o1 →
  (∀ c, jcc_of (ir1_opcode pir1) = Some c → lbt_cond c (hflags h) = lbt_cond c (xflags x)) →
  x86_cmov (seg x) pir1 x = Some x' →
  wp (translate_cmovcc tc) s h (result x x' (hflags h)).
Proof using All.
  intros S Hs (E0 & E1 & [W0 _] & K1) G0 Hw Eb Hc E. unfold translate_cmovcc.
  destruct (gpr_is_reg o0 G0) as [r0 O0]. destruct (reg_opnd_wf o0 r0 O0 W0) as (p0 & q0 & R0).
  eapply wp_lift; [exact E0|]. eapply wp_lift; [exact E1|]. eapply wp_check; [done|].
  unfold x86_cmov in E. rewrite E0, E1 in E. cbn [mbind option_bind] in E.
  destruct (cond_holds (ir1_opcode pir1) x) as [b|] eqn:Ec; [|done]. cbn [mbind option_bind] in E.
  rewrite (ro_read _ _ _ R0) in E. cbn [mbind option_bind] in E.
  destruct (read_opnd (seg x) pir1 x o1) as [V|] eqn:Er; [|done]. cbn [mbind option_bind] in E.
  rewrite (ro_write _ _ _ R0) in E. injection E as <-.
  destruct (alloc_ok x s u h S ltac:(lia)) as (n & s1 & A & S1 & P & N & In & N0). eapply wp_step; [exact A|].
  pose proof (quiet_take u n h N) as Q1. pose proof (take_held u n) as Hn.
  destruct (cond_emitted x b (gp n) Ec) as (c & Ej & Bc & Ev & Eg). rewrite Eg.
  destruct (does_emits _ s1 _ _ _ h (emits_cond "setx86j" n c s1 _ In N0 Bc)) as (h1 & D1 & W1).
  eapply wp_step; [eapply does_bind; [by apply does_lift|exact D1]|].
  pose proof (st_temp _ _ _ _ _ _ _ _ _ S1 Hn W1) as S2. pose proof (q_size _ _ _ _ _ Q1).
  destruct (load_ok tc H64 Haddr env x s1 _ h1 o1 UNKNOWN_EXTENSION V S2 K1) as (r & s2 & u2 & h2 & D2 & S3 & Q2 & [Ir Ow] & Ex);
    [unfold room; case_match; lia|done|].
  eapply wp_step; [exact D2|]. eapply wp_lift; [rewrite (ro_num _ _ _ R0); apply (ro_alloc _ _ _ R0)|].
  assert (F : hflags h2 = hflags h).
  { unfold hflags. rewrite (q_sys _ _ _ _ _ Q2). apply (flags_kept _ _ _ _ W1). }
  rewrite <- F. apply (select_ok x s2 u2 h2 o0 p0 q0 n r); try done.
  - pose proof (q_size _ _ _ _ _ Q2). unfold grow in *. case_match; lia.
  - by rewrite (ro_size _ _ _ R0) in Hw.
  - by apply (q_held _ _ _ _ _ Q2).
  - rewrite (q_regs _ _ _ _ _ Q2) by (by right). rewrite (proj1 W1). cbv beta. rewrite Hc, Ev by done. by destruct b.
  - destruct Ow as [?|[? _]]; auto.
  - simpl in Ex. unfold ir1_opnd_size in Ex. rewrite <- Eb in Ex. by rewrite <- (ro_size _ _ _ R0).
Qed.

(** ** XCHG *)

Lemma convert_here s h o p q :
  reg_opnd o p q → p_lsb p = 0 → does (convert_gpr_opnd tc o UNKNOWN_EXTENSION) s h (gp q) s h.
Proof using Type.
  intros R L. unfold convert_gpr_opnd.
  eapply does_bind; [apply does_check, (ro_gpr _ _ _ R)|]. rewrite (ro_num _ _ _ R), (ro_size _ _ _ R).
  eapply does_bind; [apply does_lift, (ro_alloc _ _ _ R)|]. rewrite (ro_8h _ _ _ R).
  destruct (reg_shape _ _ _ R) as [[-> E]|[[-> E]|[[-> E]|[[-> E]|[-> E]]]]]; rewrite E in *; try done; apply does_ret.
Qed.

Lemma load_reg_here s h o p q :
  reg_opnd o p q → p_lsb p = 0 → does (load_ireg_from_ir1 tc o UNKNOWN_EXTENSION false) s h (gp q) s h.
Proof using Type.
  intros R L. destruct (gpr_is_reg o (ro_gpr _ _ _ R)) as [r Er]. unfold load_ireg_from_ir1.
  rewrite Er, (ro_gpr _ _ _ R). by apply (convert_here s h o p q).
Qed.

Lemma value_here h x p q :
  sim env h x → gpr_at (p_num p) q → p_lsb p = 0 → 0 <= p_width p → rget h q ≡[p_width p] read_part x p.
Proof using Type.
  intros S Hq L Hw. rewrite (read_part_sim env h x p q S Hq), L, Z.shiftr_0_r. symmetry. apply eqw_uwrap. lia.
Qed.

(** A register exchanged with itself. *)
Lemma xchg_same x s u h o p q v :
  st x s u h x → reg_opnd o p q → GHBR_ON tc = false → (p_lsb p = 0 → v = q) →
  wp (if negb (GHBR_ON tc) && CODEIS64 ctx && (ir1_opnd_size o =? 32) then m_mov32_zx (gp v) (gp v) else mret tt) s h
    (λ _ s' h', reached x (write_part (write_part x p (read_part x p)) p (read_part x p)) (hflags h) s' h').
Proof using H64.
  intros S R G Ev. pose proof (ro_at _ _ _ R) as Hq. destruct (gpr_at_facts _ _ Hq) as (Iq & Zq & _ & _).
  rewrite G, H64, (ro_size _ _ _ R). simpl. destruct (Z.eqb_spec (p_width p) 32) as [Ew|Ew].
  - rewrite Ev in * by (destruct (reg_shape _ _ _ R) as [[]|[[]|[[]|[[]|[]]]]]; lia).
    destruct (mov_zx_does s h q q Iq Zq Iq) as (h' & D & W). eapply wp_done; [exact D|].
    eapply reached_sets; [|done|exact W]. rewrite !(proj1 (proj2 (write_part_wide _ p _)) Ew).
    eapply st_ext; [eapply (st_part_32 tc env x s u h x p q _ (read_part x p)); [done..|]| |done].
    + cbv beta. rewrite (read_part_sim env h x p q (st_sim _ _ _ _ _ _ S) Hq), Ew.
      assert (p_lsb p = 0) as -> by (destruct (reg_shape _ _ _ R) as [[]|[[]|[[]|[[]|[]]]]]; lia).
      rewrite Z.shiftr_0_r. unfold u32. rewrite (eqw_uwrap 32 32 (rget h q) ltac:(lia)).
      apply uwrap_id. pose proof (uwrap_range 32 (rget h q) ltac:(lia)). unfold in_u in *. lia.
    + intros n. rewrite !(proj1 (proj2 (write_part_wide _ p _)) Ew). simpl. by destruct (n =? p_num p).
  - apply wp_ret. exists u. split; [|done]. assert (Sh : (p_width p, p_lsb p) ∈ [(64, 0); (16, 0); (8, 0); (8, 8)]).
    { destruct (reg_shape _ _ _ R) as [[-> ->]|[[? _]|[[-> ->]|[[-> ->]|[-> ->]]]]]; try done;
        apply (bool_decide_unpack _); vm_compute; exact I. }
    assert (Bx : in_u 64 (xreg x (p_num p))).
    { rewrite (sim_reg _ _ _ (st_sim _ _ _ _ _ _ S)) by apply Hq. rewrite (gpr_at_val _ q) by done. apply rget_range. }
    pose proof (λ n, write_own x p n Sh Bx) as W. eapply st_ext; [exact S| |done]. intros n. rewrite <- (W n).
    assert (Er : read_part x p = read_part (write_part x p (read_part x p)) p) by (unfold read_part at 1 2; by rewrite W).
    rewrite Er at 2. apply write_own; [done|]. by rewrite W.
Qed.

(** Both values are at hand and are stored, the second operand first. *)
Lemma xchg_store x s u h o0 o1 p0 q0 p1 q1 v t a b :
  st x s u h x → reg_opnd o0 p0 q0 → reg_opnd o1 p1 q1 → apart p0 p1 → is_reg v → t ∈ held_i u →
  rget h v ≡[p_width p1] a → rget h t ≡[p_width p0] b →
  wp (_ ← store_ireg_to_ir1 tc (gp v) o1 false; store_ireg_to_ir1 tc (gp t) o0 false) s h
    (λ _ s' h', reached x (write_part (write_part x p0 b) p1 a) (hflags h) s' h').
Proof using Type.
  intros S R0 R1 Ap Iv Ht Ev Et. pose proof (held_temp _ _ _ (st_temps _ _ _ _ _ _ S) Ht) as Pt.
  destruct (pool_reg t Pt) as [It _]. destruct (gpr_at_facts _ _ (ro_at _ _ _ R1)) as (_ & _ & _ & N1).
  destruct (store_reg_ok tc env x s u h x o1 p1 q1 v a S R1 Iv Ev) as (h1 & D1 & S1 & K1 & F1).
  eapply wp_step; [exact D1|].
  destruct (store_reg_ok tc env x s u h1 _ o0 p0 q0 t b S1 R0 It) as (h2 & D2 & S2 & K2 & _).
  { rewrite F1; [done|]. by intros ->. }
  eapply wp_done; [exact D2|]. exists u. split; [|unfold hflags; by rewrite K2, K1].
  eapply st_ext; [exact S2| |done]. intros n. apply write_swap; [done|apply (ro_shape _ _ _ R0)|apply (ro_shape _ _ _ R1)].
Qed.

Lemma parts_apart o0 o1 p0 q0 p1 q1 :
  reg_opnd o0 p0 q0 → reg_opnd o1 p1 q1 → p_width p1 = p_width p0 →
  if ir1_opnd_is_same_reg o0 o1 then p1 = p0 ∧ q1 = q0 else apart p0 p1.
Proof using Type.
  intros R0 R1 Ew. pose proof (ro_part _ _ _ R0) as P0. pose proof (ro_part _ _ _ R1) as P1.
  unfold ir1_opnd_is_same_reg, ir1_opnd_is_reg. rewrite (ro_gpr _ _ _ R0), (ro_gpr _ _ _ R1).
  destruct (opnd_op o0) as [|r0| |] eqn:O0, (opnd_op o1) as [|r1| |] eqn:O1; try done. simpl.
  destruct (reg_eqb r0 r1) eqn:Er; [apply reg_eqb_eq in Er as ->; assert (p1 = p0) as -> by congruence|].
  { split; [done|]. destruct (ro_at _ _ _ R0) as [_ A], (ro_at _ _ _ R1) as [_ B]. congruence. }
  unfold apart. destruct (Z.eq_dec (p_num p0) (p_num p1)) as [En|]; [|by left]. right.
  assert (p0 ≠ p1) as N.
  { intros <-. pose proof (part_of_inj _ _ _ P0 P1) as ->. by rewrite (proj2 (reg_eqb_eq _ _) eq_refl) in Er. }
  destruct p0 as [k w l], p1 as [k' w' l']. simpl in *. subst.
  pose proof (reg_shape _ _ _ R0). pose proof (reg_shape _ _ _ R1). simpl in *.
  assert (l ≠ l') by congruence. lia.
Qed.

Lemma xchg_regs x x' s u h o0 o1 :
  st x s u h x → (size (held_i u) = 0)%nat → two_opnds tc o0 o1 → opnd_bytes o0 = opnd_bytes o1 →
  ir1_opnd_is_gpr o0 = true → ir1_opnd_is_gpr o1 = true → GHBR_ON tc = false →
  x86_xchg (seg x) pir1 x = Some x' → wp (translate_xchg tc) s h (result x x' (hflags h)).
Proof using All.
  intros S Hs (E0 & E1 & K0 & K1) Eb G0 G1 G E. unfold translate_xchg. eapply wp_lift; [exact E0|].
  eapply wp_lift; [exact E1|]. rewrite G0, G1. cbn [andb].
  destruct (gpr_is_reg o0 G0) as [r0 O0], (gpr_is_reg o1 G1) as [r1 O1].
  destruct (reg_opnd_wf o0 r0 O0 (proj1 K0)) as (p0 & q0 & R0), (reg_opnd_wf o1 r1 O1 (proj1 K1)) as (p1 & q1 & R1).
  unfold x86_xchg in E. rewrite E0, E1 in E. cbn [mbind option_bind] in E.
  rewrite (ro_read _ _ _ R0), (ro_read _ _ _ R1) in E. cbn [mbind option_bind] in E.
  assert (Mm : ir1_opnd_is_mem o1 = false) by (unfold ir1_opnd_is_mem; by rewrite O1). rewrite Mm in E.
  rewrite (ro_write _ _ _ R0) in E. cbn [mbind option_bind] in E. rewrite (ro_write _ _ _ R1) in E. injection E as <-.
  assert (Ew : p_width p1 = p_width p0).
  { rewrite <- (ro_size _ _ _ R0), <- (ro_size _ _ _ R1). unfold ir1_opnd_size. by rewrite Eb. }
  destruct (load_ok tc H64 Haddr env x s u h o0 UNKNOWN_EXTENSION _ S K0 ltac:(lia) (ro_read _ _ _ R0 _ _ _))
    as (v & s1 & u1 & h1 & D & S1 & Q & [Iv Ow] & Ex). eapply wp_step; [exact D|].
  assert (Sz : (size (held_i u1) <= 1)%nat).
  { pose proof (q_size _ _ _ _ _ Q). unfold grow, ir1_opnd_is_mem in *. rewrite O0 in *. lia. }
  destruct (alloc_ok x s1 u1 h1 S1 ltac:(lia)) as (t & s2 & A & S2 & P & N & It & T0). eapply wp_step; [exact A|].
  pose proof (take_held u1 t) as Ht.
  destruct (load_into_ok tc H64 Haddr env x s2 (take_reg u1 t) h1 t (λ x _, x) o1 UNKNOWN_EXTENSION (read_part x p1) S2) as (R & s3 & u3 & h3 & D3 & S3 & (Q1 & _ & Q3 & Q4) & V3 & Ex3);
    [by left|done| |apply (ro_read _ _ _ R1)|].
  { pose proof (q_size _ _ _ _ _ (quiet_take u1 t h1 N)). lia. }
  eapply wp_step; [exact D3|]. apply wp_true.
  assert (F3 : hflags h3 = hflags h) by (unfold hflags; by rewrite Q3, (q_sys _ _ _ _ _ Q)). rewrite <- F3.
  pose proof (parts_apart o0 o1 p0 q0 p1 q1 R0 R1 Ew) as Ap. destruct (ir1_opnd_is_same_reg o0 o1).
  - destruct Ap as [-> ->]. apply (xchg_same x s3 u3 h3 o0 p0 q0); try done. intros L.
    by destruct (does_det _ _ _ _ _ _ _ _ _ D (load_reg_here s h o0 p0 q0 R0 L)) as ([= ->] & _).
  - apply (xchg_store x s3 u3 h3 o0 o1 p0 q0 p1 q1); try done.
    + by apply Q1.
    + rewrite Ew, Q4; [by rewrite (ro_size _ _ _ R0) in Ex| |destruct Ow as [?|[? _]]; [by left|right; by apply take_more]].
      intros ->. destruct Ow as [?|[? _]]; done.
    + rewrite V3, <- Ew. by rewrite (ro_size _ _ _ R1) in Ex3.
Qed.

(** With memory: the register goes to memory, [r] holds what was there. *)
Lemma xchg_mem_store x s u h om m o p q r V :
  st x s u h x → (size (held_i u) <= 2)%nat → mem_ok tc om m → opnd_bytes om ∈ [1; 2; 4; 8] →
  reg_opnd o p q → p_lsb p = 0 → p_width p = ir1_opnd_size om → is_reg r →
  (r ∉ reg_itemp_map) ∨ r ∈ held_i u → rget h r ≡[p_width p] V →
  wp (_ ← store_ireg_to_ir1 tc (gp q) om false; store_ireg_to_ir1 tc (gp r) o false) s h
    (λ _ s' h', reached x (write_part (mem_write tc env x om m (read_part x p)) p V) (hflags h) s' h').
Proof using All.
  intros S Hs Hm Hb R L Ew Ir Hr Ev. pose proof (ro_at _ _ _ R) as Hq.
  destruct (gpr_at_facts _ _ Hq) as (Iq & _ & _ & Nq). pose proof (size_bytes om Hb).
  destruct (store_mem_ok tc H64 Haddr env x s u h om m q (read_part x p) S Hm Hb Hs Iq)
    as (s1 & u1 & h1 & D1 & S1 & (Q1 & _ & Q3 & Q4)); [by left|rewrite <- Ew; apply value_here; try done; [apply S|lia]|].
  eapply wp_step; [exact D1|].
  destruct (store_reg_ok tc env x s1 u1 h1 _ o p q r V S1 R Ir) as (h2 & D2 & S2 & K2 & _).
  { by rewrite Q4. }
  eapply wp_done; [exact D2|]. exists u1. split; [done|]. unfold hflags in *. by rewrite K2.
Qed.

Lemma write_mem x o m V : opnd_op o = OP_MEM m → write_opnd (seg x) pir1 x o V = Some (mem_write tc env x o m V).
Proof using Type. intros E. unfold write_opnd. by rewrite E. Qed.

(** Loading the operand in memory. *)
Lemma load_mem_ok x s u h o m V :
  st x s u h x → (size (held_i u) = 0)%nat → opnd_ok tc o → opnd_op o = OP_MEM m →
  read_opnd (seg x) pir1 x o = Some V →
  ∃ r s1 u1 h1, does (load_ireg_from_ir1 tc o UNKNOWN_EXTENSION false) s h (gp r) s1 h1 ∧ st x s1 u1 h1 x ∧
    (size (held_i u1) <= 2)%nat ∧ is_reg r ∧ ((r ∉ reg_itemp_map) ∨ r ∈ held_i u1) ∧
    rget h1 r ≡[ir1_opnd_size o] V ∧ hflags h1 = hflags h.
Proof using All.
  intros S Hs K E Er. destruct (load_ok tc H64 Haddr env x s u h o UNKNOWN_EXTENSION V S K)
    as (v & s1 & u1 & h1 & D & S1 & Q & [Iv Ow] & Ex); [lia|done|]. exists v, s1, u1, h1. split_and!; try done.
  - pose proof (q_size _ _ _ _ _ Q). unfold grow, ir1_opnd_is_mem in *. rewrite E in *. lia.
  - destruct Ow as [?|[? _]]; auto.
  - unfold hflags. by rewrite (q_sys _ _ _ _ _ Q).
Qed.

Lemma xchg_mem x x' s u h o0 o1 om o m :
  st x s u h x → (size (held_i u) = 0)%nat → two_opnds tc o0 o1 → opnd_bytes o0 = opnd_bytes o1 →
  (o0, o1) = (o, om) ∨ (o0, o1) = (om, o) → ir1_opnd_is_gpr o = true → opnd_op om = OP_MEM m →
  ir1_opnd_is_8h o = false → close_latx_parallel tc = false → cf_parallel tc = false →
  x86_xchg (seg x) pir1 x = Some x' → wp (translate_xchg tc) s h (result x x' (hflags h)).
Proof using All.
  intros S Hs (E0 & E1 & K0 & K1) Eb Ord G Em N0 Cp Cf E. unfold translate_xchg. eapply wp_lift; [exact E0|].
  eapply wp_lift; [exact E1|]. rewrite Cp, Cf. unfold x86_xchg in E. rewrite E0, E1 in E. cbn [mbind option_bind] in E.
  assert (Ez : ir1_opnd_size o1 = ir1_opnd_size o0) by (unfold ir1_opnd_size; by rewrite Eb).
  destruct (gpr_is_reg o G) as [r O].
  assert (Hg : ir1_opnd_is_gpr om = false ∧ ir1_opnd_is_mem om = true ∧ ir1_opnd_is_mem o = false)
    by (unfold ir1_opnd_is_gpr, ir1_opnd_is_mem; by rewrite Em, O).
  destruct Hg as (Gm & Mm & Mo). assert (K : opnd_ok tc o ∧ opnd_ok tc om) by (by destruct Ord as [[= -> ->]|[= -> ->]]).
  destruct K as [K Km]. destruct (reg_opnd_wf o r O (proj1 K)) as (p & q & R). rewrite (ro_8h _ _ _ R) in N0.
  assert (L : p_lsb p = 0) by (destruct (reg_shape _ _ _ R) as [[]|[[]|[[]|[[]|[]]]]]; lia).
  destruct (read_opnd (seg x) pir1 x om) as [V|] eqn:Er; [|by unfold read_opnd in Er; rewrite Em in Er].
  destruct (load_mem_ok x s u h om m V S Hs Km Em Er) as (v & s1 & u1 & h1 & D & S1 & Sz & Iv & Ow & Ex & F).
  assert (Fin : p_width p = ir1_opnd_size om → wp (_ ← store_ireg_to_ir1 tc (gp q) om false;
    store_ireg_to_ir1 tc (gp v) o false) s1 h1 (λ _ s' h',
      reached x (write_part (mem_write tc env x om m (read_part x p)) p V) (hflags h) s' h')).
  { intros Ew. rewrite <- F. apply (xchg_mem_store x s1 u1 h1 om m o p q v V); try done;
      [destruct Km as [_ Km]; by rewrite Em in Km|eapply mem_opnd_wf; [done|apply Km]|by rewrite Ew]. }
  destruct Ord as [[= -> ->]|[= -> ->]]; rewrite ?G, ?Gm, ?Mm, ?Mo in *; cbn [andb negb];
    rewrite ?Er, ?(ro_read _ _ _ R) in E; cbn [mbind option_bind] in E; rewrite ?Er in E; cbn [mbind option_bind] in E;
    rewrite (write_mem _ _ m) in E by done; cbn [mbind option_bind] in E; rewrite (ro_write _ _ _ R) in E; injection E as <-.
  - eapply wp_step; [by apply (load_reg_here s h o p q)|]. eapply wp_step; [exact D|]. apply wp_true, Fin.
    by rewrite Ez, (ro_size _ _ _ R).
  - eapply wp_step; [exact D|]. eapply wp_step; [by apply (load_reg_here s1 h1 o p q)|]. apply wp_true, Fin.
    by rewrite <- Ez, (ro_size _ _ _ R).
Qed.
End movx.
