(* ===== verification/TrStackOk.v ===== *)
(** * PUSH, POP and LEA

    The instructions of tr-mov.c that move the stack pointer or compute an address,
    against file X86. *)

From stdpp Require Import base numbers list option strings gmap sets tactics.
From Stdlib Require Import ZArith Lia Bool.
From S2P Require Import Prelude Ir1Enum Ir1 HbrGpr LisaTable Ir2 LaAssemble LaAppend RegMap X86 WordEq.
From S2P Require Import ImmCache ImmCacheSound ImmCacheMain RegAlloc LaSem MacroHelper.
From S2P Require Import MemInterface MemInterfaceOk MemInterfaceMain CacheIndex TrOpnd TrOpndOk TrMov TrMovOk TrMovxOk.
Local Open Scope Z_scope.
Local Open Scope c_scope.

(** The operand of the slot at the stack pointer plus [d]. *)
Definition slot (bytes d : Z) : IR1_OPND :=
  mkOpnd (OP_MEM (mkMem dt_X86_REG_INVALID dt_X86_REG_RSP dt_X86_REG_INVALID 0 d)) bytes.

Lemma slot_built bytes d :
  bytes ∈ [1; 2; 4; 8] → s64 d = d → ir1_opnd_build_mem (bytes << 3) dt_X86_REG_RSP d = Some (slot bytes d).
Proof.
  intros H E. unfold ir1_opnd_build_mem. rewrite E. rewrite !elem_of_cons, elem_of_nil in H.
  destruct H as [->|[->|[->|[->|[]]]]]; reflexivity.
Qed.

Lemma rsp_at : ∃ q, gpr_at esp_index q ∧ ra_alloc_gpr esp_index = Some (gp q).
Proof. eexists. split; [split; [vm_compute; split; congruence|reflexivity]|reflexivity]. Qed.

Lemma x86_gpr_rsp x v r :
  x86_gpr (xreg (set_xreg x esp_index v)) r = if reg_eqb r dt_X86_REG_RSP then u64 v else x86_gpr (xreg x) r.
Proof. destruct r; reflexivity. Qed.

(** The stack pointer is used by an operand in memory if it is its base. *)
Lemma esp_used o m :
  opnd_op o = OP_MEM m → mem_wf m = true → reg_eqb (index m) dt_X86_REG_RSP = false →
  ir1_opnd_is_gpr_used true o esp_index = Some (reg_eqb (base m) dt_X86_REG_RSP).
Proof.
  intros E W Ni. unfold ir1_opnd_is_gpr_used, ir1_opnd_is_gpr, ir1_opnd_mem, ir1_opnd_has_base, ir1_opnd_has_index,
    ir1_opnd_base_reg_num, ir1_opnd_index_reg_num, ir1_opnd_mem. rewrite E. cbn [andb negb mbind option_bind].
  unfold mem_wf in W. apply andb_prop in W as [Wb Wi]. destruct (reg_eqb (base m) dt_X86_REG_INVALID) eqn:Eb.
  - apply reg_eqb_eq in Eb. rewrite Eb. cbn [negb]. destruct (reg_eqb (index m) dt_X86_REG_INVALID); [done|].
    cbn [negb orb] in *. apply andb_prop in Wi as [Wi _]. apply bool_decide_eq_true in Wi.
    assert (H : forallb (λ r, reg_eqb r dt_X86_REG_RSP ||
      bool_decide ((i ← index_reg_num r; Some (i =? esp_index)) = Some false)) gpr64 = true) by (vm_compute; reflexivity).
    pose proof (forallb_elem _ _ _ H Wi) as H1. cbv beta in H1. rewrite Ni in H1. by apply bool_decide_eq_true in H1.
  - cbn [negb]. assert (B : base m ∈ dt_X86_REG_RIP :: gpr64).
    { apply orb_prop in Wb as [B|[B _]%andb_prop]; [|apply reg_eqb_eq in B as ->; by left].
      apply bool_decide_eq_true, elem_of_cons in B as [B|B]; [by rewrite B in Eb|by right]. }
    assert (H : forallb (λ r, bool_decide (base_reg_num r =? esp_index = reg_eqb r dt_X86_REG_RSP))
      (dt_X86_REG_RIP :: gpr64) = true) by (vm_compute; reflexivity).
    pose proof (forallb_elem _ _ _ H B) as H1. cbv beta in H1. apply bool_decide_eq_true in H1. by rewrite H1.
Qed.

Lemma rip_no_index m :
  mem_wf m = true → reg_eqb (base m) dt_X86_REG_RIP = true → index m = dt_X86_REG_INVALID.
Proof.
  unfold mem_wf. intros W Er%reg_eqb_eq. rewrite Er in W.
  destruct (reg_eqb (index m) dt_X86_REG_INVALID) eqn:Ei; [by apply reg_eqb_eq|done].
Qed.

Section stack.
Context (tc : trctx) `{!Qsort (qsort (mctx tc))}.
Local Notation ctx := (mctx tc).
Local Notation pir1 := (pir1 ctx).
Context (H64 : CODEIS64 ctx = true).
Context (Haddr : ir1_addr_size pir1 = 64).
Context (env : site).
Local Notation imm := (option_imm_reg ctx).
Local Notation framed := (framed (imm := imm)).
Local Notation st := (st (imm := imm) env).
Local Notation seg x := (seg_in (seg_base_off ctx) env x).
Local Notation alloc_ok := (st_alloc tc H64 Haddr env).
Local Notation reached := (reached tc env).
Local Notation result := (result tc env).

Lemma slot_ok bytes d : mem_ok tc (slot bytes d) (mkMem dt_X86_REG_INVALID dt_X86_REG_RSP dt_X86_REG_INVALID 0 d).
Proof using Type.
  split; [done|]. split; [reflexivity|]. split; [|done]. unfold segment_ok. by vm_compute.
Qed.

Lemma slot_address x bytes d :
  address_in (seg x) pir1 x (slot bytes d) (mkMem dt_X86_REG_INVALID dt_X86_REG_RSP dt_X86_REG_INVALID 0 d) =
  xreg x esp_index + d.
Proof using Type.
  unfold address_in, seg_in, effective_address, slot. simpl.
  change (x86_gpr (xreg x) dt_X86_REG_RSP) with (xreg x esp_index).
  change (x86_gpr (xreg x) dt_X86_REG_INVALID) with 0. lia.
Qed.

(** The stack pointer moves by [i]. *)
Lemma move_rsp x0 s u h x q i :
  st x0 s u h x → gpr_at esp_index q → in_s 12 i →
  ∃ h', does (la_addi_addrx tc (gp q) (gp q) i) s h tt s h' ∧
    st x0 s u h' (set_xreg x esp_index (xreg x esp_index + i)) ∧ hflags h' = hflags h.
Proof using H64.
  intros S Hq Hi. destruct (gpr_at_facts _ _ Hq) as (Iq & Zq & _ & _). unfold la_addi_addrx. rewrite H64.
  destruct (addi_does q q i s h Iq Zq Iq Hi) as (h' & D & W). exists h'. split; [done|].
  split; [|by eapply flags_kept]. eapply st_eq; [by eapply st_gpr|]. cbv beta.
  by rewrite (sim_reg _ _ _ (st_sim _ _ _ _ _ _ S)), (gpr_at_val _ q) by (done || apply Hq).
Qed.

Lemma slot_bytes o : opnd_wf o = true → stack_slot tc o = opnd_bytes o.
Proof using Type.
  intros W. unfold stack_slot. assert (N : ir1_opnd_is_seg o = false).
  { unfold opnd_wf in W. unfold ir1_opnd_is_seg. destruct (opnd_op o) as [|r| |]; try done.
    destruct r; try reflexivity; vm_compute in W; discriminate W. }
  rewrite N, andb_false_r. unfold ir1_opnd_size. rewrite Z.shiftr_shiftl_l by lia. apply Z.shiftl_0_r.
Qed.

Lemma bytes_small n : n ∈ [2; 4; 8] → n ∈ [1; 2; 4; 8] ∧ in_s 12 n ∧ in_s 12 (- n) ∧ s64 (- n) = - n.
Proof using Type.
  intros H. rewrite !elem_of_cons, elem_of_nil in H. destruct H as [->|[->|[->|[]]]];
    (split; [apply (bool_decide_unpack _); vm_compute; exact I|]; split; [unfold in_s; lia|]; split; [unfold in_s; lia|done]).
Qed.

(** ** PUSH *)

Lemma push_ok x x' s u h o :
  st x s u h x → (size (held_i u) = 0)%nat → ir1_get_opnd pir1 0 = Some o → opnd_ok tc o →
  opnd_bytes o ∈ [2; 4; 8] → x86_push (seg x) pir1 x = Some x' →
  wp (translate_push tc) s h (result x x' (hflags h)).
Proof using All.
  intros S Hs E0 K Hb E. unfold translate_push. destruct rsp_at as (q & Hq & Aq).
  eapply wp_lift; [exact Aq|]. eapply wp_lift; [exact E0|]. rewrite H64.
  unfold x86_push in E. rewrite E0 in E. cbn [mbind option_bind] in E.
  destruct (read_opnd (seg x) pir1 x o) as [V|] eqn:Er; [|done]. injection E as <-.
  destruct (bytes_small _ Hb) as (Hb' & _ & Hi & H64'). rewrite (slot_bytes o (proj1 K)).
  eapply wp_lift; [by apply slot_built|].
  destruct (load_ok tc H64 Haddr env x s u h o UNKNOWN_EXTENSION V S K) as (r & s1 & u1 & h1 & D & S1 & Q & [Ir Ow] & Ex);
    [lia|done|]. eapply wp_step; [exact D|].
  destruct (store_mem_ok tc H64 Haddr env x s1 u1 h1 (slot (opnd_bytes o) (- opnd_bytes o)) _ r V S1 (slot_ok _ _))
    as (s2 & u2 & h2 & D2 & S2 & (_ & _ & F2 & _)); try done.
  { pose proof (q_size _ _ _ _ _ Q). unfold grow in *. case_match; lia. }
  { destruct Ow as [?|[? _]]; auto. }
  eapply wp_step; [exact D2|]. apply wp_true. destruct (move_rsp x s2 u2 h2 _ q _ S2 Hq Hi) as (h3 & D3 & S3 & F3).
  eapply wp_done; [exact D3|]. exists u2. split.
  - unfold mem_write in S3. rewrite slot_address in S3. exact S3.
  - rewrite F3, F2. unfold hflags. by rewrite (q_sys _ _ _ _ _ Q).
Qed.

(** ** POP *)

(** Loading from the top of the stack into a register. *)
Lemma pop_gpr x s u h o p q0 q :
  st x s u h x → (size (held_i u) = 0)%nat → reg_opnd o p q0 → p_width p = 64 → gpr_at esp_index q →
  let V := load_le (xmem x) (xreg x esp_index) 8 in
  wp (pop_to_gpr tc o (p_num p =? esp_index) 64 dt_X86_REG_RSP UNKNOWN_EXTENSION (gp q) 8) s h
    (λ _ s' h', reached x (write_part (set_xreg x esp_index (xreg x esp_index + 8)) p V) (hflags h) s' h').
Proof using All.
  intros S Hs R Ew Hq V. unfold pop_to_gpr. assert (p_lsb p = 0) by (destruct (reg_shape _ _ _ R) as [[]|[[]|[[]|[[]|[]]]]]; lia).
  eapply wp_lift; [apply (slot_built 8 0); [by repeat constructor|reflexivity]|]. eapply wp_step; [by apply (load_reg_here tc s h o p q0)|].
  destruct (load_into_ok tc H64 Haddr env x s u h q0 (λ x R, set_xreg x (p_num p) R) (slot 8 0) UNKNOWN_EXTENSION V S)
    as (X & s1 & u1 & h1 & D & S1 & (_ & _ & K & _) & Vr & Ex).
  { right. eexists. split; [apply (ro_at _ _ _ R)|done]. }
  { split; [reflexivity|apply slot_ok]. }
  { lia. }
  { unfold read_opnd. simpl. rewrite slot_address. by rewrite Z.add_0_r. }
  eapply wp_step; [exact D|]. assert (F1 : hflags h1 = hflags h) by (unfold hflags; by rewrite K).
  assert (EV : u64 X = u64 V) by (rewrite <- (u64_idem X); exact Ex).
  rewrite !(proj1 (write_part_wide _ p _) Ew). destruct (Z.eqb_spec (p_num p) esp_index) as [En|Nn]; cbn [negb].
  - apply wp_ret. exists u1. split; [|done]. eapply st_ext; [by eapply st_eq| |done].
    intros n. rewrite En. simpl. by destruct (n =? esp_index).
  - destruct (move_rsp x s1 u1 h1 _ q 8 S1 Hq ltac:(unfold in_s; lia)) as (h2 & D2 & S2 & F2).
    eapply wp_done; [exact D2|]. exists u1. split; [|congruence]. eapply st_ext; [exact S2| |done].
    intros n. cbn [xreg set_xreg]. destruct (Z.eqb_spec esp_index (p_num p)); [by destruct Nn|].
    destruct (Z.eqb_spec n (p_num p)) as [->|]; [|done].
    destruct (Z.eqb_spec (p_num p) esp_index); [done|by rewrite EV].
Qed.

(** The destination, addressed before the stack pointer moves. *)
Lemma pop_address x o m :
  opnd_op o = OP_MEM m → reg_eqb (index m) dt_X86_REG_RSP = false → mem_ok tc o m →
  let rsp := reg_eqb (base m) dt_X86_REG_RSP in
  ∃ m', mem_ok tc (if rsp then add_disp o 8 else o) m' ∧
    opnd_bytes (if rsp then add_disp o 8 else o) = opnd_bytes o ∧
    u64 (address_in (seg x) pir1 x (if rsp then add_disp o 8 else o) m') =
    u64 (address_in (seg x) pir1 (set_xreg x esp_index (xreg x esp_index + 8)) o m).
Proof using Type.
  intros E Ni K rsp. subst rsp. unfold address_in, effective_address. destruct o as [op n]. simpl in E. subst op.
  rewrite !x86_gpr_rsp, Ni. destruct (reg_eqb (base m) dt_X86_REG_RSP) eqn:Eb.
  - apply reg_eqb_eq in Eb. destruct m as [sg b i sc d]. simpl in *. subst b. unfold add_disp. simpl.
    exists (mkMem sg dt_X86_REG_RSP i sc (s64 (d + 8))). split; [|split; [done|]].
    + destruct K as (_ & W & Sg & _). split; [reflexivity|]. split; [exact W|]. split; [exact Sg|discriminate].
    + simpl. change (x86_gpr (xreg x) dt_X86_REG_RSP) with (xreg x esp_index).
      match goal with |- u64 (?a + _) = u64 (?b + _) => change b with a; set (sb := a) end.
      rewrite !Z.add_assoc, u64_s64_add. match goal with |- u64 ?a = u64 ?b => change (a ≡[64] b) end.
      rewrite (eqw_u64 64) by lia. unfold eqw. f_equal. lia.
  - exists m. done.
Qed.

Lemma pop_mem x s u h o m q :
  st x s u h x → (size (held_i u) = 0)%nat → opnd_op o = OP_MEM m → mem_ok tc o m → opnd_bytes o = 8 →
  reg_eqb (index m) dt_X86_REG_RSP = false → gpr_at esp_index q →
  let V := load_le (xmem x) (xreg x esp_index) 8 in
  let x1 := set_xreg x esp_index (xreg x esp_index + 8) in
  wp (pop_to_other tc o (reg_eqb (base m) dt_X86_REG_RSP) 64 dt_X86_REG_RSP SIGN_EXTENSION (gp q) 8) s h
    (λ _ s' h', reached x (set_xmem x1 (store_le (xmem x1) (address_in (seg x) pir1 x1 o m) V 8)) (hflags h) s' h').
Proof using All.
  intros S Hs E K Hb Ni Hq V x1. unfold pop_to_other.
  eapply wp_lift; [apply (slot_built 8 0); [by repeat constructor|reflexivity]|].
  destruct (load_ok tc H64 Haddr env x s u h (slot 8 0) SIGN_EXTENSION V S) as (r & s1 & u1 & h1 & D & S1 & Q & [Ir Ow] & Ex).
  { split; [reflexivity|apply slot_ok]. }
  { unfold room. simpl. lia. }
  { unfold read_opnd. simpl. rewrite slot_address. by rewrite Z.add_0_r. }
  eapply wp_step; [exact D|]. destruct (pop_address x o m E Ni K) as (m' & K' & B' & A').
  set (o' := if reg_eqb (base m) dt_X86_REG_RSP then add_disp o 8 else o) in *. rewrite Hb in B'.
  destruct (store_mem_ok tc H64 Haddr env x s1 u1 h1 o' m' r V S1 K') as (s2 & u2 & h2 & D2 & S2 & (_ & _ & F2 & _)).
  { rewrite B'. by repeat constructor. }
  { pose proof (q_size _ _ _ _ _ Q) as Sz. unfold grow in Sz. simpl in Sz. lia. }
  { done. }
  { destruct Ow as [?|[? _]]; auto. }
  { unfold ir1_opnd_size. rewrite B'. apply (extends_eqw SIGN_EXTENSION); [vm_compute; split; congruence|exact Ex]. }
  eapply wp_step; [exact D2|].
  destruct (move_rsp x s2 u2 h2 _ q 8 S2 Hq ltac:(unfold in_s; lia)) as (h3 & D3 & S3 & F3).
  eapply wp_done; [exact D3|]. exists u2. split.
  - eapply st_ext; [exact S3|done|]. intros a. cbn [xmem set_xmem set_xreg mem_write].
    rewrite B'. apply store_le_ext; [done|by symmetry|done].
  - rewrite F3, F2. unfold hflags. by rewrite (q_sys _ _ _ _ _ Q).
Qed.

Lemma pop_ok x x' s u h o :
  st x s u h x → (size (held_i u) = 0)%nat → ir1_get_opnd pir1 0 = Some o → opnd_ok tc o → opnd_bytes o = 8 →
  match opnd_op o with OP_MEM m => reg_eqb (index m) dt_X86_REG_RSP = false | _ => True end →
  x86_pop (seg x) pir1 x = Some x' → wp (translate_pop tc) s h (result x x' (hflags h)).
Proof using All.
  intros S Hs E0 [W M] Hb Ni E. unfold translate_pop. destruct rsp_at as (q & Hq & Aq).
  eapply wp_lift; [exact Aq|]. eapply wp_lift; [exact E0|]. rewrite (slot_bytes o W), Hb, H64.
  assert (Ez : ir1_opnd_size o = 64) by (unfold ir1_opnd_size; by rewrite Hb). rewrite Ez. cbn [andb Z.eqb Pos.eqb].
  unfold x86_pop in E. rewrite E0 in E. cbn [mbind option_bind] in E. rewrite Hb in E.
  destruct (opnd_op o) as [|r|v|m] eqn:O; [by unfold opnd_wf in W; rewrite O in W|..].
  - destruct (reg_opnd_wf o r O W) as (p & q0 & R). rewrite (ro_write _ _ _ R) in E. injection E as <-.
    eapply wp_lift; [unfold ir1_opnd_is_gpr_used; by rewrite (ro_gpr _ _ _ R), (ro_num _ _ _ R)|].
    rewrite (ro_gpr _ _ _ R). apply wp_true. apply (pop_gpr x s u h o p q0 q); try done. by rewrite <- (ro_size _ _ _ R).
  - unfold write_opnd in E. by rewrite O in E.
  - unfold write_opnd in E. rewrite O in E. injection E as <-. rewrite Hb.
    assert (G : ir1_opnd_is_gpr o = false) by (unfold ir1_opnd_is_gpr; by rewrite O). rewrite G.
    eapply wp_lift; [apply (esp_used o m); [done|apply M|done]|]. apply wp_true. by apply (pop_mem x s u h o m q).
Qed.

(** ** LEA *)

(** Code that computes a value into an x86 register through scratch registers. *)
Lemma framed_gpr x s u h s' h' n q V :
  st x s u h x → (size (held_i u) <= 2)%nat → framed s u h s' h' {[ q ]} → gpr_at n q → rget h' q = u64 V →
  st x s' u h' (set_xreg x n V).
Proof using Type.
  intros [T M S N] Hs [FT FS _ FR FC _] Hq E. destruct (gpr_at_facts n q Hq) as (_ & _ & N8 & P).
  destruct (FC Hs) as [EC KC]. split; [by apply FT| | |unfold index_of in *; by rewrite EC].
  - intros Hm. rewrite EC. specialize (M Hm). apply (machine_inv_ext _ _ M); [done| |done]. simpl. intros b Hb Fb.
    pose proof (proj1 (list.Forall_forall _ _) (inv_buckets _ (proj1 M)) b Hb) as B. unfold bucket_ok in B.
    rewrite Fb in B. destruct (imm_reg_of (itemp_num b)) as (r & Er & Pr & _); [lia|]. unfold temp_val.
    rewrite Er. f_equal. apply KC; [|done]. apply not_elem_of_singleton. intros ->. by apply P, imm_reg_temp.
  - destruct S as [R Mm Ev]. split; simpl.
    + intros k Hk. destruct (gpr_at_ex k Hk) as [q' Hq']. rewrite (gpr_at_val k q') by done.
      destruct (Z.eqb_spec k n) as [->|Nk].
      * destruct Hq as [_ Hq], Hq' as [_ Hq']. rewrite Hq in Hq'. by injection Hq' as <-.
      * rewrite FR; [rewrite R by done; by apply gpr_at_val| |left; by apply (gpr_at_facts k)].
        apply not_elem_of_singleton. intros ->. by apply Nk, (gpr_at_inj _ _ q).
    + intros a. rewrite Mm. unfold hmem. by rewrite FS.
    + rewrite FR; [done| |left; apply s8_not_temp]. by apply not_elem_of_singleton.
Qed.

Lemma st_allocated b x s u h : st x s u h x → st x (set_allocated b s) u h x.
Proof using Type. intros [T M S N]. split; [by apply temps_repr_allocated|intros Hm; apply machine_inv_allocated; auto|done|done]. Qed.

(** The address is computed into the host register [q] of an x86 register. *)
Lemma lea_compute s u h q n b i hb hi sc offset bo io :
  temps_repr imm s u → (size (held_i u) <= 2)%nat → gpr_at n q → get_allocated s = false →
  (hb = true → bo = gp b ∧ source b) → (hi = true → io = gp i ∧ source i ∧ scale_ok sc) →
  offset ≠ 0 ∨ hi = true ∨ hb = true →
  ∃ s' h', does (compute_address ctx (bits_of_parts hb hi offset) (gp q) bo io sc offset false false) s h
      (gp q, false) s' h' ∧
    rget h' q = u64 (address_of h hb hi b i sc offset) ∧ framed s u h s' h' {[ q ]}.
Proof using All.
  intros T Hs Hq Al Hb Hi NZ. destruct (gpr_at_facts n q Hq) as (Iq & Zq & _ & Pq).
  destruct (parts_cases offset hi) as [C|[-> ->]].
  - apply (compute_write ctx H64 s u h q b i hb hi); try done; [lia|by left].
  - destruct hb; [|by destruct NZ as [?|[?|?]]]. destruct (Hb eq_refl) as [-> [Ib _]].
    destruct (r3_does s h "or" _ q 0 b _) as (h' & D & W); try done. exists s, h'. split; [|split].
    + unfold bits_of_parts. simpl. eapply does_bind; [apply does_get|]. rewrite Al. cbn [negb andb].
      eapply does_bind; [exact D|apply does_ret].
    + rewrite (proj1 W). cbv beta. unfold address_of. by rewrite rget_0, Z.lor_0_l, !Z.add_0_r.
    + by eapply framed_sets.
Qed.

Lemma lea_complex x s u h o m q n w :
  st x s u h x → (size (held_i u) = 0)%nat → opnd_op o = OP_MEM m → mem_wf m = true →
  reg_eqb (base m) dt_X86_REG_RIP = false → mem_null m = false → ir1_opnd_has_seg o = false → gpr_at n q →
  get_allocated s = false → w = 64 ∨ w = 32 →
  wp (convert_complex ctx o (Some (gp q)) w false (imm_cache_check_ir1_should_skip pir1 false) (s64 (disp m)) false) s h
    (λ _ s' h', reached x (set_xreg x n (uwrap w (effective_address (xreg x) pir1 m))) (hflags h) s' h').
Proof using All.
  intros S Hs E Wf Nr Nn Sg Hq Al Hw. destruct (gpr_at_facts n q Hq) as (Iq & Zq & _ & Pq).
  destruct (operand_of h o m E Wf Nr) as (hb & hi & b & i & kx & ks & bo & io & O & Rp & A & NZ).
  destruct O as [Ob Oi Os _ [Ok _] Oks Obo Oio Hb Hi _].
  destruct (lea_compute s u h q n b i hb hi (scale m) (s64 (disp m)) bo io (st_temps _ _ _ _ _ _ S)) as (s1 & h1 & D & V & F);
    try (done || lia).
  { destruct NZ as [[Bi Ii]|[?|?]]; [|by auto..]. left. intros Z0. unfold mem_null in Nn. by rewrite Bi, Ii, Z0 in Nn. }
  assert (EA : u64 (address_of h hb hi b i (scale m) (s64 (disp m))) = u64 (effective_address (xreg x) pir1 m)).
  { rewrite A. unfold effective_address. rewrite Nr, !(x86_gpr_sim env h x _ (st_sim _ _ _ _ _ _ S)). apply u64_s64_add. }
  rewrite EA in V. unfold convert_complex. rewrite Sg. cbn [andb negb].
  eapply wp_lift; [exact Os|]. eapply wp_lift; [exact Ok|]. eapply wp_lift; [exact Oks|].
  eapply wp_lift; [exact Obo|]. eapply wp_lift; [exact Oio|].
  eapply wp_step; [eapply does_bind; [by apply does_lift|apply does_ret]|]. cbv beta iota.
  unfold bitmap_of. rewrite Ob, Oi. eapply wp_step; [exact D|]. cbv beta iota.
  pose proof (framed_gpr x s u h s1 h1 n q _ S ltac:(lia) F Hq V) as S1.
  unfold finish_address. apply wp_bind. eapply wp_step; [apply does_ret|]. rewrite Haddr. unfold adjust_dest.
  assert (F1 : hflags h1 = hflags h) by (unfold hflags; by rewrite (fr_sys _ _ _ _ _ _ F)).
  destruct Hw as [-> | ->]; cbn [Z.eqb Pos.eqb andb].
  - eapply wp_step; [apply does_ret|]. unfold opnd_eqb. simpl. rewrite Z.eqb_refl. apply wp_ret, wp_ret. exists u. split; [|done].
    eapply st_eq; [exact S1|]. symmetry. apply (eqw_uwrap 64 64). lia.
  - eapply wp_step; [apply does_ret|]. destruct (pick_does s1 h1 q q 31 0) as (h2 & D2 & W2); try done.
    eapply wp_step; [exact D2|]. apply wp_ret, wp_ret. exists u.
    split; [|rewrite <- F1; by eapply flags_kept]. apply (st_twice tc env x s1 u h2 x n (effective_address (xreg x) pir1 m)).
    eapply st_eq; [by eapply st_gpr|]. cbv beta. unfold bits_of. rewrite Z.shiftr_0_r, V.
    change (31 - 0 + 1) with 32. f_equal. apply (eqw_u64 32). lia.
Qed.

Lemma lea_ok x x' s u h o0 o1 m :
  st x s u h x → (size (held_i u) = 0)%nat → ir1_get_opnd pir1 0 = Some o0 → ir1_get_opnd pir1 1 = Some o1 →
  opnd_wf o0 = true → ir1_opnd_is_gpr o0 = true → opnd_op o1 = OP_MEM m → mem_wf m = true →
  ir1_opnd_has_seg o1 = false → mem_null m = false →
  ir1_opnd_size o0 = 64 ∨ (ir1_opnd_size o0 = 32 ∧ reg_eqb (base m) dt_X86_REG_RIP = false) →
  x86_lea (seg x) pir1 x = Some x' → wp (translate_lea ctx) s h (result x x' (hflags h)).
Proof using All.
  intros S Hs E0 E1 W0 G0 O1 Wf Sg Nn Hw E. unfold translate_lea. eapply wp_lift; [exact E0|]. eapply wp_lift; [exact E1|].
  destruct (gpr_is_reg o0 G0) as [r O0]. destruct (reg_opnd_wf o0 r O0 W0) as (p & q & R).
  pose proof (ro_at _ _ _ R) as Hq. destruct (gpr_at_facts _ q Hq) as (Iq & Zq & _ & Pq).
  eapply wp_lift; [rewrite (ro_num _ _ _ R); apply (ro_alloc _ _ _ R)|]. apply wp_true.
  unfold x86_lea in E. rewrite E0, E1 in E. cbn [mbind option_bind] in E. unfold ir1_opnd_mem in E. rewrite O1 in E.
  cbn [mbind option_bind] in E. rewrite (ro_write _ _ _ R) in E. injection E as <-. rewrite (ro_size _ _ _ R) in *.
  set (A := effective_address (xreg x) pir1 m).
  assert (Ew : ∀ s' h', reached x (set_xreg x (p_num p) (uwrap (p_width p) A)) (hflags h) s' h' →
    reached x (write_part x p A) (hflags h) s' h').
  { intros s' h' (u' & S' & F'). exists u'. split; [|done]. destruct (write_part_wide x p A) as (W64 & W32 & _).
    destruct Hw as [Hw|[Hw _]]; [rewrite W64, Hw in *|rewrite W32, Hw in *]; [|done..].
    eapply st_eq; [exact S'|]. apply (eqw_uwrap 64 64). lia. }
  unfold convert_mem_to_specific_gpr. apply wp_bind. eapply wp_mono; [|intros y s' h' H; apply wp_ret, Ew, H].
  unfold convert_mem_helper. eapply wp_step; [by apply does_do|].
  eapply wp_step; [eapply does_bind; [apply does_lift; by rewrite is_itemp_gp, bool_decide_false|apply does_ret]|].
  eapply wp_lift; [unfold ir1_opnd_simm; by rewrite O1|]. rewrite H64. cbn [andb negb].
  destruct (Z.ltb_spec (p_width p) 32) as [L|_]; [lia|]. pose proof (st_allocated false x s u h S) as S1.
  unfold is_rip, ir1_opnd_mem. rewrite O1. destruct (reg_eqb (base m) dt_X86_REG_RIP) eqn:Nr.
  - destruct Hw as [Hw|[_ Hw]]; [|done]. unfold convert_rip.
    eapply wp_step; [eapply does_bind; [by apply does_lift|apply does_ret]|]. cbv beta iota.
    destruct (li_does q (s64 (s64 (disp m) + ir1_addr_next pir1)) (set_allocated false s) h Iq Zq) as (h1 & D & W1).
    eapply wp_step; [exact D|]. apply wp_ret. eapply reached_sets; [|done|exact W1].
    eapply st_eq; [by eapply st_gpr|]. cbv beta. rewrite u64_s64, Hw. transitivity (u64 A); [|symmetry; apply (eqw_uwrap 64 64); lia].
    unfold A, effective_address. rewrite Nr. assert (Ei : index m = dt_X86_REG_INVALID) by (by apply rip_no_index).
    rewrite Ei, no_reg, (Z.add_comm (s64 _)), u64_s64_add. f_equal. lia.
  - apply (lea_complex x (set_allocated false s) u h o1 m q (p_num p) (p_width p)); try done.
    destruct Hw as [?|[? _]]; auto.
Qed.
End stack.
