(* ===== verification/TrArith.v ===== *)
(** * Arithmetic, logic and flags (translator/tr-arith.c, tr-logic.c, tr-eflag-process.c)

    ADD, SUB, INC, DEC, NEG, CMP, AND, OR, XOR, TEST, NOT and the choice of the
    instruction that computes EFLAGS (optimization/flag-lbt.c).  With LLSC an instruction
    with a LOCK prefix goes to tr-lock.c, so the spin lock branches are dead. *)

From stdpp Require Import base numbers list option strings gmap tactics.
From Stdlib Require Import ZArith Lia Bool.
From S2P Require Import Prelude Ir1Enum Ir1 HbrGpr LisaTable Ir2 LaAssemble X86.
From S2P Require Import LaAppend RegMap ImmCache RegAlloc LaSem MacroHelper.
From S2P Require Import MemInterface TrOpnd TrMov.
Local Open Scope Z_scope.
Local Open Scope c_scope.

Section arith.
Variable tc : trctx.
Local Notation ctx := (mctx tc).
Local Notation pir1 := (pir1 ctx).

(** ** Which flags are needed (translate.c) *)

Local Notation skipped := (curr_ir1_skipped_eflags tc).
Definition bits_are_clear (x bits : Z) : bool := Z.land x bits =? 0.

Definition ir1_need_calculate_cf : bool :=
  (ir1_is_cf_def pir1 && bits_are_clear skipped (bit 0) &&
   negb (bool_decide (ir1_opcode pir1 = dt_X86_INS_DAA)) && negb (bool_decide (ir1_opcode pir1 = dt_X86_INS_DAS)))
  || bool_decide (ir1_opcode pir1 = dt_X86_INS_LZCNT).
Definition ir1_need_calculate_pf : bool := ir1_is_pf_def pir1 && bits_are_clear skipped (bit 1).
Definition ir1_need_calculate_af : bool :=
  ir1_is_af_def pir1 && bits_are_clear skipped (bit 2) &&
  negb (bool_decide (ir1_opcode pir1 = dt_X86_INS_DAA)) && negb (bool_decide (ir1_opcode pir1 = dt_X86_INS_DAS)).
Definition ir1_need_calculate_zf : bool := ir1_is_zf_def pir1 && bits_are_clear skipped (bit 3).
Definition ir1_need_calculate_sf : bool := ir1_is_sf_def pir1 && bits_are_clear skipped (bit 4).
Definition ir1_need_calculate_of : bool := ir1_is_of_def pir1 && bits_are_clear skipped (bit 5).
Definition ir1_need_calculate_any_flag : bool :=
  negb (Z.land (ir1_get_eflag_def pir1) (Z.lnot skipped) =? 0).

Definition tr_opt_simm12 : M bool :=
  if ir1_need_calculate_any_flag then mret false
  else opnd1 ← lift (ir1_get_opnd pir1 1); lift (ir1_opnd_is_simm12 opnd1).

(** ** EFLAGS by one instruction (flag-lbt.c, include/flag-lbt.h) *)

Definition lbt_suffix (size : Z) : option string :=
  match size with 8 => Some ".b" | 16 => Some ".h" | 32 => Some ".w" | 64 => Some ".d" | _ => None end.

(** [GENERATE_EFLAG_IR2_1] *)
Definition GENERATE_EFLAG_IR2_1 (op : string) (src0 : IR2_OPND) : M unit :=
  opnd0 ← lift (ir1_get_opnd pir1 0);
  match lbt_suffix (ir1_opnd_size opnd0) with Some x => r1 (op +:+ x) src0 | None => mret tt end.

(** [GENERATE_EFLAG_IR2_2] and, with [u] for the unsigned names, [GENERATE_EFLAG_IR2_2_U] *)
Definition GENERATE_EFLAG_IR2_2 (op u : string) (src0 src1 : IR2_OPND) : M unit :=
  opnd0 ← lift (ir1_get_opnd pir1 0);
  temporary_src1 ←
    (if ir2_opnd_is_imm src1 then
       temporary_src1 ← alloc_temp ctx;
       opnd1 ← lift (ir1_get_opnd pir1 1);
       _ ← load_ireg_from_ir1_2 tc temporary_src1 opnd1 SIGN_EXTENSION false;
       mret temporary_src1
     else mret src1);
  _ ← match lbt_suffix (ir1_opnd_size opnd0) with
      | Some x => r2 (op +:+ x +:+ u) src0 temporary_src1
      | None => mret tt
      end;
  if ir2_opnd_is_imm src1 then free_temp temporary_src1 else mret tt.

(** [GENERATE_EFLAG_IR2_2_I] *)
Definition GENERATE_EFLAG_IR2_2_I (op : string) (src0 src1 : IR2_OPND) : M unit :=
  _ ← check (ir2_opnd_is_imm src1);
  opnd0 ← lift (ir1_get_opnd pir1 0);
  match lbt_suffix (ir1_opnd_size opnd0) with
  | Some x => emit (op +:+ x) [AOpnd src0; AImm (s32 (_val src1))]
  | None => mret tt
  end.

Definition generate_eflag_by_lbt (dest src0 src1 : IR2_OPND) (is_imm : bool) : M bool :=
  let two op := _ ← GENERATE_EFLAG_IR2_2 op EmptyString src0 src1; mret true in
  let shift i r := if is_imm then _ ← GENERATE_EFLAG_IR2_2_I i src0 src1; mret true else two r in
  match ir1_opcode pir1 with
  | dt_X86_INS_XADD | dt_X86_INS_ADD => two "x86add"
  | dt_X86_INS_ADC => two "x86adc"
  | dt_X86_INS_INC => _ ← GENERATE_EFLAG_IR2_1 "x86inc" src0; mret true
  | dt_X86_INS_DEC => _ ← GENERATE_EFLAG_IR2_1 "x86dec" src0; mret true
  | dt_X86_INS_CMPSB | dt_X86_INS_CMPSW | dt_X86_INS_CMPSD | dt_X86_INS_CMPSQ
  | dt_X86_INS_SCASB | dt_X86_INS_SCASW | dt_X86_INS_SCASD | dt_X86_INS_SCASQ
  | dt_X86_INS_CMPXCHG | dt_X86_INS_NEG | dt_X86_INS_CMP | dt_X86_INS_SUB => two "x86sub"
  | dt_X86_INS_SBB => two "x86sbc"
  | dt_X86_INS_BLSMSK | dt_X86_INS_XOR => two "x86xor"
  | dt_X86_INS_TEST | dt_X86_INS_BLSI | dt_X86_INS_BLSR | dt_X86_INS_BZHI
  | dt_X86_INS_AND | dt_X86_INS_ANDN => two "x86and"
  | dt_X86_INS_OR => two "x86or"
  | dt_X86_INS_SAL | dt_X86_INS_SHL => shift "x86slli" "x86sll"
  | dt_X86_INS_SHR => shift "x86srli" "x86srl"
  | dt_X86_INS_SAR => shift "x86srai" "x86sra"
  | dt_X86_INS_RCL => two "x86rcl"
  | dt_X86_INS_RCR => two "x86rcr"
  | dt_X86_INS_MUL => _ ← GENERATE_EFLAG_IR2_2 "x86mul" "u" src0 src1; mret true
  | dt_X86_INS_IMUL => two "x86mul"
  | dt_X86_INS_ROR | dt_X86_INS_ROL => mret true
  | dt_X86_INS_COMISS | dt_X86_INS_COMISD | dt_X86_INS_UCOMISS | dt_X86_INS_UCOMISD
  | dt_X86_INS_AAM | dt_X86_INS_AAD | dt_X86_INS_AAA | dt_X86_INS_DAA | dt_X86_INS_DAS
  | dt_X86_INS_BSF | dt_X86_INS_BSR | dt_X86_INS_BT | dt_X86_INS_BTS | dt_X86_INS_BTR
  | dt_X86_INS_BTC | dt_X86_INS_SHLD | dt_X86_INS_SHRD | dt_X86_INS_CMPXCHG8B
  | dt_X86_INS_CMPXCHG16B | dt_X86_INS_LZCNT => mret false
  | _ => _ ← check false; mret false
  end.

(** The flags one by one, for what [generate_eflag_by_lbt] does not do. *)
Definition generate_each (dest src0 src1 : IR2_OPND) (flags : bool) : M unit :=
  let g := fgen tc in
  let w (b : bool) (m : M unit) := if b then m else mret tt in
  _ ← w ir1_need_calculate_pf (generate_pf g dest src0 src1);
  _ ← w ir1_need_calculate_af (generate_af g dest src0 src1);
  _ ← w ir1_need_calculate_zf (generate_zf g dest src0 src1);
  _ ← w ir1_need_calculate_sf (generate_sf g dest src0 src1);
  if flags then
    _ ← w ir1_need_calculate_cf (generate_cf g dest src0 src1);
    w ir1_need_calculate_of (generate_of g dest src0 src1)
  else
    _ ← w ir1_need_calculate_cf (generate_cf_not_sx g dest src0 src1);
    w ir1_need_calculate_of (generate_of_not_sx g dest src0 src1).

Definition generate_eflag_calculation (dest src0 src1 : IR2_OPND) (flags : bool) : M unit :=
  if ir1_need_calculate_any_flag then
    use_lbt ← generate_eflag_by_lbt dest src0 src1 flags;
    if (use_lbt : bool) then
      match ir1_opcode pir1 with
      | dt_X86_INS_SBB => generate_af (fgen tc) dest src0 src1
      | dt_X86_INS_BLSI | dt_X86_INS_BLSR | dt_X86_INS_BLSMSK => generate_cf (fgen tc) dest src0 src1
      | _ => mret tt
      end
    else
      let use_flags := u8 (Z.land (ir1_get_eflag_def pir1) (Z.lnot skipped)) in
      match ir1_opcode pir1 with
      | dt_X86_INS_COMISS => generate_xcomisx (fgen tc) src0 src1 false true use_flags
      | dt_X86_INS_COMISD => generate_xcomisx (fgen tc) src0 src1 true true use_flags
      | dt_X86_INS_UCOMISS => generate_xcomisx (fgen tc) src0 src1 false false use_flags
      | dt_X86_INS_UCOMISD => generate_xcomisx (fgen tc) src0 src1 true false use_flags
      | _ => generate_each dest src0 src1 flags
      end
  else mret tt.

(** ** Parts the routines share *)

Definition is_lock (opnd0 : IR1_OPND) : bool :=
  let l := ir1_is_prefix_lock pir1 && ir1_opnd_is_mem opnd0 in
  if close_latx_parallel tc then l else l && cf_parallel tc.

(** An operand in memory: its value in a temporary, its address and displacement. *)
Definition load_dest (opnd0 : IR1_OPND) : M (IR2_OPND * (IR2_OPND * Z)) :=
  src0 ← alloc_temp ctx;
  '(mem_opnd, imm) ← convert_mem ctx opnd0;
  _ ← la_ld_by_op_size src0 mem_opnd imm (ir1_opnd_size opnd0);
  mret (src0, (mem_opnd, imm)).

(** [/* get src0 */]: src0, dest and, for an operand in memory, its address.  A register
    is its own destination if [direct]. *)
Definition get_src0 (opnd0 : IR1_OPND) (direct : bool) : M (IR2_OPND * IR2_OPND * option (IR2_OPND * Z)) :=
  if ir1_opnd_is_gpr opnd0 then
    src0 ← convert_gpr_opnd tc opnd0 UNKNOWN_EXTENSION;
    dest ← (if direct then mret src0 else alloc_temp ctx);
    mret (src0, dest, None)
  else
    '(src0, mem) ← load_dest opnd0;
    mret (src0, src0, Some mem).

(** INC, DEC and NEG take a wide register without [convert_gpr_opnd]. *)
Definition get_src0_gpr (opnd0 : IR1_OPND) : M (IR2_OPND * IR2_OPND * option (IR2_OPND * Z)) :=
  if ir1_opnd_is_gpr opnd0 && (32 <=? ir1_opnd_size opnd0) then
    src0 ← lift (ra_alloc_gpr (ir1_opnd_base_reg_num opnd0));
    mret (src0, src0, None)
  else get_src0 opnd0 false.

(** [/* write back */], with the clearing of the upper half before it. *)
Definition write_back (opnd0 : IR1_OPND) (dest : IR2_OPND) (mem : option (IR2_OPND * Z)) (clear : bool) : M unit :=
  match mem with
  | None =>
      if negb (GHBR_ON tc) && CODEIS64 ctx && (ir1_opnd_size opnd0 =? 32) && clear then m_mov32_zx dest dest
      else if ir1_opnd_size opnd0 <? 32 then store_ireg_to_ir1 tc dest opnd0 false
      else mret tt
  | Some (mem_opnd, imm) => la_st_by_op_size dest mem_opnd imm (ir1_opnd_size opnd0)
  end.

(** ** Instructions *)

Definition translate_add : M bool :=
  opnd0 ← lift (ir1_get_opnd pir1 0);
  opnd1 ← lift (ir1_get_opnd pir1 1);
  if is_lock opnd0 then translate_lock tc
  else
    opt_imm ← tr_opt_simm12;
    src1 ← (if (opt_imm : bool) then mret zero_ir2_opnd else load_ireg_from_ir1 tc opnd1 UNKNOWN_EXTENSION false);
    '(src0, dest, mem) ← get_src0 opnd0 (32 <=? ir1_opnd_size opnd0);
    _ ← generate_eflag_calculation dest src0 src1 true;
    _ ← (if (opt_imm : bool) then imm ← lift (ir1_opnd_simm opnd1); r2i "addi.d" dest src0 imm
         else r3 "add.d" dest src0 src1);
    _ ← write_back opnd0 dest mem true;
    mret true.

(** INC and DEC: [i] is 1 or -1. *)
Definition translate_step (i : Z) : M bool :=
  opnd0 ← lift (ir1_get_opnd pir1 0);
  if is_lock opnd0 then translate_lock tc
  else
    '(src0, dest, mem) ← get_src0_gpr opnd0;
    _ ← generate_eflag_calculation dest src0 src0 true;
    _ ← r2i (if CODEIS64 ctx then "addi.d" else "addi.w") dest src0 i;
    _ ← write_back opnd0 dest mem true;
    mret true.
Definition translate_inc : M bool := translate_step 1.
Definition translate_dec : M bool := translate_step (-1).

(** [int src1_imm = -ir1_opnd_simm(opnd1)] if it is small and no flag is needed. *)
Definition sub_imm (opnd1 : IR1_OPND) : M (option Z) :=
  if ir1_opnd_is_imm opnd1 && negb ir1_need_calculate_any_flag then
    v ← lift (ir1_opnd_simm opnd1);
    let src1_imm := s32 (- v) in
    mret (if (-2048 <=? src1_imm) && (src1_imm <? 2047) then Some src1_imm else None)
  else mret None.

Definition translate_sub : M bool :=
  opnd0 ← lift (ir1_get_opnd pir1 0);
  opnd1 ← lift (ir1_get_opnd pir1 1);
  if is_lock opnd0 then translate_lock tc
  else
    opt_imm ← sub_imm opnd1;
    src1 ← match opt_imm with
           | Some _ => mret zero_ir2_opnd
           | None => load_ireg_from_ir1 tc opnd1 UNKNOWN_EXTENSION false
           end;
    '(src0, dest, mem) ← get_src0 opnd0 (32 <=? ir1_opnd_size opnd0);
    _ ← generate_eflag_calculation dest src0 src1 true;
    _ ← match opt_imm with
        | Some src1_imm => r2i "addi.d" dest src0 src1_imm
        | None => r3 "sub.d" dest src0 src1
        end;
    _ ← write_back opnd0 dest mem true;
    mret true.

Definition translate_neg : M bool :=
  opnd0 ← lift (ir1_get_opnd pir1 0);
  if is_lock opnd0 then translate_lock tc
  else
    _ ← alloc_temp ctx;
    '(src0, dest, mem) ← get_src0_gpr opnd0;
    _ ← generate_eflag_calculation dest zero_ir2_opnd src0 true;
    _ ← r3 "sub.d" dest zero_ir2_opnd src0;
    _ ← write_back opnd0 dest mem true;
    mret true.

Definition translate_cmp : M bool :=
  opnd0 ← lift (ir1_get_opnd pir1 0);
  src_opnd_0 ← load_ireg_from_ir1 tc opnd0 UNKNOWN_EXTENSION false;
  opnd1 ← lift (ir1_get_opnd pir1 1);
  src_opnd_1 ← load_ireg_from_ir1 tc opnd1 UNKNOWN_EXTENSION false;
  _ ← generate_eflag_calculation src_opnd_0 src_opnd_0 src_opnd_1 true;
  mret true.

Definition translate_test : M bool :=
  opnd0 ← lift (ir1_get_opnd pir1 0);
  src_opnd_0 ← load_ireg_from_ir1 tc opnd0 UNKNOWN_EXTENSION false;
  opnd1 ← lift (ir1_get_opnd pir1 1);
  src_opnd_1 ← load_ireg_from_ir1 tc opnd1 UNKNOWN_EXTENSION false;
  _ ← generate_eflag_calculation src_opnd_1 src_opnd_0 src_opnd_1 true;
  mret true.

(** src1 of a logical instruction: not loaded if the immediate form needs no register. *)
Definition logic_src1 (opnd1 : IR1_OPND) (opt_imm : bool) : M IR2_OPND :=
  if opt_imm && negb ir1_need_calculate_any_flag then mret zero_ir2_opnd
  else load_ireg_from_ir1 tc opnd1 UNKNOWN_EXTENSION false.

Definition logic_calc (imm_name name : string) (dest src0 src1 : IR2_OPND) (opnd1 : IR1_OPND)
    (opt_imm : bool) : M unit :=
  if opt_imm then imm ← lift (ir1_opnd_s2uimm opnd1); r2i imm_name dest src0 imm
  else r3 name dest src0 src1.

Definition translate_xor : M bool :=
  opnd0 ← lift (ir1_get_opnd pir1 0);
  opnd1 ← lift (ir1_get_opnd pir1 1);
  if is_lock opnd0 then translate_lock tc
  else
    opt_imm ← lift (ir1_opnd_is_s2uimm12 opnd1);
    src1 ← logic_src1 opnd1 opt_imm;
    '(src0, dest, mem) ← get_src0 opnd0 (32 <=? ir1_opnd_size opnd0);
    if ir1_opnd_is_same_reg opnd0 opnd1 && (32 <=? ir1_opnd_size opnd0) then
      _ ← m_mov64 dest zero_ir2_opnd;
      _ ← generate_eflag_calculation dest dest dest true;
      mret true
    else
      _ ← generate_eflag_calculation dest src0 src1 true;
      _ ← logic_calc "xori" "xor" dest src0 src1 opnd1 opt_imm;
      _ ← write_back opnd0 dest mem true;
      mret true.

Definition translate_or : M bool :=
  opnd0 ← lift (ir1_get_opnd pir1 0);
  opnd1 ← lift (ir1_get_opnd pir1 1);
  if is_lock opnd0 then translate_lock tc
  else
    opt_imm ← lift (ir1_opnd_is_s2uimm12 opnd1);
    src1 ← logic_src1 opnd1 opt_imm;
    '(src0, dest, mem) ← get_src0 opnd0 (32 <=? ir1_opnd_size opnd0);
    _ ← generate_eflag_calculation dest src0 src1 true;
    _ ← logic_calc "ori" "or" dest src0 src1 opnd1 opt_imm;
    _ ← write_back opnd0 dest mem true;
    mret true.

Definition translate_not : M bool :=
  opnd0 ← lift (ir1_get_opnd pir1 0);
  if is_lock opnd0 then translate_lock tc
  else
    _ ← alloc_temp ctx;
    '(src0, dest, mem) ← get_src0 opnd0 (32 <=? ir1_opnd_size opnd0);
    _ ← r3 "nor" dest zero_ir2_opnd src0;
    _ ← write_back opnd0 dest mem true;
    mret true.

(** ** AND *)

(** [__builtin_ctz] and [__builtin_clz] on 32 bits; undefined for 0. *)
Definition builtin_ctz (x : Z) : option Z :=
  if u32 x =? 0 then None else Some (Z.log2 (Z.land (u32 x) (- u32 x))).
Definition builtin_clz (x : Z) : option Z :=
  if u32 x =? 0 then None else Some (31 - Z.log2 (u32 x)).

(** Is [imm] a run of ones at the low (the result is [(true, pos)]) or at the high end
    ([(false, pos)]), with [pos] the first position of the other part? *)
Definition imm_mask (imm : Z) : option (option (bool * Z)) :=
  let low := 0 <? imm in
  let imm := s32 ((if low then imm else Z.lnot imm) + 1) in
  t_pos ← builtin_ctz imm;
  l_pos ← builtin_clz imm;
  Some (if t_pos + l_pos =? 31 then Some (low, t_pos) else None).

(** The part outside the mask is cleared in place. *)
Definition mask_code (w : Z) (low : bool) (pos : Z) (dest : IR2_OPND) : M unit :=
  if low then bstr "bstrins.d" dest zero_ir2_opnd (if 32 <=? w then 63 else w - 1) pos
  else if 0 <? pos then bstr "bstrins.d" dest zero_ir2_opnd (pos - 1) 0 else mret tt.

Definition translate_and : M bool :=
  opnd0 ← lift (ir1_get_opnd pir1 0);
  opnd1 ← lift (ir1_get_opnd pir1 1);
  if is_lock opnd0 then translate_lock tc
  else
    small ← lift (ir1_opnd_is_s2uimm12 opnd1);
    mask ← (if ir1_opnd_is_imm opnd1 then v ← lift (ir1_opnd_simm opnd1); lift (imm_mask (s32 v))
            else mret None);
    let special_mask := match mask with Some _ => true | None => false end in
    let low_mask := match mask with Some (true, _) => true | _ => false end in
    let opt_imm := small || special_mask in
    src1 ← logic_src1 opnd1 opt_imm;
    '(src0, dest, mem) ← get_src0 opnd0 ((32 <=? ir1_opnd_size opnd0) || special_mask);
    _ ← generate_eflag_calculation dest src0 src1 true;
    _ ← match mask with
        | Some (low, pos) =>
            _ ← check (ir2_opnd_cmp dest src0);
            mask_code (ir1_opnd_size opnd0) low pos dest
        | None => logic_calc "andi" "and" dest src0 src1 opnd1 opt_imm
        end;
    _ ← write_back opnd0 dest mem (negb low_mask);
    mret true.
End arith.
