(* ===== verification/TrArithOk.v ===== *)
(** * Arithmetic and logic are translated correctly

    The routines of tr-arith.c and tr-logic.c against file X86: destination, memory and
    the flags, which are computed if one of them is needed and otherwise left alone. *)

From stdpp Require Import base numbers list option strings gmap sets tactics.
From Stdlib Require Import ZArith Lia Bool.
From S2P Require Import Prelude Ir1Enum Ir1 HbrGpr LisaTable Ir2 LaAssemble LaAppend RegMap X86 WordEq.
From S2P Require Import ImmCache ImmCacheSound ImmCacheMain RegAlloc LaSem MacroHelper.
From S2P Require Import MemInterface MemInterfaceOk MemInterfaceMain CacheIndex TrOpnd TrOpndOk TrMov TrMovOk TrMovxOk TrArith.
Local Open Scope Z_scope.
Local Open Scope c_scope.

Lemma bytes_width o :
  opnd_bytes o ∈ [1; 2; 4; 8] → ir1_opnd_size o = 8 ∨ ir1_opnd_size o = 16 ∨ ir1_opnd_size o = 32 ∨ ir1_opnd_size o = 64.
Proof.
  unfold ir1_opnd_size. rewrite !elem_of_cons, elem_of_nil. intros [->|[->|[->|[->|[]]]]]; auto.
Qed.

(** Loads and stores by size. *)
Lemma ld_by_size_does s h d j i o :
  opnd_bytes o ∈ [1; 2; 4; 8] → in_s 12 i → is_reg d → d ≠ 0 → is_reg j →
  ∃ h', does (la_ld_by_op_size (gp d) (gp j) i (ir1_opnd_size o)) s h tt s h' ∧
    sets d (λ h, swrap (ir1_opnd_size o) (load_le (hmem h) (rget h j + i) (Z.to_nat (opnd_bytes o)))) h h'.
Proof.
  intros Hb Hi Id D0 Ij. unfold ir1_opnd_size. rewrite !elem_of_cons, elem_of_nil in Hb.
  destruct Hb as [->|[->|[->|[->|[]]]]];
    [destruct (load_does s h "b" 1%nat s8 d j i) as (h' & D & W)
    |destruct (load_does s h "h" 2%nat s16 d j i) as (h' & D & W)
    |destruct (load_does s h "w" 4%nat s32 d j i) as (h' & D & W)
    |destruct (load_does s h "d" 8%nat (λ x, x) d j i) as (h' & D & W)]; try done; try (by unfold load_ops; member);
    (exists h'; split; [exact D|]); try exact W.
  eapply sets_eq; [exact W|]. cbv beta. symmetry. apply (eqw_swrap 64 64); lia.
Qed.

Lemma st_by_size_does s h d j i o :
  opnd_bytes o ∈ [1; 2; 4; 8] → in_s 12 i → is_reg d → is_reg j →
  does (la_st_by_op_size (gp d) (gp j) i (ir1_opnd_size o)) s h tt s
    (set_mem h (store_le (hmem h) (rget h j + i) (rget h d) (Z.to_nat (opnd_bytes o)))).
Proof.
  intros Hb Hi Id Ij. unfold ir1_opnd_size. rewrite !elem_of_cons, elem_of_nil in Hb.
  destruct Hb as [->|[->|[->|[->|[]]]]];
    [apply (store_does s h "b" 1%nat)|apply (store_does s h "h" 2%nat)|apply (store_does s h "w" 4%nat)|apply (store_does s h "d" 8%nat)];
    try done; unfold store_ops; member.
Qed.

(** ** Flags an instruction writes *)

(** The position of a flag of the use/def masks (file FlagReduction) in EFLAGS. *)
Definition flag_pos (b : Z) : Z :=
  match b with 0 => CF_POS | 1 => PF_POS | 2 => AF_POS | 3 => ZF_POS | 4 => SF_POS | _ => OF_POS end.

(** [g] writes the flags of the mask [d], whatever they were, and keeps the others. *)
Definition flag_fun (d : Z) (g : Z → Z) : Prop := ∀ b, 0 <= b < 6 →
  if Z.testbit d b then ∀ f f', Z.testbit (g f) (flag_pos b) = Z.testbit (g f') (flag_pos b)
  else ∀ f, Z.testbit (g f) (flag_pos b) = Z.testbit f (flag_pos b).

Lemma flag_fun_id : flag_fun 0 (λ f, f).
Proof. intros b _. by rewrite Z.bits_0. Qed.

Lemma flag_fun_const g : (∀ f f', g f = g f') → flag_fun 63 g.
Proof. intros H b Hb. case_match; [by intros f f'; rewrite (H f f')|]. assert (b = 0 ∨ b = 1 ∨ b = 2 ∨ b = 3 ∨ b = 4 ∨ b = 5)
  as [->|[->|[->|[->|[->| ->]]]]] by lia; discriminate. Qed.

Lemma testbit_eflags cf pf af zf sf ov b :
  0 <= b < 6 → Z.testbit (eflags cf pf af zf sf ov) (flag_pos b) =
    match b with 0 => cf | 1 => pf | 2 => af | 3 => zf | 4 => sf | _ => ov end.
Proof.
  intros Hb. assert (b = 0 ∨ b = 1 ∨ b = 2 ∨ b = 3 ∨ b = 4 ∨ b = 5) as [->|[->|[->|[->|[->| ->]]]]] by lia;
    destruct cf, pf, af, zf, sf, ov; reflexivity.
Qed.

(** All but CF. *)
Lemma flag_fun_step w r af ov : flag_fun 62 (λ fl, flags_of w r (Z.testbit fl CF_POS) af ov).
Proof.
  intros b Hb. assert (b = 0 ∨ b = 1 ∨ b = 2 ∨ b = 3 ∨ b = 4 ∨ b = 5) as [->|[->|[->|[->|[->| ->]]]]] by lia;
    match goal with |- if ?c then _ else _ => let v := eval vm_compute in c in change c with v end;
    cbv iota; intros; unfold flags_of; rewrite !testbit_eflags by lia; done.
Qed.

Section arith.
Context (tc : trctx) `{!Qsort (qsort (mctx tc))}.
Local Notation ctx := (mctx tc).
Local Notation pir1 := (pir1 ctx).
Context (H64 : CODEIS64 ctx = true).
Context (Haddr : ir1_addr_size pir1 = 64).
Context (env : site).
Local Notation imm := (option_imm_reg ctx).
Local Notation st := (st (imm := imm) env).
Local Notation seg x := (seg_in (seg_base_off ctx) env x).
Local Notation alloc_ok := (st_alloc tc H64 Haddr env).
Local Notation reached := (reached tc env).
Local Notation result := (result tc env).

(** ** The first operand *)

(** The value [V] of [o0] is in [r], the result goes to [d]: the register itself if it is
    wide, otherwise a temporary; an operand in memory is at [mem]. *)
Inductive dest_place (x : x86) (u : in_use) (h : host) (o0 : IR1_OPND) (d : Z) : option (IR2_OPND * Z) → Prop :=
  | DReg p q : reg_opnd o0 p q → (32 <= p_width p → d = q) → (p_width p < 32 → d ∈ held_i u) →
      dest_place x u h o0 d None
  | DMem m o off : opnd_op o0 = OP_MEM m → mem_ok tc o0 m → opnd_bytes o0 ∈ [1; 2; 4; 8] → d ∈ held_i u →
      is_reg o → o ≠ d → in_s 12 off →
      u64 (rget h o + off) = u64 (address_in (seg x) pir1 x o0 m) → dest_place x u h o0 d (Some (gp o, off)).

Record ready (x : x86) (s : temps) (u : in_use) (h : host) (o0 : IR1_OPND) (V d r : Z)
    (mem : option (IR2_OPND * Z)) : Prop := {
  rd_st : st x s u h x;
  rd_dest : is_reg d ∧ d ≠ 0;
  rd_src : is_reg r;
  rd_val : rget h r ≡[ir1_opnd_size o0] V;
  rd_place : dest_place x u h o0 d mem
}.

Lemma st_hflags x0 s u h x f : st x0 s u h x → st x0 s u (set_flags h f) x.
Proof using Type. intros [T M [R Mm E] N]. by split. Qed.

Lemma ready_flags x s u h o0 V d r mem f :
  ready x s u h o0 V d r mem → ready x s u (set_flags h f) o0 V d r mem.
Proof using Type.
  intros [S D Sr Va P]. split; try done; [by apply st_hflags|]. destruct P; [by eapply DReg|by eapply DMem].
Qed.

(** The clearing of the upper half, the write to a narrow register or to memory. *)
Lemma write_back_ok x x' s u h h' o0 V d r mem v W f :
  ready x s u h o0 V d r mem → sets d v h h' → v h ≡[ir1_opnd_size o0] W → GHBR_ON tc = false →
  write_opnd (seg x) pir1 (set_xflags x f) o0 W = Some x' →
  wp (write_back tc o0 (gp d) mem true) s h' (λ _ s' h'', reached x x' (hflags h) s' h'').
Proof using H64.
  intros [S [Id D0] Ir Va P] Sd E G Ew. pose proof (flags_kept _ _ _ _ Sd) as F.
  destruct P as [p q R Hq Hd|m o off O M Hb Hd Io No Hi A]; unfold write_back.
  - rewrite (ro_write _ _ _ R) in Ew. injection Ew as <-. rewrite G, H64, (ro_size _ _ _ R) in *. cbn [andb negb].
    pose proof (ro_at _ _ _ R) as Hn. destruct (gpr_at_facts _ q Hn) as (Iq & Zq & _ & _).
    destruct (write_part_wide (set_xflags x f) p W) as (W64 & W32 & _).
    destruct (Z.eqb_spec (p_width p) 32) as [E32|N32]; [|destruct (Z.ltb_spec (p_width p) 32) as [Lt|Ge]]; cbn [andb].
    + rewrite (Hq ltac:(lia)) in *. destruct (mov_zx_does s h' q q Iq Zq Iq) as (h2 & D & W2). eapply wp_done; [exact D|].
      exists u. split; [|by rewrite (flags_kept _ _ _ _ W2)]. rewrite W32 by done.
      eapply st_ext; [apply (st_twice tc env x s u h2 x (p_num p) (v h) (u32 W))|done|done].
      eapply st_eq; [eapply st_gpr; [by eapply st_gpr|done|done]|]. cbv beta. rewrite (proj1 Sd).
      unfold u32, u64. f_equal. rewrite (eqw_uwrap 32 64 (v h)) by lia. by rewrite E32 in E.
    + destruct (store_reg_ok tc env x s u h' x o0 p q d W (st_temp _ _ _ _ _ _ _ _ _ S (Hd Lt) Sd) R Id) as (h2 & D & S2 & K & _).
      { rewrite (proj1 Sd), (eqw_u64 (p_width p)) by (pose proof (reg_shape _ _ _ R); lia). done. }
      eapply wp_done; [exact D|]. exists u. split; [by eapply st_ext|]. unfold hflags in *. by rewrite K.
    + rewrite (Hq ltac:(lia)) in *. assert (E64 : p_width p = 64) by (pose proof (reg_shape _ _ _ R); lia).
      apply wp_ret. exists u. split; [|done]. rewrite W64 by done. rewrite E64 in E.
      eapply st_ext; [eapply st_eq; [by eapply st_gpr|exact E]|done|done].
  - unfold write_opnd in Ew. rewrite O in Ew. injection Ew as <-.
    pose proof (st_by_size_does s h' d o off o0 Hb Hi Id Io) as D. eapply wp_done; [exact D|]. exists u.
    split; [|done]. apply (st_ext env x s u _ (mem_write tc env x o0 m W)); [|done|done].
    apply st_mem; [by eapply st_temp|]. apply store_le_ext.
    + intros b. unfold hmem. rewrite (proj2 (proj2 Sd)). apply (sim_mem _ _ _ (st_sim _ _ _ _ _ _ S)).
    + by rewrite (proj1 (proj2 Sd)).
    + replace (8 * Z.of_nat (Z.to_nat (opnd_bytes o0))) with (ir1_opnd_size o0).
      * rewrite (proj1 Sd), (eqw_u64 (ir1_opnd_size o0)) by (pose proof (size_bytes o0 Hb); lia). by symmetry.
      * pose proof (size_bytes o0 Hb) as B. unfold ir1_opnd_size in *. rewrite Z.shiftl_mul_pow2 in * by lia. lia.
Qed.

Definition rm_opnd (o : IR1_OPND) : Prop := opnd_ok tc o ∧ ir1_opnd_is_imm o = false.

Lemma load_dest_ok x s u h o m :
  st x s u h x → (size (held_i u) <= 1)%nat → opnd_op o = OP_MEM m → mem_ok tc o m → opnd_bytes o ∈ [1; 2; 4; 8] →
  ∃ d q off s' u' h', does (load_dest tc o) s h (gp d, (gp q, off)) s' h' ∧ quiet 2 u h u' h' ∧
    ready x s' u' h' o (mem_value tc env x o m) d d (Some (gp q, off)).
Proof using All.
  intros S Hs O M Hb. destruct (alloc_ok x s u h S ltac:(lia)) as (d & s1 & A & S1 & P & N & Id & D0).
  pose proof (quiet_take u d h N) as Q1. pose proof (take_held u d) as Hd.
  destruct (address_does tc H64 Haddr env x s1 _ h o m S1 M) as (q & off & s2 & u2 & h2 & D2 & S2 & Q2 & Iq & Nq & Io & Ad & _).
  { pose proof (q_size _ _ _ _ _ Q1). lia. }
  destruct (ld_by_size_does s2 h2 d q off o Hb Io Id D0 Iq) as (h3 & D3 & W).
  pose proof (q_held _ _ _ _ _ Q2 _ Hd) as Hd2. assert (Nd : q ≠ d) by (intros ->; done).
  exists d, q, off, s2, u2, h3. split_and!.
  - unfold load_dest. eapply does_bind; [exact A|]. eapply does_bind; [exact D2|]. cbv beta iota.
    eapply does_bind; [exact D3|apply does_ret].
  - eapply quiet_write; [exact (quiet_trans _ _ _ _ _ _ _ _ Q1 Q2)|done|done|done].
  - split; [by eapply st_temp|done|done| |].
    + rewrite (proj1 W). cbv beta. pose proof (size_bytes o Hb). rewrite (eqw_u64 (ir1_opnd_size o)) by lia.
      rewrite (eqw_swrap (ir1_opnd_size o) (ir1_opnd_size o)) by lia. unfold eqw. f_equal.
      apply load_le_ext; [|done]. intros a. symmetry. apply (sim_mem _ _ _ (st_sim _ _ _ _ _ _ S2)).
    + eapply DMem; try done. by rewrite (proj1 (proj2 W)).
Qed.

Lemma get_src0_ok x s u h o V :
  st x s u h x → (size (held_i u) <= if ir1_opnd_is_mem o then 1 else 3)%nat → rm_opnd o →
  read_opnd (seg x) pir1 x o = Some V →
  ∃ d r mem s' u' h', does (get_src0 tc o (32 <=? ir1_opnd_size o)) s h (gp r, gp d, mem) s' h' ∧
    quiet 2 u h u' h' ∧ ready x s' u' h' o V d r mem.
Proof using All.
  intros S Hs [[W M] NI] E. unfold get_src0. unfold ir1_opnd_is_mem, ir1_opnd_is_imm in *.
  destruct (opnd_op o) as [|r|v|m] eqn:O; [by unfold opnd_wf in W; rewrite O in W|..|done|].
  - destruct (reg_opnd_wf o r O W) as (p & q & R). rewrite (ro_read _ _ _ R) in E. injection E as <-.
    rewrite (ro_gpr _ _ _ R), (ro_size _ _ _ R). pose proof (ro_at _ _ _ R) as Hq.
    destruct (gpr_at_facts _ q Hq) as (Iq & Zq & _ & _). pose proof (reg_shape _ _ _ R) as Sh.
    destruct (Z.leb_spec 32 (p_width p)) as [Wd|Nw].
    + exists q, q, None, s, u, h. split_and!; [|apply quiet_refl|].
      * eapply does_bind; [by apply (convert_here tc s h o p q); [|lia]|]. eapply does_bind; [apply does_ret|apply does_ret].
      * split; [done|done|done| |by eapply DReg; [done..|lia]]. rewrite (ro_size _ _ _ R).
        apply (value_here env h x p q); [apply S|done|lia|lia].
    + destruct (convert_gpr_ok tc H64 Haddr env x s u h o p q UNKNOWN_EXTENSION S R ltac:(lia))
        as (v & s1 & u1 & h1 & D & S1 & Q & [Iv _] & Ex).
      destruct (alloc_ok x s1 u1 h1 S1) as (d & s2 & A & S2 & P & N & Id & D0); [pose proof (q_size _ _ _ _ _ Q); lia|].
      exists d, v, None, s2, (take_reg u1 d), h1. split_and!.
      * eapply does_bind; [exact D|]. eapply does_bind; [exact A|apply does_ret].
      * apply (quiet_trans 1 1 _ _ _ _ _ _ Q (quiet_take u1 d h1 N)).
      * split; [done|done|done|by rewrite (ro_size _ _ _ R)|]. eapply DReg; [done|lia|]. intros _. apply take_held.
  - unfold read_opnd in E. rewrite O in E. injection E as <-. unfold ir1_opnd_is_gpr. rewrite O.
    destruct (load_dest_ok x s u h o m S Hs O M (mem_opnd_wf o m O W)) as (d & q & off & s' & u' & h' & D & Q & Rd).
    exists d, d, (Some (gp q, off)), s', u', h'. split; [|done].
    eapply does_bind; [exact D|]. cbv beta iota. apply does_ret.
Qed.

Lemma get_src0_gpr_ok x s u h o V :
  st x s u h x → (size (held_i u) <= if ir1_opnd_is_mem o then 1 else 3)%nat → rm_opnd o →
  read_opnd (seg x) pir1 x o = Some V →
  ∃ d r mem s' u' h', does (get_src0_gpr tc o) s h (gp r, gp d, mem) s' h' ∧
    quiet 2 u h u' h' ∧ ready x s' u' h' o V d r mem.
Proof using All.
  intros S Hs K E. destruct (get_src0_ok x s u h o V S Hs K E) as (d & r & mem & s' & u' & h' & D & H).
  exists d, r, mem, s', u', h'. split; [|done]. unfold get_src0_gpr. destruct (ir1_opnd_is_gpr o) eqn:G.
  - cbn [andb]. destruct (Z.leb_spec 32 (ir1_opnd_size o)) as [Wd|Nw]; [|done].
    destruct (gpr_is_reg o G) as [k O]. destruct (reg_opnd_wf o k O (proj1 (proj1 K))) as (p & q & R).
    rewrite (ro_size _ _ _ R) in Wd. unfold get_src0 in D. rewrite G in D.
    assert (D' : does (get_src0 tc o true) s h (gp q, gp q, None) s h).
    { unfold get_src0. rewrite G. eapply does_bind; [apply (convert_here tc s h o p q); [done|]|].
      - pose proof (reg_shape _ _ _ R). lia.
      - eapply does_bind; [apply does_ret|apply does_ret]. }
    unfold get_src0 in D'. rewrite G in D'. destruct (does_det _ _ _ _ _ _ _ _ _ D D') as ([= -> -> ->] & -> & ->).
    eapply does_bind; [apply does_lift; rewrite (ro_num _ _ _ R); apply (ro_alloc _ _ _ R)|apply does_ret].
  - unfold get_src0 in *. by rewrite G in *.
Qed.

(** ** Flags *)

Local Notation need := (ir1_need_calculate_any_flag tc).

Lemma set_flags_id h : set_flags h (hflags h) = h.
Proof using Type. by destruct h as [r []]. Qed.

(** What [generate_eflag_calculation] does for the current instruction: the flags become
    [f] of the operands and the old flags, if any is needed. *)
Definition flags_by (f : Z → Z → Z → Z) : Prop := ∀ s h d j k,
  is_reg j → is_reg k →
  does (generate_eflag_calculation tc d (gp j) (gp k) true) s h tt s
    (set_flags h (if need then f (rget h j) (rget h k) (hflags h) else hflags h)).

Lemma lbt_suffix_ok w : w = 8 ∨ w = 16 ∨ w = 32 ∨ w = 64 →
  ∃ x, lbt_suffix w = Some x ∧ (x, w) ∈ lbt_widths ∧ ∀ op, op +:+ x +:+ EmptyString = op +:+ x.
Proof using Type.
  intros [->|[->|[->| ->]]]; (eexists; split; [reflexivity|]; split; [unfold lbt_widths; member|done]).
Qed.

Lemma two_flags o op f :
  ir1_get_opnd pir1 0 = Some o → opnd_bytes o ∈ [1; 2; 4; 8] → (op, f) ∈ lbt_ops →
  ∀ s h j k, is_reg j → is_reg k → does (GENERATE_EFLAG_IR2_2 tc op EmptyString (gp j) (gp k)) s h tt s
    (set_flags h (f (ir1_opnd_size o) (rget h j) (rget h k) (hflags h))).
Proof using Type.
  intros E Hb Hop s h j k Ij Ik. destruct (lbt_suffix_ok _ (bytes_width o Hb)) as (x & Ex & Hx & Ea).
  unfold GENERATE_EFLAG_IR2_2. eapply does_bind; [by apply does_lift|]. change (ir2_opnd_is_imm (gp k)) with false. cbv iota.
  eapply does_bind; [apply does_ret|]. rewrite Ex, Ea.
  destruct (does_emits _ _ _ _ _ h (emits_flags2 _ _ j k s (row_flags2 op f x _ Hop Hx) Ij Ik)) as (h' & D & ->).
  eapply does_bind; [exact D|apply does_ret].
Qed.

Lemma one_flag o (inc : bool) :
  ir1_get_opnd pir1 0 = Some o → opnd_bytes o ∈ [1; 2; 4; 8] →
  ∀ s h j, is_reg j → does (GENERATE_EFLAG_IR2_1 tc (if inc then "x86inc" else "x86dec") (gp j)) s h tt s
    (set_flags h ((if inc then inc_flags else dec_flags) (ir1_opnd_size o) (rget h j) (hflags h))).
Proof using Type.
  intros E Hb s h j Ij. destruct (lbt_suffix_ok _ (bytes_width o Hb)) as (x & Ex & Hx & Ea).
  unfold GENERATE_EFLAG_IR2_1. eapply does_bind; [by apply does_lift|]. rewrite Ex.
  destruct (row_flags1 x _ Hx) as [R1 R2].
  destruct inc; [destruct (does_emits _ _ _ _ _ h (emits_flags1 _ _ j s R1 Ij)) as (h' & D & ->)|
    destruct (does_emits _ _ _ _ _ h (emits_flags1 _ _ j s R2 Ij)) as (h' & D & ->)]; exact D.
Qed.

(** The instruction of the extension that computes the flags of an opcode. *)
Definition lbt_rows : list (dt_x86_insn * (string * (Z → Z → Z → Z → Z))) :=
  [(dt_X86_INS_ADD, ("x86add", add_flags)); (dt_X86_INS_SUB, ("x86sub", sub_flags));
   (dt_X86_INS_CMP, ("x86sub", sub_flags)); (dt_X86_INS_NEG, ("x86sub", sub_flags));
   (dt_X86_INS_AND, ("x86and", logic_flags Z.land)); (dt_X86_INS_TEST, ("x86and", logic_flags Z.land));
   (dt_X86_INS_OR, ("x86or", logic_flags Z.lor)); (dt_X86_INS_XOR, ("x86xor", logic_flags Z.lxor))].
Definition lbt_of (op : dt_x86_insn) : option (string * (Z → Z → Z → Z → Z)) :=
  snd <$> find (λ r, insn_eqb op r.1) lbt_rows.

Lemma lbt_row op n f : lbt_of op = Some (n, f) → (op, (n, f)) ∈ lbt_rows.
Proof using Type.
  unfold lbt_of. destruct (find _ lbt_rows) as [[op' y]|] eqn:E; [|done]. intros [= ->].
  apply find_some in E as [E Eq]. apply insn_eqb_eq in Eq as ->. by apply list_elem_of_In.
Qed.

Lemma lbt_cases (P : dt_x86_insn → string → (Z → Z → Z → Z → Z) → Prop) :
  Forall (λ '(op, (n, f)), P op n f) lbt_rows → ∀ op n f, lbt_of op = Some (n, f) → P op n f.
Proof using Type. intros H op n f L. by apply (proj1 (list.Forall_forall _ _) H _ (lbt_row _ _ _ L)). Qed.

Lemma flags_two o op f :
  ir1_get_opnd pir1 0 = Some o → opnd_bytes o ∈ [1; 2; 4; 8] → lbt_of (ir1_opcode pir1) = Some (op, f) →
  flags_by (f (ir1_opnd_size o)).
Proof using Type.
  intros E Hb Hop s h d j k Ij Ik. unfold generate_eflag_calculation. destruct need; [|rewrite set_flags_id; apply does_ret].
  assert (Hf : (op, f) ∈ lbt_ops).
  { revert Hop. apply (lbt_cases (λ _ n f, (n, f) ∈ lbt_ops)). unfold lbt_rows, lbt_ops. repeat constructor; member. }
  pose proof (two_flags o op f E Hb Hf s h j k Ij Ik) as D. unfold generate_eflag_by_lbt.
  apply lbt_row in Hop. unfold lbt_rows in Hop. rewrite !elem_of_cons, elem_of_nil in Hop.
  destruct_or! Hop; try done; injection Hop as Hop -> ->; rewrite Hop;
    (eapply does_bind; [eapply does_bind; [exact D|apply does_ret]|apply does_ret]).
Qed.

Lemma flags_one o (inc : bool) :
  ir1_get_opnd pir1 0 = Some o → opnd_bytes o ∈ [1; 2; 4; 8] →
  ir1_opcode pir1 = (if inc then dt_X86_INS_INC else dt_X86_INS_DEC) →
  flags_by (λ a _ fl, (if inc then inc_flags else dec_flags) (ir1_opnd_size o) a fl).
Proof using Type.
  intros E Hb Hop s h d j k Ij Ik. unfold generate_eflag_calculation. destruct need; [|rewrite set_flags_id; apply does_ret].
  pose proof (one_flag o inc E Hb s h j Ij) as D. unfold generate_eflag_by_lbt. rewrite Hop.
  destruct inc; (eapply does_bind; [eapply does_bind; [exact D|apply does_ret]|apply does_ret]).
Qed.

(** ** Operations with two operands *)

(** A flag function only looks at the operands' bits. *)
Definition flags_proper (w : Z) (f : Z → Z → Z → Z) : Prop :=
  ∀ a a' b b' fl, a ≡[w] a' → b ≡[w] b' → f a b fl = f a' b' fl.

Lemma lbt_proper op o f w : lbt_of op = Some (o, f) → 8 <= w → flags_proper w (f w).
Proof using Type.
  intros H Hw a a' b b' fl Ha Hb. revert H. apply (lbt_cases (λ _ _ f, f w a b fl = f w a' b' fl)).
  repeat constructor;
    first [by apply add_flags_eqw|by apply sub_flags_eqw|apply logic_flags_eqw; try done;
      first [apply bitwise_land|apply bitwise_lor|apply bitwise_lxor]].
Qed.

(** The emitted operation: [d] becomes [W], whatever the flags. *)
Definition computes (w : Z) (calc : M unit) (d W : Z) (h : host) : Prop := ∀ s h1,
  (∀ n, rget h1 n = rget h n) → ∃ h2 v, does calc s h1 tt s h2 ∧ sets d v h1 h2 ∧ v h1 ≡[w] W.

Lemma core_ok x x' s u h o0 V d r mem W f fl j k calc :
  ready x s u h o0 V d r mem → flags_by fl → is_reg j → is_reg k →
  computes (ir1_opnd_size o0) calc d W h → GHBR_ON tc = false →
  write_opnd (seg x) pir1 (set_xflags x f) o0 W = Some x' →
  wp (_ ← generate_eflag_calculation tc (gp d) (gp j) (gp k) true; _ ← calc;
      _ ← write_back tc o0 (gp d) mem true; mret true) s h
    (result x x' (if need then fl (rget h j) (rget h k) (hflags h) else hflags h)).
Proof using H64.
  intros Rd Fl Ij Ik C G Ew. eapply wp_step; [by apply Fl|].
  set (F := if need then _ else _) in *. pose proof (ready_flags _ _ _ _ _ _ _ _ _ F Rd) as Rd1.
  destruct (C s (set_flags h F)) as (h2 & v & D & Sd & Ev); [done|]. eapply wp_step; [exact D|].
  apply wp_true. by apply (write_back_ok x x' s u (set_flags h F) h2 o0 V d r mem v W f).
Qed.

Lemma binary_tail x x' s u h o0 a b k fl W f calc :
  st x s u h x → (size (held_i u) <= if ir1_opnd_is_mem o0 then 1 else 3)%nat → rm_opnd o0 →
  read_opnd (seg x) pir1 x o0 = Some a → is_reg k → (k ∉ reg_itemp_map) ∨ k ∈ held_i u →
  (need = true → rget h k ≡[ir1_opnd_size o0] b) → flags_by fl → flags_proper (ir1_opnd_size o0) fl →
  (∀ d r h1, is_reg d → d ≠ 0 → is_reg r → rget h1 r ≡[ir1_opnd_size o0] a → rget h1 k = rget h k →
     computes (ir1_opnd_size o0) (calc (gp d) (gp r)) d W h1) →
  GHBR_ON tc = false → write_opnd (seg x) pir1 (set_xflags x f) o0 W = Some x' →
  wp ('(src0, dest, mem) ← get_src0 tc o0 (32 <=? ir1_opnd_size o0);
      _ ← generate_eflag_calculation tc dest src0 (gp k) true; _ ← calc dest src0;
      _ ← write_back tc o0 dest mem true; mret true) s h
    (result x x' (if need then fl a b (hflags h) else hflags h)).
Proof using All.
  intros S Hs K E Ik Ok Hb Fl Pf C G Ew.
  destruct (get_src0_ok x s u h o0 a S Hs K E) as (d & r & mem & s1 & u1 & h1 & D & Q & Rd).
  eapply wp_step; [exact D|]. cbv beta iota. destruct (rd_dest _ _ _ _ _ _ _ _ _ Rd) as [Id D0].
  pose proof (rd_src _ _ _ _ _ _ _ _ _ Rd) as Ir. pose proof (q_regs _ _ _ _ _ Q k Ok) as Ek.
  assert (EF : (if need then fl (rget h1 r) (rget h1 k) (hflags h1) else hflags h1) =
    (if need then fl a b (hflags h) else hflags h)).
  { unfold hflags. rewrite (q_sys _ _ _ _ _ Q). destruct need; [|done].
    apply Pf; [apply (rd_val _ _ _ _ _ _ _ _ _ Rd)|rewrite Ek; by apply Hb]. }
  rewrite <- EF. eapply core_ok; try done. apply C; try done. apply (rd_val _ _ _ _ _ _ _ _ _ Rd).
Qed.

(** The second operand, sign-extended. *)
Lemma load_src1 x s u h o1 b w :
  st x s u h x → (size (held_i u) <= room o1)%nat → opnd_ok tc o1 → read_signed (seg x) pir1 x o1 = Some b →
  ir1_opnd_is_imm o1 = true ∨ ir1_opnd_size o1 = w → 0 <= w <= 64 →
  ∃ k s1 u1 h1, does (load_ireg_from_ir1 tc o1 UNKNOWN_EXTENSION false) s h (gp k) s1 h1 ∧ st x s1 u1 h1 x ∧
    quiet (grow o1) u h u1 h1 ∧ owned u u1 k ∧ rget h1 k ≡[w] b.
Proof using All.
  intros S Hs K E Hi Hw. unfold read_signed in E. destruct (read_opnd (seg x) pir1 x o1) as [V|] eqn:Er; [|done].
  injection E as <-. destruct (read_range tc env x o1 V K Er) as [_ B]. destruct Hi as [Hi|<-].
  - assert (Es : load_ireg_from_ir1 tc o1 UNKNOWN_EXTENSION false = load_ireg_from_ir1 tc o1 SIGN_EXTENSION false).
    { unfold load_ireg_from_ir1. unfold ir1_opnd_is_imm in Hi. by destruct (opnd_op o1). }
    rewrite Es. destruct (load_ok tc H64 Haddr env x s u h o1 SIGN_EXTENSION V S K Hs Er)
      as (k & s1 & u1 & h1 & D & S1 & Q & Ow & Ex). exists k, s1, u1, h1. split_and!; try done.
    simpl in Ex. rewrite Ex. by apply eqw_u64.
  - destruct (load_ok tc H64 Haddr env x s u h o1 UNKNOWN_EXTENSION V S K Hs Er)
      as (k & s1 & u1 & h1 & D & S1 & Q & Ow & Ex). exists k, s1, u1, h1. split_and!; try done.
    simpl in Ex. rewrite Ex. symmetry. apply eqw_swrap; lia.
Qed.

Lemma computes_r3 w name f d r k W h :
  Row name [GPR_RD; GPR_RJ; GPR_RK] false false (S3R f) → is_reg d → d ≠ 0 → is_reg r → is_reg k →
  f (rget h r) (rget h k) ≡[w] W → computes w (r3 name (gp d) (gp r) (gp k)) d W h.
Proof using Type.
  intros R Id D0 Ir Ik E s h1 Eh. destruct (r3_does s h1 name f d r k R Id D0 Ir Ik) as (h2 & D & Sd).
  eexists h2, _. split; [exact D|]. split; [exact Sd|]. cbv beta. by rewrite !Eh.
Qed.

Lemma computes_addi w d r i W h :
  is_reg d → d ≠ 0 → is_reg r → in_s 12 i → rget h r + i ≡[w] W → computes w (r2i "addi.d" (gp d) (gp r) i) d W h.
Proof using Type.
  intros Id D0 Ir Hi E s h1 Eh. destruct (addi_does d r i s h1 Id D0 Ir Hi) as (h2 & D & Sd).
  eexists h2, _. split; [exact D|]. split; [exact Sd|]. cbv beta. by rewrite Eh.
Qed.

Lemma computes_ui w name f d r i W h :
  Row name [GPR_RD; GPR_RJ; IMM_UI12] false false (S2RI (ufield 12) f) → 0 <= i < 4096 →
  is_reg d → d ≠ 0 → is_reg r → f (rget h r) i ≡[w] W → computes w (r2i name (gp d) (gp r) i) d W h.
Proof using Type.
  intros R Hi Id D0 Ir E s h1 Eh. destruct (ui_does s h1 name f d r i R Hi Id D0 Ir) as (h2 & D & Sd).
  eexists h2, _. split; [exact D|]. split; [exact Sd|]. cbv beta. by rewrite Eh.
Qed.

Lemma computes_lift {A} w (o : option A) y (k : A → M unit) d W h :
  o = Some y → computes w (k y) d W h → computes w (y ← lift o; k y) d W h.
Proof using Type.
  intros E C s h1 Eh. destruct (C s h1 Eh) as (h2 & v & D & H). exists h2, v. split; [|done].
  eapply does_bind; [by apply does_lift|exact D].
Qed.

(** The operands of an instruction with two of them, the first a register or in memory. *)
Record bin_opnds (o0 o1 : IR1_OPND) : Prop := {
  bo_0 : ir1_get_opnd pir1 0 = Some o0;
  bo_1 : ir1_get_opnd pir1 1 = Some o1;
  bo_rm : rm_opnd o0;
  bo_ok : opnd_ok tc o1;
  bo_size : ir1_opnd_is_imm o1 = true ∨ ir1_opnd_size o1 = ir1_opnd_size o0;
  bo_mem : ir1_opnd_is_mem o0 && ir1_opnd_is_mem o1 = false;
  bo_imm v : ir1_opnd_is_imm o1 = true → ir1_opnd_simm o1 = Some v → in_s 32 v
}.

Lemma rm_bytes o : rm_opnd o → opnd_bytes o ∈ [1; 2; 4; 8] ∧ 8 <= ir1_opnd_size o <= 64.
Proof using Type.
  intros [[W M] NI]. unfold opnd_wf, ir1_opnd_is_imm in *. destruct (opnd_op o) as [|r| |m] eqn:O; try done.
  - destruct (reg_opnd_wf o r O) as (p & q & R); [by unfold opnd_wf; rewrite O|].
    pose proof (ro_size _ _ _ R) as E. pose proof (reg_shape _ _ _ R) as Sh. split; [|lia].
    unfold ir1_opnd_size in E. rewrite Z.shiftl_mul_pow2 in E by lia. rewrite !elem_of_cons. lia.
  - apply andb_prop in W as [_ W]. apply bool_decide_eq_true in W. split; [done|by apply size_bytes].
Qed.

(** Binary instructions of the reference, taken apart. *)
Lemma binary_inv f fl (write : bool) x x' o0 o1 :
  bin_opnds o0 o1 → binary (seg x) pir1 f fl write x = Some x' →
  ∃ a b, read_opnd (seg x) pir1 x o0 = Some a ∧ read_signed (seg x) pir1 x o1 = Some b ∧
    (if write then write_opnd (seg x) pir1 (set_xflags x (fl (ir1_opnd_size o0) a b (xflags x))) o0 (f a b) = Some x'
     else x' = set_xflags x (fl (ir1_opnd_size o0) a b (xflags x))).
Proof using Type.
  intros B E. unfold binary in E. rewrite (bo_0 _ _ B), (bo_1 _ _ B) in E. cbn [mbind option_bind] in E.
  destruct (read_opnd (seg x) pir1 x o0) as [a|]; [|done]. cbn [mbind option_bind] in E.
  destruct (read_signed (seg x) pir1 x o1) as [b|]; [|done]. cbn [mbind option_bind] in E.
  exists a, b. split; [done|]. split; [done|]. destruct write; [done|by injection E].
Qed.

(** The routine [m] does what takes [x] to [x']; the flags of the mask [d] are written if
    one of them is needed. *)
Definition translated (d : Z) (m : M bool) (x x' : x86) (s : temps) (h : host) : Prop :=
  ∃ g, flag_fun d g ∧ xflags x' = g (xflags x) ∧
    wp m s h (result x x' (if need then g (hflags h) else hflags h)).

Lemma write_xflags sg i x o v x' : write_opnd sg i x o v = Some x' → xflags x' = xflags x.
Proof using Type.
  unfold write_opnd, write_part. destruct (opnd_op o) as [|r| |]; try done; [|by intros [= <-]].
  destruct (part_of r); [|done]. by intros [= <-].
Qed.

Lemma lbt_const op o f w a b fl fl' : lbt_of op = Some (o, f) → f w a b fl = f w a b fl'.
Proof using Type. apply (lbt_cases (λ _ _ f, f w a b fl = f w a b fl')). repeat (apply Forall_cons; [cbv [add_flags sub_flags logic_flags]; reflexivity|]); apply Forall_nil. Qed.

Lemma binary_translated m op f x x' s h o0 a b W :
  lbt_of (ir1_opcode pir1) = Some (op, f) →
  write_opnd (seg x) pir1 (set_xflags x (f (ir1_opnd_size o0) a b (xflags x))) o0 W = Some x' →
  wp m s h (result x x' (if need then f (ir1_opnd_size o0) a b (hflags h) else hflags h)) →
  translated 63 m x x' s h.
Proof using Type.
  intros L E H. exists (f (ir1_opnd_size o0) a b). split; [|split; [|done]].
  - apply flag_fun_const. intros. by eapply lbt_const.
  - by apply write_xflags in E.
Qed.

Lemma imm_signed x o1 b v :
  opnd_ok tc o1 → ir1_opnd_is_imm o1 = true → read_signed (seg x) pir1 x o1 = Some b → ir1_opnd_simm o1 = Some v → v = b.
Proof using Type.
  intros [W _] I E Es. unfold ir1_opnd_is_imm in I. destruct (opnd_op o1) as [| |w|] eqn:O; try done.
  pose proof (imm_opnd_wf o1 w O W) as Hb. destruct (imm_values o1 w O Hb) as (Ev & _ & _ & B). rewrite Ev in Es.
  injection Es as <-. unfold read_signed, read_opnd in E. rewrite O in E. injection E as <-.
  apply swrap_eqw; [lia|]. symmetry. apply eqw_uwrap. lia.
Qed.

Lemma imm_tests o :
  opnd_ok tc o → (∃ c, ir1_opnd_is_simm12 o = Some c) ∧ (∃ c, ir1_opnd_is_s2uimm12 o = Some c).
Proof using Type.
  intros [W _]. unfold ir1_opnd_is_simm12, ir1_opnd_is_s2uimm12, ir1_opnd_is_imm.
  destruct (opnd_op o) as [| |w|] eqn:O; eauto. destruct (imm_values o w O (imm_opnd_wf o w O W)) as (Ev & _ & Es & _).
  rewrite Ev, Es. cbn [mbind option_bind]. eauto.
Qed.

Lemma imm_some o : opnd_ok tc o → ir1_opnd_is_imm o = true → ∃ v, ir1_opnd_simm o = Some v ∧ ir1_opnd_s2uimm o = Some (u64 v).
Proof using Type.
  intros [W _]. unfold ir1_opnd_is_imm. destruct (opnd_op o) as [| |w|] eqn:O; try done.
  destruct (imm_values o w O (imm_opnd_wf o w O W)) as (Ev & _ & Es & _). eauto.
Qed.

(** How many temporaries may be in use before the first operand is brought. *)
Lemma src1_room o0 o1 u u1 h h1 :
  bin_opnds o0 o1 → (size (held_i u) = 0)%nat → quiet (grow o1) u h u1 h1 →
  (size (held_i u1) <= if ir1_opnd_is_mem o0 then 1 else 3)%nat.
Proof using Type.
  intros B Hs Q. pose proof (q_size _ _ _ _ _ Q) as Sz. pose proof (bo_mem _ _ B) as Nm. unfold grow in Sz.
  destruct (ir1_opnd_is_mem o0), (ir1_opnd_is_mem o1); try done; lia.
Qed.

(** The second operand in a register, then the rest. *)
Lemma binary_reg x x' s u h o0 o1 a b op f fn name :
  st x s u h x → (size (held_i u) = 0)%nat → bin_opnds o0 o1 → read_opnd (seg x) pir1 x o0 = Some a →
  read_signed (seg x) pir1 x o1 = Some b → lbt_of (ir1_opcode pir1) = Some (op, f) →
  Row name [GPR_RD; GPR_RJ; GPR_RK] false false (S3R fn) →
  (∀ w, Proper (eqw w ==> eqw w ==> eqw w) fn) → GHBR_ON tc = false →
  write_opnd (seg x) pir1 (set_xflags x (f (ir1_opnd_size o0) a b (xflags x))) o0 (fn a b) = Some x' →
  wp (src1 ← load_ireg_from_ir1 tc o1 UNKNOWN_EXTENSION false;
      '(src0, dest, mem) ← get_src0 tc o0 (32 <=? ir1_opnd_size o0);
      _ ← generate_eflag_calculation tc dest src0 src1 true;
      _ ← r3 name dest src0 src1; _ ← write_back tc o0 dest mem true; mret true) s h
    (result x x' (if need then f (ir1_opnd_size o0) a b (hflags h) else hflags h)).
Proof using All.
  intros S Hs B Ea Eb L R Pf G Ew. destruct (rm_bytes o0 (bo_rm _ _ B)) as [Hb Bs].
  destruct (load_src1 x s u h o1 b (ir1_opnd_size o0) S) as (k & s1 & u1 & h1 & D & S1 & Q & [Ik Ow] & Ek); try apply B; try done; [lia..|].
  eapply wp_step; [exact D|].
  assert (F : hflags h1 = hflags h) by (unfold hflags; by rewrite (q_sys _ _ _ _ _ Q)). rewrite <- F.
  eapply (binary_tail x x' s1 u1 h1 o0 a b k (f (ir1_opnd_size o0)) (fn a b) _ (λ d r, r3 name d r (gp k))); try done.
  - by eapply src1_room.
  - apply B.
  - destruct Ow as [?|[? _]]; auto.
  - eapply flags_two; [apply B|done|done].
  - eapply lbt_proper; [done|lia].
  - intros d r h2 Id D0 Ir Er E2. eapply computes_r3; try done. by rewrite Er, E2, Ek.
Qed.

(** The second operand as an immediate field of the instruction; no flag is needed. *)
Lemma binary_imm x x' s u h o0 o1 a op fl W f calc :
  st x s u h x → (size (held_i u) = 0)%nat → bin_opnds o0 o1 → read_opnd (seg x) pir1 x o0 = Some a →
  need = false → lbt_of (ir1_opcode pir1) = Some (op, fl) → GHBR_ON tc = false →
  write_opnd (seg x) pir1 (set_xflags x f) o0 W = Some x' →
  (∀ d r h1, is_reg d → d ≠ 0 → is_reg r → rget h1 r ≡[ir1_opnd_size o0] a →
     computes (ir1_opnd_size o0) (calc (gp d) (gp r)) d W h1) →
  wp ('(src0, dest, mem) ← get_src0 tc o0 (32 <=? ir1_opnd_size o0);
      _ ← generate_eflag_calculation tc dest src0 zero_ir2_opnd true; _ ← calc dest src0;
      _ ← write_back tc o0 dest mem true; mret true) s h (result x x' (hflags h)).
Proof using All.
  intros S Hs B Ea N L G Ew C. change zero_ir2_opnd with (gp 0). destruct (rm_bytes o0 (bo_rm _ _ B)) as [Hb Bs].
  pose proof (binary_tail x x' s u h o0 a 0 0 (fl (ir1_opnd_size o0)) W f calc S) as H. rewrite N in H. eapply H; try done.
  - rewrite Hs. destruct (ir1_opnd_is_mem o0); lia.
  - apply B.
  - left. apply source_zero.
  - eapply flags_two; [apply B|done|done].
  - eapply lbt_proper; [done|lia].
  - intros. by apply C.
Qed.

Lemma simm12_imm o : ir1_opnd_is_simm12 o = Some true → ir1_opnd_is_imm o = true.
Proof using Type. unfold ir1_opnd_is_simm12. by destruct (ir1_opnd_is_imm o). Qed.

Lemma add_ok x x' s u h o0 o1 :
  st x s u h x → (size (held_i u) = 0)%nat → bin_opnds o0 o1 → is_lock tc o0 = false → GHBR_ON tc = false →
  ir1_opcode pir1 = dt_X86_INS_ADD → binary (seg x) pir1 Z.add add_flags true x = Some x' →
  translated 63 (translate_add tc) x x' s h.
Proof using All.
  intros S Hs B L G Op E. destruct (binary_inv _ _ _ _ _ _ _ B E) as (a & b & Ea & Eb & Ew).
  assert (Lo : lbt_of (ir1_opcode pir1) = Some ("x86add", add_flags)) by (by rewrite Op).
  eapply binary_translated; [exact Lo|exact Ew|].
  pose proof (binary_reg x x' s u h o0 o1 a b "x86add" add_flags Z.add "add.d" S Hs B Ea Eb Lo _ _ G Ew) as Hr.
  unfold translate_add. eapply wp_lift; [apply B|]. eapply wp_lift; [apply B|]. rewrite L.
  unfold tr_opt_simm12. destruct need eqn:N; [eapply wp_step; [apply does_ret|exact Hr]|].
  destruct (imm_tests o1 (bo_ok _ _ B)) as [(c & Ei) _].
  eapply wp_step; [eapply does_bind; [apply does_lift, B|by apply does_lift]|]. destruct c; [|exact Hr].
  eapply wp_step; [apply does_ret|]. destruct (simm12_sound o1 Ei) as (v & Ev & Hv).
  assert (v = b) as -> by exact (imm_signed x o1 b v (bo_ok _ _ B) (simm12_imm _ Ei) Eb Ev).
  eapply (binary_imm x x' s u h o0 o1 a "x86add" add_flags _ _ (λ d r, imm ← lift (ir1_opnd_simm o1); r2i "addi.d" d r imm));
    try done. intros d r h1 Id D0 Ir Er. eapply (computes_lift _ _ b (λ imm, r2i "addi.d" (gp d) (gp r) imm)); [done|].
  apply computes_addi; try done. by rewrite Er.
Qed.

Lemma sub_ok x x' s u h o0 o1 :
  st x s u h x → (size (held_i u) = 0)%nat → bin_opnds o0 o1 → is_lock tc o0 = false → GHBR_ON tc = false →
  ir1_opcode pir1 = dt_X86_INS_SUB → binary (seg x) pir1 Z.sub sub_flags true x = Some x' →
  translated 63 (translate_sub tc) x x' s h.
Proof using All.
  intros S Hs B L G Op E. destruct (binary_inv _ _ _ _ _ _ _ B E) as (a & b & Ea & Eb & Ew).
  assert (Lo : lbt_of (ir1_opcode pir1) = Some ("x86sub", sub_flags)) by (by rewrite Op).
  eapply binary_translated; [exact Lo|exact Ew|].
  pose proof (binary_reg x x' s u h o0 o1 a b "x86sub" sub_flags Z.sub "sub.d" S Hs B Ea Eb Lo _ _ G Ew) as Hr.
  unfold translate_sub. eapply wp_lift; [apply B|]. eapply wp_lift; [apply B|]. rewrite L.
  unfold sub_imm. destruct (ir1_opnd_is_imm o1) eqn:Im; [|eapply wp_step; [apply does_ret|exact Hr]].
  destruct need eqn:N; [eapply wp_step; [apply does_ret|exact Hr]|]. cbn [andb negb].
  destruct (imm_some o1 (bo_ok _ _ B) Im) as (v & Ev & _).
  assert (v = b) as -> by exact (imm_signed x o1 b v (bo_ok _ _ B) Im Eb Ev).
  pose proof (bo_imm _ _ B b Im Ev) as Hv.
  eapply wp_step; [eapply does_bind; [by apply does_lift|apply does_ret]|].
  destruct ((-2048 <=? s32 (- b)) && (s32 (- b) <? 2047)) eqn:R; [|exact Hr].
  eapply wp_step; [apply does_ret|].
  eapply (binary_imm x x' s u h o0 o1 a "x86sub" sub_flags _ _ (λ d r, r2i "addi.d" d r (s32 (- b)))); try done.
  intros d r h1 Id D0 Ir Er. bool_to_prop.
  assert (Eb' : s32 (- b) = - b).
  { apply swrap_id; [lia|]. destruct (Z.eq_dec b (- 2 ^ 31)) as [->|Nb]; [vm_compute in H; by destruct H|]. unfold in_s in *. lia. }
  apply computes_addi; try done; [unfold in_s; lia|]. by rewrite Er, Eb', Z.add_opp_r.
Qed.

(** ** Logic *)

Lemma s2u_imm x o1 b :
  opnd_ok tc o1 → ir1_opnd_is_s2uimm12 o1 = Some true → read_signed (seg x) pir1 x o1 = Some b →
  ir1_opnd_s2uimm o1 = Some (u64 b) ∧ 0 <= u64 b < 4096.
Proof using Type.
  intros K Ei Eb. unfold ir1_opnd_is_s2uimm12 in Ei. destruct (ir1_opnd_is_imm o1) eqn:Im; [|done].
  destruct (imm_some o1 K Im) as (v & Ev & Es). rewrite (imm_signed x o1 b v K Im Eb Ev) in *.
  rewrite Es in *. injection Ei as Ei. split; [done|]. pose proof (uwrap_range 64 b ltac:(lia)) as [? _].
  unfold u64 in *. lia.
Qed.

(** From the second operand of OR, XOR or AND to the end. *)
Lemma logic_ok x x' s u h o0 o1 a b c op f fn iname name :
  st x s u h x → (size (held_i u) = 0)%nat → bin_opnds o0 o1 → read_opnd (seg x) pir1 x o0 = Some a →
  read_signed (seg x) pir1 x o1 = Some b → ir1_opnd_is_s2uimm12 o1 = Some c →
  lbt_of (ir1_opcode pir1) = Some (op, f) →
  Row iname [GPR_RD; GPR_RJ; IMM_UI12] false false (S2RI (ufield 12) fn) →
  Row name [GPR_RD; GPR_RJ; GPR_RK] false false (S3R fn) →
  (∀ w, Proper (eqw w ==> eqw w ==> eqw w) fn) → GHBR_ON tc = false →
  write_opnd (seg x) pir1 (set_xflags x (f (ir1_opnd_size o0) a b (xflags x))) o0 (fn a b) = Some x' →
  wp (src1 ← logic_src1 tc o1 c;
      '(src0, dest, mem) ← get_src0 tc o0 (32 <=? ir1_opnd_size o0);
      _ ← generate_eflag_calculation tc dest src0 src1 true;
      _ ← logic_calc iname name dest src0 src1 o1 c; _ ← write_back tc o0 dest mem true; mret true) s h
    (result x x' (if need then f (ir1_opnd_size o0) a b (hflags h) else hflags h)).
Proof using All.
  intros S Hs B Ea Eb Ei L Ri Rr Pf G Ew. unfold logic_src1, logic_calc.
  destruct c; [|by apply (binary_reg x x' s u h o0 o1 a b op f fn name)].
  destruct (s2u_imm x o1 b (bo_ok _ _ B) Ei Eb) as [Es Bb]. destruct (rm_bytes o0 (bo_rm _ _ B)) as [Hb Bs].
  assert (C : ∀ d r h1, is_reg d → d ≠ 0 → is_reg r → rget h1 r ≡[ir1_opnd_size o0] a →
    computes (ir1_opnd_size o0) (imm ← lift (ir1_opnd_s2uimm o1); r2i iname (gp d) (gp r) imm) d (fn a b) h1).
  { intros d r h1 Id D0 Ir Er. eapply (computes_lift _ _ _ (λ imm, r2i iname (gp d) (gp r) imm)); [exact Es|].
    eapply computes_ui; try done. rewrite Er, (eqw_u64 (ir1_opnd_size o0)) by lia. done. }
  cbn [andb]. destruct need eqn:N; cbn [negb].
  - destruct (load_src1 x s u h o1 b (ir1_opnd_size o0) S) as (k & s1 & u1 & h1 & D & S1 & Q & [Ik Ow] & Ek);
      try apply B; try done; [lia..|]. eapply wp_step; [exact D|].
    assert (F : hflags h1 = hflags h) by (unfold hflags; by rewrite (q_sys _ _ _ _ _ Q)). rewrite <- F.
    pose proof (binary_tail x x' s1 u1 h1 o0 a b k (f (ir1_opnd_size o0)) (fn a b)
      (f (ir1_opnd_size o0) a b (xflags x)) (λ d r, imm ← lift (ir1_opnd_s2uimm o1); r2i iname d r imm) S1) as H.
    rewrite N in H. apply H; try done.
    + by eapply src1_room.
    + apply B.
    + destruct Ow as [?|[? _]]; auto.
    + eapply flags_two; [apply B|done|done].
    + eapply lbt_proper; [done|lia].
    + intros. by apply C.
  - eapply wp_step; [apply does_ret|].
    by apply (binary_imm x x' s u h o0 o1 a op f (fn a b) _ (λ d r, imm ← lift (ir1_opnd_s2uimm o1); r2i iname d r imm)
      S Hs B Ea N L G Ew).
Qed.

Lemma or_ok x x' s u h o0 o1 :
  st x s u h x → (size (held_i u) = 0)%nat → bin_opnds o0 o1 → is_lock tc o0 = false → GHBR_ON tc = false →
  ir1_opcode pir1 = dt_X86_INS_OR → binary (seg x) pir1 Z.lor (logic_flags Z.lor) true x = Some x' →
  translated 63 (translate_or tc) x x' s h.
Proof using All.
  intros S Hs B L G Op E. destruct (binary_inv _ _ _ _ _ _ _ B E) as (a & b & Ea & Eb & Ew).
  assert (Lo : lbt_of (ir1_opcode pir1) = Some ("x86or", logic_flags Z.lor)) by (by rewrite Op).
  eapply binary_translated; [exact Lo|exact Ew|]. destruct (imm_tests o1 (bo_ok _ _ B)) as [_ (c & Ei)].
  unfold translate_or. eapply wp_lift; [apply B|]. eapply wp_lift; [apply B|]. rewrite L. eapply wp_lift; [exact Ei|].
  by apply (logic_ok x x' s u h o0 o1 a b c "x86or" (logic_flags Z.lor) Z.lor "ori" "or" S Hs B Ea Eb Ei Lo _ _ _ G Ew).
Qed.

(** A wide register with itself is cleared. *)
Lemma xor_same x s u h o p q a b fl :
  st x s u h x → reg_opnd o p q → 32 <= p_width p → ir1_opnd_is_imm o = false →
  a ≡[p_width p] b → lbt_of (ir1_opcode pir1) = Some ("x86xor", logic_flags Z.lxor) → ir1_get_opnd pir1 0 = Some o →
  opnd_bytes o ∈ [1; 2; 4; 8] →
  wp (src1 ← logic_src1 tc o false;
      '(src0, dest, mem) ← get_src0 tc o (32 <=? ir1_opnd_size o);
      _ ← m_mov64 dest zero_ir2_opnd; _ ← generate_eflag_calculation tc dest dest dest true; mret true) s h
    (result x (write_part (set_xflags x fl) p (Z.lxor a b))
       (if need then logic_flags Z.lxor (p_width p) a b (hflags h) else hflags h)).
Proof using H64.
  intros S R Wd NI Eab L E0 Hb. pose proof (ro_at _ _ _ R) as Hq. destruct (gpr_at_facts _ q Hq) as (Iq & Zq & _ & _).
  assert (Lz : p_lsb p = 0) by (pose proof (reg_shape _ _ _ R); lia). unfold logic_src1, get_src0.
  rewrite (ro_gpr _ _ _ R), (ro_size _ _ _ R). cbn [andb].
  eapply wp_step; [by apply (load_reg_here tc s h o p q)|]. destruct (Z.leb_spec 32 (p_width p)); [|lia].
  eapply wp_step; [eapply does_bind; [by apply (convert_here tc s h o p q)|eapply does_bind; [apply does_ret|apply does_ret]]|].
  cbv beta iota. destruct (mov64_does s h q 0 Iq Zq ltac:(unfold is_reg; lia)) as (h1 & D & W). eapply wp_step; [exact D|].
  eapply wp_step; [apply (flags_two o "x86xor" (logic_flags Z.lxor) E0 Hb L s h1 (gp q) q q Iq Iq)|].
  apply wp_ret. split; [done|]. exists u. assert (Z0 : Z.lxor a b ≡[p_width p] 0) by (rewrite Eab; by rewrite Z.lxor_nilpotent).
  split.
  - apply st_hflags. destruct (write_part_wide (set_xflags x fl) p (Z.lxor a b)) as (W64 & W32 & _).
    assert (Wn : set_xreg (set_xflags x fl) (p_num p) (uwrap (p_width p) (Z.lxor a b)) =
      set_xreg (set_xflags x fl) (p_num p) 0) by (by rewrite Z0).
    assert (p_width p = 64 ∨ p_width p = 32) as [Ew|Ew] by (pose proof (reg_shape _ _ _ R); lia).
    + rewrite W64 by done. rewrite Ew in Z0. eapply st_ext; [eapply st_eq; [by eapply st_gpr|]|done|done].
      cbv beta. rewrite rget_0. by symmetry.
    + rewrite W32 by done. rewrite Ew in Wn. unfold u32. rewrite Wn.
      eapply st_ext; [by eapply st_gpr|done|done].
  - change (hflags (set_flags ?a ?b)) with b. rewrite (flags_kept _ _ _ _ W). destruct need; [|done].
    rewrite (proj1 W), (ro_size _ _ _ R). cbv beta. rewrite rget_0. unfold logic_flags.
    apply flags_of_eqw; [lia|]. by rewrite Z0.
Qed.

Lemma same_opnd o0 o1 : bin_opnds o0 o1 → ir1_opnd_is_same_reg o0 o1 = true → o0 = o1 ∧ ∃ r, opnd_op o0 = OP_REG r.
Proof using Type.
  intros B Sm. pose proof (bo_size _ _ B) as Ez. unfold ir1_opnd_is_same_reg in Sm. unfold ir1_opnd_is_imm, ir1_opnd_size in Ez.
  destruct o0 as [p0 n0], o1 as [p1 n1]. simpl in *. rewrite !andb_true_iff in Sm. destruct Sm as [_ Sm].
  destruct p0 as [|r0| |], p1 as [|r1| |]; try done. apply reg_eqb_eq in Sm as ->. destruct Ez as [?|Ez]; [done|].
  rewrite !Z.shiftl_mul_pow2 in Ez by lia. split; [f_equal; lia|by eexists].
Qed.

Lemma xor_ok x x' s u h o0 o1 :
  st x s u h x → (size (held_i u) = 0)%nat → bin_opnds o0 o1 → is_lock tc o0 = false → GHBR_ON tc = false →
  ir1_opcode pir1 = dt_X86_INS_XOR → binary (seg x) pir1 Z.lxor (logic_flags Z.lxor) true x = Some x' →
  translated 63 (translate_xor tc) x x' s h.
Proof using All.
  intros S Hs B L G Op E. destruct (binary_inv _ _ _ _ _ _ _ B E) as (a & b & Ea & Eb & Ew).
  assert (Lo : lbt_of (ir1_opcode pir1) = Some ("x86xor", logic_flags Z.lxor)) by (by rewrite Op).
  eapply binary_translated; [exact Lo|exact Ew|]. destruct (imm_tests o1 (bo_ok _ _ B)) as [_ (c & Ei)].
  unfold translate_xor. eapply wp_lift; [apply B|]. eapply wp_lift; [apply B|]. rewrite L. eapply wp_lift; [exact Ei|].
  destruct (ir1_opnd_is_same_reg o0 o1 && (32 <=? ir1_opnd_size o0)) eqn:Sm;
    [|by apply (logic_ok x x' s u h o0 o1 a b c "x86xor" (logic_flags Z.lxor) Z.lxor "xori" "xor" S Hs B Ea Eb Ei Lo _ _ _ G Ew)].
  apply andb_prop in Sm as [Sm Wd]. apply Z.leb_le in Wd. destruct (same_opnd o0 o1 B Sm) as [<- (r & O)].
  destruct (rm_bytes o0 (bo_rm _ _ B)) as [Hb Bs]. destruct (bo_rm _ _ B) as [[W0 _] NI].
  destruct (reg_opnd_wf o0 r O W0) as (p & q & R). rewrite (ro_size _ _ _ R) in Wd.
  rewrite (ro_write _ _ _ R) in Ew. injection Ew as <-. assert (c = false) as ->.
  { unfold ir1_opnd_is_s2uimm12 in Ei. rewrite NI in Ei. by injection Ei. }
  pose proof (xor_same x s u h o0 p q a b (logic_flags Z.lxor (ir1_opnd_size o0) a b (xflags x)) S R Wd NI) as H.
  rewrite <- (ro_size _ _ _ R) in H. apply H; try done; [|apply B].
  unfold read_signed in Eb. rewrite Ea in Eb. injection Eb as <-. symmetry. apply eqw_swrap; lia.
Qed.

(** ** CMP and TEST *)

Lemma compare_ok x s u h o0 o1 a b op f :
  st x s u h x → (size (held_i u) = 0)%nat → bin_opnds o0 o1 → read_opnd (seg x) pir1 x o0 = Some a →
  read_signed (seg x) pir1 x o1 = Some b → lbt_of (ir1_opcode pir1) = Some (op, f) →
  ∃ j k s1 s2 u2 h1 h2, does (load_ireg_from_ir1 tc o0 UNKNOWN_EXTENSION false) s h (gp j) s1 h1 ∧
    does (load_ireg_from_ir1 tc o1 UNKNOWN_EXTENSION false) s1 h1 (gp k) s2 h2 ∧ st x s2 u2 h2 x ∧
    ∀ d, wp (generate_eflag_calculation tc d (gp j) (gp k) true) s2 h2
      (λ _ s' h', reached x (set_xflags x (f (ir1_opnd_size o0) a b (xflags x)))
         (if need then f (ir1_opnd_size o0) a b (hflags h) else hflags h) s' h').
Proof using All.
  intros S Hs B Ea Eb L. destruct (rm_bytes o0 (bo_rm _ _ B)) as [Hb Bs]. pose proof (bo_mem _ _ B) as Nm.
  destruct (load_ok tc H64 Haddr env x s u h o0 UNKNOWN_EXTENSION a S) as (j & s1 & u1 & h1 & D1 & S1 & Q1 & [Ij Oj] & Ej);
    [apply (bo_rm _ _ B)|lia|done|].
  destruct (load_src1 x s1 u1 h1 o1 b (ir1_opnd_size o0) S1) as (k & s2 & u2 & h2 & D2 & S2 & Q2 & [Ik Ok] & Ek); try apply B; try done.
  { pose proof (q_size _ _ _ _ _ Q1). unfold grow, room in *. destruct (ir1_opnd_is_mem o0), (ir1_opnd_is_mem o1); done || lia. }
  { lia. }
  exists j, k, s1, s2, u2, h1, h2. split_and!; try done. intros d.
  eapply wp_done; [by apply (flags_two o0 op f (bo_0 _ _ B) Hb L s2 h2 d j k)|]. exists u2.
  split; [apply st_hflags; by eapply st_ext|]. change (hflags (set_flags ?a ?b)) with b.
  assert (F : hflags h2 = hflags h) by (unfold hflags; by rewrite (q_sys _ _ _ _ _ Q2), (q_sys _ _ _ _ _ Q1)).
  rewrite F. destruct need; [|done]. eapply lbt_proper; [exact L|lia| |done].
  rewrite (q_regs _ _ _ _ _ Q2); [exact Ej|]. destruct Oj as [?|[? _]]; auto.
Qed.

Lemma compare_translated m op f x x' s h o0 a b :
  lbt_of (ir1_opcode pir1) = Some (op, f) → x' = set_xflags x (f (ir1_opnd_size o0) a b (xflags x)) →
  wp m s h (result x x' (if need then f (ir1_opnd_size o0) a b (hflags h) else hflags h)) →
  translated 63 m x x' s h.
Proof using Type.
  intros L -> H. exists (f (ir1_opnd_size o0) a b). split; [|split; [done|done]].
  apply flag_fun_const. intros. by eapply lbt_const.
Qed.

Lemma cmp_ok x x' s u h o0 o1 :
  st x s u h x → (size (held_i u) = 0)%nat → bin_opnds o0 o1 →
  ir1_opcode pir1 = dt_X86_INS_CMP → binary (seg x) pir1 Z.sub sub_flags false x = Some x' →
  translated 63 (translate_cmp tc) x x' s h.
Proof using All.
  intros S Hs B Op E. destruct (binary_inv _ _ _ _ _ _ _ B E) as (a & b & Ea & Eb & ->).
  assert (Lo : lbt_of (ir1_opcode pir1) = Some ("x86sub", sub_flags)) by (by rewrite Op).
  eapply compare_translated; [exact Lo|done|].
  destruct (compare_ok x s u h o0 o1 a b _ _ S Hs B Ea Eb Lo) as (j & k & s1 & s2 & u2 & h1 & h2 & D1 & D2 & _ & H).
  unfold translate_cmp. eapply wp_lift; [apply B|]. eapply wp_step; [exact D1|]. eapply wp_lift; [apply B|].
  eapply wp_step; [exact D2|]. apply wp_true, H.
Qed.

Lemma test_ok x x' s u h o0 o1 :
  st x s u h x → (size (held_i u) = 0)%nat → bin_opnds o0 o1 →
  ir1_opcode pir1 = dt_X86_INS_TEST → binary (seg x) pir1 Z.land (logic_flags Z.land) false x = Some x' →
  translated 63 (translate_test tc) x x' s h.
Proof using All.
  intros S Hs B Op E. destruct (binary_inv _ _ _ _ _ _ _ B E) as (a & b & Ea & Eb & ->).
  assert (Lo : lbt_of (ir1_opcode pir1) = Some ("x86and", logic_flags Z.land)) by (by rewrite Op).
  eapply compare_translated; [exact Lo|done|].
  destruct (compare_ok x s u h o0 o1 a b _ _ S Hs B Ea Eb Lo) as (j & k & s1 & s2 & u2 & h1 & h2 & D1 & D2 & _ & H).
  unfold translate_test. eapply wp_lift; [apply B|]. eapply wp_step; [exact D1|]. eapply wp_lift; [apply B|].
  eapply wp_step; [exact D2|]. apply wp_true, H.
Qed.

(** ** Operations with one operand *)

Lemma unary_inv f fl x x' o0 :
  ir1_get_opnd pir1 0 = Some o0 → unary (seg x) pir1 f fl x = Some x' →
  ∃ a, read_opnd (seg x) pir1 x o0 = Some a ∧
    write_opnd (seg x) pir1 (set_xflags x (fl (ir1_opnd_size o0) a (xflags x))) o0 (f a) = Some x'.
Proof using Type.
  intros E0 E. unfold unary in E. rewrite E0 in E. cbn [mbind option_bind] in E.
  destruct (read_opnd (seg x) pir1 x o0) as [a|]; [|done]. by exists a.
Qed.

Lemma step_ok x x' s u h o0 (inc : bool) :
  st x s u h x → (size (held_i u) = 0)%nat → ir1_get_opnd pir1 0 = Some o0 → rm_opnd o0 →
  is_lock tc o0 = false → GHBR_ON tc = false → ir1_opcode pir1 = (if inc then dt_X86_INS_INC else dt_X86_INS_DEC) →
  unary (seg x) pir1 (λ a, a + (if inc then 1 else -1)) (if inc then inc_flags else dec_flags) x = Some x' →
  translated 62 (translate_step tc (if inc then 1 else -1)) x x' s h.
Proof using All.
  intros S Hs E0 K L G Op E. destruct (unary_inv _ _ _ _ _ E0 E) as (a & Ea & Ew). destruct (rm_bytes o0 K) as [Hb Bs].
  set (fl := λ w a f, (if inc then inc_flags else dec_flags) w a f).
  exists (fl (ir1_opnd_size o0) a). split; [|split].
  { unfold fl. destruct inc; apply flag_fun_step. }
  { by apply write_xflags in Ew. }
  unfold translate_step. eapply wp_lift; [exact E0|]. rewrite L.
  destruct (get_src0_gpr_ok x s u h o0 a S) as (d & r & mem & s1 & u1 & h1 & D & Q & Rd); try done.
  { rewrite Hs. destruct (ir1_opnd_is_mem o0); lia. }
  eapply wp_step; [exact D|]. cbv beta iota. rewrite H64. destruct (rd_dest _ _ _ _ _ _ _ _ _ Rd) as [Id D0].
  pose proof (rd_src _ _ _ _ _ _ _ _ _ Rd) as Ir. pose proof (rd_val _ _ _ _ _ _ _ _ _ Rd) as Va.
  assert (EF : (if need then fl (ir1_opnd_size o0) (rget h1 r) (hflags h1) else hflags h1) =
    (if need then fl (ir1_opnd_size o0) a (hflags h) else hflags h)).
  { unfold hflags. rewrite (q_sys _ _ _ _ _ Q). destruct need; [|done].
    unfold fl. destruct inc; [apply inc_flags_eqw|apply dec_flags_eqw]; done || lia. }
  rewrite <- EF.
  apply (core_ok x x' s1 u1 h1 o0 a d r mem (a + (if inc then 1 else -1)) (fl (ir1_opnd_size o0) a (xflags x))
    (λ a _ f, fl (ir1_opnd_size o0) a f) r r _ Rd); try done; [by apply flags_one|].
  apply computes_addi; try done; [destruct inc; unfold in_s; lia|by rewrite Va].
Qed.

(** A temporary is taken before NEG and NOT fetch their operand. *)
Lemma alloc_first x s u h o0 a (m : M (IR2_OPND * IR2_OPND * option (IR2_OPND * Z))) :
  st x s u h x → (size (held_i u) = 0)%nat → m = get_src0_gpr tc o0 ∨ m = get_src0 tc o0 (32 <=? ir1_opnd_size o0) →
  rm_opnd o0 → read_opnd (seg x) pir1 x o0 = Some a →
  ∃ d r mem s' u' h', does (_ ← alloc_temp ctx; m) s h (gp r, gp d, mem) s' h' ∧ hflags h' = hflags h ∧
    ready x s' u' h' o0 a d r mem.
Proof using All.
  intros S Hs Hm K Ea. destruct (alloc_ok x s u h S ltac:(lia)) as (t & s1 & A & S1 & P & N & It & T0).
  pose proof (q_size _ _ _ _ _ (quiet_take u t h N)) as Sz.
  assert (Sz' : (size (held_i (take_reg u t)) <= if ir1_opnd_is_mem o0 then 1 else 3)%nat)
    by (destruct (ir1_opnd_is_mem o0); lia).
  destruct Hm as [-> | ->];
    [destruct (get_src0_gpr_ok x s1 _ h o0 a S1 Sz' K Ea) as (d & r & mem & s2 & u2 & h2 & D & Q & Rd)
    |destruct (get_src0_ok x s1 _ h o0 a S1 Sz' K Ea) as (d & r & mem & s2 & u2 & h2 & D & Q & Rd)];
    (exists d, r, mem, s2, u2, h2; split; [by eapply does_bind|]; split; [|done]; unfold hflags; by rewrite (q_sys _ _ _ _ _ Q)).
Qed.

Lemma wp_assoc {A B C} (m : M A) (f : M B) (g : B → M C) s h P :
  wp ((_ ← m; f) ≫= g) s h P → wp (_ ← m; f ≫= g) s h P.
Proof using Type.
  intros (y & s' & h' & (c & E & R) & H). exists y, s', h'. split; [|done]. exists c. split; [|done].
  rewrite <- E. unfold mbind, M_bind. destruct (m s) as [[[a s1] c1]|]; [|done]. cbn [mbind option_bind].
  destruct (f s1) as [[[b s2] c2]|]; [|done]. cbn [mbind option_bind]. destruct (g b s2) as [[[z s3] c3]|]; [|done].
  cbn [mbind option_bind]. by rewrite app_assoc.
Qed.

Lemma neg_ok x x' s u h o0 :
  st x s u h x → (size (held_i u) = 0)%nat → ir1_get_opnd pir1 0 = Some o0 → rm_opnd o0 →
  is_lock tc o0 = false → GHBR_ON tc = false → ir1_opcode pir1 = dt_X86_INS_NEG →
  unary (seg x) pir1 Z.opp (λ w a fl, sub_flags w 0 a fl) x = Some x' →
  translated 63 (translate_neg tc) x x' s h.
Proof using All.
  intros S Hs E0 K L G Op E. destruct (unary_inv _ _ _ _ _ E0 E) as (a & Ea & Ew). destruct (rm_bytes o0 K) as [Hb Bs].
  assert (Lo : lbt_of (ir1_opcode pir1) = Some ("x86sub", sub_flags)) by (by rewrite Op).
  apply (binary_translated _ "x86sub" sub_flags x x' s h o0 0 a _ Lo Ew).
  unfold translate_neg. eapply wp_lift; [exact E0|]. rewrite L. apply wp_assoc.
  destruct (alloc_first x s u h o0 a _ S Hs (or_introl eq_refl) K Ea) as (d & r & mem & s1 & u1 & h1 & D & F & Rd).
  eapply wp_step; [exact D|]. cbv beta iota. destruct (rd_dest _ _ _ _ _ _ _ _ _ Rd) as [Id D0].
  pose proof (rd_src _ _ _ _ _ _ _ _ _ Rd) as Ir. pose proof (rd_val _ _ _ _ _ _ _ _ _ Rd) as Va.
  assert (EF : (if need then sub_flags (ir1_opnd_size o0) (rget h1 0) (rget h1 r) (hflags h1) else hflags h1) =
    (if need then sub_flags (ir1_opnd_size o0) 0 a (hflags h) else hflags h)).
  { rewrite F. destruct need; [|done]. by apply sub_flags_eqw; [lia|rewrite rget_0|]. }
  rewrite <- EF. change zero_ir2_opnd with (gp 0). assert (I0 : is_reg 0) by (unfold is_reg; lia).
  apply (core_ok x x' s1 u1 h1 o0 a d r mem (- a) (sub_flags (ir1_opnd_size o0) 0 a (xflags x))
    (sub_flags (ir1_opnd_size o0)) 0 r _ Rd); try done; [by apply (flags_two o0 "x86sub")|].
  eapply computes_r3; try done. by rewrite rget_0, Va, Z.sub_0_l.
Qed.

Lemma not_ok x x' s u h o0 :
  st x s u h x → (size (held_i u) = 0)%nat → ir1_get_opnd pir1 0 = Some o0 → rm_opnd o0 →
  is_lock tc o0 = false → GHBR_ON tc = false → unary (seg x) pir1 Z.lnot (λ _ _ fl, fl) x = Some x' →
  wp (translate_not tc) s h (result x x' (hflags h)).
Proof using All.
  intros S Hs E0 K L G E. destruct (unary_inv _ _ _ _ _ E0 E) as (a & Ea & Ew).
  unfold translate_not. eapply wp_lift; [exact E0|]. rewrite L. apply wp_assoc.
  destruct (alloc_first x s u h o0 a _ S Hs (or_intror eq_refl) K Ea) as (d & r & mem & s1 & u1 & h1 & D & F & Rd).
  eapply wp_step; [exact D|]. cbv beta iota. destruct (rd_dest _ _ _ _ _ _ _ _ _ Rd) as [Id D0].
  pose proof (rd_src _ _ _ _ _ _ _ _ _ Rd) as Ir. pose proof (rd_val _ _ _ _ _ _ _ _ _ Rd) as Va.
  change zero_ir2_opnd with (gp 0). destruct (r3_does s1 h1 "nor" _ d 0 r _) as (h2 & D2 & W2); try done.
  eapply wp_step; [exact D2|]. apply wp_true. rewrite <- F.
  apply (write_back_ok x x' s1 u1 h1 h2 o0 a d r mem _ (Z.lnot a) (xflags x) Rd W2); try done. cbv beta. rewrite rget_0, Z.lor_0_l. by apply eqw_lnot.
Qed.
End arith.
