(* ===== verification/TrAndOk.v ===== *)
(** * AND is translated correctly

    AND with an immediate that is a run of ones at either end clears a bit field in the
    destination instead of computing with a register (tr-logic.c). *)

From stdpp Require Import base numbers list option strings gmap sets tactics.
From Stdlib Require Import ZArith Lia Bool.
From S2P Require Import Prelude Ir1Enum Ir1 HbrGpr LisaTable Ir2 LaAssemble LaAppend RegMap X86 WordEq.
From S2P Require Import ImmCache ImmCacheSound ImmCacheMain RegAlloc LaSem MacroHelper.
From S2P Require Import MemInterface MemInterfaceOk MemInterfaceMain CacheIndex TrOpnd TrOpndOk TrMov TrMovOk TrMovxOk.
From S2P Require Import TrArith TrArithOk.
Local Open Scope Z_scope.
Local Open Scope c_scope.

(** ** Masks *)

(** A number whose lowest bit is its highest one is a power of two. *)
Lemma one_bit y : 0 < y → Z.log2 (Z.land y (- y)) = Z.log2 y → y = 2 ^ Z.log2 y.
Proof.
  intros Hy E. set (k := Z.log2 y) in *. pose proof (Z.log2_spec y Hy) as [L U]. fold k in L, U.
  destruct (Z.eq_dec k 0) as [K0|K0]; [rewrite K0 in *; lia|]. pose proof (Z.log2_nonneg y). fold k in H.
  destruct (Z.eq_dec y (2 ^ k)) as [|N]; [done|exfalso].
  assert (P : 0 < Z.land y (- y)) by (apply Z.log2_lt_cancel; rewrite E; simpl; lia).
  pose proof (Z.bit_log2 _ P) as B. rewrite E, Z.land_spec in B. apply andb_prop in B as [_ B].
  replace (- y) with (Z.lnot (y - 1)) in B by (unfold Z.lnot; lia). rewrite Z.lnot_spec in B by done.
  assert (Z.log2 (y - 1) = k) as Ek by (apply Z.log2_unique; lia).
  pose proof (Z.bit_log2 (y - 1) ltac:(lia)) as B'. rewrite Ek in B'. by rewrite B' in B.
Qed.

Lemma imm_mask_spec v low pos :
  in_s 32 v → imm_mask (s32 v) = Some (Some (low, pos)) →
  0 <= pos <= 31 ∧ v = (if low then 2 ^ pos - 1 else - 2 ^ pos).
Proof.
  intros Hv. unfold in_s in Hv. rewrite (swrap_id 32) by (lia || done). unfold imm_mask, builtin_ctz, builtin_clz.
  set (y := u32 (s32 ((if 0 <? v then v else Z.lnot v) + 1))).
  assert (Ey : y = if 0 <? v then v + 1 else - v).
  { unfold y, u32, s32. rewrite (eqw_swrap 32 32) by lia. unfold Z.lnot.
    destruct (Z.ltb_spec 0 v); [|replace (Z.pred (- v) + 1) with (- v) by lia]; apply uwrap_id; unfold in_u; lia. }
  clearbody y. destruct (Z.eqb_spec y 0) as [|Ny]; [done|]. cbn [mbind option_bind].
  destruct (Z.eqb_spec (Z.log2 (Z.land y (- y)) + (31 - Z.log2 y)) 31) as [E|]; [|done]. intros [= <- <-].
  assert (Py : 0 < y <= 2 ^ 31) by (destruct (Z.ltb_spec 0 v); lia).
  assert (E' : Z.log2 (Z.land y (- y)) = Z.log2 y) by lia. pose proof (one_bit y ltac:(lia) E') as P. rewrite E'.
  pose proof (Z.log2_nonneg y). assert (Z.log2 y <= 31) by (apply (Z.log2_le_mono y (2 ^ 31)); lia).
  split; [lia|]. rewrite <- P. destruct (Z.ltb_spec 0 v); lia.
Qed.

Lemma testbit_low i pos : 0 <= i → 0 <= pos → Z.testbit (2 ^ pos - 1) i = (i <? pos).
Proof. intros Hi Hp. replace (2 ^ pos - 1) with (Z.ones pos) by (rewrite Z.ones_equiv; lia). by apply Z.testbit_ones_nonneg. Qed.

Lemma testbit_ones_from i pos : 0 <= i → 0 <= pos → Z.testbit (- 2 ^ pos) i = (pos <=? i).
Proof.
  intros Hi Hp. replace (- 2 ^ pos) with (Z.lnot (2 ^ pos - 1)) by (unfold Z.lnot; lia).
  rewrite Z.lnot_spec, testbit_low by done. destruct (Z.ltb_spec i pos), (Z.leb_spec pos i); try done; lia.
Qed.

(** A mask of [w] bits. *)
Lemma mask_pos w (low : bool) pos b :
  8 <= w → in_s w b → 0 <= pos → b = (if low then 2 ^ pos - 1 else - 2 ^ pos) → pos < w.
Proof.
  intros Hw Hb Hp ->. destruct (Z.lt_ge_cases pos w) as [?|Ge]; [done|exfalso].
  pose proof (Z.pow_le_mono_r 2 w pos ltac:(lia) ltac:(lia)). pose proof (Z.pow_pos_nonneg 2 (w - 1) ltac:(lia) ltac:(lia)).
  assert (P2 : 2 ^ w = 2 * 2 ^ (w - 1)) by (rewrite <- Z.pow_succ_r by lia; f_equal; lia).
  unfold in_s in Hb. destruct low; lia.
Qed.

(** The value [X] with the field cleared that the mask [b] clears. *)
Definition masked (w : Z) (low : bool) (pos X : Z) : Z :=
  if low then insert_bits X 0 (if 32 <=? w then 63 else w - 1) pos
  else if 0 <? pos then insert_bits X 0 (pos - 1) 0 else X.

Lemma testbit_masked w low pos X i :
  8 <= w <= 64 → 0 <= pos <= 31 → (low = true → w < 32 → pos < w) → 0 <= i → i < (if 32 <=? w then 64 else w) →
  Z.testbit (masked w low pos X) i = Z.testbit X i && Z.testbit (if low then 2 ^ pos - 1 else - 2 ^ pos) i.
Proof.
  intros Hw Hp Hl Hi Hw'. unfold masked. destruct low.
  - rewrite testbit_low by lia. assert (Hm : pos <= (if 32 <=? w then 63 else w - 1)).
    { destruct (Z.leb_spec 32 w); [lia|]. specialize (Hl eq_refl H). lia. }
    rewrite testbit_insert, Z.bits_0 by lia.
    destruct (Z.leb_spec pos i), (Z.ltb_spec i pos); try lia; cbn [andb]; [|by rewrite andb_true_r].
    rewrite andb_false_r. destruct (Z.leb_spec i (if 32 <=? w then 63 else w - 1)); [done|].
    destruct (32 <=? w); lia.
  - rewrite testbit_ones_from by lia. destruct (Z.ltb_spec 0 pos).
    + rewrite testbit_insert, Z.bits_0 by lia.
      destruct (Z.leb_spec pos i), (Z.leb_spec i (pos - 1)), (Z.leb_spec 0 i); try lia; cbn [andb];
        by rewrite ?andb_true_r, ?andb_false_r.
    + destruct (Z.leb_spec pos i); [by rewrite andb_true_r|lia].
Qed.

(** Above a narrow operand nothing changes. *)
Lemma testbit_masked_above w low pos X i :
  w < 32 → 0 <= pos → (low = true → pos < w) → (low = false → pos <= w) → 0 < w <= i →
  Z.testbit (masked w low pos X) i = Z.testbit X i.
Proof.
  intros Hw Hp Hl Hh Hi. unfold masked. destruct (Z.leb_spec 32 w); [lia|]. destruct low.
  - specialize (Hl eq_refl). rewrite testbit_insert by lia.
    destruct (Z.leb_spec pos i), (Z.leb_spec i (w - 1)); try done; lia.
  - specialize (Hh eq_refl). destruct (Z.ltb_spec 0 pos); [|done]. rewrite testbit_insert by lia.
    destruct (Z.leb_spec 0 i), (Z.leb_spec i (pos - 1)); try done; lia.
Qed.

Section and.
Context (tc : trctx) `{!Qsort (qsort (mctx tc))}.
Local Notation ctx := (mctx tc).
Local Notation pir1 := (pir1 ctx).
Context (H64 : CODEIS64 ctx = true).
Context (Haddr : ir1_addr_size pir1 = 64).
Context (env : site).
Local Notation imm := (option_imm_reg ctx).
Local Notation st := (st (imm := imm) env).
Local Notation seg x := (seg_in (seg_base_off ctx) env x).
Local Notation alloc_ok := (st_alloc tc H64 Haddr env).
Local Notation reached := (reached tc env).
Local Notation result := (result tc env).
Local Notation ready := (ready tc env).
Local Notation need := (ir1_need_calculate_any_flag tc).

Lemma mask_does s h w low pos d :
  is_reg d → d ≠ 0 → 8 <= w <= 64 → 0 <= pos <= 31 → (low = true → w < 32 → pos < w) →
  ∃ h', does (mask_code w low pos (gp d)) s h tt s h' ∧ sets d (λ h, masked w low pos (rget h d)) h h'.
Proof using Type.
  intros Id D0 Hw Hp Hl. unfold mask_code, masked. change zero_ir2_opnd with (gp 0). destruct low.
  - specialize (Hl eq_refl). assert (B : pos <= (if 32 <=? w then 63 else w - 1) < 64) by (destruct (Z.leb_spec 32 w); lia).
    destruct (ins_does s h d 0 (if 32 <=? w then 63 else w - 1) pos) as (h' & D & W); try (done || lia).
    by exists h'.
  - destruct (Z.ltb_spec 0 pos).
    + destruct (ins_does s h d 0 (pos - 1) 0) as (h' & D & W); try (done || lia). by exists h'.
    + exists h. split; [apply does_ret|]. split; [by rewrite rget_u64|done].
Qed.

Lemma masked_value w low pos X a :
  8 <= w <= 64 → 0 <= pos <= 31 → (low = true → w < 32 → pos < w) → X ≡[w] a →
  masked w low pos X ≡[w] Z.land a (if low then 2 ^ pos - 1 else - 2 ^ pos).
Proof using Type.
  intros Hw Hp Hl E. apply eqw_bits; [lia|]. intros i Hi. rewrite testbit_masked, Z.land_spec; try done; try lia.
  - f_equal. by apply (proj1 (eqw_bits w X a ltac:(lia)) E).
  - destruct (Z.leb_spec 32 w); lia.
Qed.

(** The first operand, changed in place. *)
Lemma get_src0_direct x s u h o V :
  st x s u h x → (size (held_i u) <= if ir1_opnd_is_mem o then 1 else 3)%nat → rm_opnd tc o →
  read_opnd (seg x) pir1 x o = Some V →
  ∃ d mem s' u' h', does (get_src0 tc o true) s h (gp d, gp d, mem) s' h' ∧ quiet 2 u h u' h' ∧
    (ready x s' u' h' o V d d mem ∨
     ∃ p, reg_opnd o p d ∧ p_width p < 32 ∧ p_lsb p = 0 ∧ mem = None ∧ st x s' u' h' x).
Proof using All.
  intros S Hs [[W M] NI] E. unfold get_src0. unfold ir1_opnd_is_mem, ir1_opnd_is_imm in *.
  destruct (opnd_op o) as [|r|v|m] eqn:O; [by unfold opnd_wf in W; rewrite O in W|..|done|].
  - destruct (reg_opnd_wf o r O W) as (p & q & R). rewrite (ro_read _ _ _ R) in E. injection E as <-.
    rewrite (ro_gpr _ _ _ R). pose proof (ro_at _ _ _ R) as Hq.
    destruct (gpr_at_facts _ q Hq) as (Iq & Zq & _ & _).
    pose proof (reg_shape _ _ _ R) as Sh. destruct (Z.eq_dec (p_lsb p) 0) as [L|L].
    + exists q, None, s, u, h. split_and!; [|apply quiet_refl|].
      * eapply does_bind; [by apply (convert_here tc s h o p q)|]. eapply does_bind; [apply does_ret|apply does_ret].
      * destruct (Z.leb_spec 32 (p_width p)) as [Wd|Nw]; [left|right; by exists p].
        split; [done|done|done| |by eapply DReg; [done..|lia]]. rewrite (ro_size _ _ _ R).
        apply (value_here env h x p q); [apply S|done|lia|lia].
    +       destruct (alloc_ok x s u h S) as (d & s1 & A & S1 & P & N & Id & D0); [lia|].
      destruct (pick_does s1 h d q 15 8) as (h1 & D & Wr); try done. exists d, None, s1, (take_reg u d), h1.
      assert (p_width p = 8 ∧ p_lsb p = 8) as [Ew El] by lia. split_and!.
      * unfold convert_gpr_opnd. eapply does_bind; [|eapply does_bind; [apply does_ret|apply does_ret]].
        eapply does_bind; [apply does_check, (ro_gpr _ _ _ R)|]. rewrite (ro_num _ _ _ R), (ro_size _ _ _ R).
        eapply does_bind; [apply does_lift, (ro_alloc _ _ _ R)|]. rewrite (ro_8h _ _ _ R), Ew, El. cbn [Z.eqb Pos.eqb].
        eapply does_bind; [exact A|]. eapply does_bind; [exact D|apply does_ret].
      * eapply quiet_weaken; [eapply quiet_write; [by apply quiet_take|done..]|lia].
      * left. split; [eapply st_temp; [done|apply take_held|done]|done|done| |eapply DReg; [done|lia|intros _; apply take_held]].
        rewrite (ro_size _ _ _ R), Ew, (proj1 Wr), (read_part_sim env h x p q (st_sim _ _ _ _ _ _ S) Hq), Ew, El.
        rewrite (eqw_u64 8) by lia. done.
  - unfold read_opnd in E. rewrite O in E. injection E as <-. unfold ir1_opnd_is_gpr. rewrite O.
    destruct (load_dest_ok tc H64 Haddr env x s u h o m S Hs O M (mem_opnd_wf o m O W)) as (d & q & off & s' & u' & h' & D & Q & Rd).
    exists d, (Some (gp q, off)), s', u', h'. split; [|split; [done|by left]].
    eapply does_bind; [exact D|]. cbv beta iota. apply does_ret.
Qed.

(** The write back after a mask, in each of the places. *)
Lemma mask_write x x' s u h h' o a d mem low pos f :
  ready x s u h o a d d mem → GHBR_ON tc = false → 8 <= ir1_opnd_size o <= 64 → 0 <= pos <= 31 →
  (low = true → ir1_opnd_size o < 32 → pos < ir1_opnd_size o) →
  sets d (λ h, masked (ir1_opnd_size o) low pos (rget h d)) h h' →
  write_opnd (seg x) pir1 (set_xflags x f) o (Z.land a (if low then 2 ^ pos - 1 else - 2 ^ pos)) = Some x' →
  wp (write_back tc o (gp d) mem (negb low)) s h' (λ _ s' h'', reached x x' (hflags h) s' h'').
Proof using H64.
  intros Rd G Hw Hp Hl Sd Ew. pose proof (masked_value _ low pos _ _ Hw Hp Hl (rd_val _ _ _ _ _ _ _ _ _ _ _ Rd)) as Ev.
  pose proof (write_back_ok tc H64 env x x' s u h h' o a d d mem _ _ f Rd Sd Ev G Ew) as H. destruct low; [|exact H].
  cbn [negb]. destruct (rd_place _ _ _ _ _ _ _ _ _ _ _ Rd) as [p q R Hq Hd|]; [|exact H]. unfold write_back in *.
  rewrite andb_true_r in H. rewrite andb_false_r. destruct (Z.ltb_spec (ir1_opnd_size o) 32) as [Lt|Ge].
  { assert (E : (ir1_opnd_size o =? 32) = false) by (apply Z.eqb_neq; lia). rewrite E, andb_false_r in H. exact H. }
  clear H. rewrite (ro_write _ _ _ R) in Ew. injection Ew as <-. rewrite (ro_size _ _ _ R) in *.
  rewrite (Hq ltac:(lia)) in *. apply wp_ret. exists u. split; [|by eapply flags_kept].
  destruct (write_part_wide (set_xflags x f) p (Z.land a (2 ^ pos - 1))) as (W64 & W32 & _).
  pose proof (ro_at _ _ _ R) as Hn. pose proof (rd_st _ _ _ _ _ _ _ _ _ _ _ Rd) as S.
  assert (p_width p = 64 ∨ p_width p = 32) as [E|E] by (pose proof (reg_shape _ _ _ R); lia).
  - rewrite W64 by done. rewrite E in *. eapply st_ext; [eapply st_eq; [by eapply st_gpr|exact Ev]|done|done].
  - rewrite W32 by done. eapply st_ext; [eapply st_eq; [by eapply st_gpr|]|done|done]. cbv beta. rewrite E in *.
    apply u64_bits. intros i Hi. rewrite testbit_masked by (done || (simpl; lia)). unfold u32. rewrite testbit_uwrap, Z.land_spec by lia.
    rewrite testbit_low by lia. destruct (Z.ltb_spec i 32) as [L|L]; cbn [andb].
    + f_equal. pose proof (rd_val _ _ _ _ _ _ _ _ _ _ _ Rd) as Va. rewrite (ro_size _ _ _ R), E in Va.
      apply (proj1 (eqw_bits 32 _ _ ltac:(lia)) Va). lia.
    + destruct (Z.ltb_spec i pos); [lia|apply andb_false_r].
Qed.

(** A narrow register changed in place needs no write back. *)
Lemma mask_narrow x s u h h' o p q a low pos f :
  st x s u h x → reg_opnd o p q → p_width p < 32 → p_lsb p = 0 → rget h q ≡[p_width p] a → 0 <= pos <= 31 →
  pos < p_width p → sets q (λ h, masked (p_width p) low pos (rget h q)) h h' →
  wp (write_back tc o (gp q) None (negb low)) s h'
    (λ _ s' h'', reached x (write_part (set_xflags x f) p (Z.land a (if low then 2 ^ pos - 1 else - 2 ^ pos))) (hflags h) s' h'').
Proof using H64.
  intros S R Nw L Ea Hp Hpw Sd. pose proof (ro_at _ _ _ R) as Hq. destruct (gpr_at_facts _ q Hq) as (Iq & _ & _ & _).
  pose proof (reg_shape _ _ _ R) as Sh. unfold write_back. rewrite (ro_size _ _ _ R).
  rewrite (proj2 (Z.eqb_neq (p_width p) 32)), (proj2 (Z.ltb_lt (p_width p) 32)), andb_false_r by lia. cbn [andb].
  set (v := masked (p_width p) low pos (rget h q)) in *. set (W := Z.land a _).
  assert (Ev : v ≡[p_width p] W) by (apply masked_value; done || lia).
  destruct (store_reg_ok tc env x s u h' _ o p q q W (st_gpr _ _ _ _ _ _ _ _ _ _ S Hq Sd) R Iq) as (h2 & D & S2 & K & _).
  { rewrite (proj1 Sd), (eqw_u64 (p_width p)) by lia. exact Ev. }
  eapply wp_done; [exact D|]. exists u. split; [|unfold hflags; rewrite K; by rewrite (proj2 (proj2 Sd))].
  eapply st_ext; [exact S2| |done]. intros n. rewrite !(proj2 (proj2 (write_part_wide _ p _))) by lia.
  cbn [xreg set_xreg set_xflags]. destruct (Z.eqb_spec n (p_num p)); [|done]. rewrite Z.eqb_refl, L.
  rewrite (sim_reg _ _ _ (st_sim _ _ _ _ _ _ S)), (gpr_at_val _ q) by (done || apply Hq).
  apply u64_bits. intros i Hi. rewrite !testbit_insert by lia. destruct (_ && _) eqn:B; [done|].
  unfold u64. rewrite testbit_uwrap by lia. rewrite (proj2 (Z.ltb_lt i 64)) by lia. cbn [andb]. symmetry.
  apply testbit_masked_above; lia.
Qed.

(** From the first operand to the end; [k] holds the mask if the flags are needed. *)
Lemma mask_tail x x' s u h o a b k (low : bool) pos :
  st x s u h x → (size (held_i u) <= if ir1_opnd_is_mem o then 1 else 3)%nat → rm_opnd tc o →
  ir1_get_opnd pir1 0 = Some o → read_opnd (seg x) pir1 x o = Some a → is_reg k →
  (k ∉ reg_itemp_map) ∨ k ∈ held_i u → (need = true → rget h k ≡[ir1_opnd_size o] b) →
  ir1_opcode pir1 = dt_X86_INS_AND → GHBR_ON tc = false → 0 <= pos <= 31 → pos < ir1_opnd_size o →
  b = (if low then 2 ^ pos - 1 else - (2 ^ pos)) →
  let F fl := logic_flags Z.land (ir1_opnd_size o) a b fl in
  write_opnd (seg x) pir1 (set_xflags x (F (xflags x))) o (Z.land a b) = Some x' →
  wp ('(src0, dest, mem) ← get_src0 tc o true;
      _ ← generate_eflag_calculation tc dest src0 (gp k) true;
      _ ← (_ ← check (ir2_opnd_cmp dest src0); mask_code (ir1_opnd_size o) low pos dest);
      _ ← write_back tc o dest mem (negb low); mret true) s h
    (result x x' (if need then F (hflags h) else hflags h)).
Proof using All.
  intros S Hs K E0 Ea Ik Ok Hb Op G Hp Hpw -> F Ew. destruct (rm_bytes tc o K) as [Hby Bs]. set (b := if low then _ else _) in *.
  assert (Lo : lbt_of (ir1_opcode pir1) = Some ("x86and", logic_flags Z.land)) by (by rewrite Op).
  destruct (get_src0_direct x s u h o a S Hs K Ea) as (d & mem & s1 & u1 & h1 & D & Q & C).
  eapply wp_step; [exact D|]. cbv beta iota.
  assert (C' : is_reg d ∧ d ≠ 0 ∧ rget h1 d ≡[ir1_opnd_size o] a).
  { destruct C as [Rd|(p & R & Nw & L & -> & S1)].
    - destruct (rd_dest _ _ _ _ _ _ _ _ _ _ _ Rd). split_and!; try done. apply (rd_val _ _ _ _ _ _ _ _ _ _ _ Rd).
    - destruct (gpr_at_facts _ d (ro_at _ _ _ R)) as (? & ? & _). split_and!; try done. rewrite (ro_size _ _ _ R).
      rewrite (ro_read _ _ _ R) in Ea. injection Ea as <-. pose proof (reg_shape _ _ _ R).
      apply (value_here env h1 x p d); [apply S1|apply (ro_at _ _ _ R)|done|lia]. }
  destruct C' as (Id & D0 & Va). eapply wp_step; [by apply (flags_two tc o "x86and" (logic_flags Z.land) E0 Hby Lo s1 h1 (gp d) d k)|].
  assert (EF : (if need then logic_flags Z.land (ir1_opnd_size o) (rget h1 d) (rget h1 k) (hflags h1) else hflags h1) =
    (if need then F (hflags h) else hflags h)).
  { unfold hflags. rewrite (q_sys _ _ _ _ _ Q). destruct need; [|done]. apply logic_flags_eqw; try done; [lia| |apply bitwise_land].
    rewrite (q_regs _ _ _ _ _ Q k Ok). by apply Hb. }
  rewrite EF. set (FF := if need then F (hflags h) else hflags h) in *. set (h2 := set_flags h1 FF).
  destruct (mask_does s1 h2 (ir1_opnd_size o) low pos d) as (h3 & D3 & W3); try done.
  eapply wp_step; [eapply does_bind; [apply does_check; unfold ir2_opnd_cmp; simpl; by rewrite Z.eqb_refl|exact D3]|].
  apply wp_true. change FF with (hflags h2). destruct C as [Rd|(p & R & Nw & L & -> & S1)].
  - by apply (mask_write x x' s1 u1 h2 h3 o a d mem low pos (F (xflags x)) (ready_flags _ _ _ _ _ _ _ _ _ _ _ FF Rd)).
  - rewrite (ro_write _ _ _ R) in Ew. injection Ew as <-. rewrite (ro_size _ _ _ R) in *.
    apply (mask_narrow x s1 u1 h2 h3 o p d a low pos); try done. by apply st_hflags.
Qed.

Lemma mask_total v : in_s 32 v → v ≠ 0 → ∃ r, imm_mask (s32 v) = Some r.
Proof using Type.
  intros Hv N. unfold in_s in Hv. rewrite (swrap_id 32) by (lia || done). unfold imm_mask, builtin_ctz, builtin_clz.
  assert (E : (u32 (s32 ((if 0 <? v then v else Z.lnot v) + 1)) =? 0) = false).
  { apply Z.eqb_neq. unfold u32, s32. rewrite (eqw_swrap 32 32) by lia. unfold Z.lnot.
    destruct (Z.ltb_spec 0 v); rewrite uwrap_id; unfold in_u; lia. }
  rewrite E. cbn [mbind option_bind]. eauto.
Qed.

Lemma and_ok x x' s u h o0 o1 :
  st x s u h x → (size (held_i u) = 0)%nat → bin_opnds tc o0 o1 → is_lock tc o0 = false → GHBR_ON tc = false →
  (∀ v, ir1_opnd_is_imm o1 = true → ir1_opnd_simm o1 = Some v → v ≠ 0 ∧ in_s (ir1_opnd_size o0) v) →
  ir1_opcode pir1 = dt_X86_INS_AND → binary (seg x) pir1 Z.land (logic_flags Z.land) true x = Some x' →
  translated tc env 63 (translate_and tc) x x' s h.
Proof using All.
  intros S Hs B L G Hv Op E. destruct (binary_inv tc env _ _ _ _ _ _ _ B E) as (a & b & Ea & Eb & Ew).
  assert (Lo : lbt_of (ir1_opcode pir1) = Some ("x86and", logic_flags Z.land)) by (by rewrite Op).
  eapply binary_translated; [exact Lo|exact Ew|]. destruct (imm_tests tc o1 (bo_ok _ _ _ B)) as [_ (c & Ei)].
  unfold translate_and. eapply wp_lift; [apply B|]. eapply wp_lift; [apply B|]. rewrite L. eapply wp_lift; [exact Ei|].
  pose proof (logic_ok tc H64 Haddr env x x' s u h o0 o1 a b c _ _ _ "andi" "and" S Hs B Ea Eb Ei Lo _ _ _ G Ew) as Hl.
  destruct (ir1_opnd_is_imm o1) eqn:Im.
  2: { eapply wp_step; [apply does_ret|]. cbv beta iota zeta. by rewrite !orb_false_r. }
  destruct (imm_some tc o1 (bo_ok _ _ _ B) Im) as (v & Ev & _). destruct (Hv v eq_refl Ev) as [N0 Hw].
  assert (v = b) as -> by exact (imm_signed tc env x o1 b v (bo_ok _ _ _ B) Im Eb Ev).
  pose proof (bo_imm _ _ _ B b Im Ev) as H32. destruct (mask_total b H32 N0) as [[[low pos]|] Em];
    (eapply wp_step; [eapply does_bind; [by apply does_lift|by apply does_lift]|]); cbv beta iota zeta;
    [|by rewrite !orb_false_r]. clear Hl. rewrite !orb_true_r.
  destruct (imm_mask_spec b low pos H32 Em) as [Hp Hb]. destruct (rm_bytes tc o0 (bo_rm _ _ _ B)) as [Hby Bs].
  assert (Hpw : pos < ir1_opnd_size o0) by (apply (mask_pos _ low _ b); done || lia).
  assert (Lw : match Some (low, pos) with Some (true, _) => true | _ => false end = low) by (by destruct low).
  rewrite Lw. pose proof (λ k s1 u1 h1 S1 Sz Ik Ok Hk, mask_tail x x' s1 u1 h1 o0 a b k low pos S1 Sz (bo_rm _ _ _ B)
    (bo_0 _ _ _ B) Ea Ik Ok Hk Op G Hp Hpw Hb Ew) as T. cbv zeta in T.
  unfold logic_src1. cbn [andb]. destruct need eqn:N; cbn [negb].
  - destruct (load_src1 tc H64 Haddr env x s u h o1 b (ir1_opnd_size o0) S) as (k & s1 & u1 & h1 & D & S1 & Q & [Ik Ow] & Ek);
      try apply B; try done; [lia..|]. eapply wp_step; [exact D|].
    assert (F : hflags h1 = hflags h) by (unfold hflags; by rewrite (q_sys _ _ _ _ _ Q)). rewrite <- F.
    apply (T k s1 u1 h1); try done.
    + by eapply src1_room.
    + destruct Ow as [?|[? _]]; auto.
  - eapply wp_step; [apply does_ret|]. apply (T 0 s u h); try done; [rewrite Hs; destruct (ir1_opnd_is_mem o0); lia|].
    left. apply source_zero.
Qed.
End and.
