(* ===== verification/TrMisc.v ===== *)
(** * SETcc and the sign extensions of the accumulator (translator/tr-setcc.c, tr-misc.c) *)

From stdpp Require Import base numbers list option strings gmap tactics.
From Stdlib Require Import ZArith Lia Bool.
From S2P Require Import Prelude Ir1Enum Ir1 HbrGpr LisaTable Ir2 LaAssemble X86.
From S2P Require Import LaAppend RegMap ImmCache RegAlloc LaSem MacroHelper.
From S2P Require Import MemInterface TrOpnd TrMov.
Local Open Scope Z_scope.
Local Open Scope c_scope.

Definition dx_ir1_opnd : IR1_OPND := mkOpnd (OP_REG dt_X86_REG_DX) 2.
Definition edx_ir1_opnd : IR1_OPND := mkOpnd (OP_REG dt_X86_REG_EDX) 4.

Section misc.
Variable tc : trctx.
Local Notation ctx := (mctx tc).
Local Notation pir1 := (pir1 ctx).

Definition translate_setcc : M bool :=
  opnd0 ← lift (ir1_get_opnd pir1 0);
  cond ← alloc_temp ctx;
  _ ← get_eflag_condition tc cond;
  _ ← store_ireg_to_ir1 tc cond opnd0 false;
  _ ← free_temp cond;
  mret true.

Definition translate_cwd : M bool :=
  ax ← lift (ra_alloc_gpr eax_index);
  dx ← alloc_temp ctx;
  _ ← r2 "ext.w.h" dx ax;
  _ ← r2i "srai.w" dx dx 16;
  _ ← store_ireg_to_ir1 tc dx dx_ir1_opnd false;
  _ ← free_temp dx;
  mret true.

Definition translate_cdq : M bool :=
  eax ← lift (ra_alloc_gpr eax_index);
  edx ← alloc_temp ctx;
  _ ← r2i "srai.w" edx eax 31;
  _ ← store_ireg_to_ir1 tc edx edx_ir1_opnd false;
  _ ← free_temp edx;
  mret true.

Definition translate_cqo : M bool :=
  rax ← lift (ra_alloc_gpr eax_index);
  rdx ← lift (ra_alloc_gpr edx_index);
  _ ← r2i "srai.d" rdx rax 63;
  mret true.

Definition translate_cbw : M bool :=
  temp ← alloc_temp ctx;
  eax_opnd ← lift (ra_alloc_gpr eax_index);
  _ ← r2 "ext.w.b" temp eax_opnd;
  _ ← bstr "bstrins.d" eax_opnd temp 15 0;
  mret true.

Definition translate_cwde : M bool :=
  eax_opnd ← lift (ra_alloc_gpr eax_index);
  _ ← r2 "ext.w.h" eax_opnd eax_opnd;
  _ ← (if negb (GHBR_ON tc) && CODEIS64 ctx then m_mov32_zx eax_opnd eax_opnd else mret tt);
  mret true.

Definition translate_cdqe : M bool :=
  rax_opnd ← lift (ra_alloc_gpr eax_index);
  _ ← r2i "slli.w" rax_opnd rax_opnd 0;
  mret true.

Definition translate_endbr64 : M bool := mret true.
End misc.
