(* ===== verification/TrMiscOk.v ===== *)
(** * SETcc and the sign extensions are translated correctly *)

From stdpp Require Import base numbers list option strings gmap sets tactics.
From Stdlib Require Import ZArith Lia Bool.
From S2P Require Import Prelude Ir1Enum Ir1 HbrGpr LisaTable Ir2 LaAssemble LaAppend RegMap X86 WordEq.
From S2P Require Import ImmCache ImmCacheSound ImmCacheMain RegAlloc LaSem MacroHelper.
From S2P Require Import MemInterface MemInterfaceOk MemInterfaceMain CacheIndex TrOpnd TrOpndOk TrMov TrMovOk TrMovxOk TrMisc.
Local Open Scope Z_scope.
Local Open Scope c_scope.

(** A register operand of a given part. *)
Lemma named_opnd r p :
  part_of r = Some p → ∃ q, reg_opnd (mkOpnd (OP_REG r) (p_width p / 8)) p q.
Proof.
  intros E. assert (W : opnd_wf (mkOpnd (OP_REG r) (p_width p / 8)) = true).
  { unfold opnd_wf. simpl. rewrite E. by destruct r; vm_compute in E; try discriminate E; injection E as <-. }
  destruct (reg_opnd_wf (mkOpnd (OP_REG r) (p_width p / 8)) r eq_refl W) as (p' & q & R). exists q.
  pose proof (ro_part _ _ _ R) as P. simpl in P. rewrite E in P. by injection P as <-.
Qed.

(** A number of [n] bits and a sign, shifted by more. *)
Lemma sign_shift n v : 0 <= n → - 2 ^ n <= v < 2 ^ n → v >> (n + 1) = v >> n.
Proof.
  intros Hn Hv. rewrite !Z.shiftr_div_pow2 by lia. rewrite Z.pow_add_r by lia.
  pose proof (Z.pow_pos_nonneg 2 n ltac:(lia) Hn).
  destruct (Z.ltb_spec v 0).
  - rewrite <- (Z.div_unique v (2 ^ n) (-1) (v + 2 ^ n)), <- (Z.div_unique v (2 ^ n * 2 ^ 1) (-1) (v + 2 ^ n * 2 ^ 1)); lia.
  - rewrite !Z.div_small; lia.
Qed.

Lemma cwd_value a : s32 (u64 (s16 a)) >> 16 = swrap 16 a >> 15.
Proof.
  pose proof (swrap_range 16 a ltac:(lia)) as B. unfold s32, s16.
  rewrite (swrap_eqw 32 _ (swrap 16 a)) by (lia || (apply eqw_u64; lia)).
  rewrite swrap_id by (lia || (unfold in_s in *; lia)). apply (sign_shift 15); [lia|]. unfold in_s in B. lia.
Qed.

Section misc.
Context (tc : trctx) `{!Qsort (qsort (mctx tc))}.
Local Notation ctx := (mctx tc).
Local Notation pir1 := (pir1 ctx).
Context (H64 : CODEIS64 ctx = true).
Context (Haddr : ir1_addr_size pir1 = 64).
Context (env : site).
Local Notation imm := (option_imm_reg ctx).
Local Notation st := (st (imm := imm) env).
Local Notation seg x := (seg_in (seg_base_off ctx) env x).
Local Notation alloc_ok := (st_alloc tc H64 Haddr env).
Local Notation reached := (reached tc env).
Local Notation result := (result tc env).

(** A temporary is stored to a register or to memory. *)
Lemma store_temp_ok x x' s u h o t V F :
  st x s u h x → (size (held_i u) <= 2)%nat → opnd_ok tc o → t ∈ held_i u → is_reg t →
  rget h t ≡[ir1_opnd_size o] V → write_opnd (seg x) pir1 x o V = Some x' → hflags h = F →
  wp (_ ← store_ireg_to_ir1 tc (gp t) o false; _ ← free_temp (gp t); mret true) s h (result x x' F).
Proof using All.
  intros S Hs [W K] Ht It Ev E HF.
  destruct (opnd_op o) as [|r|v|m] eqn:O; try (by unfold opnd_wf in W; rewrite O in W);
    [|by unfold write_opnd in E; rewrite O in E|].
  - destruct (reg_opnd_wf o r O W) as (p & q & R). rewrite (ro_write _ _ _ R) in E. injection E as <-.
    rewrite (ro_size _ _ _ R) in Ev.
    destruct (store_reg_ok tc env x s u h x o p q t V S R It Ev) as (h1 & D & S1 & K1 & _).
    eapply wp_step; [exact D|]. apply (free_reached tc env true x _ F s u h1 t S1); [|done].
    unfold hflags in *. by rewrite K1.
  - assert (Hb : opnd_bytes o ∈ [1; 2; 4; 8]).
    { unfold opnd_wf in W. rewrite O in W. apply andb_prop in W as [_ W]. by apply bool_decide_eq_true in W. }
    destruct (store_mem_ok tc H64 Haddr env x s u h o m t V S K Hb Hs It (or_intror Ht) Ev)
      as (s1 & u1 & h1 & D & S1 & (Q1 & _ & Q3 & _)).
    unfold write_opnd in E. rewrite O in E. injection E as <-.
    eapply wp_step; [exact D|]. apply (free_reached tc env true x _ F s1 u1 h1 t); [exact S1|congruence|by apply Q1].
Qed.

Lemma setcc_ok x x' s u h o :
  st x s u h x → (size (held_i u) = 0)%nat → ir1_get_opnd pir1 0 = Some o → opnd_ok tc o → opnd_bytes o = 1 →
  (∀ c, jcc_of (ir1_opcode pir1) = Some c → lbt_cond c (hflags h) = lbt_cond c (xflags x)) →
  x86_setcc (seg x) pir1 x = Some x' → wp (translate_setcc tc) s h (result x x' (hflags h)).
Proof using All.
  intros S Hs E0 K Eb Hc E. unfold translate_setcc, x86_setcc in *. rewrite E0 in E. cbn [mbind option_bind] in E.
  destruct (cond_holds (ir1_opcode pir1) x) as [b|] eqn:Ec; [|done]. cbn [mbind option_bind] in E.
  eapply wp_lift; [exact E0|]. destruct (alloc_ok x s u h S ltac:(lia)) as (n & s1 & A & S1 & P & N & In & N0).
  eapply wp_step; [exact A|]. pose proof (take_held u n) as Hn. pose proof (size_take u n).
  destruct (cond_emitted tc x b (gp n) Ec) as (c & Ej & Bc & Ev & Eg). rewrite Eg.
  destruct (does_emits _ s1 _ _ _ h (emits_cond "setx86j" n c s1 _ In N0 Bc)) as (h1 & D1 & W1).
  eapply wp_step; [eapply does_bind; [by apply does_lift|exact D1]|].
  apply (store_temp_ok x x' s1 (take_reg u n) h1 o n (Z.b2z b)); try done; [|lia| |by eapply flags_kept].
  - by apply (st_temp _ _ _ _ _ _ _ _ _ S1 Hn W1).
  - rewrite (proj1 W1). cbv beta. rewrite Hc, Ev by done. unfold ir1_opnd_size. rewrite Eb. by destruct b.
Qed.

(** ** Sign extensions *)

(** The accumulator. *)
Lemma acc_at : ∃ q, gpr_at eax_index q ∧ ra_alloc_gpr eax_index = Some (gp q).
Proof using Type. eexists. split; [split; [unfold eax_index; lia|reflexivity]|reflexivity]. Qed.

Lemma acc_val x0 s u h x q : st x0 s u h x → gpr_at eax_index q → xreg x eax_index = rget h q.
Proof using Type. intros S Hq. rewrite (sim_reg _ _ _ (st_sim _ _ _ _ _ _ S)) by (unfold eax_index; lia). by apply gpr_at_val. Qed.

Lemma cdqe_ok x x' s u h :
  st x s u h x → x86_widen 32 x = Some x' → wp translate_cdqe s h (result x x' (hflags h)).
Proof using Type.
  intros S [= <-]. unfold translate_cdqe. destruct acc_at as (q & Hq & Ea). destruct (gpr_at_facts _ _ Hq) as (Iq & Q0 & _ & _).
  eapply wp_lift; [exact Ea|]. apply wp_true. destruct (mov_sx_does s h q q Iq Q0 Iq) as (h1 & D & W).
  eapply wp_done; [exact D|]. eapply (reached_sets tc env _ _ _ _ u); [|done|exact W].
  eapply st_part_64; [done|exact Hq|done|exact W|]. cbv beta. by rewrite (acc_val _ _ _ _ _ _ S Hq).
Qed.

Lemma cqo_ok x x' s u h :
  st x s u h x → x86_fill 64 x = Some x' → wp translate_cqo s h (result x x' (hflags h)).
Proof using Type.
  intros S [= <-]. destruct acc_at as (q & Hq & Ea). destruct (gpr_at_facts _ _ Hq) as (Iq & _ & _ & _).
  assert (∃ d, gpr_at edx_index d ∧ ra_alloc_gpr edx_index = Some (gp d)) as (d & Hd & Ed)
    by (eexists; split; [split; [unfold edx_index; lia|reflexivity]|reflexivity]).
  destruct (gpr_at_facts _ _ Hd) as (Id & D0 & _ & _).
  eapply wp_lift; [exact Ea|]. eapply wp_lift; [exact Ed|]. apply wp_true.
  destruct (does_emits (r2i "srai.d" (gp d) (gp q) 63) s tt s (sets d (λ h, s64 (rget h q) >> 63)) h) as (h1 & D & W).
  { eapply emits_sets; [by eapply emits_r2i; [apply row_srai_d|..]|]. done. }
  eapply wp_done; [exact D|]. eapply (reached_sets tc env _ _ _ _ u); [|done|exact W].
  eapply st_part_64; [done|exact Hd|done|exact W|]. cbv beta. by rewrite (acc_val _ _ _ _ _ _ S Hq).
Qed.

Lemma cbw_ok x x' s u h :
  st x s u h x → (size (held_i u) = 0)%nat → x86_widen 8 x = Some x' →
  wp (translate_cbw tc) s h (result x x' (hflags h)).
Proof using All.
  intros S Hs [= <-]. unfold translate_cbw. destruct (alloc_ok x s u h S ltac:(lia)) as (n & s1 & A & S1 & P & N & In & N0).
  eapply wp_step; [exact A|]. destruct (named_opnd dt_X86_REG_AX (mkPart 0 16 0) eq_refl) as (q & R).
  pose proof (ro_at _ _ _ R) as Hq. destruct (gpr_at_facts _ _ Hq) as (Iq & _ & _ & _).
  eapply wp_lift; [apply (ro_alloc _ _ _ R)|]. destruct (r2_does s1 h "ext.w.b" s8 n q _ In N0 Iq) as (h1 & D1 & W1).
  eapply wp_step; [exact D1|]. apply wp_true. pose proof (st_temp _ _ _ _ _ _ _ _ _ S1 (take_held u n) W1) as S2.
  destruct (ins_part tc env x s1 _ h1 x _ _ q n (swrap 8 (xreg x eax_index)) 15 0 S2 R In) as (h2 & D2 & S3 & F2); try done.
  - by left.
  - rewrite (proj1 W1). cbv beta. rewrite (acc_val _ _ _ _ _ _ S Hq). apply eqw_u64. simpl. lia.
  - eapply wp_done; [exact D2|]. eexists. split; [exact S3|]. by rewrite F2, (flags_kept _ _ _ _ W1).
Qed.

Lemma cwde_ok x x' s u h :
  st x s u h x → GHBR_ON tc = false → x86_widen 16 x = Some x' →
  wp (translate_cwde tc) s h (result x x' (hflags h)).
Proof using H64.
  intros S G [= <-]. unfold translate_cwde. destruct acc_at as (q & Hq & Ea).
  destruct (gpr_at_facts _ _ Hq) as (Iq & Q0 & _ & _). eapply wp_lift; [exact Ea|].
  destruct (r2_does s h "ext.w.h" s16 q q _ Iq Q0 Iq) as (h1 & D1 & W1). eapply wp_step; [exact D1|].
  rewrite G, H64. apply wp_true. destruct (mov_zx_does s h1 q q Iq Q0 Iq) as (h2 & D2 & W2).
  eapply wp_done; [exact D2|]. exists u. split; [|by rewrite (flags_kept _ _ _ _ W2), (flags_kept _ _ _ _ W1)].
  pose proof (st_gpr _ _ _ _ _ _ _ _ _ _ S Hq W1) as S1.
  rewrite (proj1 (proj2 (write_part_wide x (mkPart eax_index 32 0) _)) eq_refl).
  eapply (st_twice tc env _ _ _ _ x eax_index). eapply st_eq; [by eapply st_gpr|]. cbv beta.
  rewrite (proj1 W1). cbv beta. rewrite (acc_val _ _ _ _ _ _ S Hq). f_equal. apply (eqw_u64 32). lia.
Qed.

(** The sign of the accumulator, in a temporary, goes to the part [p] of a register. *)
Lemma fill_store x s u h r p n V :
  part_of r = Some p → st x s u h x → (size (held_i u) <= 2)%nat → n ∈ held_i u → is_reg n →
  rget h n ≡[p_width p] V →
  wp (_ ← store_ireg_to_ir1 tc (gp n) (mkOpnd (OP_REG r) (p_width p / 8)) false; _ ← free_temp (gp n); mret true) s h
    (result x (write_part x p V) (hflags h)).
Proof using All.
  intros E S Hs Hn In Ev. destruct (named_opnd r p E) as (q & R).
  apply (store_temp_ok x _ s u h _ n V); try done.
  - split; [|done]. unfold opnd_wf. simpl. rewrite E. apply Z.eqb_eq. symmetry. apply (ro_size _ _ _ R).
  - by rewrite (ro_size _ _ _ R).
  - apply (ro_write _ _ _ R).
Qed.

Lemma cdq_ok x x' s u h :
  st x s u h x → (size (held_i u) = 0)%nat → x86_fill 32 x = Some x' →
  wp (translate_cdq tc) s h (result x x' (hflags h)).
Proof using All.
  intros S Hs [= <-]. unfold translate_cdq. destruct acc_at as (q & Hq & Ea).
  destruct (gpr_at_facts _ _ Hq) as (Iq & _ & _ & _). eapply wp_lift; [exact Ea|].
  destruct (alloc_ok x s u h S ltac:(lia)) as (n & s1 & A & S1 & P & N & In & N0). eapply wp_step; [exact A|].
  pose proof (take_held u n) as Hn. pose proof (size_take u n).
  destruct (shift_does s1 h "srai.w" (λ j i, s32 j >> i) n q 31 _) as (h1 & D1 & W1); try done.
  eapply wp_step; [exact D1|]. rewrite <- (flags_kept _ _ _ _ W1).
  apply (fill_store x s1 (take_reg u n) h1 dt_X86_REG_EDX (mkPart edx_index 32 0)); try done; [|lia|].
  - by apply (st_temp _ _ _ _ _ _ _ _ _ S1 Hn W1).
  - rewrite (proj1 W1). cbv beta. rewrite (acc_val _ _ _ _ _ _ S Hq). apply eqw_u64. simpl. lia.
Qed.

Lemma cwd_ok x x' s u h :
  st x s u h x → (size (held_i u) = 0)%nat → x86_fill 16 x = Some x' →
  wp (translate_cwd tc) s h (result x x' (hflags h)).
Proof using All.
  intros S Hs [= <-]. unfold translate_cwd. destruct acc_at as (q & Hq & Ea).
  destruct (gpr_at_facts _ _ Hq) as (Iq & _ & _ & _). eapply wp_lift; [exact Ea|].
  destruct (alloc_ok x s u h S ltac:(lia)) as (n & s1 & A & S1 & P & N & In & N0). eapply wp_step; [exact A|].
  pose proof (take_held u n) as Hn. pose proof (size_take u n).
  destruct (r2_does s1 h "ext.w.h" s16 n q _ In N0 Iq) as (h1 & D1 & W1). eapply wp_step; [exact D1|].
  destruct (shift_does s1 h1 "srai.w" (λ j i, s32 j >> i) n n 16 _) as (h2 & D2 & W2); try done.
  eapply wp_step; [exact D2|]. rewrite <- (flags_kept _ _ _ _ W1), <- (flags_kept _ _ _ _ W2).
  apply (fill_store x s1 (take_reg u n) h2 dt_X86_REG_DX (mkPart edx_index 16 0)); try done; [|lia|].
  - eapply st_temp; [|exact Hn|exact W2]. by apply (st_temp _ _ _ _ _ _ _ _ _ S1 Hn W1).
  - rewrite (proj1 W2). cbv beta. rewrite (proj1 W1). cbv beta. rewrite (acc_val _ _ _ _ _ _ S Hq).
    rewrite cwd_value. apply eqw_u64. simpl. lia.
Qed.
End misc.
