(* ===== verification/TrBlock.v ===== *)
(** * Instructions and blocks (translator/translate.c)

    [ir1_translate] finds the routine of an instruction, [tr_ir2_generate] translates the
    instructions of a block one after the other.  The routines that are not modelled are
    arguments, as are the code for pairs of instructions (tr-pattern.c) and the call to a
    thunk.  Tracing, dumping and the check for shared memory are off. *)

From stdpp Require Import base numbers list option strings gmap tactics.
From Stdlib Require Import ZArith Lia Bool.
From S2P Require Import Prelude Ir1Enum Ir1 InstsPattern HbrGpr LisaTable Ir2 LaAssemble X86.
From S2P Require Import LaAppend RegMap ImmCache RegAlloc LaSem MacroHelper.
From S2P Require Import MemInterface TrOpnd TrMov TrArith TrMisc.
Local Open Scope Z_scope.
Local Open Scope c_scope.

(** What the driver takes from elsewhere. *)
Record driver := mkDriver {
  option_instptn : bool;
  translate_instptn : trctx → M bool;        (** the fused instructions of tr-pattern.c *)
  translate_other : dt_x86_insn → option (trctx → M bool);  (** the other rows of the table *)
  thunks : pc_thunk_table;
  translate_callnext : trctx → M bool;
  translate_callthunk : trctx → M bool;
  translate_movs : trctx → M bool;
  translate_movsd : trctx → M bool;
  translate_cmpsd : trctx → M bool;
  translate_cmps : trctx → M bool;
  option_softfpu : Z;
  lsenv_offset_of_top : Z;
  lsenv_offset_of_tag_word : Z;
  gen_softfpu_helper_prologue : trctx → M unit;
  gen_softfpu_helper_epilogue : trctx → M unit;
  option_lative : bool;
  option_enable_lasx : bool;
  save_h128_of_ymm : trctx → M IR2_OPND;
  restore_h128_of_ymm : trctx → IR2_OPND → M unit
}.

(** The instruction becomes the current one; the pseudo-instruction [x86_inst] marks
    where its code starts ([tr_init_for_each_ir1_in_tb]). *)
Definition set_pir1 (c : context) (i : IR1_INST) : context :=
  mkCtx (option_imm_reg c) (option_imm_rip c) (option_imm_complex c) (option_imm_precache c) (CODEIS64 c)
    (qsort c) (imm_skip_pc c) i (seg_base_off c).
Definition tr_init_for_each_ir1_in_tb (tc : trctx) (i : IR1_INST) : trctx :=
  mkTrctx (set_pir1 (mctx tc) i) (seg_selector_off tc) (store_ireg_to_ir1_seg tc) (curr_ir1_skipped_eflags tc)
    (in_pre_translate tc) (close_latx_parallel tc) (cf_parallel tc) (use_smc_opt tc) (smc_store tc)
    (translate_lock tc) (xchg_atomic tc) (fgen tc).

Definition la_x86_inst (i : IR1_INST) : M unit :=
  ir2_opnd_addr ← lift (ir2_opnd_build IR2_OPND_IMM (ir1_addr i));
  emit "x86_inst" [AOpnd ir2_opnd_addr].

Section driver.
Variable d : driver.
Variable tc : trctx.
Local Notation ctx := (mctx tc).
Local Notation pir1 := (pir1 ctx).

Definition try_translate_instptn : M bool :=
  if negb (option_instptn d) then mret false
  else if instptn_opc pir1 =? INSTPTN_OPC_NONE then mret false
  else if (instptn_opc pir1 =? INSTPTN_OPC_NOP) || (instptn_opc pir1 =? INSTPTN_OPC_NOP_FOR_EXP) then mret true
  else translate_instptn d tc.

(** The table of routines; [None] is a null entry. *)
Definition translate_functions : option (M bool) :=
  match ir1_opcode pir1 with
  | dt_X86_INS_ADD => Some (translate_add tc)
  | dt_X86_INS_AND => Some (translate_and tc)
  | dt_X86_INS_CBW => Some (translate_cbw tc)
  | dt_X86_INS_CDQ => Some (translate_cdq tc)
  | dt_X86_INS_CDQE => Some translate_cdqe
  | dt_X86_INS_CMOVA | dt_X86_INS_CMOVAE | dt_X86_INS_CMOVB | dt_X86_INS_CMOVBE | dt_X86_INS_CMOVE
  | dt_X86_INS_CMOVG | dt_X86_INS_CMOVGE | dt_X86_INS_CMOVL | dt_X86_INS_CMOVLE | dt_X86_INS_CMOVNE
  | dt_X86_INS_CMOVNO | dt_X86_INS_CMOVNP | dt_X86_INS_CMOVNS | dt_X86_INS_CMOVO | dt_X86_INS_CMOVP
  | dt_X86_INS_CMOVS => Some (translate_cmovcc tc)
  | dt_X86_INS_CMP => Some (translate_cmp tc)
  | dt_X86_INS_CQO => Some translate_cqo
  | dt_X86_INS_CWD => Some (translate_cwd tc)
  | dt_X86_INS_CWDE => Some (translate_cwde tc)
  | dt_X86_INS_DEC => Some (translate_dec tc)
  | dt_X86_INS_ENDBR64 => Some translate_endbr64
  | dt_X86_INS_INC => Some (translate_inc tc)
  | dt_X86_INS_LEA => Some (translate_lea ctx)
  | dt_X86_INS_OR => Some (translate_or tc)
  | dt_X86_INS_SUB => Some (translate_sub tc)
  | dt_X86_INS_XOR => Some (translate_xor tc)
  | dt_X86_INS_MOV | dt_X86_INS_MOVABS => Some (translate_mov tc)
  | dt_X86_INS_MOVSX => Some (translate_movsx tc)
  | dt_X86_INS_MOVSXD => Some (translate_movsxd tc)
  | dt_X86_INS_MOVZX => Some (translate_movzx tc)
  | dt_X86_INS_NEG => Some (translate_neg tc)
  | dt_X86_INS_NOT => Some (translate_not tc)
  | dt_X86_INS_POP => Some (translate_pop tc)
  | dt_X86_INS_PUSH => Some (translate_push tc)
  | dt_X86_INS_SETAE | dt_X86_INS_SETA | dt_X86_INS_SETBE | dt_X86_INS_SETB | dt_X86_INS_SETE
  | dt_X86_INS_SETGE | dt_X86_INS_SETG | dt_X86_INS_SETLE | dt_X86_INS_SETL | dt_X86_INS_SETNE
  | dt_X86_INS_SETNO | dt_X86_INS_SETNP | dt_X86_INS_SETNS | dt_X86_INS_SETO | dt_X86_INS_SETP
  | dt_X86_INS_SETS => Some (translate_setcc tc)
  | dt_X86_INS_TEST => Some (translate_test tc)
  | dt_X86_INS_XCHG => Some (translate_xchg tc)
  | op => f ← translate_other d op; Some (f tc)
  end.

(** [ir1_need_reserve_h128] *)
Definition ir1_need_reserve_h128 : bool :=
  match ir1_get_opnd pir1 0 with
  | Some dest => ir1_opnd_is_xmm dest && negb (opcode0 (info pir1) =? 0xc4) && negb (opcode0 (info pir1) =? 0xc5)
  | None => false
  end.

(** The special cases of CALL: the next instruction, or a thunk that returns the pc. *)
Definition call_special : M (option (M bool)) :=
  if bool_decide (ir1_opcode pir1 = dt_X86_INS_CALL) then
    indirect ← lift (ir1_is_indirect_call pir1);
    if (indirect : bool) then mret None
    else
      t ← lift (ir1_target_addr pir1);
      if ir1_addr_next pir1 =? t then mret (Some (translate_callnext d tc))
      else if 0 <=? ht_pc_thunk_lookup (thunks d) t then mret (Some (translate_callthunk d tc))
      else mret None
  else mret None.

(** An MMX instruction under softfpu empties the x87 stack. *)
Definition softfpu_mmx : M unit :=
  if negb (option_softfpu d =? 0) && existsb ir1_opnd_is_mmx (operands (info pir1)) then
    _ ← r2i "st.w" zero_ir2_opnd env_ir2_opnd (lsenv_offset_of_top d);
    r2i "st.d" zero_ir2_opnd env_ir2_opnd (lsenv_offset_of_tag_word d)
  else mret tt.

(** MOVSD and CMPSD name two instructions each. *)
Definition by_opcode (b1 : Z) (f1 : M bool) (b2 : Z) (f2 : M bool) : M bool :=
  if opcode0 (info pir1) =? b1 then f1 else if opcode0 (info pir1) =? b2 then f2 else mret false.

Definition free_all : M unit := do_temps (λ s, Some (ra_free_all s)).

Definition ir1_translate : M bool :=
  done ← try_translate_instptn;
  if (done : bool) then _ ← free_all; mret true
  else
    special ← call_special;
    match special with
    | Some f => f
    | None =>
        _ ← softfpu_mmx;
        let reserve := option_lative d && option_enable_lasx d in
        temp ← (if reserve && ir1_need_reserve_h128 then save_h128_of_ymm d tc else mret ir2_opnd_new_none);
        let last (m : M bool) : M bool :=
          translation_success ← m;
          _ ← (if reserve && negb (ir2_opnd_is_none temp) then restore_h128_of_ymm d tc temp else mret tt);
          _ ← free_all;
          mret translation_success in
        if bool_decide (ir1_opcode pir1 = dt_X86_INS_MOVSD) then
          last (by_opcode 0xa5 (translate_movs d tc) 0x0f (translate_movsd d tc))
        else if bool_decide (ir1_opcode pir1 = dt_X86_INS_CMPSD) then
          last (by_opcode 0x0f (translate_cmpsd d tc) 0xa7 (translate_cmps d tc))
        else match translate_functions with
             | None => mret false
             | Some f => last f
             end
    end.
End driver.

(** ** Collecting the addresses of a block before its translation *)

Definition set_pc (c : IMM_CACHE) (pc : Z) : IMM_CACHE :=
  mkC (bucket c) (cache_count c) (free_count c) (curr_imm_index c) (curr_ir1_index c) (curr_ir2_index c)
    (optimized_ir2 c) pc (itemp_allocated c) (ir1_reg_last_updated_index c) (itemp_stat c) (stop_opt c).

Definition precache_opnd (pir1 : IR1_INST) (c : IMM_CACHE) (o : IR1_OPND) : option IMM_CACHE :=
  match ir1_opnd_mem o with
  | None => Some c
  | Some m =>
      if reg_eqb (base m) dt_X86_REG_RIP then
        imm_cache_precache_put c (-100) (-1) (-1) (s64 (disp m + ir1_addr_next pir1))
      else if negb (si12_overflow (disp m)) then Some c
      else
        index_op ← key_index o;
        scale ← key_scale o;
        if negb (key_base o =? -1) || negb (index_op =? -1)
        then imm_cache_precache_put c (key_base o) index_op scale (disp m)
        else Some c
  end.

Fixpoint precache_opnds (pir1 : IR1_INST) (c : IMM_CACHE) (l : list IR1_OPND) : option IMM_CACHE :=
  match l with [] => Some c | o :: l => c ← precache_opnd pir1 c o; precache_opnds pir1 c l end.

Fixpoint precache (c : IMM_CACHE) (i : Z) (l : list IR1_INST) : option IMM_CACHE :=
  match l with
  | [] => Some c
  | pir1 :: l =>
      c ← precache_opnds pir1 (set_ir1_index c i (curr_ir2_index c)) (operands (info pir1));
      precache c (i + 1) l
  end.

(** ** Blocks *)

(** The number of instructions emitted. *)
Definition counted {A} (m : M A) : M (A * Z) := λ s,
  '(x, s, code) ← m s; Some (x, Z.of_nat (length code), s, code).

Section block.
Variable d : driver.
Variable tc : trctx.
Local Notation ctx := (mctx tc).

Definition init_cache (pc : Z) (l : list IR1_INST) : M unit :=
  if option_imm_reg ctx then
    do_temps (λ s,
      let c := set_pc (imm_cache s) pc in
      c ← (if negb (option_imm_precache ctx) then imm_cache_init c CACHE_DEFAULT_CAPACITY
           else
             c ← imm_cache_init c (Z.of_nat (length l));
             c ← precache c 0 l;
             imm_cache_finish_precache (qsort ctx) c);
      Some (set_imm_cache s c))
  else mret tt.

(** An x87 instruction, by its number. *)
Definition is_x87 (i : IR1_INST) : bool := insn_code (ir1_opcode i) <=? insn_code dt_X86_INS_FYL2XP1.

(** The loop over the instructions: [i] is the index of the next one, [n] the number of
    IR2 instructions so far, [proepo] is [reduce_proepo].  The result says whether all of
    them were translated (otherwise the mode of the block becomes [BAD_TB]). *)
Fixpoint tr_ir1s (i n : Z) (proepo : bool) (l : list IR1_INST) : M bool :=
  match l with
  | [] => mret true
  | p :: l =>
      let tc1 := tr_init_for_each_ir1_in_tb tc p in
      _ ← do_temps (λ s, Some (set_imm_cache s (set_ir1_index (imm_cache s) i n)));
      _ ← la_x86_inst p;
      let starts := (option_softfpu d =? 2) && negb proepo && is_x87 p in
      '(_, k1) ← counted (if starts then gen_softfpu_helper_prologue d tc1 else mret tt);
      let proepo := proepo || starts in
      '(ok, k2) ← counted (ir1_translate d tc1);
      let ends := (option_softfpu d =? 2) && proepo &&
                  match l with q :: _ => negb (is_x87 q) | [] => false end in
      '(_, k3) ← counted (if ends then gen_softfpu_helper_epilogue d tc1 else mret tt);
      _ ← (if option_imm_reg ctx
           then do_temps (λ s, c ← imm_cache_update_ir1_usage (imm_cache s) p i; Some (set_imm_cache s c))
           else mret tt);
      rest ← tr_ir1s (i + 1) (n + 1 + k1 + k2 + k3) (proepo && negb ends) l;
      mret ((ok : bool) && rest)
  end.

Definition tr_ir2_generate (pc : Z) (l : list IR1_INST) : M bool :=
  _ ← init_cache pc l;
  tr_ir1s 0 0 false l.
End block.
