(* ===== verification/TrInstOk.v ===== *)
(** * Every supported instruction is translated correctly

    The instructions whose routines are modelled, with the operands the routines treat
    correctly, and the theorem that [ir1_translate] emits code for each of them that does
    one step of file X86. *)

From stdpp Require Import base numbers list option strings gmap sets tactics.
From Stdlib Require Import ZArith Lia Bool.
From S2P Require Import Prelude Ir1Enum Ir1 FlagReduction InstsPattern HbrGpr LisaTable Ir2 LaAssemble LaAppend.
From S2P Require Import RegMap X86 WordEq ImmCache ImmCacheSound ImmCacheMain RegAlloc LaSem MacroHelper.
From S2P Require Import MemInterface MemInterfaceOk MemInterfaceMain CacheIndex TrOpnd TrOpndOk TrMov TrMovOk TrMovxOk.
From S2P Require Import TrStackOk TrArith TrArithOk TrAndOk TrMisc TrMiscOk TrBlock.
Local Open Scope Z_scope.
Local Open Scope c_scope.

(** ** Flags *)

(** The two values of EFLAGS agree on the flags of a use/def mask. *)
Definition agree_on (m f g : Z) : Prop :=
  ∀ b, 0 <= b < 6 → Z.testbit m b = true → Z.testbit f (flag_pos b) = Z.testbit g (flag_pos b).

Lemma agree_on_le m m' f g :
  (∀ b, 0 <= b < 6 → Z.testbit m' b = true → Z.testbit m b = true) → agree_on m f g → agree_on m' f g.
Proof. intros H A b Hb Hm. apply A; auto. Qed.

Definition cmov_ops : list dt_x86_insn :=
  [dt_X86_INS_CMOVA; dt_X86_INS_CMOVAE; dt_X86_INS_CMOVB; dt_X86_INS_CMOVBE; dt_X86_INS_CMOVE; dt_X86_INS_CMOVG;
   dt_X86_INS_CMOVGE; dt_X86_INS_CMOVL; dt_X86_INS_CMOVLE; dt_X86_INS_CMOVNE; dt_X86_INS_CMOVNO; dt_X86_INS_CMOVNP;
   dt_X86_INS_CMOVNS; dt_X86_INS_CMOVO; dt_X86_INS_CMOVP; dt_X86_INS_CMOVS].
Definition setcc_ops : list dt_x86_insn :=
  [dt_X86_INS_SETA; dt_X86_INS_SETAE; dt_X86_INS_SETB; dt_X86_INS_SETBE; dt_X86_INS_SETE; dt_X86_INS_SETG;
   dt_X86_INS_SETGE; dt_X86_INS_SETL; dt_X86_INS_SETLE; dt_X86_INS_SETNE; dt_X86_INS_SETNO; dt_X86_INS_SETNP;
   dt_X86_INS_SETNS; dt_X86_INS_SETO; dt_X86_INS_SETP; dt_X86_INS_SETS].
Definition plain_ops : list dt_x86_insn :=
  [dt_X86_INS_MOV; dt_X86_INS_MOVABS; dt_X86_INS_MOVZX; dt_X86_INS_MOVSX; dt_X86_INS_MOVSXD; dt_X86_INS_XCHG;
   dt_X86_INS_PUSH; dt_X86_INS_POP; dt_X86_INS_LEA; dt_X86_INS_NOT; dt_X86_INS_CBW; dt_X86_INS_CWDE;
   dt_X86_INS_CDQE; dt_X86_INS_CWD; dt_X86_INS_CDQ; dt_X86_INS_CQO; dt_X86_INS_ENDBR64].
Definition flag_ops : list dt_x86_insn :=
  [dt_X86_INS_ADD; dt_X86_INS_SUB; dt_X86_INS_CMP; dt_X86_INS_AND; dt_X86_INS_OR; dt_X86_INS_XOR; dt_X86_INS_TEST;
   dt_X86_INS_NEG].
Definition step_ops : list dt_x86_insn := [dt_X86_INS_INC; dt_X86_INS_DEC].
Definition sup_ops : list dt_x86_insn := plain_ops ++ flag_ops ++ step_ops ++ cmov_ops ++ setcc_ops.

(** Cases of membership in a list of opcodes. *)
Ltac cases H := repeat (apply elem_of_cons in H as [H|H]); try (by apply elem_of_nil in H).

Lemma sup_effect i : ir1_opcode i ∈ sup_ops →
  flag_effect_of i = Some (let ud := ir1_opcode_eflag_usedef (ir1_opcode i) in
    mkEffect (use ud) (def ud) (def ud) (undef ud)).
Proof.
  intros H. unfold flag_effect_of, ir1_opcode_to_eflag_usedef, rotate_need_of, shift_need_oszpcf,
    double_shift_need_all, cmp_scas_need_zf. unfold sup_ops, plain_ops, flag_ops, step_ops, cmov_ops, setcc_ops in H.
  cbn [app] in H. cases H; rewrite H, andb_false_r; reflexivity.
Qed.

(** ** Supported instructions *)

(** The translator is set up for 64-bit code without self-modification checks, outside
    parallel execution and outside the pre-translation of AOT. *)
Record setup (tc : trctx) : Prop := {
  su_64 : CODEIS64 (mctx tc) = true;
  su_smc : use_smc_opt tc = false;
  su_close : close_latx_parallel tc = false;
  su_parallel : cf_parallel tc = false;
  su_skipped : curr_ir1_skipped_eflags tc = 0;
  su_pre : in_pre_translate tc = false
}.

(** An instruction with two operands, the first a register or memory. *)
Record two_args (tc : trctx) (i : IR1_INST) (o0 o1 : IR1_OPND) : Prop := {
  ta_0 : ir1_get_opnd i 0 = Some o0;
  ta_1 : ir1_get_opnd i 1 = Some o1;
  ta_rm : rm_opnd tc o0;
  ta_ok : opnd_ok tc o1;
  ta_mem : ir1_opnd_is_mem o0 && ir1_opnd_is_mem o1 = false
}.

Inductive supported (tc : trctx) (i : IR1_INST) : Prop :=
  | sup_mov o0 o1 : ir1_opcode i ∈ [dt_X86_INS_MOV; dt_X86_INS_MOVABS] → two_args tc i o0 o1 →
      opnd_bytes o0 = opnd_bytes o1 → supported tc i
  | sup_movzx o0 o1 : ir1_opcode i = dt_X86_INS_MOVZX → two_args tc i o0 o1 → ir1_opnd_is_gpr o0 = true →
      ir1_opnd_is_imm o1 = false → ir1_opnd_size o1 < ir1_opnd_size o0 → ir1_opnd_size o1 <= 16 → supported tc i
  | sup_movsx o0 o1 : ir1_opcode i = dt_X86_INS_MOVSX → two_args tc i o0 o1 → ir1_opnd_is_gpr o0 = true →
      supported tc i
  | sup_movsxd o0 o1 : ir1_opcode i = dt_X86_INS_MOVSXD → two_args tc i o0 o1 → ir1_opnd_is_gpr o0 = true →
      32 <= ir1_opnd_size o0 → supported tc i
  | sup_cmov o0 o1 : ir1_opcode i ∈ cmov_ops → two_args tc i o0 o1 → ir1_opnd_is_gpr o0 = true →
      16 <= ir1_opnd_size o0 → opnd_bytes o0 = opnd_bytes o1 → supported tc i
  (** The address cache does not see that the second operand changes. *)
  | sup_xchg o0 o1 : ir1_opcode i = dt_X86_INS_XCHG → two_args tc i o0 o1 → rm_opnd tc o1 →
      opnd_bytes o0 = opnd_bytes o1 →
      (option_imm_reg (mctx tc) = true → ir1_opnd_is_mem o1 = true) →
      (ir1_opnd_is_mem o0 || ir1_opnd_is_mem o1 = true → ir1_opnd_is_8h o0 || ir1_opnd_is_8h o1 = false) →
      supported tc i
  | sup_push o : ir1_opcode i = dt_X86_INS_PUSH → ir1_get_opnd i 0 = Some o → opnd_ok tc o →
      opnd_bytes o ∈ [2; 4; 8] → supported tc i
  | sup_pop o : ir1_opcode i = dt_X86_INS_POP → ir1_get_opnd i 0 = Some o → rm_opnd tc o → opnd_bytes o = 8 →
      match opnd_op o with OP_MEM m => reg_eqb (index m) dt_X86_REG_RSP = false | _ => True end → supported tc i
  | sup_lea o0 o1 m : ir1_opcode i = dt_X86_INS_LEA → ir1_get_opnd i 0 = Some o0 → ir1_get_opnd i 1 = Some o1 →
      opnd_wf o0 = true → ir1_opnd_is_gpr o0 = true → opnd_op o1 = OP_MEM m → mem_wf m = true →
      ir1_opnd_has_seg o1 = false → mem_null m = false →
      ir1_opnd_size o0 = 64 ∨ (ir1_opnd_size o0 = 32 ∧ reg_eqb (base m) dt_X86_REG_RIP = false) → supported tc i
  (** [ctz] and [clz] of an AND with 0 are undefined in C. *)
  | sup_binary o0 o1 :
      ir1_opcode i ∈ [dt_X86_INS_ADD; dt_X86_INS_SUB; dt_X86_INS_CMP; dt_X86_INS_AND; dt_X86_INS_OR; dt_X86_INS_XOR;
                      dt_X86_INS_TEST] →
      two_args tc i o0 o1 → ir1_opnd_is_imm o1 = true ∨ ir1_opnd_size o1 = ir1_opnd_size o0 →
      (∀ v, ir1_opnd_is_imm o1 = true → ir1_opnd_simm o1 = Some v → in_s 32 v) →
      (∀ v, ir1_opcode i = dt_X86_INS_AND → ir1_opnd_is_imm o1 = true → ir1_opnd_simm o1 = Some v →
         v ≠ 0 ∧ in_s (ir1_opnd_size o0) v) → supported tc i
  | sup_unary o : ir1_opcode i ∈ [dt_X86_INS_INC; dt_X86_INS_DEC; dt_X86_INS_NEG; dt_X86_INS_NOT] →
      ir1_get_opnd i 0 = Some o → rm_opnd tc o → supported tc i
  | sup_setcc o : ir1_opcode i ∈ setcc_ops → ir1_get_opnd i 0 = Some o → rm_opnd tc o → opnd_bytes o = 1 →
      supported tc i
  (** ... nor that these change (R/E)AX or (R/E)DX. *)
  | sup_widen : ir1_opcode i ∈ [dt_X86_INS_CBW; dt_X86_INS_CWDE; dt_X86_INS_CDQE; dt_X86_INS_CWD; dt_X86_INS_CDQ;
                               dt_X86_INS_CQO] →
      ir1_get_opnd i 0 = None → option_imm_reg (mctx tc) = false → supported tc i
  | sup_endbr64 : ir1_opcode i = dt_X86_INS_ENDBR64 → ir1_get_opnd i 0 = None → supported tc i.

(** ** Steps *)

(** Only the registers of [l] differ. *)
Definition changes (l : list Z) (x x' : x86) : Prop := ∀ n, n ∉ l → xreg x' n = xreg x n.

(** ... and no flag. *)
Definition moved (l : list Z) (x x' : x86) : Prop := xflags x' = xflags x ∧ changes l x x'.

Definition dest_regs (o : IR1_OPND) : list Z := if ir1_opnd_is_gpr o then [ir1_opnd_base_reg_num o] else [].

Section operands.
Context (seg : IR1_OPND → Z) (i : IR1_INST).

Lemma read_total x o : opnd_wf o = true → ∃ v, read_opnd seg i x o = Some v.
Proof using Type.
  unfold opnd_wf, read_opnd. intros W. destruct (opnd_op o) as [|r|v|m]; try done; eauto.
  destruct (part_of r); [simpl; eauto|done].
Qed.

Lemma signed_total x o : opnd_wf o = true → ∃ v, read_signed seg i x o = Some v.
Proof using Type. intros W. unfold read_signed. destruct (read_total x o W) as [v ->]. simpl. eauto. Qed.

Lemma changes_le x l l' x' : l ⊆ l' → changes l x x' → changes l' x x'.
Proof using Type. intros H C n Hn. apply C. auto. Qed.

Lemma write_total x o v : opnd_wf o = true → ir1_opnd_is_imm o = false →
  ∃ x', write_opnd seg i x o v = Some x' ∧ moved (dest_regs o) x x'.
Proof using Type.
  intros W H. destruct (opnd_op o) as [|r|w|m] eqn:E.
  - unfold opnd_wf in W. by rewrite E in W.
  - destruct (reg_opnd_wf o r E W) as (p & q & R). eexists. split; [apply (ro_write _ _ _ R)|]. split; [done|].
    intros n. unfold dest_regs. rewrite (ro_gpr _ _ _ R), (ro_num _ _ _ R). intros Hn. simpl.
    destruct (Z.eqb_spec n (p_num p)) as [->|]; [|done]. destruct Hn. by left.
  - unfold ir1_opnd_is_imm in H. by rewrite E in H.
  - unfold write_opnd. rewrite E. eexists. split; [done|]. by split.
Qed.

Lemma mov_total x tc o0 o1 rd :
  two_args tc i o0 o1 → (∀ o, opnd_wf o = true → ∃ v, rd x o = Some v) →
  ∃ x', x86_mov seg i rd x = Some x' ∧ moved (dest_regs o0) x x'.
Proof using Type.
  intros [E0 E1 [[W0 _] I0] [W1 _] _] R. unfold x86_mov. rewrite E0, E1. simpl.
  destruct (R o1 W1) as [v ->]. by apply write_total.
Qed.

Lemma cond_total x : ir1_opcode i ∈ cmov_ops ++ setcc_ops → ∃ b, cond_holds (ir1_opcode i) x = Some b.
Proof using Type. unfold cmov_ops, setcc_ops. cbn [app]. intros H. cases H; rewrite H; eauto. Qed.

Lemma cmov_total x tc o0 o1 :
  ir1_opcode i ∈ cmov_ops → two_args tc i o0 o1 → ∃ x', x86_cmov seg i x = Some x' ∧ moved (dest_regs o0) x x'.
Proof using Type.
  intros H [E0 E1 [[W0 _] I0] [W1 _] _]. unfold x86_cmov. rewrite E0, E1. simpl.
  destruct (cond_total x) as [b ->]; [apply elem_of_app; by left|]. simpl. destruct (read_total x o0 W0) as [v ->].
  destruct (read_total x o1 W1) as [v1 ->]. by apply write_total.
Qed.

Lemma setcc_total x tc o :
  ir1_opcode i ∈ setcc_ops → ir1_get_opnd i 0 = Some o → rm_opnd tc o →
  ∃ x', x86_setcc seg i x = Some x' ∧ moved (dest_regs o) x x'.
Proof using Type.
  intros H E0 [[W0 _] I0]. unfold x86_setcc. rewrite E0. simpl.
  destruct (cond_total x) as [b ->]; [apply elem_of_app; by right|]. by apply write_total.
Qed.

Lemma binary_total x tc o0 o1 f fl (w : bool) :
  two_args tc i o0 o1 → ∃ x', binary seg i f fl w x = Some x' ∧ changes (dest_regs o0) x x'.
Proof using Type.
  intros [E0 E1 [[W0 _] I0] [W1 _] _]. unfold binary. rewrite E0, E1. simpl.
  destruct (read_total x o0 W0) as [a ->], (signed_total x o1 W1) as [b ->]. simpl. destruct w; [|eexists; by split].
  destruct (write_total (set_xflags x (fl (ir1_opnd_size o0) a b (xflags x))) o0 (f a b) W0 I0) as (x' & -> & _ & C).
  eauto.
Qed.

Lemma unary_total x tc o f fl :
  ir1_get_opnd i 0 = Some o → rm_opnd tc o →
  ∃ x', unary seg i f fl x = Some x' ∧ changes (dest_regs o) x x' ∧
    ((∀ w a v, fl w a v = v) → xflags x' = xflags x).
Proof using Type.
  intros E0 [[W0 _] I0]. unfold unary. rewrite E0. simpl. destruct (read_total x o W0) as [a ->]. simpl.
  destruct (write_total (set_xflags x (fl (ir1_opnd_size o) a (xflags x))) o (f a) W0 I0) as (x' & -> & F & C).
  eexists. split_and!; [done|done|]. intros H. rewrite F. apply H.
Qed.

Lemma push_total x o :
  ir1_get_opnd i 0 = Some o → opnd_wf o = true → ∃ x', x86_push seg i x = Some x' ∧ moved [esp_index] x x'.
Proof using Type.
  intros E0 W. unfold x86_push. rewrite E0. simpl. destruct (read_total x o W) as [v ->]. simpl. eexists.
  split; [done|]. split; [done|]. intros n Hn. cbn [xreg set_xreg set_xmem].
  destruct (Z.eqb_spec n esp_index) as [->|]; [|done]. destruct Hn. by left.
Qed.

Lemma pop_total x tc o :
  ir1_get_opnd i 0 = Some o → rm_opnd tc o →
  ∃ x', x86_pop seg i x = Some x' ∧ moved (esp_index :: dest_regs o) x x'.
Proof using Type.
  intros E0 [[W _] I0]. unfold x86_pop. rewrite E0. cbn [mbind option_bind].
  destruct (write_total (set_xreg x esp_index (xreg x esp_index + opnd_bytes o)) o
    (load_le (xmem x) (xreg x esp_index) (Z.to_nat (opnd_bytes o))) W I0) as (x' & -> & F & C).
  eexists. split; [done|]. split; [done|]. intros n Hn. rewrite elem_of_cons in Hn.
  rewrite C by tauto. cbn [xreg set_xreg]. destruct (Z.eqb_spec n esp_index) as [->|]; [tauto|done].
Qed.

Lemma lea_total x o0 o1 m :
  ir1_get_opnd i 0 = Some o0 → ir1_get_opnd i 1 = Some o1 → opnd_wf o0 = true → ir1_opnd_is_gpr o0 = true →
  opnd_op o1 = OP_MEM m → ∃ x', x86_lea seg i x = Some x' ∧ moved (dest_regs o0) x x'.
Proof using Type.
  intros E0 E1 W G E. unfold x86_lea. rewrite E0, E1. simpl. unfold ir1_opnd_mem. rewrite E. simpl. apply write_total; [done|].
  unfold ir1_opnd_is_gpr in G. unfold ir1_opnd_is_imm. by destruct (opnd_op o0).
Qed.

Lemma xchg_total x tc o0 o1 :
  two_args tc i o0 o1 → rm_opnd tc o1 →
  ∃ x', x86_xchg seg i x = Some x' ∧ xflags x' = xflags x ∧
    (ir1_opnd_is_mem o1 = true → changes (dest_regs o0) x x').
Proof using Type.
  intros [E0 E1 [[W0 _] I0] _ _] [[W1 _] I1]. unfold x86_xchg. rewrite E0, E1. simpl.
  destruct (read_total x o0 W0) as [a ->], (read_total x o1 W1) as [b ->]. simpl. destruct (ir1_opnd_is_mem o1) eqn:G.
  - destruct (write_total x o1 a W1 I1) as (x1 & -> & F1 & C1). simpl.
    destruct (write_total x1 o0 b W0 I0) as (x2 & -> & F2 & C2). eexists. split_and!; [done|congruence|].
    intros _ n Hn. rewrite C2 by done. apply C1. unfold dest_regs, ir1_opnd_is_gpr.
    unfold ir1_opnd_is_mem in G. destruct (opnd_op o1); try done. apply not_elem_of_nil.
  - destruct (write_total x o0 b W0 I0) as (x1 & -> & F1 & C1). simpl.
    destruct (write_total x1 o1 a W1 I1) as (x2 & -> & F2 & C2). eexists. split_and!; [done|congruence|done].
Qed.

(** The registers of the first operand are recorded as changed. *)
Lemma marked_dest o : ir1_get_opnd i 0 = Some o → dest_regs o ⊆ marked i.
Proof using Type.
  intros E n Hn. unfold marked. unfold ir1_get_opnd_num, ir1_get_opnd in *.
  destruct (operands (info i)) as [|o' os] eqn:Eo; [done|]. simpl in E.
  rewrite (proj2 (Z.ltb_lt _ _)) by (simpl; lia). apply elem_of_app. right.
  unfold marked_opnd, ir1_get_opnd. rewrite Eo. simpl. by simplify_eq.
Qed.

Lemma marked_stack o : usage_of (ir1_opcode i) = UStack → ir1_get_opnd i 0 = Some o → esp_index ∈ marked i.
Proof using Type.
  intros U E. unfold marked. rewrite U. unfold ir1_get_opnd_num, ir1_get_opnd in *.
  destruct (operands (info i)) as [|o' os] eqn:Eo; [done|].
  rewrite (proj2 (Z.ltb_lt _ _)) by (simpl; lia). by left.
Qed.
End operands.

(** A condition depends on the flags the table says it reads. *)
Lemma lbt_cond_agree op c f g :
  op ∈ cmov_ops ++ setcc_ops → jcc_of op = Some c → agree_on (use (ir1_opcode_eflag_usedef op)) f g →
  lbt_cond c f = lbt_cond c g.
Proof.
  intros H J A. pose proof (A 0) as A0. pose proof (A 1) as A1. pose proof (A 3) as A3. pose proof (A 4) as A4.
  pose proof (A 5) as A5. clear A. unfold cmov_ops, setcc_ops in H. cbn [app] in H. cbn [flag_pos] in *.
  cases H; subst op; vm_compute in J; injection J as <-; unfold lbt_cond;
    try (rewrite A0 by done || lia); try (rewrite A1 by done || lia); try (rewrite A3 by done || lia);
    try (rewrite A4 by done || lia); try (rewrite A5 by done || lia); reflexivity.
Qed.

(** ** Translation *)

Section inst.
Context (d : driver) (tc0 : trctx) (i : IR1_INST) `{!Qsort (qsort (mctx tc0))}.
Local Notation tc := (tr_init_for_each_ir1_in_tb tc0 i).
Local Notation ctx := (mctx tc0).
Context (Hsu : setup tc0) (Haddr : ir1_addr_size i = 64) (env : site).
Local Notation imm := (option_imm_reg ctx).
Local Notation st := (st (imm := imm) env).
Local Notation seg x := (seg_in (seg_base_off ctx) env x).
Local Notation result := (result tc env).
Local Notation H64 := (su_64 _ Hsu : CODEIS64 (mctx tc) = true).
Local Notation row := (ir1_opcode_eflag_usedef (ir1_opcode i)).

(** The table has a routine for the instruction, and its code does the step. *)
Definition inst_done (x : x86) (s : temps) (h : host) : Prop :=
  ∃ x' f, x86_step (seg x) i x = Some x' ∧ (imm = true → changes (marked i) x x') ∧
    translate_functions d tc = Some f ∧ translated tc env (def row) f x x' s h.

Lemma plain_done x x' s h f :
  x86_step (seg x) i x = Some x' → xflags x' = xflags x → (imm = true → changes (marked i) x x') →
  translate_functions d tc = Some f → def row = 0 → wp f s h (result x x' (hflags h)) → inst_done x s h.
Proof using Type.
  intros E F C Ef D W. exists x', f. split_and!; [done|done|done|]. exists (λ f, f).
  split_and!; [rewrite D; apply flag_fun_id|done|]. by destruct (ir1_need_calculate_any_flag tc).
Qed.

Lemma ghbr_off : GHBR_ON tc = false.
Proof using Hsu. unfold GHBR_ON, can_ghbr_opt. simpl. by rewrite (su_pre _ Hsu). Qed.

Lemma lock_off o : is_lock tc o = false.
Proof using Hsu. unfold is_lock. simpl. rewrite (su_close _ Hsu), (su_parallel _ Hsu). by rewrite andb_false_r. Qed.

Lemma args_two o0 o1 : two_args tc0 i o0 o1 → two_opnds tc o0 o1.
Proof using Type. intros [E0 E1 [W0 _] W1 _]. by split_and!. Qed.

Context (x : x86) (s : temps) (h : host) (S : st x s (mkU ∅ ∅) h x).
Context (Huse : agree_on (use row) (hflags h) (xflags x)).

Lemma idle : (size (held_i (mkU ∅ ∅)) = 0)%nat.
Proof using Type. apply size_empty. Qed.

Lemma cond_agrees :
  ir1_opcode i ∈ cmov_ops ++ setcc_ops →
  ∀ c, jcc_of (ir1_opcode (pir1 (mctx tc))) = Some c → lbt_cond c (hflags h) = lbt_cond c (xflags x).
Proof using Huse. intros H c J. by eapply lbt_cond_agree. Qed.

(** Facts that follow from the opcode. *)
Local Ltac by_op H :=
  unfold x86_step, translate_functions; cbn [pir1 mctx tr_init_for_each_ir1_in_tb set_pir1];
  first [by rewrite H|cases H; by rewrite H].
Local Ltac plain H f V :=
  eapply (plain_done _ _ _ _ f);
    [by_op H|apply V|intros _; eapply changes_le; [|apply V]|by_op H|by_op H|].

Lemma mov_done o0 o1 :
  ir1_opcode i ∈ [dt_X86_INS_MOV; dt_X86_INS_MOVABS] → two_args tc0 i o0 o1 → opnd_bytes o0 = opnd_bytes o1 →
  inst_done x s h.
Proof using All.
  intros H A B. destruct (mov_total (seg x) i x tc0 o0 o1 (read_opnd (seg x) i) A) as (x' & E & V).
  { intros o. apply read_total. }
  plain H (translate_mov tc) V; [apply marked_dest, A|].
  eapply (mov_ok tc H64 Haddr env); [exact S|apply idle|by apply args_two|done|apply A|apply Hsu|exact E].
Qed.

Lemma movzx_done o0 o1 :
  ir1_opcode i = dt_X86_INS_MOVZX → two_args tc0 i o0 o1 → ir1_opnd_is_gpr o0 = true →
  ir1_opnd_is_imm o1 = false → ir1_opnd_size o1 < ir1_opnd_size o0 → ir1_opnd_size o1 <= 16 → inst_done x s h.
Proof using All.
  intros H A G I B B'. destruct (mov_total (seg x) i x tc0 o0 o1 (read_opnd (seg x) i) A) as (x' & E & V).
  { intros o. apply read_total. }
  plain H (translate_movzx tc) V; [apply marked_dest, A|].
  eapply (movzx_ok tc H64 Haddr env); [exact S|apply idle|by apply args_two|done|done|done|done|exact E].
Qed.

Lemma movsx_done o0 o1 :
  ir1_opcode i = dt_X86_INS_MOVSX ∨ (ir1_opcode i = dt_X86_INS_MOVSXD ∧ 32 <= ir1_opnd_size o0) →
  two_args tc0 i o0 o1 → ir1_opnd_is_gpr o0 = true → inst_done x s h.
Proof using All.
  intros H A G. destruct (mov_total (seg x) i x tc0 o0 o1 (read_signed (seg x) i) A) as (x' & E & V).
  { intros o. apply signed_total. }
  destruct H as [H|[H B]].
  - plain H (translate_movsx tc) V; [apply marked_dest, A|].
    eapply (movsx_ok tc H64 Haddr env); [exact S|apply idle|by apply args_two|done|exact E].
  - plain H (translate_movsxd tc) V; [apply marked_dest, A|].
    eapply (movsxd_ok tc H64 Haddr env); [exact S|apply idle|by apply args_two|done|done|exact E].
Qed.

Lemma cmov_done o0 o1 :
  ir1_opcode i ∈ cmov_ops → two_args tc0 i o0 o1 → ir1_opnd_is_gpr o0 = true → 16 <= ir1_opnd_size o0 →
  opnd_bytes o0 = opnd_bytes o1 → inst_done x s h.
Proof using All.
  intros H A G B B'. destruct (cmov_total (seg x) i x tc0 o0 o1 H A) as (x' & E & V). pose proof H as H'.
  unfold cmov_ops in H. plain H (translate_cmovcc tc) V; [apply marked_dest, A|].
  eapply (cmov_ok tc H64 Haddr env); [exact S|apply idle|by apply args_two|done|done|done| |exact E].
  apply cond_agrees, elem_of_app. by left.
Qed.

Lemma setcc_done o :
  ir1_opcode i ∈ setcc_ops → ir1_get_opnd i 0 = Some o → rm_opnd tc0 o → opnd_bytes o = 1 → inst_done x s h.
Proof using All.
  intros H E0 R B. destruct (setcc_total (seg x) i x tc0 o H E0 R) as (x' & E & V). pose proof H as H'.
  unfold setcc_ops in H. plain H (translate_setcc tc) V; [by apply marked_dest|].
  eapply (setcc_ok tc H64 Haddr env); [exact S|apply idle|exact E0|apply R|done| |exact E].
  apply cond_agrees, elem_of_app. by right.
Qed.

(** A register or memory. *)
Lemma rm_cases o : rm_opnd tc0 o →
  (ir1_opnd_is_gpr o = true ∧ ir1_opnd_is_mem o = false) ∨ ∃ m, opnd_op o = OP_MEM m ∧ ir1_opnd_is_mem o = true.
Proof using Type.
  intros [[W _] I]. destruct (opnd_op o) as [|r|v|m] eqn:E.
  - unfold opnd_wf in W. by rewrite E in W.
  - destruct (reg_opnd_wf o r E W) as (p & q & R). left. split; [apply R|]. unfold ir1_opnd_is_mem. by rewrite E.
  - unfold ir1_opnd_is_imm in I. by rewrite E in I.
  - right. exists m. split; [done|]. unfold ir1_opnd_is_mem. by rewrite E.
Qed.

Lemma xchg_done o0 o1 :
  ir1_opcode i = dt_X86_INS_XCHG → two_args tc0 i o0 o1 → rm_opnd tc0 o1 → opnd_bytes o0 = opnd_bytes o1 →
  (imm = true → ir1_opnd_is_mem o1 = true) →
  (ir1_opnd_is_mem o0 || ir1_opnd_is_mem o1 = true → ir1_opnd_is_8h o0 || ir1_opnd_is_8h o1 = false) →
  inst_done x s h.
Proof using All.
  intros H A R B Hi H8. destruct (xchg_total (seg x) i x tc0 o0 o1 A R) as (x' & E & F & C).
  eapply (plain_done _ _ _ _ (translate_xchg tc)); [by_op H|done| |by_op H|by_op H|].
  { intros I. eapply changes_le; [apply marked_dest, A|auto]. }
  destruct (rm_cases o0 (ta_rm _ _ _ _ A)) as [[G0 M0]|(m & Em & M0)], (rm_cases o1 R) as [[G1 M1]|(m' & Em' & M1)].
  - eapply (xchg_regs tc H64 Haddr env); [exact S|apply idle|by apply args_two|done|done|done|apply ghbr_off|exact E].
  - rewrite M0, M1 in H8. specialize (H8 eq_refl). apply orb_false_iff in H8 as [H8 _].
    eapply (xchg_mem tc H64 Haddr env _ _ _ _ _ o0 o1 o1 o0); [exact S|apply idle|by apply args_two|done|by left|
      done|done|done|apply Hsu|apply Hsu|exact E].
  - rewrite M0 in H8. specialize (H8 eq_refl). apply orb_false_iff in H8 as [_ H8].
    eapply (xchg_mem tc H64 Haddr env _ _ _ _ _ o0 o1 o0 o1); [exact S|apply idle|by apply args_two|done|by right|
      done|done|done|apply Hsu|apply Hsu|exact E].
  - pose proof (ta_mem _ _ _ _ A) as N. by rewrite M0, M1 in N.
Qed.

Lemma push_done o :
  ir1_opcode i = dt_X86_INS_PUSH → ir1_get_opnd i 0 = Some o → opnd_ok tc0 o → opnd_bytes o ∈ [2; 4; 8] →
  inst_done x s h.
Proof using All.
  intros H E0 O B. destruct (push_total (seg x) i x o E0 (proj1 O)) as (x' & E & V).
  plain H (translate_push tc) V.
  - intros n Hn. apply list_elem_of_singleton in Hn as ->. eapply marked_stack; [by rewrite H|done].
  - eapply (push_ok tc H64 Haddr env); [exact S|apply idle|exact E0|done|done|exact E].
Qed.

Lemma pop_done o :
  ir1_opcode i = dt_X86_INS_POP → ir1_get_opnd i 0 = Some o → rm_opnd tc0 o → opnd_bytes o = 8 →
  match opnd_op o with OP_MEM m => reg_eqb (index m) dt_X86_REG_RSP = false | _ => True end → inst_done x s h.
Proof using All.
  intros H E0 R B N. destruct (pop_total (seg x) i x tc0 o E0 R) as (x' & E & V).
  plain H (translate_pop tc) V.
  - intros n [->|Hn]%elem_of_cons; [eapply marked_stack; [by rewrite H|done]|by eapply marked_dest].
  - eapply (pop_ok tc H64 Haddr env); [exact S|apply idle|exact E0|apply R|done|done|exact E].
Qed.

Lemma lea_done o0 o1 m :
  ir1_opcode i = dt_X86_INS_LEA → ir1_get_opnd i 0 = Some o0 → ir1_get_opnd i 1 = Some o1 → opnd_wf o0 = true →
  ir1_opnd_is_gpr o0 = true → opnd_op o1 = OP_MEM m → mem_wf m = true → ir1_opnd_has_seg o1 = false →
  mem_null m = false → ir1_opnd_size o0 = 64 ∨ (ir1_opnd_size o0 = 32 ∧ reg_eqb (base m) dt_X86_REG_RIP = false) →
  inst_done x s h.
Proof using All.
  intros H E0 E1 W G Em Wm Sg Nl B. destruct (lea_total (seg x) i x o0 o1 m E0 E1 W G Em) as (x' & E & V).
  plain H (translate_lea (mctx tc)) V; [by apply marked_dest|].
  eapply (lea_ok tc H64 Haddr env); [exact S|apply idle|exact E0|exact E1|done..].
Qed.

Lemma widen_done :
  ir1_opcode i ∈ [dt_X86_INS_CBW; dt_X86_INS_CWDE; dt_X86_INS_CDQE; dt_X86_INS_CWD; dt_X86_INS_CDQ; dt_X86_INS_CQO] →
  imm = false → inst_done x s h.
Proof using All.
  intros H I. assert (N : ∀ x', imm = true → changes (marked i) x x') by (intros x' I'; congruence).
  cases H.
  - eapply (plain_done _ _ _ _ (translate_cbw tc)); [by_op H|done|apply N|by_op H|by_op H|].
    by apply (cbw_ok tc H64 Haddr env) with (mkU ∅ ∅).
  - eapply (plain_done _ _ _ _ (translate_cwde tc)); [by_op H|done|apply N|by_op H|by_op H|].
    by apply (cwde_ok tc H64 env) with (mkU ∅ ∅); [|apply ghbr_off|].
  - eapply (plain_done _ _ _ _ translate_cdqe); [by_op H|done|apply N|by_op H|by_op H|].
    by apply (cdqe_ok tc env) with (mkU ∅ ∅).
  - eapply (plain_done _ _ _ _ (translate_cwd tc)); [by_op H|done|apply N|by_op H|by_op H|].
    by apply (cwd_ok tc H64 Haddr env) with (mkU ∅ ∅).
  - eapply (plain_done _ _ _ _ (translate_cdq tc)); [by_op H|done|apply N|by_op H|by_op H|].
    by apply (cdq_ok tc H64 Haddr env) with (mkU ∅ ∅).
  - eapply (plain_done _ _ _ _ translate_cqo); [by_op H|done|apply N|by_op H|by_op H|].
    by apply (cqo_ok tc env) with (mkU ∅ ∅).
Qed.

Lemma endbr64_done : ir1_opcode i = dt_X86_INS_ENDBR64 → inst_done x s h.
Proof using S.
  intros H. eapply (plain_done _ x _ _ translate_endbr64); [by_op H|done|done|by_op H|by_op H|].
  exists true, s, h. split; [apply does_ret|]. split; [done|]. by exists (mkU ∅ ∅).
Qed.

(** ** Instructions that compute *)

Lemma args_bin o0 o1 :
  two_args tc0 i o0 o1 → ir1_opnd_is_imm o1 = true ∨ ir1_opnd_size o1 = ir1_opnd_size o0 →
  (∀ v, ir1_opnd_is_imm o1 = true → ir1_opnd_simm o1 = Some v → in_s 32 v) → bin_opnds tc o0 o1.
Proof using Type. intros [E0 E1 R W N] B V. by split. Qed.

Lemma flags_done x' m f :
  f = def row → x86_step (seg x) i x = Some x' → (∃ o, ir1_get_opnd i 0 = Some o ∧ changes (dest_regs o) x x') →
  translate_functions d tc = Some m → translated tc env f m x x' s h → inst_done x s h.
Proof using Type.
  intros -> E (o & E0 & C) Em T. exists x', m. split_and!; try done. intros _.
  eapply changes_le; [by apply marked_dest|done].
Qed.

Local Ltac flags H f :=
  eapply (flags_done _ f); [by rewrite H|by_op H|eauto|by_op H|].

Lemma binary_done o0 o1 :
  ir1_opcode i ∈ [dt_X86_INS_ADD; dt_X86_INS_SUB; dt_X86_INS_CMP; dt_X86_INS_AND; dt_X86_INS_OR; dt_X86_INS_XOR;
                  dt_X86_INS_TEST] →
  two_args tc0 i o0 o1 → bin_opnds tc o0 o1 →
  (∀ v, ir1_opcode i = dt_X86_INS_AND → ir1_opnd_is_imm o1 = true → ir1_opnd_simm o1 = Some v →
     v ≠ 0 ∧ in_s (ir1_opnd_size o0) v) → inst_done x s h.
Proof using All.
  intros H A B V. pose proof (ta_0 _ _ _ _ A) as E0. pose proof (λ f fl w, binary_total (seg x) i x tc0 o0 o1 f fl w A) as T.
  cases H.
  - destruct (T Z.add add_flags true) as (x' & E & C). flags H (translate_add tc).
    by apply (add_ok tc H64 Haddr env) with (mkU ∅ ∅) o0 o1; [|apply idle| |apply lock_off|apply ghbr_off| |].
  - destruct (T Z.sub sub_flags true) as (x' & E & C). flags H (translate_sub tc).
    by apply (sub_ok tc H64 Haddr env) with (mkU ∅ ∅) o0 o1; [|apply idle| |apply lock_off|apply ghbr_off| |].
  - destruct (T Z.sub sub_flags false) as (x' & E & C). flags H (translate_cmp tc).
    by apply (cmp_ok tc H64 Haddr env) with (mkU ∅ ∅) o0 o1; [|apply idle| | |].
  - destruct (T Z.land (logic_flags Z.land) true) as (x' & E & C). flags H (translate_and tc).
    by apply (and_ok tc H64 Haddr env) with (mkU ∅ ∅) o0 o1; [|apply idle| |apply lock_off|apply ghbr_off|auto| |].
  - destruct (T Z.lor (logic_flags Z.lor) true) as (x' & E & C). flags H (translate_or tc).
    by apply (or_ok tc H64 Haddr env) with (mkU ∅ ∅) o0 o1; [|apply idle| |apply lock_off|apply ghbr_off| |].
  - destruct (T Z.lxor (logic_flags Z.lxor) true) as (x' & E & C). flags H (translate_xor tc).
    by apply (xor_ok tc H64 Haddr env) with (mkU ∅ ∅) o0 o1; [|apply idle| |apply lock_off|apply ghbr_off| |].
  - destruct (T Z.land (logic_flags Z.land) false) as (x' & E & C). flags H (translate_test tc).
    by apply (test_ok tc H64 Haddr env) with (mkU ∅ ∅) o0 o1; [|apply idle| | |].
Qed.

Lemma unary_done o :
  ir1_opcode i ∈ [dt_X86_INS_INC; dt_X86_INS_DEC; dt_X86_INS_NEG; dt_X86_INS_NOT] → ir1_get_opnd i 0 = Some o →
  rm_opnd tc0 o → inst_done x s h.
Proof using All.
  intros H E0 R. pose proof (λ f fl, unary_total (seg x) i x tc0 o f fl E0 R) as T. cases H.
  - destruct (T (λ a, a + 1) inc_flags) as (x' & E & C & _). flags H (translate_inc tc).
    by apply (step_ok tc H64 Haddr env x x' s (mkU ∅ ∅) h o true); [|apply idle| | |apply lock_off|apply ghbr_off| |].
  - destruct (T (λ a, a - 1) dec_flags) as (x' & E & C & _). flags H (translate_dec tc).
    by apply (step_ok tc H64 Haddr env x x' s (mkU ∅ ∅) h o false); [|apply idle| | |apply lock_off|apply ghbr_off| |].
  - destruct (T Z.opp (λ w a fl, sub_flags w 0 a fl)) as (x' & E & C & _). flags H (translate_neg tc).
    by apply (neg_ok tc H64 Haddr env) with (mkU ∅ ∅) o; [|apply idle| | |apply lock_off|apply ghbr_off| |].
  - destruct (T Z.lnot (λ _ _ fl, fl)) as (x' & E & C & F).
    eapply (plain_done _ _ _ _ (translate_not tc)); [by_op H|by apply F| |by_op H|by_op H|].
    + intros _. eapply changes_le; [by apply marked_dest|done].
    + by apply (not_ok tc H64 Haddr env) with (mkU ∅ ∅) o; [|apply idle| | |apply lock_off|apply ghbr_off|].
Qed.

(** Every supported instruction has a routine that does its step. *)
Lemma supported_done : supported tc0 i → inst_done x s h.
Proof using All.
  intros H. destruct H; [by eapply mov_done|by eapply movzx_done|eapply movsx_done; eauto|eapply movsx_done; eauto|
    by eapply cmov_done|by eapply xchg_done|by eapply push_done|by eapply pop_done|by eapply lea_done| |
    by eapply unary_done|by eapply setcc_done|by apply widen_done|by apply endbr64_done].
  eapply binary_done; [done|done|by apply args_bin|done].
Qed.

(** ** [ir1_translate] *)

Lemma supported_op : supported tc0 i → ir1_opcode i ∈ sup_ops.
Proof using Type.
  intros H. destruct H as [? ? H|? ? H|? ? H|? ? H|? ? H|? ? H|? H|? H|? ? ? H|? ? H|? H|? H|H|H];
    unfold cmov_ops, setcc_ops in H; first [cases H; rewrite H|rewrite H]; by apply (bool_decide_unpack _); vm_compute.
Qed.

(** Its first operand is no vector register. *)
Lemma supported_dest : supported tc0 i → ir1_need_reserve_h128 tc = false.
Proof using Type.
  assert (K : ∀ o, opnd_wf o = true → ir1_get_opnd i 0 = Some o → ir1_need_reserve_h128 tc = false).
  { intros o W E. unfold ir1_need_reserve_h128. simpl. rewrite E. apply andb_false_iff. left. apply andb_false_iff. left.
    unfold ir1_opnd_is_xmm. destruct (opnd_op o) as [|r| |] eqn:Er; try done.
    unfold opnd_wf in W. rewrite Er in W. destruct r; try done; vm_compute in W; discriminate W. }
  intros H. destruct H as [? ? ? A|? ? ? A|? ? ? A|? ? ? A|? ? ? A|? ? ? A|o ? E W|o ? E W|o ? ? ? E ? W|? ? ? A|o ? E W|
    o ? E W|? E|? E]; try (destruct A as [E ? [[W ?] ?] ? ?]); try (apply (K _ W E)); try (apply (K _ (proj1 W) E));
    try (apply (K _ (proj1 (proj1 W)) E)); unfold ir1_need_reserve_h128; simpl; by rewrite E.
Qed.

Lemma ir1_translate_ok f P :
  supported tc0 i → option_softfpu d = 0 → (option_instptn d = true → instptn_opc i = INSTPTN_OPC_NONE) →
  translate_functions d tc = Some f → wp f s h (λ b s h, P b (ra_free_all s) h) → wp (ir1_translate d tc) s h P.
Proof using Type.
  intros Hs Hf Hp Ef (b & s1 & h1 & D & HP). exists b, (ra_free_all s1), h1. split; [|done].
  pose proof (supported_op Hs) as Ho. pose proof (supported_dest Hs) as Hd.
  assert (No : ∀ op, bool_decide (op ∈ sup_ops) = false → bool_decide (ir1_opcode i = op) = false).
  { intros op N. apply bool_decide_eq_false in N. apply bool_decide_eq_false. by intros <-. }
  unfold ir1_translate. eapply does_bind.
  { unfold try_translate_instptn. simpl. destruct (option_instptn d); simpl; [rewrite Hp by done|]; apply does_ret. }
  simpl. eapply does_bind.
  { unfold call_special. simpl. rewrite No by (vm_compute; reflexivity). apply does_ret. }
  simpl. eapply does_bind.
  { unfold softfpu_mmx. rewrite Hf. apply does_ret. }
  rewrite Hd, andb_false_r. eapply does_bind; [apply does_ret|]. cbv zeta beta.
  rewrite (No dt_X86_INS_MOVSD), (No dt_X86_INS_CMPSD) by (vm_compute; reflexivity).
  rewrite Ef. eapply does_bind; [exact D|]. simpl. rewrite andb_false_r. eapply does_bind; [apply does_ret|].
  eapply does_bind; [by apply does_do|]. apply does_ret.
Qed.
End inst.
