(* ===== verification/TrBlockOk.v ===== *)
(** * A translated block does what the x86 code does

    The passes and the translator together: for a block of supported instructions, with
    the flags reduced as in file FlagReduction, the code of [tr_ir2_generate] ends in a
    state that the x86 instructions, executed one after the other, can reach. *)

From stdpp Require Import base numbers list option strings gmap sets tactics.
From Stdlib Require Import ZArith Lia Bool.
From S2P Require Import Prelude Ir1Enum Ir1 FlagReduction InstsPattern HbrGpr LisaTable Ir2 LaAssemble LaAppend.
From S2P Require Import RegMap X86 WordEq ImmCache ImmCacheSound ImmCacheMain RegAlloc LaSem MacroHelper.
From S2P Require Import MemInterface MemInterfaceOk MemInterfaceMain CacheIndex TrOpnd TrOpndOk TrMov TrMovOk TrMovxOk.
From S2P Require Import TrStackOk TrArith TrArithOk TrAndOk TrMisc TrMiscOk TrBlock TrInstOk.
Local Open Scope Z_scope.
Local Open Scope c_scope.

(** ** Running x86 code *)

(** The flags the manual leaves undefined: AF, after a logical instruction. *)
Definition x86_undefined (op : dt_x86_insn) : Z :=
  match op with
  | dt_X86_INS_AND | dt_X86_INS_OR | dt_X86_INS_XOR | dt_X86_INS_TEST => 2 ^ 2
  | _ => 0
  end.

(** Undefined flags take any value. *)
Inductive x86_run (seg : x86 → IR1_OPND → Z) : list IR1_INST → x86 → x86 → Prop :=
  | x86_run_nil x : x86_run seg [] x x
  | x86_run_cons i l x x1 f x2 :
      x86_step (seg x) i x = Some x1 →
      agree_on (Z.ldiff 63 (x86_undefined (ir1_opcode i))) f (xflags x1) →
      x86_run seg l (set_xflags x1 f) x2 → x86_run seg (i :: l) x x2.

(** ** Flags *)

Lemma sup_undefined op : op ∈ sup_ops → undef (ir1_opcode_eflag_usedef op) = x86_undefined op.
Proof.
  intros H. unfold sup_ops, plain_ops, flag_ops, step_ops, cmov_ops, setcc_ops in H. cbn [app] in H.
  cases H; by subst op.
Qed.

(** Flags of [f] where [m] has a bit, of [g] elsewhere. *)
Definition mix (m f g : Z) : Z :=
  let b k := Z.testbit (if Z.testbit m k then f else g) (flag_pos k) in eflags (b 0) (b 1) (b 2) (b 3) (b 4) (b 5).

Lemma mix_bit m f g b :
  0 <= b < 6 → Z.testbit (mix m f g) (flag_pos b) = Z.testbit (if Z.testbit m b then f else g) (flag_pos b).
Proof.
  intros Hb. unfold mix. rewrite testbit_eflags by done.
  assert (C : b = 0 ∨ b = 1 ∨ b = 2 ∨ b = 3 ∨ b = 4 ∨ b = 5) by lia. destruct_or! C; by subst b.
Qed.

(** What the code computes of the flags, when only the live ones are kept, suits what the
    instruction computes. *)
Lemma flags_step e q g fh fx :
  fe_kill e = fe_def e → flag_fun (fe_def e) g → agree_on (live_before e q) fh fx →
  let fh' := if negb (Z.land ((fe_def e .& q) .& ~. fe_undef e) (Z.lnot 0) =? 0) then g fh else fh in
  ∃ fx', agree_on (Z.ldiff 63 (fe_undef e)) fx' (g fx) ∧ agree_on q fh' fx'.
Proof.
  intros K G A fh'. exists (mix (fe_undef e) fh' (g fx)). split; intros b Hb Hm; rewrite mix_bit by done.
  { rewrite Z.ldiff_spec in Hm. apply andb_true_iff in Hm as [_ Hm]. apply negb_true_iff in Hm. by rewrite Hm. }
  destruct (Z.testbit (fe_undef e) b) eqn:U; [done|]. specialize (G b Hb). specialize (A b Hb).
  assert (L : Z.testbit (fe_def e) b = false → Z.testbit fh (flag_pos b) = Z.testbit fx (flag_pos b)).
  { intros D. apply A, testbit_live_before. right. by rewrite K. }
  subst fh'. destruct (Z.testbit (fe_def e) b) eqn:D; [|by destruct (negb _); rewrite ?G; apply L].
  destruct (Z.eqb_spec (Z.land ((fe_def e .& q) .& ~. fe_undef e) (Z.lnot 0)) 0) as [N|N]; [|apply G].
  apply (f_equal (λ z, Z.testbit z b)) in N. rewrite !Z.land_spec, !Z.lnot_spec, D, Hm, U, !Z.bits_0 in N by lia. done.
Qed.

(** ** The end of an instruction *)

Lemma counted_does {A} (m : M A) s h y s' h' : does m s h y s' h' → ∃ n, does (counted m) s h (y, n) s' h'.
Proof.
  intros (c & E & W & R). exists (Z.of_nat (length c)), c. split_and!; [|done..]. unfold counted. by rewrite E.
Qed.

Lemma mark_does i s h : does (la_x86_inst i) s h tt s h.
Proof.
  eapply does_bind; [by apply does_lift|]. exists [("x86_inst", [mkOpnd2 IR2_OPND_IMM (u32 (ir1_addr i))])].
  split_and!; [|done..]. unfold emit.
  replace (inst_of _ _) with (Some ("x86_inst", [mkOpnd2 IR2_OPND_IMM (u32 (ir1_addr i))])); [done|].
  unfold inst_of. destruct (row_of "x86_inst") as [r|] eqn:E; vm_compute in E; [|discriminate E].
  injection E as <-. reflexivity.
Qed.

(** With the number [k] of the next instruction recorded, its translation can start in
    state [x]. *)
Definition at_inst (imm : bool) (env k : Z) (s : temps) (h : host) (x : x86) : Prop :=
  ∀ n, st (imm := imm) (mkSite env k) x (set_imm_cache s (set_ir1_index (imm_cache s) k n)) (mkU ∅ ∅) h x.

Definition end_inst (imm : bool) (p : IR1_INST) (k : Z) : M unit :=
  if imm then do_temps (λ s, c ← imm_cache_update_ir1_usage (imm_cache s) p k; Some (set_imm_cache s c))
  else mret tt.

Lemma nothing_held imm c : (imm = true → cache_inv c) → temps_repr imm (mkT 0 0 c) (mkU ∅ ∅).
Proof.
  intros I. split; simpl; [apply (repr_empty _ reg_itemp_reverse_map)|apply (repr_empty _ reg_ftemp_reverse_map)|done|].
  intros _ b r _ _ _. apply not_elem_of_empty.
Qed.

(** All temporaries are freed and the changed registers are recorded. *)
Lemma end_inst_ok imm env k x x' s u h p :
  st (imm := imm) (mkSite env k) x s u h x' → (imm = true → changes (marked p) x x') →
  ∃ s', does (end_inst imm p k) (ra_free_all s) h tt s' h ∧ at_inst imm env (k + 1) s' h x'.
Proof.
  intros [T M S N] C. unfold end_inst. destruct imm.
  2: { eexists. split; [apply does_ret|]. intros n. split; [by apply nothing_held|done|done|done]. }
  specialize (M eq_refl). specialize (C eq_refl). simpl in N. unfold index_of in N.
  destruct (usage_ok (imm_cache s) p k (inv_upd _ (proj1 M))) as (l & E & _).
  exists (set_imm_cache (ra_free_all s) (set_updated (imm_cache s) l)). split.
  { apply does_do. simpl. by rewrite E. }
  intros n. destruct (end_step _ p n (xreg x') M) as (c' & E' & M').
  simpl in E'. rewrite N, E in E'. injection E' as <-. simpl in M'. rewrite N in M'.
  split; [apply nothing_held; intros _; apply M'| |done|done].
  intros _. eapply machine_inv_ext; [exact M'|done|done|]. intros r Hr. simpl.
  destruct (bool_decide_reflect (r ∈ marked p)); [done|]. by rewrite C.
Qed.

(** ** Blocks *)

Section block.
Context (d : driver) (tc : trctx) `{!Qsort (qsort (mctx tc))}.
Context (Hsu : setup tc) (Hfpu : option_softfpu d = 0).
Context (env : Z).
Local Notation ctx := (mctx tc).
Local Notation imm := (option_imm_reg ctx).
Local Notation seg := (seg_in (seg_base_off ctx) env).

(** A supported instruction that no pattern of tr-pattern.c takes. *)
Definition plain_inst (i : IR1_INST) : Prop :=
  supported tc i ∧ ir1_addr_size i = 64 ∧ (option_instptn d = true → instptn_opc i = INSTPTN_OPC_NONE).

Lemma supported_annotate i u v : supported tc i → supported tc (annotate i u v).
Proof using Type.
  assert (A : ∀ o0 o1, two_args tc i o0 o1 → two_args tc (annotate i u v) o0 o1) by (by intros o0 o1 []).
  intros H. destruct H; [eapply sup_mov|eapply sup_movzx|eapply sup_movsx|eapply sup_movsxd|eapply sup_cmov|
    eapply sup_xchg|eapply sup_push|eapply sup_pop|eapply sup_lea|eapply sup_binary|eapply sup_unary|eapply sup_setcc|
    eapply sup_widen|eapply sup_endbr64]; eauto.
Qed.

(** The masks of an instruction do not matter to its step. *)
Lemma step_annotate sb i u v x : x86_step sb (annotate i u v) x = x86_step sb i x.
Proof using Type.
  set (i' := annotate i u v).
  assert (E : ir1_opcode i' = ir1_opcode i ∧ read_opnd sb i' = read_opnd sb i ∧ read_signed sb i' = read_signed sb i ∧
    x86_mov sb i' = x86_mov sb i ∧ x86_lea sb i' = x86_lea sb i ∧ x86_xchg sb i' = x86_xchg sb i ∧
    x86_push sb i' = x86_push sb i ∧ x86_pop sb i' = x86_pop sb i ∧ binary sb i' = binary sb i ∧
    unary sb i' = unary sb i ∧ x86_setcc sb i' = x86_setcc sb i ∧ x86_cmov sb i' = x86_cmov sb i)
    by (split_and!; reflexivity).
  clearbody i'. destruct E as (E1 & E2 & E3 & E4 & E5 & E6 & E7 & E8 & E9 & E10 & E11 & E12).
  unfold x86_step. by rewrite E1, E2, E3, E4, E5, E6, E7, E8, E9, E10, E11, E12.
Qed.

(** One instruction. *)
Lemma ir1_ok i e q k s h x :
  plain_inst i → flag_effect_of i = Some e → at_inst imm env k s h x →
  agree_on (live_before e q) (hflags h) (xflags x) →
  let i' := annotate i (fe_use e) ((fe_def e .& q) .& ~. fe_undef e) in
  ∀ n, ∃ x1 f s' h', x86_step (seg x) i x = Some x1 ∧
    agree_on (Z.ldiff 63 (x86_undefined (ir1_opcode i))) f (xflags x1) ∧
    does (ir1_translate d (tr_init_for_each_ir1_in_tb tc i'))
      (set_imm_cache s (set_ir1_index (imm_cache s) k n)) h true (ra_free_all s') h' ∧
    agree_on q (hflags h') f ∧ (imm = true → changes (marked i) x x1) ∧
    ∃ u, st (imm := imm) (mkSite env k) x s' u h' x1.
Proof using All.
  intros (Hs & Ha & Hp) He Hst Hag i' n. set (tc' := tr_init_for_each_ir1_in_tb tc i').
  pose proof (supported_annotate i (fe_use e) ((fe_def e .& q) .& ~. fe_undef e) Hs : supported tc i') as Hs'.
  pose proof (supported_op tc i Hs) as Hop. rewrite (sup_effect i Hop) in He. injection He as He.
  set (s1 := set_imm_cache s (set_ir1_index (imm_cache s) k n)).
  destruct (supported_done d tc i' Hsu Ha (mkSite env k) x s1 h (Hst n)) as (x1 & f & E & C & Ef & g & G & Fx & W);
    [|done|].
  { eapply agree_on_le; [|exact Hag]. intros b Hb Hm. apply testbit_live_before. left. by rewrite <- He. }
  destruct (flags_step e q g (hflags h) (xflags x)) as (fx' & A1 & A2); [by rewrite <- He|by rewrite <- He|done|].
  destruct (ir1_translate_ok d tc i' s1 h f (λ b s' h', ∃ s0, s' = ra_free_all s0 ∧
    result tc' (mkSite env k) x x1 (if ir1_need_calculate_any_flag tc' then g (hflags h) else hflags h) b s0 h'))
    as (b & s2 & h2 & D & s0 & -> & -> & u & St & Hf); [done|done|done|done| |].
  { eapply wp_mono; [exact W|]. intros b s' h' R. by exists s'. }
  exists x1, fx', s0, h2. split_and!; [rewrite <- E; symmetry; apply step_annotate| |done| |done|by exists u].
  - rewrite Fx, <- sup_undefined by done. by rewrite <- He in A1.
  - rewrite Hf. unfold ir1_need_calculate_any_flag. cbn [tc' mctx pir1 tr_init_for_each_ir1_in_tb set_pir1].
    simpl. by rewrite (su_skipped _ Hsu).
Qed.

Lemma tr_ir1s_ok p l : Forall plain_inst l → ∀ l' q k n pe s h x,
  rdtn_insts true l p = Some (l', q) → at_inst imm env k s h x → agree_on q (hflags h) (xflags x) →
  ∃ s' h' x', does (tr_ir1s d tc k n pe l') s h true s' h' ∧ x86_run seg l x x' ∧ sim env h' x' ∧
    agree_on p (hflags h') (xflags x').
Proof using All.
  induction 1 as [|i l Hi _ IH]; intros l' q k n pe s h x.
  { intros [= <- <-] St A. exists s, h, x. split_and!; [apply does_ret|constructor|apply (st_sim _ _ _ _ _ _ (St 0))|done]. }
  intros (e & l1 & q1 & Hl & He & [= -> ->])%rdtn_insts_cons St A.
  destruct (ir1_ok i e q1 k s h x Hi He St A n) as (x1 & f & s1 & h1 & E & A1 & D & A2 & C & u & St1).
  destruct (end_inst_ok imm env k x x1 s1 u h1 (annotate i (fe_use e) ((fe_def e .& q1) .& ~. fe_undef e)) St1 C)
    as (s2 & D2 & St2).
  destruct (counted_does _ _ _ _ _ _ D) as [k2 D'].
  assert (St2' : at_inst imm env (k + 1) s2 h1 (set_xflags x1 f)).
  { intros m. destruct (St2 m) as [T M S N]. split; [done| |by destruct S|done].
    intros I. destruct (M I). by split. }
  destruct (IH l1 q1 (k + 1) (n + 1 + 0 + k2 + 0) ((pe || false) && negb false) s2 h1 (set_xflags x1 f) Hl St2' A2)
    as (s' & h' & x' & D3 & R & Sm & A3).
  exists s', h', x'. split_and!; [|by econstructor|done|done].
  cbn [tr_ir1s]. eapply does_bind; [by apply does_do|]. eapply does_bind; [apply mark_does|].
  rewrite Hfpu. cbn [Z.eqb andb].
  eapply does_bind; [by exists []|]. cbv beta iota. eapply does_bind; [exact D'|]. cbv beta iota.
  eapply does_bind; [by exists []|]. cbv beta iota. eapply does_bind; [exact D2|].
  eapply does_bind; [exact D3|]. apply does_ret.
Qed.
End block.

(** The cache of addresses starts empty. *)
Lemma init_cache_ok (tc : trctx) pc l env s h x :
  (option_imm_reg (mctx tc) = true →
     option_imm_precache (mctx tc) = false ∧ (4 <= length (bucket (imm_cache s)))%nat) →
  itemp_status s = 0 → ftemp_status s = 0 → sim env h x →
  ∃ s', does (init_cache tc pc l) s h tt s' h ∧ at_inst (option_imm_reg (mctx tc)) env 0 s' h x.
Proof.
  intros Hi H1 H2 S. destruct s as [? ? c]. simpl in *. subst. unfold init_cache.
  destruct (option_imm_reg (mctx tc)).
  2: { eexists. split; [apply does_ret|]. intros n. by split; [apply nothing_held|..]. }
  destruct (Hi eq_refl) as [Hp L]. destruct (init_ok (set_pc c pc) L) as (c' & E & I & _ & B).
  exists (mkT 0 0 c'). split; [apply does_do; rewrite Hp; simpl; by rewrite E|]. intros n.
  assert (I' : cache_inv (set_ir1_index c' 0 n)) by (destruct I; by constructor).
  split; [by apply nothing_held| |done|done]. intros _. split; [done|].
  apply list.Forall_forall. intros b Hb. rewrite (B b Hb). discriminate.
Qed.

(** C2 The translation of a block is correct.  Take supported instructions [l] and the
    flags [p] that are live at the end of the block, let the flag reduction annotate the
    instructions, and start the emitted code in a host state that represents the x86 state
    [x] and agrees with it on the flags the reduction found live.  Then the translator
    succeeds, the code ends, and its final state represents one that the x86 instructions
    reach from [x], with the right live flags.  Addresses may be kept in the cache of
    temporaries across instructions or not. *)
Theorem tr_ir2_generate_correct d tc `{!Qsort (qsort (mctx tc))} env pc p l l' q s h x :
  setup tc → option_softfpu d = 0 →
  (option_imm_reg (mctx tc) = true →
     option_imm_precache (mctx tc) = false ∧ (4 <= length (bucket (imm_cache s)))%nat) →
  itemp_status s = 0 → ftemp_status s = 0 →
  Forall (plain_inst d tc) l → rdtn_insts true l p = Some (l', q) →
  sim env h x → agree_on q (hflags h) (xflags x) →
  ∃ s' h' x', does (tr_ir2_generate d tc pc l') s h true s' h' ∧
    x86_run (seg_in (seg_base_off (mctx tc)) env) l x x' ∧ sim env h' x' ∧ agree_on p (hflags h') (xflags x').
Proof.
  intros Su Fp Hi H1 H2 Hl Hr S A. destruct (init_cache_ok tc pc l' env s h x Hi H1 H2 S) as (s1 & D1 & St).
  destruct (tr_ir1s_ok d tc Su Fp env p l Hl l' q 0 0 false s1 h x Hr St A) as (s' & h' & x' & D & R).
  exists s', h', x'. split; [|done]. by eapply does_bind.
Qed.

(** ** An example *)

Definition fails {A} : M A := λ _, None.
Definition demo_driver : driver :=
  mkDriver true (λ _, fails) (λ _, None) ∅ (λ _, fails) (λ _, fails) (λ _, fails) (λ _, fails) (λ _, fails) (λ _, fails)
    0 0 0 (λ _, fails) (λ _, fails) true true (λ _, fails) (λ _, λ _, fails).
Definition demo_tc : trctx :=
  let f (_ _ _ : IR2_OPND) := fails in
  mkTrctx (demo_ctx 8) (λ k, k) (λ _ _, fails) 0 false false false false (λ _ _, fails) fails fails
    (mkFlaggen f f f f f f f f (λ _ _ _ _ _, fails)).

Definition demo_mem (r : dt_x86_reg) (disp : Z) : IR1_OPND := mem_opnd dt_X86_REG_INVALID r dt_X86_REG_INVALID 1 disp.
Definition demo_code : list IR1_INST :=
  [inst dt_X86_INS_MOV [gpr dt_X86_REG_RAX; demo_mem dt_X86_REG_RBX 0x12340];
   inst dt_X86_INS_ADD [gpr dt_X86_REG_RAX; gpr dt_X86_REG_RCX];
   inst dt_X86_INS_MOV [demo_mem dt_X86_REG_RBX 0x12348; gpr dt_X86_REG_RAX];
   inst dt_X86_INS_CMP [gpr dt_X86_REG_RAX; mkOpnd (OP_IMM 5) 8];
   inst dt_X86_INS_CMOVL [gpr dt_X86_REG_RDX; gpr dt_X86_REG_RCX];
   inst dt_X86_INS_PUSH [gpr dt_X86_REG_RDX]].
Definition demo_host : host := mkH (λ r, 0x10000 + 0x100 * r) (mkSys (λ a, a mod 251) 0).
Definition x86_of (h : host) : x86 := mkX86 (gpr_val h) (hmem h) (hflags h).

Lemma x86_of_sim h : sim (rget h la_s8) h (x86_of h).
Proof. by split. Qed.

Lemma demo_setup : setup demo_tc.
Proof. by split. Qed.

Lemma demo_gpr r :
  (p_width <$> part_of r) = Some 64 → rm_opnd demo_tc (gpr r).
Proof.
  intros H. split; [|done]. split; [|done]. unfold opnd_wf, gpr. simpl. destruct (part_of r) as [p|]; [|done].
  simpl in *. injection H as ->. done.
Qed.

Lemma demo_mem_ok r disp : bool_decide (r ∈ gpr64) = true → rm_opnd demo_tc (demo_mem r disp).
Proof.
  intros H. apply bool_decide_eq_true in H. split; [|done].
  assert (W : mem_wf (mkMem dt_X86_REG_INVALID r dt_X86_REG_INVALID 1 disp) = true).
  { unfold mem_wf. simpl. rewrite bool_decide_true by (by right). done. }
  split; [unfold opnd_wf; simpl; by rewrite W|]. split; [done|]. split; [done|]. by split; intros [=].
Qed.

Lemma demo_code_plain : Forall (plain_inst demo_driver demo_tc) demo_code.
Proof.
  assert (T : ∀ op o0 o1, rm_opnd demo_tc o0 → rm_opnd demo_tc o1 → ir1_opnd_is_mem o0 && ir1_opnd_is_mem o1 = false →
    two_args demo_tc (inst op [o0; o1]) o0 o1) by (intros op o0 o1 R0 [R1 _] N; by split).
  repeat (apply list.Forall_cons; split; [split; [|done]|]); [..|constructor].
  - eapply sup_mov; [by left|apply T; [by apply demo_gpr|by apply demo_mem_ok|done]|done].
  - eapply sup_binary; [by left|apply T; by try apply demo_gpr|by right|done|done].
  - eapply sup_mov; [by left|apply T; [by apply demo_mem_ok|by apply demo_gpr|done]|done].
  - apply (sup_binary _ _ (gpr dt_X86_REG_RAX) (mkOpnd (OP_IMM 5) 8)); [right; right; by left| |by left| |done].
    + by split.
    + by intros v _ [= <-].
  - eapply sup_cmov; [|apply T; by try apply demo_gpr|done|done|done]. by apply (bool_decide_unpack _); vm_compute.
  - eapply sup_push; [done|done|by apply demo_gpr|]. by apply (bool_decide_unpack _); vm_compute.
Qed.

Lemma tr_ir2_generate_correct_witness :
  ∃ l' q s' h' x', rdtn_insts true demo_code 0 = Some (l', q) ∧
    does (tr_ir2_generate demo_driver demo_tc 0x400000 l') (mkT 0 0 fresh_cache) demo_host true s' h' ∧
    x86_run (seg_in (seg_base_off (demo_ctx 8)) (rget demo_host la_s8)) demo_code (x86_of demo_host) x' ∧
    sim (rget demo_host la_s8) h' x'.
Proof.
  destruct (rdtn_insts true demo_code 0) as [[l' q]|] eqn:E; [|discriminate E].
  destruct (tr_ir2_generate_correct demo_driver demo_tc (rget demo_host la_s8) 0x400000 0 demo_code l' q
    (mkT 0 0 fresh_cache) demo_host (x86_of demo_host)) as (s' & h' & x' & D & R & S & _);
    [exact demo_setup|reflexivity| |reflexivity|reflexivity|exact demo_code_plain|exact E|apply x86_of_sim|
     intros b _ _; reflexivity|].
  - intros _. split; [reflexivity|]. vm_compute. lia.
  - exists l', q, s', h', x'. split; [reflexivity|]. split; [exact D|]. split; [exact R|exact S].
Defined.

(** ** Instructions the cache does not see *)

Definition stale_code : list IR1_INST :=
  [inst dt_X86_INS_MOV [gpr dt_X86_REG_RCX; demo_mem dt_X86_REG_RAX 0x12345];
   inst dt_X86_INS_CDQE [];
   inst dt_X86_INS_MOV [gpr dt_X86_REG_RDX; demo_mem dt_X86_REG_RAX 0x12345]].

Lemma stale_load sb r p x :
  part_of r = Some p →
  x86_step sb (inst dt_X86_INS_MOV [gpr r; demo_mem dt_X86_REG_RAX 0x12345]) x =
  Some (write_part x p (load_le (xmem x)
    (sb (demo_mem dt_X86_REG_RAX 0x12345) + (xreg x eax_index + 0 * 1 + 0x12345)) 8)).
Proof.
  intros H. change (x86_step sb _ x) with
    (x86_mov sb (inst dt_X86_INS_MOV [gpr r; demo_mem dt_X86_REG_RAX 0x12345])
       (read_opnd sb (inst dt_X86_INS_MOV [gpr r; demo_mem dt_X86_REG_RAX 0x12345])) x).
  unfold x86_mov, write_opnd. simpl. by rewrite H.
Qed.

Lemma cdqe_step sb x : x86_step sb (inst dt_X86_INS_CDQE []) x = x86_widen 32 x.
Proof. reflexivity. Qed.

(** C38 With [option_imm_reg], CDQE (as CBW, CWDE, CWD, CDQ and CQO, which have no
    operands) is not recorded as changing RAX.  In
    [mov rcx, [rax + 0x12345]; cdqe; mov rdx, [rax + 0x12345]] the second load takes the
    cached address of the first one, and the block ends with a value in RDX that the x86
    code cannot produce. *)
Theorem cdqe_leaves_stale_address :
  let h := mkH (λ r, 0x80000000 + r) (mkSys (λ a, a mod 251) 0) in
  ∃ s' h', does (tr_ir2_generate demo_driver demo_tc 0x400000 stale_code) (mkT 0 0 fresh_cache) h true s' h' ∧
    ∀ x', x86_run (seg_in (seg_base_off (demo_ctx 8)) (rget h la_s8)) stale_code (x86_of h) x' →
      xreg x' edx_index ≠ gpr_val h' edx_index.
Proof.
  intros h. destruct (outcome_does (tr_ir2_generate demo_driver demo_tc 0x400000 stale_code) (mkT 0 0 fresh_cache) h
    (λ b h', if b then gpr_val h' edx_index else -1)
    (load_le (hmem h) (gpr_val h eax_index + 0x12345) 8)) as (b & s' & h' & D & E).
  { vm_compute. reflexivity. }
  destruct b; [|vm_compute in E; discriminate E]. exists s', h'. split; [exact D|]. intros x' R. rewrite E. clear D E.
  inversion R as [|? ? ? x1 f1 ? E1 _ R1]; subst; clear R.
  inversion R1 as [|? ? ? x2 f2 ? E2 _ R2]; subst; clear R1.
  inversion R2 as [|? ? ? x3 f3 ? E3 _ R3]; subst; clear R2. inversion R3; subst; clear R3.
  rewrite (stale_load _ _ (mkPart ecx_index 64 0)) in E1 by reflexivity. injection E1 as <-.
  rewrite cdqe_step in E2. injection E2 as <-.
  rewrite (stale_load _ _ (mkPart edx_index 64 0)) in E3 by reflexivity. injection E3 as <-. vm_compute. discriminate.
Qed.
