(* ===== verification/CacheReach.v ===== *)
(** * Cached addresses are right

    The states of the translator and of the host between the start of a block and its
    end, as a step relation: address computations through [convert_mem]
    (translator/mem-interface.c), temporaries taken, used and released
    (translator/reg-alloc.c), ends of x86 instructions (translate.c).  In every state that
    can be reached without the collection pass the addresses are right.  After the
    collection pass they need not be. *)

From stdpp Require Import base numbers list option strings gmap sets tactics.
From Stdlib Require Import ZArith Lia Bool.
From S2P Require Import Prelude Ir1Enum Ir1 FlagReduction LisaTable Ir2 LaAppend RegMap X86 ImmCache ImmCacheSound ImmCacheMain.
From S2P Require Import RegAlloc LaSem MacroHelper MemInterface MemInterfaceOk MemInterfaceMain TrOpnd TrOpndOk TrBlock.
From S2P Require Import TrInstOk TrBlockOk.
Local Open Scope Z_scope.
Local Open Scope c_scope.

Definition ctx_at (tc : trctx) (p : IR1_INST) : context := mctx (tr_init_for_each_ir1_in_tb tc p).

(** An operand of [p] whose address is computed while at most two temporaries are in use. *)
Record access (tc : trctx) (p : IR1_INST) (opnd : IR1_OPND) (m : dt_x86_op_mem) (u : in_use) : Prop := {
  acc_size : ir1_addr_size p = 64;
  acc_mem : opnd_op opnd = OP_MEM m;
  acc_wf : mem_wf m = true;
  acc_seg : segment_ok (ctx_at tc p) opnd;
  acc_use : (size (held_i u) <= 2)%nat
}.

Inductive step (tc : trctx) : temps * host → temps * host → Prop :=
  | step_access p opnd m u x s h s' h' :
      temps_repr true s u → access tc p opnd m u → does (convert_mem (ctx_at tc p) opnd) s h x s' h' →
      step tc (s, h) (s', h')
  | step_alloc u o s h s' h' :
      temps_repr true s u → (size (held_i u) < 7)%nat → does (alloc_temp (mctx tc)) s h o s' h' →
      step tc (s, h) (s', h')
  | step_free u r s h s' :
      temps_repr true s u → r ∈ held_i u → ra_free_temp s (gp r) = Some s' → step tc (s, h) (s', h)
  | step_work u s h h' :
      temps_repr true s u → (∀ r, r ∉ held_i u → rget h' r = rget h r) → step tc (s, h) (s, h')
  | step_end p n c s h h' :
      imm_cache_update_ir1_usage (imm_cache s) p (curr_ir1_index (imm_cache s)) = Some c →
      (∀ r, 0 <= r < 16 → (r ∉ marked p) → gpr_val h' r = gpr_val h r) → (∀ t, temp_val h' t = temp_val h t) →
      step tc (s, h) (set_imm_cache (ra_free_all s) (set_ir1_index c (curr_ir1_index c + 1) n), h').

Inductive reach (tc : trctx) : temps * host → Prop :=
  | reach_start pc l n s h s' h' :
      itemp_status s = 0 → ftemp_status s = 0 → (4 <= length (bucket (imm_cache s)))%nat →
      does (init_cache tc pc l) s h tt s' h' →
      reach tc (set_imm_cache s' (set_ir1_index (imm_cache s') 0 n), h')
  | reach_step x y : reach tc x → step tc x y → reach tc y.

(** The temporaries in use can be read off the translator's state. *)
Lemma pool_repr_unique pool status held held' :
  pool_repr pool status held → pool_repr pool status held' → held = held'.
Proof.
  intros [_ B H] [_ B' H']. apply set_eq. intros r.
  assert (E : r ∈ pool → (r ∈ held ↔ r ∈ held')).
  { intros [i Hi]%list_elem_of_lookup. pose proof (B i r Hi) as X. rewrite (B' i r Hi) in X.
    symmetry. destruct (bool_decide_reflect (r ∈ held)), (bool_decide_reflect (r ∈ held')); by try discriminate X. }
  split; intros X; apply E; auto.
Qed.

Lemma temps_repr_unique imm s u u' : temps_repr imm s u → temps_repr imm s u' → u = u'.
Proof.
  intros [I F _ _] [I' F' _ _]. destruct u as [i f], u' as [i' f']. simpl in *.
  by rewrite (pool_repr_unique _ _ _ _ I I'), (pool_repr_unique _ _ _ _ F F').
Qed.

Section reach.
Context (tc : trctx) `{!Qsort (qsort (mctx tc))}.
Context (H64 : CODEIS64 (mctx tc) = true) (Himm : option_imm_reg (mctx tc) = true).
Context (Hpre : option_imm_precache (mctx tc) = false).
Local Notation tr_inv := (tr_inv (imm := true)).

Lemma access_ok p opnd m s u h :
  tr_inv s u h → access tc p opnd m u →
  ∃ o off s' u' h', does (convert_mem (ctx_at tc p) opnd) s h (gp o, off) s' h' ∧ in_s 12 off ∧
    result_ok (imm := true) s u h o off s' u' h' (computed_address (ctx_at tc p) h opnd m).
Proof using All.
  intros I [A1 A2 A3 A4 A5]. pose proof (helper_computes (ctx_at tc p)) as H. cbn [option_imm_reg] in H.
  change (option_imm_reg (ctx_at tc p)) with (option_imm_reg (mctx tc)) in H. rewrite Himm in H.
  destruct (H H64 A1 opnd s u h m true A2 A3 (or_introl eq_refl) I A5 A4) as (o & off & s' & u' & h' & D & Io & _ & R).
  by exists o, off, s', u', h'.
Qed.

Lemma start_ok pc l n s h s' h' :
  itemp_status s = 0 → ftemp_status s = 0 → (4 <= length (bucket (imm_cache s)))%nat →
  does (init_cache tc pc l) s h tt s' h' →
  ∃ u, tr_inv (set_imm_cache s' (set_ir1_index (imm_cache s') 0 n)) u h'.
Proof using All.
  intros H1 H2 L D. destruct (init_cache_ok tc pc l (rget h la_s8) s h (x86_of h)) as (s1 & D1 & St);
    [done..|apply x86_of_sim|]. destruct (does_det _ _ _ _ _ _ _ _ _ D D1) as (_ & <- & <-).
  destruct (St n) as [T M _ _]. exists (mkU ∅ ∅). rewrite Himm in *. by split.
Qed.

Lemma end_ok p n c s u h h' :
  tr_inv s u h → imm_cache_update_ir1_usage (imm_cache s) p (curr_ir1_index (imm_cache s)) = Some c →
  (∀ r, 0 <= r < 16 → (r ∉ marked p) → gpr_val h' r = gpr_val h r) → (∀ t, temp_val h' t = temp_val h t) →
  tr_inv (set_imm_cache (ra_free_all s) (set_ir1_index c (curr_ir1_index c + 1) n)) (mkU ∅ ∅) h'.
Proof using Type.
  intros [_ M] E G T. destruct (end_step _ p n (gpr_val h') (M eq_refl)) as (c' & E' & M').
  simpl in E'. rewrite E in E'. injection E' as <-. split; [apply nothing_held; intros _; apply M'|]. intros _.
  eapply machine_inv_ext; [exact M'|done|..]; simpl; intros; [by rewrite T|].
  destruct (bool_decide_reflect (r ∈ marked p)); [done|]. by rewrite G.
Qed.

Lemma step_inv x y : step tc x y → (∃ u, tr_inv x.1 u x.2) → ∃ u, tr_inv y.1 u y.2.
Proof using All.
  intros S [u0 I]. pose proof (proj1 I) as T0.
  assert (U : ∀ u, temps_repr true x.1 u → u0 = u) by (intros u; by apply temps_repr_unique).
  destruct S as [p opnd m u v s h s' h' T A D|u o s h s' h' T L D|u r s h s' T Hr E|u s h h' T W|p n c s h h' E G V];
    simpl in *; try (specialize (U u T) as ->; clear T).
  - destruct (access_ok p opnd m s u h I A) as (o & off & s1 & u1 & h1 & D1 & _ & R).
    destruct (does_det _ _ _ _ _ _ _ _ _ D D1) as (_ & -> & ->). exists u1. apply (res_inv _ _ _ _ _ _ _ _ _ R).
  - destruct I as [T M]. pose proof (alloc_does (mctx tc) H64 s u h) as H. rewrite Himm in H.
    destruct (H T L) as (r & s1 & D1 & _ & _ & T' & M' & _).
    destruct (does_det _ _ _ _ _ _ _ _ _ D D1) as (_ & -> & ->). exists (take_reg u r). split; auto.
  - destruct I as [T M]. destruct (free_does s u r T Hr) as (s1 & E1 & T' & C). rewrite E in E1. injection E1 as <-.
    exists (drop_reg u r). split; [done|]. intros Hi. unfold m_of. rewrite C. by apply M.
  - exists u. by eapply tr_inv_frame.
  - exists (mkU ∅ ∅). by eapply end_ok.
Qed.

Lemma reach_inv x : reach tc x → ∃ u, tr_inv x.1 u x.2.
Proof using All. induction 1 as [*|x y _ IH S]; [by eapply start_ok|by eapply step_inv]. Qed.
End reach.



(** ** After the collection pass *)

Definition collect_tc : trctx :=
  let c := mctx demo_tc in
  mkTrctx (mkCtx true true true true true (qsort c) (imm_skip_pc c) (pir1 c) (seg_base_off c)) (seg_selector_off demo_tc)
    (store_ireg_to_ir1_seg demo_tc) 0 false false false false (smc_store demo_tc) (translate_lock demo_tc)
    (xchg_atomic demo_tc) (fgen demo_tc).

Definition rip_load (r : dt_x86_reg) (disp : Z) : IR1_INST :=
  inst dt_X86_INS_MOV [gpr r; demo_mem dt_X86_REG_RIP disp].

(** The addresses of two instructions, as [tr_ir2_generate] goes through them: the first
    must be in a register exactly, the second may leave a displacement. *)
Definition collected_addresses (d1 d2 : Z) : M (IR2_OPND * Z) :=
  let p1 := rip_load dt_X86_REG_RAX d1 in
  let p2 := rip_load dt_X86_REG_RCX d2 in
  _ ← init_cache collect_tc 0 [p1; p2];
  _ ← do_temps (λ s, Some (set_imm_cache s (set_ir1_index (imm_cache s) 0 0)));
  _ ← convert_mem_no_offset (ctx_at collect_tc p1) (demo_mem dt_X86_REG_RIP d1);
  _ ← do_temps (λ s, Some (ra_free_all s));
  _ ← end_inst true p1 0;
  _ ← do_temps (λ s, Some (set_imm_cache s (set_ir1_index (imm_cache s) 1 0)));
  convert_mem (ctx_at collect_tc p2) (demo_mem dt_X86_REG_RIP d2).

(** C39 After the collection pass the cache can give a wrong address.  The collection
    finds [rip + 0x1000] and [rip + 0x1100] in two instructions and gives them one bucket,
    with their average.  The first instruction takes its address with
    [convert_mem_no_offset], which moves the register to 0x1000; but
    [imm_cache_update_by_diff] records the move in [offset], and lookups of a collected
    bucket use [avg_offset].  From every host state the second instruction gets an
    address 0x80 below its operand's. *)
Theorem collected_bucket_not_moved (h : host) :
  let m := mkMem dt_X86_REG_INVALID dt_X86_REG_RIP dt_X86_REG_INVALID 1 0x1100 in
  let ctx := ctx_at collect_tc (rip_load dt_X86_REG_RCX 0x1100) in
  ∃ x s' h', does (collected_addresses 0x1000 0x1100) (mkT 0 0 fresh_cache) h x s' h' ∧
    rget h' (_reg_num x.1) + x.2 = linear_address ctx h (demo_mem dt_X86_REG_RIP 0x1100) m - 0x80.
Proof.
  intros m ctx. apply (outcome_does _ _ _ (λ x h', rget h' (_reg_num x.1) + x.2)).
  destruct h as [reg [mem fl]]. vm_compute. reflexivity.
Qed.
