(* ===== verification/PushPop.v ===== *)
(** * Delayed updates of the stack pointer (optimization/ir2-optimization.c)

    [ir2_opt_push_pop] removes the additions of constants to the host register of RSP and
    adds the sum later, patching the offsets of loads in between.  The pages of anonymous
    mappings are left alone, and the last x86 instruction of the block is not looked at.
    The functions that are compiled out with [#if 0] are not modelled. *)

From stdpp Require Import base numbers list option strings sets tactics.
From Stdlib Require Import ZArith Lia Bool.
From S2P Require Import Prelude Ir1 LisaTable Ir2 Ir2List Ir2Code LaAssemble LaAppend RegMap ImmCache.
Local Open Scope Z_scope.
Local Open Scope c_scope.

Local Abbreviation last := list.last.

(** ** Operands *)

(** [reg_gpr_map[esp_index]] *)
Definition rsp : Z := Eval vm_compute in default (-1) (aget reg_gpr_map esp_index).

Definition opnd_is_rsp (o : IR2_OPND) : bool := ir2_opnd_is_ireg o && (_reg_num o =? rsp).

(** The functions take the array [_opnd] of an instruction: its elements from [op_count]
    on are what an earlier instruction of the same slot left there. *)
Definition ir2_opndn_is_rsp (_opnd : list IR2_OPND) (index : nat) : option bool :=
  o ← _opnd !! index; Some (opnd_is_rsp o).

Definition ir2_get_addi_rsp_offs (_opnd : list IR2_OPND) : option Z :=
  o0 ← _opnd !! 0%nat;
  o1 ← _opnd !! 1%nat;
  o2 ← _opnd !! 2%nat;
  Some (if (_reg_num o0 =? rsp) && (_reg_num o1 =? rsp) then ir2_opnd_imm o2 else 0).

(** Opcodes of which every operand is a source: the binary translation extension, ... *)
Definition lbt_src_ops : list Z := Eval vm_compute in map lisa
  ["x86mttop"; "x86mftop"; "x86loope"; "x86loopne"; "x86inc.b"; "x86inc.h"; "x86inc.w"; "x86inc.d";
   "x86dec.b"; "x86dec.h"; "x86dec.w"; "x86dec.d"; "x86settm"; "x86clrtm"; "x86inctop"; "x86dectop";
   "setx86j"; "x86mul.b"; "x86mul.h"; "x86mul.w"; "x86mul.d"; "x86mul.bu"; "x86mul.hu"; "x86mul.wu";
   "x86mul.du"; "x86add.wu"; "x86add.du"; "x86sub.wu"; "x86sub.du"; "x86add.b"; "x86add.h"; "x86add.w";
   "x86add.d"; "x86sub.b"; "x86sub.h"; "x86sub.w"; "x86sub.d"; "x86adc.b"; "x86adc.h"; "x86adc.w"; "x86adc.d";
   "x86sbc.b"; "x86sbc.h"; "x86sbc.w"; "x86sbc.d"; "x86sll.b"; "x86sll.h"; "x86sll.w"; "x86sll.d"; "x86srl.b";
   "x86srl.h"; "x86srl.w"; "x86srl.d"; "x86sra.b"; "x86sra.h"; "x86sra.w"; "x86sra.d"; "x86rotr.b";
   "x86rotr.h"; "x86rotr.d"; "x86rotr.w"; "x86rotl.b"; "x86rotl.h"; "x86rotl.w"; "x86rotl.d"; "x86rcr.b";
   "x86rcr.h"; "x86rcr.w"; "x86rcr.d"; "x86rcl.b"; "x86rcl.h"; "x86rcl.w"; "x86rcl.d"; "x86and.b"; "x86and.h";
   "x86and.w"; "x86and.d"; "x86or.b"; "x86or.h"; "x86or.w"; "x86or.d"; "x86xor.b"; "x86xor.h"; "x86xor.w";
   "x86xor.d"; "x86slli.b"; "x86slli.h"; "x86slli.w"; "x86slli.d"; "x86srli.b"; "x86srli.h"; "x86srli.w";
   "x86srli.d"; "x86srai.b"; "x86srai.h"; "x86srai.w"; "x86srai.d"; "x86rotri.b"; "x86rotri.h"; "x86rotri.w";
   "x86rotri.d"; "x86rcri.b"; "x86rcri.h"; "x86rcri.w"; "x86rcri.d"; "x86rotli.b"; "x86rotli.h"; "x86rotli.w";
   "x86rotli.d"; "x86rcli.b"; "x86rcli.h"; "x86rcli.w"; "x86rcli.d"; "x86settag"; "x86mfflag"; "x86mtflag"].
(** ... and the stores. *)
Definition store_src_ops : list Z := Eval vm_compute in map lisa
  ["sc.w"; "sc.d"; "stptr.w"; "stptr.d"; "st.b"; "st.h"; "st.w"; "st.d"; "stl.w"; "str.w"; "stl.d"; "str.d";
   "stx.b"; "stx.h"; "stx.w"; "stx.d"; "stgt.b"; "stgt.h"; "stgt.w"; "stgt.d"; "stle.b"; "stle.h"; "stle.w";
   "stle.d"].

Definition ir2_src_contain_rsp (opcode : Z) (_opnd : list IR2_OPND) (op_count : nat) : bool :=
  if existsb (Z.eqb opcode) (lbt_src_ops ++ store_src_ops) then existsb opnd_is_rsp (take op_count _opnd)
  else if la_ir2_opcode_is_bstrins opcode then existsb opnd_is_rsp (take 2 _opnd)
  else existsb opnd_is_rsp (drop 1 (take op_count _opnd)).

(** [curr->_opnd[2]._imm32 += patch_off] *)
Definition add_imm (off : Z) (o : IR2_OPND) : IR2_OPND := mkOpnd2 (_type o) (u32 (ir2_opnd_imm o + off)).

(** ** The pass *)

Section pass.
(** [blank], [moved]: as in file LaAppend. *)
Context (blank : IR2_INST) (moved : bool).

Definition esp : IR2_OPND := mkOpnd2 IR2_OPND_GPR rsp.

Definition insert_addi (t : TRANSLATION_DATA) (patch_off : Z) (curr : nat) : option TRANSLATION_DATA :=
  '(p, t) ← generate_simple blank moved "addi.d" [AOpnd esp; AOpnd esp; AImm patch_off] t;
  '(t, _) ← ir2_insert_before t p curr;
  Some t.

Fixpoint ir2_find_next_x86_inst (fuel : nat) (t : TRANSLATION_DATA) (curr : nat) (end_id : Z) : option nat :=
  i ← deref t curr;
  if negb (la_ir2_opcode_is_x86_inst (ir2_opcode i)) && (ir2_get_id i <? end_id) then
    match fuel with
    | O => None
    | S fuel => next ← ir2_next t curr; next ← next; ir2_find_next_x86_inst fuel t next end_id
    end
  else Some curr.

(** *** The loop *)

(** What the loop does with an instruction: *)
Inductive action : Type :=
  | Flush            (** add the pending offset before it and go to the next x86 instruction *)
  | Take (off : Z)   (** remove it *)
  | Patch            (** add the pending offset to its immediate *)
  | Insert           (** add the pending offset before it *)
  | Drop             (** it overwrites RSP *)
  | Keep.

Definition stops (opcode : Z) : bool :=
  ir2_opcode_is_branch opcode || ir2_opcode_is_jirl opcode || la_ir2_opcode_is_label opcode.

Definition action_of (op : Z) (_opnd : list IR2_OPND) (op_count : nat) (patch_off : Z) : option action :=
  if stops op && negb (patch_off =? 0) then Some Flush
  else
    off ← (if la_ir2_opcode_is_addi op then ir2_get_addi_rsp_offs _opnd else Some 0);
    if negb (off =? 0) then Some (if si12_overflow (patch_off + off) then Keep else Take off)
    else if negb (patch_off =? 0) then
      if ir2_src_contain_rsp op _opnd op_count then
        if la_ir2_can_patch_imm12 op then
          base ← ir2_opndn_is_rsp _opnd 1;
          o2 ← _opnd !! 2%nat;
          dest ← ir2_opndn_is_rsp _opnd 0;
          Some (if (base : bool) && negb (si12_overflow (ir2_opnd_imm o2 + patch_off)) && negb dest
                then Patch else Insert)
        else Some Insert
      else dest ← ir2_opndn_is_rsp _opnd 0; Some (if (dest : bool) then Drop else Keep)
    else Some Keep.

Fixpoint push_pop_loop (fuel : nat) (t : TRANSLATION_DATA) (curr : nat) (end_id patch_off : Z) :
    option (TRANSLATION_DATA * nat * Z) :=
  match fuel with
  | O => None
  | S fuel =>
      i ← deref t curr;
      if ir2_get_id i <? end_id then
        let next t patch_off :=
          n ← ir2_next t curr; n ← n; push_pop_loop fuel t n end_id patch_off in
        a ← action_of (ir2_opcode i) (_opnd i) (Z.to_nat (op_count i)) patch_off;
        match a with
        | Flush =>
            t ← insert_addi t patch_off curr;
            curr ← ir2_find_next_x86_inst fuel t curr end_id;
            push_pop_loop fuel t curr end_id 0
        | Take off => t ← ir2_remove t curr; next t (patch_off + off)
        | Patch => t ← upd t curr (set_opnd 2 (add_imm patch_off)); next t patch_off
        | Insert => t ← insert_addi t patch_off curr; next t 0
        | Drop => next t 0
        | Keep => next t patch_off
        end
      else Some (t, curr, patch_off)
  end.

(** The last x86 instruction before the last IR2 instruction; the inner [None]: there is
    none. *)
Fixpoint find_end (fuel : nat) (t : TRANSLATION_DATA) (curr : nat) : option (option nat) :=
  p ← ir2_prev t curr;
  match p with
  | None => Some None
  | Some p =>
      i ← deref t p;
      if la_ir2_opcode_is_x86_inst (ir2_opcode i) then Some (Some p)
      else match fuel with O => None | S fuel => find_end fuel t p end
  end.

(** [page_anon]: [PAGE_ANON & page_get_flags(tb->pc)]. *)
Definition ir2_opt_push_pop (page_anon : bool) (t : TRANSLATION_DATA) : option TRANSLATION_DATA :=
  if page_anon then Some t
  else
    match last_ir2 t with
    | None => Some t
    | Some curr =>
        let fuel := S (ir2_inst_num_current t) in
        e ← find_end fuel t curr;
        match e with
        | None => Some t
        | Some e =>
            end_id ← id_of t e;
            first ← first_ir2 t;
            next ← ir2_next t first;
            curr ← next;
            '(t, curr, patch_off) ← push_pop_loop fuel t curr end_id 0;
            if negb (patch_off =? 0) then insert_addi t patch_off curr else Some t
        end
    end.

(** [parallel]: [cpu->tcg_cflags & CF_PARALLEL]. *)
Definition tr_ir2_optimize (parallel page_anon : bool) (t : TRANSLATION_DATA) : option TRANSLATION_DATA :=
  if parallel then Some t else ir2_opt_push_pop page_anon t.
End pass.

(** ** The correction of RSP at a fault

    [ir2_opt_push_pop_fix] follows the pass over the instructions of the block, translated
    again, up to the host instruction number [i] at which a fault was raised, and adds the
    offset that is pending there to the RSP of the environment. *)

Definition no_code_ops : list Z := Eval vm_compute in map lisa
  ["x86_inst"; "label"; "data_li"; "data_add"; "inst_diff"; "data_st"; "data_st_rel_table"; "profile"].
Definition LISA_ALIGN : Z := Eval vm_compute in lisa "align".

(** The [switch]: [(end_id, skip_count)]. *)
Definition fix_count (op curr_id end_id skip_count : Z) : Z * Z :=
  if existsb (Z.eqb op) no_code_ops then (end_id + 1, skip_count + 1)
  else if op =? LISA_ALIGN then
    if Z.testbit (curr_id - skip_count) 0 then (end_id, skip_count) else (end_id + 1, skip_count + 1)
  else if op =? LISA_FAR_JUMP then (end_id - 1, skip_count)
  else (end_id, skip_count).

(** The rest of the body: the change of [end_id], the next [patch_off] and whether the
    immediate of the instruction is patched. *)
Definition fix_step (op : Z) (_opnd : list IR2_OPND) (op_count : nat) (patch_off : Z) : option (Z * Z * bool) :=
  if stops op && negb (patch_off =? 0) then Some (-1, 0, false)
  else
    off ← (if la_ir2_opcode_is_addi op then ir2_get_addi_rsp_offs _opnd else Some 0);
    if negb (off =? 0) then
      Some (if si12_overflow (patch_off + off) then (0, patch_off, false) else (1, patch_off + off, false))
    else if negb (patch_off =? 0) then
      if ir2_src_contain_rsp op _opnd op_count then
        if la_ir2_can_patch_imm12 op then
          o2 ← _opnd !! 2%nat;
          dest ← ir2_opndn_is_rsp _opnd 0;
          Some (if si12_overflow (ir2_opnd_imm o2 + patch_off) then (-1, 0, false)
                else (0, (if (dest : bool) then 0 else patch_off), true))
        else Some (-1, 0, false)
      else dest ← ir2_opndn_is_rsp _opnd 0; Some (0, (if (dest : bool) then 0 else patch_off), false)
    else Some (0, patch_off, false).

(** Returns [patch_off]. *)
Fixpoint push_pop_fix_loop (fuel : nat) (t : TRANSLATION_DATA) (curr : nat) (end_id patch_off skip_count : Z) :
    option Z :=
  match fuel with
  | O => None
  | S fuel =>
      i ← deref t curr;
      if ir2_get_id i <=? end_id then
        let '(end_id, skip_count) := fix_count (ir2_opcode i) (ir2_get_id i) end_id skip_count in
        '(d, patch_off', patched) ← fix_step (ir2_opcode i) (_opnd i) (Z.to_nat (op_count i)) patch_off;
        t ← (if (patched : bool) then upd t curr (set_opnd 2 (add_imm patch_off)) else Some t);
        n ← ir2_next t curr; n ← n;
        push_pop_fix_loop fuel t n (end_id + d) patch_off' skip_count
      else Some patch_off
  end.

(** [t]: what [tr_disasm], [ir1_optimization], [tr_init] and [tr_ir2_generate] give for the
    block; [rsp_value]: [env->regs[R_ESP]]. *)
Definition ir2_opt_push_pop_fix (page_anon : bool) (t : TRANSLATION_DATA) (i rsp_value : Z) : option Z :=
  if page_anon then Some rsp_value
  else
    match last_ir2 t with
    | None => Some rsp_value
    | Some curr =>
        let fuel := S (ir2_inst_num_current t) in
        e ← find_end fuel t curr;
        match e with
        | None => Some rsp_value
        | Some e =>
            last_id ← id_of t e;
            first ← first_ir2 t;
            first_id ← id_of t first;
            if first_id =? last_id then Some rsp_value
            else
              next ← ir2_next t first;
              curr ← next;
              off ← push_pop_fix_loop fuel t curr (i + 1) 0 0;
              Some (u64 (rsp_value + off))
        end
    end.
