(* ===== verification/PushPopOk.v ===== *)
(** * Correctness of the delayed updates of the stack pointer

    The pass of file PushPop on the array does to the code of a block what [delay] does to
    the list of its instructions, and straight-line code computes the same after it. *)

From stdpp Require Import base numbers list option strings sets tactics.
From Stdlib Require Import ZArith Lia Bool.
From S2P Require Import Prelude Ir1 LisaTable Ir2 Ir2List Ir2Code LaAssemble LaAppend RegMap ImmCache PushPop.
Local Open Scope Z_scope.
Local Open Scope c_scope.

Local Abbreviation last := list.last.

(** ** The pass on lists *)

Definition addi_rsp (off : Z) : code_inst := (LISA_ADDI_D, [esp; esp; mkOpnd2 IR2_OPND_IMM (u32 off)]).
Definition flush (off : Z) : list code_inst := if off =? 0 then [] else [addi_rsp off].

Definition action_at (c : code_inst) (p : Z) : option action := action_of c.1 c.2 (length c.2) p.

(** [skip]: looking for the next x86 instruction; [p]: the pending offset.  The result ends
    where the last offset is still to be added. *)
Fixpoint delay (skip : bool) (p : Z) (l : list code_inst) : option (list code_inst * Z) :=
  match l with
  | [] => Some ([], p)
  | c :: l =>
      let after out '(r, q) := Some (out ++ r, q) in
      if skip && negb (la_ir2_opcode_is_x86_inst c.1) then delay true p l ≫= after [c]
      else
        a ← action_at c p;
        match a with
        | Flush => delay true 0 l ≫= after (flush p ++ [c])
        | Take off => delay false (p + off) l
        | Patch => delay false p l ≫= after [(c.1, alter (add_imm p) 2%nat c.2)]
        | Insert => delay false 0 l ≫= after (flush p ++ [c])
        | Drop => delay false 0 l ≫= after [c]
        | Keep => delay false p l ≫= after [c]
        end
  end.

Lemma delay_marker p c l : la_ir2_opcode_is_x86_inst c.1 = true → delay true p (c :: l) = delay false p (c :: l).
Proof. intros X. simpl. by rewrite X. Qed.

(** ** Refinement *)

(** Operands the instruction does not have are not looked at. *)
Lemma opndn_take os n k b : ir2_opndn_is_rsp (take n os) k = Some b → ir2_opndn_is_rsp os k = Some b.
Proof.
  unfold ir2_opndn_is_rsp. destruct (take n os !! k) as [o|] eqn:E; [|done].
  apply lookup_take_Some in E as [-> _]. done.
Qed.

Lemma offs_take os n z : ir2_get_addi_rsp_offs (take n os) = Some z → ir2_get_addi_rsp_offs os = Some z.
Proof.
  unfold ir2_get_addi_rsp_offs. intros H.
  destruct (take n os !! 0%nat) eqn:E0; [|done]. destruct (take n os !! 1%nat) eqn:E1; [|done].
  destruct (take n os !! 2%nat) eqn:E2; [|done].
  apply lookup_take_Some in E0 as [-> _]. apply lookup_take_Some in E1 as [-> _].
  apply lookup_take_Some in E2 as [-> _]. done.
Qed.

Definition bstrins_ok (c : code_inst) : Prop := la_ir2_opcode_is_bstrins c.1 = true → (2 <= length c.2)%nat.

Lemma contain_take op os n :
  bstrins_ok (op, take n os) →
  ir2_src_contain_rsp op (take n os) (length (take n os)) = ir2_src_contain_rsp op os n.
Proof.
  unfold bstrins_ok, ir2_src_contain_rsp. cbn [fst snd]. intros H. rewrite firstn_all.
  destruct (existsb (Z.eqb op) (lbt_src_ops ++ store_src_ops)); [done|].
  destruct (la_ir2_opcode_is_bstrins op); [|done].
  specialize (H eq_refl). rewrite length_take in H. by rewrite take_take, Nat.min_l by lia.
Qed.

Lemma action_take op os n p a :
  bstrins_ok (op, take n os) → action_at (op, take n os) p = Some a → action_of op os n p = Some a.
Proof.
  intros B. unfold action_at, action_of. cbn [fst snd]. rewrite contain_take by done.
  destruct (stops op && _); [done|].
  assert (O : ∀ z, (if la_ir2_opcode_is_addi op then ir2_get_addi_rsp_offs (take n os) else Some 0) = Some z →
    (if la_ir2_opcode_is_addi op then ir2_get_addi_rsp_offs os else Some 0) = Some z).
  { destruct (la_ir2_opcode_is_addi op); [apply offs_take|done]. }
  destruct (if la_ir2_opcode_is_addi op then _ else _) as [off|]; [|done]. rewrite (O _ eq_refl). simpl.
  destruct (negb (off =? 0)); [done|]. destruct (negb (p =? 0)); [|done].
  destruct (ir2_src_contain_rsp op os n).
  - destruct (la_ir2_can_patch_imm12 op); [|done].
    destruct (ir2_opndn_is_rsp (take n os) 1) eqn:E1; [|done]. rewrite (opndn_take _ _ _ _ E1). simpl.
    destruct (take n os !! 2%nat) eqn:E2; [|done]. apply lookup_take_Some in E2 as [-> _]. simpl.
    destruct (ir2_opndn_is_rsp (take n os) 0) eqn:E0; [|done]. by rewrite (opndn_take _ _ _ _ E0).
  - destruct (ir2_opndn_is_rsp (take n os) 0) eqn:E0; [|done]. by rewrite (opndn_take _ _ _ _ E0).
Qed.

Lemma si12_fits x : si12_overflow x = false ↔ in_s 12 x.
Proof. unfold si12_overflow, in_s. rewrite negb_false_iff, andb_true_iff, !Z.leb_le. lia. Qed.

Ltac action_cases :=
  repeat (first
    [ match goal with |- context [ir2_opndn_is_rsp ?a ?b] => destruct (ir2_opndn_is_rsp a b) end
    | match goal with |- context [?l !! ?k] => destruct (l !! k) end
    | case_match ]; cbn [mbind option_bind]; try done).

Lemma action_fits c p off : action_at c p = Some (Take off) → si12_overflow (p + off) = false.
Proof.
  unfold action_at, action_of. destruct (stops _ && _); [done|].
  destruct (if la_ir2_opcode_is_addi _ then _ else _) as [o|]; [|done]. cbn [mbind option_bind].
  destruct (negb (o =? 0)); [destruct (si12_overflow (p + o)) eqn:E; congruence|].
  intros H. exfalso. revert H. action_cases.
Qed.

Lemma action_pending c p a : action_at c p = Some a → a = Flush ∨ a = Insert → flush p = [addi_rsp p].
Proof.
  unfold action_at, action_of, flush. destruct (p =? 0); [|done]. simpl. rewrite andb_false_r.
  destruct (if la_ir2_opcode_is_addi _ then _ else _) as [o|]; [|done]. cbn [mbind option_bind].
  destruct (negb (o =? 0)); [destruct (si12_overflow (p + o))|]; intros [= <-] [|]; done.
Qed.

Lemma action_flush c p : action_at c p = Some Flush → stops c.1 = true.
Proof.
  unfold action_at, action_of. destruct (stops c.1); [done|]. simpl.
  destruct (if la_ir2_opcode_is_addi _ then _ else _) as [o|]; [|done]. cbn [mbind option_bind].
  intros H. exfalso. revert H. action_cases.
Qed.

Lemma stops_marker op : stops op = true → la_ir2_opcode_is_x86_inst op = false.
Proof.
  unfold la_ir2_opcode_is_x86_inst. destruct (Z.eqb_spec op LISA_X86_INST) as [->|]; [|done].
  by vm_compute.
Qed.

Section refinement.
Context (blank : IR2_INST) (moved : bool).

Lemma addi_opnds off :
  si12_overflow off = false →
  (r ← row_of "addi.d"; constructor_opnds r [AOpnd esp; AOpnd esp; AImm off]) = Some (addi_rsp off).2.
Proof using Type.
  intros O%si12_fits.
  replace (row_of "addi.d") with (Some (row "addi.d" 0x2c00000 [GPR_RD; GPR_RJ; IMM_SI12])) by (vm_compute; reflexivity).
  simpl. unfold constructor_opnds. simpl. unfold generatingCheck. simpl. unfold sextract64.
  by rewrite Z.shiftr_0_r, swrap_id, Z.eqb_refl by (done || lia).
Qed.

Lemma insert_addi_ok t L1 x L2 off :
  shows t (L1 ++ x :: L2) → Z.of_nat (ir2_inst_num_current t) < 2 ^ 15 → si12_overflow off = false →
  ∃ t', insert_addi blank moved t off x.1 = Some t' ∧
    shows t' (L1 ++ (ir2_inst_num_current t, addi_rsp off) :: x :: L2) ∧
    ir2_inst_num_current t' = S (ir2_inst_num_current t).
Proof using Type.
  intros H B O. pose proof (addi_opnds off O) as E. unfold insert_addi, generate_simple.
  destruct (row_of "addi.d") as [r|]; [|done]. cbn [mbind option_bind] in E |- *. rewrite E.
  cbn [mbind option_bind].
  destruct (shows_before t L1 x L2 blank moved (lisa "addi.d") (addi_rsp off).2 H B) as (t1 & t' & -> & I & S & N).
  { simpl. lia. }
  cbn [mbind option_bind]. rewrite I. exists t'. split_and!; [done| |done]. exact S.
Qed.

(** The slot of the first instruction of [B], or of [e]. *)
Definition slot (B : list (nat * code_inst)) (e : nat * code_inst) : nat := (default e (head B)).1.

Lemma shows_slot t L1 B e T :
  shows t (L1 ++ B ++ e :: T) →
  ∃ i, deref t (slot B e) = Some i ∧ _id i = Z.of_nat (slot B e) ∧ payload i = (default e (head B)).2.
Proof using Type.
  intros H. destruct (shows_deref t _ (default e (head B)) H) as (i & D & P & I); [|by exists i].
  destruct B as [|b B]; simpl; set_solver.
Qed.

Lemma slot_next t L1 x B e T : shows t (L1 ++ x :: B ++ e :: T) → ir2_next t x.1 = Some (Some (slot B e)).
Proof using Type. intros H. rewrite (proj2 (shows_links _ _ _ _ H)). by destruct B. Qed.

Definition before (e : nat * code_inst) (x : nat * code_inst) : Prop := (x.1 < e.1)%nat.

Lemma find_ok e T t B : ∀ L1 fuel,
  shows t (L1 ++ B ++ e :: T) → Forall (before e) B → (length B <= fuel)%nat →
  ∃ B1 B2, B = B1 ++ B2 ∧ ir2_find_next_x86_inst fuel t (slot B e) (Z.of_nat e.1) = Some (slot B2 e) ∧
    delay true 0 (B.*2) = '(r, q) ← delay false 0 (B2.*2); Some (B1.*2 ++ r, q).
Proof using Type.
  induction B as [|b B IH]; intros L1 fuel H F Hf.
  { exists [], []. split_and!; [done| |done].
    destruct (shows_slot _ _ _ _ _ H) as (i & D & I & _).
    destruct fuel; simpl; rewrite D; simpl; unfold ir2_get_id; rewrite I; unfold slot; simpl;
      by rewrite Z.ltb_irrefl, andb_false_r. }
  destruct (shows_slot _ _ _ _ _ H) as (i & D & I & P). simpl in P.
  inversion F as [|? ? Fb FB]; subst. unfold before in Fb.
  destruct (la_ir2_opcode_is_x86_inst b.2.1) eqn:X.
  { exists [], (b :: B). split_and!; [done| |].
    - destruct fuel; simpl; rewrite D; simpl; unfold ir2_opcode;
        rewrite <- P in X; unfold payload in X; simpl in X; by rewrite X.
    - rewrite fmap_cons, delay_marker by done. destruct (delay false 0 _) as [[r q]|]; reflexivity. }
  destruct fuel as [|fuel]; [simpl in Hf; lia|].
  destruct (IH (L1 ++ [b]) fuel) as (B1 & B2 & -> & Ef & Ed).
  { by rewrite <- app_assoc. } { done. } { simpl in Hf. lia. }
  exists (b :: B1), B2. split_and!; [done| |].
  - cbn [ir2_find_next_x86_inst]. rewrite D. simpl.
    rewrite <- P in X. unfold payload in X. simpl in X. unfold ir2_opcode, ir2_get_id. rewrite X, I.
    rewrite (proj2 (Z.ltb_lt _ _)) by (unfold slot; simpl; lia). simpl.
    unfold slot at 1. simpl. simpl in H. by rewrite (slot_next _ _ _ _ _ _ H).
  - rewrite fmap_cons. cbn [delay]. rewrite X. cbn [andb negb]. rewrite Ed.
    destruct (delay false 0 (B2.*2)) as [[r q]|]; reflexivity.
Qed.

(** One round of the loop. *)
Lemma loop_round e T t L1 b B p a fuel :
  shows t (L1 ++ b :: B ++ e :: T) → before e b → bstrins_ok b.2 → action_at b.2 p = Some a →
  push_pop_loop blank moved (S fuel) t b.1 (Z.of_nat e.1) p =
  (let next t patch_off :=
     n ← ir2_next t b.1; n ← n; push_pop_loop blank moved fuel t n (Z.of_nat e.1) patch_off in
   match a with
   | Flush =>
       t ← insert_addi blank moved t p b.1;
       curr ← ir2_find_next_x86_inst fuel t b.1 (Z.of_nat e.1);
       push_pop_loop blank moved fuel t curr (Z.of_nat e.1) 0
   | Take off => t ← ir2_remove t b.1; next t (p + off)
   | Patch => t ← upd t b.1 (set_opnd 2 (add_imm p)); next t p
   | Insert => t ← insert_addi blank moved t p b.1; next t 0
   | Drop => next t 0
   | Keep => next t p
   end).
Proof using Type.
  intros H Fb Bb A. destruct (shows_slot t L1 (b :: B) e T H) as (i & D & I & P). unfold slot in *. simpl in D, I, P.
  cbn [push_pop_loop]. rewrite D. cbn [mbind option_bind]. unfold ir2_get_id. rewrite I.
  rewrite (proj2 (Z.ltb_lt _ _)) by (unfold before in Fb; lia).
  destruct b as [k [c os]]. simpl in P, A, Bb. unfold payload in P. injection P as P1 P2.
  unfold ir2_opcode. rewrite P1. rewrite <- P2 in A, Bb. by rewrite (action_take _ _ _ _ _ Bb A).
Qed.

(** The loop has come to [e], with the instructions [D] after [L1] and [q] pending; [n]
    bounds the number of instructions. *)
Definition arrives (e : nat * code_inst) (T L1 : list (nat * code_inst)) (D : list code_inst) (q : Z) (n : nat)
    (r : option (TRANSLATION_DATA * nat * Z)) : Prop :=
  ∃ t' L', r = Some (t', e.1, q) ∧ shows t' (L1 ++ L' ++ e :: T) ∧ L'.*2 = D ∧
    (ir2_inst_num_current t' <= n)%nat ∧ si12_overflow q = false.

Lemma arrives_app e T L1 out D q n n' r :
  arrives e T (L1 ++ out) D q n r → (n <= n')%nat → arrives e T L1 (out.*2 ++ D) q n' r.
Proof using Type.
  intros (t' & L' & -> & S & <- & N & O) Hn. exists t', (out ++ L'). rewrite fmap_app.
  split_and!; [done| |done|lia|done]. by rewrite <- !app_assoc in *.
Qed.

(** The tail of the loop. *)
Definition continues (e : nat * code_inst) (T B : list (nat * code_inst)) (fuel : nat) : Prop :=
  ∀ t L1 p D q, shows t (L1 ++ B ++ e :: T) →
    Z.of_nat (ir2_inst_num_current t) + Z.of_nat (length B) <= 2 ^ 15 → si12_overflow p = false →
    delay false p (B.*2) = Some (D, q) →
    arrives e T L1 D q (ir2_inst_num_current t + length B)
      (push_pop_loop blank moved fuel t (slot B e) (Z.of_nat e.1) p).

Section tail.
Context (e b : nat * code_inst) (T B : list (nat * code_inst)) (fuel : nat).
Context (IH : continues e T B fuel) (Fb : before e b) (Bb : bstrins_ok b.2).

(** The loop continues after [b], which has become [b']. *)
Lemma next_ok t L1 out b' p D q n :
  shows t (L1 ++ out ++ b' :: B ++ e :: T) → b'.1 = b.1 →
  Z.of_nat (ir2_inst_num_current t) + Z.of_nat (length B) <= 2 ^ 15 → si12_overflow p = false →
  delay false p (B.*2) = Some (D, q) → (ir2_inst_num_current t + length B <= n)%nat →
  arrives e T L1 (out.*2 ++ b'.2 :: D) q n
    (n ← ir2_next t b.1; n ← n; push_pop_loop blank moved fuel t n (Z.of_nat e.1) p).
Proof using IH.
  intros H Eb N O D1 Hn. rewrite app_assoc in H. rewrite <- Eb, (slot_next _ _ _ _ _ _ H). simpl.
  rewrite <- app_assoc in H.
  replace (out.*2 ++ b'.2 :: D) with ((out ++ [b']).*2 ++ D) by (by rewrite fmap_app, <- app_assoc).
  eapply arrives_app; [|exact Hn]. apply IH; try done. by rewrite <- !app_assoc.
Qed.

Context (t : TRANSLATION_DATA) (L1 : list (nat * code_inst)) (p : Z) (D : list code_inst) (q : Z).
Context (H : shows t (L1 ++ b :: B ++ e :: T)) (O : si12_overflow p = false).
Context (N : Z.of_nat (ir2_inst_num_current t) + Z.of_nat (S (length B)) <= 2 ^ 15).

Abbreviation result := (arrives e T L1 D q (ir2_inst_num_current t + S (length B))
  (push_pop_loop blank moved (S fuel) t b.1 (Z.of_nat e.1) p)).

Lemma keep_ok a p' D1 :
  action_at b.2 p = Some a → (a = Keep ∧ p' = p ∨ a = Drop ∧ p' = 0) →
  delay false p' (B.*2) = Some (D1, q) → D = b.2 :: D1 → result.
Proof using All.
  intros A Ha D1E ->. rewrite (loop_round _ _ _ _ _ _ _ _ _ H Fb Bb A).
  apply (next_ok t L1 [] b p' D1 q (ir2_inst_num_current t + S (length B))) in H; try done; try lia.
  - by destruct Ha as [[-> ->]|[-> ->]].
  - by destruct Ha as [[-> ->]|[-> ->]].
Qed.

Lemma patch_ok D1 :
  action_at b.2 p = Some Patch → delay false p (B.*2) = Some (D1, q) →
  D = (b.2.1, alter (add_imm p) 2%nat b.2.2) :: D1 → result.
Proof using All.
  intros A D1E ->. rewrite (loop_round _ _ _ _ _ _ _ _ _ H Fb Bb A).
  destruct (shows_upd t L1 b.1 b.2.1 b.2.2 (B ++ e :: T) 2%nat (add_imm p)) as (t1 & E1 & H1 & N1).
  { by destruct b as [k [c os]]. }
  rewrite E1. cbn [mbind option_bind].
  apply (next_ok t1 L1 [] (b.1, (b.2.1, alter (add_imm p) 2%nat b.2.2)) p D1 q); rewrite ?N1; try done; lia.
Qed.

Lemma take_step off D1 :
  action_at b.2 p = Some (Take off) → delay false (p + off) (B.*2) = Some (D1, q) → D = D1 → result.
Proof using All.
  intros A D1E ->. rewrite (loop_round _ _ _ _ _ _ _ _ _ H Fb Bb A).
  destruct (shows_remove _ _ _ _ H) as (t1 & E1 & H1 & E2 & N1). rewrite E1. cbn [mbind option_bind].
  rewrite E2. replace (head ((B ++ e :: T).*1)) with (Some (slot B e)) by (by destruct B).
  cbn [mbind option_bind].
  apply (arrives_app e T L1 [] D1 q (ir2_inst_num_current t1 + length B)); [|lia]. rewrite app_nil_r.
  apply IH; rewrite ?N1; try done; [lia|]. by apply action_fits in A.
Qed.

Lemma insert_ok D1 :
  action_at b.2 p = Some Insert → delay false 0 (B.*2) = Some (D1, q) → D = flush p ++ b.2 :: D1 → result.
Proof using All.
  intros A D1E ->. rewrite (loop_round _ _ _ _ _ _ _ _ _ H Fb Bb A).
  destruct (insert_addi_ok t L1 b _ p H) as (t1 & -> & H1 & N1); [lia|done|]. cbn [mbind option_bind].
  rewrite (action_pending _ _ _ A) by auto.
  apply (next_ok t1 L1 [(ir2_inst_num_current t, addi_rsp p)] b 0 D1 q); rewrite ?N1; try done; lia.
Qed.
End tail.

Lemma flush_ok e b T B fuel t L1 p D1 q :
  (∀ B2, (length B2 <= length B)%nat → Forall (before e) B2 → Forall (λ x, bstrins_ok x.2) B2 →
    continues e T B2 fuel) →
  Forall (before e) (b :: B) → Forall (λ x, bstrins_ok x.2) (b :: B) → (length B < fuel)%nat →
  shows t (L1 ++ b :: B ++ e :: T) → si12_overflow p = false →
  Z.of_nat (ir2_inst_num_current t) + Z.of_nat (S (length B)) <= 2 ^ 15 →
  action_at b.2 p = Some Flush → delay true 0 (B.*2) = Some (D1, q) →
  arrives e T L1 (flush p ++ b.2 :: D1) q (ir2_inst_num_current t + S (length B))
    (push_pop_loop blank moved (S fuel) t b.1 (Z.of_nat e.1) p).
Proof using Type.
  intros IH F FB Hf H O N A D1E. inversion F as [|? ? Fb F']; subst. inversion FB as [|? ? Bb FB']; subst.
  rewrite (loop_round _ _ _ _ _ _ _ _ _ H Fb Bb A).
  destruct (insert_addi_ok t L1 b _ p H) as (t1 & -> & H1 & N1); [lia|done|]. cbn [mbind option_bind].
  set (x := (ir2_inst_num_current t, addi_rsp p)) in *.
  replace (L1 ++ x :: b :: B ++ e :: T) with ((L1 ++ [x; b]) ++ B ++ e :: T) in H1 by (by rewrite <- !app_assoc).
  destruct fuel as [|fuel]; [lia|].
  destruct (find_ok e T t1 B (L1 ++ [x; b]) fuel H1 F') as (B1 & B2 & -> & Ef & Ed); [lia|].
  assert (H1' : shows t1 ((L1 ++ [x]) ++ (b :: B1 ++ B2) ++ e :: T)) by (rewrite <- app_assoc in H1 |- *; exact H1).
  destruct (shows_slot _ _ _ _ _ H1') as (i & Di & Ii & P). unfold slot in Di, Ii. cbn in Di, Ii, P.
  assert (X : la_ir2_opcode_is_x86_inst (ir2_opcode i) = false).
  { apply stops_marker. unfold ir2_opcode. replace (_opcode i) with b.2.1 by (by rewrite <- P).
    by eapply action_flush. }
  cbn [ir2_find_next_x86_inst]. rewrite Di. cbn [mbind option_bind]. unfold ir2_get_id.
  rewrite X, Ii, (proj2 (Z.ltb_lt _ _)) by (unfold before in Fb; lia). cbn [negb andb].
  rewrite (slot_next t1 (L1 ++ [x]) b (B1 ++ B2) e T) by done. cbn [mbind option_bind]. rewrite Ef.
  cbn [mbind option_bind]. rewrite Ed in D1E.
  destruct (delay false 0 (B2.*2)) as [[D2 q2]|] eqn:E2; [|done]. injection D1E as <- <-.
  rewrite (action_pending _ _ _ A) by auto.
  replace ([addi_rsp p] ++ b.2 :: B1.*2 ++ D2) with (([x; b] ++ B1).*2 ++ D2) by (by rewrite fmap_app).
  apply Forall_app in F' as [_ F2]. apply Forall_app in FB' as [_ FB2].
  rewrite length_app in *. apply (arrives_app e T L1 _ _ _ (ir2_inst_num_current t1 + length B2)); [|lia].
  apply (IH B2); try done; [lia| |lia]. by rewrite <- !app_assoc in *.
Qed.

Lemma loop_ok e T n : ∀ B fuel,
  (length B <= n)%nat → (length B < fuel)%nat → Forall (before e) B → Forall (λ x, bstrins_ok x.2) B →
  continues e T B fuel.
Proof using Type.
  induction n as [|n IH]; intros B fuel Hn Hf F FB t L1 p D q H N O HD.
  all: destruct fuel as [|fuel]; [lia|].
  all: destruct B as [|b B]; [|simpl in Hn, Hf, N; try lia].
  1, 2: injection HD as <- <-; destruct (shows_slot _ _ _ _ _ H) as (i & Di & Ii & _);
    exists t, []; unfold slot in *; simpl in *; rewrite Di; unfold ir2_get_id; simpl; rewrite Ii;
    rewrite Z.ltb_irrefl; split_and!; (done || lia).
  pose proof F as F0. pose proof FB as FB0.
  inversion F as [|? ? Fb F']; subst. inversion FB as [|? ? Bb FB']; subst.
  assert (IH' : continues e T B fuel) by (apply IH; (done || lia)).
  rewrite fmap_cons in HD. cbn [delay andb] in HD. unfold slot. cbn [head default]. simpl in H |- *.
  destruct (action_at b.2 p) as [a|] eqn:A; [|done]. cbn [mbind option_bind] in HD.
  destruct a as [|off| | | |].
  - destruct (delay true 0 _) as [[D1 q1]|] eqn:E1; [|done]. injection HD as <- <-. rewrite <- app_assoc.
    apply flush_ok; try done; [|lia]. intros B2 ?? ?. apply IH; (done || lia).
  - by eapply take_step.
  - destruct (delay false p _) as [[D1 q1]|] eqn:E1; [|done]. injection HD as <- <-. by eapply patch_ok.
  - destruct (delay false 0 _) as [[D1 q1]|] eqn:E1; [|done]. injection HD as <- <-. rewrite <- app_assoc.
    by eapply insert_ok.
  - destruct (delay false 0 _) as [[D1 q1]|] eqn:E1; [|done]. injection HD as <- <-.
    eapply (keep_ok e b T B fuel); try done. by right.
  - destruct (delay false p _) as [[D1 q1]|] eqn:E1; [|done]. injection HD as <- <-.
    eapply (keep_ok e b T B fuel); try done. by left.
Qed.

Definition marker (x : nat * code_inst) : bool := la_ir2_opcode_is_x86_inst x.2.1.

Lemma marker_deref t L x :
  shows t L → x ∈ L → ∃ i, deref t x.1 = Some i ∧ la_ir2_opcode_is_x86_inst (ir2_opcode i) = marker x ∧
    ir2_get_id i = Z.of_nat x.1.
Proof using Type.
  intros H Hx. destruct (shows_deref _ _ _ H Hx) as (i & D & P & I). exists i. unfold marker. by rewrite <- P.
Qed.

Lemma find_end_ok e t L0 T1 : ∀ L2 fuel y,
  shows t (L0 ++ e :: T1 ++ y :: L2) → marker e = true → Forall (λ z, marker z = false) T1 →
  (length T1 <= fuel)%nat → find_end fuel t y.1 = Some (Some e.1).
Proof using Type.
  induction T1 as [|z T1 IH] using rev_ind; intros L2 fuel y H He F Hf.
  - destruct (marker_deref t _ e H) as (i & D & M & _); [set_solver|].
    change (L0 ++ e :: [] ++ y :: L2) with (L0 ++ [e] ++ y :: L2) in H. rewrite app_assoc in H.
    destruct (shows_links _ _ _ _ H) as [Hp _].
    destruct fuel; simpl; rewrite Hp, fmap_app, last_app; simpl; rewrite D; simpl; by rewrite M, He.
  - apply Forall_app in F as [F Fz]. inversion Fz as [|? ? Hz _]; subst.
    rewrite length_app in Hf. simpl in Hf. destruct fuel as [|fuel]; [lia|].
    rewrite <- app_assoc in H. destruct (marker_deref t _ z H) as (i & D & M & _); [set_solver|].
    cbn [find_end]. assert (Hp : ir2_prev t y.1 = Some (Some z.1)).
    { change (L0 ++ e :: T1 ++ [z] ++ y :: L2) with (L0 ++ (e :: T1) ++ [z] ++ y :: L2) in H.
      rewrite 2!app_assoc in H. destruct (shows_links _ _ _ _ H) as [Hp _].
      by rewrite Hp, fmap_app, last_app. }
    rewrite Hp. cbn [mbind option_bind]. rewrite D. cbn [mbind option_bind]. rewrite M, Hz.
    apply (IH (y :: L2) fuel z); [done..|lia].
Qed.

Lemma find_end_none t T1 : ∀ L2 fuel y,
  shows t (T1 ++ y :: L2) → Forall (λ z, marker z = false) T1 → (length T1 <= fuel)%nat →
  find_end fuel t y.1 = Some None.
Proof using Type.
  induction T1 as [|z T1 IH] using rev_ind; intros L2 fuel y H F Hf.
  - destruct (shows_links t [] y L2 H) as [Hp _]. by destruct fuel; simpl; rewrite Hp.
  - apply Forall_app in F as [F Fz]. inversion Fz as [|? ? Hz _]; subst.
    rewrite length_app in Hf. simpl in Hf. destruct fuel as [|fuel]; [lia|].
    destruct (marker_deref t _ z H) as (i & D & M & _); [set_solver|].
    destruct (shows_links t _ _ _ H) as [Hp _]. rewrite fmap_app, last_app in Hp. cbn [find_end]. rewrite Hp.
    simpl fmap. cbn [last mbind option_bind]. rewrite D. cbn [mbind option_bind]. rewrite M, Hz.
    rewrite <- app_assoc in H. apply (IH (y :: L2) fuel z); [done..|lia].
Qed.

Lemma push_pop_same t T1 y :
  shows t (T1 ++ [y]) → Forall (λ z, marker z = false) T1 → ir2_opt_push_pop blank moved false t = Some t.
Proof using Type.
  intros H F. pose proof (shows_length t _ H) as HL. rewrite length_app in HL. simpl in HL.
  unfold ir2_opt_push_pop. destruct (shows_ends _ _ H) as [_ E]. rewrite fmap_app, last_app in E. simpl in E.
  rewrite E, (find_end_none t T1 [] _ y H F) by lia. done.
Qed.

(** The code after the pass: [F], the instructions before the marker of the last x86
    instruction, is changed except for its first one. *)
Definition delayed (F : list code_inst) : option (list code_inst) :=
  match F with
  | [] => Some []
  | c :: B => '(D, q) ← delay false 0 B; Some (c :: D ++ flush q)
  end.

(** The pass on the array is [delayed] on the code before the last x86 instruction [e]. *)
Lemma push_pop_refines t F e T1 y F' :
  shows t (F ++ e :: T1 ++ [y]) → marker e = true → Forall (λ z, marker z = false) T1 →
  Forall (before e) F → Forall (λ z, (e.1 < z.1)%nat) (T1 ++ [y]) → Forall (λ x, bstrins_ok x.2) F →
  Z.of_nat (ir2_inst_num_current t) + Z.of_nat (length F) <= 2 ^ 15 → delayed (F.*2) = Some F' →
  ∃ t' L', ir2_opt_push_pop blank moved false t = Some t' ∧ shows t' (L' ++ e :: T1 ++ [y]) ∧ L'.*2 = F' ∧
    (ir2_inst_num_current t' <= ir2_inst_num_current t + length F)%nat.
Proof using Type.
  intros H He FT FF FT' FB N HF. pose proof (shows_length t _ H) as HL. rewrite !length_app in HL.
  simpl in HL. rewrite length_app in HL. simpl in HL.
  destruct (shows_ends _ _ H) as [E1 E2]. unfold ir2_opt_push_pop.
  assert (Ey : last_ir2 t = Some y.1).
  { rewrite E2. change (F ++ e :: T1 ++ [y]) with (F ++ (e :: T1) ++ [y]).
    by rewrite app_assoc, fmap_app, last_app. }
  rewrite Ey, (find_end_ok e t F T1 [] _ y H He FT) by lia. cbn [mbind option_bind].
  destruct (marker_deref t _ e H) as (i & D & _ & Ei); [set_solver|]. unfold id_of. rewrite D. simpl fmap.
  rewrite Ei. destruct F as [|c B]; cbn [mbind option_bind].
  - injection HF as <-. rewrite E1. destruct (shows_links t [] e _ H) as [_ En]. simpl. rewrite En.
    assert (∃ z L, T1 ++ [y] = z :: L) as (z & L & Ez) by (destruct T1; simpl; eauto). rewrite Ez in *. simpl.
    destruct (marker_deref t _ z H) as (iz & Dz & _ & Iz); [set_solver|]. rewrite Dz. simpl. rewrite Iz.
    inversion FT'; subst. rewrite (proj2 (Z.ltb_ge _ _)) by lia. exists t, []. by split_and!; try lia.
  - rewrite fmap_cons in HF. cbn [delayed] in HF. destruct (delay false 0 (B.*2)) as [[D1 q]|] eqn:ED; [|done]. injection HF as <-.
    simpl in E1, H, N. rewrite E1. cbn [mbind option_bind].
    rewrite (slot_next t [] c B e (T1 ++ [y]) H). cbn [mbind option_bind].
    inversion FF; subst. inversion FB; subst.
    destruct (loop_ok e (T1 ++ [y]) (length B) B (S (ir2_inst_num_current t))) with (t := t) (L1 := [c]) (p := 0) (D := D1) (q := q)
      as (t' & L' & -> & H' & <- & N' & O'); try done; [simpl in HL; lia|lia|]. cbn [mbind option_bind].
    unfold flush. destruct (Z.eqb_spec q 0) as [->|Hq]; cbn [negb].
    + exists t', (c :: L'). rewrite app_nil_r. split_and!; [done..|simpl; lia].
    + change ([c] ++ L' ++ e :: T1 ++ [y]) with ((c :: L') ++ e :: T1 ++ [y]) in H'.
      destruct (insert_addi_ok t' _ _ _ q H') as (t2 & -> & S2 & N2); [lia|done|].
      exists t2, ((c :: L') ++ [(ir2_inst_num_current t', addi_rsp q)]). rewrite <- app_assoc.
      split_and!; [done|exact S2| |simpl; lia]. rewrite fmap_app. reflexivity.
Qed.
End refinement.
