(* ===== verification/PushPopSem.v ===== *)
(** * Code computes the same after the delayed updates of the stack pointer

    For straight-line code of the instructions of file LaSem: while an offset [p] is
    pending, the host register of RSP of the changed code lacks [p] and all the rest is
    equal.  The pass looks at operand types only: it takes an ADDI.W of RSP to itself for an
    ADDI.D, and does not see that LU32I.D reads its destination.  The code the translator
    emits is such that neither matters ([code_ok] of file LaSem): ADDI.W only loads
    constants, and LU32I.D comes right after an instruction that has written its register. *)

From stdpp Require Import base numbers list option strings sets tactics.
From Stdlib Require Import ZArith Lia Bool.
From S2P Require Import Prelude Ir1 X86 WordEq LisaTable Ir2 Ir2List Ir2Code LaAssemble LaAppend RegMap.
From S2P Require Import ImmCache RegAlloc LaSem PushPop PushPopOk.
Local Open Scope Z_scope.
Local Open Scope c_scope.

(** ** Running IR2 instructions *)

Definition exec_code (c : code_inst) (h : host) : option host :=
  r ← lisa_format_table c.1; exec (t_name r, c.2) h.

Fixpoint run_code (l : list code_inst) (h : host) : option host :=
  match l with [] => Some h | c :: l => h ← exec_code c h; run_code l h end.

Lemma run_code_app l1 l2 h : run_code (l1 ++ l2) h = h ← run_code l1 h; run_code l2 h.
Proof. revert h. induction l1 as [|c l1 IH]; intros h; [done|]. simpl. destruct (exec_code c h); [apply IH|done]. Qed.

(** ** Registers read and written *)

Definition reads (s : sem) (os : list IR2_OPND) : list IR2_OPND :=
  match s, os with
  | S3R _, [_; j; k] => [j; k]
  | S2R _, [_; j] => [j]
  | S2RI _ _, [_; j; _] => [j]
  | S3RI _ _, [_; j; k; _] => [j; k]
  | S1RI _ _, [d; _] => [d]
  | SPick _ _, [_; j; _; _] => [j]
  | SIns _, [d; j; _; _] => [d; j]
  | SLoad _ _, [_; j; _] => [j]
  | SStore _, [d; j; _] => [d; j]
  | SFlags2 _, [j; k] => [j; k]
  | SFlags1 _, [j] => [j]
  | _, _ => []
  end.

Definition writes (s : sem) (os : list IR2_OPND) : option IR2_OPND :=
  match s with
  | SStore _ | SFlags2 _ | SFlags1 _ | SNop => None
  | _ => head os
  end.

(** [h] of the code, [h'] of the changed code, where [p] is to be added to RSP. *)
Definition lags (p : Z) (h h' : host) : Prop :=
  (∀ r, r ≠ rsp → rget h r = rget h' r) ∧ rget h rsp = u64 (rget h' rsp + p) ∧ hsys h = hsys h'.

Lemma rget_rset h r v x : rget (rset h r v) x = if (x =? r) && negb (r =? 0) then u64 v else rget h x.
Proof.
  unfold rget, rset. destruct (Z.eqb_spec r 0) as [->|]; simpl; [by rewrite andb_false_r|].
  rewrite andb_true_r. destruct (Z.eqb_spec x 0) as [->|].
  - destruct (Z.eqb_spec 0 r); [lia|done].
  - destruct (Z.eqb_spec x r); [|done]. by apply Z.mod_mod.
Qed.

Lemma rset_eqw h r a b : a ≡[64] b → rset h r a = rset h r b.
Proof. intros H. unfold rset, eqw in *. unfold u64. by rewrite H. Qed.

Lemma hsys_rset h r v : hsys (rset h r v) = hsys h.
Proof. unfold rset. by destruct (r =? 0). Qed.

Lemma lags_refl h : lags 0 h h.
Proof. split_and!; [done| |done]. by rewrite Z.add_0_r, rget_u64. Qed.

Lemma lags_rset p h h' r v :
  lags p h h' → lags (if r =? rsp then 0 else p) (rset h r v) (rset h' r v).
Proof.
  intros (A & B & C). split_and!.
  - intros x Hx. rewrite !rget_rset. case_match; [done|]. by apply A.
  - rewrite !rget_rset. destruct (Z.eqb_spec r rsp) as [->|N].
    + rewrite Z.eqb_refl, Z.add_0_r. symmetry. by apply Z.mod_mod.
    + rewrite (proj2 (Z.eqb_neq rsp r)) by congruence. done.
  - by rewrite !hsys_rset.
Qed.

Lemma lags_read p h h' r : lags p h h' → p = 0 ∨ r ≠ rsp → rget h r = rget h' r.
Proof.
  intros (A & B & _) H. destruct (decide (r = rsp)) as [->|]; [|by apply A].
  destruct H as [->|]; [|done]. by rewrite B, Z.add_0_r, rget_u64.
Qed.

Lemma lags_take p off h h' : lags p h h' → lags (p + off) (rset h rsp (rget h rsp + off)) h'.
Proof.
  intros (A & B & C). split_and!; [|rewrite rget_rset, Z.eqb_refl, B|by rewrite hsys_rset].
  - intros x Hx. rewrite rget_rset, (proj2 (Z.eqb_neq x rsp)) by done. by apply A.
  - simpl. change (u64 (rget h' rsp + p) + off ≡[64] rget h' rsp + (p + off)).
    rewrite (eqw_u64 64) by lia. by rewrite Z.add_assoc.
Qed.

Lemma lags_shift p off h h' :
  lags p h h' → lags p (rset h rsp (rget h rsp + off)) (rset h' rsp (rget h' rsp + off)).
Proof.
  intros (A & B & C). split_and!; [|rewrite !rget_rset, Z.eqb_refl, B|by rewrite !hsys_rset].
  - intros x Hx. rewrite !rget_rset, (proj2 (Z.eqb_neq x rsp)) by done. by apply A.
  - simpl. change (u64 (rget h' rsp + p) + off ≡[64] u64 (rget h' rsp + off) + p).
    rewrite !(eqw_u64 64) by lia. by replace (rget h' rsp + p + off) with (rget h' rsp + off + p) by lia.
Qed.

Lemma lags_sys p h h' y : lags p h h' → lags p (mkH (hreg h) y) (mkH (hreg h') y).
Proof. intros (A & B & _). by split_and!. Qed.

(** An instruction that does not read RSP, or with nothing pending. *)
Lemma exec_lags s os p h h' h1 :
  lags p h h' → p = 0 ∨ Forall (λ o, reg_of o ≠ rsp) (reads s os) → exec_sem s os h = Some h1 →
  ∃ h1', exec_sem s os h' = Some h1' ∧
    lags (if match writes s os with Some d => reg_of d =? rsp | None => false end then 0 else p) h1 h1'.
Proof.
  intros L HR E. pose proof L as (_ & _ & HS).
  assert (RD : ∀ o, o ∈ reads s os → rget h (reg_of o) = rget h' (reg_of o)).
  { intros o Ho. apply (lags_read p); [done|]. destruct HR as [|HR]; [by left|right].
    rewrite list.Forall_forall in HR. by apply HR. }
  clear HR. unfold exec_sem in *.
  destruct s, os as [|o0 [|o1 [|o2 [|o3 [|]]]]]; try done; injection E as <-; simpl in RD;
    rewrite ?RD by set_solver; unfold hmem, hflags in *; rewrite ?HS; (eexists; split; [reflexivity|]); simpl writes;
    first [by apply lags_rset | unfold set_mem, set_flags, hmem, hflags; rewrite ?HS; by apply lags_sys | done].
Qed.

(** ** The groups of opcodes *)

(** How the pass treats an opcode fits the registers the instruction reads. *)
Definition class_ok (k : Z) (s : sem) : bool :=
  let all := existsb (Z.eqb k) (lbt_src_ops ++ store_src_ops) in
  let ins := la_ir2_opcode_is_bstrins k in
  negb (stops k) &&
  match s with
  | SStore _ | SFlags2 _ | SFlags1 _ | SCond => all && negb ins
  | SIns _ => negb all && ins
  | _ => negb all && negb ins
  end &&
  (if la_ir2_can_patch_imm12 k then
     match s with SLoad _ _ | SStore _ => negb (la_ir2_opcode_is_addi k) | S2RI _ _ => la_ir2_opcode_is_addi k | _ => false end
   else true) &&
  match s with S1RI _ _ => (k =? lisa "lu12i.w") || (k =? lisa "lu32i.d") | _ => true end.

Definition class_at (k : Z) : bool :=
  match lisa_format_table k with
  | Some r => match sem_of (t_name r) with Some s => class_ok k s | None => true end
  | None => true
  end.

Lemma classes_ok : forallb (λ n, class_at (LISA_INVALID + Z.of_nat n)) (seq 0 (length lisa_templates)) = true.
Proof. vm_compute. reflexivity. Qed.

Lemma class_of k r s : lisa_format_table k = Some r → sem_of (t_name r) = Some s → class_ok k s = true.
Proof.
  intros R S. pose proof (aget_bound _ _ _ R) as B. pose proof classes_ok as C.
  rewrite forallb_forall in C. specialize (C (Z.to_nat (k - LISA_INVALID))).
  rewrite Z2Nat.id, Zplus_minus in C by lia. unfold class_at in C. rewrite R, S in C. apply C, in_seq. lia.
Qed.

(** ** Instructions the pass is right about *)

(** The instruction with the name of its opcode; well-formed code is that of file LaSem. *)
Definition named (c : code_inst) : linst :=
  (match lisa_format_table c.1 with Some r => t_name r | None => EmptyString end, c.2).
Definition codes_ok (w : Z) (l : list code_inst) : bool := code_ok w (named <$> l).

Lemma shape_length sh os : shape_ok sh os = true → length os = length sh.
Proof.
  revert os. induction sh as [|b sh IH]; intros [|o os]; simpl; try done. rewrite andb_true_iff. intros [_ H].
  by rewrite (IH os).
Qed.

(** One instruction of well-formed code. *)
Record straight (w : Z) (c : code_inst) (r : template) (s : sem) : Prop := {
  st_row : lisa_format_table c.1 = Some r;
  st_sem : sem_of (t_name r) = Some s;
  st_shape : shape_ok (shape s) c.2 = true;
  st_imm : imm12_ok (t_name r) s c.2 = true;
  st_lu32i : t_name r = "lu32i.d"%string → match c.2 with d :: _ => _val d = w | [] => False end }.

Lemma codes_ok_cons w c l :
  codes_ok w (c :: l) = true →
  ∃ r s, straight w c r s ∧ codes_ok (fresh_dest (t_name r) s c.2) l = true.
Proof.
  unfold codes_ok. rewrite fmap_cons. unfold named at 1. cbn [code_ok].
  destruct (lisa_format_table c.1) as [r|] eqn:R; [|done]. destruct (sem_of (t_name r)) as [s|] eqn:S; [|done].
  rewrite !andb_true_iff. intros [[[Sh I] L] C]. exists r, s. split; [|done]. split; try done.
  intros N. rewrite N in L. cbn in L. destruct c.2 as [|d os]; [done|]. by apply Z.eqb_eq.
Qed.

Lemma codes_ok_app w l1 l2 : codes_ok w (l1 ++ l2) = true → codes_ok w l1 = true ∧ ∃ w', codes_ok w' l2 = true.
Proof.
  unfold codes_ok. rewrite fmap_app. revert w. induction (named <$> l1) as [|[n os] k IH]; intros w; [by split; [|exists w]|]. simpl.
  destruct (sem_of n) as [s|]; [|done]. rewrite !andb_true_iff. intros [? H]. destruct (IH _ H). tauto.
Qed.

Definition one_ok (c : code_inst) : Prop := ∃ w r s, straight w c r s.

Lemma codes_ok_each w l : codes_ok w l = true → Forall one_ok l.
Proof.
  revert w. induction l as [|c l IH]; intros w H; [constructor|]. apply codes_ok_cons in H as (r & s & W & H).
  constructor; [by exists w, r, s|by eapply IH].
Qed.

Lemma reg_ok_val o : reg_ok o = true → reg_of o = _val o.
Proof.
  unfold reg_ok, reg_of, ufield. rewrite !andb_true_iff, Z.leb_le, Z.ltb_lt. intros [[_ A] B].
  apply uwrap_id. unfold in_u. lia.
Qed.

Lemma reg_ok_rsp o : reg_ok o = true → opnd_is_rsp o = (reg_of o =? rsp).
Proof.
  unfold reg_ok, opnd_is_rsp, _reg_num, reg_of, ufield. rewrite !andb_true_iff, Z.leb_le, Z.ltb_lt.
  intros [[-> A] B]. simpl. rewrite uwrap_id by (unfold in_u; lia). 
  unfold s32. by rewrite swrap_id by (unfold in_s; lia).
Qed.

Lemma not_reg_rsp o : ir2_opnd_is_imm o = true → opnd_is_rsp o = false.
Proof. destruct o as [ty v]. by destruct ty. Qed.

(** The additions of constants. *)
Lemma addi_d_row : lisa_format_table LISA_ADDI_D = Some (row "addi.d" 0x2c00000 [GPR_RD; GPR_RJ; IMM_SI12]).
Proof. vm_compute. reflexivity. Qed.
Lemma addi_w_row : lisa_format_table LISA_ADDI_W = Some (row "addi.w" 0x2800000 [GPR_RD; GPR_RJ; IMM_SI12]).
Proof. vm_compute. reflexivity. Qed.
Lemma addi_d_sem : sem_of "addi.d" = Some (S2RI (sfield 12) Z.add).
Proof. reflexivity. Qed.
Lemma addi_w_sem : sem_of "addi.w" = Some (S2RI (sfield 12) (λ j i, s32 (j + i))).
Proof. reflexivity. Qed.

Lemma imm_field o : si12_overflow (ir2_opnd_imm o) = false → sfield 12 o = ir2_opnd_imm o.
Proof.
  intros H%si12_fits. rewrite <- (swrap_id 12 (ir2_opnd_imm o)) by (done || lia).
  apply swrap_eqw; [lia|]. symmetry. unfold ir2_opnd_imm, s32. apply eqw_swrap; lia.
Qed.

Lemma add_imm_imm o p : si12_overflow (ir2_opnd_imm o + p) = false → ir2_opnd_imm (add_imm p o) = ir2_opnd_imm o + p.
Proof.
  intros H%si12_fits. unfold in_s in H. unfold ir2_opnd_imm at 1, add_imm, s32. simpl _val.
  rewrite (swrap_eqw 32 _ (ir2_opnd_imm o + p)); [|lia|apply eqw_uwrap; lia].
  apply swrap_id; [lia|]. unfold in_s. lia.
Qed.

Lemma addi_rsp_run p h : si12_overflow p = false → exec_code (addi_rsp p) h = Some (rset h rsp (rget h rsp + p)).
Proof.
  intros H. unfold exec_code, addi_rsp. cbn [fst snd]. rewrite addi_d_row. cbn [mbind option_bind].
  unfold exec. cbn [fst snd t_name]. rewrite addi_d_sem. cbn [mbind option_bind exec_sem].
  assert (E : ir2_opnd_imm (mkOpnd2 IR2_OPND_IMM (u32 p)) = p) by (apply (add_imm_imm (mkOpnd2 IR2_OPND_IMM 0)); done).
  rewrite imm_field, E by (by rewrite E). done.
Qed.

Lemma flush_lags p h h' :
  si12_overflow p = false → lags p h h' → ∃ h1', run_code (flush p) h' = Some h1' ∧ lags 0 h h1'.
Proof.
  intros O L. unfold flush. destruct (Z.eqb_spec p 0) as [->|]; [by exists h'|].
  eexists. cbn [run_code]. rewrite addi_rsp_run by done. split; [done|]. destruct L as (A & B & C). split_and!.
  - intros x Hx. rewrite rget_rset, (proj2 (Z.eqb_neq x rsp)) by done. by apply A.
  - rewrite rget_rset, Z.eqb_refl, Z.add_0_r. rewrite B. symmetry. by apply Z.mod_mod.
  - by rewrite hsys_rset.
Qed.

Lemma patched_address p h h' o :
  lags p h h' → si12_overflow (ir2_opnd_imm o) = false → si12_overflow (ir2_opnd_imm o + p) = false →
  rget h rsp + sfield 12 o ≡[64] rget h' rsp + sfield 12 (add_imm p o).
Proof.
  intros (_ & B & _) O O'. rewrite !imm_field, add_imm_imm by (rewrite ?add_imm_imm; done).
  rewrite B, (eqw_u64 64 (rget h' rsp + p)) by lia.
  by replace (rget h' rsp + p + ir2_opnd_imm o) with (rget h' rsp + (ir2_opnd_imm o + p)) by lia.
Qed.

Lemma store_le_addr m a a' v n : u64 a = u64 a' → store_le m a v n = store_le m a' v n.
Proof.
  revert m a a' v. induction n as [|n IH]; intros m a a' v H; simpl; [done|]. rewrite H. apply IH.
  change (a + 1 ≡[64] a' + 1). by rewrite (H : a ≡[64] a').
Qed.

(** When which action is chosen for an instruction that is no branch. *)
Inductive chosen (c : code_inst) (p : Z) : action → Prop :=
  | Ch_take off : la_ir2_opcode_is_addi c.1 = true → ir2_get_addi_rsp_offs c.2 = Some off → off ≠ 0 →
      chosen c p (if si12_overflow (p + off) then Keep else Take off)
  | Ch_none : p = 0 → chosen c p Keep
  | Ch_insert : chosen c p Insert
  | Ch_patch o2 : la_ir2_can_patch_imm12 c.1 = true → ir2_opndn_is_rsp c.2 1 = Some true → c.2 !! 2%nat = Some o2 →
      si12_overflow (ir2_opnd_imm o2 + p) = false → ir2_opndn_is_rsp c.2 0 = Some false → chosen c p Patch
  | Ch_unread (dest : bool) : ir2_src_contain_rsp c.1 c.2 (length c.2) = false →
      ir2_opndn_is_rsp c.2 0 = Some dest → chosen c p (if dest then Drop else Keep).

Lemma action_chosen c p a : action_at c p = Some a → stops c.1 = false → chosen c p a.
Proof.
  unfold action_at, action_of. intros H ST. rewrite ST in H. cbn [andb] in H.
  destruct (if la_ir2_opcode_is_addi c.1 then ir2_get_addi_rsp_offs c.2 else Some 0) as [off|] eqn:EO; [|done].
  cbn [mbind option_bind] in H. destruct (Z.eqb_spec off 0) as [->|N]; cbn [negb] in H.
  2:{ injection H as <-. destruct (la_ir2_opcode_is_addi c.1) eqn:A; [by apply Ch_take|congruence]. }
  destruct (Z.eqb_spec p 0) as [->|Np]; cbn [negb] in H; [injection H as <-; by apply Ch_none|].
  destruct (ir2_src_contain_rsp _ _ _) eqn:SC.
  2:{ destruct (ir2_opndn_is_rsp c.2 0) as [dest|] eqn:D; [|done]. injection H as <-. by apply Ch_unread. }
  destruct (la_ir2_can_patch_imm12 c.1) eqn:P; [|injection H as <-; apply Ch_insert].
  destruct (ir2_opndn_is_rsp c.2 1) as [base|] eqn:B; [|done]. cbn [mbind option_bind] in H.
  destruct (c.2 !! 2%nat) as [o2|] eqn:O2; [|done]. cbn [mbind option_bind] in H.
  destruct (ir2_opndn_is_rsp c.2 0) as [dest|] eqn:D; [|done]. cbn [mbind option_bind] in H. injection H as <-.
  destruct base, (si12_overflow (ir2_opnd_imm o2 + p)) eqn:OV, dest; try apply Ch_insert. by eapply Ch_patch.
Qed.

Lemma exec_sem_some s os h h' : is_Some (exec_sem s os h) → is_Some (exec_sem s os h').
Proof. unfold exec_sem. intros H. repeat case_match; try done; destruct H; done. Qed.

Section step.
Context (w : Z) (c : code_inst) (r : template) (s : sem).
Context (R : lisa_format_table c.1 = Some r) (S : sem_of (t_name r) = Some s).
Context (straight_shape : shape_ok (shape s) c.2 = true) (IM : imm12_ok (t_name r) s c.2 = true).
Context (LI : t_name r = "lu32i.d"%string → match c.2 with d :: _ => _val d = w | [] => False end).

Lemma addi_sem :
  la_ir2_opcode_is_addi c.1 = true →
  t_name r = "addi.d"%string ∧ s = S2RI (sfield 12) Z.add ∨
  t_name r = "addi.w"%string ∧ s = S2RI (sfield 12) (λ j i, s32 (j + i)).
Proof using All.
  unfold la_ir2_opcode_is_addi. rewrite orb_true_iff, !Z.eqb_eq. 
  intros [E|E]; rewrite E in R; rewrite ?addi_d_row, ?addi_w_row in R; injection R as E'; rewrite <- E' in S |- *;
    cbn [t_name] in S |- *; rewrite ?addi_d_sem, ?addi_w_sem in S; injection S as <-; auto.
Qed.

Lemma straight_imm : la_ir2_can_patch_imm12 c.1 = true →
  ∃ i, c.2 !! 2%nat = Some i ∧ si12_overflow (ir2_opnd_imm i) = false.
Proof using All.
  intros P. pose proof (class_of _ _ _ R S) as C. unfold class_ok in C. rewrite P, !andb_true_iff in C.
  destruct C as [[_ C] _]. pose proof addi_sem as AD. pose proof IM as I. pose proof (shape_length _ _ straight_shape) as SH.
  destruct s as [| | | | | | |n e|n| | | |]; try done;
    destruct c.2 as [|o0 [|o1 [|i [|]]]]; try done; exists i; (split; [done|]); cbn [imm12_ok] in I.
  - destruct (AD C) as [[N _]|[N _]]; rewrite N in I; simpl in I; rewrite ?andb_true_iff, negb_true_iff in I; tauto.
  - by apply negb_true_iff.
  - by apply negb_true_iff.
Qed.

Lemma exec_code_sem h : exec_code c h = exec_sem s c.2 h.
Proof using R S. unfold exec_code. rewrite R. simpl. unfold exec. simpl. by rewrite S. Qed.

(** The pass sees every register that is read ... *)
Lemma sees_reads :
  ir2_src_contain_rsp c.1 c.2 (length c.2) = false →
  Forall (λ o, reg_of o ≠ rsp) (reads s c.2) ∨ (∃ f g, s = S1RI f g).
Proof using All.
  intros H. pose proof straight_shape as SH. pose proof (class_of _ _ _ R S) as C.
  unfold class_ok in C. rewrite !andb_true_iff in C. destruct C as [[[_ C] _] _].
  unfold ir2_src_contain_rsp in H. rewrite firstn_all in H.
  set (all := existsb (Z.eqb c.1) (lbt_src_ops ++ store_src_ops)) in *.
  set (ins := la_ir2_opcode_is_bstrins c.1) in *. clearbody all ins.
  destruct s, c.2 as [|o0 [|o1 [|o2 [|o3 [|]]]]]; try done; try (by right; eauto); left;
    destruct all, ins; try done; simpl in SH, H; rewrite ?andb_true_r, ?andb_true_iff in SH;
    rewrite ?orb_false_r, ?orb_false_iff in H; rewrite !reg_ok_rsp in H by tauto;
    repeat constructor; apply Z.eqb_neq; tauto.
Qed.

Definition dest_rsp : bool := match writes s c.2 with Some d => reg_of d =? rsp | None => false end.

(** ... and whether it is written. *)
Lemma sees_writes :
  ir2_src_contain_rsp c.1 c.2 (length c.2) = false → ir2_opndn_is_rsp c.2 0 = Some dest_rsp.
Proof using All.
  intros H. pose proof straight_shape as SH. pose proof (class_of _ _ _ R S) as C.
  unfold class_ok in C. rewrite !andb_true_iff in C. destruct C as [[[_ C] _] _].
  unfold ir2_src_contain_rsp in H. rewrite firstn_all in H. unfold dest_rsp, ir2_opndn_is_rsp.
  set (all := existsb (Z.eqb c.1) (lbt_src_ops ++ store_src_ops)) in *.
  set (ins := la_ir2_opcode_is_bstrins c.1) in *. clearbody all ins.
  destruct s, c.2 as [|o0 [|o1 [|o2 [|o3 [|]]]]]; try done; destruct all, ins; try done; simpl in SH, H |- *;
    rewrite ?andb_true_r, ?andb_true_iff in SH; rewrite ?orb_false_r, ?orb_false_iff in H; f_equal;
    first [tauto | apply reg_ok_rsp; tauto | apply not_reg_rsp; tauto].
Qed.

Lemma high_row :
  (c.1 = lisa "lu12i.w" → s = S1RI (sfield 20) (λ _ i, i * 2 ^ 12)) ∧ (c.1 = lisa "lu32i.d" → t_name r = "lu32i.d"%string).
Proof using All.
  assert (H : ∀ n m i, lisa_format_table (lisa n) = Some (row n m i) → c.1 = lisa n → t_name r = n).
  { intros n m i H E. rewrite E, H in R. injection R as E'. by rewrite <- E'. }
  split; intros E.
  - apply (H _ 0x14000000 [GPR_RD; IMM_SI20]) in E; [|vm_compute; reflexivity]. rewrite E in S. by injection S as <-.
  - by apply (H _ 0x16000000 [GPR_RD; IMM_SI20]) in E; [|vm_compute; reflexivity].
Qed.

Lemma unread_ok p h h' h1 :
  (w = rsp → p = 0) → ir2_src_contain_rsp c.1 c.2 (length c.2) = false → lags p h h' → exec_code c h = Some h1 →
  ∃ h1', exec_code c h' = Some h1' ∧ lags (if dest_rsp then 0 else p) h1 h1'.
Proof using All.
  intros HW H L. rewrite !exec_code_sem. intros E.
  destruct (sees_reads H) as [F|(f & g & Es)]; [apply (exec_lags s c.2 p h h' h1); tauto|].
  pose proof straight_shape as SH. pose proof LI as LI'. pose proof (class_of _ _ _ R S) as C. pose proof high_row as [LU LH].
  pose proof (exec_lags s c.2 0 h h' h1) as L0.
  unfold dest_rsp. rewrite Es in *. destruct c.2 as [|d [|i [|]]] eqn:Eo; try done. simpl in E, SH, L0 |- *.
  rewrite !andb_true_iff in SH. destruct (Z.eqb_spec (reg_of d) rsp) as [Ed|Ed].
  - unfold class_ok in C. rewrite !andb_true_iff, orb_true_iff, !Z.eqb_eq in C. destruct C as [_ [C|C]].
    + apply LU in C. injection C as -> ->. injection E as <-. eexists. split; [done|].
      replace 0 with (if reg_of d =? rsp then 0 else p) by (by rewrite Ed, Z.eqb_refl). by apply lags_rset.
    + apply LH, LI' in C. rewrite reg_ok_val in Ed by tauto. rewrite HW in L by congruence. apply L0; [done|by left|done].
  - injection E as <-. eexists. split; [done|]. rewrite (lags_read p h h') by (done || by right).
    replace p with (if reg_of d =? rsp then 0 else p) at 1 by (by rewrite (proj2 (Z.eqb_neq _ _))). by apply lags_rset.
Qed.

Lemma patched_ok p h h' h1 o2 :
  la_ir2_can_patch_imm12 c.1 = true → ir2_opndn_is_rsp c.2 1 = Some true → c.2 !! 2%nat = Some o2 →
  si12_overflow (ir2_opnd_imm o2 + p) = false → ir2_opndn_is_rsp c.2 0 = Some false → lags p h h' →
  exec_code c h = Some h1 →
  ∃ h1', exec_code (c.1, alter (add_imm p) 2%nat c.2) h' = Some h1' ∧ lags p h1 h1'.
Proof using All.
  intros P E1 E2 O E0 L. destruct (straight_imm P) as (i & Ei & Oi). assert (i = o2) as -> by congruence.
  pose proof (patched_address p h h' o2 L Oi O) as PA. pose proof straight_shape as SH. pose proof addi_sem as AD.
  pose proof (class_of _ _ _ R S) as C. unfold class_ok in C. rewrite P, !andb_true_iff in C.
  destruct C as [[_ C] _]. rewrite exec_code_sem. unfold exec_code. cbn [fst snd]. rewrite R. cbn [mbind option_bind].
  unfold exec. cbn [fst snd]. rewrite S. cbn [mbind option_bind]. pose proof L as (LA & LB & LC).
  destruct c.2 as [|d [|j [|k [|]]]] eqn:Eo; try done; [|by destruct s]. injection E2 as ->. cbn [alter list_alter].
  unfold ir2_opndn_is_rsp in E0, E1. simpl in E0, E1. injection E0 as E0. injection E1 as E1.
  assert (SH' : reg_ok d = true ∧ reg_ok j = true) by (destruct s; try done; simpl in SH; rewrite !andb_true_iff in SH; tauto).
  rewrite !reg_ok_rsp in * by tauto. apply Z.eqb_neq in E0. apply Z.eqb_eq in E1.
  assert (LR : ∀ v, lags p (rset h (reg_of d) v) (rset h' (reg_of d) v)).
  { intros v. replace p with (if reg_of d =? rsp then 0 else p) by (by rewrite (proj2 (Z.eqb_neq _ _))). by apply lags_rset. }
  destruct s; try done; cbn [exec_sem]; intros [= <-]; (eexists; split; [reflexivity|]); rewrite E1.
  - destruct (AD C) as [[_ A]|[_ A]]; injection A as -> ->.
    + rewrite (rset_eqw _ _ _ _ PA). apply LR.
    + cbn beta. unfold s32. rewrite (swrap_eqw 32 _ _ ltac:(lia) (eqw_le 32 64 _ _ ltac:(lia) PA)). apply LR.
  - rewrite (load_le_ext (hmem h) (hmem h') _ _ bytes) by (done || unfold hmem; by rewrite LC). apply LR.
  - unfold hmem. rewrite LC. rewrite (store_le_addr _ _ _ _ _ PA), (LA _ E0).
    unfold set_mem, hflags. rewrite LC. by apply lags_sys.
Qed.

Lemma taken_ok off h h1 :
  la_ir2_opcode_is_addi c.1 = true → ir2_get_addi_rsp_offs c.2 = Some off → off ≠ 0 →
  exec_code c h = Some h1 → t_name r = "addi.d"%string ∧ h1 = rset h rsp (rget h rsp + off).
Proof using All.
  intros A E Hoff. pose proof IM as I. pose proof straight_shape as SH.
  rewrite exec_code_sem. destruct (addi_sem A) as [[N ->]|[N ->]]; rewrite N in I; simpl in SH;
    unfold ir2_get_addi_rsp_offs in E; destruct c.2 as [|d [|j [|k [|]]]]; try done; simpl in *;
    rewrite ?andb_true_iff, negb_true_iff in I; rewrite !andb_true_iff in SH; destruct SH as (Sd & Sj & _);
    apply reg_ok_rsp in Sd as Ed; apply reg_ok_rsp in Sj as Ej; apply reg_ok_val in Sj as Vj; unfold opnd_is_rsp in Ed, Ej;
    unfold reg_ok in Sd, Sj; rewrite !andb_true_iff in Sd, Sj; destruct Sd as [[Td _] _], Sj as [[Tj _] _];
    rewrite Td in Ed; rewrite Tj in Ej; simpl in Ed, Ej; rewrite Ed, Ej in E; injection E as E;
    (destruct (Z.eqb_spec (reg_of d) rsp) as [->|]; [|subst; done]);
    (destruct (Z.eqb_spec (reg_of j) rsp) as [Rj|]; [|subst; done]); simpl in E.
  - rewrite imm_field, Rj, N by done. by intros [= <-]; subst.
  - exfalso. rewrite Z.eqb_eq in I. destruct I as [_ I]. rewrite Vj, I in Rj. done.
Qed.

(** What the changed code does where the code does [c]. *)
Lemma action_ok p a h h' h1 :
  (w = rsp → p = 0) → si12_overflow p = false → action_at c p = Some a → lags p h h' → exec_code c h = Some h1 →
  match a with
  | Flush => False
  | Take off => lags (p + off) h1 h'
  | Patch => ∃ h1', exec_code (c.1, alter (add_imm p) 2%nat c.2) h' = Some h1' ∧ lags p h1 h1'
  | Insert => ∃ h1', run_code (flush p ++ [c]) h' = Some h1' ∧ lags 0 h1 h1'
  | Drop => ∃ h1', exec_code c h' = Some h1' ∧ lags 0 h1 h1'
  | Keep => ∃ h1', exec_code c h' = Some h1' ∧ lags p h1 h1'
  end.
Proof using All.
  intros HW O A L E. apply action_chosen in A.
  2:{ pose proof (class_of _ _ _ R S) as C. unfold class_ok in C. rewrite !andb_true_iff, negb_true_iff in C. tauto. }
  destruct A as [off A EO N| -> | |o2 P E1 E2 O2 E0|dest NC D].
  - destruct (taken_ok off h h1 A EO N E) as [_ ->]. destruct (si12_overflow (p + off)).
    + assert (is_Some (exec_code c h')) as [h1' E'].
      { rewrite exec_code_sem in E |- *. eapply exec_sem_some. by rewrite E. }
      destruct (taken_ok off h' h1' A EO N E') as [_ ->]. eexists. split; [done|]. by apply lags_shift.
    + by apply lags_take.
  - rewrite exec_code_sem in E |- *. destruct (exec_lags s c.2 0 h h' h1) as (h1' & E' & L'); [done|by left|done|].
    exists h1'. split; [done|]. change (lags (if dest_rsp then 0 else 0) h1 h1') in L'. by destruct dest_rsp.
  - destruct (flush_lags p h h' O L) as (h2 & E2 & L2). rewrite run_code_app, E2. cbn [mbind option_bind run_code].
    rewrite exec_code_sem in E |- *. destruct (exec_lags s c.2 0 h h2 h1) as (h1' & E' & L'); [done|by left|done|].
    rewrite E'. exists h1'. split; [done|]. change (lags (if dest_rsp then 0 else 0) h1 h1') in L'. by destruct dest_rsp.
  - by eapply patched_ok.
  - destruct (unread_ok p h h' h1 HW NC L E) as (h1' & E' & L'). rewrite sees_writes in D by done. injection D as <-.
    by destruct dest_rsp; exists h1'.
Qed.

(** Nothing is pending when an instruction has written RSP. *)
Lemma fresh_not_rsp b : ir2_opndn_is_rsp c.2 0 = Some b → fresh_dest (t_name r) s c.2 = rsp → b = true.
Proof using All.
  unfold ir2_opndn_is_rsp, fresh_dest. intros E F. pose proof straight_shape as SH.
  destruct s, c.2 as [|d os]; try done; simpl in E, SH; destruct (String.eqb _ _); try done; injection E as <-;
    rewrite andb_true_iff in SH; destruct SH as [Sd _]; rewrite reg_ok_rsp, reg_ok_val, F by done; done.
Qed.

Lemma fresh_ok p a h h1 :
  action_at c p = Some a → exec_code c h = Some h1 → fresh_dest (t_name r) s c.2 = rsp →
  match a with Take _ => False | Patch | Keep => p = 0 | _ => True end.
Proof using All.
  intros A E F. apply action_chosen in A.
  2:{ pose proof (class_of _ _ _ R S) as C. unfold class_ok in C. rewrite !andb_true_iff, negb_true_iff in C. tauto. }
  destruct A as [off A EO N| -> | |o2 P E1 E2 O2 E0|dest NC D]; [|done..| |].
  - exfalso. destruct (taken_ok off h h1 A EO N E) as [NM _]. unfold fresh_dest in F. rewrite NM in F. by destruct s.
  - by apply fresh_not_rsp in E0.
  - apply fresh_not_rsp in D as ->; done.
Qed.
End step.

(** ** Blocks *)

Lemma straight_length w c r s : straight w c r s → (1 <= length c.2)%nat.
Proof. intros W. rewrite (shape_length _ _ (st_shape _ _ _ _ W)). destruct s; simpl; lia. Qed.

Lemma straight_stops w c r s : straight w c r s → stops c.1 = false.
Proof.
  intros [R S _ _ _]. pose proof (class_of _ _ _ R S) as C. unfold class_ok in C.
  rewrite !andb_true_iff, negb_true_iff in C. tauto.
Qed.

Lemma straight_action w c r s p : straight w c r s → is_Some (action_at c p).
Proof.
  intros W. pose proof (straight_length _ _ _ _ W) as HL. destruct W as [R S SH IM LI].
  pose proof (straight_imm w c r s R S SH IM LI) as HI. unfold action_at, action_of.
  destruct (stops c.1 && _); [done|]. destruct c as [op os]. cbn [fst snd] in *.
  destruct os as [|o0 os]; [simpl in HL; lia|].
  assert (O : is_Some (if la_ir2_opcode_is_addi op then ir2_get_addi_rsp_offs (o0 :: os) else Some 0)).
  { destruct (la_ir2_opcode_is_addi op) eqn:A; [|done].
    destruct HI as (i & Ei & _).
    { unfold la_ir2_opcode_is_addi in A. rewrite orb_true_iff, !Z.eqb_eq in A. by destruct A as [-> | ->]. }
    destruct os as [|o1 [|o2 os]]; done. }
  destruct O as [off ->]. cbn [mbind option_bind]. destruct (negb (off =? 0)); [done|]. destruct (negb (p =? 0)); [|done].
  destruct (ir2_src_contain_rsp _ _ _); [|done]. destruct (la_ir2_can_patch_imm12 op); [|done].
  destruct (HI eq_refl) as (i & Ei & _). destruct os as [|o1 [|o2 os]]; done.
Qed.

Lemma delay_total l : ∀ p w, codes_ok w l = true → is_Some (delay false p l).
Proof.
  induction l as [|c l IH]; intros p w H; [done|]. apply codes_ok_cons in H as (r & s & W & H').
  pose proof (straight_stops _ _ _ _ W) as ST.
  cbn [delay andb]. destruct (straight_action w c r s p W) as [a A]. rewrite A. cbn [mbind option_bind].
  destruct a as [|off| | | |]; [by apply action_flush in A; congruence|by eapply IH|..];
    match goal with |- context [delay false ?q l] => destruct (IH q _ H') as [[D q'] ->] end; done.
Qed.

Lemma delay_sound l : ∀ p w D q h h' h1,
  codes_ok w l = true → (w = rsp → p = 0) → si12_overflow p = false → lags p h h' → delay false p l = Some (D, q) →
  run_code l h = Some h1 →
  ∃ h1', run_code D h' = Some h1' ∧ lags q h1 h1' ∧ si12_overflow q = false.
Proof.
  induction l as [|c l IH]; intros p w D q h h' h1 F HW O L HD HR.
  { injection HD as <- <-. injection HR as <-. by exists h'. }
  apply codes_ok_cons in F as (r & s & [R S SH IM LI] & F').
  cbn [delay andb] in HD. destruct (action_at c p) as [a|] eqn:A; [|done]. cbn [mbind option_bind run_code] in HD, HR.
  destruct (exec_code c h) as [h2|] eqn:E; [|done]. cbn [mbind option_bind] in HR.
  pose proof (action_ok w c r s R S SH IM LI p a h h' h2 HW O A L E) as ST.
  pose proof (fresh_ok w c r s R S SH IM LI p a h h2 A E) as FR.
  destruct a as [|off| | | |]; [done| |..];
    [by eapply IH; [exact F'|intros HF; by destruct (FR HF)|by eapply action_fits|..]|..];
    match type of HD with context [delay false ?x l] => destruct (delay false x l) as [[D1 q1]|] eqn:E1 end; try done;
    injection HD as <- <-; destruct ST as (h2' & E2 & L2);
    match type of L2 with lags ?x _ _ => destruct (IH x _ D1 q1 h2 h2' h1 F') as (h3 & E3 & HL) end; try done;
    exists h3; (split; [|done]); first [rewrite run_code_app, E2 | cbn [run_code app]; rewrite E2]; exact E3.
Qed.

(** The same registers, memory and flags. *)
Abbreviation agrees := (lags 0).

Lemma delayed_total w F : codes_ok w F = true → is_Some (delayed F).
Proof.
  destruct F as [|c B]; [done|]. intros W. apply codes_ok_cons in W as (r & s & _ & WB).
  destruct (delay_total B 0 _ WB) as [[D q] ED]. unfold delayed. by rewrite ED.
Qed.

Lemma delayed_sound w F h h1 :
  codes_ok w F = true → run_code F h = Some h1 →
  ∃ F' h1', delayed F = Some F' ∧ run_code F' h = Some h1' ∧ agrees h1 h1'.
Proof.
  intros W HR. destruct F as [|c B]; [injection HR as <-; exists [], h; by split_and!; [..|apply lags_refl]|].
  apply codes_ok_cons in W as (r & s & _ & WB). simpl in HR. destruct (exec_code c h) as [h2|] eqn:E; [|done].
  destruct (delay_total B 0 _ WB) as [[D q] ED].
  destruct (delay_sound B 0 _ D q h2 h2 h1 WB) as (h3 & E3 & L3 & O3); try done; [apply lags_refl|].
  destruct (flush_lags q h1 h3 O3 L3) as (h4 & E4 & L4). exists (c :: D ++ flush q), h4. unfold delayed. rewrite ED.
  split_and!; [done| |done]. cbn [run_code]. rewrite E. cbn [mbind option_bind]. by rewrite run_code_app, E3.
Qed.

(** Code runs the same from states that agree. *)
Lemma run_agrees l : ∀ h h' h1,
  Forall one_ok l → agrees h h' → run_code l h = Some h1 →
  ∃ h1', run_code l h' = Some h1' ∧ agrees h1 h1'.
Proof.
  induction l as [|c l IH]; intros h h' h1 F L HR; [injection HR as <-; by exists h'|].
  inversion F as [|? ? (w & r & s & [R S _ _ _]) F']; subst. simpl in HR |- *.
  destruct (exec_code c h) as [h2|] eqn:E; [|done]. rewrite (exec_code_sem c r s R S) in E |- *.
  destruct (exec_lags s c.2 0 h h' h2 L (or_introl eq_refl) E) as (h2' & -> & L2).
  apply (IH h2 h2' h1 F'); [|done]. by destruct (match writes s c.2 with Some d => reg_of d =? rsp | None => false end).
Qed.

Lemma straight_fits c : one_ok c → fits c ∧ bstrins_ok c.
Proof.
  intros (w & r & s & [R S SH _ _]).
  pose proof (class_of _ _ _ R S) as C. unfold class_ok in C. rewrite !andb_true_iff in C. destruct C as [[[_ C] _] _].
  pose proof (aget_bound _ _ _ R) as B. change (0 <= c.1 - 128 < 2628) in B.
  apply shape_length in SH. unfold bstrins_ok. rewrite SH.
  split; [split; [by rewrite SH; destruct s; simpl; lia|by apply s16_id; lia]|].
  intros I. rewrite I in C. cbn [negb] in C.
  destruct s; rewrite ?andb_false_r in C; try done; simpl; lia.
Qed.

Section optimize.
Context (blank : IR2_INST) (moved parallel page_anon : bool).

(** The pass on the array that holds [L]: updates are delayed up to the last x86
    instruction. *)
Lemma optimize_shape t L n w :
  shows t L → L.*1 = seq 0 n → Z.of_nat (ir2_inst_num_current t) + Z.of_nat (length L) <= 2 ^ 15 →
  codes_ok w (L.*2) = true →
  ∃ t' L' F T F', tr_ir2_optimize blank moved parallel page_anon t = Some t' ∧ shows t' L' ∧
    (ir2_inst_num_current t' <= ir2_inst_num_current t + length L)%nat ∧
    L.*2 = F ++ T ∧ delayed F = Some F' ∧ L'.*2 = F' ++ T.
Proof using Type.
  intros H HS N W. assert (SAME : tr_ir2_optimize blank moved parallel page_anon t = Some t →
    ∃ t' L' F T F', tr_ir2_optimize blank moved parallel page_anon t = Some t' ∧ shows t' L' ∧
    (ir2_inst_num_current t' <= ir2_inst_num_current t + length L)%nat ∧
    L.*2 = F ++ T ∧ delayed F = Some F' ∧ L'.*2 = F' ++ T).
  { intros E. exists t, L, [], (L.*2), []. split_and!; try done. lia. }
  unfold tr_ir2_optimize in *. destruct parallel; [by apply SAME|]. destruct page_anon; [by apply SAME|].
  destruct L as [|y S0 _] using rev_ind.
  { apply SAME. destruct (shows_ends _ _ H) as [_ E]. simpl in E. unfold ir2_opt_push_pop. by rewrite E. }
  destruct (last_split marker S0) as [F|(F & e & T1 & -> & He & FT)].
  { apply SAME. by apply (push_pop_same blank moved t S0 y). }
  clear SAME. rewrite <- app_assoc in *. destruct (appended_order _ F (T1 ++ [y]) e n HS eq_refl) as [HF HT].
  rewrite fmap_app in W. apply codes_ok_app in W as [WF _]. destruct (delayed_total w (F.*2) WF) as [F' EF].
  rewrite length_app in N |- *.
  destruct (push_pop_refines blank moved t F e T1 y F') as (t' & L' & -> & H' & <- & N'); try done; [|lia|].
  { apply codes_ok_each, (proj1 (Forall_fmap _ _ _)) in WF. eapply list.Forall_impl; [exact WF|].
    intros c Wc. by apply straight_fits. }
  exists t', (L' ++ e :: T1 ++ [y]), (F.*2), ((e :: T1 ++ [y]).*2), (L'.*2).
  split_and!; [done..|lia| |done|]; by rewrite fmap_app.
Qed.

(** Code that is appended to the empty array and optimised. *)
Lemma append_optimize a code w :
  (0 < length a)%nat → 2 * Z.of_nat (length code) <= 2 ^ 15 → codes_ok w code = true →
  ∃ t t' L F T F', append_code blank moved code (empty_td a) = Some t ∧
    tr_ir2_optimize blank moved parallel page_anon t = Some t' ∧ shows t' L ∧
    (ir2_inst_num_current t' <= 2 * length code)%nat ∧
    code = F ++ T ∧ delayed F = Some F' ∧ L.*2 = F' ++ T.
Proof using Type.
  intros Ha N W.
  destruct (append_code_shows blank moved code (empty_td a) []) as (t & E & H & Nt); try done;
    [by apply empty_shows|simpl; lia| |].
  { eapply list.Forall_impl; [by eapply codes_ok_each|]. intros c Wc. by apply straight_fits. }
  simpl in H, Nt. set (L := zip (seq 0 (length code)) code) in *.
  assert (L1 : L.*1 = seq 0 (length code)) by (apply fst_zip; rewrite length_seq; lia).
  assert (L2 : L.*2 = code) by (apply snd_zip; rewrite length_seq; lia).
  assert (LL : length L = length code) by (by rewrite <- L2, length_fmap).
  destruct (optimize_shape t L (length code) w) as (t' & L' & F & T & F' & E' & H' & N' & EL & EF & EL');
    try done; rewrite ?L2; try done.
  { rewrite Nt, LL. lia. }
  rewrite L2 in EL. exists t, t', L', F, T, F'. split_and!; try done. lia.
Qed.

(** It runs to the same state. *)
Lemma delayed_runs w F T F' h h1 :
  codes_ok w (F ++ T) = true → delayed F = Some F' → run_code (F ++ T) h = Some h1 →
  ∃ h1', run_code (F' ++ T) h = Some h1' ∧ agrees h1 h1'.
Proof using Type.
  intros [WF [w' WT]]%codes_ok_app EF HR. rewrite run_code_app in HR |- *.
  destruct (run_code F h) as [h2|] eqn:E2; [|done].
  destruct (delayed_sound w F h h2 WF E2) as (F1 & h2' & EF1 & EF' & L2). assert (F1 = F') as -> by congruence.
  rewrite EF'. by apply (run_agrees _ h2 h2' h1 (codes_ok_each _ _ WT)).
Qed.

End optimize.

(** Two pushes: the second store is patched and one addition is left. *)
Definition two_pushes : list code_inst :=
  let marker := (lisa "x86_inst", [mkOpnd2 IR2_OPND_IMM 0x1000]) in
  let push (r : Z) := [addi_rsp (-8); (lisa "st.d", [gp r; esp; mkOpnd2 IR2_OPND_IMM 0])] in
  [marker] ++ push 10 ++ [marker] ++ push 11 ++ [marker; (lisa "or", [gp 12; gp 10; gp 11])].

