(* ===== verification/Relocate.v ===== *)
(** * Labels and relocation (ir2/ir2-relocate.c, the end of translator/translate.c)

    [label_dispose] walks the list twice.  The first walk records where the labels are and
    replaces the pseudo instructions ([ir2_relocate]); then the offsets the block needs are
    written into the [TranslationBlock]; the second walk turns the labels of branches into
    distances.
    [boundary_set] records where the code of each x86 instruction ends, [tr_ir2_assemble]
    writes the words.  PROFILER is off, LARGE_CC, AOT, TU, XCOMISX_OPT and INSTS_PATTERN
    are on. *)

From stdpp Require Import base numbers list option strings tactics.
From Stdlib Require Import ZArith Lia Bool.
From S2P Require Import Prelude LisaTable Ir2 Ir2List Ir2Code LaAssemble LaAppend RegMap ImmCache RegAlloc PushPop.
Local Open Scope Z_scope.
Local Open Scope c_scope.

(** ** Pseudo instructions *)

Definition LISA_ACCL : Z := Eval vm_compute in lisa "accl".
Definition LISA_PCADDI_RELOCATE : Z := Eval vm_compute in lisa "pcaddi_relocate".
Definition LISA_JUMP_EPILOGUE : Z := Eval vm_compute in lisa "jump_epilogue".
Definition LISA_DATA_LI : Z := Eval vm_compute in lisa "data_li".
Definition LISA_DATA_ADD : Z := Eval vm_compute in lisa "data_add".
Definition LISA_INST_DIFF : Z := Eval vm_compute in lisa "inst_diff".
Definition LISA_DATA_ST : Z := Eval vm_compute in lisa "data_st".
Definition LISA_DATA_ST_REL_TABLE : Z := Eval vm_compute in lisa "data_st_rel_table".

Definition pseudo (v : Z) : IR2_OPND := create_ir2_opnd IR2_OPND_PSEUDO v.

Section constructors.
Context (blank : IR2_INST) (moved : bool).

Definition append_pseudo (opcode : Z) (os : list IR2_OPND) (t : TRANSLATION_DATA) : option TRANSLATION_DATA :=
  '(p, t) ← generate blank moved t opcode os; ir2_append t p.

Definition is_value (o : IR2_OPND) : bool := ir2_opnd_is_data o || ir2_opnd_is_pseudo o || ir2_opnd_is_label o.
Definition is_place (o : IR2_OPND) : bool := ir2_opnd_is_data o || ir2_opnd_is_label o.

Definition la_code_accl (data_base : IR2_OPND) (ninst filling : Z) : TRANSLATION_DATA → option TRANSLATION_DATA :=
  append_pseudo LISA_ACCL [data_base; pseudo ninst; pseudo filling].
Definition la_code_align (align filling : Z) : TRANSLATION_DATA → option TRANSLATION_DATA :=
  append_pseudo LISA_ALIGN [pseudo align; pseudo filling].
Definition la_data_li (data_temp : IR2_OPND) (data : Z) (t : TRANSLATION_DATA) : option TRANSLATION_DATA :=
  lsassert ir2_opnd_is_data data_temp ;;
  append_pseudo LISA_DATA_LI [data_temp; pseudo (data >> 32); pseudo data] t.
Definition la_data_add (dest src1 src2 : IR2_OPND) (t : TRANSLATION_DATA) : option TRANSLATION_DATA :=
  lsassert ir2_opnd_is_data dest ;;
  lsassert is_value src1 ;;
  lsassert is_value src2 ;;
  append_pseudo LISA_DATA_ADD [dest; src1; src2] t.
Definition la_far_jump (jmp_target counter_base : IR2_OPND) (t : TRANSLATION_DATA) : option TRANSLATION_DATA :=
  lsassert ir2_opnd_is_data jmp_target && ir2_opnd_is_data counter_base ;;
  append_pseudo LISA_FAR_JUMP [jmp_target; counter_base] t.
Definition la_pcaddi_relocate (rd jmp_target counter_base : IR2_OPND) (t : TRANSLATION_DATA) : option TRANSLATION_DATA :=
  lsassert ir2_opnd_is_data jmp_target && ir2_opnd_is_data counter_base ;;
  append_pseudo LISA_PCADDI_RELOCATE [rd; jmp_target; counter_base] t.
Definition la_jump_epilogue (jmp_target counter_base : IR2_OPND) (t : TRANSLATION_DATA) : option TRANSLATION_DATA :=
  lsassert ir2_opnd_is_data jmp_target && ir2_opnd_is_data counter_base ;;
  append_pseudo LISA_JUMP_EPILOGUE [jmp_target; counter_base] t.
Definition la_inst_diff (dest label1 label2 : IR2_OPND) (t : TRANSLATION_DATA) : option TRANSLATION_DATA :=
  lsassert ir2_opnd_is_data dest ;;
  lsassert is_place label1 && is_place label2 ;;
  append_pseudo LISA_INST_DIFF [dest; label1; label2] t.
Definition la_data_st (mem data_temp : IR2_OPND) (t : TRANSLATION_DATA) : option TRANSLATION_DATA :=
  lsassert ir2_opnd_is_data mem ;;
  lsassert is_place data_temp ;;
  append_pseudo LISA_DATA_ST [mem; data_temp] t.
Definition la_data_st_rel_table (table_index offset : Z) (data_temp : IR2_OPND) (t : TRANSLATION_DATA) :
    option TRANSLATION_DATA :=
  lsassert is_place data_temp ;;
  append_pseudo LISA_DATA_ST_REL_TABLE [pseudo table_index; pseudo offset; data_temp] t.
End constructors.

(** ** Relocation *)

(** The state of the first walk besides the code.  [stores]: the 64-bit stores to host memory, [rel_stores]:
    the 32-bit stores to the relocation table (index, offset, value), the last one first. *)
Record reloc := mkRel {
  r_temps : temps;
  counter : Z;
  label : list Z;
  data : list Z;
  stores : list (Z * Z);
  rel_stores : list (Z * Z * Z)
}.

Definition set_rtemps (s : reloc) (x : temps) : reloc :=
  mkRel x (counter s) (label s) (data s) (stores s) (rel_stores s).
Definition count (n : Z) (s : reloc) : reloc :=
  mkRel (r_temps s) (counter s + n) (label s) (data s) (stores s) (rel_stores s).
Definition set_label (s : reloc) (l : list Z) : reloc :=
  mkRel (r_temps s) (counter s) l (data s) (stores s) (rel_stores s).
Definition set_data (s : reloc) (d : list Z) : reloc :=
  mkRel (r_temps s) (counter s) (label s) d (stores s) (rel_stores s).
Definition add_store (s : reloc) (x : Z * Z) : reloc :=
  mkRel (r_temps s) (counter s) (label s) (data s) (x :: stores s) (rel_stores s).
Definition add_rel (s : reloc) (x : Z * Z * Z) : reloc :=
  mkRel (r_temps s) (counter s) (label s) (data s) (stores s) (x :: rel_stores s).

Definition a0_ir2_opnd : IR2_OPND := mkOpnd2 IR2_OPND_GPR la_a0.

Definition built (name : string) (args : list arg) : option code_inst :=
  r ← row_of name; os ← constructor_opnds r args; Some (lisa name, os).

(** [generate_code] *)
Definition code_word (code : Z) : code_inst := (LISA_CODE, [pseudo code]).

(** [uint32_t] comparisons as in the loops; the result is how many words are inserted. *)
Fixpoint accl_pad (fuel : nat) (linesize insn_offset opnd1 : Z) : option nat :=
  if insn_offset <=? u32 (linesize - u32 (opnd1 << 2)) then Some 0%nat
  else match fuel with
       | O => None
       | S fuel => S <$> accl_pad fuel linesize insn_offset (u32 (opnd1 - 1))
       end.

Fixpoint align_pad (fuel : nat) (counter opnd0 : Z) : option nat :=
  if u32 counter mod opnd0 =? 0 then Some 0%nat
  else match fuel with O => None | S fuel => S <$> align_pad fuel (counter + 1) opnd0 end.

Section relocate.
(** [linesize]: [qemu_icache_linesize]. *)
Context (blank : IR2_INST) (moved option_imm_reg : bool) (linesize : Z).

Definition data_at (s : reloc) (o : IR2_OPND) : option Z := aget (data s) (ir2_opnd_val o).

(** A label counts as its offset ([int], -1 before the walk has come to it). *)
Definition value_at (s : reloc) (o : IR2_OPND) : option Z :=
  if ir2_opnd_is_data o then data_at s o
  else if ir2_opnd_is_label o then u64 <$> aget (label s) (ir2_opnd_val o)
  else if ir2_opnd_is_pseudo o then Some (ir2_opnd_val o)
  else None.

(** The distance in instructions from here to the address [target], the block starting at
    [base]; it is signed. *)
Definition insn_offset (s : reloc) (target base : IR2_OPND) : option Z :=
  t ← data_at s target;
  b ← data_at s base;
  Some (s64 (t - ((counter s << 2) + b)) >> 2).

(** PCADDU18I and JIRL over [offset], the return address in [rd]. *)
Definition jump_pair (s : reloc) (rd : IR2_OPND) (offset : Z) : option (list code_inst * reloc) :=
  let lower := s16 offset in
  let upper := (offset - lower) >> 16 in
  '(tmp, x) ← ra_alloc_itemp option_imm_reg (r_temps s);
  i0 ← built "pcaddu18i" [AOpnd tmp; AImm (s32 upper)];
  i1 ← built "jirl" [AOpnd rd; AOpnd tmp; AImm lower];
  x ← ra_free_temp x tmp;
  Some ([i0; i1], count 2 (set_rtemps s x)).

(** The instructions a pseudo instruction with operands [os] is replaced by; the inner
    [None]: the instruction stays. *)
Definition relocated (opcode : Z) (os : list IR2_OPND) (s : reloc) : option (option (list code_inst) * reloc) :=
  if opcode =? LISA_ACCL then
    o0 ← os !! 0%nat; o1 ← os !! 1%nat; o2 ← os !! 2%nat;
    lsassert ir2_opnd_is_data o0 && ir2_opnd_is_pseudo o1 && ir2_opnd_is_pseudo o2 ;;
    base ← data_at s o0;
    lsassert ir2_opnd_val o1 <? (linesize >> 2) ;;
    let insn_offset := Z.land (s64 (s64 base + (counter s << 2))) (linesize - 1) in
    n ← accl_pad (Z.to_nat (ir2_opnd_val o1)) linesize insn_offset (ir2_opnd_val o1);
    Some (Some (replicate n (code_word (ir2_opnd_val o2))), count (Z.of_nat n) s)
  else if opcode =? LISA_ALIGN then
    o0 ← os !! 0%nat; o1 ← os !! 1%nat;
    lsassert ir2_opnd_is_pseudo o0 && ir2_opnd_is_pseudo o1 ;;
    lsassert negb (ir2_opnd_val o0 =? 0) ;;
    n ← align_pad (Z.to_nat (ir2_opnd_val o0)) (counter s) (ir2_opnd_val o0);
    Some (Some (replicate n (code_word (ir2_opnd_val o1))), count (Z.of_nat n) s)
  else if opcode =? LISA_FAR_JUMP then
    o0 ← os !! 0%nat; o1 ← os !! 1%nat;
    lsassert ir2_opnd_is_data o0 && ir2_opnd_is_data o1 ;;
    offset ← insn_offset s o0 o1;
    if offset =? sextract64 offset 0 26 then
      ir2_opnd_addr ← ir2_opnd_build IR2_OPND_IMM (s32 offset);
      i0 ← built "b" [AOpnd ir2_opnd_addr];
      i1 ← built "andi" [AOpnd zero_ir2_opnd; AOpnd zero_ir2_opnd; AImm 0];
      Some (Some [i0; i1], count 2 s)
    else
      '(l, s) ← jump_pair s zero_ir2_opnd offset; Some (Some l, s)
  else if opcode =? LISA_PCADDI_RELOCATE then
    o0 ← os !! 0%nat; o1 ← os !! 1%nat; o2 ← os !! 2%nat;
    lsassert ir2_opnd_is_data o1 && ir2_opnd_is_data o2 ;;
    offset ← insn_offset s o1 o2;
    i0 ← built "pcaddi" [AOpnd o0; AImm (s32 offset)];
    Some (Some [i0], count 1 s)
  else if opcode =? LISA_JUMP_EPILOGUE then
    o0 ← os !! 0%nat; o1 ← os !! 1%nat;
    lsassert ir2_opnd_is_data o0 && ir2_opnd_is_data o1 ;;
    offset ← insn_offset s o0 o1;
    '(l, s) ← jump_pair s a0_ir2_opnd offset;
    Some (Some l, s)
  else if opcode =? LISA_DATA_LI then
    o0 ← os !! 0%nat; o1 ← os !! 1%nat; o2 ← os !! 2%nat;
    lsassert ir2_opnd_is_data o0 && ir2_opnd_is_pseudo o1 && ir2_opnd_is_pseudo o2 ;;
    d ← aset (data s) (ir2_opnd_val o0) (Z.lor (ir2_opnd_val o1 << 32) (ir2_opnd_val o2));
    Some (Some [], set_data s d)
  else if opcode =? LISA_DATA_ADD then
    o0 ← os !! 0%nat; o1 ← os !! 1%nat; o2 ← os !! 2%nat;
    lsassert ir2_opnd_is_data o0 ;;
    v1 ← value_at s o1;
    d ← aset (data s) (ir2_opnd_val o0) v1;
    v2 ← value_at (set_data s d) o2;
    d ← aset d (ir2_opnd_val o0) (u64 (v1 + v2));
    Some (Some [], set_data s d)
  else if opcode =? LISA_INST_DIFF then
    o0 ← os !! 0%nat; o1 ← os !! 1%nat; o2 ← os !! 2%nat;
    lsassert ir2_opnd_is_data o0 && is_place o1 && is_place o2 ;;
    v1 ← value_at s o1;
    d ← aset (data s) (ir2_opnd_val o0) v1;
    v2 ← value_at (set_data s d) o2;
    d ← aset d (ir2_opnd_val o0) (u64 (v1 - v2) >> 2);
    Some (Some [], set_data s d)
  else if opcode =? LISA_DATA_ST then
    o0 ← os !! 0%nat; o1 ← os !! 1%nat;
    lsassert ir2_opnd_is_data o0 && is_place o1 ;;
    a ← data_at s o0;
    v ← value_at s o1;
    Some (Some [], add_store s (a, v))
  else if opcode =? LISA_DATA_ST_REL_TABLE then
    o0 ← os !! 0%nat; o1 ← os !! 1%nat; o2 ← os !! 2%nat;
    lsassert ir2_opnd_is_pseudo o0 && ir2_opnd_is_pseudo o1 && is_place o2 ;;
    v ← value_at s o2;
    Some (Some [], add_rel s (ir2_opnd_val o0, ir2_opnd_val o1, u32 v))
  else if opcode =? LISA_X86_INST then Some (None, s)
  else None.

Fixpoint insert_all (l : list code_inst) (t : TRANSLATION_DATA) (cur : nat) : option TRANSLATION_DATA :=
  match l with
  | [] => Some t
  | c :: l =>
      '(p, t) ← generate blank moved t c.1 c.2;
      '(t, _) ← ir2_insert_before t p cur;
      insert_all l t cur
  end.

Definition ir2_relocate (cur : nat) (t : TRANSLATION_DATA) (s : reloc) : option (TRANSLATION_DATA * reloc) :=
  i ← deref t cur;
  '(r, s) ← relocated (ir2_opcode i) (_opnd i) s;
  match r with
  | None => Some (t, s)
  | Some l => t ← insert_all l t cur; t ← ir2_remove t cur; Some (t, s)
  end.

(** ** Labels *)

Definition place_label (o : IR2_OPND) (s : reloc) : option reloc :=
  old ← aget (label s) (ir2_opnd_label_id o);
  lsassert old =? -1 ;;
  l ← aset (label s) (ir2_opnd_label_id o) (counter s << 2);
  Some (set_label s l).

(** The first walk of [label_dispose]. *)
Fixpoint dispose_walk (fuel : nat) (cur : option nat) (t : TRANSLATION_DATA) (s : reloc) :
    option (TRANSLATION_DATA * reloc) :=
  match cur with
  | None => Some (t, s)
  | Some cur =>
      match fuel with
      | O => None
      | S fuel =>
          i ← deref t cur;
          '(t, s) ← (if ir2_opcode i =? LISA_LABEL then
                       o ← _opnd i !! 0%nat; s ← place_label o s; Some (t, s)
                     else if LISA_PSEUDO_END <? ir2_opcode i then Some (t, count 1 s)
                     else ir2_relocate cur t s);
          next ← ir2_next t cur;
          dispose_walk fuel next t s
      end
  end.
End relocate.

(** The second walk: returns the number of instructions. *)
Definition label_opnd (opcode : Z) : option nat :=
  if ir2_opcode_is_branch opcode || ir2_opcode_is_f_branch opcode then
    if (opcode =? LISA_B) || (opcode =? LISA_BL) then Some 0%nat
    else if ir2_opcode_is_branch_with_3opnds opcode then Some 2%nat
    else if ir2_opcode_is_f_branch opcode || ir2_opcode_is_branch_with_2opnds opcode then Some 1%nat
    else None
  else None.

(** The operand of a branch at instruction [ir2_num]. *)
Definition resolved (lab : list Z) (ir2_num : Z) (o : IR2_OPND) : option IR2_OPND :=
  if ir2_opnd_is_label o then
    lsassert (0 <=? _label_id o) ;;
    l ← aget lab (_label_id o);
    lsassert negb (l =? -1) ;;
    ir2_opnd_convert_label_to_imm o ((l >> 2) - ir2_num)
  else Some o.

(** Does the instruction become a word? *)
Definition has_word (opcode : Z) : bool := negb ((opcode =? LISA_LABEL) || (opcode =? LISA_X86_INST)).

Fixpoint branch_walk (fuel : nat) (lab : list Z) (cur : option nat) (ir2_num : Z) (t : TRANSLATION_DATA) :
    option (Z * TRANSLATION_DATA) :=
  match cur with
  | None => Some (ir2_num, t)
  | Some cur =>
      match fuel with
      | O => None
      | S fuel =>
          i ← deref t cur;
          let opcode := ir2_opcode i in
          t ← match label_opnd opcode with
              | Some k =>
                  o ← _opnd i !! k;
                  o' ← resolved lab ir2_num o;
                  upd t cur (set_opnd k (λ _, o'))
              | None => Some t
              end;
          ir2_num ← (if has_word opcode then
                       lsassert (opcode =? LISA_CODE) || (LISA_PSEUDO_END <? opcode) ;; Some (ir2_num + 1)
                     else Some ir2_num);
          next ← ir2_next t cur;
          branch_walk fuel lab next ir2_num t
      end
  end.

(** The fields of the [TranslationBlock] that hold labels until the code is placed.
    [jmp_reset_offset] and [tu_jmp] are a union, so are [jmp_target_arg] and [tu_unlink],
    [jmp_stub_target_arg] and [jmp_indirect]; no branch below uses two members. *)
Record tb_links := mkLinks {
  use_indirect_jmp : bool;
  use_tu_jmp : bool;
  pre_translate : bool;              (** [in_pre_translate] and not [IS_TUNNEL_LIB] *)
  next_tb : list bool;               (** is [s_data->next_tb[i]] set? *)
  jmp_indirect : Z;
  jmp_reset_offset : list Z;         (** [uint16_t] *)
  jmp_target_arg : list Z;
  stub_offset : Z;
  jmp_stub_reset_offset : list Z;    (** [uint16_t] *)
  jmp_stub_target_arg : list Z;
  eflags_target_arg : list Z;        (** [uint16_t] *)
  first_jmp_align : Z                (** [uint16_t] *)
}.

Definition TB_JMP_RESET_OFFSET_INVALID : Z := 0xffff.
Definition B_STUB_SIZE : Z := 8.

Definition link_of {A} (lab : list Z) (label_id : Z) (keep : A) (f : Z → A) : option A :=
  if label_id =? TB_JMP_RESET_OFFSET_INVALID then Some keep else l ← aget lab label_id; Some (f l).

(** [n]: the successor is known. *)
Definition tu_link (lab : list Z) (label_id : Z) (n : bool) : option Z :=
  if negb (label_id =? TB_JMP_RESET_OFFSET_INVALID) && (label_id <? Z.of_nat (length lab)) then
    lsassert n ;; l ← aget lab label_id; Some (u16 l)
  else Some label_id.

(** Between the walks. *)
Definition link_offsets (lab : list Z) (tb : tb_links) : option tb_links :=
  tb ← (if use_indirect_jmp tb then
          x ← link_of lab (jmp_indirect tb) (jmp_indirect tb) u64;
          Some (mkLinks (use_indirect_jmp tb) (use_tu_jmp tb) (pre_translate tb) (next_tb tb) x
                  (jmp_reset_offset tb) (jmp_target_arg tb) (stub_offset tb) (jmp_stub_reset_offset tb)
                  (jmp_stub_target_arg tb) (eflags_target_arg tb) (first_jmp_align tb))
        else if negb (use_tu_jmp tb) then
          reset ← mapM (λ x, link_of lab x x (λ l, u16 (l + B_STUB_SIZE))) (jmp_reset_offset tb);
          arg ← mapM (λ '(x, a), link_of lab x a u64) (zip (jmp_reset_offset tb) (jmp_target_arg tb));
          sreset ← mapM (λ x, link_of lab x x (λ l, u16 (l + B_STUB_SIZE))) (jmp_stub_reset_offset tb);
          sarg ← mapM (λ '(x, a), link_of lab x a u64) (zip (jmp_stub_reset_offset tb) (jmp_stub_target_arg tb));
          Some (mkLinks (use_indirect_jmp tb) (use_tu_jmp tb) (pre_translate tb) (next_tb tb) (jmp_indirect tb)
                  reset arg (stub_offset tb) sreset sarg (eflags_target_arg tb) (first_jmp_align tb))
        else if pre_translate tb then
          jmp ← mapM (λ '(x, n), tu_link lab x n) (zip (jmp_reset_offset tb) (next_tb tb));
          stub ← aget lab (stub_offset tb);
          Some (mkLinks (use_indirect_jmp tb) (use_tu_jmp tb) (pre_translate tb) (next_tb tb) (jmp_indirect tb)
                  jmp (jmp_target_arg tb) (u32 stub) (jmp_stub_reset_offset tb) (jmp_stub_target_arg tb)
                  (eflags_target_arg tb) (first_jmp_align tb))
        else Some tb);
  eflags ← mapM (λ x, link_of lab x x u16) (eflags_target_arg tb);
  align ← link_of lab (first_jmp_align tb) (first_jmp_align tb) u16;
  Some (mkLinks (use_indirect_jmp tb) (use_tu_jmp tb) (pre_translate tb) (next_tb tb) (jmp_indirect tb)
          (jmp_reset_offset tb) (jmp_target_arg tb) (stub_offset tb) (jmp_stub_reset_offset tb)
          (jmp_stub_target_arg tb) eflags align).

(** The data array starts as all ones. *)
Definition start (t : TRANSLATION_DATA) (x : temps) : reloc :=
  mkRel x 0 (replicate (Z.to_nat (label_num t)) (-1)) (replicate (Z.to_nat (data_num t)) (2 ^ 64 - 1)) [] [].

(** The number of instructions, the block, the code and what the first walk has left;
    [tb]: NULL for the prologue and the epilogue. *)
Definition label_dispose (blank : IR2_INST) (moved option_imm_reg : bool) (linesize : Z) (tb : option tb_links)
    (t : TRANSLATION_DATA) (x : temps) : option (Z * option tb_links * TRANSLATION_DATA * reloc) :=
  '(t, s) ← dispose_walk blank moved option_imm_reg linesize (S (ir2_inst_num_current t)) (first_ir2 t) t (start t x);
  tb ← match tb with Some tb => Some <$> link_offsets (label s) tb | None => Some None end;
  '(n, t) ← branch_walk (S (ir2_inst_num_current t)) (label s) (first_ir2 t) 0 t;
  Some (n, tb, t, s).

(** ** Boundaries and words *)

Fixpoint boundary_walk (fuel : nat) (t : TRANSLATION_DATA) (cur : option nat) (x86 ir2 : Z) (off : list Z) :
    option (list Z) :=
  match cur with
  | None => if x86 =? -1 then Some off else aset off x86 (u16 (ir2 << 2))
  | Some cur =>
      match fuel with
      | O => None
      | S fuel =>
          i ← deref t cur;
          next ← ir2_next t cur;
          if ir2_opcode i =? LISA_X86_INST then
            off ← (if x86 =? -1 then Some off else aset off x86 (u16 (ir2 << 2)));
            boundary_walk fuel t next (x86 + 1) ir2 off
          else if ir2_opcode i =? LISA_LABEL then boundary_walk fuel t next x86 ir2 off
          else
            lsassert (ir2_opcode i =? LISA_CODE) || (LISA_PSEUDO_END <? ir2_opcode i) ;;
            boundary_walk fuel t next x86 (ir2 + 1) off
      end
  end.

(** [off]: [tcg_ctx->gen_insn_end_off], of [uint16_t]. *)
Definition boundary_set (t : TRANSLATION_DATA) (off : list Z) : option (list Z) :=
  boundary_walk (S (ir2_inst_num_current t)) t (first_ir2 t) (-1) 0 off.

(** The words in the order they are stored. *)
Fixpoint assemble_walk (fuel : nat) (t : TRANSLATION_DATA) (cur : option nat) : option (list Z) :=
  match cur with
  | None => Some []
  | Some cur =>
      match fuel with
      | O => None
      | S fuel =>
          i ← deref t cur;
          w ← (if has_word (ir2_opcode i) then w ← ir2_assemble i; Some [w] else Some []);
          next ← ir2_next t cur;
          ws ← assemble_walk fuel t next;
          Some (w ++ ws)
      end
  end.

Definition tr_ir2_assemble (t : TRANSLATION_DATA) : option (list Z) :=
  assemble_walk (S (ir2_inst_num_current t)) t (first_ir2 t).
