(* ===== verification/RelocateOk.v ===== *)
(** * Labels, branches and boundaries are placed correctly

    The walks over the array do what walks over the list of instructions do.  The offset of
    a label is four times the number of words before it, a branch is given the distance in
    words from itself to its label, the number of instructions that is returned is the
    number of words that are assembled. *)

From stdpp Require Import base numbers list option strings sets tactics.
From Stdlib Require Import ZArith Lia Bool.
From S2P Require Import Prelude LisaTable Ir2 Ir2List Ir2Code LaAssemble LaAppend RegMap ImmCache RegAlloc PushPop Relocate.
Local Open Scope Z_scope.
Local Open Scope c_scope.

Local Abbreviation last := list.last.

(** ** The walks on lists *)

Section lists.
Context (option_imm_reg : bool) (linesize : Z).

(** What takes the place of an instruction in the first walk. *)
Definition placed (c : code_inst) (s : reloc) : option (list code_inst * reloc) :=
  if c.1 =? LISA_LABEL then o ← c.2 !! 0%nat; s ← place_label o s; Some ([c], s)
  else if LISA_PSEUDO_END <? c.1 then Some ([c], count 1 s)
  else '(r, s) ← relocated option_imm_reg linesize c.1 c.2 s; Some (default [c] r, s).

Fixpoint place_list (l : list code_inst) (s : reloc) : option (list code_inst * reloc) :=
  match l with
  | [] => Some ([], s)
  | c :: l => '(out, s) ← placed c s; '(r, s) ← place_list l s; Some (out ++ r, s)
  end.
End lists.

(** The second walk: an instruction whose number is [n]. *)
Definition resolved_inst (lab : list Z) (n : Z) (c : code_inst) : option code_inst :=
  match label_opnd c.1 with
  | Some k => o ← c.2 !! k; o' ← resolved lab n o; Some (c.1, alter (λ _, o') k c.2)
  | None => Some c
  end.

Definition words (l : list code_inst) : Z := Z.of_nat (length (filter (λ c, has_word c.1 = true) l)).

Fixpoint resolve_list (lab : list Z) (n : Z) (l : list code_inst) : option (list code_inst) :=
  match l with
  | [] => Some []
  | c :: l => c' ← resolved_inst lab n c; r ← resolve_list lab (n + words [c]) l; Some (c' :: r)
  end.

(** ** Refinement of the first walk *)

Lemma relocated_take imm ls op os n s x :
  relocated imm ls op (take n os) s = Some x → relocated imm ls op os s = Some x.
Proof.
  unfold relocated. intros H.
  assert (K : ∀ k o, take n os !! k = Some o → os !! k = Some o) by (intros k o E; by apply lookup_take_Some in E as [E _]).
  repeat (case_match; [
    repeat match type of H with context [mbind _ (take n os !! ?k)] =>
      let E := fresh in destruct (take n os !! k) eqn:E; [apply K in E; rewrite E|done]; cbn [mbind option_bind] in H |- * end;
    exact H|]).
  exact H.
Qed.

Lemma row_range k r : lisa_format_table k = Some r → 128 <= k < 2756.
Proof. intros H. apply aget_bound in H. change (0 <= k - 128 < 2628) in H. lia. Qed.

Lemma build_opnds_length name tys args os : build_opnds name tys args = Some os → length os = length args.
Proof.
  revert args os. induction tys as [|ty tys IH]; intros [|a args] os H; simpl in H; try done; [by injection H as <-|].
  destruct (build_opnd name ty a); [|done]. simpl in H. destruct (generatingCheck _ _ _ _); [|done].
  destruct (build_opnds name tys args) as [os'|] eqn:E; [|done]. injection H as <-. simpl. by rewrite (IH _ _ E).
Qed.

Lemma built_fits name args c :
  built name args = Some c → (1 <= length args <= 4)%nat → fits c ∧ c.1 = lisa name.
Proof.
  unfold built. destruct (row_of name) as [r|] eqn:R; [|done]. simpl.
  destruct (constructor_opnds r args) as [os|] eqn:E; [|done]. intros [= <-] HL. split; [|done].
  apply row_range in R. split; [|by apply s16_id; simpl; lia]. simpl. unfold constructor_opnds in E.
  destruct (mem_name _ _); [destruct args as [|[] []]; simplify_eq; simpl; lia|].
  destruct (opnd_types r); [destruct args; simplify_eq; simpl; lia|].
  destruct (build_opnds _ _ _) as [os'|] eqn:B; [|done]. simpl in E. destruct (checkOpndConstraints _ _ _ _); [|done].
  injection E as <-. apply build_opnds_length in B. lia.
Qed.

(** What a pseudo instruction is replaced by: words, and they are counted_words. *)
Definition counted_words (s s' : reloc) (l : list code_inst) : Prop :=
  Forall (λ c, fits c ∧ has_word c.1 = true ∧ (c.1 = LISA_CODE ∨ LISA_PSEUDO_END < c.1)) l ∧
  counter s' = counter s + Z.of_nat (length l) ∧ label s' = label s.

Lemma counted_nil s s' : counter s' = counter s → label s' = label s → counted_words s s' [].
Proof. intros H1 H2. split_and!; [done|simpl; lia|done]. Qed.

Lemma counted_code s n v : counted_words s (count (Z.of_nat n) s) (replicate n (code_word v)).
Proof.
  split_and!; [|simpl; by rewrite length_replicate|done]. apply Forall_replicate. split_and!; [|done|by left].
  split; [simpl; lia|done].
Qed.

Lemma counted_built s x name args c :
  built name args = Some c → (1 <= length args <= 4)%nat → LISA_PSEUDO_END < lisa name → counter x = counter s + 1 →
  label x = label s → counted_words s x [c].
Proof.
  intros B L P C E. destruct (built_fits _ _ _ B L) as [F N]. split_and!; [|simpl; lia|done].
  constructor; [|constructor]. rewrite N. split_and!; [done| |by right].
  unfold has_word. rewrite !(proj2 (Z.eqb_neq _ _)); [done| |]; intros X; rewrite X in P; by vm_compute in P.
Qed.

Lemma counted_two s x c1 c2 :
  counted_words s (count 1 s) [c1] → counted_words s (count 1 s) [c2] → counter x = counter s + 2 → label x = label s →
  counted_words s x [c1; c2].
Proof.
  intros (F1 & _) (F2 & _) C E. split_and!; [|simpl; lia|done].
  inversion F1; subst. by constructor.
Qed.

Lemma jump_pair_counted imm s rd off l s' : jump_pair imm s rd off = Some (l, s') → counted_words s s' l.
Proof.
  unfold jump_pair. destruct (ra_alloc_itemp imm (r_temps s)) as [[tmp x]|]; [|done]. cbn [mbind option_bind].
  destruct (built "pcaddu18i" _) as [i0|] eqn:B0; [|done]. cbn [mbind option_bind].
  destruct (built "jirl" _) as [i1|] eqn:B1; [|done]. cbn [mbind option_bind].
  destruct (ra_free_temp x tmp) as [y|]; [|done]. intros [= <- <-].
  apply counted_two; [by eapply counted_built; [exact B0|simpl; lia|by vm_compute|..]
    |by eapply counted_built; [exact B1|simpl; lia|by vm_compute|..]|done..].
Qed.

(** Follows a chain of lookups and assertions in [H]. *)
Ltac chain H :=
  repeat (first
    [ match type of H with mbind _ ?o = Some _ => let E := fresh "E" in destruct o eqn:E; [|done] end
    | match type of H with (if ?b then _ else None) = Some _ => let E := fresh "A" in destruct b eqn:E; [|done] end ];
    cbn [mbind option_bind] in H).

Lemma relocated_counted imm ls op os s l s' :
  relocated imm ls op os s = Some (Some l, s') → counted_words s s' l.
Proof.
  unfold relocated. intros H.
  destruct (op =? LISA_ACCL); [chain H; simplify_eq; apply counted_code|].
  destruct (op =? LISA_ALIGN); [chain H; simplify_eq; apply counted_code|].
  destruct (op =? LISA_FAR_JUMP).
  { chain H. destruct (_ =? _).
    - chain H. injection H as <- <-. apply counted_two; try done.
      + eapply counted_built; [eassumption|simpl; lia|by vm_compute|done..].
      + eapply counted_built; [eassumption|simpl; lia|by vm_compute|done..].
    - chain H. destruct p. simplify_eq. by eapply jump_pair_counted. }
  destruct (op =? LISA_PCADDI_RELOCATE).
  { chain H. injection H as <- <-. eapply counted_built; [eassumption|simpl; lia|by vm_compute|done..]. }
  destruct (op =? LISA_JUMP_EPILOGUE); [chain H; destruct p; simplify_eq; by eapply jump_pair_counted|].
  repeat (match type of H with (if ?b then _ else _) = _ => destruct b end;
    [chain H; simplify_eq; by apply counted_nil|]). done.
Qed.

Lemma relocated_stays imm ls op os s s' :
  relocated imm ls op os s = Some (None, s') → s' = s ∧ op = LISA_X86_INST.
Proof.
  unfold relocated. intros H.
  repeat (match type of H with (if op =? ?k then _ else _) = _ => destruct (Z.eqb_spec op k) end;
    [chain H; repeat match type of H with (if ?b then _ else _) = _ => destruct b; chain H end;
     repeat match type of H with context [let '(_, _) := ?p in _] => destruct p end; simplify_eq; try done|]).
  done.
Qed.

Section refinement.
Context (blank : IR2_INST) (moved option_imm_reg : bool) (linesize : Z).

Lemma insert_all_ok l : ∀ t L1 x L2,
  shows t (L1 ++ x :: L2) → Z.of_nat (ir2_inst_num_current t) + Z.of_nat (length l) <= 2 ^ 15 → Forall fits l →
  ∃ t' N, insert_all blank moved l t x.1 = Some t' ∧ shows t' (L1 ++ N ++ x :: L2) ∧ N.*2 = l ∧
    ir2_inst_num_current t' = (ir2_inst_num_current t + length l)%nat.
Proof using Type.
  induction l as [|c l IH]; intros t L1 x L2 H B F.
  { exists t, []. split_and!; [done..|simpl; lia]. }
  inversion F as [|? ? [Fc Fs] F']; subst. simpl in B.
  destruct (shows_before t L1 x L2 blank moved c.1 c.2 H) as (t1 & t2 & G & I & H2 & N2); [lia|done|].
  replace (L1 ++ (ir2_inst_num_current t, (s16 c.1, c.2)) :: x :: L2)
    with ((L1 ++ [(ir2_inst_num_current t, c)]) ++ x :: L2) in H2
    by (rewrite <- app_assoc, Fs; by destruct c).
  destruct (IH t2 _ x L2 H2) as (t' & N & E & H' & EN & N'); [lia|done|].
  exists t', ((ir2_inst_num_current t, c) :: N). cbn [insert_all]. rewrite G. cbn [mbind option_bind]. rewrite I.
  rewrite <- app_assoc in H'. split_and!; [done|done|by rewrite fmap_cons, EN|simpl; lia].
Qed.

(** Reading an instruction of the list. *)
Lemma shows_at t L1 x L2 :
  shows t (L1 ++ x :: L2) →
  ∃ i, deref t x.1 = Some i ∧ ir2_opcode i = x.2.1 ∧ take (Z.to_nat (op_count i)) (_opnd i) = x.2.2.
Proof using Type.
  intros H. destruct (shows_deref t _ x H) as (i & D & P & _); [set_solver|]. exists i. rewrite <- P. done.
Qed.

Lemma shows_next t L1 x L2 : shows t (L1 ++ x :: L2) → ir2_next t x.1 = Some (head (L2.*1)).
Proof using Type. intros H. by destruct (shows_links _ _ _ _ H). Qed.

Lemma dispose_ok L : ∀ t L1 s D s' fuel,
  shows t (L1 ++ L) → place_list option_imm_reg linesize (L.*2) s = Some (D, s') → (length L < fuel)%nat →
  Z.of_nat (ir2_inst_num_current t) + Z.of_nat (length D) <= 2 ^ 15 →
  ∃ t' L', dispose_walk blank moved option_imm_reg linesize fuel (head (L.*1)) t s = Some (t', s') ∧
    shows t' (L1 ++ L') ∧ L'.*2 = D ∧ (ir2_inst_num_current t' <= ir2_inst_num_current t + length D)%nat.
Proof using Type.
  induction L as [|x L IH]; intros t L1 s D s' fuel H HP Hf B.
  { injection HP as <- <-. exists t, []. destruct fuel; split_and!; done || simpl; lia. }
  destruct fuel as [|fuel]; [simpl in Hf; lia|]. rewrite fmap_cons in HP. cbn [place_list] in HP.
  destruct (placed _ _ x.2 s) as [[out s1]|] eqn:EP; [|done]. cbn [mbind option_bind] in HP.
  destruct (place_list _ _ (L.*2) s1) as [[r s2]|] eqn:ER; [|done]. injection HP as <- <-.
  destruct (shows_at _ _ _ _ H) as (i & Di & Ei & Oi). rewrite length_app in B. simpl in Hf.
  change (head ((x :: L).*1)) with (Some x.1). cbn [dispose_walk]. rewrite Di. cbn [mbind option_bind]. rewrite Ei.
  assert (NEXT : ∀ t1 N, shows t1 (L1 ++ N ++ L) → N.*2 = out → ir2_next t1 x.1 = Some (head (L.*1)) →
    (ir2_inst_num_current t1 <= ir2_inst_num_current t + length out)%nat →
    ∃ t' L', (next ← ir2_next t1 x.1; dispose_walk blank moved option_imm_reg linesize fuel next t1 s1) = Some (t', s2) ∧
      shows t' (L1 ++ L') ∧ L'.*2 = out ++ r ∧ (ir2_inst_num_current t' <= ir2_inst_num_current t + length (out ++ r))%nat).
  { intros t1 N H1 EN -> B1. cbn [mbind option_bind].
    destruct (IH t1 (L1 ++ N) s1 r s2 fuel) as (t' & L' & E & H' & EL & N'); [by rewrite <- app_assoc|done|lia|lia|].
    exists t', (N ++ L'). rewrite <- app_assoc in H'.
    split_and!; [done|done|by rewrite fmap_app, EN, EL|rewrite length_app; lia]. }
  pose proof (NEXT t [x] H) as KEEP. rewrite (shows_next _ _ _ _ H) in KEEP.
  unfold placed in EP. destruct (x.2.1 =? LISA_LABEL).
  { rewrite <- Oi in EP. destruct (take _ _ !! 0%nat) as [o|] eqn:EO; [|done]. apply lookup_take_Some in EO as [-> _].
    cbn [mbind option_bind] in EP |- *. destruct (place_label o s) as [s3|]; [|done]. injection EP as <- <-.
    cbn [mbind option_bind]. rewrite (shows_next _ _ _ _ H). apply KEEP; [done..|simpl; lia]. }
  destruct (LISA_PSEUDO_END <? x.2.1).
  { injection EP as <- <-. cbn [mbind option_bind]. rewrite (shows_next _ _ _ _ H). apply KEEP; [done..|simpl; lia]. }
  unfold ir2_relocate. rewrite Di. cbn [mbind option_bind]. rewrite Ei. rewrite <- Oi in EP.
  destruct (relocated _ _ _ (take _ _) s) as [[ro s3]|] eqn:RE; [|done]. apply relocated_take in RE as RE'.
  rewrite RE'. cbn [mbind option_bind] in EP |- *. injection EP as <- <-. destruct ro as [l|].
  - destruct (relocated_counted _ _ _ _ _ _ _ RE) as (FL & _ & _). simpl default in *.
    destruct (insert_all_ok l t L1 x L H) as (t1 & N & E1 & H1 & EN & N1); [lia|eapply list.Forall_impl; [exact FL|by intros c [Fc _]]|].
    rewrite E1. cbn [mbind option_bind]. rewrite app_assoc in H1.
    destruct (shows_remove _ _ _ _ H1) as (t2 & E2 & H2 & En & N2). rewrite E2. cbn [mbind option_bind].
    apply (NEXT t2 N); [by rewrite app_assoc|done|done|lia].
  - cbn [mbind option_bind default]. rewrite (shows_next _ _ _ _ H). apply KEEP; [done..|simpl; lia].
Qed.
End refinement.

(** ** Refinement of the other walks *)

(** After the first walk: no pseudo instructions are left but labels and markers. *)
Definition is_placed (c : code_inst) : Prop := has_word c.1 = true → c.1 = LISA_CODE ∨ LISA_PSEUDO_END < c.1.

Lemma words_cons c l : words (c :: l) = words [c] + words l.
Proof. unfold words. rewrite !filter_cons. case_decide; simpl; lia. Qed.

Lemma words_app l1 l2 : words (l1 ++ l2) = words l1 + words l2.
Proof. unfold words. rewrite list.filter_app, length_app. lia. Qed.

Lemma words_one c : words [c] = if has_word c.1 then 1 else 0.
Proof. unfold words. rewrite filter_cons. by destruct (has_word c.1). Qed.

Lemma words_all l : Forall (λ c, has_word c.1 = true) l → words l = Z.of_nat (length l).
Proof.
  induction 1 as [|c l H _ IH]; [done|]. rewrite words_cons, words_one, H, IH. simpl length. lia.
Qed.

Lemma words_le l : words l <= Z.of_nat (length l).
Proof. unfold words. apply inj_le, length_filter. Qed.

Lemma words_nonneg l : 0 <= words l.
Proof. unfold words. lia. Qed.

Lemma placed_check c :
  is_placed c → has_word c.1 = true → (c.1 =? LISA_CODE) || (LISA_PSEUDO_END <? c.1) = true.
Proof. intros P H. rewrite orb_true_iff, Z.eqb_eq, Z.ltb_lt. by apply P. Qed.

Lemma branch_ok lab L : ∀ t L1 n D fuel,
  shows t (L1 ++ L) → resolve_list lab n (L.*2) = Some D → Forall is_placed (L.*2) → (length L < fuel)%nat →
  ∃ t' L', branch_walk fuel lab (head (L.*1)) n t = Some (n + words (L.*2), t') ∧ shows t' (L1 ++ L') ∧
    L'.*2 = D ∧ ir2_inst_num_current t' = ir2_inst_num_current t.
Proof.
  induction L as [|x L IH]; intros t L1 n D fuel H HR HP Hf.
  { injection HR as <-. exists t, []. unfold words. simpl. rewrite Z.add_0_r. by destruct fuel. }
  destruct fuel as [|fuel]; [simpl in Hf; lia|]. rewrite fmap_cons in HR, HP. cbn [resolve_list] in HR.
  inversion HP as [|? ? Px PL]; subst. destruct (resolved_inst lab n x.2) as [c'|] eqn:RI; [|done].
  cbn [mbind option_bind] in HR. destruct (resolve_list _ _ (L.*2)) as [r|] eqn:ER; [|done]. injection HR as <-.
  destruct (shows_at _ _ _ _ H) as (i & Di & Ei & Oi). simpl in Hf.
  change (head ((x :: L).*1)) with (Some x.1). cbn [branch_walk]. rewrite Di. cbn [mbind option_bind]. rewrite Ei.
  assert (∃ t1, match label_opnd x.2.1 with
      | Some k => o ← _opnd i !! k; o' ← resolved lab n o; upd t x.1 (set_opnd k (λ _, o'))
      | None => Some t end = Some t1 ∧ shows t1 (L1 ++ (x.1, c') :: L) ∧
      ir2_inst_num_current t1 = ir2_inst_num_current t) as (t1 & E1 & H1 & N1).
  { unfold resolved_inst in RI. destruct (label_opnd x.2.1) as [k|].
    - destruct (x.2.2 !! k) as [o|] eqn:EO; [|done]. rewrite <- Oi in EO. apply lookup_take_Some in EO as [-> _].
      cbn [mbind option_bind] in RI |- *. destruct (resolved lab n o) as [o'|]; [|done]. injection RI as <-.
      destruct (shows_upd t L1 x.1 x.2.1 x.2.2 L k (λ _, o')) as (t1 & E1 & H1 & N1); [by destruct x as [? []]|].
      by exists t1.
    - injection RI as <-. exists t. by destruct x. }
  rewrite E1. cbn [mbind option_bind]. rewrite fmap_cons, words_cons, words_one.
  rewrite words_one in ER.
  replace (if has_word x.2.1 then _ else Some n) with (Some (n + if has_word x.2.1 then 1 else 0)).
  2:{ destruct (has_word x.2.1) eqn:W; [by rewrite (placed_check _ Px W)|by rewrite Z.add_0_r]. }
  cbn [mbind option_bind]. pose proof (shows_next t1 L1 (x.1, c') L H1) as EN. simpl in EN.
  rewrite EN. cbn [mbind option_bind].
  destruct (IH t1 (L1 ++ [(x.1, c')]) (n + if has_word x.2.1 then 1 else 0) r fuel) as (t' & L' & E & H' & EL & N); [by rewrite <- app_assoc|exact ER|done|lia|].
  exists t', ((x.1, c') :: L'). rewrite E, Z.add_assoc. rewrite <- app_assoc in H'.
  split_and!; [done|done|by rewrite fmap_cons, EL|congruence].
Qed.

(** *** Words *)

Definition word_of (c : code_inst) : option Z := ir2_assemble (mkIR2 c.1 0 0 0 (Z.of_nat (length c.2)) c.2).

Fixpoint assemble_list (l : list code_inst) : option (list Z) :=
  match l with
  | [] => Some []
  | c :: l =>
      w ← (if has_word c.1 then w ← word_of c; Some [w] else Some []);
      ws ← assemble_list l;
      Some (w ++ ws)
  end.

Lemma assemble_opnds_take types os n w x :
  assemble_opnds types (take n os) w = Some x → assemble_opnds types os w = Some x.
Proof.
  revert os n w. induction types as [|ty types IH]; intros os n w H; [done|]. simpl in H |- *.
  destruct (bool_decide (ty = OPD_INVALID)); [done|]. destruct (bit_field_table !! gm_enum ty); [|done]. simpl in H |- *.
  destruct (bool_decide _); [|done]. destruct n as [|n]; [done|]. destruct os as [|o os]; [done|]. simpl in H.
  destruct (negb _); [|done]. by eapply IH.
Qed.

Lemma word_at i c w :
  word_of c = Some w → ir2_opcode i = c.1 → take (Z.to_nat (op_count i)) (_opnd i) = c.2 → ir2_assemble i = Some w.
Proof.
  unfold word_of, ir2_assemble. intros H E Eo. rewrite <- Eo in H. rewrite E. cbn [ir2_opcode _opcode _opnd] in H.
  destruct (c.1 =? LISA_CODE).
  - destruct (take _ _ !! 0%nat) as [o|] eqn:EO; [|done]. by apply lookup_take_Some in EO as [-> _].
  - destruct (_ <? _); [|done]. destruct (lisa_format_table c.1); [|done]. cbn [mbind option_bind] in H |- *.
    destruct (negb _); [|done]. by eapply assemble_opnds_take.
Qed.

Lemma assemble_ok L : ∀ t L1 ws fuel,
  shows t (L1 ++ L) → assemble_list (L.*2) = Some ws → (length L < fuel)%nat →
  assemble_walk fuel t (head (L.*1)) = Some ws.
Proof.
  induction L as [|x L IH]; intros t L1 ws fuel H HA Hf; [by destruct fuel|].
  destruct fuel as [|fuel]; [simpl in Hf; lia|]. rewrite fmap_cons in HA. cbn [assemble_list] in HA.
  destruct (shows_at _ _ _ _ H) as (i & Di & Ei & Oi). simpl in Hf.
  change (head ((x :: L).*1)) with (Some x.1). cbn [assemble_walk]. rewrite Di. cbn [mbind option_bind]. rewrite Ei.
  rewrite (shows_next _ _ _ _ H). destruct (has_word x.2.1).
  - destruct (word_of x.2) as [w|] eqn:W; [|done]. rewrite (word_at i x.2 w W Ei Oi). cbn [mbind option_bind] in HA |- *.
    destruct (assemble_list (L.*2)) as [ws'|] eqn:EA; [|done]. injection HA as <-.
    rewrite (IH t (L1 ++ [x]) ws' fuel); [done|by rewrite <- app_assoc|done|lia].
  - cbn [mbind option_bind] in HA |- *. destruct (assemble_list (L.*2)) as [ws'|] eqn:EA; [|done]. injection HA as <-.
    rewrite (IH t (L1 ++ [x]) ws' fuel); [done|by rewrite <- app_assoc|done|lia].
Qed.

Lemma assemble_count l ws : assemble_list l = Some ws → Z.of_nat (length ws) = words l.
Proof.
  revert ws. induction l as [|c l IH]; intros ws H; [by injection H as <-|]. cbn [assemble_list] in H.
  rewrite words_cons, words_one. destruct (has_word c.1); [destruct (word_of c); [|done]|];
    cbn [mbind option_bind] in H; (destruct (assemble_list l) as [ws'|]; [|done]); injection H as <-;
    rewrite <- (IH ws' eq_refl); simpl length; lia.
Qed.

(** ** Where labels are *)

(** [c] places label [k]. *)
Definition label_at (k : Z) (c : code_inst) : Prop :=
  c.1 = LISA_LABEL ∧ ∃ o, c.2 !! 0%nat = Some o ∧ ir2_opnd_label_id o = k.

Section labels.
Context (imm : bool) (ls : Z).

Lemma has_word_pseudo op : op = LISA_CODE ∨ LISA_PSEUDO_END < op → op ≠ LISA_LABEL.
Proof using Type. intros [->|H]; [by vm_compute|]. intros ->. by vm_compute in H. Qed.

Lemma placed_props c s out s' :
  placed imm ls c s = Some (out, s') →
  counter s' = counter s + words out ∧ Forall is_placed out ∧
  (label s' = label s ∧ Forall (λ c, c.1 ≠ LISA_LABEL) out ∨
   ∃ o, out = [c] ∧ c.1 = LISA_LABEL ∧ c.2 !! 0%nat = Some o ∧ aget (label s) (ir2_opnd_label_id o) = Some (-1) ∧
     aset (label s) (ir2_opnd_label_id o) (counter s << 2) = Some (label s')).
Proof using Type.
  unfold placed. destruct (Z.eqb_spec c.1 LISA_LABEL) as [E|N].
  { destruct (c.2 !! 0%nat) as [o|] eqn:EO; [|done]. cbn [mbind option_bind]. unfold place_label.
    destruct (aget (label s) _) as [old|] eqn:EA; [|done]. cbn [mbind option_bind].
    destruct (Z.eqb_spec old (-1)) as [->|]; [|done]. destruct (aset _ _ _) as [l|] eqn:ES; [|done].
    intros [= <- <-]. split_and!.
    - rewrite words_one, E. simpl. lia.
    - constructor; [|constructor]. unfold is_placed. by rewrite E.
    - right. by exists o. }
  destruct (Z.ltb_spec LISA_PSEUDO_END c.1) as [Hl|Hl].
  { intros [= <- <-]. assert (W : has_word c.1 = true).
    { unfold has_word. rewrite (proj2 (Z.eqb_neq _ _)) by done. rewrite (proj2 (Z.eqb_neq _ _)); [done|].
      intros X. rewrite X in Hl. by vm_compute in Hl. }
    split_and!; [by rewrite words_one, W| |left].
    - constructor; [|constructor]. by right.
    - split; [done|]. by constructor. }
  destruct (relocated imm ls c.1 c.2 s) as [[[l|] s1]|] eqn:R; [| |done]; cbn [mbind option_bind default]; intros [= <- <-].
  - apply relocated_counted in R as (F & C & E). split_and!.
    + rewrite C, words_all; [done|]. eapply list.Forall_impl; [exact F|]. by intros x (_ & ? & _).
    + eapply list.Forall_impl; [exact F|]. intros x (_ & _ & Hx) _. exact Hx.
    + left. split; [done|]. eapply list.Forall_impl; [exact F|]. intros x (_ & _ & Hx). by apply has_word_pseudo.
  - apply relocated_stays in R as [-> E]. split_and!.
    + rewrite words_one, E. simpl. lia.
    + constructor; [|constructor]. unfold is_placed. by rewrite E.
    + left. split; [done|]. constructor; [done|constructor].
Qed.
End labels.

Lemma aget_aset {A} (l l' : list A) i x k : aset l i x = Some l' → aget l' k = if k =? i then Some x else aget l k.
Proof.
  unfold aset, aget. destruct ((i <? 0) || _) eqn:C; [done|]. intros [= <-].
  apply orb_false_iff in C as [C1 C2]. apply Z.ltb_ge in C1. apply Z.leb_gt in C2.
  destruct (Z.eqb_spec k i) as [->|N].
  - rewrite (proj2 (Z.ltb_ge _ _)) by lia. apply list_lookup_insert_eq. lia.
  - destruct (Z.ltb_spec k 0); [done|]. apply list_lookup_insert_ne. lia.
Qed.

Section labels_placed.
Context (imm : bool) (ls : Z).

(** A label keeps its offset. *)
Lemma place_keeps l : ∀ s D s' k v,
  place_list imm ls l s = Some (D, s') → aget (label s) k = Some v → v ≠ -1 → aget (label s') k = Some v.
Proof using Type.
  induction l as [|c l IH]; intros s D s' k v H E N; [by injection H as <- <-|]. cbn [place_list] in H.
  destruct (placed imm ls c s) as [[out s1]|] eqn:P; [|done]. cbn [mbind option_bind] in H.
  destruct (place_list imm ls l s1) as [[r s2]|] eqn:R; [|done]. injection H as <- <-.
  apply (IH s1 r); [done| |done]. apply placed_props in P as (_ & _ & [[-> _]|(o & _ & _ & _ & EO & ES)]); [done|].
  rewrite (aget_aset _ _ _ _ k ES). destruct (Z.eqb_spec k (ir2_opnd_label_id o)) as [->|]; [congruence|done].
Qed.

Lemma place_counts l : ∀ s D s',
  place_list imm ls l s = Some (D, s') → counter s' = counter s + words D ∧ Forall is_placed D.
Proof using Type.
  induction l as [|c l IH]; intros s D s' H; [injection H as <- <-; split; [unfold words; simpl; lia|done]|].
  cbn [place_list] in H. destruct (placed imm ls c s) as [[out s1]|] eqn:P; [|done]. cbn [mbind option_bind] in H.
  destruct (place_list imm ls l s1) as [[r s2]|] eqn:R; [|done]. injection H as <- <-.
  apply placed_props in P as (C & F & _). apply IH in R as [C' F']. rewrite words_app, Forall_app. split; [lia|done].
Qed.

(** The offset of a label is that of the words before it ... *)
Lemma place_labels l : ∀ s D s' pre c post k,
  place_list imm ls l s = Some (D, s') → 0 <= counter s → D = pre ++ c :: post → label_at k c →
  aget (label s') k = Some ((counter s + words pre) << 2).
Proof using Type.
  induction l as [|c0 l IH]; intros s D s' pre c post k H C0 ED LA; [injection H as <- <-; by destruct pre|].
  cbn [place_list] in H. destruct (placed imm ls c0 s) as [[out s1]|] eqn:P; [|done]. cbn [mbind option_bind] in H.
  destruct (place_list imm ls l s1) as [[r s2]|] eqn:R; [|done]. injection H as HD <-. rewrite ED in HD.
  apply placed_props in P as (C & F & HL). pose proof (words_nonneg out) as W0.
  assert (T : ∀ pre', pre = out ++ pre' → r = pre' ++ c :: post → aget (label s2) k = Some ((counter s + words pre) << 2)).
  { intros pre' -> Er. rewrite words_app, Z.add_assoc, <- C. eapply IH; [done|lia|done|done]. }
  destruct LA as (E1 & o & E2 & E3). destruct HL as [[EL NL]|(o' & -> & _ & EO & EA & ES)].
  - apply app_eq_app in HD as (x & [[-> Ex]|[-> Ex]]).
    + destruct x as [|y x]; [eapply (T []); [by rewrite !app_nil_r|done]|]. injection Ex as -> ->.
      exfalso. apply Forall_app in NL as [_ NL]. by inversion NL.
    + by eapply T.
  - destruct pre as [|y pre]; [|injection HD as -> Hr; by apply (T pre)]. injection HD as -> ->.
    assert (o' = o) as -> by congruence. rewrite E3 in *.
    apply (place_keeps _ _ _ _ k _ R); [|unfold words; simpl; rewrite Z.shiftl_mul_pow2 by lia; lia].
    rewrite (aget_aset _ _ _ _ k ES), Z.eqb_refl. unfold words. simpl. by rewrite Z.add_0_r.
Qed.

(** ... and every offset is that of a label. *)
Lemma place_found l : ∀ s D s' k v,
  place_list imm ls l s = Some (D, s') → aget (label s') k = Some v → aget (label s) k ≠ Some v →
  ∃ pre c post, D = pre ++ c :: post ∧ label_at k c ∧ v = (counter s + words pre) << 2.
Proof using Type.
  induction l as [|c0 l IH]; intros s D s' k v H E N; [by injection H as <- <-|].
  cbn [place_list] in H. destruct (placed imm ls c0 s) as [[out s1]|] eqn:P; [|done]. cbn [mbind option_bind] in H.
  destruct (place_list imm ls l s1) as [[r s2]|] eqn:R; [|done]. injection H as <- <-.
  apply placed_props in P as (C & F & HL). destruct (decide (aget (label s1) k = Some v)) as [E1|N1].
  - destruct HL as [[EL _]|(o & -> & EC & EO & EA & ES)]; [congruence|].
    rewrite (aget_aset _ _ _ _ k ES) in E1. destruct (Z.eqb_spec k (ir2_opnd_label_id o)) as [->|]; [|congruence].
    injection E1 as <-. exists [], c0, r. split_and!; [done| |unfold words; simpl; by rewrite Z.add_0_r].
    split; [done|]. by exists o.
  - destruct (IH s1 r s2 k v R E N1) as (pre & c & post & -> & LA & ->). exists (out ++ pre), c, post.
    rewrite <- app_assoc, words_app, Z.add_assoc, <- C. done.
Qed.
End labels_placed.

(** ** Branches *)

Lemma resolved_opcode lab n c c' : resolved_inst lab n c = Some c' → c'.1 = c.1.
Proof.
  unfold resolved_inst. destruct (label_opnd c.1) as [k|]; [|congruence]. intros H. chain H. by injection H as <-.
Qed.

Lemma resolve_words lab l : ∀ n D, resolve_list lab n l = Some D → words D = words l ∧ length D = length l.
Proof.
  induction l as [|c l IH]; intros n D H; [by injection H as <-|]. cbn [resolve_list] in H.
  destruct (resolved_inst lab n c) as [c'|] eqn:E; [|done]. cbn [mbind option_bind] in H.
  destruct (resolve_list _ _ l) as [r|] eqn:R; [|done]. injection H as <-. apply IH in R as [W L].
  rewrite (words_cons c'), (words_cons c), !words_one, (resolved_opcode _ _ _ _ E). simpl. split; [lia|by rewrite L].
Qed.

Lemma resolve_at lab pre c post : ∀ n D,
  resolve_list lab n (pre ++ c :: post) = Some D →
  ∃ pre' c' post', D = pre' ++ c' :: post' ∧ words pre' = words pre ∧ resolved_inst lab (n + words pre) c = Some c'.
Proof.
  induction pre as [|x pre IH]; intros n D H; cbn [app resolve_list] in H.
  - destruct (resolved_inst lab n c) as [c'|] eqn:E; [|done]. cbn [mbind option_bind] in H.
    destruct (resolve_list _ _ post) as [r|] eqn:R; [|done]. injection H as <-. exists [], c', r.
    unfold words at 3. simpl. by rewrite Z.add_0_r.
  - destruct (resolved_inst lab n x) as [x'|] eqn:E; [|done]. cbn [mbind option_bind] in H.
    destruct (resolve_list _ _ (pre ++ c :: post)) as [r|] eqn:R; [|done]. injection H as <-.
    destruct (IH _ _ R) as (pre' & c' & post' & -> & W & EC). exists (x' :: pre'), c', post'.
    rewrite (words_cons x'), (words_cons x), !words_one, (resolved_opcode _ _ _ _ E), W.
    split_and!; [done..|]. by rewrite words_one, <- Z.add_assoc in EC.
Qed.

Lemma assemble_at pre c post : ∀ ws,
  assemble_list (pre ++ c :: post) = Some ws → has_word c.1 = true →
  ∃ w, word_of c = Some w ∧ ws !! Z.to_nat (words pre) = Some w.
Proof.
  induction pre as [|x pre IH]; intros ws H W; cbn [app assemble_list] in H.
  - rewrite W in H. destruct (word_of c) as [w|]; [|done]. cbn [mbind option_bind] in H.
    destruct (assemble_list post); [|done]. injection H as <-. by exists w.
  - rewrite words_cons, words_one. pose proof (words_nonneg pre) as Hp. destruct (has_word x.1).
    + destruct (word_of x) as [wx|]; [|done]. cbn [mbind option_bind] in H.
      destruct (assemble_list (pre ++ c :: post)) as [ws'|]; [|done]. injection H as <-.
      destruct (IH ws' eq_refl W) as (w & E & L). exists w. split; [done|].
      by rewrite Z2Nat.inj_add by lia.
    + cbn [mbind option_bind] in H. destruct (assemble_list (pre ++ c :: post)) as [ws'|]; [|done]. injection H as <-.
      by apply IH.
Qed.

(** The distance of a branch in words, as the machine reads it. *)
Definition branch_disp (w : Z) : option Z :=
  '(op, fields) ← decode w;
  k ← label_opnd op;
  r ← lisa_format_table op;
  f ← fields !! k;
  p ← places r !! k;
  Some (swrap (width p) f).

(** Its field has at least 16 bits. *)
Definition branch_row_ok (op : Z) : bool :=
  match label_opnd op, lisa_format_table op with
  | Some k, Some r =>
      match places r !! k with Some p => (16 <=? width p) && (width p <=? 32) && negb (op =? LISA_CODE) && has_word op | None => false end
  | _, _ => true
  end.

Lemma branch_rows_ok : forallb (λ n, branch_row_ok (LISA_INVALID + Z.of_nat n)) (seq 0 (length lisa_templates)) = true.
Proof. vm_compute. reflexivity. Qed.

Lemma branch_row op k r :
  label_opnd op = Some k → lisa_format_table op = Some r →
  ∃ p, places r !! k = Some p ∧ 16 <= width p <= 32 ∧ op ≠ LISA_CODE ∧ has_word op = true.
Proof.
  intros K R. pose proof (row_range _ _ R) as B. pose proof branch_rows_ok as C. rewrite forallb_forall in C.
  specialize (C (Z.to_nat (op - LISA_INVALID))). change LISA_INVALID with 128 in C.
  rewrite Z2Nat.id, Zplus_minus in C by lia.
  assert (I : branch_row_ok op = true) by (apply C, in_seq; change (length lisa_templates) with 2628%nat; lia).
  unfold branch_row_ok in I. rewrite K, R in I. destruct (places r !! k) as [p|]; [|done]. exists p.
  rewrite !andb_true_iff, !Z.leb_le, negb_true_iff, Z.eqb_neq in I. tauto.
Qed.

(** [label_dispose] on the array. *)
Lemma label_dispose_ok blank moved imm ls tb tb' t x L D s D' :
  shows t L → place_list imm ls (L.*2) (start t x) = Some (D, s) →
  match tb with Some b => Some <$> link_offsets (label s) b | None => Some None end = Some tb' →
  resolve_list (label s) 0 D = Some D' → Z.of_nat (ir2_inst_num_current t) + Z.of_nat (length D) <= 2 ^ 15 →
  ∃ t' L', label_dispose blank moved imm ls tb t x = Some (words D', tb', t', s) ∧ shows t' L' ∧ L'.*2 = D'.
Proof.
  intros H HP HT HR B. unfold label_dispose. pose proof (shows_length _ _ H) as HL.
  destruct (dispose_ok blank moved imm ls L t [] (start t x) D s (S (ir2_inst_num_current t))) as (t1 & L1 & E1 & H1 & EL & N1);
    [done|done|lia|done|]. destruct (shows_ends _ _ H) as [-> _]. rewrite E1. cbn [mbind option_bind].
  rewrite HT. cbn [mbind option_bind]. pose proof (shows_length _ _ H1) as HL1. simpl in H1, HL1.
  destruct (branch_ok (label s) L1 t1 [] 0 D' (S (ir2_inst_num_current t1))) as (t2 & L2 & E2 & H2 & EL2 & N2);
    [done|by rewrite EL| |lia|]. { rewrite EL. by eapply place_counts. }
  destruct (shows_ends _ _ H1) as [-> _]. rewrite E2. cbn [mbind option_bind].
  exists t2, L2. rewrite EL, Z.add_0_l. destruct (resolve_words _ _ _ _ HR) as [-> _]. done.
Qed.

Lemma label_opnd_row op k : label_opnd op = Some k → is_Some (lisa_format_table op).
Proof.
  intros H. apply aget_is_Some. change (Z.of_nat (length lisa_templates)) with 2628. change LISA_INVALID with 128.
  unfold label_opnd in H. destruct (_ || _) eqn:E; [|done]. clear H. revert E.
  unfold ir2_opcode_is_branch, ir2_opcode_is_f_branch, LISA_BEQZ, LISA_BCNEZ, LISA_B, LISA_BGEU, LISA_FAR_JUMP, LISA_BCEQZ.
  rewrite !orb_true_iff, !andb_true_iff, !Z.leb_le, !Z.eqb_eq. lia.
Qed.

(** The word of a branch whose operand is the distance [d]. *)
Lemma branch_word c k d w :
  label_opnd c.1 = Some k → c.2 !! k = Some (mkOpnd2 IR2_OPND_IMM (u32 d)) → in_s 16 d → word_of c = Some w →
  branch_disp w = Some d.
Proof.
  intros HK HO Hd HW. destruct (label_opnd_row _ _ HK) as [r R].
  destruct (branch_row _ _ _ HK R) as (p & EP & W & NC & _).
  destruct (assemble_decodes (mkIR2 c.1 0 0 0 (Z.of_nat (length c.2)) c.2) _ NC HW) as [_ DE]. unfold branch_disp. rewrite DE. cbn [mbind option_bind _opcode].
  rewrite HK. cbn [mbind option_bind]. rewrite R. cbn [mbind option_bind]. unfold encoded_opnds. cbn [_opcode _opnd].
  rewrite R, lookup_zip_with, EP. cbn [mbind option_bind]. rewrite HO. simpl. f_equal.
  rewrite u32_mod_le, swrap_of_mod by lia. apply swrap_id; [lia|]. unfold in_s in *.
  assert (2 ^ 15 <= 2 ^ (width p - 1)) by (apply Z.pow_le_mono_r; lia). lia.
Qed.

(** What a label operand becomes. *)
Lemma resolved_label lab n c c' k o :
  resolved_inst lab n c = Some c' → label_opnd c.1 = Some k → c.2 !! k = Some o → ir2_opnd_is_label o = true →
  ∃ l, aget lab (_label_id o) = Some l ∧ l ≠ -1 ∧ c'.1 = c.1 ∧
    c'.2 !! k = Some (mkOpnd2 IR2_OPND_IMM (u32 ((l >> 2) - n))).
Proof.
  unfold resolved_inst. intros H HK HO HL. rewrite HK, HO in H. cbn [mbind option_bind] in H. unfold resolved in H.
  rewrite HL in H. destruct (0 <=? _label_id o); [|done].
  destruct (aget lab (_label_id o)) as [l|]; [|done]. cbn [mbind option_bind] in H.
  destruct (Z.eqb_spec l (-1)); [done|]. unfold ir2_opnd_convert_label_to_imm in H. rewrite HL in H. simpl in H.
  injection H as <-. exists l. split_and!; [done..|]. cbn [snd]. by rewrite list_lookup_alter_eq, HO.
Qed.

(** C10 Branches reach their labels.  If the pseudo instructions of the list can be placed
    and every label a branch names is placed, then [label_dispose] followed by
    [tr_ir2_assemble] succeeds, returns the number of words that are written, and the word
    of a branch to a label encodes the distance in words from itself to the word that
    follows the label; labels before and behind the branch, every kind of branch. *)
Theorem label_dispose_reaches blank moved imm ls tb tb' t x L D s D' ws pre c post k o :
  shows t L → place_list imm ls (L.*2) (start t x) = Some (D, s) →
  match tb with Some b => Some <$> link_offsets (label s) b | None => Some None end = Some tb' →
  resolve_list (label s) 0 D = Some D' → Z.of_nat (ir2_inst_num_current t) + Z.of_nat (length D) <= 2 ^ 15 →
  assemble_list D' = Some ws → D = pre ++ c :: post → label_opnd c.1 = Some k → c.2 !! k = Some o →
  ir2_opnd_is_label o = true →
  ∃ t' w pre2 c2 post2,
    label_dispose blank moved imm ls tb t x = Some (Z.of_nat (length ws), tb', t', s) ∧ tr_ir2_assemble t' = Some ws ∧
    D = pre2 ++ c2 :: post2 ∧ label_at (_label_id o) c2 ∧
    ws !! Z.to_nat (words pre) = Some w ∧ branch_disp w = Some (words pre2 - words pre).
Proof.
  intros H HP HT HR B HA ED HK HO HL.
  destruct (label_dispose_ok blank moved imm ls tb tb' t x L D s D' H HP HT HR B) as (t' & L' & E & H' & EL).
  rewrite ED in HR. destruct (resolve_at _ _ _ _ _ _ HR) as (pre' & c' & post' & ED' & WP & RI).
  destruct (resolved_label _ _ _ _ _ _ RI HK HO HL) as (l & EA & Nl & EC & EO).
  destruct (place_found imm ls _ _ _ _ (_label_id o) l HP EA) as (pre2 & c2 & post2 & E2 & LA & ->).
  { simpl. intros X. apply aget_Some in X as [_ X]. apply lookup_replicate in X as [-> _]. done. }
  simpl counter in *. rewrite Z.shiftr_shiftl_l, Z.shiftl_0_r in EO by lia.
  destruct (label_opnd_row _ _ HK) as [r R]. destruct (branch_row _ _ _ HK R) as (_ & _ & _ & _ & HW).
  rewrite ED' in HA. destruct (assemble_at _ _ _ _ HA) as (w & Ew & Lw); [by rewrite EC|].
  exists t', w, pre2, c2, post2. rewrite (assemble_count _ _ HA), <- ED'. rewrite WP in Lw. split_and!; try done.
  - unfold tr_ir2_assemble. destruct (shows_ends _ _ H') as [-> _]. apply (assemble_ok L' t' [] ws); [done| |].
    + by rewrite EL, ED'.
    + apply shows_length in H'. lia.
  - rewrite <- EC in HK. eapply branch_word; [exact HK|exact EO| |exact Ew].
    assert (LE : words pre2 + 1 <= Z.of_nat (length D) ∧ words pre <= Z.of_nat (length D)).
    { rewrite E2 at 1. rewrite ED, !length_app. simpl length. pose proof (words_le pre2). pose proof (words_le pre). lia. }
    pose proof (words_nonneg pre). pose proof (words_nonneg pre2). unfold in_s. lia.
Qed.

(** ** Padding and far jumps *)

Lemma align_pad_ok a : ∀ fuel c,
  0 < a → 0 <= c → c + Z.of_nat fuel < 2 ^ 32 → (∃ j, 0 <= j <= Z.of_nat fuel ∧ (c + j) mod a = 0) →
  ∃ n, align_pad fuel c a = Some n ∧ (c + Z.of_nat n) mod a = 0 ∧
    ∀ j, 0 <= j < Z.of_nat n → (c + j) mod a ≠ 0.
Proof.
  induction fuel as [|fuel IH]; intros c Ha Hc Hb (j & Hj & Ej); simpl; unfold u32 at 1;
    rewrite uwrap_id by (unfold in_u; lia).
  - replace j with 0 in Ej by lia. rewrite Z.add_0_r in Ej. rewrite Ej. exists 0%nat. simpl. rewrite Z.add_0_r.
    split_and!; [done|done|lia].
  - destruct (Z.eqb_spec (c mod a) 0) as [E|N].
    + exists 0%nat. simpl. rewrite Z.add_0_r. split_and!; [done|done|lia].
    + destruct (IH (c + 1)) as (n & En & E & M); [lia..| |].
      { exists (j - 1). assert (j ≠ 0) by (intros ->; by rewrite Z.add_0_r in Ej). split; [lia|].
        by replace (c + 1 + (j - 1)) with (c + j) by lia. }
      rewrite En. exists (S n). split_and!; [done|by replace (c + Z.of_nat (S n)) with (c + 1 + Z.of_nat n) by lia|].
      intros i Hi. destruct (decide (i = 0)) as [->|]; [by rewrite Z.add_0_r|].
      replace (c + i) with (c + 1 + (i - 1)) by lia. apply M. lia.
Qed.

(** ALIGN: the padding is the least that makes the number of words before the next
    instruction a multiple of the operand. *)
Theorem align_aligns imm ls a v s :
  0 < a < 2 ^ 31 → 0 <= counter s < 2 ^ 31 → 
  ∃ n s', relocated imm ls LISA_ALIGN [pseudo a; pseudo v] s = Some (Some (replicate n (code_word (u32 v))), s') ∧
    counter s' = counter s + Z.of_nat n ∧ counter s' mod a = 0 ∧ Z.of_nat n < a.
Proof.
  intros Ha Hc. destruct (align_pad_ok a (Z.to_nat a) (counter s)) as (n & En & E & M); [lia..| |].
  { exists ((- counter s) mod a). pose proof (Z.mod_pos_bound (- counter s) a ltac:(lia)). split; [lia|].
    rewrite Zplus_mod_idemp_r. by replace (counter s + - counter s) with 0 by lia. }
  exists n, (count (Z.of_nat n) s).
  assert (Ea : u32 a = a) by (apply uwrap_id; unfold in_u; lia).
  split_and!; [|done|done|].
  - unfold relocated. replace (LISA_ALIGN =? LISA_ACCL) with false by done. rewrite Z.eqb_refl.
    cbn [lookup list_lookup mbind option_bind]. unfold pseudo, create_ir2_opnd, ir2_opnd_is_pseudo, ir2_opnd_val. simpl.
    rewrite Ea, (proj2 (Z.eqb_neq _ _)) by lia. simpl. by rewrite En.
  - destruct (Z.lt_ge_cases (Z.of_nat n) a) as [|G]; [done|]. exfalso.
    apply (M (Z.of_nat n - a)); [lia|]. rewrite <- E.
    replace (counter s + Z.of_nat n) with (counter s + (Z.of_nat n - a) + 1 * a) by lia. by rewrite Z_mod_plus_full.
Qed.

(** The halves of a distance of [q] instructions. *)
Lemma halves_ok q :
  - 2 ^ 35 <= q + 2 ^ 15 < 2 ^ 35 →
  let lower := s16 q in
  let upper := (q - lower) >> 16 in
  s32 upper = upper ∧ in_s 20 upper ∧ in_s 16 lower ∧ upper * 2 ^ 16 + lower = q.
Proof.
  intros B. cbv zeta. unfold s16, swrap. change (2 ^ (16 - 1)) with 32768. change (2 ^ 16) with 65536.
  pose proof (Z.div_mod (q + 32768) 65536 ltac:(lia)) as DM.
  pose proof (Z.mod_pos_bound (q + 32768) 65536 ltac:(lia)) as MB.
  set (u := (q + 32768) / 65536) in *. set (m := (q + 32768) mod 65536) in *.
  assert (E : (q - (m - 32768)) >> 16 = u).
  { rewrite Z.shiftr_div_pow2 by lia. replace (q - (m - 32768)) with (u * 2 ^ 16) by lia. by apply Z.div_mul. }
  rewrite E. unfold in_s. split_and!; try lia. apply swrap_id; [lia|]. unfold in_s. lia.
Qed.

Lemma temp_for_jump imm s u :
  temps_repr imm s u → held_i u = ∅ →
  ∃ tmp x y, ra_alloc_itemp imm s = Some (tmp, x) ∧ _type tmp = IR2_OPND_GPR ∧ ra_free_temp x tmp = Some y.
Proof.
  intros R H0. pose proof (alloc_itemp_refines imm s u R) as A. rewrite H0 in A.
  destruct (pool_alloc reg_itemp_map ∅) as [[r h]|] eqn:P; [|by vm_compute in P].
  destruct A as (s' & E & R'). unfold pool_alloc in P. simpl in P. injection P as <- <-.
  pose proof (free_temp_refines imm s' _ (mkOpnd2 IR2_OPND_GPR (u32 la_t0)) R') as F.
  exists (mkOpnd2 IR2_OPND_GPR (u32 la_t0)), s'. unfold use_step, pool_free in F. cbn [_type held_i] in F.
  rewrite decide_True in F by set_solver. destruct F as (y & Ey & _). by exists y.
Qed.

Lemma built_row name r args os :
  row_of name = Some r → constructor_opnds r args = Some os → built name args = Some (lisa name, os).
Proof. intros R C. unfold built. rewrite R. cbn [mbind option_bind]. by rewrite C. Qed.

Lemma jump_pair_ok imm s u rd q :
  temps_repr imm (r_temps s) u → held_i u = ∅ → _type rd = IR2_OPND_GPR → - 2 ^ 35 <= q + 2 ^ 15 < 2 ^ 35 →
  ∃ i0 i1 s', jump_pair imm s rd q = Some ([i0; i1], s') ∧ jump_disp [i0; i1] = Some (4 * q) ∧
    counter s' = counter s + 2.
Proof.
  intros R H0 Trd B. destruct (temp_for_jump imm _ u R H0) as (tmp & x & y & EA & TT & EF).
  destruct (halves_ok q B) as (E32 & Bu & Bl & Eq). cbv zeta in *. unfold jump_pair.
  set (lower := s16 q) in *. set (upper := (q - lower) >> 16) in *. rewrite EA. cbn [mbind option_bind]. rewrite E32.
  rewrite (built_row "pcaddu18i" (row "pcaddu18i" 0x1e000000 [GPR_RD; IMM_SI20]) _ [tmp; create_immh_opnd upper]);
    [|vm_compute; reflexivity|by apply pcaddu18i_opnds]. cbn [mbind option_bind].
  rewrite (built_row "jirl" (row "jirl" 0x4c000000 [GPR_RD; GPR_RJ; IMM_OFFS]) _ [rd; tmp; create_immh_opnd lower]);
    [|vm_compute; reflexivity|].
  2:{ unfold constructor_opnds. simpl. unfold generatingCheck, ir2_opnd_is_ireg. simpl. by rewrite Trd, TT. }
  cbn [mbind option_bind]. rewrite EF. cbn [mbind option_bind]. do 3 eexists. split_and!; [done| |done].
  unfold jump_disp. replace (lisa "pcaddu18i" =? LISA_PCADDU18I) with true by (vm_compute; reflexivity).
  replace (lisa "jirl" =? LISA_JIRL) with true by (vm_compute; reflexivity). rewrite opnd_cmp_refl. simpl. f_equal.
  rewrite !swrap_u32, (swrap_id 20), (swrap_id 16) by (done || lia). lia.
Qed.

Lemma near_jump_ok q :
  q = sextract64 q 0 26 →
  ∃ o i0 i1, ir2_opnd_build IR2_OPND_IMM (s32 q) = Some o ∧ built "b" [AOpnd o] = Some i0 ∧
    built "andi" [AOpnd zero_ir2_opnd; AOpnd zero_ir2_opnd; AImm 0] = Some i1 ∧ jump_disp [i0; i1] = Some (4 * q).
Proof.
  intros Eq. exists (mkOpnd2 IR2_OPND_IMM (u32 (s32 q))). do 2 eexists. split_and!.
  - reflexivity.
  - eapply (built_row "b" (row "b" 0x50000000 [IMM_OFFLL])); [vm_compute; reflexivity|reflexivity].
  - eapply (built_row "andi" (row "andi" 0x03400000 [GPR_RD; GPR_RJ; IMM_UI12])); [vm_compute; reflexivity|reflexivity].
  - unfold jump_disp. replace (lisa "b" =? LISA_B) with true by (vm_compute; reflexivity). simpl. f_equal.
    rewrite swrap_u32, swrap_s32 by lia. unfold sextract64 in Eq. rewrite Z.shiftr_0_r in Eq. lia.
Qed.

(** Far jumps ([LISA_FAR_JUMP], [LISA_JUMP_EPILOGUE]) reach their target: for a
    target address that is a multiple of 4 away, within 128 GiB, and with the temporaries
    free, two instructions replace the pseudo instruction, B and a NOP or PCADDU18I and
    JIRL, which jump exactly by the distance from the first of them to the target. *)
Theorem far_jump_reaches imm ls op s u o0 o1 target base d :
  op = LISA_FAR_JUMP ∨ op = LISA_JUMP_EPILOGUE → temps_repr imm (r_temps s) u → held_i u = ∅ →
  ir2_opnd_is_data o0 = true → ir2_opnd_is_data o1 = true →
  data_at s o0 = Some target → data_at s o1 = Some base → s64 (target - (4 * counter s + base)) = d →
  d mod 4 = 0 → - 2 ^ 37 <= d + 2 ^ 17 < 2 ^ 37 →
  ∃ i0 i1 s', relocated imm ls op [o0; o1] s = Some (Some [i0; i1], s') ∧ jump_disp [i0; i1] = Some d ∧
    counter s' = counter s + 2.
Proof.
  intros Hop R H0 D0 D1 ET EB Ed M4 B.
  assert (IO : insn_offset s o0 o1 = Some (d / 4)).
  { unfold insn_offset. rewrite ET. cbn [mbind option_bind]. rewrite EB. cbn [mbind option_bind].
    rewrite Z.shiftl_mul_pow2, (Z.mul_comm (counter s)) by lia. change (2 ^ 2) with 4. rewrite Ed. f_equal.
    by rewrite Z.shiftr_div_pow2 by lia. }
  assert (E4 : 4 * (d / 4) = d) by (pose proof (Z.div_mod d 4); lia).
  set (q := d / 4) in *. assert (BQ : - 2 ^ 35 <= q + 2 ^ 15 < 2 ^ 35) by lia.
  rewrite <- E4. unfold relocated. destruct Hop as [-> | ->]; cbn [lookup list_lookup mbind option_bind].
  - replace (LISA_FAR_JUMP =? LISA_ACCL) with false by done. replace (LISA_FAR_JUMP =? LISA_ALIGN) with false by done.
    rewrite Z.eqb_refl, D0, D1. cbn [andb]. rewrite IO. cbn [mbind option_bind].
    destruct (Z.eqb_spec q (sextract64 q 0 26)) as [Eq|].
    + destruct (near_jump_ok q Eq) as (o & i0 & i1 & -> & E0 & E1 & J). cbn [mbind option_bind].
      rewrite E0. cbn [mbind option_bind]. rewrite E1. by exists i0, i1, (count 2 s).
    + destruct (jump_pair_ok imm s u zero_ir2_opnd q R H0 eq_refl BQ) as (i0 & i1 & s' & -> & J & C).
      by exists i0, i1, s'.
  - replace (LISA_JUMP_EPILOGUE =? LISA_ACCL) with false by done. replace (LISA_JUMP_EPILOGUE =? LISA_ALIGN) with false by done.
    replace (LISA_JUMP_EPILOGUE =? LISA_FAR_JUMP) with false by done.
    replace (LISA_JUMP_EPILOGUE =? LISA_PCADDI_RELOCATE) with false by done.
    rewrite Z.eqb_refl, D0, D1. cbn [andb]. rewrite IO. cbn [mbind option_bind].
    destruct (jump_pair_ok imm s u a0_ir2_opnd q R H0 eq_refl BQ) as (i0 & i1 & s' & -> & J & C).
    by exists i0, i1, s'.
Qed.

(** ** Boundaries *)

Definition is_x86 (c : code_inst) : bool := c.1 =? LISA_X86_INST.
Definition markers (l : list code_inst) : Z := Z.of_nat (length (filter (λ c, is_x86 c = true) l)).

Lemma markers_cons c l : markers (c :: l) = (if is_x86 c then 1 else 0) + markers l.
Proof. unfold markers. rewrite filter_cons. destruct (is_x86 c); simpl; lia. Qed.

Lemma markers_nonneg l : 0 <= markers l.
Proof. unfold markers. lia. Qed.

Lemma aset_some {A} (l : list A) i x : 0 <= i < Z.of_nat (length l) → is_Some (aset l i x).
Proof.
  intros H. unfold aset. rewrite (proj2 (Z.ltb_ge _ _)), (proj2 (Z.leb_gt _ _)) by lia. done.
Qed.

(** [pre] ends where an x86 instruction begins, or at the end. *)
Definition cut (post : list code_inst) : Prop := match post with [] => True | c :: _ => is_x86 c = true end.

(** Recording the end of instruction [x86]. *)
Lemma mark_end (off : list Z) x86 v :
  -1 <= x86 < Z.of_nat (length off) →
  ∃ off', (if x86 =? -1 then Some off else aset off x86 v) = Some off' ∧ length off' = length off ∧
    (∀ j, j < x86 → aget off' j = aget off j) ∧ (0 <= x86 → aget off' x86 = Some v).
Proof.
  intros B. destruct (Z.eqb_spec x86 (-1)) as [->|]; [exists off; split_and!; [done..|lia]|].
  destruct (aset_some off x86 v) as [off' E]; [lia|]. exists off'.
  split_and!; [done|by eapply aset_length|..]; intros; rewrite (aget_aset _ _ _ _ _ E).
  - by rewrite (proj2 (Z.eqb_neq _ _)) by lia.
  - by rewrite Z.eqb_refl.
Qed.

(** [off'] holds the ends of the x86 instructions from [x86] on, the walk being [ir2] words
    after the beginning, and [off] before. *)
Definition bounds (l : list code_inst) (x86 ir2 : Z) (off off' : list Z) : Prop :=
  (∀ j, j < x86 → aget off' j = aget off j) ∧
  ∀ pre post, l = pre ++ post → cut post → 0 <= x86 + markers pre →
    aget off' (x86 + markers pre) = Some (u16 ((ir2 + words pre) << 2)).

Lemma bounds_nil x86 ir2 off off' :
  (∀ j, j < x86 → aget off' j = aget off j) → (0 <= x86 → aget off' x86 = Some (u16 (ir2 << 2))) → bounds [] x86 ir2 off off'.
Proof.
  intros A B. split; [done|]. intros [|] [|]; try done. unfold markers, words. simpl. rewrite !Z.add_0_r. auto.
Qed.

Lemma bounds_marker c l x86 ir2 off off1 off' :
  is_x86 c = true → (∀ j, j < x86 → aget off1 j = aget off j) → (0 <= x86 → aget off1 x86 = Some (u16 (ir2 << 2))) →
  bounds l (x86 + 1) ir2 off1 off' → bounds (c :: l) x86 ir2 off off'.
Proof.
  intros X A B [A' B']. split; [intros j Hj; rewrite A', A by lia; done|]. intros [|c' pre] post E C0 Hp.
  - unfold markers, words in *. simpl in *. rewrite !Z.add_0_r in *. rewrite A' by lia. auto.
  - injection E as <- E. rewrite markers_cons, words_cons, words_one, X in *.
    replace (has_word c.1) with false by (unfold is_x86 in X; apply Z.eqb_eq in X; by rewrite X).
    rewrite Z.add_0_l, Z.add_assoc in *. by apply (B' pre post).
Qed.

Lemma bounds_other c l x86 ir2 off off' :
  is_x86 c = false → bounds l x86 (ir2 + words [c]) off off' → bounds (c :: l) x86 ir2 off off'.
Proof.
  intros X [A B]. split; [done|]. intros [|c' pre] post E C0 Hp.
  - destruct post as [|c' post]; [done|]. injection E as <- _. simpl in C0. congruence.
  - injection E as <- E. rewrite markers_cons, X, Z.add_0_l in *. rewrite words_cons, Z.add_assoc. by apply (B pre post).
Qed.

Lemma boundary_ok L : ∀ t L1 x86 ir2 off fuel,
  shows t (L1 ++ L) → Forall is_placed (L.*2) → (length L < fuel)%nat → -1 <= x86 →
  x86 + markers (L.*2) < Z.of_nat (length off) →
  ∃ off', boundary_walk fuel t (head (L.*1)) x86 ir2 off = Some off' ∧ bounds (L.*2) x86 ir2 off off'.
Proof.
  induction L as [|x L IH]; intros t L1 x86 ir2 off fuel H HP Hf Hx Hm.
  { destruct (mark_end off x86 (u16 (ir2 << 2))) as (off' & E & _ & A & B); [unfold markers in Hm; simpl in Hm; lia|].
    exists off'. split; [by destruct fuel|by apply bounds_nil]. }
  destruct fuel as [|fuel]; [simpl in Hf; lia|]. rewrite fmap_cons in HP. inversion HP as [|? ? Px PL]; subst.
  rewrite fmap_cons, markers_cons in Hm. pose proof (markers_nonneg (L.*2)) as M0. simpl in Hf.
  destruct (shows_at _ _ _ _ H) as (i & Di & Ei & Oi). change (head ((x :: L).*1)) with (Some x.1).
  cbn [boundary_walk]. rewrite Di. cbn [mbind option_bind]. rewrite (shows_next _ _ _ _ H). cbn [mbind option_bind].
  rewrite Ei. fold (is_x86 x.2). assert (H' : shows t ((L1 ++ [x]) ++ L)) by (by rewrite <- app_assoc).
  rewrite fmap_cons. destruct (is_x86 x.2) eqn:X.
  - destruct (mark_end off x86 (u16 (ir2 << 2))) as (off1 & E1 & N1 & A1 & B1); [lia|]. rewrite E1. cbn [mbind option_bind].
    destruct (IH t _ (x86 + 1) ir2 off1 fuel H') as (off' & E' & B'); [done|lia..|]. exists off'.
    split; [done|]. by eapply bounds_marker.
  - assert (W : has_word x.2.1 = negb (x.2.1 =? LISA_LABEL)).
    { unfold has_word. unfold is_x86 in X. by rewrite X, orb_false_r. }
    pose proof (placed_check _ Px) as PC. rewrite W in PC.
    destruct (IH t _ x86 (ir2 + words [x.2]) off fuel H') as (off' & E' & B'); [done|lia..|]. exists off'.
    split; [|by apply bounds_other]. rewrite words_one, W in E'.
    destruct (x.2.1 =? LISA_LABEL); cbn [negb] in *; [by rewrite Z.add_0_r in E'|]. by rewrite PC.
Qed.

(** C20 The boundaries of x86 instructions: after [label_dispose], [boundary_set] records
    for the k-th marker the number of bytes of code before the next marker, or before the
    end of the block, modulo 2^16, and does not look outside its array. *)
Theorem boundary_set_ends t L off :
  shows t L → Forall is_placed (L.*2) → markers (L.*2) <= Z.of_nat (length off) →
  ∃ off', boundary_set t off = Some off' ∧
    ∀ pre post, L.*2 = pre ++ post → cut post → 1 <= markers pre →
      aget off' (markers pre - 1) = Some (u16 (4 * words pre)).
Proof.
  intros H HP HM. unfold boundary_set. destruct (shows_ends _ _ H) as [-> _]. pose proof (shows_length _ _ H) as HL.
  destruct (boundary_ok L t [] (-1) 0 off (S (ir2_inst_num_current t)) H HP) as (off' & E & _ & B); [lia..|].
  exists off'. split; [done|]. intros pre post EL C1 M1. specialize (B pre post EL C1 ltac:(lia)).
  rewrite Z.add_0_l, Z.shiftl_mul_pow2, Z.mul_comm in B by lia.
  by replace (markers pre - 1) with (-1 + markers pre) by lia.
Qed.

(** ** Cache lines *)

Definition nop_word : Z := 0x03400000.
Definition data_opnd (k : Z) : IR2_OPND := create_ir2_opnd IR2_OPND_DATA k.

(** Groups of one or two instructions, the only ones the translator asks for, are kept in
    one cache line. *)
Lemma accl_pad_two linesize off ninst :
  1 <= ninst <= 2 → 12 <= linesize < 2 ^ 31 → linesize mod 4 = 0 → 0 <= off < linesize → off mod 4 = 0 →
  ∃ n, accl_pad (Z.to_nat ninst) linesize off ninst = Some n ∧
    (off + 4 * Z.of_nat n) mod linesize + 4 * ninst <= linesize.
Proof.
  intros Hn Hl Ml Ho Mo. assert (U : ∀ k, 0 <= k <= 2 → u32 (linesize - u32 (k << 2)) = linesize - 4 * k).
  { intros k Hk. rewrite Z.shiftl_mul_pow2 by lia. unfold u32. rewrite !uwrap_id by (unfold in_u; rewrite ?uwrap_id by (unfold in_u; lia); lia). lia. }
  assert (D : ∀ x, x mod 4 = 0 → x = 4 * (x / 4)) by (intros x Hx; pose proof (Z.div_mod x 4); lia).
  apply D in Ml, Mo. assert (E0 : off mod linesize = off) by (apply Z.mod_small; lia).
  assert (Hcase : ninst = 1 ∨ ninst = 2) by lia. destruct Hcase as [-> | ->].
  - change (Z.to_nat 1) with 1%nat. cbn [accl_pad]. rewrite U by lia. rewrite (proj2 (Z.leb_le _ _)) by lia.
    exists 0%nat. rewrite Z.mul_0_r, Z.add_0_r. split; [done|lia].
  - change (Z.to_nat 2) with 2%nat. cbn [accl_pad]. change (u32 (2 - 1)) with 1. rewrite !U by lia.
    destruct (Z.leb_spec off (linesize - 4 * 2)).
    + exists 0%nat. rewrite Z.mul_0_r, Z.add_0_r. split; [done|lia].
    + rewrite (proj2 (Z.leb_le _ _)) by lia. exists 1%nat. split; [done|].
      replace (off + 4 * Z.of_nat 1) with (linesize * 1 + 0) by lia. rewrite Z.mul_1_r, Z.add_0_r, Z.mod_same by lia. lia.
Qed.

(** Three instructions are not kept in one line: at offset 56 of a line of 64 bytes
    [LISA_ACCL] inserts one word, where two are needed, and the group spans two lines. *)
Theorem accl_crosses x l :
  let s := mkRel x 14 l [0] [] [] in
  ∃ s', relocated false 64 LISA_ACCL [data_opnd 0; pseudo 3; pseudo nop_word] s = Some (Some [code_word nop_word], s') ∧
    (counter s' << 2) / 64 ≠ (((counter s' + 3) << 2) - 1) / 64.
Proof. intros s. exists (count 1 s). split; [reflexivity|done]. Qed.

(** ** Examples *)

Definition demo_blank : IR2_INST := mkIR2 0 0 0 0 0 [].

(** A branch over one instruction, forwards; the x86 marker and the label have no word. *)
Definition branch_code : list code_inst :=
  let l0 := create_ir2_opnd IR2_OPND_LABEL 0 in
  let r (n : Z) := mkOpnd2 IR2_OPND_GPR n in
  [(LISA_X86_INST, [mkOpnd2 IR2_OPND_IMM 0x1000]); (lisa "beq", [r 4; r 5; l0]); (lisa "or", [r 4; r 5; r 0]);
   (LISA_LABEL, [l0]); (lisa "or", [r 5; r 4; r 0])].
Definition branch_td : TRANSLATION_DATA :=
  Eval vm_compute in default (empty_td []) (append_code demo_blank false branch_code (mkTD [demo_blank] 0 0 None None 1 0)).
Definition branch_list : list (nat * code_inst) := zip (seq 0 5) branch_code.

Lemma branch_shows : shows branch_td branch_list.
Proof.
  destruct (append_code_shows demo_blank false branch_code (mkTD [demo_blank] 0 0 None None 1 0) []) as (t & E & H & _).
  - exact (empty_shows [demo_blank] ltac:(simpl; lia)).
  - vm_compute. discriminate.
  - repeat constructor; simpl; lia.
  - done.
  - assert (E' : append_code demo_blank false branch_code (mkTD [demo_blank] 0 0 None None 1 0) = Some branch_td)
      by (vm_compute; reflexivity).
    rewrite E' in E. injection E as <-. exact H.
Qed.

Lemma label_dispose_reaches_witness :
  let x := mkT 0 0 fresh_cache in
  ∃ n tb t' s ws w pre c post, label_dispose demo_blank false false 64 None branch_td x = Some (n, tb, t', s) ∧
    tr_ir2_assemble t' = Some ws ∧ ws !! 0%nat = Some w ∧ branch_disp w = Some (words pre) ∧
    branch_code = pre ++ c :: post ∧ label_at 0 c.
Proof.
  intros x.
  destruct (place_list false 64 branch_code (start branch_td x)) as [[D s]|] eqn:E1; [|vm_compute in E1; discriminate E1].
  destruct (resolve_list (label s) 0 D) as [D'|] eqn:E2; [
    |vm_compute in E1; injection E1 as <- <-; vm_compute in E2; discriminate E2].
  destruct (assemble_list D') as [ws|] eqn:E3;
    [|vm_compute in E1; injection E1 as <- <-; vm_compute in E2; injection E2 as <-; vm_compute in E3; discriminate E3].
  assert (ED : D = branch_code) by (vm_compute in E1; injection E1 as <- <-; reflexivity). 
  destruct (label_dispose_reaches demo_blank false false 64 None None branch_td x branch_list D s D' ws
    (take 1 branch_code) (lisa "beq", [mkOpnd2 IR2_OPND_GPR 4; mkOpnd2 IR2_OPND_GPR 5; create_ir2_opnd IR2_OPND_LABEL 0])
    (drop 2 branch_code) 2%nat (create_ir2_opnd IR2_OPND_LABEL 0) branch_shows E1 eq_refl E2)
    as (t' & w & pre2 & c2 & post2 & L & A & P & Q & W & B).
  - rewrite ED. vm_compute. discriminate.
  - exact E3.
  - exact ED.
  - vm_compute. reflexivity.
  - reflexivity.
  - reflexivity.
  - exists (Z.of_nat (length ws)), None, t', s, ws, w, pre2, c2, post2. split; [exact L|]. split; [exact A|].
    split; [exact W|]. split; [rewrite B; f_equal; apply Z.sub_0_r|]. split; [rewrite <- ED; exact P|exact Q].
Defined.

Lemma far_jump_reaches_witness :
  let s := mkRel (mkT 0 0 fresh_cache) 10 [] [0x120002000; 0x120001000] [] [] in
  ∃ i0 i1 s', relocated false 64 LISA_FAR_JUMP [data_opnd 0; data_opnd 1] s = Some (Some [i0; i1], s') ∧
    jump_disp [i0; i1] = Some 0xfd8.
Proof.
  intros s. destruct (far_jump_reaches false 64 LISA_FAR_JUMP s (mkU ∅ ∅) (data_opnd 0) (data_opnd 1)
    0x120002000 0x120001000 0xfd8) as (i0 & i1 & s' & R & J & _).
  - left. reflexivity.
  - apply fresh_repr; apply fresh_cache_ok.
  - reflexivity.
  - reflexivity.
  - reflexivity.
  - reflexivity.
  - reflexivity.
  - reflexivity.
  - reflexivity.
  - lia.
  - exists i0, i1, s'. split; [exact R|exact J].
Defined.

Lemma boundary_set_ends_witness :
  ∃ off', boundary_set branch_td (replicate 8 0) = Some off' ∧ aget off' 0 = Some 12.
Proof.
  destruct (boundary_set_ends branch_td branch_list (replicate 8 0)) as (off' & E & B).
  - exact branch_shows.
  - change (branch_list.*2) with branch_code. unfold branch_code.
    repeat (apply list.Forall_cons; split; [intros H; first [discriminate H|right; vm_compute; reflexivity]|]). constructor.
  - vm_compute. discriminate.
  - exists off'. split; [exact E|]. apply (B branch_code []); [reflexivity|exact I|vm_compute; discriminate].
Defined.
