(* ===== verification/HostWords.v ===== *)
(** * The machine words of a block

    What the processor does with a word of the code cache: the word is decoded, and the
    instruction of that name is executed on the fields that the word holds.  Assembled code
    runs as the IR2 instructions it is made of; the markers of the x86 instructions have no
    word and do nothing. *)

From stdpp Require Import base numbers list option strings tactics.
From Stdlib Require Import ZArith Lia Bool.
From S2P Require Import Prelude Ir1 X86 WordEq LisaTable Ir2 Ir2List Ir2Code LaAssemble LaAppend RegMap.
From S2P Require Import ImmCache RegAlloc LaSem PushPop PushPopOk PushPopSem Relocate RelocateOk.
Local Open Scope Z_scope.
Local Open Scope c_scope.

(** ** Running words *)

Definition field_opnd (v : Z) : IR2_OPND := mkOpnd2 IR2_OPND_IMM v.

Definition exec_word (w : Z) (h : host) : option host :=
  '(opcode, fields) ← decode w; exec_code (opcode, field_opnd <$> fields) h.

Fixpoint run_words (ws : list Z) (h : host) : option host :=
  match ws with [] => Some h | w :: ws => h ← exec_word w h; run_words ws h end.

Lemma run_words_app ws1 ws2 h : run_words (ws1 ++ ws2) h = h ← run_words ws1 h; run_words ws2 h.
Proof. revert h. induction ws1 as [|w ws1 IH]; intros h; [done|]. simpl. destruct (exec_word w h); [apply IH|done]. Qed.

(** ** An instruction depends on the fields of its operands only *)

Lemma ufield_field n w o : 0 <= n <= w → ufield n (field_opnd (_val o mod 2 ^ w)) = ufield n o.
Proof. intros H. apply (eqw_uwrap n w (_val o) H). Qed.

Lemma sfield_field n w o : 0 < n <= w → sfield n (field_opnd (_val o mod 2 ^ w)) = sfield n o.
Proof. intros H. apply swrap_eqw; [lia|]. apply (eqw_uwrap n w (_val o)). lia. Qed.

Definition in_fields (ws : list Z) (os : list IR2_OPND) : list IR2_OPND :=
  field_opnd <$> zip_with (λ w o, _val o mod 2 ^ w) ws os.

Definition widths (name : string) : list Z :=
  match row_of name with Some r => width <$> places r | None => [] end.

Definition by_fields (ws : list Z) (s : sem) : Prop :=
  ∀ os h, length os = length ws → exec_sem s (in_fields ws os) h = exec_sem s os h.

Ltac solve_by_fields :=
  match goal with |- by_fields (widths ?n) _ =>
    let ws := eval vm_compute in (widths n) in
    replace (widths n) with ws by (vm_compute; reflexivity)
  end;
  intros os h Hl; destruct os as [|o0 [|o1 [|o2 [|o3 [|]]]]]; try discriminate Hl;
  cbn [in_fields zip_with fmap list_fmap exec_sem]; unfold reg_of;
  rewrite ?ufield_field, ?sfield_field by lia; reflexivity.

Lemma table_by_fields : Forall (λ x, x.2 = SNop ∨ by_fields (widths x.1) x.2) sem_table.
Proof.
  unfold sem_table. cbv [lbt_table lbt_ops lbt_widths mbind list_bind app String.append].
  repeat (apply list.Forall_cons; split; [first [left; reflexivity | right; cbn [fst snd]; solve_by_fields]|]).
  constructor.
Qed.

Lemma sem_lookup_elem name l s : sem_lookup name l = Some s → (name, s) ∈ l.
Proof.
  induction l as [|[n x] l IH]; [done|]. simpl. destruct (String.eqb_spec n name) as [->|].
  - intros [= ->]. by left.
  - intros H. right. by apply IH.
Qed.

Lemma sem_by_fields name s : sem_of name = Some s → s = SNop ∨ by_fields (widths name) s.
Proof.
  intros H%sem_lookup_elem. pose proof table_by_fields as T. rewrite list.Forall_forall in T. by apply (T (name, s)).
Qed.

(** ** The rows of the executed instructions *)

Definition is_Some_b {A} (o : option A) : bool := match o with Some _ => true | None => false end.

Definition row_fits (k : Z) (r : template) (s : sem) : bool :=
  match s with
  | SNop => k =? LISA_X86_INST
  | _ =>
      has_word k && negb (is_Some_b (label_opnd k)) && negb (k =? LISA_CODE) && (LISA_PSEUDO_END <? k) && real_row r &&
      bool_decide (width <$> places r = widths (t_name r)) && (length (opnd_types r) =? length (shape s))%nat
  end.

Definition row_fits_at (k : Z) : bool :=
  match lisa_format_table k with
  | Some r => match sem_of (t_name r) with Some s => row_fits k r s | None => true end
  | None => true
  end.

Lemma all_rows_fit : forallb (λ n, row_fits_at (LISA_INVALID + Z.of_nat n)) (seq 0 (length lisa_templates)) = true.
Proof. vm_compute. reflexivity. Qed.

Lemma rows_fit k r s : lisa_format_table k = Some r → sem_of (t_name r) = Some s → row_fits k r s = true.
Proof.
  intros R S. pose proof (aget_bound _ _ _ R) as B. pose proof all_rows_fit as C.
  rewrite forallb_forall in C. specialize (C (Z.to_nat (k - LISA_INVALID))).
  rewrite Z2Nat.id, Zplus_minus in C by lia. unfold row_fits_at in C. rewrite R, S in C. apply C, in_seq. lia.
Qed.

(** ** Words of instructions *)

(** The operands are those of the instruction. *)
Definition encodable (c : code_inst) : Prop :=
  ∃ r s, lisa_format_table c.1 = Some r ∧ sem_of (t_name r) = Some s ∧ shape_ok (shape s) c.2 = true.

Lemma shape_opnds_ok sh os : shape_ok sh os = true → forallb opnd_ok os = true.
Proof.
  revert os. induction sh as [|b sh IH]; intros [|o os]; simpl; try done. rewrite !andb_true_iff. intros [H T].
  split; [|by apply IH]. destruct o as [ty v]. unfold reg_ok in H. rewrite ?andb_true_iff in H.
  destruct b, ty; try done; destruct H as [[H _] _]; done.
Qed.

Lemma nop_code c r s h :
  lisa_format_table c.1 = Some r → sem_of (t_name r) = Some s → shape_ok (shape s) c.2 = true → s = SNop →
  has_word c.1 = false ∧ exec_code c h = Some h.
Proof.
  intros R S SH ->. pose proof (rows_fit _ _ _ R S) as F. apply Z.eqb_eq in F. split; [by rewrite F|].
  rewrite (exec_code_sem c r SNop R S). apply shape_length in SH. by destruct c.2 as [|o [|]].
Qed.

(** The word of an instruction does what the instruction does. *)
Lemma word_runs c r s :
  lisa_format_table c.1 = Some r → sem_of (t_name r) = Some s → shape_ok (shape s) c.2 = true → s ≠ SNop →
  has_word c.1 = true ∧ ∃ w, word_of c = Some w ∧ ∀ h, exec_word w h = exec_code c h.
Proof.
  intros R S SH N. pose proof (rows_fit _ _ _ R S) as F. pose proof (sem_by_fields _ _ S) as [?|BF]; [done|].
  assert (F' : has_word c.1 = true ∧ c.1 ≠ LISA_CODE ∧ LISA_PSEUDO_END < c.1 ∧ real_row r = true ∧
    width <$> places r = widths (t_name r) ∧ length (opnd_types r) = length (shape s)).
  { destruct s; try done; cbn [row_fits] in F; rewrite !andb_true_iff, !negb_true_iff, bool_decide_eq_true in F;
      rewrite Z.eqb_neq, Z.ltb_lt, Nat.eqb_eq in F; tauto. }
  clear F. destruct F' as (HW & NC & P & RR & W & L). split; [done|].
  pose proof (shape_length _ _ SH) as LO. set (i := mkIR2 c.1 0 0 0 (Z.of_nat (length c.2)) c.2).
  destruct (ir2_assemble_real i r NC P R RR) as [_ A]. rewrite L, <- LO in A. cbn [i _opnd] in A.
  rewrite Nat.leb_refl, firstn_all, (shape_opnds_ok _ _ SH) in A. eexists. split; [exact A|].
  destruct (assemble_decodes i _ NC A) as [_ D]. intros h. unfold exec_word. rewrite D. cbn [mbind option_bind].
  rewrite (exec_code_sem c r s R S). unfold exec_code. cbn [fst snd]. change (_opcode i) with c.1. rewrite R.
  cbn [mbind option_bind]. unfold exec. cbn [fst snd]. rewrite S. cbn [mbind option_bind]. rewrite <- (BF c.2 h).
  - f_equal. unfold encoded_opnds, in_fields. change (_opcode i) with c.1. rewrite R, <- W. f_equal.
    change (_opnd i) with c.2. clear. generalize (places r). intros l. revert l.
    induction c.2 as [|o os IH]; intros [|p l]; try done. simpl. f_equal. apply IH.
  - rewrite <- W, length_fmap, LO, <- L. unfold places. by rewrite length_map.
Qed.

(** Assembled code runs as the instructions. *)
Lemma assemble_runs l :
  Forall encodable l → ∃ ws, assemble_list l = Some ws ∧ ∀ h, run_words ws h = run_code l h.
Proof.
  induction 1 as [|c l (r & s & R & S & SH) F (ws & E & IH)]; [by exists []|]. cbn [assemble_list].
  assert (s = SNop ∨ s ≠ SNop) as [Es|Es] by (destruct s; by (left; congruence) || (right; congruence)).
  - destruct (nop_code c r s (mkH (λ _, 0) (mkSys (λ _, 0) 0)) R S SH Es) as [-> _]. rewrite E. exists ws.
    split; [done|]. intros h. destruct (nop_code c r s h R S SH Es) as [_ X]. cbn [run_code]. rewrite X. apply IH.
  - destruct (word_runs c r s R S SH Es) as [-> (w & -> & X)]. rewrite E. exists (w :: ws). split; [done|].
    intros h. cbn [run_code run_words]. rewrite X. destruct (exec_code c h); [apply IH|done].
Qed.

(** ** Straight-line code has nothing to relocate *)

Lemma encodable_opcode c :
  encodable c → label_opnd c.1 = None ∧ (c.1 = LISA_X86_INST ∨ LISA_PSEUDO_END < c.1 ∧ has_word c.1 = true).
Proof.
  intros (r & s & R & S & _). pose proof (rows_fit _ _ _ R S) as F.
  destruct s; cbn [row_fits] in F; try (rewrite !andb_true_iff, !negb_true_iff, Z.ltb_lt in F);
    try (destruct (label_opnd c.1); [by destruct F as [[[[[[_ ?] _] _] _] _] _]|]; split; [done|right; tauto]).
  apply Z.eqb_eq in F. rewrite F. by split; [|left].
Qed.

Lemma place_encodable imm ls l : ∀ s,
  Forall encodable l → ∃ s', place_list imm ls l s = Some (l, s') ∧ label s' = label s.
Proof.
  induction l as [|c l IH]; intros s F; [by exists s|]. inversion F as [|? ? Hc F']; subst.
  apply encodable_opcode in Hc as [_ [E|[P H]]]; cbn [place_list]; unfold placed.
  - rewrite E. change (LISA_X86_INST =? LISA_LABEL) with false. change (LISA_PSEUDO_END <? LISA_X86_INST) with false.
    destruct (IH s F') as (s' & E' & L). exists s'.
    change (relocated imm ls LISA_X86_INST c.2 s) with (Some (@None (list code_inst), s)). cbn [mbind option_bind].
    rewrite E'. done.
  - rewrite (proj2 (Z.eqb_neq c.1 LISA_LABEL)), (proj2 (Z.ltb_lt _ c.1)) by (done || by apply has_word_pseudo; right).
    cbn [mbind option_bind]. destruct (IH (count 1 s) F') as (s' & -> & L). by exists s'.
Qed.

Lemma resolve_encodable lab l : ∀ n, Forall encodable l → resolve_list lab n l = Some l.
Proof.
  induction l as [|c l IH]; intros n F; [done|]. inversion F as [|? ? Hc F']; subst. cbn [resolve_list].
  apply encodable_opcode in Hc as [E _]. unfold resolved_inst. rewrite E. cbn [mbind option_bind]. by rewrite IH.
Qed.

(** ** Delaying updates keeps the instructions encodable *)

Lemma encodable_class c : encodable c → ∃ r s, lisa_format_table c.1 = Some r ∧ sem_of (t_name r) = Some s ∧
  shape_ok (shape s) c.2 = true ∧ stops c.1 = false ∧
  (la_ir2_can_patch_imm12 c.1 = true → ∃ d j i, c.2 = [d; j; i] ∧ shape s = [true; true; false]).
Proof.
  intros (r & s & R & S & SH). exists r, s. pose proof (class_of _ _ _ R S) as C. unfold class_ok in C.
  rewrite !andb_true_iff, negb_true_iff in C. destruct C as [[[C0 _] C1] _]. split_and!; try done.
  intros P. rewrite P in C1. apply shape_length in SH. destruct s; try done; destruct c.2 as [|d [|j [|i [|]]]]; try done;
    by exists d, j, i.
Qed.

Lemma encodable_patch c p : encodable c → la_ir2_can_patch_imm12 c.1 = true → encodable (c.1, alter (add_imm p) 2%nat c.2).
Proof.
  intros (r & s & R & S & SH & _ & H)%encodable_class P. destruct (H P) as (d & j & i & E & Es).
  exists r, s. split_and!; try done. cbn [snd]. rewrite E, Es in *. done.
Qed.

Lemma encodable_flush p : Forall encodable (flush p) ∧ markers (flush p) = 0.
Proof.
  unfold flush. case_match; [done|]. split; [|done]. repeat constructor. eexists _, _.
  split; [exact addi_d_row|]. split; [exact addi_d_sem|]. done.
Qed.

Lemma markers_app l1 l2 : markers (l1 ++ l2) = markers l1 + markers l2.
Proof. unfold markers. rewrite list.filter_app, length_app. lia. Qed.

Lemma delay_keeps l : ∀ p D q,
  Forall encodable l → delay false p l = Some (D, q) → Forall encodable D ∧ markers D = markers l.
Proof.
  induction l as [|c l IH]; intros p D q F H; [by injection H as <- <-|]. inversion F as [|? ? Hc F']; subst.
  cbn [delay andb] in H. destruct (action_at c p) as [a|] eqn:A; [|done]. cbn [mbind option_bind] in H.
  pose proof (encodable_class c Hc) as (r & s & _ & _ & _ & ST & _). apply action_chosen in A; [|done].
  pose proof (encodable_flush p) as [FL FM].
  assert (K : ∀ p' (out : list code_inst), Forall encodable out → markers out = markers [c] →
    (delay false p' l ≫= λ '(r, q), Some (out ++ r, q)) = Some (D, q) → Forall encodable D ∧ markers D = markers (c :: l)).
  { intros p' out Fo Mo E. destruct (delay false p' l) as [[D' q']|] eqn:ED; [|done]. injection E as <- <-.
    destruct (IH _ _ _ F' ED) as [FD MD]. split; [by apply Forall_app|].
    change (c :: l) with ([c] ++ l). rewrite !markers_app. lia. }
  assert (K1 : ∀ p', (delay false p' l ≫= λ '(r, q), Some ([c] ++ r, q)) = Some (D, q) →
    Forall encodable D ∧ markers D = markers (c :: l)) by (intros p'; apply K; [by constructor|done]).
  destruct A as [off A EO N| -> | |o2 P E1 E2 O2 E0|dest NC DR]; [|by eapply K1|..].
  - destruct (si12_overflow (p + off)); [by eapply K1|]. destruct (IH _ _ _ F' H) as [FD MD]. split; [done|].
    rewrite markers_cons, MD. unfold is_x86. unfold la_ir2_opcode_is_addi in A.
    rewrite orb_true_iff, !Z.eqb_eq in A. by destruct A as [-> | ->].
  - eapply K; [| |exact H]; [apply Forall_app; split; [done|by constructor]|]. rewrite markers_app. lia.
  - eapply K; [| |exact H]; [repeat constructor; by apply encodable_patch|]. by rewrite !markers_cons.
  - by destruct dest; eapply K1.
Qed.

Lemma delayed_keeps F F' :
  Forall encodable F → delayed F = Some F' → Forall encodable F' ∧ markers F' = markers F.
Proof.
  destruct F as [|c B]; intros H E; [by injection E as <-|]. inversion H as [|? ? Hc HB]; subst. unfold delayed in E.
  destruct (delay false 0 B) as [[D q]|] eqn:ED; [|done]. injection E as <-. destruct (delay_keeps B 0 D q HB ED) as [FD MD].
  destruct (encodable_flush q) as [FL FM]. split; [by constructor; [|apply Forall_app]|].
  rewrite !markers_cons, markers_app. lia.
Qed.
