(* ===== verification/TranslateTb.v ===== *)
(** * From x86 instructions to machine words (translator/translate.c)

    [tr_translate_tb] with all its steps: the start of the translation, the code of the
    instructions, the IR2 array, the delayed updates of the stack pointer, labels and
    relocation, the boundaries of the x86 instructions and the words.  The words of a block
    of supported instructions, executed as the processor does it, take a host state that
    represents an x86 state to one that represents what the x86 instructions give. *)

From stdpp Require Import base numbers list option strings tactics.
From Stdlib Require Import ZArith Lia Bool.
From S2P Require Import Prelude Ir1 Dataflow FlagReduction X86 WordEq LisaTable Ir2 Ir2List Ir2Code LaAssemble LaAppend RegMap.
From S2P Require Import ImmCache ImmCacheSound RegAlloc LaSem MemInterface MemInterfaceOk MemInterfaceMain TrOpnd TrOpndOk TrMov TrBlock TrInstOk.
From S2P Require Import TrBlockOk PushPop PushPopOk PushPopSem Relocate RelocateOk HostWords.
Local Open Scope Z_scope.
Local Open Scope c_scope.

(** ** Code as IR2 instructions *)

Definition code_of (i : linst) : code_inst := (lisa i.1, i.2).

Definition name_known (n : string) : bool :=
  match lisa_format_table (lisa n) with Some r => String.eqb (t_name r) n | None => false end.

Lemma names_known : forallb (λ x, name_known x.1) sem_table = true.
Proof. vm_compute. reflexivity. Qed.

Lemma named_code_of i s : sem_of i.1 = Some s → named (code_of i) = i ∧ ∀ h, exec_code (code_of i) h = exec i h.
Proof.
  intros H. apply sem_lookup_elem in H. pose proof (forallb_elem _ _ _ names_known H) as K. unfold name_known in K.
  unfold named, exec_code, code_of. cbn [fst snd] in *. destruct (lisa_format_table (lisa i.1)) as [r|]; [|done].
  apply String.eqb_eq in K. cbn [mbind option_bind]. rewrite K. by destruct i.
Qed.

Lemma code_of_ok w code :
  code_ok w code = true →
  codes_ok w (code_of <$> code) = true ∧ ∀ h, run_code (code_of <$> code) h = LaSem.run code h.
Proof.
  unfold codes_ok. revert w. induction code as [|i code IH]; intros w H; [done|]. destruct i as [n os] eqn:Ei.
  pose proof H as H'. cbn [code_ok] in H'. destruct (sem_of n) as [s|] eqn:S; [|done].
  rewrite !andb_true_iff in H'. destruct H' as [_ H']. destruct (IH _ H') as [C R].
  destruct (named_code_of i s) as [N E]; [by rewrite Ei|]. rewrite <- Ei in *. rewrite !fmap_cons, N. split.
  - rewrite Ei in H |- *. cbn [code_ok] in H |- *. rewrite S in *. rewrite !andb_true_iff in *. tauto.
  - intros h. cbn [run_code LaSem.run]. rewrite E. destruct (exec i h); [apply R|done].
Qed.

(** ** The translation of a block *)

(** What [tr_translate_tb] reads of the block; [tb_room]: the bytes from [tb->tc.ptr] to the
    end of the code buffer. *)
Record TB := mkTB {
  tb_addr : Z;
  tb_pc : Z;
  tb_insts : list IR1_INST;
  tb_parallel : bool;
  tb_page_anon : bool;
  tb_link : tb_links;
  tb_room : Z
}.

(** What it leaves: whether each instruction was translated, the size in bytes, the words,
    the links, the ends of the x86 instructions and what the relocation stores. *)
Record tb_result := mkResult {
  all_ok : bool;
  code_size : Z;
  code_words : list Z;
  new_link : option tb_links;
  insn_end_off : list Z;
  relocation : reloc
}.

Section tb.
(** [junk]: what a fresh cache holds; [blank], [moved]: as for [generate]. *)
Context (junk : IMM_CACHE) (blank : IR2_INST) (moved : bool) (linesize : Z) (d : driver) (tc : trctx).

(** The inner [None]: the code buffer is full ([-1]).  The C function [tr_ir2_generate]
    always returns 1, so that the steps after it always run; the bridges of CONFIG_LATX_KZT
    are left out. *)
Definition tr_translate_tb (tb : TB) (ends : list Z) (t : translator) : option (option tb_result * translator) :=
  t ← tr_init junk t (Some (tb_addr tb));
  '(ok, s, code) ← tr_ir2_generate d tc (tb_pc tb) (tb_insts tb) (tr_temps t);
  let ir1 := match list.last (tb_insts tb) with Some i => Some i | None => curr_ir1_inst t end in
  c ← append_code blank moved (code_of <$> code) (tr_code t);
  c ← tr_ir2_optimize blank moved (tb_parallel tb) (tb_page_anon tb) c;
  '(code_nr, link, c, r) ←
    label_dispose blank moved (option_imm_reg (mctx tc)) linesize (Some (tb_link tb)) c s;
  if tb_room tb <? code_nr << 2 then
    Some (None, mkTr None ir1 c (r_temps r) (curr_top t) (has_cache t))
  else
    ends ← boundary_set c ends;
    ws ← tr_ir2_assemble c;
    lsassert code_nr =? Z.of_nat (length ws) ;;
    Some (Some (mkResult ok (code_nr * 4) ws link ends r),
          tr_fini (mkTr (curr_tb t) ir1 c (r_temps r) (curr_top t) (has_cache t))).

(** The code the instructions give. *)
Definition emitted (tb : TB) (t : translator) : option (list linst) :=
  t ← tr_init junk t (Some (tb_addr tb));
  '(_, _, code) ← tr_ir2_generate d tc (tb_pc tb) (tb_insts tb) (tr_temps t);
  Some code.

(** There is room for it, also when each instruction needs an update of the stack pointer. *)
Definition has_room (tb : TB) (ends : list Z) (code : list linst) : Prop :=
  4 * Z.of_nat (length code) <= 2 ^ 15 ∧ 8 * Z.of_nat (length code) <= tb_room tb ∧
  markers (code_of <$> code) <= Z.of_nat (length ends).

(** No field of the block holds a label. *)
Definition no_labels (tb : tb_links) : Prop := ∀ lab, is_Some (link_offsets lab tb).

(** ** The steps after the code is there *)

Lemma codes_encodable w l : codes_ok w l = true → Forall encodable l.
Proof using Type.
  intros H%codes_ok_each. eapply list.Forall_impl; [exact H|]. intros c (w' & r & s & [R S SH _ _]). by exists r, s.
Qed.

(** From the array: the words run to a state with the same registers, memory and flags. *)
Lemma words_ok tb ends a code s h h1 :
  (0 < length a)%nat → code_ok (-1) code = true → LaSem.run code h = Some h1 → has_room tb ends code →
  no_labels (tb_link tb) →
  ∃ c1 c2 n link c3 r ends' ws h1',
    append_code blank moved (code_of <$> code) (empty_td a) = Some c1 ∧
    tr_ir2_optimize blank moved (tb_parallel tb) (tb_page_anon tb) c1 = Some c2 ∧
    label_dispose blank moved (option_imm_reg (mctx tc)) linesize (Some (tb_link tb)) c2 s = Some (n, link, c3, r) ∧
    n << 2 <= tb_room tb ∧ boundary_set c3 ends = Some ends' ∧ tr_ir2_assemble c3 = Some ws ∧
    n = Z.of_nat (length ws) ∧ run_words ws h = Some h1' ∧ agrees h1 h1'.
Proof using Type.
  intros Ha W HR (R1 & R2 & R3) HN. destruct (code_of_ok _ _ W) as [W' HR']. rewrite <- HR' in HR. clear HR'.
  set (l := code_of <$> code) in *. assert (Ll : length l = length code) by apply length_fmap.
  pose proof (codes_encodable _ _ W') as En.
  destruct (append_optimize blank moved (tb_parallel tb) (tb_page_anon tb) a l (-1) Ha)
    as (c1 & c2 & L' & F & T & F' & E1 & E2 & H2 & N2 & EL & EF & EL'); [lia|done|].
  rewrite EL in En, W', HR. apply Forall_app in En as [EnF EnT].
  destruct (delayed_keeps F F' EnF EF) as [EnF' M']. destruct (delayed_runs _ F T F' h h1 W' EF HR) as (h1' & HR' & AG).
  assert (EnL : Forall encodable (L'.*2)) by (rewrite EL'; by apply Forall_app).
  destruct (place_encodable (option_imm_reg (mctx tc)) linesize (L'.*2) (start c2 s) EnL) as (r & EP & ER).
  destruct (HN (label r)) as [link HL].
  assert (LN : (length (L'.*2) <= 2 * length code)%nat) by (rewrite length_fmap; apply shows_length in H2; lia).
  destruct (label_dispose_ok blank moved (option_imm_reg (mctx tc)) linesize (Some (tb_link tb)) (Some link) c2 s L'
    (L'.*2) r (L'.*2) H2 EP) as (c3 & L3 & E3 & H3 & EL3);
    [by rewrite HL|by apply resolve_encodable|lia|].
  destruct (assemble_runs (L'.*2) EnL) as (ws & EW & RW). pose proof (assemble_count _ _ EW) as CW.
  pose proof (words_le (L'.*2)) as WL.
  destruct (boundary_ok L3 c3 [] (-1) 0 ends (S (ir2_inst_num_current c3))) as (ends' & EB & _); try done.
  { rewrite EL3. eapply list.Forall_impl; [exact EnL|]. intros c Hc HW. apply encodable_opcode in Hc as [_ [E|[P _]]]; [|by right].
    by rewrite E in HW. }
  { pose proof (shows_length _ _ H3). lia. }
  { rewrite EL3, EL', markers_app, M', <- markers_app, <- EL. lia. }
  destruct (shows_ends _ _ H3) as [EH _].
  exists c1, c2, (words (L'.*2)), (Some link), c3, r, ends', ws, h1'. split_and!; try done.
  - rewrite Z.shiftl_mul_pow2 by lia. lia.
  - unfold boundary_set. by rewrite EH.
  - unfold tr_ir2_assemble. rewrite EH. apply (assemble_ok L3 c3 []); [done|by rewrite EL3|]. pose proof (shows_length _ _ H3). lia.
  - rewrite RW, EL'. done.
Qed.

Lemma agrees_sim env h h' x : agrees h h' → sim env h x → sim env h' x ∧ hflags h' = hflags h.
Proof using Type.
  intros (A & B & C) [R M E]. rewrite Z.add_0_r, rget_u64 in B.
  assert (G : ∀ r, rget h r = rget h' r) by (intros r; destruct (decide (r = rsp)) as [->|]; auto).
  split; [split|unfold hflags; by rewrite C].
  - intros n Hn. rewrite R by done. unfold gpr_val. by destruct (aget reg_gpr_map n).
  - intros a. rewrite M. unfold hmem. by rewrite C.
  - by rewrite <- G.
Qed.

(** The translation starts with an empty array and no temporaries in use. *)
Lemma tr_init_fresh (P : Prop) t tb :
  curr_tb t = None → (P → has_cache t = true → (4 <= length (bucket (imm_cache (tr_temps t))))%nat) →
  ∃ t1 a, tr_init junk t (Some tb) = Some t1 ∧ tr_code t1 = empty_td a ∧ (0 < length a)%nat ∧
    itemp_status (tr_temps t1) = 0 ∧ ftemp_status (tr_temps t1) = 0 ∧
    (P → (4 <= length (bucket (imm_cache (tr_temps t1))))%nat).
Proof using Type.
  intros Ht HP. unfold tr_init. rewrite bool_decide_true by done.
  set (a := match ir2_inst_array (tr_code t) with [] => _ | _ => _ end). eexists _, a. split; [done|]. split; [done|].
  split; [subst a; destruct (ir2_inst_array _); [vm_compute|simpl]; lia|]. cbn [tr_temps].
  destruct (has_cache t); split_and!; try done; [by intros H; apply HP|]. intros _. vm_compute. lia.
Qed.

(** C1 The machine words of a block are correct.  Take a block of supported instructions
    [l] that the flag reduction has annotated for the flags [p] that are live at its end,
    and let [tr_translate_tb] translate it, in a translator that no other block uses, with
    room for the code.  It returns the size of the words it writes, each instruction is
    translated, and the translator is free again.  From a host state that represents the
    x86 state [x] and agrees with it on the flags the reduction found live, the processor
    executes the words to a state that represents one the x86 instructions reach from [x],
    with the right live flags.  The supported instructions are straight-line ones: the jump
    that ends a block is not among them, and no field of the block holds a label. *)
Theorem tr_translate_tb_correct `{!Qsort (qsort (mctx tc))} env p l q tb ends t h x :
  setup tc → option_softfpu d = 0 →
  (option_imm_reg (mctx tc) = true →
     option_imm_precache (mctx tc) = false ∧
     (has_cache t = true → (4 <= length (bucket (imm_cache (tr_temps t))))%nat)) →
  curr_tb t = None → no_labels (tb_link tb) →
  (∀ code, emitted tb t = Some code → has_room tb ends code) →
  Forall (plain_inst d tc) l → rdtn_insts true l p = Some (tb_insts tb, q) →
  sim env h x → agree_on q (hflags h) (xflags x) →
  ∃ r t' h' x', tr_translate_tb tb ends t = Some (Some r, t') ∧ all_ok r = true ∧
    code_size r = 4 * Z.of_nat (length (code_words r)) ∧ curr_tb t' = None ∧
    run_words (code_words r) h = Some h' ∧
    x86_run (seg_in (seg_base_off (mctx tc)) env) l x x' ∧ sim env h' x' ∧ agree_on p (hflags h') (xflags x').
Proof using Type.
  intros Su Fp Hi Ht HN HR Hl Hr S A.
  destruct (tr_init_fresh (option_imm_reg (mctx tc) = true) t (tb_addr tb) Ht (λ H, proj2 (Hi H)))
    as (t1 & a & E1 & Ec & Ha & I1 & I2 & Hc).
  destruct (init_cache_ok tc (tb_pc tb) (tb_insts tb) env (tr_temps t1) h x (λ H, conj (proj1 (Hi H)) (Hc H)) I1 I2 S)
    as (s1 & D1 & St).
  destruct (tr_ir1s_ok d tc Su Fp env p l Hl (tb_insts tb) q 0 0 false s1 h x Hr St A) as (s' & h1 & x' & D2 & R & S1 & A1).
  assert (D : does (tr_ir2_generate d tc (tb_pc tb) (tb_insts tb)) (tr_temps t1) h true s' h1) by (by eapply does_bind).
  destruct D as (code & EG & W & RC).
  assert (RM : has_room tb ends code).
  { apply HR. unfold emitted. rewrite E1. cbn [mbind option_bind]. by rewrite EG. }
  destruct (words_ok tb ends a code s' h h1 Ha W RC RM HN)
    as (c1 & c2 & n & link & c3 & r & ends' & ws & h' & P1 & P2 & P3 & P4 & P5 & P6 & -> & P7 & AG).
  destruct (agrees_sim env h1 h' x' AG S1) as [S' F']. eexists _, _, h', x'. split.
  { unfold tr_translate_tb. rewrite E1. cbn [mbind option_bind]. rewrite EG, Ec. cbn [mbind option_bind].
    rewrite P1. cbn [mbind option_bind]. rewrite P2. cbn [mbind option_bind]. rewrite P3. cbn [mbind option_bind].
    rewrite (proj2 (Z.ltb_ge _ _) P4), P5. cbn [mbind option_bind]. rewrite P6. cbn [mbind option_bind].
    rewrite Z.eqb_refl. reflexivity. }
  cbn [all_ok code_size code_words]. split_and!; try done; [lia|by rewrite F'].
Qed.


(** C28 The translator is always ready for the next block: however a translation ends,
    with the code written or because the code buffer is full (where it returns without
    [tr_fini]), the next one can start, with an empty instruction list and all temporaries
    free. *)
Theorem tr_translate_tb_restarts tb ends t o t' next :
  tr_translate_tb tb ends t = Some (o, t') →
  ∃ t1 a, tr_init junk t' (Some next) = Some t1 ∧ tr_code t1 = empty_td a ∧ (0 < length a)%nat ∧
    itemp_status (tr_temps t1) = 0 ∧ ftemp_status (tr_temps t1) = 0.
Proof using Type.
  intros H. assert (N : curr_tb t' = None).
  { unfold tr_translate_tb in H. destruct (tr_init _ _ _) as [t1|]; [|done]. cbn [mbind option_bind] in H.
    destruct (tr_ir2_generate _ _ _ _ _) as [[[ok s] code]|]; [|done]. cbn [mbind option_bind] in H.
    destruct (append_code _ _ _ _) as [c1|]; [|done]. cbn [mbind option_bind] in H.
    destruct (tr_ir2_optimize _ _ _ _ _) as [c2|]; [|done]. cbn [mbind option_bind] in H.
    destruct (label_dispose _ _ _ _ _ _ _) as [[[[n link] c3] r]|]; [|done]. cbn [mbind option_bind] in H.
    destruct (tb_room tb <? n << 2); [by injection H as <- <-|].
    destruct (boundary_set _ _); [|done]. destruct (tr_ir2_assemble _); [|done]. cbn [mbind option_bind] in H.
    case_match; [|done]. by injection H as <- <-. }
  destruct (tr_init_fresh False t' next N) as (t1 & a & E & Ec & Ha & I1 & I2 & _); [done|]. by exists t1, a.
Qed.
End tb.

(** ** An example *)

Definition demo_links : tb_links :=
  let invalid := TB_JMP_RESET_OFFSET_INVALID in
  mkLinks false false false [false; false] 0 [invalid; invalid] [0; 0] 0 [invalid; invalid] [0; 0] [invalid; invalid] invalid.
Definition demo_block (l : list IR1_INST) : TB := mkTB 1 0x400000 l false false demo_links 4096.
Definition demo_translator : translator := mkTr None None (mkTD [] 0 0 None None 0 0) (mkT 7 3 fresh_cache) 0 false.

Definition room_ok (tb : TB) (ends : list Z) (code : option (list linst)) : bool :=
  match code with
  | Some code =>
      (4 * Z.of_nat (length code) <=? 2 ^ 15) && (8 * Z.of_nat (length code) <=? tb_room tb) &&
      (markers (code_of <$> code) <=? Z.of_nat (length ends))
  | None => true
  end.

Lemma has_room_check tb ends o : room_ok tb ends o = true → ∀ code, o = Some code → has_room tb ends code.
Proof. intros H code ->. unfold room_ok in H. rewrite !andb_true_iff, !Z.leb_le in H. unfold has_room. tauto. Qed.

Lemma demo_no_labels : no_labels demo_links.
Proof. intros lab. by eexists. Qed.

Lemma tr_translate_tb_correct_witness :
  ∃ l' q r t' h' x', rdtn_insts true demo_code 0 = Some (l', q) ∧
    tr_translate_tb fresh_cache zero_inst false 64 demo_driver demo_tc (demo_block l') (replicate 512 0) demo_translator =
      Some (Some r, t') ∧
    run_words (code_words r) demo_host = Some h' ∧
    x86_run (seg_in (seg_base_off (demo_ctx 8)) (rget demo_host la_s8)) demo_code (x86_of demo_host) x' ∧
    sim (rget demo_host la_s8) h' x'.
Proof.
  destruct (rdtn_insts true demo_code 0) as [[l' q]|] eqn:E; [|discriminate E].
  destruct (tr_translate_tb_correct fresh_cache zero_inst false 64 demo_driver demo_tc (rget demo_host la_s8) 0 demo_code q
    (demo_block l') (replicate 512 0) demo_translator demo_host (x86_of demo_host)) as (r & t' & h' & x' & T & _ & _ & _ & R & X & S & _).
  - exact demo_setup.
  - reflexivity.
  - intros _. split; [reflexivity|discriminate].
  - reflexivity.
  - exact demo_no_labels.
  - apply has_room_check. vm_compute in E. injection E as <- <-. vm_compute. reflexivity.
  - exact demo_code_plain.
  - exact E.
  - apply x86_of_sim.
  - intros b _ _. reflexivity.
  - exists l', q, r, t', h', x'. split; [reflexivity|]. split; [exact T|]. split; [exact R|]. split; [exact X|exact S].
Defined.


(** Here the buffer is full. *)
Lemma tr_translate_tb_restarts_witness :
  let tb := mkTB 1 0x400000 demo_code false false demo_links 8 in
  ∃ t' t1 a, tr_translate_tb fresh_cache zero_inst false 64 demo_driver demo_tc tb (replicate 512 0) demo_translator =
      Some (None, t') ∧ tr_init fresh_cache t' (Some 2) = Some t1 ∧ tr_code t1 = empty_td a.
Proof.
  intros tb. set (o := tr_translate_tb _ _ _ _ _ _ tb _ _).
  assert (N : (λ x, is_Some_b (fst x)) <$> o = Some false) by (vm_compute; reflexivity).
  destruct o as [[r t']|] eqn:E; [|discriminate N]. destruct r; [discriminate N|].
  destruct (tr_translate_tb_restarts fresh_cache zero_inst false 64 demo_driver demo_tc tb (replicate 512 0) demo_translator
    None t' 2 E) as (t1 & a & T & C & _).
  exists t', t1, a. split; [reflexivity|]. split; [exact T|exact C].
Defined.
